(* ===== verification/_CoqProject ===== *)
-Q . S2P
Prelude.v
Wire.v
Ipmi.v
Ipmb.v
ReqList.v
Intf.v
Helper.v
Session.v
Bmc.v
Channel.v
Fru.v
FruField.v
FruXfer.v
FruProps.v
FruEdit.v
FruEditProps.v
Sdr.v
SdrCache.v
SdrAdd.v
SdrXfer.v
SdrProps.v
SdrSpec.v
SdrAddProps.v
Md5.v
Crypt.v
LanplusMsg.v
Lanplus.v
Lan.v
LanSession.v
LanplusSession.v
LanplusSafe.v
LanSafe.v
LanplusState.v
LanplusRun.v
LanProps.v
LanplusSol.v
SerialBasic.v
SerialCmd.v
CText.v
SerialTerm.v
SerialProps.v
Hpm.v
HpmImage.v
HpmUpgrade.v
HpmProps.v
Cfgp.v
CfgpProps.v
Lanp6.v
Shell.v
Lanp6Props.v
Lanp6Save.v
Lanp6Exec.v
SolParam.v
SolConsole.v
SolProps.v
SolSession.v
Firewall.v
FirewallProps.v
User.v
UserProps.v
Lanp.v
LanpStore.v
LanpCmd.v
LanpProps.v
SelTables.v
Sel.v
SelProps.v
SelFiles.v
Evd.v
EvdProps.v
