(* ===== verification/Prelude.v ===== *)
(** * ipmitool: verification library

    ipmitool sends IPMI requests to a management controller (BMC) and prints
    what it answers.  The library models, from the C sources under src/, the
    parts that build, send, match, authenticate and interpret those messages,
    and the modules that keep a state of their own over many messages.

    ** Parts of the program and files of the library

    - Prelude: C integers as [Z] with their wrap-around written out, buffers as
      [list Z] with checked writes ([wr]), the result type [res] of code that
      may fault and the state monad [M] over it, [malloc] as a class.
    - Wire (lib/helper.c, helper.h): checksums and byte order.  Ipmb: the
      message format of the bus and its nesting, once per bridge.
      Ipmi, Intf, Session (include/ipmitool/ipmi.h, ipmi_intf.h,
      src/plugins/ipmi_intf.c): the records of requests, responses, sessions
      and interfaces, the size limits and parameter setters.
    - Helper (lib/helper.c): text conversions of the command line.
    - ReqList (the list in src/plugins/lanplus/lanplus.c and lan/lan.c): the
      linked list of outstanding requests, as pointers in a heap ([Ptr]) and as
      an abstract list ([Spec]), with the refinement between them.
    - SerialBasic, SerialCmd, SerialTerm (src/plugins/serial/serial_basic.c,
      serial_terminal.c): the serial transports: the frame parser of basic mode,
      the lines of terminal mode, and the sending of a command with its polling
      and retries, which both files write out and which is here one function
      over the class [SerialMode].
    - Crypt (lanplus_crypt.c, lanplus_crypt_impl.c), LanplusMsg, Lanplus,
      LanplusSession (lanplus.c): the RMCP+ transport, bottom up: codes and
      keys, packets, receive and send with retries and Serial over LAN, and
      the session with the state machine of its set-up.  Channel
      (lib/ipmi_channel.c, lib/hpm2.c, [ipmi_get_oem] of lib/ipmi_sel.c) holds
      the queries that opening a session makes.
    - Md5, Lan, LanSession (src/plugins/lan/md5.c, auth.c, lan.c): the v1.5
      transport, bottom up: the digest and the codes, receive and send with
      bridging, retries and Serial over LAN, and the session.  Its statics are
      those of lanplus.c, so its state is the same record, and it shares the
      request list, the datagram scripts and Channel with it.
    - Bmc: the function pointer [intf->sendrecv] as the command modules see
      it: a class, a device with one operation.
    - Fru, FruEdit (lib/ipmi_fru.c): transfer and editing of the inventory of
      a replaceable unit.
    - Sdr, SdrCache, SdrAdd (lib/ipmi_sdr.c, lib/ipmi_sdradd.c): the sensor
      data repository: reading, the record cache with its look-ups, dumping and
      restoring.
    - Hpm, HpmImage, HpmUpgrade (lib/ipmi_hpmfwupg.c): the HPM.1 firmware
      upgrade: its commands with their retries and waits, the validation of an
      image file, and the stages of the upgrade over the state of the program,
      a controller, a clock and the answers of the user.
    - CText: the text functions of the C library that files of lines are read
      and written with.
    - SelTables, Sel (lib/ipmi_sel.c, include/ipmitool/ipmi_sel.h): the system
      event log: the tables of event descriptions and their search, the
      commands on the log, the files that are written and read back.
    - Firewall (lib/ipmi_firewall.c, ipmi_firewall.h): the firmware firewall:
      the bits of commands and sub-functions, read, collected and changed.
    - SolParam, SolConsole (lib/ipmi_sol.c): the Serial over LAN commands: the
      parameters of a channel, read and set, and the console session with its
      escape sequences, keep-alives and ways to end.
    - User (lib/ipmi_user.c): the commands on user accounts.
    - Lanp (lib/ipmi_lanp.c, with the access of a channel from
      lib/ipmi_channel.c): the parameters of a LAN channel, written under a lock
      and read back until they have changed, and the command "lan".
    - Evd (src/ipmievd.c): the event daemon: the lines it prints for events,
      its watch of the event log and the events of the kernel's driver.
    - Cfgp (lib/ipmi_cfgp.c), Lanp6 (lib/ipmi_lanp6.c), Shell (ipmi_exec_main of
      src/ipmishell.c, ipmi_cmd_run of lib/ipmi_main.c): the engine of
      configuration parameters, its client for IPv6, and the files of commands
      in which a configuration is saved.

    The definitions keep the names of the C functions.  A definition with a
    name of its own is a loop or a block of the function that its comment
    names.  Output to the terminal and logging are left out.

    ** State and effects

    Statics and objects that the code mutates are fields of a state record
    (for lanplus.c [lp]: interface, session, heap of requests, SOL counters);
    a function that uses them is a computation in [M] of that state.  A read
    or a write outside a buffer, a null or freed pointer of the request list
    ([Dangling]), an uninitialised value, a conversion out of range and a failed
    [assert] are values of [fault]; no theorem assumes that they do not happen,
    they are proved absent or stated as results.  Sockets, ports, the clock and
    random numbers are scripts in the state: lists of what the calls will
    deliver, arbitrary in the theorems; of a socket also which sends succeed, at
    first and for ever after ([send_script]).  The union of a response
    ([rs_payload_t] of Session) is its bytes, so that a member that is read after
    another one was written has the bytes that are there.

    ** Interfaces

    OpenSSL, [malloc] and the controller are classes ([OpenSSL],
    [Malloc], [Bmc]).  What a theorem needs from them is a class of laws next
    to its first use ([OpenSSLLaws], [MallocLaws], [FruReadable],
    [FruWritable], [SdrRepo], [SdrWritable], [HpmReceiver], [CfgpSource],
    [FirewallController], [SolConfigured], [SolDelivers], [UserStore],
    [LanController], [SelWatched], [SensorsWatched]); a mode of the serial line is a
    [SerialMode] with its [SerialLaws].  ipmi_lanplus_send_sol, which sends the
    rest of a packet that was accepted in part, is written over [SolLink], the
    exchange of one packet; its instances are the transport of Lanplus and the
    connection under a console, a [SolLine].  The printing of an event by the
    daemon is an [EventLog], what happens to a device during a [sleep] a [Sleep].
    Each has an instance, a concrete device, by which the witnesses apply the
    theorems.  The device laws leave the controller its freedom: short answers,
    refused sizes, cancelled
    reservations, protected ranges.

    ** Theorems

    - Packets: a packet that ipmi_lanplus_build_v2x_msg builds is accepted,
      checked, decrypted and read back with every algorithm; the codes and keys
      are those of the specification (Crypt, LanplusMsg).
    - Transport: every operation, the opening of a session included, ends
      whatever arrives, and those that do not wait for the answer to a request
      follow no null or freed pointer (LanplusSafe); a session that becomes active has proved
      the password in both directions (LanplusState); a command gets the answer
      to itself, and the request list is left as it was (LanplusRun); SOL data
      are acknowledged once (LanplusSol).
    - v1.5 transport: md5.c streams the digest of RFC 1321 (Md5); a request is
      built with its code and its nesting inside its buffer, an answer is
      found behind foreign datagrams, the authentication type is an offered,
      permitted and strongest one (LanProps); every operation ends unless all
      sends fail, when the loop that sends a command does not (LanSafe).
    - Serial: frames survive escaping, chunking and the receive buffer; a
      request is nested and answered (SerialBasic); a command is answered in
      either mode, through silence, echoes and foreign responses (SerialProps).
    - Request list: the pointer code refines the list; the two look-ups differ
      only where stated (ReqList).
    - FRU: reads are exact, writes put each byte in its place or leave it,
      fields decode to what was encoded, an update of a field stores its text and
      changes nothing else (FruProps, FruField, FruEditProps).
    - SDR: a record is read whole; all look-ups through the cache agree with
      the repository; a dump is restored (SdrSpec, SdrAddProps).
    - Firmware: an intact file is installed in full, a bad one is refused
      before any command (HpmProps).
    - Event log: the tables have no entry that the search cannot reach, a
      listing shows the entries of the log, a saved file restores its events
      (SelProps, SelFiles).
    - Configuration: a scan of all parameters collects every value once
      (CfgpProps, against the interface [CfgpSource]); a configuration saved
      from one controller and run as a file of commands on another is restored,
      but for the flow label (Lanp6Props for a line, Lanp6Save for a controller as a source,
      Lanp6Exec for the whole).
    - Firewall: a setting changes the bits that were asked for and no others,
      but for one byte (FirewallProps).
    - Serial over LAN: a setting changes one parameter (SolProps); a console
      delivers what is typed, without its escapes and also when packets are
      acknowledged in parts, and prints what arrives, over a connection whose law
      [SolDelivers] excludes the losses that the code does not survive
      (SolSession).
    - User accounts: every command line is an operation on a table of accounts
      (UserProps).
    - LAN configuration: a parameter is written whatever refusals and delays the
      controller has, and the lock is open afterwards (LanpStore); the words of
      a setting and the value that they mean (LanpCmd); every command line is an
      operation on a table of parameters (LanpProps).
    - Event daemon: which entries the watch of a log prints lines of: those that
      were added, once, but none of a log that is found shorter (EvdProps).
    - Text: hexadecimal text and numerals (Helper).
    - Errors: for behaviour that is a defect of the code a theorem states what
      it does, on the conditions under which it does it.

    ** Fuel

    A loop that is not structural takes fuel, and running out of it is the
    fault [OutOfFuel].  The theorems state returned values or exclude
    [OutOfFuel] for all inputs (LanplusSafe, LanSafe), so a bound that is too small
    would falsify them.  The bounds: the datagrams of the script plus one for
    the receive loops (for lan.c times the 130 bridging layers that a datagram
    can hold), the retry count for sending (for lan.c plus the failing sends at
    the start of the script, which it does not count; when sends fail for ever no
    number is enough, and LanSafe proves that), the length of the data for
    parsers and files of lines, the device's own measure of remaining refusals
    for the FRU and SDR transfers, the entries of the log plus one for its
    listing, the retries, answers and blocks that the theorems name for the
    firmware upgrade, the sets and blocks of a parameter for Cfgp, the
    63 accounts of a controller for the list of users, the retries that the code
    counts for a LAN parameter, the entries of the log
    plus one for the daemon.

    ** Not modelled

    Printing, logging, option parsing and the tables of strings; the sockets,
    ioctls and terminals of the other transports (open, usb, dummy, serial
    set-up); modules whose functions send one request and print its answer
    (chassis, mc, raw, channel, session, sensor, event, PEF and OEM commands); the
    upgrade protocol of one vendor (lib/ipmi_fwum.c).  Of auth.c the branch that is compiled
    without OpenSSL is modelled, in which MD2 has no implementation.  Of the
    event log the decoders of vendor records are a parameter, of the IPv6
    configuration the printed text is left out, of the shell only the files of
    commands are modelled.  The conversion of sensor readings is not modelled.
    Fields of the C structures that no modelled function reads are
    absent from the records. *)

From stdpp Require Export base numbers list option gmap.
From Stdlib Require Export ZArith Lia ZifyBool.

#[export] Set Default Goal Selector "!".
#[export] Set Warnings "-clear-no-such-hyp".

(** ** Notations for the C bit operators *)

Declare Scope ipmi_scope.
Delimit Scope ipmi_scope with ipmi.
Notation "x .& y" := (Z.land x y) (at level 40, left associativity) : ipmi_scope.
Notation "x .| y" := (Z.lor x y) (at level 45, left associativity) : ipmi_scope.
Notation "x .^ y" := (Z.lxor x y) (at level 45, left associativity) : ipmi_scope.
Notation "x .<< y" := (Z.shiftl x y) (at level 38, left associativity) : ipmi_scope.
Notation "x .>> y" := (Z.shiftr x y) (at level 38, left associativity) : ipmi_scope.

Open Scope Z_scope.
Open Scope ipmi_scope.

(** ** Machine-width unsigned integers, as [Z] with the wrap-around explicit *)

Definition u8 (x : Z) : Z := x mod 256.
Definition u16 (x : Z) : Z := x mod 65536.
Definition u32 (x : Z) : Z := x mod 4294967296.

(** The conversion to an [int]. *)
Definition s32 (x : Z) : Z := (x + 2147483648) mod 4294967296 - 2147483648.

Definition is_u8 (x : Z) : Prop := 0 <= x < 256.
Definition is_u16 (x : Z) : Prop := 0 <= x < 65536.
Definition is_u32 (x : Z) : Prop := 0 <= x < 4294967296.

#[export] Instance is_u8_dec x : Decision (is_u8 x).
Proof. unfold is_u8. apply _. Defined.

Abbreviation bytes := (Forall is_u8).

Create HintDb ipmi discriminated.
Create Rewrite HintDb ipmi_u8.
Create Rewrite HintDb zlen.

Lemma u8_range x : is_u8 (u8 x).
Proof. unfold is_u8, u8. apply Z.mod_pos_bound. lia. Qed.

Lemma u16_range x : is_u16 (u16 x).
Proof. unfold is_u16, u16. apply Z.mod_pos_bound. lia. Qed.

Lemma u32_range x : is_u32 (u32 x).
Proof. unfold is_u32, u32. apply Z.mod_pos_bound. lia. Qed.

Lemma u8_small x : is_u8 x -> u8 x = x.
Proof. unfold is_u8, u8. apply Z.mod_small. Qed.

Lemma u16_small x : is_u16 x -> u16 x = x.
Proof. unfold is_u16, u16. apply Z.mod_small. Qed.

Lemma u32_small x : is_u32 x -> u32 x = x.
Proof. unfold is_u32, u32. apply Z.mod_small. Qed.

Lemma s32_small x : -2147483648 <= x < 2147483648 -> s32 x = x.
Proof. intros H. unfold s32. rewrite Z.mod_small; lia. Qed.

Lemma u8_u8 x : u8 (u8 x) = u8 x.
Proof. apply u8_small, u8_range. Qed.

Lemma u8_add_l x y : u8 (u8 x + y) = u8 (x + y).
Proof. unfold u8. apply Zplus_mod_idemp_l. Qed.

Lemma u8_add_r x y : u8 (x + u8 y) = u8 (x + y).
Proof. unfold u8. apply Zplus_mod_idemp_r. Qed.

#[export] Hint Resolve u8_range u16_range u32_range : ipmi.
#[export] Hint Rewrite u8_u8 u8_add_l u8_add_r : ipmi_u8.

(** Masking with [2^n - 1] is a remainder, shifting is a division. *)

Lemma land_ff x : x .& 255 = u8 x.
Proof. unfold u8. change 255 with (Z.ones 8). by rewrite Z.land_ones. Qed.

Lemma land_mask_range x m : 0 <= m -> 0 <= x .& m <= m.
Proof.
  intros Hm. split; [apply Z.land_nonneg; by right |].
  destruct (Z.land x m) as [|p|p] eqn:E; [lia | | lia].
  rewrite <- E. apply Z.ldiff_le; [done |].
  apply Z.bits_inj'. intros n Hn.
  rewrite Z.ldiff_spec, Z.land_spec, Z.bits_0.
  by destruct (Z.testbit x n), (Z.testbit m n).
Qed.

(** A boolean property of all bytes, by computation. *)
Definition all_u8 (f : Z -> bool) : bool := forallb f (seqZ 0 256).

Lemma all_u8_spec f b : all_u8 f = true -> is_u8 b -> f b = true.
Proof.
  unfold all_u8. rewrite forallb_forall. intros H Hb. apply H, list_elem_of_In, elem_of_seqZ.
  unfold is_u8 in Hb. lia.
Qed.

(** ** Boolean tests of the code *)

Ltac bool_hyps :=
  repeat match goal with
  | H : _ && _ = true |- _ => apply andb_true_iff in H; destruct H
  | H : _ || _ = false |- _ => apply orb_false_iff in H; destruct H
  | H : negb _ = true |- _ => apply negb_true_iff in H
  | H : negb _ = false |- _ => apply negb_false_iff in H
  | H : (_ =? _) = true |- _ => apply Z.eqb_eq in H
  | H : (_ =? _) = false |- _ => apply Z.eqb_neq in H
  | H : (_ <? _) = true |- _ => apply Z.ltb_lt in H
  | H : (_ <? _) = false |- _ => apply Z.ltb_ge in H
  | H : (_ <=? _) = true |- _ => apply Z.leb_le in H
  | H : (_ <=? _) = false |- _ => apply Z.leb_gt in H
  | H : (_ >=? _) = _ |- _ => rewrite Z.geb_leb in H
  | H : (_ >? _) = _ |- _ => rewrite Z.gtb_ltb in H
  end.

(** Decide the boolean comparison that blocks the goal. *)
Ltac case_test :=
  match goal with
  | |- context [if ?b then _ else _] =>
      let E := fresh "Ht" in destruct b eqn:E; bool_hyps
  end.

(** ** Buffers

    A C buffer is the list of the bytes it holds; its length is the size of the
    allocation.  [rd] reads a byte, [slice] a range; [wr] is the only writer and
    refuses a range that is not inside the allocation. *)

Definition zlen {A} (l : list A) : Z := Z.of_nat (length l).

Definition rd (buf : list Z) (i : Z) : Z := default 0 (buf !! Z.to_nat i).

Definition slice (buf : list Z) (off len : Z) : list Z :=
  take (Z.to_nat len) (drop (Z.to_nat off) buf).

Definition zeros (n : Z) : list Z := replicate (Z.to_nat n) 0.

Definition wr (buf : list Z) (off : Z) (bs : list Z) : option (list Z) :=
  if (0 <=? off) && (off + zlen bs <=? zlen buf)
  then Some (take (Z.to_nat off) buf ++ bs ++ drop (Z.to_nat off + length bs) buf)
  else None.

Lemma zlen_app {A} (l1 l2 : list A) : zlen (l1 ++ l2) = zlen l1 + zlen l2.
Proof. unfold zlen. rewrite length_app. lia. Qed.

Lemma zlen_cons {A} (x : A) l : zlen (x :: l) = 1 + zlen l.
Proof. unfold zlen. simpl. lia. Qed.

Lemma zlen_nil {A} : zlen (@nil A) = 0.
Proof. done. Qed.

Lemma zlen_nonneg {A} (l : list A) : 0 <= zlen l.
Proof. unfold zlen. lia. Qed.

Lemma zlen_replicate {A} n (x : A) : zlen (replicate n x) = Z.of_nat n.
Proof. unfold zlen. by rewrite length_replicate. Qed.

Lemma zlen_zeros n : 0 <= n -> zlen (zeros n) = n.
Proof. intros. unfold zeros. rewrite zlen_replicate. lia. Qed.

Lemma zlen_take {A} n (l : list A) : zlen (take n l) = Z.min (Z.of_nat n) (zlen l).
Proof. unfold zlen. rewrite length_take. lia. Qed.

Lemma zlen_drop {A} n (l : list A) : zlen (drop n l) = Z.max 0 (zlen l - Z.of_nat n).
Proof. unfold zlen. rewrite length_drop. lia. Qed.

#[export] Hint Rewrite @zlen_app @zlen_cons @zlen_nil @zlen_replicate
  @zlen_take @zlen_drop : zlen.

Ltac zlen_lia :=
  autorewrite with zlen in *;
  repeat match goal with
  | |- context [zlen ?l] =>
      lazymatch goal with
      | _ : 0 <= zlen l |- _ => fail
      | _ => pose proof (zlen_nonneg l)
      end
  | _ : context [zlen ?l] |- _ =>
      lazymatch goal with
      | _ : 0 <= zlen l |- _ => fail
      | _ => pose proof (zlen_nonneg l)
      end
  end; lia.

(** The writer on a buffer known as prefix, overwritten part and rest. *)
Lemma wr_at (a b c bs : list Z) off :
  off = zlen a -> zlen bs = zlen b ->
  wr (a ++ b ++ c) off bs = Some (a ++ bs ++ c).
Proof.
  intros -> Hl. unfold wr.
  rewrite (proj2 (Z.leb_le 0 (zlen a))) by apply zlen_nonneg. simpl.
  rewrite (proj2 (Z.leb_le _ _)) by zlen_lia.
  unfold zlen in *. rewrite Nat2Z.id.
  rewrite take_app_length.
  assert (length bs = length b) as -> by lia.
  by rewrite <- drop_drop, drop_app_length, drop_app_length.
Qed.

Lemma wr_Some buf off bs buf' :
  wr buf off bs = Some buf' ->
  0 <= off /\ off + zlen bs <= zlen buf /\ zlen buf' = zlen buf /\
  buf' = take (Z.to_nat off) buf ++ bs ++ drop (Z.to_nat off + length bs) buf.
Proof.
  unfold wr. destruct ((0 <=? off) && (off + zlen bs <=? zlen buf)) eqn:E; [|done].
  bool_hyps. intros [= <-]. split_and!; [done | done | | done].
  unfold zlen in *. rewrite !length_app, length_take, length_drop. lia.
Qed.

Lemma wr_in_bounds buf off bs :
  0 <= off -> off + zlen bs <= zlen buf -> is_Some (wr buf off bs).
Proof.
  intros H1 H2. unfold wr.
  rewrite (proj2 (Z.leb_le _ _) H1), (proj2 (Z.leb_le _ _) H2). by eexists.
Qed.

(** A buffer seen around the range a write replaces. *)
Lemma wr_split buf off bs :
  0 <= off -> off + zlen bs <= zlen buf ->
  exists a b c, buf = a ++ b ++ c /\ zlen a = off /\ zlen b = zlen bs /\
    wr buf off bs = Some (a ++ bs ++ c).
Proof.
  intros H1 H2. exists (take (Z.to_nat off) buf), (slice buf off (zlen bs)),
    (drop (Z.to_nat (zlen bs)) (drop (Z.to_nat off) buf)).
  assert (buf = take (Z.to_nat off) buf ++ slice buf off (zlen bs) ++
    drop (Z.to_nat (zlen bs)) (drop (Z.to_nat off) buf)) as E.
  { unfold slice. by rewrite take_drop, take_drop. }
  pose proof (zlen_nonneg bs).
  assert (zlen (take (Z.to_nat off) buf) = off) as Ha by (rewrite zlen_take; lia).
  assert (zlen (slice buf off (zlen bs)) = zlen bs) as Hb.
  { unfold slice. rewrite zlen_take, zlen_drop. lia. }
  split_and!; try done. rewrite E at 1. by apply wr_at.
Qed.

Lemma Some_bind {A B} (x : A) (f : A -> option B) : Some x ≫= f = f x.
Proof. done. Qed.

(** Successive writes that fill a buffer from the left. *)
Lemma wr_next pre rest off bs :
  zlen pre = off -> zlen bs <= zlen rest ->
  wr (pre ++ rest) off bs = Some ((pre ++ bs) ++ drop (Z.to_nat (zlen bs)) rest).
Proof.
  intros <- H. rewrite <- (take_drop (Z.to_nat (zlen bs)) rest) at 1.
  rewrite wr_at; [by rewrite <- app_assoc | done |].
  rewrite zlen_take. pose proof (zlen_nonneg bs). lia.
Qed.

Lemma zlen_slice buf off len :
  0 <= off -> 0 <= len -> off + len <= zlen buf -> zlen (slice buf off len) = len.
Proof. intros. unfold slice. rewrite zlen_take, zlen_drop. lia. Qed.

Lemma slice_ge l off len : zlen l <= off + len -> 0 <= off ->
  slice l off len = drop (Z.to_nat off) l.
Proof. intros H1 H2. unfold slice. apply take_ge. rewrite length_drop. unfold zlen in H1. lia. Qed.

Lemma zlen_0_nil {A} (l : list A) : zlen l <= 0 -> l = [].
Proof. intros H. destruct l; [done |]. unfold zlen in H. cbn in H. lia. Qed.

Lemma slice_all buf len : zlen buf <= len -> slice buf 0 len = buf.
Proof. intros H. unfold slice. rewrite drop_0. apply take_ge. unfold zlen in H. lia. Qed.

Lemma slice_app_mid (a b c : list Z) off len :
  off = zlen a -> len = zlen b -> slice (a ++ b ++ c) off len = b.
Proof.
  intros -> ->. unfold slice, zlen. rewrite !Nat2Z.id.
  by rewrite drop_app_length, take_app_length.
Qed.

(** Ranges of the parts of an append, adjacent ranges, ranges of ranges. *)
Lemma slice_app_l (a b : list Z) off n : 0 <= off -> 0 <= n -> off + n <= zlen a ->
  slice (a ++ b) off n = slice a off n.
Proof.
  intros. unfold slice, zlen in *. rewrite drop_app_le by lia.
  rewrite take_app_le; [done |]. rewrite length_drop. lia.
Qed.

Lemma slice_app_r (a b : list Z) off n : zlen a <= off -> slice (a ++ b) off n = slice b (off - zlen a) n.
Proof.
  intros. unfold slice, zlen in *. rewrite drop_app_ge by lia.
  do 2 f_equal. lia.
Qed.

Lemma slice_cat buf off n m : 0 <= off -> 0 <= n -> 0 <= m ->
  slice buf off n ++ slice buf (off + n) m = slice buf off (n + m).
Proof.
  intros. unfold slice. replace (Z.to_nat (off + n)) with (Z.to_nat off + Z.to_nat n)%nat by lia.
  rewrite <- drop_drop, Z2Nat.inj_add by lia.
  set (l := drop (Z.to_nat off) buf). by rewrite take_take_drop.
Qed.

Lemma slice_slice buf off n a m : 0 <= off -> 0 <= a -> 0 <= m -> a + m <= n ->
  slice (slice buf off n) a m = slice buf (off + a) m.
Proof.
  intros. unfold slice. rewrite skipn_firstn_comm, take_take, drop_drop.
  f_equal; [lia | f_equal; lia].
Qed.

Lemma rd_slice buf off n i : 0 <= off -> 0 <= i < n -> rd (slice buf off n) i = rd buf (off + i).
Proof.
  intros. unfold rd, slice. rewrite lookup_take_lt, lookup_drop by lia. do 2 f_equal. lia.
Qed.

Lemma rd_app_l (a b : list Z) i : 0 <= i < zlen a -> rd (a ++ b) i = rd a i.
Proof. intros. unfold rd, zlen in *. rewrite lookup_app_l by lia. done. Qed.

Lemma rd_app_r (a b : list Z) i : zlen a <= i -> rd (a ++ b) i = rd b (i - zlen a).
Proof. intros. unfold rd, zlen in *. rewrite lookup_app_r by lia. do 2 f_equal. lia. Qed.

(** Two buffers of the same length are equal when they hold the same bytes. *)
Lemma rd_eq (a b : list Z) : zlen a = zlen b -> (forall i, 0 <= i < zlen a -> rd a i = rd b i) -> a = b.
Proof.
  unfold zlen, rd. intros Hl H. apply list_eq. intros i.
  destruct (decide (i < length a)%nat) as [Hi|Hi].
  - specialize (H (Z.of_nat i) ltac:(lia)). rewrite Nat2Z.id in H.
    destruct (lookup_lt_is_Some_2 a i Hi) as [x Ex], (lookup_lt_is_Some_2 b i ltac:(lia)) as [y Ey].
    rewrite Ex, Ey in *. cbn in H. congruence.
  - by rewrite !lookup_ge_None_2 by lia.
Qed.

(** The bytes after a write. *)
Lemma wr_rd buf off bs buf' i : wr buf off bs = Some buf' -> 0 <= i < zlen buf ->
  rd buf' i = if (off <=? i) && (i <? off + zlen bs) then rd bs (i - off) else rd buf i.
Proof.
  intros H Hi. destruct (wr_Some _ _ _ _ H) as (H0 & H1 & Hl & _).
  destruct (wr_split buf off bs H0 H1) as (a & b & c & -> & <- & Hb & E).
  rewrite E in H. injection H as <-. pose proof (zlen_nonneg bs).
  destruct (zlen a <=? i) eqn:E1; destruct (i <? zlen a + zlen bs) eqn:E2; bool_hyps; cbn [andb]; try lia.
  - rewrite rd_app_r, rd_app_l by lia. done.
  - rewrite !rd_app_r by zlen_lia. f_equal. lia.
  - by rewrite !rd_app_l by lia.
Qed.

(** Two writes next to each other are one. *)
Lemma wr_seq buf off a b buf1 buf2 :
  wr buf off a = Some buf1 -> wr buf1 (off + zlen a) b = Some buf2 -> wr buf off (a ++ b) = Some buf2.
Proof.
  intros H1 H2. destruct (wr_Some _ _ _ _ H1) as (O1 & B1 & L1 & _).
  destruct (wr_Some _ _ _ _ H2) as (O2 & B2 & L2 & _).
  destruct (wr_in_bounds buf off (a ++ b) O1 ltac:(zlen_lia)) as [buf' H]. rewrite H. f_equal.
  destruct (wr_Some _ _ _ _ H) as (_ & _ & L & _).
  apply rd_eq; [congruence |]. intros i Hi. rewrite L in Hi.
  rewrite (wr_rd _ _ _ _ i H Hi), (wr_rd _ _ _ _ i H2), (wr_rd _ _ _ _ i H1) by lia.
  rewrite zlen_app. pose proof (zlen_nonneg a). pose proof (zlen_nonneg b).
  destruct (off <=? i) eqn:E1; destruct (off + zlen a <=? i) eqn:E2; bool_hyps; cbn [andb]; try lia.
  - rewrite rd_app_r by lia. rewrite (proj2 (Z.ltb_ge i (off + zlen a))) by lia.
    replace (i - off - zlen a) with (i - (off + zlen a)) by lia.
    replace (off + (zlen a + zlen b)) with (off + zlen a + zlen b) by lia. done.
  - rewrite (proj2 (Z.ltb_lt i (off + zlen a))), (proj2 (Z.ltb_lt i (off + (zlen a + zlen b)))) by lia.
    by rewrite rd_app_l by lia.
Qed.

(** Reading back the range that was written. *)
Lemma wr_slice buf off bs buf' : wr buf off bs = Some buf' -> slice buf' off (zlen bs) = bs.
Proof.
  intros H. destruct (wr_Some _ _ _ _ H) as (H0 & H1 & _ & _).
  destruct (wr_split buf off bs H0 H1) as (a & b & c & -> & <- & Hb & E).
  rewrite E in H. injection H as <-. by apply slice_app_mid.
Qed.

Lemma rd_app_mid (a c : list Z) x off :
  off = zlen a -> rd (a ++ x :: c) off = x.
Proof.
  intros ->. unfold rd, zlen. rewrite Nat2Z.id.
  by rewrite list_lookup_middle.
Qed.

Lemma rd_bytes buf i : bytes buf -> is_u8 (rd buf i).
Proof.
  intros H. unfold rd. destruct (buf !! Z.to_nat i) as [x|] eqn:E; simpl.
  - by eapply Forall_lookup_1 in E.
  - unfold is_u8. lia.
Qed.

Lemma zeros_bytes n : bytes (zeros n).
Proof. apply Forall_replicate. unfold is_u8. lia. Qed.

Lemma slice_bytes buf off len : bytes buf -> bytes (slice buf off len).
Proof. intros. unfold slice. by apply Forall_take, Forall_drop. Qed.

#[export] Hint Resolve rd_bytes zeros_bytes slice_bytes : ipmi.

(** Evaluate the conversions of the literal offsets. *)
Ltac by_nat_consts :=
  repeat match goal with
  | |- context [Z.to_nat (Zpos ?p)] =>
      let n := eval vm_compute in (Z.to_nat (Zpos p)) in change (Z.to_nat (Zpos p)) with n
  end.

(** ** Allocation

    [malloc n] is a block of [n] arbitrary bytes; [None] is NULL. *)

Class Malloc := malloc : Z -> option (list Z).
Class MallocLaws (m : Malloc) := malloc_len : forall n b, 0 <= n -> malloc n = Some b -> zlen b = n.

(** A concrete allocator for the examples. *)
#[export] Instance toy_malloc : Malloc := fun n => Some (replicate (Z.to_nat n) 0xAA).

#[export] Instance toy_malloc_laws : MallocLaws toy_malloc.
Proof. intros n b Hn [= <-]. rewrite zlen_replicate. lia. Defined.

(** ** Faults and the state monad

    [AssertFailed] is a failed [assert], [OutOfBounds] an access outside an
    allocation, [Dangling] one through a pointer of the request list that is
    null or whose entry was freed, [Uninitialised] the use of a local that was
    never assigned, [Undefined] a conversion of a number that is out of range,
    [OutOfFuel] the bound of a loop of the model. *)

Inductive fault := AssertFailed | OutOfBounds | Dangling | Uninitialised | Undefined | OutOfFuel.

Inductive res (A : Type) := Ok (a : A) | Bad (f : fault).
Arguments Ok {A} a.
Arguments Bad {A} f.

#[export] Instance res_ret : MRet res := @Ok.
#[export] Instance res_bind : MBind res := fun A B f m =>
  match m with Ok a => f a | Bad e => Bad e end.

Definition M (S A : Type) : Type := S -> res (A * S).

#[export] Instance M_ret S : MRet (M S) := fun A a s => Ok (a, s).
#[export] Instance M_bind S : MBind (M S) := fun A B f m s =>
  match m s with Ok (a, s') => f a s' | Bad e => Bad e end.

Definition get {S} : M S S := fun s => Ok (s, s).
Definition gets {S A} (f : S -> A) : M S A := fun s => Ok (f s, s).
Definition modify {S} (f : S -> S) : M S unit := fun s => Ok (tt, f s).
Definition fail {S A} (e : fault) : M S A := fun _ => Bad e.
Definition c_assert {S} (b : bool) : M S unit :=
  if b then mret tt else fail AssertFailed.
Definition lift {S A} (r : res A) : M S A := fun s =>
  match r with Ok a => Ok (a, s) | Bad e => Bad e end.
Definition or_oob {A} (o : option A) : res A :=
  match o with Some a => Ok a | None => Bad OutOfBounds end.

(** The use of a variable or a field that may never have been assigned. *)
Definition assigned {S A} (o : option A) : M S A := match o with Some a => mret a | None => fail Uninitialised end.

Lemma res_bind_Ok {A B} (m : res A) (f : A -> res B) b :
  m ≫= f = Ok b -> exists a, m = Ok a /\ f a = Ok b.
Proof. destruct m as [a|e]; [by exists a | done]. Qed.

Lemma M_bind_Ok {S A B} (m : M S A) (f : A -> M S B) s b s'' :
  (m ≫= f) s = Ok (b, s'') ->
  exists a s', m s = Ok (a, s') /\ f a s' = Ok (b, s'').
Proof. unfold mbind, M_bind. destruct (m s) as [[a s']|e]; [eauto | done]. Qed.

Lemma M_bind_run {S A B} (m : M S A) (f : A -> M S B) s a s' :
  m s = Ok (a, s') -> (m ≫= f) s = f a s'.
Proof. unfold mbind, M_bind. by intros ->. Qed.

(** Split a hypothesis that a monadic computation returned. *)
Ltac inv_ok :=
  repeat match goal with
  | H : Ok _ = Ok _ |- _ => injection H as H; subst
  | H : (_, _) = (_, _) |- _ => injection H as H; subst
  | H : Bad _ = Ok _ |- _ => discriminate H
  | H : mret _ _ = Ok _ |- _ => unfold mret, M_ret in H
  | H : mret _ = Ok _ |- _ => unfold mret, res_ret in H
  | H : (_ ≫= _) _ = Ok _ |- _ =>
      apply M_bind_Ok in H;
      let a := fresh "a" in let s := fresh "s" in let H1 := fresh "H" in
      destruct H as (a & s & H1 & H)
  | H : (_ ≫= _) = Ok _ |- _ =>
      apply res_bind_Ok in H;
      let a := fresh "a" in let H1 := fresh "H" in destruct H as (a & H1 & H)
  end.

(** ** Record update

    [x <| f := v |>] is the record [x] with field [f] changed, for the records
    that declare how they are rebuilt from their fields ([Rebuild]). *)

Class Rebuild (R : Type) := rebuild : R -> R.
Class Update {R T : Type} (field : R -> T) := update : (T -> T) -> R -> R.

Ltac solve_update :=
  lazymatch goal with
  | |- @Update ?R ?T ?field =>
      let i := constr:(_ : Rebuild R) in
      let i := eval red in i in
      lazymatch eval pattern field in i with
      | ?mk field => exact (fun (f : T -> T) (r : R) => mk (fun r' => f (field r')) r)
      end
  end.

#[export] Hint Extern 1 (Update _) => solve_update : typeclass_instances.

Notation "x <| f := v |>" := (update (field := f) (fun _ => v) x)
  (at level 1, f at level 200, v at level 200, left associativity) : ipmi_scope.
