(* ===== verification/Wire.v ===== *)
(** * Wire representation (lib/helper.c, include/ipmitool/helper.h)

    The two's complement checksum of IPMI messages, the little-endian
    conversions and the byte reversal that every other component uses. *)

From S2P Require Import Prelude.

(** [ipmi_csum]: the negated sum of the bytes, in 8-bit arithmetic. *)
Definition ipmi_csum_loop (d : list Z) (c : Z) : Z :=
  fold_left (fun c b => u8 (c + b)) d c.

Definition ipmi_csum (d : list Z) : Z := u8 (- ipmi_csum_loop d 0).

(** [ipmi16toh] .. [htoipmi32] *)
Definition ipmi16toh (ipmi : list Z) : Z :=
  (rd ipmi 1 .<< 8) .| rd ipmi 0.

Definition htoipmi16 (h : Z) : list Z := [h .& 255; u8 (h .>> 8)].

Definition ipmi24toh (ipmi : list Z) : Z :=
  (rd ipmi 2 .<< 16) .| (rd ipmi 1 .<< 8) .| rd ipmi 0.

Definition htoipmi24 (h : Z) : list Z :=
  [h .& 255; (h .>> 8) .& 255; (h .>> 16) .& 255].

Definition ipmi32toh (ipmi : list Z) : Z :=
  (rd ipmi 3 .<< 24) .| (rd ipmi 2 .<< 16) .| (rd ipmi 1 .<< 8) .| rd ipmi 0.

Definition htoipmi32 (h : Z) : list Z :=
  [h .& 255; (h .>> 8) .& 255; (h .>> 16) .& 255; (h .>> 24) .& 255].

(** [buf2short], [buf2long] *)
Definition buf2short (buf : list Z) : Z := u16 ((rd buf 1 .<< 8) .| rd buf 0).

Definition buf2long (buf : list Z) : Z :=
  u32 ((rd buf 3 .<< 24) .| (rd buf 2 .<< 16) .| (rd buf 1 .<< 8) .| rd buf 0).

(** [array_byteswap]: in-place exchange of [buffer[i]] and [buffer[max - i]]
    for every [i] below half the length. *)
Fixpoint array_byteswap_loop (n : nat) (i max : nat) (buffer : list Z) : list Z :=
  match n with
  | O => buffer
  | S n =>
      let temp := rd buffer (Z.of_nat i) in
      let buffer := <[i := rd buffer (Z.of_nat (max - i))]> buffer in
      let buffer := <[(max - i)%nat := temp]> buffer in
      array_byteswap_loop n (S i) max buffer
  end.

Definition array_byteswap (buffer : list Z) : list Z :=
  let length := length buffer in
  array_byteswap_loop (length / 2) 0 (length - 1) buffer.

(** [array_ntoh] and [array_letoh] on a little-endian host. *)
Definition array_ntoh (buffer : list Z) : list Z := array_byteswap buffer.
Definition array_letoh (buffer : list Z) : list Z := buffer.

(** ** Checksum *)

Lemma csum_loop_sum d c : ipmi_csum_loop d (u8 c) = u8 (c + foldr Z.add 0 d).
Proof.
  revert c. induction d as [|b d IH]; intros c; simpl.
  - by rewrite Z.add_0_r.
  - rewrite u8_add_l, IH. f_equal. lia.
Qed.

Lemma csum_sum d : ipmi_csum d = u8 (- foldr Z.add 0 d).
Proof.
  unfold ipmi_csum. change 0 with (u8 0) at 1. rewrite csum_loop_sum, Z.add_0_l.
  unfold u8. rewrite <- (Z.sub_0_l (_ mod 256)), <- (Z.sub_0_l (foldr _ _ _)).
  apply Zminus_mod_idemp_r.
Qed.

Lemma csum_range d : is_u8 (ipmi_csum d).
Proof. apply u8_range. Qed.
#[export] Hint Resolve csum_range : ipmi.

Lemma foldr_add_app (l1 l2 : list Z) :
  foldr Z.add 0 (l1 ++ l2) = foldr Z.add 0 l1 + foldr Z.add 0 l2.
Proof. induction l1 as [|x l1 IH]; simpl; [done | rewrite IH; lia]. Qed.

Lemma csum_app l1 l2 : ipmi_csum (l1 ++ l2) = u8 (ipmi_csum l1 + ipmi_csum l2).
Proof.
  rewrite !csum_sum, foldr_add_app, u8_add_l, u8_add_r. f_equal. lia.
Qed.

(** A block followed by its checksum sums to zero: what receivers test. *)
Lemma csum_self d : ipmi_csum (d ++ [ipmi_csum d]) = 0.
Proof.
  rewrite csum_app, (csum_sum [_]). simpl. rewrite Z.add_0_r, u8_add_r.
  replace (_ + _) with 0 by lia. done.
Qed.

(** A block that sums to zero does not change the checksum around it. *)
Lemma csum_zero_app_l l1 l2 : ipmi_csum l1 = 0 -> ipmi_csum (l1 ++ l2) = ipmi_csum l2.
Proof. intros H. rewrite csum_app, H, Z.add_0_l. apply u8_small, csum_range. Qed.

Lemma csum_zero_app_r l1 l2 : ipmi_csum l2 = 0 -> ipmi_csum (l1 ++ l2) = ipmi_csum l1.
Proof. intros H. rewrite csum_app, H, Z.add_0_r. apply u8_small, csum_range. Qed.

Lemma csum_comm l1 l2 : ipmi_csum (l1 ++ l2) = ipmi_csum (l2 ++ l1).
Proof. rewrite !csum_app. f_equal. lia. Qed.

(** A single corrupted byte always changes the checksum. *)
Lemma csum_byte_inj l1 l2 x y :
  is_u8 x -> is_u8 y ->
  ipmi_csum (l1 ++ x :: l2) = ipmi_csum (l1 ++ y :: l2) -> x = y.
Proof.
  unfold is_u8. intros Hx Hy. rewrite !csum_sum, !foldr_add_app. simpl.
  unfold u8. intros H.
  set (s := foldr Z.add 0 l1) in *. set (t := foldr Z.add 0 l2) in *.
  pose proof (Z.div_mod (- (s + (x + t))) 256 ltac:(lia)).
  pose proof (Z.div_mod (- (s + (y + t))) 256 ltac:(lia)).
  rewrite H in *. lia.
Qed.

(** ** Little-endian round trips *)

(** Bitwise or of a shifted value and a value below the shift is a sum. *)
Lemma land_shiftl_low h l n :
  0 <= n -> 0 <= l < 2 ^ n -> (h .<< n) .& l = 0.
Proof.
  intros Hn Hl. apply Z.bits_inj'. intros i Hi.
  rewrite Z.land_spec, Z.bits_0, Z.shiftl_spec by done.
  destruct (Z.lt_ge_cases i n).
  - rewrite Z.testbit_neg_r by lia. done.
  - rewrite <- (Z.mod_small l (2 ^ n)), Z.mod_pow2_bits_high by lia.
    apply andb_false_r.
Qed.

Lemma lor_shiftl_add h l n :
  0 <= n -> 0 <= l < 2 ^ n -> (h .<< n) .| l = h * 2 ^ n + l.
Proof.
  intros Hn Hl. rewrite <- Z.shiftl_mul_pow2, <- Z.lxor_lor, Z.add_nocarry_lxor; auto using land_shiftl_low.
Qed.

Lemma shiftr_byte h n : 0 <= n -> (h .>> n) .& 255 = (h / 2 ^ n) mod 256.
Proof. intros. by rewrite land_ff, Z.shiftr_div_pow2. Qed.

(** [ipmi16toh], [ipmi24toh] and [ipmi32toh] as sums, on bytes. *)
Lemma ipmi16toh_sum b0 b1 l :
  is_u8 b0 -> ipmi16toh (b0 :: b1 :: l) = b1 * 256 + b0.
Proof. intros H. apply lor_shiftl_add; [lia | apply H]. Qed.

Lemma ipmi32toh_sum b0 b1 b2 b3 l :
  is_u8 b0 -> is_u8 b1 -> is_u8 b2 ->
  ipmi32toh (b0 :: b1 :: b2 :: b3 :: l) = b3 * 16777216 + b2 * 65536 + b1 * 256 + b0.
Proof.
  intros H0 H1 H2. unfold is_u8 in *. unfold ipmi32toh, rd. simpl.
  rewrite <- !Z.lor_assoc.
  rewrite (lor_shiftl_add b1 b0 8) by lia.
  rewrite (lor_shiftl_add b2) by lia. rewrite (lor_shiftl_add b3) by lia. lia.
Qed.

Lemma htoipmi16_bytes h : bytes (htoipmi16 h).
Proof. unfold htoipmi16. rewrite land_ff. repeat constructor; apply u8_range. Qed.

Lemma htoipmi32_bytes h : bytes (htoipmi32 h).
Proof. unfold htoipmi32. rewrite !land_ff. repeat constructor; apply u8_range. Qed.
#[export] Hint Resolve htoipmi16_bytes htoipmi32_bytes : ipmi.

(** Writing then reading back an integer of the width is the identity. *)
Lemma ipmi16toh_htoipmi16 h l : is_u16 h -> ipmi16toh (htoipmi16 h ++ l) = h.
Proof.
  unfold is_u16. intros H. simpl. rewrite ipmi16toh_sum by (rewrite land_ff; apply u8_range).
  rewrite land_ff. unfold u8. rewrite Z.shiftr_div_pow2 by lia.
  change (2 ^ 8) with 256. rewrite (Z.mod_small (h / 256)).
  - pose proof (Z.div_mod h 256). lia.
  - split; [apply Z.div_pos; lia | apply Z.div_lt_upper_bound; lia].
Qed.

Lemma ipmi32toh_htoipmi32 h l : is_u32 h -> ipmi32toh (htoipmi32 h ++ l) = h.
Proof.
  unfold is_u32. intros H. simpl.
  rewrite ipmi32toh_sum by (rewrite land_ff; apply u8_range).
  rewrite !shiftr_byte, land_ff by lia. unfold u8.
  change (2 ^ 8) with 256. change (2 ^ 16) with (256 * 256).
  change (2 ^ 24) with (256 * 256 * 256). rewrite <- !Z.div_div by lia.
  Z.to_euclidean_division_equations. lia.
Qed.

Lemma buf2short_ipmi16toh b0 b1 l :
  is_u8 b0 -> is_u8 b1 -> buf2short (b0 :: b1 :: l) = ipmi16toh (b0 :: b1 :: l).
Proof.
  intros H0 H1. change (buf2short _) with (u16 (ipmi16toh (b0 :: b1 :: l))).
  rewrite ipmi16toh_sum by done. apply u16_small. unfold is_u8, is_u16 in *. lia.
Qed.

(** ** [array_byteswap] reverses *)

Lemma length_byteswap_loop n i max buffer :
  length (array_byteswap_loop n i max buffer) = length buffer.
Proof.
  revert i buffer. induction n as [|n IH]; intros i buffer; simpl; [done |].
  by rewrite IH, !length_insert.
Qed.

Lemma length_byteswap buffer : length (array_byteswap buffer) = length buffer.
Proof. apply length_byteswap_loop. Qed.

(** The slots the loop has exchanged when it covers [i .. i + n). *)
Definition swapped (len i n k : nat) : bool :=
  ((i <=? k) && (k <? i + n) || (i <=? len - 1 - k) && (len - 1 - k <? i + n))%nat.

Lemma rd_lookup buf (i : nat) : (i < length buf)%nat -> buf !! i = Some (rd buf (Z.of_nat i)).
Proof.
  intros H. unfold rd. rewrite Nat2Z.id.
  destruct (lookup_lt_is_Some_2 buf i H) as [x ->]. done.
Qed.

Lemma byteswap_loop_lookup n i buffer (k : nat) :
  (i + n <= length buffer / 2)%nat -> (k < length buffer)%nat ->
  array_byteswap_loop n i (length buffer - 1) buffer !! k =
  Some (rd buffer (Z.of_nat
    (if swapped (length buffer) i n k then length buffer - 1 - k else k))).
Proof.
  pose proof (Nat.div_mod_eq (length buffer) 2) as Hhalf.
  pose proof (Nat.mod_upper_bound (length buffer) 2 ltac:(lia)) as Hmod.
  revert i buffer Hhalf Hmod. induction n as [|n IH]; intros i buffer Hhalf Hmod Hn Hk; simpl.
  - rewrite rd_lookup by done. do 3 f_equal.
    unfold swapped. case_match; lia.
  - set (max := (length buffer - 1)%nat).
    set (b1 := <[i := rd buffer (Z.of_nat (max - i))]> buffer).
    set (b2 := <[(max - i)%nat := rd buffer (Z.of_nat i)]> b1).
    assert (Hl : length b2 = length buffer) by (unfold b2, b1; by rewrite !length_insert).
    replace max with (length b2 - 1)%nat by (rewrite Hl; done).
    rewrite IH; rewrite ?Hl; try done; [| lia].
    assert (Hb2 : forall j : nat, (j < length buffer)%nat ->
      rd b2 (Z.of_nat j) = rd buffer (Z.of_nat
        (if decide (j = i \/ j = max - i)%nat then max - j else j))).
    { intros j Hj. unfold rd at 1. rewrite Nat2Z.id. unfold b2, b1.
      rewrite list_lookup_insert, length_insert, list_lookup_insert.
      destruct (decide (max - i = j /\ max - i < length buffer)%nat) as [[? ?]|Hne1].
      - rewrite decide_True by lia. simpl. do 2 f_equal. lia.
      - destruct (decide (i = j /\ i < length buffer)%nat) as [[? ?]|Hne2].
        + rewrite decide_True by lia. simpl. do 2 f_equal. lia.
        + rewrite decide_False by lia. unfold rd. by rewrite Nat2Z.id. }
    unfold swapped. rewrite Hb2 by (repeat case_match; lia). do 3 f_equal.
    unfold max in *.
    repeat case_match; repeat case_decide; lia.
Qed.

(** The in-place exchange loop computes the reversal. *)
Lemma array_byteswap_rev buffer : array_byteswap buffer = list.reverse buffer.
Proof.
  assert (Hhalf : (length buffer / 2 * 2 <= length buffer)%nat).
  { pose proof (Nat.div_mod_eq (length buffer) 2). lia. }
  apply list_eq. intros k. destruct (decide (k < length buffer)%nat) as [Hk|Hk].
  - rewrite reverse_lookup by done.
    unfold array_byteswap. rewrite byteswap_loop_lookup by (simpl; lia).
    rewrite (rd_lookup buffer) by lia. do 3 f_equal.
    pose proof (Nat.div_mod_eq (length buffer) 2).
    pose proof (Nat.mod_upper_bound (length buffer) 2 ltac:(lia)).
    unfold swapped. case_match; lia.
  - rewrite !lookup_ge_None_2; [done | rewrite length_reverse; lia | rewrite length_byteswap; lia].
Qed.

Lemma array_byteswap_involutive buffer :
  array_byteswap (array_byteswap buffer) = buffer.
Proof. by rewrite !array_byteswap_rev, reverse_involutive. Qed.
