(* ===== verification/Ipmi.v ===== *)
(** * Shared data (include/ipmitool/ipmi.h, ipmi_constants.h, ipmi_intf.h)

    Requests, request entries and the constants of the IPMI headers.  A C
    pointer with its length ([data], [data_len]) is the list of the bytes. *)

From S2P Require Import Prelude.

Definition IPMI_BUF_SIZE : Z := 1024.
Definition IPMI_MAX_MD_SIZE : Z := 32.

Definition IPMI_BMC_SLAVE_ADDR : Z := 0x20.
Definition IPMI_REMOTE_SWID : Z := 0x81.

Definition IPMI_NETFN_APP : Z := 0x6.
Definition IPMI_NETFN_STORAGE : Z := 0xa.

Definition IPMI_PAYLOAD_TYPE_IPMI : Z := 0x00.
Definition IPMI_PAYLOAD_TYPE_SOL : Z := 0x01.
Definition IPMI_PAYLOAD_TYPE_RMCP_OPEN_REQUEST : Z := 0x10.
Definition IPMI_PAYLOAD_TYPE_RMCP_OPEN_RESPONSE : Z := 0x11.
Definition IPMI_PAYLOAD_TYPE_RAKP_1 : Z := 0x12.
Definition IPMI_PAYLOAD_TYPE_RAKP_2 : Z := 0x13.
Definition IPMI_PAYLOAD_TYPE_RAKP_3 : Z := 0x14.
Definition IPMI_PAYLOAD_TYPE_RAKP_4 : Z := 0x15.

Definition IPMI_SESSION_AUTHTYPE_NONE : Z := 0x0.
Definition IPMI_SESSION_AUTHTYPE_MD2 : Z := 0x1.
Definition IPMI_SESSION_AUTHTYPE_MD5 : Z := 0x2.
Definition IPMI_SESSION_AUTHTYPE_RMCP_PLUS : Z := 0x6.

Definition IPMI_SESSION_PRIV_USER : Z := 0x2.
Definition IPMI_SESSION_PRIV_ADMIN : Z := 0x4.

Definition IPMI_AUTH_RAKP_NONE : Z := 0x00.
Definition IPMI_AUTH_RAKP_HMAC_SHA1 : Z := 0x01.
Definition IPMI_AUTH_RAKP_HMAC_MD5 : Z := 0x02.
Definition IPMI_AUTH_RAKP_HMAC_SHA256 : Z := 0x03.

Definition IPMI_INTEGRITY_NONE : Z := 0x00.
Definition IPMI_INTEGRITY_HMAC_SHA1_96 : Z := 0x01.
Definition IPMI_INTEGRITY_HMAC_MD5_128 : Z := 0x02.
Definition IPMI_INTEGRITY_MD5_128 : Z := 0x03.
Definition IPMI_INTEGRITY_HMAC_SHA256_128 : Z := 0x04.

Definition IPMI_CRYPT_NONE : Z := 0x00.
Definition IPMI_CRYPT_AES_CBC_128 : Z := 0x01.
Definition IPMI_CRYPT_XRC4_128 : Z := 0x02.
Definition IPMI_CRYPT_XRC4_40 : Z := 0x03.

Definition RMCP_VERSION_1 : Z := 0x06.
Definition RMCP_CLASS_ASF : Z := 0x06.
Definition RMCP_CLASS_IPMI : Z := 0x07.

(** [struct ipmi_rq]; [data] is the [data_len] bytes of the request. *)
Record ipmi_rq := mk_rq {
  rq_netfn : Z;
  rq_lun : Z;
  rq_cmd : Z;
  rq_target_cmd : Z;
  rq_data : list Z;
}.

Definition rq_data_len (r : ipmi_rq) : Z := zlen (rq_data r).

Definition rq_set_cmd (c : Z) (r : ipmi_rq) : ipmi_rq :=
  mk_rq (rq_netfn r) (rq_lun r) c (rq_target_cmd r) (rq_data r).
Definition rq_set_target_cmd (c : Z) (r : ipmi_rq) : ipmi_rq :=
  mk_rq (rq_netfn r) (rq_lun r) (rq_cmd r) c (rq_data r).

(** The field widths of [struct ipmi_rq]. *)
Definition rq_wf (r : ipmi_rq) : Prop :=
  0 <= rq_netfn r < 64 /\ 0 <= rq_lun r < 4 /\ is_u8 (rq_cmd r) /\
  is_u8 (rq_target_cmd r) /\ bytes (rq_data r) /\ is_u16 (rq_data_len r).

(** [struct ipmi_rq_entry] without its [next] pointer; [msg_data] is the
    message built for the entry. *)
Record rq_entry := mk_entry {
  e_req : ipmi_rq;
  e_rq_seq : Z;
  e_msg_data : option (list Z);
  e_bridging_level : Z;
}.

Definition e_set_req (r : ipmi_rq) (e : rq_entry) : rq_entry :=
  mk_entry r (e_rq_seq e) (e_msg_data e) (e_bridging_level e).
Definition e_set_rq_seq (s : Z) (e : rq_entry) : rq_entry :=
  mk_entry (e_req e) s (e_msg_data e) (e_bridging_level e).
Definition e_set_msg_data (d : option (list Z)) (e : rq_entry) : rq_entry :=
  mk_entry (e_req e) (e_rq_seq e) d (e_bridging_level e).
Definition e_set_bridging_level (b : Z) (e : rq_entry) : rq_entry :=
  mk_entry (e_req e) (e_rq_seq e) (e_msg_data e) b.

(** [enum LANPLUS_SESSION_STATE] *)
Inductive session_state_t :=
  | LANPLUS_STATE_PRESESSION
  | LANPLUS_STATE_OPEN_SESSION_SENT
  | LANPLUS_STATE_OPEN_SESSION_RECEIVED
  | LANPLUS_STATE_RAKP_1_SENT
  | LANPLUS_STATE_RAKP_2_RECEIVED
  | LANPLUS_STATE_RAKP_3_SENT
  | LANPLUS_STATE_ACTIVE
  | LANPLUS_STATE_CLOSE_SENT.

#[export] Instance session_state_eq_dec : EqDecision session_state_t.
Proof. solve_decision. Defined.
