(* ===== verification/Ipmb.v ===== *)
(** * IPMB messages and Send Message encapsulation

    [struct ipmb_msg_hdr] and [struct ipmi_send_message_rq] of the serial
    transports, and the message format that every transport builds: header
    with a first checksum, payload, second checksum, nested once per bridging
    level. *)

From S2P Require Import Prelude Wire Ipmi.

(** [struct ipmb_msg_hdr] without data and [struct ipmi_send_message_rq]. *)
Record ipmb_msg_hdr := mk_hdr {
  h_rsSA : Z; h_netFn : Z; h_csum1 : Z; h_rqSA : Z; h_rqSeq : Z; h_cmd : Z;
}.
Definition hdr_bytes (h : ipmb_msg_hdr) : list Z :=
  [h_rsSA h; h_netFn h; h_csum1 h; h_rqSA h; h_rqSeq h; h_cmd h].
Record send_message_rq := mk_smrq { sm_channel : Z; sm_msg : ipmb_msg_hdr }.
Definition smrq_bytes (s : send_message_rq) : list Z := sm_channel s :: hdr_bytes (sm_msg s).

(** An IPMB message: header, payload and the second checksum. *)
Definition ipmb (h : ipmb_msg_hdr) (p : list Z) : list Z :=
  hdr_bytes h ++ p ++ [ipmi_csum (h_rqSA h :: h_rqSeq h :: h_cmd h :: p)].

(** The payload of a message: Send Message requests around the data. *)
Fixpoint nest (rqs : list send_message_rq) (data : list Z) : list Z :=
  match rqs with
  | [] => data
  | s :: rqs => sm_channel s :: ipmb (sm_msg s) (nest rqs data)
  end.

Definition hdr_ok (h : ipmb_msg_hdr) : Prop := h_csum1 h = u8 (- (h_rsSA h + h_netFn h)).

Lemma hdr_csum h : hdr_ok h -> ipmi_csum [h_rsSA h; h_netFn h; h_csum1 h] = 0.
Proof.
  intros H. rewrite csum_sum. cbn [foldr]. rewrite H. unfold u8. Z.to_euclidean_division_equations. lia.
Qed.

Lemma ipmb_csum2 h p : ipmi_csum (drop 3 (ipmb h p)) = 0.
Proof.
  unfold ipmb, hdr_bytes. cbn [app drop].
  exact (csum_self (h_rqSA h :: h_rqSeq h :: h_cmd h :: p)).
Qed.

Lemma ipmb_csum h p : hdr_ok h -> ipmi_csum (ipmb h p) = 0.
Proof.
  intros H. rewrite <- (take_drop 3 (ipmb h p)). rewrite csum_zero_app_r by apply ipmb_csum2.
  by apply hdr_csum.
Qed.

Lemma ipmi_csum_nest_cons h s p : hdr_ok (sm_msg s) ->
  ipmi_csum (h_rqSA h :: h_rqSeq h :: h_cmd h :: nest [s] p) =
  ipmi_csum [h_rqSA h; h_rqSeq h; h_cmd h; sm_channel s].
Proof.
  intros H. cbn [nest].
  exact (csum_zero_app_r [h_rqSA h; h_rqSeq h; h_cmd h; sm_channel s] _ (ipmb_csum _ p H)).
Qed.

Lemma zlen_ipmb h p : zlen (ipmb h p) = zlen p + 7.
Proof. unfold ipmb, hdr_bytes. zlen_lia. Qed.

Lemma zlen_nest rqs data : zlen (nest rqs data) = zlen data + 8 * zlen rqs.
Proof. induction rqs as [|s rqs IH]; cbn [nest]; [zlen_lia |]. rewrite !zlen_cons, zlen_ipmb. lia. Qed.

