(* ===== verification/ReqList.v ===== *)
(** * The list of outstanding requests (src/plugins/lan/lan.c, lanplus/lanplus.c)

    [ipmi_req_entries] is a singly linked list of malloc'ed entries with a tail
    pointer.  [Module Ptr] is the pointer code over a heap of nodes: following
    a dangling pointer is a fault.  [Module Spec] is the list it stands for.
    The lemmas at the end prove that every operation of [Ptr] refines the one
    of [Spec], frees what it unlinks and never faults. *)

From S2P Require Import Prelude Ipmi.

Definition loc := positive.

(** ** The abstract list *)

Module Spec.
Definition t := list (loc * rq_entry).

(** The test of the search loops, negated. *)
Definition matches (seq cmd : Z) (e : rq_entry) : bool :=
  (e_rq_seq e =? seq) && (rq_cmd (e_req e) =? cmd).

Definition new_entry (req : ipmi_rq) (seq : Z) : rq_entry := mk_entry req seq None 0.

Definition add (p : loc) (req : ipmi_rq) (seq : Z) (l : t) : t :=
  l ++ [(p, new_entry req seq)].

Fixpoint lookup (seq cmd : Z) (l : t) : option loc :=
  match l with
  | [] => None
  | (p, e) :: l => if matches seq cmd e then Some p else lookup seq cmd l
  end.

Fixpoint remove (seq cmd : Z) (l : t) : t :=
  match l with
  | [] => []
  | (p, e) :: l => if matches seq cmd e then l else (p, e) :: remove seq cmd l
  end.

Fixpoint get (p : loc) (l : t) : option rq_entry :=
  match l with
  | [] => None
  | (q, e) :: l => if decide (p = q) then Some e else get p l
  end.

Fixpoint update (p : loc) (f : rq_entry -> rq_entry) (l : t) : t :=
  match l with
  | [] => []
  | (q, e) :: l => if decide (p = q) then (q, f e) :: l else (q, e) :: update p f l
  end.

(** A location no entry of the list uses. *)
Definition fresh_loc (l : t) : loc := fresh (list_to_set (C:=gset loc) (l.*1)).
End Spec.

(** ** The pointer code *)

Module Ptr.
Record node := mk_node { n_entry : rq_entry; n_next : option loc }.

(** [h_leaked] is ghost state: the message buffers whose last pointer was
    freed with its entry. *)
Record hst := mk_hst {
  h_nodes : gmap loc node;
  ipmi_req_entries : option loc;
  ipmi_req_entries_tail : option loc;
  h_leaked : list (list Z);
}.

Definition set_nodes (m : gmap loc node) (s : hst) : hst :=
  mk_hst m (ipmi_req_entries s) (ipmi_req_entries_tail s) (h_leaked s).
Definition set_head (p : option loc) (s : hst) : hst :=
  mk_hst (h_nodes s) p (ipmi_req_entries_tail s) (h_leaked s).
Definition set_tail (p : option loc) (s : hst) : hst :=
  mk_hst (h_nodes s) (ipmi_req_entries s) p (h_leaked s).

Definition deref (p : loc) : M hst node := fun s =>
  match h_nodes s !! p with Some n => Ok (n, s) | None => Bad Dangling end.

Definition deref_ptr (p : option loc) : M hst node :=
  match p with Some p => deref p | None => fail Dangling end.

Definition store (p : loc) (n : node) : M hst unit :=
  _ ← deref p; modify (fun s => set_nodes (<[p := n]> (h_nodes s)) s).

(** [free(e)]: the node is gone and so is the only pointer to its message. *)
Definition free_node (p : loc) : M hst unit :=
  n ← deref p;
  modify (fun s => mk_hst (delete p (h_nodes s)) (ipmi_req_entries s)
    (ipmi_req_entries_tail s)
    (match e_msg_data (n_entry n) with Some d => d :: h_leaked s | None => h_leaked s end)).

(** [ipmi_req_add_entry]; [malloc_ok] is false when [malloc] returns NULL. *)
Definition ipmi_req_add_entry (malloc_ok : bool) (req : ipmi_rq) (req_seq : Z)
    : M hst (option loc) :=
  if negb malloc_ok then mret None else
  e ← gets (fun s => fresh (dom (h_nodes s)));
  _ ← modify (fun s => set_nodes
        (<[e := mk_node (mk_entry req req_seq None 0) None]> (h_nodes s)) s);
  head ← gets ipmi_req_entries;
  _ ← match head with
      | None => modify (set_head (Some e))
      | Some _ =>
          tail ← gets ipmi_req_entries_tail;
          match tail with
          | None => fail Dangling
          | Some t => n ← deref t; store t (mk_node (n_entry n) (Some e))
          end
      end;
  _ ← modify (set_tail (Some e));
  mret (Some e).

(** The search loop of [ipmi_req_remove_entry]: [p] trails [e]. *)
Fixpoint find_loop (fuel : nat) (seq cmd : Z) (p e : option loc)
    : M hst (option loc * option loc) :=
  match fuel with
  | O => fail OutOfFuel
  | S fuel =>
      match e with
      | None => mret (p, e)
      | Some q =>
          n ← deref q;
          if negb (e_rq_seq (n_entry n) =? seq) || negb (rq_cmd (e_req (n_entry n)) =? cmd)
          then find_loop fuel seq cmd e (n_next n)
          else mret (p, e)
      end
  end.

Definition list_fuel (s : hst) : nat := S (size (h_nodes s)).

(** [ipmi_req_lookup_entry] of lanplus.c: an entry that is its own successor
    ends the search. *)
Fixpoint lookup_loop (fuel : nat) (seq cmd : Z) (e : option loc) : M hst (option loc) :=
  match fuel with
  | O => fail OutOfFuel
  | S fuel =>
      match e with
      | None => mret e
      | Some q =>
          n ← deref q;
          if negb (e_rq_seq (n_entry n) =? seq) || negb (rq_cmd (e_req (n_entry n)) =? cmd)
          then if decide (n_next n = Some q) then mret None
               else lookup_loop fuel seq cmd (n_next n)
          else mret e
      end
  end.

Definition ipmi_req_lookup_entry (seq cmd : Z) : M hst (option loc) :=
  s ← get; lookup_loop (list_fuel s) seq cmd (ipmi_req_entries s).

(** [ipmi_req_lookup_entry] of lan.c: a null successor ends it as well. *)
Fixpoint lan_lookup_loop (fuel : nat) (seq cmd : Z) (e : option loc) : M hst (option loc) :=
  match fuel with
  | O => fail OutOfFuel
  | S fuel =>
      match e with
      | None => mret e
      | Some q =>
          n ← deref q;
          if negb (e_rq_seq (n_entry n) =? seq) || negb (rq_cmd (e_req (n_entry n)) =? cmd)
          then if bool_decide (n_next n = None) || bool_decide (n_next n = Some q)
               then mret None
               else lan_lookup_loop fuel seq cmd (n_next n)
          else mret e
      end
  end.

Definition lan_req_lookup_entry (seq cmd : Z) : M hst (option loc) :=
  s ← get; lan_lookup_loop (list_fuel s) seq cmd (ipmi_req_entries s).

(** The end of [ipmi_req_remove_entry]: the message, then the entry. *)
Definition free_entry (ep : loc) : M hst unit :=
  ne ← deref ep;
  _ ← match e_msg_data (n_entry ne) with
      | Some _ => store ep (mk_node (e_set_msg_data None (n_entry ne)) (n_next ne))
      | None => mret tt
      end;
  free_node ep.

(** [ipmi_req_remove_entry] *)
Definition ipmi_req_remove_entry (seq cmd : Z) : M hst unit :=
  s ← get;
  '(p, e) ← find_loop (list_fuel s) seq cmd (ipmi_req_entries s) (ipmi_req_entries s);
  match e with
  | None => mret tt
  | Some ep =>
      ne ← deref ep;
      let saved_next_entry := n_next ne in
      pp ← match p with Some pp => mret pp | None => fail Dangling end;
      np ← deref pp;
      _ ← store pp (mk_node (n_entry np)
            (if decide (n_next np = n_next ne) then None else n_next ne));
      head ← gets ipmi_req_entries;
      _ ← (if decide (head = e)
           then if decide (head <> p) then modify (set_head p)
                else modify (set_head saved_next_entry)
           else mret tt);
      tail ← gets ipmi_req_entries_tail;
      _ ← (if decide (tail = e)
           then if decide (tail <> p) then modify (set_tail p)
                else modify (set_tail None)
           else mret tt);
      free_entry ep
  end.

(** [ipmi_req_clear_entries] *)
Fixpoint clear_loop (fuel : nat) (e : option loc) : M hst unit :=
  match fuel with
  | O => fail OutOfFuel
  | S fuel =>
      match e with
      | None => mret tt
      | Some q => n ← deref q; _ ← free_node q; clear_loop fuel (n_next n)
      end
  end.

Definition ipmi_req_clear_entries : M hst unit :=
  s ← get;
  _ ← clear_loop (list_fuel s) (ipmi_req_entries s);
  _ ← modify (set_head None);
  modify (set_tail None).
End Ptr.

(** ** Representation: the heap holds exactly the entries of the list *)

Module Refine.
Import Ptr.

Fixpoint lseg (m : gmap loc node) (p : option loc) (l : Spec.t) (z : option loc) : Prop :=
  match l with
  | [] => p = z
  | (q, e) :: l => p = Some q /\ exists nx, m !! q = Some (mk_node e nx) /\ lseg m nx l z
  end.

Record rep (s : hst) (l : Spec.t) : Prop := mk_rep {
  rep_seg : lseg (h_nodes s) (ipmi_req_entries s) l None;
  rep_tail : ipmi_req_entries_tail s = last l.*1;
  rep_nodup : NoDup l.*1;
  rep_dom : dom (h_nodes s) = list_to_set l.*1;
}.

Lemma lseg_app m p l1 l2 z :
  lseg m p (l1 ++ l2) z <-> exists y, lseg m p l1 y /\ lseg m y l2 z.
Proof.
  revert p. induction l1 as [|[q e] l1 IH]; intros p; simpl.
  - split; [by eexists | by intros (y & -> & H)].
  - split.
    + intros (-> & nx & Hm & (y & H1 & H2)%IH). exists y. eauto 6.
    + intros (y & (-> & nx & Hm & H1) & H2). split; [done |].
      exists nx. split; [done |]. apply IH. eauto.
Qed.

Lemma lseg_insert m p l z q n :
  q ∉ l.*1 -> lseg m p l z -> lseg (<[q := n]> m) p l z.
Proof.
  revert p. induction l as [|[r e] l IH]; intros p; simpl; [done |].
  intros [Hne Hq]%not_elem_of_cons (-> & nx & Hm & Hl). split; [done |].
  exists nx. rewrite lookup_insert_ne by done. eauto.
Qed.

Lemma lseg_delete m p l z q :
  q ∉ l.*1 -> lseg m p l z -> lseg (delete q m) p l z.
Proof.
  revert p. induction l as [|[r e] l IH]; intros p; simpl; [done |].
  intros [Hne Hq]%not_elem_of_cons (-> & nx & Hm & Hl). split; [done |].
  exists nx. rewrite lookup_delete_ne by done. eauto.
Qed.

(** The start of a segment is not a location outside of it. *)
Lemma lseg_start_ne m p l q : q ∉ l.*1 -> lseg m p l None -> p <> Some q.
Proof.
  destruct l as [|[r e] l]; simpl; [by intros _ -> |].
  intros [Hne _]%not_elem_of_cons [-> _]. congruence.
Qed.

Lemma rep_size s l : rep s l -> size (h_nodes s) = length l.
Proof.
  intros [_ _ Hnd Hdom]. rewrite <- size_dom, Hdom, size_list_to_set by done.
  apply length_fmap.
Qed.

(** Every list is searched up to its first match. *)
Lemma spec_split seq cmd (l : Spec.t) :
  (Forall (fun x => Spec.matches seq cmd x.2 = false) l /\
   Spec.lookup seq cmd l = None /\ Spec.remove seq cmd l = l) \/
  (exists l1 q x l2, l = l1 ++ (q, x) :: l2 /\
   Forall (fun x => Spec.matches seq cmd x.2 = false) l1 /\
   Spec.matches seq cmd x = true /\
   Spec.lookup seq cmd l = Some q /\ Spec.remove seq cmd l = l1 ++ l2).
Proof.
  induction l as [|[p e] l IH]; simpl; [by left |].
  destruct (Spec.matches seq cmd e) eqn:E.
  - right. exists [], p, e, l. by split_and!.
  - destruct IH as [(H1 & H2 & H3) | (l1 & q & x & l2 & -> & H1 & H2 & H3 & H4)].
    + left. rewrite H2, H3. by split_and!; [constructor |..].
    + right. exists ((p, e) :: l1), q, x, l2. rewrite H3, H4.
      by split_and!; [| constructor |..].
Qed.

Lemma matches_test seq cmd e :
  negb (e_rq_seq e =? seq) || negb (rq_cmd (e_req e) =? cmd) = negb (Spec.matches seq cmd e).
Proof. unfold Spec.matches. by rewrite negb_andb. Qed.

Lemma deref_run p n s : h_nodes s !! p = Some n -> deref p s = Ok (n, s).
Proof. unfold deref. by intros ->. Qed.

(** The search loop stops at the first match, [p] being the entry before. *)
Lemma find_loop_none seq cmd s l fuel p e :
  lseg (h_nodes s) e l None -> (length l < fuel)%nat ->
  Forall (fun x => Spec.matches seq cmd x.2 = false) l ->
  exists p', find_loop fuel seq cmd p e s = Ok ((p', None), s).
Proof.
  revert fuel p e. induction l as [|[q x] l IH]; intros [|fuel] p e Hl Hf Hm;
    simpl in *; try lia; [subst; by eexists |].
  destruct Hl as (-> & nx & Hq & Hl). apply Forall_cons in Hm as [Hx Hm]. simpl in Hx.
  rewrite (M_bind_run _ _ _ _ _ (deref_run _ _ _ Hq)), matches_test. simpl. rewrite Hx. simpl.
  apply IH; [done | lia | done].
Qed.

Lemma find_loop_some seq cmd s l1 q x l2 fuel p e :
  lseg (h_nodes s) e (l1 ++ (q, x) :: l2) None -> (length l1 < fuel)%nat ->
  Forall (fun x => Spec.matches seq cmd x.2 = false) l1 ->
  Spec.matches seq cmd x = true ->
  find_loop fuel seq cmd p e s =
  Ok ((match last l1.*1 with Some r => Some r | None => p end, Some q), s).
Proof.
  revert fuel p e. induction l1 as [|[r y] l1 IH]; intros [|fuel] p e Hl Hf Hm Hx;
    simpl in Hl, Hf; try lia; destruct Hl as (-> & nx & Hq & Hl); cbn [find_loop];
    rewrite (M_bind_run _ _ _ _ _ (deref_run _ _ _ Hq)), matches_test; cbn [n_entry n_next].
  - by rewrite Hx.
  - apply Forall_cons in Hm as [Hy Hm]. simpl in Hy. rewrite Hy. cbn [negb].
    rewrite IH by (done || lia). rewrite fmap_cons, last_cons. simpl.
    by destruct (last l1.*1).
Qed.

Lemma lookup_loop_spec seq cmd s l fuel e :
  lseg (h_nodes s) e l None -> NoDup l.*1 -> (length l < fuel)%nat ->
  lookup_loop fuel seq cmd e s = Ok (Spec.lookup seq cmd l, s) /\
  lan_lookup_loop fuel seq cmd e s = Ok (Spec.lookup seq cmd l, s).
Proof.
  revert fuel e. induction l as [|[q x] l IH]; intros [|fuel] e Hl Hnd Hf;
    simpl in *; try lia; [by subst |].
  destruct Hl as (-> & nx & Hq & Hl). apply NoDup_cons in Hnd as [Hnq Hnd].
  rewrite !(M_bind_run _ _ _ _ _ (deref_run _ _ _ Hq)), matches_test. simpl.
  destruct (Spec.matches seq cmd x); simpl; [done |].
  pose proof (lseg_start_ne _ _ _ _ Hnq Hl) as Hne.
  rewrite decide_False, (bool_decide_eq_false_2 (nx = Some q)) by done.
  rewrite orb_false_r. destruct (IH fuel nx) as [IH1 IH2]; [done | done | lia |].
  split; [done |].
  case_bool_decide as Hnx; [| done]. subst nx.
  by destruct l as [|[r y] l]; [| destruct Hl].
Qed.

(** *** The operations refine their specification *)

Lemma lookup_refines seq cmd s l :
  rep s l ->
  ipmi_req_lookup_entry seq cmd s = Ok (Spec.lookup seq cmd l, s) /\
  lan_req_lookup_entry seq cmd s = Ok (Spec.lookup seq cmd l, s).
Proof.
  intros Hr. apply lookup_loop_spec; [apply Hr | apply Hr |].
  unfold list_fuel. rewrite (rep_size _ _ Hr). lia.
Qed.

Lemma rep_fresh s l : rep s l -> fresh (dom (h_nodes s)) = Spec.fresh_loc l.
Proof. intros Hr. unfold Spec.fresh_loc. by rewrite (rep_dom _ _ Hr). Qed.

Lemma fresh_loc_notin (l : Spec.t) : Spec.fresh_loc l ∉ l.*1.
Proof.
  unfold Spec.fresh_loc. intros H.
  by apply (is_fresh (list_to_set (C:=gset loc) l.*1)), elem_of_list_to_set.
Qed.

(** Linking a node behind the last one. *)
Lemma lseg_snoc m p l q e q' e' :
  NoDup (q :: l.*1) -> q' ∉ (q :: l.*1) ->
  lseg m p (l ++ [(q, e)]) None ->
  lseg (<[q := mk_node e (Some q')]> (<[q' := mk_node e' None]> m)) p
    ((l ++ [(q, e)]) ++ [(q', e')]) None.
Proof.
  intros [Hql Hnd]%NoDup_cons [Hne Hq']%not_elem_of_cons (y & H1 & H2)%lseg_app.
  simpl in H2. destruct H2 as (-> & nx & Hq & ->).
  apply lseg_app. exists (Some q'). split.
  - apply lseg_app. exists (Some q). split; [by apply lseg_insert; [| apply lseg_insert] |].
    simpl. split; [done |]. eexists. by rewrite lookup_insert_eq.
  - simpl. split; [done |]. eexists. by rewrite lookup_insert_ne, lookup_insert_eq.
Qed.

Lemma last_fst_snoc (l : Spec.t) q e : last (l ++ [(q, e)]).*1 = Some q.
Proof. rewrite fmap_app. apply last_snoc. Qed.

Lemma list_snoc_cases {A} (l : list A) : l = [] \/ exists l' x, l = l' ++ [x].
Proof. destruct l as [|x l'] using rev_ind; [by left | right; eauto]. Qed.

Lemma add_refines req seq s l :
  rep s l ->
  exists s', ipmi_req_add_entry true req seq s = Ok (Some (Spec.fresh_loc l), s') /\
    rep s' (Spec.add (Spec.fresh_loc l) req seq l) /\ h_leaked s' = h_leaked s.
Proof.
  intros Hr. pose proof (fresh_loc_notin l) as Hf.
  unfold ipmi_req_add_entry, gets, modify, mbind, M_bind. cbn [negb].
  rewrite (rep_fresh _ _ Hr). set (q' := Spec.fresh_loc l) in *. cbn.
  destruct Hr as [Hseg Htail Hnd Hdom].
  assert (Hnd' : NoDup (l ++ [(q', Spec.new_entry req seq)]).*1).
  { rewrite fmap_app. apply NoDup_app. split_and!; [done | | apply NoDup_singleton].
    intros x Hx. simpl. set_solver. }
  destruct (list_snoc_cases l) as [-> | (l0 & [q e] & ->)].
  - simpl in Hseg. rewrite Hseg. cbn. eexists. split; [done |]. split; [| done].
    split; cbn; [| done | done | set_solver].
    split; [done |]. eexists. by rewrite lookup_insert_eq.
  - assert (exists h, ipmi_req_entries s = Some h) as [h Hh].
    { destruct l0 as [|[h x] l0]; destruct Hseg as [-> _]; eauto. }
    rewrite Hh. cbn. rewrite Htail, last_fst_snoc. cbn.
    rewrite fmap_app in Hf, Hnd. cbn in Hf, Hnd.
    assert (Hq : h_nodes s !! q = Some (mk_node e None)).
    { apply lseg_app in Hseg as (y & _ & -> & nx & Hq & ->). done. }
    assert (q <> q') by set_solver.
    unfold deref, store, mbind, M_bind, deref. cbn.
    rewrite lookup_insert_ne, Hq by done. cbn. rewrite lookup_insert_ne, Hq by done. cbn.
    eexists. split; [done |]. split; [| done]. split; cbn.
    + rewrite Hh. rewrite Hh in Hseg. apply lseg_snoc; [| set_solver | done].
      apply NoDup_app in Hnd as (? & ? & _). apply NoDup_cons. set_solver.
    + unfold Spec.add. by rewrite last_fst_snoc.
    + done.
    + unfold Spec.add. rewrite !dom_insert_L, Hdom, !fmap_app. set_solver.
Qed.

Lemma last_fst_cons_ne (q : loc) e (l : Spec.t) :
  NoDup (q :: l.*1) -> (last ((q, e) :: l).*1 = Some q <-> l = []).
Proof.
  intros [Hq _]%NoDup_cons. split; [| by intros ->].
  destruct (list_snoc_cases l) as [-> | (l0 & [r x] & ->)]; [done |].
  rewrite app_comm_cons, last_fst_snoc. intros [= ->].
  exfalso. apply Hq. rewrite fmap_app. apply elem_of_app. right. by left.
Qed.

Lemma last_fst_app_cons (l1 l2 : Spec.t) x :
  last (l1 ++ x :: l2).*1 = last (x :: l2).*1.
Proof.
  destruct (list_snoc_cases (x :: l2)) as [? | (l0 & [r y] & ->)]; [done |].
  by rewrite app_assoc, !last_fst_snoc.
Qed.

(** Unlinking and freeing the first entry. *)
Lemma remove_head_rep s q e nx l :
  rep s ((q, e) :: l) -> h_nodes s !! q = Some (mk_node e nx) ->
  rep (mk_hst (delete q (h_nodes s)) nx
        (if decide (last ((q, e) :: l).*1 = Some q) then None else last ((q, e) :: l).*1)
        (h_leaked s)) l.
Proof.
  intros [Hseg Htail Hnd Hdom] Hq. simpl in Hseg, Hnd.
  destruct Hseg as (_ & nx' & Hq' & Hseg). rewrite Hq in Hq'. injection Hq' as <-.
  pose proof (last_fst_cons_ne q e l Hnd) as Hlast.
  apply NoDup_cons in Hnd as [Hql Hnd]. split; cbn -[fmap].
  - by apply lseg_delete.
  - case_decide as Hd.
    + apply Hlast in Hd as ->. done.
    + destruct l as [|[r x] l]; [by exfalso; apply Hd, Hlast | done].
  - done.
  - rewrite dom_delete_L, Hdom. simpl. set_solver.
Qed.

(** Unlinking and freeing an entry that follows [r]. *)
Lemma remove_mid_rep s l1 r y q e nx l2 :
  rep s ((l1 ++ [(r, y)]) ++ (q, e) :: l2) -> h_nodes s !! q = Some (mk_node e nx) ->
  rep (mk_hst (delete q (<[r := mk_node y nx]> (h_nodes s))) (ipmi_req_entries s)
        (if decide (ipmi_req_entries_tail s = Some q) then Some r
         else ipmi_req_entries_tail s)
        (h_leaked s)) ((l1 ++ [(r, y)]) ++ l2) /\
  h_nodes s !! r = Some (mk_node y (Some q)) /\ r <> q /\ nx <> Some q /\
  ipmi_req_entries s <> Some q.
Proof.
  intros [Hseg Htail Hnd Hdom] Hq.
  apply lseg_app in Hseg as (y1 & Hseg1 & Hseg2). simpl in Hseg2.
  destruct Hseg2 as (-> & nx' & Hq' & Hseg2). rewrite Hq in Hq'. injection Hq' as <-.
  pose proof Hseg1 as (y2 & Hl1 & Hr)%lseg_app. simpl in Hr.
  destruct Hr as (-> & ? & Hr & ->).
  rewrite !fmap_app, fmap_cons in Hnd. cbn [fst fmap list_fmap] in Hnd.
  apply NoDup_app in Hnd as (Hnd1 & Hdis & [Hql2 Hnd2]%NoDup_cons).
  apply NoDup_app in Hnd1 as (Hnd1 & Hdis1 & _).
  assert (Hrq : r <> q) by (intros ->; apply (Hdis q); set_solver).
  assert (Hql1 : q ∉ l1.*1) by (intros ?; apply (Hdis q); set_solver).
  assert (Hrl1 : r ∉ l1.*1) by (intros ?; apply (Hdis1 r); set_solver).
  assert (Hrl2 : r ∉ l2.*1) by (intros ?; apply (Hdis r); set_solver).
  split_and!; [| done | done | exact (lseg_start_ne _ _ _ _ Hql2 Hseg2) |].
  - split; cbn -[fmap].
    + apply lseg_app. exists nx. split.
      * apply lseg_app. exists (Some r). split.
        -- by apply lseg_delete, lseg_insert.
        -- simpl. split; [done |]. exists nx. split; [| done].
           rewrite lookup_delete_ne by done. apply lookup_insert_eq.
      * by apply lseg_delete, lseg_insert.
    + rewrite Htail, last_fst_app_cons.
      pose proof (last_fst_cons_ne q e l2 ltac:(by apply NoDup_cons)) as Hlast.
      case_decide as Hd.
      * apply Hlast in Hd as ->. by rewrite app_nil_r, last_fst_snoc.
      * destruct l2 as [|[z w] l2]; [by exfalso; apply Hd, Hlast |].
        by rewrite last_fst_app_cons.
    + rewrite !fmap_app. apply NoDup_app. split_and!.
      * apply NoDup_app. split_and!; [done | done | apply NoDup_singleton].
      * intros x Hx Hx'. apply (Hdis x); set_solver.
      * done.
    + rewrite dom_delete_L, dom_insert_L, Hdom, !fmap_app. cbn.
      apply set_eq. intros x. set_solver.
  - destruct l1 as [|[h x] l1]; simpl in Hl1.
    + rewrite Hl1. congruence.
    + destruct Hl1 as [-> _]. intros [= ->]. set_solver.
Qed.

Lemma free_entry_run q x nx s :
  h_nodes s !! q = Some (mk_node x nx) ->
  free_entry q s = Ok (tt, mk_hst (delete q (h_nodes s)) (ipmi_req_entries s)
    (ipmi_req_entries_tail s) (h_leaked s)).
Proof.
  intros Hq. unfold free_entry, free_node, store, modify, deref, mbind, M_bind, mret, M_ret.
  cbn. rewrite Hq. destruct x as [rq sq [d|] bl]; cbn; rewrite Hq; cbn; [| done].
  by rewrite lookup_insert_eq; cbn; rewrite delete_insert_eq.
Qed.

Lemma store_run q n n' s :
  h_nodes s !! q = Some n -> store q n' s = Ok (tt, set_nodes (<[q := n']> (h_nodes s)) s).
Proof.
  intros Hq. unfold store. by rewrite (M_bind_run _ _ _ _ _ (deref_run _ _ _ Hq)).
Qed.

Ltac run_step :=
  match goal with
  | |- context [mbind _ (mret ?x) ?s] => rewrite (M_bind_run (mret x) _ s x s eq_refl)
  | H : h_nodes ?s !! ?q = Some ?n |- context [mbind _ (deref ?q) ?s] =>
      rewrite (M_bind_run _ _ _ _ _ (deref_run q n s H))
  | H : h_nodes ?s !! ?q = Some ?n |- context [mbind _ (store ?q ?n') ?s] =>
      rewrite (M_bind_run _ _ _ _ _ (store_run q n n' s H))
  end; cbn -[fmap free_entry].

Lemma remove_refines seq cmd s l :
  rep s l ->
  exists s', ipmi_req_remove_entry seq cmd s = Ok (tt, s') /\
    rep s' (Spec.remove seq cmd l) /\ h_leaked s' = h_leaked s.
Proof.
  intros Hr. pose proof (rep_size _ _ Hr) as Hsize.
  unfold ipmi_req_remove_entry. rewrite (M_bind_run get _ s s s eq_refl).
  destruct (spec_split seq cmd l) as
    [(Hno & _ & ->) | (l1 & q & x & l2 & -> & Hno & Hm & _ & ->)].
  { destruct (find_loop_none seq cmd s l (list_fuel s) (ipmi_req_entries s)
      (ipmi_req_entries s)) as [p' Hf]; [apply Hr | unfold list_fuel; lia | done |].
    rewrite (M_bind_run _ _ _ _ _ Hf). cbn. eauto. }
  erewrite M_bind_run.
  2: { apply (find_loop_some seq cmd s l1 q x l2); [apply Hr | | done | done].
       unfold list_fuel. rewrite Hsize, length_app. lia. }
  cbn -[fmap free_entry].
  assert (exists nx, h_nodes s !! q = Some (mk_node x nx)) as [nx Hq].
  { destruct Hr as [Hseg _ _ _]. apply lseg_app in Hseg as (y & _ & _ & nx & Hq & _). eauto. }
  run_step. destruct (list_snoc_cases l1) as [-> | (l0 & [r y] & ->)].
  - pose proof Hr as [(Hh & _) Htail _ _]. rewrite Hh.
    change (last ([] : Spec.t).*1) with (@None loc). cbn -[fmap free_entry].
    do 3 run_step.
    pose proof (remove_head_rep s q x nx l2 Hr Hq) as Hrep.
    change ([] ++ (q, x) :: l2) with ((q, x) :: l2) in Htail. rewrite <- Htail in Hrep.
    unfold gets, mbind, M_bind. 
    repeat (case_decide; cbn -[fmap free_entry]; try (exfalso; congruence));
      (erewrite (free_entry_run q x) by apply lookup_insert_eq;
       eexists; split; [done |]; cbn -[fmap]; by rewrite delete_insert_eq).
  - destruct (remove_mid_rep s l0 r y q x nx l2 Hr Hq) as (Hrep & Hrr & Hrq & Hnx & Hhd).
    rewrite last_fst_snoc. cbn -[fmap free_entry]. do 3 run_step.
    unfold gets, mbind, M_bind. 
    repeat (case_decide; cbn -[fmap free_entry]; try (exfalso; congruence));
      (rewrite (free_entry_run q x nx) by (cbn; by rewrite lookup_insert_ne);
       eexists; split; [done |]; done).
Qed.

(** Clearing frees every entry but no message buffer. *)
Definition msgs (l : Spec.t) : list (list Z) := omap (fun x => e_msg_data x.2) l.

Lemma msgs_cons q x (l : Spec.t) :
  msgs ((q, x) :: l) = match e_msg_data x with Some d => d :: msgs l | None => msgs l end.
Proof. done. Qed.

Lemma free_node_run q n s :
  h_nodes s !! q = Some n ->
  free_node q s = Ok (tt, mk_hst (delete q (h_nodes s)) (ipmi_req_entries s)
    (ipmi_req_entries_tail s)
    (match e_msg_data (n_entry n) with Some d => d :: h_leaked s | None => h_leaked s end)).
Proof. intros Hq. unfold free_node. by rewrite (M_bind_run _ _ _ _ _ (deref_run _ _ _ Hq)). Qed.

Lemma clear_loop_run s l fuel p :
  lseg (h_nodes s) p l None -> NoDup l.*1 -> (length l < fuel)%nat ->
  dom (h_nodes s) = list_to_set l.*1 ->
  clear_loop fuel p s =
  Ok (tt, mk_hst ∅ (ipmi_req_entries s) (ipmi_req_entries_tail s)
            (reverse (msgs l) ++ h_leaked s)).
Proof.
  revert s fuel p. induction l as [|[q x] l IH]; intros s [|fuel] p Hl Hnd Hf Hdom;
    simpl in Hl, Hf; try lia.
  - subst. cbn in *. rewrite dom_empty_iff_L in Hdom. destruct s; cbn in *. by subst.
  - destruct Hl as (-> & nx & Hq & Hl). cbn [clear_loop].
    rewrite (M_bind_run _ _ _ _ _ (deref_run _ _ _ Hq)).
    rewrite (M_bind_run _ _ _ _ _ (free_node_run _ _ _ Hq)). cbn -[fmap msgs reverse].
    apply NoDup_cons in Hnd as [Hnq Hnd].
    rewrite IH; cbn -[fmap msgs reverse]; [| by apply lseg_delete | done | lia |].
    + rewrite msgs_cons. destruct (e_msg_data x); [| done].
      by rewrite reverse_cons, <- app_assoc.
    + rewrite dom_delete_L, Hdom. set_solver.
Qed.

Lemma clear_refines s l :
  rep s l ->
  ipmi_req_clear_entries s = Ok (tt, mk_hst ∅ None None (reverse (msgs l) ++ h_leaked s)).
Proof.
  intros Hr. unfold ipmi_req_clear_entries. rewrite (M_bind_run get _ s s s eq_refl).
  erewrite M_bind_run; [| eapply (clear_loop_run s l); apply Hr || idtac].
  - done.
  - unfold list_fuel. rewrite (rep_size _ _ Hr). lia.
Qed.

Lemma rep_empty leaked : rep (mk_hst ∅ None None leaked) [].
Proof. by split; cbn; [| | constructor |]. Qed.
End Refine.

(** ** Every sequence of operations behaves as on the abstract list *)

Module Client.
(** What the transports do with the list; [SetMsg] stores the message built
    for the entry that a look-up found. *)
Inductive op :=
  | Add (req : ipmi_rq) (seq : Z)
  | Lookup (seq cmd : Z)
  | SetMsg (seq cmd : Z) (d : list Z)
  | Remove (seq cmd : Z)
  | Clear.

Definition ptr_step (o : op) : M Ptr.hst (option loc) :=
  match o with
  | Add req seq => Ptr.ipmi_req_add_entry true req seq
  | Lookup seq cmd => Ptr.ipmi_req_lookup_entry seq cmd
  | SetMsg seq cmd d =>
      e ← Ptr.ipmi_req_lookup_entry seq cmd;
      match e with
      | Some p =>
          n ← Ptr.deref p;
          _ ← Ptr.store p (Ptr.mk_node (e_set_msg_data (Some d) (Ptr.n_entry n)) (Ptr.n_next n));
          mret e
      | None => mret None
      end
  | Remove seq cmd => _ ← Ptr.ipmi_req_remove_entry seq cmd; mret None
  | Clear => _ ← Ptr.ipmi_req_clear_entries; mret None
  end.

Definition spec_step (o : op) (l : Spec.t) : option loc * Spec.t :=
  match o with
  | Add req seq => (Some (Spec.fresh_loc l), Spec.add (Spec.fresh_loc l) req seq l)
  | Lookup seq cmd => (Spec.lookup seq cmd l, l)
  | SetMsg seq cmd d =>
      let e := Spec.lookup seq cmd l in
      (e, match e with
          | Some p => Spec.update p (e_set_msg_data (Some d)) l
          | None => l
          end)
  | Remove seq cmd => (None, Spec.remove seq cmd l)
  | Clear => (None, [])
  end.

Fixpoint run_ptr (ops : list op) : M Ptr.hst (list (option loc)) :=
  match ops with
  | [] => mret []
  | o :: ops => r ← ptr_step o; rs ← run_ptr ops; mret (r :: rs)
  end.

Fixpoint run_spec (ops : list op) (l : Spec.t) : list (option loc) * Spec.t :=
  match ops with
  | [] => ([], l)
  | o :: ops =>
      let '(r, l) := spec_step o l in
      let '(rs, l) := run_spec ops l in (r :: rs, l)
  end.

Import Ptr Refine.

(** Overwriting an entry in place keeps the segment. *)
Lemma update_rep s l1 q x nx l2 x' :
  rep s (l1 ++ (q, x) :: l2) -> h_nodes s !! q = Some (mk_node x nx) ->
  rep (set_nodes (<[q := mk_node x' nx]> (h_nodes s)) s) (l1 ++ (q, x') :: l2).
Proof.
  intros [Hseg Htail Hnd Hdom] Hq.
  assert (Hfst : (l1 ++ (q, x') :: l2).*1 = (l1 ++ (q, x) :: l2).*1) by by rewrite !fmap_app.
  pose proof Hnd as Hnd'. rewrite fmap_app, fmap_cons in Hnd'. cbn [fst] in Hnd'.
  apply NoDup_app in Hnd' as (_ & Hdis & [Hq2 _]%NoDup_cons).
  assert (Hq1 : q ∉ l1.*1) by (intros ?; apply (Hdis q); set_solver).
  split; cbn -[fmap]; rewrite ?Hfst; [| done | done |].
  - apply lseg_app in Hseg as (y & H1 & -> & nx' & Hq' & H2).
    rewrite Hq in Hq'. injection Hq' as <-.
    apply lseg_app. exists (Some q). split; [by apply lseg_insert |].
    split; [done |]. exists nx. rewrite lookup_insert_eq. split; [done |]. by apply lseg_insert.
  - rewrite dom_insert_L, <- Hdom. apply elem_of_dom_2 in Hq. set_solver.
Qed.

Lemma spec_update_mid l1 (q : loc) x l2 f :
  q ∉ l1.*1 -> Spec.update q f (l1 ++ (q, x) :: l2) = l1 ++ (q, f x) :: l2.
Proof.
  induction l1 as [|[r y] l1 IH]; simpl.
  - by rewrite decide_True.
  - intros [Hne Hq]%not_elem_of_cons. rewrite decide_False by done. by rewrite IH.
Qed.

Lemma step_refines o s l :
  rep s l ->
  exists s', ptr_step o s = Ok ((spec_step o l).1, s') /\ rep s' (spec_step o l).2.
Proof.
  intros Hr. destruct o as [req seq | seq cmd | seq cmd d | seq cmd |]; cbn [ptr_step spec_step].
  - destruct (add_refines req seq s l Hr) as (s' & -> & Hr' & _). eauto.
  - destruct (lookup_refines seq cmd s l Hr) as [-> _]. eauto.
  - destruct (lookup_refines seq cmd s l Hr) as [Hlk _].
    rewrite (M_bind_run _ _ _ _ _ Hlk).
    destruct (spec_split seq cmd l) as
      [(_ & -> & _) | (l1 & q & x & l2 & -> & _ & _ & -> & _)]; [by eauto |].
    assert (exists nx, h_nodes s !! q = Some (mk_node x nx)) as [nx Hq].
    { destruct Hr as [Hseg _ _ _]. apply lseg_app in Hseg as (y & _ & _ & nx & Hq & _). eauto. }
    rewrite (M_bind_run _ _ _ _ _ (deref_run _ _ _ Hq)).
    rewrite (M_bind_run _ _ _ _ _ (store_run _ _ _ _ Hq)). cbn -[fmap].
    eexists. split; [done |]. rewrite spec_update_mid.
    + by eapply update_rep.
    + pose proof (rep_nodup _ _ Hr) as Hnd. rewrite fmap_app in Hnd.
      apply NoDup_app in Hnd as (_ & Hdis & _). intros Hin. apply (Hdis q Hin). by left.
  - destruct (remove_refines seq cmd s l Hr) as (s' & Hs & Hr' & _).
    rewrite (M_bind_run _ _ _ _ _ Hs). cbn. eauto.
  - rewrite (M_bind_run _ _ _ _ _ (clear_refines s l Hr)). cbn.
    eexists. split; [done |]. apply rep_empty.
Qed.

Lemma run_refines ops s l :
  rep s l ->
  exists s', run_ptr ops s = Ok ((run_spec ops l).1, s') /\ rep s' (run_spec ops l).2.
Proof.
  revert s l. induction ops as [|o ops IH]; intros s l Hr; cbn [run_ptr run_spec]; [by eauto |].
  destruct (step_refines o s l Hr) as (s1 & Hs1 & Hr1).
  rewrite (M_bind_run _ _ _ _ _ Hs1). destruct (spec_step o l) as [r l1]. cbn in Hr1 |- *.
  destruct (IH s1 l1 Hr1) as (s2 & Hs2 & Hr2).
  rewrite (M_bind_run _ _ _ _ _ Hs2). destruct (run_spec ops l1) as [rs l2]. cbn in *. eauto.
Qed.
End Client.

(** ** Properties *)

Definition init_hst : Ptr.hst := Ptr.mk_hst ∅ None None [].

(** C2. Whatever sequence of additions, look-ups, message updates, removals and
    clears the transports perform, the linked list with its head and tail
    pointers returns what the abstract list returns, follows no dangling
    pointer and represents the abstract list afterwards. *)
Theorem request_list_refines (ops : list Client.op) :
  exists s, Client.run_ptr ops init_hst = Ok ((Client.run_spec ops []).1, s) /\
            Refine.rep s (Client.run_spec ops []).2.
Proof. apply Client.run_refines, Refine.rep_empty. Qed.

(** The two look-up loops (lan.c stops at a null successor, lanplus.c only at
    a self loop) agree on every list the transports can build. *)
Theorem lookup_lan_lanplus_agree (ops : list Client.op) (seq cmd : Z) :
  exists rs s, Client.run_ptr ops init_hst = Ok (rs, s) /\
    Ptr.lan_req_lookup_entry seq cmd s = Ptr.ipmi_req_lookup_entry seq cmd s /\
    Ptr.ipmi_req_lookup_entry seq cmd s =
      Ok (Spec.lookup seq cmd (Client.run_spec ops []).2, s).
Proof.
  destruct (Client.run_refines ops init_hst [] (Refine.rep_empty _)) as (s & Hs & Hr).
  destruct (Refine.lookup_refines seq cmd s _ Hr) as [H1 H2].
  exists (Client.run_spec ops []).1, s. by rewrite H1, H2.
Qed.

(** Clearing the list frees every entry, but the message buffer of every
    entry that still had one is lost: no pointer to it remains. *)
Theorem clear_entries_leaks_messages (ops : list Client.op) :
  exists rs s s', Client.run_ptr ops init_hst = Ok (rs, s) /\
    Ptr.ipmi_req_clear_entries s = Ok (tt, s') /\
    Ptr.h_nodes s' = ∅ /\ Ptr.ipmi_req_entries s' = None /\
    Ptr.h_leaked s' = reverse (Refine.msgs (Client.run_spec ops []).2) ++ Ptr.h_leaked s.
Proof.
  destruct (Client.run_refines ops init_hst [] (Refine.rep_empty _)) as (s & Hs & Hr).
  exists (Client.run_spec ops []).1, s. eexists.
  rewrite Hs, (Refine.clear_refines _ _ Hr). by split_and!.
Qed.
