(* ===== verification/Intf.v ===== *)
(** * The interface object (src/plugins/ipmi_intf.c, include/ipmitool/ipmi_intf.h)

    The addressing part of [struct ipmi_intf], the session parameters with
    their setters, and the payload limits that the command modules consult
    before they build a request. *)

From S2P Require Import Prelude Ipmi.

Definition IPMI_AUTHCODE_BUFFER_SIZE : Z := 20.
Definition IPMI_KG_BUFFER_SIZE : Z := 21.
Definition IPMI_DEFAULT_PAYLOAD_SIZE : Z := 25.

(** [int16_t] conversion. *)
Definition s16 (x : Z) : Z := (x + 32768) mod 65536 - 32768.

(** The addressing fields and limits of [struct ipmi_intf]. *)
Record intf_addr := mk_addr {
  my_addr : Z;
  target_addr : Z;
  target_channel : Z;
  transit_addr : Z;
  transit_channel : Z;
  max_request_data_size : Z;
  max_response_data_size : Z;
}.

(** [ipmi_intf_get_bridging_level] *)
Definition ipmi_intf_get_bridging_level (intf : intf_addr) : Z :=
  if negb (target_addr intf =? 0) && negb (target_addr intf =? my_addr intf) then
    if negb (transit_addr intf =? 0) &&
       (negb (transit_addr intf =? target_addr intf) ||
        negb (transit_channel intf =? target_channel intf))
    then 2 else 1
  else 0.

(** [ipmi_intf_get_max_request_data_size]; [size] is an [int16_t]. *)
Definition ipmi_intf_get_max_request_data_size (intf : intf_addr) : Z :=
  let bridging_level := ipmi_intf_get_bridging_level intf in
  let size := s16 (max_request_data_size intf) in
  let size :=
    if size =? 0 then
      let size := IPMI_DEFAULT_PAYLOAD_SIZE in
      if negb (bridging_level =? 0) then s16 (size + 8) else size
    else size in
  let size :=
    if negb (bridging_level =? 0) then
      let size := s16 (size - 8) in
      let size := if IPMI_DEFAULT_PAYLOAD_SIZE <? size then IPMI_DEFAULT_PAYLOAD_SIZE else size in
      if bridging_level =? 2 then s16 (size - 8) else size
    else size in
  if size <? 0 then 0 else u16 size.

(** [ipmi_intf_get_max_response_data_size] *)
Definition ipmi_intf_get_max_response_data_size (intf : intf_addr) : Z :=
  let bridging_level := ipmi_intf_get_bridging_level intf in
  let size := s16 (max_response_data_size intf) in
  let size :=
    if size =? 0 then
      let size := IPMI_DEFAULT_PAYLOAD_SIZE in
      if negb (bridging_level =? 0) then s16 (size + 7) else size
    else size in
  let size :=
    if negb (bridging_level =? 0) then
      let size := s16 (size - 8) in
      let size := if IPMI_DEFAULT_PAYLOAD_SIZE <? size then IPMI_DEFAULT_PAYLOAD_SIZE else size in
      if bridging_level =? 2 then s16 (size - 8) else size
    else size in
  if size <? 0 then 0 else u16 size.

(** ** Session parameters

    [struct ipmi_session_params]; a C string is the list of its bytes before
    the terminator, a fixed array the list of all its bytes. *)
Record ipmi_session_params := mk_params {
  username : list Z;        (* uint8_t[17] *)
  authcode_set : list Z;    (* uint8_t[IPMI_AUTHCODE_BUFFER_SIZE + 1] *)
  authtype_set : Z;
  privlvl : Z;
  cipher_suite_id : Z;
  password : Z;
  retry : Z;
  timeout : Z;
  kg : list Z;              (* uint8_t[IPMI_KG_BUFFER_SIZE] *)
  lookupbit : Z;
}.

Definition p_set_username v p := mk_params v (authcode_set p) (authtype_set p) (privlvl p)
  (cipher_suite_id p) (password p) (retry p) (timeout p) (kg p) (lookupbit p).
Definition p_set_authcode v pw p := mk_params (username p) v (authtype_set p) (privlvl p)
  (cipher_suite_id p) pw (retry p) (timeout p) (kg p) (lookupbit p).
Definition p_set_authtype v p := mk_params (username p) (authcode_set p) v (privlvl p)
  (cipher_suite_id p) (password p) (retry p) (timeout p) (kg p) (lookupbit p).
Definition p_set_kg v p := mk_params (username p) (authcode_set p) (authtype_set p) (privlvl p)
  (cipher_suite_id p) (password p) (retry p) (timeout p) v (lookupbit p).

(** [strlen]: the bytes before the first zero. *)
Fixpoint c_string (buf : list Z) : list Z :=
  match buf with
  | [] => []
  | x :: buf => if x =? 0 then [] else x :: c_string buf
  end.

Definition strlen (buf : list Z) : Z := zlen (c_string buf).

(** [memcpy] of a prefix over a zeroed array. *)
Definition memset_memcpy (size n : Z) (src : list Z) : list Z :=
  take (Z.to_nat n) src ++ zeros (size - n).

(** [ipmi_intf_session_set_username]; [None] is the null pointer. *)
Definition ipmi_intf_session_set_username (name : option (list Z))
    (p : ipmi_session_params) : ipmi_session_params :=
  match name with
  | None => p_set_username (zeros 17) p
  | Some s => p_set_username (memset_memcpy 17 (Z.min (zlen s) 16) s) p
  end.

(** [ipmi_intf_session_set_password]: the byte after the first
    [IPMI_AUTHCODE_BUFFER_SIZE] is not written. *)
Definition ipmi_intf_session_set_password (pw : option (list Z))
    (p : ipmi_session_params) : ipmi_session_params :=
  let last := [rd (authcode_set p) IPMI_AUTHCODE_BUFFER_SIZE] in
  match pw with
  | None => p_set_authcode (zeros IPMI_AUTHCODE_BUFFER_SIZE ++ last) 0 p
  | Some s =>
      p_set_authcode (memset_memcpy IPMI_AUTHCODE_BUFFER_SIZE
        (Z.min (zlen s) IPMI_AUTHCODE_BUFFER_SIZE) s ++ last) 1 p
  end.

(** [ipmi_intf_session_set_authtype] *)
Definition ipmi_intf_session_set_authtype (authtype : Z)
    (p : ipmi_session_params) : ipmi_session_params :=
  let p := if authtype =? IPMI_SESSION_AUTHTYPE_NONE
           then p_set_authcode (zeros IPMI_AUTHCODE_BUFFER_SIZE ++
                  [rd (authcode_set p) IPMI_AUTHCODE_BUFFER_SIZE]) 0 p
           else p in
  p_set_authtype authtype p.

(** [ipmi_intf_session_set_kgkey] *)
Definition ipmi_intf_session_set_kgkey (kgkey : list Z)
    (p : ipmi_session_params) : ipmi_session_params :=
  p_set_kg (take (Z.to_nat IPMI_KG_BUFFER_SIZE) kgkey) p.

(** ** Lemmas *)

Lemma bridging_level_range i : 0 <= ipmi_intf_get_bridging_level i <= 2.
Proof. unfold ipmi_intf_get_bridging_level. repeat case_match; lia. Qed.
#[export] Hint Resolve bridging_level_range : ipmi.

Lemma s16_small x : -32768 <= x < 32768 -> s16 x = x.
Proof. intros H. unfold s16. rewrite Z.mod_small; lia. Qed.

(** Remove the [int16_t] conversions that [lia] shows to be the identity. *)
Ltac s16_norm :=
  repeat match goal with
  | H : context [s16 ?x] |- _ => rewrite (s16_small x) in H by lia
  | |- context [s16 ?x] => rewrite (s16_small x) by lia
  end.

(** The limit leaves room for the [7 + 8 * level] bytes that bridging and the
    message header add, whenever the interface limit does. *)
Lemma max_request_fits i n :
  0 <= max_request_data_size i < 32768 ->
  n <= ipmi_intf_get_max_request_data_size i -> 0 < n ->
  n + 8 * ipmi_intf_get_bridging_level i <=
    Z.max (max_request_data_size i)
      (if max_request_data_size i =? 0 then IPMI_DEFAULT_PAYLOAD_SIZE + 8 else 0).
Proof.
  intros Hm. unfold ipmi_intf_get_max_request_data_size, IPMI_DEFAULT_PAYLOAD_SIZE.
  rewrite (s16_small (max_request_data_size i)) by lia.
  pose proof (bridging_level_range i) as Hb.
  set (b := ipmi_intf_get_bridging_level i) in *. set (m := max_request_data_size i) in *.
  destruct (m =? 0) eqn:Em, (b =? 0) eqn:Eb, (b =? 2) eqn:Eb2; bool_hyps; try lia;
    cbn [negb]; s16_norm; repeat (case_match; bool_hyps; s16_norm); try lia;
    unfold u16; rewrite Z.mod_small by lia; lia.
Qed.
