(* ===== verification/Helper.v ===== *)
(** * Text conversions (lib/helper.c)

    The functions of the command line: bytes to hexadecimal text and back,
    MAC addresses, the checked conversions of numbers ([str2long] and its
    family over the C library's [strtol] and [strtoul]), the argument checks
    [is_fru_id], [is_ipmi_channel_num], .. and the look-ups in tables of names.

    A C string is the list of its bytes without the terminator. *)

From stdpp Require Import strings.
From S2P Require Import Prelude Ipmi Intf.

(** ** Characters *)

Definition BUF2STR_MAXIMUM_OUTPUT_SIZE : Z := 3 * 1024 + 1.
Definition IPMI_UID_MIN : Z := 1.
Definition IPMI_UID_MAX : Z := 63.

(** The bytes of a literal of the source. *)
Definition text (s : string) : list Z := map (fun c => Z.of_N (Ascii.N_of_ascii c)) (String.list_ascii_of_string s).

Definition isspace (c : Z) : bool := (c =? 32) || (9 <=? c) && (c <=? 13).
Definition isdigit (c : Z) : bool := (48 <=? c) && (c <=? 57).
Definition isxdigit (c : Z) : bool :=
  isdigit c || (65 <=? c) && (c <=? 70) || (97 <=? c) && (c <=? 102).

(** The value of a digit of a base up to 16. *)
Definition digit_val (base c : Z) : option Z :=
  let v := if isdigit c then c - 48 else if isxdigit c then (c .| 32) - 97 + 10 else 16 in
  if v <? base then Some v else None.

(** The characters of [%x] (lower case) and [%d]. *)
Definition xdigit (v : Z) : Z := if v <? 10 then 48 + v else 87 + v.
Definition hex2 (b : Z) : list Z := [xdigit (b .>> 4); xdigit (b .& 15)].

(** ** Bytes as text *)

(** [snprintf] of [chars] and [strncpy] of [chars] at [cur] of the array [str]. *)
Definition snprintf_at (str : list Z) (cur left : Z) (chars : list Z) : option (list Z) :=
  if left <=? 0 then Some str else wr str cur (take (Z.to_nat (left - 1)) chars ++ [0]).
Definition strncpy_at (str : list Z) (cur n : Z) (chars : list Z) : option (list Z) :=
  if n <? 0 then None
  else wr str cur (take (Z.to_nat n) chars ++ zeros (n - zlen chars)).

(** The loop of [buf2str_extended] over the bytes that are left. *)
Fixpoint buf2str_loop (buf sep : list Z) (has_sep : bool) (str : list Z) (cur left : Z)
    : option (list Z * Z) :=
  match buf with
  | [] => Some (str, cur)
  | b :: buf =>
      str ← snprintf_at str cur left (hex2 b);
      if left <=? 2 then Some (str, cur) else
      let cur := cur + 2 in
      let left := left - 2 in
      if has_sep && negb (zlen buf =? 0) then
        if left <=? zlen sep then Some (str, cur) else
        str ← strncpy_at str cur (left - 2) sep;
        buf2str_loop buf sep has_sep str (cur + zlen sep) (left - zlen sep)
      else buf2str_loop buf sep has_sep str cur left
  end.

(** [buf2str_extended] with its static array; the result is the new array. *)
Definition buf2str_extended (buf : option (list Z)) (sep : option (list Z)) (str : list Z)
    : option (list Z) :=
  match buf with
  | None => snprintf_at str 0 BUF2STR_MAXIMUM_OUTPUT_SIZE [60; 78; 85; 76; 76; 62]
  | Some buf =>
      '(str, cur) ← buf2str_loop buf (default [] sep) (bool_decide (is_Some sep)) str 0
                      BUF2STR_MAXIMUM_OUTPUT_SIZE;
      wr str cur [0]
  end.

Definition buf2str (buf : option (list Z)) (str : list Z) : option (list Z) :=
  buf2str_extended buf None str.
Definition mac2str (buf str : list Z) : option (list Z) :=
  buf2str_extended (Some (take 6 buf)) (Some [58]) str.

(** The loop of [ipmi_parse_hex]: [q] bytes stored so far, [b] the byte under
    construction and [high] while its upper half is awaited.  The flag is false
    when a character is not hexadecimal. *)
Fixpoint parse_hex_loop (p : list Z) (out : list Z) (q size b : Z) (high : bool)
    : option (bool * list Z) :=
  match p with
  | [] => Some (true, out)
  | c :: p =>
      if negb (isxdigit c) then Some (false, out) else
      let d := if c <? 65 then c - 48 else (c .| 32) - 97 + 10 in
      if q <? size then
        let b := u8 (b + if high then d .<< 4 else d) in
        if high then parse_hex_loop p out q size b false
        else
          out ← wr out q [b];
          parse_hex_loop p out (q + 1) size 0 true
      else parse_hex_loop p out q size b high
  end.

(** [ipmi_parse_hex]: the code returned and the output buffer. *)
Definition ipmi_parse_hex (str : list Z) (out : option (list Z)) (size : Z)
    : option (Z * option (list Z)) :=
  let len := zlen str in
  if len =? 0 then Some (0, out) else
  if negb (len mod 2 =? 0) then Some (-1, out) else
  match out with
  | None => Some (-2, None)
  | Some o =>
      '(ok, o) ← parse_hex_loop str o 0 size 0 true;
      Some (if ok : bool then len / 2 else -3, Some o)
  end.

(** ** Numbers *)

Fixpoint skip_space (s : list Z) : list Z :=
  match s with
  | c :: t => if isspace c then skip_space t else s
  | [] => []
  end.

(** The digits of [base] at the head of [s], folded into [acc]; the flag says
    whether there was one. *)
Fixpoint scan_digits (base : Z) (s : list Z) (acc : Z) : Z * list Z :=
  match s with
  | c :: t =>
      match digit_val base c with
      | Some d => scan_digits base t (acc * base + d)
      | None => (acc, s)
      end
  | [] => (acc, [])
  end.

Definition has_digit (base : Z) (s : list Z) : bool :=
  match s with c :: _ => bool_decide (is_Some (digit_val base c)) | [] => false end.

Definition sign_of (s : list Z) : bool * list Z :=
  match s with
  | c :: t => if c =? 45 then (true, t) else if c =? 43 then (false, t) else (false, s)
  | [] => (false, s)
  end.

(** [strtol] and [strtoul] with base 0: the sign, the magnitude and the rest;
    [None] when there is no number, and then the rest is the whole string. *)
Definition strto (s : list Z) : option (bool * Z * list Z) :=
  let '(neg, t) := sign_of (skip_space s) in
  let '(base, t) :=
    match t with
    | c :: x :: t' =>
        if (c =? 48) && (x .| 32 =? 120) && has_digit 16 t' then (16, t')
        else (if c =? 48 then 8 else 10, t)
    | c :: _ => (if c =? 48 then 8 else 10, t)
    | [] => (10, t)
    end in
  if has_digit base t
  then let '(v, r) := scan_digits base t 0 in Some (neg, v, r) else None.

Definition LONG_MAX : Z := 2 ^ 63 - 1.
Definition LONG_MIN : Z := - 2 ^ 63.
Definition ULONG_MAX : Z := 2 ^ 64 - 1.

(** The value, whether [errno] is set, and the rest. *)
Definition strtol (s : list Z) : Z * bool * list Z :=
  match strto s with
  | None => (0, false, s)
  | Some (neg, v, r) =>
      let v := if neg : bool then - v else v in
      if v <? LONG_MIN then (LONG_MIN, true, r)
      else if LONG_MAX <? v then (LONG_MAX, true, r) else (v, false, r)
  end.

Definition strtoul (s : list Z) : Z * bool * list Z :=
  match strto s with
  | None => (0, false, s)
  | Some (neg, v, r) =>
      if ULONG_MAX <? v then (ULONG_MAX, true, r)
      else ((if neg : bool then - v else v) mod 2 ^ 64, false, r)
  end.

(** The codes that [str2long] .. return and what they store; [None]: the
    pointer is not written.  A null string is [None]. *)
Definition str2num (conv : list Z -> Z * bool * list Z) (str : option (list Z)) : Z * option Z :=
  match str with
  | None => (-1, None)
  | Some s =>
      let '(v, range, rest) := conv s in
      if negb (zlen rest =? 0) then (-2, Some v)
      else if range : bool then (-3, Some v) else (0, Some v)
  end.

Definition str2long (str : option (list Z)) : Z * option Z := str2num strtol str.
Definition str2ulong (str : option (list Z)) : Z * option Z := str2num strtoul str.

(** The narrower conversions: [rc] and value of the wide one, and the range. *)
Definition narrow (str : option (list Z)) (wide : Z * option Z) (min max : Z) : Z * option Z :=
  match str, wide with
  | None, _ => (-1, None)
  | Some _, (rc, v) =>
      let v := default 0 v in
      if negb (rc =? 0) then (rc, Some 0)
      else if (v <? min) || (max <? v) then (-3, None) else (0, Some v)
  end.

Definition str2int (str : option (list Z)) : Z * option Z :=
  narrow str (str2long str) (- 2 ^ 31) (2 ^ 31 - 1).
Definition str2uint (str : option (list Z)) : Z * option Z :=
  narrow str (str2ulong str) 0 (2 ^ 32 - 1).
Definition str2short (str : option (list Z)) : Z * option Z :=
  narrow str (str2long str) (- 2 ^ 15) (2 ^ 15 - 1).
Definition str2ushort (str : option (list Z)) : Z * option Z :=
  narrow str (str2ulong str) 0 65535.
Definition str2char (str : option (list Z)) : Z * option Z :=
  narrow str (str2long str) (-128) 127.
Definition str2uchar (str : option (list Z)) : Z * option Z :=
  narrow str (str2ulong str) 0 255.

(** ** Arguments of the command line *)

(** The value stored when the conversion succeeded. *)
Definition is_fru_id (argv : option (list Z)) : Z * option Z :=
  let '(rc, v) := str2uchar argv in (if rc =? 0 then 0 else -1, v).

Definition checked_uchar (ok : Z -> bool) (argv : option (list Z)) : Z * option Z :=
  let '(rc, v) := str2uchar argv in
  (if (rc =? 0) && ok (default 0 v) then 0 else -1, v).

Definition is_ipmi_channel_num : option (list Z) -> Z * option Z :=
  checked_uchar (fun c => (c <=? 0xB) || (0xE <=? c) && (c <=? 0xF)).
Definition is_ipmi_user_id : option (list Z) -> Z * option Z :=
  checked_uchar (fun u => (IPMI_UID_MIN <=? u) && (u <=? IPMI_UID_MAX)).
Definition is_ipmi_user_priv_limit : option (list Z) -> Z * option Z :=
  checked_uchar (fun l => negb (((l <? 1) || (5 <? l)) && negb (l =? 0xF))).

Definition eval_ccode (ccode : Z) : Z := if ccode =? 0 then 0 else -1.

(** One [%02x] of [sscanf]: white space, then a sign and a digit or up to two
    digits; an unsigned value. *)
Definition scan_02x (s : list Z) : option (Z * list Z) :=
  let s := skip_space s in
  let '(neg, t) := sign_of s in
  let w := (2 - (length s - length t))%nat in
  match t with
  | a :: t1 =>
      match digit_val 16 a with
      | None => None
      | Some x =>
          match t1, w with
          | b :: t2, 2%nat =>
              match digit_val 16 b with
              | Some y => Some (x * 16 + y, t2)
              | None => if (a =? 48) && (b .| 32 =? 120) then None else Some (x, t1)
              end
          | _, _ => Some ((if neg : bool then - x else x) mod 2 ^ 32, t1)
          end
      end
  | [] => None
  end.

Definition scan_colon (s : list Z) : option (list Z) :=
  match s with c :: t => if c =? 58 then Some t else None | [] => None end.

Fixpoint scan_mac (n : nat) (s : list Z) : option (list Z) :=
  '(v, t) ← scan_02x s;
  match n with
  | O => Some [v]
  | S n => t ← scan_colon t; vs ← scan_mac n t; Some (v :: vs)
  end.

(** [str2mac]: the code and the six bytes stored. *)
Definition str2mac (arg : list Z) : Z * option (list Z) :=
  match scan_mac 5 arg with
  | None => (-1, None)
  | Some ms => if forallb (fun m => m <=? 255) ms then (0, Some ms) else (-1, None)
  end.

(** ** Tables of names: an array of [valstr] up to the entry without a name,
    of which only the value is left. *)

Fixpoint find_val_idx (i : Z) (val : Z) (vs : list (Z * list Z)) : Z :=
  match vs with
  | [] => -1
  | (v, _) :: vs => if v =? val then i else find_val_idx (i + 1) val vs
  end.

(** [snprintf(un_str, 32, "Unknown (0x%02X)", val)] *)
Definition Xdigit (v : Z) : Z := if v <? 10 then 48 + v else 55 + v.
Fixpoint hex_digits (fuel : nat) (v : Z) (acc : list Z) : list Z :=
  match fuel with
  | O => acc
  | S fuel =>
      let acc := Xdigit (v .& 15) :: acc in
      if v .>> 4 =? 0 then acc else hex_digits fuel (v .>> 4) acc
  end.
Definition unknown_val_str (val : Z) : list Z :=
  let h := hex_digits 8 val [] in
  let h := if zlen h <? 2 then 48 :: h else h in
  [85; 110; 107; 110; 111; 119; 110; 32; 40; 48; 120] ++ h ++ [41].

(** [specific_val2str], with a null table as the empty one. *)
Definition specific_val2str (val : Z) (specific generic : list (Z * list Z)) : list Z :=
  let i := find_val_idx 0 val specific in
  if 0 <=? i then snd (nth (Z.to_nat i) specific (0, [])) else
  let i := find_val_idx 0 val generic in
  if 0 <=? i then snd (nth (Z.to_nat i) generic (0, [])) else unknown_val_str val.

Definition val2str (val : Z) (vs : list (Z * list Z)) : list Z := specific_val2str val [] vs.

(** [strcasecmp] in the C locale. *)
Definition tolower (c : Z) : Z := if (65 <=? c) && (c <=? 90) then c + 32 else c.
Definition strcaseeq (a b : list Z) : bool :=
  bool_decide (map tolower a = map tolower b).

Fixpoint str2val32 (str : list Z) (vs : list (Z * list Z)) (last : Z) : Z :=
  match vs with
  | [] => last
  | (v, s) :: vs => if strcaseeq s str then v else str2val32 str vs last
  end.

Definition str2val (str : list Z) (vs : list (Z * list Z)) (last : Z) : Z :=
  u16 (str2val32 str vs last).

(** ** Hexadecimal text *)

Definition hex_text (buf : list Z) : list Z := flat_map hex2 buf.

Lemma zlen_hex_text buf : zlen (hex_text buf) = 2 * zlen buf.
Proof. induction buf as [|b buf IH]; [done |]. cbn [hex_text flat_map]. fold (hex_text buf). unfold hex2. zlen_lia. Qed.

(** The characters of a byte are hexadecimal, are not the terminator, and give
    the byte back. *)
Definition hex2_ok (b : Z) : bool :=
  forallb (fun c => isxdigit c && negb (c =? 0)) (hex2 b) &&
  (let d c := if c <? 65 then c - 48 else (c .| 32) - 97 + 10 in
   u8 (u8 (0 + (d (xdigit (b .>> 4)) .<< 4)) + d (xdigit (b .& 15))) =? b) &&
  bool_decide (digit_val 16 (xdigit (b .>> 4)) = Some (b .>> 4)) &&
  bool_decide (digit_val 16 (xdigit (b .& 15)) = Some (b .& 15)) &&
  ((b .>> 4) * 16 + (b .& 15) =? b) &&
  negb (isspace (xdigit (b .>> 4))) && negb (xdigit (b .>> 4) =? 45) && negb (xdigit (b .>> 4) =? 43).

Lemma hex2_ok_all b : is_u8 b -> hex2_ok b = true.
Proof. apply all_u8_spec. vm_compute. reflexivity. Qed.

(** The loop of [buf2str] appends the text behind what is written. *)
Lemma buf2str_loop_plain buf pre rest left :
  zlen rest = left -> 2 * zlen buf < left ->
  exists rest', buf2str_loop buf [] false (pre ++ rest) (zlen pre) left =
    Some ((pre ++ hex_text buf) ++ rest', zlen pre + 2 * zlen buf) /\
    zlen rest' = left - 2 * zlen buf.
Proof.
  revert pre rest left. induction buf as [|b buf IH]; intros pre rest left Hr Hl.
  - exists rest. cbn. rewrite app_nil_r, Z.add_0_r. split; [done | zlen_lia].
  - rewrite zlen_cons in Hl. pose proof (zlen_nonneg buf).
    cbn [buf2str_loop]. unfold snprintf_at.
    rewrite (proj2 (Z.leb_gt left 0)), (proj2 (Z.leb_gt left 2)) by lia.
    rewrite take_ge by (cbn; lia). cbn [hex2 app].
    rewrite (wr_next pre rest (zlen pre)) by (try done; zlen_lia).
    rewrite Some_bind. cbn [andb].
    set (rest1 := drop _ rest).
    replace ((pre ++ _) ++ rest1) with ((pre ++ hex2 b) ++ [0] ++ rest1)
      by (unfold hex2; by rewrite <- !app_assoc).
    destruct (IH (pre ++ hex2 b) ([0] ++ rest1) (left - 2)) as (rest' & E & Hr').
    { unfold rest1. zlen_lia. } { lia. }
    exists rest'. replace (zlen pre + 2) with (zlen (pre ++ hex2 b)) by (unfold hex2; zlen_lia).
    rewrite E. cbn [hex_text flat_map]. split; [| rewrite zlen_cons; lia].
    do 2 f_equal; [by rewrite <- !app_assoc | unfold hex2; zlen_lia].
Qed.

Lemma c_string_app l rest : Forall (fun c => c <> 0) l -> c_string (l ++ 0 :: rest) = l.
Proof.
  induction 1 as [|c l Hc _ IH]; [done |]. cbn. rewrite (proj2 (Z.eqb_neq c 0)) by done. by rewrite IH.
Qed.

Lemma hex_text_nonzero buf : bytes buf -> Forall (fun c => c <> 0) (hex_text buf).
Proof.
  induction 1 as [|b buf Hb _ IH]; [done |]. cbn [hex_text flat_map]. apply Forall_app. split; [| done].
  pose proof (hex2_ok_all b Hb) as H. unfold hex2_ok in H. bool_hyps. cbn in *. bool_hyps.
  by repeat constructor.
Qed.

Lemma buf2str_text buf str :
  bytes buf -> zlen str = BUF2STR_MAXIMUM_OUTPUT_SIZE -> 2 * zlen buf < BUF2STR_MAXIMUM_OUTPUT_SIZE ->
  exists str', buf2str (Some buf) str = Some str' /\ c_string str' = hex_text buf.
Proof.
  intros Hb Hs Hl. unfold buf2str, buf2str_extended.
  destruct (buf2str_loop_plain buf [] str BUF2STR_MAXIMUM_OUTPUT_SIZE Hs Hl) as (rest & E & Hr).
  rewrite bool_decide_eq_false_2 by (by intros [? [=]]).
  change (default [] None) with (@nil Z). change (zlen []) with 0 in E. cbn [app] in E. rewrite E, Some_bind. rewrite (wr_next (hex_text buf) rest) by (rewrite ?zlen_hex_text; zlen_lia).
  eexists. split; [done |]. rewrite <- app_assoc. apply c_string_app, hex_text_nonzero, Hb.
Qed.

(** [ipmi_parse_hex] on that text stores the bytes. *)
Lemma parse_hex_text buf pre rest size :
  bytes buf -> zlen buf <= zlen rest -> zlen pre + zlen buf <= size ->
  parse_hex_loop (hex_text buf) (pre ++ rest) (zlen pre) size 0 true =
    Some (true, (pre ++ buf) ++ drop (Z.to_nat (zlen buf)) rest).
Proof.
  intros Hb. revert pre rest. induction Hb as [|b buf Hb _ IH]; intros pre rest Hr Hs.
  - cbn. by rewrite app_nil_r, drop_0.
  - rewrite zlen_cons in *. pose proof (zlen_nonneg buf).
    pose proof (hex2_ok_all b Hb) as Hx. unfold hex2_ok in Hx. bool_hyps. cbn [forallb hex2] in *. bool_hyps.
    cbn [hex_text flat_map hex2 app parse_hex_loop].
    repeat match goal with E : isxdigit _ = true |- _ => rewrite E; clear E end. cbn [negb].
    rewrite !(proj2 (Z.ltb_lt (zlen pre) size)) by lia.
    match goal with E : u8 _ = b |- _ => rewrite E end.
    rewrite (wr_next pre rest) by zlen_lia. rewrite Some_bind.
    replace (zlen pre + 1) with (zlen (pre ++ [b])) by zlen_lia.
    fold (hex_text buf). rewrite IH by zlen_lia. do 2 f_equal.
    rewrite <- (app_assoc pre). cbn [app]. f_equal. rewrite drop_drop. f_equal. zlen_lia.
Qed.

(** The same with a separator of one character, as in [mac2str]. *)
Fixpoint sep_text (c : Z) (buf : list Z) : list Z :=
  match buf with
  | [] => []
  | b :: t => hex2 b ++ match t with [] => [] | _ => c :: sep_text c t end
  end.

Lemma buf2str_loop_sep c buf pre rest left :
  zlen rest = left -> 3 * zlen buf < left ->
  exists rest', buf2str_loop buf [c] true (pre ++ rest) (zlen pre) left =
    Some ((pre ++ sep_text c buf) ++ rest', zlen pre + zlen (sep_text c buf)) /\ 0 < zlen rest'.
Proof.
  revert pre rest left. induction buf as [|b buf IH]; intros pre rest left Hr Hl.
  - exists rest. cbn. rewrite app_nil_r, Z.add_0_r. split; [done | zlen_lia].
  - rewrite zlen_cons in Hl. pose proof (zlen_nonneg buf).
    cbn [buf2str_loop]. unfold snprintf_at.
    rewrite (proj2 (Z.leb_gt left 0)), (proj2 (Z.leb_gt left 2)) by lia.
    rewrite take_ge by (cbn; lia). cbn [hex2 app].
    rewrite (wr_next pre rest (zlen pre)), Some_bind by (try done; zlen_lia).
    set (rest1 := drop _ rest).
    replace ((pre ++ _) ++ rest1) with ((pre ++ hex2 b) ++ [0] ++ rest1)
      by (unfold hex2; by rewrite <- !app_assoc).
    replace (zlen pre + 2) with (zlen (pre ++ hex2 b)) by (unfold hex2; zlen_lia).
    destruct buf as [|b' buf].
    + cbn [andb negb zlen length Z.of_nat Z.eqb buf2str_loop]. exists ([0] ++ rest1).
      split; [| unfold rest1; zlen_lia]. unfold sep_text. rewrite app_nil_r.
      do 2 f_equal. unfold hex2. zlen_lia.
    + set (buf1 := b' :: buf) in *. assert (1 <= zlen buf1) by (unfold buf1; zlen_lia).
      rewrite (proj2 (Z.eqb_neq (zlen buf1) 0)) by lia. cbn [andb negb].
      change (zlen [c]) with 1. rewrite (proj2 (Z.leb_gt (left - 2) 1)) by lia.
      unfold strncpy_at. rewrite (proj2 (Z.ltb_ge _ 0)), take_ge by (cbn; lia).
      set (pad := zeros _). assert (zlen pad = left - 5) as Hp by (unfold pad; change (zlen [c]) with 1; rewrite zlen_zeros; lia).
      rewrite (wr_next (pre ++ hex2 b) ([0] ++ rest1)), Some_bind by (unfold rest1; zlen_lia).
      set (rest2 := drop _ ([0] ++ rest1)).
      destruct (IH ((pre ++ hex2 b) ++ [c]) (pad ++ rest2) (left - 2 - 1)) as (rest' & E & Hr').
      { unfold rest2, rest1. zlen_lia. } { lia. }
      replace (((pre ++ hex2 b) ++ [c] ++ pad) ++ rest2)
        with (((pre ++ hex2 b) ++ [c]) ++ pad ++ rest2) by (by rewrite <- !app_assoc).
      replace (zlen (pre ++ hex2 b) + 1) with (zlen ((pre ++ hex2 b) ++ [c])) by zlen_lia.
      exists rest'. rewrite E. split; [| done]. unfold buf1. cbn [sep_text app].
      fold (sep_text c). do 2 f_equal; [by rewrite <- !app_assoc | zlen_lia].
Qed.

Lemma scan_02x_hex2 b rest : is_u8 b -> scan_02x (hex2 b ++ rest) = Some (b, rest).
Proof.
  intros Hb. pose proof (hex2_ok_all b Hb) as H. unfold hex2_ok in H. bool_hyps.
  repeat match goal with E : bool_decide _ = true |- _ => apply bool_decide_eq_true in E end.
  unfold scan_02x. cbn [hex2 app skip_space].
  repeat match goal with E : isspace _ = false |- _ => rewrite E end.
  unfold sign_of. rewrite !(proj2 (Z.eqb_neq _ _)) by done.
  rewrite Nat.sub_diag. cbn [Nat.sub].
  repeat match goal with E : digit_val _ _ = _ |- _ => rewrite E end. congruence.
Qed.

Lemma scan_mac_text buf b :
  Forall is_u8 (b :: buf) -> scan_mac (length buf) (sep_text 58 (b :: buf)) = Some (b :: buf).
Proof.
  revert b. induction buf as [|b' buf IH]; intros b H; inversion H as [|? ? Hb Hbuf]; subst.
  - cbn [scan_mac length sep_text]. rewrite scan_02x_hex2 by done. done.
  - cbn [length scan_mac]. change (sep_text 58 (b :: b' :: buf)) with (hex2 b ++ 58 :: sep_text 58 (b' :: buf)).
    rewrite scan_02x_hex2, Some_bind by done. cbn [scan_colon Z.eqb Pos.eqb].
    rewrite Some_bind, IH by done. done.
Qed.

Lemma sep_text_nonzero c buf : c <> 0 -> bytes buf -> Forall (fun c => c <> 0) (sep_text c buf).
Proof.
  intros Hc. induction 1 as [|b buf Hb _ IH]; [done |]. cbn [sep_text].
  assert (bytes [b]) as H by (by constructor). apply hex_text_nonzero in H. cbn [hex_text flat_map] in H.
  rewrite app_nil_r in H. apply Forall_app. split; [done |]. destruct buf; [done | by constructor].
Qed.

(** ** Numerals: what [strtol] and [strtoul] read with base 0 *)

Inductive numeral : list Z -> bool -> Z -> Prop :=
  | numeral_intro sp neg sign base prefix cs ds :
      Forall (fun c => isspace c = true) sp ->
      (neg, sign) ∈ [(true, [45]); (false, [43]); (false, [])] ->
      cs <> [] -> Forall2 (fun c d => digit_val base c = Some d) cs ds ->
      (base = 16 /\ prefix ∈ [[48; 120]; [48; 88]] \/
       base = 8 /\ prefix = [] /\ head cs = Some 48 \/
       base = 10 /\ prefix = [] /\ head cs <> Some 48) ->
      numeral (sp ++ sign ++ prefix ++ cs) neg (fold_left (fun v d => v * base + d) ds 0).

Lemma scan_digits_all base cs ds acc :
  Forall2 (fun c d => digit_val base c = Some d) cs ds ->
  scan_digits base cs acc = (fold_left (fun v d => v * base + d) ds acc, []).
Proof.
  intros H. revert acc. induction H as [|c d cs ds Hc _ IH]; intros acc; [done |].
  cbn [scan_digits fold_left]. by rewrite Hc.
Qed.

Lemma skip_space_app sp s : Forall (fun c => isspace c = true) sp ->
  skip_space (sp ++ s) = skip_space s.
Proof. induction 1 as [|c sp Hc _ IH]; [done |]. cbn [app skip_space]. by rewrite Hc. Qed.

(** Facts about single characters, by computation. *)
Definition digit_facts (base c : Z) : bool :=
  match digit_val base c with
  | Some d => negb (isspace c) && negb (c =? 45) && negb (c =? 43) && negb (c .| 32 =? 120)
  | None => true
  end.

Lemma digit_char base c d : base <= 16 -> digit_val base c = Some d ->
  isspace c = false /\ c <> 45 /\ c <> 43 /\ c .| 32 <> 120.
Proof.
  intros Hb H. assert (is_u8 c) as Hc.
  { unfold digit_val, isdigit, isxdigit, isdigit in H. unfold is_u8.
    repeat case_match; bool_hyps; try lia; discriminate. }
  assert (digit_val 16 c = Some d) as H16.
  { unfold digit_val in *. repeat case_match; bool_hyps; try discriminate; try done; lia. }
  assert (digit_facts 16 c = true) as F.
  { apply (all_u8_spec (digit_facts 16)); [vm_compute; reflexivity | done]. }
  unfold digit_facts in F. rewrite H16 in F. bool_hyps. done.
Qed.

(** [strto] on a numeral. *)
Lemma strto_numeral s neg v : numeral s neg v -> strto s = Some (neg, v, []).
Proof.
  intros [sp neg' sign base prefix cs ds Hsp Hsign Hne Hds Hbase].
  destruct Hds as [|c d cs ds Hc Hds]; [done |].
  assert (base <= 16) as Hb by lia.
  destruct (digit_char base c d Hb Hc) as (H1 & H2 & H3 & H4).
  assert (exists c1 r, prefix ++ c :: cs = c1 :: r /\ isspace c1 = false /\ c1 <> 45 /\ c1 <> 43)
    as (c1 & r & E1 & Hc1).
  { destruct Hbase as [[_ Hp]|[(_ & -> & _)|(_ & -> & _)]].
    - rewrite !elem_of_cons, elem_of_nil in Hp. destruct Hp as [->|[->|[]]]; by eexists _, _.
    - by exists c, cs.
    - by exists c, cs. }
  unfold strto. rewrite skip_space_app by done.
  assert (sign_of (skip_space (sign ++ prefix ++ c :: cs)) = (neg', prefix ++ c :: cs)) as ->.
  { rewrite E1. destruct Hc1 as (Hc1 & Hc2 & Hc3).
    rewrite !elem_of_cons, elem_of_nil in Hsign.
    destruct Hsign as [[= -> ->]|[[= -> ->]|[[= -> ->]|[]]]]; cbn [app skip_space];
      [done | done |]. rewrite Hc1. unfold sign_of. by rewrite !(proj2 (Z.eqb_neq c1 _)) by done. }
  assert (has_digit base (c :: cs) = true) as Hd
    by (cbn; apply bool_decide_eq_true; by exists d).
  enough (match prefix ++ c :: cs with
    | c0 :: x :: t' =>
        if (c0 =? 48) && (x .| 32 =? 120) && has_digit 16 t'
        then (16, t') else (if c0 =? 48 then 8 else 10, prefix ++ c :: cs)
    | c0 :: _ => (if c0 =? 48 then 8 else 10, prefix ++ c :: cs)
    | [] => (10, prefix ++ c :: cs)
    end = (base, c :: cs)) as ->.
  { rewrite Hd. erewrite scan_digits_all by (by constructor). done. }
  assert (forall x l, cs = x :: l -> (x .| 32 =? 120) = false) as Hx.
  { intros x l ->. inversion Hds as [|? ? ? ? Hx]. subst. apply Z.eqb_neq.
    by apply (digit_char base x y Hb). }
  destruct Hbase as [[-> Hp]|[(-> & -> & Hh)|(-> & -> & Hh)]].
  - rewrite !elem_of_cons, elem_of_nil in Hp.
    destruct Hp as [->|[->|[]]]; cbn [app]; rewrite Hd; done.
  - injection Hh as ->. cbn [app]. destruct cs as [|x cs]; [done |].
    rewrite (Hx x cs), andb_false_r by done. done.
  - cbn in Hh. assert ((c =? 48) = false) as E by (apply Z.eqb_neq; congruence). cbn [app].
    destruct cs as [|x cs]; rewrite E; done.
Qed.

(** Conversely, what [strto] reads to the end of the string is a numeral. *)
Lemma scan_digits_inv base s acc v :
  scan_digits base s acc = (v, []) -> exists ds,
    Forall2 (fun c d => digit_val base c = Some d) s ds /\
    v = fold_left (fun v d => v * base + d) ds acc.
Proof.
  revert acc. induction s as [|c s IH]; intros acc H; cbn [scan_digits] in H.
  - injection H as <-. by exists [].
  - destruct (digit_val base c) as [d|] eqn:E; [| done].
    destruct (IH _ H) as (ds & Hds & ->). exists (d :: ds). split; [by constructor | done].
Qed.

Lemma skip_space_split s : exists sp, Forall (fun c => isspace c = true) sp /\ s = sp ++ skip_space s.
Proof.
  induction s as [|c s (sp & Hsp & IH)]; [by exists [] |]. cbn [skip_space].
  destruct (isspace c) eqn:E; [| by exists []].
  exists (c :: sp). split; [by constructor | cbn; by rewrite <- IH].
Qed.

Lemma sign_of_split s neg t : sign_of s = (neg, t) ->
  exists sign, (neg, sign) ∈ [(true, [45]); (false, [43]); (false, @nil Z)] /\ s = sign ++ t.
Proof.
  unfold sign_of. intros H.
  assert (forall sign, (neg, sign) = (true, [45]) \/ (neg, sign) = (false, [43]) \/ (neg, sign) = (false, @nil Z) ->
    s = sign ++ t -> exists sign, (neg, sign) ∈ [(true, [45]); (false, [43]); (false, @nil Z)] /\ s = sign ++ t) as K.
  { intros sign Hs ->. exists sign. by rewrite !elem_of_cons, elem_of_nil; intuition. }
  destruct s as [|c s]; [injection H as <- <-; apply (K []); auto |].
  repeat case_match; bool_hyps; injection H as <- <-; subst;
    [apply (K [45]) | apply (K [43]) | apply (K [])]; auto.
Qed.

Lemma letter_x x : x .| 32 = 120 -> x = 120 \/ x = 88.
Proof.
  intros H. assert (0 <= x) by (apply (Z.lor_nonneg x 32); lia).
  assert (is_u8 x) as Hx.
  { split; [done |]. destruct (Z.eq_dec x 0) as [-> |]; [lia |].
    apply (Z.log2_lt_pow2 x 8); [lia |].
    pose proof (Z.log2_lor x 32 ltac:(done) ltac:(lia)) as E. rewrite H in E. cbn in E. lia. }
  pose proof (all_u8_spec (fun x => negb (x .| 32 =? 120) || (x =? 120) || (x =? 88)) x eq_refl Hx) as K.
  cbn beta in K. rewrite H in K. lia.
Qed.

Lemma strto_sound s neg v : strto s = Some (neg, v, []) -> numeral s neg v.
Proof.
  unfold strto. destruct (skip_space_split s) as (sp & Hsp & Es).
  destruct (sign_of (skip_space s)) as [neg' t] eqn:Et.
  destruct (sign_of_split _ _ _ Et) as (sign & Hsign & Es').
  rewrite Es' in Es. rewrite Es. clear Es Es' Et.
  assert (forall base prefix cs, t = prefix ++ cs ->
    (cs <> [] -> base = 16 /\ prefix ∈ [[48; 120]; [48; 88]] \/
      base = 8 /\ prefix = [] /\ head cs = Some 48 \/
      base = 10 /\ prefix = [] /\ head cs <> Some 48) ->
    (if has_digit base cs then let '(v, r) := scan_digits base cs 0 in Some (neg', v, r) else None) =
      Some (neg, v, []) -> numeral (sp ++ sign ++ t) neg v) as K.
  { intros base prefix cs -> Hb H. destruct (has_digit base cs) eqn:Eh; [| done].
    destruct (scan_digits base cs 0) as [v' r] eqn:Ed. injection H as -> -> ->.
    destruct (scan_digits_inv _ _ _ _ Ed) as (ds & Hds & ->).
    assert (cs <> []) by (by intros ->). econstructor; eauto. }
  assert (forall c cs, t = c :: cs ->
    (if has_digit (if c =? 48 then 8 else 10) t
     then let '(v, r) := scan_digits (if c =? 48 then 8 else 10) t 0 in Some (neg', v, r) else None) =
      Some (neg, v, []) -> numeral (sp ++ sign ++ t) neg v) as K1.
  { intros c cs E H. refine (K _ [] t eq_refl _ H). intros _. right. rewrite E. cbn [head].
    destruct (c =? 48) eqn:Ec; bool_hyps; [left | right]; split_and!; try done; congruence. }
  destruct t as [|c [|x t]].
  - done.
  - apply (K1 c []). done.
  - destruct ((c =? 48) && (x .| 32 =? 120) && has_digit 16 t) eqn:E; [| by apply (K1 c (x :: t))].
    bool_hyps. subst. apply (K 16 [48; x]); [done |]. intros _. left. split; [done |].
    assert (x = 120 \/ x = 88) as [-> | ->]; [| by rewrite !elem_of_cons; auto ..].
    by apply letter_x.
Qed.

(** What the narrow conversions must answer for a numeral: the value when it
    is in the range; -3 otherwise, and a zero is stored when it is not even in
    the range of the wide conversion. *)
Definition signed_spec (neg : bool) (v lo hi : Z) : Z * option Z :=
  let z := if neg then - v else v in
  if (z <? LONG_MIN) || (LONG_MAX <? z) then (-3, Some 0)
  else if (z <? lo) || (hi <? z) then (-3, None) else (0, Some z).

(** A minus sign negates modulo the width of [unsigned long]. *)
Definition unsigned_spec (neg : bool) (v hi : Z) : Z * option Z :=
  let u := (if neg then - v else v) mod 2 ^ 64 in
  if ULONG_MAX <? v then (-3, Some 0)
  else if hi <? u then (-3, None) else (0, Some u).

Lemma narrow_signed s neg v lo hi : strto s = Some (neg, v, []) ->
  narrow (Some s) (str2long (Some s)) lo hi = signed_spec neg v lo hi.
Proof.
  intros E. unfold narrow, str2long, str2num, strtol, signed_spec. rewrite E.
  set (z := if neg then - v else v).
  destruct (z <? LONG_MIN) eqn:E1; [done |]. by destruct (LONG_MAX <? z) eqn:E2.
Qed.

Lemma narrow_unsigned s neg v hi : strto s = Some (neg, v, []) ->
  narrow (Some s) (str2ulong (Some s)) 0 hi = unsigned_spec neg v hi.
Proof.
  intros E. unfold narrow, str2ulong, str2num, strtoul, unsigned_spec. rewrite E.
  set (u := _ mod _). assert (0 <= u) by (apply Z.mod_pos_bound; done).
  destruct (ULONG_MAX <? v); [done |].
  change (narrow (Some s) (0, Some u) 0 hi = if hi <? u then (-3, None) else (0, Some u)).
  unfold narrow. change (default 0 (Some u)) with u.
  rewrite (proj2 (Z.ltb_ge u 0)) by done. done.
Qed.

(** A string that is not read to its end is refused. *)
Lemma narrow_rest s conv lo hi v range rest :
  conv s = (v, range, rest) -> rest <> [] ->
  narrow (Some s) (str2num conv (Some s)) lo hi = (-2, Some 0).
Proof.
  intros E Hr. unfold narrow, str2num. rewrite E. destruct rest as [|c rest]; [done |].
  rewrite (proj2 (Z.eqb_neq (zlen _) 0)) by zlen_lia. done.
Qed.

Lemma strto_rest s : s <> [] -> (forall neg v, ~ numeral s neg v) ->
  exists v range rest, strtol s = (v, range, rest) /\ rest <> [] /\
    exists v' range', strtoul s = (v', range', rest).
Proof.
  intros Hs Hn. unfold strtol, strtoul. destruct (strto s) as [[[neg v] r]|] eqn:E.
  - assert (r <> []) by (intros ->; by apply (Hn neg v), strto_sound).
    repeat case_match; naive_solver.
  - naive_solver.
Qed.

(** ** Properties *)

(** [ipmi_parse_hex] reads the text of bytes back. *)
Lemma parse_hex_string buf out : bytes buf -> zlen buf <= zlen out ->
  ipmi_parse_hex (hex_text buf) (Some out) (zlen out) = Some (zlen buf, Some (buf ++ drop (Z.to_nat (zlen buf)) out)).
Proof.
  intros Hb Ho. unfold ipmi_parse_hex. rewrite zlen_hex_text.
  destruct (Z.eq_dec (zlen buf) 0) as [E0 | E0].
  { rewrite E0. by rewrite (zlen_0_nil buf) by lia. }
  rewrite (proj2 (Z.eqb_neq (2 * zlen buf) 0)) by lia.
  rewrite (Z.mul_comm 2), Z.mod_mul by done. cbn [Z.eqb negb].
  pose proof (parse_hex_text buf [] out (zlen out) Hb Ho ltac:(zlen_lia)) as P.
  cbn [app] in P. change (zlen []) with 0 in P. rewrite P. by rewrite Some_bind, Z.div_mul by done.
Qed.

(** The text of a MAC address, and reading it back. *)
Lemma mac2str_text mac str : bytes mac -> zlen mac = 6 -> zlen str = BUF2STR_MAXIMUM_OUTPUT_SIZE ->
  exists str', mac2str mac str = Some str' /\ c_string str' = sep_text 58 mac.
Proof.
  intros Hm Hl6 Hs. unfold mac2str, buf2str_extended. rewrite take_ge by (unfold zlen in Hl6; lia).
  destruct (buf2str_loop_sep 58 mac [] str BUF2STR_MAXIMUM_OUTPUT_SIZE Hs ltac:(rewrite Hl6; done))
    as (rest & E & Hr).
  rewrite bool_decide_eq_true_2 by (by eexists). change (default [] (Some [58])) with [58].
  cbn [app] in E. change (zlen []) with 0 in E. rewrite E, Some_bind.
  rewrite (wr_next (sep_text 58 mac) rest) by zlen_lia. eexists. split; [done |].
  rewrite <- app_assoc. cbn [app]. by rewrite c_string_app by (by apply sep_text_nonzero).
Qed.

Lemma str2mac_text mac : bytes mac -> zlen mac = 6 -> str2mac (sep_text 58 mac) = (0, Some mac).
Proof.
  intros Hm Hl6. unfold str2mac. destruct mac as [|m mac]; [done |].
  assert (length mac = 5%nat) as <- by (unfold zlen in Hl6; cbn in Hl6; lia).
  rewrite scan_mac_text by done. rewrite (proj2 (forallb_forall _ _)); [done |].
  intros x Hx. apply list_elem_of_In in Hx. eapply Forall_forall in Hm; [| exact Hx].
  unfold is_u8 in Hm. lia.
Qed.

(** What [buf2str] writes [ipmi_parse_hex] reads back, and [str2mac] reads
    back what [mac2str] writes: for every byte string that fits the static
    array, whatever that array and the output buffer held before. *)
Theorem hex_text_roundtrip buf mac str out :
  bytes buf -> 2 * zlen buf < BUF2STR_MAXIMUM_OUTPUT_SIZE -> zlen buf <= zlen out ->
  bytes mac -> zlen mac = 6 -> zlen str = BUF2STR_MAXIMUM_OUTPUT_SIZE ->
  (exists str', buf2str (Some buf) str = Some str' /\
    ipmi_parse_hex (c_string str') (Some out) (zlen out) =
      Some (zlen buf, Some (buf ++ drop (Z.to_nat (zlen buf)) out))) /\
  (exists str', mac2str mac str = Some str' /\ str2mac (c_string str') = (0, Some mac)).
Proof.
  intros Hb Hl Ho Hm Hl6 Hs. split.
  - destruct (buf2str_text buf str Hb Hs Hl) as (str' & -> & E). exists str'. split; [done |]. rewrite E.
    by apply parse_hex_string.
  - destruct (mac2str_text mac str Hm Hl6 Hs) as (str' & -> & E). exists str'. split; [done |]. rewrite E.
    by apply str2mac_text.
Qed.

Lemma hex_text_roundtrip_witness :
  (exists str', buf2str (Some [0; 171; 255]) (zeros BUF2STR_MAXIMUM_OUTPUT_SIZE) = Some str' /\
    ipmi_parse_hex (c_string str') (Some [1; 2; 3; 4]) (zlen [1; 2; 3; 4]) =
      Some (zlen [0; 171; 255], Some ([0; 171; 255] ++ drop (Z.to_nat (zlen [0; 171; 255])) [1; 2; 3; 4]))) /\
  (exists str', mac2str [0; 1; 2; 171; 205; 239] (zeros BUF2STR_MAXIMUM_OUTPUT_SIZE) = Some str' /\
    str2mac (c_string str') = (0, Some [0; 1; 2; 171; 205; 239])).
Proof.
  apply hex_text_roundtrip; [| done | done | | done | apply zlen_zeros; done];
    repeat constructor; unfold is_u8; lia.
Defined.


(** Any other text is refused with -2 and a zero is stored; only the empty
    string, which [strtol] leaves at its end, is taken as zero. *)
Theorem str2_rejects_text s :
  s <> [] -> (forall neg v, ~ numeral s neg v) ->
  Forall (fun f => f (Some s) = (-2, Some 0))
    [str2int; str2short; str2char; str2uint; str2ushort; str2uchar] /\
  Forall (fun f => f (Some []) = (0, Some 0))
    [str2int; str2short; str2char; str2uint; str2ushort; str2uchar].
Proof.
  intros Hs Hn. destruct (strto_rest s Hs Hn) as (v & r & rest & E & Hr & v' & r' & E').
  split; repeat constructor;
    ((by eapply (narrow_rest s strtol)) || (by eapply (narrow_rest s strtoul))).
Qed.


(** A large negative numeral is a small unsigned one. *)
Example str2uchar_wraps : str2uchar (Some (map (fun c => Z.of_nat (Ascii.nat_of_ascii c)) (String.list_ascii_of_string "-18446744073709551615"))) = (0, Some 1).
Proof. vm_compute. reflexivity. Qed.

(** ["1x"]. *)
Lemma str2_rejects_text_witness :
  Forall (fun f => f (Some [49; 120]) = (-2, Some 0))
    [str2int; str2short; str2char; str2uint; str2ushort; str2uchar] /\
  Forall (fun f => f (Some []) = (0, Some 0))
    [str2int; str2short; str2char; str2uint; str2ushort; str2uchar].
Proof.
  apply (str2_rejects_text [49; 120]); [done |]. intros neg v H.
  apply strto_numeral in H. vm_compute in H. discriminate.
Defined.
