(* ===== verification/Session.v ===== *)
(** * Sessions, interfaces and responses (include/ipmitool/ipmi_intf.h, ipmi.h)

    [struct ipmi_session] with the RMCP+ data of [v2_data] and the SOL data of
    [sol_data], the part of [struct ipmi_intf] that the LAN transports use, and
    [struct ipmi_rs].  The payload union of a response is an inductive type
    whose constructor is the member written last. *)

From stdpp Require Export strings.
From S2P Require Import Prelude Wire Ipmi Intf.

#[local] Open Scope Z_scope.

(** ** [struct ipmi_session] *)

Record v2_data_t := mk_v2 {
  session_state : session_state_t;
  requested_auth_alg : Z;
  requested_integrity_alg : Z;
  requested_crypt_alg : Z;
  auth_alg : Z;
  integrity_alg : Z;
  crypt_alg : Z;
  max_priv_level : Z;
  console_id : Z;
  bmc_id : Z;
  console_rand : list Z;
  bmc_rand : list Z;
  bmc_guid : list Z;
  requested_role : Z;
  rakp2_return_code : Z;
  sik : list Z;
  sik_len : Z;
  k1 : list Z;
  k1_len : Z;
  k2 : list Z;
  k2_len : Z;
}.

#[export] Instance v2_data_rebuild : Rebuild v2_data_t := fun r =>
  mk_v2 (session_state r) (requested_auth_alg r) (requested_integrity_alg r)
    (requested_crypt_alg r) (auth_alg r) (integrity_alg r) (crypt_alg r) (max_priv_level r)
    (console_id r) (bmc_id r) (console_rand r) (bmc_rand r) (bmc_guid r) (requested_role r)
    (rakp2_return_code r) (sik r) (sik_len r) (k1 r) (k1_len r) (k2 r) (k2_len r).

Record sol_data_t := mk_sol {
  max_inbound_payload_size : Z;
  max_outbound_payload_size : Z;
  sequence_number : Z;
  last_received_sequence_number : Z;
  last_received_byte_count : Z;
}.

#[export] Instance sol_data_rebuild : Rebuild sol_data_t := fun r =>
  mk_sol (max_inbound_payload_size r) (max_outbound_payload_size r) (sequence_number r)
    (last_received_sequence_number r) (last_received_byte_count r).

Record ipmi_session := mk_session {
  active : bool;
  session_id : Z;
  in_seq : Z;
  out_seq : Z;
  authcode : list Z;
  challenge : list Z;
  authtype : Z;
  authstatus : Z;
  authextra : Z;
  s_timeout : Z;
  v2_data : v2_data_t;
  sol_data : sol_data_t;
}.

#[export] Instance session_rebuild : Rebuild ipmi_session := fun r =>
  mk_session (active r) (session_id r) (in_seq r) (out_seq r) (authcode r) (challenge r)
    (authtype r) (authstatus r) (authextra r) (s_timeout r) (v2_data r) (sol_data r).

(** ** [struct ipmi_intf] *)

Record ipmi_intf := mk_intf {
  opened : bool;
  abort : bool;
  noanswer : bool;
  addr : intf_addr;
  ssn_params : ipmi_session_params;
  oem : option string;
  manufacturer_id : Z;
}.

#[export] Instance intf_rebuild : Rebuild ipmi_intf := fun r =>
  mk_intf (opened r) (abort r) (noanswer r) (addr r) (ssn_params r) (oem r) (manufacturer_id r).

#[export] Instance intf_addr_rebuild : Rebuild intf_addr := fun r =>
  mk_addr (my_addr r) (target_addr r) (target_channel r) (transit_addr r) (transit_channel r)
    (max_request_data_size r) (max_response_data_size r).

#[export] Instance params_rebuild : Rebuild ipmi_session_params := fun r =>
  mk_params (username r) (authcode_set r) (authtype_set r) (privlvl r) (cipher_suite_id r)
    (password r) (retry r) (timeout r) (kg r) (lookupbit r).

(** [ipmi_oem_active] (lib/ipmi_oem.c) *)
Definition ipmi_oem_active (intf : ipmi_intf) (oemtype : string) : bool :=
  match oem intf with
  | None => false
  | Some name => if decide (name = oemtype) then true else false
  end.

(** ** [struct ipmi_rs] *)

(** The union [payload]: its bytes.  Its members overlap: what one member was
    given is read back through another one byte by byte, and bytes that no
    assignment reaches (padding, the rest of an array) keep their old value.
    The offsets are those of the natural alignment and the numbers those of a
    little-endian host; the largest member is [rakp2_message]. *)
Definition rs_payload_t : Type := list Z.
Definition PAYLOAD_UNION_SIZE : Z := 72.

(** The bytes [bs] are stored at the offset [off] (the zeros only make the
    definition total: a union has all of its bytes). *)
Definition u_put (off : Z) (bs : list Z) (u : rs_payload_t) : rs_payload_t :=
  take (Z.to_nat off) (u ++ zeros PAYLOAD_UNION_SIZE) ++ bs ++ drop (Z.to_nat off + length bs) u.

(** The assignments to the members *)
Definition put_ipmi_response (rq_addr netfn rq_lun rs_addr rq_seq rs_lun cmd : Z) : rs_payload_t -> rs_payload_t :=
  u_put 0 [rq_addr; netfn; rq_lun; rs_addr; rq_seq; rs_lun; cmd].
Definition put_open_session_response (message_tag rakp_return_code max_priv_level console_id bmc_id
    auth_alg integrity_alg crypt_alg : Z) : rs_payload_t -> rs_payload_t :=
  u_put 0 ([message_tag; rakp_return_code; max_priv_level; 0] ++ htoipmi32 console_id ++ htoipmi32 bmc_id
           ++ [auth_alg; integrity_alg; crypt_alg; 0]).
Definition put_rakp2_message (message_tag rakp_return_code console_id : Z)
    (bmc_rand bmc_guid key_exchange_auth_code : list Z) (u : rs_payload_t) : rs_payload_t :=
  u_put 4 (htoipmi32 console_id ++ bmc_rand ++ bmc_guid ++ key_exchange_auth_code)
    (u_put 0 [message_tag; rakp_return_code] u).
Definition put_rakp4_message (message_tag rakp_return_code console_id : Z) (integrity_check_value : list Z)
    (u : rs_payload_t) : rs_payload_t :=
  u_put 4 (htoipmi32 console_id ++ integrity_check_value) (u_put 0 [message_tag; rakp_return_code] u).
Definition put_sol_packet (packet_sequence_number acked_packet_number accepted_character_count is_nack
    transfer_unavailable sol_inactive transmit_overrun break_detected : Z) : rs_payload_t -> rs_payload_t :=
  u_put 0 [packet_sequence_number; acked_packet_number; accepted_character_count; is_nack;
    transfer_unavailable; sol_inactive; transmit_overrun; break_detected].

(** [data] is the whole array, [data_len] the count the code keeps. *)
Record ipmi_rs := mk_rs {
  ccode : Z;
  rs_data : list Z;
  rs_data_len : Z;
  rs_authtype : Z;
  rs_seq : Z;
  rs_id : Z;
  bEncrypted : Z;
  bAuthenticated : Z;
  payloadtype : Z;
  msglen : Z;
  rs_payload : rs_payload_t;
}.

#[export] Instance rs_rebuild : Rebuild ipmi_rs := fun r =>
  mk_rs (ccode r) (rs_data r) (rs_data_len r) (rs_authtype r) (rs_seq r) (rs_id r)
    (bEncrypted r) (bAuthenticated r) (payloadtype r) (msglen r) (rs_payload r).

(** The members as they are read *)
Definition ipmi_netfn (r : ipmi_rs) : Z := rd (rs_payload r) 1.
Definition ipmi_rq_seq (r : ipmi_rs) : Z := rd (rs_payload r) 4.
Definition ipmi_cmd (r : ipmi_rs) : Z := rd (rs_payload r) 6.
(** [rakp_return_code] has the same place in all messages of the set-up. *)
Definition rakp_return_code (r : ipmi_rs) : Z := rd (rs_payload r) 1.
Definition open_max_priv (r : ipmi_rs) : Z := rd (rs_payload r) 2.
Definition open_bmc_id (r : ipmi_rs) : Z := ipmi32toh (drop 8 (rs_payload r)).
Definition open_auth_alg (r : ipmi_rs) : Z := rd (rs_payload r) 12.
Definition open_integrity_alg (r : ipmi_rs) : Z := rd (rs_payload r) 13.
Definition open_crypt_alg (r : ipmi_rs) : Z := rd (rs_payload r) 14.
Definition rakp2_bmc_rand (r : ipmi_rs) : list Z := slice (rs_payload r) 8 16.
Definition rakp2_bmc_guid (r : ipmi_rs) : list Z := slice (rs_payload r) 24 16.
Definition rakp2_auth_code (r : ipmi_rs) : list Z := slice (rs_payload r) 40 IPMI_MAX_MD_SIZE.
Definition rakp4_check_value (r : ipmi_rs) : list Z := slice (rs_payload r) 8 IPMI_MAX_MD_SIZE.

(** Of a SOL packet: the sequence number, the acknowledged number, the count
    of accepted characters, [is_nack] and [transfer_unavailable]. *)
Record sol_info := mk_sol_info { sol_seq : Z; sol_acked : Z; sol_accepted : Z; sol_nack : Z; sol_unavail : Z }.
Definition sol_fields (r : ipmi_rs) : sol_info :=
  let u := rd (rs_payload r) in mk_sol_info (u 0) (u 1) (u 2) (u 3) (u 4).

(** The valid part of the data. *)
Definition rsp_data (rsp : ipmi_rs) : list Z := take (Z.to_nat (rs_data_len rsp)) (rs_data rsp).

(** A session in its initial state: [memset] of the structure. *)
Definition zero_v2 : v2_data_t :=
  mk_v2 LANPLUS_STATE_PRESESSION 0 0 0 0 0 0 0 0 0 (zeros 16) (zeros 16) (zeros 16) 0 0
    (zeros IPMI_MAX_MD_SIZE) 0 (zeros IPMI_MAX_MD_SIZE) 0 (zeros IPMI_MAX_MD_SIZE) 0.
Definition zero_session : ipmi_session :=
  mk_session false 0 0 0 (zeros (IPMI_AUTHCODE_BUFFER_SIZE + 1)) (zeros 16) 0 0 0 0 zero_v2
    (mk_sol 0 0 0 0 0).
Definition zero_rs : ipmi_rs := mk_rs 0 (zeros IPMI_BUF_SIZE) 0 0 0 0 0 0 0 0 (zeros PAYLOAD_UNION_SIZE).

(** ** Well-formed states: the widths of the fields and arrays *)

Definition v2_wf (v : v2_data_t) : Prop :=
  is_u32 (console_id v) /\ is_u32 (bmc_id v) /\ is_u8 (requested_role v) /\
  (zlen (console_rand v) = 16 /\ bytes (console_rand v)) /\
  (zlen (bmc_rand v) = 16 /\ bytes (bmc_rand v)) /\
  (zlen (bmc_guid v) = 16 /\ bytes (bmc_guid v)) /\
  (zlen (sik v) = IPMI_MAX_MD_SIZE /\ 0 <= sik_len v <= IPMI_MAX_MD_SIZE) /\
  (zlen (k1 v) = IPMI_MAX_MD_SIZE /\ 0 <= k1_len v <= IPMI_MAX_MD_SIZE) /\
  zlen (k2 v) = IPMI_MAX_MD_SIZE.

Definition session_wf (s : ipmi_session) : Prop :=
  is_u32 (out_seq s) /\ zlen (authcode s) = IPMI_AUTHCODE_BUFFER_SIZE + 1 /\ v2_wf (v2_data s).

(** [username] is a 17-byte array that holds a terminated string. *)
Definition params_wf (p : ipmi_session_params) : Prop :=
  zlen (username p) = 17 /\ bytes (username p) /\ rd (username p) 16 = 0 /\
  is_u8 (privlvl p) /\ zlen (kg p) = IPMI_KG_BUFFER_SIZE.
