(* ===== verification/Bmc.v ===== *)
(** * Commands to a management controller (intf->sendrecv)

    The command modules reach the controller through the function pointer
    [sendrecv] of the interface.  Which transport is behind it, and the
    controller itself, are outside these modules: they are the class [Bmc], a
    device state with one operation.  What a module relies on is stated as a
    class of laws next to the module. *)

From S2P Require Import Prelude Ipmi Intf Session.

#[local] Open Scope Z_scope.

(** The answer to a request, [None] for NULL, and the new state. *)
Class Bmc (dev : Type) := bmc_answer : ipmi_rq -> dev -> option ipmi_rs * dev.

Definition sendrecv {dev} `{bmc : Bmc dev} (req : ipmi_rq) : M dev (option ipmi_rs) :=
  fun d => Ok (bmc_answer req d).

(** The bytes of an uninitialised local array. *)
Class Stack := uninit : Z -> list Z.
Class StackLaws (st : Stack) := uninit_len : forall n, 0 <= n -> zlen (uninit n) = n.

#[export] Instance toy_stack : Stack := fun n => replicate (Z.to_nat n) 0xCC.
#[export] Instance toy_stack_laws : StackLaws toy_stack.
Proof. intros n Hn. unfold uninit, toy_stack. rewrite zlen_replicate. lia. Qed.

(** The successive readings of a clock in seconds. *)
Class Clock := clock : nat -> Z.

(** What becomes of the controller while the program sleeps for some seconds. *)
Class Sleep (dev : Type) := slept : Z -> dev -> dev.

Definition sleep {dev} `{slp : Sleep dev} (seconds : Z) : M dev unit := modify (slept seconds).

Definition BMC_GET_DEVICE_ID : Z := 0x01.

(** A request of the storage network function, as the modules fill it in. *)
Definition storage_rq (cmd : Z) (data : list Z) : ipmi_rq := mk_rq IPMI_NETFN_STORAGE 0 cmd 0 data.

(** [rsp->data + off] for [n] bytes, inside the array of the response. *)
Definition rsp_bytes (r : ipmi_rs) (off n : Z) : res (list Z) :=
  if (0 <=? off) && (0 <=? n) && (off + n <=? zlen (rs_data r))
  then Ok (slice (rs_data r) off n) else Bad OutOfBounds.

(** Checked reads of a buffer. *)
Definition rdx (buf : list Z) (i : Z) : res Z :=
  if (0 <=? i) && (i <? zlen buf) then Ok (rd buf i) else Bad OutOfBounds.
Definition slx (buf : list Z) (off n : Z) : res (list Z) :=
  if (0 <=? off) && (0 <=? n) && (off + n <=? zlen buf) then Ok (slice buf off n) else Bad OutOfBounds.

(** [memset(buf + off, 0, n)]; the size is tested before the zeros are made. *)
Definition memset0 (buf : list Z) (off n : Z) : res (list Z) :=
  if (0 <=? off) && (off + n <=? zlen buf) then or_oob (wr buf off (zeros n)) else Bad OutOfBounds.

(** A response with completion code [cc] and [data] at the head of its array. *)
Definition reply (cc : Z) (data : list Z) : ipmi_rs :=
  zero_rs <| ccode := cc |> <| rs_data := data ++ zeros (IPMI_BUF_SIZE - zlen data) |>
    <| rs_data_len := zlen data |>.

(** A response carries [data]. *)
Definition carries (r : ipmi_rs) (data : list Z) : Prop :=
  rs_data_len r = zlen data /\ exists rest, rs_data r = data ++ rest.

(** ** Lemmas *)

Lemma carries_reply cc data : carries (reply cc data) data.
Proof. split; [done |]. by eexists. Qed.

(** Run the first step of a computation. *)
Lemma lift_Ok_bind {S A B} (a : A) (f : A -> M S B) s : (lift (Ok a) ≫= f) s = f a s.
Proof. done. Qed.

Lemma lift_Some_bind {S A B} (a : A) (f : A -> M S B) s : (lift (or_oob (Some a)) ≫= f) s = f a s.
Proof. done. Qed.

Lemma sendrecv_bind {dev B} `{bmc : Bmc dev} req (f : option ipmi_rs -> M dev B) d r d' :
  bmc_answer req d = (r, d') -> (sendrecv req ≫= f) d = f r d'.
Proof. intros E. apply M_bind_run. unfold sendrecv. by rewrite E. Qed.

Lemma rsp_bytes_ok r off n : 0 <= off -> 0 <= n -> off + n <= zlen (rs_data r) ->
  rsp_bytes r off n = Ok (slice (rs_data r) off n).
Proof. intros. unfold rsp_bytes. rewrite !(proj2 (Z.leb_le _ _)) by lia. done. Qed.

Lemma slx_ok buf off n : 0 <= off -> 0 <= n -> off + n <= zlen buf -> slx buf off n = Ok (slice buf off n).
Proof. intros. unfold slx. rewrite !(proj2 (Z.leb_le _ _)) by lia. done. Qed.

Lemma slx_mid (a b c : list Z) off n : off = zlen a -> n = zlen b -> slx (a ++ b ++ c) off n = Ok b.
Proof.
  intros -> ->. pose proof (zlen_nonneg a). pose proof (zlen_nonneg b). pose proof (zlen_nonneg c).
  rewrite slx_ok by (rewrite ?zlen_app; lia). by rewrite slice_app_mid.
Qed.

Lemma rdx_ok buf i : 0 <= i < zlen buf -> rdx buf i = Ok (rd buf i).
Proof. intros. unfold rdx. rewrite (proj2 (Z.leb_le _ _)), (proj2 (Z.ltb_lt _ _)) by lia. done. Qed.

Lemma slx_Ok buf off n b : slx buf off n = Ok b ->
  0 <= off /\ 0 <= n /\ off + n <= zlen buf /\ b = slice buf off n.
Proof. unfold slx. intros H. case_match; [| done]. bool_hyps. by injection H as <-. Qed.

Lemma rdx_Ok buf i x : rdx buf i = Ok x -> 0 <= i < zlen buf /\ x = rd buf i.
Proof. unfold rdx. intros H. case_match; [| done]. bool_hyps. injection H as <-. done. Qed.

Lemma carries_head r x data : carries r (x :: data) -> rd (rs_data r) 0 = x.
Proof. intros (_ & rest & ->). done. Qed.

Lemma carries_bytes r data : carries r data -> forall off n, 0 <= off -> 0 <= n ->
  off + n <= zlen data -> rsp_bytes r off n = Ok (slice data off n).
Proof.
  intros (_ & rest & E) off n H0 H1 H2. rewrite rsp_bytes_ok; rewrite ?E; try done; [| zlen_lia].
  f_equal. by apply slice_app_l.
Qed.
