(* ===== verification/Channel.v ===== *)
(** * Queries of a controller when a session opens (lib/ipmi_channel.c,
      lib/hpm2.c, ipmi_get_oem of lib/ipmi_sel.c)

    The cipher suites of a channel, the HPM.2 payload sizes and the
    manufacturer.  [intf->sendrecv] is a parameter: the transport passes its own
    send function. *)

From S2P Require Import Prelude Wire Ipmi Intf Session Bmc.

#[local] Open Scope Z_scope.

Definition IPMI_GET_CHANNEL_CIPHER_SUITES : Z := 0x54.
Definition STANDARD_CIPHER_SUITE : Z := 0xc0.
Definition OEM_CIPHER_SUITE : Z := 0xc1.
Definition CIPHER_ALG_MASK : Z := 0x3f.
Definition MAX_CIPHER_SUITE_RECORD_OFFSET : Z := 0x40.
Definition MAX_CIPHER_SUITE_DATA_LEN : Z := 0x10.
Definition LIST_ALGORITHMS_BY_CIPHER_SUITE : Z := 0x80.
Definition MAX_CIPHER_SUITE_COUNT : Z := 204.

Definition IPMI_NETFN_PICMG : Z := 0x2C.
Definition IPMI_NETFN_TRANSPORT : Z := 0xc.
Definition HPM2_GET_LAN_ATTACH_CAPABILITIES : Z := 0x3E.
Definition IPMI_LAN_GET_CONFIG : Z := 0x02.
Definition HPM2_LAN_PARAMS_REV : Z := 0x01.
Definition HPM2_SOL_PARAMS_REV : Z := 0x01.
Definition HPM2_CAPS_SOL_EXTENSION : Z := 0x01.
Definition LAN_PARAM_REV (x y : Z) : Z := (x .<< 4) .| (y .& 0xF).
Definition IPMI_OEM_UNKNOWN : Z := 0.

(** [struct cipher_suite_info] *)
Record cipher_suite_info := mk_suite {
  cs_id : Z;
  cs_auth : Z;
  cs_integrity : Z;
  cs_crypt : Z;
  cs_iana : Z;
}.

(** [parse_cipher_suite] on the data from the current offset: the suite and the
    size of its record, [None] for size 0. *)
Definition parse_cipher_suite (data : list Z) : option (cipher_suite_info * Z) :=
  let alg i := CIPHER_ALG_MASK .& rd data i in
  if rd data 0 =? STANDARD_CIPHER_SUITE then
    if zlen data <? 5 then None else Some (mk_suite (rd data 1) (alg 2) (alg 3) (alg 4) 0, 5)
  else if rd data 0 =? OEM_CIPHER_SUITE then
    if zlen data <? 8 then None
    else Some (mk_suite (rd data 1) (alg 5) (alg 6) (alg 7) (ipmi24toh (slice data 2 3)), 8)
  else None.

(** [parse_channel_cipher_suite_data]: the first [*count] suites. *)
Fixpoint parse_channel_cipher_suite_data (fuel : nat) (data : list Z) (nr_suites : Z)
    : res (list cipher_suite_info) :=
  match fuel with
  | O => Bad OutOfFuel
  | S fuel =>
      if (zlen data <=? 0) || (nr_suites <=? 0) then Ok [] else
      match parse_cipher_suite data with
      | None => Ok []
      | Some (suite, size) =>
          suites ← parse_channel_cipher_suite_data fuel (drop (Z.to_nat size) data) (nr_suites - 1);
          Ok (suite :: suites)
      end
  end.

Section Query.
Context {st : Type} (sendrecv : ipmi_rq -> M st (option ipmi_rs)).

(** The rounds of [ipmi_get_channel_cipher_suites]: [rounds] more of them,
    [data] is what [cipher_suite_data] holds; [None] is -1. *)
Fixpoint suite_rounds (rounds : nat) (channel payload list_index : Z) (data : list Z)
    : M st (option (list Z)) :=
  match rounds with
  | O => mret (Some data)
  | S rounds =>
      rsp ← sendrecv (mk_rq IPMI_NETFN_APP 0 IPMI_GET_CHANNEL_CIPHER_SUITES 0
               [channel; payload; LIST_ALGORITHMS_BY_CIPHER_SUITE .| list_index]);
      match rsp with
      | None => mret None
      | Some r =>
          if negb (ccode r =? 0) || (rs_data_len r <? 1) || (1 + MAX_CIPHER_SUITE_DATA_LEN <? rs_data_len r)
          then mret None
          else
            d ← lift (rsp_bytes r 1 (rs_data_len r - 1));
            let data := data ++ d in
            if MAX_CIPHER_SUITE_RECORD_OFFSET * MAX_CIPHER_SUITE_DATA_LEN <? zlen data then fail OutOfBounds
            else if rs_data_len r =? 1 + MAX_CIPHER_SUITE_DATA_LEN
            then suite_rounds rounds channel payload (list_index + 1) data
            else mret (Some data)
      end
  end.

(** [ipmi_get_channel_cipher_suites] with the payload type "ipmi". *)
Definition ipmi_get_channel_cipher_suites (channel nr_suites : Z) : M st (option (list cipher_suite_info)) :=
  if nr_suites =? 0 then mret None else
  data ← suite_rounds (Z.to_nat MAX_CIPHER_SUITE_RECORD_OFFSET) channel 0 0 [];
  match data with
  | None => mret None
  | Some data =>
      suites ← lift (parse_channel_cipher_suite_data (S (length data)) data nr_suites);
      mret (Some suites)
  end.

(** ** HPM.2 *)

(** [struct hpm2_lan_attach_capabilities] is its 8 bytes. *)
Definition caps_mask (caps : list Z) : Z := ipmi16toh (slice caps 1 2).

(** The checks of [hpm2_get_capabilities] on the copied capabilities. *)
Definition hpm2_check (caps : list Z) (data_len : Z) : Z :=
  if rd caps 0 =? 0 then -1
  else if caps_mask caps =? 0 then -1
  else if data_len <? 8 then -1
  else if rd caps 4 <? 0xC0 then -1
  else if negb (rd caps 5 =? HPM2_LAN_PARAMS_REV) then -1
  else if rd caps 3 .& HPM2_CAPS_SOL_EXTENSION =? 0 then 0
  else if data_len <? 10 then -1
  else if rd caps 6 <? 0xC0 then -1
  else if negb (rd caps 7 =? HPM2_SOL_PARAMS_REV) then -1
  else 0.

(** [hpm2_get_capabilities] *)
Definition hpm2_get_capabilities : M st (Z * list Z) :=
  let caps := zeros 8 in
  rsp ← sendrecv (mk_rq IPMI_NETFN_PICMG 0 HPM2_GET_LAN_ATTACH_CAPABILITIES 0 [0; 2]);
  match rsp with
  | None => mret (-1, caps)
  | Some r =>
      if negb (ccode r =? 0) then mret (ccode r, caps)
      else if (rs_data_len r <? 2) || (10 <? rs_data_len r) then mret (-1, caps)
      else
        id ← lift (rdx (rs_data r) 1);
        if negb (id =? 2) then mret (ccode r, caps)
        else if rs_data_len r <? 4 then mret (-1, caps)
        else
          d ← lift (rsp_bytes r 2 (rs_data_len r - 2));
          caps ← lift (or_oob (wr caps 0 d));
          mret (hpm2_check caps (rs_data_len r), caps)
  end.

(** [hpm2_get_lan_channel_capabilities]; the structure is its 7 bytes. *)
Definition hpm2_get_lan_channel_capabilities (hpm2_lan_params_start : Z) : M st (Z * list Z) :=
  let caps := zeros 7 in
  rsp ← sendrecv (mk_rq IPMI_NETFN_TRANSPORT 0 IPMI_LAN_GET_CONFIG 0 [0xE; hpm2_lan_params_start; 0; 0]);
  match rsp with
  | None => mret (-1, caps)
  | Some r =>
      if negb (ccode r =? 0) then mret (ccode r, caps)
      else if negb (rs_data_len r =? 7 + 1) then mret (-1, caps)
      else
        rev ← lift (rdx (rs_data r) 0);
        if negb (rev =? LAN_PARAM_REV HPM2_LAN_PARAMS_REV HPM2_LAN_PARAMS_REV) then mret (-1, caps)
        else d ← lift (rsp_bytes r 1 7); mret (0, d)
  end.

(** [hpm2_detect_max_payload_size]; the two setters are those of the
    interface. *)
Definition hpm2_detect_max_payload_size (set_max_request set_max_response : Z -> M st unit) : M st Z :=
  '(err, attach) ← hpm2_get_capabilities;
  if negb (err =? 0) || (caps_mask attach =? 0) then mret err else
  '(err, chan) ← hpm2_get_lan_channel_capabilities (rd attach 4);
  if negb (err =? 0) then mret err else
  _ ← set_max_request (u16 (ipmi16toh (slice chan 3 2) - 7));
  _ ← set_max_response (u16 (ipmi16toh (slice chan 5 2) - 8));
  mret 0.

(** [ipmi_get_oem]; [sel_iana] is the static of ipmi_sel.c. *)
Definition ipmi_get_oem (fd sel_iana : Z) (opened : bool) (manufacturer_id : Z) : M st Z :=
  if fd =? 0 then mret (if negb (sel_iana =? IPMI_OEM_UNKNOWN) then sel_iana else IPMI_OEM_UNKNOWN) else
  if opened && negb (manufacturer_id =? IPMI_OEM_UNKNOWN) then mret manufacturer_id else
  rsp ← sendrecv (mk_rq IPMI_NETFN_APP 0 1 0 []);
  match rsp with
  | None => mret IPMI_OEM_UNKNOWN
  | Some r =>
      if negb (ccode r =? 0) then mret IPMI_OEM_UNKNOWN else
      d ← lift (rsp_bytes r 6 3);
      mret (ipmi24toh d)
  end.
End Query.

(** ** What the parser reads back *)

(** The record of a suite: standard suites have no IANA number. *)
Definition suite_record (s : cipher_suite_info) : list Z :=
  if cs_iana s =? 0 then [STANDARD_CIPHER_SUITE; cs_id s; cs_auth s; cs_integrity s .| 0x40; cs_crypt s .| 0x80]
  else [OEM_CIPHER_SUITE; cs_id s] ++ htoipmi24 (cs_iana s) ++ [cs_auth s; cs_integrity s .| 0x40; cs_crypt s .| 0x80].

Definition suite_ok (s : cipher_suite_info) : Prop :=
  0 <= cs_auth s < 64 /\ 0 <= cs_integrity s < 64 /\ 0 <= cs_crypt s < 64 /\ 0 <= cs_iana s < 16777216.

(** The algorithm number without the tag of its kind. *)
Definition alg_tag_ok (a : Z) : bool :=
  negb (a <? 64) || ((CIPHER_ALG_MASK .& a =? a) && (CIPHER_ALG_MASK .& (a .| 0x40) =? a) &&
    (CIPHER_ALG_MASK .& (a .| 0x80) =? a)).

Lemma alg_tags a : 0 <= a < 64 -> CIPHER_ALG_MASK .& a = a /\ CIPHER_ALG_MASK .& (a .| 0x40) = a /\
  CIPHER_ALG_MASK .& (a .| 0x80) = a.
Proof.
  intros H. assert (all_u8 alg_tag_ok = true) as Hall by (by vm_compute).
  assert (is_u8 a) as Ha by (unfold is_u8; lia).
  pose proof (all_u8_spec _ _ Hall Ha) as E. unfold alg_tag_ok in E.
  rewrite (proj2 (Z.ltb_lt _ _)) in E by lia. cbn [negb orb] in E. bool_hyps. by split_and!.
Qed.

Lemma iana_bytes x t : 0 <= x < 16777216 -> ipmi24toh (htoipmi24 x ++ t) = x.
Proof.
  intros H. change (ipmi24toh (htoipmi24 x ++ t)) with
    ((((x .>> 16) .& 255) .<< 16) .| (((x .>> 8) .& 255) .<< 8) .| (x .& 255)).
  rewrite !shiftr_byte, land_ff by done. unfold u8. change (2 ^ 16) with 65536. change (2 ^ 8) with 256.
  assert (0 <= x mod 256 < 256) by (apply Z.mod_pos_bound; lia).
  assert (0 <= (x / 256) mod 256 < 256) by (apply Z.mod_pos_bound; lia).
  rewrite <- Z.lor_assoc, (lor_shiftl_add _ (x mod 256) 8), lor_shiftl_add by (change (2 ^ 16) with 65536; change (2 ^ 8) with 256; lia).
  change (2 ^ 16) with 65536. change (2 ^ 8) with 256. Z.to_euclidean_division_equations. lia.
Qed.

Lemma parse_suite_record s t : suite_ok s ->
  parse_cipher_suite (suite_record s ++ t) = Some (s, zlen (suite_record s)).
Proof.
  intros (Ha & Hi & Hc & Hn). destruct (alg_tags _ Ha) as (Ea & _), (alg_tags _ Hi) as (_ & Ei & _),
    (alg_tags _ Hc) as (_ & _ & Ec). pose proof (zlen_nonneg t).
  unfold parse_cipher_suite, suite_record. destruct (Z.eqb_spec (cs_iana s) 0) as [E|E].
  - rewrite (proj2 (Z.ltb_ge _ 5)) by zlen_lia.
    unfold rd. by_nat_consts. cbn -[Z.land Z.lor]. rewrite Ea, Ei, Ec. destruct s. cbn in *. by subst.
  - rewrite (proj2 (Z.ltb_ge _ 8)) by (unfold htoipmi24; zlen_lia).
    rewrite (proj2 (Z.eqb_neq (rd _ 0) STANDARD_CIPHER_SUITE)) by done.
    rewrite (proj2 (Z.eqb_eq (rd _ 0) OEM_CIPHER_SUITE)) by done. cbv zeta.
    assert (slice (([OEM_CIPHER_SUITE; cs_id s] ++ htoipmi24 (cs_iana s) ++
      [cs_auth s; cs_integrity s .| 0x40; cs_crypt s .| 0x80]) ++ t) 2 3 = htoipmi24 (cs_iana s)) as -> by done.
    pose proof (iana_bytes (cs_iana s) [] Hn) as En. rewrite app_nil_r in En. rewrite En. unfold rd, htoipmi24. by_nat_consts. cbn -[Z.land Z.lor].
    rewrite Ea, Ei, Ec. by destruct s.
Qed.

Lemma parse_suite_records l fuel nr : Forall suite_ok l -> (length (concat (map suite_record l)) < fuel)%nat ->
  zlen l <= nr ->
  parse_channel_cipher_suite_data fuel (concat (map suite_record l)) nr = Ok l.
Proof.
  revert l nr. induction fuel as [|fuel IH]; intros l nr H Hf Hn; [lia |].
  destruct l as [|s l]; [done |]. apply Forall_cons in H as [Hs H].
  assert (5 <= zlen (suite_record s)) as Hz by (unfold suite_record, htoipmi24; case_match; zlen_lia).
  cbn [map concat] in *. cbn [parse_channel_cipher_suite_data]. rewrite length_app in Hf.
  pose proof (zlen_nonneg l). rewrite zlen_cons in Hn.
  rewrite (proj2 (Z.leb_gt (zlen _) 0)), (proj2 (Z.leb_gt nr 0)) by (rewrite ?zlen_app; zlen_lia || lia).
  cbn [orb]. rewrite parse_suite_record by done.
  unfold zlen at 1. rewrite Nat2Z.id, drop_app_length, IH; try done; [unfold zlen in Hz; lia | lia].
Qed.

(** ** Fetching the suites *)

Definition suites_rq (channel i : Z) : ipmi_rq :=
  mk_rq IPMI_NETFN_APP 0 IPMI_GET_CHANNEL_CIPHER_SUITES 0 [channel; 0; LIST_ALGORITHMS_BY_CIPHER_SUITE .| i].

(** In the states of [inv] the controller answers index [i] with the [i]-th 16
    bytes of [data]. *)
Definition serves_suites {st} (sendrecv : ipmi_rq -> M st (option ipmi_rs)) (channel : Z) (data : list Z)
    (inv : st -> Prop) : Prop :=
  forall s i, inv s -> 0 <= i < MAX_CIPHER_SUITE_RECORD_OFFSET -> exists r chan s',
    sendrecv (suites_rq channel i) s = Ok (Some r, s') /\ ccode r = 0 /\
    carries r (chan :: slice data (16 * i) 16) /\ inv s'.

Lemma zlen_chunk data i : 0 <= i -> zlen (slice data (16 * i) 16) = Z.min 16 (Z.max 0 (zlen data - 16 * i)).
Proof. intros H. unfold slice. rewrite zlen_take, zlen_drop. lia. Qed.

Lemma suite_rounds_run {st} (sendrecv : ipmi_rq -> M st (option ipmi_rs)) channel data inv rounds i s :
  serves_suites sendrecv channel data inv -> inv s -> 0 <= i -> i + Z.of_nat rounds = MAX_CIPHER_SUITE_RECORD_OFFSET ->
  zlen data <= 1024 ->
  exists s', suite_rounds sendrecv rounds channel 0 i (slice data 0 (16 * i)) s = Ok (Some data, s') /\ inv s'.
Proof.
  unfold MAX_CIPHER_SUITE_RECORD_OFFSET. revert i s. induction rounds as [|rounds IH]; intros i s Hs Hinv Hi Hr Hz.
  { cbn [suite_rounds]. exists s. rewrite slice_all by lia. done. }
  cbn [suite_rounds]. destruct (Hs s i Hinv) as (r & chan & s1 & Er & Hcc & Hc & Hinv1);
    [unfold MAX_CIPHER_SUITE_RECORD_OFFSET; lia |].
  change (mk_rq _ _ _ _ _) with (suites_rq channel i). rewrite (M_bind_run _ _ _ _ _ Er), Hcc. cbn [Z.eqb negb orb].
  pose proof (zlen_chunk data i Hi) as Hzc. pose proof (zlen_nonneg data).
  pose proof Hc as (Hdl & _). rewrite zlen_cons, Hzc in Hdl.
  rewrite (proj2 (Z.ltb_ge (rs_data_len r) 1)), (proj2 (Z.ltb_ge (1 + _) _)) by (unfold MAX_CIPHER_SUITE_DATA_LEN; lia).
  cbn [orb]. rewrite (carries_bytes _ _ Hc) by (rewrite ?zlen_cons; lia). rewrite lift_Ok_bind.
  replace (slice (chan :: slice data (16 * i) 16) 1 (rs_data_len r - 1)) with (slice data (16 * i) 16).
  2: { change (chan :: ?l) with ([chan] ++ l). rewrite slice_app_r by done. change (1 - zlen [chan]) with 0.
       rewrite slice_all; [done | rewrite Hzc; lia]. }
  change (slice data (16 * i) 16) with (slice data (0 + 16 * i) 16). rewrite slice_cat by lia.
  replace (16 * i + 16) with (16 * (i + 1)) by lia.
  rewrite (proj2 (Z.ltb_ge _ (zlen _))).
  2: { unfold slice, MAX_CIPHER_SUITE_RECORD_OFFSET, MAX_CIPHER_SUITE_DATA_LEN. rewrite zlen_take, zlen_drop. lia. }
  unfold MAX_CIPHER_SUITE_DATA_LEN. destruct (Z.eqb_spec (rs_data_len r) (1 + 16)) as [E|E].
  - apply IH; try done; lia.
  - exists s1. rewrite slice_all by lia. done.
Qed.

(** C20. [ipmi_get_channel_cipher_suites] ends after at most 64 requests and
    returns the suites of the channel, standard and OEM, in their order, when
    their records fit the buffer of 1024 bytes. *)
Theorem cipher_suites_fetched {st} (sendrecv : ipmi_rq -> M st (option ipmi_rs)) channel nr_suites l inv s :
  serves_suites sendrecv channel (concat (map suite_record l)) inv -> inv s ->
  Forall suite_ok l -> zlen l <= nr_suites -> 0 < nr_suites -> zlen (concat (map suite_record l)) <= 1024 ->
  exists s', ipmi_get_channel_cipher_suites sendrecv channel nr_suites s = Ok (Some l, s') /\ inv s'.
Proof.
  intros Hs Hinv Hl Hn H0 Hz. unfold ipmi_get_channel_cipher_suites.
  rewrite (proj2 (Z.eqb_neq nr_suites 0)) by lia.
  destruct (suite_rounds_run sendrecv channel _ inv 64 0 s Hs Hinv ltac:(lia) ltac:(done) Hz) as (s' & E & Hinv').
  exists s'. change (Z.to_nat MAX_CIPHER_SUITE_RECORD_OFFSET) with 64%nat.
  change (slice _ 0 (16 * 0)) with (@nil Z) in E. rewrite (M_bind_run _ _ _ _ _ E).
  rewrite parse_suite_records by (done || lia). done.
Qed.

Definition toy_suites : list cipher_suite_info :=
  [mk_suite 3 1 1 1 0; mk_suite 0x80 2 2 3 0x1234; mk_suite 17 3 4 1 0].

Definition toy_suite_send (data : list Z) (req : ipmi_rq) (s : unit) : res (option ipmi_rs * unit) :=
  Ok (Some (reply 0 (0xE :: slice data (16 * (rd (rq_data req) 2 - 0x80)) 16)), s).

Lemma cipher_suites_fetched_witness : exists s',
  ipmi_get_channel_cipher_suites (toy_suite_send (concat (map suite_record toy_suites))) 0xE
    MAX_CIPHER_SUITE_COUNT tt = Ok (Some toy_suites, s') /\ s' = tt.
Proof.
  apply (cipher_suites_fetched _ 0xE MAX_CIPHER_SUITE_COUNT toy_suites (fun s => s = tt)).
  - intros s i Hs Hi. unfold toy_suite_send. do 3 eexists. split; [reflexivity |]. split; [reflexivity |].
    split; [| exact Hs]. assert (rd (rq_data (suites_rq 0xE i)) 2 - 0x80 = i) as ->.
    { change (rd (rq_data (suites_rq 0xE i)) 2) with ((1 .<< 7) .| i). unfold MAX_CIPHER_SUITE_RECORD_OFFSET in Hi.
      rewrite lor_shiftl_add by (change (2 ^ 7) with 128; lia). change (2 ^ 7) with 128. lia. }
    split; [reflexivity | by eexists].
  - reflexivity.
  - repeat (apply Forall_cons; split; [unfold suite_ok; cbn; lia |]). constructor.
  - vm_compute. discriminate.
  - reflexivity.
  - vm_compute. discriminate.
Defined.
