(* ===== verification/Fru.v ===== *)
(** * FRU inventory (lib/ipmi_fru.c)

    The checksum of an area, the decoding of a field, and the transfer of
    ranges of the inventory: [read_fru_area] and [read_fru_area_section] with
    their adaptation to the sizes the controller accepts, and [write_fru_area],
    which writes block by block so that a write-protected block is skipped. *)

From S2P Require Import Prelude Wire Ipmi Intf Session Helper Bmc.

#[local] Open Scope Z_scope.

Definition GET_FRU_INFO : Z := 0x10.
Definition GET_FRU_DATA : Z := 0x11.
Definition SET_FRU_DATA : Z := 0x12.
Definition FRU_BLOCK_SZ : Z := 8.
Definition FRU_AREA_MAXIMUM_BLOCK_SZ : Z := 32.
Definition IPMI_CC_REQ_DATA_INV_LENGTH : Z := 0xc7.
Definition IPMI_CC_REQ_DATA_FIELD_EXCEED : Z := 0xc8.
Definition IPMI_CC_CANT_RET_NUM_REQ_BYTES : Z := 0xca.
Definition IPMI_CC_FRU_WRITE_PROTECTED_OFFSET : Z := 0x80.

(** [struct fru_info] *)
Record fru_info := mk_fru {
  fru_size : Z;
  fru_access : bool;
  max_read_size : Z;
  max_write_size : Z;
}.

#[export] Instance fru_info_rebuild : Rebuild fru_info := fun r =>
  mk_fru (fru_size r) (fru_access r) (max_read_size r) (max_write_size r).

(** [struct fru_header] is its 8 bytes: version, five area offsets, padding,
    checksum. *)
Definition fru_offset (header : list Z) (i : Z) : Z := rd header (1 + i).
Definition fru_internal := 0.
Definition fru_chassis := 1.
Definition fru_board := 2.
Definition fru_product := 3.
Definition fru_multi := 4.
Definition FRU_BYTES (b : Z) : Z := b * FRU_BLOCK_SZ.
Definition FRU_BLOCKS (b : Z) : Z := (b + FRU_BLOCK_SZ - 1) / FRU_BLOCK_SZ.
Definition FRU_BYTES_ALIGNED (bytes : Z) : Z := FRU_BYTES (FRU_BLOCKS bytes).

Definition fru_cc_rq2big (code : Z) : bool :=
  (code =? IPMI_CC_REQ_DATA_INV_LENGTH) || (code =? IPMI_CC_REQ_DATA_FIELD_EXCEED) ||
  (code =? IPMI_CC_CANT_RET_NUM_REQ_BYTES).

(** [fru_calc_checksum] over [len - 1] bytes. *)
Definition fru_calc_checksum (area : list Z) (len : Z) : res Z :=
  d ← slx area 0 (len - 1);
  Ok (u8 (- fold_left (fun c b => u8 (c + b)) d 0)).

Definition fru_checksum_is_valid (area : list Z) (len : Z) : res bool :=
  last ← rdx area (len - 1);
  c ← fru_calc_checksum area len;
  Ok (last =? c).

(** ** The string of a field *)

Definition bcd_plus : list Z :=
  [48; 49; 50; 51; 52; 53; 54; 55; 56; 57; 32; 45; 46; 58; 44; 95].

(** [BCD plus]: two characters per byte. *)
Definition bcd_chars (d : list Z) : list Z :=
  flat_map (fun b => [rd bcd_plus ((b .>> 4) .& 0x0f); rd bcd_plus (b .& 0x0f)]) d.

(** [6-bit ASCII]: the little-endian bits of up to three bytes, six at a time. *)
Definition six_bits (b0 b1 b2 : Z) : list Z :=
  let bits := (b2 .<< 16) .| (b1 .<< 8) .| b0 in
  map (fun k => (((bits .>> (6 * k)) .& 255) .& 0x3f) + 0x20) [0; 1; 2; 3].

Fixpoint ascii6_chars (d : list Z) : list Z :=
  match d with
  | b0 :: b1 :: b2 :: t => six_bits b0 b1 b2 ++ ascii6_chars t
  | [b0; b1] => six_bits b0 b1 0
  | [b0] => six_bits b0 0 0
  | [] => []
  end.

(** The bits 6:7 and the bits 0:5 of the type/length byte. *)
Definition fld_type (tl : Z) : Z := (tl .& 0xC0) .>> 6.
Definition fld_len (tl : Z) : Z := tl .& 0x3f.

(** The size of the string buffer without its terminator. *)
Definition str_size (typecode len : Z) : Z :=
  if typecode <=? 1 then len * 2 else if typecode =? 2 then (len / 3 + 1) * 4 else len.

Section Fru.
Context `{mem : Malloc}.

(** [get_fru_area_str]: the allocated buffer or NULL, and the new [*offset].
    [str] is the static array of [buf2str]. *)
Definition get_fru_area_str (str : list Z) (data : list Z) (offset : Z) : res (option (list Z) * Z) :=
  tl ← rdx data offset;
  let typecode := fld_type tl in
  let off := offset + 1 in
  let len := fld_len tl in
  let size := str_size typecode len in
  if size <? 1 then Ok (None, off) else
  match malloc (size + 1) with
  | None => Ok (None, offset)
  | Some _ =>
      let buf := zeros (size + 1) in
      d ← slx data off len;
      chars ←
        (if typecode =? 0 then
           str ← or_oob (buf2str (Some d) str);
           Ok (take (Z.to_nat size) (c_string str))
         else if typecode =? 1 then Ok (bcd_chars d)
         else if typecode =? 2 then Ok (ascii6_chars d ++ [0])
         else Ok d);
      buf ← or_oob (wr buf 0 chars);
      Ok (Some buf, off + len)
  end.

(** [is_valid_filename] *)
Definition is_valid_filename (input_filename : option (list Z)) : Z :=
  match input_filename with
  | None => -1
  | Some f => if zlen f <? 1 then -2 else if 512 <=? zlen f then -3 else 0
  end.

(** ** Reading *)

Context {dev : Type} `{bmc : Bmc dev} `{stk : Stack}.

(** The offset of a request in the unit of the device. *)
Definition fru_addr (fru : fru_info) (off : Z) : Z := if fru_access fru then off .>> 1 else off.

(** The count of a response in bytes. *)
Definition fru_count (fru : fru_info) (r : ipmi_rs) : Z :=
  if fru_access fru then rd (rs_data r) 0 .<< 1 else rd (rs_data r) 0.

Definition read_request (fru : fru_info) (id off n : Z) : ipmi_rq :=
  storage_rq GET_FRU_DATA [id; fru_addr fru off .& 0xff; u8 (fru_addr fru off .>> 8); u8 n].

(** The code after the loop. *)
Definition read_end (off finish : Z) : Z := if off <? finish then -1 else 0.

(** The loop of [read_fru_area]: [left] is [size_left_in_buffer], [pos] how far
    [frubuf] has moved. *)
Fixpoint read_loop (fuel : nat) (id finish : Z) (fru : fru_info) (off left : Z)
    (frubuf : list Z) (pos : Z) : M dev (Z * fru_info * list Z) :=
  match fuel with
  | O => fail OutOfFuel
  | S fuel =>
      let want := u32 (finish - off) in
      let n := if max_read_size fru <? want then max_read_size fru else want in
      rsp ← sendrecv (read_request fru id off n);
      match rsp with
      | None => mret (read_end off finish, fru, frubuf)
      | Some r =>
          if negb (ccode r =? 0) then
            if fru_cc_rq2big (ccode r) && (FRU_BLOCK_SZ <? max_read_size fru) then
              let fru := fru <| max_read_size :=
                if FRU_AREA_MAXIMUM_BLOCK_SZ <? max_read_size fru
                then max_read_size fru - FRU_BLOCK_SZ else max_read_size fru - 1 |> in
              if off <? finish then read_loop fuel id finish fru off left frubuf pos
              else mret (read_end off finish, fru, frubuf)
            else mret (read_end off finish, fru, frubuf)
          else
            let tmp := fru_count fru r in
            if (rs_data_len r <? 1) || (rs_data_len r - 1 <? tmp) || (left <? tmp)
            then mret (-1, fru, frubuf)
            else
              bs ← lift (rsp_bytes r 1 tmp);
              frubuf ← lift (or_oob (wr frubuf pos bs));
              let off := off + tmp in
              if (tmp =? 0) && (off <? finish) then mret (0, fru, frubuf)
              else if off <? finish then
                read_loop fuel id finish fru off (left - tmp) frubuf (pos + tmp)
              else mret (read_end off finish, fru, frubuf)
      end
  end.

(** The size of the first request, taken from the interface once. *)
Definition init_max_read (intf : intf_addr) (fru : fru_info) : option fru_info :=
  if max_read_size fru =? 0 then
    let max_rs_size := u16 (ipmi_intf_get_max_response_data_size intf - 1) in
    if max_rs_size <=? 1 then None else
    let n := if 255 <? max_rs_size - 1 then 255 else max_rs_size - 1 in
    Some (fru <| max_read_size := if fru_access fru then n .& 0xfe else n |>)
  else Some fru.

(** Enough for one round per byte and one per reduction of the size. *)
Definition read_fuel (fru : fru_info) (off finish : Z) : nat :=
  Z.to_nat (finish - off) + Z.to_nat (max_read_size fru) + 1.

(** A range that passes the end of the inventory: the part of the buffer that
    is cleared, the new end and length. *)
Definition clip_range (fru : fru_info) (offset length : Z) (frubuf : list Z) : res (Z * Z * list Z) :=
  let finish := u32 (offset + length) in
  if fru_size fru <? finish then
    frubuf ← memset0 frubuf (fru_size fru) (u32 (length - fru_size fru));
    Ok (fru_size fru, u32 (fru_size fru - offset), frubuf)
  else Ok (finish, length, frubuf).

Definition read_fru_area (intf : intf_addr) (fru : fru_info) (id offset length : Z)
    (frubuf : list Z) : M dev (Z * fru_info * list Z) :=
  if fru_size fru <? offset then mret (-1, fru, frubuf) else
  '(finish, length, frubuf) ← lift (clip_range fru offset length frubuf);
  match init_max_read intf fru with
  | None => mret (-1, fru, frubuf)
  | Some fru => read_loop (read_fuel fru offset finish) id finish fru offset length frubuf 0
  end.

(** The loop of [read_fru_area_section]; [rqst] is the static
    [fru_data_rqst_size]. *)
Fixpoint section_loop (fuel : nat) (id offset finish : Z) (fru : fru_info) (rqst off left : Z)
    (frubuf : list Z) : M dev (Z * Z * list Z) :=
  match fuel with
  | O => fail OutOfFuel
  | S fuel =>
      let want := u32 (finish - off) in
      let n := if rqst <? want then rqst else want in
      rsp ← sendrecv (read_request fru id off n);
      match rsp with
      | None => mret (read_end off finish, rqst, frubuf)
      | Some r =>
          if negb (ccode r =? 0) then
            if fru_cc_rq2big (ccode r) then
              let rqst := u32 (rqst - 1) in
              if FRU_BLOCK_SZ <? rqst then
                if off <? finish then section_loop fuel id offset finish fru rqst off left frubuf
                else mret (read_end off finish, rqst, frubuf)
              else mret (read_end off finish, rqst, frubuf)
            else mret (read_end off finish, rqst, frubuf)
          else
            let tmp := fru_count fru r in
            if (rs_data_len r <? 1) || (rs_data_len r - 1 <? tmp) || (left <? tmp)
            then mret (-1, rqst, frubuf)
            else
              bs ← lift (rsp_bytes r 1 tmp);
              frubuf ← lift (or_oob (wr frubuf (off - offset) bs));
              let off := off + tmp in
              if (tmp =? 0) && (off <? finish) then mret (0, rqst, frubuf)
              else if off <? finish then
                section_loop fuel id offset finish fru rqst off (left - tmp) frubuf
              else mret (read_end off finish, rqst, frubuf)
      end
  end.

Definition read_fru_area_section (rqst : Z) (fru : fru_info) (id offset length : Z)
    (frubuf : list Z) : M dev (Z * Z * list Z) :=
  if fru_size fru <? offset then mret (-1, rqst, frubuf) else
  '(finish, length, frubuf) ← lift (clip_range fru offset length frubuf);
  let rqst := if fru_access fru && (16 <? rqst) then 16 else rqst in
  section_loop (Z.to_nat (finish - offset) + Z.to_nat rqst + 1) id offset finish fru rqst
    offset length frubuf.

(** ** Blocks and writing *)

(** [t_ipmi_fru_bloc] without its name, which is only printed. *)
Record fru_bloc := mk_bloc { b_start : Z; b_size : Z }.

Definition bloc_end (b : fru_bloc) : Z := b_start b + b_size b.

(** A new block that starts at [start]: the last block so far, the head of the
    reversed list, ends there. *)
Definition push_bloc (size start : Z) (blocs : list fru_bloc) : list fru_bloc :=
  mk_bloc start (u16 (size - start)) ::
  match blocs with
  | b :: bs => mk_bloc (b_start b) (u16 (start - b_start b)) :: bs
  | [] => []
  end.

(** The [malloc] of a block succeeds. *)
Definition bloc_alloc : bool := bool_decide (is_Some (malloc 48)).

(** The loop over the records of the multi-record area.  The result is the
    blocks and the end of the area; no blocks stands for the failed [malloc]. *)
Fixpoint multi_loop (fuel : nat) (intf : intf_addr) (id : Z) (fru : fru_info) (off : Z)
    (rec_hdr : list Z) (blocs : list fru_bloc) : M dev (option (list fru_bloc * Z) * fru_info) :=
  match fuel with
  | O => fail OutOfFuel
  | S fuel =>
      if fru_access fru && negb (off .& 1 =? 0) then mret (Some (blocs, off + 1), fru) else
      '(rc, fru, rec_hdr) ← read_fru_area intf fru id off 5 rec_hdr;
      if rc <? 0 then mret (Some (blocs, off), fru) else
      if negb bloc_alloc then mret (None, fru) else
      let blocs := push_bloc (fru_size fru) (u16 off) blocs in
      let off := off + rd rec_hdr 2 + 5 in
      if negb (ipmi_csum (take 5 rec_hdr) =? 0) then mret (Some (blocs, off), fru)
      else if (rd rec_hdr 1 .& 0x80 =? 0) && (off <? fru_size fru)
      then multi_loop fuel intf id fru off rec_hdr blocs
      else mret (Some (blocs, off), fru)
  end.

(** The blocks of the areas of the header, in the order of its offsets. *)
Definition area_blocs (size : Z) (header : list Z) : option (list fru_bloc) :=
  if negb bloc_alloc then None else
  Some (fold_left (fun blocs i =>
    let o := fru_offset header i in
    if o =? 0 then blocs else push_bloc size (o * 8) blocs) [0; 1; 2; 3] [mk_bloc 0 size]).

(** [build_fru_bloc]; [None] is NULL. *)
Definition build_fru_bloc (intf : intf_addr) (fru : fru_info) (id : Z)
    : M dev (option (list fru_bloc) * fru_info) :=
  rsp ← sendrecv (storage_rq GET_FRU_DATA [id; 0; 0; 8]);
  match rsp with
  | None => mret (None, fru)
  | Some r =>
      if negb (ccode r =? 0) then mret (None, fru) else
      header ← lift (rsp_bytes r 1 8);
      if negb (ipmi_csum header =? 0) then mret (None, fru) else
      if negb (rd header 0 =? 1) then mret (None, fru) else
      match area_blocs (fru_size fru) header with
      | None => mret (None, fru)
      | Some blocs =>
          if fru_offset header fru_multi =? 0 then mret (Some (rev blocs), fru) else
          '(m, fru) ← multi_loop (S (Z.to_nat (fru_size fru))) intf id fru
                        (fru_offset header fru_multi * 8) (uninit 5) blocs;
          match m with
          | None => mret (None, fru)
          | Some (blocs, off) =>
              if off <? fru_size fru then
                if bloc_alloc then mret (Some (rev (push_bloc (fru_size fru) (u16 off) blocs)), fru)
                else mret (None, fru)
              else mret (Some (rev blocs), fru)
          end
      end
  end.

(** Move to the block that holds [doffset]. *)
Fixpoint skip_blocs (doffset : Z) (blocs : list fru_bloc) : list fru_bloc :=
  match blocs with
  | b :: bs => if bloc_end b <=? doffset then skip_blocs doffset bs else blocs
  | [] => []
  end.

(** Where the block, or the whole range, ends. *)
Definition end_bloc (blocs : list fru_bloc) (finish : Z) : Z :=
  match blocs with
  | b :: _ => if bloc_end b <? finish then u16 (bloc_end b) else finish
  | [] => finish
  end.

Definition write_request (fru : fru_info) (id off : Z) (data : list Z) : ipmi_rq :=
  storage_rq SET_FRU_DATA (id :: u8 (fru_addr fru off) :: u8 (fru_addr fru off .>> 8) :: data).

(** The loop of [write_fru_area]: the final [doffset]. *)
Fixpoint write_loop (fuel : nat) (id finish : Z) (fru : fru_info) (blocs : list fru_bloc)
    (soffset doffset : Z) (pFrubuf : list Z) : M dev (Z * fru_info) :=
  match fuel with
  | O => fail OutOfFuel
  | S fuel =>
      let blocs := skip_blocs doffset blocs in
      let e := end_bloc blocs finish in
      let tmp := u16 (e - doffset) in
      let writeLength := if max_write_size fru <? tmp then max_write_size fru else tmp in
      data ← lift (slx pFrubuf soffset writeLength);
      let writeLength := if fru_access fru then writeLength .& 0xfffe else writeLength in
      rsp ← sendrecv (write_request fru id doffset (take (Z.to_nat writeLength) data));
      match rsp with
      | None => mret (doffset, fru)
      | Some r =>
          let cc := ccode r in
          if fru_cc_rq2big cc && (FRU_AREA_MAXIMUM_BLOCK_SZ <? max_write_size fru) then
            let fru := fru <| max_write_size := max_write_size fru - FRU_BLOCK_SZ |> in
            if doffset <? finish then write_loop fuel id finish fru blocs soffset doffset pFrubuf
            else mret (doffset, fru)
          else
            let protected := cc =? IPMI_CC_FRU_WRITE_PROTECTED_OFFSET in
            if negb protected && negb (cc =? 0) then mret (doffset, fru) else
            let soffset := if protected then u16 (soffset + (e - doffset)) else u16 (soffset + writeLength) in
            let doffset := if protected then e else u16 (doffset + writeLength) in
            if doffset <? finish then write_loop fuel id finish fru blocs soffset doffset pFrubuf
            else mret (doffset, fru)
      end
  end.

(** The size of the first request, taken from the interface once. *)
Definition init_max_write (intf : intf_addr) (fru : fru_info) : option fru_info :=
  if max_write_size fru =? 0 then
    let max_rq_size := ipmi_intf_get_max_request_data_size intf in
    if max_rq_size <=? 3 then None else
    let n := if 255 <? max_rq_size - 3 then 255 else max_rq_size - 3 in
    Some (fru <| max_write_size := if fru_access fru then n .& 0xfe else n |>)
  else Some fru.

Definition write_fuel (fru : fru_info) (doffset finish : Z) : nat :=
  Z.to_nat (finish - doffset) + Z.to_nat (max_write_size fru) + 1.

(** [write_fru_area]: 1 on success, 0 when a write failed, -1 when nothing was
    tried. *)
Definition write_fru_area (intf : intf_addr) (fru : fru_info) (id soffset doffset length : Z)
    (pFrubuf : list Z) : M dev (Z * fru_info) :=
  let finish := u16 (doffset + length) in
  if fru_size fru <? finish then mret (-1, fru) else
  if fru_access fru && (negb (doffset .& 1 =? 0) || negb (length .& 1 =? 0)) then mret (-1, fru) else
  '(blocs, fru) ← build_fru_bloc intf fru id;
  match init_max_write intf fru with
  | None => mret (-1, fru)
  | Some fru =>
      '(doffset, fru) ← write_loop (write_fuel fru doffset finish) id finish fru
                          (default [] blocs) soffset doffset pFrubuf;
      mret (if finish <=? doffset then 1 else 0, fru)
  end.
End Fru.
