(* ===== verification/FruField.v ===== *)
(** * The encodings of a FRU field (lib/ipmi_fru.c, get_fru_area_str)

    The four encodings of the FRU specification as a reference, and the proof
    that the decoder inverts each of them wherever the field lies. *)

From S2P Require Import Prelude Wire Ipmi Intf Helper Bmc Fru.

#[local] Open Scope Z_scope.

(** Two BCD plus digits in a byte, the first in the upper half. *)
Definition pack_bcd (p : Z * Z) : Z := p.1 * 16 + p.2.
Definition bcd_text (p : Z * Z) : list Z := [rd bcd_plus p.1; rd bcd_plus p.2].

(** Four six-bit characters in three bytes, the first in the low bits. *)
Definition pack6 (q : Z * Z * Z * Z) : list Z :=
  let '(a, b, c, d) := q in [a + 64 * (b mod 4); b / 4 + 16 * (c mod 16); c / 16 + 4 * d].
Definition text6 (q : Z * Z * Z * Z) : list Z :=
  let '(a, b, c, d) := q in [a + 0x20; b + 0x20; c + 0x20; d + 0x20].

Definition nibbles (p : Z * Z) : Prop := 0 <= p.1 < 16 /\ 0 <= p.2 < 16.
Definition sixbits (q : Z * Z * Z * Z) : Prop :=
  let '(a, b, c, d) := q in 0 <= a < 64 /\ 0 <= b < 64 /\ 0 <= c < 64 /\ 0 <= d < 64.

(** Type code, data and text of a field. *)
Inductive encodes : Z -> list Z -> list Z -> Prop :=
  | enc_binary d : bytes d -> encodes 0 d (hex_text d)
  | enc_bcd ps : Forall nibbles ps -> encodes 1 (map pack_bcd ps) (flat_map bcd_text ps)
  | enc_ascii6 qs : Forall sixbits qs -> encodes 2 (flat_map pack6 qs) (flat_map text6 qs)
  | enc_ascii8 d : Forall (fun c => c <> 0) d -> encodes 3 d d.

(** ** The decoders of the characters *)

Lemma bcd_chars_pack ps : Forall nibbles ps -> bcd_chars (map pack_bcd ps) = flat_map bcd_text ps.
Proof.
  induction 1 as [|[a b] ps (Ha & Hb) _ IH]; [done |]. unfold bcd_chars in *.
  cbn [map flat_map pack_bcd bcd_text fst snd] in *. rewrite IH.
  change (bcd_text (a, b)) with [rd bcd_plus a; rd bcd_plus b]. change (pack_bcd (a, b)) with (a * 16 + b).
  cbn [fst snd] in Ha, Hb. assert ((a * 16 + b) .>> 4 = a) as ->
    by (rewrite Z.shiftr_div_pow2 by done; Z.to_euclidean_division_equations; lia).
  change 0x0f with (Z.ones 4). rewrite !Z.land_ones by done.
  do 2 f_equal; [| f_equal]; f_equal; Z.to_euclidean_division_equations; lia.
Qed.

Lemma six_bits_pack a b c d : sixbits (a, b, c, d) ->
  six_bits (a + 64 * (b mod 4)) (b / 4 + 16 * (c mod 16)) (c / 16 + 4 * d) = text6 (a, b, c, d).
Proof.
  intros (Ha & Hb & Hc & Hd). unfold six_bits, text6.
  rewrite <- Z.lor_assoc, (lor_shiftl_add _ _ 8), (lor_shiftl_add _ _ 16)
    by (Z.to_euclidean_division_equations; lia).
  cbn [map]. rewrite !Z.shiftr_div_pow2 by lia.
  change 255 with (Z.ones 8). change 0x3f with (Z.ones 6). rewrite !Z.land_ones by done.
  repeat f_equal; Z.to_euclidean_division_equations; lia.
Qed.

Lemma ascii6_chars_pack qs : Forall sixbits qs -> ascii6_chars (flat_map pack6 qs) = flat_map text6 qs.
Proof.
  induction 1 as [|[[[a b] c] d] qs Hq _ IH]; [done |].
  change (flat_map pack6 ((a, b, c, d) :: qs)) with (pack6 (a, b, c, d) ++ flat_map pack6 qs).
  cbn [pack6 app ascii6_chars flat_map]. by rewrite six_bits_pack, IH.
Qed.

Lemma bcd_plus_nonzero k : rd bcd_plus k <> 0 \/ k < 0 \/ 16 <= k.
Proof.
  destruct (decide (0 <= k < 16)) as [H|]; [left | right; lia].
  assert (forallb (fun k => negb (rd bcd_plus k =? 0)) (seqZ 0 16) = true) as E by (vm_compute; reflexivity).
  rewrite forallb_forall in E. specialize (E k). rewrite <- list_elem_of_In, elem_of_seqZ in E.
  specialize (E ltac:(lia)). bool_hyps. done.
Qed.

(** The text of an encoding holds no terminator, and its length is bounded by
    the buffer that the code allocates. *)
Lemma encodes_text t d s : encodes t d s -> 0 < zlen d ->
  Forall (fun c => c <> 0) s /\ zlen s + (if t =? 2 then 4 else 0) <= str_size t (zlen d) /\
  0 <= t <= 3.
Proof.
  intros H Hd. destruct H as [d Hb | ps Hp | qs Hq | d Hn].
  - split; [by apply hex_text_nonzero |]. rewrite zlen_hex_text. cbn. lia.
  - split; [| split; [| lia]].
    + clear Hd. induction Hp as [|p ps (H1 & H2) _ IH]; [done |]. cbn [flat_map bcd_text app].
      repeat constructor; [destruct (bcd_plus_nonzero p.1); [done | lia]
        | destruct (bcd_plus_nonzero p.2); [done | lia] | done].
    + cbn. clear. unfold zlen. rewrite length_map. induction ps as [|p ps IH]; cbn [flat_map bcd_text app length]; lia.
  - split; [| split; [| lia]].
    + clear Hd. induction Hq as [|[[[a b] c] d] qs (H1 & H2 & H3 & H4) _ IH]; [done |].
      cbn [flat_map text6 app]. repeat constructor; try lia. done.
    + assert (zlen (flat_map text6 qs) = 4 * zlen qs /\ zlen (flat_map pack6 qs) = 3 * zlen qs) as [-> ->].
      { clear. unfold zlen. induction qs as [|[[[a b] c] d] qs [IH1 IH2]]; [done |].
        cbn [flat_map text6 pack6 app length]. lia. }
      cbn. Z.to_euclidean_division_equations. lia.
  - split; [done |]. cbn. lia.
Qed.

Lemma type_length_byte t n : 0 <= t <= 3 -> 0 <= n < 64 ->
  fld_type (t * 64 + n) = t /\ fld_len (t * 64 + n) = n.
Proof.
  intros Ht Hn.
  assert (forallb (fun t => forallb (fun n => (fld_type (t * 64 + n) =? t) && (fld_len (t * 64 + n) =? n))
    (seqZ 0 64)) (seqZ 0 4) = true) as E by (vm_compute; reflexivity).
  rewrite forallb_forall in E. specialize (E t). rewrite <- list_elem_of_In, elem_of_seqZ in E.
  specialize (E ltac:(lia)). rewrite forallb_forall in E. specialize (E n).
  rewrite <- list_elem_of_In, elem_of_seqZ in E. specialize (E ltac:(lia)). bool_hyps. done.
Qed.

(** ** Properties *)

(** What the decoder writes into its zeroed block is the text and, behind it,
    zeros. *)
Lemma chars_written `{mem : Malloc} str t d s : encodes t d s ->
  zlen str = BUF2STR_MAXIMUM_OUTPUT_SIZE -> zlen d < 64 ->
  zlen s + (if t =? 2 then 4 else 0) <= str_size t (zlen d) ->
  exists tail, wr (zeros (str_size t (zlen d) + 1)) 0 (s ++ tail) =
      Some (s ++ 0 :: zeros (str_size t (zlen d) - zlen s)) /\
    (if t =? 0 then
       str ← or_oob (buf2str (Some d) str); Ok (take (Z.to_nat (str_size t (zlen d))) (c_string str))
     else if t =? 1 then Ok (bcd_chars d)
     else if t =? 2 then Ok (ascii6_chars d ++ [0]) else Ok d) = Ok (s ++ tail).
Proof.
  intros He Hstr Hd Hsz. assert (0 <= (if t =? 2 then 4 else 0)) by (by case_match). set (size := str_size t (zlen d)) in *. pose proof (zlen_nonneg s).
  assert (forall n, 0 <= n <= 1 -> zlen s + n <= size + 1 ->
    wr (zeros (size + 1)) 0 (s ++ zeros n) = Some (s ++ 0 :: zeros (size - zlen s))) as K.
  { intros n Hn Hn1. pose proof (wr_next [] (zeros (size + 1)) 0 (s ++ zeros n) eq_refl) as Hw.
    cbn [app] in Hw. rewrite Hw by (rewrite zlen_app, !zlen_zeros; lia).
    unfold zeros. rewrite drop_replicate, <- app_assoc, <- replicate_add. do 2 f_equal.
    change (0 :: replicate ?m 0) with (replicate (S m) 0). f_equal.
    rewrite zlen_app, zlen_replicate. lia. }
  destruct He as [d Hb | ps Hp | qs Hq | d Hn].
  - exists (zeros 0). split; [apply K; cbn in *; lia |]. cbn [Z.eqb].
    destruct (buf2str_text d str Hb Hstr) as (str' & Eb & Ec); [unfold BUF2STR_MAXIMUM_OUTPUT_SIZE; lia |].
    rewrite Eb. cbn [or_oob mbind res_bind]. rewrite Ec, app_nil_r, take_ge; [done |].
    pose proof (zlen_hex_text d). unfold zlen in *. cbn in *. lia.
  - exists (zeros 0). split; [apply K; cbn in *; lia |]. cbn [Z.eqb].
    by rewrite bcd_chars_pack, app_nil_r.
  - exists (zeros 1). split; [apply K; cbn in *; lia |]. change (2 =? 0) with false. cbn match.
    change (2 =? 1) with false. cbn match. by rewrite ascii6_chars_pack.
  - exists (zeros 0). split; [apply K; cbn in *; lia |]. by rewrite app_nil_r.
Qed.

(** C15. Whatever encoding a field has and wherever it lies, the decoder
    returns its text in a block of the size it allocated, and the offset of the
    next field: no byte outside the field is used and none outside the block
    written. *)
Theorem field_roundtrip `{mem : Malloc} str pre post t d s :
  (forall n, is_Some (malloc n)) -> encodes t d s -> 0 < zlen d < 64 ->
  zlen str = BUF2STR_MAXIMUM_OUTPUT_SIZE ->
  exists a, get_fru_area_str str (pre ++ (t * 64 + zlen d) :: d ++ post) (zlen pre) =
      Ok (Some a, zlen pre + 1 + zlen d) /\
    c_string a = s /\ zlen a = str_size t (zlen d) + 1.
Proof.
  intros Hm He Hd Hstr. destruct (encodes_text t d s He ltac:(lia)) as (Hnz & Hsz & Ht).
  destruct (type_length_byte t (zlen d) Ht ltac:(lia)) as [E1 E2].
  set (data := pre ++ (t * 64 + zlen d) :: d ++ post).
  pose proof (zlen_nonneg pre). pose proof (zlen_nonneg s).
  assert (slx data (zlen pre + 1) (zlen d) = Ok d) as Hsl.
  { unfold data. rewrite slx_ok by zlen_lia. f_equal.
    replace (pre ++ _ :: d ++ post) with ((pre ++ [t * 64 + zlen d]) ++ d ++ post) by (by rewrite <- app_assoc).
    apply slice_app_mid; zlen_lia. }
  assert (rd data (zlen pre) = t * 64 + zlen d) as Er by (by apply rd_app_mid).
  assert (0 <= (if t =? 2 then 4 else 0)) by (by case_match).
  assert (zlen pre < zlen data) by (unfold data; zlen_lia).
  assert (0 < zlen s + (if t =? 2 then 4 else 0)) as Hpos.
  { destruct He; cbn; try lia; [rewrite zlen_hex_text; lia |]. revert Hd. clear. unfold zlen.
    destruct ps; cbn; lia. }
  unfold get_fru_area_str. rewrite rdx_ok by lia. cbn [mbind res_bind]. rewrite Er, E1, E2.
  set (size := str_size t (zlen d)) in *. rewrite (proj2 (Z.ltb_ge size 1)) by lia.
  destruct (Hm (size + 1)) as [blk ->]. rewrite Hsl. cbn [mbind res_bind].
  destruct (chars_written str t d s He Hstr ltac:(lia) Hsz) as (tail & Hw & Hch). fold size in Hw, Hch.
  rewrite Hch. cbn [mbind res_bind]. rewrite Hw. cbn [or_oob mbind res_bind]. eexists. split; [done |].
  split; [by apply c_string_app |]. rewrite zlen_app, zlen_cons, zlen_zeros; lia.
Qed.

(** ["AB"] and two more characters as three bytes of 6-bit ASCII. *)
Lemma field_roundtrip_witness :
  exists a, @get_fru_area_str toy_malloc (zeros BUF2STR_MAXIMUM_OUTPUT_SIZE)
      ([1; 2] ++ (2 * 64 + zlen [161; 56; 146]) :: [161; 56; 146] ++ [193]) (zlen [1; 2]) =
      Ok (Some a, zlen [1; 2] + 1 + zlen [161; 56; 146]) /\
    c_string a = [65; 66; 67; 68] /\ zlen a = str_size 2 (zlen [161; 56; 146]) + 1.
Proof.
  apply field_roundtrip; [by eexists | | done | apply zlen_zeros; done].
  apply (enc_ascii6 [(33, 34, 35, 36)]). repeat constructor; lia.
Defined.
