(* ===== verification/FruXfer.v ===== *)
(** * Transfers of the FRU inventory (lib/ipmi_fru.c)

    What [read_fru_area] and [write_fru_area] promise about a device that
    stores an inventory.  The device is abstract: the classes below say what
    its answers to Get and Set FRU Data mean for the bytes it holds, with the
    freedom the specification leaves it (short answers, refused sizes,
    protected ranges). *)

From S2P Require Import Prelude Wire Ipmi Intf Session Helper Bmc Fru.

#[local] Open Scope Z_scope.

(** Bytes per unit of the offsets and counts of the device. *)
Definition fru_unit (acc : bool) : Z := if acc then 2 else 1.

Section Device.
Context {dev : Type} {bmc : Bmc dev}.

(** A device with inventory [contents] under [id]: reading changes nothing, a
    write stores its data at its offset or, whatever is answered, nothing. *)
Class FruStorage (id : Z) (acc : bool) (contents : dev -> list Z) := {
  fru_get_keeps : forall d lo hi n,
    contents (snd (bmc_answer (storage_rq GET_FRU_DATA [id; lo; hi; n]) d)) = contents d;
  fru_set_stores : forall d lo hi data,
    let d' := snd (bmc_answer (storage_rq SET_FRU_DATA (id :: lo :: hi :: data)) d) in
    contents d' = contents d \/
    wr (contents d) (fru_unit acc * (lo + 256 * hi)) data = Some (contents d');
}.

(** It answers a read inside the inventory with some of the bytes asked for,
    all of them when they are at most 8, or refuses the size of a longer one. *)
Class FruReadable (id : Z) (acc : bool) (contents : dev -> list Z) := {
  fru_get_answers : forall d lo hi n,
    is_u8 lo -> is_u8 hi -> fru_unit acc <= n <= 255 ->
    let off := fru_unit acc * (lo + 256 * hi) in
    off + n <= zlen (contents d) ->
    exists r d', bmc_answer (storage_rq GET_FRU_DATA [id; lo; hi; n]) d = (Some r, d') /\
      (8 < n /\ fru_cc_rq2big (ccode r) = true \/
       ccode r = 0 /\ exists k, 0 < k /\ fru_unit acc * k <= n /\
         (n <= 8 -> n < fru_unit acc * (k + 1)) /\
         carries r (k :: slice (contents d) off (fru_unit acc * k)));
}.

(** It stores a write inside the inventory, or refuses the size of one of more
    than 32 bytes. *)
Class FruWritable (id : Z) (acc : bool) (contents : dev -> list Z) := {
  fru_set_answers : forall d lo hi data,
    is_u8 lo -> is_u8 hi -> 0 < zlen data <= 255 ->
    let off := fru_unit acc * (lo + 256 * hi) in
    off + zlen data <= zlen (contents d) ->
    exists r d', bmc_answer (storage_rq SET_FRU_DATA (id :: lo :: hi :: data)) d = (Some r, d') /\
      (32 < zlen data /\ fru_cc_rq2big (ccode r) = true /\ contents d' = contents d \/
       ccode r = 0 /\ wr (contents d) off data = Some (contents d'));
}.

(** ** Addresses *)

Definition aligned (acc : bool) (x : Z) : Prop := acc = true -> x mod 2 = 0.

Lemma aligned_unit acc k : aligned acc (fru_unit acc * k).
Proof. intros ->. cbn [fru_unit]. by rewrite Z.mul_comm, Z.mod_mul. Qed.

Lemma aligned_add acc x y : aligned acc x -> aligned acc y -> aligned acc (x + y).
Proof. unfold aligned. intros Hx Hy H. specialize (Hx H). specialize (Hy H). Z.to_euclidean_division_equations. lia. Qed.

Lemma aligned_sub acc x y : aligned acc x -> aligned acc y -> aligned acc (x - y).
Proof. unfold aligned. intros Hx Hy H. specialize (Hx H). specialize (Hy H). Z.to_euclidean_division_equations. lia. Qed.

Lemma aligned_test acc x : (acc && negb (x .& 1 =? 0)) = false <-> aligned acc x.
Proof.
  unfold aligned. change 1 with (Z.ones 1). rewrite Z.land_ones by done. change (2 ^ 1) with 2.
  destruct acc; cbn [andb]; [| intuition discriminate].
  rewrite negb_false_iff, Z.eqb_eq. intuition.
Qed.

(** The offset bytes of a request are the offset, in units. *)
Lemma addr_unit fru off acc : fru_access fru = acc -> aligned acc off ->
  fru_unit acc * fru_addr fru off = off.
Proof.
  intros <- Ha. unfold fru_addr, fru_unit. destruct (fru_access fru) eqn:E; [| lia].
  rewrite Z.shiftr_div_pow2 by done. specialize (Ha eq_refl). Z.to_euclidean_division_equations. lia.
Qed.

Lemma addr_bytes a : 0 <= a < 65536 -> u8 a + 256 * u8 (a .>> 8) = a.
Proof.
  intros H. rewrite Z.shiftr_div_pow2 by done. unfold u8. change (2 ^ 8) with 256.
  Z.to_euclidean_division_equations. lia.
Qed.

Lemma addr_range fru off : 0 <= off < 65536 -> 0 <= fru_addr fru off < 65536.
Proof.
  intros H. unfold fru_addr. destruct (fru_access fru); [| lia].
  rewrite Z.shiftr_div_pow2 by done. Z.to_euclidean_division_equations. lia.
Qed.

Lemma request_offset fru off acc : fru_access fru = acc -> aligned acc off -> 0 <= off < 65536 ->
  fru_unit acc * (u8 (fru_addr fru off) + 256 * u8 (fru_addr fru off .>> 8)) = off.
Proof. intros Ha Hal H. rewrite addr_bytes by (by apply addr_range). by apply addr_unit. Qed.

(** The count of an answer of [k] units. *)
Lemma count_units fru r acc k l : fru_access fru = acc -> carries r (k :: l) ->
  fru_count fru r = fru_unit acc * k.
Proof.
  intros <- Hc. unfold fru_count. rewrite (carries_head _ _ _ Hc).
  destruct (fru_access fru); cbn [fru_unit]; [rewrite Z.shiftl_mul_pow2 by done; lia | lia].
Qed.

(** ** Reading *)

(** What does not change in [fru_info]. *)
Definition same_fru (f f' : fru_info) : Prop :=
  fru_size f' = fru_size f /\ fru_access f' = fru_access f /\ max_write_size f' = max_write_size f.

Context (id : Z) (acc : bool) (contents : dev -> list Z).
Context {storage : FruStorage id acc contents} {readable : FruReadable id acc contents}.

(** One request of the loop. *)
Lemma read_answer fru off n d : fru_access fru = acc -> aligned acc off -> 0 <= off ->
  fru_unit acc <= n <= 255 -> off + n <= zlen (contents d) -> zlen (contents d) <= 65535 ->
  exists r d', bmc_answer (read_request fru id off n) d = (Some r, d') /\ contents d' = contents d /\
    (8 < n /\ fru_cc_rq2big (ccode r) = true \/
     ccode r = 0 /\ exists k, 0 < k /\ fru_unit acc * k <= n /\ (n <= 8 -> n < fru_unit acc * (k + 1)) /\
       carries r (k :: slice (contents d) off (fru_unit acc * k))).
Proof.
  intros Ha Hal H0 Hn Ho Hs. unfold read_request. rewrite land_ff.
  assert (1 <= fru_unit acc) by (destruct acc; cbn; lia).
  rewrite (u8_small n) by (unfold is_u8; lia).
  pose proof (request_offset fru off acc Ha Hal ltac:(lia)) as E.
  destruct (fru_get_answers d (u8 (fru_addr fru off)) (u8 (fru_addr fru off .>> 8)) n)
    as (r & d' & Er & Hans); auto with ipmi; [rewrite E; lia |].
  rewrite E in Hans. exists r, d'. split; [done |]. split; [| done].
  pose proof (fru_get_keeps d (u8 (fru_addr fru off)) (u8 (fru_addr fru off .>> 8)) n) as K.
  by rewrite Er in K.
Qed.

Lemma rq2big_code c : fru_cc_rq2big c = true -> c <> 0 /\ c <> 128.
Proof. unfold fru_cc_rq2big. intros H. split; intros ->; discriminate. Qed.

Lemma read_loop_exact fuel fru off finish pre rest d :
  fru_access fru = acc -> fru_unit acc <= max_read_size fru <= 255 ->
  aligned acc off -> aligned acc finish -> 0 <= off < finish ->
  finish <= zlen (contents d) -> zlen (contents d) <= 65535 ->
  finish - off <= zlen rest ->
  (Z.to_nat (finish - off) + Z.to_nat (max_read_size fru) < fuel)%nat ->
  exists fru' d', read_loop fuel id finish fru off (finish - off) (pre ++ rest) (zlen pre) d =
      Ok ((0, fru', pre ++ slice (contents d) off (finish - off) ++ drop (Z.to_nat (finish - off)) rest), d') /\
    contents d' = contents d /\ same_fru fru fru' /\ fru_unit acc <= max_read_size fru' <= 255.
Proof.
  revert fru off pre rest d. induction fuel as [|fuel IH]; intros fru off pre rest d Ha Hm Hal Haf H0 Hf Hs Hr Hfuel;
    [lia |].
  cbn [read_loop]. unfold u32. rewrite Z.mod_small by lia.
  assert (1 <= fru_unit acc) as Hu by (destruct acc; cbn; lia).
  set (n := if max_read_size fru <? finish - off then _ else _).
  assert (fru_unit acc <= n <= 255 /\ n <= finish - off /\ n <= max_read_size fru) as (Hn & Hn1 & Hn2).
  { unfold n. pose proof (aligned_sub _ _ _ Haf Hal) as Hd. unfold aligned in Hd.
    destruct acc; cbn [fru_unit] in *; case_match; bool_hyps; try lia.
    specialize (Hd eq_refl). Z.to_euclidean_division_equations. lia. }
  destruct (read_answer fru off n d Ha Hal ltac:(lia) Hn ltac:(lia) Hs) as (r & d' & Er & Hd' & Hcase).
  rewrite (sendrecv_bind _ _ _ _ _ Er).
  destruct Hcase as [(H8 & Hbig) | (Hcc & k & Hk & Hkn & _ & Hc)].
  - rewrite (proj2 (Z.eqb_neq (ccode r) 0)) by (by apply rq2big_code). rewrite Hbig.
    unfold FRU_BLOCK_SZ at 1. rewrite (proj2 (Z.ltb_lt 8 _)) by lia. cbn [negb andb].
    rewrite (proj2 (Z.ltb_lt off finish)) by lia.
    set (fru1 := fru <| max_read_size := _ |>).
    assert (8 <= max_read_size fru1 < max_read_size fru) as Hmax.
    { unfold fru1, FRU_BLOCK_SZ, FRU_AREA_MAXIMUM_BLOCK_SZ. cbn. case_match; bool_hyps; lia. }
    destruct (IH fru1 off pre rest d') as (fru' & d'' & E & Hc' & Hsame & Hm'); rewrite ?Hd'; try done; try lia.
    { destruct acc; cbn [fru_unit] in *; lia. }
    exists fru', d''. rewrite Hd' in E. rewrite E. split; [done |]. by rewrite Hc', Hd'.
  - rewrite Hcc. cbn [Z.eqb negb]. rewrite (count_units fru r acc k _ Ha Hc).
    set (t := fru_unit acc * k) in *.
    assert (0 < t) by (unfold t; nia).
    assert (zlen (slice (contents d) off t) = t) as Ht by (apply zlen_slice; lia).
    destruct Hc as (Hlen & rest' & Hdata). rewrite zlen_cons, Ht in Hlen. rewrite Hlen.
    rewrite (proj2 (Z.ltb_ge (1 + t) 1)), (proj2 (Z.ltb_ge (1 + t - 1) t)), (proj2 (Z.ltb_ge (finish - off) t)) by lia.
    cbn [orb]. rewrite rsp_bytes_ok; [| lia | lia | rewrite Hdata; zlen_lia].
    rewrite Hdata.
    rewrite (slice_app_mid [k] (slice (contents d) off t) rest' 1 t eq_refl (eq_sym Ht)
             : slice ((k :: _) ++ rest') 1 t = _).
    rewrite lift_Ok_bind, (wr_next pre rest), lift_Some_bind by (try done; lia).
    rewrite Ht, (proj2 (Z.eqb_neq t 0)) by lia. cbn [andb].
    destruct (off + t <? finish) eqn:E; bool_hyps.
    + replace (finish - off - t) with (finish - (off + t)) by lia.
      replace (zlen pre + t) with (zlen (pre ++ slice (contents d) off t)) by (rewrite zlen_app; lia).
      destruct (IH fru (off + t) (pre ++ slice (contents d) off t) (drop (Z.to_nat t) rest) d')
        as (fru' & d'' & E' & Hc' & Hsame); rewrite ?Hd'; try done; try lia.
      { apply aligned_add; [done | apply aligned_unit]. } { zlen_lia. }
      exists fru', d''. rewrite Hd' in E'. rewrite E'. split; [| by rewrite Hc', Hd'].
      do 3 f_equal. rewrite <- app_assoc, (app_assoc (slice _ _ _)), slice_cat by lia.
      rewrite drop_drop. replace (t + (finish - (off + t))) with (finish - off) by lia. do 2 f_equal. f_equal. lia.
    + assert (t = finish - off) as Et by lia. rewrite Et. exists fru, d'.
      unfold read_end. replace (off + (finish - off)) with finish by lia. rewrite Z.ltb_irrefl.
      split; [by rewrite <- app_assoc |]. split; [done |]. split; [by unfold same_fru |]. lia.
Qed.

Lemma init_max_read_same intf fru fru1 : init_max_read intf fru = Some fru1 -> same_fru fru fru1.
Proof. unfold init_max_read. intros H. repeat case_match; simplify_eq; done. Qed.

Lemma same_fru_trans f g h : same_fru f g -> same_fru g h -> same_fru f h.
Proof. unfold same_fru. intuition congruence. Qed.

(** Whatever the device answers, reading changes neither the inventory nor
    the size, the access and the write limit of [fru_info]. *)
Definition keeps_fru (fru fru' : fru_info) (d d' : dev) : Prop :=
  contents d' = contents d /\ same_fru fru fru'.

Lemma read_loop_keeps fuel fru off finish left buf pos d rc fru' buf' d' :
  read_loop fuel id finish fru off left buf pos d = Ok ((rc, fru', buf'), d') -> keeps_fru fru fru' d d'.
Proof.
  revert fru off left buf pos d. induction fuel as [|fuel IH]; intros fru off left buf pos d H; [done |].
  cbn [read_loop] in H.
  set (n := if max_read_size fru <? _ then _ else _) in *.
  destruct (bmc_answer (read_request fru id off n) d) as [r d1] eqn:Er.
  rewrite (sendrecv_bind _ _ _ _ _ Er) in H.
  assert (contents d1 = contents d) as Hd.
  { pose proof (fru_get_keeps d (fru_addr fru off .& 0xff) (u8 (fru_addr fru off .>> 8)) (u8 n)) as K.
    unfold read_request in Er. by rewrite Er in K. }
  assert (forall fru1, same_fru fru fru1 -> keeps_fru fru1 fru' d1 d' -> keeps_fru fru fru' d d') as K.
  { intros fru1 H1 [H2 H3]. split; [congruence | by eapply same_fru_trans]. }
  assert (keeps_fru fru fru d d1) as Kd by (by split).
  destruct r as [r|]; [| by injection H as <- <- <- <-].
  destruct (negb (ccode r =? 0)).
  - destruct (_ && _); [| by injection H as <- <- <- <-].
    destruct (off <? finish); [| injection H as <- <- <- <-; by split].
    eapply K; [| by eapply IH]. done.
  - destruct (_ || _); [by injection H as <- <- <- <- |].
    apply M_bind_Ok in H. destruct H as (b & d2 & H1 & H). unfold lift in H1.
    destruct (rsp_bytes _ _ _); [| done]. injection H1 as <- <-.
    apply M_bind_Ok in H. destruct H as (b' & d2 & H1 & H). unfold lift in H1.
    destruct (or_oob _); [| done]. injection H1 as <- <-.
    destruct (_ && _); [by injection H as <- <- <- <- |].
    destruct (off + fru_count fru r <? finish); [| by injection H as <- <- <- <-].
    eapply K; [| by eapply IH]. done.
Qed.

Lemma read_area_keeps intf fru off len buf d rc fru' buf' d' :
  read_fru_area intf fru id off len buf d = Ok ((rc, fru', buf'), d') -> keeps_fru fru fru' d d'.
Proof.
  unfold read_fru_area. intros H. destruct (fru_size fru <? off); [by injection H as <- <- <- <- |].
  apply M_bind_Ok in H. destruct H as ([[fin l] b] & d1 & H1 & H). unfold lift in H1.
  destruct (clip_range _ _ _ _); [| done]. injection H1 as -> <-.
  destruct (init_max_read intf fru) as [fru1|] eqn:E; [| by injection H as <- <- <- <-].
  apply read_loop_keeps in H. destruct H as [Hc Hs]. split; [done |].
  eapply same_fru_trans; [by eapply init_max_read_same | done].
Qed.

Lemma clip_inside fru offset length buf : 0 <= offset -> 0 <= length ->
  offset + length <= fru_size fru <= 65535 ->
  clip_range fru offset length buf = Ok (offset + length, length, buf).
Proof.
  intros. unfold clip_range, u32. rewrite Z.mod_small by lia.
  by rewrite (proj2 (Z.ltb_ge _ _)) by lia.
Qed.

Lemma read_area_run intf fru fru1 offset length buf d :
  fru_access fru = acc -> fru_size fru = zlen (contents d) -> fru_size fru <= 65535 ->
  aligned acc offset -> aligned acc length -> 0 <= offset -> 0 < length ->
  offset + length <= fru_size fru -> length <= zlen buf ->
  init_max_read intf fru = Some fru1 -> fru_unit acc <= max_read_size fru1 <= 255 ->
  exists fru' d', read_fru_area intf fru id offset length buf d =
      Ok ((0, fru', slice (contents d) offset length ++ drop (Z.to_nat length) buf), d') /\
    contents d' = contents d /\ same_fru fru fru' /\ fru_unit acc <= max_read_size fru' <= 255.
Proof.
  intros Ha Hs Hs' Ho Hl H0 H1 H2 Hb Hi Hm. unfold read_fru_area.
  rewrite (proj2 (Z.ltb_ge _ _)) by lia. rewrite clip_inside, lift_Ok_bind by lia. cbv beta iota. rewrite Hi.
  destruct (init_max_read_same _ _ _ Hi) as (Hs1 & Ha1 & Hw1).
  destruct (read_loop_exact (read_fuel fru1 offset (offset + length)) fru1 offset (offset + length) [] buf d)
    as (fru' & d' & E & Hc & (? & ? & ?) & Hmax); try done; try lia; try congruence.
  { by apply aligned_add. }
  { unfold read_fuel. lia. }
  replace (offset + length - offset) with length in E by lia.
  exists fru', d'. change (zlen []) with 0 in E. cbn [app] in E. rewrite E.
  split; [done |]. split; [done |]. split; [| done]. unfold same_fru. by split_and!; congruence.
Qed.
End Device.

(** ** Writing to a device accessed by bytes *)

Section Write.
Context {dev : Type} {bmc : Bmc dev} `{mem : Malloc} {stk : Stack} {stklaws : StackLaws stk}.
Context (id : Z) (contents : dev -> list Z).
Context {storage : FruStorage id false contents}.

(** [c] is [c0] but for bytes of the range that have their new value. *)
Definition patched (c0 buf : list Z) (soffset doffset length : Z) (c : list Z) : Prop :=
  zlen c = zlen c0 /\
  forall i, 0 <= i < zlen c0 -> rd c i = rd c0 i \/
    doffset <= i < doffset + length /\ rd c i = rd buf (soffset + (i - doffset)).

Lemma patched_refl c buf so dof len : patched c buf so dof len c.
Proof. split; [done |]. by left. Qed.

Lemma patched_wr c0 buf so dof len c k n c' : 0 <= so -> 0 <= k -> 0 <= n -> k + n <= len ->
  patched c0 buf so dof len c -> so + k + n <= zlen buf ->
  wr c (dof + k) (slice buf (so + k) n) = Some c' -> patched c0 buf so dof len c'.
Proof.
  intros Hso Hk Hn Hl [Hlen Hp] Hb Hw. destruct (wr_Some _ _ _ _ Hw) as (_ & _ & L & _).
  assert (zlen (slice buf (so + k) n) = n) as Hz by (apply zlen_slice; lia).
  split; [congruence |]. intros i Hi. rewrite (wr_rd _ _ _ _ i Hw), Hz by lia.
  destruct ((dof + k <=? i) && (i <? dof + k + n)) eqn:E; bool_hyps; [| by apply Hp].
  right. split; [lia |]. rewrite rd_slice by lia. f_equal. lia.
Qed.

Lemma skip_blocs_head dof blocs : match skip_blocs dof blocs with b :: _ => dof < bloc_end b | [] => True end.
Proof.
  induction blocs as [|b bs IH]; [done |]. cbn [skip_blocs].
  destruct (bloc_end b <=? dof) eqn:E; bool_hyps; [done | lia].
Qed.

(** The end of a block is inside what is left to write. *)
Lemma end_bloc_range dof finish blocs : 0 <= dof <= finish -> finish <= 65535 ->
  dof <= end_bloc (skip_blocs dof blocs) finish <= finish /\
  (dof < finish -> dof < end_bloc (skip_blocs dof blocs) finish).
Proof.
  intros H H1. pose proof (skip_blocs_head dof blocs) as Hh. unfold end_bloc.
  destruct (skip_blocs dof blocs) as [|b bs]; [lia |].
  destruct (bloc_end b <? finish) eqn:E; bool_hyps; [| lia].
  rewrite u16_small by (unfold is_u16; lia). lia.
Qed.

(** What one write request does to the inventory. *)
Lemma write_stores fru off data d : fru_access fru = false -> 0 <= off < 65536 ->
  let d' := snd (bmc_answer (write_request fru id off data) d) in
  contents d' = contents d \/ wr (contents d) off data = Some (contents d').
Proof.
  intros Ha Ho. unfold write_request.
  pose proof (fru_set_stores d (u8 (fru_addr fru off)) (u8 (fru_addr fru off .>> 8)) data) as H.
  rewrite (request_offset fru off false) in H; [done | done | by intros [=] | done].
Qed.

Lemma write_loop_patched fuel fru finish blocs k so dof len buf c0 d rc fru' d' :
  fru_access fru = false -> finish = dof + len -> 0 <= k <= len -> 0 <= so -> 0 <= dof ->
  0 <= max_write_size fru -> finish <= 65535 -> so + len <= 65535 ->
  patched c0 buf so dof len (contents d) ->
  write_loop fuel id finish fru blocs (so + k) (dof + k) buf d = Ok (rc, fru', d') ->
  patched c0 buf so dof len (contents d').
Proof.
  revert fru blocs k d. induction fuel as [|fuel IH]; intros fru blocs k d Ha Hf Hk Hso Hdof Hmw Hf' Hs' Hp H;
    [done |].
  cbn [write_loop] in H.
  set (bl := skip_blocs (dof + k) blocs) in *.
  pose proof (end_bloc_range (dof + k) finish blocs ltac:(lia) ltac:(lia)) as [[He1 He2] He3]. fold bl in He1, He2, He3.
  set (e := end_bloc bl finish) in *. clearbody e bl. rewrite (u16_small (e - (dof + k))) in H by (unfold is_u16; lia).
  set (n := if max_write_size fru <? e - (dof + k) then max_write_size fru else e - (dof + k)) in *.
  assert (0 <= n <= e - (dof + k)) as Hn by (clear H; unfold n; case_match; bool_hyps; lia).
  apply M_bind_Ok in H. destruct H as (data & d1 & H1 & H).
  unfold lift in H1. destruct (slx buf (so + k) n) as [b|] eqn:Eb; [| done]. injection H1 as <- <-.
  destruct (slx_Ok _ _ _ _ Eb) as (_ & _ & Hbb & ->). rewrite Ha in H.
  rewrite (take_ge (slice _ _ _)) in H by (unfold slice; rewrite length_take; lia).
  destruct (bmc_answer (write_request fru id (dof + k) (slice buf (so + k) n)) d) as [r d1] eqn:Er.
  rewrite (sendrecv_bind _ _ _ _ _ Er) in H.
  assert (patched c0 buf so dof len (contents d1)) as Hp1.
  { pose proof (write_stores fru (dof + k) (slice buf (so + k) n) d Ha ltac:(lia)) as Hw. rewrite Er in Hw. cbn [snd] in Hw.
    destruct Hw as [-> | Hw]; [done |]. apply (patched_wr _ _ _ _ _ (contents d) k n _); try done; lia. }
  clear Hp Er. destruct r as [r|]; [| by injection H as <- <- <-].
  destruct (fru_cc_rq2big (ccode r) && (FRU_AREA_MAXIMUM_BLOCK_SZ <? max_write_size fru)) eqn:E1; bool_hyps.
  - destruct (dof + k <? finish); [| by injection H as <- <- <-].
    eapply (IH _ _ k d1) in H; try done; unfold FRU_AREA_MAXIMUM_BLOCK_SZ, FRU_BLOCK_SZ in *; cbn; lia.
  - clear E1. destruct (negb _ && _); [by injection H as <- <- <- |].
    destruct (ccode r =? IPMI_CC_FRU_WRITE_PROTECTED_OFFSET).
    + rewrite u16_small in H by (unfold is_u16; lia).
      destruct (e <? finish); [| by injection H as <- <- <-].
      replace (so + k + (e - (dof + k))) with (so + (e - dof)) in H by lia.
      replace e with (dof + (e - dof)) in H at 2 by lia.
      eapply (IH _ _ (e - dof) d1) in H; try done; lia.
    + rewrite !u16_small in H by (unfold is_u16; lia).
      destruct (dof + k + n <? finish); [| by injection H as <- <- <-].
      rewrite <- !Z.add_assoc in H.
      eapply (IH _ _ (k + n) d1) in H; try done; lia.
Qed.

Lemma multi_loop_keeps fuel intf fru off hdr blocs d m fru' d' :
  multi_loop fuel intf id fru off hdr blocs d = Ok ((m, fru'), d') -> keeps_fru contents fru fru' d d'.
Proof.
  revert fru off hdr blocs d. induction fuel as [|fuel IH]; intros fru off hdr blocs d H; [done |].
  cbn [multi_loop] in H. assert (keeps_fru contents fru fru d d) as K0 by (by split).
  destruct (_ && _); [by injection H as <- <- <- |].
  apply M_bind_Ok in H. destruct H as ([[rc fru1] hdr1] & d1 & H1 & H).
  eapply read_area_keeps in H1; [| done]. destruct H1 as [Hc1 Hs1].
  assert (keeps_fru contents fru fru1 d d1) as K1 by (by split).
  destruct (rc <? 0); [by injection H as <- <- <- |].
  destruct (negb bloc_alloc); [by injection H as <- <- <- |].
  destruct (negb _); [by injection H as <- <- <- |].
  destruct (_ && _); [| by injection H as <- <- <-].
  apply IH in H. destruct H as [Hc2 Hs2]. split; [congruence | by eapply same_fru_trans].
Qed.

Lemma build_keeps intf fru d bl fru' d' :
  build_fru_bloc intf fru id d = Ok ((bl, fru'), d') -> keeps_fru contents fru fru' d d'.
Proof.
  unfold build_fru_bloc. intros H.
  destruct (bmc_answer (storage_rq GET_FRU_DATA [id; 0; 0; 8]) d) as [r d1] eqn:Er.
  rewrite (sendrecv_bind _ _ _ _ _ Er) in H.
  assert (keeps_fru contents fru fru d d1) as K.
  { split; [| done]. pose proof (fru_get_keeps d 0 0 8) as K. by rewrite Er in K. }
  destruct r as [r|]; [| by injection H as <- <- <-].
  destruct (negb (ccode r =? 0)); [by injection H as <- <- <- |].
  apply M_bind_Ok in H. destruct H as (b & d2 & H1 & H). unfold lift in H1.
  destruct (rsp_bytes _ _ _); [| done]. injection H1 as <- <-.
  do 2 (destruct (negb _); [by injection H as <- <- <- |]).
  destruct (area_blocs _ _) as [bs|]; [| by injection H as <- <- <-].
  destruct (_ =? 0); [by injection H as <- <- <- |].
  apply M_bind_Ok in H. destruct H as ([m fru1] & d2 & H1 & H).
  apply multi_loop_keeps in H1. destruct H1 as [Hc2 Hs2]. destruct K as [Hc1 _].
  assert (keeps_fru contents fru fru1 d d2) as K2 by (split; [congruence | done]).
  destruct m as [[bs' off]|]; [| by injection H as <- <- <-].
  destruct (_ <? _); [destruct bloc_alloc |]; by injection H as <- <- <-.
Qed.

Lemma init_max_write_range intf fru fru1 : init_max_write intf fru = Some fru1 ->
  0 <= max_write_size fru -> fru_access fru = false ->
  fru_access fru1 = false /\ 0 < max_write_size fru1.
Proof.
  unfold init_max_write. intros H H0 Ha. destruct (max_write_size fru =? 0) eqn:E0.
  - destruct (_ <=? 3) eqn:E; [done |]. injection H as <-. rewrite Ha. cbn.
    bool_hyps. case_match; bool_hyps; split; try done; lia.
  - injection H as <-. bool_hyps. split; [done | lia].
Qed.

(** ** A device that stores what it is sent *)

Context {readable : FruReadable id false contents} {writable : FruWritable id false contents}.

(** The multi-record area of an inventory never leads past its end: every
    record header the walk reads is inside. *)
Fixpoint records_inside (fuel : nat) (c : list Z) (off : Z) : bool :=
  match fuel with
  | O => false
  | S fuel =>
      (off + 5 <=? zlen c) &&
      (let hdr := slice c off 5 in
       let off := off + rd hdr 2 + 5 in
       negb (ipmi_csum hdr =? 0) || negb (rd hdr 1 .& 0x80 =? 0) || (zlen c <=? off) ||
       records_inside fuel c off)
  end.

Definition fru_wf (c : list Z) : Prop :=
  8 <= zlen c <= 65535 /\ bytes c /\
  (fru_offset c fru_multi = 0 \/ records_inside (S (length c)) c (fru_offset c fru_multi * 8) = true).

(** Reading can start, and what it must find in [fru_info]. *)
Definition can_read (intf : intf_addr) (fru : fru_info) (c : list Z) : Prop :=
  fru_access fru = false /\ fru_size fru = zlen c /\
  exists fru1, init_max_read intf fru = Some fru1 /\ 1 <= max_read_size fru1 <= 255.

Lemma can_read_after intf fru fru' c : can_read intf fru c -> same_fru fru fru' ->
  1 <= max_read_size fru' <= 255 -> can_read intf fru' c.
Proof.
  intros (Ha & Hs & _) (Hs' & Ha' & _) Hm. split; [congruence |]. split; [congruence |].
  exists fru'. split; [| done]. unfold init_max_read. by rewrite (proj2 (Z.eqb_neq _ _)) by lia.
Qed.

Lemma read_area_ok intf fru offset length buf d c :
  contents d = c -> can_read intf fru c -> zlen c <= 65535 ->
  0 <= offset -> 0 < length -> offset + length <= zlen c -> length <= zlen buf ->
  exists fru' d', read_fru_area intf fru id offset length buf d =
      Ok ((0, fru', slice c offset length ++ drop (Z.to_nat length) buf), d') /\
    contents d' = c /\ same_fru fru fru' /\ can_read intf fru' c.
Proof.
  intros <- Hc Hs H0 H1 H2 Hb. pose proof Hc as (Ha & Hsz & fru1 & Hi & Hm).
  destruct (read_area_run id false contents intf fru fru1 offset length buf d)
    as (fru' & d' & E & Hd & Hsame & Hm'); try done; try lia.
  exists fru', d'. split; [done |]. split; [done |]. split; [done |].
  by apply (can_read_after intf fru fru').
Qed.

Hypothesis malloc_ok : forall n, is_Some (malloc n).

Lemma bloc_alloc_ok : bloc_alloc = true.
Proof. unfold bloc_alloc. apply bool_decide_eq_true, malloc_ok. Qed.

Lemma multi_loop_ok fuel intf fru off hdr blocs d c :
  contents d = c -> can_read intf fru c -> zlen c <= 65535 -> bytes c -> 0 <= off -> zlen hdr = 5 ->
  records_inside fuel c off = true ->
  exists m fru' d', multi_loop fuel intf id fru off hdr blocs d = Ok ((Some m, fru'), d') /\
    contents d' = c /\ same_fru fru fru' /\ can_read intf fru' c.
Proof.
  revert fru off hdr blocs d. induction fuel as [|fuel IH]; intros fru off hdr blocs d Hd Hc Hs Hb H0 Hh H;
    [done |].
  cbn [records_inside] in H. apply andb_true_iff in H. destruct H as [H5 H]. bool_hyps.
  destruct (read_area_ok intf fru off 5 hdr d c) as (fru' & d' & E & Hd' & Hsame & Hc'); try done; try lia.
  rewrite drop_ge, app_nil_r in E by (unfold zlen in Hh; change (Z.to_nat 5) with 5%nat; lia).
  cbn [multi_loop]. destruct Hc as (Ha & Hsz & _). rewrite Ha. cbn [andb].
  rewrite (M_bind_run _ _ _ _ _ E). cbv beta iota. cbn [Z.ltb Z.compare].
  rewrite bloc_alloc_ok. cbn [negb].
  set (h := slice c off 5) in *.
  assert (zlen h = 5) as Hh' by (apply zlen_slice; lia).
  rewrite (take_ge h) by (unfold zlen in Hh'; lia).
  destruct (negb (ipmi_csum h =? 0)); [by do 3 eexists |].
  assert (is_u8 (rd h 2)) as Hu by (apply rd_bytes, slice_bytes, Hb). unfold is_u8 in Hu.
  destruct (rd h 1 .& 0x80 =? 0); [| by do 3 eexists].
  destruct Hc' as (Ha' & Hsz' & Hm'). rewrite Hsz'.
  destruct (off + rd h 2 + 5 <? zlen c) eqn:E1; bool_hyps; [| by do 3 eexists].
  cbn [andb]. rewrite (proj2 (Z.leb_gt _ _)) in H by lia. cbn [negb orb] in H.
  destruct (IH fru' (off + rd h 2 + 5) h (push_bloc (zlen c) (u16 off) blocs) d')
    as (m & fru2 & d2 & E2 & Hd2 & Hsame2 & Hc2); try done; try lia.
  exists m, fru2, d2. split; [done |]. split; [done |]. split; [| done].
  by eapply same_fru_trans.
Qed.

Lemma build_ok intf fru d c :
  contents d = c -> can_read intf fru c -> fru_wf c ->
  exists bl fru' d', build_fru_bloc intf fru id d = Ok ((bl, fru'), d') /\
    contents d' = c /\ same_fru fru fru' /\ can_read intf fru' c.
Proof.
  intros Hd Hc ((H8 & Hs) & Hb & Hm). unfold build_fru_bloc.
  destruct (fru_get_answers (id := id) (contents := contents) d 0 0 8) as (r & d' & Er & Hans);
    [unfold is_u8; lia | unfold is_u8; lia | cbn; lia | cbn; rewrite Hd; lia |].
  pose proof (fru_get_keeps (id := id) (contents := contents) d 0 0 8) as Hk. rewrite Er in Hk. cbn [snd] in Hk.
  rewrite (sendrecv_bind _ _ _ _ _ Er).
  destruct Hans as [[? _] | (Hcc & k & Hk0 & Hk8 & Hfull & Hcar)]; [lia |]. cbn [fru_unit] in *.
  assert (k = 8) as -> by (specialize (Hfull ltac:(lia)); lia). rewrite Hd in *.
  rewrite Hcc. cbn [Z.eqb negb]. change (1 * (0 + 256 * 0)) with 0 in Hcar. change (1 * 8) with 8 in Hcar.
  assert (zlen (slice c 0 8) = 8) as Hz by (apply zlen_slice; lia).
  rewrite (carries_bytes _ _ Hcar 1 8), lift_Ok_bind by (rewrite ?zlen_cons; lia).
  assert (slice (8 :: slice c 0 8) 1 8 = slice c 0 8) as ->.
  { change (8 :: slice c 0 8) with ([8] ++ slice c 0 8). rewrite slice_app_r by done.
    apply slice_all. rewrite Hz. done. }
  assert (fru_offset (slice c 0 8) fru_multi = fru_offset c fru_multi) as Ho.
  { unfold fru_offset, fru_multi. by rewrite rd_slice by lia. }
  assert (contents d' = c) as Hd' by congruence.
  destruct (negb _); [by exists None, fru, d' |]. destruct (negb _); [by exists None, fru, d' |].
  unfold area_blocs. rewrite bloc_alloc_ok. cbn [negb]. rewrite Ho.
  set (bl := fold_left _ _ _).
  destruct (fru_offset c fru_multi =? 0) eqn:E0; bool_hyps; [by exists (Some (rev bl)), fru, d' |].
  destruct Hm as [Hm | Hm]; [done |].
  assert (0 <= fru_offset c fru_multi) by (unfold fru_offset; apply (rd_bytes c), Hb).
  destruct Hc as (Ha & Hsz & Hr). pose proof Hsz as Hsz'. rewrite Hsz.
  replace (S (Z.to_nat (zlen c))) with (S (length c)) by (unfold zlen; lia).
  destruct (multi_loop_ok (S (length c)) intf fru (fru_offset c fru_multi * 8) (uninit 5) bl d' c)
    as ([m off] & fru2 & d2 & E2 & Hd2 & Hsame2 & Hc2); try done; try lia; [by apply uninit_len |].
  rewrite (M_bind_run _ _ _ _ _ E2). cbv beta iota.
  destruct (off <? fru_size fru2); by do 3 eexists.
Qed.

(** The loop of [write_fru_area] stores everything that is left. *)
Lemma write_loop_exact fuel fru finish blocs soffset doffset buf d :
  fru_access fru = false -> 0 < max_write_size fru <= 255 -> 0 <= soffset -> 0 <= doffset < finish ->
  finish <= zlen (contents d) <= 65535 -> soffset + (finish - doffset) <= zlen buf -> zlen buf <= 65535 ->
  (Z.to_nat (finish - doffset) + Z.to_nat (max_write_size fru) < fuel)%nat ->
  exists fru' d', write_loop fuel id finish fru blocs soffset doffset buf d = Ok ((finish, fru'), d') /\
    fru_size fru' = fru_size fru /\ fru_access fru' = false /\ max_read_size fru' = max_read_size fru /\
    wr (contents d) doffset (slice buf soffset (finish - doffset)) = Some (contents d').
Proof.
  revert fru blocs soffset doffset d.
  induction fuel as [|fuel IH]; intros fru blocs so dof d Ha Hm H0 Hd Hf Hb Hb' Hfuel; [lia |].
  cbn [write_loop]. set (bl := skip_blocs dof blocs).
  pose proof (end_bloc_range dof finish blocs ltac:(lia) ltac:(lia)) as [[He1 He2] He3].
  specialize (He3 ltac:(lia)). fold bl in He1, He2, He3.
  set (e := end_bloc bl finish) in *. clearbody e bl.
  rewrite (u16_small (e - dof)) by (unfold is_u16; lia).
  set (n := if max_write_size fru <? e - dof then max_write_size fru else e - dof).
  assert (0 < n <= e - dof /\ n <= max_write_size fru) as [Hn Hn'] by (unfold n; case_match; bool_hyps; lia).
  clearbody n. rewrite slx_ok, lift_Ok_bind by lia. rewrite Ha.
  set (b := slice buf so n). assert (zlen b = n) as Hz by (apply zlen_slice; lia).
  rewrite (take_ge b) by (unfold zlen in Hz; lia).
  unfold write_request.
  pose proof (request_offset fru dof false Ha ltac:(by intros [=]) ltac:(lia)) as Eo. cbn [fru_unit] in Eo.
  destruct (fru_set_answers (id := id) (contents := contents) d (u8 (fru_addr fru dof))
    (u8 (fru_addr fru dof .>> 8)) b) as (r & d' & Er & Hans); auto with ipmi; [lia | cbn [fru_unit]; lia |].
  cbn [fru_unit] in Hans. rewrite Eo in Hans. rewrite (sendrecv_bind _ _ _ _ _ Er).
  rewrite (proj2 (Z.ltb_lt dof finish)) by lia.
  destruct Hans as [(H32 & Hbig & Hc) | (Hcc & Hw)].
  - rewrite Hbig. unfold FRU_AREA_MAXIMUM_BLOCK_SZ, FRU_BLOCK_SZ.
    rewrite (proj2 (Z.ltb_lt 32 _)) by lia. cbn [andb].
    destruct (IH (fru <| max_write_size := max_write_size fru - 8 |>) bl so dof d')
      as (fru' & d2 & E & H1 & H2 & H3 & Hw2); rewrite ?Hc; try done; cbn; try lia.
    exists fru', d2. rewrite Hc in Hw2. by split_and!.
  - rewrite Hcc. cbn [fru_cc_rq2big IPMI_CC_REQ_DATA_INV_LENGTH IPMI_CC_REQ_DATA_FIELD_EXCEED
      IPMI_CC_CANT_RET_NUM_REQ_BYTES IPMI_CC_FRU_WRITE_PROTECTED_OFFSET Z.eqb orb andb negb].
    rewrite !u16_small by (unfold is_u16; lia).
    destruct (wr_Some _ _ _ _ Hw) as (_ & _ & Hl & _).
    destruct (dof + n <? finish) eqn:E; bool_hyps.
    + destruct (IH fru bl (so + n) (dof + n) d') as (fru' & d2 & E2 & H1 & H2 & H3 & Hw2);
        rewrite ?Hl; try done; try lia.
      exists fru', d2. split_and!; try done.
      replace (finish - dof) with (n + (finish - (dof + n))) by lia. rewrite <- slice_cat by lia.
      apply (wr_seq _ _ _ _ _ _ Hw). by rewrite Hz.
    + assert (n = finish - dof) as En by lia. unfold b in Hw. rewrite En in Hw |- *.
      replace (dof + (finish - dof)) with finish by lia. exists fru, d'. by split_and!.
Qed.

Lemma init_max_write_same intf fru fru1 : init_max_write intf fru = Some fru1 ->
  fru_size fru1 = fru_size fru /\ fru_access fru1 = fru_access fru /\ max_read_size fru1 = max_read_size fru.
Proof. unfold init_max_write. intros H. repeat case_match; simplify_eq; done. Qed.

(** [write_fru_area] stores the range; the state afterwards can be read. *)
Lemma write_area_run intf fru fru1 soffset doffset length buf d c :
  contents d = c -> can_read intf fru c -> fru_wf c ->
  init_max_write intf fru = Some fru1 -> 0 < max_write_size fru1 <= 255 ->
  0 <= soffset -> 0 <= doffset -> 0 < length -> doffset + length <= zlen c ->
  soffset + length <= zlen buf -> zlen buf <= 65535 ->
  exists fru' d', write_fru_area intf fru id soffset doffset length buf d = Ok ((1, fru'), d') /\
    wr c doffset (slice buf soffset length) = Some (contents d') /\ can_read intf fru' (contents d').
Proof.
  intros Hd Hc Hwf Hi Hm Hso Hdo Hl Hf Hb Hb'. pose proof Hwf as ((H8 & Hs) & _).
  pose proof Hc as (Ha & Hsz & _). unfold write_fru_area.
  rewrite u16_small by (unfold is_u16; lia). rewrite Hsz.
  rewrite (proj2 (Z.ltb_ge _ _)) by lia. rewrite Ha. cbn [andb].
  destruct (build_ok intf fru d c Hd Hc Hwf) as (bl & fru2 & d2 & E & Hd2 & Hsame & Hc2).
  rewrite (M_bind_run _ _ _ _ _ E). cbv beta iota.
  destruct Hsame as (Hs2 & Ha2 & Hw2).
  assert (exists fru3, init_max_write intf fru2 = Some fru3 /\ 0 < max_write_size fru3 <= 255) as (fru3 & Hi3 & Hm3).
  { unfold init_max_write in *. rewrite Hw2. destruct (max_write_size fru =? 0); simplify_eq.
    - destruct (_ <=? 3); [done |]. injection Hi as <-. eexists. split; [done |]. by rewrite Ha2.
    - exists fru2. split; [done |]. by rewrite Hw2. }
  rewrite Hi3. destruct (init_max_write_same _ _ _ Hi3) as (Hs3 & Ha3 & Hr3).
  destruct (write_loop_exact (write_fuel fru3 doffset (doffset + length)) fru3 (doffset + length)
    (default [] bl) soffset doffset buf d2) as (fru4 & d4 & E4 & Hs4 & Ha4 & Hr4 & Hw4);
    rewrite ?Hd2; try done; try lia; [unfold write_fuel; lia |].
  rewrite (M_bind_run _ _ _ _ _ E4). cbv beta iota. rewrite Z.leb_refl.
  replace (doffset + length - doffset) with length in Hw4 by lia. rewrite Hd2 in Hw4.
  exists fru4, d4. split; [done |]. split; [done |].
  destruct (wr_Some _ _ _ _ Hw4) as (_ & _ & Hl4 & _).
  destruct Hc2 as (_ & Hsz2 & fru5 & Hi5 & Hm5). split; [done |]. split; [congruence |].
  unfold init_max_read in Hi5 |- *. rewrite Hr4, Hr3. destruct (max_read_size fru2 =? 0) eqn:E5; simplify_eq.
  - destruct (_ <=? 1); [done |]. injection Hi5 as <-. eexists. split; [done |].
    revert Hm5. cbn. by rewrite Ha4, Ha2, Ha.
  - exists fru4. split; [done |]. rewrite Hr4, Hr3. done.
Qed.
End Write.
