(* ===== verification/FruProps.v ===== *)
(** * Correctness of the FRU transfers (lib/ipmi_fru.c)

    The properties of [read_fru_area], [write_fru_area] and [get_fru_area_str]
    on the device interface of FruXfer, with a concrete device for the
    examples. *)

From S2P Require Import Prelude Wire Ipmi Intf Session Helper Bmc Fru FruXfer.

#[local] Open Scope Z_scope.

(** ** A concrete device: an inventory accessed by bytes that refuses reads of
    more than 16 and writes of more than 32 bytes. *)

Definition toy_fru : Bmc (list Z) := fun req c =>
  match rq_data req with
  | [_] =>
      if rq_cmd req =? GET_FRU_INFO then (Some (reply 0 (htoipmi16 (zlen c) ++ [0])), c)
      else (Some (reply 0xc1 []), c)
  | _ :: lo :: hi :: data =>
      let off := lo + 256 * hi in
      if rq_cmd req =? GET_FRU_DATA then
        let n := rd data 0 in
        if 16 <? n then (Some (reply 0xc8 []), c)
        else if off + n <=? zlen c then (Some (reply 0 (n :: slice c off n)), c)
        else (Some (reply 0xc9 []), c)
      else if rq_cmd req =? SET_FRU_DATA then
        if 32 <? zlen data then (Some (reply 0xc7 []), c)
        else match wr c off data with
             | Some c' => (Some (reply 0 [zlen data]), c')
             | None => (Some (reply 0xc9 []), c)
             end
      else (Some (reply 0xc1 []), c)
  | _ => (Some (reply 0xc7 []), c)
  end.
#[local] Existing Instance toy_fru.

#[export] Instance toy_fru_storage : FruStorage 0 false (fun c : list Z => c).
Proof.
  constructor.
  - intros d lo hi n. unfold bmc_answer, toy_fru. cbn. repeat case_match; done.
  - intros d lo hi data. unfold bmc_answer, toy_fru. cbn [rq_data rq_cmd storage_rq].
    change (SET_FRU_DATA =? GET_FRU_DATA) with false. cbn [Z.eqb]. change (SET_FRU_DATA =? SET_FRU_DATA) with true.
    cbn match. destruct (32 <? zlen data); [by left |].
    replace (fru_unit false * (lo + 256 * hi)) with (lo + 256 * hi) by (cbn [fru_unit]; lia).
    destruct (wr d (lo + 256 * hi) data); [by right | by left].
Defined.

#[export] Instance toy_fru_readable : FruReadable 0 false (fun c : list Z => c).
Proof.
  constructor. intros d lo hi n Hlo Hhi Hn. cbn [fru_unit] in *.
  replace (1 * (lo + 256 * hi)) with (lo + 256 * hi) by lia. intros Ho.
  unfold bmc_answer, toy_fru. cbn [rq_data rq_cmd storage_rq]. change (rd [n] 0) with n.
  change (GET_FRU_DATA =? GET_FRU_DATA) with true. cbn match.
  destruct (16 <? n) eqn:E; bool_hyps.
  - do 2 eexists. split; [done |]. left. split; [lia | done].
  - rewrite (proj2 (Z.leb_le _ _)) by done. do 2 eexists. split; [done |]. right. split; [done |].
    exists n. do 3 (split; [lia |]). replace (1 * n) with n by lia. split; [done |]. by eexists.
Defined.

#[export] Instance toy_fru_writable : FruWritable 0 false (fun c : list Z => c).
Proof.
  constructor. intros d lo hi data Hlo Hhi Hn. cbn [fru_unit].
  replace (1 * (lo + 256 * hi)) with (lo + 256 * hi) by lia. intros Ho.
  unfold bmc_answer, toy_fru. cbn [rq_data rq_cmd storage_rq].
  change (SET_FRU_DATA =? GET_FRU_DATA) with false. change (SET_FRU_DATA =? SET_FRU_DATA) with true. cbn match.
  unfold is_u8 in *. destruct (wr_in_bounds d (lo + 256 * hi) data ltac:(lia) Ho) as [c' Hw].
  destruct (32 <? zlen data) eqn:E; bool_hyps.
  - do 2 eexists. split; [done |]. left. by split_and!.
  - rewrite Hw. do 2 eexists. split; [done |]. right. by split.
Defined.

(** ** Properties *)

Section Properties.
Context {dev : Type} {bmc : Bmc dev} `{mem : Malloc} {stk : Stack} {stklaws : StackLaws stk}.
Context (id : Z) (acc : bool) (contents : dev -> list Z).

(** C12. [read_fru_area] fills the buffer with exactly the range asked for,
    however short the device cuts its answers and whatever sizes it refuses,
    and leaves the inventory as it is; for byte and for word devices. *)
Theorem fru_read_exact {storage : FruStorage id acc contents} {readable : FruReadable id acc contents}
    intf fru fru1 offset length buf d :
  fru_access fru = acc -> fru_size fru = zlen (contents d) -> fru_size fru <= 65535 ->
  aligned acc offset -> aligned acc length -> 0 <= offset -> 0 < length ->
  offset + length <= fru_size fru -> length <= zlen buf ->
  init_max_read intf fru = Some fru1 -> fru_unit acc <= max_read_size fru1 <= 255 ->
  exists fru' d', read_fru_area intf fru id offset length buf d =
      Ok ((0, fru', slice (contents d) offset length ++ drop (Z.to_nat length) buf), d') /\
    contents d' = contents d.
Proof.
  intros. destruct (read_area_run id acc contents intf fru fru1 offset length buf d)
    as (fru' & d' & E & Hc & _); try done. by exists fru', d'.
Qed.

(** A range that passes the end of the inventory, with a length below its
    size, makes [read_fru_area] clear [length - size] bytes modulo 2^32 behind
    the buffer: the access is out of bounds for every buffer below 2 GiB and
    every device. *)
Theorem fru_read_past_end_faults intf fru offset length buf d :
  0 <= offset <= fru_size fru -> fru_size fru <= 65535 -> 0 <= length < fru_size fru ->
  fru_size fru < offset + length -> zlen buf < 2 ^ 31 ->
  read_fru_area intf fru id offset length buf d = Bad OutOfBounds.
Proof using Type.
  clear contents. intros H0 Hs Hl Hp Hb. unfold read_fru_area. rewrite (proj2 (Z.ltb_ge _ _)) by lia.
  unfold clip_range, u32. rewrite (Z.mod_small (offset + length)) by lia.
  rewrite (proj2 (Z.ltb_lt _ _)) by lia. unfold memset0.
  replace ((length - fru_size fru) mod 4294967296) with (4294967296 + length - fru_size fru)
    by (Z.to_euclidean_division_equations; lia).
  rewrite (proj2 (Z.leb_gt _ (zlen buf))) by lia. by rewrite andb_false_r.
Qed.

(** C14. A byte that [write_fru_area] changes is inside the range and holds its
    new value, at its place: whatever the device answers, stores, refuses or
    protects, and however the inventory is cut into blocks. *)
Theorem fru_write_places_bytes {storage : FruStorage id false contents}
    intf fru soffset doffset length buf d rc fru' d' :
  fru_access fru = false -> fru_size fru = zlen (contents d) -> 0 <= max_write_size fru ->
  0 <= soffset -> 0 <= doffset -> 0 <= length -> doffset + length <= 65535 -> soffset + length <= 65535 ->
  write_fru_area intf fru id soffset doffset length buf d = Ok ((rc, fru'), d') ->
  zlen (contents d') = zlen (contents d) /\
  forall i, 0 <= i < zlen (contents d) -> rd (contents d') i = rd (contents d) i \/
    doffset <= i < doffset + length /\ rd (contents d') i = rd buf (soffset + (i - doffset)).
Proof.
  intros Ha Hsz Hm Hso Hdo Hl Hd Hs H.
  unfold write_fru_area in H. rewrite u16_small in H by (unfold is_u16; lia).
  change (patched (contents d) buf soffset doffset length (contents d')).
  pose proof (patched_refl (contents d) buf soffset doffset length) as Hp.
  destruct (fru_size fru <? doffset + length); [by injection H as <- <- <- |].
  destruct (_ && _); [by injection H as <- <- <- |].
  apply M_bind_Ok in H. destruct H as ([bl fru1] & d1 & H1 & H).
  apply (build_keeps id contents) in H1. destruct H1 as [Hc (Hs1 & Ha1 & Hw1)].
  rewrite <- Hc in Hp at 2.
  destruct (init_max_write intf fru1) as [fru2|] eqn:E; [| by injection H as <- <- <-].
  apply M_bind_Ok in H. destruct H as ([x fru3] & d2 & H2 & H). injection H as <- <- <-.
  destruct (init_max_write_range _ _ _ E ltac:(lia) ltac:(congruence)) as [Ha2 Hm2].
  rewrite <- (Z.add_0_r soffset), <- (Z.add_0_r doffset) in H2.
  replace (doffset + 0 + length) with (doffset + length) in H2 by lia.
  eapply (write_loop_patched id contents) in H2; try done; lia.
Qed.

(** C13. On a device that stores what it accepts, [write_fru_area] reports
    success and [read_fru_area] of the same range returns the bytes written. *)
Theorem fru_write_read_roundtrip {storage : FruStorage id false contents}
    {readable : FruReadable id false contents} {writable : FruWritable id false contents}
    intf fru fru1 soffset doffset length buf out d :
  (forall n, is_Some (malloc n)) -> can_read intf fru (contents d) -> fru_wf (contents d) ->
  init_max_write intf fru = Some fru1 -> 0 < max_write_size fru1 <= 255 ->
  0 <= soffset -> 0 <= doffset -> 0 < length -> doffset + length <= zlen (contents d) ->
  soffset + length <= zlen buf -> zlen buf <= 65535 -> zlen out = length ->
  exists fru' d' fru'' d'',
    write_fru_area intf fru id soffset doffset length buf d = Ok ((1, fru'), d') /\
    wr (contents d) doffset (slice buf soffset length) = Some (contents d') /\
    read_fru_area intf fru' id doffset length out d' = Ok ((0, fru'', slice buf soffset length), d'').
Proof.
  intros Hmal Hc Hwf Hi Hm Hso Hdo Hl Hf Hb Hb' Ho.
  destruct (write_area_run id contents Hmal intf fru fru1 soffset doffset length buf d (contents d))
    as (fru' & d' & E & Hw & Hc'); try done.
  destruct (wr_Some _ _ _ _ Hw) as (_ & _ & Hlen & _). destruct Hwf as ((_ & H16) & _).
  destruct (read_area_ok id contents intf fru' doffset length out d' (contents d'))
    as (fru'' & d'' & E' & _); try done; try lia.
  exists fru', d', fru'', d''. split; [done |]. split; [done |]. rewrite E'. do 3 f_equal.
  assert (zlen (slice buf soffset length) = length) as Hz by (apply zlen_slice; lia).
  rewrite <- Hz at 1. rewrite (wr_slice _ _ _ _ Hw), drop_ge by (unfold zlen in Ho; lia). by rewrite app_nil_r.
Qed.

Lemma skip_blocs_idem dof blocs : skip_blocs dof (skip_blocs dof blocs) = skip_blocs dof blocs.
Proof.
  induction blocs as [|b bs IH]; [done |]. cbn [skip_blocs].
  destruct (bloc_end b <=? dof) eqn:E; [done |]. cbn [skip_blocs]. by rewrite E.
Qed.

(** On a device accessed by words, a block that ends at an odd offset
    stops the progress of [write_fru_area]: one byte before it the request is
    cut to nothing, and as long as the controller acknowledges the empty write
    the loop goes on forever (no number of rounds ends it). *)
Theorem fru_word_write_hangs fru blocs soffset doffset finish buf d :
  fru_access fru = true -> 1 <= max_write_size fru -> 0 <= doffset < finish -> finish <= 65535 ->
  end_bloc (skip_blocs doffset blocs) finish = doffset + 1 ->
  0 <= soffset < zlen buf -> soffset < 65536 ->
  (exists r, bmc_answer (write_request fru id doffset []) d = (Some r, d) /\ ccode r = 0) ->
  forall fuel, write_loop fuel id finish fru blocs soffset doffset buf d = Bad OutOfFuel.
Proof.
  intros Ha Hm Hd Hf He Hso Hso' (r & Er & Hcc) fuel. revert blocs He. induction fuel as [|fuel IH]; intros blocs He; [done |].
  cbn [write_loop]. rewrite He, Ha. replace (doffset + 1 - doffset) with 1 by lia.
  rewrite (u16_small 1) by (unfold is_u16; lia).
  rewrite (proj2 (Z.ltb_ge (max_write_size fru) 1)) by lia.
  rewrite slx_ok, lift_Ok_bind by lia. change (1 .& 0xfffe) with 0. change (Z.to_nat 0) with 0%nat.
  rewrite take_0. rewrite (sendrecv_bind _ _ _ _ _ Er), Hcc.
  cbn [fru_cc_rq2big andb orb]. change (fru_cc_rq2big 0) with false. cbn [andb].
  change (0 =? IPMI_CC_FRU_WRITE_PROTECTED_OFFSET) with false. cbn [negb andb Z.eqb].
  rewrite !Z.add_0_r, !u16_small by (unfold is_u16; lia). rewrite (proj2 (Z.ltb_lt doffset finish)) by lia.
  apply IH. rewrite <- He. by rewrite skip_blocs_idem.
Qed.
End Properties.

(** ** Witnesses *)

Definition toy_inventory : list Z := [1; 0; 0; 0; 0; 0; 0; 255] ++ seqZ 100 24.
Definition toy_addr : intf_addr := mk_addr 0x20 0x20 0 0 0 0 0.
Definition toy_info : fru_info := mk_fru 32 false 0 0.
Definition toy_data : list Z := seqZ 7 20.

Lemma toy_inventory_wf : fru_wf toy_inventory.
Proof.
  split; [split; vm_compute; discriminate |]. split; [| by left].
  apply (bool_decide_unpack (bytes toy_inventory)). vm_compute. exact I.
Qed.

Lemma fru_read_exact_witness :
  exists fru' d', read_fru_area toy_addr toy_info 0 8 20 (zeros 20) toy_inventory =
      Ok ((0, fru', slice toy_inventory 8 20 ++ drop (Z.to_nat 20) (zeros 20)), d') /\ d' = toy_inventory.
Proof.
  apply (fru_read_exact 0 false (fun c => c) toy_addr toy_info (mk_fru 32 false 23 0) 8 20 (zeros 20) toy_inventory);
    try reflexivity; try (cbn; lia); try (intros [=]); try (vm_compute; split; discriminate).
Defined.

Lemma fru_read_past_end_faults_witness :
  read_fru_area toy_addr toy_info 0 30 5 (zeros 5) toy_inventory = Bad OutOfBounds.
Proof. apply (fru_read_past_end_faults 0 toy_addr toy_info 30 5 (zeros 5) toy_inventory);
  [cbn; lia .. | reflexivity].
Defined.

Lemma fru_write_places_bytes_witness :
  exists rc fru' d', write_fru_area toy_addr toy_info 0 0 8 20 toy_data toy_inventory = Ok ((rc, fru'), d') /\
  zlen d' = zlen toy_inventory /\
  forall i, 0 <= i < zlen toy_inventory -> rd d' i = rd toy_inventory i \/
    8 <= i < 8 + 20 /\ rd d' i = rd toy_data (0 + (i - 8)).
Proof.
  do 3 eexists. split; [vm_compute; reflexivity |].
  eapply (fru_write_places_bytes 0 (fun c => c) toy_addr toy_info 0 8 20 toy_data toy_inventory);
    [reflexivity | reflexivity | cbn; lia | lia | lia | lia | lia | lia | vm_compute; reflexivity].
Defined.

Lemma fru_write_read_roundtrip_witness :
  exists fru' d' fru'' d'',
    write_fru_area toy_addr toy_info 0 0 8 20 toy_data toy_inventory = Ok ((1, fru'), d') /\
    wr toy_inventory 8 (slice toy_data 0 20) = Some d' /\
    read_fru_area toy_addr fru' 0 8 20 (zeros 20) d' = Ok ((0, fru'', slice toy_data 0 20), d'').
Proof.
  apply (fru_write_read_roundtrip 0 (fun c => c) toy_addr toy_info (mk_fru 32 false 0 22) 0 8 20 toy_data
    (zeros 20) toy_inventory).
  - by eexists.
  - split; [reflexivity |]. split; [reflexivity |]. exists (mk_fru 32 false 23 0). split; [reflexivity | cbn; lia].
  - apply toy_inventory_wf.
  - reflexivity.
  - cbn; lia.
  - lia.
  - lia.
  - lia.
  - vm_compute; discriminate.
  - vm_compute; discriminate.
  - vm_compute; discriminate.
  - reflexivity.
Defined.

(** A device accessed by words; its inventory holds one multi-record of five
    bytes at offset 8, so that a block ends at 13. *)
Definition word_fru : Bmc (list Z) := fun req c =>
  match rq_data req with
  | _ :: lo :: hi :: data =>
      let off := 2 * (lo + 256 * hi) in
      if rq_cmd req =? GET_FRU_DATA then
        (Some (reply 0 (rd data 0 / 2 :: slice c off (2 * (rd data 0 / 2)))), c)
      else match wr c off data with
           | Some c' => (Some (reply 0 [zlen data]), c')
           | None => (Some (reply 0xc9 []), c)
           end
  | _ => (Some (reply 0xc7 []), c)
  end.

Definition word_inventory : list Z := [1; 0; 0; 0; 0; 1; 0; 254] ++ [0xc0; 0x80; 0; 0; 0xc0; 0; 0; 0].
Definition word_info : fru_info := mk_fru 16 true 0 0.
Definition word_blocs : list fru_bloc := [mk_bloc 8 5; mk_bloc 13 3].

(** Writing the whole inventory comes to that block and stays in it. *)
Lemma fru_word_write_hangs_witness :
  @write_fru_area toy_malloc (list Z) word_fru toy_stack toy_addr word_info 0 0 0 16 (zeros 16) word_inventory =
    Bad OutOfFuel /\
  forall fuel, @write_loop (list Z) word_fru fuel 0 16 (mk_fru 16 true 22 22) word_blocs 12 12 (zeros 16)
    word_inventory = Bad OutOfFuel.
Proof.
  split; [vm_compute; reflexivity |].
  apply (@fru_word_write_hangs (list Z) word_fru).
  - reflexivity.
  - cbn; lia.
  - lia.
  - lia.
  - reflexivity.
  - split; [lia | reflexivity].
  - lia.
  - eexists. split; [vm_compute; reflexivity | reflexivity].
Defined.
