(* ===== verification/FruEdit.v ===== *)
(** * Editing fields of the FRU inventory (lib/ipmi_fru.c)

    [ipmi_fru_set_field_string], which overwrites a field by a string of the
    same length, and [ipmi_fru_set_field_string_rebuild], which changes the
    length of the field and moves the areas behind it; the transfer of a whole
    inventory to and from a file; the walk over multi-records in a buffer. *)

From S2P Require Import Prelude Wire Ipmi Intf Session Helper Bmc Fru FruXfer.

#[local] Open Scope Z_scope.

Definition FRU_RECORD_FORMAT_EOL_MASK : Z := 0x80.
Definition FRU_AREAS_COUNT : Z := 5.

Section FruEdit.
Context {dev : Type} `{bmc : Bmc dev} `{mem : Malloc} `{stk : Stack}.

(** Get FRU Inventory Area Info: the size and the access of [fru]. *)
Definition fru_area_info (id : Z) : M dev (option fru_info) :=
  rsp ← sendrecv (storage_rq GET_FRU_INFO [id]);
  match rsp with
  | None => mret None
  | Some r =>
      if negb (ccode r =? 0) then mret None else
      mret (Some (mk_fru ((rd (rs_data r) 1 .<< 8) .| rd (rs_data r) 0)
                    (negb (rd (rs_data r) 2 .& 1 =? 0)) 0 0))
  end.

(** The common header, read in one request and not checked. *)
Definition fru_header_bytes (id : Z) : M dev (option (list Z)) :=
  rsp ← sendrecv (storage_rq GET_FRU_DATA [id; 0; 0; 8]);
  match rsp with
  | None => mret None
  | Some r =>
      if negb (ccode r =? 0) then mret None else
      header ← lift (rsp_bytes r 1 8);
      mret (Some header)
  end.

(** The offset of the area of a field, and of its first field inside it. *)
Definition field_area (header : list Z) (f_type : Z) : option (Z * Z) :=
  if f_type =? 99 then Some (fru_offset header fru_chassis * 8, 3)
  else if f_type =? 98 then Some (fru_offset header fru_board * 8, 6)
  else if f_type =? 112 then Some (fru_offset header fru_product * 8, 3)
  else None.

(** [fru_area] of the field [n], where it starts and where the next one does. *)
Fixpoint seek_field (n : nat) (str data : list Z) (offset : Z) : res (option (list Z) * Z * Z) :=
  '(area, next) ← get_fru_area_str str data offset;
  match n with
  | O => Ok (area, offset, next)
  | S n => seek_field n str data next
  end.

(** [FRU_FIELD_VALID] *)
Definition field_valid (area : option (list Z)) : bool :=
  match area with Some a => negb (rd a 0 =? 0) | None => false end.

(** The sum of the bytes of an area but the last one, negated. *)
Definition area_checksum (data : list Z) (off len : Z) : res Z :=
  d ← slx data off (u32 (len - 1));
  Ok (u8 (- fold_left (fun c b => u8 (c + b)) d 0)).

(** The branch of equal lengths: the area with the new text and checksum. *)
Definition update_area (fru_data : list Z) (section_len field : Z) (f_string : list Z) : res (list Z) :=
  fru_data ← or_oob (wr fru_data (field + 1) f_string);
  checksum ← area_checksum fru_data 0 section_len;
  or_oob (wr fru_data (u32 (section_len - 1)) [checksum]).

(** ** The rebuilt inventory *)

(** [padding_len]: the zeros before the checksum of the area. *)
Fixpoint count_padding (fuel : nat) (old : list Z) (header_offset section_len counter : Z) : res Z :=
  match fuel with
  | O => Ok 0
  | S fuel =>
      if counter <? section_len then
        b ← rdx old (header_offset + section_len - counter);
        if b =? 0 then
          n ← count_padding fuel old header_offset section_len (counter + 1);
          Ok (n + 1)
        else Ok 0
      else Ok 0
  end.

(** How many blocks the area grows or shrinks by. *)
Definition change_block_cnt (padding_len : Z) : Z :=
  if FRU_BLOCK_SZ <=? padding_len then - Z.quot padding_len FRU_BLOCK_SZ
  else 1 - Z.quot (padding_len + 1) FRU_BLOCK_SZ.

(** [memcpy(new + to, old + from, n)] *)
Definition copy_area (old new : list Z) (from to n : Z) : res (list Z) :=
  bs ← slx old from n; or_oob (wr new to bs).

(** The variables of the loop over the areas. *)
Record move_state := mk_move {
  mv_header : list Z;
  mv_new : list Z;
  mv_next : Z;      (* next_area_blk *)
  mv_last : Z;      (* last_area_blk *)
  mv_end : Z;       (* end_of_fru *)
}.

(** The length that the code computes for the multi-record area: that of the
    first record when it is the last one, else zero. *)
Definition mr_length (old : list Z) (start : Z) : res Z :=
  format ← rdx old (start + 1);
  if format .& FRU_RECORD_FORMAT_EOL_MASK =? 0 then Ok 0 else
  len ← rdx old (start + 2); Ok (len + 5).

(** One area of the loop. *)
Definition move_area (old : list Z) (header_offset cbc : Z) (internal_move : bool)
    (m : move_state) (i : Z) : res move_state :=
  let area_blk := fru_offset (mv_header m) i in
  let internal := fru_offset (mv_header m) fru_internal in
  let multi := fru_offset (mv_header m) fru_multi in
  if (area_blk =? 0) || (area_blk =? internal) then Ok m else
  let next := if internal_move && (internal <? area_blk) && (area_blk <? mv_next m)
              then area_blk else mv_next m in
  '(last, fin) ←
    (if mv_last m <? area_blk then
       len ← rdx old (FRU_BYTES area_blk + 1);
       if area_blk =? multi then
         n ← mr_length old (FRU_BYTES multi); Ok (area_blk, FRU_BYTES multi + n)
       else Ok (area_blk, FRU_BYTES (area_blk + len))
     else Ok (mv_last m, mv_end m));
  if header_offset <? FRU_BYTES area_blk then
    let cur := FRU_BYTES area_blk in
    length ← (if area_blk =? multi then rdx old (cur + 2)
              else len ← rdx old (cur + 1); Ok (FRU_BYTES len));
    new ← copy_area old (mv_new m) cur (cur + FRU_BYTES cbc) length;
    Ok (mk_move (<[Z.to_nat (1 + i) := u8 (area_blk + cbc)]> (mv_header m)) new next last fin)
  else Ok (mk_move (mv_header m) (mv_new m) next last fin).

Fixpoint move_areas (areas : list Z) (old : list Z) (header_offset cbc : Z) (internal_move : bool)
    (m : move_state) : res move_state :=
  match areas with
  | [] => Ok m
  | i :: areas => m ← move_area old header_offset cbc internal_move m i;
               move_areas areas old header_offset cbc internal_move m
  end.

(** Step 5 when the section changes its number of blocks: the new inventory,
    with the area length stored in the old one, and the new size. *)
Definition resize_section (old new : list Z) (header : list Z) (size header_offset cbc : Z)
    : res (list Z * list Z * Z) :=
  let internal := fru_offset header fru_internal in
  let internal_move := negb (internal =? 0) && (header_offset <? internal) in
  m ← move_areas [0; 1; 2; 3; 4] old header_offset cbc internal_move
        (mk_move header new (u8 size) 0 0);
  '(header, new) ←
    (if internal_move then
       new ← copy_area old (mv_new m) (internal * 8) ((internal + cbc) * 8) (u32 (mv_next m - internal));
       Ok (<[1%nat := u8 (internal + cbc)]> (mv_header m), new)
     else Ok (mv_header m, mv_new m));
  area_len ← rdx old (header_offset + 1);
  old ← or_oob (wr old (header_offset + 1) [u8 (area_len + cbc)]);
  checksum ← fru_calc_checksum header 8;
  new ← or_oob (wr new 0 (<[7%nat := checksum]> header));
  new ← (if cbc <? 0
         then memset0 new (u32 (mv_end m + cbc * 8)) (- (cbc * 8))
         else Ok new);
  Ok (old, new, u16 (size + cbc * 8)).

(** Step 6: the field, what follows it in the section, padding and checksum. *)
Definition store_field (old new : list Z) (header_offset section_len field old_len padding_len : Z)
    (f_string : list Z) : res (list Z) :=
  let n := zlen f_string in
  new ← or_oob (wr new field [u8 (0xc0 + n)]);
  new ← or_oob (wr new (field + 1) f_string);
  new ← copy_area old new (field + 1 + old_len) (field + 1 + n)
          ((header_offset + section_len - 1) - (field + n + 1));
  new ← memset0 new (header_offset + section_len - 1 - padding_len) padding_len;
  cksum ← area_checksum new header_offset section_len;
  or_oob (wr new (header_offset + section_len - 1) [cksum]).

(** Steps 3 to 6 on the inventory that was read: the new inventory and its
    size, or the code -1. *)
Definition rebuild_inventory (str old new : list Z) (fru : fru_info) (header : list Z)
    (f_type f_index : Z) (f_string : list Z) : res (option (list Z * Z)) :=
  match field_area header f_type with
  | None => Ok None
  | Some (header_offset, data_offset) =>
      area_len ← rdx old (header_offset + 1);
      let section_len := FRU_BYTES area_len in
      '(area, field, _) ← seek_field (Z.to_nat f_index) str old (header_offset + data_offset);
      if negb (field_valid area) then Ok None else
      padding ← count_padding (Z.to_nat section_len) old header_offset section_len 2;
      let old_len := strlen (default [] area) in
      (* the bytes that the trace prints *)
      _ ← rdx old field;
      _ ← rdx old (field + zlen f_string + 1);
      _ ← rdx old (header_offset + section_len - 2 - padding);
      _ ← rdx old (header_offset + section_len - 1);
      let padding := padding - (zlen f_string - old_len) in
      if (padding <? 0) || (FRU_BLOCK_SZ <=? padding) then
        let cbc := change_block_cnt padding in
        '(old, new, size) ← resize_section old new header (fru_size fru) header_offset cbc;
        let section_len := u32 (section_len + cbc * FRU_BLOCK_SZ) in
        let padding := padding + cbc * FRU_BLOCK_SZ in
        if (0 <=? padding) && (padding <? FRU_BLOCK_SZ) then
          new ← store_field old new header_offset section_len field old_len padding f_string;
          Ok (Some (new, size))
        else Ok None
      else
        new ← store_field old new header_offset section_len field old_len padding f_string;
        Ok (Some (new, fru_size fru))
  end.

(** [ipmi_fru_set_field_string_rebuild] *)
Definition ipmi_fru_set_field_string_rebuild (intf : intf_addr) (str : list Z) (fruId : Z)
    (fru : fru_info) (header : list Z) (f_type f_index : Z) (f_string : list Z) (new_size : Z)
    : M dev Z :=
  match malloc (fru_size fru), malloc new_size with
  | Some _, Some new =>
      '(_, fru, old) ← read_fru_area intf fru fruId 0 (fru_size fru) (zeros (fru_size fru));
      new ← lift (or_oob (wr new 0 old));
      r ← lift (rebuild_inventory str old new fru header f_type f_index f_string);
      match r with
      | None => mret (-1)
      | Some (new, size) =>
          '(rc, _) ← write_fru_area intf (fru <| fru_size := size |>) fruId 0 0 size new;
          mret (if rc <? 0 then -1 else 1)
      end
  | _, _ => mret (-1)
  end.

(** [ipmi_fru_set_field_string] *)
Definition ipmi_fru_set_field_string (intf : intf_addr) (str : list Z) (fruId f_type f_index : Z)
    (f_string : list Z) : M dev Z :=
  fru ← fru_area_info fruId;
  match fru with
  | None => mret (-1)
  | Some fru =>
      if fru_size fru <? 1 then mret (-1) else
      header ← fru_header_bytes fruId;
      match header with
      | None => mret (-1)
      | Some header =>
          if negb (rd header 0 =? 1) then mret (-1) else
          match malloc (fru_size fru) with
          | None => mret (-1)
          | Some fru_data =>
              match field_area header f_type with
              | None => mret (-1)
              | Some (header_offset, field_offset) =>
                  '(_, fru, fru_data) ← read_fru_area intf fru fruId header_offset 3 fru_data;
                  len ← lift (rdx fru_data 1);
                  let section_len := len * 8 in
                  '(rc, fru, fru_data) ← read_fru_area intf fru fruId header_offset section_len
                                           (zeros (fru_size fru));
                  if rc <? 0 then mret (-1) else
                  let f_index := u8 (f_index - 0x30) in
                  '(area, field, _) ← lift (seek_field (Z.to_nat f_index) str fru_data field_offset);
                  if negb (field_valid area) then mret (-1) else
                  if strlen (default [] area) =? zlen f_string then
                    fru_data ← lift (update_area fru_data section_len field f_string);
                    '(rc, _) ← write_fru_area intf fru fruId 0 header_offset section_len fru_data;
                    mret (if rc <? 0 then -1 else 1)
                  else
                    let change := zlen f_string - strlen (default [] area) in
                    let new_size := if 0 <? change then FRU_BYTES_ALIGNED (fru_size fru + change)
                                    else fru_size fru in
                    ipmi_fru_set_field_string_rebuild intf str fruId fru header f_type f_index f_string new_size
              end
          end
      end
  end.

(** ** Whole inventories and multi-records *)

(** [ipmi_fru_read_to_bin]: the bytes written to the file. *)
Definition ipmi_fru_read_to_bin (intf : intf_addr) (fruId : Z) : M dev (option (list Z)) :=
  fru ← fru_area_info fruId;
  match fru with
  | None => mret None
  | Some fru =>
      match malloc (fru_size fru) with
      | None => mret None
      | Some buf =>
          '(_, _, buf) ← read_fru_area intf fru fruId 0 (fru_size fru) buf;
          mret (Some buf)
      end
  end.

(** [ipmi_fru_write_from_bin] of a file with the bytes [file]; [None] when it
    cannot be opened. *)
Definition ipmi_fru_write_from_bin (intf : intf_addr) (fruId : Z) (file : option (list Z)) : M dev unit :=
  fru ← fru_area_info fruId;
  match fru with
  | None => mret tt
  | Some fru =>
      match malloc (fru_size fru) with
      | None => mret tt
      | Some buf =>
          let got := take (Z.to_nat (fru_size fru)) (default [] file) in
          let len := zlen got in
          if len =? 0 then mret tt else
          buf ← lift (or_oob (wr buf 0 got));
          '(_, _) ← write_fru_area intf fru fruId 0 0 (u16 len) buf;
          mret tt
      end
  end.

(** [ipmi_fru_get_adjust_size_from_buffer]: the code and [*pSize]; [count] is
    a 16-bit counter. *)
Fixpoint adjust_size (fuel : nat) (fru_data : list Z) (count : Z) : res (Z * Z) :=
  match fuel with
  | O => Bad OutOfFuel
  | S fuel =>
      h ← slx fru_data count 5;
      let status := if fold_left (fun c b => u8 (c + b)) h 0 =? 0 then 0 else -1 in
      let count := u16 (count + rd h 2 + 5) in
      if (rd h 1 .& 0x80 =? 0) && (status =? 0) then adjust_size fuel fru_data count
      else Ok (status, count)
  end.

Definition ipmi_fru_get_adjust_size_from_buffer (fru_data : list Z) : res (Z * Z) :=
  adjust_size (S (length fru_data)) fru_data 0.

(** [ipmi_fru_get_multirec_location_from_fru]: the code, [*pFruInfo], location
    and size. *)
Definition ipmi_fru_get_multirec_location_from_fru (fruId : Z) (pFruInfo : fru_info) : M dev (Z * fru_info * Z * Z) :=
  fru ← fru_area_info fruId;
  match fru with
  | None => mret (-1, pFruInfo, 0, 0)
  | Some fru =>
      let fru := pFruInfo <| fru_size := fru_size fru |> <| fru_access := fru_access fru |> in
      if fru_size fru =? 0 then mret (-1, fru, 0, 0) else
      header ← fru_header_bytes fruId;
      match header with
      | None => mret (-1, fru, 0, 0)
      | Some header =>
          if negb (rd header 0 =? 1) then mret (-1, fru, 0, 0) else
          let shorter o fin := if (o * 8 >? o * 8) && (o * 8 <? fin) then o * 8 else fin in
          let fin := fold_left (fun fin i => shorter (fru_offset header i) fin)
                       [fru_internal; fru_chassis; fru_board; fru_product] (fru_size fru) in
          mret (0, fru, 8 * fru_offset header fru_multi, fin)
      end
  end.
End FruEdit.
