(* ===== verification/FruEditProps.v ===== *)
(** * Correctness of field updates (lib/ipmi_fru.c)

    [ipmi_fru_set_field_string] on the device interface of FruXfer: what a
    successful update of a field of the same length leaves in the inventory,
    and what the code reports when it is not successful. *)

From S2P Require Import Prelude Wire Ipmi Intf Session Helper Bmc Fru FruXfer FruProps FruEdit.

#[local] Open Scope Z_scope.

(** ** Fields *)

(** [get_fru_area_str] on an 8-bit ASCII field. *)
Lemma ascii8_field `{mem : Malloc} str data off tl s :
  is_Some (malloc (zlen s + 1)) -> 0 <= off -> off + 1 + zlen s <= zlen data -> rd data off = tl ->
  fld_type tl = 3 -> fld_len tl = zlen s -> 0 < zlen s -> slice data (off + 1) (zlen s) = s ->
  Forall (fun c => c <> 0) s ->
  exists a, get_fru_area_str str data off = Ok (Some a, off + 1 + zlen s) /\ c_string a = s.
Proof.
  intros [blk Hm] H0 Hl Htl Ht Hn Hs Hd Hz. unfold get_fru_area_str.
  rewrite rdx_ok by lia. cbn [mbind res_bind]. rewrite Htl, Ht, Hn.
  change (str_size 3 (zlen s)) with (zlen s). rewrite (proj2 (Z.ltb_ge _ _)) by lia. rewrite Hm.
  rewrite slx_ok by lia. cbn [mbind res_bind]. change (3 =? 0) with false. change (3 =? 1) with false.
  change (3 =? 2) with false. cbn match. rewrite Hd.
  pose proof (wr_next [] (zeros (zlen s + 1)) 0 s eq_refl ltac:(rewrite zlen_zeros; lia)) as Hw.
  cbn [app] in Hw. cbn [mbind res_bind]. rewrite Hw. cbn [or_oob mbind res_bind]. eexists. split; [done |].
  unfold zeros. rewrite drop_replicate. replace (_ - _)%nat with 1%nat by lia.
  by apply c_string_app.
Qed.

Section Edit.
Context {dev : Type} {bmc : Bmc dev} `{mem : Malloc} {memlaws : MallocLaws mem}.
Context {stk : Stack} {stklaws : StackLaws stk}.
Context (id : Z) (contents : dev -> list Z).

(** The device reports the size of its inventory, accessed by bytes. *)
Class FruSized := {
  fru_info_answers : forall d, exists r d',
    bmc_answer (storage_rq GET_FRU_INFO [id]) d = (Some r, d') /\ ccode r = 0 /\
    contents d' = contents d /\ carries r (htoipmi16 (zlen (contents d)) ++ [0]);
}.

Context {sized : FruSized} {storage : FruStorage id false contents} {readable : FruReadable id false contents}.
Hypothesis malloc_ok : forall n, is_Some (malloc n).

Lemma area_info_run d : 0 <= zlen (contents d) <= 65535 ->
  exists d', fru_area_info id d = Ok (Some (mk_fru (zlen (contents d)) false 0 0), d') /\
    contents d' = contents d.
Proof.
  intros Hs. destruct (fru_info_answers d) as (r & d' & Er & Hcc & Hc & Hcar). exists d'. split; [| done].
  unfold fru_area_info. rewrite (sendrecv_bind _ _ _ _ _ Er), Hcc. cbn [Z.eqb negb].
  destruct Hcar as (_ & rest & ->). set (h := htoipmi16 _).
  assert (ipmi16toh ((h ++ [0]) ++ rest) = zlen (contents d)) as Hh
    by (unfold h; rewrite <- app_assoc; apply ipmi16toh_htoipmi16; unfold is_u16; lia).
  unfold ipmi16toh in Hh. rewrite Hh. done.
Qed.

Lemma fru_header_run d : 8 <= zlen (contents d) <= 65535 ->
  exists d', fru_header_bytes id d = Ok (Some (slice (contents d) 0 8), d') /\ contents d' = contents d.
Proof.
  intros Hs.
  destruct (fru_get_answers (id := id) (contents := contents) d 0 0 8) as (r & d' & Er & Hans);
    [unfold is_u8; lia | unfold is_u8; lia | cbn; lia | cbn; lia |].
  pose proof (fru_get_keeps (id := id) (contents := contents) d 0 0 8) as Hk. rewrite Er in Hk. cbn [snd] in Hk.
  exists d'. split; [| done]. unfold fru_header_bytes. rewrite (sendrecv_bind _ _ _ _ _ Er).
  destruct Hans as [[? _] | (Hcc & k & Hk0 & Hk8 & Hfull & Hcar)]; [lia |]. cbn [fru_unit] in *.
  assert (k = 8) as -> by (specialize (Hfull ltac:(lia)); lia).
  rewrite Hcc. cbn [Z.eqb negb]. change (1 * (0 + 256 * 0)) with 0 in Hcar. change (1 * 8) with 8 in Hcar.
  assert (zlen (slice (contents d) 0 8) = 8) as Hz by (apply zlen_slice; lia).
  rewrite (carries_bytes _ _ Hcar 1 8), lift_Ok_bind by (rewrite ?zlen_cons; lia).
  change (8 :: slice (contents d) 0 8) with ([8] ++ slice (contents d) 0 8).
  rewrite slice_app_r by done. rewrite slice_all; [done |]. rewrite Hz. done.
Qed.

(** A field of the inventory [c] and a text as long as the one it decodes to. *)
Record updatable (intf : intf_addr) (str c : list Z) (f_type f_index : Z) (s : list Z)
    (ho len field : Z) : Prop := {
  up_wf : fru_wf c;
  up_version : rd c 0 = 1;
  up_index : 0 <= f_index - 0x30 < 256;
  up_area : exists fo, field_area (slice c 0 8) f_type = Some (ho, fo) /\
    exists a next, seek_field (Z.to_nat (f_index - 0x30)) str
        (slice c ho len ++ zeros (zlen c - len)) fo = Ok (Some a, field, next) /\
      strlen a = zlen s;
  up_len : len = 8 * rd c (ho + 1) /\ 0 < len /\ 0 <= ho /\ ho + len <= zlen c;
  up_text : bytes s /\ Forall (fun x => x <> 0) s /\ 0 < zlen s;
  up_field : 0 <= field /\ field + 1 + zlen s < len;
  up_read : can_read intf (mk_fru (zlen c) false 0 0) c;
}.

(** The new area: the text, then the checksum of the section. *)
Definition new_area (c : list Z) (ho len field : Z) (s : list Z) : list Z :=
  let area := slice c ho len in
  let text := take (Z.to_nat (field + 1)) area ++ s ++ drop (Z.to_nat (field + 1 + zlen s)) area in
  take (Z.to_nat (len - 1)) text ++ [ipmi_csum (take (Z.to_nat (len - 1)) text)].

Lemma field_valid_strlen a n : strlen a = n -> 0 < n -> field_valid (Some a) = true.
Proof.
  unfold strlen. intros <- H. cbn. destruct a as [|x a]; [by cbn in H |].
  cbn in H |- *. destruct (x =? 0) eqn:E; [by cbn in H |].
  change (rd (x :: a) 0) with x. by rewrite E.
Qed.

(** [update_area] on the area followed by the rest of the block. *)
Lemma update_area_ok c ho len field s rest :
  0 < len < 65536 -> 0 <= ho -> ho + len <= zlen c -> 0 <= field -> field + 1 + zlen s < len ->
  exists buf, update_area (slice c ho len ++ rest) len field s = Ok buf /\
    zlen buf = len + zlen rest /\ slice buf 0 len = new_area c ho len field s.
Proof.
  intros Hl Hh Hc Hf Hs. unfold update_area, new_area. set (area := slice c ho len).
  pose proof (zlen_nonneg s).
  assert (zlen area = len) as Ha by (apply zlen_slice; lia).
  destruct (wr_split area (field + 1) s ltac:(lia) ltac:(lia)) as (A & old & B & E & HA & Hold & _).
  assert (take (Z.to_nat (field + 1)) area = A) as ->.
  { rewrite E, take_app_le by (unfold zlen in HA; lia). apply take_ge. unfold zlen in HA. lia. }
  assert (drop (Z.to_nat (field + 1 + zlen s)) area = B) as ->.
  { rewrite E, app_assoc. apply drop_app_length'. rewrite length_app. unfold zlen in *. lia. }
  rewrite E in *. rewrite <- !app_assoc. rewrite wr_at by lia. cbn [or_oob mbind res_bind].
  set (text := A ++ s ++ B). assert (zlen text = len) as Ht by (unfold text; zlen_lia).
  set (T := take (Z.to_nat (len - 1)) text).
  assert (zlen T = len - 1) as HT by (unfold T; rewrite zlen_take; lia).
  assert (exists x, text = T ++ [x]) as [x Ex].
  { pose proof (take_drop (Z.to_nat (len - 1)) text) as Htd. fold T in Htd.
    destruct (drop (Z.to_nat (len - 1)) text) as [|x [|y l]] eqn:Ed.
    - exfalso. rewrite <- Htd in Ht. zlen_lia.
    - by exists x.
    - exfalso. rewrite <- Htd in Ht. zlen_lia. }
  replace (A ++ s ++ B ++ rest) with (T ++ [x] ++ rest)
    by (rewrite app_assoc, <- Ex; unfold text; by rewrite <- !app_assoc).
  unfold area_checksum. unfold u32. rewrite Z.mod_small by lia.
  rewrite slx_ok by zlen_lia. cbn [mbind res_bind].
  rewrite slice_app_l, (slice_all T) by (rewrite ?HT; lia).
  change (u8 (- fold_left (fun c b => u8 (c + b)) T 0)) with (ipmi_csum T).
  rewrite wr_at by (done || lia). cbn [or_oob]. eexists. split; [done |].
  split; [zlen_lia |]. rewrite app_assoc, slice_app_l by zlen_lia. apply slice_all. zlen_lia.
Qed.

(** Everything [ipmi_fru_set_field_string] does before it writes. *)
Lemma set_field_run intf str c f_type f_index s ho len field d :
  contents d = c -> updatable intf str c f_type f_index s ho len field ->
  exists fru' buf d', ipmi_fru_set_field_string intf str id f_type f_index s d =
      ('(rc, _) ← write_fru_area intf fru' id 0 ho len buf; mret (if rc <? 0 then -1 else 1)) d' /\
    contents d' = c /\ can_read intf fru' c /\ max_write_size fru' = 0 /\
    zlen buf = zlen c /\ slice buf 0 len = new_area c ho len field s.
Proof.
  intros Hd [Hwf Hver Hidx (fo & Hfo & a & next & Hseek & Hstr) (Hl & Hl0 & Hho & Hin) (Hsb & Hsz & Hs0)
    (Hf0 & Hf1) Hcr].
  pose proof Hwf as ((H8 & H16) & Hb & _). unfold ipmi_fru_set_field_string.
  destruct (area_info_run d ltac:(rewrite Hd; lia)) as (d1 & E1 & Hd1). rewrite Hd in *.
  rewrite (M_bind_run _ _ _ _ _ E1). cbv beta iota. cbn [fru_size]. rewrite (proj2 (Z.ltb_ge _ _)) by lia.
  destruct (fru_header_run d1 ltac:(rewrite Hd1; lia)) as (d2 & E2 & Hd2). rewrite Hd1 in *.
  rewrite (M_bind_run _ _ _ _ _ E2). cbv beta iota. rewrite rd_slice by lia.
  change (0 + 0) with 0. rewrite Hver. cbn [Z.eqb negb Pos.eqb].
  destruct (malloc_ok (zlen c)) as [blk Hblk]. rewrite Hblk. apply malloc_len in Hblk; [| lia].
  assert (is_u8 (rd c (ho + 1))) as Hu by (by apply rd_bytes). unfold is_u8 in Hu.
  rewrite Hfo.
  destruct (read_area_ok id contents intf (mk_fru (zlen c) false 0 0) ho 3 blk d2 c)
    as (fru3 & d3 & E3 & Hd3 & Hsame3 & Hcr3); try done; try lia.
  rewrite (M_bind_run _ _ _ _ _ E3). cbv beta iota.
  rewrite rdx_ok, lift_Ok_bind, rd_app_l, rd_slice by (rewrite ?zlen_app, ?zlen_slice by lia; pose proof (zlen_nonneg (drop (Z.to_nat 3) blk)); lia).
  replace (rd c (ho + 1) * 8) with len by lia.
  destruct Hsame3 as (Hs3 & Ha3 & Hw3). cbn [fru_size fru_access max_write_size] in *.
  rewrite Hs3.
  destruct (read_area_ok id contents intf fru3 ho len (zeros (zlen c)) d3 c)
    as (fru4 & d4 & E4 & Hd4 & (Hs4 & Ha4 & Hw4) & Hcr4); try done; try lia; [rewrite zlen_zeros; lia |].
  rewrite (M_bind_run _ _ _ _ _ E4). cbv beta iota. cbn [Z.ltb Z.compare].
  rewrite u8_small by (unfold is_u8; lia).
  assert (drop (Z.to_nat len) (zeros (zlen c)) = zeros (zlen c - len)) as ->.
  { unfold zeros. rewrite drop_replicate. f_equal. lia. }
  rewrite Hseek, lift_Ok_bind. cbv beta iota. rewrite (field_valid_strlen a _ Hstr) by done. cbn [negb].
  change (default [] (Some a)) with a. rewrite Hstr, Z.eqb_refl.
  destruct (update_area_ok c ho len field s (zeros (zlen c - len))) as (buf & Eu & Hlb & Hnew); try lia.
  rewrite Eu, lift_Ok_bind. exists fru4, buf, d4. split; [done |]. split; [done |]. split; [done |].
  split; [congruence |]. split; [rewrite zlen_zeros in Hlb; lia | done].
Qed.

(** What the new area holds. *)
Lemma new_area_spec c ho len field s : bytes c -> bytes s ->
  0 < len -> 0 <= ho -> ho + len <= zlen c -> 0 <= field -> field + 1 + zlen s < len ->
  zlen (new_area c ho len field s) = len /\
  fru_checksum_is_valid (new_area c ho len field s) len = Ok true /\
  slice (new_area c ho len field s) (field + 1) (zlen s) = s /\
  (forall i, 0 <= i < len - 1 -> i < field + 1 \/ field + 1 + zlen s <= i ->
    rd (new_area c ho len field s) i = rd c (ho + i)).
Proof.
  intros Hb Hsb Hl Hh Hc Hf Hs. unfold new_area. set (area := slice c ho len).
  pose proof (zlen_nonneg s). assert (zlen area = len) as Ha by (apply zlen_slice; lia).
  set (A := take _ area). set (B := drop _ area).
  assert (zlen A = field + 1) as HA by (unfold A; rewrite zlen_take; lia).
  assert (zlen B = len - (field + 1 + zlen s)) as HB by (unfold B; rewrite zlen_drop; lia).
  set (text := A ++ s ++ B). assert (zlen text = len) as Ht by (unfold text; zlen_lia).
  set (T := take _ text). assert (zlen T = len - 1) as HT by (unfold T; rewrite zlen_take; lia).
  split; [zlen_lia |]. split; [| split].
  - unfold fru_checksum_is_valid, fru_calc_checksum. rewrite rdx_ok by zlen_lia. cbn [mbind res_bind].
    rewrite slx_ok by zlen_lia. cbn [mbind res_bind].
    rewrite slice_app_l, slice_all by (rewrite ?HT; lia).
    rewrite rd_app_r, HT, Z.sub_diag by lia. change (rd [ipmi_csum T] 0) with (ipmi_csum T).
    by rewrite Z.eqb_refl.
  - rewrite slice_app_l by lia. unfold T. change (take (Z.to_nat (len - 1)) text) with (slice text 0 (len - 1)).
    rewrite slice_slice by lia. unfold text. apply slice_app_mid; lia.
  - intros i Hi Hout. rewrite rd_app_l by lia. unfold T.
    change (take (Z.to_nat (len - 1)) text) with (slice text 0 (len - 1)).
    rewrite rd_slice by lia. cbn [Z.add]. replace (0 + i) with i by lia. unfold text.
    assert (rd area i = rd c (ho + i)) as <- by (apply rd_slice; lia).
    destruct Hout.
    + rewrite rd_app_l by lia. unfold A. change (take (Z.to_nat (field + 1)) area) with (slice area 0 (field + 1)).
      rewrite rd_slice by lia. f_equal; lia.
    + rewrite !rd_app_r by lia. unfold B, rd. rewrite lookup_drop. do 2 f_equal. lia.
Qed.

Lemma init_max_write_zero intf fru : max_write_size fru = 0 -> fru_access fru = false ->
  4 <= ipmi_intf_get_max_request_data_size intf ->
  exists fru1, init_max_write intf fru = Some fru1 /\ 0 < max_write_size fru1 <= 255.
Proof.
  intros H0 Ha H. unfold init_max_write. rewrite H0, Ha. cbn [Z.eqb].
  rewrite (proj2 (Z.leb_gt _ _)) by lia. eexists. split; [done |]. cbn. case_match; bool_hyps; lia.
Qed.

(** The controller refuses every write. *)
Class FruReadOnly := {
  fru_set_refused : forall d lo hi data, exists r d',
    bmc_answer (storage_rq SET_FRU_DATA (id :: lo :: hi :: data)) d = (Some r, d') /\
    contents d' = contents d /\ ccode r <> 0 /\ ccode r <> 0x80 /\ fru_cc_rq2big (ccode r) = false;
}.

Lemma write_loop_refused {ro : FruReadOnly} fuel fru finish blocs soffset doffset buf d :
  0 <= max_write_size fru -> 0 <= doffset < finish -> finish <= 65535 -> 0 <= soffset ->
  soffset + (finish - doffset) <= zlen buf ->
  exists d', write_loop (S fuel) id finish fru blocs soffset doffset buf d = Ok ((doffset, fru), d') /\
    contents d' = contents d.
Proof.
  intros Hm Hd Hf Hs Hb. cbn [write_loop].
  pose proof (end_bloc_range doffset finish blocs ltac:(lia) ltac:(lia)) as [[He1 He2] He3].
  set (e := end_bloc _ _) in *. clearbody e. rewrite (u16_small (e - doffset)) by (unfold is_u16; lia).
  set (n := if max_write_size fru <? e - doffset then _ else _).
  assert (0 <= n <= e - doffset) as Hn by (unfold n; case_match; bool_hyps; lia). clearbody n.
  rewrite slx_ok, lift_Ok_bind by lia.
  match goal with |- context [sendrecv (write_request fru id doffset ?data)] =>
    destruct (fru_set_refused d (u8 (fru_addr fru doffset)) (u8 (fru_addr fru doffset .>> 8)) data)
      as (r & d' & Er & Hc & Hcc & Hp & Hbig);
    rewrite (sendrecv_bind (write_request fru id doffset data) _ _ _ _ Er)
  end.
  rewrite Hbig. cbn [andb]. unfold IPMI_CC_FRU_WRITE_PROTECTED_OFFSET.
  rewrite (proj2 (Z.eqb_neq (ccode r) 0x80)), (proj2 (Z.eqb_neq (ccode r) 0)) by done. by exists d'.
Qed.

Lemma write_area_refused {ro : FruReadOnly} intf fru offset length buf d c :
  contents d = c -> can_read intf fru c -> fru_wf c -> max_write_size fru = 0 ->
  4 <= ipmi_intf_get_max_request_data_size intf -> 0 <= offset -> 0 < length ->
  offset + length <= zlen c -> length <= zlen buf ->
  exists fru' d', write_fru_area intf fru id 0 offset length buf d = Ok ((0, fru'), d') /\ contents d' = c.
Proof.
  intros Hd Hc Hwf Hmw Hi Ho Hl Hf Hb. pose proof Hwf as ((H8 & Hs) & _).
  pose proof Hc as (Ha & Hsz & _). unfold write_fru_area.
  rewrite u16_small by (unfold is_u16; lia). rewrite Hsz, (proj2 (Z.ltb_ge _ _)) by lia. rewrite Ha. cbn [andb].
  destruct (build_ok id contents malloc_ok intf fru d c Hd Hc Hwf) as (bl & fru2 & d2 & E & Hd2 & Hsame & _).
  rewrite (M_bind_run _ _ _ _ _ E). cbv beta iota. destruct Hsame as (Hs2 & Ha2 & Hw2).
  destruct (init_max_write_zero intf fru2) as (fru3 & -> & Hm); [congruence | congruence | done |].
  unfold write_fuel. rewrite Nat.add_comm. cbn [Nat.add].
  destruct (write_loop_refused (Z.to_nat (offset + length - offset) + Z.to_nat (max_write_size fru3)) fru3
    (offset + length) (default [] bl) 0 offset buf d2) as (d3 & E3 & Hd3); try lia.
  rewrite (M_bind_run _ _ _ _ _ E3). cbv beta iota. rewrite (proj2 (Z.leb_gt _ _)) by lia.
  exists fru3, d3. split; [done | congruence].
Qed.

(** ** Properties *)

(** C16. Replacing a field by a text as long as the one it decodes to: the code
    reports success, the area in the inventory has a valid checksum, the bytes of
    the text stand behind the type of the field, whatever its encoding, and every
    other byte of the inventory is as before.  An 8-bit ASCII field of this length
    decodes to the new text; one of another encoding need not
    ([set_field_bcd]). *)
Theorem set_field_string_updates {writable : FruWritable id false contents}
    intf str c f_type f_index s ho len field d :
  contents d = c -> updatable intf str c f_type f_index s ho len field ->
  4 <= ipmi_intf_get_max_request_data_size intf ->
  exists d' area, ipmi_fru_set_field_string intf str id f_type f_index s d = Ok (1, d') /\
    wr c ho area = Some (contents d') /\ zlen area = len /\
    fru_checksum_is_valid area len = Ok true /\
    slice area (field + 1) (zlen s) = s /\
    (fld_type (rd c (ho + field)) = 3 -> fld_len (rd c (ho + field)) = zlen s ->
      exists a, get_fru_area_str str area field = Ok (Some a, field + 1 + zlen s) /\ c_string a = s) /\
    (forall i, 0 <= i < len - 1 -> i < field + 1 \/ field + 1 + zlen s <= i -> rd area i = rd c (ho + i)).
Proof.
  intros Hd Hup Hi. destruct (set_field_run intf str c f_type f_index s ho len field d Hd Hup)
    as (fru' & buf & d1 & E & Hd1 & Hcr & Hmw & Hlb & Hnew). rewrite E.
  destruct Hup as [Hwf _ _ _ (Hl & Hl0 & Hho & Hin) (Hsb & Hsz & Hs0) (Hf0 & Hf1) _].
  pose proof Hwf as ((H8 & H16) & Hb & _). destruct Hcr as (Ha & Hrest).
  destruct (init_max_write_zero intf fru' Hmw Ha Hi) as (fru1 & Hi1 & Hm1).
  destruct (write_area_run id contents malloc_ok intf fru' fru1 0 ho len buf d1 c)
    as (fru2 & d2 & E2 & Hw & _); try done; try lia.
  rewrite (M_bind_run _ _ _ _ _ E2). cbv beta iota. cbn [Z.ltb Z.compare].
  rewrite Hnew in Hw.
  destruct (new_area_spec c ho len field s Hb Hsb Hl0 Hho Hin Hf0 Hf1) as (Hz & Hck & Htext & Hother).
  exists d2, (new_area c ho len field s). split_and!; try done. intros Hty Hlen.
  apply (ascii8_field str _ field (rd c (ho + field)) s); try done; try lia.
  apply Hother; lia.
Qed.

(** When the controller refuses the write, the code still reports success
    and the inventory is unchanged. *)
Theorem set_field_string_ignores_refusal {ro : FruReadOnly}
    intf str c f_type f_index s ho len field d :
  contents d = c -> updatable intf str c f_type f_index s ho len field ->
  4 <= ipmi_intf_get_max_request_data_size intf ->
  exists d', ipmi_fru_set_field_string intf str id f_type f_index s d = Ok (1, d') /\ contents d' = c.
Proof.
  intros Hd Hup Hi. destruct (set_field_run intf str c f_type f_index s ho len field d Hd Hup)
    as (fru' & buf & d1 & E & Hd1 & Hcr & Hmw & Hlb & Hnew). rewrite E.
  destruct Hup as [Hwf _ _ _ (Hl & Hl0 & Hho & Hin) _ _ _].
  destruct (write_area_refused intf fru' ho len buf d1 c) as (fru2 & d2 & E2 & Hd2); try done; try lia.
  exists d2. rewrite (M_bind_run _ _ _ _ _ E2). done.
Qed.
End Edit.

(** ** Examples and witnesses *)

(** An inventory of 64 bytes with a product area of three blocks at 8: the
    fields ["ABCD"] and ["xyz"], then padding and the checksum. *)
Definition product_area : list Z :=
  [1; 3; 25; 0xC4; 65; 66; 67; 68; 0xC3; 120; 121; 122; 0xC1; 0; 0; 0; 0; 0; 0; 0; 0; 0; 0; 38].
Definition product_inventory : list Z := [1; 0; 0; 0; 1; 0; 0; 254] ++ product_area ++ zeros 32.
Definition str_array : list Z := zeros BUF2STR_MAXIMUM_OUTPUT_SIZE.

Definition long_text : list Z := seqZ 69 22.

(** A text that needs one more block: the code stores a section of 32
    bytes with its checksum and reports success, but the length byte of the
    area keeps its old value: the area that the inventory describes ends inside
    the field and its checksum is wrong. *)
Theorem rebuild_keeps_area_length :
  exists inventory,
    @ipmi_fru_set_field_string (list Z) toy_fru toy_malloc toy_stack toy_addr str_array 0 112 48
      long_text product_inventory = Ok (1, inventory) /\
    fru_checksum_is_valid (slice inventory 8 32) 32 = Ok true /\
    rd inventory 9 = rd product_inventory 9 /\ 8 * rd inventory 9 = 24 /\
    fru_checksum_is_valid (slice inventory 8 24) 24 = Ok false /\
    @get_fru_area_str toy_malloc str_array (slice inventory 8 24) 3 = Bad OutOfBounds.
Proof. eexists. split; [vm_compute; reflexivity |]. vm_compute. repeat split. Qed.

#[export] Instance toy_fru_sized : @FruSized (list Z) toy_fru 0 (fun c : list Z => c).
Proof.
  constructor. intros d. unfold bmc_answer, toy_fru. cbn [rq_data rq_cmd storage_rq].
  change (GET_FRU_INFO =? GET_FRU_INFO) with true. cbn match. do 2 eexists. split; [done |].
  split; [done |]. split; [done |]. split; [done |]. by eexists.
Defined.

(** The same device, write-protected as a whole. *)
Definition read_only_fru : Bmc (list Z) := fun req c =>
  if rq_cmd req =? SET_FRU_DATA then (Some (reply 0xd5 []), c) else @bmc_answer _ toy_fru req c.

#[export] Instance read_only_storage : @FruStorage (list Z) read_only_fru 0 false (fun c : list Z => c).
Proof.
  constructor; intros.
  - apply (@fru_get_keeps _ toy_fru 0 false _ toy_fru_storage).
  - by left.
Defined.

#[export] Instance read_only_readable : @FruReadable (list Z) read_only_fru 0 false (fun c : list Z => c).
Proof. constructor. intros. by apply (@fru_get_answers _ toy_fru 0 false _ toy_fru_readable). Defined.

#[export] Instance read_only_sized : @FruSized (list Z) read_only_fru 0 (fun c : list Z => c).
Proof. constructor. intros. apply (@fru_info_answers _ toy_fru 0 _ toy_fru_sized). Defined.

#[export] Instance read_only_refuses : @FruReadOnly (list Z) read_only_fru 0 (fun c : list Z => c).
Proof. constructor. intros. do 2 eexists. by split_and!. Defined.

Lemma product_updatable :
  updatable toy_addr str_array product_inventory 112 48 [69; 70; 71; 72] 8 24 3.
Proof.
  constructor.
  - split; [split; vm_compute; discriminate |]. split; [| by left].
    apply (bool_decide_unpack (bytes product_inventory)). vm_compute. exact I.
  - reflexivity.
  - lia.
  - exists 3. split; [reflexivity |]. eexists _, _. split; [vm_compute; reflexivity | reflexivity].
  - split_and!; vm_compute; (reflexivity || discriminate).
  - split; [repeat constructor; unfold is_u8; lia |]. split; [by repeat constructor | reflexivity].
  - split; [lia | reflexivity].
  - split; [reflexivity |]. split; [reflexivity |]. exists (mk_fru 64 false 23 0). split; [reflexivity | cbn; lia].
Qed.

Lemma set_field_string_updates_witness :
  exists d' area, @ipmi_fru_set_field_string (list Z) toy_fru toy_malloc toy_stack toy_addr str_array 0 112 48
      [69; 70; 71; 72] product_inventory = Ok (1, d') /\
    wr product_inventory 8 area = Some d' /\ zlen area = 24 /\
    fru_checksum_is_valid area 24 = Ok true /\
    slice area (3 + 1) (zlen [69; 70; 71; 72]) = [69; 70; 71; 72] /\
    (fld_type (rd product_inventory (8 + 3)) = 3 -> fld_len (rd product_inventory (8 + 3)) = zlen [69; 70; 71; 72] ->
      exists a, get_fru_area_str str_array area 3 = Ok (Some a, 3 + 1 + zlen [69; 70; 71; 72]) /\ c_string a = [69; 70; 71; 72]) /\
    (forall i, 0 <= i < 24 - 1 -> i < 3 + 1 \/ 3 + 1 + zlen [69; 70; 71; 72] <= i ->
      rd area i = rd product_inventory (8 + i)).
Proof.
  apply (@set_field_string_updates (list Z) toy_fru toy_malloc toy_malloc_laws toy_stack toy_stack_laws 0
    (fun c => c) toy_fru_sized toy_fru_storage toy_fru_readable).
  - by eexists.
  - apply toy_fru_writable.
  - reflexivity.
  - apply product_updatable.
  - vm_compute. discriminate.
Defined.

(** The field "12" in BCD plus, replaced by "34": the byte behind it is
    overwritten too, and it decodes to what the characters are as digits. *)
Definition bcd_inventory : list Z :=
  [1; 0; 0; 0; 1; 0; 0; 254] ++ [1; 3; 25; 0x41; 0x12; 0xC3; 120; 121; 122; 0xC1; 0; 0; 0; 0; 0; 0; 0; 0; 0; 0; 0; 0; 0; 26] ++ zeros 32.

Example set_field_bcd :
  match @ipmi_fru_set_field_string (list Z) toy_fru toy_malloc toy_stack toy_addr str_array 0 112 48 [51; 52] bcd_inventory with
  | Ok (rc, d) => rc = 1 /\ slice d 12 2 = [51; 52] /\ get_fru_area_str str_array (slice d 8 24) 3 = Ok (Some [51; 51; 0], 5)
  | Bad _ => False
  end.
Proof. vm_compute. done. Qed.

Lemma set_field_string_ignores_refusal_witness :
  exists d', @ipmi_fru_set_field_string (list Z) read_only_fru toy_malloc toy_stack toy_addr str_array 0 112 48
      [69; 70; 71; 72] product_inventory = Ok (1, d') /\ d' = product_inventory.
Proof.
  apply (@set_field_string_ignores_refusal (list Z) read_only_fru toy_malloc toy_malloc_laws toy_stack toy_stack_laws 0
    (fun c => c) read_only_sized read_only_storage read_only_readable (fun n => ltac:(by eexists)) read_only_refuses
    toy_addr str_array product_inventory 112 48 [69; 70; 71; 72] 8 24 3).
  - reflexivity.
  - apply product_updatable.
  - vm_compute. discriminate.
Defined.
