(* ===== verification/Sdr.v ===== *)
(** * Sensor data records (lib/ipmi_sdr.c)

    The iterator over a repository: reservation, record header, and the record
    body in partial reads whose size adapts to the controller.  Every body is
    checked by [ipmi_sdr_record_length_valid] before it is used. *)

From S2P Require Import Prelude Wire Ipmi Intf Session Bmc.

#[local] Open Scope Z_scope.

Definition IPMI_NETFN_SE : Z := 0x4.
Definition GET_SDR_REPO_INFO : Z := 0x20.
Definition GET_DEVICE_SDR_INFO : Z := 0x20.
Definition GET_DEVICE_SDR : Z := 0x21.
Definition GET_SDR_RESERVE_REPO : Z := 0x22.
Definition GET_SDR : Z := 0x23.
Definition IPM_DEV_DEVICE_ID_SDR_MASK : Z := 0x80.
Definition IPMI_CC_RES_CANCELED : Z := 0xc5.
Definition SDR_CANT_RET : Z := 0xca. (* IPMI_CC_CANT_RET_NUM_REQ_BYTES *)

Definition SDR_RECORD_TYPE_FULL_SENSOR : Z := 0x01.
Definition SDR_RECORD_TYPE_COMPACT_SENSOR : Z := 0x02.
Definition SDR_RECORD_TYPE_EVENTONLY_SENSOR : Z := 0x03.
Definition SDR_RECORD_TYPE_ENTITY_ASSOC : Z := 0x08.
Definition SDR_RECORD_TYPE_GENERIC_DEVICE_LOCATOR : Z := 0x10.
Definition SDR_RECORD_TYPE_FRU_DEVICE_LOCATOR : Z := 0x11.
Definition SDR_RECORD_TYPE_MC_DEVICE_LOCATOR : Z := 0x12.

(** [struct ipmi_sdr_iterator] *)
Record sdr_itr := mk_itr {
  reservation : Z;
  itr_total : Z;
  itr_next : Z;
  itr_built_in : bool;
}.

#[export] Instance sdr_itr_rebuild : Rebuild sdr_itr := fun r =>
  mk_itr (reservation r) (itr_total r) (itr_next r) (itr_built_in r).

(** [struct sdr_get_rs] *)
Record sdr_get_rs := mk_hdr {
  h_next : Z;
  h_id : Z;
  h_version : Z;
  h_type : Z;
  h_length : Z;
}.

#[export] Instance sdr_get_rs_rebuild : Rebuild sdr_get_rs := fun r =>
  mk_hdr (h_next r) (h_id r) (h_version r) (h_type r) (h_length r).

(** The static variables of the file. *)
Record sdr_statics := mk_statics {
  sdr_max_read_len : Z;
  use_built_in : bool;
}.

#[export] Instance sdr_statics_rebuild : Rebuild sdr_statics := fun r =>
  mk_statics (sdr_max_read_len r) (use_built_in r).

(** ** The layout of the named records *)

(** Where [id_code] and [id_string] are in the body of a record. *)
Definition name_offsets (type : Z) : option (Z * Z) :=
  if type =? SDR_RECORD_TYPE_FULL_SENSOR then Some (42, 43)
  else if type =? SDR_RECORD_TYPE_COMPACT_SENSOR then Some (26, 27)
  else if type =? SDR_RECORD_TYPE_EVENTONLY_SENSOR then Some (11, 12)
  else if type =? SDR_RECORD_TYPE_GENERIC_DEVICE_LOCATOR then Some (10, 11)
  else if type =? SDR_RECORD_TYPE_FRU_DEVICE_LOCATOR then Some (10, 11)
  else if type =? SDR_RECORD_TYPE_MC_DEVICE_LOCATOR then Some (10, 11)
  else None.

Definition id_string_size : Z := 16.
Definition entity_assoc_size : Z := 11.

(** [ipmi_sdr_record_length_valid] *)
Definition ipmi_sdr_record_length_valid (type len : Z) (data : list Z) : res bool :=
  match name_offsets type with
  | Some (code_offset, name_offset) =>
      if len <? name_offset then Ok false else
      code ← rdx data code_offset;
      Ok ((code .& 0x1f <=? id_string_size) && (code .& 0x1f <=? len - name_offset))
  | None =>
      if type =? SDR_RECORD_TYPE_ENTITY_ASSOC then Ok (entity_assoc_size <=? len) else Ok true
  end.

Section Sdr.
Context `{mem : Malloc} {dev : Type} `{bmc : Bmc dev}.

(** A request to the repository or to the device SDRs. *)
Definition sdr_rq (built_in : bool) (cmd dcmd : Z) (data : list Z) : ipmi_rq :=
  if built_in then mk_rq IPMI_NETFN_SE 0 dcmd 0 data else mk_rq IPMI_NETFN_STORAGE 0 cmd 0 data.

(** [struct sdr_get_rq] *)
Definition get_sdr_rq (itr : sdr_itr) (id offset length : Z) : ipmi_rq :=
  sdr_rq (itr_built_in itr) GET_SDR GET_DEVICE_SDR
    (htoipmi16 (reservation itr) ++ htoipmi16 (u16 id) ++ [offset; length]).

(** [ipmi_sdr_get_reservation]; [None] is -1. *)
Definition ipmi_sdr_get_reservation (use_builtin : bool) : M dev (option Z) :=
  rsp ← sendrecv (sdr_rq use_builtin GET_SDR_RESERVE_REPO GET_SDR_RESERVE_REPO []);
  match rsp with
  | None => mret None
  | Some r =>
      if negb (ccode r =? 0) then mret None else
      d ← lift (rsp_bytes r 0 2);
      mret (Some (ipmi16toh d))
  end.

(** The five tries of [ipmi_sdr_get_header]. *)
Fixpoint header_tries (tries : nat) (itr : sdr_itr) : M dev (option ipmi_rs * sdr_itr) :=
  match tries with
  | O => mret (None, itr)
  | S tries =>
      rsp ← sendrecv (get_sdr_rq itr (itr_next itr) 0 5);
      match rsp with
      | None => header_tries tries itr
      | Some r =>
          if ccode r =? IPMI_CC_RES_CANCELED then
            id ← ipmi_sdr_get_reservation (itr_built_in itr);
            match id with
            | None => mret (None, itr)
            | Some id => header_tries tries (itr <| reservation := id |>)
            end
          else if negb (ccode r =? 0) then header_tries tries itr
          else mret (Some r, itr)
      end
  end.

(** The [memcpy] into [sdr_rs]. *)
Definition parse_header (d : list Z) : sdr_get_rs :=
  mk_hdr (ipmi16toh (slice d 0 2)) (ipmi16toh (slice d 2 2)) (rd d 4) (rd d 5) (rd d 6).

Definition ipmi_sdr_get_header (itr : sdr_itr) : M dev (option sdr_get_rs * sdr_itr) :=
  '(rsp, itr) ← header_tries 5 itr;
  match rsp with
  | None => mret (None, itr)
  | Some r =>
      if rs_data_len r <? 2 + 5 then mret (None, itr) else
      d ← lift (rsp_bytes r 0 7);
      let h := parse_header d in
      if h_length h =? 0 then mret (None, itr) else
      mret (Some (if negb (itr_next itr =? 0) && negb (h_id h =? itr_next itr)
                  then h <| h_id := u16 (itr_next itr) |> else h), itr)
  end.

Definition ipmi_sdr_get_next_header (itr : sdr_itr) : M dev (option sdr_get_rs * sdr_itr) :=
  if itr_next itr =? 0xffff then mret (None, itr) else
  '(header, itr) ← ipmi_sdr_get_header itr;
  match header with
  | None => mret (None, itr)
  | Some h => mret (Some h, itr <| itr_next := h_next h |>)
  end.

(** The loop of [ipmi_sdr_get_record]: [max] is [sdr_max_read_len], [i] the
    bytes read so far. *)
Fixpoint record_loop (fuel : nat) (hdr : sdr_get_rs) (itr : sdr_itr) (max i : Z) (data : list Z)
    : M dev (option (list Z) * sdr_itr * Z) :=
  if h_length hdr <=? i then mret (Some data, itr, max) else
  match fuel with
  | O => fail OutOfFuel
  | S fuel =>
      let len := h_length hdr in
      let length := u8 (if len - i <? max then len - i else max) in
      rsp ← sendrecv (get_sdr_rq itr (h_id hdr) (u8 (i + 5)) length);
      let shrink :=
        if 0 <? length - 1 then record_loop fuel hdr itr (length - 1) i data
        else mret (None, itr, length - 1) in
      match rsp with
      | None => shrink
      | Some r =>
          if ccode r =? SDR_CANT_RET then shrink
          else if ccode r =? IPMI_CC_RES_CANCELED then
            id ← ipmi_sdr_get_reservation (itr_built_in itr);
            match id with
            | None => mret (None, itr, max)
            | Some id => record_loop fuel hdr (itr <| reservation := id |>) max i data
            end
          else if negb (ccode r =? 0) || (rs_data_len r <? 2 + length) then mret (None, itr, max)
          else
            bs ← lift (rsp_bytes r 2 length);
            data ← lift (or_oob (wr data i bs));
            record_loop fuel hdr itr max (i + length) data
      end
  end.

(** The size of the first read, taken from the interface once. *)
Definition init_max_sdr (intf : intf_addr) (max : Z) : Z :=
  if max =? 0 then
    let max := ipmi_intf_get_max_response_data_size intf - 2 in
    if 0xFE <? max then 0xFE else max
  else max.

(** [ipmi_sdr_get_record]: the buffer of [len + 1] bytes, or NULL. *)
Definition ipmi_sdr_get_record (fuel : nat) (intf : intf_addr) (hdr : sdr_get_rs) (itr : sdr_itr)
    (max : Z) : M dev (option (list Z) * sdr_itr * Z) :=
  let len := h_length hdr in
  if len <? 1 then mret (None, itr, max) else
  match malloc (len + 1) with
  | None => mret (None, itr, max)
  | Some _ =>
      '(data, itr, max) ← record_loop fuel hdr itr (init_max_sdr intf max) 0 (zeros (len + 1));
      match data with
      | None => mret (None, itr, max)
      | Some data =>
          valid ← lift (ipmi_sdr_record_length_valid (h_type hdr) len data);
          mret (if valid : bool then Some data else None, itr, max)
      end
  end.

(** ** Opening a repository *)

(** The SDR support that Get Device ID reports: the new [use_built_in], [None]
    when the device has no SDRs at all. *)
Definition sdr_support (use_builtin built_in : bool) (devid : list Z) : option bool :=
  if negb use_builtin && negb (rd devid 1 .& IPM_DEV_DEVICE_ID_SDR_MASK =? 0) then
    if rd devid 5 .& 0x02 =? 0 then
      if negb (rd devid 5 .& 0x01 =? 0) then Some true else None
    else Some built_in
  else Some built_in.

(** [Get SDR Repository Info] or [Get Device SDR Info]: the number of records. *)
Definition sdr_count (built_in : bool) : M dev (option Z) :=
  rsp ← sendrecv (sdr_rq built_in GET_SDR_REPO_INFO GET_DEVICE_SDR_INFO []);
  match rsp with
  | None => mret None
  | Some r =>
      if negb (ccode r =? 0) || (built_in && (rs_data_len r =? 0)) then mret None else
      d ← lift (rsp_bytes r 0 (if built_in then 5 else 14));
      mret (Some (if built_in then rd d 0 else ipmi16toh (slice d 1 2)))
  end.

(** [ipmi_sdr_start]; [rebuild_sdrr] is [ipmi_sdr_add_from_sensors(intf, 0)]. *)
Definition ipmi_sdr_start (rebuild_sdrr : sdr_statics -> M dev (Z * sdr_statics))
    (use_builtin : bool) (st : sdr_statics) : M dev (option sdr_itr * sdr_statics) :=
  match malloc 16 with
  | None => mret (None, st)
  | Some _ =>
      rsp ← sendrecv (mk_rq IPMI_NETFN_APP 0 BMC_GET_DEVICE_ID 0 []);
      match rsp with
      | None => mret (None, st)
      | Some r =>
          if negb (ccode r =? 0) then mret (None, st) else
          devid ← lift (rsp_bytes r 0 9);
          match sdr_support use_builtin (use_built_in st) devid with
          | None => mret (None, st)
          | Some ubi =>
              let st := st <| use_built_in := ubi |> in
              let built_in := use_builtin || ubi in
              count ← sdr_count built_in;
              match count with
              | None => mret (None, st)
              | Some count =>
                  '(rc, st) ← (if negb built_in && (count =? 0) then rebuild_sdrr st else mret (0, st));
                  if negb (rc =? 0) then mret (None, st) else
                  id ← ipmi_sdr_get_reservation built_in;
                  match id with
                  | None => mret (None, st)
                  | Some id => mret (Some (mk_itr id count 0 built_in), st)
                  end
              end
          end
      end
  end.
End Sdr.
