(* ===== verification/SdrCache.v ===== *)
(** * The cache of sensor data records (lib/ipmi_sdr.c)

    The global list [sdr_list_head] with the open iterator [sdr_list_itr], the
    lookups that search the list and then go on reading the repository. *)

From S2P Require Import Prelude Wire Ipmi Intf Session Helper Bmc Sdr.

#[local] Open Scope Z_scope.

(** [struct sdr_record_list]: [e_rec] is the member of the [record] union, a
    pointer to the body, [e_raw] the pointer [raw]. *)
Record sdr_entry := mk_entry {
  e_id : Z;
  e_version : Z;
  e_type : Z;
  e_length : Z;
  e_raw : option (list Z);
  e_rec : option (list Z);
}.

Record sdr_cache := mk_cache {
  sdr_list : list sdr_entry;
  sdr_list_itr : option sdr_itr;
  statics : sdr_statics;
}.

(** The record types that have a member in the union; the others are dropped. *)
Definition is_sensor_type (type : Z) : bool :=
  (type =? SDR_RECORD_TYPE_FULL_SENSOR) || (type =? SDR_RECORD_TYPE_COMPACT_SENSOR).
Definition is_locator_type (type : Z) : bool :=
  (type =? SDR_RECORD_TYPE_GENERIC_DEVICE_LOCATOR) || (type =? SDR_RECORD_TYPE_FRU_DEVICE_LOCATOR) ||
  (type =? SDR_RECORD_TYPE_MC_DEVICE_LOCATOR).
Definition known_type (type : Z) : bool :=
  is_sensor_type type || (type =? SDR_RECORD_TYPE_EVENTONLY_SENSOR) || is_locator_type type ||
  (type =? SDR_RECORD_TYPE_ENTITY_ASSOC).

(** A new entry: [memset], [id], [type], and the union member. *)
Definition new_entry (id type : Z) (rec : list Z) : sdr_entry :=
  mk_entry id 0 type 0 None (Some rec).

(** A byte of the body, through the pointer of the union. *)
Definition rec_byte (e : sdr_entry) (off : Z) : res Z :=
  match e_rec e with
  | Some rec => rdx rec off
  | None => Bad OutOfBounds
  end.

(** ** The tests of the lookups *)

(** The owner, the LUN, the number and the type of a sensor record. *)
Definition match_keys (e : sdr_entry) (type_off gen_id num type : Z) : res bool :=
  n ← rec_byte e 2;
  owner ← rec_byte e 0;
  lun ← rec_byte e 1;
  t ← rec_byte e type_off;
  Ok ((n =? num) && (owner =? gen_id .& 0xff) && (lun .& 3 =? (gen_id .& 0x300) .>> 8) && (t =? type)).

Definition match_numtype (gen_id num type : Z) (e : sdr_entry) : res bool :=
  if is_sensor_type (e_type e) then match_keys e 7 gen_id num type
  else if e_type e =? SDR_RECORD_TYPE_EVENTONLY_SENSOR then match_keys e 5 gen_id num type
  else Ok false.

Definition match_sensortype (type : Z) (e : sdr_entry) : res bool :=
  if is_sensor_type (e_type e) then t ← rec_byte e 7; Ok (t =? type)
  else if e_type e =? SDR_RECORD_TYPE_EVENTONLY_SENSOR then t ← rec_byte e 5; Ok (t =? type)
  else Ok false.

(** [id] and [instance] are the fields of [struct entity_id]. *)
Definition match_entity_at (e : sdr_entry) (off id instance : Z) : res bool :=
  i ← rec_byte e off;
  n ← rec_byte e (off + 1);
  Ok ((i =? id) && ((instance =? 0x7f) || (n .& 0x7f =? instance))).

Definition match_entity (id instance : Z) (e : sdr_entry) : res bool :=
  if is_sensor_type (e_type e) || (e_type e =? SDR_RECORD_TYPE_EVENTONLY_SENSOR)
  then match_entity_at e 3 id instance
  else if is_locator_type (e_type e) then match_entity_at e 7 id instance
  else if e_type e =? SDR_RECORD_TYPE_ENTITY_ASSOC then match_entity_at e 0 id instance
  else Ok false.

Definition match_type (type : Z) (e : sdr_entry) : res bool := Ok (e_type e =? type).

(** [!strncmp(a, b, n)] *)
Fixpoint strncmp_eq (n : nat) (a b : list Z) : res bool :=
  match n with
  | O => Ok true
  | S n =>
      match a, b with
      | x :: a, y :: b =>
          if negb (x =? y) then Ok false else if x =? 0 then Ok true else strncmp_eq n a b
      | _, _ => Bad OutOfBounds
      end
  end.

(** [num] of [ipmi_sdr_find_sdr_byid]. *)
Definition id_number (id : list Z) : Z :=
  let '(v, _, rest) := strtol id in
  match rest with [] => s32 v | _ :: _ => -1 end.

(** The name or the number of a record; [id] has no zero byte. *)
Definition match_id (id : list Z) (e : sdr_entry) : res bool :=
  match name_offsets (e_type e), e_rec e with
  | None, _ => Ok false
  | Some _, None => Bad OutOfBounds
  | Some (code_off, name_off), Some rec =>
      id_code ← rdx rec code_off;
      sensor_num ← (if is_locator_type (e_type e) then Ok (-1) else rdx rec 2);
      let num := id_number id in
      if negb (num =? -1) && (num =? sensor_num) then Ok true else
      strncmp_eq (Z.to_nat (Z.max (id_code .& 0x1f) (zlen id))) (drop (Z.to_nat name_off) rec) (id ++ [0])
  end.

(** The first cached entry that matches, and all of them. *)
Fixpoint find_entry (f : sdr_entry -> res bool) (l : list sdr_entry) : res (option sdr_entry) :=
  match l with
  | [] => Ok None
  | e :: l => b ← f e; if b : bool then Ok (Some e) else find_entry f l
  end.

(** [__sdr_list_add] at the end of the result list; its own [malloc] may fail,
    and then the entry is missing. *)
Definition SDR_ENTRY_SIZE : Z := 29.

Definition sdr_list_add `{Malloc} (head : list sdr_entry) (e : sdr_entry) : list sdr_entry :=
  match malloc SDR_ENTRY_SIZE with Some _ => head ++ [e] | None => head end.

Fixpoint filter_entries `{Malloc} (f : sdr_entry -> res bool) (head l : list sdr_entry)
    : res (list sdr_entry) :=
  match l with
  | [] => Ok head
  | e :: l => b ← f e; filter_entries f (if b : bool then sdr_list_add head e else head) l
  end.

Section Cache.
Context `{mem : Malloc} {dev : Type} `{bmc : Bmc dev}.
Context (rebuild_sdrr : sdr_statics -> M dev (Z * sdr_statics)).

(** Open the repository unless it is open. *)
Definition sdr_open (c : sdr_cache) : M dev (option sdr_itr * sdr_cache) :=
  match sdr_list_itr c with
  | Some itr => mret (Some itr, c)
  | None =>
      '(itr, st) ← ipmi_sdr_start rebuild_sdrr false (statics c);
      mret (itr, mk_cache (sdr_list c) itr st)
  end.

(** What a step of the loop below leaves in the globals. *)
Definition keep_itr (c : sdr_cache) (itr : sdr_itr) (max : Z) : sdr_cache :=
  mk_cache (sdr_list c) (Some itr) (mk_statics max (use_built_in (statics c))).

Definition push_entry (e : sdr_entry) (c : sdr_cache) : sdr_cache :=
  mk_cache (sdr_list c ++ [e]) (sdr_list_itr c) (statics c).

(** The loop "now keep looking" of the lookups and of [ipmi_sdr_list_cache]:
    the remaining records are read into the list.  [visit] is what the function
    does with a new one: the new value of its variables, and whether the
    function returns after the entry is in the list. *)
Fixpoint sdr_scan {A} (fuel : nat) (intf : intf_addr) (visit : sdr_entry -> A -> res (A * bool))
    (acc : A) (itr : sdr_itr) (c : sdr_cache) : M dev (A * sdr_cache) :=
  match fuel with
  | O => fail OutOfFuel
  | S fuel =>
      '(header, itr) ← ipmi_sdr_get_next_header itr;
      let max := sdr_max_read_len (statics c) in
      match header with
      | None => mret (acc, keep_itr c itr max)
      | Some h =>
          match malloc SDR_ENTRY_SIZE with
          | None => mret (acc, keep_itr c itr max)
          | Some _ =>
              '(rec, itr, max) ← ipmi_sdr_get_record fuel intf h itr max;
              let c := keep_itr c itr max in
              match rec with
              | None => sdr_scan fuel intf visit acc itr c
              | Some rec =>
                  if negb (known_type (h_type h)) then sdr_scan fuel intf visit acc itr c else
                  let e := new_entry (h_id h) (h_type h) rec in
                  '(acc, stop) ← lift (visit e acc);
                  if stop : bool then mret (acc, push_entry e c)
                  else sdr_scan fuel intf visit acc itr (push_entry e c)
              end
          end
      end
  end.

(** [ipmi_sdr_find_sdr_bynumtype] and [ipmi_sdr_find_sdr_byid]: the first
    record that matches. *)
Definition visit_first (f : sdr_entry -> res bool) (e : sdr_entry) (acc : option sdr_entry)
    : res (option sdr_entry * bool) :=
  found ← f e; Ok (if found : bool then (Some e, true) else (acc, false)).

Definition sdr_find_first (fuel : nat) (intf : intf_addr) (f : sdr_entry -> res bool) (c : sdr_cache)
    : M dev (option sdr_entry * sdr_cache) :=
  '(itr, c) ← sdr_open c;
  match itr with
  | None => mret (None, c)
  | Some itr =>
      e ← lift (find_entry f (sdr_list c));
      match e with
      | Some e => mret (Some e, c)
      | None => sdr_scan fuel intf (visit_first f) None itr c
      end
  end.

Definition ipmi_sdr_find_sdr_bynumtype (fuel : nat) (intf : intf_addr) (gen_id num type : Z) :=
  sdr_find_first fuel intf (match_numtype gen_id num type).

Definition ipmi_sdr_find_sdr_byid (fuel : nat) (intf : intf_addr) (id : option (list Z)) (c : sdr_cache)
    : M dev (option sdr_entry * sdr_cache) :=
  match id with
  | None => mret (None, c)
  | Some id => sdr_find_first fuel intf (match_id id) c
  end.

(** [ipmi_sdr_find_sdr_bysensortype], [_byentity] and [_bytype]: copies of all
    the records that match, behind a first entry that is never filled. *)
Definition visit_all (f : sdr_entry -> res bool) (e : sdr_entry) (head : list sdr_entry)
    : res (list sdr_entry * bool) :=
  b ← f e; Ok (if b : bool then sdr_list_add head e else head, false).

Definition sdr_find_all (fuel : nat) (intf : intf_addr) (f : sdr_entry -> res bool) (c : sdr_cache)
    : M dev (option (list sdr_entry) * sdr_cache) :=
  '(itr, c) ← sdr_open c;
  match itr with
  | None => mret (None, c)
  | Some itr =>
      match malloc SDR_ENTRY_SIZE with
      | None => mret (None, c)
      | Some _ =>
          head ← lift (filter_entries f [] (sdr_list c));
          '(head, c) ← sdr_scan fuel intf (visit_all f) head itr c;
          mret (Some head, c)
      end
  end.

Definition ipmi_sdr_find_sdr_bysensortype (fuel : nat) (intf : intf_addr) (type : Z) :=
  sdr_find_all fuel intf (match_sensortype type).
Definition ipmi_sdr_find_sdr_byentity (fuel : nat) (intf : intf_addr) (id instance : Z) :=
  sdr_find_all fuel intf (match_entity id instance).
Definition ipmi_sdr_find_sdr_bytype (fuel : nat) (intf : intf_addr) (type : Z) :=
  sdr_find_all fuel intf (match_type type).

(** [ipmi_sdr_list_cache] *)
Definition ipmi_sdr_list_cache (fuel : nat) (intf : intf_addr) (c : sdr_cache) : M dev (Z * sdr_cache) :=
  '(itr, c) ← sdr_open c;
  match itr with
  | None => mret (-1, c)
  | Some itr => '(_, c) ← sdr_scan fuel intf (fun _ acc => Ok (acc, false)) tt itr c; mret (0, c)
  end.

(** [ipmi_sdr_list_empty] *)
Definition ipmi_sdr_list_empty (c : sdr_cache) : sdr_cache :=
  mk_cache [] None (statics c).
End Cache.
