(* ===== verification/SdrAdd.v ===== *)
(** * Writing a repository (lib/ipmi_sdradd.c, ipmi_sdr_dump_bin and
      ipmi_sdr_list_cache_fromfile of lib/ipmi_sdr.c)

    The binary file of records, the partial adds of a record, clearing the
    repository and refilling it from a file, from the built-in sensors or from
    other controllers, and the list of addresses of the command line. *)

From S2P Require Import Prelude Wire Ipmi Intf Session Helper Bmc Sdr SdrCache.

#[local] Open Scope Z_scope.

Definition ADD_PARTIAL_SDR : Z := 0x25.
Definition CLEAR_SDR_REPO : Z := 0x27.
Definition sdr_max_write_len : Z := 19.
Definition MAX_NUM_SLOT : Z := 128.

(** ** The binary file *)

(** The header [h] of [ipmi_sdr_dump_bin]. *)
Definition dump_header (e : sdr_entry) : list Z :=
  [e_id e .& 0xff; (e_id e .>> 8) .& 0xff; e_version e; e_type e; e_length e].

(** The loop that writes; the result is the code and the file. *)
Fixpoint dump_entries (l : list sdr_entry) : res (Z * list Z) :=
  match l with
  | [] => Ok (0, [])
  | e :: l =>
      match e_raw e with
      | None => Ok (-1, dump_header e)
      | Some raw =>
          d ← slx raw 0 (e_length e);
          '(rc, file) ← dump_entries l;
          Ok (rc, dump_header e ++ d ++ file)
      end
  end.

Section File.
Context `{mem : Malloc}.

(** The loop of [ipmi_sdr_list_cache_fromfile]: [file] is what is left of the
    file.  The result is the code, [count] and the list. *)
Fixpoint fromfile_loop (fuel : nat) (file : list Z) (ret count : Z) (l : list sdr_entry)
    : res (Z * Z * list sdr_entry) :=
  match fuel with
  | O => Bad OutOfFuel
  | S fuel =>
      if zlen file <=? 0 then Ok (ret, count, l) else
      if zlen file <? 5 then Ok (-1, count, l) else
      let h := take 5 file in
      let file := drop 5 file in
      let version := rd h 2 in let type := rd h 3 in let len := rd h 4 in
      if len =? 0 then fromfile_loop fuel file ret count l else
      if negb (version =? 0x51) && negb (version =? 0x01) && negb (version =? 0x02)
      then Ok (-1, count, l) else
      match malloc SDR_ENTRY_SIZE, malloc (len + 1) with
      | Some _, Some _ =>
          if zlen file <? len then Ok (-1, count, l) else
          let rec := take (Z.to_nat len) file ++ [0] in
          let file := drop (Z.to_nat len) file in
          valid ← ipmi_sdr_record_length_valid type len rec;
          if negb valid then fromfile_loop fuel file (-1) count l else
          if negb (known_type type) then fromfile_loop fuel file ret count l else
          fromfile_loop fuel file ret (count + 1) (l ++ [new_entry (ipmi16toh h) type rec])
      | _, _ => Ok (-1, count, l)
      end
  end.

(** [ipmi_sdr_list_cache_fromfile]; [None] is a null name or a file that does
    not open.  [use_built_in] of the new iterator is not initialised; its
    position 0xffff keeps it from being used. *)
Definition ipmi_sdr_list_cache_fromfile (ifile : option (list Z)) (c : sdr_cache) : res (Z * sdr_cache) :=
  match ifile with
  | None => Ok (-1, c)
  | Some file =>
      '(ret, count, l) ← fromfile_loop (S (length file)) file 0 0 (sdr_list c);
      let itr :=
        match sdr_list_itr c with
        | Some itr => Some itr
        | None => match malloc 16 with Some _ => Some (mk_itr 0 count 0xffff false) | None => None end
        end in
      Ok (ret, mk_cache l itr (statics c))
  end.

(** [ipmi_sdr_read_records]: the queue, or [None] after an error. *)
Fixpoint read_records (fuel : nat) (file : list Z) (q : list sdr_entry) : res (option (list sdr_entry)) :=
  match fuel with
  | O => Bad OutOfFuel
  | S fuel =>
      if zlen file <=? 0 then Ok (Some q) else
      if zlen file <? 5 then Ok None else
      let h := take 5 file in
      let file := drop 5 file in
      match malloc SDR_ENTRY_SIZE with
      | None => Ok None
      | Some _ =>
          let len := rd h 4 in
          if len =? 0 then Ok None else
          match malloc len with
          | None => Ok None
          | Some _ =>
              if zlen file <? len then Ok None else
              read_records fuel (drop (Z.to_nat len) file)
                (q ++ [mk_entry ((rd h 1 .<< 8) .| rd h 0) (rd h 2) (rd h 3) len
                         (Some (take (Z.to_nat len) file)) None])
          end
      end
  end.

Definition ipmi_sdr_read_records (ifile : option (list Z)) : res (option (list sdr_entry)) :=
  match ifile with
  | None => Ok None
  | Some file => read_records (S (length file)) file []
  end.
End File.

(** ** The addresses of the command line *)

(** A digit of [ipmi_hex_to_dec]; [None] sets [rc] to -1. *)
Definition hex_digit (c : Z) : option Z :=
  if (48 <=? c) && (c <=? 57) then Some (c - 48)
  else if (97 <=? c) && (c <=? 102) then Some (c - 97 + 10)
  else if (65 <=? c) && (c <=? 70) then Some (c - 65 + 10)
  else None.

(** [ipmi_hex_to_dec]; [None] is -1. *)
Definition ipmi_hex_to_dec (strchar : list Z) : option Z :=
  match strchar with
  | [z; x; h; l] =>
      if (z =? 48) && (x =? 120) then
        h ← hex_digit h; l ← hex_digit l; Some (u8 (h * 16 + l))
      else None
  | _ => None
  end.

(** [strstr] for one character: the offset in the string at [p] of [buf]. *)
Fixpoint find_char (c : Z) (s : list Z) : option Z :=
  match s with
  | [] => None
  | x :: s => if x =? c then Some 0 else k ← find_char c s; Some (k + 1)
  end.

Definition str_at (buf : list Z) (p : Z) : list Z := c_string (drop (Z.to_nat p) buf).
Definition strchr (buf : list Z) (p c : Z) : option Z := k ← find_char c (str_at buf p); Some (p + k).

(** The [do] loop over a range: [listOffset] is an [unsigned char]. *)
Fixpoint range_loop (fuel : nat) (start finish : Z) (l : list Z) (off : Z) : res (list Z * Z) :=
  match fuel with
  | O => Bad OutOfFuel
  | S fuel =>
      l ← or_oob (wr l off [start]);
      let off := u8 (off + 1) in
      let start := u8 (start + 2) in
      if negb (start =? finish) then range_loop fuel start finish l off
      else l ← or_oob (wr l off [finish]); Ok (l, u8 (off + 1))
  end.

(** One element of the list, the string at [p]: [rc], the text buffer, the list
    and the offset. *)
Definition range_element (buf : list Z) (p : Z) (l : list Z) (off : Z) : res (Z * list Z * list Z * Z) :=
  match strchr buf p 45 with
  | None =>
      match ipmi_hex_to_dec (str_at buf p) with
      | None => Ok (-1, buf, l, off)
      | Some v =>
          if v mod 2 =? 0 then l ← or_oob (wr l off [v]); Ok (0, buf, l, u8 (off + 1))
          else Ok (0, buf, l, off)
      end
  | Some q =>
      buf ← or_oob (wr buf q [0]);
      match ipmi_hex_to_dec (str_at buf p), ipmi_hex_to_dec (str_at buf (q + 1)) with
      | Some start, Some finish =>
          if (start mod 2 =? 0) && (finish mod 2 =? 0) then
            '(l, off) ← range_loop 256 start finish l off; Ok (0, buf, l, off)
          else Ok (0, buf, l, off)
      | _, _ => Ok (-1, buf, l, off)
      end
  end.

(** The loop over the commas: [p] is [inProcessString], [next] the comma that
    ends it. *)
Fixpoint range_elements (fuel : nat) (buf : list Z) (p : Z) (next : option Z) (l : list Z) (off : Z)
    : res (Z * list Z) :=
  match fuel with
  | O => Bad OutOfFuel
  | S fuel =>
      buf ← match next with Some q => or_oob (wr buf q [0]) | None => Ok buf end;
      '(rc, buf, l, off) ← range_element buf p l off;
      match next with
      | None => Ok (rc, l)
      | Some q =>
          if rc =? 0 then range_elements fuel buf (q + 1) (strchr buf 0 44) l off else Ok (rc, l)
      end
  end.

(** [ipmi_parse_range_list] on a C string and a zeroed array of
    [MAX_NUM_SLOT]. *)
Definition ipmi_parse_range_list (rangeList : list Z) (pHexList : list Z) : res (Z * list Z) :=
  let buf := rangeList ++ [0] in
  if strlen buf =? 0 then Ok (-1, pHexList) else
  let next := strchr buf 0 44 in
  if bool_decide (next = Some 0) then Ok (-1, pHexList)
  else range_elements (S (length rangeList)) buf 0 next pHexList 0.

(** ** Adding records *)

Section Add.
Context `{mem : Malloc} {dev : Type}.

Section One.
Context `{bmc : Bmc dev}.

(** [partial_send]; [None] is -1. *)
Definition partial_send (data : list Z) : M dev (option Z) :=
  rsp ← sendrecv (storage_rq ADD_PARTIAL_SDR data);
  match rsp with
  | None => mret None
  | Some r =>
      if negb (ccode r =? 0) || (rs_data_len r <? 2) then mret None else
      d ← lift (rsp_bytes r 0 2);
      mret (Some (rd d 0 + (rd d 1 .<< 8)))
  end.

(** [struct sdr_add_rq] with [data]. *)
Definition sdr_add_rq (reserve_id id offset in_progress : Z) (data : list Z) : list Z :=
  htoipmi16 reserve_id ++ htoipmi16 id ++ [offset; in_progress] ++ data.

(** The loop of [ipmi_sdr_add_record]. *)
Fixpoint add_loop (fuel : nat) (reserve_id in_progress id len i : Z) (raw : list Z) : M dev Z :=
  if len <=? i then mret 0 else
  match fuel with
  | O => fail OutOfFuel
  | S fuel =>
      let last := len - i <=? sdr_max_write_len in
      let data_len := if last then len - i else sdr_max_write_len in
      let in_progress := if last then 1 else in_progress in
      data ← lift (slx raw i data_len);
      id ← partial_send (sdr_add_rq reserve_id (u16 id) (u8 (i + 5)) in_progress data);
      match id with
      | None => mret (-1)
      | Some id => add_loop fuel reserve_id in_progress id len (i + data_len) raw
      end
  end.

Definition ipmi_sdr_add_record (e : sdr_entry) : M dev Z :=
  let len := e_length e in
  match e_raw e with
  | None => mret 0
  | Some raw =>
      if len <? 1 then mret 0 else
      reserve_id ← ipmi_sdr_get_reservation false;
      match reserve_id with
      | None => mret (-1)
      | Some reserve_id =>
          match malloc (7 + sdr_max_write_len) with
          | None => mret (-1)
          | Some _ =>
              id ← partial_send (sdr_add_rq reserve_id 0 0 0 (dump_header e));
              match id with
              | None => mret (-1)
              | Some id => add_loop (Z.to_nat len) reserve_id 0 id len 0 raw
              end
          end
      end
  end.

(** The tries of [ipmi_sdr_repo_clear]: [action] is [msg_data[5]]. *)
Fixpoint clear_tries (tries : nat) (reserve_id action : Z) : M dev Z :=
  match tries with
  | O => mret (-1)
  | S tries =>
      rsp ← sendrecv (storage_rq CLEAR_SDR_REPO
               [reserve_id .& 0xff; reserve_id .>> 8; 67; 76; 82; action]);
      match rsp with
      | None => mret (-1)
      | Some r =>
          if negb (ccode r =? 0) then mret (-1) else
          d ← lift (rsp_bytes r 0 1);
          if rd d 0 .& 1 =? 1 then mret 0 else clear_tries tries reserve_id 0
      end
  end.

Definition ipmi_sdr_repo_clear : M dev Z :=
  reserve_id ← ipmi_sdr_get_reservation false;
  match reserve_id with
  | None => mret (-1)
  | Some reserve_id => clear_tries 5 reserve_id 0xAA
  end.

(** The loop that writes a queue to the repository. *)
Fixpoint add_records (q : list sdr_entry) (rc : Z) : M dev Z :=
  match q with
  | [] => mret rc
  | e :: q => add_rc ← ipmi_sdr_add_record e; add_records q (if add_rc <? 0 then -1 else rc)
  end.

(** [ipmi_sdr_add_from_file] *)
Definition ipmi_sdr_add_from_file (ifile : option (list Z)) : M dev Z :=
  q ← lift (ipmi_sdr_read_records ifile);
  match q with
  | None => mret (-1)
  | Some q =>
      rc ← ipmi_sdr_repo_clear;
      if negb (rc =? 0) then mret (-1) else add_records q 0
  end.

(** The part of [ipmi_sdr_print_name_from_rawentry] that can fail: [raw] is
    dereferenced for the types it names. *)
Definition print_name (type : Z) (raw : option (list Z)) : res unit :=
  if is_sensor_type type || (type =? SDR_RECORD_TYPE_EVENTONLY_SENSOR) ||
     (type =? SDR_RECORD_TYPE_MC_DEVICE_LOCATOR)
  then match raw with None => Bad OutOfBounds | Some _ => Ok tt end
  else Ok tt.

(** [sdrr_get_records] *)
Fixpoint sdrr_get_records (fuel : nat) (intf : intf_addr) (itr : sdr_itr) (max : Z) (q : list sdr_entry)
    : M dev (Z * list sdr_entry * Z) :=
  match fuel with
  | O => fail OutOfFuel
  | S fuel =>
      '(header, itr) ← ipmi_sdr_get_next_header itr;
      match header with
      | None => mret (0, q, max)
      | Some h =>
          match malloc SDR_ENTRY_SIZE with
          | None => mret (-1, q, max)
          | Some _ =>
              '(raw, itr, max) ← ipmi_sdr_get_record fuel intf h itr max;
              _ ← lift (print_name (h_type h) raw);
              sdrr_get_records fuel intf itr max
                (q ++ [mk_entry (h_id h) (h_version h) (h_type h) (h_length h) raw None])
          end
      end
  end.

(** The reading part of [ipmi_sdr_dump_bin]. *)
Fixpoint dump_scan (fuel : nat) (intf : intf_addr) (itr : sdr_itr) (max : Z) (l : list sdr_entry)
    : M dev (Z * list sdr_entry * Z) :=
  match fuel with
  | O => fail OutOfFuel
  | S fuel =>
      '(header, itr) ← ipmi_sdr_get_next_header itr;
      match header with
      | None => mret (0, l, max)
      | Some h =>
          match malloc SDR_ENTRY_SIZE with
          | None => mret (-1, l, max)
          | Some _ =>
              '(raw, itr, max) ← ipmi_sdr_get_record fuel intf h itr max;
              match raw with
              | None => mret (-1, l, max)
              | Some raw =>
                  dump_scan fuel intf itr max
                    (l ++ [mk_entry (h_id h) (h_version h) (h_type h) (h_length h) (Some raw) None])
              end
          end
      end
  end.

(** [ipmi_sdr_dump_bin]: the code, the globals and the file; [opened] is
    whether the output file opens. *)
Definition ipmi_sdr_dump_bin (rebuild_sdrr : sdr_statics -> M dev (Z * sdr_statics)) (fuel : nat)
    (intf : intf_addr) (opened : bool) (c : sdr_cache) : M dev (Z * sdr_cache * list Z) :=
  '(itr, st) ← ipmi_sdr_start rebuild_sdrr false (statics c);
  match itr with
  | None => mret (-1, mk_cache (sdr_list c) (sdr_list_itr c) st, [])
  | Some itr =>
      '(rc, l, max) ← dump_scan fuel intf itr (sdr_max_read_len st) (sdr_list c);
      let c := mk_cache l (sdr_list_itr c) (mk_statics max (use_built_in st)) in
      if (rc <? 0) || negb opened then mret (-1, c, []) else
      '(rc, file) ← lift (dump_entries l);
      mret (rc, c, file)
  end.
End One.

(** ** Between controllers *)

(** What is at the target address of the interface. *)
Context (bus : intf_addr -> Bmc dev).

Definition set_target (intf : intf_addr) (addr : Z) : intf_addr :=
  mk_addr (my_addr intf) addr (target_channel intf) (transit_addr intf) (transit_channel intf)
    (max_request_data_size intf) (max_response_data_size intf).

(** [sdr_copy_to_sdrr]: the target stays at [from_addr] when the source does
    not open. *)
Definition sdr_copy_to_sdrr (start : intf_addr -> sdr_statics -> M dev (option sdr_itr * sdr_statics))
    (fuel : nat) (intf : intf_addr) (from_addr to_addr : Z) (st : sdr_statics)
    : M dev (Z * intf_addr * sdr_statics) :=
  let intf := set_target intf from_addr in
  '(itr, st) ← start intf st;
  match itr with
  | None => mret (0, intf, st)
  | Some itr =>
      '(rc, q, max) ← sdrr_get_records (bmc := bus intf) fuel intf itr (sdr_max_read_len st) [];
      let st := mk_statics max (use_built_in st) in
      let intf := set_target intf to_addr in
      rc ← add_records (bmc := bus intf) q rc;
      mret (rc, intf, st)
  end.

(** [ipmi_sdr_start] with [use_builtin] set never rebuilds the repository. *)
Definition start_built_in (intf : intf_addr) (st : sdr_statics) : M dev (option sdr_itr * sdr_statics) :=
  ipmi_sdr_start (bmc := bus intf) (fun st => mret (0, st)) true st.

(** [ipmi_sdr_add_from_sensors] with [maxslot] 0. *)
Definition rebuild_sdrr (fuel : nat) (intf : intf_addr) (st : sdr_statics) : M dev (Z * sdr_statics) :=
  rc ← ipmi_sdr_repo_clear (bmc := bus intf);
  if negb (rc =? 0) then mret (-1, st) else
  '(rc, _, st) ← sdr_copy_to_sdrr start_built_in fuel intf (target_addr intf) (target_addr intf) st;
  mret (rc, st).

(** [ipmi_sdr_start] with [use_builtin] clear, which may rebuild. *)
Definition start_repo (fuel : nat) (intf : intf_addr) (st : sdr_statics)
    : M dev (option sdr_itr * sdr_statics) :=
  ipmi_sdr_start (bmc := bus intf) (rebuild_sdrr fuel intf) false st.

(** The loop over the slots. *)
Fixpoint slot_loop (slots : nat) (fuel : nat) (intf : intf_addr) (myaddr slave_addr rc : Z)
    (st : sdr_statics) : M dev (Z * intf_addr * sdr_statics) :=
  match slots with
  | O => mret (rc, intf, st)
  | S slots =>
      let slave_addr := if slave_addr =? 0xC2 then slave_addr + 2 else slave_addr in
      '(c, intf, st) ← sdr_copy_to_sdrr (start_repo fuel) fuel intf slave_addr myaddr st;
      slot_loop slots fuel intf myaddr (slave_addr + 2) (if c <? 0 then -1 else rc) st
  end.

Definition ipmi_sdr_add_from_sensors (fuel : nat) (intf : intf_addr) (maxslot : nat) (st : sdr_statics)
    : M dev (Z * intf_addr * sdr_statics) :=
  let myaddr := target_addr intf in
  rc ← ipmi_sdr_repo_clear (bmc := bus intf);
  if negb (rc =? 0) then mret (-1, intf, st) else
  '(rc, intf, st) ← sdr_copy_to_sdrr start_built_in fuel intf myaddr myaddr st;
  slot_loop maxslot fuel intf myaddr 0xB0 rc st.

(** The loop over the list: [counter] is an [unsigned char]. *)
Fixpoint list_loop (n : nat) (fuel : nat) (intf : intf_addr) (myaddr : Z) (l : list Z) (counter rc : Z)
    (st : sdr_statics) : M dev (Z * intf_addr * sdr_statics) :=
  match n with
  | O => fail OutOfFuel
  | S n =>
      if negb (rc =? 0) then mret (rc, intf, st) else
      slave_addr ← lift (rdx l counter);
      if slave_addr =? 0 then mret (rc, intf, st) else
      '(c, intf, st) ← sdr_copy_to_sdrr (start_repo fuel) fuel intf slave_addr myaddr st;
      list_loop n fuel intf myaddr l (u8 (counter + 1)) (if c <? 0 then -1 else rc) st
  end.

(** The loop that prints the list. *)
Fixpoint print_list (n : nat) (l : list Z) (counter : Z) : res unit :=
  match n with
  | O => Bad OutOfFuel
  | S n => v ← rdx l counter; if v =? 0 then Ok tt else print_list n l (u8 (counter + 1))
  end.

(** [ipmi_sdr_add_from_list] *)
Definition ipmi_sdr_add_from_list (fuel : nat) (intf : intf_addr) (rangeList : list Z) (st : sdr_statics)
    : M dev (Z * intf_addr * sdr_statics) :=
  let myaddr := target_addr intf in
  '(rc, l) ← lift (ipmi_parse_range_list rangeList (zeros MAX_NUM_SLOT));
  if negb (rc =? 0) then mret (-1, intf, st) else
  _ ← lift (print_list 257 l 0);
  rc ← ipmi_sdr_repo_clear (bmc := bus intf);
  if negb (rc =? 0) then mret (-1, intf, st) else
  '(rc, intf, st) ← sdr_copy_to_sdrr start_built_in fuel intf myaddr myaddr st;
  list_loop 257 fuel intf myaddr l 0 rc st.
End Add.
