(* ===== verification/SdrXfer.v ===== *)
(** * Reading a repository (lib/ipmi_sdr.c)

    What the iterator promises about a device that holds a repository.  The
    device may cancel reservations, refuse sizes above the five bytes of a
    header and stay silent on them; how often it still cancels is bounded by a
    measure of its state. *)

From S2P Require Import Prelude Wire Ipmi Intf Session Bmc Sdr.

#[local] Open Scope Z_scope.

(** ** Repositories *)

Record sdr_rec := mk_rec {
  r_id : Z;
  r_version : Z;
  r_type : Z;
  r_body : list Z;
}.

Definition r_len (r : sdr_rec) : Z := zlen (r_body r).

(** A record as Get SDR counts its offsets. *)
Definition rec_wire (r : sdr_rec) : list Z :=
  htoipmi16 (r_id r) ++ [r_version r; r_type r; r_len r] ++ r_body r.

Definition rec_valid (r : sdr_rec) : Prop :=
  ipmi_sdr_record_length_valid (r_type r) (r_len r) (r_body r ++ [0]) = Ok true.

(** A record that can be read: the offsets of its bytes fit their field. *)
Definition rec_ok (r : sdr_rec) : Prop :=
  is_u16 (r_id r) /\ r_id r <> 0xffff /\ 1 <= r_len r <= 251 /\ rec_valid r.

Definition next_of (l : list sdr_rec) : Z := match l with [] => 0xffff | r :: _ => r_id r end.

(** The record of an ID, with the ID that follows; ID 0 is the first record. *)
Fixpoint locate (id : Z) (l : list sdr_rec) : option (sdr_rec * Z) :=
  match l with
  | [] => None
  | r :: l => if (id =? 0) || (id =? r_id r) then Some (r, next_of l) else locate id l
  end.

Definition repo_ok (l : list sdr_rec) : Prop :=
  Forall rec_ok l /\ NoDup (map r_id l) /\ Forall (fun r => r_id r <> 0) (tail l).

Lemma next_of_u16 l : Forall rec_ok l -> is_u16 (next_of l).
Proof. destruct l as [|r l]; [done |]. intros H. by apply Forall_inv in H as [H _]. Qed.

Lemma locate_at_gen pre r post :
  NoDup (map r_id (pre ++ r :: post)) -> Forall (fun x => r_id x <> 0) (tail (pre ++ r :: post)) ->
  locate (r_id r) (pre ++ r :: post) = Some (r, next_of post).
Proof.
  induction pre as [|x pre IH]; intros Hn Hz; cbn [app locate].
  - by rewrite Z.eqb_refl, orb_true_r.
  - cbn [app tail] in Hz. assert (r_id r <> 0) as H0.
    { rewrite Forall_forall in Hz. apply Hz, elem_of_app. right. left. }
    cbn [map app] in Hn. apply NoDup_cons in Hn as [Hx Hn].
    rewrite (proj2 (Z.eqb_neq _ 0)), (proj2 (Z.eqb_neq _ (r_id x))); [| | done].
    2: { intros E. apply Hx. rewrite <- E, map_app. apply elem_of_app. right. left. }
    apply IH; [done |]. destruct pre as [|y pre]; [by inversion Hz | by inversion Hz].
Qed.

Lemma locate_at pre r post : repo_ok (pre ++ r :: post) ->
  locate (r_id r) (pre ++ r :: post) = Some (r, next_of post).
Proof. intros (_ & Hn & Hz). by apply locate_at_gen. Qed.

Section Device.
Context `{mem : Malloc} {dev : Type} {bmc : Bmc dev}.

(** The answers to a read of [n] bytes at [off] of record [r] under the
    reservation [rid]: the bytes, a refused size, silence, or a cancelled
    reservation, after which a new one is held longer. *)
Definition reads_record (bi : bool) (patience : dev -> Z -> nat) (r : sdr_rec) (next rid off n : Z)
    (d : dev) (a : option ipmi_rs) (d' : dev) : Prop :=
  (patience d' rid <= patience d rid)%nat /\
  match a with
  | None => 5 < n
  | Some a =>
      ccode a = 0 /\ carries a (htoipmi16 next ++ slice (rec_wire r) off n) \/
      ccode a = SDR_CANT_RET /\ 5 < n
  end \/
  exists a', a = Some a' /\ ccode a' = IPMI_CC_RES_CANCELED /\
    forall r2 d2 rid2, bmc_answer (sdr_rq bi GET_SDR_RESERVE_REPO GET_SDR_RESERVE_REPO []) d' = (Some r2, d2) ->
      carries r2 (htoipmi16 rid2) -> is_u16 rid2 -> (patience d2 rid2 < patience d rid)%nat.

(** A device that holds [repo], as repository or as device SDRs. *)
Class SdrRepo (bi : bool) (repo : list sdr_rec) (patience : dev -> Z -> nat) := {
  sdr_reserves : forall d, exists r d' rid,
    bmc_answer (sdr_rq bi GET_SDR_RESERVE_REPO GET_SDR_RESERVE_REPO []) d = (Some r, d') /\
    ccode r = 0 /\ is_u16 rid /\ carries r (htoipmi16 rid);
  sdr_reads : forall d rid id off n r next,
    is_u16 rid -> is_u16 id -> locate id repo = Some (r, next) ->
    0 <= off <= 255 -> 1 <= n <= 255 -> off + n <= zlen (rec_wire r) ->
    exists a d', bmc_answer (sdr_rq bi GET_SDR GET_DEVICE_SDR
                   (htoipmi16 rid ++ htoipmi16 id ++ [off; n])) d = (a, d') /\
      reads_record bi patience r next rid off n d a d';
}.

Context (bi : bool) (repo : list sdr_rec) (patience : dev -> Z -> nat).
Context {device : SdrRepo bi repo patience}.

Lemma zlen_htoipmi16 x : zlen (htoipmi16 x) = 2.
Proof. done. Qed.

Lemma zlen_rec_wire r : zlen (rec_wire r) = 5 + r_len r.
Proof. unfold rec_wire. rewrite !zlen_app, zlen_htoipmi16. unfold r_len. zlen_lia. Qed.

(** The bytes of the body. *)
Lemma wire_body r i n : 0 <= i -> 0 <= n -> slice (rec_wire r) (i + 5) n = slice (r_body r) i n.
Proof.
  intros. unfold rec_wire. rewrite app_assoc, slice_app_r by (rewrite zlen_app, zlen_htoipmi16; zlen_lia).
  f_equal. rewrite zlen_app, zlen_htoipmi16. zlen_lia.
Qed.

(** A new reservation. *)
Lemma reserve_run d {B} (f : option Z -> M dev B) : exists r d' rid,
  bmc_answer (sdr_rq bi GET_SDR_RESERVE_REPO GET_SDR_RESERVE_REPO []) d = (Some r, d') /\
  carries r (htoipmi16 rid) /\ is_u16 rid /\
  (ipmi_sdr_get_reservation bi ≫= f) d = f (Some rid) d'.
Proof.
  destruct (sdr_reserves (bi := bi) d) as (r & d' & rid & Er & Hcc & Hrid & Hc).
  exists r, d', rid. do 3 (split; [done |]).
  apply M_bind_run. unfold ipmi_sdr_get_reservation. rewrite (sendrecv_bind _ _ _ _ _ Er), Hcc.
  cbn [Z.eqb negb]. rewrite (carries_bytes _ _ Hc 0 2) by (rewrite ?zlen_htoipmi16; lia).
  rewrite lift_Ok_bind, slice_all by (rewrite zlen_htoipmi16; lia).
  unfold mret, M_ret. do 3 f_equal. rewrite <- (app_nil_r (htoipmi16 rid)). by apply ipmi16toh_htoipmi16.
Qed.

(** The iterator differs by its reservation only. *)
Definition same_itr (a b : sdr_itr) : Prop :=
  itr_total b = itr_total a /\ itr_next b = itr_next a /\ itr_built_in b = itr_built_in a.

Definition itr_ok (itr : sdr_itr) : Prop := itr_built_in itr = bi /\ is_u16 (reservation itr).

Lemma renewed_ok itr rid : itr_ok itr -> is_u16 rid -> itr_ok (itr <| reservation := rid |>).
Proof. intros [H _] Hr. by split. Qed.

Lemma same_itr_refl itr : same_itr itr itr.
Proof. done. Qed.

Lemma same_itr_renewed itr rid b : same_itr (itr <| reservation := rid |>) b -> same_itr itr b.
Proof. done. Qed.
#[local] Hint Resolve same_itr_refl renewed_ok : core.

(** What a transfer leaves: the same iterator up to a live reservation, with no
    more patience lost than the device had. *)
Definition itr_after (itr itr' : sdr_itr) (d d' : dev) : Prop :=
  same_itr itr itr' /\ itr_ok itr' /\
  (patience d' (reservation itr') <= patience d (reservation itr))%nat.

Lemma itr_after_refl itr d d' : itr_ok itr ->
  (patience d' (reservation itr) <= patience d (reservation itr))%nat -> itr_after itr itr d d'.
Proof. done. Qed.

Lemma itr_after_weaken itr itr' d0 d d' : itr_after itr itr' d d' ->
  (patience d (reservation itr) <= patience d0 (reservation itr))%nat -> itr_after itr itr' d0 d'.
Proof. intros (Hs & Ho & Hp) H. split_and!; [done.. | lia]. Qed.

Lemma itr_after_renewed itr rid itr' d0 d d' : itr_after (itr <| reservation := rid |>) itr' d d' ->
  (patience d rid <= patience d0 (reservation itr))%nat -> itr_after itr itr' d0 d'.
Proof. intros (Hs & Ho & Hp) H. cbn in Hp. split_and!; [done.. | lia]. Qed.

(** ** The header *)

Lemma parse_header_wire next r : is_u16 next -> is_u16 (r_id r) ->
  parse_header (htoipmi16 next ++ slice (rec_wire r) 0 5) =
  mk_hdr next (r_id r) (r_version r) (r_type r) (r_len r).
Proof.
  intros Hn Hi. unfold rec_wire.
  replace (slice (htoipmi16 (r_id r) ++ [r_version r; r_type r; r_len r] ++ r_body r) 0 5)
    with (htoipmi16 (r_id r) ++ [r_version r; r_type r; r_len r]) by done.
  unfold parse_header. f_equal.
  - rewrite slice_app_l by (rewrite ?zlen_htoipmi16; lia). rewrite slice_all by done.
    rewrite <- (app_nil_r (htoipmi16 next)). by apply ipmi16toh_htoipmi16.
  - rewrite slice_app_r by (rewrite zlen_htoipmi16; lia).
    rewrite zlen_htoipmi16, slice_app_l by (rewrite ?zlen_htoipmi16; lia). rewrite slice_all by done.
    rewrite <- (app_nil_r (htoipmi16 (r_id r))). by apply ipmi16toh_htoipmi16.
Qed.

(** As long as the device cancels fewer reservations than there are tries. *)
Lemma header_tries_run tries itr d r next :
  itr_ok itr -> is_u16 (itr_next itr) -> locate (itr_next itr) repo = Some (r, next) ->
  (patience d (reservation itr) < tries)%nat ->
  exists a itr' d', header_tries tries itr d = Ok ((Some a, itr'), d') /\
    carries a (htoipmi16 next ++ slice (rec_wire r) 0 5) /\ itr_after itr itr' d d'.
Proof.
  revert itr d. induction tries as [|tries IH]; intros itr d [Hb Hr] Hn Hl Hp; [lia |].
  cbn [header_tries]. unfold get_sdr_rq. rewrite Hb, (u16_small (itr_next itr)) by done.
  destruct (sdr_reads (bi := bi) d (reservation itr) (itr_next itr) 0 5 r next) as (a & d' & Ea & Ha);
    try done; [rewrite zlen_rec_wire; pose proof (zlen_nonneg (r_body r)); unfold r_len; lia |].
  rewrite (sendrecv_bind _ _ _ _ _ Ea).
  destruct Ha as [(Hle & Ha) | (a' & -> & Hcc & Hdec)].
  - destruct a as [a|]; [| lia]. destruct Ha as [(Hcc & Hc) | [_ Hlt]]; [| lia].
    rewrite Hcc. cbn. exists a, itr, d'. split; [done |]. split; [done |]. by apply itr_after_refl.
  - rewrite Hcc. change (IPMI_CC_RES_CANCELED =? IPMI_CC_RES_CANCELED) with true. cbn match.
    destruct (reserve_run d' (fun id => match id with
      | None => mret (None, itr)
      | Some id => header_tries tries (itr <| reservation := id |>) end)) as (r2 & d2 & rid & Er & Hc & Hrid & E).
    rewrite E. specialize (Hdec _ _ _ Er Hc Hrid).
    destruct (IH (itr <| reservation := rid |>) d2) as (a & itr' & d3 & E3 & Hc3 & Hafter); auto.
    { by apply renewed_ok. } { cbn. lia. }
    exists a, itr', d3. split; [done |]. split; [done |]. eapply itr_after_renewed; [done | lia].
Qed.

Definition header_of (r : sdr_rec) (next : Z) : sdr_get_rs :=
  mk_hdr next (r_id r) (r_version r) (r_type r) (r_len r).

Lemma locate_id id l r next : locate id l = Some (r, next) -> id = 0 \/ id = r_id r.
Proof.
  induction l as [|x l IH]; cbn [locate]; [done |]. destruct (_ || _) eqn:E; [| done].
  intros H. injection H as <- _. apply orb_true_iff in E. by rewrite !Z.eqb_eq in E.
Qed.

Lemma header_run itr d r next :
  itr_ok itr -> is_u16 (itr_next itr) -> locate (itr_next itr) repo = Some (r, next) ->
  is_u16 next -> rec_ok r -> (patience d (reservation itr) < 5)%nat ->
  exists itr' d', ipmi_sdr_get_header itr d = Ok ((Some (header_of r next), itr'), d') /\
    itr_after itr itr' d d'.
Proof.
  intros Hok Hn Hl Hnext (Hid & _ & Hlen & _) Hp.
  destruct (header_tries_run 5 itr d r next Hok Hn Hl Hp) as (a & itr' & d' & E & Hc & Hafter).
  exists itr', d'. split; [| done]. unfold ipmi_sdr_get_header. rewrite (M_bind_run _ _ _ _ _ E).
  assert (zlen (htoipmi16 next ++ slice (rec_wire r) 0 5) = 7) as Hz.
  { rewrite zlen_app, zlen_htoipmi16, zlen_slice; rewrite ?zlen_rec_wire; lia. }
  pose proof Hc as (Hdl & _). rewrite Hdl, Hz. change (7 <? 2 + 5) with false. cbn match.
  rewrite (carries_bytes _ _ Hc 0 7), lift_Ok_bind, slice_all, parse_header_wire by (try done; lia).
  cbv zeta. cbn [h_length h_id]. rewrite (proj2 (Z.eqb_neq (r_len r) 0)) by lia.
  destruct Hafter as ((_ & En & _) & _). rewrite En.
  destruct (locate_id _ _ _ _ Hl) as [-> | E2]; [done |].
  rewrite E2, Z.eqb_refl, andb_false_r. done.
Qed.

(** ** The body *)

Lemma record_loop_run fuel itr max i d r next data :
  itr_ok itr -> is_u16 (r_id r) -> locate (r_id r) repo = Some (r, next) -> r_len r <= 251 ->
  1 <= max <= 255 -> 0 <= i <= r_len r ->
  data = slice (r_body r) 0 i ++ zeros (r_len r + 1 - i) ->
  (patience d (reservation itr) + Z.to_nat max + Z.to_nat (r_len r - i) <= fuel)%nat ->
  exists itr' max' d',
    record_loop fuel (header_of r next) itr max i data d = Ok ((Some (r_body r ++ [0]), itr', max'), d') /\
    itr_after itr itr' d d' /\ 1 <= max' <= 255.
Proof.
  revert itr max i d data.
  induction fuel as [|fuel IH]; intros itr max i d data Hok Hid Hl Hlen Hm Hi Hdata Hf; [lia |].
  cbn [record_loop]. cbn [h_length h_id header_of].
  destruct (r_len r <=? i) eqn:Ei; bool_hyps.
  { exists itr, max, d. split; [| by split; [apply itr_after_refl |]]. assert (i = r_len r) as -> by lia. subst data.
    rewrite slice_all by (unfold r_len; lia). replace (r_len r + 1 - r_len r) with 1 by lia. done. }
  set (n := if r_len r - i <? max then r_len r - i else max).
  assert (1 <= n <= 255 /\ n <= max /\ i + n <= r_len r) as (Hn & Hnm & Hin).
  { unfold n. destruct (_ <? _) eqn:E; bool_hyps; lia. }
  clearbody n. rewrite !u8_small by (unfold is_u8; lia).
  unfold get_sdr_rq. destruct Hok as [Hb Hr]. rewrite Hb, (u16_small (r_id r)) by done.
  destruct (sdr_reads (bi := bi) d (reservation itr) (r_id r) (i + 5) n r next) as (a & d' & Ea & Ha);
    try done; [lia | rewrite zlen_rec_wire; lia |].
  rewrite (sendrecv_bind _ _ _ _ _ Ea).
  assert ((patience d' (reservation itr) <= patience d (reservation itr))%nat -> 5 < n ->
    exists itr' max' d2, (if 0 <? n - 1 then record_loop fuel (header_of r next) itr (n - 1) i data
      else mret (None, itr, n - 1)) d' = Ok ((Some (r_body r ++ [0]), itr', max'), d2) /\
    itr_after itr itr' d d2 /\ 1 <= max' <= 255) as Hshrink.
  { intros Hle Hlt. rewrite (proj2 (Z.ltb_lt 0 (n - 1))) by lia.
    destruct (IH itr (n - 1) i d' data) as (itr' & max' & d2 & E & Hafter & Hm'); try done; try lia.
    exists itr', max', d2. split; [done |]. split; [by eapply itr_after_weaken | done]. }
  destruct Ha as [(Hle & Ha) | (a' & -> & Hcc & Hdec)].
  - destruct a as [a|]; [| by apply Hshrink].
    destruct Ha as [(Hcc & Hc) | [Hcc Hlt]].
    2: { rewrite Hcc, Z.eqb_refl. by apply Hshrink. }
    clear Hshrink. rewrite Hcc. change (0 =? SDR_CANT_RET) with false.
    change (0 =? IPMI_CC_RES_CANCELED) with false. cbn [Z.eqb negb orb].
    rewrite wire_body in Hc by lia.
    assert (zlen (slice (r_body r) i n) = n) as Hz by (apply zlen_slice; unfold r_len in *; lia).
    pose proof Hc as (Hdl & _). rewrite Hdl, zlen_app, zlen_htoipmi16, Hz.
    rewrite (proj2 (Z.ltb_ge (2 + n) (2 + n))) by lia.
    rewrite (carries_bytes _ _ Hc 2 n) by (rewrite ?zlen_app, ?zlen_htoipmi16, ?Hz; lia).
    rewrite slice_app_r, zlen_htoipmi16, slice_all by (rewrite ?zlen_htoipmi16, ?Hz; lia).
    assert (zlen (slice (r_body r) 0 i) = i) as Hzi by (apply zlen_slice; unfold r_len in *; lia).
    rewrite lift_Ok_bind, Hdata, (wr_next _ _ i) by (try done; rewrite Hz, zlen_zeros by lia; lia).
    rewrite lift_Some_bind. change (slice (r_body r) i n) with (slice (r_body r) (0 + i) n).
    rewrite slice_cat, Z.add_0_l by lia.
    destruct (IH itr max (i + n) d' (slice (r_body r) 0 (i + n) ++ drop (Z.to_nat (zlen (slice (r_body r) i n)))
      (zeros (r_len r + 1 - i)))) as (itr' & max' & d2 & E & Hafter & Hm'); try done; try lia.
    { rewrite Hz. unfold zeros. rewrite drop_replicate. do 2 f_equal. lia. }
    exists itr', max', d2. split; [done |]. split; [by eapply itr_after_weaken | done].
  - clear Hshrink. rewrite Hcc. change (IPMI_CC_RES_CANCELED =? SDR_CANT_RET) with false.
    rewrite Z.eqb_refl. 
    match goal with |- context [(ipmi_sdr_get_reservation bi ≫= ?f) d'] =>
      destruct (reserve_run d' f) as (r2 & d2 & rid & Er & Hc & Hrid & E); rewrite E end.
    specialize (Hdec _ _ _ Er Hc Hrid).
    destruct (IH (itr <| reservation := rid |>) max i d2 data) as (itr' & max' & d3 & E3 & Hafter & Hm');
      try done; [cbn; lia |].
    exists itr', max', d3. split; [done |]. split; [| done]. eapply itr_after_renewed; [done | lia].
Qed.

(** The size of the first request is usable. *)
Definition sdr_size_ok (intf : intf_addr) (max : Z) : Prop :=
  0 <= max <= 255 /\ (max = 0 -> 3 <= ipmi_intf_get_max_response_data_size intf).

Lemma init_max_sdr_range intf max : sdr_size_ok intf max -> 1 <= init_max_sdr intf max <= 255.
Proof. intros [H0 H1]. unfold init_max_sdr. repeat case_match; bool_hyps; lia. Qed.

Lemma get_record_run fuel intf itr max d r next :
  itr_ok itr -> rec_ok r -> locate (r_id r) repo = Some (r, next) -> sdr_size_ok intf max ->
  is_Some (malloc (r_len r + 1)) ->
  (patience d (reservation itr) + 255 + 251 <= fuel)%nat ->
  exists itr' max' d',
    ipmi_sdr_get_record fuel intf (header_of r next) itr max d =
      Ok ((Some (r_body r ++ [0]), itr', max'), d') /\
    itr_after itr itr' d d' /\ 1 <= max' <= 255.
Proof.
  intros Hok (Hid & _ & Hlen & Hv) Hl Hs [b Hb] Hf. apply init_max_sdr_range in Hs.
  unfold ipmi_sdr_get_record. cbn [h_length h_type header_of].
  rewrite (proj2 (Z.ltb_ge (r_len r) 1)), Hb by lia.
  destruct (record_loop_run fuel itr (init_max_sdr intf max) 0 d r next (zeros (r_len r + 1)))
    as (itr' & max' & d' & E & Ha & Hm'); try done; try lia.
  { unfold slice. cbn [Z.to_nat take app]. by rewrite Z.sub_0_r. }
  exists itr', max', d'. rewrite (M_bind_run _ _ _ _ _ E).
  unfold rec_valid in Hv. rewrite Hv, lift_Ok_bind. done.
Qed.
End Device.
