(* ===== verification/SdrProps.v ===== *)
(** * Correctness of the repository reader and of the record cache
      (lib/ipmi_sdr.c)

    A record is read whole, the tests of the lookups stay inside validated
    records, and the lookups agree with the repository however much of it the
    earlier ones have left in the cache. *)

From S2P Require Import Prelude Wire Ipmi Intf Session Helper Bmc Sdr SdrCache SdrXfer.

#[local] Open Scope Z_scope.

(** ** The entries of a repository *)

Definition rec_known (r : sdr_rec) : bool := known_type (r_type r).
Definition entry_of (r : sdr_rec) : sdr_entry := new_entry (r_id r) (r_type r) (r_body r ++ [0]).
Definition entries (l : list sdr_rec) : list sdr_entry := map entry_of (List.filter rec_known l).

Lemma entries_app l1 l2 : entries (l1 ++ l2) = entries l1 ++ entries l2.
Proof. unfold entries. by rewrite List.filter_app, map_app. Qed.

Lemma entries_cons r l : entries (r :: l) = if rec_known r then entry_of r :: entries l else entries l.
Proof. unfold entries. cbn. by destruct (rec_known r). Qed.

(** ** The tests on validated records *)

Definition returns {A} (m : res A) : Prop := exists a, m = Ok a.

Lemma returns_bind {A B} (m : res A) (f : A -> res B) :
  returns m -> (forall a, returns (f a)) -> returns (m ≫= f).
Proof. intros [a ->] H. apply H. Qed.

Lemma returns_if {A} (b : bool) (x y : res A) : returns x -> returns y -> returns (if b then x else y).
Proof. by destruct b. Qed.

Lemma returns_Ok {A} (a : A) : returns (Ok a).
Proof. by exists a. Qed.
#[local] Hint Resolve returns_bind returns_if returns_Ok : core.

Lemma strncmp_returns n a b : returns (strncmp_eq n (a ++ [0]) (b ++ [0])).
Proof.
  revert a b. induction n as [|n IH]; intros a b; [by apply returns_Ok |].
  destruct a as [|x a], b as [|y b]; cbn [app strncmp_eq].
  - by apply returns_Ok.
  - destruct (0 =? y) eqn:E; cbn [negb]; [| by apply returns_Ok]. by apply returns_Ok.
  - destruct (x =? 0) eqn:E; cbn [negb]; by apply returns_Ok.
  - destruct (x =? y); cbn [negb]; [| by apply returns_Ok]. destruct (x =? 0); [by apply returns_Ok | apply IH].
Qed.

Lemma rdx_returns buf i : 0 <= i < zlen buf -> returns (rdx buf i).
Proof. intros H. rewrite rdx_ok by done. apply returns_Ok. Qed.

Lemma rec_byte_returns r off : 0 <= off <= r_len r -> returns (rec_byte (entry_of r) off).
Proof. intros H. apply rdx_returns. rewrite zlen_app. unfold r_len in H. zlen_lia. Qed.

(** The length of a validated record covers its fixed part. *)
Lemma named_len r c n : rec_valid r -> name_offsets (r_type r) = Some (c, n) -> n <= r_len r.
Proof.
  unfold rec_valid, ipmi_sdr_record_length_valid. intros H E. rewrite E in H.
  destruct (r_len r <? n) eqn:L; [done |]. bool_hyps. done.
Qed.

Lemma name_offsets_cases type c n : name_offsets type = Some (c, n) ->
  0 <= c /\ c < n /\ 11 <= n /\
  (is_sensor_type type = true -> 27 <= n) /\ (type = SDR_RECORD_TYPE_EVENTONLY_SENSOR -> 12 <= n).
Proof.
  unfold name_offsets. intros H.
  repeat match goal with
  | H : context [type =? ?v] |- _ => destruct (Z.eqb_spec type v) as [->|?]
  end; try done; injection H as <- <-; split_and!; cbn; intros; (lia || discriminate).
Qed.

Lemma sensor_named type : is_sensor_type type = true -> is_Some (name_offsets type).
Proof. unfold is_sensor_type. intros H. apply orb_true_iff in H. rewrite !Z.eqb_eq in H. by destruct H as [-> | ->]. Qed.

Lemma locator_named type : is_locator_type type = true -> is_Some (name_offsets type).
Proof.
  unfold is_locator_type. intros H. rewrite !orb_true_iff, !Z.eqb_eq in H. by destruct H as [[-> | ->] | ->].
Qed.

Lemma sensor_len r : rec_valid r -> is_sensor_type (r_type r) = true -> 27 <= r_len r.
Proof.
  intros Hv Hs. destruct (sensor_named _ Hs) as [[c n] E]. pose proof (named_len _ _ _ Hv E).
  pose proof (name_offsets_cases _ _ _ E) as (_ & _ & _ & H1 & _). specialize (H1 Hs). lia.
Qed.

Lemma eventonly_len r : rec_valid r -> r_type r = SDR_RECORD_TYPE_EVENTONLY_SENSOR -> 12 <= r_len r.
Proof. intros Hv E. apply (named_len r 11 12 Hv). by rewrite E. Qed.

Lemma locator_len r : rec_valid r -> is_locator_type (r_type r) = true -> 11 <= r_len r.
Proof.
  intros Hv Hs. destruct (locator_named _ Hs) as [[c n] E]. pose proof (named_len _ _ _ Hv E).
  pose proof (name_offsets_cases _ _ _ E). lia.
Qed.

Lemma entassoc_len r : rec_valid r -> r_type r = SDR_RECORD_TYPE_ENTITY_ASSOC -> 11 <= r_len r.
Proof.
  unfold rec_valid, ipmi_sdr_record_length_valid. intros H E. rewrite E in H. cbn in H.
  injection H as H. bool_hyps. done.
Qed.

Lemma match_keys_returns r off g n t : 2 <= off <= r_len r -> returns (match_keys (entry_of r) off g n t).
Proof. intros H. unfold match_keys. repeat (apply returns_bind; [apply rec_byte_returns; lia | intros ?]); auto. Qed.

Lemma match_entity_at_returns r off i n : 0 <= off < r_len r -> returns (match_entity_at (entry_of r) off i n).
Proof. intros H. unfold match_entity_at. repeat (apply returns_bind; [apply rec_byte_returns; lia | intros ?]); auto. Qed.

Lemma match_id_returns r id : rec_valid r -> returns (match_id id (entry_of r)).
Proof.
  intros Hv. unfold match_id. cbn [e_type e_rec entry_of new_entry].
  destruct (name_offsets (r_type r)) as [[c n]|] eqn:E; [| auto].
  pose proof (named_len _ _ _ Hv E) as Hl. pose proof (name_offsets_cases _ _ _ E) as (H0 & H1 & H2 & _).
  assert (zlen (r_body r ++ [0]) = r_len r + 1) as Hz by (rewrite zlen_app; unfold r_len; zlen_lia).
  apply returns_bind; [apply rdx_returns; lia | intros code].
  apply returns_bind; [apply returns_if; [auto | apply rdx_returns; lia] | intros num].
  apply returns_if; [auto |]. rewrite drop_app_le by (unfold r_len, zlen in Hl; lia). apply strncmp_returns.
Qed.

(** The tests of the lookups. *)
Inductive record_test : (sdr_entry -> res bool) -> Prop :=
  | test_numtype g n t : record_test (match_numtype g n t)
  | test_sensortype t : record_test (match_sensortype t)
  | test_entity i n : record_test (match_entity i n)
  | test_type t : record_test (match_type t)
  | test_id id : record_test (match_id id).

Lemma test_returns f r : record_test f -> rec_valid r -> returns (f (entry_of r)).
Proof.
  intros [g n t | t | i n | t | id] Hv.
  - unfold match_numtype. cbn [e_type entry_of new_entry]. destruct (is_sensor_type _) eqn:E.
    { pose proof (sensor_len _ Hv E). apply match_keys_returns. lia. }
    case_test; [| auto]. pose proof (eventonly_len _ Hv Ht). apply match_keys_returns. lia.
  - unfold match_sensortype. cbn [e_type entry_of new_entry]. destruct (is_sensor_type _) eqn:E.
    { pose proof (sensor_len _ Hv E). apply returns_bind; [apply rec_byte_returns; lia | auto]. }
    case_test; [| auto]. pose proof (eventonly_len _ Hv Ht). apply returns_bind; [apply rec_byte_returns; lia | auto].
  - unfold match_entity. cbn [e_type entry_of new_entry].
    destruct (is_sensor_type (r_type r)) eqn:E; cbn [orb].
    { pose proof (sensor_len _ Hv E). apply match_entity_at_returns. lia. }
    case_test. { pose proof (eventonly_len _ Hv Ht). apply match_entity_at_returns. lia. }
    destruct (is_locator_type (r_type r)) eqn:E2.
    { pose proof (locator_len _ Hv E2). apply match_entity_at_returns. lia. }
    case_test; [| auto]. pose proof (entassoc_len _ Hv Ht0). apply match_entity_at_returns. lia.
  - unfold match_type. auto.
  - by apply match_id_returns.
Qed.

(** ** The scan, on the records *)

Fixpoint visit_recs {A} (visit : sdr_entry -> A -> res (A * bool)) (l : list sdr_rec) (acc : A)
    : res (A * list sdr_entry * list sdr_rec) :=
  match l with
  | [] => Ok (acc, [], [])
  | r :: l =>
      if rec_known r then
        '(acc, stop) ← visit (entry_of r) acc;
        if stop : bool then Ok (acc, [entry_of r], l)
        else '(acc, es, rest) ← visit_recs visit l acc; Ok (acc, entry_of r :: es, rest)
      else visit_recs visit l acc
  end.

Lemma visit_recs_split {A} visit l (acc acc' : A) es rest :
  visit_recs visit l acc = Ok (acc', es, rest) -> exists mid, l = mid ++ rest /\ es = entries mid.
Proof.
  revert acc es. induction l as [|r l IH]; intros acc es H; cbn [visit_recs] in H.
  { injection H as <- <- <-. by exists []. }
  destruct (rec_known r) eqn:Er.
  - apply res_bind_Ok in H as ([acc1 stop] & H1 & H). destruct stop.
    { injection H as <- <- <-. exists [r]. by rewrite entries_cons, Er. }
    apply res_bind_Ok in H as ([[acc2 es2] rest2] & H2 & H). injection H as <- <- <-.
    destruct (IH _ _ H2) as (mid & -> & ->). exists (r :: mid). by rewrite entries_cons, Er.
  - destruct (IH _ _ H) as (mid & -> & ->). exists (r :: mid). by rewrite entries_cons, Er.
Qed.

Definition holds (f : sdr_entry -> res bool) (e : sdr_entry) : bool :=
  match f e with Ok b => b | Bad _ => false end.

Lemma holds_eq f e b : f e = Ok b -> holds f e = b.
Proof. unfold holds. by intros ->. Qed.

Lemma visit_first_eq f e acc b : f e = Ok b -> visit_first f e acc = Ok (if b then (Some e, true) else (acc, false)).
Proof. unfold visit_first. by intros ->. Qed.

Lemma visit_all_eq `{Malloc} f e l b : f e = Ok b -> visit_all f e l = Ok (if b then sdr_list_add l e else l, false).
Proof. unfold visit_all. by intros ->. Qed.

Lemma visit_first_recs f l : record_test f -> Forall rec_valid l -> exists es rest,
  visit_recs (visit_first f) l None = Ok (List.find (holds f) (entries l), es, rest).
Proof.
  intros Hf. induction l as [|r l IH]; intros Hv; [by do 2 eexists |].
  apply Forall_cons in Hv as [Hr Hv]. destruct (IH Hv) as (es & rest & E).
  cbn [visit_recs]. rewrite entries_cons. destruct (rec_known r); [| by do 2 eexists].
  destruct (test_returns f r Hf Hr) as [b Eb]. rewrite (visit_first_eq _ _ _ _ Eb).
  cbn [List.find]. rewrite (holds_eq _ _ _ Eb). destruct b; cbn; [by do 2 eexists |].
  rewrite E. cbn. by do 2 eexists.
Qed.

Section Refinement.
Context `{mem : Malloc} {dev : Type} {bmc : Bmc dev}.
Context (malloc_total : forall n, is_Some (malloc n)).
Context (bi : bool) (repo : list sdr_rec) (patience : dev -> Z -> nat).
Context {device : SdrRepo bi repo patience} (Hrepo : repo_ok repo).
Context (intf : intf_addr) (rebuild : sdr_statics -> M dev (Z * sdr_statics)).

Lemma list_add_snoc l e : sdr_list_add l e = l ++ [e].
Proof using malloc_total. unfold sdr_list_add. by destruct (malloc_total SDR_ENTRY_SIZE) as [b ->]. Qed.

Lemma visit_all_recs f l acc : record_test f -> Forall rec_valid l ->
  visit_recs (visit_all f) l acc = Ok (acc ++ List.filter (holds f) (entries l), entries l, []).
Proof using malloc_total.
  intros Hf. revert acc. induction l as [|r l IH]; intros acc Hv; cbn [visit_recs]; [by rewrite app_nil_r |].
  apply Forall_cons in Hv as [Hr Hv]. rewrite entries_cons. destruct (rec_known r); [| by apply IH].
  destruct (test_returns f r Hf Hr) as [b Eb]. rewrite (visit_all_eq _ _ _ _ Eb).
  cbn [List.filter]. rewrite (holds_eq _ _ _ Eb). destruct b; cbn; rewrite IH by done; cbn.
  - by rewrite list_add_snoc, <- app_assoc.
  - done.
Qed.

Lemma visit_none_recs l : visit_recs (fun _ acc => Ok (acc, false)) l tt = Ok (tt, entries l, []).
Proof. induction l as [|r l IH]; [done |]. cbn [visit_recs]. rewrite entries_cons. destruct (rec_known r); cbn; by rewrite IH. Qed.

Lemma find_entries f l : record_test f -> Forall rec_valid l ->
  find_entry f (entries l) = Ok (List.find (holds f) (entries l)).
Proof.
  intros Hf. induction l as [|r l IH]; intros Hv; [done |]. apply Forall_cons in Hv as [Hr Hv].
  rewrite entries_cons. destruct (rec_known r); [| by apply IH]. cbn [find_entry List.find].
  destruct (test_returns f r Hf Hr) as [b Eb]. rewrite Eb, (holds_eq _ _ _ Eb). destruct b; [done | by apply IH].
Qed.

Lemma filter_entries_run f l head : record_test f -> Forall rec_valid l ->
  filter_entries f head (entries l) = Ok (head ++ List.filter (holds f) (entries l)).
Proof using malloc_total.
  intros Hf. revert head. induction l as [|r l IH]; intros head Hv; [by rewrite app_nil_r |].
  apply Forall_cons in Hv as [Hr Hv].
  rewrite entries_cons. destruct (rec_known r); [| by apply IH]. cbn [filter_entries List.filter].
  destruct (test_returns f r Hf Hr) as [b Eb]. rewrite Eb, (holds_eq _ _ _ Eb). cbn.
  destruct b; rewrite IH by done; [by rewrite list_add_snoc, <- app_assoc | done].
Qed.

(** The iterator stands between [pre] and [post]. *)
Definition at_pos (itr : sdr_itr) (pre post : list sdr_rec) : Prop :=
  itr_next itr = next_of post \/ (pre = [] /\ post <> [] /\ itr_next itr = 0).

Lemma next_header_run itr pre r post d :
  repo = pre ++ r :: post -> itr_ok bi itr -> at_pos itr pre (r :: post) ->
  (patience d (reservation itr) < 5)%nat ->
  exists itr' d', ipmi_sdr_get_next_header itr d = Ok ((Some (header_of r (next_of post)), itr'), d') /\
    itr_ok bi itr' /\ itr_next itr' = next_of post /\
    (patience d' (reservation itr') <= patience d (reservation itr))%nat.
Proof using device Hrepo.
  intros E Hok Hpos Hp. pose proof Hrepo as (Hall & _). rewrite E in Hall.
  apply Forall_app in Hall as [_ Hall]. apply Forall_cons in Hall as [Hr Hall].
  pose proof Hr as (Hid & Hffff & _).
  assert (locate (itr_next itr) repo = Some (r, next_of post)) as Hl.
  { destruct Hpos as [-> | (-> & _ & ->)]; rewrite E; [| done]. apply locate_at. by rewrite <- E. }
  assert (is_u16 (itr_next itr) /\ itr_next itr <> 0xffff) as [Hu Hn].
  { destruct Hpos as [-> | (_ & _ & ->)]; [done | by split]. }
  destruct (header_run bi repo patience itr d r (next_of post)) as (itr' & d' & Er & Hs & Ho & Hp');
    try done; [by apply next_of_u16 |].
  unfold ipmi_sdr_get_next_header. rewrite (proj2 (Z.eqb_neq _ _) Hn), (M_bind_run _ _ _ _ _ Er).
  by exists (itr' <| itr_next := next_of post |>), d'.
Qed.

Lemma scan_run {A} fuel visit (acc acc' : A) es rest pre post itr c d :
  repo = pre ++ post -> itr_ok bi itr -> at_pos itr pre post ->
  sdr_size_ok intf (sdr_max_read_len (statics c)) -> (patience d (reservation itr) < 5)%nat ->
  (patience d (reservation itr) + 506 + length post < fuel)%nat ->
  visit_recs visit post acc = Ok (acc', es, rest) ->
  exists itr' max' d', sdr_scan fuel intf visit acc itr c d =
      Ok ((acc', mk_cache (sdr_list c ++ es) (Some itr') (mk_statics max' (use_built_in (statics c)))), d') /\
    itr_ok bi itr' /\ itr_next itr' = next_of rest /\ sdr_size_ok intf max' /\
    (patience d' (reservation itr') <= patience d (reservation itr))%nat.
Proof using device Hrepo malloc_total.
  revert pre post itr c d acc es. induction fuel as [|fuel IH];
    intros pre post itr c d acc es E Hok Hpos Hsz Hp Hf Hv; [lia |].
  cbn [sdr_scan]. destruct post as [|r post].
  { cbn in Hv. injection Hv as <- <- <-.
    destruct Hpos as [Hn | (_ & H & _)]; [| done]. unfold ipmi_sdr_get_next_header. rewrite Hn.
    change (next_of [] =? 0xffff) with true. cbn. rewrite app_nil_r.
    exists itr, (sdr_max_read_len (statics c)), d. by split_and!. }
  cbn [length] in Hf.
  destruct (next_header_run itr pre r post d E Hok Hpos Hp) as (itr1 & d1 & E1 & Hok1 & Hn1 & Hp1).
  rewrite (M_bind_run _ _ _ _ _ E1). destruct (malloc_total SDR_ENTRY_SIZE) as [b ->].
  assert (rec_ok r) as Hr.
  { pose proof Hrepo as (Hall & _). rewrite E in Hall. apply Forall_app in Hall as [_ Hall].
    by apply Forall_inv in Hall. }
  destruct (get_record_run bi repo patience fuel intf itr1 (sdr_max_read_len (statics c)) d1 r (next_of post))
    as (itr2 & max2 & d2 & E2 & ((_ & Hn2 & _) & Hok2 & Hp2) & Hm2); try done; [| lia |].
  { rewrite E. apply locate_at. by rewrite <- E. }
  rewrite (M_bind_run _ _ _ _ _ E2). cbn [h_type h_id header_of].
  assert (sdr_size_ok intf max2) as Hsz2 by (split; lia).
  assert (repo = (pre ++ [r]) ++ post) as E' by (by rewrite <- app_assoc).
  assert (at_pos itr2 (pre ++ [r]) post) as Hpos2 by (left; congruence).
  cbn [visit_recs] in Hv. unfold rec_known in Hv.
  destruct (known_type (r_type r)) eqn:Ek; cbn [negb].
  - apply res_bind_Ok in Hv as ([acc1 stop] & Hv1 & Hv). change (new_entry _ _ _) with (entry_of r). rewrite Hv1.
    rewrite lift_Ok_bind. destruct stop.
    { injection Hv as <- <- <-. exists itr2, max2, d2. split; [done |]. split_and!; try done; [congruence | lia]. }
    apply res_bind_Ok in Hv as ([[acc2 es2] rest2] & Hv2 & Hv). injection Hv as <- <- <-.
    destruct (IH _ _ itr2 (push_entry (entry_of r) (keep_itr c itr2 max2)) d2 _ _ E' Hok2 Hpos2 Hsz2 ltac:(lia) ltac:(lia) Hv2)
      as (itr3 & max3 & d3 & E3 & Hok3 & Hn3 & Hsz3 & Hp3).
    exists itr3, max3, d3. rewrite E3. cbn. rewrite <- app_assoc. split; [done |]. split_and!; try done. lia.
  - destruct (IH _ _ itr2 (keep_itr c itr2 max2) d2 _ _ E' Hok2 Hpos2 Hsz2 ltac:(lia) ltac:(lia) Hv)
      as (itr3 & max3 & d3 & E3 & Hok3 & Hn3 & Hsz3 & Hp3).
    exists itr3, max3, d3. rewrite E3. split; [done |]. split_and!; try done. lia.
Qed.

(** The cache holds the records before the iterator. *)
Definition cache_inv (c : sdr_cache) (d : dev) : Prop := exists pre post itr,
  repo = pre ++ post /\ sdr_list c = entries pre /\ sdr_list_itr c = Some itr /\
  itr_ok bi itr /\ at_pos itr pre post /\ sdr_size_ok intf (sdr_max_read_len (statics c)) /\
  (patience d (reservation itr) < 5)%nat.

(** A scan keeps the invariant and gives what the records give. *)
Lemma scan_inv {A} fuel visit (acc acc' : A) es rest pre post itr c d :
  repo = pre ++ post -> sdr_list c = entries pre -> itr_ok bi itr -> at_pos itr pre post ->
  sdr_size_ok intf (sdr_max_read_len (statics c)) -> (patience d (reservation itr) < 5)%nat ->
  (511 + length repo <= fuel)%nat -> visit_recs visit post acc = Ok (acc', es, rest) ->
  exists c' d', sdr_scan fuel intf visit acc itr c d = Ok ((acc', c'), d') /\ cache_inv c' d'.
Proof using device Hrepo malloc_total.
  intros E Hl Hok Hpos Hsz Hp Hf Hv.
  assert (length repo = length pre + length post)%nat by (by rewrite E, length_app).
  destruct (scan_run fuel visit acc acc' es rest pre post itr c d) as (itr' & max' & d' & Er & Hok' & Hn' & Hsz' & Hp');
    try done; [lia |].
  destruct (visit_recs_split _ _ _ _ _ _ Hv) as (mid & -> & ->).
  do 2 eexists. split; [done |]. exists (pre ++ mid), rest, itr'. cbn.
  split_and!; try done; [by rewrite E, app_assoc | by rewrite Hl, entries_app | by left | lia].
Qed.

Lemma pre_post_valid pre post : repo = pre ++ post -> Forall rec_valid pre /\ Forall rec_valid post.
Proof using Hrepo.
  intros E. pose proof Hrepo as (Hall & _). rewrite E in Hall. apply Forall_app in Hall as [H1 H2].
  split; [eapply Forall_impl; [exact H1 |] | eapply Forall_impl; [exact H2 |]]; by intros r (_ & _ & _ & H).
Qed.

Lemma open_run c d itr {B} (k : option sdr_itr * sdr_cache -> M dev B) :
  sdr_list_itr c = Some itr -> (sdr_open rebuild c ≫= k) d = k (Some itr, c) d.
Proof. intros E. apply M_bind_run. unfold sdr_open. by rewrite E. Qed.

Lemma find_app_none f (l1 l2 : list sdr_entry) : List.find f l1 = None -> List.find f (l1 ++ l2) = List.find f l2.
Proof. induction l1 as [|x l IH]; [done |]. cbn. by destruct (f x). Qed.

Lemma find_app_some f (l1 l2 : list sdr_entry) e : List.find f l1 = Some e -> List.find f (l1 ++ l2) = Some e.
Proof. induction l1 as [|x l IH]; [done |]. cbn. by destruct (f x). Qed.

Lemma find_first_run fuel f c d : record_test f -> cache_inv c d -> (511 + length repo <= fuel)%nat ->
  exists c' d', sdr_find_first rebuild fuel intf f c d = Ok ((List.find (holds f) (entries repo), c'), d') /\
    cache_inv c' d'.
Proof using device Hrepo malloc_total.
  intros Hf (pre & post & itr & E & Hl & Hi & Hok & Hpos & Hsz & Hp) Hfuel.
  destruct (pre_post_valid pre post E) as [Hv1 Hv2].
  unfold sdr_find_first. rewrite (open_run _ _ itr), Hl, find_entries, lift_Ok_bind, E, entries_app by done.
  destruct (List.find (holds f) (entries pre)) as [e|] eqn:Ef.
  { rewrite (find_app_some _ _ _ _ Ef). exists c, d. split; [done |]. by exists pre, post, itr. }
  rewrite (find_app_none _ _ _ Ef). destruct (visit_first_recs f post Hf Hv2) as (es & rest & Ev).
  by eapply scan_inv.
Qed.

Lemma find_all_run fuel f c d : record_test f -> cache_inv c d -> (511 + length repo <= fuel)%nat ->
  exists c' d', sdr_find_all rebuild fuel intf f c d = Ok ((Some (List.filter (holds f) (entries repo)), c'), d') /\
    cache_inv c' d'.
Proof using device Hrepo malloc_total.
  intros Hf (pre & post & itr & E & Hl & Hi & Hok & Hpos & Hsz & Hp) Hfuel.
  destruct (pre_post_valid pre post E) as [Hv1 Hv2].
  unfold sdr_find_all. rewrite (open_run _ _ itr) by done. destruct (malloc_total SDR_ENTRY_SIZE) as [b ->].
  rewrite Hl, filter_entries_run, lift_Ok_bind by done.
  destruct (scan_inv fuel (visit_all f) ([] ++ List.filter (holds f) (entries pre)) _ _ _ pre post itr c d
    E Hl Hok Hpos Hsz Hp Hfuel (visit_all_recs f post _ Hf Hv2)) as (c' & d' & Er & Hinv).
  exists c', d'. rewrite (M_bind_run _ _ _ _ _ Er), E, entries_app, List.filter_app. done.
Qed.

Lemma list_cache_run fuel c d : cache_inv c d -> (511 + length repo <= fuel)%nat ->
  exists c' d', ipmi_sdr_list_cache rebuild fuel intf c d = Ok ((0, c'), d') /\ cache_inv c' d'.
Proof using device Hrepo malloc_total.
  intros (pre & post & itr & E & Hl & Hi & Hok & Hpos & Hsz & Hp) Hfuel.
  unfold ipmi_sdr_list_cache. rewrite (open_run _ _ itr) by done.
  destruct (scan_inv fuel (fun _ acc => Ok (acc, false)) tt tt _ _ pre post itr c d
    E Hl Hok Hpos Hsz Hp Hfuel (visit_none_recs post)) as (c' & d' & Er & Hinv).
  exists c', d'. by rewrite (M_bind_run _ _ _ _ _ Er).
Qed.
End Refinement.
