(* ===== verification/SdrSpec.v ===== *)
(** * The repository as a specification (lib/ipmi_sdr.c)

    A sequence of lookups through the cache answers what the same lookups
    answer on the whole repository; with a concrete controller for the
    examples. *)

From S2P Require Import Prelude Wire Ipmi Intf Session Helper Bmc Sdr SdrCache SdrXfer SdrProps.

#[local] Open Scope Z_scope.

(** ** Lookups and their meaning *)

Inductive sdr_query :=
  | QNumType (gen_id num type : Z)
  | QId (id : option (list Z))
  | QSensorType (type : Z)
  | QEntity (id instance : Z)
  | QType (type : Z)
  | QListCache.

Inductive sdr_answer :=
  | AOne (e : option sdr_entry)
  | AMany (l : option (list sdr_entry))
  | ACode (rc : Z).

(** On a list of records. *)
Definition spec_query (l : list sdr_entry) (q : sdr_query) : sdr_answer :=
  match q with
  | QNumType g n t => AOne (List.find (holds (match_numtype g n t)) l)
  | QId None => AOne None
  | QId (Some id) => AOne (List.find (holds (match_id id)) l)
  | QSensorType t => AMany (Some (List.filter (holds (match_sensortype t)) l))
  | QEntity i n => AMany (Some (List.filter (holds (match_entity i n)) l))
  | QType t => AMany (Some (List.filter (holds (match_type t)) l))
  | QListCache => ACode 0
  end.

Section Queries.
Context `{mem : Malloc} {dev : Type} {bmc : Bmc dev}.
Context (rebuild : sdr_statics -> M dev (Z * sdr_statics)) (fuel : nat) (intf : intf_addr).

Definition one (m : M dev (option sdr_entry * sdr_cache)) : M dev (sdr_answer * sdr_cache) :=
  '(e, c) ← m; mret (AOne e, c).
Definition many (m : M dev (option (list sdr_entry) * sdr_cache)) : M dev (sdr_answer * sdr_cache) :=
  '(l, c) ← m; mret (AMany l, c).

(** By the program. *)
Definition run_query (q : sdr_query) (c : sdr_cache) : M dev (sdr_answer * sdr_cache) :=
  match q with
  | QNumType g n t => one (ipmi_sdr_find_sdr_bynumtype rebuild fuel intf g n t c)
  | QId id => one (ipmi_sdr_find_sdr_byid rebuild fuel intf id c)
  | QSensorType t => many (ipmi_sdr_find_sdr_bysensortype rebuild fuel intf t c)
  | QEntity i n => many (ipmi_sdr_find_sdr_byentity rebuild fuel intf i n c)
  | QType t => many (ipmi_sdr_find_sdr_bytype rebuild fuel intf t c)
  | QListCache => '(rc, c) ← ipmi_sdr_list_cache rebuild fuel intf c; mret (ACode rc, c)
  end.

Fixpoint run_queries (qs : list sdr_query) (c : sdr_cache) : M dev (list sdr_answer * sdr_cache) :=
  match qs with
  | [] => mret ([], c)
  | q :: qs =>
      '(a, c) ← run_query q c;
      '(answers, c) ← run_queries qs c;
      mret (a :: answers, c)
  end.

Context (bi : bool) (repo : list sdr_rec) (patience : dev -> Z -> nat).

Lemma run_query_agrees {device : SdrRepo bi repo patience} q c d :
  (forall n, is_Some (malloc n)) -> repo_ok repo -> cache_inv bi repo patience intf c d ->
  (511 + length repo <= fuel)%nat ->
  exists c' d', run_query q c d = Ok ((spec_query (entries repo) q, c'), d') /\
    cache_inv bi repo patience intf c' d'.
Proof.
  intros Hm Hrepo Hc Hf.
  assert (forall f, record_test f -> exists c' d',
    one (sdr_find_first rebuild fuel intf f c) d =
      Ok ((AOne (List.find (holds f) (entries repo)), c'), d') /\ cache_inv bi repo patience intf c' d') as H1.
  { intros f Hf'. destruct (find_first_run Hm bi repo patience Hrepo intf rebuild fuel f c d Hf' Hc Hf)
      as (c' & d' & E & Hc'). exists c', d'. unfold one. by rewrite (M_bind_run _ _ _ _ _ E). }
  assert (forall f, record_test f -> exists c' d',
    many (sdr_find_all rebuild fuel intf f c) d =
      Ok ((AMany (Some (List.filter (holds f) (entries repo))), c'), d') /\ cache_inv bi repo patience intf c' d') as H2.
  { intros f Hf'. destruct (find_all_run Hm bi repo patience Hrepo intf rebuild fuel f c d Hf' Hc Hf)
      as (c' & d' & E & Hc'). exists c', d'. unfold many. by rewrite (M_bind_run _ _ _ _ _ E). }
  destruct q as [g n t | [id|] | t | i n | t |]; cbn [run_query spec_query].
  - apply H1. constructor.
  - apply (H1 (match_id id)). constructor.
  - by exists c, d.
  - apply (H2 (match_sensortype t)). constructor.
  - apply (H2 (match_entity i n)). constructor.
  - apply (H2 (match_type t)). constructor.
  - destruct (list_cache_run Hm bi repo patience Hrepo intf rebuild fuel c d Hc Hf) as (c' & d' & E & Hc').
    exists c', d'. by rewrite (M_bind_run _ _ _ _ _ E).
Qed.
End Queries.

(** ** A concrete controller

    It keeps a reservation counter, cancels the reservation before the next
    [t_cancels] reads, and refuses reads of more than 16 bytes. *)

Record toy_sdr := mk_toy { t_resv : Z; t_cancels : nat }.

Definition toy_repo : list sdr_rec := [
  mk_rec 1 0x51 SDR_RECORD_TYPE_MC_DEVICE_LOCATOR [32; 0; 0; 0; 0; 0; 0; 7; 1; 0; 0xc3; 66; 77; 67];
  mk_rec 2 0x51 0xc0 [1; 2; 3; 4; 5; 6; 7; 8; 9; 10; 11; 12; 13; 14; 15; 16; 17; 18; 19; 20];
  mk_rec 9 0x51 SDR_RECORD_TYPE_EVENTONLY_SENSOR [32; 0; 5; 7; 1; 0x23; 0x6f; 0; 0; 0; 0; 0xc3; 70; 65; 78]].

Definition toy_sdr_bmc (bi : bool) (repo : list sdr_rec) : Bmc toy_sdr := fun req d =>
  let resv := u16 (t_resv d) in
  if rq_cmd req =? GET_SDR_RESERVE_REPO then
    (Some (reply 0 (htoipmi16 (u16 (resv + 1)))), mk_toy (u16 (resv + 1)) (t_cancels d))
  else
  let data := rq_data req in
  let off := rd data 4 in let n := rd data 5 in
  if negb (ipmi16toh data =? resv) then (Some (reply IPMI_CC_RES_CANCELED []), d)
  else match t_cancels d with
  | S k => (Some (reply IPMI_CC_RES_CANCELED []), mk_toy (u16 (resv + 1)) k)
  | O =>
      if 16 <? n then (Some (reply SDR_CANT_RET []), d)
      else match locate (ipmi16toh (drop 2 data)) repo with
           | Some (r, next) => (Some (reply 0 (htoipmi16 next ++ slice (rec_wire r) off n)), d)
           | None => (Some (reply 0xcb []), d)
           end
  end.

Definition toy_patience (d : toy_sdr) (rid : Z) : nat :=
  (2 * t_cancels d + (if (rid =? u16 (t_resv d))%Z then 0 else 1))%nat.

Lemma u16_u16 x : u16 (u16 x) = u16 x.
Proof. apply u16_small, u16_range. Qed.

Lemma carries_htoipmi16_inj r a b : is_u16 a -> is_u16 b ->
  carries r (htoipmi16 a) -> carries r (htoipmi16 b) -> a = b.
Proof.
  intros Ha Hb (_ & x & E1) (_ & y & E2).
  rewrite <- (ipmi16toh_htoipmi16 a x), <- (ipmi16toh_htoipmi16 b y) by done. congruence.
Qed.

(** The reservation that the device makes. *)
Lemma toy_reserve bi repo d r2 d2 rid2 :
  toy_sdr_bmc bi repo (sdr_rq bi GET_SDR_RESERVE_REPO GET_SDR_RESERVE_REPO []) d = (Some r2, d2) ->
  carries r2 (htoipmi16 rid2) -> is_u16 rid2 ->
  rid2 = u16 (u16 (t_resv d) + 1) /\ d2 = mk_toy rid2 (t_cancels d).
Proof.
  unfold toy_sdr_bmc. replace (rq_cmd _ =? _) with true by (by destruct bi).
  intros [= <- <-] Hc Hu. pose proof (carries_reply 0 (htoipmi16 (u16 (u16 (t_resv d) + 1)))) as Hc'.
  rewrite (carries_htoipmi16_inj _ _ _ Hu (u16_range _) Hc Hc'). done.
Qed.

#[export] Instance toy_sdr_repo bi repo : @SdrRepo _ (toy_sdr_bmc bi repo) bi repo toy_patience.
Proof.
  constructor.
  - intros d. unfold bmc_answer, toy_sdr_bmc. replace (rq_cmd _ =? _) with true by (by destruct bi).
    do 3 eexists. split; [done |]. split; [done |]. split; [apply u16_range | apply carries_reply].
  - intros d rid id off n r next Hrid Hid Hl Ho Hn Hz.
    assert ((rq_cmd (sdr_rq bi GET_SDR GET_DEVICE_SDR (htoipmi16 rid ++ htoipmi16 id ++ [off; n])) =?
      GET_SDR_RESERVE_REPO) = false) as Hcmd by (by destruct bi).
    assert (rq_data (sdr_rq bi GET_SDR GET_DEVICE_SDR (htoipmi16 rid ++ htoipmi16 id ++ [off; n])) =
      htoipmi16 rid ++ htoipmi16 id ++ [off; n]) as Hdata by (by destruct bi).
    unfold bmc_answer at 1, toy_sdr_bmc at 1. rewrite Hcmd, Hdata. cbv zeta.
    rewrite ipmi16toh_htoipmi16 by done.
    change (rd (htoipmi16 rid ++ htoipmi16 id ++ [off; n]) 4) with off.
    change (rd (htoipmi16 rid ++ htoipmi16 id ++ [off; n]) 5) with n.
    change (drop 2 (htoipmi16 rid ++ htoipmi16 id ++ [off; n])) with (htoipmi16 id ++ [off; n]).
    rewrite ipmi16toh_htoipmi16 by done.
    destruct (rid =? u16 (t_resv d)) eqn:E; cbn [negb].
    2: { do 2 eexists. split; [done |]. right. eexists. split; [done |]. split; [done |].
         intros r2 d2 rid2 H Hc Hu. destruct (toy_reserve bi repo d _ _ _ H Hc Hu) as [-> ->].
         unfold toy_patience. cbn [t_cancels t_resv]. rewrite E, !u16_u16, Z.eqb_refl. lia. }
    destruct (t_cancels d) as [|k] eqn:Ek.
    2: { do 2 eexists. split; [done |]. right. eexists. split; [done |]. split; [done |].
         intros r2 d2 rid2 H Hc Hu. destruct (toy_reserve bi repo _ _ _ _ H Hc Hu) as [-> ->].
         unfold toy_patience. cbn [t_cancels t_resv]. rewrite E, Ek, !u16_u16, Z.eqb_refl. lia. }
    destruct (16 <? n) eqn:En; bool_hyps.
    { do 2 eexists. split; [done |]. left. split; [done |]. right. split; [done | lia]. }
    rewrite Hl. do 2 eexists. split; [done |]. left. split; [done |]. left. split; [done | apply carries_reply].
Defined.

Lemma toy_repo_ok : repo_ok toy_repo.
Proof.
  split; [| split].
  - repeat (apply Forall_cons; split; [
      split; [unfold is_u16; cbn; lia | split; [cbn; lia | split; [vm_compute; split; discriminate | reflexivity]]] |]).
    constructor.
  - apply (bool_decide_unpack (NoDup (map r_id toy_repo))). vm_compute. exact I.
  - repeat (apply Forall_cons; split; [discriminate |]). constructor.
Defined.

(** ** Names *)

Lemma strncmp_id n a id : (length id <= n)%nat -> Forall (fun x => x <> 0) id ->
  strncmp_eq n (a ++ [0]) (id ++ [0]) = Ok (bool_decide (take n (c_string a) = id)).
Proof.
  revert a id. induction n as [|n IH]; intros a id Hn Hz.
  { destruct id; [done | cbn in Hn; lia]. }
  destruct a as [|x a], id as [|y id]; try done.
  - apply Forall_inv in Hz. cbn [app strncmp_eq]. by rewrite (proj2 (Z.eqb_neq 0 y)) by done.
  - cbn [app strncmp_eq c_string]. destruct (Z.eqb_spec x 0) as [->|]; [done |]. done.
  - apply Forall_cons in Hz as [Hy Hz]. cbn [app strncmp_eq c_string]. cbn [length] in Hn.
    destruct (Z.eqb_spec x y) as [->|Hxy]; cbn [negb].
    + rewrite (proj2 (Z.eqb_neq y 0)) by done. rewrite IH by (done || lia). cbn [take]. f_equal.
      apply bool_decide_ext. split; [by intros -> | by intros [= ->]].
    + f_equal. symmetry. apply bool_decide_eq_false. by destruct (x =? 0); intros [= ? ?].
Qed.

(** ** Properties *)

(** [ipmi_sdr_get_record] returns the whole body of a record followed by a
    zero byte, through any number of cancelled reservations that the device
    bounds, whatever sizes above five bytes it refuses and however often it is
    silent on them; the fuel covers every round. *)
Theorem sdr_get_record_exact `{mem : Malloc} {dev : Type} {bmc : Bmc dev} bi repo patience
    {device : SdrRepo bi repo patience} fuel intf itr max d r next :
  itr_built_in itr = bi -> is_u16 (reservation itr) -> rec_ok r ->
  locate (r_id r) repo = Some (r, next) -> sdr_size_ok intf max -> is_Some (malloc (r_len r + 1)) ->
  (patience d (reservation itr) + 255 + 251 <= fuel)%nat ->
  exists itr' max' d', ipmi_sdr_get_record fuel intf (header_of r next) itr max d =
      Ok ((Some (r_body r ++ [0]), itr', max'), d') /\
    itr_next itr' = itr_next itr /\ 1 <= max' <= 255.
Proof.
  intros Hb Hr Hok Hl Hs Hm Hf.
  destruct (get_record_run bi repo patience fuel intf itr max d r next) as (itr' & max' & d' & E & (Hsame & _) & Hm');
    try done. exists itr', max', d'. split_and!; try done; try lia. by destruct Hsame as (_ & -> & _).
Qed.

(** C17. Any sequence of lookups through the cache, by number, name, sensor
    type, entity or record type, and of [ipmi_sdr_list_cache], gives what the
    lookups mean on the whole repository: the first record, or all records, in
    the order of the repository, whatever part of it the cache holds. *)
Theorem sdr_lookups_agree `{mem : Malloc} {dev : Type} {bmc : Bmc dev} bi repo patience
    {device : SdrRepo bi repo patience} rebuild fuel intf qs c d :
  (forall n, is_Some (malloc n)) -> repo_ok repo -> cache_inv bi repo patience intf c d ->
  (511 + length repo <= fuel)%nat ->
  exists c' d', run_queries rebuild fuel intf qs c d = Ok ((map (spec_query (entries repo)) qs, c'), d') /\
    cache_inv bi repo patience intf c' d'.
Proof.
  intros Hm Hrepo Hc Hf. revert c d Hc. induction qs as [|q qs IH]; intros c d Hc; [by exists c, d |].
  destruct (run_query_agrees rebuild fuel intf bi repo patience q c d Hm Hrepo Hc Hf) as (c1 & d1 & E1 & Hc1).
  destruct (IH c1 d1 Hc1) as (c2 & d2 & E2 & Hc2). exists c2, d2. cbn [run_queries map].
  rewrite (M_bind_run _ _ _ _ _ E1), (M_bind_run _ _ _ _ _ E2). done.
Qed.

(** C18. The tests of all lookups stay inside the buffer of every record that
    passed [ipmi_sdr_record_length_valid]. *)
Theorem sdr_tests_are_safe f r : record_test f -> rec_valid r -> exists b, f (entry_of r) = Ok b.
Proof. apply test_returns. Qed.

(** A name matches when the characters of the record's name, cut at a zero
    byte and at the longer of its declared length and the length asked for, are
    the characters asked for; or when the text is the number of the sensor. *)
Theorem sdr_name_matches r id c n code : rec_valid r -> name_offsets (r_type r) = Some (c, n) ->
  Forall (fun x => x <> 0) id -> code = rd (r_body r) c .& 0x1f ->
  holds (match_id id) (entry_of r) = true <->
  (id_number id <> -1 /\ is_locator_type (r_type r) = false /\ id_number id = rd (r_body r) 2) \/
  take (Z.to_nat (Z.max code (zlen id))) (c_string (drop (Z.to_nat n) (r_body r))) = id.
Proof.
  intros Hv E Hz ->. pose proof (named_len _ _ _ Hv E) as Hl. pose proof (name_offsets_cases _ _ _ E) as (H0 & H1 & H2 & _).
  assert (zlen (r_body r ++ [0]) = r_len r + 1) as Hzl by (rewrite zlen_app; unfold r_len; zlen_lia).
  assert (forall i, 0 <= i < r_len r -> rdx (r_body r ++ [0]) i = Ok (rd (r_body r) i)) as Hrd.
  { intros i Hi. rewrite rdx_ok by lia. by rewrite rd_app_l. }
  unfold holds, match_id. cbn [e_type e_rec entry_of new_entry]. rewrite E, (Hrd c), (Hrd 2) by lia. cbn -[Z.land].
  rewrite drop_app_le by (unfold r_len, zlen in Hl; lia).
  set (m := Z.max _ _). rewrite strncmp_id by (unfold m, zlen; lia || done).
  destruct (is_locator_type (r_type r)) eqn:El.
  - cbn -[m]. destruct (id_number id =? -1) eqn:Ei; cbn -[m]; rewrite bool_decide_eq_true; intuition discriminate.
  - cbn -[m]. destruct (Z.eqb_spec (id_number id) (-1)) as [Hi|Hi]; cbn -[m].
    + rewrite bool_decide_eq_true. intuition.
    + destruct (Z.eqb_spec (id_number id) (rd (r_body r) 2)) as [Hn|Hn]; [intuition |].
      rewrite bool_decide_eq_true. intuition.
Qed.

(** One more cancelled header read. *)
Lemma toy_header_cancelled bi repo tries itr resv k :
  itr_built_in itr = bi -> is_u16 resv -> reservation itr = resv -> exists resv', is_u16 resv' /\
  header_tries (bmc := toy_sdr_bmc bi repo) (S tries) itr (mk_toy resv (S k)) =
  header_tries (bmc := toy_sdr_bmc bi repo) tries (itr <| reservation := resv' |>) (mk_toy resv' k).
Proof.
  intros Hb Hu Hr. pose proof (u16_range (resv + 1)) as Hu1. pose proof (u16_range (u16 (resv + 1) + 1)) as Hu2.
  exists (u16 (u16 (resv + 1) + 1)). split; [done |]. cbn [header_tries].
  assert (bmc_answer (Bmc := toy_sdr_bmc bi repo) (get_sdr_rq itr (itr_next itr) 0 5) (mk_toy resv (S k)) =
    (Some (reply IPMI_CC_RES_CANCELED []), mk_toy (u16 (resv + 1)) k)) as E1.
  { unfold bmc_answer, toy_sdr_bmc, get_sdr_rq. rewrite Hb, Hr. cbn [t_resv t_cancels].
    replace (rq_cmd _ =? _) with false by (by destruct bi).
    replace (rq_data _) with (htoipmi16 resv ++ htoipmi16 (u16 (itr_next itr)) ++ [0; 5]) by (by destruct bi).
    rewrite ipmi16toh_htoipmi16, u16_small, Z.eqb_refl by done. done. }
  rewrite (sendrecv_bind _ _ _ _ _ E1). change (ccode _ =? IPMI_CC_RES_CANCELED) with true. cbn match.
  rewrite Hb, (M_bind_run _ _ _ (Some (u16 (u16 (resv + 1) + 1))) (mk_toy (u16 (u16 (resv + 1) + 1)) k)); [done |].
  unfold ipmi_sdr_get_reservation.
  assert (bmc_answer (Bmc := toy_sdr_bmc bi repo) (sdr_rq bi GET_SDR_RESERVE_REPO GET_SDR_RESERVE_REPO [])
    (mk_toy (u16 (resv + 1)) k) = (Some (reply 0 (htoipmi16 (u16 (u16 (resv + 1) + 1)))), mk_toy (u16 (u16 (resv + 1) + 1)) k)) as E2.
  { unfold bmc_answer, toy_sdr_bmc. replace (rq_cmd _ =? _) with true by (by destruct bi). cbn [t_resv t_cancels].
    by rewrite (u16_small (u16 (resv + 1))) by done. }
  rewrite (sendrecv_bind _ _ _ _ _ E2).
  rewrite (carries_bytes _ _ (carries_reply 0 (htoipmi16 _)) 0 2), slice_all by (rewrite ?zlen_htoipmi16; lia).
  cbn match. change (negb (ccode _ =? 0)) with false. cbn match. rewrite lift_Ok_bind.
  unfold mret, M_ret. do 3 f_equal. rewrite <- (app_nil_r (htoipmi16 _)). by apply ipmi16toh_htoipmi16.
Qed.

Lemma toy_header_gives_up bi repo tries itr resv k : (tries <= k)%nat ->
  itr_built_in itr = bi -> is_u16 resv -> reservation itr = resv -> exists itr' d',
  header_tries (bmc := toy_sdr_bmc bi repo) tries itr (mk_toy resv k) = Ok ((None, itr'), d').
Proof.
  revert itr resv k. induction tries as [|tries IH]; intros itr resv k Hk Hb Hu Hr; [by do 2 eexists |].
  destruct k as [|k]; [lia |].
  destruct (toy_header_cancelled bi repo tries itr resv k Hb Hu Hr) as (resv' & Hu' & ->).
  apply IH; try done. lia.
Qed.

(** A controller that cancels five reservations while a header is read ends
    the listing: [ipmi_sdr_list_cache] returns 0 although it has read nothing of
    the repository, whatever the repository holds. *)
Theorem sdr_listing_ends_silently `{mem : Malloc} bi repo rebuild fuel intf c itr k :
  sdr_list_itr c = Some itr -> itr_next itr <> 0xffff -> itr_built_in itr = bi ->
  is_u16 (reservation itr) -> (5 <= k)%nat -> (0 < fuel)%nat ->
  exists c' d', ipmi_sdr_list_cache (bmc := toy_sdr_bmc bi repo) rebuild fuel intf c (mk_toy (reservation itr) k) =
      Ok ((0, c'), d') /\ sdr_list c' = sdr_list c.
Proof.
  intros Hi Hn Hb Hu Hk Hf. destruct fuel as [|fuel]; [lia |].
  destruct (toy_header_gives_up bi repo 5 itr _ k Hk Hb Hu eq_refl) as (itr' & d' & E).
  exists (keep_itr c itr' (sdr_max_read_len (statics c))), d'. split; [| done].
  assert (forall A (acc : A) visit, sdr_scan (bmc := toy_sdr_bmc bi repo) (S fuel) intf visit acc itr c
    (mk_toy (reservation itr) k) = Ok ((acc, keep_itr c itr' (sdr_max_read_len (statics c))), d')) as Es.
  { intros A acc visit. cbn [sdr_scan].
    rewrite (M_bind_run _ _ _ (None, itr') d'); [done |].
    unfold ipmi_sdr_get_next_header, ipmi_sdr_get_header. rewrite (proj2 (Z.eqb_neq _ _) Hn).
    rewrite (M_bind_run _ _ _ (None, itr') d'); [done |]. by rewrite (M_bind_run _ _ _ _ _ E). }
  unfold ipmi_sdr_list_cache. rewrite (open_run _ _ _ itr) by done. by rewrite (M_bind_run _ _ _ _ _ (Es _ _ _)).
Qed.

(** ** The properties at concrete inputs *)

Definition toy_intf : intf_addr := mk_addr 0x20 0x20 0 0 0 0 0.
Definition toy_itr (next : Z) : sdr_itr := mk_itr 7 3 next false.
Definition toy_cache : sdr_cache := mk_cache [] (Some (toy_itr 0)) (mk_statics 0 false).
Definition toy_rec : sdr_rec := nth 1 toy_repo (mk_rec 0 0 0 []).

Lemma toy_rec_ok : rec_ok toy_rec.
Proof.
  split; [unfold is_u16; cbn; lia | split; [cbn; lia | split; [vm_compute; split; discriminate | reflexivity]]].
Defined.

Lemma toy_intf_size : sdr_size_ok toy_intf 0.
Proof. split; [lia | intros _; vm_compute; discriminate]. Defined.

Lemma sdr_get_record_exact_witness : exists itr' max' d',
  ipmi_sdr_get_record (bmc := toy_sdr_bmc false toy_repo) 520 toy_intf (header_of toy_rec 9) (toy_itr 9) 0 (mk_toy 6 3) =
      Ok ((Some (r_body toy_rec ++ [0]), itr', max'), d') /\
    itr_next itr' = itr_next (toy_itr 9) /\ 1 <= max' <= 255.
Proof.
  apply (sdr_get_record_exact (bmc := toy_sdr_bmc false toy_repo) false toy_repo toy_patience).
  - reflexivity.
  - split; cbn; lia.
  - exact toy_rec_ok.
  - reflexivity.
  - exact toy_intf_size.
  - by eexists.
  - apply Nat.leb_le. reflexivity.
Defined.

Lemma toy_cache_inv : cache_inv false toy_repo toy_patience toy_intf toy_cache (mk_toy 7 2).
Proof.
  exists [], toy_repo, (toy_itr 0). split; [reflexivity |]. split; [reflexivity |]. split; [reflexivity |].
  split; [split; [reflexivity | split; cbn; lia] |]. split; [right; split; [done | split; [discriminate | reflexivity]] |].
  split; [exact toy_intf_size | apply Nat.ltb_lt; reflexivity].
Defined.

Definition toy_queries : list sdr_query :=
  [QId (Some [70; 65; 78]); QType 0x12; QId (Some [66; 77; 67]); QNumType 0x20 5 0x23; QEntity 7 0x7f; QListCache].

Lemma sdr_lookups_agree_witness : exists c' d',
  run_queries (bmc := toy_sdr_bmc false toy_repo) (fun st => mret (0, st)) 600 toy_intf toy_queries toy_cache (mk_toy 7 2) =
    Ok ((map (spec_query (entries toy_repo)) toy_queries, c'), d') /\
  cache_inv false toy_repo toy_patience toy_intf c' d'.
Proof.
  apply (sdr_lookups_agree (bmc := toy_sdr_bmc false toy_repo) false toy_repo toy_patience).
  - intros n. by eexists.
  - exact toy_repo_ok.
  - exact toy_cache_inv.
  - cbn. lia.
Defined.

Lemma sdr_tests_are_safe_witness : exists b, match_id [70; 65; 78] (entry_of toy_rec) = Ok b.
Proof. apply sdr_tests_are_safe; [constructor | reflexivity]. Defined.

Definition toy_named : sdr_rec := nth 2 toy_repo (mk_rec 0 0 0 []).

Lemma sdr_name_matches_witness :
  holds (match_id [70; 65; 78]) (entry_of toy_named) = true <->
  (id_number [70; 65; 78] <> -1 /\ is_locator_type (r_type toy_named) = false /\
    id_number [70; 65; 78] = rd (r_body toy_named) 2) \/
  take (Z.to_nat (Z.max 3 (zlen [70; 65; 78]))) (c_string (drop (Z.to_nat 12) (r_body toy_named))) = [70; 65; 78].
Proof.
  apply (sdr_name_matches toy_named [70; 65; 78] 11 12 3); [reflexivity | reflexivity | | reflexivity].
  repeat (apply Forall_cons; split; [discriminate |]). constructor.
Defined.

Lemma sdr_listing_ends_silently_witness : exists c' d',
  ipmi_sdr_list_cache (bmc := toy_sdr_bmc false toy_repo) (fun st => mret (0, st)) 10 toy_intf toy_cache
    (mk_toy (reservation (toy_itr 0)) 5) = Ok ((0, c'), d') /\ sdr_list c' = sdr_list toy_cache.
Proof.
  apply (sdr_listing_ends_silently false toy_repo (fun st => mret (0, st)) 10 toy_intf toy_cache (toy_itr 0) 5);
    [reflexivity | discriminate | reflexivity | split; cbn; lia | lia | lia].
Defined.
