(* ===== verification/SdrAddProps.v ===== *)
(** * Correctness of dumping and restoring a repository (lib/ipmi_sdradd.c,
      lib/ipmi_sdr.c)

    The binary file of records is read back by both readers, a record reaches
    the controller byte for byte, and restoring a file replaces the repository
    by the records of the file. *)

From S2P Require Import Prelude Wire Ipmi Intf Session Helper Bmc Sdr SdrCache SdrAdd SdrXfer SdrProps SdrSpec.

#[local] Open Scope Z_scope.

(** ** The file *)

(** A record whose fields fit, with a version that the reader accepts. *)
Definition rec_file_ok (r : sdr_rec) : Prop :=
  is_u16 (r_id r) /\ (r_version r = 0x51 \/ r_version r = 0x01 \/ r_version r = 0x02) /\
  1 <= r_len r <= 255 /\ rec_valid r.

(** What [ipmi_sdr_dump_bin] keeps of a record, and the file. *)
Definition raw_entry (r : sdr_rec) : sdr_entry :=
  SdrCache.mk_entry (r_id r) (r_version r) (r_type r) (r_len r) (Some (r_body r ++ [0])) None.

Definition file_of (l : list sdr_rec) : list Z := concat (map rec_wire l).

Lemma file_cons r l : file_of (r :: l) = rec_wire r ++ file_of l.
Proof. done. Qed.

Lemma dump_header_wire r raw rec : is_u16 (r_id r) ->
  dump_header (SdrCache.mk_entry (r_id r) (r_version r) (r_type r) (r_len r) raw rec) =
  htoipmi16 (r_id r) ++ [r_version r; r_type r; r_len r].
Proof.
  intros H. unfold dump_header, htoipmi16. cbn -[Z.land u8]. by rewrite (land_ff (_ .>> 8)).
Qed.

Lemma wire_parts r : rec_wire r = (htoipmi16 (r_id r) ++ [r_version r; r_type r; r_len r]) ++ r_body r.
Proof. unfold rec_wire. by rewrite <- app_assoc. Qed.

Lemma take_wire r t : take 5 (rec_wire r ++ t) = htoipmi16 (r_id r) ++ [r_version r; r_type r; r_len r].
Proof. by rewrite wire_parts, <- app_assoc, take_app_length'. Qed.

Lemma drop_wire r t : drop 5 (rec_wire r ++ t) = r_body r ++ t.
Proof. by rewrite wire_parts, <- app_assoc, drop_app_length'. Qed.

Lemma zlen_wire_app r t : zlen (rec_wire r ++ t) = 5 + r_len r + zlen t.
Proof. by rewrite zlen_app, zlen_rec_wire. Qed.

Lemma wire_fields r : rd (htoipmi16 (r_id r) ++ [r_version r; r_type r; r_len r]) 2 = r_version r /\
  rd (htoipmi16 (r_id r) ++ [r_version r; r_type r; r_len r]) 3 = r_type r /\
  rd (htoipmi16 (r_id r) ++ [r_version r; r_type r; r_len r]) 4 = r_len r.
Proof. done. Qed.

Lemma body_split r t : take (Z.to_nat (r_len r)) (r_body r ++ t) = r_body r /\
  drop (Z.to_nat (r_len r)) (r_body r ++ t) = t.
Proof. unfold r_len, zlen. rewrite Nat2Z.id. by rewrite take_app_length, drop_app_length. Qed.

Lemma dump_entries_run l : Forall rec_file_ok l -> dump_entries (map raw_entry l) = Ok (0, file_of l).
Proof.
  induction l as [|r l IH]; intros H; [done |]. apply Forall_cons in H as [(Hid & _ & Hl & _) H].
  cbn [map dump_entries raw_entry e_raw e_length]. unfold r_len in Hl.
  rewrite slx_ok by (unfold r_len; zlen_lia). rewrite slice_app_l, slice_all by (unfold r_len; lia).
  cbn [mbind res_bind]. rewrite IH by done. unfold raw_entry at 1. rewrite dump_header_wire by done. rewrite file_cons, wire_parts, <- !app_assoc. done.
Qed.

Section File.
Context `{mem : Malloc} (malloc_total : forall n, is_Some (malloc n)).

Lemma fromfile_run fuel l count acc : Forall rec_file_ok l -> (length l < fuel)%nat -> exists count',
  fromfile_loop fuel (file_of l) 0 count acc = Ok (0, count', acc ++ entries l).
Proof using malloc_total.
  revert l count acc. induction fuel as [|fuel IH]; intros l count acc H Hf; [lia |].
  destruct l as [|r l]; [exists count; cbn; by rewrite app_nil_r |].
  apply Forall_cons in H as [(Hid & Hv & Hl & Hok) H]. cbn [length] in Hf.
  cbn [fromfile_loop]. rewrite file_cons, zlen_wire_app, take_wire, drop_wire.
  pose proof (zlen_nonneg (file_of l)).
  rewrite (proj2 (Z.leb_gt _ 0)), (proj2 (Z.ltb_ge _ 5)) by lia. cbv zeta.
  destruct (wire_fields r) as (-> & -> & ->). rewrite (proj2 (Z.eqb_neq (r_len r) 0)) by lia.
  replace (negb (r_version r =? 0x51) && negb (r_version r =? 0x01) && negb (r_version r =? 0x02)) with false
    by (by destruct Hv as [-> | [-> | ->]]).
  destruct (malloc_total SDR_ENTRY_SIZE) as [b1 ->], (malloc_total (r_len r + 1)) as [b2 ->].
  rewrite zlen_app. fold (r_len r). rewrite (proj2 (Z.ltb_ge _ (r_len r))) by lia.
  destruct (body_split r (file_of l)) as [-> ->]. unfold rec_valid in Hok. rewrite Hok. cbn [mbind res_bind negb].
  rewrite entries_cons. unfold rec_known. destruct (known_type (r_type r)); cbn [negb].
  - destruct (IH l (count + 1) (acc ++ [entry_of r]) H ltac:(lia)) as [count' E]. exists count'.
    rewrite ipmi16toh_htoipmi16 by done. change (new_entry _ _ _) with (entry_of r). by rewrite E, <- app_assoc.
  - apply IH; [done | lia].
Qed.

Definition queue_entry (r : sdr_rec) : sdr_entry :=
  SdrCache.mk_entry (r_id r) (r_version r) (r_type r) (r_len r) (Some (r_body r)) None.

Lemma read_records_run fuel l q : Forall rec_file_ok l -> (length l < fuel)%nat ->
  read_records fuel (file_of l) q = Ok (Some (q ++ map queue_entry l)).
Proof using malloc_total.
  revert l q. induction fuel as [|fuel IH]; intros l q H Hf; [lia |].
  destruct l as [|r l]; [cbn; by rewrite app_nil_r |].
  apply Forall_cons in H as [(Hid & _ & Hl & _) H]. cbn [length] in Hf.
  cbn [read_records]. rewrite file_cons, zlen_wire_app, take_wire, drop_wire.
  pose proof (zlen_nonneg (file_of l)).
  rewrite (proj2 (Z.leb_gt _ 0)), (proj2 (Z.ltb_ge _ 5)) by lia. cbv zeta.
  destruct (malloc_total SDR_ENTRY_SIZE) as [b1 ->].
  destruct (wire_fields r) as (-> & -> & ->). rewrite (proj2 (Z.eqb_neq (r_len r) 0)) by lia.
  destruct (malloc_total (r_len r)) as [b2 ->].
  rewrite zlen_app. fold (r_len r). rewrite (proj2 (Z.ltb_ge _ (r_len r))) by lia.
  destruct (body_split r (file_of l)) as [-> ->]. rewrite IH by (done || lia).
  change ((rd ?h 1 .<< 8) .| rd ?h 0) with (ipmi16toh h).
  change ((rd (htoipmi16 (r_id r) ++ [r_version r; r_type r; r_len r]) 1 .<< 8)
    .| rd (htoipmi16 (r_id r) ++ [r_version r; r_type r; r_len r]) 0)
    with (ipmi16toh (htoipmi16 (r_id r) ++ [r_version r; r_type r; r_len r])).
  rewrite ipmi16toh_htoipmi16 by done. by rewrite <- app_assoc.
Qed.

Lemma length_file l : (length l <= length (file_of l))%nat.
Proof.
  induction l as [|r l IH]; [done |]. rewrite file_cons, length_app. unfold rec_wire, htoipmi16. cbn. lia.
Qed.
End File.

(** ** A controller that is written *)

Section Write.
Context `{mem : Malloc} {dev : Type} {bmc : Bmc dev}.

(** [held] is the reservation, [pending] the record being added with its ID,
    [stored] the complete records, [erasing] how often clearing still reports
    that it is in progress. *)
Class SdrWritable (stored : dev -> list (list Z)) (held : dev -> Z) (pending : dev -> option (Z * list Z))
    (erasing : dev -> nat) := {
  sdr_write_reserves : forall d, exists r d' rid,
    bmc_answer (sdr_rq false GET_SDR_RESERVE_REPO GET_SDR_RESERVE_REPO []) d = (Some r, d') /\
    ccode r = 0 /\ is_u16 rid /\ carries r (htoipmi16 rid) /\
    held d' = rid /\ stored d' = stored d /\ (erasing d' <= erasing d)%nat;
  sdr_add_begins : forall d rid data, held d = rid -> zlen data = 5 -> exists r d' id,
    bmc_answer (storage_rq ADD_PARTIAL_SDR (sdr_add_rq rid 0 0 0 data)) d = (Some r, d') /\
    ccode r = 0 /\ is_u16 id /\ carries r (htoipmi16 id) /\
    held d' = rid /\ stored d' = stored d /\ pending d' = Some (id, data);
  sdr_add_continues : forall d rid id p prog data, held d = rid -> pending d = Some (id, p) ->
    zlen p <= 255 -> 1 <= zlen data <= sdr_max_write_len -> prog = 0 \/ prog = 1 -> exists r d' id',
    bmc_answer (storage_rq ADD_PARTIAL_SDR (sdr_add_rq rid id (zlen p) prog data)) d = (Some r, d') /\
    ccode r = 0 /\ is_u16 id' /\ carries r (htoipmi16 id') /\ held d' = rid /\
    if prog =? 1 then stored d' = stored d ++ [p ++ data]
    else stored d' = stored d /\ pending d' = Some (id', p ++ data);
  sdr_clears : forall d rid action, held d = rid -> exists r d' b,
    bmc_answer (storage_rq CLEAR_SDR_REPO [rid .& 0xff; rid .>> 8; 67; 76; 82; action]) d = (Some r, d') /\
    ccode r = 0 /\ carries r [b] /\ held d' = rid /\
    (b .& 1 = 1 /\ stored d' = [] \/ b .& 1 <> 1 /\ (erasing d' < erasing d)%nat);
}.

Context stored held pending erasing {device : SdrWritable stored held pending erasing}.

Lemma reserve_write d {B} (f : option Z -> M dev B) : exists d' rid,
  (ipmi_sdr_get_reservation false ≫= f) d = f (Some rid) d' /\
  is_u16 rid /\ held d' = rid /\ stored d' = stored d /\ (erasing d' <= erasing d)%nat.
Proof using device.
  destruct (sdr_write_reserves d) as (r & d' & rid & Er & Hcc & Hrid & Hc & Hrest). exists d', rid. split; [| done].
  apply M_bind_run. unfold ipmi_sdr_get_reservation. rewrite (sendrecv_bind _ _ _ _ _ Er), Hcc. cbn [Z.eqb negb].
  rewrite (carries_bytes _ _ Hc 0 2) by (rewrite ?zlen_htoipmi16; lia).
  rewrite lift_Ok_bind, slice_all by (rewrite zlen_htoipmi16; lia).
  unfold mret, M_ret. do 3 f_equal. rewrite <- (app_nil_r (htoipmi16 rid)). by apply ipmi16toh_htoipmi16.
Qed.

Lemma id_bytes id : is_u16 id -> rd (htoipmi16 id) 0 + (rd (htoipmi16 id) 1 .<< 8) = id.
Proof.
  intros H. change (rd (htoipmi16 id) 0) with (id .& 255). change (rd (htoipmi16 id) 1) with (u8 (id .>> 8)).
  rewrite land_ff. unfold is_u16, u8 in *. rewrite Z.shiftl_mul_pow2, Z.shiftr_div_pow2 by done.
  change (2 ^ 8) with 256. Z.to_euclidean_division_equations. lia.
Qed.

Lemma partial_send_run data d r d' id {B} (f : option Z -> M dev B) :
  bmc_answer (storage_rq ADD_PARTIAL_SDR data) d = (Some r, d') -> ccode r = 0 -> is_u16 id ->
  carries r (htoipmi16 id) -> (partial_send data ≫= f) d = f (Some id) d'.
Proof.
  intros Er Hcc Hu Hc. apply M_bind_run. unfold partial_send. rewrite (sendrecv_bind _ _ _ _ _ Er), Hcc.
  pose proof Hc as (Hdl & _). rewrite Hdl, zlen_htoipmi16. cbn [Z.eqb negb orb]. change (2 <? 2) with false. cbn match.
  rewrite (carries_bytes _ _ Hc 0 2) by (rewrite ?zlen_htoipmi16; lia).
  rewrite lift_Ok_bind, slice_all by (rewrite zlen_htoipmi16; lia).
  by rewrite id_bytes.
Qed.

(** The loop, with the header and the first [i] bytes in the controller. *)
Lemma add_loop_run fuel rid id len i raw hdr d :
  held d = rid -> zlen hdr = 5 -> pending d = Some (id, hdr ++ slice raw 0 i) -> is_u16 id ->
  0 <= i < len -> len <= 255 -> len <= zlen raw -> (exists k, i = sdr_max_write_len * k) ->
  (Z.to_nat (len - i) <= fuel)%nat ->
  exists d', add_loop fuel rid 0 id len i raw d = Ok (0, d') /\ stored d' = stored d ++ [hdr ++ slice raw 0 len].
Proof using device.
  revert id i d. induction fuel as [|fuel IH]; intros id i d Hh Hhdr Hp Hid Hi Hlen Hraw Hk Hf; [lia |].
  cbn [add_loop]. rewrite (proj2 (Z.leb_gt len i)) by lia. cbv zeta.
  assert (zlen (slice raw 0 i) = i) as Hz by (apply zlen_slice; lia).
  assert (i + 5 <= 255) as Hoff by (destruct Hk as [k ->]; unfold sdr_max_write_len in *; lia).
  destruct (len - i <=? sdr_max_write_len) eqn:El; bool_hyps.
  - assert (zlen (slice raw i (len - i)) = len - i) as Hz2 by (apply zlen_slice; lia).
    rewrite slx_ok, lift_Ok_bind, (u16_small id), u8_small by (done || lia || (unfold is_u8; lia)).
    destruct (sdr_add_continues d rid id (hdr ++ slice raw 0 i) 1 (slice raw i (len - i)))
      as (r & d' & id' & Er & Hcc & Hid' & Hc & Hh' & Hs); try done; [zlen_lia | lia | by right |].
    rewrite zlen_app, Hhdr, Hz, (Z.add_comm 5 i) in Er. rewrite (partial_send_run _ _ _ _ _ _ Er Hcc Hid' Hc).
    exists d'. replace (i + (len - i)) with len by lia.
    split; [destruct fuel; cbn [add_loop]; by rewrite (proj2 (Z.leb_le len len)) by lia |].
    rewrite Hs, <- app_assoc. change (slice raw i (len - i)) with (slice raw (0 + i) (len - i)).
    rewrite slice_cat by lia. by replace (i + (len - i)) with len by lia.
  - unfold sdr_max_write_len in El.
    assert (zlen (slice raw i sdr_max_write_len) = sdr_max_write_len) as Hz2 by (apply zlen_slice; unfold sdr_max_write_len; lia).
    rewrite slx_ok, lift_Ok_bind, (u16_small id), u8_small by (done || (unfold sdr_max_write_len; lia) || (unfold is_u8; lia)).
    destruct (sdr_add_continues d rid id (hdr ++ slice raw 0 i) 0 (slice raw i sdr_max_write_len))
      as (r & d' & id' & Er & Hcc & Hid' & Hc & Hh' & Hs & Hp'); try done; [zlen_lia | rewrite Hz2; unfold sdr_max_write_len; lia | by left |].
    rewrite zlen_app, Hhdr, Hz, (Z.add_comm 5 i) in Er. rewrite (partial_send_run _ _ _ _ _ _ Er Hcc Hid' Hc).
    destruct (IH id' (i + sdr_max_write_len) d') as (d2 & E & Hs2); try done; try (unfold sdr_max_write_len; lia).
    { rewrite Hp', <- app_assoc. change (slice raw i sdr_max_write_len) with (slice raw (0 + i) sdr_max_write_len).
      by rewrite slice_cat by (unfold sdr_max_write_len; lia). }
    { destruct Hk as [k ->]. exists (k + 1). lia. }
    exists d2. rewrite E, Hs2, Hs. done.
Qed.

Lemma add_record_run e raw d : is_Some (malloc (7 + sdr_max_write_len)) -> e_raw e = Some raw ->
  1 <= e_length e <= 255 -> e_length e <= zlen raw ->
  exists d', ipmi_sdr_add_record e d = Ok (0, d') /\
    stored d' = stored d ++ [dump_header e ++ slice raw 0 (e_length e)].
Proof using device.
  intros [b Hb] Hr Hl Hz. unfold ipmi_sdr_add_record. rewrite Hr, (proj2 (Z.ltb_ge _ 1)) by lia.
  match goal with |- context [(ipmi_sdr_get_reservation false ≫= ?f) d] =>
    destruct (reserve_write d f) as (d1 & rid & E1 & Hrid & Hh1 & Hs1 & _); rewrite E1 end.
  rewrite Hb. destruct (sdr_add_begins d1 rid (dump_header e)) as (r & d2 & id & Er & Hcc & Hid & Hc & Hh2 & Hs2 & Hp2);
    try done. rewrite (partial_send_run _ _ _ _ _ _ Er Hcc Hid Hc).
  destruct (add_loop_run (Z.to_nat (e_length e)) rid id (e_length e) 0 raw (dump_header e) d2) as (d3 & E3 & Hs3);
    try done; try lia; [by exists 0 |].
  exists d3. rewrite E3, Hs3, Hs2, Hs1. done.
Qed.

Lemma clear_tries_run tries rid action d : held d = rid -> (erasing d < tries)%nat ->
  exists d', clear_tries tries rid action d = Ok (0, d') /\ stored d' = [].
Proof using device.
  revert action d. induction tries as [|tries IH]; intros action d Hh He; [lia |]. cbn [clear_tries].
  destruct (sdr_clears d rid action Hh) as (r & d' & b & Er & Hcc & Hc & Hh' & Hb).
  rewrite (sendrecv_bind _ _ _ _ _ Er), Hcc. cbn [Z.eqb negb].
  rewrite (carries_bytes _ _ Hc 0 1), lift_Ok_bind by done. change (rd (slice [b] 0 1) 0) with b.
  destruct Hb as [(Hb & Hs) | (Hb & Hlt)].
  - rewrite (proj2 (Z.eqb_eq _ _) Hb). by exists d'.
  - rewrite (proj2 (Z.eqb_neq _ _) Hb). apply IH; [done | lia].
Qed.

Lemma add_records_run q rc d : (forall n, is_Some (malloc n)) -> Forall rec_file_ok q ->
  exists d', add_records (map queue_entry q) rc d = Ok (rc, d') /\ stored d' = stored d ++ map rec_wire q.
Proof using device.
  intros Hm. revert d. induction q as [|r q IH]; intros d H; [exists d; cbn; by rewrite app_nil_r |].
  apply Forall_cons in H as [(Hid & _ & Hl & _) H]. cbn [map add_records].
  destruct (add_record_run (queue_entry r) (r_body r) d) as (d1 & E1 & Hs1); try done.
  rewrite (M_bind_run _ _ _ _ _ E1). change (0 <? 0) with false. cbn match.
  destruct (IH d1 H) as (d2 & E2 & Hs2). exists d2. rewrite E2, Hs2, Hs1. split; [done |].
  unfold queue_entry at 1. rewrite dump_header_wire by done. cbn [e_length queue_entry].
  rewrite slice_all by (unfold r_len; lia). by rewrite <- wire_parts, <- app_assoc.
Qed.
End Write.

(** ** A concrete controller that is written *)

Record toy_wr := mk_toy_wr {
  w_resv : Z;
  w_busy : nat;
  w_stored : list (list Z);
  w_pending : option (list Z);
}.

Definition toy_wr_add (d : toy_wr) (id off prog : Z) (data : list Z) : option ipmi_rs * toy_wr :=
  if id =? 0 then
    (Some (reply 0 (htoipmi16 1)), mk_toy_wr (w_resv d) (w_busy d) (w_stored d) (Some data))
  else match w_pending d with
  | Some p =>
      if negb (off =? zlen p) then (Some (reply 0x80 []), d)
      else if prog =? 1
      then (Some (reply 0 (htoipmi16 1)), mk_toy_wr (w_resv d) (w_busy d) (w_stored d ++ [p ++ data]) None)
      else (Some (reply 0 (htoipmi16 1)), mk_toy_wr (w_resv d) (w_busy d) (w_stored d) (Some (p ++ data)))
  | None => (Some (reply 0x80 []), d)
  end.

Definition toy_wr_bmc : Bmc toy_wr := fun req d =>
  let data := rq_data req in
  if rq_cmd req =? GET_SDR_RESERVE_REPO then
    let resv := u16 (w_resv d + 1) in
    (Some (reply 0 (htoipmi16 resv)), mk_toy_wr resv (w_busy d) (w_stored d) (w_pending d))
  else if negb (ipmi16toh data =? u16 (w_resv d)) then (Some (reply IPMI_CC_RES_CANCELED []), d)
  else if rq_cmd req =? ADD_PARTIAL_SDR then
    toy_wr_add d (ipmi16toh (drop 2 data)) (rd data 4) (rd data 5) (drop 6 data)
  else if rq_cmd req =? CLEAR_SDR_REPO then
    match w_busy d with
    | S k => (Some (reply 0 [0]), mk_toy_wr (w_resv d) k (w_stored d) (w_pending d))
    | O => (Some (reply 0 [1]), mk_toy_wr (w_resv d) 0 [] (w_pending d))
    end
  else (Some (reply 0xc1 []), d).

Definition toy_held (d : toy_wr) : Z := u16 (w_resv d).
Definition toy_pending (d : toy_wr) : option (Z * list Z) := (fun p => (1, p)) <$> w_pending d.

Lemma toy_wr_adds d id off prog data : is_u16 id ->
  toy_wr_bmc (storage_rq ADD_PARTIAL_SDR (sdr_add_rq (toy_held d) id off prog data)) d =
  toy_wr_add d id off prog data.
Proof.
  intros Hid. pose proof (u16_range (w_resv d)).
  unfold toy_wr_bmc. cbn [rq_data rq_cmd storage_rq].
  change (ADD_PARTIAL_SDR =? GET_SDR_RESERVE_REPO) with false. change (ADD_PARTIAL_SDR =? ADD_PARTIAL_SDR) with true.
  cbv zeta. cbn match. unfold sdr_add_rq. rewrite ipmi16toh_htoipmi16 by done. unfold toy_held at 1. rewrite Z.eqb_refl.
  cbn [negb]. change (drop 2 (htoipmi16 _ ++ htoipmi16 id ++ [off; prog] ++ data)) with (htoipmi16 id ++ [off; prog] ++ data).
  by rewrite ipmi16toh_htoipmi16.
Qed.

#[export] Instance toy_wr_writable : @SdrWritable _ toy_wr_bmc w_stored toy_held toy_pending w_busy.
Proof.
  constructor.
  - intros d. do 3 eexists. split; [done |]. split; [done |]. split; [apply u16_range |].
    split; [apply carries_reply |]. split; [| by split]. unfold toy_held. apply u16_small, u16_range.
  - intros d rid data <- Hz. unfold bmc_answer. rewrite toy_wr_adds by done. unfold toy_wr_add. cbn match.
    do 3 eexists. split; [done |]. split; [done |]. split; [| split; [apply carries_reply | done]]. done.
  - intros d rid id p prog data <- Hp Hl Hd Hprog. unfold toy_pending in Hp.
    destruct (w_pending d) as [p'|] eqn:Ep; [| done]. injection Hp as <- ->.
    unfold bmc_answer. rewrite toy_wr_adds by done. unfold toy_wr_add. rewrite Ep, Z.eqb_refl. cbn [negb].
    change (1 =? 0) with false. cbn match.
    destruct Hprog as [-> | ->]; [change (0 =? 1) with false | change (1 =? 1) with true]; cbn match;
      do 3 eexists; (split; [done |]); (split; [done |]); (split; [| split; [apply carries_reply | done]]); done.
  - intros d rid action <-. unfold bmc_answer, toy_wr_bmc. cbn [rq_data rq_cmd storage_rq].
    change (CLEAR_SDR_REPO =? GET_SDR_RESERVE_REPO) with false. change (CLEAR_SDR_REPO =? ADD_PARTIAL_SDR) with false.
    change (CLEAR_SDR_REPO =? CLEAR_SDR_REPO) with true. cbv zeta. cbn match.
    replace (ipmi16toh _) with (toy_held d).
    2: { pose proof (u16_range (w_resv d)) as Hu. unfold toy_held.
         rewrite <- (ipmi16toh_htoipmi16 (u16 (w_resv d)) [67; 76; 82; action] Hu) at 1.
         unfold htoipmi16. rewrite (u8_small (_ .>> 8)); [done |]. unfold is_u8, is_u16 in *.
         rewrite Z.shiftr_div_pow2 by done. change (2 ^ 8) with 256. Z.to_euclidean_division_equations. lia. }
    unfold toy_held at 1. rewrite Z.eqb_refl. cbn [negb]. destruct (w_busy d) as [|k] eqn:Ek.
    + do 3 eexists. split; [done |]. split; [done |]. split; [apply carries_reply |]. split; [done |]. by left.
    + do 3 eexists. split; [done |]. split; [done |]. split; [apply carries_reply |]. split; [done |]. right.
      split; [done | cbn; lia].
Defined.

(** ** The list of addresses *)

Fixpoint evens (start : Z) (n : nat) : list Z :=
  match n with O => [] | S n => start :: evens (start + 2) n end.

Lemma zlen_evens start n : zlen (evens start n) = Z.of_nat n.
Proof. revert start. induction n as [|n IH]; intros start; [done |]. cbn [evens]. rewrite zlen_cons, IH. lia. Qed.

Lemma range_loop_run fuel k start pre n : (k < fuel)%nat -> 0 <= start -> start + 2 * Z.of_nat (S k) <= 255 ->
  Z.of_nat (S (S k)) <= n -> zlen pre + Z.of_nat (S (S k)) <= 255 ->
  range_loop fuel start (start + 2 * Z.of_nat (S k)) (pre ++ zeros n) (zlen pre) =
  Ok (pre ++ evens start (S (S k)) ++ zeros (n - Z.of_nat (S (S k))), zlen pre + Z.of_nat (S (S k))).
Proof.
  revert k start pre n. induction fuel as [|fuel IH]; intros k start pre n Hf H0 Hs Hn Hp; [lia |].
  pose proof (zlen_nonneg pre). cbn [range_loop].
  assert (forall p x m, 1 <= m -> wr (p ++ zeros m) (zlen p) [x] = Some ((p ++ [x]) ++ zeros (m - 1))) as Hw.
  { intros p x m Hm. rewrite (wr_next p) by (rewrite ?zlen_zeros by lia; zlen_lia || done). unfold zeros.
    change (zlen [x]) with 1. rewrite drop_replicate. do 3 f_equal. lia. }
  rewrite Hw by lia. cbn [or_oob mbind res_bind].
  rewrite !u8_small by (unfold is_u8; lia). destruct k as [|k].
  - change (2 * Z.of_nat 1) with 2. rewrite Z.eqb_refl. cbn [negb].
    replace (zlen pre + 1) with (zlen (pre ++ [start])) by zlen_lia. rewrite Hw by lia. cbn [or_oob mbind res_bind].
    rewrite <- !app_assoc. cbn [app evens].
    apply f_equal, f_equal2; [by replace (n - 1 - 1) with (n - Z.of_nat 2) by lia | zlen_lia].
  - rewrite (proj2 (Z.eqb_neq (start + 2) _)) by lia. cbn [negb].
    replace (zlen pre + 1) with (zlen (pre ++ [start])) by zlen_lia.
    replace (start + 2 * Z.of_nat (S (S k))) with (start + 2 + 2 * Z.of_nat (S k)) by lia.
    rewrite IH by (zlen_lia || lia). rewrite <- !app_assoc. cbn [app evens].
    apply f_equal, f_equal2; [by replace (n - 1 - Z.of_nat (S (S k))) with (n - Z.of_nat (S (S (S k)))) by lia | zlen_lia].
Qed.

Lemma hex_digit_range c v : hex_digit c = Some v -> 48 <= c <= 102 /\ 0 <= v <= 15.
Proof. unfold hex_digit. intros H. repeat case_match; bool_hyps; try done; injection H as <-; lia. Qed.

Lemma hex_to_dec_range t v : ipmi_hex_to_dec t = Some v -> is_u8 v.
Proof.
  destruct t as [|z [|x [|h [|l [|]]]]]; try done. cbn [ipmi_hex_to_dec]. intros H. destruct (_ && _); [| done].
  destruct (hex_digit h); [| done]. cbn in H. destruct (hex_digit l); [| done]. injection H as <-. apply u8_range.
Qed.

(** Compare the literal characters. *)
Ltac eqb_consts :=
  repeat match goal with
  | |- context [Z.eqb (Zpos ?a) ?b] =>
      let r := eval vm_compute in (Z.eqb (Zpos a) b) in
      lazymatch r with true => idtac | false => idtac end; change (Z.eqb (Zpos a) b) with r
  | |- context [Z.eqb 0 0] => change (Z.eqb 0 0) with true
  end; cbn match.

(** Reading the text of a range. *)
Lemma parse_range a b s f : ipmi_hex_to_dec a = Some s -> ipmi_hex_to_dec b = Some f ->
  s mod 2 = 0 -> f mod 2 = 0 ->
  ipmi_parse_range_list (a ++ [45] ++ b) (zeros MAX_NUM_SLOT) =
  ('(l, off) ← range_loop 256 s f (zeros MAX_NUM_SLOT) 0; Ok (0, l)).
Proof.
  assert (forall t v, ipmi_hex_to_dec t = Some v -> exists h l, t = [48; 120; h; l] /\
    (48 <= h <= 102) /\ (48 <= l <= 102)) as Hhex.
  { intros [|z [|x [|h [|l [|]]]]] v H; try done. cbn in H. destruct (_ && _) eqn:E; [| done]. bool_hyps. subst.
    destruct (hex_digit h) eqn:E1; [| done]. cbn in H. destruct (hex_digit l) eqn:E2; [| done].
    apply hex_digit_range in E1 as [? _], E2 as [? _]. by exists h, l. }
  intros Ha Hb Hs Hf. destruct (Hhex _ _ Ha) as (h & l & -> & Hh & Hl), (Hhex _ _ Hb) as (h' & l' & -> & Hh' & Hl').
  assert (forall c, 48 <= c <= 102 -> (c =? 0) = false /\ (c =? 44) = false /\ (c =? 45) = false) as Hc by lia.
  destruct (Hc h Hh) as (E1 & E2 & E3), (Hc l Hl) as (E4 & E5 & E6), (Hc h' Hh') as (E7 & E8 & E9),
    (Hc l' Hl') as (E10 & E11 & E12). clear Hc Hhex.
  set (t := [48; 120; h; l] ++ [45] ++ [48; 120; h'; l']).
  assert (str_at (t ++ [0]) 0 = t) as Et.
  { unfold str_at, t. change (Z.to_nat 0) with 0%nat. cbn -[Z.eqb]. rewrite E1, E4, E7, E10. by eqb_consts. }
  assert (strchr (t ++ [0]) 0 44 = None) as Es1.
  { unfold strchr. rewrite Et. unfold t. cbn -[Z.eqb]. rewrite E2, E5, E8, E11. by eqb_consts. }
  assert (strchr (t ++ [0]) 0 45 = Some 4) as Es2.
  { unfold strchr. rewrite Et. unfold t. cbn -[Z.eqb]. rewrite E3, E6. by eqb_consts. }
  unfold ipmi_parse_range_list. cbv zeta. change (strlen (t ++ [0])) with (zlen (str_at (t ++ [0]) 0)).
  rewrite Et. change (zlen t =? 0) with false. cbn match.
  rewrite Es1. cbn [range_elements]. unfold range_element. cbn [mbind res_bind]. rewrite Es2.
  change (wr (t ++ [0]) 4 [0]) with (Some ([48; 120; h; l; 0; 48; 120; h'; l'; 0])). cbn [or_oob mbind res_bind].
  assert (str_at [48; 120; h; l; 0; 48; 120; h'; l'; 0] 0 = [48; 120; h; l]) as ->
    by (unfold str_at; change (Z.to_nat 0) with 0%nat; cbn -[Z.eqb]; rewrite E1, E4; by eqb_consts).
  assert (str_at [48; 120; h; l; 0; 48; 120; h'; l'; 0] (4 + 1) = [48; 120; h'; l']) as ->
    by (unfold str_at; change (Z.to_nat (4 + 1)) with 5%nat; cbn -[Z.eqb]; rewrite E7, E10; by eqb_consts).
  rewrite Ha, Hb. rewrite (proj2 (Z.eqb_eq _ _) Hs), (proj2 (Z.eqb_eq _ _) Hf). cbn [andb].
  by destruct (range_loop 256 s f (zeros MAX_NUM_SLOT) 0) as [[? ?]|].
Qed.

Lemma range_of_one_faults : all_u8 (fun s => negb (s mod 2 =? 0) ||
  match range_loop 256 s s (zeros MAX_NUM_SLOT) 0 with Bad OutOfBounds => true | _ => false end) = true.
Proof. by vm_compute. Qed.

(** ** Properties *)

(** A file that [ipmi_sdr_dump_bin] writes from records of any type is read
    back by [ipmi_sdr_list_cache_fromfile] as the records that have a type it
    keeps, in their order, behind what the cache held. *)
Theorem sdr_file_roundtrip `{mem : Malloc} l c : (forall n, is_Some (malloc n)) -> Forall rec_file_ok l ->
  exists file itr, dump_entries (map raw_entry l) = Ok (0, file) /\
    ipmi_sdr_list_cache_fromfile (Some file) c = Ok (0, mk_cache (sdr_list c ++ entries l) itr (statics c)).
Proof.
  intros Hm H. exists (file_of l). pose proof (length_file l).
  destruct (fromfile_run Hm (S (length (file_of l))) l 0 (sdr_list c) H ltac:(lia)) as [count' E].
  eexists. split; [by apply dump_entries_run |]. cbn [ipmi_sdr_list_cache_fromfile]. by rewrite E.
Qed.

(** [ipmi_sdr_add_record] stores the header and the body of the record, cut
    into requests of at most 19 bytes, as one record of the controller. *)
Theorem sdr_add_record_stores `{mem : Malloc} {dev : Type} {bmc : Bmc dev} stored held pending erasing
    {device : SdrWritable stored held pending erasing} e raw d :
  is_Some (malloc (7 + sdr_max_write_len)) -> e_raw e = Some raw -> 1 <= e_length e <= 255 ->
  e_length e <= zlen raw ->
  exists d', ipmi_sdr_add_record e d = Ok (0, d') /\
    stored d' = stored d ++ [dump_header e ++ slice raw 0 (e_length e)].
Proof. apply (add_record_run stored held pending erasing). Qed.

(** C19. Restoring a dumped file erases the repository and leaves in it exactly
    the records of the file, in their order, however many of the first four
    answers say that the erasure is still going on. *)
Theorem sdr_restore_file `{mem : Malloc} {dev : Type} {bmc : Bmc dev} stored held pending erasing
    {device : SdrWritable stored held pending erasing} l file d :
  (forall n, is_Some (malloc n)) -> Forall rec_file_ok l -> dump_entries (map raw_entry l) = Ok (0, file) ->
  (erasing d < 5)%nat ->
  exists d', ipmi_sdr_add_from_file (Some file) d = Ok (0, d') /\ stored d' = map rec_wire l.
Proof.
  intros Hm H Hfile He. rewrite dump_entries_run in Hfile by done. injection Hfile as <-.
  unfold ipmi_sdr_add_from_file, ipmi_sdr_read_records. pose proof (length_file l).
  rewrite read_records_run, lift_Ok_bind by (done || lia).
  assert (exists d1, ipmi_sdr_repo_clear d = Ok (0, d1) /\ stored d1 = []) as (d1 & E1 & Hs1).
  { unfold ipmi_sdr_repo_clear. match goal with |- context [(ipmi_sdr_get_reservation false ≫= ?f) d] =>
      destruct (reserve_write stored held pending erasing d f) as (d1 & rid & E1 & Hrid & Hh & Hs & Hle); rewrite E1 end.
    apply (clear_tries_run stored held pending erasing); [done | lia]. }
  rewrite (M_bind_run _ _ _ _ _ E1). cbn [Z.eqb negb app].
  destruct (add_records_run stored held pending erasing l 0 d1 Hm H) as (d2 & E2 & Hs2).
  exists d2. rewrite E2, Hs2, Hs1. done.
Qed.

(** [ipmi_parse_range_list] expands a range of even addresses to all the
    even addresses from its start to its end, and zeros behind them. *)
Theorem sdr_range_expands a b s f : ipmi_hex_to_dec a = Some s -> ipmi_hex_to_dec b = Some f ->
  s mod 2 = 0 -> f mod 2 = 0 -> s < f ->
  ipmi_parse_range_list (a ++ [45] ++ b) (zeros MAX_NUM_SLOT) =
  Ok (0, evens s (Z.to_nat ((f - s) / 2 + 1)) ++ zeros (MAX_NUM_SLOT - ((f - s) / 2 + 1))).
Proof.
  intros Ha Hb Hs Hf Hlt. rewrite (parse_range a b s f) by done.
  pose proof (hex_to_dec_range _ _ Ha) as Rs. pose proof (hex_to_dec_range _ _ Hb) as Rf.
  unfold is_u8 in Rs, Rf.
  assert (f - s = 2 * ((f - s) / 2)) as E2 by (clear Ha Hb; Z.to_euclidean_division_equations; lia).
  set (k := Z.to_nat ((f - s) / 2 - 1)). assert ((f - s) / 2 = Z.of_nat (S k)) as Ek by (unfold k; lia).
  assert (f = s + 2 * Z.of_nat (S k)) as Ef by lia.
  rewrite Ek. clearbody k. unfold MAX_NUM_SLOT. clear Ek E2 Hs Hf Ha Hb. assert (Z.of_nat k <= 126) by lia.
  pose proof (range_loop_run 256 k s [] 128 ltac:(lia) ltac:(lia) ltac:(lia) ltac:(lia) ltac:(rewrite zlen_nil; lia)) as E.
  cbn [app] in E. change (zlen []) with 0 in E. rewrite Ef, E. cbn [mbind res_bind].
  by replace (Z.to_nat (Z.of_nat (S k) + 1)) with (S (S k)) by lia;
    replace (128 - (Z.of_nat (S k) + 1)) with (128 - Z.of_nat (S (S k))) by lia.
Qed.

(** A range that starts and ends at the same address runs once around the
    256 addresses and writes one byte behind the array of [MAX_NUM_SLOT]. *)
Theorem sdr_range_of_one_overflows a s : ipmi_hex_to_dec a = Some s -> s mod 2 = 0 ->
  ipmi_parse_range_list (a ++ [45] ++ a) (zeros MAX_NUM_SLOT) = Bad OutOfBounds.
Proof.
  intros Ha Hs. rewrite (parse_range a a s s) by done.
  pose proof (all_u8_spec _ _ range_of_one_faults (hex_to_dec_range _ _ Ha)) as H. cbv beta in H.
  rewrite (proj2 (Z.eqb_eq _ _) Hs) in H. cbn [negb orb] in H.
  destruct (range_loop 256 s s (zeros MAX_NUM_SLOT) 0) as [[? ?]|[]]; done.
Qed.

(** ** The properties at concrete inputs *)

Lemma sdr_range_expands_witness :
  ipmi_parse_range_list ([48; 120; 98; 48] ++ [45] ++ [48; 120; 98; 54]) (zeros MAX_NUM_SLOT) =
  Ok (0, evens 0xb0 (Z.to_nat ((0xb6 - 0xb0) / 2 + 1)) ++ zeros (MAX_NUM_SLOT - ((0xb6 - 0xb0) / 2 + 1))).
Proof. apply sdr_range_expands; reflexivity. Defined.

Lemma sdr_range_of_one_overflows_witness :
  ipmi_parse_range_list ([48; 120; 98; 48] ++ [45] ++ [48; 120; 98; 48]) (zeros MAX_NUM_SLOT) = Bad OutOfBounds.
Proof. apply (sdr_range_of_one_overflows _ 0xb0); reflexivity. Defined.

Lemma toy_file_ok : Forall rec_file_ok toy_repo.
Proof.
  repeat (apply Forall_cons; split; [
    split; [unfold is_u16; cbn; lia | split; [by left | split; [vm_compute; split; discriminate | reflexivity]]] |]).
  constructor.
Defined.

Lemma sdr_file_roundtrip_witness : exists file itr, dump_entries (map raw_entry toy_repo) = Ok (0, file) /\
  ipmi_sdr_list_cache_fromfile (Some file) toy_cache =
    Ok (0, mk_cache (sdr_list toy_cache ++ entries toy_repo) itr (statics toy_cache)).
Proof. apply sdr_file_roundtrip; [intros n; by eexists | exact toy_file_ok]. Defined.

Lemma sdr_add_record_stores_witness : exists d',
  ipmi_sdr_add_record (bmc := toy_wr_bmc) (raw_entry toy_rec) (mk_toy_wr 3 0 [] None) = Ok (0, d') /\
  w_stored d' = w_stored (mk_toy_wr 3 0 [] None) ++
    [dump_header (raw_entry toy_rec) ++ slice (r_body toy_rec ++ [0]) 0 (e_length (raw_entry toy_rec))].
Proof.
  apply (sdr_add_record_stores (bmc := toy_wr_bmc) w_stored toy_held toy_pending w_busy);
    [by eexists | reflexivity | vm_compute; split; discriminate | vm_compute; discriminate].
Defined.

Lemma sdr_restore_file_witness : exists d',
  ipmi_sdr_add_from_file (bmc := toy_wr_bmc) (Some (file_of toy_repo)) (mk_toy_wr 3 2 [[1; 2; 3]] None) = Ok (0, d') /\
  w_stored d' = map rec_wire toy_repo.
Proof.
  apply (sdr_restore_file (bmc := toy_wr_bmc) w_stored toy_held toy_pending w_busy toy_repo);
    [intros n; by eexists | exact toy_file_ok | reflexivity | cbn; lia].
Defined.
