(* ===== verification/Md5.v ===== *)
(** * MD5 (src/plugins/lan/md5.c)

    The message digest of the v1.5 authentication codes: the compression of a
    block, the state that collects a message piece by piece, and the proof that
    the pieces do not matter. *)

From S2P Require Import Prelude Wire.

#[local] Open Scope Z_scope.

(** ** The compression of a block *)

Definition md5_regs : Type := Z * Z * Z * Z.

Definition ROTATE_LEFT (x n : Z) : Z := u32 (x .<< n) .| (x .>> (32 - n)).
Definition md5_not (x : Z) : Z := u32 (Z.lnot x).
Definition md5_F (x y z : Z) : Z := (x .& y) .| (md5_not x .& z).
Definition md5_G (x y z : Z) : Z := (x .& z) .| (y .& md5_not z).
Definition md5_H (x y z : Z) : Z := Z.lxor (Z.lxor x y) z.
Definition md5_I (x y z : Z) : Z := Z.lxor y (x .| md5_not z).

(** The operations of a round: the word, the rotation, the constant. *)
Definition md5_round1 : list (Z * Z * Z) :=
  [(0, 7, 0xd76aa478); (1, 12, 0xe8c7b756); (2, 17, 0x242070db); (3, 22, 0xc1bdceee);
   (4, 7, 0xf57c0faf); (5, 12, 0x4787c62a); (6, 17, 0xa8304613); (7, 22, 0xfd469501);
   (8, 7, 0x698098d8); (9, 12, 0x8b44f7af); (10, 17, 0xffff5bb1); (11, 22, 0x895cd7be);
   (12, 7, 0x6b901122); (13, 12, 0xfd987193); (14, 17, 0xa679438e); (15, 22, 0x49b40821)].
Definition md5_round2 : list (Z * Z * Z) :=
  [(1, 5, 0xf61e2562); (6, 9, 0xc040b340); (11, 14, 0x265e5a51); (0, 20, 0xe9b6c7aa);
   (5, 5, 0xd62f105d); (10, 9, 0x02441453); (15, 14, 0xd8a1e681); (4, 20, 0xe7d3fbc8);
   (9, 5, 0x21e1cde6); (14, 9, 0xc33707d6); (3, 14, 0xf4d50d87); (8, 20, 0x455a14ed);
   (13, 5, 0xa9e3e905); (2, 9, 0xfcefa3f8); (7, 14, 0x676f02d9); (12, 20, 0x8d2a4c8a)].
Definition md5_round3 : list (Z * Z * Z) :=
  [(5, 4, 0xfffa3942); (8, 11, 0x8771f681); (11, 16, 0x6d9d6122); (14, 23, 0xfde5380c);
   (1, 4, 0xa4beea44); (4, 11, 0x4bdecfa9); (7, 16, 0xf6bb4b60); (10, 23, 0xbebfbc70);
   (13, 4, 0x289b7ec6); (0, 11, 0xeaa127fa); (3, 16, 0xd4ef3085); (6, 23, 0x04881d05);
   (9, 4, 0xd9d4d039); (12, 11, 0xe6db99e5); (15, 16, 0x1fa27cf8); (2, 23, 0xc4ac5665)].
Definition md5_round4 : list (Z * Z * Z) :=
  [(0, 6, 0xf4292244); (7, 10, 0x432aff97); (14, 15, 0xab9423a7); (5, 21, 0xfc93a039);
   (12, 6, 0x655b59c3); (3, 10, 0x8f0ccc92); (10, 15, 0xffeff47d); (1, 21, 0x85845dd1);
   (8, 6, 0x6fa87e4f); (15, 10, 0xfe2ce6e0); (6, 15, 0xa3014314); (13, 21, 0x4e0811a1);
   (4, 6, 0xf7537e82); (11, 10, 0xbd3af235); (2, 15, 0x2ad7d2bb); (9, 21, 0xeb86d391)].

(** [SET (a, b, c, d, k, s, Ti)]; the next operation is on [(d, a, b, c)]. *)
Definition md5_SET (f : Z -> Z -> Z -> Z) (X : Z -> Z) (r : md5_regs) (op : Z * Z * Z) : md5_regs :=
  let '(a, b, c, d) := r in
  let '(k, s, Ti) := op in
  let t := u32 (a + f b c d + X k + Ti) in
  (d, u32 (ROTATE_LEFT t s + b), b, c).

Definition md5_process (r : md5_regs) (data : list Z) : md5_regs :=
  let X k := ipmi32toh (slice data (4 * k) 4) in
  let '(a0, b0, c0, d0) := r in
  let '(a, b, c, d) :=
    fold_left (md5_SET md5_I X) md5_round4
      (fold_left (md5_SET md5_H X) md5_round3
        (fold_left (md5_SET md5_G X) md5_round2
          (fold_left (md5_SET md5_F X) md5_round1 r))) in
  (u32 (a0 + a), u32 (b0 + b), u32 (c0 + c), u32 (d0 + d)).

(** ** The state *)

(** [md5_state_t] *)
Record md5_state := mk_md5 {
  count0 : Z;
  count1 : Z;
  abcd : md5_regs;
  md5_buf : list Z;
}.

Definition md5_init (buf : list Z) : md5_state :=
  mk_md5 0 0 (0x67452301, 0xefcdab89, 0x98badcfe, 0x10325476) buf.

(** The loop over the full blocks: the registers and what is left. *)
Fixpoint md5_blocks (fuel : nat) (r : md5_regs) (p : list Z) : md5_regs * list Z :=
  match fuel with
  | O => (r, p)
  | S fuel =>
      if 64 <=? zlen p
      then md5_blocks fuel (md5_process r (slice p 0 64)) (drop 64 p)
      else (r, p)
  end.

Definition md5_append (pms : md5_state) (data : list Z) : res md5_state :=
  let nbytes := zlen data in
  let offset := (count0 pms .>> 3) .& 63 in
  let nbits := u32 (nbytes .<< 3) in
  if nbytes <=? 0 then Ok pms else
  let c1 := u32 (count1 pms + (nbytes .>> 29)) in
  let c0 := u32 (count0 pms + nbits) in
  let c1 := if c0 <? nbits then u32 (c1 + 1) else c1 in
  let rest r buf p :=
    let '(r, p) := md5_blocks (S (length p)) r p in
    buf ← (if zlen p =? 0 then Ok buf else or_oob (wr buf 0 p));
    Ok (mk_md5 c0 c1 r buf) in
  if offset =? 0 then rest (abcd pms) (md5_buf pms) data else
  let copy := if 64 <? offset + nbytes then 64 - offset else nbytes in
  buf ← or_oob (wr (md5_buf pms) offset (slice data 0 copy));
  if offset + copy <? 64 then Ok (mk_md5 c0 c1 (abcd pms) buf)
  else rest (md5_process (abcd pms) buf) buf (drop (Z.to_nat copy) data).

(** The bytes of the words, the low one first. *)
Definition md5_digest (r : md5_regs) : list Z :=
  let '(a, b, c, d) := r in htoipmi32 a ++ htoipmi32 b ++ htoipmi32 c ++ htoipmi32 d.

Definition md5_pad : list Z := 0x80 :: zeros 63.

Definition md5_finish (pms : md5_state) : res (list Z) :=
  let data := htoipmi32 (count0 pms) ++ htoipmi32 (count1 pms) in
  pms ← md5_append pms (slice md5_pad 0 ((u32 (55 - (count0 pms .>> 3)) .& 63) + 1));
  pms ← md5_append pms data;
  Ok (md5_digest (abcd pms)).

(** The digest of a message appended in pieces. *)
Fixpoint md5_appends (pms : md5_state) (pieces : list (list Z)) : res md5_state :=
  match pieces with
  | [] => Ok pms
  | p :: pieces => pms ← md5_append pms p; md5_appends pms pieces
  end.

Definition md5 (pieces : list (list Z)) : res (list Z) :=
  pms ← md5_appends (md5_init (zeros 64)) pieces; md5_finish pms.

(** ** The algorithm of RFC 1321 *)

Definition md5_start : md5_regs := (0x67452301, 0xefcdab89, 0x98badcfe, 0x10325476).

(** The message with its padding and its length in bits modulo 2^64. *)
Definition rfc_pad (m : list Z) : list Z :=
  let bits := (8 * zlen m) mod 2 ^ 64 in
  m ++ [0x80] ++ zeros ((55 - zlen m) mod 64) ++ htoipmi32 (u32 bits) ++ htoipmi32 (bits / 2 ^ 32).

Definition rfc_md5 (m : list Z) : list Z :=
  md5_digest (fst (md5_blocks (S (length (rfc_pad m))) md5_start (rfc_pad m))).

Example rfc_md5_empty : rfc_md5 [] =
  [0xd4; 0x1d; 0x8c; 0xd9; 0x8f; 0x00; 0xb2; 0x04; 0xe9; 0x80; 0x09; 0x98; 0xec; 0xf8; 0x42; 0x7e].
Proof. vm_compute. reflexivity. Qed.

(** "abc" *)
Example rfc_md5_abc : rfc_md5 [97; 98; 99] =
  [0x90; 0x01; 0x50; 0x98; 0x3c; 0xd2; 0x4f; 0xb0; 0xd6; 0x96; 0x3f; 0x7d; 0x28; 0xe1; 0x7f; 0x72].
Proof. vm_compute. reflexivity. Qed.

(** ** Pieces do not matter *)

Definition blocks (r : md5_regs) (p : list Z) : md5_regs * list Z := md5_blocks (S (length p)) r p.

Lemma drop64_length (p : list Z) : 64 <= zlen p -> (length (drop 64 p) < length p)%nat.
Proof. intros H. unfold zlen in H. rewrite length_drop. lia. Qed.

Lemma md5_blocks_fuel f1 f2 r p : (length p < f1)%nat -> (length p < f2)%nat ->
  md5_blocks f1 r p = md5_blocks f2 r p.
Proof.
  revert f2 r p. induction f1 as [|f1 IH]; intros f2 r p H1 H2; [lia |]. destruct f2 as [|f2]; [lia |].
  cbn [md5_blocks]. destruct (Z.leb_spec 64 (zlen p)) as [Ht|_]; [| done]. pose proof (drop64_length p Ht).
  apply IH; lia.
Qed.

Lemma blocks_step r p : 64 <= zlen p ->
  blocks r p = blocks (md5_process r (slice p 0 64)) (drop 64 p).
Proof.
  intros H. unfold blocks at 1. cbn [md5_blocks]. rewrite (proj2 (Z.leb_le _ _) H).
  pose proof (drop64_length p H). apply md5_blocks_fuel; lia.
Qed.

Lemma blocks_short r p : zlen p < 64 -> blocks r p = (r, p).
Proof. intros H. unfold blocks. cbn [md5_blocks]. by rewrite (proj2 (Z.leb_gt _ _) H). Qed.

(** Induction over the blocks of a message. *)
Lemma blocks_ind (P : list Z -> Prop) :
  (forall p, zlen p < 64 -> P p) -> (forall p, 64 <= zlen p -> P (drop 64 p) -> P p) -> forall p, P p.
Proof.
  intros H0 H1 p. remember (length p) as n eqn:E. revert p E.
  induction (lt_wf n) as [n _ IH]. intros p ->. destruct (Z.lt_ge_cases (zlen p) 64); [by apply H0 |].
  apply H1; [done |]. by apply (IH (length (drop 64 p))); [apply drop64_length |].
Qed.

Lemma blocks_app p q r : blocks r (p ++ q) = let '(r', tl) := blocks r p in blocks r' (tl ++ q).
Proof.
  revert r. induction p as [p Hp | p Hp IH] using blocks_ind; intros r; [by rewrite (blocks_short r p) |].
  rewrite (blocks_step r p), (blocks_step r (p ++ q)) by (rewrite ?zlen_app; pose proof (zlen_nonneg q); lia).
  rewrite slice_app_l by lia. rewrite drop_app_le by (unfold zlen in Hp; lia). apply IH.
Qed.

Lemma zlen_blocks r p : zlen (blocks r p).2 = zlen p mod 64.
Proof.
  revert r. induction p as [p Hp | p Hp IH] using blocks_ind; intros r.
  - rewrite blocks_short by done. pose proof (zlen_nonneg p). cbn. by rewrite Z.mod_small by lia.
  - rewrite blocks_step, IH, zlen_drop by done. rewrite Z.max_r by lia.
    rewrite <- (Z_mod_plus_full (zlen p - Z.of_nat 64) 1 64). f_equal. lia.
Qed.

(** [pms] is the state after the message [m]. *)
Record md5_after (pms : md5_state) (m : list Z) : Prop := {
  after_count0 : count0 pms = (8 * zlen m) mod 2 ^ 32;
  after_count1 : count1 pms = (8 * zlen m / 2 ^ 32) mod 2 ^ 32;
  after_regs : abcd pms = (blocks md5_start m).1;
  after_size : zlen (md5_buf pms) = 64;
  after_tail : slice (md5_buf pms) 0 (zlen m mod 64) = (blocks md5_start m).2;
}.

Lemma md5_init_after buf : zlen buf = 64 -> md5_after (md5_init buf) [].
Proof. intros H. split; try done. Qed.

(** The two words count the bits. *)
Lemma md5_count n k : 0 <= n -> 0 <= k < 2 ^ 28 ->
  let c0 := u32 ((8 * n) mod 2 ^ 32 + u32 (k .<< 3)) in
  let c1 := u32 ((8 * n / 2 ^ 32) mod 2 ^ 32 + (k .>> 29)) in
  c0 = (8 * (n + k)) mod 2 ^ 32 /\
  (if c0 <? u32 (k .<< 3) then u32 (c1 + 1) else c1) = (8 * (n + k) / 2 ^ 32) mod 2 ^ 32.
Proof.
  intros Hn Hk. cbv zeta. rewrite Z.shiftl_mul_pow2, Z.shiftr_div_pow2 by lia.
  change (2 ^ 3) with 8. unfold u32. change (2 ^ 32) with 4294967296. change (2 ^ 29) with 536870912.
  change (2 ^ 28) with 268435456 in Hk. rewrite (Z.div_small k) by lia. rewrite (Z.mod_small (k * 8)) by lia.
  split; [Z.to_euclidean_division_equations; lia |].
  case_test; Z.to_euclidean_division_equations; lia.
Qed.

Lemma count_offset n : 0 <= n -> (((8 * n) mod 2 ^ 32) .>> 3) .& 63 = n mod 64.
Proof.
  intros H. change 63 with (Z.ones 6). rewrite Z.land_ones, Z.shiftr_div_pow2 by lia.
  change (2 ^ 32) with 4294967296. change (2 ^ 3) with 8. change (2 ^ 6) with 64.
  Z.to_euclidean_division_equations. lia.
Qed.

(** The blocks of a continued message and what the buffer keeps of it. *)
Lemma append_rest m p buf r q c0 c1 :
  c0 = (8 * zlen (m ++ p)) mod 2 ^ 32 -> c1 = (8 * zlen (m ++ p) / 2 ^ 32) mod 2 ^ 32 ->
  zlen buf = 64 -> blocks md5_start (m ++ p) = blocks r q ->
  exists pms, (let '(r, p) := md5_blocks (S (length q)) r q in
      buf ← (if zlen p =? 0 then Ok buf else or_oob (wr buf 0 p)); Ok (mk_md5 c0 c1 r buf)) = Ok pms /\
    md5_after pms (m ++ p).
Proof.
  intros H0 H1 Hb E. pose proof (zlen_blocks md5_start (m ++ p)) as Hz. rewrite E in Hz.
  assert (0 <= zlen (m ++ p) mod 64 < 64) as Hm by (apply Z.mod_pos_bound; lia).
  change (md5_blocks (S (length q)) r q) with (blocks r q).
  destruct (blocks r q) as [r' tl] eqn:Eq. cbn [snd] in Hz.
  destruct (Z.eqb_spec (zlen tl) 0) as [Htl|Htl].
  - eexists. split; [reflexivity |]. split; cbn [count0 count1 abcd md5_buf]; try done; [by rewrite E |].
    rewrite E, <- Hz, Htl. by rewrite (zlen_0_nil tl) by lia.
  - pose proof (wr_next [] buf 0 tl eq_refl) as Hw. cbn [app] in Hw. rewrite Hw by lia.
    eexists. split; [reflexivity |]. split; cbn [count0 count1 abcd md5_buf]; try done; [by rewrite E | |].
    + rewrite zlen_app, zlen_drop. unfold zlen in *. lia.
    + rewrite E, <- Hz. cbn [snd]. rewrite slice_app_l, slice_all by lia. done.
Qed.

(** A partial block is filled up. *)
Lemma fill_buffer buf off tl q : zlen buf = 64 -> slice buf 0 off = tl -> zlen tl = off -> off + zlen q <= 64 ->
  exists buf', wr buf off q = Some buf' /\ zlen buf' = 64 /\ slice buf' 0 (off + zlen q) = tl ++ q.
Proof.
  intros Hb Ht Hzt Hq. pose proof (zlen_nonneg tl). pose proof (zlen_nonneg q).
  assert (buf = tl ++ drop (Z.to_nat off) buf) as E.
  { rewrite <- Ht. unfold slice. rewrite drop_0. symmetry. apply take_drop. }
  rewrite E. rewrite wr_next by (rewrite ?zlen_drop; lia).
  eexists. split; [reflexivity |]. split; [rewrite !zlen_app, !zlen_drop; unfold zlen in *; lia |].
  rewrite slice_app_l, slice_all by (rewrite ?zlen_app; lia). done.
Qed.

Lemma md5_append_after pms m p : md5_after pms m -> zlen p < 2 ^ 28 ->
  exists pms', md5_append pms p = Ok pms' /\ md5_after pms' (m ++ p).
Proof.
  intros [H0 H1 Hr Hb Ht] Hp. pose proof (zlen_nonneg m). pose proof (zlen_nonneg p).
  unfold md5_append. rewrite H0, H1, Hr, count_offset by lia.
  destruct (Z.leb_spec (zlen p) 0) as [Hz|Hz].
  { rewrite (zlen_0_nil p) by lia. rewrite app_nil_r. by exists pms. }
  destruct (md5_count (zlen m) (zlen p) ltac:(lia) ltac:(lia)) as [E0 E1]. cbv zeta in E0, E1 |- *.
  set (c1 := if _ <? _ then _ else _) in *. rewrite E0 in *. clearbody c1. rewrite <- zlen_app in *.
  destruct (blocks md5_start m) as [r tl] eqn:Em. cbn [fst snd] in *.
  pose proof (zlen_blocks md5_start m) as Hzt. rewrite Em in Hzt. cbn [snd] in Hzt.
  pose proof (blocks_app m p md5_start) as Happ. rewrite Em in Happ.
  set (off := zlen m mod 64) in *. assert (0 <= off < 64) as Hoff by (apply Z.mod_pos_bound; lia).
  destruct (Z.eqb_spec off 0) as [Eo|Eo].
  { apply append_rest; try done. by rewrite Happ, (zlen_0_nil tl) by lia. }
  set (copy := if 64 <? off + zlen p then 64 - off else zlen p).
  assert (0 < copy <= zlen p /\ off + copy <= 64 /\ (off + copy < 64 -> copy = zlen p)) as (Hc1 & Hc2 & Hc3).
  { unfold copy. case_test; lia. }
  assert (zlen (slice p 0 copy) = copy) as Hsc by (rewrite zlen_slice; lia).
  destruct (fill_buffer (md5_buf pms) off tl (slice p 0 copy)) as (buf & -> & Hbz & Hbs); try lia; [done |].
  rewrite Hsc in Hbs.
  cbn [or_oob mbind res_bind]. destruct (Z.ltb_spec (off + copy) 64) as [Hlt|Hge].
  - eexists. split; [reflexivity |]. specialize (Hc3 Hlt). clearbody copy. subst copy.
    assert (slice p 0 (zlen p) = p) as Hsp by (apply slice_all; lia). rewrite Hsp in *.
    rewrite (blocks_short r (tl ++ p)) in Happ by (rewrite zlen_app; lia). clear Hc2 Hsc.
    split; cbn [count0 count1 abcd md5_buf]; rewrite ?Happ; try done. cbn [snd].
    rewrite <- Hbs, zlen_app. f_equal. unfold off. rewrite <- (Z_mod_plus_full (_ + zlen p) (- (zlen m / 64)) 64).
    rewrite Z.mod_small; Z.to_euclidean_division_equations; lia.
  - apply append_rest; try done. rewrite Happ.
    assert (off + copy = 64) as E64 by lia. rewrite E64 in Hbs.
    rewrite slice_all in Hbs by lia.
    rewrite <- (take_drop (Z.to_nat copy) p) at 1. rewrite app_assoc.
    change (take (Z.to_nat copy) p) with (slice p 0 copy). rewrite <- Hbs, blocks_step by (rewrite zlen_app, Hbz; pose proof (zlen_nonneg (drop (Z.to_nat copy) p)); lia).
    rewrite slice_app_l, slice_all by lia. rewrite drop_app_length' by (unfold zlen in Hbz; lia). done.
Qed.

Lemma md5_appends_after pieces pms m : md5_after pms m -> Forall (fun p => zlen p < 2 ^ 28) pieces ->
  exists pms', md5_appends pms pieces = Ok pms' /\ md5_after pms' (m ++ concat pieces).
Proof.
  revert pms m. induction pieces as [|p pieces IH]; intros pms m H Hp.
  - exists pms. cbn [concat]. rewrite app_nil_r. by split.
  - apply Forall_cons in Hp as [Hp Hps]. destruct (md5_append_after pms m p H Hp) as (pms1 & E & H1).
    destruct (IH pms1 _ H1 Hps) as (pms2 & E2 & H2). exists pms2. cbn [md5_appends concat].
    rewrite E. cbn [mbind res_bind]. by rewrite app_assoc.
Qed.

(** The number of bytes that [md5_finish] pads with. *)
Lemma pad_size n : 0 <= n ->
  (u32 (55 - (((8 * n) mod 2 ^ 32) .>> 3)) .& 63) = (55 - n) mod 64.
Proof.
  intros H. change 63 with (Z.ones 6). rewrite Z.land_ones, Z.shiftr_div_pow2 by lia. unfold u32.
  change (2 ^ 32) with 4294967296. change (2 ^ 3) with 8. change (2 ^ 6) with 64.
  Z.to_euclidean_division_equations. lia.
Qed.

Lemma bits_words n : 0 <= n ->
  u32 (n mod 2 ^ 64) = n mod 2 ^ 32 /\ n mod 2 ^ 64 / 2 ^ 32 = (n / 2 ^ 32) mod 2 ^ 32.
Proof.
  intros H. unfold u32. change (2 ^ 64) with 18446744073709551616. change (2 ^ 32) with 4294967296.
  split; Z.to_euclidean_division_equations; lia.
Qed.

Lemma md5_finish_after pms m : md5_after pms m -> md5_finish pms = Ok (rfc_md5 m).
Proof.
  intros H. pose proof (zlen_nonneg m) as Hm. pose proof H as [H0 H1 _ _ _].
  unfold md5_finish. rewrite H0, H1, pad_size by lia. set (n := (55 - zlen m) mod 64).
  assert (0 <= n < 64) as Hn by (apply Z.mod_pos_bound; lia).
  assert (slice md5_pad 0 (n + 1) = [0x80] ++ zeros n) as ->.
  { unfold md5_pad, slice, zeros. rewrite drop_0. replace (Z.to_nat (n + 1)) with (S (Z.to_nat n)) by lia.
    cbn [take app]. f_equal. rewrite take_replicate. f_equal. change (Z.to_nat 63) with 63%nat. lia. }
  destruct (md5_append_after pms m ([0x80] ++ zeros n) H) as (pms1 & -> & K1).
  { rewrite zlen_app, zlen_zeros by lia. change (zlen [0x80]) with 1. change (2 ^ 28) with 268435456. lia. }
  cbn [mbind res_bind]. set (data := htoipmi32 _ ++ htoipmi32 _).
  destruct (md5_append_after pms1 _ data K1) as (pms2 & -> & K2); [done |].
  cbn [mbind res_bind]. rewrite (after_regs _ _ K2). unfold rfc_md5, rfc_pad.
  destruct (bits_words (8 * zlen m) ltac:(lia)) as [-> ->]. fold n. rewrite <- !app_assoc. reflexivity.
Qed.

Lemma md5_run pieces : Forall (fun p => zlen p < 2 ^ 28) pieces -> md5 pieces = Ok (rfc_md5 (concat pieces)).
Proof.
  intros H. unfold md5.
  destruct (md5_appends_after pieces (md5_init (zeros 64)) [] (md5_init_after (zeros 64) eq_refl) H) as (pms & -> & Hp).
  by apply md5_finish_after.
Qed.

(** C24. The digest of a message is that of RFC 1321, however the message is cut
    into the pieces that are appended: the buffer of partial blocks, the
    64-bit length in two words and the padding are right for every length. *)
Theorem md5_streams pieces pieces' :
  Forall (fun p => zlen p < 2 ^ 28) pieces -> Forall (fun p => zlen p < 2 ^ 28) pieces' ->
  concat pieces = concat pieces' ->
  md5 pieces = Ok (rfc_md5 (concat pieces)) /\ md5 pieces = md5 pieces'.
Proof. intros H H' E. rewrite !md5_run by done. by rewrite E. Qed.

Lemma md5_streams_witness :
  md5 [[97]; []; [98; 99]] = Ok (rfc_md5 (concat [[97]; []; [98; 99]])) /\
  md5 [[97]; []; [98; 99]] = md5 [[97; 98; 99]].
Proof. apply md5_streams; [repeat constructor | repeat constructor | reflexivity]. Defined.
