(* ===== verification/Crypt.v ===== *)
(** * RMCP+ authentication, keys and payload encryption
    (src/plugins/lanplus/lanplus_crypt.c, lanplus_crypt_impl.c)

    OpenSSL is the class [OpenSSL], what the code relies on is [OpenSSLLaws];
    [malloc] is the class [Malloc] of the prelude, whose buffers hold arbitrary bytes.  The
    MAC inputs are written into those buffers byte by byte as the code does. *)

From S2P Require Import Prelude Wire Ipmi Intf Session.

#[local] Open Scope Z_scope.

Definition IPMI_SHA1_AUTHCODE_SIZE : Z := 12.
Definition IPMI_HMAC_MD5_AUTHCODE_SIZE : Z := 16.
Definition IPMI_HMAC_SHA256_AUTHCODE_SIZE : Z := 16.
Definition IPMI_SHA_DIGEST_LENGTH : Z := 20.
Definition IPMI_MD5_DIGEST_LENGTH : Z := 16.
Definition IPMI_SHA256_DIGEST_LENGTH : Z := 32.
Definition IPMI_CRYPT_AES_CBC_128_BLOCK_SIZE : Z := 16.
Definition IPMI_MAX_PAYLOAD_SIZE : Z := 0xFFFF.
Definition IPMI_LANPLUS_OFFSET_AUTHTYPE : Z := 4.

(** ** OpenSSL and the allocator *)

Inductive evp_md := EVP_sha1 | EVP_md5 | EVP_sha256.

Definition evp_md_size (m : evp_md) : Z :=
  match m with EVP_sha1 => 20 | EVP_md5 => 16 | EVP_sha256 => 32 end.

(** [HMAC] and AES-CBC without padding ([EVP_EncryptUpdate] and
    [EVP_EncryptFinal_ex]; [None] when one of them fails). *)
Class OpenSSL := {
  HMAC : evp_md -> list Z -> list Z -> list Z;
  aes_128_cbc_encrypt : list Z -> list Z -> list Z -> option (list Z);
  aes_128_cbc_decrypt : list Z -> list Z -> list Z -> option (list Z);
}.

Class OpenSSLLaws (ssl : OpenSSL) := {
  HMAC_len : forall m k d, zlen (HMAC m k d) = evp_md_size m;
  HMAC_bytes : forall m k d, bytes (HMAC m k d);
  aes_encrypt_ok : forall iv key d, zlen iv = 16 -> zlen key = 16 -> zlen d mod 16 = 0 ->
    exists c, aes_128_cbc_encrypt iv key d = Some c /\ zlen c = zlen d /\ (bytes d -> bytes c) /\
      aes_128_cbc_decrypt iv key c = Some d;
}.

Section Crypt.
Context `{ssl : OpenSSL} `{mem : Malloc}.

(** [lanplus_HMAC] *)
Definition lanplus_HMAC (mac : Z) (key d : list Z) : res (list Z) :=
  if (mac =? IPMI_AUTH_RAKP_HMAC_SHA1) || (mac =? IPMI_INTEGRITY_HMAC_SHA1_96)
  then Ok (HMAC EVP_sha1 key d)
  else if (mac =? IPMI_AUTH_RAKP_HMAC_MD5) || (mac =? IPMI_INTEGRITY_HMAC_MD5_128)
  then Ok (HMAC EVP_md5 key d)
  else if (mac =? IPMI_AUTH_RAKP_HMAC_SHA256) || (mac =? IPMI_INTEGRITY_HMAC_SHA256_128)
  then Ok (HMAC EVP_sha256 key d)
  else Bad AssertFailed.

Definition supported_auth (alg : Z) : bool :=
  (alg =? IPMI_AUTH_RAKP_HMAC_SHA1) || (alg =? IPMI_AUTH_RAKP_HMAC_MD5) ||
  (alg =? IPMI_AUTH_RAKP_HMAC_SHA256).

Definition rassert (b : bool) : res unit := if b then Ok tt else Bad AssertFailed.

(** [memcmp(a, b, n) == 0] *)
Definition memcmp0 (a b : list Z) (n : Z) : bool :=
  bool_decide (take (Z.to_nat n) a = take (Z.to_nat n) b).

(** The digest length and the size of the authcode of the RAKP algorithm. *)
Definition rakp_digest_length (alg : Z) : res Z :=
  if alg =? IPMI_AUTH_RAKP_HMAC_SHA1 then Ok IPMI_SHA_DIGEST_LENGTH
  else if alg =? IPMI_AUTH_RAKP_HMAC_MD5 then Ok IPMI_MD5_DIGEST_LENGTH
  else if alg =? IPMI_AUTH_RAKP_HMAC_SHA256 then Ok IPMI_SHA256_DIGEST_LENGTH
  else Bad AssertFailed.

Definition rakp_authcode_size (alg : Z) : res Z :=
  if alg =? IPMI_AUTH_RAKP_HMAC_SHA1 then Ok IPMI_SHA1_AUTHCODE_SIZE
  else if alg =? IPMI_AUTH_RAKP_HMAC_MD5 then Ok IPMI_HMAC_MD5_AUTHCODE_SIZE
  else if alg =? IPMI_AUTH_RAKP_HMAC_SHA256 then Ok IPMI_HMAC_SHA256_AUTHCODE_SIZE
  else Bad AssertFailed.

(** [ROLEm] as the Intel 82571 GbE hashes it. *)
Definition hmac_role (intf : ipmi_intf) (role : Z) : Z :=
  if ipmi_oem_active intf "i82571spt" then role .& u8 (Z.lnot 0x10) else role.

(** [buf[off] = strlen(username)] and the copy of the name after it; the loop
    runs to the byte just stored. *)
Definition put_username (buf : list Z) (off : Z) (name : list Z) : option (list Z) :=
  let len := u8 (strlen name) in
  buf ← wr buf off [len];
  wr buf (off + 1) (slice name 0 len).

(** [lanplus_rakp2_hmac_matches] *)
Definition lanplus_rakp2_hmac_matches (session : ipmi_session) (bmc_mac : list Z)
    (intf : ipmi_intf) : res bool :=
  let v := v2_data session in
  if auth_alg v =? IPMI_AUTH_RAKP_NONE then Ok true else
  _ ← rassert (supported_auth (auth_alg v));
  let name := username (ssn_params intf) in
  let bufferLength := 4 + 4 + 16 + 16 + 16 + 1 + 1 + strlen name in
  match malloc bufferLength with
  | None => Ok true
  | Some buffer =>
      buffer ← or_oob (
        buffer ← wr buffer 0 (htoipmi32 (console_id v));
        buffer ← wr buffer 4 (htoipmi32 (bmc_id v));
        buffer ← wr buffer 8 (slice (console_rand v) 0 16);
        buffer ← wr buffer 24 (slice (bmc_rand v) 0 16);
        buffer ← wr buffer 40 (slice (bmc_guid v) 0 16);
        buffer ← wr buffer 56 [hmac_role intf (requested_role v)];
        put_username buffer 57 name);
      mac ← lanplus_HMAC (auth_alg v) (slice (authcode session) 0 IPMI_AUTHCODE_BUFFER_SIZE)
              (slice buffer 0 bufferLength);
      Ok (memcmp0 bmc_mac mac (zlen mac))
  end.

(** [lanplus_rakp4_hmac_matches] *)
Definition lanplus_rakp4_hmac_matches (session : ipmi_session) (bmc_mac : list Z)
    (intf : ipmi_intf) : res bool :=
  let v := v2_data session in
  let intel := ipmi_oem_active intf "intelplus" in
  let none := if intel then integrity_alg v =? IPMI_INTEGRITY_NONE
              else auth_alg v =? IPMI_AUTH_RAKP_NONE in
  if none then Ok true else
  _ ← rassert (if intel then (integrity_alg v =? IPMI_INTEGRITY_HMAC_SHA1_96) ||
                             (integrity_alg v =? IPMI_INTEGRITY_HMAC_MD5_128)
               else supported_auth (auth_alg v));
  let bufferLength := 16 + 4 + 16 in
  match malloc bufferLength with
  | None => Ok true
  | Some buffer =>
      buffer ← or_oob (
        buffer ← wr buffer 0 (slice (console_rand v) 0 16);
        buffer ← wr buffer 16 (htoipmi32 (bmc_id v));
        wr buffer 20 (slice (bmc_guid v) 0 16));
      let alg := if intel then integrity_alg v else auth_alg v in
      mac ← lanplus_HMAC alg (slice (sik v) 0 (sik_len v)) (slice buffer 0 bufferLength);
      digest ← rakp_digest_length alg;
      _ ← rassert (zlen mac =? digest);
      cmpLength ← rakp_authcode_size alg;
      _ ← rassert (cmpLength <=? zlen mac);
      Ok (memcmp0 bmc_mac mac cmpLength)
  end.

(** [lanplus_generate_rakp3_authcode]: the authcode, or [None] for the return
    value 1. *)
Definition lanplus_generate_rakp3_authcode (session : ipmi_session) (intf : ipmi_intf)
    : res (option (list Z)) :=
  let v := v2_data session in
  if auth_alg v =? IPMI_AUTH_RAKP_NONE then Ok (Some []) else
  _ ← rassert (supported_auth (auth_alg v));
  let name := username (ssn_params intf) in
  let input_buffer_length := 16 + 4 + 1 + 1 + strlen name in
  match malloc input_buffer_length with
  | None => Ok None
  | Some buffer =>
      buffer ← or_oob (
        buffer ← wr buffer 0 (slice (bmc_rand v) 0 16);
        buffer ← wr buffer 16 (htoipmi32 (console_id v));
        buffer ← wr buffer 20
          [if ipmi_oem_active intf "intelplus" || ipmi_oem_active intf "i82571spt"
           then privlvl (ssn_params intf) else requested_role v];
        put_username buffer 21 name);
      mac ← lanplus_HMAC (auth_alg v) (slice (authcode session) 0 IPMI_AUTHCODE_BUFFER_SIZE)
              (slice buffer 0 input_buffer_length);
      Ok (Some mac)
  end.

(** [lanplus_HMAC] writes its digest at the start of a key array. *)
Definition key_write (key mac : list Z) : res (list Z) := or_oob (wr key 0 mac).

Definition set_v2 (f : v2_data_t -> v2_data_t) (s : ipmi_session) : ipmi_session :=
  s <| v2_data := f (v2_data s) |>.

(** [lanplus_generate_sik]: the return value and the session. *)
Definition lanplus_generate_sik (session : ipmi_session) (intf : ipmi_intf)
    : res (Z * ipmi_session) :=
  let session := set_v2 (fun v => v <| sik := zeros IPMI_MAX_MD_SIZE |> <| sik_len := 0 |>) session in
  let v := v2_data session in
  if auth_alg v =? IPMI_AUTH_RAKP_NONE then Ok (0, session) else
  _ ← rassert (supported_auth (auth_alg v));
  let name := username (ssn_params intf) in
  let input_buffer_length := 16 + 16 + 1 + 1 + strlen name in
  match malloc input_buffer_length with
  | None => Ok (1, session)
  | Some buffer =>
      buffer ← or_oob (
        buffer ← wr buffer 0 (slice (console_rand v) 0 16);
        buffer ← wr buffer 16 (slice (bmc_rand v) 0 16);
        buffer ← wr buffer 32 [hmac_role intf (requested_role v)];
        put_username buffer 33 name);
      let input_key := if negb (rd (kg (ssn_params intf)) 0 =? 0)
                       then kg (ssn_params intf) else authcode session in
      mac ← lanplus_HMAC (auth_alg v) (slice input_key 0 IPMI_AUTHCODE_BUFFER_SIZE)
              (slice buffer 0 input_buffer_length);
      sik' ← key_write (sik v) mac;
      digest ← rakp_digest_length (auth_alg v);
      _ ← rassert (zlen mac =? digest);
      Ok (0, set_v2 (fun v => v <| sik := sik' |> <| sik_len := u8 (zlen mac) |>) session)
  end.

(** [lanplus_generate_k1]; without authentication the length is not set. *)
Definition lanplus_generate_k1 (session : ipmi_session) : res ipmi_session :=
  let v := v2_data session in
  let CONST_1 := replicate 20 1 in
  if auth_alg v =? IPMI_AUTH_RAKP_NONE then
    k1' ← key_write (k1 v) CONST_1;
    Ok (set_v2 (fun v => v <| k1 := k1' |>) session)
  else
    mac ← lanplus_HMAC (auth_alg v) (slice (sik v) 0 (sik_len v)) CONST_1;
    k1' ← key_write (k1 v) mac;
    digest ← rakp_digest_length (auth_alg v);
    _ ← rassert (zlen mac =? digest);
    Ok (set_v2 (fun v => v <| k1 := k1' |> <| k1_len := u8 (zlen mac) |>) session).

(** [lanplus_generate_k2] *)
Definition lanplus_generate_k2 (session : ipmi_session) : res ipmi_session :=
  let v := v2_data session in
  let CONST_2 := replicate 20 2 in
  if auth_alg v =? IPMI_AUTH_RAKP_NONE then
    k2' ← key_write (k2 v) CONST_2;
    Ok (set_v2 (fun v => v <| k2 := k2' |>) session)
  else
    mac ← lanplus_HMAC (auth_alg v) (slice (sik v) 0 (sik_len v)) CONST_2;
    k2' ← key_write (k2 v) mac;
    digest ← rakp_digest_length (auth_alg v);
    _ ← rassert (zlen mac =? digest);
    Ok (set_v2 (fun v => v <| k2 := k2' |> <| k2_len := u8 (zlen mac) |>) session).

(** [lanplus_encrypt_aes_cbc_128]: the bytes written, none on an error. *)
Definition lanplus_encrypt_aes_cbc_128 (iv key input : list Z) : res (list Z) :=
  if zlen input =? 0 then Ok [] else
  _ ← rassert (zlen input mod IPMI_CRYPT_AES_CBC_128_BLOCK_SIZE =? 0);
  Ok (default [] (aes_128_cbc_encrypt iv (slice key 0 16) input)).

(** [lanplus_decrypt_aes_cbc_128]: [len] bytes of [buf] at [off] after the
    initialization vector; a range that is not inside the array is a fault. *)
Definition lanplus_decrypt_aes_cbc_128 (buf : list Z) (iv_off : Z) (key : list Z) (off len : Z)
    : res (list Z) :=
  if len =? 0 then Ok [] else
  if zlen buf <? iv_off + 16 then Bad OutOfBounds else
  _ ← rassert (len mod IPMI_CRYPT_AES_CBC_128_BLOCK_SIZE =? 0);
  if zlen buf <? off + len then Bad OutOfBounds else
  Ok (default [] (aes_128_cbc_decrypt (slice buf iv_off 16) (slice key 0 16) (slice buf off len))).

(** The pad and pad length that complete the last block. *)
Definition conf_pad_length (input_length : Z) : Z :=
  let mod_ := (input_length + 1) mod IPMI_CRYPT_AES_CBC_128_BLOCK_SIZE in
  if negb (mod_ =? 0) then IPMI_CRYPT_AES_CBC_128_BLOCK_SIZE - mod_ else 0.

(** [lanplus_encrypt_payload] in place, the way its caller uses it: the
    payload is [input_length] bytes of [buf] at [off], the ciphertext is
    written there.  [rand] is what [lanplus_rand] delivers.  The result is the
    return value, the buffer and [*bytes_written] ([None]: not written). *)
Definition lanplus_encrypt_payload (crypt_alg_ : Z) (key : list Z) (rand : option (list Z))
    (buf : list Z) (off input_length : Z) : res (Z * list Z * option Z) :=
  if crypt_alg_ =? IPMI_CRYPT_NONE then Ok (0, buf, Some (u16 input_length)) else
  _ ← rassert (crypt_alg_ =? IPMI_CRYPT_AES_CBC_128);
  _ ← rassert (input_length <=? IPMI_MAX_PAYLOAD_SIZE);
  let pad_length := conf_pad_length input_length in
  match malloc (input_length + pad_length + 1) with
  | None => Ok (1, buf, None)
  | Some padded_input =>
      _ ← rassert (off + input_length <=? zlen buf);
      padded_input ← or_oob (
        padded_input ← wr padded_input 0 (slice buf off input_length);
        padded_input ← wr padded_input input_length (seqZ 1 pad_length);
        wr padded_input (input_length + pad_length) [pad_length]);
      match rand with
      | None => Ok (1, buf, None)
      | Some iv =>
          buf ← or_oob (wr buf off iv);
          enc ← lanplus_encrypt_aes_cbc_128 iv key padded_input;
          buf ← or_oob (wr buf (off + IPMI_CRYPT_AES_CBC_128_BLOCK_SIZE) enc);
          Ok (0, buf, Some (u16 (IPMI_CRYPT_AES_CBC_128_BLOCK_SIZE + zlen enc)))
      end
  end.

(** The size of the authcode in a packet. *)
Definition integrity_authcode_size (alg : Z) : res Z :=
  if alg =? IPMI_INTEGRITY_HMAC_SHA1_96 then Ok IPMI_SHA1_AUTHCODE_SIZE
  else if alg =? IPMI_INTEGRITY_HMAC_MD5_128 then Ok IPMI_HMAC_MD5_AUTHCODE_SIZE
  else if alg =? IPMI_INTEGRITY_HMAC_SHA256_128 then Ok IPMI_HMAC_SHA256_AUTHCODE_SIZE
  else Bad AssertFailed.

(** [lanplus_has_valid_auth_code]; a packet shorter than header and authcode
    makes both ranges start before or end before the array. *)
Definition lanplus_has_valid_auth_code (rs : ipmi_rs) (session : ipmi_session) : res bool :=
  let v := v2_data session in
  if negb (rs_authtype rs =? IPMI_SESSION_AUTHTYPE_RMCP_PLUS) ||
     negb (bool_decide (session_state v = LANPLUS_STATE_ACTIVE)) ||
     (bAuthenticated rs =? 0) ||
     (integrity_alg v =? IPMI_INTEGRITY_NONE)
  then Ok true else
  authcode_length ← integrity_authcode_size (integrity_alg v);
  let start := rs_data_len rs - authcode_length in
  if start <? IPMI_LANPLUS_OFFSET_AUTHTYPE then Bad OutOfBounds else
  let bmc_authcode := slice (rs_data rs) start authcode_length in
  generated ← lanplus_HMAC (integrity_alg v) (slice (k1 v) 0 (k1_len v))
    (slice (rs_data rs) IPMI_LANPLUS_OFFSET_AUTHTYPE (start - IPMI_LANPLUS_OFFSET_AUTHTYPE));
  _ ← rassert (authcode_length <=? zlen generated);
  Ok (memcmp0 bmc_authcode generated authcode_length).

(** [lanplus_decrypt_payload] in place: the payload is [input_length] bytes of
    [buf] at [off].  The length of a ciphertext shorter than the
    initialization vector wraps. *)
Definition lanplus_decrypt_payload (crypt_alg_ : Z) (key : list Z) (buf : list Z)
    (off input_length : Z) : res (Z * list Z * option Z) :=
  if crypt_alg_ =? IPMI_CRYPT_NONE then
    if off + input_length <=? zlen buf then Ok (0, buf, Some (u16 input_length))
    else Bad OutOfBounds
  else
  _ ← rassert (crypt_alg_ =? IPMI_CRYPT_AES_CBC_128);
  match malloc input_length with
  | None => Ok (1, buf, None)
  | Some decrypted_payload =>
      dec ← lanplus_decrypt_aes_cbc_128 buf off key (off + IPMI_CRYPT_AES_CBC_128_BLOCK_SIZE)
        (u32 (input_length - IPMI_CRYPT_AES_CBC_128_BLOCK_SIZE));
      decrypted_payload ← or_oob (wr decrypted_payload 0 dec);
      let bytes_decrypted := zlen dec in
      _ ← rassert (negb (bytes_decrypted =? 0));
      buf ← or_oob (wr buf off dec);
      let conf_pad_length := rd decrypted_payload (bytes_decrypted - 1) in
      let payload_size := u16 (bytes_decrypted - conf_pad_length - 1) in
      if zlen decrypted_payload <? payload_size + conf_pad_length then Bad OutOfBounds else
      _ ← rassert (forallb (fun i => rd decrypted_payload (payload_size + i) =? i + 1)
                     (seqZ 0 conf_pad_length));
      Ok (0, buf, Some payload_size)
  end.

End Crypt.

(** ** Lemmas *)

Lemma zlen_htoipmi32 h : zlen (htoipmi32 h) = 4.
Proof. done. Qed.
Lemma zlen_c_string s : zlen (c_string s) = strlen s.
Proof. done. Qed.
#[export] Hint Rewrite zlen_htoipmi32 zlen_c_string : zlen.

Lemma rassert_true b : b = true -> rassert b = Ok tt.
Proof. by intros ->. Qed.

Lemma strlen_bounds s : 0 <= strlen s <= zlen s.
Proof.
  unfold strlen. split; [apply zlen_nonneg |]. induction s as [|x s IH]; [done |].
  cbn [c_string]. destruct (x =? 0); zlen_lia.
Qed.

Lemma strlen_terminated s n : rd s n = 0 -> 0 <= n < zlen s -> strlen s <= n.
Proof.
  unfold strlen. revert n. induction s as [|x s IH]; intros n; [unfold zlen; cbn; lia |].
  cbn [c_string]. rewrite zlen_cons. intros H Hn. destruct (x =? 0) eqn:E; [unfold zlen; cbn; lia |].
  bool_hyps. rewrite zlen_cons. destruct (decide (n = 0)) as [-> | Hne]; [by change (x = 0) in H |].
  specialize (IH (n - 1)). assert (rd s (n - 1) = 0).
  { unfold rd in *. replace (Z.to_nat n) with (S (Z.to_nat (n - 1))) in H by lia. done. }
  pose proof (IH H0 ltac:(lia)). lia.
Qed.

Lemma slice_c_string s : slice s 0 (strlen s) = c_string s.
Proof.
  unfold slice, strlen, zlen. rewrite Nat2Z.id, drop_0.
  induction s as [|x s IH]; [done |]. cbn [c_string]. destruct (x =? 0); [done |].
  cbn [length take]. by rewrite IH.
Qed.

Lemma params_strlen p : params_wf p -> 0 <= strlen (username p) <= 16.
Proof.
  intros (H1 & _ & H2 & _). split; [apply strlen_bounds |]. apply strlen_terminated; [done | lia].
Qed.

(** The user name fills the rest of the buffer. *)
Lemma put_username_run pre rest off name :
  zlen pre = off -> zlen rest = 1 + strlen name -> 0 <= strlen name < 256 ->
  put_username (pre ++ rest) off name = Some (pre ++ strlen name :: c_string name).
Proof.
  intros <- Hr Hs. unfold put_username. rewrite u8_small by exact Hs.
  rewrite wr_next by zlen_lia. cbn [mbind option_bind]. rewrite slice_c_string.
  assert (zlen (c_string name) = strlen name) as Hc by done.
  rewrite wr_next by (rewrite ?zlen_drop; zlen_lia).
  rewrite (zlen_0_nil (drop _ (drop _ _))) by zlen_lia.
  by rewrite app_nil_r, <- app_assoc.
Qed.

(** The next piece of a buffer that is filled from the left. *)
Ltac fill_step :=
  rewrite wr_next by zlen_lia; rewrite Some_bind.

(** What the IPMI specification hashes. *)
Definition rakp2_mac_input (session : ipmi_session) (intf : ipmi_intf) : list Z :=
  let v := v2_data session in
  htoipmi32 (console_id v) ++ htoipmi32 (bmc_id v) ++ console_rand v ++ bmc_rand v ++
  bmc_guid v ++ [hmac_role intf (requested_role v)] ++
  strlen (username (ssn_params intf)) :: c_string (username (ssn_params intf)).

Definition rakp3_mac_input (session : ipmi_session) (intf : ipmi_intf) (role : Z) : list Z :=
  let v := v2_data session in
  bmc_rand v ++ htoipmi32 (console_id v) ++ [role] ++
  strlen (username (ssn_params intf)) :: c_string (username (ssn_params intf)).

Definition sik_mac_input (session : ipmi_session) (intf : ipmi_intf) : list Z :=
  let v := v2_data session in
  console_rand v ++ bmc_rand v ++ [hmac_role intf (requested_role v)] ++
  strlen (username (ssn_params intf)) :: c_string (username (ssn_params intf)).

Definition rakp4_mac_input (session : ipmi_session) : list Z :=
  let v := v2_data session in
  console_rand v ++ htoipmi32 (bmc_id v) ++ bmc_guid v.

Definition kuid (session : ipmi_session) : list Z :=
  slice (authcode session) 0 IPMI_AUTHCODE_BUFFER_SIZE.

(** The digest of an algorithm number that [supported_auth] admits. *)
Definition alg_md (alg : Z) : evp_md :=
  if alg =? IPMI_AUTH_RAKP_HMAC_SHA1 then EVP_sha1
  else if alg =? IPMI_AUTH_RAKP_HMAC_MD5 then EVP_md5 else EVP_sha256.

Lemma supported_cases alg : supported_auth alg = true ->
  alg = IPMI_AUTH_RAKP_HMAC_SHA1 \/ alg = IPMI_AUTH_RAKP_HMAC_MD5 \/
  alg = IPMI_AUTH_RAKP_HMAC_SHA256.
Proof. unfold supported_auth. lia. Qed.

Section CryptFacts.
Context `{ssl : OpenSSL} {laws : OpenSSLLaws ssl} `{mem : Malloc} {memlaws : MallocLaws mem}.

Lemma HMAC_supported alg key d : supported_auth alg = true ->
  lanplus_HMAC alg key d = Ok (HMAC (alg_md alg) key d).
Proof. by intros [-> | [-> | ->]]%supported_cases. Qed.

Lemma rakp_digest_md alg : supported_auth alg = true ->
  rakp_digest_length alg = Ok (evp_md_size (alg_md alg)).
Proof. by intros [-> | [-> | ->]]%supported_cases. Qed.

Lemma evp_md_size_bounds m : 16 <= evp_md_size m <= 32.
Proof. destruct m; cbn; lia. Qed.

Lemma supported_not_none alg : supported_auth alg = true -> (alg =? IPMI_AUTH_RAKP_NONE) = false.
Proof. by intros [-> | [-> | ->]]%supported_cases. Qed.

(** Facts on lengths of a well-formed session. *)
Ltac session_facts s i :=
  let H := fresh in
  match goal with Hs : session_wf s, Hi : params_wf (ssn_params i) |- _ =>
    pose proof (params_strlen _ Hi) as H;
    destruct Hs as (? & ? & ? & ? & ? & [? ?] & [? ?] & [? ?] & [? ?] & [? ?] & ?)
  end.

Lemma slice_16 l : zlen l = 16 -> slice l 0 16 = l.
Proof. intros H. apply slice_all. lia. Qed.

Lemma rakp2_run session mac intf b :
  session_wf session -> params_wf (ssn_params intf) ->
  supported_auth (auth_alg (v2_data session)) = true ->
  malloc (58 + strlen (username (ssn_params intf))) = Some b ->
  lanplus_rakp2_hmac_matches session mac intf =
    let m := HMAC (alg_md (auth_alg (v2_data session))) (kuid session) (rakp2_mac_input session intf) in
    Ok (memcmp0 mac m (zlen m)).
Proof.
  intros Hs Hi Ha Hb. unfold lanplus_rakp2_hmac_matches. rewrite supported_not_none, Ha by done.
  session_facts session intf. cbn [rassert mbind res_bind].
  change (4 + 4 + 16 + 16 + 16 + 1 + 1) with 58. rewrite Hb. apply malloc_len in Hb; [| lia].
  rewrite !slice_16 by done. change b with ([] ++ b) at 1.
  do 6 fill_step. rewrite put_username_run by (zlen_lia || lia). cbn [or_oob mbind res_bind].
  rewrite (slice_all (_ ++ _)), HMAC_supported by (done || zlen_lia). cbn [mbind res_bind].
  unfold rakp2_mac_input. rewrite <- !app_assoc. done.
Qed.

Lemma rakp3_run session intf b :
  session_wf session -> params_wf (ssn_params intf) ->
  supported_auth (auth_alg (v2_data session)) = true ->
  malloc (22 + strlen (username (ssn_params intf))) = Some b ->
  lanplus_generate_rakp3_authcode session intf =
    Ok (Some (HMAC (alg_md (auth_alg (v2_data session))) (kuid session)
      (rakp3_mac_input session intf
        (if ipmi_oem_active intf "intelplus" || ipmi_oem_active intf "i82571spt"
         then privlvl (ssn_params intf) else requested_role (v2_data session))))).
Proof.
  intros Hs Hi Ha Hb. unfold lanplus_generate_rakp3_authcode. rewrite supported_not_none, Ha by done.
  session_facts session intf. cbn [rassert mbind res_bind].
  change (16 + 4 + 1 + 1) with 22. rewrite Hb. apply malloc_len in Hb; [| lia].
  rewrite !slice_16 by done. change b with ([] ++ b) at 1.
  do 3 fill_step. rewrite put_username_run by (zlen_lia || lia). cbn [or_oob mbind res_bind].
  rewrite (slice_all (_ ++ _)), HMAC_supported by (done || zlen_lia). cbn [mbind res_bind].
  unfold rakp3_mac_input. rewrite <- !app_assoc. done.
Qed.

Lemma rakp4_run session mac intf b :
  session_wf session -> ipmi_oem_active intf "intelplus" = false ->
  supported_auth (auth_alg (v2_data session)) = true -> malloc 36 = Some b ->
  lanplus_rakp4_hmac_matches session mac intf =
    Ok (memcmp0 mac (HMAC (alg_md (auth_alg (v2_data session)))
          (slice (sik (v2_data session)) 0 (sik_len (v2_data session))) (rakp4_mac_input session))
         (if auth_alg (v2_data session) =? IPMI_AUTH_RAKP_HMAC_SHA1 then 12 else 16)).
Proof.
  intros Hs Ho Ha Hb. unfold lanplus_rakp4_hmac_matches. rewrite Ho, supported_not_none, Ha by done.
  destruct Hs as (? & ? & ? & ? & ? & [? ?] & [? ?] & [? ?] & [? ?] & [? ?] & ?).
  cbn [rassert mbind res_bind]. change (16 + 4 + 16) with 36. rewrite Hb.
  apply malloc_len in Hb; [| lia]. rewrite !slice_16 by done. change b with ([] ++ b) at 1.
  do 2 fill_step. rewrite wr_next by zlen_lia. cbn [or_oob mbind res_bind].
  rewrite (zlen_0_nil (drop _ (drop _ _))) by zlen_lia. rewrite app_nil_r.
  rewrite (slice_all (_ ++ _)), HMAC_supported by (done || zlen_lia). cbn [mbind res_bind].
  unfold rakp4_mac_input. rewrite rakp_digest_md by done. cbn [mbind res_bind].
  rewrite HMAC_len, Z.eqb_refl. cbn [rassert mbind res_bind].
  apply supported_cases in Ha as [E | [E | E]]; rewrite E, <- app_assoc; done.
Qed.

(** The session after the SIK is computed. *)
Definition with_sik (session : ipmi_session) (mac : list Z) : ipmi_session :=
  set_v2 (fun v => v <| sik := mac ++ zeros (IPMI_MAX_MD_SIZE - zlen mac) |>
                     <| sik_len := zlen mac |>) session.

Lemma drop_zeros n m : 0 <= n <= m -> drop (Z.to_nat n) (zeros m) = zeros (m - n).
Proof. intros H. unfold zeros. rewrite drop_replicate. f_equal. lia. Qed.

Lemma sik_run session intf b :
  session_wf session -> params_wf (ssn_params intf) ->
  supported_auth (auth_alg (v2_data session)) = true ->
  malloc (34 + strlen (username (ssn_params intf))) = Some b ->
  let kg := kg (ssn_params intf) in
  let key := if rd kg 0 =? 0 then kuid session else slice kg 0 IPMI_AUTHCODE_BUFFER_SIZE in
  lanplus_generate_sik session intf =
    Ok (0, with_sik session (HMAC (alg_md (auth_alg (v2_data session))) key (sik_mac_input session intf))).
Proof.
  intros Hs Hi Ha Hb kg' key. unfold lanplus_generate_sik, set_v2. cbn -[zlen Z.add].
  rewrite supported_not_none, Ha by done.
  session_facts session intf. cbn [rassert mbind res_bind].
  change (16 + 16 + 1 + 1) with 34. rewrite Hb. apply malloc_len in Hb; [| lia].
  rewrite !slice_16 by done. change b with ([] ++ b) at 1.
  do 3 fill_step. rewrite put_username_run by (zlen_lia || lia). cbn [or_oob mbind res_bind].
  rewrite (slice_all (_ ++ _)), HMAC_supported by (done || zlen_lia). cbn [mbind res_bind].
  set (mac := HMAC _ _ _).
  assert (zlen mac = evp_md_size (alg_md (auth_alg (v2_data session)))) as Hm by apply HMAC_len.
  pose proof (evp_md_size_bounds (alg_md (auth_alg (v2_data session)))) as Hd.
  assert (key_write (zeros IPMI_MAX_MD_SIZE) mac =
    Ok (mac ++ drop (Z.to_nat (zlen mac)) (zeros IPMI_MAX_MD_SIZE))) as ->.
  { unfold key_write. change (zeros IPMI_MAX_MD_SIZE) with ([] ++ zeros IPMI_MAX_MD_SIZE) at 1.
    rewrite wr_next; [done | done |]. rewrite zlen_zeros; unfold IPMI_MAX_MD_SIZE; lia. }
  cbn [mbind res_bind]. rewrite rakp_digest_md by done. cbn [mbind res_bind].
  rewrite Hm, Z.eqb_refl. cbn [rassert mbind res_bind].
  rewrite drop_zeros by (unfold IPMI_MAX_MD_SIZE; lia).
  rewrite u8_small by (unfold is_u8; lia). unfold with_sik, set_v2.
  assert (mac = HMAC (alg_md (auth_alg (v2_data session))) key (sik_mac_input session intf)) as Hmac.
  { subst mac key. unfold sik_mac_input, kuid. f_equal; [by subst kg'; destruct (rd _ 0 =? 0) |].
    by rewrite <- !app_assoc. }
  rewrite <- Hmac, Hm. done.
Qed.

(** ** Encryption and decryption *)

Definition padded (p : list Z) : list Z :=
  p ++ seqZ 1 (conf_pad_length (zlen p)) ++ [conf_pad_length (zlen p)].

Lemma zlen_seqZ m n : 0 <= n -> zlen (seqZ m n) = n.
Proof. intros. unfold zlen. rewrite length_seqZ. lia. Qed.

Lemma conf_pad_range n : 0 <= n -> 0 <= conf_pad_length n < 16 /\ (n + conf_pad_length n + 1) mod 16 = 0.
Proof.
  intros H. unfold conf_pad_length, IPMI_CRYPT_AES_CBC_128_BLOCK_SIZE.
  destruct ((n + 1) mod 16 =? 0) eqn:E; cbn [negb]; bool_hyps;
    Z.to_euclidean_division_equations; lia.
Qed.

Lemma zlen_padded p : zlen (padded p) = zlen p + conf_pad_length (zlen p) + 1.
Proof.
  unfold padded. pose proof (conf_pad_range (zlen p) (zlen_nonneg p)).
  rewrite !zlen_app, zlen_seqZ by lia. zlen_lia.
Qed.

Lemma padded_bytes p : bytes p -> bytes (padded p).
Proof.
  intros H. unfold padded. pose proof (conf_pad_range (zlen p) (zlen_nonneg p)) as [Hr _].
  rewrite !Forall_app. split_and!; [done | |].
  - apply Forall_forall. intros x Hx. apply elem_of_seqZ in Hx. unfold is_u8. lia.
  - apply Forall_singleton. unfold is_u8. lia.
Qed.

(** Encryption overwrites the range of the payload with the initialization
    vector and the ciphertext of the padded payload. *)
Lemma encrypt_run key iv a p rest b :
  zlen iv = 16 -> 16 <= zlen key -> 16 + zlen (padded p) <= zlen p + zlen rest ->
  16 + zlen (padded p) < 65536 -> malloc (zlen (padded p)) = Some b ->
  exists enc, zlen enc = zlen (padded p) /\ (bytes p -> bytes enc) /\
    aes_128_cbc_decrypt iv (slice key 0 16) enc = Some (padded p) /\
    lanplus_encrypt_payload IPMI_CRYPT_AES_CBC_128 key (Some iv) (a ++ p ++ rest) (zlen a) (zlen p) =
      Ok (0, a ++ iv ++ enc ++ drop (Z.to_nat (16 + zlen (padded p))) (p ++ rest),
          Some (16 + zlen (padded p))).
Proof.
  intros Hiv Hkey Hfit Hsz Hb.
  pose proof (zlen_nonneg p) as Hp. pose proof (conf_pad_range (zlen p) Hp) as [Hr Hmod].
  pose proof (zlen_padded p) as Hpad. set (pad := conf_pad_length (zlen p)) in *.
  assert (zlen (padded p) mod 16 = 0) as Hm by (by rewrite Hpad).
  destruct (aes_encrypt_ok iv (slice key 0 16) (padded p)) as (enc & He & Hl & Hby & Hd).
  { done. } { apply zlen_slice; lia. } { done. }
  exists enc. split_and!; [done | intros; by apply Hby, padded_bytes | done |].
  unfold lanplus_encrypt_payload. change (IPMI_CRYPT_AES_CBC_128 =? IPMI_CRYPT_NONE) with false.
  rewrite (rassert_true (IPMI_CRYPT_AES_CBC_128 =? _)) by done. cbn [mbind res_bind].
  rewrite (rassert_true (zlen p <=? _)) by (unfold IPMI_MAX_PAYLOAD_SIZE; lia). cbn [mbind res_bind].
  fold pad. rewrite <- Hpad, Hb. rewrite rassert_true by zlen_lia. cbn [mbind res_bind].
  apply malloc_len in Hb; [| lia].
  rewrite slice_app_mid by done. change b with ([] ++ b) at 1.
  pose proof (zlen_seqZ 1 pad ltac:(lia)) as Hs.
  rewrite (wr_next [] b), Some_bind by zlen_lia. rewrite (wr_next ([] ++ p)), Some_bind by zlen_lia.
  rewrite (wr_next (([] ++ p) ++ _)) by zlen_lia. cbn [or_oob mbind res_bind].
  rewrite (zlen_0_nil (drop _ (drop _ (drop _ _)))) by zlen_lia. rewrite app_nil_r.
  assert ((([] ++ p) ++ seqZ 1 pad) ++ [pad] = padded p) as ->.
  { unfold padded. cbn [app]. by rewrite <- app_assoc. }
  rewrite wr_next by zlen_lia. cbn [or_oob mbind res_bind].
  unfold lanplus_encrypt_aes_cbc_128. rewrite (proj2 (Z.eqb_neq _ _)) by lia.
  rewrite rassert_true by (unfold IPMI_CRYPT_AES_CBC_128_BLOCK_SIZE; lia). cbn [mbind res_bind].
  rewrite He. cbn [default from_option id].
  rewrite wr_next by (unfold IPMI_CRYPT_AES_CBC_128_BLOCK_SIZE; zlen_lia). cbn [or_oob mbind res_bind].
  rewrite u16_small by (unfold is_u16, IPMI_CRYPT_AES_CBC_128_BLOCK_SIZE; lia).
  rewrite Hl, Hiv, drop_drop, <- !app_assoc, Z2Nat.inj_add by lia. done.
Qed.

Lemma decrypt_run key iv a p enc c b :
  zlen iv = 16 -> zlen enc = zlen (padded p) -> 16 + zlen (padded p) < 65536 ->
  aes_128_cbc_decrypt iv (slice key 0 16) enc = Some (padded p) ->
  malloc (16 + zlen (padded p)) = Some b ->
  lanplus_decrypt_payload IPMI_CRYPT_AES_CBC_128 key (a ++ iv ++ enc ++ c) (zlen a)
      (16 + zlen (padded p)) =
    Ok (0, a ++ padded p ++ drop (Z.to_nat (zlen (padded p))) (iv ++ enc ++ c), Some (zlen p)).
Proof.
  intros Hiv Hl Hsz Hd Hb.
  pose proof (zlen_nonneg p) as Hp. pose proof (conf_pad_range (zlen p) Hp) as [Hr Hmod].
  pose proof (zlen_padded p) as Hpad. set (pad := conf_pad_length (zlen p)) in *.
  assert (zlen (padded p) mod 16 = 0) as Hm by (by rewrite Hpad).
  pose proof (zlen_nonneg a). pose proof (zlen_nonneg c).
  unfold lanplus_decrypt_payload. change (IPMI_CRYPT_AES_CBC_128 =? IPMI_CRYPT_NONE) with false.
  rewrite (rassert_true (IPMI_CRYPT_AES_CBC_128 =? _)) by done. cbn [mbind res_bind]. rewrite Hb. apply malloc_len in Hb; [| lia].
  unfold lanplus_decrypt_aes_cbc_128, IPMI_CRYPT_AES_CBC_128_BLOCK_SIZE.
  replace (16 + zlen (padded p) - 16) with (zlen (padded p)) by lia.
  rewrite u32_small by (unfold is_u32; lia). rewrite (proj2 (Z.eqb_neq _ _)) by lia.
  rewrite (proj2 (Z.ltb_ge _ _)) by zlen_lia. rewrite rassert_true by lia. cbn [mbind res_bind].
  rewrite (proj2 (Z.ltb_ge _ _)) by zlen_lia. rewrite slice_app_mid by done.
  rewrite (app_assoc a iv), (slice_app_mid (a ++ iv)) by zlen_lia. rewrite Hd.
  cbn [default from_option id mbind res_bind].
  change b with ([] ++ b) at 1. rewrite (wr_next [] b) by (done || zlen_lia). cbn [or_oob mbind res_bind app].
  rewrite (rassert_true (negb _)) by lia. cbn [mbind res_bind].
  rewrite <- app_assoc, (wr_next a) by zlen_lia. cbn [or_oob mbind res_bind].
  set (dp := padded p ++ drop _ b).
  assert (rd dp (zlen (padded p) - 1) = pad) as ->.
  { subst dp. unfold padded. fold pad. rewrite !app_assoc. rewrite <- (app_assoc (p ++ _)).
    apply rd_app_mid. rewrite !zlen_app, zlen_seqZ by lia. zlen_lia. }
  replace (zlen (padded p) - pad - 1) with (zlen p) by lia. rewrite u16_small by (unfold is_u16; lia).
  assert (zlen p + pad <= zlen dp) as Hdp by (subst dp; zlen_lia).
  rewrite (proj2 (Z.ltb_ge _ _)) by done. rewrite rassert_true; [cbn [mbind res_bind] |].
  - by rewrite <- app_assoc.
  - apply forallb_forall. intros i Hi. apply list_elem_of_In, elem_of_seqZ in Hi.
    apply Z.eqb_eq. subst dp. unfold padded. fold pad. unfold rd.
    rewrite <- !app_assoc, lookup_app_r by (unfold zlen in *; lia).
    replace (Z.to_nat (zlen p + i) - length p)%nat with (Z.to_nat i) by (unfold zlen in *; lia).
    rewrite lookup_app_l by (rewrite length_seqZ; lia).
    rewrite lookup_seqZ_lt by lia. cbn. lia.
Qed.
End CryptFacts.

(** ** A concrete environment, for the witnesses *)

#[export] Instance toy_ssl : OpenSSL := {|
  HMAC m k d := replicate (Z.to_nat (evp_md_size m)) (ipmi_csum (k ++ d));
  aes_128_cbc_encrypt iv k d := Some d;
  aes_128_cbc_decrypt iv k d := Some d;
|}.

#[export] Instance toy_ssl_laws : OpenSSLLaws toy_ssl.
Proof.
  constructor.
  - intros m k d. cbn. rewrite zlen_replicate. by destruct m.
  - intros m k d. apply Forall_replicate, csum_range.
  - intros iv k d _ _ _. by exists d.
Defined.

(** ** Properties *)

Section Properties.
Context `{ssl : OpenSSL} {laws : OpenSSLLaws ssl} `{mem : Malloc} {memlaws : MallocLaws mem}.

(** C5. A payload encrypted in place, with its bytes anywhere in a buffer that
    has room for the initialization vector and the padding, is decrypted in
    place to the same bytes and the same length.  The two buffers are given
    whole: encryption replaces exactly the range of the initialization vector
    and the ciphertext, a multiple of the block size, decryption exactly the
    range of the padded payload, and every byte before and behind these ranges
    is the one that was there. *)
Theorem encrypt_decrypt_roundtrip key iv a p rest :
  (forall n, is_Some (malloc n)) -> zlen iv = 16 -> 16 <= zlen key ->
  16 + zlen (padded p) <= zlen p + zlen rest -> 16 + zlen (padded p) < 65536 ->
  let n := 16 + zlen (padded p) in
  exists enc pad,
    zlen enc = zlen (padded p) /\ n mod 16 = 0 /\ zlen pad = zlen (padded p) - zlen p /\
    let behind := drop (Z.to_nat n) (p ++ rest) in
    lanplus_encrypt_payload IPMI_CRYPT_AES_CBC_128 key (Some iv) (a ++ p ++ rest) (zlen a) (zlen p) =
      Ok (0, a ++ iv ++ enc ++ behind, Some n) /\
    lanplus_decrypt_payload IPMI_CRYPT_AES_CBC_128 key (a ++ iv ++ enc ++ behind) (zlen a) n =
      Ok (0, a ++ p ++ pad ++ drop (Z.to_nat (n - 16)) (iv ++ enc) ++ behind, Some (zlen p)).
Proof.
  intros Hm Hiv Hkey Hfit Hsz n.
  destruct (Hm (zlen (padded p))) as [b1 Hb1]. destruct (Hm (16 + zlen (padded p))) as [b2 Hb2].
  destruct (encrypt_run key iv a p rest b1 Hiv Hkey Hfit Hsz Hb1) as (enc & Hl & _ & Hd & He).
  pose proof (decrypt_run key iv a p enc
    (drop (Z.to_nat (16 + zlen (padded p))) (p ++ rest)) b2 Hiv Hl Hsz Hd Hb2) as Hdec.
  pose proof (conf_pad_range (zlen p) (zlen_nonneg p)) as [Hr Hmod]. pose proof (zlen_padded p) as Hpad.
  exists enc, (seqZ 1 (conf_pad_length (zlen p)) ++ [conf_pad_length (zlen p)]). cbv zeta. split_and!.
  - done.
  - subst n. rewrite Hpad. Z.to_euclidean_division_equations. lia.
  - rewrite zlen_app, zlen_seqZ by lia. zlen_lia.
  - exact He.
  - subst n. rewrite Hdec. do 3 f_equal. rewrite Z.add_simpl_l, (app_assoc iv), drop_app_le.
    + unfold padded. by rewrite <- !app_assoc.
    + rewrite length_app. unfold zlen in *. lia.
Qed.

(** C4. The authentication codes of the RAKP exchange are the HMACs that the
    IPMI specification defines: RAKP 2 and RAKP 3 under the user key, the
    session integrity key under Kg when it is set and the user key otherwise,
    RAKP 4 under the session integrity key, over the specified fields; every
    byte of the hashed buffers is initialized. *)
Theorem rakp_authcodes_follow_spec session intf mac :
  (forall n, is_Some (malloc n)) -> session_wf session -> params_wf (ssn_params intf) ->
  supported_auth (auth_alg (v2_data session)) = true -> oem intf = None ->
  let v := v2_data session in
  let md := alg_md (auth_alg v) in
  let key := if rd (kg (ssn_params intf)) 0 =? 0 then kuid session
             else slice (kg (ssn_params intf)) 0 IPMI_AUTHCODE_BUFFER_SIZE in
  lanplus_rakp2_hmac_matches session mac intf =
    Ok (bool_decide (take (Z.to_nat (evp_md_size md)) mac = HMAC md (kuid session) (rakp2_mac_input session intf))) /\
  lanplus_generate_rakp3_authcode session intf =
    Ok (Some (HMAC md (kuid session) (rakp3_mac_input session intf (requested_role v)))) /\
  lanplus_generate_sik session intf = Ok (0, with_sik session (HMAC md key (sik_mac_input session intf))) /\
  lanplus_rakp4_hmac_matches session mac intf =
    Ok (memcmp0 mac (HMAC md (slice (sik v) 0 (sik_len v)) (rakp4_mac_input session))
          (if auth_alg v =? IPMI_AUTH_RAKP_HMAC_SHA1 then 12 else 16)).
Proof.
  intros Hm Hs Hi Ha Ho v md key.
  assert (forall n, exists b, malloc n = Some b) as Hm' by (intros n; by destruct (Hm n) as [b ?]; exists b).
  assert (forall t, ipmi_oem_active intf t = false) as Ho' by (intros; unfold ipmi_oem_active; by rewrite Ho).
  split_and!.
  - destruct (Hm' (58 + strlen (username (ssn_params intf)))) as [b Hb].
    rewrite (rakp2_run _ _ _ b) by done. cbv zeta. fold v md. f_equal. unfold memcmp0.
    rewrite HMAC_len. apply bool_decide_ext. rewrite (take_ge (HMAC _ _ _)); [done |].
    pose proof (HMAC_len md (kuid session) (rakp2_mac_input session intf)) as H. unfold zlen in H. lia.
  - destruct (Hm' (22 + strlen (username (ssn_params intf)))) as [b Hb].
    rewrite (rakp3_run _ _ b) by done. by rewrite !Ho'.
  - destruct (Hm' (34 + strlen (username (ssn_params intf)))) as [b Hb].
    by rewrite (sik_run _ _ b).
  - destruct (Hm' 36) as [b Hb]. by rewrite (rakp4_run _ _ _ b).
Qed.

(** Finding: when the buffer for the MAC input cannot be allocated, the
    check of the key exchange authentication code reports a match, whatever
    the BMC sent. *)
Theorem rakp2_malloc_failure_matches session mac intf :
  supported_auth (auth_alg (v2_data session)) = true ->
  malloc (58 + strlen (username (ssn_params intf))) = None ->
  lanplus_rakp2_hmac_matches session mac intf = Ok true.
Proof.
  intros Ha Hb. unfold lanplus_rakp2_hmac_matches. rewrite supported_not_none, Ha by done.
  cbn [rassert mbind res_bind]. change (4 + 4 + 16 + 16 + 16 + 1 + 1) with 58. by rewrite Hb.
Qed.
End Properties.

Lemma encrypt_decrypt_roundtrip_witness :
  exists enc pad,
    zlen enc = 16 /\ 32 mod 16 = 0 /\ zlen pad = 13 /\
    let behind := drop 32 ([1; 2; 3] ++ zeros 40) in
    lanplus_encrypt_payload IPMI_CRYPT_AES_CBC_128 (zeros 32) (Some (zeros 16))
      ([6; 0] ++ [1; 2; 3] ++ zeros 40) 2 3 = Ok (0, [6; 0] ++ zeros 16 ++ enc ++ behind, Some 32) /\
    lanplus_decrypt_payload IPMI_CRYPT_AES_CBC_128 (zeros 32) ([6; 0] ++ zeros 16 ++ enc ++ behind) 2 32 =
      Ok (0, [6; 0] ++ [1; 2; 3] ++ pad ++ drop 16 (zeros 16 ++ enc) ++ behind, Some 3).
Proof.
  apply (encrypt_decrypt_roundtrip (zeros 32) (zeros 16) [6; 0] [1; 2; 3] (zeros 40)).
  - intros n. eexists. reflexivity.
  - reflexivity.
  - vm_compute. discriminate.
  - vm_compute. discriminate.
  - reflexivity.
Defined.

Definition witness_session : ipmi_session :=
  set_v2 (fun v => v <| auth_alg := IPMI_AUTH_RAKP_HMAC_SHA1 |>) zero_session.
Definition witness_params : ipmi_session_params :=
  mk_params ([97; 100; 109] ++ zeros 14) (zeros 21) 6 4 3 1 4 1 (zeros 21) 0.
Definition witness_lan : ipmi_intf :=
  mk_intf true false false (mk_addr 0x20 0x20 0 0 0 0 0) witness_params None 0.

Lemma witness_session_wf : session_wf witness_session.
Proof.
  repeat split; try (vm_compute; discriminate); try reflexivity;
    apply zeros_bytes.
Defined.

Lemma witness_params_wf : params_wf witness_params.
Proof.
  repeat split; try reflexivity; try (vm_compute; discriminate).
  repeat constructor; vm_compute; discriminate.
Defined.

Lemma rakp_authcodes_follow_spec_witness :
  lanplus_generate_rakp3_authcode witness_session witness_lan =
    Ok (Some (HMAC EVP_sha1 (zeros 20) (zeros 16 ++ [0; 0; 0; 0; 0; 3; 97; 100; 109]))).
Proof.
  apply (rakp_authcodes_follow_spec witness_session witness_lan []).
  - intros n. eexists. reflexivity.
  - apply witness_session_wf.
  - apply witness_params_wf.
  - reflexivity.
  - reflexivity.
Defined.

Lemma rakp2_malloc_failure_matches_witness :
  @lanplus_rakp2_hmac_matches toy_ssl (fun _ => None) witness_session [1; 2; 3] witness_lan = Ok true.
Proof. by apply (@rakp2_malloc_failure_matches toy_ssl (fun _ => None)). Defined.
