(* ===== verification/LanplusMsg.v ===== *)
(** * RMCP+ messages (src/plugins/lanplus/lanplus.c)

    The wire representations of the payloads, the builder of RMCP+ packets
    with its buffer (allocated, encrypted in place, reallocated, signed), the
    v1.5 packet, and the readers of the received packets. *)

From S2P Require Import Prelude Wire Ipmi Ipmb Intf Session Crypt.

#[local] Open Scope Z_scope.

Definition IPMI_LANPLUS_OFFSET_PAYLOAD_TYPE : Z := 5.
Definition IPMI_LANPLUS_OFFSET_SESSION_ID : Z := 6.
Definition IPMI_LANPLUS_OFFSET_SEQUENCE_NUM : Z := 10.
Definition IPMI_LANPLUS_OFFSET_PAYLOAD_SIZE : Z := 14.
Definition IPMI_LANPLUS_OFFSET_PAYLOAD : Z := 16.
Definition IPMI_MAX_INTEGRITY_PAD_SIZE : Z := IPMI_MAX_MD_SIZE.
Definition IPMI_MAX_AUTH_CODE_SIZE : Z := IPMI_MAX_MD_SIZE.

Definition b2z (b : bool) : Z := if b then 1 else 0.

(** ** Cipher suites *)

(** [lanplus_get_requested_ciphers]: authentication, integrity and encryption
    algorithm; [None] for the return value 1. *)
Definition lanplus_get_requested_ciphers (cipher_suite_id : Z) : option (Z * Z * Z) :=
  match cipher_suite_id with
  | 0 => Some (IPMI_AUTH_RAKP_NONE, IPMI_INTEGRITY_NONE, IPMI_CRYPT_NONE)
  | 1 => Some (IPMI_AUTH_RAKP_HMAC_SHA1, IPMI_INTEGRITY_NONE, IPMI_CRYPT_NONE)
  | 2 => Some (IPMI_AUTH_RAKP_HMAC_SHA1, IPMI_INTEGRITY_HMAC_SHA1_96, IPMI_CRYPT_NONE)
  | 3 => Some (IPMI_AUTH_RAKP_HMAC_SHA1, IPMI_INTEGRITY_HMAC_SHA1_96, IPMI_CRYPT_AES_CBC_128)
  | 4 => Some (IPMI_AUTH_RAKP_HMAC_SHA1, IPMI_INTEGRITY_HMAC_SHA1_96, IPMI_CRYPT_XRC4_128)
  | 5 => Some (IPMI_AUTH_RAKP_HMAC_SHA1, IPMI_INTEGRITY_HMAC_SHA1_96, IPMI_CRYPT_XRC4_40)
  | 6 => Some (IPMI_AUTH_RAKP_HMAC_MD5, IPMI_INTEGRITY_NONE, IPMI_CRYPT_NONE)
  | 7 => Some (IPMI_AUTH_RAKP_HMAC_MD5, IPMI_INTEGRITY_HMAC_MD5_128, IPMI_CRYPT_NONE)
  | 8 => Some (IPMI_AUTH_RAKP_HMAC_MD5, IPMI_INTEGRITY_HMAC_MD5_128, IPMI_CRYPT_AES_CBC_128)
  | 9 => Some (IPMI_AUTH_RAKP_HMAC_MD5, IPMI_INTEGRITY_HMAC_MD5_128, IPMI_CRYPT_XRC4_128)
  | 10 => Some (IPMI_AUTH_RAKP_HMAC_MD5, IPMI_INTEGRITY_HMAC_MD5_128, IPMI_CRYPT_XRC4_40)
  | 11 => Some (IPMI_AUTH_RAKP_HMAC_MD5, IPMI_INTEGRITY_MD5_128, IPMI_CRYPT_NONE)
  | 12 => Some (IPMI_AUTH_RAKP_HMAC_MD5, IPMI_INTEGRITY_MD5_128, IPMI_CRYPT_AES_CBC_128)
  | 13 => Some (IPMI_AUTH_RAKP_HMAC_MD5, IPMI_INTEGRITY_MD5_128, IPMI_CRYPT_XRC4_128)
  | 14 => Some (IPMI_AUTH_RAKP_HMAC_MD5, IPMI_INTEGRITY_MD5_128, IPMI_CRYPT_XRC4_40)
  | 15 => Some (IPMI_AUTH_RAKP_HMAC_SHA256, IPMI_INTEGRITY_NONE, IPMI_CRYPT_NONE)
  | 16 => Some (IPMI_AUTH_RAKP_HMAC_SHA256, IPMI_INTEGRITY_HMAC_SHA256_128, IPMI_CRYPT_NONE)
  | 17 => Some (IPMI_AUTH_RAKP_HMAC_SHA256, IPMI_INTEGRITY_HMAC_SHA256_128, IPMI_CRYPT_AES_CBC_128)
  | _ => None
  end.

(** ** Payloads *)

(** The [sol_packet] member of [struct ipmi_v2_payload]. *)
Record sol_out := mk_solout {
  so_data : list Z;
  character_count : Z;
  so_packet_sequence_number : Z;
  so_acked_packet_number : Z;
  so_accepted_character_count : Z;
  so_is_nack : bool;
  assert_ring_wor : bool;
  generate_break : bool;
  deassert_cts : bool;
  deassert_dcd_dsr : bool;
  flush_inbound : bool;
  flush_outbound : bool;
}.

#[export] Instance sol_out_rebuild : Rebuild sol_out := fun r =>
  mk_solout (so_data r) (character_count r) (so_packet_sequence_number r)
    (so_acked_packet_number r) (so_accepted_character_count r) (so_is_nack r) (assert_ring_wor r)
    (generate_break r) (deassert_cts r) (deassert_dcd_dsr r) (flush_inbound r) (flush_outbound r).

(** [struct ipmi_v2_payload]: the constructor is the [payload_type]. *)
Inductive payload_body :=
  | PL_ipmi_request (rq_seq : Z) (request : ipmi_rq)
  | PL_sol_packet (p : sol_out)
  | PL_open_session_request (request : list Z)
  | PL_rakp_1_message (message : list Z)
  | PL_rakp_3_message (message : list Z)
  | PL_other (type : Z).

Record ipmi_v2_payload := mk_payload { payload_length : Z; payload : payload_body }.

#[export] Instance payload_rebuild : Rebuild ipmi_v2_payload := fun r =>
  mk_payload (payload_length r) (payload r).

Definition payload_type (b : payload_body) : Z :=
  match b with
  | PL_ipmi_request _ _ => IPMI_PAYLOAD_TYPE_IPMI
  | PL_sol_packet _ => IPMI_PAYLOAD_TYPE_SOL
  | PL_open_session_request _ => IPMI_PAYLOAD_TYPE_RMCP_OPEN_REQUEST
  | PL_rakp_1_message _ => IPMI_PAYLOAD_TYPE_RAKP_1
  | PL_rakp_3_message _ => IPMI_PAYLOAD_TYPE_RAKP_3
  | PL_other t => t
  end.

(** The number of encapsulations of [getIpmiPayloadWireRep]. *)
Definition bridged_request (a : intf_addr) (bridgePossible : bool) : Z :=
  let ourAddress := u8 (my_addr a) in
  let ourAddress := if ourAddress =? 0 then IPMI_BMC_SLAVE_ADDR else ourAddress in
  if (target_addr a =? ourAddress) || negb bridgePossible then 0
  else if negb (transit_addr a =? ourAddress) && negb (transit_addr a =? 0) then 2 else 1.

(** [getIpmiPayloadWireRep]: the bytes written from [msg] on and the payload
    length.  [cs], [cs2] and [cs3] are the starts of the checksummed ranges. *)
Definition getIpmiPayloadWireRep (a : intf_addr) (bridgePossible : bool) (length : Z)
    (req : ipmi_rq) (rq_seq curr_seq : Z) : list Z * Z :=
  let bridgedRequest := bridged_request a bridgePossible in
  let msg := [] in
  let '(msg, cs, cs2, length) :=
    if 1 <=? bridgedRequest then
      let msg := msg ++ [IPMI_BMC_SLAVE_ADDR; u8 (IPMI_NETFN_APP .<< 2)] in
      let msg := msg ++ [ipmi_csum (drop 0 msg)] in
      (msg ++ [IPMI_REMOTE_SWID; u8 (curr_seq .<< 2); 0x34;
               u8 (0x40 .| (if bridgedRequest =? 2 then transit_channel a else target_channel a))],
       7%nat, 3%nat, u16 (length + 7))
    else (msg, 0%nat, 0%nat, length) in
  let '(msg, cs, cs3, length) :=
    if bridgedRequest =? 2 then
      let msg := msg ++ [u8 (transit_addr a); u8 (IPMI_NETFN_APP .<< 2)] in
      let msg := msg ++ [ipmi_csum (drop cs msg)] in
      (msg ++ [IPMI_REMOTE_SWID; u8 (curr_seq .<< 2); 0x34; u8 (0x40 .| target_channel a)],
       14%nat, 10%nat, u16 (length + 7))
    else (msg, cs, 0%nat, length) in
  let msg := msg ++ [if 1 <=? bridgedRequest then u8 (target_addr a) else IPMI_BMC_SLAVE_ADDR] in
  let msg := msg ++ [u8 ((rq_netfn req .<< 2) .| (rq_lun req .& 3))] in
  let msg := msg ++ [ipmi_csum (drop cs msg)] in
  let cs := List.length msg in
  let msg := msg ++ [if bridgedRequest <? 2 then IPMI_REMOTE_SWID else u8 (my_addr a)] in
  let msg := msg ++ [u8 (rq_seq .<< 2); rq_cmd req] ++ rq_data req in
  let msg := msg ++ [ipmi_csum (drop cs msg)] in
  let '(msg, length) := if bridgedRequest =? 2
                        then (msg ++ [ipmi_csum (drop cs3 msg)], u16 (length + 1))
                        else (msg, length) in
  if 1 <=? bridgedRequest
  then (msg ++ [ipmi_csum (drop cs2 msg)], u16 (length + 1))
  else (msg, length).

(** [getSolPayloadWireRep]: the bytes written, or a read past [data]. *)
Definition getSolPayloadWireRep (p : sol_out) : res (list Z * Z) :=
  if zlen (so_data p) <? character_count p then Bad OutOfBounds else
  let flags := (if so_is_nack p then 0x40 else 0) .| (if assert_ring_wor p then 0x20 else 0)
    .| (if generate_break p then 0x10 else 0) .| (if deassert_cts p then 0x08 else 0)
    .| (if deassert_dcd_dsr p then 0x04 else 0) .| (if flush_inbound p then 0x02 else 0)
    .| (if flush_outbound p then 0x01 else 0) in
  Ok ([so_packet_sequence_number p; so_acked_packet_number p; so_accepted_character_count p; flags]
        ++ slice (so_data p) 0 (character_count p), u16 (character_count p + 4)).

(** The switch on the payload type; the other messages are copied. *)
Definition payload_wire (a : intf_addr) (bridgePossible : bool) (p : ipmi_v2_payload)
    (curr_seq : Z) : res (list Z * Z) :=
  match payload p with
  | PL_ipmi_request rq_seq req =>
      Ok (getIpmiPayloadWireRep a bridgePossible (payload_length p) req rq_seq curr_seq)
  | PL_sol_packet s => getSolPayloadWireRep s
  | PL_open_session_request m | PL_rakp_1_message m | PL_rakp_3_message m =>
      if zlen m <? payload_length p then Bad OutOfBounds
      else Ok (slice m 0 (payload_length p), payload_length p)
  | PL_other _ => Bad AssertFailed
  end.

(** ** The packet builder *)

Definition rmcp_bytes : list Z := [RMCP_VERSION_1; 0; 0xff; RMCP_CLASS_IPMI].

Section Build.
Context `{ssl : OpenSSL} `{mem : Malloc}.

(** [realloc]: the old bytes, then arbitrary ones. *)
Definition realloc (buf : list Z) (n : Z) : option (list Z) :=
  j ← malloc n; Some (take (Z.to_nat n) (buf ++ drop (length buf) j)).

Definition is_active (s : ipmi_session) : bool :=
  bool_decide (session_state (v2_data s) = LANPLUS_STATE_ACTIVE).

(** The header of the session. *)
Definition put_session_header (s : ipmi_session) (type : Z) (msg : list Z) : option (list Z) :=
  let v := v2_data s in
  let type := if is_active s
    then type .| (if negb (crypt_alg v =? IPMI_CRYPT_NONE) then 0x80 else 0)
              .| (if negb (integrity_alg v =? IPMI_INTEGRITY_NONE) then 0x40 else 0)
    else type in
  msg ← wr msg 0 rmcp_bytes;
  msg ← wr msg IPMI_LANPLUS_OFFSET_AUTHTYPE [0x06];
  msg ← wr msg IPMI_LANPLUS_OFFSET_PAYLOAD_TYPE [type];
  if is_active s then
    msg ← wr msg IPMI_LANPLUS_OFFSET_SESSION_ID (htoipmi32 (bmc_id v));
    wr msg IPMI_LANPLUS_OFFSET_SEQUENCE_NUM (htoipmi32 (out_seq s))
  else Some msg.

(** The encryption of the payload and the reallocation when it grew; [None]
    when [realloc] fails. *)
Definition encrypt_step (s : ipmi_session) (rand : option (list Z)) (msg : list Z) (length : Z)
    : res (option (list Z * Z)) :=
  if negb (is_active s) then Ok (Some (msg, length)) else
  '(_, msg, written) ← lanplus_encrypt_payload (crypt_alg (v2_data s)) (k2 (v2_data s)) rand msg
    IPMI_LANPLUS_OFFSET_PAYLOAD length;
  let new_length := default length written in
  if negb (length =? new_length) then
    match realloc msg (IPMI_LANPLUS_OFFSET_PAYLOAD + new_length + IPMI_MAX_INTEGRITY_PAD_SIZE
                       + 1 + 1 + IPMI_MAX_AUTH_CODE_SIZE) with
    | None => Ok None
    | Some msg => Ok (Some (msg, new_length))
    end
  else Ok (Some (msg, new_length)).

(** The integrity pad that completes the authenticated range. *)
Definition integrity_pad (intf : ipmi_intf) (length : Z) : Z :=
  let length_before_authcode :=
    if ipmi_oem_active intf "icts" then 12 + length else 12 + length + 1 + 1 in
  if negb (length_before_authcode mod 4 =? 0) then 4 - length_before_authcode mod 4 else 0.

(** The digest length that the builder asserts. *)
Definition integrity_digest_length (alg : Z) : res Z :=
  if alg =? IPMI_INTEGRITY_HMAC_SHA1_96 then Ok IPMI_SHA_DIGEST_LENGTH
  else if alg =? IPMI_INTEGRITY_HMAC_MD5_128 then Ok IPMI_MD5_DIGEST_LENGTH
  else if alg =? IPMI_INTEGRITY_HMAC_SHA256_128 then Ok IPMI_SHA256_DIGEST_LENGTH
  else Bad AssertFailed.

(** The session trailer: the buffer and [session_trailer_length]. *)
Definition put_session_trailer (intf : ipmi_intf) (s : ipmi_session) (msg : list Z) (length : Z)
    : res (list Z * Z) :=
  let v := v2_data s in
  if is_active s && negb (integrity_alg v =? IPMI_INTEGRITY_NONE) then
    let start := IPMI_LANPLUS_OFFSET_PAYLOAD + length in
    let pad := integrity_pad intf length in
    msg ← or_oob (
      msg ← wr msg start (replicate (Z.to_nat pad) 0xFF);
      msg ← wr msg (start + pad) [pad];
      wr msg (start + pad + 1) [0x07]);
    let hmac_input_size := 12 + length + pad + 2 in
    hmac ← lanplus_HMAC (integrity_alg v) (slice (k1 v) 0 (k1_len v))
             (slice msg IPMI_LANPLUS_OFFSET_AUTHTYPE hmac_input_size);
    msg ← or_oob (wr msg (IPMI_LANPLUS_OFFSET_PAYLOAD + length + pad + 2) hmac);
    digest ← integrity_digest_length (integrity_alg v);
    _ ← rassert (zlen hmac =? digest);
    auth_length ← integrity_authcode_size (integrity_alg v);
    Ok (msg, pad + 2 + auth_length)
  else Ok (msg, 0).

Definition next_out_seq (s : ipmi_session) : ipmi_session :=
  let q := u32 (out_seq s + 1) in
  s <| out_seq := if q =? 0 then u32 (q + 1) else q |>.

(** [ipmi_lanplus_build_v2x_msg]: the message ([None] when a buffer could not
    be had and the outputs are not written), the payload length it leaves in
    the payload, and the session. *)
Definition ipmi_lanplus_build_v2x_msg (intf : ipmi_intf) (bridgePossible : bool)
    (p : ipmi_v2_payload) (curr_seq : Z) (rand : option (list Z)) (s : ipmi_session)
    : res (option (list Z) * Z * ipmi_session) :=
  match malloc (4 + 10 + 2 + payload_length p + IPMI_MAX_INTEGRITY_PAD_SIZE + 1 + 1
                + IPMI_MAX_AUTH_CODE_SIZE) with
  | None => Ok (None, payload_length p, s)
  | Some m =>
      let msg := zeros (zlen m) in
      msg ← or_oob (put_session_header s (payload_type (payload p)) msg);
      '(wire, length) ← payload_wire (addr intf) bridgePossible p curr_seq;
      msg ← or_oob (wr msg IPMI_LANPLUS_OFFSET_PAYLOAD wire);
      r ← encrypt_step s rand msg length;
      match r with
      | None => Ok (None, length, s)
      | Some (msg, length) =>
          msg ← or_oob (wr msg IPMI_LANPLUS_OFFSET_PAYLOAD_SIZE (htoipmi16 length));
          '(msg, session_trailer_length) ← put_session_trailer intf s msg length;
          let msg_len := IPMI_LANPLUS_OFFSET_PAYLOAD + length + session_trailer_length in
          Ok (Some (slice msg 0 msg_len), length, next_out_seq s)
      end
  end.

(** The message of [ipmi_lanplus_build_v15_ipmi_cmd]; [malloc] has succeeded. *)
Definition v15_ipmi_msg (s : ipmi_session) (req : ipmi_rq) : res (list Z) :=
  let msg := rmcp_bytes ++ [IPMI_SESSION_AUTHTYPE_NONE] ++ htoipmi32 (out_seq s) ++ [0; 0; 0; 0] in
  let msg := msg ++ [u8 (rq_data_len req + 7)] in
  let cs := length msg in
  let msg := msg ++ [IPMI_BMC_SLAVE_ADDR; u8 (rq_netfn req .<< 2)] in
  let msg := msg ++ [ipmi_csum (drop cs msg)] in
  let cs := length msg in
  let msg := msg ++ [IPMI_REMOTE_SWID; 0; rq_cmd req] ++ rq_data req in
  let msg := msg ++ [ipmi_csum (drop cs msg)] in
  or_oob (wr (zeros (rq_data_len req + 21)) 0 msg).

End Build.

(** ** The readers *)

(** [read_open_session_response] *)
Definition read_open_session_response (rsp : ipmi_rs) (offset : Z) : ipmi_rs :=
  let d i := rd (rs_data rsp) (offset + i) in
  let ok := d 1 =? 0 in
  rsp <| rs_payload := put_open_session_response (d 0) (d 1) (d 2)
    (ipmi32toh (drop (Z.to_nat (offset + 4)) (rs_data rsp)))
    (if ok then ipmi32toh (drop (Z.to_nat (offset + 8)) (rs_data rsp)) else 0)
    (if ok then d 16 else 0) (if ok then d 24 else 0) (if ok then d 32 else 0) (rs_payload rsp) |>.

(** The size of the key exchange authentication code of RAKP 2. *)
Definition rakp2_code_length (alg : Z) : res Z :=
  if alg =? IPMI_AUTH_RAKP_NONE then Ok 0 else rakp_digest_length alg.

(** [read_rakp2_message] *)
Definition read_rakp2_message (rsp : ipmi_rs) (offset alg : Z) : res ipmi_rs :=
  let d i := rd (rs_data rsp) (offset + i) in
  n ← rakp2_code_length alg;
  Ok (rsp <| rs_payload := put_rakp2_message (d 0) (d 1)
    (ipmi32toh (drop (Z.to_nat (offset + 4)) (rs_data rsp)))
    (array_letoh (slice (rs_data rsp) (offset + 8) 16))
    (array_letoh (slice (rs_data rsp) (offset + 24) 16))
    (slice (rs_data rsp) (offset + 40) n) (rs_payload rsp) |>).

(** [read_rakp4_message] *)
Definition read_rakp4_message (rsp : ipmi_rs) (offset alg : Z) : res ipmi_rs :=
  let d i := rd (rs_data rsp) (offset + i) in
  n ← (if alg =? IPMI_AUTH_RAKP_NONE then Ok 0 else rakp_authcode_size alg);
  Ok (rsp <| rs_payload := put_rakp4_message (d 0) (d 1)
    (ipmi32toh (drop (Z.to_nat (offset + 4)) (rs_data rsp)))
    (slice (rs_data rsp) (offset + 8) n) (rs_payload rsp) |>).

(** [read_session_data_v2x] *)
Definition read_session_data_v2x (rsp : ipmi_rs) (offset : Z) : ipmi_rs * Z :=
  let d i := rd (rs_data rsp) (offset + i) in
  let from i := drop (Z.to_nat (offset + i)) (rs_data rsp) in
  (rsp <| rs_authtype := d 0 |>
       <| bEncrypted := b2z (negb (d 1 .& 0x80 =? 0)) |>
       <| bAuthenticated := b2z (negb (d 1 .& 0x40 =? 0)) |>
       <| payloadtype := d 1 .& 0x3F |>
       <| rs_id := ipmi32toh (from 2) |> <| rs_seq := ipmi32toh (from 6) |>
       <| msglen := ipmi16toh (from 10) |>, offset + 12).

(** [read_session_data_v15] *)
Definition read_session_data_v15 (rsp : ipmi_rs) (offset : Z) : ipmi_rs * Z :=
  let d i := rd (rs_data rsp) (offset + i) in
  (rsp <| payloadtype := IPMI_PAYLOAD_TYPE_IPMI |> <| rs_authtype := d 0 |>
       <| bEncrypted := 0 |> <| bAuthenticated := 0 |> <| msglen := d 9 |>, offset + 10).

(** [read_session_data] *)
Definition read_session_data (rsp : ipmi_rs) (offset : Z) : ipmi_rs * Z :=
  let rsp := rsp <| rs_authtype := rd (rs_data rsp) offset |> in
  if rs_authtype rsp =? IPMI_SESSION_AUTHTYPE_RMCP_PLUS
  then read_session_data_v2x rsp offset else read_session_data_v15 rsp offset.

(** [read_ipmi_response] *)
Definition read_ipmi_response (rsp : ipmi_rs) (offset : Z) : ipmi_rs * Z :=
  let d i := rd (rs_data rsp) (offset + i) in
  (rsp <| rs_payload := put_ipmi_response (d 0) (d 1 .>> 2) (d 1 .& 3) (d 3)
                          (d 4 .>> 2) (d 4 .& 3) (d 5) (rs_payload rsp) |>
       <| ccode := d 6 |>, offset + 7).

(** [read_sol_packet] *)
Definition read_sol_packet (rsp : ipmi_rs) (offset : Z) : ipmi_rs * Z :=
  let d i := rd (rs_data rsp) (offset + i) in
  (rsp <| rs_payload := put_sol_packet (d 0 .& 0x0F) (d 1 .& 0x0F) (d 2) (d 3 .& 0x40)
      (d 3 .& 0x20) (d 3 .& 0x10) (d 3 .& 0x08) (d 3 .& 0x04) (rs_payload rsp) |>, offset + 4).

(** ** The IPMI payload is nested encapsulation *)

Definition csum_hdr (rsSA netFn rqSA rqSeq cmd : Z) : ipmb_msg_hdr :=
  mk_hdr rsSA netFn (ipmi_csum [rsSA; netFn]) rqSA rqSeq cmd.

Lemma csum_hdr_ok rsSA netFn rqSA rqSeq cmd : hdr_ok (csum_hdr rsSA netFn rqSA rqSeq cmd).
Proof. unfold hdr_ok, csum_hdr. cbn [h_csum1 h_rsSA h_netFn]. rewrite csum_sum. cbn [foldr]. f_equal. lia. Qed.

(** The headers from the outermost message to the request. *)
Definition wire_spec (a : intf_addr) (bridgePossible : bool) (req : ipmi_rq) (rq_seq curr_seq : Z)
    : ipmb_msg_hdr * list send_message_rq :=
  let b := bridged_request a bridgePossible in
  let inner := csum_hdr (if b =? 0 then IPMI_BMC_SLAVE_ADDR else u8 (target_addr a))
    (u8 ((rq_netfn req .<< 2) .| (rq_lun req .& 3)))
    (if b =? 2 then u8 (my_addr a) else IPMI_REMOTE_SWID) (u8 (rq_seq .<< 2)) (rq_cmd req) in
  let bmc := csum_hdr IPMI_BMC_SLAVE_ADDR 0x18 IPMI_REMOTE_SWID (u8 (curr_seq .<< 2)) 0x34 in
  let transit := csum_hdr (u8 (transit_addr a)) 0x18 IPMI_REMOTE_SWID (u8 (curr_seq .<< 2)) 0x34 in
  let to_target := mk_smrq (u8 (0x40 .| target_channel a)) inner in
  if b =? 0 then (inner, [])
  else if b =? 1 then (bmc, [to_target])
  else (bmc, [mk_smrq (u8 (0x40 .| transit_channel a)) transit; to_target]).

Lemma bridged_request_cases a bp :
  bridged_request a bp = 0 \/ bridged_request a bp = 1 \/ bridged_request a bp = 2.
Proof. unfold bridged_request. repeat case_match; auto. Qed.

Lemma u16_add_l x y : u16 (u16 x + y) = u16 (x + y).
Proof. unfold u16. apply Zplus_mod_idemp_l. Qed.

Lemma wire_encapsulates a bp len req rq_seq curr_seq :
  is_u16 len ->
  let '(hdr, rqs) := wire_spec a bp req rq_seq curr_seq in
  getIpmiPayloadWireRep a bp len req rq_seq curr_seq =
    (ipmb hdr (nest rqs (rq_data req)), u16 (len + 8 * bridged_request a bp)) /\
  zlen rqs = bridged_request a bp /\ hdr_ok hdr /\ Forall (fun s => hdr_ok (sm_msg s)) rqs.
Proof.
  intros Hlen. unfold wire_spec, getIpmiPayloadWireRep.
  destruct (bridged_request_cases a bp) as [E | [E | E]]; rewrite E; cbn -[u8 u16 ipmi_csum Z.shiftl Z.lor Z.land Z.add Z.mul zlen];
    (split_and!; [| done | apply csum_hdr_ok | repeat constructor; apply csum_hdr_ok]).
  - rewrite Z.add_0_r, u16_small by exact Hlen. done.
  - rewrite u16_add_l, <- Z.add_assoc, <- !app_assoc. done.
  - rewrite !u16_add_l, <- !Z.add_assoc, !u16_add_l, <- !Z.add_assoc. unfold ipmb, hdr_bytes, csum_hdr.
    cbn [nest app h_rsSA h_netFn h_csum1 h_rqSA h_rqSeq h_cmd sm_channel sm_msg].
    unfold ipmb, hdr_bytes. cbn [app h_rsSA h_netFn h_csum1 h_rqSA h_rqSeq h_cmd].
    rewrite <- !app_assoc. cbn [app]. rewrite <- ?app_assoc. done.
Qed.

(** ** The packet that the builder produces *)

Definition type_byte (s : ipmi_session) (type : Z) : Z :=
  if is_active s
  then type .| (if negb (crypt_alg (v2_data s) =? IPMI_CRYPT_NONE) then 0x80 else 0)
            .| (if negb (integrity_alg (v2_data s) =? IPMI_INTEGRITY_NONE) then 0x40 else 0)
  else type.

Definition session_header (s : ipmi_session) (type : Z) : list Z :=
  rmcp_bytes ++ [0x06; type_byte s type] ++
  (if is_active s then htoipmi32 (bmc_id (v2_data s)) ++ htoipmi32 (out_seq s) else zeros 8).

Lemma zlen_session_header s type : zlen (session_header s type) = 14.
Proof. unfold session_header. destruct (is_active s); reflexivity. Qed.

Lemma zeros_split n m : 0 <= n <= m -> zeros m = zeros n ++ zeros (m - n).
Proof. intros H. unfold zeros. rewrite <- replicate_add. f_equal. lia. Qed.

Lemma put_session_header_run s type n : 14 <= n ->
  put_session_header s type (zeros n) = Some (session_header s type ++ zeros (n - 14)).
Proof.
  intros Hn. unfold put_session_header. cbv zeta.
  change (zeros n) with ([] ++ zeros n).
  assert (zlen (zeros n) = n) as Hz by (apply zlen_zeros; lia).
  rewrite (wr_next [] (zeros n)), Some_bind by (done || (rewrite Hz; unfold rmcp_bytes; zlen_lia)).
  unfold IPMI_LANPLUS_OFFSET_AUTHTYPE, IPMI_LANPLUS_OFFSET_PAYLOAD_TYPE,
    IPMI_LANPLUS_OFFSET_SESSION_ID, IPMI_LANPLUS_OFFSET_SEQUENCE_NUM.
  assert (forall k, 0 <= k <= n -> drop (Z.to_nat k) (zeros n) = zeros (n - k)) as Hd by (intros; by apply drop_zeros).
  rewrite (Hd (zlen rmcp_bytes)) by (unfold rmcp_bytes; zlen_lia). change (zlen rmcp_bytes) with 4.
  assert (forall k m, 0 <= k -> 0 <= m -> k + m <= n -> drop (Z.to_nat m) (zeros (n - k)) = zeros (n - (k + m))) as Hd2.
  { intros k m H1 H2 H3. rewrite drop_zeros by lia. f_equal. lia. }
  assert (forall k, 0 <= k <= n -> zlen (zeros (n - k)) = n - k) as Hz2 by (intros; apply zlen_zeros; lia).
  rewrite wr_next, Some_bind by (done || (rewrite Hz2; zlen_lia)). rewrite Hd2 by zlen_lia.
  rewrite wr_next, Some_bind by (done || (rewrite Hz2; zlen_lia)). rewrite Hd2 by zlen_lia.
  unfold session_header, type_byte. destruct (is_active s).
  - rewrite wr_next, Some_bind by (done || (rewrite Hz2; zlen_lia)). rewrite Hd2 by zlen_lia.
    rewrite wr_next by (done || (rewrite Hz2; zlen_lia)). rewrite Hd2 by zlen_lia.
    rewrite <- !app_assoc. done.
  - match goal with |- context [drop _ _] => idtac | |- context [_ ++ zeros (n - ?k)] =>
      rewrite (zeros_split 8 (n - k)) by zlen_lia;
      replace (n - k - 8) with (n - 14) by zlen_lia end.
    rewrite <- !app_assoc. done.
Qed.

Lemma type_byte_bits s type : 0 <= type < 64 ->
  type_byte s type .& 0x3F = type /\
  (type_byte s type .& 0x80 =? 0) = negb (is_active s && negb (crypt_alg (v2_data s) =? IPMI_CRYPT_NONE)) /\
  (type_byte s type .& 0x40 =? 0) = negb (is_active s && negb (integrity_alg (v2_data s) =? IPMI_INTEGRITY_NONE)).
Proof.
  intros H.
  assert (forall a b : bool, all_u8 (fun t => (64 <=? t) ||
    (let x := t .| (if a then 0x80 else 0) .| (if b then 0x40 else 0) in
     (x .& 0x3F =? t) && Bool.eqb (x .& 0x80 =? 0) (negb a) && Bool.eqb (x .& 0x40 =? 0) (negb b))) = true) as Hall
    by (intros [] []; vm_compute; done).
  assert (is_u8 type) as Hu by (unfold is_u8; lia).
  unfold type_byte. destruct (is_active s); cbn [andb].
  - pose proof (all_u8_spec _ type (Hall (negb (crypt_alg (v2_data s) =? IPMI_CRYPT_NONE))
      (negb (integrity_alg (v2_data s) =? IPMI_INTEGRITY_NONE))) Hu) as Hx. cbv beta zeta in Hx.
    rewrite (proj2 (Z.leb_gt _ _)) in Hx by lia. cbn [orb] in Hx.
    rewrite !andb_true_iff, !Bool.eqb_true_iff, Z.eqb_eq in Hx. tauto.
  - pose proof (all_u8_spec _ type (Hall false false) Hu) as Hx. cbv beta zeta in Hx.
    rewrite (proj2 (Z.leb_gt _ _)) in Hx by lia. cbn [orb negb] in Hx. rewrite !Z.lor_0_r in Hx.
    rewrite !andb_true_iff, !Bool.eqb_true_iff, Z.eqb_eq in Hx. tauto.
Qed.

Section BuildFacts.
Context `{ssl : OpenSSL} {laws : OpenSSLLaws ssl} `{mem : Malloc} {memlaws : MallocLaws mem}.

(** The payload on the wire: the plain bytes, or initialization vector and
    ciphertext. *)
Definition encrypted (s : ipmi_session) : bool :=
  is_active s && negb (crypt_alg (v2_data s) =? IPMI_CRYPT_NONE).

Definition body_of (s : ipmi_session) (wire body : list Z) : Prop :=
  if encrypted s then
    exists iv enc, body = iv ++ enc /\ zlen iv = 16 /\ zlen enc = zlen (padded wire) /\
      aes_128_cbc_decrypt iv (slice (k2 (v2_data s)) 0 16) enc = Some (padded wire)
  else body = wire.

(** The algorithms this code supports once a session is active. *)
Definition algs_supported (s : ipmi_session) : Prop :=
  (crypt_alg (v2_data s) = IPMI_CRYPT_NONE \/ crypt_alg (v2_data s) = IPMI_CRYPT_AES_CBC_128) /\
  (integrity_alg (v2_data s) = IPMI_INTEGRITY_NONE \/
   integrity_alg (v2_data s) = IPMI_INTEGRITY_HMAC_SHA1_96 \/
   integrity_alg (v2_data s) = IPMI_INTEGRITY_HMAC_MD5_128 \/
   integrity_alg (v2_data s) = IPMI_INTEGRITY_HMAC_SHA256_128).

(** The random bytes are there when the payload is encrypted. *)
Definition has_iv (s : ipmi_session) (rand : option (list Z)) : Prop :=
  encrypted s = true -> exists iv, rand = Some iv /\ zlen iv = 16.

Lemma encrypt_step_run s rand pre wire tail :
  (forall n, is_Some (malloc n)) -> algs_supported s -> has_iv s rand -> 16 <= zlen (k2 (v2_data s)) ->
  zlen pre = 16 -> 48 <= zlen tail -> zlen wire < 65000 ->
  exists body tail', encrypt_step s rand (pre ++ wire ++ tail) (zlen wire) =
      Ok (Some (pre ++ body ++ tail', zlen body)) /\
    body_of s wire body /\ 48 <= zlen tail'.
Proof.
  intros Hm [Hc _] Hiv Hk Hpre Ht Hw. unfold has_iv in Hiv. unfold encrypt_step, body_of, encrypted in *.
  pose proof (zlen_nonneg wire) as Hw0.
  destruct (is_active s); cbn [negb andb] in *; [| by exists wire, tail].
  destruct Hc as [E | E]; rewrite E in *; clear E.
  - unfold lanplus_encrypt_payload. cbn [Z.eqb IPMI_CRYPT_NONE mbind res_bind].
    rewrite u16_small by (unfold is_u16; lia). cbn [default from_option id].
    rewrite Z.eqb_refl. by exists wire, tail.
  - destruct (Hm (zlen (padded wire))) as [b Hb]. destruct (Hiv eq_refl) as (iv & -> & Hiv').
    clear Hiv. rename Hiv' into Hiv.
    pose proof (zlen_padded wire) as Hp. pose proof (conf_pad_range (zlen wire) Hw0) as [Hr _].
    destruct (encrypt_run (k2 (v2_data s)) iv pre wire tail b) as (enc & Hl & _ & Hd & He); try done; try lia.
    unfold IPMI_LANPLUS_OFFSET_PAYLOAD. rewrite Hpre in He. rewrite He. cbn [mbind res_bind].
    cbn [default from_option id]. change (IPMI_CRYPT_AES_CBC_128 =? IPMI_CRYPT_NONE) with false.
    cbn [negb]. rewrite (proj2 (Z.eqb_neq _ _)) by lia. cbn [negb].
    unfold realloc. set (n' := 16 + (16 + zlen (padded wire)) + _ + 1 + 1 + _).
    destruct (Hm n') as [j Hj]. rewrite Hj. cbn [mbind option_bind].
    apply malloc_len in Hj; [| unfold n', IPMI_MAX_INTEGRITY_PAD_SIZE, IPMI_MAX_AUTH_CODE_SIZE, IPMI_MAX_MD_SIZE; lia].
    set (old := pre ++ iv ++ enc ++ _).
    assert (take (Z.to_nat n') (old ++ drop (length old) j) =
      pre ++ (iv ++ enc) ++ take (Z.to_nat 66) (drop (Z.to_nat (16 + zlen (padded wire))) (wire ++ tail)
        ++ drop (length old) j)) as ->.
    { assert (Z.of_nat (length ((pre ++ iv) ++ enc)) = 32 + zlen (padded wire)) as Hlen.
      { change (zlen ((pre ++ iv) ++ enc) = 32 + zlen (padded wire)). zlen_lia. }
      unfold n', IPMI_MAX_INTEGRITY_PAD_SIZE, IPMI_MAX_AUTH_CODE_SIZE, IPMI_MAX_MD_SIZE.
      subst old. rewrite (app_assoc pre), (app_assoc (pre ++ iv)), <- (app_assoc ((pre ++ iv) ++ enc)).
      rewrite take_app_ge by lia.
      replace (_ - length _)%nat with (Z.to_nat 66) by lia. by rewrite <- !app_assoc. }
    eexists (iv ++ enc), _. split; [by replace (16 + zlen (padded wire)) with (zlen (iv ++ enc)) by zlen_lia |].
    split; [by exists iv, enc |].
    assert (zlen old = 32 + zlen (padded wire) + Z.max 0 (zlen wire + zlen tail - (16 + zlen (padded wire)))) as Ho.
    { subst old. zlen_lia. }
    assert (Z.of_nat (length old) = zlen old) as Hlo by done.
    rewrite zlen_take, zlen_app, !zlen_drop, zlen_app, (zlen_app iv), Hlo.
    unfold n', IPMI_MAX_INTEGRITY_PAD_SIZE, IPMI_MAX_AUTH_CODE_SIZE, IPMI_MAX_MD_SIZE in Hj. lia.
Qed.

(** The digest of an integrity algorithm. *)
Definition integrity_md (alg : Z) : evp_md :=
  if alg =? IPMI_INTEGRITY_HMAC_SHA1_96 then EVP_sha1
  else if alg =? IPMI_INTEGRITY_HMAC_MD5_128 then EVP_md5 else EVP_sha256.

Definition integrity_size (alg : Z) : Z :=
  if alg =? IPMI_INTEGRITY_HMAC_SHA1_96 then 12 else 16.

Definition signed (s : ipmi_session) : bool :=
  is_active s && negb (integrity_alg (v2_data s) =? IPMI_INTEGRITY_NONE).

Lemma integrity_facts s k d : algs_supported s -> integrity_alg (v2_data s) <> IPMI_INTEGRITY_NONE ->
  let alg := integrity_alg (v2_data s) in
  lanplus_HMAC alg k d = Ok (HMAC (integrity_md alg) k d) /\
  integrity_digest_length alg = Ok (evp_md_size (integrity_md alg)) /\
  integrity_authcode_size alg = Ok (integrity_size alg) /\
  12 <= integrity_size alg <= 16.
Proof. intros [_ [-> | [-> | [-> | ->]]]] Hne; by repeat split. Qed.

(** The bytes after the payload. *)
Definition trailer (intf : ipmi_intf) (s : ipmi_session) (pre : list Z) : list Z :=
  if signed s then
    let alg := integrity_alg (v2_data s) in
    let pad := integrity_pad intf (zlen pre - 16) in
    let pads := replicate (Z.to_nat pad) 0xFF ++ [pad; 0x07] in
    pads ++ take (Z.to_nat (integrity_size alg))
      (HMAC (integrity_md alg) (slice (k1 (v2_data s)) 0 (k1_len (v2_data s))) (drop 4 pre ++ pads))
  else [].

Lemma integrity_pad_range intf n : 0 <= integrity_pad intf n <= 3.
Proof.
  unfold integrity_pad. set (l := if ipmi_oem_active _ _ then _ else _).
  destruct (l mod 4 =? 0) eqn:E; cbn [negb]; bool_hyps; Z.to_euclidean_division_equations; lia.
Qed.

Lemma slice_drop_prefix (pre rest : list Z) off n :
  0 <= off <= zlen pre -> n = zlen pre - off -> slice (pre ++ rest) off n = drop (Z.to_nat off) pre.
Proof.
  intros H ->. unfold slice, zlen in *. rewrite drop_app_le by lia.
  rewrite take_app_le by (rewrite length_drop; lia). apply take_ge. rewrite length_drop. lia.
Qed.

Lemma trailer_run intf s pre tail :
  algs_supported s -> 16 <= zlen pre -> 37 <= zlen tail ->
  exists tail', put_session_trailer intf s (pre ++ tail) (zlen pre - 16) =
    Ok (pre ++ trailer intf s pre ++ tail', zlen (trailer intf s pre)).
Proof.
  intros Ha Hp Ht. unfold put_session_trailer, trailer. fold (signed s).
  destruct (signed s) eqn:Es; [| by exists tail].
  assert (integrity_alg (v2_data s) <> IPMI_INTEGRITY_NONE) as Hne.
  { unfold signed in Es. by intros E; rewrite E, andb_false_r in Es. }
  set (pad := integrity_pad intf (zlen pre - 16)).
  pose proof (integrity_pad_range intf (zlen pre - 16)) as Hr. fold pad in Hr.
  set (alg := integrity_alg (v2_data s)) in *. set (key := slice (k1 (v2_data s)) 0 _).
  unfold IPMI_LANPLUS_OFFSET_PAYLOAD, IPMI_LANPLUS_OFFSET_AUTHTYPE.
  rewrite (wr_next pre), Some_bind by zlen_lia. rewrite wr_next, Some_bind by zlen_lia.
  rewrite wr_next by zlen_lia. cbn [or_oob mbind res_bind].
  set (ffs := replicate (Z.to_nat pad) 0xFF).
  assert (zlen ffs = pad) as Hffs by (subst ffs; zlen_lia).
  assert (((pre ++ ffs) ++ [pad]) ++ [0x07] = pre ++ ffs ++ [pad; 0x07]) as -> by (by rewrite <- !app_assoc).
  set (rest := drop _ (drop _ (drop _ tail))).
  assert (32 <= zlen rest) as Hrest by (subst rest; zlen_lia).
  rewrite (slice_drop_prefix (pre ++ ffs ++ [pad; 7]) rest 4) by zlen_lia.
  destruct (integrity_facts s key (drop (Z.to_nat 4) (pre ++ ffs ++ [pad; 7])) Ha Hne) as (Hm & Hd & Hs & Hsz).
  fold alg in Hm, Hd, Hs, Hsz. rewrite Hm. cbn [mbind res_bind].
  rewrite drop_app_le by (unfold zlen in Hp; lia). change (Z.to_nat 4) with 4%nat.
  set (mac := HMAC _ _ _). assert (zlen mac = evp_md_size (integrity_md alg)) as Hmac by apply HMAC_len.
  pose proof (evp_md_size_bounds (integrity_md alg)) as Hb.
  rewrite wr_next by zlen_lia. cbn [or_oob mbind res_bind]. rewrite Hd. cbn [mbind res_bind].
  rewrite Hmac, rassert_true by lia. cbn [mbind res_bind]. rewrite Hs. cbn [mbind res_bind].
  exists (drop (Z.to_nat (integrity_size alg)) mac ++ drop (Z.to_nat (evp_md_size (integrity_md alg))) rest).
  f_equal. f_equal.
  - rewrite <- !app_assoc. by rewrite (app_assoc (take _ mac)), take_drop.
  - zlen_lia.
Qed.

(** The whole packet around the payload. *)
Definition packet (intf : ipmi_intf) (s : ipmi_session) (type : Z) (body : list Z) : list Z :=
  let pre := session_header s type ++ htoipmi16 (zlen body) ++ body in
  pre ++ trailer intf s pre.

Lemma build_run intf bp p curr_seq rand s wire :
  (forall n, is_Some (malloc n)) -> algs_supported s -> has_iv s rand -> 16 <= zlen (k2 (v2_data s)) ->
  payload_wire (addr intf) bp p curr_seq = Ok (wire, zlen wire) ->
  0 <= payload_length p -> zlen wire <= payload_length p + 18 -> zlen wire < 65000 ->
  exists body, ipmi_lanplus_build_v2x_msg intf bp p curr_seq rand s =
      Ok (Some (packet intf s (payload_type (payload p)) body), zlen body, next_out_seq s) /\
    body_of s wire body.
Proof.
  intros Hm Ha Hiv Hk Hw Hpl Hfit Hsz. unfold ipmi_lanplus_build_v2x_msg.
  unfold IPMI_MAX_INTEGRITY_PAD_SIZE, IPMI_MAX_AUTH_CODE_SIZE, IPMI_MAX_MD_SIZE.
  set (len := 4 + 10 + 2 + _ + _ + _ + _ + _). destruct (Hm len) as [m Hmm]. rewrite Hmm.
  apply malloc_len in Hmm; [| unfold len; lia]. rewrite Hmm.
  rewrite put_session_header_run by (unfold len; lia). cbn [or_oob mbind res_bind]. rewrite Hw.
  cbn [mbind res_bind]. set (h := session_header s (payload_type (payload p))).
  pose proof (zlen_session_header s (payload_type (payload p))) as Hh. fold h in Hh.
  pose proof (zlen_nonneg wire) as Hw0.
  rewrite (zeros_split 2) by (unfold len; lia). rewrite app_assoc.
  assert (zlen (h ++ zeros 2) = 16) as Hh2 by (rewrite zlen_app, Hh; done).
  unfold IPMI_LANPLUS_OFFSET_PAYLOAD, IPMI_LANPLUS_OFFSET_PAYLOAD_SIZE.
  assert (zlen (zeros (len - 14 - 2)) = len - 16) as Hz by (rewrite zlen_zeros; unfold len; lia).
  rewrite wr_next by (rewrite ?Hz; unfold len; zlen_lia). cbn [or_oob mbind res_bind].
  rewrite <- (app_assoc (h ++ zeros 2)).
  destruct (encrypt_step_run s rand (h ++ zeros 2) wire (drop (Z.to_nat (zlen wire)) (zeros (len - 14 - 2)))
    Hm Ha Hiv Hk Hh2) as (body & tail' & He & Hbody & Ht); [| done |].
  { rewrite zlen_drop, Hz. unfold len. lia. }
  exists body. split; [| done]. rewrite He. cbn [mbind res_bind].
  rewrite <- (app_assoc h), wr_at by done. cbn [or_oob mbind res_bind].
  set (pre := h ++ htoipmi16 (zlen body) ++ body).
  assert (h ++ htoipmi16 (zlen body) ++ body ++ tail' = pre ++ tail') as ->.
  { subst pre. by rewrite <- !app_assoc. }
  assert (zlen pre = 16 + zlen body) as Hpre by (subst pre; unfold htoipmi16; zlen_lia).
  replace (zlen body) with (zlen pre - 16) at 1 by lia.
  destruct (trailer_run intf s pre tail' Ha) as (tail'' & Htr); [zlen_lia | lia |]. rewrite Htr.
  cbn [mbind res_bind]. do 3 f_equal. unfold packet. fold h pre. rewrite app_assoc.
  change (_ ++ tail'') with ([] ++ (pre ++ trailer intf s pre) ++ tail''). f_equal.
  apply slice_app_mid; [done |]. zlen_lia.
Qed.

(** ** Reading the packet back *)

Lemma rd_u8_lookup l i x : l !! i = Some x -> rd l (Z.of_nat i) = x.
Proof. intros H. unfold rd. by rewrite Nat2Z.id, H. Qed.

Lemma read_packet rsp intf s type body rest :
  rs_data rsp = packet intf s type body ++ rest -> is_active s = true -> 0 <= type < 64 ->
  is_u32 (bmc_id (v2_data s)) -> is_u32 (out_seq s) -> is_u16 (zlen body) ->
  exists rsp', read_session_data rsp 4 = (rsp', 16) /\
    rs_data rsp' = rs_data rsp /\ rs_data_len rsp' = rs_data_len rsp /\
    rs_authtype rsp' = IPMI_SESSION_AUTHTYPE_RMCP_PLUS /\ payloadtype rsp' = type /\
    rs_id rsp' = bmc_id (v2_data s) /\ rs_seq rsp' = out_seq s /\ msglen rsp' = zlen body /\
    bEncrypted rsp' = b2z (encrypted s) /\ bAuthenticated rsp' = b2z (signed s).
Proof.
  intros Hd Hact Hty Hid Hsq Hlen. unfold read_session_data.
  assert (rs_data rsp = rmcp_bytes ++ [6; type_byte s type] ++ htoipmi32 (bmc_id (v2_data s)) ++
    htoipmi32 (out_seq s) ++ htoipmi16 (zlen body) ++ body ++
    trailer intf s (session_header s type ++ htoipmi16 (zlen body) ++ body) ++ rest) as Hd'.
  { rewrite Hd. unfold packet, session_header at 1. rewrite Hact, <- !app_assoc. done. }
  destruct (type_byte_bits s type Hty) as (Hb1 & Hb2 & Hb3).
  assert (rd (rs_data rsp) 4 = 6) as H4 by (by rewrite Hd').
  assert (rd (rs_data rsp) 5 = type_byte s type) as H5 by (by rewrite Hd').
  assert (drop 6 (rs_data rsp) = htoipmi32 (bmc_id (v2_data s)) ++ drop 10 (rs_data rsp)) as H6 by (by rewrite Hd').
  assert (drop 10 (rs_data rsp) = htoipmi32 (out_seq s) ++ drop 14 (rs_data rsp)) as H10 by (by rewrite Hd').
  assert (drop 14 (rs_data rsp) = htoipmi16 (zlen body) ++ drop 16 (rs_data rsp)) as H14 by (by rewrite Hd').
  clear Hd Hd'. rewrite H4.
  change (rs_authtype (rsp <| rs_authtype := 6 |>) =? IPMI_SESSION_AUTHTYPE_RMCP_PLUS) with true.
  unfold read_session_data_v2x. eexists. split; [reflexivity |].
  cbn -[rd Z.land b2z drop ipmi32toh ipmi16toh htoipmi32 htoipmi16 Z.to_nat].
  change (4 + 0) with 4. change (4 + 1) with 5. change (Z.to_nat (4 + 2)) with 6%nat.
  change (Z.to_nat (4 + 6)) with 10%nat. change (Z.to_nat (4 + 10)) with 14%nat.
  rewrite H4, H5, Hb1, Hb2, Hb3, !negb_involutive, H6, H10, H14.
  rewrite !ipmi32toh_htoipmi32, ipmi16toh_htoipmi16 by done. by split_and!.
Qed.

(** What the check accepts: exactly the truncated HMAC of the bytes from the
    authentication type to the authentication code. *)
Lemma auth_code_run rsp s pre code rest :
  algs_supported s -> rs_data rsp = pre ++ code ++ rest -> rs_data_len rsp = zlen (pre ++ code) ->
  rs_authtype rsp = IPMI_SESSION_AUTHTYPE_RMCP_PLUS -> bAuthenticated rsp = 1 ->
  signed s = true -> 4 <= zlen pre -> zlen code = integrity_size (integrity_alg (v2_data s)) ->
  let alg := integrity_alg (v2_data s) in
  lanplus_has_valid_auth_code rsp s = Ok (bool_decide (code = take (Z.to_nat (integrity_size alg))
    (HMAC (integrity_md alg) (slice (k1 (v2_data s)) 0 (k1_len (v2_data s))) (drop 4 pre)))).
Proof.
  intros Ha Hd Hl Hat Hba Hs Hp Hc alg. unfold lanplus_has_valid_auth_code.
  rewrite Hat, Hba. change (IPMI_SESSION_AUTHTYPE_RMCP_PLUS =? _) with true.
  unfold signed in Hs. apply andb_true_iff in Hs as [Hs1 Hs2]. unfold is_active in Hs1. rewrite Hs1.
  cbn [negb orb Z.eqb]. apply negb_true_iff in Hs2. rewrite Hs2. apply Z.eqb_neq in Hs2.
  destruct (integrity_facts s (slice (k1 (v2_data s)) 0 (k1_len (v2_data s))) (drop 4 pre) Ha Hs2)
    as (Hm & _ & Hsz & Hb). fold alg in Hm, Hsz, Hb, Hc.
  fold alg. rewrite Hsz. cbn [mbind res_bind]. rewrite zlen_app in Hl. rewrite Hl, Hd, Hc.
  replace (zlen pre + integrity_size alg - integrity_size alg) with (zlen pre) by lia.
  unfold IPMI_LANPLUS_OFFSET_AUTHTYPE. rewrite (proj2 (Z.ltb_ge _ _)) by done.
  rewrite (slice_drop_prefix pre _ 4) by lia. change (Z.to_nat 4) with 4%nat. rewrite Hm.
  cbn [mbind res_bind]. rewrite HMAC_len. pose proof (evp_md_size_bounds (integrity_md alg)).
  rewrite rassert_true by lia. cbn [mbind res_bind]. rewrite slice_app_mid by done.
  unfold memcmp0. rewrite (take_ge code) by (unfold zlen in Hc; lia). done.
Qed.

Lemma body_len s wire body : body_of s wire body -> zlen body <= zlen wire + 32.
Proof.
  unfold body_of. pose proof (zlen_padded wire) as Hp.
  pose proof (conf_pad_range (zlen wire) (zlen_nonneg wire)) as [Hr _].
  destruct (encrypted s); [intros (iv & enc & -> & H1 & H2 & _); zlen_lia | intros ->; lia].
Qed.

Lemma trailer_accepted rsp intf s peer pre rest :
  algs_supported s -> is_active s = true -> is_active peer = true -> algs_supported peer ->
  integrity_alg (v2_data peer) = integrity_alg (v2_data s) ->
  k1 (v2_data peer) = k1 (v2_data s) -> k1_len (v2_data peer) = k1_len (v2_data s) ->
  4 <= zlen pre -> rs_data rsp = (pre ++ trailer intf s pre) ++ rest ->
  rs_data_len rsp = zlen (pre ++ trailer intf s pre) ->
  rs_authtype rsp = IPMI_SESSION_AUTHTYPE_RMCP_PLUS -> bAuthenticated rsp = b2z (signed s) ->
  lanplus_has_valid_auth_code rsp peer = Ok true.
Proof.
  intros Ha Hs Hpa Hp Hi H1 H2 Hpre Hd Hl Hat Hba. unfold trailer in Hd, Hl.
  destruct (signed s) eqn:Es.
  - set (alg := integrity_alg (v2_data s)) in *.
    set (pads := replicate _ _ ++ _) in *. set (mac := HMAC _ _ _) in *.
    assert (zlen mac = evp_md_size (integrity_md alg)) as Hmac by apply HMAC_len.
    pose proof (evp_md_size_bounds (integrity_md alg)) as Hb.
    assert (alg <> IPMI_INTEGRITY_NONE) as Hne.
    { unfold signed in Es. subst alg. intros E. by rewrite E, andb_false_r in Es. }
    destruct (integrity_facts s [] [] Ha Hne) as (_ & _ & _ & Hsz). fold alg in Hsz.
    assert (signed peer = true) as Hsp by (unfold signed; rewrite Hpa, Hi; by apply negb_true_iff, Z.eqb_neq).
    pose proof (auth_code_run rsp peer (pre ++ pads) (take (Z.to_nat (integrity_size alg)) mac) rest Hp) as H.
    rewrite H; clear H; try done.
    + rewrite H1, H2, Hi. fold alg. rewrite bool_decide_true; [done |].
      subst mac. by rewrite drop_app_le by (unfold zlen in Hpre; lia).
    + by rewrite Hd, <- !app_assoc.
    + by rewrite Hl, <- !app_assoc.
    + rewrite zlen_app. pose proof (zlen_nonneg pads). lia.
    + rewrite Hi. fold alg. rewrite zlen_take. lia.
  - unfold lanplus_has_valid_auth_code. rewrite Hba. cbn [b2z].
    change (0 =? 0) with true. by rewrite orb_true_r.
Qed.

Lemma body_decrypts s wire body pre rest :
  (forall n, is_Some (malloc n)) -> algs_supported s -> is_active s = true -> zlen pre = 16 ->
  zlen wire < 65000 -> body_of s wire body ->
  exists buf, lanplus_decrypt_payload (crypt_alg (v2_data s)) (k2 (v2_data s)) (pre ++ body ++ rest)
      16 (zlen body) = Ok (0, buf, Some (zlen wire)) /\ slice buf 16 (zlen wire) = wire.
Proof.
  intros Hm [Hc _] Hs Hpre Hw Hbody. unfold body_of, encrypted in Hbody. rewrite Hs in Hbody.
  pose proof (zlen_nonneg wire). pose proof (zlen_nonneg rest).
  destruct Hc as [E | E]; rewrite E in *; cbn [negb andb Z.eqb IPMI_CRYPT_NONE] in Hbody.
  - subst body. exists (pre ++ wire ++ rest). unfold lanplus_decrypt_payload.
    change (IPMI_CRYPT_NONE =? IPMI_CRYPT_NONE) with true. cbn iota.
    rewrite (proj2 (Z.leb_le _ _)) by zlen_lia. rewrite u16_small by (unfold is_u16; lia).
    split; [done | by apply slice_app_mid].
  - change (IPMI_CRYPT_AES_CBC_128 =? 0) with false in Hbody. cbn [negb] in Hbody.
    destruct Hbody as (iv & enc & -> & Hiv & Hl & Hd).
    destruct (Hm (16 + zlen (padded wire))) as [b Hb].
    pose proof (zlen_padded wire) as Hp. pose proof (conf_pad_range (zlen wire) ltac:(lia)) as [Hr _].
    pose proof (decrypt_run (k2 (v2_data s)) iv pre wire enc rest b Hiv Hl ltac:(lia) Hd Hb) as Hdec.
    rewrite Hpre in Hdec. rewrite zlen_app, Hiv, Hl, <- app_assoc, Hdec. eexists. split; [done |].
    unfold padded at 1. rewrite <- app_assoc. by apply slice_app_mid.
Qed.
End BuildFacts.

Section Properties.
Context `{ssl : OpenSSL} {laws : OpenSSLLaws ssl} `{mem : Malloc} {memlaws : MallocLaws mem}.

(** C1. A command built for an active session is a packet that the receiving
    code of the same protocol reads back: every write of the builder stays in
    its buffer, the packet carries the session id, sequence number and type,
    its authentication code is accepted by a peer that holds the same K1, and
    the payload a peer with the same K2 decrypts is the nested IPMB message of
    the request. *)
Theorem v2x_packet_roundtrip intf bp req rq_seq curr_seq iv s peer :
  (forall n, is_Some (malloc n)) -> algs_supported s -> session_wf s ->
  session_state (v2_data s) = LANPLUS_STATE_ACTIVE ->
  zlen iv = 16 -> zlen (rq_data req) < 60000 ->
  algs_supported peer -> session_state (v2_data peer) = LANPLUS_STATE_ACTIVE ->
  integrity_alg (v2_data peer) = integrity_alg (v2_data s) ->
  crypt_alg (v2_data peer) = crypt_alg (v2_data s) ->
  k1 (v2_data peer) = k1 (v2_data s) -> k1_len (v2_data peer) = k1_len (v2_data s) ->
  k2 (v2_data peer) = k2 (v2_data s) ->
  exists msg len,
    ipmi_lanplus_build_v2x_msg intf bp (mk_payload (rq_data_len req + 7) (PL_ipmi_request rq_seq req))
      curr_seq (Some iv) s = Ok (Some msg, len, next_out_seq s) /\
    let '(hdr, rqs) := wire_spec (addr intf) bp req rq_seq curr_seq in
    let wire := ipmb hdr (nest rqs (rq_data req)) in
    (forall rsp rest, rs_data rsp = msg ++ rest -> rs_data_len rsp = zlen msg ->
     exists rsp', read_session_data rsp 4 = (rsp', 16) /\
       payloadtype rsp' = IPMI_PAYLOAD_TYPE_IPMI /\ rs_id rsp' = bmc_id (v2_data s) /\
       rs_seq rsp' = out_seq s /\
       lanplus_has_valid_auth_code rsp' peer = Ok true /\
       bEncrypted rsp' = b2z (negb (crypt_alg (v2_data s) =? IPMI_CRYPT_NONE)) /\
       exists buf, lanplus_decrypt_payload (crypt_alg (v2_data peer)) (k2 (v2_data peer))
           (rs_data rsp') 16 (msglen rsp') = Ok (0, buf, Some (zlen wire)) /\
         slice buf 16 (zlen wire) = wire).
Proof.
  intros Hm Ha (Hsq & _ & Hcid & Hid & _ & _ & _ & _ & _ & _ & Hk2) Hact Hiv Hreq Hpa Hpact Hpi Hpc Hpk1 Hpk1l Hpk2.
  unfold IPMI_MAX_MD_SIZE in Hk2.
  pose proof (zlen_nonneg (rq_data req)) as Hr0.
  assert (is_u16 (rq_data_len req + 7)) as Hu by (unfold is_u16, rq_data_len; lia).
  pose proof (wire_encapsulates (addr intf) bp (rq_data_len req + 7) req rq_seq curr_seq Hu) as Hw.
  destruct (wire_spec (addr intf) bp req rq_seq curr_seq) as [hdr rqs].
  destruct Hw as (Hw & Hzr & _ & _). set (wire := ipmb hdr (nest rqs (rq_data req))) in *.
  assert (zlen wire = rq_data_len req + 7 + 8 * bridged_request (addr intf) bp) as Hzw.
  { subst wire. rewrite zlen_ipmb, zlen_nest, Hzr. unfold rq_data_len. lia. }
  assert (0 <= bridged_request (addr intf) bp <= 2) as Hbr
    by (destruct (bridged_request_cases (addr intf) bp) as [-> | [-> | ->]]; lia).
  set (p := mk_payload _ _).
  assert (payload_wire (addr intf) bp p curr_seq = Ok (wire, zlen wire)) as Hpw.
  { unfold payload_wire. cbn [payload payload_length p]. rewrite Hw, Hzw, u16_small; [done |].
    unfold is_u16, rq_data_len. lia. }
  unfold rq_data_len in Hzw.
  destruct (build_run intf bp p curr_seq (Some iv) s wire Hm Ha) as (body & Hb & Hbody);
    [by exists iv | lia | exact Hpw | unfold p, rq_data_len; cbn [payload_length]; lia .. | lia |].
  exists (packet intf s IPMI_PAYLOAD_TYPE_IPMI body), (zlen body). split; [exact Hb |].
  cbv zeta. fold wire. intros rsp rest Hd Hl. pose proof (body_len s wire body Hbody) as Hbl.
  assert (is_active s = true) as Has by (unfold is_active; rewrite Hact; done).
  assert (is_active peer = true) as Hap by (unfold is_active; rewrite Hpact; done).
  pose proof (zlen_nonneg body) as Hb0.
  destruct (read_packet rsp intf s IPMI_PAYLOAD_TYPE_IPMI body rest Hd Has) as
    (rsp' & Hr & Hd' & Hl' & Hat & Hty & Hid' & Hsq' & Hml & Henc & Hau);
    [unfold IPMI_PAYLOAD_TYPE_IPMI; lia | done | done | unfold is_u16; lia |].
  exists rsp'. split; [exact Hr |]. split_and!; try done.
  - eapply (trailer_accepted rsp' intf s peer); try done.
    + instantiate (1 := session_header s IPMI_PAYLOAD_TYPE_IPMI ++ htoipmi16 (zlen body) ++ body).
      pose proof (zlen_session_header s IPMI_PAYLOAD_TYPE_IPMI). zlen_lia.
    + by rewrite Hd', Hd.
    + by rewrite Hl', Hl.
  - rewrite Henc. unfold encrypted. by rewrite Has.
  - rewrite Hpc, Hpk2, Hd', Hd, Hml. unfold packet. rewrite <- !app_assoc, app_assoc.
    apply body_decrypts; [done | done | done | | lia | done].
    by rewrite zlen_app, zlen_session_header.
Qed.
End Properties.

(** An active session of cipher suite 3. *)
Definition witness_active : ipmi_session :=
  zero_session <| out_seq := 5 |> <| v2_data := zero_v2 <| session_state := LANPLUS_STATE_ACTIVE |>
    <| auth_alg := 1 |> <| integrity_alg := 1 |> <| crypt_alg := 1 |>
    <| console_id := 7 |> <| bmc_id := 0x01020304 |> <| k1_len := 20 |> <| k2_len := 20 |> |>.

Lemma witness_active_wf : session_wf witness_active.
Proof.
  repeat split; try (vm_compute; discriminate); try reflexivity; apply zeros_bytes.
Defined.

Lemma witness_active_algs : algs_supported witness_active.
Proof. split; right; [reflexivity | left; reflexivity]. Defined.

Lemma v2x_packet_roundtrip_witness :
  exists msg len,
    ipmi_lanplus_build_v2x_msg witness_lan false (mk_payload 9 (PL_ipmi_request 3 (mk_rq 6 0 1 0 [8; 9])))
      3 (Some (zeros 16)) witness_active = Ok (Some msg, len, next_out_seq witness_active) /\
    let wire := ipmb (csum_hdr 0x20 0x18 0x81 12 1) [8; 9] in
    (forall rsp rest, rs_data rsp = msg ++ rest -> rs_data_len rsp = zlen msg ->
     exists rsp', read_session_data rsp 4 = (rsp', 16) /\
       payloadtype rsp' = IPMI_PAYLOAD_TYPE_IPMI /\ rs_id rsp' = 0x01020304 /\
       rs_seq rsp' = 5 /\
       lanplus_has_valid_auth_code rsp' witness_active = Ok true /\
       bEncrypted rsp' = 1 /\
       exists buf, lanplus_decrypt_payload 1 (zeros 32)
           (rs_data rsp') 16 (msglen rsp') = Ok (0, buf, Some (zlen wire)) /\
         slice buf 16 (zlen wire) = wire).
Proof.
  apply (v2x_packet_roundtrip witness_lan false (mk_rq 6 0 1 0 [8; 9]) 3 3 (zeros 16)
    witness_active witness_active).
  all: try reflexivity; try apply witness_active_algs; try apply witness_active_wf.
  intros n. eexists. reflexivity.
Defined.
