(* ===== verification/Lanplus.v ===== *)
(** * The RMCP+ transport (src/plugins/lanplus/lanplus.c)

    Receiving and dispatching packets, sending payloads with retries, SOL
    transfer, the session commands and the opening of a session.  The state is
    the interface, the session, the static variables of the file with the heap
    of request entries, and the scripts of the socket, the clock and the
    random generator; what is sent is recorded. *)

From S2P Require Import Prelude Wire Ipmi Ipmb Intf Session Crypt LanplusMsg ReqList.

#[local] Open Scope Z_scope.

(** What [select] and [recv] deliver. *)
Inductive net_event := NetTimeout | NetRefused | NetPacket (bs : list Z).

(** Which calls of [send] succeed: the next ones as [s_next] says, all later
    ones if [s_later] is true and none of them if it is false. *)
Record send_script := mk_sends { s_next : list bool; s_later : bool }.
Definition all_sent : send_script := mk_sends [] true.
Definition none_sent : send_script := mk_sends [] false.

Record lp := mk_lp {
  l_intf : ipmi_intf;
  l_session : ipmi_session;
  l_have_session : bool;
  bridgePossible : bool;
  curr_seq : Z;
  l_reqs : Ptr.hst;
  l_rsp : ipmi_rs;
  l_last_sol_seq : Z;
  l_last_sol_count : Z;
  l_net : list net_event;
  l_send : send_script;
  l_clock : list Z;
  l_rand : list (option (list Z));
  l_sent : list (list Z);
  l_sol_in : list (list Z);
}.

#[export] Instance lp_rebuild : Rebuild lp := fun r =>
  mk_lp (l_intf r) (l_session r) (l_have_session r) (bridgePossible r) (curr_seq r) (l_reqs r)
    (l_rsp r) (l_last_sol_seq r) (l_last_sol_count r) (l_net r) (l_send r) (l_clock r) (l_rand r)
    (l_sent r) (l_sol_in r).

(** ** State access *)

Definition on_reqs {A} (m : M Ptr.hst A) : M lp A := fun s =>
  match m (l_reqs s) with Ok (a, h) => Ok (a, s <| l_reqs := h |>) | Bad e => Bad e end.
Definition session_gets {A} (f : ipmi_session -> A) : M lp A := gets (f ∘ l_session).
Definition session_set (f : ipmi_session -> ipmi_session) : M lp unit :=
  modify (fun s => s <| l_session := f (l_session s) |>).
Definition rsp_gets {A} (f : ipmi_rs -> A) : M lp A := gets (f ∘ l_rsp).
Definition rsp_set (f : ipmi_rs -> ipmi_rs) : M lp unit :=
  modify (fun s => s <| l_rsp := f (l_rsp s) |>).
Definition set_state (st : session_state_t) : ipmi_session -> ipmi_session :=
  set_v2 (fun v => v <| session_state := st |>).

(** [time(NULL)]; the script of the clock. *)
Definition time_now : M lp Z := fun s =>
  match l_clock s with
  | [] => Ok (0, s)
  | t :: ts => Ok (t, s <| l_clock := ts |>)
  end.

(** [lanplus_rand] *)
Definition lanplus_rand : M lp (option (list Z)) := fun s =>
  match l_rand s with
  | [] => Ok (None, s)
  | r :: rs => Ok (r, s <| l_rand := rs |>)
  end.

(** ** Receiving *)

(** [ipmi_lan_send_packet]: [send] of one datagram. *)
Definition ipmi_lan_send_packet (data : list Z) : M lp bool := fun s =>
  let '(ok, l) := match s_next (l_send s) with
                  | b :: l => (b, l)
                  | [] => (s_later (l_send s), [])
                  end in
  Ok (ok, s <| l_send := mk_sends l (s_later (l_send s)) |>
            <| l_sent := if ok then l_sent s ++ [data] else l_sent s |>).

(** [recv] of a datagram: at most [IPMI_BUF_SIZE] bytes into [rsp.data]; the
    terminator is written after them. *)
Definition store_packet (bs : list Z) : M lp bool :=
  let got := take (Z.to_nat IPMI_BUF_SIZE) bs in
  if zlen got =? 0 then mret false else
  data ← rsp_gets rs_data;
  data ← lift (or_oob (data ← wr data 0 got; wr data (zlen got) [0]));
  _ ← rsp_set (fun r => r <| rs_data := data |> <| rs_data_len := zlen got |>);
  mret true.

Definition next_event : M lp net_event := fun s =>
  match l_net s with
  | [] => Ok (NetTimeout, s)
  | e :: es => Ok (e, s <| l_net := es |>)
  end.

(** [ipmi_lan_recv_packet]: false is NULL. *)
Definition ipmi_lan_recv_packet : M lp bool :=
  e ← next_event;
  match e with
  | NetTimeout => mret false
  | NetPacket bs => store_packet bs
  | NetRefused =>
      e ← next_event;
      match e with NetPacket bs => store_packet bs | _ => mret false end
  end.

(** [ipmi_handle_pong] *)
Definition ipmi_handle_pong (rsp : ipmi_rs) : bool := negb (rd (rs_data rsp) 20 .& 0x80 =? 0).

(** The pointers that [ipmi_lan_poll_single] returns: NULL, 1, or [rsp]. *)
Inductive poll_result := PollNull | PollAgain | PollRsp.

(** [memmove(rsp->data, rsp->data + offset, n)] and the new length. *)
Definition shift_data (offset n : Z) : M lp unit :=
  data ← rsp_gets rs_data;
  if zlen data <? offset + n then fail OutOfBounds else
  data' ← lift (or_oob (wr data 0 (slice data offset n)));
  rsp_set (fun r => r <| rs_data := data' |> <| rs_data_len := n |>).

(** [--entry->bridging_level], and the command of the request once the last
    level is peeled off. *)
Definition peel_bridge (e : loc) : M lp unit :=
  n ← on_reqs (Ptr.deref e);
  let x := Ptr.n_entry n in
  let level := e_bridging_level x - 1 in
  let x := e_set_bridging_level level x in
  let x := if level =? 0
           then e_set_req (rq_set_cmd (rq_target_cmd (e_req x)) (e_req x)) x else x in
  on_reqs (Ptr.store e (Ptr.mk_node x (Ptr.n_next n))).

(** The loop over an IPMI response and the responses embedded in it. *)
Fixpoint ipmi_response_loop (fuel : nat) (offset payload_start payload_size : Z)
    : M lp poll_result :=
  match fuel with
  | O => fail OutOfFuel
  | S fuel =>
      rsp ← gets l_rsp;
      let '(rsp, offset) := read_ipmi_response rsp offset in
      _ ← rsp_set (fun _ => rsp);
      entry ← on_reqs (Ptr.ipmi_req_lookup_entry (ipmi_rq_seq rsp) (ipmi_cmd rsp));
      match entry with
      | None => mret PollAgain
      | Some e =>
          n ← on_reqs (Ptr.deref e);
          let bridged := negb (e_bridging_level (Ptr.n_entry n) =? 0) in
          let peel := bridged && (ccode rsp =? 0) in
          _ ← (if peel then peel_bridge e else mret tt);
          if peel && (payload_size <=? 8) then mret PollAgain else
          _ ← on_reqs (Ptr.ipmi_req_remove_entry (ipmi_rq_seq rsp) (ipmi_cmd rsp));
          let extra := payload_size - (offset - payload_start) - 1 in
          if 0 <? extra then
            _ ← shift_data offset extra;
            if peel then ipmi_response_loop fuel 0 0 (u16 extra) else mret PollRsp
          else
            _ ← rsp_set (fun r => r <| rs_data_len := 0 |>);
            if peel then ipmi_response_loop fuel offset payload_start payload_size
            else mret PollRsp
      end
  end.

Section Lanplus.
Context `{ssl : OpenSSL} `{mem : Malloc}.

(** The dispatch on the payload type. *)
Definition poll_dispatch (offset payload_size : Z) : M lp poll_result :=
  type ← rsp_gets payloadtype;
  rsp ← gets l_rsp;
  v ← session_gets v2_data;
  let state st := bool_decide (session_state v = st) in
  if type =? IPMI_PAYLOAD_TYPE_IPMI then
    ipmi_response_loop (S (Z.to_nat payload_size)) offset offset payload_size
  else if type =? IPMI_PAYLOAD_TYPE_RMCP_OPEN_RESPONSE then
    if negb (state LANPLUS_STATE_OPEN_SESSION_SENT) then mret PollAgain else
    _ ← rsp_set (fun r => read_open_session_response r offset); mret PollRsp
  else if type =? IPMI_PAYLOAD_TYPE_RAKP_2 then
    if negb (state LANPLUS_STATE_RAKP_1_SENT) then mret PollAgain else
    rsp ← lift (read_rakp2_message rsp offset (auth_alg v));
    _ ← rsp_set (fun _ => rsp); mret PollRsp
  else if type =? IPMI_PAYLOAD_TYPE_RAKP_4 then
    if negb (state LANPLUS_STATE_RAKP_3_SENT) then mret PollAgain else
    rsp ← lift (read_rakp4_message rsp offset (auth_alg v));
    _ ← rsp_set (fun _ => rsp); mret PollRsp
  else if type =? IPMI_PAYLOAD_TYPE_SOL then
    if negb (state LANPLUS_STATE_ACTIVE) then mret PollAgain else
    let '(rsp, off) := read_sol_packet rsp offset in
    _ ← rsp_set (fun _ => rsp);
    let extra := payload_size - (off - offset) in
    _ ← (if 0 <? extra then shift_data off extra
         else rsp_set (fun r => r <| rs_data_len := 0 |>));
    mret PollRsp
  else mret PollAgain.

(** [ipmi_lan_poll_single] *)
Definition ipmi_lan_poll_single : M lp poll_result :=
  got ← ipmi_lan_recv_packet;
  if negb got then mret PollNull else
  rsp ← gets l_rsp;
  let class := rd (rs_data rsp) 3 in
  if class =? RMCP_CLASS_ASF then
    mret (if ipmi_handle_pong rsp then PollRsp else PollNull)
  else if negb (class =? RMCP_CLASS_IPMI) then mret PollAgain
  else
  let '(rsp, offset) := read_session_data rsp 4 in
  _ ← rsp_set (fun _ => rsp);
  session ← gets l_session;
  let v := v2_data session in
  let v2_active := is_active session && (rs_authtype rsp =? IPMI_SESSION_AUTHTYPE_RMCP_PLUS) in
  if v2_active && negb (rs_id rsp =? console_id v) then mret PollAgain else
  valid ← lift (lanplus_has_valid_auth_code rsp session);
  if negb valid then mret PollNull else
  payload_size ←
    (if v2_active && negb (bEncrypted rsp =? 0) then
       '(_, data, size) ← lift (lanplus_decrypt_payload (crypt_alg v) (k2 v) (rs_data rsp)
                                  offset (msglen rsp));
       _ ← rsp_set (fun r => r <| rs_data := data |>);
       match size with Some n => mret n | None => fail Uninitialised end
     else mret (msglen rsp));
  poll_dispatch offset payload_size.

(** [ipmi_lan_poll_recv] *)
Fixpoint poll_recv_loop (fuel : nat) : M lp bool :=
  match fuel with
  | O => fail OutOfFuel
  | S fuel =>
      r ← ipmi_lan_poll_single;
      match r with
      | PollAgain => poll_recv_loop fuel
      | PollNull => mret false
      | PollRsp => mret true
      end
  end.

Definition net_fuel (s : lp) : nat := S (length (l_net s)).

Definition ipmi_lan_poll_recv : M lp bool := s ← get; poll_recv_loop (net_fuel s).

(** The asf.iana field and the rest of the presence ping. *)
Definition ping_packet : list Z := [RMCP_VERSION_1; 0; 0xff; RMCP_CLASS_ASF; 0; 0; 0x11; 0xbe; 0x80; 0; 0; 0].

(** [ipmiv2_lan_ping] *)
Definition ipmiv2_lan_ping : M lp Z :=
  ok ← ipmi_lan_send_packet ping_packet;
  if negb ok then mret (-1) else
  got ← ipmi_lan_poll_recv;
  mret (b2z got).

(** ** Sending *)

(** [ipmi_lanplus_build_v2x_msg] on the state: the packet and the payload
    length it leaves behind. *)
Definition build_v2x_msg (p : ipmi_v2_payload) (seq : Z) : M lp (option (list Z) * Z) :=
  s ← get;
  rand ← (if is_active (l_session s) && negb (crypt_alg (v2_data (l_session s)) =? IPMI_CRYPT_NONE)
          then lanplus_rand else mret None);
  '(msg, len, session) ← lift (ipmi_lanplus_build_v2x_msg (l_intf s) (bridgePossible s) p seq rand
                                 (l_session s));
  _ ← session_set (fun _ => session);
  mret (msg, len).

Definition set_entry (e : loc) (f : rq_entry -> rq_entry) : M lp unit :=
  n ← on_reqs (Ptr.deref e);
  on_reqs (Ptr.store e (Ptr.mk_node (f (Ptr.n_entry n)) (Ptr.n_next n))).

(** The entry for a new request, and whether its [malloc] succeeded. *)
Definition add_entry (req : ipmi_rq) (seq : Z) : M lp (option loc) :=
  on_reqs (Ptr.ipmi_req_add_entry (bool_decide (is_Some (malloc 56))) req seq).

(** [ipmi_lanplus_build_v2x_ipmi_cmd] *)
Definition ipmi_lanplus_build_v2x_ipmi_cmd (req : ipmi_rq) (isRetry : bool) : M lp (option loc) :=
  s ← get;
  let seq := if isRetry then curr_seq s else u8 (curr_seq s + 1) in
  let seq := if 64 <=? seq then 0 else seq in
  _ ← modify (fun s => s <| curr_seq := seq |>);
  entry ← add_entry req seq;
  match entry with
  | None => mret None
  | Some e =>
      let a := addr (l_intf s) in
      _ ← (if (target_addr a =? my_addr a) || negb (bridgePossible s) then mret tt
           else set_entry e (fun x =>
             e_set_bridging_level
               (if negb (transit_addr a =? 0) && negb (transit_addr a =? my_addr a) then 2 else 1)
               (e_set_req (rq_set_cmd 0x34 (rq_set_target_cmd (rq_cmd (e_req x)) (e_req x))) x)));
      '(msg, _) ← build_v2x_msg (mk_payload (u16 (rq_data_len req + 7)) (PL_ipmi_request seq req)) seq;
      _ ← set_entry e (e_set_msg_data msg);
      mret entry
  end.

(** [ipmi_lanplus_build_v15_ipmi_cmd] *)
Definition ipmi_lanplus_build_v15_ipmi_cmd (req : ipmi_rq) : M lp (option loc) :=
  entry ← add_entry req 0;
  match entry with
  | None => mret None
  | Some e =>
      match malloc (rq_data_len req + 21) with
      | None => mret None
      | Some _ =>
          session ← gets l_session;
          msg ← lift (v15_ipmi_msg session req);
          _ ← set_entry e (fun x => e_set_msg_data (Some msg) (e_set_rq_seq 0 x));
          mret entry
      end
  end.

(** The states that the sends of the session set-up assert. *)
Definition may_send (st : session_state_t) (p : payload_body) : bool :=
  match p with
  | PL_ipmi_request _ _ => true
  | PL_open_session_request _ =>
      bool_decide (st = LANPLUS_STATE_PRESESSION) || bool_decide (st = LANPLUS_STATE_OPEN_SESSION_SENT)
  | PL_rakp_1_message _ => bool_decide (st = LANPLUS_STATE_OPEN_SESSION_RECEIVED)
  | PL_rakp_3_message _ => bool_decide (st = LANPLUS_STATE_RAKP_2_RECEIVED)
  | PL_sol_packet _ => bool_decide (st = LANPLUS_STATE_ACTIVE)
  | PL_other _ => false
  end.

Definition IPMI_GET_CHANNEL_AUTH_CAP : Z := 0x38.

(** The part of the retry loop under [if (xmit)]: [None] is the early return
    of NULL, otherwise the payload as the builder left it and the entry. *)
Definition transmit (p : ipmi_v2_payload) (try : Z) (entry : option loc)
    : M lp (option (ipmi_v2_payload * option loc)) :=
  v ← session_gets v2_data;
  _ ← c_assert (may_send (session_state v) (payload p));
  built ←
    (match payload p with
     | PL_ipmi_request _ req =>
         entry ← (if (rq_netfn req =? IPMI_NETFN_APP) && (rq_cmd req =? IPMI_GET_CHANNEL_AUTH_CAP) &&
                     (bmc_id v =? 0)
                  then ipmi_lanplus_build_v15_ipmi_cmd req
                  else ipmi_lanplus_build_v2x_ipmi_cmd req (0 <? try));
         match entry with
         | None => mret None
         | Some e =>
             n ← on_reqs (Ptr.deref e);
             mret (Some (default [] (e_msg_data (Ptr.n_entry n)), p, entry))
         end
     | _ =>
         '(msg, len) ← build_v2x_msg p 0;
         match msg with
         | None => fail Uninitialised
         | Some msg => mret (Some (msg, p <| payload_length := len |>, entry))
         end
     end : M lp (option (list Z * ipmi_v2_payload * option loc)));
  match built with
  | None => mret None
  | Some (msg_data, p, entry) =>
      ok ← ipmi_lan_send_packet msg_data;
      mret (if (ok : bool) then Some (p, entry) else None)
  end.

(** [is_sol_packet] and [sol_response_acks_packet] *)
Definition is_sol_packet (rsp : option ipmi_rs) : bool :=
  match rsp with
  | None => false
  | Some rsp => (rs_authtype rsp =? IPMI_SESSION_AUTHTYPE_RMCP_PLUS) &&
                (payloadtype rsp =? IPMI_PAYLOAD_TYPE_SOL)
  end.

Definition sol_response_acks_packet (rsp : option ipmi_rs) (p : payload_body) : bool :=
  match rsp, p with
  | Some r, PL_sol_packet out =>
      is_sol_packet rsp && (sol_acked (sol_fields r) =? so_packet_sequence_number out)
  | _, _ => false
  end.

Definition the_rsp (got : bool) : M lp (option ipmi_rs) :=
  gets (fun s => if got then Some (l_rsp s) else None).

(** [sol_input_handler]: the data handed to the terminal. *)
Definition sol_input_handler : M lp unit :=
  modify (fun s => s <| l_sol_in := l_sol_in s ++ [rsp_data (l_rsp s)] |>).

(** Polling again while the completion code says duplicated request. *)
Fixpoint skip_duplicates (fuel : nat) (got : bool) : M lp bool :=
  match fuel with
  | O => fail OutOfFuel
  | S fuel =>
      rsp ← the_rsp got;
      match rsp with
      | Some rsp => if ccode rsp =? 0xcf
                    then (got ← ipmi_lan_poll_recv; skip_duplicates fuel got)
                    else mret true
      | None => mret false
      end
  end.

(** The state after a message of the session set-up; these are not retried. *)
Definition sent_state (p : payload_body) : option session_state_t :=
  match p with
  | PL_open_session_request _ => Some LANPLUS_STATE_OPEN_SESSION_SENT
  | PL_rakp_1_message _ => Some LANPLUS_STATE_RAKP_1_SENT
  | PL_rakp_3_message _ => Some LANPLUS_STATE_RAKP_3_SENT
  | _ => None
  end.

(** Waiting for the response: [inl got] leaves the loop, [inr got] goes on. *)
Definition await_response (recv_sol : M lp bool) (p : ipmi_v2_payload) (entry : option loc)
    : M lp (bool + bool) :=
  match payload p with
  | PL_sol_packet out =>
      if so_packet_sequence_number out =? 0 then mret (inl false) else
      got ← recv_sol;
      rsp ← the_rsp got;
      if negb (is_sol_packet rsp) then mret (inl got) else
      if sol_response_acks_packet rsp (payload p) then mret (inl got) else
      len ← rsp_gets rs_data_len;
      if negb (len =? 0) then
        _ ← sol_input_handler;
        _ ← rsp_set (fun r => r <| rs_data_len := 0 |>);
        mret (inl got)
      else mret (inr got)
  | _ =>
      got ← ipmi_lan_poll_recv;
      s ← get;
      got ← skip_duplicates (S (net_fuel s)) got;
      if (got : bool) then mret (inl true) else
      _ ← (match payload p, entry with
           | PL_ipmi_request _ _, Some e =>
               n ← on_reqs (Ptr.deref e);
               on_reqs (Ptr.ipmi_req_remove_entry (e_rq_seq (Ptr.n_entry n))
                          (rq_cmd (e_req (Ptr.n_entry n))))
           | _, _ => mret tt
           end);
      mret (inr false)
  end.

(** The retry loop of [ipmi_lanplus_send_payload].  [None]: NULL was returned
    inside the loop, before the session time-out is restored. *)
Fixpoint send_loop (fuel : nat) (recv_sol : M lp bool) (p : ipmi_v2_payload) (try : Z)
    (xmit : bool) (ltime : Z) (entry : option loc) (rsp : bool)
    : M lp (option (bool * ipmi_v2_payload)) :=
  match fuel with
  | O => fail OutOfFuel
  | S fuel =>
      intf ← gets l_intf;
      let retry := retry (ssn_params intf) in
      if negb (try <? retry) then mret (Some (rsp, p)) else
      now ← (if xmit then time_now else mret ltime);
      let ltime := if xmit then now else ltime in
      sent ← (if xmit then transmit p try entry else mret (Some (p, entry)));
      match sent with
      | None => mret None
      | Some (p, entry) =>
          if noanswer intf then mret (Some (rsp, p)) else
          let try := match sent_state (payload p) with Some _ => retry | None => try end in
          _ ← (match sent_state (payload p) with
               | Some st => session_set (set_state st)
               | None => mret tt
               end);
          r ← await_response recv_sol p entry;
          match r with
          | inl got => mret (Some (got, p))
          | inr got =>
              now ← time_now;
              timeout ← session_gets s_timeout;
              let xmit := timeout <=? now - ltime in
              _ ← (if xmit then session_set (fun s => s <| s_timeout := u32 (s_timeout s + 1) |>)
                   else mret tt);
              send_loop fuel recv_sol p (try + 1) xmit ltime entry got
          end
      end
  end.

(** [ipmi_lanplus_send_payload] on an open interface; [recv_sol] is the
    receiver that a SOL payload waits with. *)
Definition send_payload_with (recv_sol : M lp bool) (p : ipmi_v2_payload)
    : M lp (bool * ipmi_v2_payload) :=
  saved_timeout ← session_gets s_timeout;
  retries ← gets (retry ∘ ssn_params ∘ l_intf);
  r ← send_loop (S (Z.to_nat retries)) recv_sol p 0 true 0 None false;
  match r with
  | None => mret (false, p)
  | Some (got, p) =>
      _ ← session_set (fun s => s <| s_timeout := saved_timeout |>);
      mret (got, p)
  end.

(** ** Serial over LAN *)

(** [check_sol_packet_for_new_data] *)
Definition check_sol_packet_for_new_data (got : bool) : M lp Z :=
  rsp ← the_rsp got;
  if negb (is_sol_packet rsp) then mret 0 else
  r ← gets l_rsp;
  let seq := sol_seq (sol_fields r) in
  let unaltered_data_len := u8 (rs_data_len r) in
  s ← get;
  new_data_size ←
    (if seq =? l_last_sol_seq s then
       let n := rs_data_len r - l_last_sol_count s in
       _ ← (if 0 <? n then shift_data (rs_data_len r - n) n
            else rsp_set (fun r => r <| rs_data_len := n |>));
       mret n
     else mret 0);
  _ ← (if negb (seq =? 0)
       then modify (fun s => s <| l_last_sol_seq := seq |> <| l_last_sol_count := unaltered_data_len |>)
       else mret tt);
  mret new_data_size.

Definition sol_ack (seq count : Z) : ipmi_v2_payload :=
  mk_payload 0 (PL_sol_packet (mk_solout (zeros IPMI_BUF_SIZE) 0 0 seq (u8 count)
    false false false false false false false)).

(** [ack_sol_packet]; the acknowledgement has sequence number 0 and waits for
    nothing, so its receiver is never called. *)
Definition ack_sol_packet (got : bool) : M lp unit :=
  rsp ← the_rsp got;
  if negb (is_sol_packet rsp) then mret tt else
  r ← gets l_rsp;
  let seq := sol_seq (sol_fields r) in
  if seq =? 0 then mret tt else
  _ ← send_payload_with (mret false) (sol_ack seq (rs_data_len r)); mret tt.

(** [ipmi_lanplus_recv_sol] *)
Definition ipmi_lanplus_recv_sol : M lp bool :=
  got ← ipmi_lan_poll_recv;
  type ← rsp_gets rs_authtype;
  if got && negb (type =? 0) then
    _ ← ack_sol_packet got;
    _ ← check_sol_packet_for_new_data got;
    mret got
  else mret got.

(** [ipmi_lanplus_send_payload] *)
Definition ipmi_lanplus_send_payload (p : ipmi_v2_payload) : M lp (bool * ipmi_v2_payload) :=
  send_payload_with ipmi_lanplus_recv_sol p.

(** [set_sol_packet_sequence_number] *)
Definition set_sol_packet_sequence_number (out : sol_out) : M lp sol_out :=
  seq ← session_gets (sequence_number ∘ sol_data);
  let seq := if 0x0F <? seq then 1 else seq in
  _ ← session_set (fun s => s <| sol_data := (sol_data s) <| sequence_number := u8 (seq + 1) |> |>);
  mret (out <| so_packet_sequence_number := seq |>).

End Lanplus.

(** *** Characters over packets that are acknowledged in part

    What [ipmi_lanplus_send_sol] needs of the connection: the exchange of one
    packet ([ipmi_lanplus_send_payload]), the next sequence number, the handler
    for data that come with an acknowledgement, the OEM variant, and a bound on
    the answers that can still arrive. *)
Class SolLink (dev : Type) := {
  sol_exchange : sol_out -> M dev (option ipmi_rs);
  sol_number : sol_out -> M dev sol_out;
  sol_handle : ipmi_rs -> M dev unit;
  sol_intelplus : dev -> bool;
  sol_rounds : dev -> nat;
}.

(** [is_sol_partial_ack] *)
Definition is_sol_partial_ack (intelplus : bool) (out : sol_out) (rs : option ipmi_rs) : Z :=
  match rs with
  | Some r =>
      let accepted := sol_accepted (sol_fields r) in
      if sol_response_acks_packet rs (PL_sol_packet out) && (accepted <? character_count out) then
        if intelplus && (accepted =? 0) then 0 else character_count out - accepted
      else 0
  | None => 0
  end.

Section SendSol.
Context {dev : Type} {link : SolLink dev}.

(** The packet and what is left of it to be sent again. *)
Definition sol_send_packet (out : sol_out) : M dev (option ipmi_rs * Z) :=
  rs ← sol_exchange out;
  d ← get;
  mret (rs, is_sol_partial_ack (sol_intelplus d) out rs).

(** The resend loop of [ipmi_lanplus_send_sol]; the payload is shifted in place. *)
Fixpoint resend_loop (fuel : nat) (out : sol_out) (rs : option ipmi_rs) (chars_to_resend : Z)
    : M dev (option ipmi_rs * sol_out) :=
  match fuel with
  | O => fail OutOfFuel
  | S fuel =>
      match rs with
      | None => mret (None, out)
      | Some r =>
          let f := sol_fields r in
          if negb ((sol_unavail f =? 0) && (sol_nack f =? 0) && negb (chars_to_resend =? 0)) then mret (rs, out)
          else
          _ ← (if negb (rs_data_len r =? 0) then sol_handle r else mret tt);
          out ← sol_number out;
          data ← lift (or_oob (wr (so_data out) 0 (slice (so_data out) (sol_accepted f) chars_to_resend)));
          let out := out <| so_data := data |> <| character_count := chars_to_resend |> in
          '(rs, chars) ← sol_send_packet out;
          resend_loop fuel out rs chars
      end
  end.

(** [ipmi_lanplus_send_sol] *)
Definition ipmi_lanplus_send_sol (out : sol_out) : M dev (option ipmi_rs * sol_out) :=
  out ← sol_number (out <| so_acked_packet_number := 0 |>);
  let out := out <| so_accepted_character_count := 0 |> in
  '(rs, chars) ← sol_send_packet out;
  d ← get;
  resend_loop (S (S (sol_rounds d))) out rs chars.
End SendSol.

(** The connection of lanplus.c; every answer takes a datagram. *)
#[export] Instance lp_link `{ssl : OpenSSL} `{mem : Malloc} : SolLink lp := {|
  sol_exchange out :=
    '(got, _) ← ipmi_lanplus_send_payload (mk_payload (u16 (character_count out)) (PL_sol_packet out));
    the_rsp got;
  sol_number := set_sol_packet_sequence_number;
  sol_handle _ := sol_input_handler;
  sol_intelplus s := ipmi_oem_active (l_intf s) "intelplus";
  sol_rounds s := length (l_net s);
|}.

(** An open interface with a script of datagrams and nothing else outstanding. *)
Definition init_lp (i : ipmi_intf) (s : ipmi_session) (net : list net_event) : lp :=
  mk_lp i s true false 0 init_hst zero_rs 0 0 net all_sent [] [] [] [].
