(* ===== verification/Lan.v ===== *)
(** * The IPMI v1.5 LAN transport (src/plugins/lan/lan.c, auth.c)

    Receiving and matching, the builder of v1.5 packets with their
    authentication codes, sending with retries, and Serial over LAN.  The
    statics of lan.c are those of lanplus.c, so the state is the record [lp] of
    Lanplus.v, with the list of requests and the socket; the names that both
    files use are prefixed by [lan_] here.  The digest is that of Md5.v, the
    branch of auth.c without OpenSSL. *)

From S2P Require Import Prelude Wire Ipmi Ipmb Intf Session Crypt LanplusMsg ReqList Lanplus Md5.

#[local] Open Scope Z_scope.

Definition IPMI_SESSION_AUTHTYPE_PASSWORD : Z := 0x4.
Definition IPMI_SESSION_AUTHTYPE_OEM : Z := 0x5.

(** ** Authentication codes (auth.c) *)

Definition ipmi_auth_md5 (s : ipmi_session) (data : list Z) : res (list Z) :=
  let key := slice (authcode s) 0 16 in
  md5 [key; htoipmi32 (session_id s); data; htoipmi32 (in_seq s); key].

(** Without MD2 in the library the code is zero. *)
Definition ipmi_auth_md2 (s : ipmi_session) (data : list Z) : res (list Z) := Ok (zeros 16).

Definition ipmi_auth_special (s : ipmi_session) : res (list Z) :=
  md ← md5 [c_string (authcode s)];
  md5 [map (fun i => Z.lxor (rd (challenge s) i) (rd md i)) [0; 1; 2; 3; 4; 5; 6; 7; 8; 9; 10; 11; 12; 13; 14; 15]].

(** ** Receiving *)

(** [ipmi_lan_recv_packet], the same function as in lanplus.c *)
Definition lan_recv_packet : M lp bool := ipmi_lan_recv_packet.

(** [our_address] *)
Definition lan_our_address (a : intf_addr) : Z :=
  let our_address := u8 (my_addr a) in
  if our_address =? 0 then IPMI_BMC_SLAVE_ADDR else our_address.

(** The headers of a packet: the response with its fields and the offset [x]
    of what follows them. *)
Definition lan_read_headers (s : ipmi_session) (rsp : ipmi_rs) : ipmi_rs * Z :=
  let d i := rd (rs_data rsp) i in
  let rsp := rsp <| rs_authtype := d 4 |>
    <| rs_seq := ipmi32toh (drop 5 (rs_data rsp)) |> <| rs_id := ipmi32toh (drop 9 (rs_data rsp)) |> in
  let x := 13 in
  if rs_id rsp =? u32 (session_id s + 0x10000000) then
    (rsp <| payloadtype := IPMI_PAYLOAD_TYPE_SOL |> <| msglen := d x |>
       <| rs_payload := put_sol_packet (d (x + 1) .& 0x0F) (d (x + 2) .& 0x0F) (d (x + 3)) (d (x + 4) .& 0x40)
            (d (x + 4) .& 0x20) (d (x + 4) .& 0x10) (d (x + 4) .& 0x08) (d (x + 4) .& 0x04)
            (rs_payload rsp) |>, x + 6)
  else
    let x := if active s && (negb (rs_authtype rsp =? 0) || negb (authtype s =? 0)) then x + 16 else x in
    (rsp <| payloadtype := IPMI_PAYLOAD_TYPE_IPMI |> <| msglen := d x |>
       <| rs_payload := put_ipmi_response (d (x + 1)) (d (x + 2) .>> 2) (d (x + 2) .& 3) (d (x + 4))
            (d (x + 5) .>> 2) (d (x + 5) .& 3) (d (x + 6)) (rs_payload rsp) |>
       <| ccode := d (x + 7) |>, x + 8).

(** How the loop of [ipmi_lan_poll_recv] ends: the return inside it, or the
    value of [rsp] and [x] behind it. *)
Inductive lan_poll_end := LanReturn (got : bool) | LanBreak (got : bool) (x : Z).

(** [if (!entry->bridging_level) entry->req.msg.cmd = entry->req.msg.target_cmd] *)
Definition lan_restore_cmd (x : rq_entry) : rq_entry :=
  if e_bridging_level x =? 0 then e_set_req (rq_set_cmd (rq_target_cmd (e_req x)) (e_req x)) x else x.

(** The bridged answer inside a Send Message response moves to the place of
    its header. *)
Definition lan_unwrap (e : loc) (x : Z) : M lp unit :=
  rsp ← gets l_rsp;
  let n := rs_data_len rsp - x - 1 in
  if n <? 0 then fail OutOfBounds else
  bs ← lift (if x + n <=? zlen (rs_data rsp) then Ok (slice (rs_data rsp) x n) else Bad OutOfBounds);
  data ← lift (or_oob (
    data ← wr (rs_data rsp) (x - 7) bs; wr data (x - 8) [u8 (rd data (x - 8) - 8)]));
  _ ← rsp_set (fun r => r <| rs_data := data |> <| rs_data_len := rs_data_len r - 8 |>);
  set_entry e (fun y => lan_restore_cmd (e_set_rq_seq (rd data (x - 3) .>> 2) y)).

Fixpoint lan_poll_loop (fuel : nat) (got : bool) (x : Z) : M lp lan_poll_end :=
  match fuel with
  | O => fail OutOfFuel
  | S fuel =>
      if negb got then mret (LanBreak false x) else
      rsp ← gets l_rsp;
      let class := rd (rs_data rsp) 3 in
      if class =? RMCP_CLASS_ASF then mret (LanReturn (ipmi_handle_pong rsp))
      else if negb (class =? RMCP_CLASS_IPMI) then
        got ← lan_recv_packet; lan_poll_loop fuel got x
      else
        s ← get;
        let '(rsp, x) := lan_read_headers (l_session s) rsp in
        _ ← rsp_set (fun _ => rsp);
        if payloadtype rsp =? IPMI_PAYLOAD_TYPE_SOL then mret (LanBreak true x) else
        entry ← on_reqs (Ptr.lan_req_lookup_entry (ipmi_rq_seq rsp) (ipmi_cmd rsp));
        match entry with
        | None => got ← lan_recv_packet; lan_poll_loop fuel got x
        | Some e =>
            n ← on_reqs (Ptr.deref e);
            let a := addr (l_intf s) in
            if negb (target_addr a =? lan_our_address a) && bridgePossible s &&
               (negb (e_bridging_level (Ptr.n_entry n) =? 0) && (ipmi_netfn rsp =? 7) && (ipmi_cmd rsp =? 0x34))
            then
              _ ← set_entry e (fun y => e_set_bridging_level (e_bridging_level y - 1) y);
              if rs_data_len rsp - x - 1 =? 0 then
                got ← (if ccode rsp =? 0 then lan_recv_packet else mret false);
                _ ← set_entry e lan_restore_cmd;
                _ ← (if negb got then
                       n ← on_reqs (Ptr.deref e);
                       on_reqs (Ptr.ipmi_req_remove_entry (e_rq_seq (Ptr.n_entry n))
                                  (rq_cmd (e_req (Ptr.n_entry n))))
                     else mret tt);
                lan_poll_loop fuel got x
              else
                _ ← lan_unwrap e x;
                lan_poll_loop fuel true x
            else
              _ ← on_reqs (Ptr.ipmi_req_remove_entry (ipmi_rq_seq rsp) (ipmi_cmd rsp));
              mret (LanBreak true x)
        end
  end.

(** The data behind the headers move to the start, the rest is cleared. *)
Definition lan_shift (x : Z) : M lp unit :=
  rsp ← gets l_rsp;
  if rs_data_len rsp <=? x then mret tt else
  let len := rs_data_len rsp - x in
  let len := if payloadtype rsp =? IPMI_PAYLOAD_TYPE_IPMI then len - 1 else len in
  data ← lift (if x + len <=? zlen (rs_data rsp) then Ok (slice (rs_data rsp) x len) else Bad OutOfBounds);
  data ← lift (or_oob (wr (rs_data rsp) 0 (data ++ zeros (IPMI_BUF_SIZE - len))));
  rsp_set (fun r => r <| rs_data := data |> <| rs_data_len := len |>).

(** Rounds of the loop: a datagram, or the next layer of a datagram. *)
Definition lan_poll_fuel (s : lp) : nat := (S (length (l_net s)) * 130)%nat.

(** [ipmi_lan_poll_recv] *)
Definition lan_poll_recv : M lp bool :=
  got ← lan_recv_packet;
  s ← get;
  r ← lan_poll_loop (lan_poll_fuel s) got 0;
  match r with
  | LanReturn got => mret got
  | LanBreak got x => _ ← (if got : bool then lan_shift x else mret tt); mret got
  end.

Definition ipmi_lan_thump_first : M lp unit :=
  _ ← ipmi_lan_send_packet [0; 0; 0; 0; 0; 0; 0; 0; 0x07; 0x20; 0x18; 0xc8; 0xc2; 0x01; 0x01; 0x3c]; mret tt.
(** "thump" and the zeros of its array *)
Definition ipmi_lan_thump : M lp unit :=
  _ ← ipmi_lan_send_packet [0x74; 0x68; 0x75; 0x6d; 0x70; 0; 0; 0; 0; 0]; mret tt.

(** ** Building *)

(** The message from its length byte's successor on: header, data and
    checksums, nested once or twice for a bridged request.  [cs], [cs2] and
    [cs3] are the starts of the checksummed ranges. *)
Definition lan_message (a : intf_addr) (level : Z) (req : ipmi_rq) (curr_seq : Z) : list Z :=
  let seq := u8 (curr_seq .<< 2) in
  let '(msg, cs, cs2) :=
    if level =? 0 then ([], 0%nat, 0%nat) else
    let msg := [IPMI_BMC_SLAVE_ADDR; u8 (IPMI_NETFN_APP .<< 2)] in
    let msg := msg ++ [ipmi_csum (drop 0 msg)] in
    (msg ++ [IPMI_REMOTE_SWID; seq; 0x34;
             u8 (0x40 .| (if level =? 1 then target_channel a else transit_channel a))], 7%nat, 3%nat) in
  let '(msg, cs, cs3) :=
    if level =? 2 then
      let msg := msg ++ [u8 (transit_addr a); u8 (IPMI_NETFN_APP .<< 2)] in
      let msg := msg ++ [ipmi_csum (drop cs msg)] in
      (msg ++ [u8 (my_addr a); seq; 0x34; u8 (0x40 .| target_channel a)], 14%nat, 10%nat)
    else (msg, cs, 0%nat) in
  let msg := msg ++ [if level =? 0 then IPMI_BMC_SLAVE_ADDR else u8 (target_addr a);
                     u8 ((rq_netfn req .<< 2) .| (rq_lun req .& 3))] in
  let msg := msg ++ [ipmi_csum (drop cs msg)] in
  let cs := length msg in
  let msg := msg ++ [if level =? 0 then IPMI_REMOTE_SWID else u8 (my_addr a); seq; rq_cmd req] ++ rq_data req in
  let msg := msg ++ [ipmi_csum (drop cs msg)] in
  let msg := if level =? 2 then msg ++ [ipmi_csum (drop cs3 msg)] else msg in
  if level =? 0 then msg else msg ++ [ipmi_csum (drop cs2 msg)].

(** The bridging level of a request. *)
Definition lan_transit (a : intf_addr) : bool :=
  negb (transit_addr a =? my_addr a) && negb (transit_addr a =? 0).
Definition lan_level (a : intf_addr) (bridge_possible : bool) : Z :=
  if (target_addr a =? lan_our_address a) || negb bridge_possible then 0
  else if lan_transit a then 2 else 1.

Definition lan_authenticated (s : ipmi_session) : bool := active s && negb (authtype s =? 0).

(** The size of the buffer and the bytes that are written to it. *)
Definition lan_buffer_size (a : intf_addr) (s : ipmi_session) (req : ipmi_rq) : Z :=
  rq_data_len req + 29 + (if lan_authenticated s then 16 else 0) + (if lan_transit a then 8 else 0).

Definition lan_packet (a : intf_addr) (s : ipmi_session) (level : Z) (req : ipmi_rq) (curr_seq : Z)
    : res (list Z) :=
  let head := rmcp_bytes ++ [if active s then authtype s else 0] ++ htoipmi32 (in_seq s)
              ++ htoipmi32 (session_id s) in
  let msglen := u8 (rq_data_len req + 7 + 8 * level) in
  let message := lan_message a level req curr_seq in
  let signed := slice message 0 msglen in
  code ← (if negb (lan_authenticated s) then Ok []
          else if authtype s =? IPMI_SESSION_AUTHTYPE_MD5 then ipmi_auth_md5 s signed
          else if authtype s =? IPMI_SESSION_AUTHTYPE_MD2 then ipmi_auth_md2 s signed
          else Ok (slice (authcode s) 0 16));
  Ok (head ++ code ++ [msglen] ++ message).

Section Lan.
Context `{mem : Malloc}.

(** [ipmi_lan_ping], with the packet of ipmiv2_lan_ping *)
Definition ipmi_lan_ping : M lp Z :=
  match malloc (zlen ping_packet) with
  | None => mret (-1)
  | Some _ =>
      ok ← ipmi_lan_send_packet ping_packet;
      if negb ok then mret (-1) else
      got ← lan_poll_recv;
      mret (b2z got)
  end.

(** The entry of the request: the one with its sequence number and command, or
    a new one. *)
Definition lan_entry (req : ipmi_rq) (seq : Z) : M lp (option loc) :=
  entry ← on_reqs (Ptr.lan_req_lookup_entry seq (rq_cmd req));
  match entry with
  | Some e => _ ← set_entry e (e_set_msg_data None); mret (Some e)
  | None => add_entry req seq
  end.

(** What [ipmi_lan_build_cmd] stores in the entry besides the message. *)
Definition lan_mark (level seq : Z) (x : rq_entry) : rq_entry :=
  let x := e_set_rq_seq seq (e_set_bridging_level level x) in
  if level =? 0 then x
  else e_set_req (rq_set_cmd 0x34 (rq_set_target_cmd (rq_cmd (e_req x)) (e_req x))) x.

Definition lan_next_in_seq (s : ipmi_session) : ipmi_session :=
  if in_seq s =? 0 then s else
  let q := u32 (in_seq s + 1) in s <| in_seq := if q =? 0 then 1 else q |>.

Definition ipmi_lan_build_cmd (req : ipmi_rq) (isRetry : bool) : M lp (option loc) :=
  s ← get;
  let seq := if isRetry then curr_seq s else curr_seq s + 1 in
  let seq := if 64 <=? seq then 0 else seq in
  _ ← modify (fun s => s <| curr_seq := seq |>);
  entry ← lan_entry req seq;
  match entry with
  | None => mret None
  | Some e =>
      let a := addr (l_intf s) in
      let size := lan_buffer_size a (l_session s) req in
      match malloc size with
      | None => mret None
      | Some _ =>
          let level := lan_level a (bridgePossible s) in
          _ ← set_entry e (lan_mark level seq);
          msg ← lift (lan_packet a (l_session s) level req seq);
          _ ← lift (or_oob (wr (zeros size) 0 msg));
          _ ← session_set lan_next_in_seq;
          _ ← set_entry e (e_set_msg_data (Some msg));
          mret entry
      end
  end.

(** ** Sending *)

(** The loop of [ipmi_lan_send_cmd] *)
Fixpoint lan_send_loop (fuel : nat) (req : ipmi_rq) (try : Z) : M lp (option bool) :=
  match fuel with
  | O => fail OutOfFuel
  | S fuel =>
      entry ← ipmi_lan_build_cmd req (0 <? try);
      match entry with
      | None => mret None
      | Some e =>
          n ← on_reqs (Ptr.deref e);
          sent ← ipmi_lan_send_packet (default [] (e_msg_data (Ptr.n_entry n)));
          if negb sent then
            _ ← on_reqs (Ptr.ipmi_req_remove_entry (e_rq_seq (Ptr.n_entry n))
                           (rq_target_cmd (e_req (Ptr.n_entry n))));
            lan_send_loop fuel req (try + 1)
          else
            intf ← gets l_intf;
            if noanswer intf then mret (Some false) else
            _ ← (if ipmi_oem_active intf "intelwv2" then ipmi_lan_thump else mret tt);
            got ← lan_poll_recv;
            rsp ← the_rsp got;
            let again := match rsp with Some r => ccode r =? 0xcf | None => false end in
            got ← (if again then lan_poll_recv else mret got);
            if got : bool then mret (Some true)
            else if retry (ssn_params intf) <=? try + 1 then mret (Some false)
            else lan_send_loop fuel req (try + 1)
      end
  end.

(** Rounds of the loop when sends fail only finitely often: one per failed send
    and one per try.  A failed send is repeated without a limit, so when all
    sends fail for good no number of rounds is enough. *)
Definition lan_send_fuel (s : lp) : nat :=
  (length (s_next (l_send s)) + Z.to_nat (retry (ssn_params (l_intf s))) + 1)%nat.

(** [ipmi_lan_send_cmd] of an open interface. *)
Definition lan_send_cmd_opened (req : ipmi_rq) : M lp bool :=
  s ← get;
  r ← lan_send_loop (lan_send_fuel s) req 0;
  match r with
  | None => mret false
  | Some got => _ ← on_reqs Ptr.ipmi_req_clear_entries; mret got
  end.

Definition lan_sendrecv (req : ipmi_rq) : M lp (option ipmi_rs) :=
  got ← lan_send_cmd_opened req; the_rsp got.

(** ** Serial over LAN *)

(** The bytes of [ipmi_lan_build_sol_msg]; [malloc] has succeeded. *)
Definition lan_sol_bytes (s : ipmi_session) (p : sol_out) : res (list Z) :=
  if zlen (so_data p) <? character_count p then Bad OutOfBounds else
  let flags := (if so_is_nack p then 0x40 else 0) .| (if assert_ring_wor p then 0x20 else 0)
    .| (if generate_break p then 0x10 else 0) .| (if deassert_cts p then 0x08 else 0)
    .| (if deassert_dcd_dsr p then 0x04 else 0) .| (if flush_inbound p then 0x02 else 0)
    .| (if flush_outbound p then 0x01 else 0) in
  let id := htoipmi32 (session_id s) in
  Ok (rmcp_bytes ++ [0] ++ htoipmi32 (in_seq s) ++ take 3 id ++ [u8 ((session_id s .>> 24) + 0x10)]
      ++ [u8 (character_count p + 5)]
      ++ [so_packet_sequence_number p; so_acked_packet_number p; so_accepted_character_count p; flags; 0]
      ++ slice (so_data p) 0 (character_count p)).

Definition lan_sol_next_seq (s : ipmi_session) : ipmi_session :=
  let q := u32 (in_seq s + 1) in s <| in_seq := if q =? 0 then 1 else q |>.

(** [is_sol_packet] and [sol_response_acks_packet]; [out] is the SOL payload
    that was sent. *)
Definition lan_is_sol_packet (rsp : option ipmi_rs) : bool :=
  match rsp with Some r => payloadtype r =? IPMI_PAYLOAD_TYPE_SOL | None => false end.

Definition lan_sol_response_acks (rsp : option ipmi_rs) (out : sol_out) : bool :=
  match rsp with
  | Some r => lan_is_sol_packet rsp && (sol_acked (sol_fields r) =? so_packet_sequence_number out)
  | None => false
  end.

(** The loop of [ipmi_lan_send_sol_payload] *)
Fixpoint lan_sol_loop (fuel : nat) (recv_sol : M lp bool) (out : sol_out) (msg : list Z) (try : Z) : M lp bool :=
  match fuel with
  | O => fail OutOfFuel
  | S fuel =>
      sent ← ipmi_lan_send_packet msg;
      if negb sent then lan_sol_loop fuel recv_sol out msg (try + 1) else
      intf ← gets l_intf;
      if noanswer intf then mret false else
      if so_packet_sequence_number out =? 0 then mret false else
      got ← recv_sol;
      rsp ← the_rsp got;
      if lan_sol_response_acks rsp out then mret got else
      len ← rsp_gets rs_data_len;
      _ ← (if lan_is_sol_packet rsp && negb (len =? 0) then sol_input_handler else mret tt);
      if retry (ssn_params intf) <=? try + 1 then mret got
      else lan_sol_loop fuel recv_sol out msg (try + 1)
  end.

(** [ipmi_lan_send_sol_payload] of an open interface; [recv_sol] is
    [ipmi_lan_recv_sol]. *)
Definition lan_send_sol_with (recv_sol : M lp bool) (out : sol_out) : M lp bool :=
  match malloc (19 + character_count out) with
  | None => mret false
  | Some _ =>
      session ← gets l_session;
      msg ← lift (lan_sol_bytes session out);
      _ ← session_set lan_sol_next_seq;
      s ← get;
      lan_sol_loop (lan_send_fuel s) recv_sol out msg 0
  end.

(** [check_sol_packet_for_new_data] *)
Definition lan_check_sol_packet (got : bool) : M lp Z :=
  rsp ← the_rsp got;
  if negb (lan_is_sol_packet rsp) then mret 0 else
  r ← gets l_rsp;
  let seq := sol_seq (sol_fields r) in
  let unaltered_data_len := u8 (rs_data_len r) in
  s ← get;
  new_data_size ←
    (if seq =? l_last_sol_seq s then
       let n := rs_data_len r - l_last_sol_count s in
       _ ← (if 0 <? n then shift_data (rs_data_len r - n) n
            else rsp_set (fun r => r <| rs_data_len := n |>));
       mret n
     else mret 0);
  _ ← (if negb (seq =? 0)
       then modify (fun s => s <| l_last_sol_seq := seq |> <| l_last_sol_count := unaltered_data_len |>)
       else mret tt);
  mret new_data_size.

(** [ack_sol_packet]: the payload it sends has sequence number 0, so no answer
    is awaited. *)
Definition lan_ack_sol_packet (got : bool) : M lp unit :=
  rsp ← the_rsp got;
  if negb (lan_is_sol_packet rsp) then mret tt else
  r ← gets l_rsp;
  let seq := sol_seq (sol_fields r) in
  if seq =? 0 then mret tt else
  match payload (sol_ack seq (rs_data_len r)) with
  | PL_sol_packet ack => _ ← lan_send_sol_with (mret false) ack; mret tt
  | _ => mret tt
  end.

(** [ipmi_lan_recv_sol] *)
Definition ipmi_lan_recv_sol : M lp bool :=
  got ← lan_poll_recv;
  _ ← lan_ack_sol_packet got;
  _ ← lan_check_sol_packet got;
  mret got.

Definition ipmi_lan_send_sol_payload (out : sol_out) : M lp bool := lan_send_sol_with ipmi_lan_recv_sol out.

(** [is_sol_partial_ack] *)
Definition lan_sol_partial_ack (out : sol_out) (rsp : option ipmi_rs) : Z :=
  match rsp with
  | Some r =>
      let accepted := sol_accepted (sol_fields r) in
      if lan_sol_response_acks rsp out && (accepted <? character_count out) && negb (accepted =? 0)
      then character_count out - accepted else 0
  | None => 0
  end.

(** The loop of [ipmi_lan_send_sol] *)
Fixpoint lan_resend_loop (fuel : nat) (out : sol_out) (got : bool) (chars_to_resend : Z) : M lp bool :=
  if chars_to_resend =? 0 then mret got else
  match fuel with
  | O => fail OutOfFuel
  | S fuel =>
      rs ← the_rsp got;
      match rs with
      | None => fail Dangling
      | Some r =>
          _ ← (if negb (rs_data_len r =? 0) then sol_input_handler else mret tt);
          out ← set_sol_packet_sequence_number out;
          data ← lift (or_oob (wr (so_data out) 0
                   (slice (so_data out) (sol_accepted (sol_fields r)) chars_to_resend)));
          let out := out <| so_data := data |> <| character_count := chars_to_resend |> in
          got ← ipmi_lan_send_sol_payload out;
          rs ← the_rsp got;
          lan_resend_loop fuel out got (lan_sol_partial_ack out rs)
      end
  end.

(** [ipmi_lan_send_sol] *)
Definition ipmi_lan_send_sol (out : sol_out) : M lp bool :=
  out ← set_sol_packet_sequence_number (out <| so_acked_packet_number := 0 |>);
  let out := out <| so_accepted_character_count := 0 |> in
  got ← ipmi_lan_send_sol_payload out;
  rs ← the_rsp got;
  s ← get;
  lan_resend_loop (S (net_fuel s)) out got (lan_sol_partial_ack out rs).
End Lan.
