(* ===== verification/LanSession.v ===== *)
(** * IPMI v1.5 sessions (src/plugins/lan/lan.c)

    The commands that authenticate and activate a session over the transport of
    Lan.v, its end, and the opening of an interface with the queries of
    Channel.v.  The set-up commands run on an interface that is marked open, so
    [intf->sendrecv] is the send function of an open interface. *)

From S2P Require Import Prelude Wire Ipmi Ipmb Intf Session Bmc Channel Crypt LanplusMsg ReqList Lanplus Md5 Lan.

#[local] Open Scope Z_scope.

Definition LAN_V15_TIMEOUT : Z := 2.
Definition LAN_V15_RETRY : Z := 4.
Definition LAN_V15_CHANNEL_E : Z := 0x0e.
Definition IPMI_LAN_MAX_REQUEST_SIZE : Z := 38.
Definition IPMI_LAN_MAX_RESPONSE_SIZE : Z := 34.
Definition IPMI_AUTHSTATUS_PER_MSG_DISABLED : Z := 0x10.

(** The choice of [ipmi_get_auth_capabilities_cmd] among the types that the
    controller offers, [None] when there is none. *)
Definition lan_choose_authtype (password authtype_set enabled : Z) : option Z :=
  let wanted t := (authtype_set =? 0) || (authtype_set =? t) in
  let offered t := negb (enabled .& (1 .<< t) =? 0) in
  let keyed t := negb (password =? 0) && wanted t && offered t in
  if keyed IPMI_SESSION_AUTHTYPE_MD5 then Some IPMI_SESSION_AUTHTYPE_MD5
  else if keyed IPMI_SESSION_AUTHTYPE_MD2 then Some IPMI_SESSION_AUTHTYPE_MD2
  else if keyed IPMI_SESSION_AUTHTYPE_PASSWORD then Some IPMI_SESSION_AUTHTYPE_PASSWORD
  else if keyed IPMI_SESSION_AUTHTYPE_OEM then Some IPMI_SESSION_AUTHTYPE_OEM
  else if wanted IPMI_SESSION_AUTHTYPE_NONE && offered IPMI_SESSION_AUTHTYPE_NONE
  then Some IPMI_SESSION_AUTHTYPE_NONE
  else None.

Section LanSession.
Context `{mem : Malloc}.

Definition lan_request (cmd : Z) (data : list Z) : ipmi_rq := mk_rq IPMI_NETFN_APP 0 cmd 0 data.
Definition lan_set_bridge (b : bool) : M lp unit := modify (fun s => s <| bridgePossible := b |>).
Definition lan_set_intf (f : ipmi_intf -> ipmi_intf) : M lp unit := modify (fun s => s <| l_intf := f (l_intf s) |>).

(** A command that succeeds with completion code 0. *)
Definition lan_command (cmd : Z) (data : list Z) : M lp (option (list Z)) :=
  rsp ← lan_sendrecv (lan_request cmd data);
  mret (match rsp with
        | Some r => if ccode r =? 0 then Some (rs_data r) else None
        | None => None
        end).

(** [ipmi_lan_keepalive] *)
Definition ipmi_lan_keepalive : M lp Z :=
  intf ← gets l_intf;
  if negb (opened intf) then mret 0 else
  r ← lan_command 1 [];
  mret (match r with Some _ => 0 | None => -1 end).

(** [ipmi_get_auth_capabilities_cmd] *)
Definition lan_get_auth_capabilities_cmd : M lp Z :=
  params ← gets (ssn_params ∘ l_intf);
  r ← lan_command 0x38 [LAN_V15_CHANNEL_E; privlvl params];
  match r with
  | None => mret (-1)
  | Some d =>
      _ ← session_set (fun s => s <| authstatus := rd d 2 |>);
      match lan_choose_authtype (password params) (authtype_set params) (rd d 1) with
      | None => mret (-1)
      | Some t => _ ← session_set (fun s => s <| authtype := t |>); mret 0
      end
  end.

(** [ipmi_get_session_challenge_cmd] *)
Definition lan_get_session_challenge_cmd : M lp Z :=
  session ← gets l_session;
  params ← gets (ssn_params ∘ l_intf);
  r ← lan_command 0x39 ([authtype session] ++ slice (username params) 0 16);
  match r with
  | None => mret (-1)
  | Some d =>
      _ ← session_set (fun s => s <| session_id := ipmi32toh d |> <| challenge := slice d 4 16 |>);
      mret 0
  end.

(** What the four bytes hold after [get_random]: the script of random
    numbers. *)
Definition lan_random : M lp (list Z) :=
  r ← lanplus_rand; mret (slice (default [] r ++ zeros 4) 0 4).

(** [ipmi_activate_session_cmd] *)
Definition lan_activate_session_cmd : M lp Z :=
  intf ← gets l_intf;
  session ← gets l_session;
  challenge ←
    (if ipmi_oem_active intf "supermicro" then
       special ← lift (ipmi_auth_special session);
       code ← lift (or_oob (wr (authcode session) 0 special));
       _ ← session_set (fun s => s <| authcode := code |>);
       mret (zeros 16)
     else mret (challenge session));
  random ← lan_random;
  _ ← session_set (fun s => s <| active := true |>);
  rsp ← lan_sendrecv (lan_request 0x3a ([authtype session; privlvl (ssn_params intf)] ++ challenge ++ random));
  match rsp with
  | None => _ ← session_set (fun s => s <| active := false |>); mret (-1)
  | Some r =>
      if negb (ccode r =? 0) then mret (-1) else
      let d := rs_data r in
      let seq := ipmi32toh (drop 5 d) in
      _ ← session_set (fun s => s <| session_id := ipmi32toh (drop 1 d) |>
            <| in_seq := if seq =? 0 then 1 else seq |>);
      if negb (authstatus session .& IPMI_AUTHSTATUS_PER_MSG_DISABLED =? 0) then
        _ ← session_set (fun s => s <| authtype := IPMI_SESSION_AUTHTYPE_NONE |>); mret 0
      else if negb (authtype session =? rd d 0 .& 0xf) then mret (-1)
      else mret 0
  end.

(** [ipmi_set_session_privlvl_cmd] *)
Definition lan_set_session_privlvl_cmd : M lp Z :=
  s ← get;
  let privlvl := privlvl (ssn_params (l_intf s)) in
  if privlvl <=? IPMI_SESSION_PRIV_USER then mret 0 else
  _ ← lan_set_bridge false;
  r ← lan_command 0x3b [privlvl];
  _ ← lan_set_bridge (bridgePossible s);
  mret (match r with Some _ => 0 | None => -1 end).

(** [ipmi_close_session_cmd] *)
Definition lan_close_session_cmd : M lp Z :=
  session ← gets l_session;
  if negb (active session) then mret (-1) else
  _ ← lan_set_intf (fun i => i <| addr := (addr i) <| target_addr := IPMI_BMC_SLAVE_ADDR |> |>);
  _ ← lan_set_bridge false;
  r ← lan_command 0x3c (htoipmi32 (session_id session));
  mret (match r with Some _ => 0 | None => -1 end).

(** [ipmi_lan_activate_session] *)
Definition ipmi_lan_activate_session : M lp Z :=
  intf ← gets l_intf;
  _ ← (if negb (ipmi_oem_active intf "supermicro") then ipmi_lan_ping else mret 0);
  _ ← (if ipmi_oem_active intf "intelwv2" then ipmi_lan_thump_first else mret tt);
  rc ← lan_get_auth_capabilities_cmd;
  if rc <? 0 then mret (-1) else
  rc ← lan_get_session_challenge_cmd;
  if rc <? 0 then mret (-1) else
  rc ← lan_activate_session_cmd;
  if rc <? 0 then mret (-1) else
  _ ← lan_set_intf (fun i => i <| abort := false |>);
  rc ← lan_set_session_privlvl_cmd;
  if rc <? 0 then _ ← lan_close_session_cmd; mret (-1) else mret 0.

(** [ipmi_lan_close]; [ipmi_intf_session_cleanup] frees the session. *)
Definition ipmi_lan_close : M lp unit :=
  s ← get;
  _ ← (if negb (abort (l_intf s)) && l_have_session s
       then _ ← lan_close_session_cmd; mret tt else mret tt);
  _ ← on_reqs Ptr.ipmi_req_clear_entries;
  modify (fun s => s <| l_have_session := false |>
    <| l_intf := (l_intf s) <| opened := false |> <| manufacturer_id := IPMI_OEM_UNKNOWN |> |>).

(** [ipmi_lan_set_max_rq_data_size] and [ipmi_lan_set_max_rp_data_size] behind
    the setters of ipmi_intf.c *)
Definition lan_set_max_request (size : Z) (i : ipmi_intf) : ipmi_intf :=
  if size <? IPMI_DEFAULT_PAYLOAD_SIZE then i
  else i <| addr := (addr i) <| max_request_data_size := if 0xFF <? size + 7 then 0xFF - 7 else size |> |>.
Definition lan_set_max_response (size : Z) (i : ipmi_intf) : ipmi_intf :=
  if size <? IPMI_DEFAULT_PAYLOAD_SIZE - 1 then i
  else i <| addr := (addr i) <| max_response_data_size := if 0xFF <? size + 8 then 0xFF - 8 else size |> |>.

(** [ipmi_lan_setup] *)
Definition ipmi_lan_setup (i : ipmi_intf) : ipmi_intf :=
  i <| addr := (addr i) <| max_request_data_size := IPMI_LAN_MAX_REQUEST_SIZE |>
         <| max_response_data_size := IPMI_LAN_MAX_RESPONSE_SIZE |> |>.

Definition lan_default_params (p : ipmi_session_params) : ipmi_session_params :=
  p <| privlvl := if privlvl p =? 0 then IPMI_SESSION_PRIV_ADMIN else privlvl p |>
    <| timeout := if timeout p =? 0 then LAN_V15_TIMEOUT else timeout p |>
    <| retry := if retry p =? 0 then LAN_V15_RETRY else retry p |>.

Definition lan_fresh_session (p : ipmi_session_params) : ipmi_session :=
  zero_session <| s_timeout := timeout p |> <| authcode := authcode_set p |>
    <| sol_data := mk_sol 0 0 1 0 0 |>.

Definition lan_open_fail : M lp Z := _ ← ipmi_lan_close; mret (-1).

(** [ipmi_lan_open] of an interface with a host name: [connected] and
    [named] are the outcomes of the connection and of [getsockname], [fd] the
    descriptor, [sel_iana] the static of ipmi_sel.c. *)
Definition ipmi_lan_open (connected named : bool) (fd sel_iana : Z) : M lp Z :=
  intf ← gets l_intf;
  if opened intf then mret (-1) else
  let params := lan_default_params (ssn_params intf) in
  _ ← lan_set_intf (fun i => i <| ssn_params := params |>);
  if negb connected then mret (-1) else
  match malloc 512 with
  | None => lan_open_fail
  | Some _ =>
      _ ← modify (fun s => s <| l_session := lan_fresh_session params |> <| l_have_session := true |>
            <| l_intf := (l_intf s) <| opened := true |> <| abort := true |> |>);
      if negb named then lan_open_fail else
      rc ← ipmi_lan_activate_session;
      if rc <? 0 then lan_open_fail else
      _ ← hpm2_detect_max_payload_size lan_sendrecv
            (fun size => lan_set_intf (lan_set_max_request size))
            (fun size => lan_set_intf (lan_set_max_response size));
      s ← get;
      id ← ipmi_get_oem lan_sendrecv fd sel_iana (opened (l_intf s)) (manufacturer_id (l_intf s));
      _ ← lan_set_intf (fun i => i <| manufacturer_id := id |>);
      _ ← lan_set_bridge true;
      mret fd
  end.
End LanSession.
