(* ===== verification/LanplusSession.v ===== *)
(** * RMCP+ sessions (src/plugins/lanplus/lanplus.c)

    The commands that establish, use and close a session, over the transport
    of Lanplus.v, with the queries of Channel.v that [ipmi_lanplus_open] makes
    over the session it sets up. *)

From S2P Require Import Prelude Wire Ipmi Ipmb Intf Session Channel Crypt LanplusMsg ReqList Lanplus.

#[local] Open Scope Z_scope.

Definition IPMI_LAN_CHANNEL_E : Z := 0x0e.
Definition IPMI_OPEN_SESSION_REQUEST_SIZE : Z := 32.
Definition IPMI_RAKP1_MESSAGE_SIZE : Z := 44.
Definition IPMI_RAKP3_MESSAGE_MAX_SIZE : Z := 8 + IPMI_MAX_MD_SIZE.
Definition IPMI_MAX_USER_NAME_LENGTH : Z := 16.
Definition IPMI_RAKP_STATUS_NO_ERRORS : Z := 0x00.
Definition IPMI_RAKP_STATUS_INVALID_INTEGRITY_CHECK_VALUE : Z := 0x0F.
Definition IPMI_LAN_TIMEOUT : Z := 1.
Definition IPMI_LAN_RETRY : Z := 4.
Definition IPMI_LANPLUS_CIPHER_SUITE_3 : Z := 3.
Definition IPMI_LANPLUS_CIPHER_SUITE_17 : Z := 17.
Definition IPMI_LANPLUS_CIPHER_SUITE_RESERVED : Z := 0xff.

(** The choice of [ipmi_find_best_cipher_suite] from the suites
    [ipmi_get_channel_cipher_suites] found, [None] for its error. *)
Definition best_cipher_suite (suites : option (list Z)) : Z :=
  match suites with
  | None => IPMI_LANPLUS_CIPHER_SUITE_3
  | Some suites =>
      let best_suite :=
        fold_left (fun best pref =>
          if best =? IPMI_LANPLUS_CIPHER_SUITE_RESERVED
          then if existsb (fun s => pref =? s) suites then pref else best
          else best)
        [IPMI_LANPLUS_CIPHER_SUITE_17; IPMI_LANPLUS_CIPHER_SUITE_3]
        IPMI_LANPLUS_CIPHER_SUITE_RESERVED in
      if best_suite =? IPMI_LANPLUS_CIPHER_SUITE_RESERVED
      then IPMI_LANPLUS_CIPHER_SUITE_3 else best_suite
  end.

(** [ipmi_lanp_set_max_rq_data_size] and [ipmi_lanp_set_max_rp_data_size] *)
Definition lanplus_data_size (params : ipmi_session_params) (size : Z) : Z :=
  if cipher_suite_id params =? IPMI_LANPLUS_CIPHER_SUITE_3
  then u16 (size .& u16 (Z.lnot 15) - (16 + 1)) else size.

Definition ipmi_lanp_set_max_rq_data_size (intf : ipmi_intf) (size : Z) : ipmi_intf :=
  intf <| addr := (addr intf) <| max_request_data_size := lanplus_data_size (ssn_params intf) size |> |>.

Definition ipmi_lanp_set_max_rp_data_size (intf : ipmi_intf) (size : Z) : ipmi_intf :=
  intf <| addr := (addr intf) <| max_response_data_size := lanplus_data_size (ssn_params intf) size |> |>.

(** [ipmi_intf_set_max_request_data_size] and
    [ipmi_intf_set_max_response_data_size] (src/plugins/ipmi_intf.c) *)
Definition ipmi_intf_set_max_request_data_size (intf : ipmi_intf) (size : Z) : ipmi_intf :=
  if size <? IPMI_DEFAULT_PAYLOAD_SIZE then intf else ipmi_lanp_set_max_rq_data_size intf size.

Definition ipmi_intf_set_max_response_data_size (intf : ipmi_intf) (size : Z) : ipmi_intf :=
  if size <? IPMI_DEFAULT_PAYLOAD_SIZE - 1 then intf else ipmi_lanp_set_max_rp_data_size intf size.

(** The Open Session request. *)
Definition open_session_msg (privlvl id auth integrity crypt : Z) : list Z :=
  [0; privlvl; 0; 0] ++ htoipmi32 id ++
  [0; 0; 0; 8; auth; 0; 0; 0] ++ [1; 0; 0; 8; integrity; 0; 0; 0] ++ [2; 0; 0; 8; crypt; 0; 0; 0].

Section Session.
Context `{ssl : OpenSSL} `{mem : Malloc}.

(** [intf->sendrecv] is [ipmi_lanplus_send_ipmi_cmd]. *)
Definition ipmi_lanplus_send_ipmi_cmd (req : ipmi_rq) : M lp bool :=
  '(got, _) ← ipmi_lanplus_send_payload (mk_payload 0 (PL_ipmi_request 0 req)); mret got.

Definition lanplus_sendrecv (req : ipmi_rq) : M lp (option ipmi_rs) :=
  got ← ipmi_lanplus_send_ipmi_cmd req; the_rsp got.

(** [ipmi_find_best_cipher_suite] *)
Definition ipmi_find_best_cipher_suite : M lp Z :=
  suites ← ipmi_get_channel_cipher_suites lanplus_sendrecv IPMI_LAN_CHANNEL_E MAX_CIPHER_SUITE_COUNT;
  mret (best_cipher_suite (map cs_id <$> suites)).

Definition set_intf (f : ipmi_intf -> ipmi_intf) : M lp unit := modify (fun s => s <| l_intf := f (l_intf s) |>).

Definition set_bridge (b : bool) : M lp unit := modify (fun s => s <| bridgePossible := b |>).

(** The response of a command: [None] for NULL, otherwise the completion code. *)
Definition sendrecv_ccode (req : ipmi_rq) : M lp (option Z) :=
  got ← ipmi_lanplus_send_ipmi_cmd req;
  rsp ← the_rsp got;
  mret (ccode <$> rsp).

Definition mk_request (netfn cmd : Z) (data : list Z) : ipmi_rq := mk_rq netfn 0 cmd 0 data.

(** [ipmi_get_auth_capabilities_cmd]: the response data, [None] for 1.  On an
    error [bridgePossible] keeps the value 0. *)
Definition ipmi_get_auth_capabilities_cmd : M lp (option (list Z)) :=
  s ← get;
  let backupBridgePossible := bridgePossible s in
  _ ← set_bridge false;
  let chan := IPMI_LAN_CHANNEL_E .| 0x80 in
  let priv := privlvl (ssn_params (l_intf s)) in
  let req c := mk_request IPMI_NETFN_APP IPMI_GET_CHANNEL_AUTH_CAP [c; priv] in
  r ← sendrecv_ccode (req chan);
  let failed r := match r with None => true | Some c => negb (c =? 0) end in
  r ← (if failed r then sendrecv_ccode (req (chan .& 0x7F)) else mret r);
  if failed r then mret None else
  data ← rsp_gets rs_data;
  _ ← set_bridge backupBridgePossible;
  mret (Some (take 8 data)).

(** [ipmi_close_session_cmd] *)
Definition ipmi_close_session_cmd : M lp Z :=
  s ← get;
  if negb (l_have_session s) || negb (is_active (l_session s)) then mret (-1) else
  let backupBridgePossible := bridgePossible s in
  _ ← modify (fun s => s <| l_intf := (l_intf s) <| addr :=
        (addr (l_intf s)) <| target_addr := IPMI_BMC_SLAVE_ADDR |> |> |>);
  _ ← set_bridge false;
  r ← sendrecv_ccode (mk_request IPMI_NETFN_APP 0x3c (htoipmi32 (bmc_id (v2_data (l_session s)))));
  match r with
  | None => mret (-1)
  | Some c =>
      if negb (c =? 0) then mret (-1) else
      _ ← set_bridge backupBridgePossible; mret 0
  end.

(** [ipmi_set_session_privlvl_cmd] *)
Definition ipmi_set_session_privlvl_cmd : M lp Z :=
  s ← get;
  let privlvl := privlvl (ssn_params (l_intf s)) in
  if privlvl <=? IPMI_SESSION_PRIV_USER then mret 0 else
  let backupBridgePossible := bridgePossible s in
  _ ← set_bridge false;
  r ← sendrecv_ccode (mk_request IPMI_NETFN_APP 0x3b [privlvl]);
  _ ← set_bridge backupBridgePossible;
  match r with
  | Some 0 => mret 0
  | _ => mret (-1)
  end.

(** [ipmi_lanplus_open_session]: 0 success, 1 error, 2 time-out. *)
Definition ipmi_lanplus_open_session : M lp Z :=
  intf ← gets l_intf;
  match malloc IPMI_OPEN_SESSION_REQUEST_SIZE with
  | None => mret 1
  | Some _ =>
      let params := ssn_params intf in
      let priv := if ipmi_oem_active intf "intelplus" ||
                     negb (privlvl params =? IPMI_SESSION_PRIV_ADMIN)
                  then privlvl params else 0 in
      _ ← session_set (set_v2 (fun v => v <| console_id := 0xA0A2A3A4 |>));
      match lanplus_get_requested_ciphers (cipher_suite_id params) with
      | None => mret 1
      | Some (auth, integrity, crypt) =>
          _ ← session_set (set_v2 (fun v => v <| requested_auth_alg := auth |>
                <| requested_integrity_alg := integrity |> <| requested_crypt_alg := crypt |>));
          '(got, _) ← ipmi_lanplus_send_payload (mk_payload IPMI_OPEN_SESSION_REQUEST_SIZE
            (PL_open_session_request (open_session_msg priv 0xA0A2A3A4 auth integrity crypt)));
          if negb got then mret 2 else
          rsp ← gets l_rsp;
          if negb (rakp_return_code rsp =? IPMI_RAKP_STATUS_NO_ERRORS) then mret 1 else
          _ ← session_set (set_v2 (fun v => v <| max_priv_level := open_max_priv rsp |>
                <| bmc_id := open_bmc_id rsp |> <| auth_alg := open_auth_alg rsp |>
                <| integrity_alg := open_integrity_alg rsp |> <| crypt_alg := open_crypt_alg rsp |>
                <| session_state := LANPLUS_STATE_OPEN_SESSION_RECEIVED |>));
          mret (if negb (open_auth_alg rsp =? auth) || negb (open_integrity_alg rsp =? integrity) ||
                   negb (open_crypt_alg rsp =? crypt) then 1 else 0)
      end
  end.

(** [ipmi_lanplus_rakp1] *)
Definition ipmi_lanplus_rakp1 : M lp Z :=
  intf ← gets l_intf;
  match malloc IPMI_RAKP1_MESSAGE_SIZE with
  | None => mret 1
  | Some _ =>
      rand ← lanplus_rand;
      match rand with
      | None => mret 1
      | Some rand =>
          _ ← session_set (set_v2 (fun v => v <| console_rand := rand |>));
          let params := ssn_params intf in
          let role := privlvl params .| lookupbit params in
          _ ← session_set (set_v2 (fun v => v <| requested_role := role |>));
          v ← session_gets v2_data;
          let len := u8 (strlen (username params)) in
          if IPMI_MAX_USER_NAME_LENGTH <? len then mret 1 else
          msg ← lift (or_oob (
            msg ← wr (zeros IPMI_RAKP1_MESSAGE_SIZE) 4 (htoipmi32 (bmc_id v));
            msg ← wr msg 8 rand;
            msg ← wr msg 24 [role];
            msg ← wr msg 27 [len];
            wr msg 28 (slice (username params) 0 len)));
          let length := if ipmi_oem_active intf "i82571spt" then IPMI_RAKP1_MESSAGE_SIZE
                        else IPMI_RAKP1_MESSAGE_SIZE - (16 - len) in
          '(got, _) ← ipmi_lanplus_send_payload (mk_payload length (PL_rakp_1_message msg));
          if negb got then mret 2 else
          _ ← session_set (set_state LANPLUS_STATE_RAKP_2_RECEIVED);
          rsp ← gets l_rsp;
          if negb (rakp_return_code rsp =? IPMI_RAKP_STATUS_NO_ERRORS) then mret 1 else
          _ ← session_set (set_v2 (fun v => v <| bmc_rand := rakp2_bmc_rand rsp |>
                <| bmc_guid := rakp2_bmc_guid rsp |>));
          session ← gets l_session;
          matches ← lift (lanplus_rakp2_hmac_matches session (rakp2_auth_code rsp) intf);
          let code := if (matches : bool) then IPMI_RAKP_STATUS_NO_ERRORS
                      else IPMI_RAKP_STATUS_INVALID_INTEGRITY_CHECK_VALUE in
          _ ← session_set (set_v2 (fun v => v <| rakp2_return_code := code |>));
          mret (if matches then 0 else 1)
      end
  end.

(** The keys of [ipmi_lanplus_rakp3]: [None] for an error, otherwise the
    message with its authentication code and the length of the code. *)
Definition rakp3_keys (msg : list Z) : M lp (option (list Z * Z)) :=
  intf ← gets l_intf;
  session ← gets l_session;
  code ← lift (lanplus_generate_rakp3_authcode session intf);
  match code with
  | None => mret None
  | Some mac =>
      msg ← lift (or_oob (wr msg 8 mac));
      '(rc, session) ← lift (lanplus_generate_sik session intf);
      _ ← session_set (fun _ => session);
      if negb (rc =? 0) then mret None else
      session ← lift (lanplus_generate_k1 session);
      session ← lift (lanplus_generate_k2 session);
      _ ← session_set (fun _ => session);
      mret (Some (msg, zlen mac))
  end.

(** [ipmi_lanplus_rakp3] *)
Definition ipmi_lanplus_rakp3 : M lp Z :=
  intf ← gets l_intf;
  v ← session_gets v2_data;
  _ ← c_assert (bool_decide (session_state v = LANPLUS_STATE_RAKP_2_RECEIVED));
  match malloc IPMI_RAKP3_MESSAGE_MAX_SIZE with
  | None => mret 1
  | Some _ =>
      msg ← lift (or_oob (
        msg ← wr (zeros IPMI_RAKP3_MESSAGE_MAX_SIZE) 1 [rakp2_return_code v];
        wr msg 4 (htoipmi32 (bmc_id v))));
      keys ← (if rakp2_return_code v =? IPMI_RAKP_STATUS_NO_ERRORS
              then rakp3_keys msg else mret (Some (msg, 0)));
      match keys with
      | None => mret 1
      | Some (msg, auth_length) =>
          '(got, _) ← ipmi_lanplus_send_payload (mk_payload (8 + auth_length) (PL_rakp_3_message msg));
          if negb (rakp2_return_code v =? IPMI_RAKP_STATUS_NO_ERRORS) then mret 1 else
          if negb got then mret 2 else
          rsp ← gets l_rsp;
          if negb (rakp_return_code rsp =? IPMI_RAKP_STATUS_NO_ERRORS) then mret 1 else
          session ← gets l_session;
          matches ← lift (lanplus_rakp4_hmac_matches session (rakp4_check_value rsp) intf);
          if (matches : bool) then
            _ ← session_set (set_state LANPLUS_STATE_ACTIVE);
            _ ← set_intf (fun i => i <| abort := false |>);
            mret 0
          else mret 1
      end
  end.

(** [ipmi_lanplus_close]; [ipmi_intf_session_cleanup] frees the session. *)
Definition ipmi_lanplus_close : M lp unit :=
  s ← get;
  _ ← (if negb (abort (l_intf s)) && l_have_session s
       then _ ← ipmi_close_session_cmd; mret tt else mret tt);
  _ ← on_reqs Ptr.ipmi_req_clear_entries;
  modify (fun s => s <| l_have_session := false |>
    <| l_intf := (l_intf s) <| opened := false |> <| manufacturer_id := IPMI_OEM_UNKNOWN |> |>).

(** The set-up sequence, repeated as a whole on a time-out: false means the
    [goto fail]. *)
Fixpoint setup_loop (retries : nat) : M lp bool :=
  match retries with
  | O => mret true
  | S retries =>
      _ ← session_set (set_state LANPLUS_STATE_PRESESSION);
      rc ← ipmi_lanplus_open_session;
      if rc =? 1 then mret false else if rc =? 2 then setup_loop retries else
      rc ← ipmi_lanplus_rakp1;
      if rc =? 1 then mret false else if rc =? 2 then setup_loop retries else
      rc ← ipmi_lanplus_rakp3;
      if rc =? 1 then mret false else if rc =? 0 then mret true else setup_loop retries
  end.

(** The session that [ipmi_lanplus_open] allocates. *)
Definition fresh_session (params : ipmi_session_params) : ipmi_session :=
  zero_session <| s_timeout := timeout params |> <| authcode := authcode_set params |>
    <| sol_data := mk_sol 0 0 1 0 0 |>.

Definition default_params (p : ipmi_session_params) : ipmi_session_params :=
  p <| privlvl := if privlvl p =? 0 then IPMI_SESSION_PRIV_ADMIN else privlvl p |>
    <| timeout := if timeout p =? 0 then IPMI_LAN_TIMEOUT else timeout p |>
    <| retry := if retry p =? 0 then IPMI_LAN_RETRY else retry p |>.

Definition open_fail : M lp Z := _ ← ipmi_lanplus_close; mret (-1).

(** [ipmi_lanplus_open] of an interface with a host name: [connected] is the
    outcome of [ipmi_intf_socket_connect], [fd] its descriptor, [sel_iana] the
    static of ipmi_sel.c. *)
Definition ipmi_lanplus_open (connected : bool) (fd sel_iana : Z) : M lp Z :=
  intf ← gets l_intf;
  if opened intf then mret fd else
  let params := default_params (ssn_params intf) in
  _ ← modify (fun s => s <| l_intf := intf <| ssn_params := params |> |>);
  if negb connected then open_fail else
  match malloc 512 with
  | None => open_fail
  | Some _ =>
      _ ← modify (fun s => s <| l_session := fresh_session params |> <| l_have_session := true |>
            <| l_intf := (l_intf s) <| opened := true |> <| abort := true |> |>);
      let oem82571 := ipmi_oem_active intf "i82571spt" in
      cap ← (if oem82571 then mret (Some (replicate 8 0xFF)) else ipmi_get_auth_capabilities_cmd);
      match cap with
      | None => open_fail
      | Some cap =>
          if rd cap 1 .& 0x80 =? 0 then open_fail else
          _ ← (if cipher_suite_id params =? IPMI_LANPLUS_CIPHER_SUITE_RESERVED
               then best ← ipmi_find_best_cipher_suite;
                    set_intf (fun i => i <| ssn_params := (ssn_params i) <| cipher_suite_id := best |> |>)
               else mret tt);
          ok ← setup_loop (Z.to_nat IPMI_LAN_RETRY);
          if negb ok then open_fail else
          _ ← set_intf (fun i => i <| abort := false |>);
          rc ← (if oem82571 then mret 0 else ipmi_set_session_privlvl_cmd);
          if rc <? 0 then open_fail else
          _ ← (if oem82571 then mret 0 else
               hpm2_detect_max_payload_size lanplus_sendrecv
                 (fun size => set_intf (fun i => ipmi_intf_set_max_request_data_size i size))
                 (fun size => set_intf (fun i => ipmi_intf_set_max_response_data_size i size)));
          _ ← set_bridge true;
          s ← get;
          _ ← (if oem82571 then mret tt else
               id ← ipmi_get_oem lanplus_sendrecv fd sel_iana (opened (l_intf s)) (manufacturer_id (l_intf s));
               set_intf (fun i => i <| manufacturer_id := id |>));
          mret fd
      end
  end.

(** The loop of [ipmi_lanplus_keepalive] over SOL packets. *)
Fixpoint keepalive_loop (fuel : nat) (got : bool) : M lp Z :=
  match fuel with
  | O => fail OutOfFuel
  | S fuel =>
      rsp ← the_rsp got;
      if is_sol_packet rsp then
        _ ← ack_sol_packet got;
        _ ← check_sol_packet_for_new_data got;
        len ← rsp_gets rs_data_len;
        _ ← (if negb (len =? 0) then sol_input_handler else mret tt);
        got ← ipmi_lan_poll_recv;
        if negb got then mret 0 else keepalive_loop fuel got
      else
        match rsp with
        | Some r => mret (if ccode r =? 0 then 0 else -1)
        | None => mret (-1)
        end
  end.

(** [ipmi_lanplus_keepalive] *)
Definition ipmi_lanplus_keepalive : M lp Z :=
  s ← get;
  if negb (opened (l_intf s)) then mret 0 else
  got ← ipmi_lanplus_send_ipmi_cmd (mk_request IPMI_NETFN_APP 1 []);
  s ← get;
  keepalive_loop (S (net_fuel s)) got.

End Session.

