(* ===== verification/LanplusSafe.v ===== *)
(** * The RMCP+ transport terminates (over Lanplus.v, LanplusSession.v)

    A program logic for the transport: [safe R m n Q] says that [m], started
    in a state whose request list is well formed, whose retry count and link
    are those of [R] and with [n] datagrams to come, either returns in such a
    state with [Q] of the result and the datagrams left, or stops where the C
    program leaves its defined behaviour: at a failed assertion, at an access
    outside an array or at a value that was never assigned; where [R] allows
    it, also at a pointer to a freed request.  It does not run for ever: every
    loop of the transport is bounded by the datagrams or by the retry count. *)

From S2P Require Import Prelude Wire Ipmi Ipmb Intf Session Bmc Channel Crypt LanplusMsg ReqList Lanplus.
From S2P Require Import LanplusSession.

#[local] Open Scope Z_scope.

(** ** How an operation may stop *)

Definition stops (dangling : bool) (e : fault) : Prop :=
  match e with
  | AssertFailed | OutOfBounds | Uninitialised => True
  | Dangling => dangling = true
  | Undefined | OutOfFuel => False
  end.

Lemma stops_more d e : stops false e -> stops d e.
Proof. by destruct e. Qed.

(** *** Pure functions follow no pointer and need no fuel *)

Definition plain {A} (r : res A) : Prop := match r with Ok _ => True | Bad e => stops false e end.

Lemma plain_ok {A} (a : A) : plain (Ok a).
Proof. done. Qed.
Lemma plain_bind {A B} (r : res A) (f : A -> res B) :
  plain r -> (forall a, plain (f a)) -> plain (r ≫= f).
Proof. destruct r as [a | e]; cbn; eauto. Qed.
Lemma plain_assert b : plain (rassert b).
Proof. by destruct b. Qed.
Lemma plain_oob {A} (o : option A) : plain (or_oob o).
Proof. by destruct o. Qed.

Create HintDb plain discriminated.
#[export] Hint Resolve plain_ok plain_assert plain_oob : plain.

Ltac plain :=
  repeat match goal with
  | |- forall _, _ => intros
  | p : _ * _ |- _ => destruct p
  | |- plain (_ ≫= _) => apply plain_bind
  | |- plain (if ?b then _ else _) => destruct b
  | |- plain (match ?x with _ => _ end) => destruct x
  | |- plain (let '_ := ?x in _) => destruct x
  | |- plain (rsp_bytes _ _ _) => unfold rsp_bytes
  | |- plain (rdx _ _) => unfold rdx
  | |- plain _ => solve [auto with plain | done]
  end.

Section Pure.
Context `{ssl : OpenSSL} `{mem : Malloc}.

Lemma plain_HMAC a k d : plain (lanplus_HMAC a k d).
Proof. unfold lanplus_HMAC. plain. Qed.
Lemma plain_digest a : plain (rakp_digest_length a).
Proof. unfold rakp_digest_length. plain. Qed.
Lemma plain_authcode a : plain (rakp_authcode_size a).
Proof. unfold rakp_authcode_size. plain. Qed.
Lemma plain_integrity a : plain (integrity_authcode_size a).
Proof. unfold integrity_authcode_size. plain. Qed.
Lemma plain_integrity_digest a : plain (integrity_digest_length a).
Proof. unfold integrity_digest_length. plain. Qed.
Hint Resolve plain_HMAC plain_digest plain_authcode plain_integrity plain_integrity_digest : plain.

Lemma plain_valid rs s : plain (lanplus_has_valid_auth_code rs s).
Proof. unfold lanplus_has_valid_auth_code. plain. Qed.
Lemma plain_decrypt c k b o n : plain (lanplus_decrypt_payload c k b o n).
Proof. unfold lanplus_decrypt_payload, lanplus_decrypt_aes_cbc_128. plain. Qed.
Lemma plain_encrypt c k r b o n : plain (lanplus_encrypt_payload c k r b o n).
Proof. unfold lanplus_encrypt_payload, lanplus_encrypt_aes_cbc_128. plain. Qed.
Hint Resolve plain_encrypt : plain.
Lemma plain_wire a b p q : plain (payload_wire a b p q).
Proof. unfold payload_wire, getSolPayloadWireRep. plain. Qed.
Lemma plain_trailer i s m n : plain (put_session_trailer i s m n).
Proof. unfold put_session_trailer. plain. Qed.
Lemma plain_encrypt_step s r m n : plain (encrypt_step s r m n).
Proof. unfold encrypt_step. plain. Qed.
Hint Resolve plain_wire plain_trailer plain_encrypt_step : plain.
Lemma plain_build i b p q r s : plain (ipmi_lanplus_build_v2x_msg i b p q r s).
Proof. unfold ipmi_lanplus_build_v2x_msg. plain. Qed.
Lemma plain_v15 s r : plain (v15_ipmi_msg s r).
Proof. unfold v15_ipmi_msg. plain. Qed.
Lemma plain_rakp2 r o a : plain (read_rakp2_message r o a).
Proof. unfold read_rakp2_message, rakp2_code_length. plain. Qed.
Lemma plain_rakp4 r o a : plain (read_rakp4_message r o a).
Proof. unfold read_rakp4_message. plain. Qed.
Lemma plain_rakp2_matches s m i : plain (lanplus_rakp2_hmac_matches s m i).
Proof. unfold lanplus_rakp2_hmac_matches. plain. Qed.
Lemma plain_rakp4_matches s m i : plain (lanplus_rakp4_hmac_matches s m i).
Proof. unfold lanplus_rakp4_hmac_matches. plain. Qed.
Lemma plain_rakp3 s i : plain (lanplus_generate_rakp3_authcode s i).
Proof. unfold lanplus_generate_rakp3_authcode. plain. Qed.
Lemma plain_sik s i : plain (lanplus_generate_sik s i).
Proof. unfold lanplus_generate_sik, key_write. plain. Qed.
Lemma plain_k1 s : plain (lanplus_generate_k1 s).
Proof. unfold lanplus_generate_k1, key_write. plain. Qed.
Lemma plain_k2 s : plain (lanplus_generate_k2 s).
Proof. unfold lanplus_generate_k2, key_write. plain. Qed.
End Pure.

#[export] Hint Resolve plain_valid plain_decrypt plain_build plain_v15 plain_rakp2
  plain_rakp4 plain_rakp2_matches plain_rakp4_matches plain_rakp3 plain_sik plain_k1
  plain_k2 : plain.

Lemma suite_size data s n : parse_cipher_suite data = Some (s, n) -> 5 <= n /\ n <= zlen data.
Proof.
  unfold parse_cipher_suite. repeat case_test; intros [= <- <-]; lia.
Qed.

Lemma plain_suites fuel data nr : (length data < fuel)%nat ->
  plain (parse_channel_cipher_suite_data fuel data nr).
Proof.
  revert data nr. induction fuel as [|fuel IH]; intros data nr H; [lia |].
  cbn [parse_channel_cipher_suite_data]. case_test; [done |].
  destruct (parse_cipher_suite data) as [[s n] |] eqn:E; [| done]. apply suite_size in E.
  apply plain_bind; [| done]. apply IH. rewrite length_drop. unfold zlen in E. lia.
Qed.

(** ** The logic *)

(** What stays the same: the retry count, whether sends succeed in the long
    run; and whether the operation may stop at a freed request. *)
Record setting := mk_setting { c_retry : Z; c_later : bool; c_dangling : bool }.

Definition ok (R : setting) (s : lp) : Prop :=
  retry (ssn_params (l_intf s)) = c_retry R /\ s_later (l_send s) = c_later R /\
  exists l, Refine.rep (l_reqs s) l.

Definition safe (R : setting) {A} (m : M lp A) (n : nat) (Q : A -> nat -> Prop) : Prop :=
  forall s, ok R s -> length (l_net s) = n ->
  match m s with
  | Ok (a, s') => ok R s' /\ Q a (length (l_net s'))
  | Bad e => stops (c_dangling R) e
  end.

Section Logic.
Context {R : setting}.
Local Abbreviation safe := (safe R).

Lemma safe_bind {A B} (m : M lp A) (f : A -> M lp B) n Q :
  safe m n (fun a n' => safe (f a) n' Q) -> safe (m ≫= f) n Q.
Proof.
  intros H s Hs Hn. specialize (H s Hs Hn). unfold mbind, M_bind.
  destruct (m s) as [[a s'] | e]; [| done]. destruct H as [Hs' H]. by apply H.
Qed.

Lemma safe_ret {A} (a : A) n (Q : A -> nat -> Prop) : Q a n -> safe (mret a) n Q.
Proof. intros H s Hs <-. by split. Qed.

Lemma safe_fail {A} e n (Q : A -> nat -> Prop) : stops false e -> safe (fail e) n Q.
Proof. intros H s Hs Hn. by apply stops_more. Qed.

Lemma safe_assert b n (Q : unit -> nat -> Prop) : Q tt n -> safe (c_assert b) n Q.
Proof. intros H s Hs <-. by destruct b. Qed.

Lemma safe_get n (Q : lp -> nat -> Prop) : (forall s, length (l_net s) = n -> Q s n) -> safe get n Q.
Proof. intros H s Hs Hn. cbn. rewrite Hn. split; [done | by apply H]. Qed.

Lemma safe_gets {A} (f : lp -> A) n (Q : A -> nat -> Prop) : (forall a, Q a n) -> safe (gets f) n Q.
Proof. intros H s Hs Hn. cbn. rewrite Hn. split; [done | apply H]. Qed.

Lemma safe_retry n (Q : Z -> nat -> Prop) : Q (c_retry R) n -> safe (gets (retry ∘ ssn_params ∘ l_intf)) n Q.
Proof. intros H s Hs Hn. cbn. rewrite Hn. split; [done |]. destruct Hs as [E _]. by rewrite E. Qed.

Lemma safe_modify f n (Q : unit -> nat -> Prop) :
  (forall s, l_net (f s) = l_net s /\ l_reqs (f s) = l_reqs s /\ l_send (f s) = l_send s /\
    retry (ssn_params (l_intf (f s))) = retry (ssn_params (l_intf s))) ->
  Q tt n -> safe (modify f) n Q.
Proof.
  intros Hf H s (Hs1 & Hs2 & Hs3) Hn. cbn. destruct (Hf s) as (E1 & E2 & E3 & E4).
  rewrite E1, Hn. split; [| done]. unfold ok. by rewrite E2, E3, E4.
Qed.

Lemma safe_lift {A} (r : res A) n (Q : A -> nat -> Prop) :
  plain r -> (forall a, r = Ok a -> Q a n) -> safe (lift r) n Q.
Proof.
  intros Hr H s Hs Hn. unfold lift. destruct r as [a | e]; [| by apply stops_more].
  rewrite Hn. split; [done | by apply H].
Qed.

Lemma safe_weaken {A} (m : M lp A) n (Q Q' : A -> nat -> Prop) :
  safe m n Q -> (forall a n', Q a n' -> Q' a n') -> safe m n Q'.
Proof.
  intros H HQ s Hs Hn. specialize (H s Hs Hn). destruct (m s) as [[a s'] | e]; [| done].
  destruct H. split; [done | by apply HQ].
Qed.

Lemma safe_if {A} (b : bool) (m1 m2 : M lp A) n Q :
  (b = true -> safe m1 n Q) -> (b = false -> safe m2 n Q) -> safe (if b then m1 else m2) n Q.
Proof. destruct b; auto. Qed.

Lemma safe_the_rsp got n (Q : option ipmi_rs -> nat -> Prop) :
  (forall r, got = true -> Q (Some r) n) -> (got = false -> Q None n) -> safe (the_rsp got) n Q.
Proof. intros H1 H2 s Hs Hn. cbn. rewrite Hn. split; [done |]. destruct got; auto. Qed.

(** Operations on the list of requests. *)
Definition list_safe {A} (m : M Ptr.hst A) : Prop := forall h l, Refine.rep h l ->
  match m h with Ok (_, h') => exists l', Refine.rep h' l' | Bad e => stops (c_dangling R) e end.

Lemma safe_reqs {A} (m : M Ptr.hst A) n (Q : A -> nat -> Prop) :
  list_safe m -> (forall a, Q a n) -> safe (on_reqs m) n Q.
Proof.
  intros Hm HQ s (Hs & Hs2 & l & Hl) Hn. unfold on_reqs. specialize (Hm _ _ Hl).
  destruct (m (l_reqs s)) as [[a h] | e]; [| done]. cbn. rewrite Hn. split; [by split_and! | apply HQ].
Qed.

Lemma list_safe_lookup seq cmd : list_safe (Ptr.ipmi_req_lookup_entry seq cmd).
Proof. intros h l Hl. destruct (Refine.lookup_refines seq cmd h l Hl) as [-> _]. eauto. Qed.

Lemma list_safe_remove seq cmd : list_safe (Ptr.ipmi_req_remove_entry seq cmd).
Proof. intros h l Hl. destruct (Refine.remove_refines seq cmd h l Hl) as (h' & -> & H & _). eauto. Qed.

Lemma list_safe_add b req seq : list_safe (Ptr.ipmi_req_add_entry b req seq).
Proof.
  intros h l Hl. destruct b; [| by exists l].
  destruct (Refine.add_refines req seq h l Hl) as (h' & -> & H & _). eauto.
Qed.

Lemma list_safe_clear : list_safe Ptr.ipmi_req_clear_entries.
Proof. intros h l Hl. rewrite (Refine.clear_refines h l Hl). exists []. apply Refine.rep_empty. Qed.

(** A pointer that was kept may be one to a freed entry. *)
Lemma list_safe_deref p : c_dangling R = true -> list_safe (Ptr.deref p).
Proof. intros Hd h l Hl. unfold Ptr.deref. destruct (Ptr.h_nodes h !! p); [by exists l | exact Hd]. Qed.

(** A node that the heap holds is an entry of the list. *)
Lemma rep_lookup h l p nd : Refine.rep h l -> Ptr.h_nodes h !! p = Some nd ->
  exists l1 l2, l = l1 ++ (p, Ptr.n_entry nd) :: l2.
Proof.
  intros [Hseg _ _ Hdom] Hp. apply elem_of_dom_2 in Hp as Hin. rewrite Hdom in Hin.
  apply elem_of_list_to_set, list_elem_of_fmap in Hin as ([q x] & -> & Hin). cbn [fst] in *.
  apply list_elem_of_split in Hin as (l1 & l2 & ->). exists l1, l2.
  apply Refine.lseg_app in Hseg as (y & _ & _ & nx & Hq & _).
  rewrite Hp in Hq. by injection Hq as ->.
Qed.

Lemma update_run h l p f : Refine.rep h l -> is_Some (Ptr.h_nodes h !! p) ->
  exists h' l', (nd ← Ptr.deref p; Ptr.store p (Ptr.mk_node (f (Ptr.n_entry nd)) (Ptr.n_next nd))) h = Ok (tt, h') /\
    Refine.rep h' l' /\ forall q, is_Some (Ptr.h_nodes h !! q) -> is_Some (Ptr.h_nodes h' !! q).
Proof.
  intros Hl [nd Hp]. rewrite (M_bind_run _ _ _ _ _ (Refine.deref_run _ _ _ Hp)), (Refine.store_run _ _ _ _ Hp).
  destruct (rep_lookup h l p nd Hl Hp) as (l1 & l2 & ->). do 2 eexists. split; [done |]. destruct nd as [x nx]. split.
  - by eapply Client.update_rep; [exact Hl | exact Hp].
  - intros q Hq. cbn. apply lookup_insert_is_Some'. by right.
Qed.

Lemma list_safe_update p f : c_dangling R = true ->
  list_safe (nd ← Ptr.deref p; Ptr.store p (Ptr.mk_node (f (Ptr.n_entry nd)) (Ptr.n_next nd))).
Proof.
  intros Hd h l Hl. destruct (Ptr.h_nodes h !! p) as [nd |] eqn:Hp.
  - destruct (update_run h l p f Hl ltac:(by eexists)) as (h' & l' & -> & H & _). eauto.
  - unfold mbind, M_bind, Ptr.deref. by rewrite Hp.
Qed.

Lemma on_reqs_bind {A B} (m : M Ptr.hst A) (f : A -> M Ptr.hst B) s :
  (a ← on_reqs m; on_reqs (f a)) s = on_reqs (m ≫= f) s.
Proof.
  unfold on_reqs, mbind, M_bind. destruct (m (l_reqs s)) as [[a h] | e]; [| done]. cbn.
  by destruct (f a h) as [[b h'] | e].
Qed.

Lemma safe_set_entry e f n (Q : unit -> nat -> Prop) : c_dangling R = true ->
  (forall a, Q a n) -> safe (set_entry e f) n Q.
Proof.
  intros Hd HQ s Hs Hn. unfold set_entry. rewrite on_reqs_bind.
  by apply (safe_reqs _ n Q (list_safe_update e f Hd) HQ).
Qed.

(** *** Entries that are in the list *)

Definition live (e : loc) (s : lp) : Prop := is_Some (Ptr.h_nodes (l_reqs s) !! e).

(** [safe] where the entry [e] is in the list. *)
Definition safe_live (e : loc) {A} (m : M lp A) (n : nat) (Q : A -> nat -> Prop) : Prop :=
  forall s, ok R s -> length (l_net s) = n -> live e s ->
  match m s with
  | Ok (a, s') => ok R s' /\ Q a (length (l_net s'))
  | Bad e => stops (c_dangling R) e
  end.

Lemma rep_found h l e : Refine.rep h l -> e ∈ l.*1 -> is_Some (Ptr.h_nodes h !! e).
Proof.
  intros [_ _ _ Hdom] H. apply elem_of_dom. rewrite Hdom. apply list_elem_of_fmap in H as ([p x] & -> & H).
  apply elem_of_list_to_set, list_elem_of_fmap. by exists (p, x).
Qed.

Lemma spec_found seq cmd l e : Spec.lookup seq cmd l = Some e -> e ∈ l.*1.
Proof.
  intros El. destruct (Refine.spec_split seq cmd l) as [(_ & E & _) | (l1 & q & x & l2 & -> & _ & _ & E & _)];
    rewrite E in El; [done |]. injection El as ->. rewrite fmap_app. apply elem_of_app. right. by left.
Qed.

Lemma safe_live_safe {A} e (m : M lp A) n Q : safe m n Q -> safe_live e m n Q.
Proof. intros H s Hs Hn _. by apply H. Qed.

Lemma safe_live_deref {B} e (k : Ptr.node -> M lp B) n Q :
  (forall nd, safe_live e (k nd) n Q) -> safe_live e (on_reqs (Ptr.deref e) ≫= k) n Q.
Proof.
  intros H s Hs Hn [nd Hl]. unfold mbind, M_bind, on_reqs, Ptr.deref. rewrite Hl.
  replace (s <| l_reqs := l_reqs s |>) with s by (by destruct s). apply H; [done .. | by exists nd].
Qed.

Lemma safe_live_peel {B} e (k : unit -> M lp B) n Q : safe (k tt) n Q -> safe_live e (peel_bridge e ≫= k) n Q.
Proof.
  intros H s (Hr & Hsend & l & Hl) Hn He. unfold peel_bridge. unfold mbind at 1, M_bind at 1. rewrite on_reqs_bind.
  destruct (update_run (l_reqs s) l e (fun x =>
    let level := e_bridging_level x - 1 in
    let x := e_set_bridging_level level x in
    if level =? 0 then e_set_req (rq_set_cmd (rq_target_cmd (e_req x)) (e_req x)) x else x) Hl He)
    as (h' & l' & E & Hl' & _).
  unfold on_reqs. cbv zeta in E. rewrite E. apply H; [| done]. by split_and!; [| | exists l'].
Qed.

Lemma safe_found {B} seq cmd (f : option loc -> M lp B) n Q :
  safe (f None) n Q -> (forall e, safe_live e (f (Some e)) n Q) ->
  safe (on_reqs (Ptr.ipmi_req_lookup_entry seq cmd) ≫= f) n Q.
Proof.
  intros H1 H2 s Hs Hn. destruct Hs as (Hr & Hsend & l & Hl).
  destruct (Refine.lookup_refines seq cmd (l_reqs s) l Hl) as [E _].
  unfold mbind, M_bind, on_reqs. rewrite E. replace (s <| l_reqs := l_reqs s |>) with s by (by destruct s).
  assert (ok R s) as Hs by (split_and!; eauto).
  destruct (Spec.lookup seq cmd l) as [e |] eqn:El; [| by apply H1].
  apply H2; [done .. |]. eapply rep_found; [exact Hl |]. by eapply spec_found.
Qed.

End Logic.

Create HintDb list_safe discriminated.
#[export] Hint Resolve list_safe_lookup list_safe_remove list_safe_add list_safe_clear
  list_safe_deref list_safe_update : list_safe.
Create HintDb safe discriminated.

(** One step of the symbolic execution of a transport function. *)
Ltac safe_step :=
  lazymatch goal with
  | |- safe _ (_ ≫= _) _ _ => apply safe_bind
  | |- safe _ (mret _) _ _ => apply safe_ret
  | |- safe _ (fail _) _ _ => apply safe_fail; exact I
  | |- safe _ (c_assert _) _ _ => apply safe_assert
  | |- safe _ get _ _ => apply safe_get; intros
  | |- safe _ (gets (retry ∘ ssn_params ∘ l_intf)) _ _ => apply safe_retry
  | |- safe _ (gets _) _ _ => apply safe_gets; intros
  | |- safe _ (rsp_gets _) _ _ => apply safe_gets; intros
  | |- safe _ (session_gets _) _ _ => apply safe_gets; intros
  | |- safe _ (the_rsp _) _ _ => apply safe_the_rsp; intros; subst
  | |- safe _ (modify _) _ _ => apply safe_modify; [done |]
  | |- safe _ (rsp_set _) _ _ => apply safe_modify; [done |]
  | |- safe _ (session_set _) _ _ => apply safe_modify; [done |]
  | |- safe _ (set_bridge _) _ _ => apply safe_modify; [done |]
  | |- safe _ (set_intf (fun i => i <| abort := _ |>)) _ _ => apply safe_modify; [done |]
  | |- safe _ sol_input_handler _ _ => apply safe_modify; [done |]
  | |- safe _ (lift _) _ _ => apply safe_lift; [plain | intros]
  | |- safe _ (on_reqs _) _ _ => apply safe_reqs; [auto with list_safe | intros]
  | |- safe _ (set_entry _ _) _ _ => apply safe_set_entry; [assumption | intros]
  | |- safe _ (if ?b then _ else _) _ _ => first [apply safe_if; intros | destruct b]
  | |- safe _ (match ?x with _ => _ end) _ _ => destruct x
  end.

(** Never more datagrams than before, and fewer after a response. *)
Definition uses (n : nat) (b : bool) (n' : nat) : Prop := (n' <= n)%nat /\ (b = true -> (n' < n)%nat).

Definition any {A} (n : nat) (_ : A) (n' : nat) : Prop := (n' <= n)%nat.

(** A return that uses no datagram. *)
Ltac ret := safe_step; unfold any in *; cbv beta; lia.

Section Operations.
Context `{ssl : OpenSSL} `{mem : Malloc} {R : setting}.

Lemma safe_time n (Q : Z -> nat -> Prop) : (forall t, Q t n) -> safe R time_now n Q.
Proof. intros H s Hs Hn. unfold time_now. destruct (l_clock s); cbn; rewrite Hn; split; done || apply H. Qed.

Lemma safe_rand n (Q : option (list Z) -> nat -> Prop) : (forall r, Q r n) -> safe R lanplus_rand n Q.
Proof. intros H s Hs Hn. unfold lanplus_rand. destruct (l_rand s); cbn; rewrite Hn; split; done || apply H. Qed.

Lemma safe_send d n (Q : bool -> nat -> Prop) : (forall b, Q b n) -> safe R (ipmi_lan_send_packet d) n Q.
Proof.
  intros H s Hs Hn. unfold ipmi_lan_send_packet.
  destruct (s_next (l_send s)) as [| b ?]; cbn; rewrite Hn; split; done || apply H.
Qed.

Lemma safe_event n (Q : net_event -> nat -> Prop) :
  (n = 0%nat -> Q NetTimeout 0%nat) -> (forall e n', n = S n' -> Q e n') -> safe R next_event n Q.
Proof.
  intros H1 H2 s Hs Hn. unfold next_event. destruct (l_net s) as [| e es] eqn:E; cbn in Hn |- *.
  - rewrite E. split; [done | auto].
  - split; [done | by apply H2].
Qed.

Lemma safe_store bs n (Q : bool -> nat -> Prop) : (forall b, Q b n) -> safe R (store_packet bs) n Q.
Proof. intros H. unfold store_packet. repeat safe_step; apply H. Qed.

Lemma safe_shift o k n (Q : unit -> nat -> Prop) : Q tt n -> safe R (shift_data o k) n Q.
Proof. intros H. unfold shift_data. repeat safe_step; apply H. Qed.

Lemma safe_recv n : safe R ipmi_lan_recv_packet n (uses n).
Proof.
  unfold ipmi_lan_recv_packet, uses. apply safe_bind, safe_event.
  - intros ->. safe_step. split; [done | discriminate].
  - intros e n' ->. destruct e.
    + safe_step. split; [lia | discriminate].
    + apply safe_bind, safe_event.
      * intros ->. safe_step. split; [lia | discriminate].
      * intros e n'' ->. destruct e; try (safe_step; split; [lia | discriminate]).
        apply safe_store. intros []; lia.
    + apply safe_store. intros []; lia.
Qed.

Lemma safe_response_loop fuel offset size n :
  (Z.to_nat size < fuel)%nat ->
  safe R (ipmi_response_loop fuel offset offset size) n (fun _ n' => n' = n).
Proof.
  revert offset size. induction fuel as [|fuel IH]; intros offset size Hf; [lia |].
  cbn [ipmi_response_loop]. apply safe_bind. safe_step. unfold read_ipmi_response. apply safe_bind. safe_step.
  apply safe_found; [by safe_step |]. intros e. apply safe_live_deref. intros nd.
  match goal with |- context [if ?b then peel_bridge _ else _] => destruct b eqn:Hp end.
  - apply safe_live_peel. apply safe_if; intros Hs; [by safe_step |]. cbn [andb] in Hs. bool_hyps.
    apply safe_bind. safe_step. replace (offset + 7 - offset) with 7 by lia.
    rewrite (proj2 (Z.ltb_lt 0 (size - 7 - 1))) by lia.
    apply safe_bind, safe_shift. apply IH. unfold u16.
    pose proof (Z.mod_le (size - 7 - 1) 65536 ltac:(lia) ltac:(lia)).
    pose proof (Z.mod_pos_bound (size - 7 - 1) 65536 ltac:(lia)). lia.
  - apply safe_live_safe, safe_bind. safe_step. cbn [andb]. apply safe_bind. safe_step.
    apply safe_if; intros _; apply safe_bind; [apply safe_shift | safe_step]; by safe_step.
Qed.

Definition polls (n : nat) (r : poll_result) (n' : nat) : Prop :=
  (n' <= n)%nat /\ (r <> PollNull -> (n' < n)%nat).

Lemma safe_dispatch o size n :
  safe R (poll_dispatch o size) n (fun _ n' => n' = n).
Proof.
  unfold poll_dispatch. do 3 (apply safe_bind; safe_step). apply safe_if; intros _.
  { apply safe_response_loop. lia. }
  repeat (safe_step; try done; try apply safe_shift).
Qed.

Lemma safe_poll_single n : safe R ipmi_lan_poll_single n (polls n).
Proof.
  unfold ipmi_lan_poll_single. apply safe_bind. eapply safe_weaken; [apply safe_recv |].
  intros got n1 [Hn1 Hn2]. unfold polls. safe_step; [safe_step; split; [lia | done] |].
  destruct got; [| done]. specialize (Hn2 eq_refl).
  apply safe_bind. safe_step. safe_step; [safe_step; split; lia |]. safe_step; [safe_step; split; lia |].
  destruct (read_session_data a 4) as [rsp offset]. apply safe_bind. safe_step. apply safe_bind. safe_step.
  safe_step; [safe_step; split; lia |]. apply safe_bind. safe_step. safe_step; [safe_step; split; lia |].
  apply safe_bind.
  assert (forall size, safe R (poll_dispatch offset size) n1
    (fun r n' => (n' <= n)%nat /\ (r <> PollNull -> (n' < n)%nat))) as Hd.
  { intros size. eapply safe_weaken; [apply safe_dispatch |]. intros r n' ->. split; lia. }
  safe_step; [| safe_step; apply Hd].
  apply safe_bind. safe_step. destruct a2 as [[rc data] size]. apply safe_bind. safe_step.
  destruct size; safe_step. apply Hd.
Qed.

Lemma safe_poll_loop fuel n : (n < fuel)%nat -> safe R (poll_recv_loop fuel) n (uses n).
Proof.
  revert n. induction fuel as [|fuel IH]; intros n Hf; [lia |]. cbn [poll_recv_loop].
  apply safe_bind. eapply safe_weaken; [apply safe_poll_single |]. intros r n1 [Hn1 Hn2].
  destruct r.
  - safe_step. split; [lia | discriminate].
  - specialize (Hn2 ltac:(discriminate)). eapply safe_weaken; [apply IH; lia |].
    intros b n' [H1 H2]. unfold uses. split; [lia |]. intros Hb. specialize (H2 Hb). lia.
  - specialize (Hn2 ltac:(discriminate)). safe_step. split; lia.
Qed.

Lemma safe_poll n : safe R ipmi_lan_poll_recv n (uses n).
Proof. unfold ipmi_lan_poll_recv, net_fuel. apply safe_bind. safe_step. apply safe_poll_loop. lia. Qed.

Lemma safe_intf n (Q : ipmi_intf -> nat -> Prop) :
  (forall i, retry (ssn_params i) = c_retry R -> Q i n) -> safe R (gets l_intf) n Q.
Proof. intros H s Hs Hn. cbn. rewrite Hn. split; [done |]. apply H. by destruct Hs. Qed.

Lemma safe_add_entry req seq n (Q : option loc -> nat -> Prop) :
  (forall e, Q e n) -> safe R (add_entry req seq) n Q.
Proof. intros H. unfold add_entry. safe_step. apply H. Qed.

Lemma safe_build p q n (Q : option (list Z) * Z -> nat -> Prop) :
  (forall r, Q r n) -> safe R (build_v2x_msg p q) n Q.
Proof.
  intros H. unfold build_v2x_msg. apply safe_bind. safe_step. apply safe_bind.
  safe_step; [apply safe_rand; intros | safe_step];
    (apply safe_bind; safe_step; match goal with a : _ * _ |- _ => destruct a as [[] ?] end;
     apply safe_bind; safe_step; safe_step; apply H).
Qed.

Lemma safe_v2x_cmd req b n (Q : option loc -> nat -> Prop) : c_dangling R = true ->
  (forall e, Q e n) -> safe R (ipmi_lanplus_build_v2x_ipmi_cmd req b) n Q.
Proof.
  intros Hd H. unfold ipmi_lanplus_build_v2x_ipmi_cmd. apply safe_bind. safe_step. apply safe_bind. safe_step.
  apply safe_bind, safe_add_entry. intros [e |]; [| safe_step; apply H].
  apply safe_bind. safe_step; safe_step; apply safe_bind, safe_build; intros [msg len];
    apply safe_bind; safe_step; safe_step; apply H.
Qed.

Lemma safe_v15_cmd req n (Q : option loc -> nat -> Prop) : c_dangling R = true ->
  (forall e, Q e n) -> safe R (ipmi_lanplus_build_v15_ipmi_cmd req) n Q.
Proof.
  intros Hd H. unfold ipmi_lanplus_build_v15_ipmi_cmd.
  apply safe_bind, safe_add_entry. intros [e |]; [| safe_step; apply H].
  destruct (malloc _); [| safe_step; apply H].
  do 2 (apply safe_bind; safe_step). apply safe_bind. safe_step. safe_step. apply H.
Qed.

(** Only a request keeps a pointer to its entry while it waits; when it waits
    twice the entry may have been freed. *)
Definition is_request (p : ipmi_v2_payload) : bool :=
  match payload p with PL_ipmi_request _ _ => true | _ => false end.
Definition may_hold (p : ipmi_v2_payload) : Prop := is_request p = true -> c_dangling R = true.

Lemma safe_transmit p try entry n (Q : option (ipmi_v2_payload * option loc) -> nat -> Prop) : may_hold p ->
  (forall r, match r with Some (q, _) => payload q = payload p | None => True end -> Q r n) ->
  safe R (transmit p try entry) n Q.
Proof.
  unfold may_hold, is_request. intros Hd H. unfold transmit. apply safe_bind. safe_step. apply safe_bind. safe_step. apply safe_bind.
  assert (forall m (p' : ipmi_v2_payload) (e' : option loc), payload p' = payload p -> safe R (ok ← ipmi_lan_send_packet m;
    mret (if (ok : bool) then Some (p', e') else None)) n Q) as Hrest.
  { intros m p' e' E. apply safe_bind, safe_send. intros b. safe_step. apply H. by destruct b. }
  destruct (payload p) as [rq_seq req | | | | |] eqn:Ep.
  { specialize (Hd eq_refl). apply safe_bind. safe_step; [apply safe_v15_cmd | apply safe_v2x_cmd]; try exact Hd;
      (intros [e |]; [apply safe_bind; safe_step; safe_step; by apply Hrest | safe_step; safe_step; by apply H]). }
  all: apply safe_bind, safe_build; intros [[msg |] len]; safe_step; by apply Hrest.
Qed.

(** After [got]: fewer datagrams than [n0] if there is a response. *)
Definition uses_from (n0 n : nat) (b : bool) (n' : nat) : Prop :=
  (n' <= n)%nat /\ (b = true -> (n' < n0)%nat).

Lemma safe_skip fuel got n0 n :
  (n <= n0)%nat -> (got = true -> (n < n0)%nat) -> (n + Nat.b2n got < fuel)%nat ->
  safe R (skip_duplicates fuel got) n (uses_from n0 n).
Proof.
  revert got n. induction fuel as [|fuel IH]; intros got n Hn Hg Hf; [lia |].
  cbn [skip_duplicates]. apply safe_bind. safe_step; [| safe_step; by split].
  specialize (Hg eq_refl). cbn [Nat.b2n] in Hf. safe_step; [| safe_step; split; lia].
  apply safe_bind. eapply safe_weaken; [apply safe_poll |]. intros got n1 [H1 H2].
  eapply safe_weaken; [apply IH |]; [lia | lia | destruct got; [specialize (H2 eq_refl)|]; cbn [Nat.b2n]; lia |].
  intros b n' [H3 H4]. split; [lia | done].
Qed.

(** The wait of a payload with a receiver that only consumes. *)
Definition receives (recv : M lp bool) : Prop := forall n, safe R recv n (uses n).

Lemma safe_await recv p entry n : receives recv -> may_hold p ->
  safe R (await_response recv p entry) n (fun r n' => (n' <= n)%nat /\
    match r with inl b | inr b => b = true -> (n' < n)%nat end).
Proof.
  intros Hrecv Hd. unfold may_hold, is_request in Hd. unfold await_response.
  destruct (payload p) as [rq_seq req | out | | | |].
  2: { safe_step; [safe_step; split; [lia | discriminate] |]. apply safe_bind.
       eapply safe_weaken; [apply Hrecv |]. intros got n1 [H1 H2]. apply safe_bind.
       assert (forall rsp, safe R (if negb (is_sol_packet rsp) then mret (inl got) else
         if sol_response_acks_packet rsp (PL_sol_packet out) then mret (inl got) else
         len ← rsp_gets rs_data_len;
         if negb (len =? 0) then
           _ ← sol_input_handler; _ ← rsp_set (fun r => r <| rs_data_len := 0 |>); mret (inl got)
         else mret (inr got)) n1 (fun r n' => (n' <= n)%nat /\
           match r with inl b | inr b => b = true -> (n' < n)%nat end)) as Hend.
       { intros rsp. repeat (safe_step || (apply safe_bind)); by split. }
       apply safe_the_rsp; intros; apply Hend. }
  all: apply safe_bind; eapply safe_weaken; [apply safe_poll |]; intros got n1 [H1 H2];
    apply safe_bind, safe_get; intros s Hs; apply safe_bind;
    eapply safe_weaken; [apply (safe_skip _ _ n); [lia | done | unfold net_fuel; rewrite Hs; destruct got; cbn; lia] |];
    intros got' n2 [H3 H4]; (safe_step; [safe_step; split; [lia | intros _; by apply H4] |]);
    try specialize (Hd eq_refl); apply safe_bind; repeat safe_step; (split; [lia | discriminate]).
Qed.

Lemma safe_send_loop recv fuel p try xmit ltime entry rsp n0 n : receives recv -> may_hold p ->
  (Z.to_nat (c_retry R - try) < fuel)%nat -> (n <= n0)%nat -> (rsp = true -> (n < n0)%nat) ->
  safe R (send_loop fuel recv p try xmit ltime entry rsp) n
    (fun r n' => (n' <= n0)%nat /\ match r with Some (b, _) => b = true -> (n' < n0)%nat | None => True end).
Proof.
  intros Hrecv. revert p try xmit ltime entry rsp n.
  induction fuel as [|fuel IH]; intros p try xmit ltime entry rsp n Hd Hf Hn Hr; [lia |].
  cbn [send_loop]. apply safe_bind, safe_intf. intros i Hi. rewrite Hi.
  safe_step; [by safe_step |]. bool_hyps. apply safe_bind.
  eapply (safe_weaken _ _ (fun _ n' => n' = n)); [destruct xmit; [by apply safe_time | by safe_step] |].
  intros now n' ->. apply safe_bind.
  eapply (safe_weaken _ _ (fun r n' => n' = n /\ match r with Some (q, _) => payload q = payload p | None => True end));
    [destruct xmit; [by apply safe_transmit | by safe_step] |].
  intros sent n' [-> Ep]. destruct sent as [[p' entry'] |]; [| by safe_step].
  assert (may_hold p') as Hd' by (unfold may_hold, is_request; by rewrite Ep).
  safe_step; [by safe_step |]. apply safe_bind.
  eapply (safe_weaken _ _ (fun _ n' => n' = n)); [destruct (sent_state _); by safe_step |].
  intros _ n' ->. apply safe_bind. eapply safe_weaken; [by apply safe_await |].
  intros r n1 [H1 H2]. destruct r as [got | got]; [safe_step; split; [lia | intros; specialize (H2 ltac:(done)); lia] |].
  apply safe_bind, safe_time. intros now'. apply safe_bind. safe_step. apply safe_bind.
  eapply (safe_weaken _ _ (fun _ n' => n' = n1)); [by repeat safe_step |].
  intros _ n' ->. apply IH; [done | | lia | intros; specialize (H2 ltac:(done)); lia].
  destruct (sent_state _); lia.
Qed.

Lemma safe_send_with recv p n : receives recv -> may_hold p ->
  safe R (send_payload_with recv p) n (fun r n' => uses n r.1 n').
Proof.
  intros Hrecv Hd. unfold send_payload_with. apply safe_bind. safe_step. apply safe_bind, safe_retry.
  apply safe_bind. eapply safe_weaken; [apply (safe_send_loop _ _ _ _ _ _ _ _ n); [done | done | lia | done | discriminate] |].
  intros [[got p'] |] n' [H1 H2].
  - apply safe_bind. safe_step. safe_step. by split.
  - safe_step. split; [done | discriminate].
Qed.

(** ** Serial over LAN *)

(** An acknowledgement leaves the loop before it would receive. *)
Lemma await_ack recv1 recv2 p out entry : payload p = PL_sol_packet out ->
  so_packet_sequence_number out = 0 -> await_response recv1 p entry = await_response recv2 p entry.
Proof. intros H1 H2. unfold await_response. by rewrite H1, H2. Qed.

Lemma safe_ack got n (Q : unit -> nat -> Prop) :
  (forall n', (n' <= n)%nat -> Q tt n') -> safe R (ack_sol_packet got) n Q.
Proof.
  intros H. unfold ack_sol_packet. apply safe_bind.
  assert (forall rsp, safe R (if negb (is_sol_packet rsp) then mret tt else
    r ← gets l_rsp;
    let seq := sol_seq (sol_fields r) in
    if seq =? 0 then mret tt else
    _ ← send_payload_with (mret false) (sol_ack seq (rs_data_len r)); mret tt) n Q) as Hend.
  { intros rsp. safe_step; [safe_step; by apply H |]. apply safe_bind. safe_step. cbv zeta.
    safe_step; [safe_step; by apply H |]. apply safe_bind.
    eapply safe_weaken; [apply safe_send_with; [| by intros [=]] |].
    - intros m. safe_step. split; [done | discriminate].
    - intros r n' [Hle _]. safe_step. by apply H. }
  apply safe_the_rsp; intros; apply Hend.
Qed.

Lemma safe_check got n (Q : Z -> nat -> Prop) :
  (forall k, Q k n) -> safe R (check_sol_packet_for_new_data got) n Q.
Proof.
  intros H. unfold check_sol_packet_for_new_data. apply safe_bind.
  apply safe_the_rsp; intros; (safe_step; [safe_step; apply H |]); apply safe_bind; safe_step; cbv zeta;
    apply safe_bind; safe_step; apply safe_bind;
    (eapply (safe_weaken _ _ (fun _ n' => n' = n));
      [safe_step; [apply safe_bind; safe_step; [apply safe_shift | safe_step]; by safe_step | by safe_step] |]);
    intros k n' ->; apply safe_bind; safe_step; safe_step; safe_step; apply H.
Qed.

Lemma safe_recv_sol : receives ipmi_lanplus_recv_sol.
Proof.
  intros n. unfold ipmi_lanplus_recv_sol. apply safe_bind. eapply safe_weaken; [apply safe_poll |].
  intros got n1 [H1 H2]. apply safe_bind. safe_step. safe_step; [| safe_step; by split].
  bool_hyps. subst got. specialize (H2 eq_refl).
  apply safe_bind, safe_ack. intros n2 Hn2. apply safe_bind, safe_check. intros k. safe_step. split; lia.
Qed.

Lemma safe_send_payload p n : may_hold p ->
  safe R (ipmi_lanplus_send_payload p) n (fun r n' => uses n r.1 n').
Proof. apply safe_send_with, safe_recv_sol. Qed.

(** A payload that is not a request holds nothing. *)
Lemma holds_nothing n b : may_hold (mk_payload n b) <-> match b with PL_ipmi_request _ _ => c_dangling R = true | _ => True end.
Proof. unfold may_hold, is_request. cbn. destruct b; naive_solver. Qed.

Ltac safe_message := eapply safe_weaken; [apply safe_send_payload; by apply holds_nothing |].

Lemma safe_set_seq out n (Q : sol_out -> nat -> Prop) :
  (forall o, Q o n) -> safe R (set_sol_packet_sequence_number out) n Q.
Proof.
  intros H. unfold set_sol_packet_sequence_number. do 2 (apply safe_bind; safe_step). safe_step. apply H.
Qed.

Lemma safe_exchange out n : safe R (sol_exchange out) n (fun rs n' => uses n (bool_decide (is_Some rs)) n').
Proof.
  cbn [sol_exchange lp_link]. apply safe_bind. safe_message. intros [got p] n1 H. cbn [fst] in H.
  apply safe_the_rsp; intros; subst; exact H.
Qed.

Lemma safe_packet out n :
  safe R (sol_send_packet out) n (fun r n' => uses n (bool_decide (is_Some r.1)) n').
Proof.
  unfold sol_send_packet. apply safe_bind. eapply safe_weaken; [apply safe_exchange |]. intros rs n1 H.
  apply safe_bind. safe_step. safe_step. exact H.
Qed.

Lemma safe_resend fuel out rs chars n : (n + Nat.b2n (bool_decide (is_Some rs)) < fuel)%nat ->
  safe R (resend_loop fuel out rs chars) n (fun _ n' => (n' <= n)%nat).
Proof.
  revert out rs chars n. induction fuel as [|fuel IH]; intros out rs chars n Hf; [lia |].
  cbn [resend_loop]. destruct rs as [r |]; [| by safe_step]. rewrite bool_decide_eq_true_2 in Hf by done. cbn [Nat.b2n] in Hf.
  cbv zeta. safe_step; [by safe_step |]. apply safe_bind.
  eapply (safe_weaken _ _ (fun _ n' => n' = n)); [cbn [sol_handle lp_link]; by repeat safe_step |]. intros _ n' ->.
  apply safe_bind, safe_set_seq. intros o. apply safe_bind. safe_step. apply safe_bind.
  eapply safe_weaken; [apply safe_packet |]. intros [rs k] n1 [H1 H2]. cbn [fst] in *.
  eapply safe_weaken; [apply IH | cbv beta; intros; lia].
  case_bool_decide; cbn [Nat.b2n]; [specialize (H2 eq_refl) |]; lia.
Qed.

Lemma safe_send_sol out n : safe R (ipmi_lanplus_send_sol out) n (fun _ n' => (n' <= n)%nat).
Proof.
  unfold ipmi_lanplus_send_sol. apply safe_bind, safe_set_seq. intros o. apply safe_bind.
  eapply safe_weaken; [apply safe_packet |]. intros [rs k] n1 [H1 H2]. cbn [fst] in *.
  apply safe_bind, safe_get. intros s Hs. eapply safe_weaken; [apply safe_resend | cbv beta; intros; lia].
  cbn [sol_rounds lp_link]. rewrite Hs. case_bool_decide; cbn [Nat.b2n]; lia.
Qed.

(** ** Session commands *)

Lemma safe_cmd req n : c_dangling R = true -> safe R (ipmi_lanplus_send_ipmi_cmd req) n (uses n).
Proof.
  intros Hd. unfold ipmi_lanplus_send_ipmi_cmd. apply safe_bind. safe_message.
  intros [got p] n1 H. by safe_step.
Qed.

Lemma safe_ccode req n (Q : option Z -> nat -> Prop) : c_dangling R = true ->
  (forall c n', (n' <= n)%nat -> Q c n') -> safe R (sendrecv_ccode req) n Q.
Proof.
  intros Hd H. unfold sendrecv_ccode. apply safe_bind. eapply safe_weaken; [by apply safe_cmd |].
  intros got n1 [H1 _]. apply safe_bind. apply safe_the_rsp; intros; safe_step; by apply H.
Qed.

Lemma safe_auth_cap n : c_dangling R = true -> safe R ipmi_get_auth_capabilities_cmd n (any n).
Proof.
  intros Hd.
  unfold ipmi_get_auth_capabilities_cmd. apply safe_bind. safe_step. apply safe_bind. safe_step.
  apply safe_bind, safe_ccode; [exact Hd |]. intros c n1 H1. apply safe_bind.
  eapply (safe_weaken _ _ (any n)).
  - safe_step; [| ret]. apply safe_ccode; [exact Hd |]. unfold any. lia.
  - intros c' n2 H2. repeat (safe_step || apply safe_bind); exact H2.
Qed.

Lemma safe_close_cmd n : c_dangling R = true -> safe R ipmi_close_session_cmd n (any n).
Proof.
  intros Hd.
  unfold ipmi_close_session_cmd. apply safe_bind. safe_step. safe_step; [ret |].
  do 2 (apply safe_bind; safe_step). apply safe_bind, safe_ccode; [exact Hd |]. intros c n1 H1.
  repeat (safe_step || apply safe_bind); exact H1.
Qed.

Lemma safe_privlvl n : c_dangling R = true -> safe R ipmi_set_session_privlvl_cmd n (any n).
Proof.
  intros Hd.
  unfold ipmi_set_session_privlvl_cmd. apply safe_bind. safe_step. safe_step; [ret |].
  apply safe_bind. safe_step. apply safe_bind, safe_ccode; [exact Hd |]. intros c n1 H1.
  apply safe_bind. safe_step. repeat (safe_step || apply safe_bind); exact H1.
Qed.

Lemma safe_open_session n : safe R ipmi_lanplus_open_session n (any n).
Proof.
  unfold ipmi_lanplus_open_session. apply safe_bind. safe_step. safe_step; [| ret].
  apply safe_bind. safe_step.
  destruct (lanplus_get_requested_ciphers _) as [[[auth integrity] crypt] |]; [| ret].
  apply safe_bind. safe_step. apply safe_bind. safe_message.
  intros [got p] n1 [H1 _]. repeat (safe_step || apply safe_bind); exact H1.
Qed.

Lemma safe_rakp1 n : safe R ipmi_lanplus_rakp1 n (any n).
Proof.
  unfold ipmi_lanplus_rakp1. apply safe_bind. safe_step. safe_step; [| ret].
  apply safe_bind, safe_rand. intros r. destruct r; [| ret].
  do 3 (apply safe_bind; safe_step). safe_step; [ret |]. apply safe_bind. safe_step.
  apply safe_bind. safe_message.
  intros [got p] n1 [H1 _]. repeat (safe_step || apply safe_bind); exact H1.
Qed.

Lemma safe_keys msg n (Q : option (list Z * Z) -> nat -> Prop) :
  (forall k, Q k n) -> safe R (rakp3_keys msg) n Q.
Proof. intros H. unfold rakp3_keys. repeat (safe_step || apply safe_bind); apply H. Qed.

Lemma safe_rakp3 n : safe R ipmi_lanplus_rakp3 n (any n).
Proof.
  unfold ipmi_lanplus_rakp3. do 3 (apply safe_bind; safe_step). safe_step; [| ret].
  apply safe_bind. safe_step. apply safe_bind.
  eapply (safe_weaken _ _ (fun _ n' => n' = n)); [safe_step; [by apply safe_keys | ret] |].
  intros keys n' ->. destruct keys as [[m len] |]; [| ret].
  apply safe_bind. safe_message.
  intros [got p] n1 [H1 _]. repeat (safe_step || apply safe_bind); exact H1.
Qed.

Lemma safe_setup k n : safe R (setup_loop k) n (any n).
Proof.
  revert n. induction k as [|k IH]; intros n; cbn [setup_loop]; [ret |].
  assert (forall n1, (n1 <= n)%nat -> safe R (setup_loop k) n1 (any n)) as IH'.
  { intros n1 H. eapply safe_weaken; [apply IH |]. unfold any. lia. }
  apply safe_bind. safe_step. apply safe_bind. eapply safe_weaken; [apply safe_open_session |].
  intros rc n1 Hn1. unfold any in Hn1. safe_step; [ret |]. safe_step; [by apply IH' |].
  apply safe_bind. eapply safe_weaken; [apply safe_rakp1 |]. intros rc2 n2 Hn2. unfold any in Hn2.
  safe_step; [safe_step; unfold any; lia |]. safe_step; [apply IH'; lia |].
  apply safe_bind. eapply safe_weaken; [apply safe_rakp3 |]. intros rc3 n3 Hn3. unfold any in Hn3.
  safe_step; [safe_step; unfold any; lia |]. safe_step; [safe_step; unfold any; lia | apply IH'; lia].
Qed.

Lemma safe_close n : c_dangling R = true -> safe R ipmi_lanplus_close n (any n).
Proof.
  intros Hd.
  unfold ipmi_lanplus_close. apply safe_bind. safe_step. apply safe_bind.
  eapply (safe_weaken _ _ (any n)).
  - safe_step; [| ret]. apply safe_bind. eapply safe_weaken; [by apply safe_close_cmd |].
    intros c n1 H1. ret.
  - intros u n1 H1. apply safe_bind. safe_step. ret.
Qed.

Lemma safe_keepalive n : c_dangling R = true -> safe R ipmi_lanplus_keepalive n (any n).
Proof.
  intros Hd.
  assert (forall fuel got n, (n < fuel)%nat -> safe R (keepalive_loop fuel got) n (any n)) as Hloop.
  { induction fuel as [|fuel IH]; intros got m Hf; [lia |]. cbn [keepalive_loop]. apply safe_bind.
    apply safe_the_rsp; intros; (safe_step; [| ret]); apply safe_bind, safe_ack;
      intros m1 Hm1; apply safe_bind, safe_check; intros k; apply safe_bind; safe_step; apply safe_bind;
      (eapply (safe_weaken _ _ (fun _ n' => n' = m1)); [by repeat safe_step |]); intros _ m2 ->;
      apply safe_bind; (eapply safe_weaken; [apply safe_poll |]); intros got' m3 [Hm3 Hm4];
      (safe_step; [safe_step; unfold any; lia |]); bool_hyps; specialize (Hm4 ltac:(done));
      (eapply safe_weaken; [apply IH; lia |]); unfold any; cbv beta; intros; lia. }
  unfold ipmi_lanplus_keepalive. apply safe_bind. safe_step. safe_step; [ret |].
  apply safe_bind. eapply safe_weaken; [by apply safe_cmd |]. intros got n1 [H1 _].
  apply safe_bind, safe_get. intros s1 Hs1. eapply safe_weaken; [apply Hloop; unfold net_fuel; lia |].
  unfold any. cbv beta. intros; lia.
Qed.

(** *** The queries of an opening session *)

(** A send function that returns with no more datagrams. *)
Definition sends (send : ipmi_rq -> M lp (option ipmi_rs)) : Prop :=
  forall req n (Q : option ipmi_rs -> nat -> Prop),
    (forall r n', (n' <= n)%nat -> Q r n') -> safe R (send req) n Q.

Lemma safe_sendrecv : c_dangling R = true -> sends lanplus_sendrecv.
Proof.
  intros Hd req n Q H. unfold lanplus_sendrecv. apply safe_bind. eapply safe_weaken; [by apply safe_cmd |].
  intros got n1 [H1 _]. apply safe_the_rsp; intros; by apply H.
Qed.

Lemma safe_suite_rounds rounds chan pl i data n : c_dangling R = true ->
  safe R (suite_rounds lanplus_sendrecv rounds chan pl i data) n (any n).
Proof.
  intros Hd. revert i data n. induction rounds as [|rounds IH]; intros i data n; cbn [suite_rounds]; [ret |].
  apply safe_bind, safe_sendrecv; [exact Hd |]. intros r n1 H1. safe_step; [| ret]. safe_step; [ret |].
  apply safe_bind. safe_step. safe_step; [safe_step |]. safe_step; [| ret].
  eapply safe_weaken; [apply IH |]. unfold any. cbv beta. lia.
Qed.

Lemma safe_find_best n : c_dangling R = true -> safe R ipmi_find_best_cipher_suite n (any n).
Proof.
  intros Hd.
  unfold ipmi_find_best_cipher_suite, ipmi_get_channel_cipher_suites. apply safe_bind.
  eapply (safe_weaken _ _ (any n)); [| intros; ret]. safe_step; [ret |].
  apply safe_bind. eapply safe_weaken; [by apply safe_suite_rounds |].
  intros d n1 H1. safe_step; [| ret]. apply safe_bind, safe_lift; [| intros; ret].
  apply plain_suites. lia.
Qed.

Lemma safe_hpm2 send f g n : sends send ->
  (forall z k, safe R (f z) k (any k)) -> (forall z k, safe R (g z) k (any k)) ->
  safe R (hpm2_detect_max_payload_size send f g) n (any n).
Proof.
  intros Hsend Hf Hg. unfold hpm2_detect_max_payload_size. apply safe_bind.
  eapply (safe_weaken _ _ (any n)).
  { unfold hpm2_get_capabilities. apply safe_bind, Hsend. intros r n1 H1.
    repeat (safe_step || apply safe_bind); exact H1. }
  intros [err attach] n1 H1. safe_step; [ret |]. apply safe_bind. eapply (safe_weaken _ _ (any n1)).
  { unfold hpm2_get_lan_channel_capabilities. apply safe_bind, Hsend. intros r n2 H2.
    repeat (safe_step || apply safe_bind); exact H2. }
  intros [err2 chan] n2 H2. safe_step; [ret |].
  apply safe_bind. eapply safe_weaken; [apply Hf |]. intros u3 n3 H3.
  apply safe_bind. eapply safe_weaken; [apply Hg |]. intros u4 n4 H4. ret.
Qed.

Lemma safe_get_oem send fd iana b id n : sends send ->
  safe R (ipmi_get_oem send fd iana b id) n (any n).
Proof.
  intros Hsend. unfold ipmi_get_oem. safe_step; [ret |]. safe_step; [ret |]. apply safe_bind, Hsend.
  intros r n1 H1. repeat (safe_step || apply safe_bind); exact H1.
Qed.

Lemma safe_set_intf f k : (forall i, retry (ssn_params (f i)) = retry (ssn_params i)) ->
  safe R (set_intf f) k (any k).
Proof. intros H. apply safe_modify; [| unfold any; lia]. intros s. split_and!; try done. apply H. Qed.
End Operations.

(** ** Properties *)

(** [m] does not run for ever from [s]: it returns, with a well-formed request
    list and no datagram invented, or it stops where [stops] says. *)
Definition ends (dangling : bool) {A} (m : M lp A) (s : lp) : Prop :=
  match m s with
  | Ok (_, s') => (exists l, Refine.rep (l_reqs s') l) /\ (length (l_net s') <= length (l_net s))%nat
  | Bad e => stops dangling e
  end.

Definition setting_of (s : lp) : bool -> setting :=
  mk_setting (retry (ssn_params (l_intf s))) (s_later (l_send s)).

Lemma safe_ends {A} d (m : M lp A) s (Q : A -> nat -> Prop) :
  safe (setting_of s d) m (length (l_net s)) Q ->
  (forall a n', Q a n' -> (n' <= length (l_net s))%nat) ->
  (exists l, Refine.rep (l_reqs s) l) -> ends d m s.
Proof.
  intros H HQ Hl. unfold ends. specialize (H s (conj eq_refl (conj eq_refl Hl)) eq_refl).
  destruct (m s) as [[a s'] | e]; [| done]. destruct H as [(_ & _ & Hl') H]. split; [done | by eapply HQ].
Qed.

Section Properties.
Context `{ssl : OpenSSL} `{mem : Malloc}.

Lemma safe_open_fail {R} n : c_dangling R = true -> safe R open_fail n (any n).
Proof.
  intros Hd. unfold open_fail. apply safe_bind. eapply safe_weaken; [by apply safe_close |].
  intros u n1 H1. by apply safe_ret.
Qed.

Lemma safe_le {R A} (m : M lp A) n k : (k <= n)%nat -> safe R m k (any k) -> safe R m k (any n).
Proof. intros Hk H. eapply safe_weaken; [exact H |]. unfold any. lia. Qed.

Lemma safe_seq {R A B} (m : M lp A) (f : A -> M lp B) n k : (k <= n)%nat ->
  safe R m k (any k) -> (forall a k', (k' <= n)%nat -> safe R (f a) k' (any n)) -> safe R (m ≫= f) k (any n).
Proof.
  intros Hk H Hf. apply safe_bind. eapply safe_weaken; [exact H |]. intros a k' H1. apply Hf.
  unfold any in H1. lia.
Qed.

Lemma ends_after {A B} d (m : M lp A) (f : A -> M lp B) s a s1 :
  m s = Ok (a, s1) -> l_net s1 = l_net s -> ends d (f a) s1 -> ends d (m ≫= f) s.
Proof. intros E Hn H. unfold ends in *. by rewrite (M_bind_run _ _ _ _ _ E), <- Hn. Qed.

Lemma open_ends connected fd sel_iana s : (exists l, Refine.rep (l_reqs s) l) ->
  ends true (ipmi_lanplus_open connected fd sel_iana) s.
Proof.
  intros Hl. unfold ipmi_lanplus_open. eapply ends_after; [reflexivity | done |].
  case_test; [by split; [| cbn; lia] |]. cbv zeta. eapply ends_after; [reflexivity | done |].
  match goal with |- ends _ _ ?s1 => apply (safe_ends _ _ s1 (any (length (l_net s1)))) end; [| done | exact Hl].
  match goal with |- safe ?r _ _ _ => assert (c_dangling r = true) as Hd by done; generalize dependent r end.
  cbn [l_net]. intros R Hd.
  apply safe_if; intros _; [by apply safe_open_fail |]. destruct (malloc 512); [| by apply safe_open_fail].
  apply safe_seq; [done | repeat safe_step; unfold any; lia |]. intros _ n1 H1.
  apply safe_seq; [done | case_test; [ret | by apply safe_auth_cap] |]. intros cap n2 H2.
  destruct cap as [cap |]; [| by apply safe_le; [| by apply safe_open_fail]].
  apply safe_if; intros _; [by apply safe_le; [| by apply safe_open_fail] |].
  apply safe_seq; [done | case_test; [| ret] |].
  { apply safe_seq; [done | by apply safe_find_best | intros best n3 H3]. apply safe_le; [done |].
    by apply safe_set_intf. }
  intros _ n3 H3. apply safe_seq; [done | apply safe_setup |]. intros ok n4 H4.
  apply safe_if; intros _; [by apply safe_le; [| by apply safe_open_fail] |].
  apply safe_seq; [done | by apply safe_set_intf |]. intros _ n5 H5.
  apply safe_seq; [done | case_test; [ret | by apply safe_privlvl] |]. intros rc n6 H6.
  apply safe_if; intros _; [by apply safe_le; [| by apply safe_open_fail] |].
  apply safe_seq; [done | case_test; [ret | apply safe_hpm2; [by apply safe_sendrecv | |]] |].
  { intros z k. apply safe_set_intf. intros i. unfold ipmi_intf_set_max_request_data_size. by case_test. }
  { intros z k. apply safe_set_intf. intros i. unfold ipmi_intf_set_max_response_data_size. by case_test. }
  intros _ n7 H7. apply safe_seq; [done | by apply safe_modify; [| unfold any] |]. intros _ n8 H8.
  apply safe_bind. safe_step. apply safe_seq; [done | case_test; [ret |] |]; [| intros _ n9 H9; ret].
  apply safe_seq; [done | by apply safe_get_oem, safe_sendrecv | intros id n9 H9]. apply safe_le; [done |]. by apply safe_set_intf.
Qed.

(** C6. No operation of the RMCP+ transport runs for ever, whatever datagrams
    arrive and whichever sends fail, in any state whose request list is well
    formed: each ends after finitely many steps (every loop is bounded by the
    datagrams or by the retry count).  It returns with a well-formed request
    list, or it stops at a failed assertion, an access outside an array or a
    value never assigned.  Receiving, Serial over LAN, the messages of the
    session set-up and every payload that is not a request never follow a null
    or freed pointer of the request list; only an operation that waits for the
    answer to a request can. *)
Theorem transport_terminates s p out req n connected fd sel_iana :
  (exists l, Refine.rep (l_reqs s) l) ->
  (ends false ipmi_lan_poll_recv s /\ (is_request p = false -> ends false (ipmi_lanplus_send_payload p) s) /\
   ends false ipmi_lanplus_recv_sol s /\ ends false (ipmi_lanplus_send_sol out) s /\
   ends false (setup_loop n) s) /\
  ends true (ipmi_lanplus_send_payload p) s /\ ends true (ipmi_lanplus_send_ipmi_cmd req) s /\
  ends true ipmi_lanplus_keepalive s /\ ends true ipmi_set_session_privlvl_cmd s /\
  ends true ipmi_get_auth_capabilities_cmd s /\ ends true ipmi_lanplus_close s /\
  ends true (ipmi_lanplus_open connected fd sel_iana) s.
Proof.
  intros Hl. split_and!; [.. | by apply open_ends]; try intros Hp; (eapply safe_ends; [| | exact Hl]).
  - apply safe_poll. - by intros a n' [H _].
  - apply safe_send_payload. unfold may_hold. by rewrite Hp. - by intros a n' [H _].
  - apply safe_recv_sol. - by intros a n' [H _].
  - apply safe_send_sol. - done.
  - apply safe_setup. - done.
  - by apply safe_send_payload. - by intros a n' [H _].
  - by apply safe_cmd. - by intros a n' [H _].
  - by apply safe_keepalive. - done.
  - by apply safe_privlvl. - done.
  - by apply safe_auth_cap. - done.
  - by apply safe_close. - done.
Qed.
End Properties.

Lemma transport_terminates_witness :
  let s := init_lp witness_lan witness_active [NetPacket [6; 0; 255; 7]; NetRefused] in
  (exists l, Refine.rep (l_reqs s) l) /\ ends false ipmi_lan_poll_recv s.
Proof.
  intros s. assert (exists l, Refine.rep (l_reqs s) l) as Hl by (exists []; apply Refine.rep_empty).
  split; [exact Hl |]. exact (proj1 (proj1 (transport_terminates s (sol_ack 1 2)
    (mk_solout [] 0 0 0 0 false false false false false false false) (mk_rq 6 0 1 0 []) 4 true 3 0 Hl))).
Defined.
