(* ===== verification/LanSafe.v ===== *)
(** * The v1.5 LAN transport terminates (over Lan.v, LanSession.v)

    The loops of lan.c in the logic of LanplusSafe.v.  The loop of
    [ipmi_lan_poll_recv] takes a round per datagram and one per layer of
    bridging, of which a datagram of 1024 bytes holds at most 128; the loops
    that send take a round per failed send and one per try. *)

From S2P Require Import Prelude Wire Ipmi Ipmb Intf Session Bmc Channel Crypt LanplusMsg ReqList Lanplus Md5.
From S2P Require Import Lan LanSession LanplusSession LanplusSafe.

#[local] Open Scope Z_scope.

(** ** The digests need no fuel *)

Lemma plain_append st p : plain (md5_append st p).
Proof. unfold md5_append. cbv zeta. plain. Qed.
#[export] Hint Resolve plain_append : plain.

Lemma plain_appends ps st : plain (md5_appends st ps).
Proof.
  revert st. induction ps as [| p ps IH]; intros st; cbn [md5_appends]; [done |].
  apply plain_bind; [apply plain_append | apply IH].
Qed.

Lemma plain_md5 ps : plain (md5 ps).
Proof. unfold md5. apply plain_bind; [apply plain_appends |]. intros. unfold md5_finish. plain. Qed.
#[export] Hint Resolve plain_md5 : plain.

Lemma plain_lan_packet a s level req q : plain (lan_packet a s level req q).
Proof. unfold lan_packet, ipmi_auth_md5, ipmi_auth_md2. plain. Qed.
Lemma plain_special s : plain (ipmi_auth_special s).
Proof. unfold ipmi_auth_special. plain. Qed.
Lemma plain_sol s p : plain (lan_sol_bytes s p).
Proof. unfold lan_sol_bytes. plain. Qed.
#[export] Hint Resolve plain_lan_packet plain_special plain_sol : plain.

(** ** Receiving *)

(** What a computation that starts in [s] does, with the state it ends in. *)
Definition wp {A} (m : M lp A) (s : lp) (Q : A -> lp -> Prop) : Prop :=
  match m s with Ok (a, s') => Q a s' | Bad e => stops false e end.

Lemma wp_bind {A B} (m : M lp A) (f : A -> M lp B) s Q :
  wp m s (fun a s' => wp (f a) s' Q) -> wp (m ≫= f) s Q.
Proof. unfold wp, mbind, M_bind. by destruct (m s) as [[a s'] | e]. Qed.

Lemma wp_weaken {A} (m : M lp A) s (Q Q' : A -> lp -> Prop) :
  wp m s Q -> (forall a s', Q a s' -> Q' a s') -> wp m s Q'.
Proof. unfold wp. destruct (m s) as [[a s'] | e]; auto. Qed.

Lemma wp_lift {A} (r : res A) s (Q : A -> lp -> Prop) :
  plain r -> (forall a, r = Ok a -> Q a s) -> wp (lift r) s Q.
Proof. unfold wp, lift, plain. destruct r; auto. Qed.

(** A state from which the transport has gone on from [s0]: the same retry
    count, a list that is well formed, the same outcomes of sends to come, and
    no more datagrams. *)
Definition on_from (s0 s : lp) : Prop :=
  ok (setting_of s0 false) s /\ l_send s = l_send s0 /\ (length (l_net s) <= length (l_net s0))%nat.

#[local] Instance on_from_trans : Transitive on_from.
Proof.
  intros s1 s2 s3 ((E1 & L1 & M1) & E2 & E3) ((F1 & L2 & M2) & F2 & F3).
  split_and!; [split_and!; cbn in *; congruence || done | congruence | lia].
Qed.

Lemma on_from_refl s : (exists l, Refine.rep (l_reqs s) l) -> on_from s s.
Proof. intros H. split_and!; [by split_and! | done ..]. Qed.

Lemma wp_reqs {A} (m : M Ptr.hst A) s0 s (Q : A -> lp -> Prop) : on_from s0 s ->
  list_safe (R := setting_of s0 false) m ->
  (forall a s', on_from s0 s' -> l_rsp s' = l_rsp s -> l_net s' = l_net s -> Q a s') -> wp (on_reqs m) s Q.
Proof.
  intros ((E & L & l & Hl) & E2 & E3) Hm HQ. unfold wp, on_reqs. specialize (Hm _ _ Hl).
  destruct (m (l_reqs s)) as [[a h] | e]; [| done]. by apply HQ.
Qed.

(** Entries of the list: the one that a look-up finds is there, and stays
    while only entries are changed. *)
Lemma wp_lookup seq cmd s0 s (Q : option loc -> lp -> Prop) : on_from s0 s ->
  (forall entry, (forall e, entry = Some e -> live e s) -> Q entry s) ->
  wp (on_reqs (Ptr.lan_req_lookup_entry seq cmd)) s Q.
Proof.
  intros ((_ & _ & l & Hl) & _) HQ. unfold wp, on_reqs.
  destruct (Refine.lookup_refines seq cmd (l_reqs s) l Hl) as [_ ->].
  replace (s <| l_reqs := l_reqs s |>) with s by (by destruct s). apply HQ.
  intros e E. eapply rep_found; [exact Hl | by eapply spec_found].
Qed.

Lemma wp_deref e s (Q : Ptr.node -> lp -> Prop) : live e s -> (forall nd, Q nd s) -> wp (on_reqs (Ptr.deref e)) s Q.
Proof.
  intros [nd He] HQ. unfold wp, on_reqs, Ptr.deref. rewrite He.
  by replace (s <| l_reqs := l_reqs s |>) with s by (by destruct s).
Qed.

Lemma wp_entry e f s0 s (Q : unit -> lp -> Prop) : on_from s0 s -> live e s ->
  (forall a s', on_from s0 s' -> l_rsp s' = l_rsp s -> l_net s' = l_net s -> live e s' -> Q a s') ->
  wp (set_entry e f) s Q.
Proof.
  intros ((E & L & l & Hl) & E2 & E3) He HQ. unfold set_entry, wp. rewrite on_reqs_bind. unfold on_reqs.
  destruct (update_run (l_reqs s) l e f Hl He) as (h' & l' & -> & Hl' & Hq). apply HQ; [| done .. | by apply Hq].
  split_and!; [split_and!; eauto | done ..].
Qed.

Lemma wp_add req seq s0 s (Q : option loc -> lp -> Prop) `{mem : Malloc} : on_from s0 s ->
  (forall entry s', on_from s0 s' -> (forall e, entry = Some e -> live e s') -> Q entry s') ->
  wp (add_entry req seq) s Q.
Proof.
  intros ((E & L & l & Hl) & E2 & E3) HQ. unfold add_entry, wp, on_reqs.
  destruct (bool_decide _).
  - destruct (Refine.add_refines req seq (l_reqs s) l Hl) as (h' & -> & Hl' & _).
    apply HQ; [split_and!; [split_and!; eauto | done ..] |]. intros e [= <-].
    eapply rep_found; [exact Hl' |]. unfold Spec.add. rewrite fmap_app. apply elem_of_app. right. by left.
  - cbn. replace (s <| l_reqs := l_reqs s |>) with s by (by destruct s). apply HQ; [split_and!; [split_and!; eauto | done ..] | done].
Qed.

Lemma store_bounds bs s b s' : store_packet bs s = Ok (b, s') ->
  l_net s' = l_net s /\ l_send s' = l_send s /\ l_reqs s' = l_reqs s /\ l_intf s' = l_intf s /\
  (b = true -> 0 <= rs_data_len (l_rsp s') <= IPMI_BUF_SIZE).
Proof.
  unfold store_packet. set (got := take _ bs).
  assert (0 <= zlen got <= IPMI_BUF_SIZE) as Hg
    by (split; [apply zlen_nonneg | unfold got, zlen; rewrite length_take; unfold IPMI_BUF_SIZE; lia]).
  case_test; [by intros [= <- <-] |]. unfold mbind, M_bind, rsp_gets, gets, lift. cbn.
  destruct (or_oob _); [| done]. by intros [= <- <-].
Qed.

Lemma wp_recv s0 s : on_from s0 s -> wp lan_recv_packet s (fun b s' => on_from s0 s' /\ l_reqs s' = l_reqs s /\
  (b = true -> (length (l_net s') < length (l_net s))%nat /\ 0 <= rs_data_len (l_rsp s') <= IPMI_BUF_SIZE)).
Proof.
  intros Hs. unfold wp, lan_recv_packet.
  pose proof (safe_recv (R := setting_of s0 false) (length (l_net s)) s (proj1 Hs) eq_refl) as Hsafe.
  assert (forall bs n b s', store_packet bs (s <| l_net := n |>) = Ok (b, s') -> l_send s' = l_send s /\ l_reqs s' = l_reqs s /\
    (b = true -> 0 <= rs_data_len (l_rsp s') <= IPMI_BUF_SIZE)) as Hst.
  { intros bs n b s' H. destruct (store_bounds _ _ _ _ H) as (_ & E & Er & _ & Hb). by rewrite E, Er. }
  destruct (ipmi_lan_recv_packet s) as [[b s'] | e] eqn:E; [| done]. destruct Hsafe as [Hok [H1 H2]].
  assert (l_send s' = l_send s /\ l_reqs s' = l_reqs s /\
    (b = true -> 0 <= rs_data_len (l_rsp s') <= IPMI_BUF_SIZE)) as (Hsend & Hreqs & Hlen).
  { revert E. unfold ipmi_lan_recv_packet, next_event, mbind, M_bind.
    destruct (l_net s) as [| [| | bs] n]; [by intros [= <- <-] .. | | apply Hst].
    cbn. destruct n as [| [| | bs] n]; try by intros [= <- <-]. apply Hst. }
  destruct Hs as (_ & Es & En). split; [| auto]. split_and!; [done | congruence | lia].
Qed.

Lemma wp_ret {A} (a : A) s (Q : A -> lp -> Prop) : Q a s -> wp (mret a) s Q.
Proof. done. Qed.
Lemma wp_gets {A} (f : lp -> A) s (Q : A -> lp -> Prop) : Q (f s) s -> wp (gets f) s Q.
Proof. done. Qed.
Lemma wp_get s (Q : lp -> lp -> Prop) : Q s s -> wp get s Q.
Proof. done. Qed.
Lemma wp_rsp f s (Q : unit -> lp -> Prop) : Q tt (s <| l_rsp := f (l_rsp s) |>) -> wp (rsp_set f) s Q.
Proof. done. Qed.

(** A layer is peeled off: the datagram is eight bytes shorter. *)
Lemma wp_unwrap e x s0 s : on_from s0 s -> live e s -> 0 <= x -> wp (lan_unwrap e x) s (fun _ s' =>
  on_from s0 s' /\ l_net s' = l_net s /\ rs_data_len (l_rsp s') = rs_data_len (l_rsp s) - 8 /\
  x < rs_data_len (l_rsp s)).
Proof.
  intros Hs He Hx. unfold lan_unwrap. apply wp_bind, wp_gets. case_test; [done |].
  apply wp_bind, wp_lift; [by case_test |]. intros bs _. apply wp_bind, wp_lift.
  { destruct (wr _ (x - 7) bs) as [b |]; [apply plain_oob | done]. }
  intros data _. apply wp_bind, wp_rsp. eapply wp_entry; [exact Hs | exact He |].
  intros _ s' Hs' E1 E2 _. rewrite E1, E2. cbn -[Z.sub]. bool_hyps. split_and!; [done .. | lia].
Qed.

Lemma on_from_self s0 s : on_from s0 s -> on_from s s.
Proof. intros ((_ & _ & H) & _). by apply on_from_refl. Qed.

(** Eight times the rounds that the loop needs, and that [fuel] rounds do. *)
Definition lan_rounds (s : lp) (got : bool) : Z :=
  1040 * Z.of_nat (length (l_net s)) + (if got then rs_data_len (l_rsp s) + 16 else 8).

Definition lan_enough (fuel : nat) (s : lp) (got : bool) : Prop :=
  (got = true -> 0 <= rs_data_len (l_rsp s) <= IPMI_BUF_SIZE) /\ lan_rounds s got <= 8 * Z.of_nat fuel.

Lemma enough_frame fuel s s' got : l_rsp s' = l_rsp s -> l_net s' = l_net s ->
  lan_enough fuel s got -> lan_enough fuel s' got.
Proof. unfold lan_enough, lan_rounds. by intros -> ->. Qed.

Lemma read_headers_offset s r r' x : lan_read_headers s r = (r', x) -> 8 <= x /\ rs_data_len r' = rs_data_len r.
Proof. unfold lan_read_headers. repeat case_test; intros [= <- <-]; cbn; lia. Qed.

(** One more datagram. *)
Lemma wp_recv_enough fuel s0 s : on_from s0 s -> 1040 * Z.of_nat (length (l_net s)) <= 8 * Z.of_nat fuel ->
  wp lan_recv_packet s (fun got s' => on_from s0 s' /\ l_reqs s' = l_reqs s /\ (got = true -> lan_enough fuel s' got) /\
    (length (l_net s') <= length (l_net s))%nat).
Proof.
  intros Hs Hf. eapply wp_weaken; [by eapply wp_recv, on_from_self |].
  intros got s2 (Hs2 & Er & Hg2). pose proof (proj2 (proj2 Hs2)) as Hle. split_and!; [by etrans | done | | done].
  intros ->. destruct (Hg2 eq_refl) as [Hlt Hlen]. split; [done |]. unfold lan_rounds, IPMI_BUF_SIZE in *. lia.
Qed.

Lemma wp_loop fuel got x s0 s : on_from s0 s -> lan_enough fuel s got ->
  wp (lan_poll_loop fuel got x) s (fun _ s' => on_from s0 s').
Proof.
  revert got x s. induction fuel as [| fuel IH]; intros got x s Hs [Hg Hf]; unfold lan_rounds in Hf.
  { exfalso. destruct got; [specialize (Hg eq_refl) |]; lia. }
  cbn [lan_poll_loop]. destruct got; cbn [negb]; [| by apply wp_ret]. specialize (Hg eq_refl).
  assert (forall s', on_from s0 s' -> l_net s' = l_net s ->
    wp lan_recv_packet s' (fun got s2 => on_from s0 s2 /\ l_reqs s2 = l_reqs s' /\ lan_enough fuel s2 got)) as Hrecv.
  { intros s' Hs' En. eapply wp_weaken; [apply (wp_recv_enough fuel s0 s'); [done | rewrite En; lia] |].
    intros got s2 (Hs2 & Er & Hg2 & Hle). split; [done |]. split; [done |]. rewrite En in Hle. destruct got; [by apply Hg2 |].
    split; [done |]. unfold lan_rounds. lia. }
  assert (forall x s', on_from s0 s' -> l_net s' = l_net s ->
    wp (got ← lan_recv_packet; lan_poll_loop fuel got x) s' (fun _ s' => on_from s0 s')) as Hnext.
  { intros x' s' Hs' En. apply wp_bind. eapply wp_weaken; [by apply Hrecv |].
    intros got s2 (Hs2 & _ & Hg2). by apply IH. }
  apply wp_bind, wp_gets. case_test; [by apply wp_ret |]. case_test; [by apply Hnext |].
  apply wp_bind, wp_get. destruct (lan_read_headers _ _) as [rsp x1] eqn:Eh.
  apply read_headers_offset in Eh as [Hx El]. apply wp_bind, wp_rsp. set (s1 := update _ s).
  assert (on_from s0 s1) as Hs1 by exact Hs.
  case_test; [by apply wp_ret |].
  apply wp_bind. eapply wp_lookup; [exact Hs1 |]. intros entry He.
  destruct entry as [e |]; [| by apply Hnext]. specialize (He e eq_refl).
  apply wp_bind. apply wp_deref; [done |]. intros nd.
  case_test; [| apply wp_bind; eapply wp_reqs; [exact Hs1 | auto with list_safe | by intros; apply wp_ret]].
  apply wp_bind. eapply wp_entry; [exact Hs1 | done |]. intros _ s4 Hs4 E5 E6 He4.
  assert (l_net s4 = l_net s) as En by (rewrite E6; done).
  assert (rs_data_len (l_rsp s4) = rs_data_len (l_rsp s)) as Elen by (rewrite E5; exact El).
  case_test.
  - apply wp_bind. apply (wp_weaken _ _ (fun got s5 => on_from s0 s5 /\ l_reqs s5 = l_reqs s4 /\ lan_enough fuel s5 got)).
    { case_test; [by apply Hrecv |]. apply wp_ret. split; [done |]. split; [done |]. split; [done |].
      unfold lan_rounds. rewrite En. lia. }
    intros got s5 (Hs5 & Er5 & Hg5). assert (live e s5) as He5 by (unfold live; by rewrite Er5).
    apply wp_bind. eapply wp_entry; [exact Hs5 | done |]. intros _ s6 Hs6 E7 E8 He6.
    apply (enough_frame _ _ s6) in Hg5; [| done ..]. apply wp_bind.
    apply (wp_weaken _ _ (fun _ s7 => on_from s0 s7 /\ lan_enough fuel s7 got)); [| intros _ s7 []; by apply IH].
    case_test; [| by apply wp_ret].
    apply wp_bind, wp_deref; [done |]. intros nd2.
    eapply wp_reqs; [exact Hs6 | auto with list_safe |]. intros _ s8 Hs8 E11 E12. split; [done |].
    eapply enough_frame; [| | exact Hg5]; congruence.
  - apply wp_bind. eapply wp_weaken; [by apply (wp_unwrap e x1 s0 s4); [| | lia] |].
    intros _ s5 (Hs5 & E7 & E8 & Hlt). apply IH; [done |]. unfold lan_enough, lan_rounds.
    rewrite E7, E8, En, Elen in *. split; [intros _ |]; lia.
Qed.

Lemma wp_shift x s0 s : on_from s0 s -> wp (lan_shift x) s (fun _ s' => on_from s0 s').
Proof.
  intros Hs. unfold lan_shift. apply wp_bind, wp_gets. case_test; [by apply wp_ret |].
  apply wp_bind, wp_lift; [by case_test |]. intros d _. apply wp_bind, wp_lift; [apply plain_oob |].
  intros d' _. by apply wp_rsp.
Qed.

(** A response takes at least one datagram. *)
Lemma wp_poll s0 s : on_from s0 s -> wp lan_poll_recv s (fun got s' => on_from s0 s' /\
  (got = true -> (length (l_net s') < length (l_net s))%nat)).
Proof.
  intros Hs. unfold lan_poll_recv. apply wp_bind. eapply wp_weaken; [by eapply wp_recv |].
  intros got s1 (Hs1 & _ & Hg). apply wp_bind, wp_get. apply wp_bind. destruct got.
  2: { unfold lan_poll_fuel. cbn [Nat.mul Nat.add lan_poll_loop negb]. apply wp_ret.
       apply wp_bind, wp_ret, wp_ret. by split. }
  destruct (Hg eq_refl) as [Hlt Hlen]. eapply wp_weaken; [apply (wp_loop _ _ _ s1); [by eapply on_from_self |] |].
  { split; [done |]. unfold lan_rounds, lan_poll_fuel. unfold IPMI_BUF_SIZE in *. lia. }
  intros r s2 Hs2. assert (on_from s0 s2) as Hs02 by by etrans.
  assert (length (l_net s2) < length (l_net s))%nat as Hlt2 by (destruct Hs2 as (_ & _ & H); lia).
  destruct r as [b | b x]; [by apply wp_ret |]. apply wp_bind.
  apply (wp_weaken _ _ (fun _ s' => on_from s2 s')).
  - case_test; [eapply wp_shift, on_from_self; done | apply wp_ret; by eapply on_from_self].
  - intros _ s3 H3. apply wp_ret. split; [by etrans |]. destruct H3 as (_ & _ & H). lia.
Qed.

(** ** Sending *)

(** A step that changes neither the list, the retry count nor the scripts. *)
Lemma wp_modify f s0 s (Q : unit -> lp -> Prop) :
  (forall s, l_net (f s) = l_net s /\ l_reqs (f s) = l_reqs s /\ l_send (f s) = l_send s /\
    retry (ssn_params (l_intf (f s))) = retry (ssn_params (l_intf s))) ->
  on_from s0 s -> (forall s', on_from s0 s' -> Q tt s') -> wp (modify f) s Q.
Proof.
  intros Hf ((E1 & L & Hl) & E2 & E3) HQ. apply HQ. destruct (Hf s) as (F1 & F2 & F3 & F4).
  unfold on_from, ok. rewrite F1, F2, F3, F4. by split_and!.
Qed.

Section Sending.
Context `{mem : Malloc}.

Lemma wp_entry_for req seq s0 s : on_from s0 s -> wp (lan_entry req seq) s (fun entry s' => on_from s0 s' /\
  forall e, entry = Some e -> live e s').
Proof.
  intros Hs. unfold lan_entry. apply wp_bind. eapply wp_lookup; [exact Hs |].
  intros entry He. destruct entry as [e |].
  - apply wp_bind. eapply wp_entry; [exact Hs | by apply He |]. intros _ s2 Hs2 _ _ He2. apply wp_ret.
    split; [done |]. by intros ? [= <-].
  - eapply wp_add; [exact Hs |]. by split.
Qed.

Lemma wp_build req b s0 s : on_from s0 s -> wp (ipmi_lan_build_cmd req b) s (fun entry s' => on_from s0 s' /\
  forall e, entry = Some e -> live e s').
Proof.
  intros Hs. unfold ipmi_lan_build_cmd. apply wp_bind, wp_get. apply wp_bind.
  eapply wp_modify; [done | exact Hs |]. intros s1 Hs1. apply wp_bind.
  eapply wp_weaken; [by apply wp_entry_for |]. intros entry s2 [Hs2 He].
  destruct entry as [e |]; [| by apply wp_ret]. specialize (He e eq_refl). destruct (malloc _); [| by apply wp_ret].
  apply wp_bind. eapply wp_entry; [exact Hs2 | done |]. intros _ s3 Hs3 _ _ He3.
  apply wp_bind, wp_lift; [apply plain_lan_packet |]. intros msg _.
  apply wp_bind, wp_lift; [apply plain_oob |]. intros buf _. apply wp_bind.
  change (wp (session_set lan_next_in_seq) s3 ?Q) with (Q tt (s3 <| l_session := lan_next_in_seq (l_session s3) |>)).
  apply wp_bind. eapply (wp_entry _ _ s0); [exact Hs3 | exact He3 |]. intros _ s5 Hs5 _ _ He5. apply wp_ret.
  split; [done |]. by intros ? [= <-].
Qed.

(** The sends that may fail, when sends do not fail for ever. *)
Definition failing (s : lp) : nat := length (s_next (l_send s)).

(** A send takes one of them when it fails. *)
Definition sent_from (s0 : lp) (sent : bool) (s : lp) : Prop :=
  ok (setting_of s0 false) s /\ (length (l_net s) <= length (l_net s0))%nat /\
  (failing s <= failing s0)%nat /\ (sent = false -> s_later (l_send s0) = true -> (failing s < failing s0)%nat).

Lemma wp_send d s0 s : on_from s0 s -> wp (ipmi_lan_send_packet d) s (fun b s' => sent_from s0 b s').
Proof.
  intros (H1 & H2 & H3). unfold ipmi_lan_send_packet, wp, sent_from, failing, ok. rewrite <- H2.
  destruct H1 as (E1 & E2 & E3). cbn in E1, E2. rewrite <- H2 in E2.
  destruct (s_next (l_send s)) as [| b l] eqn:E; cbn; rewrite ?E; cbn; split_and!; try done; intros; first [lia | congruence].
Qed.

Lemma on_sent s0 b s1 s2 : sent_from s0 b s1 -> on_from s1 s2 -> sent_from s0 b s2.
Proof.
  intros ((E & E' & L) & H1 & H2 & H3) ((F & F' & M) & G2 & G3). unfold sent_from, failing in *. rewrite G2.
  split_and!; try done; [split_and!; cbn in *; congruence || done | lia].
Qed.

Lemma sent_sent s0 b s1 b' s2 : sent_from s0 b s1 -> sent_from s1 b' s2 -> sent_from s0 b s2.
Proof.
  intros ((E & E' & L) & H1 & H2 & H3) ((F & F' & M) & G1 & G2 & _).
  split_and!; [split_and!; cbn in *; congruence || done | lia | lia | intros Hb Hl; specialize (H3 Hb Hl); lia].
Qed.

Lemma sent_self s0 b s1 : sent_from s0 b s1 -> on_from s1 s1.
Proof. intros ((_ & _ & L) & _). by apply on_from_refl. Qed.

(** Whether sends succeed in the long run does not change. *)
Lemma sent_later s b s' : sent_from s b s' -> s_later (l_send s) = true -> s_later (l_send s') = true.
Proof. intros ((_ & E & _) & _) H. by rewrite E. Qed.
Lemma on_later s s' : on_from s s' -> s_later (l_send s) = true -> s_later (l_send s') = true.
Proof. intros ((_ & E & _) & _) H. by rewrite E. Qed.

(** What follows a successful send: the thump and the answers. *)
Lemma wp_answer {A} (thump : bool) (k : bool -> M lp A) Q s0 s : sent_from s0 true s ->
  (forall got s', sent_from s0 true s' -> wp (k got) s' Q) -> wp (
    _ ← (if thump then ipmi_lan_thump else mret tt);
    got ← lan_poll_recv;
    rsp ← the_rsp got;
    got ← (if match rsp with Some r => ccode r =? 0xcf | None => false end then lan_poll_recv else mret got);
    k got) s Q.
Proof.
  intros Hs Hk. apply wp_bind, (wp_weaken _ _ (fun _ s' => sent_from s0 true s')).
  { destruct thump; [| by apply wp_ret]. unfold ipmi_lan_thump. apply wp_bind.
    eapply wp_weaken; [by eapply wp_send, sent_self |]. intros b s1 Hs1. apply wp_ret. by eapply sent_sent. }
  intros _ s1 Hs1. apply wp_bind. eapply wp_weaken; [by eapply wp_poll, sent_self |]. intros got s2 [Hs2 _].
  pose proof (on_sent _ _ _ _ Hs1 Hs2) as Hs2'.
  apply wp_bind. apply (wp_weaken _ _ (fun _ s' => s' = s2)); [by destruct got |]. intros rsp s3 ->.
  apply wp_bind. destruct (match rsp with Some r => _ | None => _ end); [| by apply wp_ret, Hk].
  eapply wp_weaken; [by eapply wp_poll, sent_self |]. intros got' s4 [Hs4 _]. eapply Hk, on_sent; done.
Qed.

Lemma ok_setting R s : ok R s -> c_dangling R = false -> R = setting_of s false.
Proof. destruct R. intros (E1 & E2 & _) Hd. cbn in *. by rewrite <- E1, <- E2, Hd. Qed.

Lemma wp_send_loop R fuel req try s : ok R s -> c_dangling R = false -> c_later R = true ->
  (failing s + Z.to_nat (c_retry R - try) < fuel)%nat ->
  wp (lan_send_loop fuel req try) s (fun _ s' => ok R s' /\ (length (l_net s') <= length (l_net s))%nat).
Proof.
  intros Hok Hd Hlater. revert try s Hok. induction fuel as [| fuel IH]; intros try s Hok Hf; [lia |].
  cbn [lan_send_loop]. pose proof (on_from_refl s (proj2 (proj2 Hok))) as Hs.
  pose proof (ok_setting _ _ Hok Hd) as HR. assert (s_later (l_send s) = true) as Hl by (by rewrite HR in Hlater).
  assert (forall s' b, sent_from s b s' -> (failing s' + Z.to_nat (c_retry R - (try + 1)) < fuel)%nat ->
    wp (lan_send_loop fuel req (try + 1)) s' (fun _ s' => ok R s' /\ (length (l_net s') <= length (l_net s))%nat)) as Hnext.
  { intros s' b (H1 & H2 & _) Hlt. rewrite <- HR in H1. eapply wp_weaken; [by apply IH |].
    intros r s2 [H3 H4]. split; [done | lia]. }
  apply wp_bind. eapply wp_weaken; [by apply wp_build |]. intros entry s1 [Hs1 He].
  destruct entry as [e |]; [| apply wp_ret; rewrite HR; split; apply Hs1].
  apply wp_bind, wp_deref; [by apply He |]. intros nd.
  apply wp_bind. eapply wp_weaken; [by apply wp_send |]. intros sent s3 Hs3. destruct sent; cbn [negb].
  2: { apply wp_bind. eapply wp_reqs; [by eapply sent_self | auto with list_safe |]. intros _ s4 Hs4 _ _.
       pose proof (on_sent _ _ _ _ Hs3 Hs4) as H. apply (Hnext _ _ H). destruct H as (_ & _ & _ & H).
       specialize (H eq_refl Hl). lia. }
  apply wp_bind, wp_gets. assert (c_retry R = retry (ssn_params (l_intf s3))) as HR3 by (rewrite HR; symmetry; apply Hs3).
  case_test; [apply wp_ret; rewrite HR; split; apply Hs3 |].
  eapply wp_answer; [exact Hs3 |]. intros got s4 Hs4.
  assert (ok R s4 /\ (length (l_net s4) <= length (l_net s))%nat) as Hend by (rewrite HR; split; apply Hs4).
  case_test; [by apply wp_ret |]. rewrite <- HR3. case_test; [by apply wp_ret |].
  apply (Hnext _ _ Hs4). destruct Hs4 as (_ & _ & H & _). lia.
Qed.

Lemma lan_send_safe {R} req n : c_later R = true -> safe R (lan_send_cmd_opened req) n (any n).
Proof.
  intros Hlater s Hs Hn. pose (R' := mk_setting (c_retry R) (c_later R) false).
  assert (wp (lan_send_cmd_opened req) s (fun _ s' => ok R' s' /\ (length (l_net s') <= n)%nat)) as H.
  { unfold lan_send_cmd_opened.
    apply wp_bind, wp_get, wp_bind. eapply wp_weaken; [apply (wp_send_loop R'); [exact Hs | done | exact Hlater |] |].
    { unfold lan_send_fuel, failing. destruct Hs as [-> _]. cbn. lia. }
    intros r s1 [Hs1 Hle]. rewrite Hn in Hle. destruct r as [got |]; [| by apply wp_ret].
    apply wp_bind. eapply (wp_reqs _ s1); [apply on_from_refl, Hs1 | auto with list_safe |].
    intros _ s2 (Hs2 & _ & Hle2) _ _. apply wp_ret. split; [| lia].
    rewrite (ok_setting _ _ Hs1 eq_refl). exact Hs2. }
  unfold wp in H. destruct (lan_send_cmd_opened req s) as [[a s'] | e]; [exact H | by apply stops_more].
Qed.

(** ** Serial over LAN *)

(** A receiver of SOL packets: a response takes a datagram. *)
Definition sol_post (s0 : lp) (got : bool) (s : lp) : Prop :=
  sent_from s0 true s /\ (got = true -> (length (l_net s) < length (l_net s0))%nat).

Definition lan_receives (recv : M lp bool) : Prop := forall s,
  s_later (l_send s) = true -> on_from s s -> wp recv s (sol_post s).

Lemma sent_refl s : on_from s s -> sent_from s true s.
Proof. intros [H _]. by split_and!. Qed.

Lemma wp_sol_loop recv out msg R fuel try s : lan_receives recv -> ok R s -> c_dangling R = false ->
  c_later R = true -> (failing s + Z.to_nat (c_retry R - try) < fuel)%nat -> wp (lan_sol_loop fuel recv out msg try) s (sol_post s).
Proof.
  intros Hrecv Hok Hd Hlater. revert try s Hok. induction fuel as [| fuel IH]; intros try s Hok Hf; [lia |].
  cbn [lan_sol_loop]. pose proof (on_from_refl s (proj2 (proj2 Hok))) as Hs.
  pose proof (ok_setting _ _ Hok Hd) as HR. assert (s_later (l_send s) = true) as Hl by (by rewrite HR in Hlater).
  assert (forall s' b, sent_from s b s' -> (failing s' + Z.to_nat (c_retry R - (try + 1)) < fuel)%nat ->
    wp (lan_sol_loop fuel recv out msg (try + 1)) s' (sol_post s)) as Hnext.
  { intros s' b Hs' Hlt. eapply wp_weaken; [apply IH; [rewrite HR; apply Hs' | done] |].
    intros got s2 [H1 H2]. split; [eapply sent_sent; [| exact H1] |].
    - destruct Hs' as (G1 & G2 & G3 & _). by split_and!.
    - intros Hb. specialize (H2 Hb). destruct Hs' as (_ & G2 & _). lia. }
  apply wp_bind. eapply wp_weaken; [by apply wp_send |]. intros sent s1 Hs1. destruct sent; cbn [negb].
  2: { apply (Hnext _ _ Hs1). destruct Hs1 as (_ & _ & _ & H). specialize (H eq_refl Hl). lia. }
  apply wp_bind, wp_gets. assert (c_retry R = retry (ssn_params (l_intf s1))) as HR1 by (rewrite HR; symmetry; apply Hs1).
  case_test; [by apply wp_ret |]. case_test; [by apply wp_ret |].
  apply wp_bind. eapply wp_weaken; [apply Hrecv; [by eapply sent_later | by eapply sent_self] |]. intros got s2 [Hs2 Hg].
  assert (sol_post s got s2) as Hpost.
  { split; [by eapply sent_sent |]. intros Hb. specialize (Hg Hb). destruct Hs1 as (_ & H & _). lia. }
  apply wp_bind. apply (wp_weaken _ _ (fun _ s' => s' = s2)); [by destruct got |]. intros rsp s3 ->.
  case_test; [by apply wp_ret |].
  apply wp_bind, wp_gets, wp_bind. apply (wp_weaken _ _ (fun _ s' => on_from s2 s')).
  { assert (on_from s2 s2) by (by eapply sent_self). case_test; [eapply wp_modify; [| done |]; done | by apply wp_ret]. }
  intros _ s4 Hs4. rewrite <- HR1. case_test.
  - apply wp_ret. split; [by eapply on_sent; [apply Hpost |] |]. intros Hb. destruct Hpost as [_ H].
    specialize (H Hb). destruct Hs4 as (_ & _ & H'). lia.
  - apply (Hnext s4 true); [by eapply on_sent; [apply Hpost |] |].
    destruct Hs4 as (_ & E & _), Hpost as [(_ & _ & H & _) _]. unfold failing in *. rewrite E. lia.
Qed.

Lemma wp_send_sol recv out s : lan_receives recv -> s_later (l_send s) = true -> on_from s s -> wp (lan_send_sol_with recv out) s (sol_post s).
Proof.
  intros Hrecv Hlater Hs. unfold lan_send_sol_with. destruct (malloc _).
  2: { apply wp_ret. split; [by apply sent_refl | done]. }
  apply wp_bind, wp_gets, wp_bind, wp_lift; [apply plain_sol |]. intros msg _.
  apply wp_bind. eapply wp_modify; [done | exact Hs |]. intros s1 Hs1. apply wp_bind, wp_get.
  eapply wp_weaken; [eapply (wp_sol_loop _ _ _ (setting_of s false)); [done | apply Hs1 | done | done |] |].
  { unfold lan_send_fuel, failing. destruct (proj1 Hs1) as [-> _]. cbn. lia. }
  intros got s2 [H1 H2]. destruct Hs1 as (G1 & G2 & G3). split.
  - eapply sent_sent; [| exact H1]. split_and!; [done | lia | unfold failing; by rewrite G2 | done].
  - intros Hb. specialize (H2 Hb). lia.
Qed.

Lemma wp_data o n s0 s : on_from s0 s -> wp (shift_data o n) s (fun _ s' => on_from s0 s').
Proof.
  intros Hs. unfold shift_data. apply wp_bind, wp_gets. case_test; [done |].
  apply wp_bind, wp_lift; [apply plain_oob |]. intros d _. by apply wp_rsp.
Qed.

Lemma wp_check got s0 s : on_from s0 s -> wp (lan_check_sol_packet got) s (fun _ s' => on_from s0 s').
Proof.
  intros Hs. unfold lan_check_sol_packet. apply wp_bind.
  apply (wp_weaken _ _ (fun _ s' => s' = s)); [by destruct got |]. intros rsp s1 ->.
  case_test; [by apply wp_ret |]. apply wp_bind, wp_gets.
  apply wp_bind, wp_get, wp_bind.
  apply (wp_weaken _ _ (fun _ s' => on_from s0 s')).
  - case_test; [| by apply wp_ret]. apply wp_bind. apply (wp_weaken _ _ (fun _ s' => on_from s0 s')).
    + case_test; [by apply wp_data | by apply wp_rsp].
    + intros _ s2 H. by apply wp_ret.
  - intros k s2 Hs2. apply wp_bind. apply (wp_weaken _ _ (fun _ s' => on_from s0 s')).
    + case_test; [eapply wp_modify; [| exact Hs2 |]; done | by apply wp_ret].
    + intros _ s3 Hs3. by apply wp_ret.
Qed.

Lemma wp_ack got s : s_later (l_send s) = true -> on_from s s ->
  wp (lan_ack_sol_packet got) s (fun _ s' => sent_from s true s').
Proof.
  intros Hlater Hs. unfold lan_ack_sol_packet. apply wp_bind.
  apply (wp_weaken _ _ (fun _ s' => s' = s)); [by destruct got |]. intros rsp s1 ->.
  pose proof (sent_refl s Hs). case_test; [by apply wp_ret |]. apply wp_bind, wp_gets.
  cbv zeta. case_test; [by apply wp_ret |].
  destruct (payload _); try by apply wp_ret. apply wp_bind. eapply wp_weaken; [apply wp_send_sol; [| done | done] |].
  - intros s2 _ Hs2. apply wp_ret. split; [by apply sent_refl | done].
  - intros b s2 [H' _]. by apply wp_ret.
Qed.

Lemma wp_recv_sol : lan_receives ipmi_lan_recv_sol.
Proof.
  intros s Hlater Hs. unfold ipmi_lan_recv_sol. apply wp_bind. eapply wp_weaken; [by eapply wp_poll |].
  intros got s1 [Hs1 Hg]. apply wp_bind.
  eapply wp_weaken; [eapply wp_ack; [by eapply on_later | by eapply on_from_self] |].
  intros u2 s2 Hs2. cbv beta in Hs2. clear u2. apply wp_bind. eapply wp_weaken; [by eapply wp_check, sent_self |].
  intros u3 s3 Hs3. cbv beta in Hs3. clear u3.
  apply wp_ret. pose proof (on_sent _ _ _ _ Hs2 Hs3) as H.
  assert (sent_from s true s1) as H1 by (destruct Hs1 as (G1 & G2 & G3); split_and!; [done | lia | unfold failing; by rewrite G2 | done]).
  split; [by eapply sent_sent |]. intros Hb. specialize (Hg Hb). destruct H as (_ & H & _). lia.
Qed.

Lemma wp_resend fuel out got chars s : s_later (l_send s) = true -> on_from s s ->
  (length (l_net s) + Nat.b2n got < fuel)%nat -> (got = false -> chars = 0) ->
  wp (lan_resend_loop fuel out got chars) s (fun _ s' => sent_from s true s').
Proof.
  revert out got chars s. induction fuel as [| fuel IH]; intros out got chars s Hlater Hs Hf Hc; [lia |].
  pose proof (sent_refl s Hs) as Hrefl. cbn [lan_resend_loop]. case_test; [by apply wp_ret |].
  destruct got; [| bool_hyps; by specialize (Hc eq_refl)]. cbn [Nat.b2n] in Hf. apply wp_bind.
  change (wp (the_rsp true) s ?Q) with (Q (Some (l_rsp s)) s). cbv beta iota.
  apply wp_bind. apply (wp_weaken _ _ (fun _ s' => on_from s s')).
  { case_test; [eapply wp_modify; [| exact Hs |]; done | by apply wp_ret]. }
  intros _ s1 Hs1. apply wp_bind. apply (wp_weaken _ _ (fun _ s' => on_from s s')).
  { unfold set_sol_packet_sequence_number. apply wp_bind, wp_gets, wp_bind.
    eapply wp_modify; [| exact Hs1 |]; [done |]. intros s2 Hs2. by apply wp_ret. }
  intros o s2 Hs2. apply wp_bind, wp_lift; [apply plain_oob |]. intros data _. apply wp_bind.
  assert (s_later (l_send s2) = true) as Hlater2 by (by eapply on_later).
  eapply wp_weaken; [by eapply wp_send_sol, on_from_self; [apply wp_recv_sol | |] |]. intros got s3 [Hs3 Hg].
  apply wp_bind. set (out' := update _ _).
  apply (wp_weaken _ _ (fun rs s' => s' = s3 /\ (got = false -> lan_sol_partial_ack out' rs = 0))); [by destruct got |].
  intros rs s4 [-> Hrs].
  pose proof (proj2 (proj2 Hs2)) as Hle. pose proof (proj1 (proj2 Hs3)) as Hle3.
  eapply wp_weaken; [apply IH; [by eapply sent_later | by eapply sent_self | | done] |].
  { destruct got; cbn [Nat.b2n]; [specialize (Hg eq_refl) |]; lia. }
  intros b s5 Hs5. apply (sent_sent s true s2 true s5); [| by apply (sent_sent s2 true s3 true s5)].
  destruct Hs2 as (G1 & G2 & G3). split_and!; [done | lia | unfold failing; by rewrite G2 | done].
Qed.

Lemma wp_sol out s : s_later (l_send s) = true -> on_from s s ->
  wp (ipmi_lan_send_sol out) s (fun _ s' => sent_from s true s').
Proof.
  intros Hlater Hs. unfold ipmi_lan_send_sol. apply wp_bind. apply (wp_weaken _ _ (fun _ s' => on_from s s')).
  { unfold set_sol_packet_sequence_number. apply wp_bind, wp_gets, wp_bind.
    eapply wp_modify; [| exact Hs |]; [done |]. intros s2 Hs2. by apply wp_ret. }
  intros o s1 Hs1. apply wp_bind. assert (s_later (l_send s1) = true) as Hlater1 by (by eapply on_later).
  eapply wp_weaken; [apply wp_send_sol; [apply wp_recv_sol | done | by eapply on_from_self] |]. intros got s2 [Hs2 Hg].
  apply wp_bind. set (o' := update _ _).
  apply (wp_weaken _ _ (fun rs s' => s' = s2 /\ (got = false -> lan_sol_partial_ack o' rs = 0))); [by destruct got |].
  intros rs s3 [-> Hrs]. apply wp_bind, wp_get.
  eapply wp_weaken; [apply wp_resend; [by eapply sent_later | by eapply sent_self | | done] |].
  { unfold net_fuel. destruct got; cbn [Nat.b2n]; lia. }
  intros b s4 Hs4. apply (sent_sent s true s1 true s4); [| by apply (sent_sent s1 true s2 true s4)].
  destruct Hs1 as (G1 & G2 & G3). split_and!; [done | lia | unfold failing; by rewrite G2 | done].
Qed.
End Sending.

(** ** Session commands *)

Section Sessions.
Context `{mem : Malloc} {R : setting} (Hlater : c_later R = true).

Lemma lan_sends : sends (R := R) lan_sendrecv.
Proof.
  intros req n Q H. unfold lan_sendrecv. apply safe_bind. eapply safe_weaken; [by apply lan_send_safe |].
  intros got n1 H1. unfold any in H1. apply safe_the_rsp; intros; by apply H.
Qed.

Lemma safe_lan_command cmd data n (Q : option (list Z) -> nat -> Prop) :
  (forall r n', (n' <= n)%nat -> Q r n') -> safe R (lan_command cmd data) n Q.
Proof.
  intros H. unfold lan_command. apply safe_bind, lan_sends. intros r n1 H1. safe_step. by apply H.
Qed.

Lemma safe_lan_set f n : (forall i, retry (ssn_params (f i)) = retry (ssn_params i)) ->
  safe R (lan_set_intf f) n (any n).
Proof using. clear Hlater. intros H. apply safe_modify; [| unfold any; lia]. intros s. split_and!; try done. apply H. Qed.

Lemma safe_lan_ping n : safe R ipmi_lan_ping n (any n).
Proof.
  unfold ipmi_lan_ping. destruct (malloc _); [| ret]. apply safe_bind, safe_send. intros ok. safe_step; [ret |].
  intros s Hs Hn. pose proof (wp_poll s s (on_from_refl s (proj2 (proj2 Hs)))) as Hp.
  unfold wp in Hp. unfold mbind, M_bind. destruct (lan_poll_recv s) as [[b s'] | e]; [| by apply stops_more].
  destruct Hp as [(H1 & H2 & H3) _]. cbn. unfold any. split; [| lia]. destruct Hs as (E & E' & _), H1 as (F & F' & L).
  split_and!; [cbn in *; congruence .. | done].
Qed.

Lemma safe_lan_caps n : safe R lan_get_auth_capabilities_cmd n (any n).
Proof.
  unfold lan_get_auth_capabilities_cmd. apply safe_bind. safe_step. apply safe_bind, safe_lan_command.
  intros r n1 H1. destruct r as [d |]; [| ret]. apply safe_bind. safe_step.
  destruct (lan_choose_authtype _ _ _); [apply safe_bind; safe_step; ret | ret].
Qed.

Lemma safe_lan_challenge n : safe R lan_get_session_challenge_cmd n (any n).
Proof.
  unfold lan_get_session_challenge_cmd. do 2 (apply safe_bind; safe_step). apply safe_bind, safe_lan_command.
  intros r n1 H1. destruct r as [d |]; [apply safe_bind; safe_step; ret | ret].
Qed.

Lemma safe_lan_activate n : safe R lan_activate_session_cmd n (any n).
Proof.
  unfold lan_activate_session_cmd. do 2 (apply safe_bind; safe_step). apply safe_bind.
  eapply (safe_weaken _ _ (fun _ n' => n' = n)); [repeat (safe_step || apply safe_bind); done |].
  intros ch n' ->. apply safe_bind. unfold lan_random. apply safe_bind, safe_rand. intros r. safe_step.
  apply safe_bind. safe_step. apply safe_bind, lan_sends. intros rsp n1 H1.
  repeat (safe_step || apply safe_bind); exact H1.
Qed.

Lemma safe_lan_close_cmd n : safe R lan_close_session_cmd n (any n).
Proof.
  unfold lan_close_session_cmd. apply safe_bind. safe_step. safe_step; [ret |].
  apply safe_seq; [done | by apply safe_lan_set |]. intros _ n1 H1.
  apply safe_seq; [done | apply safe_modify; [done | unfold any; lia] |]. intros _ n2 H2.
  apply safe_bind, safe_lan_command. intros r n3 H3. ret.
Qed.

Lemma safe_lan_privlvl n : safe R lan_set_session_privlvl_cmd n (any n).
Proof.
  unfold lan_set_session_privlvl_cmd. apply safe_bind. safe_step. safe_step; [ret |].
  apply safe_seq; [done | apply safe_modify; [done | unfold any; lia] |]. intros _ n1 H1.
  apply safe_bind, safe_lan_command. intros r n2 H2.
  apply safe_seq; [lia | apply safe_modify; [done | unfold any; lia] |]. intros _ n3 H3. ret.
Qed.

Lemma safe_lan_activate_session n : safe R ipmi_lan_activate_session n (any n).
Proof.
  unfold ipmi_lan_activate_session. apply safe_bind. safe_step.
  apply safe_seq; [done | case_test; [apply safe_lan_ping | ret] |]. intros _ n1 Hn1.
  apply safe_seq; [done | case_test; [| ret] |].
  { unfold ipmi_lan_thump_first. apply safe_bind, safe_send. intros b. ret. }
  intros _ n2 Hn2. apply safe_seq; [done | apply safe_lan_caps |]. intros rc n3 Hn3. safe_step; [ret |].
  apply safe_seq; [done | apply safe_lan_challenge |]. intros rc2 n4 Hn4. safe_step; [ret |].
  apply safe_seq; [done | apply safe_lan_activate |]. intros rc3 n5 Hn5. safe_step; [ret |].
  apply safe_seq; [done | by apply safe_lan_set |]. intros _ n6 Hn6.
  apply safe_seq; [done | apply safe_lan_privlvl |]. intros rc4 n7 Hn7. safe_step; [| ret].
  apply safe_seq; [done | apply safe_lan_close_cmd |]. intros _ n8 Hn8. ret.
Qed.

Lemma safe_lan_close n : safe R ipmi_lan_close n (any n).
Proof.
  unfold ipmi_lan_close. apply safe_bind. safe_step. apply safe_seq; [done | case_test; [| ret] |].
  { apply safe_seq; [done | apply safe_lan_close_cmd |]. intros _ n1 Hn1. ret. }
  intros _ n1 Hn1. apply safe_seq; [done | apply safe_reqs; [auto with list_safe | unfold any; lia] |].
  intros _ n2 Hn2. apply safe_modify; [done | unfold any; lia].
Qed.

Lemma safe_lan_open_fail n : safe R lan_open_fail n (any n).
Proof. unfold lan_open_fail. apply safe_seq; [done | apply safe_lan_close |]. intros _ n1 Hn1. ret. Qed.

Lemma safe_lan_keepalive n : safe R ipmi_lan_keepalive n (any n).
Proof.
  unfold ipmi_lan_keepalive. apply safe_bind. safe_step. safe_step; [ret |].
  apply safe_bind, safe_lan_command. intros r n1 Hn1. ret.
Qed.
End Sessions.

Section Properties.
Context `{mem : Malloc}.

Lemma wp_ends {A} (m : M lp A) (Q : A -> lp -> Prop) s : (on_from s s -> wp m s Q) ->
  (forall a s', Q a s' -> sent_from s true s') -> (exists l, Refine.rep (l_reqs s) l) -> ends false m s.
Proof.
  intros H HQ Hl. specialize (H (on_from_refl s Hl)). unfold wp, ends in *.
  destruct (m s) as [[a s'] | e]; [| done]. destruct (HQ _ _ H) as ((_ & _ & L) & Hn & _). done.
Qed.

Lemma lan_open_ends connected named fd sel_iana s : s_later (l_send s) = true ->
  (exists l, Refine.rep (l_reqs s) l) -> ends false (ipmi_lan_open connected named fd sel_iana) s.
Proof.
  intros Hlater Hl. unfold ipmi_lan_open. eapply ends_after; [reflexivity | done |].
  case_test; [by split; [| cbn; lia] |]. cbv zeta. eapply ends_after; [reflexivity | done |].
  match goal with |- ends _ _ ?s1 => apply (safe_ends _ _ s1 (any (length (l_net s1)))) end; [| done | exact Hl].
  match goal with |- safe ?r _ _ _ => assert (c_later r = true) as Hr by done; generalize dependent r end.
  cbn [l_net]. intros R Hr.
  apply safe_if; intros _; [ret |]. destruct (malloc 512); [| by apply safe_lan_open_fail].
  apply safe_seq; [done | repeat safe_step; unfold any; lia |]. intros _ n1 H1.
  apply safe_if; intros _; [by apply safe_le; [| apply safe_lan_open_fail] |].
  apply safe_seq; [done | by apply safe_lan_activate_session |]. intros rc n2 H2.
  apply safe_if; intros _; [by apply safe_le; [| apply safe_lan_open_fail] |].
  apply safe_seq; [done | apply safe_hpm2; [by apply lan_sends | |] |].
  { intros z k. apply safe_lan_set. intros i. unfold lan_set_max_request. by case_test. }
  { intros z k. apply safe_lan_set. intros i. unfold lan_set_max_response. by case_test. }
  intros _ n3 H3. apply safe_bind. safe_step. apply safe_seq; [done | by apply safe_get_oem, lan_sends |].
  intros id n4 H4. apply safe_seq; [done | by apply safe_lan_set |]. intros _ n5 H5.
  apply safe_seq; [done | by apply safe_modify; [| unfold any] |]. intros _ n6 H6. ret.
Qed.

(** *** A link that fails for good *)

(** [m] keeps the link of [s]. *)
Definition keeps_send {A} (m : M lp A) : Prop := forall s a s', m s = Ok (a, s') -> l_send s' = l_send s.

Lemma keeps_send_bind {A B} (m : M lp A) (f : A -> M lp B) :
  keeps_send m -> (forall a, keeps_send (f a)) -> keeps_send (m ≫= f).
Proof. intros Hm Hf s b s' H. apply M_bind_Ok in H as (a & s1 & H1 & H). rewrite (Hf _ _ _ _ H). by eapply Hm. Qed.

Lemma keeps_send_reqs {A} (m : M Ptr.hst A) : keeps_send (on_reqs m).
Proof. intros s a s' H. unfold on_reqs in H. destruct (m (l_reqs s)) as [[] |]; by simplify_eq. Qed.

Lemma keeps_send_lift {A} (r : res A) : keeps_send (lift r).
Proof. intros s a s' H. unfold lift in H. destruct r; by simplify_eq. Qed.

Ltac link := repeat first
  [ apply keeps_send_bind; [| intros] | apply keeps_send_reqs | apply keeps_send_lift
  | case_test | by intros ? ? ? [= <- <-] | match goal with |- keeps_send (match ?x with _ => _ end) => destruct x end ].

Lemma build_keeps_send req b : keeps_send (ipmi_lan_build_cmd req b).
Proof. unfold ipmi_lan_build_cmd, lan_entry, add_entry, set_entry. link. Qed.

(** The requests are built and sent for ever. *)
Lemma send_loop_dead fuel req try s o s' : l_send s = none_sent ->
  lan_send_loop fuel req try s = Ok (o, s') -> o = None.
Proof.
  revert try s. induction fuel as [| fuel IH]; intros try s Hs H; [done |]. cbn [lan_send_loop] in H.
  apply M_bind_Ok in H as (entry & s1 & H1 & H). apply build_keeps_send in H1. rewrite Hs in H1.
  destruct entry as [e |]; [| by injection H as <-].
  apply M_bind_Ok in H as (nd & s2 & H2 & H). apply keeps_send_reqs in H2. rewrite H1 in H2.
  apply M_bind_Ok in H as (sent & s3 & H3 & H). unfold ipmi_lan_send_packet in H3. rewrite H2 in H3. cbn in H3.
  injection H3 as <- <-. cbn [negb] in H. apply M_bind_Ok in H as (u & s4 & H4 & H).
  apply keeps_send_reqs in H4. by apply (IH _ s4) in H.
Qed.

Lemma build_some req b s s' : (forall n, is_Some (malloc n)) -> ipmi_lan_build_cmd req b s <> Ok (None, s').
Proof.
  intros Hm H. unfold ipmi_lan_build_cmd in H. apply M_bind_Ok in H as (s1 & s2 & H1 & H).
  apply M_bind_Ok in H as (u & s3 & H2 & H). apply M_bind_Ok in H as (entry & s4 & H3 & H).
  assert (is_Some entry) as [e ->].
  { unfold lan_entry in H3. apply M_bind_Ok in H3 as (en & s5 & _ & H3). destruct en as [e |].
    - apply M_bind_Ok in H3 as (u' & s6 & _ & H3). injection H3 as <- _. by eexists.
    - unfold add_entry, on_reqs in H3. rewrite bool_decide_eq_true_2 in H3 by done.
      destruct (Ptr.ipmi_req_add_entry _ _ _ _) as [[o h] |] eqn:E; [| done]. injection H3 as <- _.
      unfold Ptr.ipmi_req_add_entry in E. cbn [negb] in E.
      repeat (apply M_bind_Ok in E as (? & ? & _ & E)). injection E as <- _. by eexists. }
  destruct (Hm (lan_buffer_size (addr (l_intf s1)) (l_session s1) req)) as [buf Hbuf]. cbv zeta in H. rewrite Hbuf in H.
  repeat (apply M_bind_Ok in H as (? & ? & _ & H)). done.
Qed.

Lemma send_loop_none fuel req try s s' : (forall n, is_Some (malloc n)) ->
  lan_send_loop fuel req try s <> Ok (None, s').
Proof.
  intros Hm. revert try s. induction fuel as [| fuel IH]; intros try s H; [done |]. cbn [lan_send_loop] in H.
  apply M_bind_Ok in H as (entry & s1 & H1 & H). destruct entry as [e |]; [| by apply build_some in H1].
  apply M_bind_Ok in H as (nd & s2 & _ & H). apply M_bind_Ok in H as (sent & s3 & _ & H). destruct sent; cbn [negb] in H.
  2: { apply M_bind_Ok in H as (u & s4 & _ & H). by apply IH in H. }
  apply M_bind_Ok in H as (i & s4 & _ & H). destruct (noanswer i); [done |].
  do 4 apply M_bind_Ok in H as (? & ? & _ & H).
  repeat match type of H with (if ?b then _ else _) _ = _ => destruct b end; [done | done | by apply IH in H].
Qed.

End Properties.

