(* ===== verification/LanplusState.v ===== *)
(** * The session state machine of RMCP+ (src/plugins/lanplus/lanplus.c)

    What the transport leaves alone ([keeps]), how a sent payload moves the
    session state ([sends]), and what the three exchanges of the session
    set-up establish. *)

From S2P Require Import Prelude Wire Ipmi Ipmb Intf Session Crypt LanplusMsg ReqList Lanplus.
From S2P Require Import LanplusSession.

#[local] Open Scope Z_scope.

(** ** Frames: interface and session parameters *)

Definition frame (s s' : lp) : Prop :=
  l_intf s' = l_intf s /\ v2_data (l_session s') = v2_data (l_session s).

#[export] Instance frame_preorder : PreOrder frame.
Proof. split; [by intros s | intros s1 s2 s3 [H1 H2] [H3 H4]; split; congruence]. Qed.

Definition keeps {A} (m : M lp A) : Prop := forall s a s', m s = Ok (a, s') -> frame s s'.

Lemma keeps_bind {A B} (m : M lp A) (f : A -> M lp B) :
  keeps m -> (forall a, keeps (f a)) -> keeps (m ≫= f).
Proof. intros Hm Hf s b s' H. inv_ok. etrans; [by eapply Hm | by eapply Hf]. Qed.

Lemma keeps_ret {A} (a : A) : keeps (mret a).
Proof. intros s b s' H. by inv_ok. Qed.

Lemma keeps_fail {A} e : keeps (fail (A := A) e).
Proof. intros s b s' H. discriminate H. Qed.

Lemma keeps_assert b : keeps (c_assert b).
Proof. destruct b; [apply keeps_ret | apply keeps_fail]. Qed.

Lemma keeps_gets {A} (f : lp -> A) : keeps (gets f).
Proof. intros s b s' H. unfold gets in H. by inv_ok. Qed.

Lemma keeps_get : keeps get.
Proof. intros s b s' H. unfold get in H. by inv_ok. Qed.

Lemma keeps_modify f : (forall s, frame s (f s)) -> keeps (modify f).
Proof. intros Hf s b s' H. unfold modify in H. inv_ok. apply Hf. Qed.

Lemma keeps_lift {A} (r : res A) : keeps (lift r).
Proof. intros s b s' H. unfold lift in H. destruct r; by inv_ok. Qed.

Lemma keeps_on_reqs {A} (m : M Ptr.hst A) : keeps (on_reqs m).
Proof. intros s b s' H. unfold on_reqs in H. destruct (m (l_reqs s)) as [[a h] | e]; by inv_ok. Qed.

(** A primitive of the monad that returned. *)
Ltac ret_in H :=
  unfold session_gets, session_set, rsp_set, rsp_gets, the_rsp, set_bridge, set_intf, get, gets, modify,
    mret, M_ret in H; injection H; clear H; intros; subst.
Tactic Notation "bind" hyp(H) "as" ident(x) ident(s) ident(H1) :=
  apply M_bind_Ok in H as (x & s & H1 & H).

Create HintDb keeps discriminated.

Ltac keep_step :=
  lazymatch goal with
  | |- keeps (_ ≫= _) => apply keeps_bind; [| intros]
  | |- keeps (mret _) => apply keeps_ret
  | |- keeps (fail _) => apply keeps_fail
  | |- keeps (c_assert _) => apply keeps_assert
  | |- keeps get => apply keeps_get
  | |- keeps (gets _) => apply keeps_gets
  | |- keeps (rsp_gets _) => apply keeps_gets
  | |- keeps (session_gets _) => apply keeps_gets
  | |- keeps (the_rsp _) => apply keeps_gets
  | |- keeps (modify _) => apply keeps_modify; done
  | |- keeps (rsp_set _) => apply keeps_modify; done
  | |- keeps (set_bridge _) => apply keeps_modify; done
  | |- keeps (set_intf (fun i => i <| abort := _ |>)) => apply keeps_modify; done
  | |- keeps sol_input_handler => apply keeps_modify; done
  | |- keeps (lift _) => apply keeps_lift
  | |- keeps (on_reqs _) => apply keeps_on_reqs
  | |- keeps (if ?b then _ else _) => destruct b
  | |- keeps (let '(_, _) := ?x in _) => destruct x
  | |- keeps (match ?x with _ => _ end) => destruct x
  | _ => solve [auto with keeps]
  end.
Ltac keep := cbv zeta; repeat (keep_step; cbv zeta).

Section Frames.
Context `{ssl : OpenSSL} `{mem : Malloc}.

Lemma keeps_time : keeps time_now.
Proof. intros s b s' H. unfold time_now in H. destruct (l_clock s); by inv_ok. Qed.

Lemma keeps_rand : keeps lanplus_rand.
Proof. intros s b s' H. unfold lanplus_rand in H. destruct (l_rand s); by inv_ok. Qed.

Lemma keeps_send d : keeps (ipmi_lan_send_packet d).
Proof. intros s b s' H. unfold ipmi_lan_send_packet in H. destruct (s_next (l_send s)); by inv_ok. Qed.

Lemma keeps_event : keeps next_event.
Proof. intros s b s' H. unfold next_event in H. destruct (l_net s); by inv_ok. Qed.
#[local] Hint Resolve keeps_time keeps_rand keeps_send keeps_event : keeps.

Lemma keeps_recv : keeps ipmi_lan_recv_packet.
Proof. unfold ipmi_lan_recv_packet, store_packet. keep. Qed.

Lemma keeps_shift o n : keeps (shift_data o n).
Proof. unfold shift_data. keep. Qed.

Lemma keeps_set_entry e f : keeps (set_entry e f).
Proof. unfold set_entry. keep. Qed.

Lemma keeps_peel e : keeps (peel_bridge e).
Proof. unfold peel_bridge. keep. Qed.
#[local] Hint Resolve keeps_recv keeps_shift keeps_set_entry keeps_peel : keeps.

Lemma keeps_response_loop fuel : forall o st sz, keeps (ipmi_response_loop fuel o st sz).
Proof. induction fuel as [| fuel IH]; intros o st sz; cbn [ipmi_response_loop]; keep. Qed.
#[local] Hint Resolve keeps_response_loop : keeps.

Lemma keeps_poll_single : keeps ipmi_lan_poll_single.
Proof. unfold ipmi_lan_poll_single, poll_dispatch. keep. Qed.
#[local] Hint Resolve keeps_poll_single : keeps.

Lemma keeps_poll_loop fuel : keeps (poll_recv_loop fuel).
Proof. induction fuel as [| fuel IH]; cbn [poll_recv_loop]; keep. Qed.
#[local] Hint Resolve keeps_poll_loop : keeps.

Lemma keeps_poll : keeps ipmi_lan_poll_recv.
Proof. unfold ipmi_lan_poll_recv. keep. Qed.
#[local] Hint Resolve keeps_poll : keeps.

Lemma build_session_v2 intf bp p q rand s msg len s' :
  ipmi_lanplus_build_v2x_msg intf bp p q rand s = Ok (msg, len, s') -> v2_data s' = v2_data s.
Proof.
  unfold ipmi_lanplus_build_v2x_msg. intros H. case_match; [| by inv_ok].
  inv_ok. repeat (case_match; inv_ok); done.
Qed.

Lemma keeps_build p q : keeps (build_v2x_msg p q).
Proof.
  unfold build_v2x_msg. intros s0 r s' H. apply M_bind_Ok in H as (s1 & s1' & H1 & H).
  unfold get in H1. inv_ok. match goal with H : (if _ then _ else _) _ = _ |- _ => rename H into Hr end.
  assert (frame s1' s) as [Hi Hv] by (destruct (_ && _) in Hr; [by eapply keeps_rand | by inv_ok]).
  unfold lift in H1. destruct (ipmi_lanplus_build_v2x_msg _ _ _ _ _ _) as [[[msg len] session] | e] eqn:E in H1;
    [| done]. inv_ok. apply build_session_v2 in E. unfold session_set, modify in *. inv_ok. done.
Qed.
#[local] Hint Resolve keeps_build : keeps.

Lemma keeps_transmit p try entry : keeps (transmit p try entry).
Proof.
  unfold transmit, ipmi_lanplus_build_v15_ipmi_cmd, ipmi_lanplus_build_v2x_ipmi_cmd, add_entry. keep.
Qed.

Lemma keeps_skip fuel got : keeps (skip_duplicates fuel got).
Proof. revert got. induction fuel as [| fuel IH]; intros got; cbn [skip_duplicates]; keep. Qed.
#[local] Hint Resolve keeps_transmit keeps_skip : keeps.

Lemma keeps_await recv p entry : keeps recv -> keeps (await_response recv p entry).
Proof. intros Hr. unfold await_response. keep. Qed.

(** ** Sends: at most the session state changes *)

(** The session state after a payload was handed to the network. *)
Definition sends (p : ipmi_v2_payload) (s s' : lp) : Prop :=
  l_intf s' = l_intf s /\
  (v2_data (l_session s') = v2_data (l_session s) \/
   exists st, sent_state (payload p) = Some st /\
     v2_data (l_session s') = (v2_data (l_session s)) <| session_state := st |>).

Lemma frame_sends p s1 s2 : frame s1 s2 -> sends p s1 s2.
Proof. intros [H1 H2]. split; [done | by left]. Qed.

Lemma sends_trans p s1 s2 s3 : sends p s1 s2 -> sends p s2 s3 -> sends p s1 s3.
Proof.
  intros [H1 H2] [H3 H4]. split; [congruence |].
  destruct H2 as [H2 | (st & E & H2)], H4 as [H4 | (st' & E' & H4)]; rewrite H4, H2; eauto.
Qed.

Lemma transmit_payload p try entry s q entry' s' :
  transmit p try entry s = Ok (Some (q, entry'), s') ->
  payload q = payload p /\ may_send (session_state (v2_data (l_session s))) (payload p) = true.
Proof.
  unfold transmit. intros H. apply M_bind_Ok in H as (v & s1 & H1 & H).
  ret_in H1. apply M_bind_Ok in H as ([] & s2 & H1 & H).
  unfold c_assert in H1. destruct (may_send _ _) eqn:E in H1; [| done]. ret_in H1.
  apply M_bind_Ok in H as (built & s3 & H1 & H). split; [| exact E].
  assert (forall m q' e', built = Some (m, q', e') -> payload q' = payload p) as Hq.
  { intros m q' e' ->. destruct (payload p) in H1.
    1: { apply M_bind_Ok in H1 as (o & s4 & _ & H1). destruct o; inv_ok; congruence. }
    all: apply M_bind_Ok in H1 as ([[b |] n] & s4 & _ & H1); inv_ok; try done; congruence. }
  destruct built as [[[m q'] e'] |]; [| by inv_ok].
  apply M_bind_Ok in H as (ok & s4 & _ & H). destruct ok; inv_ok; [| done].
  by eapply Hq.
Qed.

Lemma send_loop_sends recv fuel : keeps recv -> forall p try xmit ltime entry rsp s r s',
  send_loop fuel recv p try xmit ltime entry rsp s = Ok (r, s') ->
  sends p s s' /\ (forall b q, r = Some (b, q) -> payload q = payload p).
Proof.
  intros Hrecv. induction fuel as [| fuel IH]; intros p try xmit ltime entry rsp s r s' H;
    cbn [send_loop] in H; [done |].
  apply M_bind_Ok in H as (intf & s1 & H1 & H). ret_in H1.
  destruct (negb _) in H; [inv_ok; split; [by apply frame_sends | by intros b q [= -> ->]] |].
  apply M_bind_Ok in H as (now & s2 & Hnow & H).
  assert (frame s1 s2) as F2 by (destruct xmit; [by eapply keeps_time | by inv_ok]). clear Hnow.
  apply M_bind_Ok in H as (sent & s3 & Hsent & H).
  assert (frame s2 s3) as F3 by (destruct xmit; [by eapply keeps_transmit | by inv_ok]).
  assert (frame s1 s3) as F13 by (by etrans). clear F2 F3.
  destruct sent as [[p' entry'] |]; [| inv_ok; split; [by apply frame_sends | done]].
  assert (payload p' = payload p) as Hp.
  { destruct xmit; [| by inv_ok]. by apply transmit_payload in Hsent as [? _]. }
  destruct (noanswer _) in H; [inv_ok; split; [by apply frame_sends | by intros b q [= -> ->]] |].
  apply M_bind_Ok in H as ([] & s4 & Hst & H).
  assert (sends p s1 s4) as S4.
  { apply (sends_trans p s1 s3 s4); [by apply frame_sends |]. rewrite Hp in Hst.
    destruct (sent_state (payload p)) as [st |] eqn:E.
    - unfold session_set, modify in Hst. inv_ok. split; [done |]. right. by exists st.
    - inv_ok. by apply frame_sends. }
  apply M_bind_Ok in H as (r' & s5 & Haw & H).
  assert (sends p s1 s5) as S5.
  { eapply sends_trans; [exact S4 |]. apply frame_sends. by eapply keeps_await. }
  destruct r' as [got | got]; [inv_ok; split; [done | by intros b q [= -> ->]] |].
  apply M_bind_Ok in H as (now' & s6 & Hnow & H). apply keeps_time in Hnow.
  apply M_bind_Ok in H as (tmo & s7 & H1 & H). ret_in H1.
  apply M_bind_Ok in H as ([] & s8 & H1 & H).
  assert (frame s7 s8) as F8.
  { destruct (_ <=? _) in H1; [unfold session_set, modify in H1; by inv_ok | by inv_ok]. }
  apply IH in H as [H Hq]. rewrite Hp in Hq. split; [| done].
  assert (sends p s8 s') as H' by (unfold sends in *; by rewrite Hp in H).
  eapply sends_trans; [exact S5 |]. eapply sends_trans; [apply frame_sends; by etrans | exact H'].
Qed.

Lemma send_with_sends recv p s got q s' : keeps recv ->
  send_payload_with recv p s = Ok ((got, q), s') -> sends p s s' /\ payload q = payload p.
Proof.
  intros Hr H. unfold send_payload_with in H.
  apply M_bind_Ok in H as (tmo & s1 & H1 & H). ret_in H1.
  apply M_bind_Ok in H as (rt & s1' & H1 & H). ret_in H1.
  apply M_bind_Ok in H as (r & s2 & H1 & H). apply send_loop_sends in H1 as [H1 Hq]; [| done].
  destruct r as [[b q'] |].
  - unfold session_set, modify in *. inv_ok. split; [| by eapply Hq].
    eapply sends_trans; [exact H1 | by apply frame_sends].
  - inv_ok. split; [done |]. done.
Qed.

Lemma keeps_ack got : keeps (ack_sol_packet got).
Proof.
  unfold ack_sol_packet. keep_step; [keep |]. destruct (negb _); [keep |].
  keep_step; [keep |]. cbv zeta.
  destruct (_ =? 0); [keep |]. intros s b s' H.
  apply M_bind_Ok in H as ([got' q] & s1 & H1 & H). inv_ok.
  apply send_with_sends in H1 as [[Hi [Hv | (st & E & _)]] _]; [by split | done | keep].
Qed.

Lemma keeps_recv_sol : keeps ipmi_lanplus_recv_sol.
Proof.
  unfold ipmi_lanplus_recv_sol, check_sol_packet_for_new_data.
  pose proof keeps_ack. keep.
Qed.

Lemma send_payload_sends p s got q s' :
  ipmi_lanplus_send_payload p s = Ok ((got, q), s') -> sends p s s' /\ payload q = payload p.
Proof. apply send_with_sends, keeps_recv_sol. Qed.

(** A payload that got an answer was allowed in the state it was sent in. *)
Lemma send_payload_guard p s q s' :
  ipmi_lanplus_send_payload p s = Ok ((true, q), s') ->
  may_send (session_state (v2_data (l_session s))) (payload p) = true.
Proof.
  unfold ipmi_lanplus_send_payload, send_payload_with. intros H.
  bind H as tmo s1 H1. ret_in H1. bind H as rt s2 H1. ret_in H1. bind H as r s3 H1.
  cbn [send_loop] in H1. bind H1 as intf s4 H2. ret_in H2.
  destruct (negb _) in H1.
  { ret_in H1. bind H as u s5 H1. ret_in H1. ret_in H. done. }
  bind H1 as now s5 H2. apply keeps_time in H2 as [_ Hv].
  bind H1 as sent s6 H2. destruct sent as [[p' e'] |]; [| ret_in H1; ret_in H; done].
  apply transmit_payload in H2 as [_ H2]. by rewrite <- Hv.
Qed.

(** ** The exchanges of the session set-up *)

Definition state_of (s : lp) : session_state_t := session_state (v2_data (l_session s)).

Lemma sends_state p s s' : sends p s s' ->
  state_of s' = state_of s \/ sent_state (payload p) = Some (state_of s').
Proof. intros [_ [H | (st & E & H)]]; unfold state_of; rewrite H; auto. Qed.

(** The suite that the BMC agreed to is the one that was asked for. *)
Definition negotiated (s : lp) : Prop :=
  let v := v2_data (l_session s) in
  lanplus_get_requested_ciphers (cipher_suite_id (ssn_params (l_intf s))) =
    Some (auth_alg v, integrity_alg v, crypt_alg v).

Lemma open_session_result s rc s' : ipmi_lanplus_open_session s = Ok (rc, s') ->
  l_intf s' = l_intf s /\
  (rc = 2 -> state_of s <> LANPLUS_STATE_ACTIVE -> state_of s' <> LANPLUS_STATE_ACTIVE) /\
  (rc = 0 -> (state_of s = LANPLUS_STATE_PRESESSION \/ state_of s = LANPLUS_STATE_OPEN_SESSION_SENT) /\
     state_of s' = LANPLUS_STATE_OPEN_SESSION_RECEIVED /\ negotiated s').
Proof.
  unfold ipmi_lanplus_open_session. intros H. bind H as intf s1 H1. ret_in H1.
  destruct (malloc _); [| ret_in H; done]. bind H as u s2 H1. ret_in H1.
  destruct (lanplus_get_requested_ciphers _) as [[[au it] cr] |] eqn:Ec; [| ret_in H; done].
  bind H as u' s3 H1. ret_in H1. bind H as r s4 H1. destruct r as [got q].
  assert (got = true -> state_of s1 = LANPLUS_STATE_PRESESSION \/
    state_of s1 = LANPLUS_STATE_OPEN_SESSION_SENT) as Hg.
  { intros ->. apply send_payload_guard in H1. cbn -[bool_decide] in H1.
    apply orb_true_iff in H1 as [H1 | H1]; apply bool_decide_eq_true in H1; auto. }
  apply send_payload_sends in H1 as [[Hi Hv] _]. cbn in Hi.
  destruct got; cbn [negb] in H.
  2: { ret_in H. split; [done |]. split; [| done]. intros _ Hs. unfold state_of.
       destruct Hv as [-> | (st & [= <-] & ->)]; done. }
  bind H as rsp s5 H1. ret_in H1.
  destruct (negb _) in H; [ret_in H; done |].
  bind H as u'' s7 H1. ret_in H1. ret_in H. split; [done |].
  split; [by destruct (_ || _) |]. intros E. destruct (_ || _) eqn:Eq in E; [done |].
  rewrite !orb_false_iff, !negb_false_iff, !Z.eqb_eq in Eq. destruct Eq as [[Ea Eb] Ecr].
  split; [by apply Hg |]. split; [done |]. unfold negotiated. cbn. by rewrite Hi, Ec, Ea, Eb, Ecr.
Qed.

(** The payload that was read last is, as a RAKP 2 message, without error, has
    the random number and the identifier of the session, and its key exchange
    authentication code is the HMAC of the session. *)
Definition rakp2_accepted (s : lp) : Prop :=
  rakp_return_code (l_rsp s) = 0 /\
  bmc_rand (v2_data (l_session s)) = rakp2_bmc_rand (l_rsp s) /\
  bmc_guid (v2_data (l_session s)) = rakp2_bmc_guid (l_rsp s) /\
  lanplus_rakp2_hmac_matches (l_session s) (rakp2_auth_code (l_rsp s)) (l_intf s) = Ok true.

(** The same of a RAKP 4 message and its integrity check value. *)
Definition rakp4_accepted (s : lp) : Prop :=
  rakp_return_code (l_rsp s) = 0 /\
  lanplus_rakp4_hmac_matches (l_session s) (rakp4_check_value (l_rsp s)) (l_intf s) = Ok true.

Definition same_algs (s s' : lp) : Prop :=
  let v := v2_data (l_session s) in let v' := v2_data (l_session s') in
  auth_alg v' = auth_alg v /\ integrity_alg v' = integrity_alg v /\ crypt_alg v' = crypt_alg v.

Lemma rakp1_result s rc s' : ipmi_lanplus_rakp1 s = Ok (rc, s') ->
  l_intf s' = l_intf s /\
  (rc = 2 -> state_of s <> LANPLUS_STATE_ACTIVE -> state_of s' <> LANPLUS_STATE_ACTIVE) /\
  (rc = 0 -> state_of s = LANPLUS_STATE_OPEN_SESSION_RECEIVED /\
     state_of s' = LANPLUS_STATE_RAKP_2_RECEIVED /\ same_algs s s' /\ rakp2_accepted s').
Proof.
  unfold ipmi_lanplus_rakp1. intros H. bind H as intf s1 H1. ret_in H1.
  destruct (malloc _); [| ret_in H; done].
  bind H as rand s2 H1. apply keeps_rand in H1 as [Hi2 Hv2].
  destruct rand as [rand |]; [| ret_in H; done].
  bind H as u s3 H1. ret_in H1. bind H as u s4 H1. ret_in H1. bind H as v s5 H1. ret_in H1.
  destruct (_ <? _) in H; [ret_in H; done |].
  bind H as msg s6 H1. unfold lift in H1. destruct (or_oob _); [| done]. ret_in H1.
  bind H as r s7 H1. destruct r as [got q].
  assert (got = true -> state_of s1 = LANPLUS_STATE_OPEN_SESSION_RECEIVED) as Hg.
  { intros ->. apply send_payload_guard in H1. cbn -[bool_decide] in H1.
    apply bool_decide_eq_true in H1. unfold state_of. by rewrite <- Hv2. }
  apply send_payload_sends in H1 as [[Hi Hv] _]. cbn in Hi.
  destruct got; cbn [negb] in H.
  2: { ret_in H. split; [congruence |]. split; [| done]. intros _ Hs. unfold state_of in *.
       destruct Hv as [-> | (st & [= <-] & ->)]; [| done]. cbn. by rewrite Hv2. }
  bind H as u s8 H1. ret_in H1. bind H as rsp s9 H1. ret_in H1.
  destruct (negb (_ =? IPMI_RAKP_STATUS_NO_ERRORS)) eqn:Ez; [ret_in H; cbn; split; [congruence | done] |].
  apply negb_false_iff, Z.eqb_eq in Ez.
  bind H as u s11 H1. ret_in H1. bind H as sess s12 H1. ret_in H1.
  bind H as matches s13 H1. unfold lift in H1.
  destruct (lanplus_rakp2_hmac_matches _ _ _) as [b |] eqn:Em in H1; [| done]. ret_in H1.
  bind H as u s14 H1. ret_in H1. ret_in H. split; [cbn; congruence |].
  split; [by destruct matches |]. intros E. destruct matches; [| done]. clear E.
  split; [by apply Hg |]. split; [done |]. split.
  - destruct Hv as [Hv | (st & _ & Hv)]; unfold same_algs; cbn; rewrite Hv; cbn; by rewrite Hv2.
  - split; [exact Ez |]. split; [done |]. split; [done |]. rewrite <- Em. cbn. by rewrite Hi, Hi2.
Qed.

(** What the key derivation leaves alone. *)
Definition same_but_keys (v v' : v2_data_t) : Prop :=
  session_state v' = session_state v /\ auth_alg v' = auth_alg v /\
  integrity_alg v' = integrity_alg v /\ crypt_alg v' = crypt_alg v.

Lemma sik_frame ss intf rc ss' : lanplus_generate_sik ss intf = Ok (rc, ss') ->
  same_but_keys (v2_data ss) (v2_data ss').
Proof.
  unfold lanplus_generate_sik. cbv zeta. intros H. case_match; [by inv_ok |].
  apply res_bind_Ok in H as (u & _ & H). case_match; [| by inv_ok].
  repeat (apply res_bind_Ok in H as (? & _ & H)). by inv_ok.
Qed.

Lemma k1_frame ss ss' : lanplus_generate_k1 ss = Ok ss' -> same_but_keys (v2_data ss) (v2_data ss').
Proof.
  unfold lanplus_generate_k1. cbv zeta. intros H.
  case_match; repeat (apply res_bind_Ok in H as (? & _ & H)); by inv_ok.
Qed.

Lemma k2_frame ss ss' : lanplus_generate_k2 ss = Ok ss' -> same_but_keys (v2_data ss) (v2_data ss').
Proof.
  unfold lanplus_generate_k2. cbv zeta. intros H.
  case_match; repeat (apply res_bind_Ok in H as (? & _ & H)); by inv_ok.
Qed.

(** The keys of [s'] are derived from the session of [s]. *)
Definition keys_derived (s s' : lp) : Prop :=
  exists code ss ss1 ss2,
    lanplus_generate_rakp3_authcode (l_session s) (l_intf s) = Ok (Some code) /\
    lanplus_generate_sik (l_session s) (l_intf s) = Ok (0, ss) /\
    lanplus_generate_k1 ss = Ok ss1 /\ lanplus_generate_k2 ss1 = Ok ss2 /\
    v2_data (l_session s') = (v2_data ss2) <| session_state := state_of s' |>.

Lemma rakp3_keys_result msg s r s' : rakp3_keys msg s = Ok (r, s') ->
  l_intf s' = l_intf s /\ same_but_keys (v2_data (l_session s)) (v2_data (l_session s')) /\
  (r <> None -> keys_derived s s').
Proof.
  unfold rakp3_keys. intros H. bind H as intf s1 H1. ret_in H1. bind H as sess s2 H1. ret_in H1.
  bind H as code s3 H1. unfold lift in H1.
  destruct (lanplus_generate_rakp3_authcode _ _) as [o |] eqn:Ea in H1; [| done]. ret_in H1.
  destruct code as [mac |]; [| by ret_in H].
  bind H as m s4 H1. unfold lift in H1. destruct (or_oob _) in H1; [| done]. ret_in H1.
  bind H as k s5 H1. unfold lift in H1.
  destruct (lanplus_generate_sik _ _) as [[rc ss] |] eqn:Es in H1; [| done]. ret_in H1.
  bind H as u s6 H1. ret_in H1. pose proof (sik_frame _ _ _ _ Es) as Fs.
  destruct (negb (rc =? 0)) eqn:Erc; [by ret_in H |]. apply negb_false_iff, Z.eqb_eq in Erc as ->.
  bind H as ss1 s7 H1. unfold lift in H1.
  destruct (lanplus_generate_k1 _) as [x |] eqn:E1 in H1; [| done]. ret_in H1.
  bind H as ss2 s8 H1. unfold lift in H1.
  destruct (lanplus_generate_k2 _) as [x |] eqn:E2 in H1; [| done]. ret_in H1.
  bind H as u s9 H1. ret_in H1. ret_in H.
  split; [done |]. pose proof (k1_frame _ _ E1) as F1. pose proof (k2_frame _ _ E2) as F2.
  unfold same_but_keys in *. split; [cbn; intuition congruence |].
  intros _. exists mac, ss, ss1, ss2. split_and!; try done. unfold state_of. cbn.
  by destruct (v2_data ss2).
Qed.

Lemma rakp3_result s rc s' : ipmi_lanplus_rakp3 s = Ok (rc, s') ->
  (rc = 2 -> state_of s' <> LANPLUS_STATE_ACTIVE) /\
  (rc = 0 -> state_of s = LANPLUS_STATE_RAKP_2_RECEIVED /\
     rakp2_return_code (v2_data (l_session s)) = IPMI_RAKP_STATUS_NO_ERRORS /\
     state_of s' = LANPLUS_STATE_ACTIVE /\ l_intf s' = (l_intf s) <| abort := false |> /\
     same_algs s s' /\ keys_derived s s' /\ rakp4_accepted s').
Proof.
  unfold ipmi_lanplus_rakp3. intros H. bind H as intf s1 H1. ret_in H1.
  bind H as v s2 H1. ret_in H1. bind H as u s3 H1. unfold c_assert in H1.
  destruct (bool_decide _) eqn:Est in H1; [| done]. ret_in H1. apply bool_decide_eq_true in Est.
  destruct (malloc _); [| ret_in H; done].
  bind H as msg s4 H1. unfold lift in H1. destruct (or_oob _) in H1; [| done]. ret_in H1.
  bind H as keys s5 Hk. destruct keys as [[m alen] |]; [| ret_in H; done].
  bind H as r s6 H1. destruct r as [got q]. apply send_payload_sends in H1 as [[Hi Hv] _].
  destruct (negb (_ =? IPMI_RAKP_STATUS_NO_ERRORS)) eqn:Erc in H; [ret_in H; done |].
  apply negb_false_iff in Erc as Erc'. rewrite Erc' in Hk.
  apply rakp3_keys_result in Hk as (Hi5 & (Hst & Halg) & Hkeys). specialize (Hkeys ltac:(done)).
  destruct got; cbn [negb] in H.
  2: { ret_in H. split; [| done]. intros _. unfold state_of in *.
       destruct Hv as [-> | (st & [= <-] & ->)]; [| done]. by rewrite Hst, Est. }
  bind H as rsp s7 H1. ret_in H1.
  destruct (negb (_ =? IPMI_RAKP_STATUS_NO_ERRORS)) eqn:Ez in H; [ret_in H; done |]. apply negb_false_iff, Z.eqb_eq in Ez.
  bind H as sess s9 H1. ret_in H1. bind H as matches s10 H1. unfold lift in H1.
  destruct (lanplus_rakp4_hmac_matches _ _ _) as [b |] eqn:Em in H1; [| done]. ret_in H1.
  destruct matches; [| ret_in H; done].
  bind H as u s11 H1. ret_in H1. bind H as u s12 H1. ret_in H1. ret_in H.
  split; [done |]. intros _. apply Z.eqb_eq in Erc'.
  split; [exact Est |]. split; [exact Erc' |]. split; [done |]. split; [cbn; congruence |].
  assert (exists w, v2_data (l_session s10) = (v2_data (l_session s5)) <| session_state := w |>) as [w Hw].
  { destruct Hv as [-> | (st & _ & ->)]; [| by exists st].
    exists (session_state (v2_data (l_session s5))). by destruct (v2_data (l_session s5)). }
  split; [unfold same_algs; cbn; rewrite Hw; cbn; tauto |]. split.
  - destruct Hkeys as (mac & ss & ss1 & ss2 & H1 & H2 & H3 & H4 & H5). exists mac, ss, ss1, ss2.
    split_and!; try done. unfold state_of. cbn. by rewrite Hw, H5.
  - split; [exact Ez |]. rewrite <- Em, <- Hi5, <- Hi. done.
Qed.

(** *** Their return values *)

Definition yields {A} (m : M lp A) (P : A -> Prop) : Prop :=
  forall s a s', m s = Ok (a, s') -> P a.

Lemma yields_bind {A B} (m : M lp A) (f : A -> M lp B) P :
  (forall a, yields (f a) P) -> yields (m ≫= f) P.
Proof. intros Hf s b s' H. bind H as a s1 H1. by eapply Hf. Qed.

Lemma yields_ret {A} (a : A) (P : A -> Prop) : P a -> yields (mret a) P.
Proof. intros HP s b s' H. by ret_in H. Qed.

Lemma yields_fail {A} e (P : A -> Prop) : yields (fail e) P.
Proof. by intros s a s' H. Qed.

Definition return_code (rc : Z) : Prop := 0 <= rc <= 2.

Ltac yield := repeat (cbv zeta; intros; lazymatch goal with
  | |- yields (_ ≫= _) _ => apply yields_bind
  | |- yields (mret _) _ => apply yields_ret; unfold return_code; repeat case_match; lia
  | |- yields (fail _) _ => apply yields_fail
  | |- yields (match ?x with _ => _ end) _ => destruct x
  end).

Lemma open_session_code : yields ipmi_lanplus_open_session return_code.
Proof. unfold ipmi_lanplus_open_session. yield. Qed.

Lemma rakp1_code : yields ipmi_lanplus_rakp1 return_code.
Proof. unfold ipmi_lanplus_rakp1. yield. Qed.

Lemma rakp3_code : yields ipmi_lanplus_rakp3 return_code.
Proof. unfold ipmi_lanplus_rakp3. yield. Qed.
End Frames.

(** ** Properties *)

Section Properties.
Context `{ssl : OpenSSL} `{mem : Malloc}.

(** C7. Whenever the session set-up ends with the session in its active state,
    the last attempt ran Open Session, RAKP 1 and RAKP 3 in this order, each
    without error: the algorithms are those of the requested cipher suite, the
    key exchange authentication code of the RAKP 2 message and the integrity
    check value of the RAKP 4 message are the HMACs this side computes, and the
    keys in use are derived from the session the RAKP 2 message completed. *)
Theorem session_active_is_authenticated n s s' :
  setup_loop n s = Ok (true, s') -> state_of s <> LANPLUS_STATE_ACTIVE ->
  state_of s' = LANPLUS_STATE_ACTIVE ->
  exists s0 s1 s2,
    ipmi_lanplus_open_session s0 = Ok (0, s1) /\ ipmi_lanplus_rakp1 s1 = Ok (0, s2) /\
    ipmi_lanplus_rakp3 s2 = Ok (0, s') /\
    negotiated s' /\ rakp2_accepted s2 /\ keys_derived s2 s' /\ rakp4_accepted s' /\
    abort (l_intf s') = false.
Proof.
  revert s. induction n as [| n IH]; intros s H Hs Hs'; cbn [setup_loop] in H; [ret_in H; done |].
  bind H as u s0 H1. ret_in H1. bind H as rc s1 H1. pose proof (open_session_code _ _ _ H1) as Hrc.
  destruct (open_session_result _ _ _ H1) as (Hi1 & Ht1 & Hok1). unfold return_code in Hrc.
  destruct (Z.eqb_spec rc 1) as [| N1]; [ret_in H; done |]. destruct (Z.eqb_spec rc 2) as [E2 | N2].
  { apply (IH s1 H); [by apply Ht1 | done]. }
  assert (rc = 0) as -> by lia. destruct Hok1 as (_ & Hs1 & Hneg); [done |].
  bind H as rc s2 H2. pose proof (rakp1_code _ _ _ H2) as Hrc2.
  destruct (rakp1_result _ _ _ H2) as (Hi2 & Ht2 & Hok2). unfold return_code in Hrc2.
  destruct (Z.eqb_spec rc 1) as [| N3]; [ret_in H; done |]. destruct (Z.eqb_spec rc 2) as [E2 | N4].
  { apply (IH s2 H); [apply Ht2; [done | by rewrite Hs1] | done]. }
  assert (rc = 0) as -> by lia. destruct Hok2 as (_ & Hs2 & (Ha1 & Ha2 & Ha3) & Hacc); [done |].
  bind H as rc s3 H3. pose proof (rakp3_code _ _ _ H3) as Hrc3.
  destruct (rakp3_result _ _ _ H3) as (Ht3 & Hok3). unfold return_code in Hrc3.
  destruct (Z.eqb_spec rc 1) as [| N5]; [ret_in H; done |]. destruct (Z.eqb_spec rc 0) as [-> | N6].
  - ret_in H. destruct Hok3 as (_ & _ & _ & Hi3 & (Hb1 & Hb2 & Hb3) & Hk & Hacc4); [done |].
    eexists _, s1, s2. split_and!; try done.
    + unfold negotiated in *. rewrite Hi3, Hb1, Hb2, Hb3, Ha1, Ha2, Ha3, <- Hneg, <- Hi2. done.
    + by rewrite Hi3.
  - assert (rc = 2) as -> by lia. apply (IH s3 H); [by apply Ht3 | done].
Qed.
End Properties.

(** A BMC that answers the three messages of the set-up with cipher suite 3. *)
Definition bmc_packet (type : Z) (payload : list Z) : net_event :=
  NetPacket (rmcp_bytes ++ [6; type] ++ zeros 8 ++ htoipmi16 (zlen payload) ++ payload).

Definition witness_bmc : list net_event :=
  let id := htoipmi32 0xA0A2A3A4 in
  [bmc_packet IPMI_PAYLOAD_TYPE_RMCP_OPEN_RESPONSE ([0; 0; 4; 0] ++ id ++ [1; 2; 3; 4] ++
     [0; 0; 0; 8; 1; 0; 0; 0] ++ [1; 0; 0; 8; 1; 0; 0; 0] ++ [2; 0; 0; 8; 1; 0; 0; 0]);
   bmc_packet IPMI_PAYLOAD_TYPE_RAKP_2 ([0; 0; 0; 0] ++ id ++ replicate 16 7 ++ replicate 16 9 ++
     replicate 20 228);
   bmc_packet IPMI_PAYLOAD_TYPE_RAKP_4 ([0; 0; 0; 0] ++ id ++ replicate 12 138)].

Definition witness_setup : lp :=
  (init_lp witness_lan zero_session witness_bmc) <| l_rand := [Some (replicate 16 5)] |>.

Definition witness_established : lp :=
  match setup_loop 4 witness_setup with Ok (_, s) => s | Bad _ => witness_setup end.

Lemma session_active_is_authenticated_witness :
  setup_loop 4 witness_setup = Ok (true, witness_established) /\
  state_of witness_established = LANPLUS_STATE_ACTIVE /\
  exists s0 s1 s2,
    ipmi_lanplus_open_session s0 = Ok (0, s1) /\ ipmi_lanplus_rakp1 s1 = Ok (0, s2) /\
    ipmi_lanplus_rakp3 s2 = Ok (0, witness_established) /\
    negotiated witness_established /\ rakp2_accepted s2 /\ keys_derived s2 witness_established /\
    rakp4_accepted witness_established /\ abort (l_intf witness_established) = false.
Proof.
  split; [vm_compute; reflexivity |]. split; [vm_compute; reflexivity |].
  apply (session_active_is_authenticated 4 witness_setup).
  - vm_compute. reflexivity.
  - vm_compute. discriminate.
  - vm_compute. reflexivity.
Defined.
