(* ===== verification/LanplusRun.v ===== *)
(** * Runs of the RMCP+ transport (src/plugins/lanplus/lanplus.c)

    The operations of the transport computed on the states they are meant
    for: building and sending a payload, a time-out, and the answer of a BMC
    to a command. *)

From S2P Require Import Prelude Wire Ipmi Ipmb Intf Session Crypt LanplusMsg ReqList Lanplus.
From S2P Require Import LanplusSession LanplusState.

#[local] Open Scope Z_scope.

(** Execute the first step of a computation that is known to return. *)
Ltac run_with H := rewrite (M_bind_run _ _ _ _ _ H); cbv beta.
Ltac run_prim :=
  match goal with
  | |- context [mbind _ ?m ?s] =>
      lazymatch m with
      | get => idtac | gets _ => idtac | mret _ => idtac | modify _ => idtac
      | session_gets _ => idtac | session_set _ => idtac | rsp_gets _ => idtac
      | rsp_set _ => idtac | the_rsp _ => idtac | set_bridge _ => idtac | set_intf _ => idtac
      | c_assert true => idtac | lift (Ok _) => idtac
      end;
      rewrite (M_bind_run m _ s _ _ eq_refl); cbv beta delta [compose]
  end.

Section Runs.
Context `{ssl : OpenSSL} {laws : OpenSSLLaws ssl} `{mem : Malloc} {memlaws : MallocLaws mem}.
Hypothesis malloc_ok : forall n, is_Some (malloc n).

(** The session can build a packet: its algorithms are supported, its key has
    the size of its array and there are random bytes when it encrypts. *)
Definition can_build (s : lp) : Prop :=
  algs_supported (l_session s) /\ 16 <= zlen (k2 (v2_data (l_session s))) /\
  (encrypted (l_session s) = true -> exists iv r, l_rand s = Some iv :: r /\ zlen iv = 16).

Definition after_build (s : lp) : lp :=
  s <| l_rand := if encrypted (l_session s) then tail (l_rand s) else l_rand s |>
    <| l_session := next_out_seq (l_session s) |>.

Lemma build_v2x_run p seq s wire :
  can_build s -> payload_wire (addr (l_intf s)) (bridgePossible s) p seq = Ok (wire, zlen wire) ->
  0 <= payload_length p -> zlen wire <= payload_length p + 18 -> zlen wire < 65000 ->
  exists body,
    build_v2x_msg p seq s = Ok ((Some (packet (l_intf s) (l_session s) (payload_type (payload p)) body),
      zlen body), after_build s) /\ body_of (l_session s) wire body.
Proof.
  intros (Ha & Hk & Hr) Hw H1 H2 H3. unfold build_v2x_msg. run_prim.
  fold (encrypted (l_session s)). unfold after_build. destruct (encrypted (l_session s)) eqn:Ee.
  - destruct (Hr eq_refl) as (iv & r & Er & Hiv). unfold mbind at 1, M_bind, lanplus_rand. rewrite Er.
    destruct (build_run (l_intf s) (bridgePossible s) p seq (Some iv) (l_session s) wire malloc_ok Ha)
      as (body & Hb & Hbody); try done; [by exists iv |].
    exists body. split; [| done]. by rewrite Hb.
  - run_prim.
    destruct (build_run (l_intf s) (bridgePossible s) p seq None (l_session s) wire malloc_ok Ha)
      as (body & Hb & Hbody); try done; [by unfold has_iv; rewrite Ee |].
    exists body. split; [| done]. by rewrite Hb.
Qed.

Lemma send_packet_run d s : l_send s = all_sent ->
  ipmi_lan_send_packet d s = Ok (true, s <| l_sent := l_sent s ++ [d] |>).
Proof. intros E. unfold ipmi_lan_send_packet. rewrite E. destruct s. cbn in E. by subst. Qed.

Lemma poll_silent s : l_net s = [] -> ipmi_lan_poll_recv s = Ok (false, s).
Proof.
  intros E. unfold ipmi_lan_poll_recv. run_prim. unfold net_fuel. cbn [poll_recv_loop].
  unfold ipmi_lan_poll_single, ipmi_lan_recv_packet, next_event, mbind, M_bind. by rewrite E.
Qed.

Lemma time_run s : exists t l, time_now s = Ok (t, s <| l_clock := l |>).
Proof. unfold time_now. destruct (l_clock s) as [| t l] eqn:E; [exists 0, [] | by exists t, l]. by rewrite <- E; destruct s. Qed.

(** What a time-out of the set-up leaves alone. *)
Definition untouched (s s' : lp) : Prop :=
  l_net s' = l_net s /\ l_send s' = l_send s /\ l_intf s' = l_intf s /\
  bridgePossible s' = bridgePossible s /\ l_have_session s' = l_have_session s /\
  l_rand s' = l_rand s.

#[local] Instance untouched_preorder : PreOrder untouched.
Proof. split; [by intros s | unfold untouched; intros s1 s2 s3 H1 H2; intuition congruence]. Qed.

(** The messages of the set-up that are copied as they are. *)
Definition setup_message (p : ipmi_v2_payload) (m : list Z) : Prop :=
  (payload p = PL_open_session_request m \/ payload p = PL_rakp_1_message m \/
   payload p = PL_rakp_3_message m) /\
  0 <= payload_length p <= zlen m /\ payload_length p < 65000.

Lemma transmit_setup_run p m try entry s :
  setup_message p m -> can_build s -> may_send (state_of s) (payload p) = true -> l_send s = all_sent ->
  exists n data, transmit p try entry s =
    Ok (Some (p <| payload_length := n |>, entry),
        (after_build s) <| l_sent := l_sent s ++ [data] |>).
Proof.
  intros (Hp & Hlen & Hmax) Hb Hmay Hsend. unfold transmit. run_prim. unfold state_of in Hmay.
  rewrite Hmay. run_prim.
  assert (payload_wire (addr (l_intf s)) (bridgePossible s) p 0 =
    Ok (slice m 0 (payload_length p), zlen (slice m 0 (payload_length p)))) as Hw.
  { unfold payload_wire. rewrite zlen_slice by lia.
    destruct Hp as [-> | [-> | ->]]; rewrite (proj2 (Z.ltb_ge _ _)) by lia; repeat f_equal; lia. }
  assert (zlen (slice m 0 (payload_length p)) <= payload_length p) as Hs by (rewrite zlen_slice by lia; lia).
  destruct (build_v2x_run p 0 s _ Hb Hw) as (body & Hbuild & _); [lia .. |].
  assert (forall A (B : _ -> M lp A), ('(msg, len) ← build_v2x_msg p 0; B (msg, len)) s =
    B (Some (packet (l_intf s) (l_session s) (payload_type (payload p)) body), zlen body) (after_build s)) as Hrun.
  { intros A B. by rewrite (M_bind_run _ _ _ _ _ Hbuild). }
  exists (zlen body), (packet (l_intf s) (l_session s) (payload_type (payload p)) body).
  pose proof (send_packet_run (packet (l_intf s) (l_session s) (payload_type (payload p)) body)
    (after_build s) Hsend) as Hsent.
  destruct Hp as [E | [E | E]]; rewrite E in *; unfold mbind, M_bind in *; rewrite Hbuild; cbn -[packet after_build ipmi_lan_send_packet];
    cbn [payload_type] in Hsent; rewrite Hsent; done.
Qed.

(** A message of the set-up that nobody answers: sent once, and the state
    remembers that it was sent. *)
Lemma setup_send_loop p m st s fuel :
  setup_message p m -> sent_state (payload p) = Some st ->
  can_build s -> encrypted (l_session s) = false ->
  may_send (state_of s) (payload p) = true -> l_net s = [] -> l_send s = all_sent ->
  0 < retry (ssn_params (l_intf s)) -> noanswer (l_intf s) = false -> (2 <= fuel)%nat ->
  exists q s', send_loop fuel ipmi_lanplus_recv_sol p 0 true 0 None false s = Ok (Some (false, q), s') /\
    untouched s s' /\ v2_data (l_session s') = (v2_data (l_session s)) <| session_state := st |>.
Proof.
  intros Hsetup Hst Hb He Hmay Hnet Hsend Hretry Hno Hfuel.
  destruct fuel as [| [| fuel]]; [lia .. |]. cbn [send_loop]. run_prim.
  rewrite (proj2 (Z.ltb_lt _ _)) by done. cbn [negb].
  destruct (time_run s) as (t & l & Ht). run_with Ht. set (s1 := s <| l_clock := l |>).
  destruct (transmit_setup_run p m 0 None s1) as (n & data & Htr); [done .. |].
  run_with Htr. set (s2 := _ <| l_sent := _ |>). rewrite Hno.
  change (payload (p <| payload_length := n |>)) with (payload p). rewrite Hst. run_prim.
  set (s3 := update _ s2).
  assert (await_response ipmi_lanplus_recv_sol (p <| payload_length := n |>) None s3 = Ok (inr false, s3)) as Haw.
  { assert (l_net s3 = []) as Hn3 by exact Hnet.
    unfold await_response. change (payload (p <| payload_length := n |>)) with (payload p).
    destruct Hsetup as [[-> | [-> | ->]] _]; run_with (poll_silent s3 Hn3); run_prim; unfold net_fuel;
      rewrite Hn3; cbn [length skip_duplicates]; done. }
  run_with Haw. destruct (time_run s3) as (t' & l' & Ht'). run_with Ht'. run_prim.
  set (s4 := s3 <| l_clock := l' |>).
  assert (exists s5, (if s_timeout (l_session s4) <=? t' - t
      then session_set (fun s => s <| s_timeout := u32 (s_timeout s + 1) |>) else mret tt) s4 = Ok (tt, s5) /\
    untouched s4 s5 /\ v2_data (l_session s5) = v2_data (l_session s4)) as (s5 & H5 & Hu5 & Hv5).
  { destruct (_ <=? _); eexists; done. }
  run_with H5. run_prim. destruct Hu5 as (Hn5 & Hs5 & Hi5 & Hb5 & Hh5 & Hr5). rewrite Hi5.
  change (l_intf s4) with (l_intf s). rewrite (proj2 (Z.ltb_ge _ _)) by lia.
  eexists _, s5. split; [done |]. rewrite Hv5. split; [| done].
  unfold untouched. rewrite Hn5, Hs5, Hi5, Hb5, Hh5, Hr5. subst s4 s3 s2 s1. unfold after_build. cbn. by rewrite He.
Qed.

Lemma setup_message_times_out p m st s :
  setup_message p m -> sent_state (payload p) = Some st ->
  can_build s -> encrypted (l_session s) = false ->
  may_send (state_of s) (payload p) = true -> l_net s = [] -> l_send s = all_sent ->
  0 < retry (ssn_params (l_intf s)) -> noanswer (l_intf s) = false ->
  exists q s', ipmi_lanplus_send_payload p s = Ok ((false, q), s') /\ untouched s s' /\
    v2_data (l_session s') = (v2_data (l_session s)) <| session_state := st |>.
Proof.
  intros. unfold ipmi_lanplus_send_payload, send_payload_with. run_prim. run_prim.
  destruct (setup_send_loop p m st s (S (Z.to_nat (retry (ssn_params (l_intf s)))))) as (q & s' & H' & Hu & Hv);
    [done .. | lia |].
  run_with H'. run_prim. eexists q, _. split; [done |]. split; [| done].
  etrans; [exact Hu | done].
Qed.

(** Nothing arrives, and everything else is as it should be. *)
Record silent (s : lp) : Prop := {
  silent_net : l_net s = [];
  silent_send : l_send s = all_sent;
  silent_algs : algs_supported (l_session s);
  silent_k2 : 16 <= zlen (k2 (v2_data (l_session s)));
  silent_retry : 0 < retry (ssn_params (l_intf s));
  silent_answer : noanswer (l_intf s) = false;
  silent_suite : lanplus_get_requested_ciphers (cipher_suite_id (ssn_params (l_intf s))) <> None;
}.

Lemma open_session_times_out s : silent s -> state_of s = LANPLUS_STATE_PRESESSION ->
  exists s', ipmi_lanplus_open_session s = Ok (2, s') /\ silent s' /\ untouched s s' /\
    state_of s' = LANPLUS_STATE_OPEN_SESSION_SENT.
Proof.
  intros [Hn Hs Ha Hk Hr Hno Hc] Hst. unfold ipmi_lanplus_open_session. run_prim.
  destruct (malloc_ok IPMI_OPEN_SESSION_REQUEST_SIZE) as [b ->]. run_prim.
  destruct (lanplus_get_requested_ciphers _) as [[[au it] cr] |] eqn:Ec; [| done]. run_prim.
  set (s1 := update _ _).
  set (msg := open_session_msg _ _ _ _ _). set (p := mk_payload _ _).
  assert (is_active (l_session s1) = false) as Hact.
  { unfold is_active, state_of in *. cbn. by rewrite Hst. }
  assert (encrypted (l_session s1) = false) as He by (unfold encrypted; by rewrite Hact).
  assert (can_build s1) as Hcb by (split_and!; [exact Ha | exact Hk | by rewrite He]).
  destruct (setup_message_times_out p msg LANPLUS_STATE_OPEN_SESSION_SENT s1) as (q & s' & H & Hu & Hv); try done.
  { split; [by left |]. subst p msg. unfold open_session_msg, IPMI_OPEN_SESSION_REQUEST_SIZE. cbn. split; [zlen_lia | lia]. }
  { unfold may_send. cbn. unfold state_of. cbn. unfold state_of in Hst. by rewrite Hst. }
  run_with H. eexists. split; [done |].
  assert (untouched s s') as Hu' by (etrans; [| exact Hu]; done).
  destruct Hu' as (E1 & E2 & E3 & E4 & E5 & E6).
  split; [| split; [done | unfold state_of; by rewrite Hv]].
  split; rewrite ?E1, ?E2, ?E3; try done.
  - unfold algs_supported in *. by rewrite Hv.
  - by rewrite Hv.
  - by rewrite Ec.
Qed.

Lemma setup_silent n s : silent s ->
  exists s', setup_loop (S n) s = Ok (true, s') /\ untouched s s' /\
    state_of s' = LANPLUS_STATE_OPEN_SESSION_SENT.
Proof.
  revert s. induction n as [| n IH]; intros s Hs; cbn [setup_loop]; run_prim;
    (destruct (open_session_times_out (s <| l_session := set_state LANPLUS_STATE_PRESESSION (l_session s) |>))
      as (s1 & H1 & Hs1 & Hu1 & Hst1); [by destruct Hs | done |]);
    run_with H1; cbn [Z.eqb].
  - exists s1. split; [done |]. split; [| done]. by etrans; [| exact Hu1].
  - destruct (IH s1 Hs1) as (s' & H' & Hu' & Hst'). exists s'. split; [exact H' |].
    split; [| done]. etrans; [| exact Hu']. by etrans; [| exact Hu1].
Qed.
(** ** Matching a response with its request *)

Lemma rep_entry h l1 p x l2 : Refine.rep h (l1 ++ (p, x) :: l2) ->
  exists nx, Ptr.h_nodes h !! p = Some (Ptr.mk_node x nx).
Proof.
  intros [Hseg _ _ _]. apply Refine.lseg_app in Hseg as (y & _ & _ & nx & H & _). by exists nx.
Qed.

Lemma set_entry_run p f s l1 x l2 : Refine.rep (l_reqs s) (l1 ++ (p, x) :: l2) ->
  exists h, set_entry p f s = Ok (tt, s <| l_reqs := h |>) /\ Refine.rep h (l1 ++ (p, f x) :: l2).
Proof.
  intros Hr. destruct (rep_entry _ _ _ _ _ Hr) as [nx Hp]. unfold set_entry.
  unfold mbind, M_bind, on_reqs. rewrite (Refine.deref_run _ _ _ Hp).
  cbn [l_reqs update]. cbn. rewrite (Refine.store_run _ _ _ _ Hp). eexists. split; [done |].
  by apply (Client.update_rep _ l1 p x nx l2).
Qed.

Lemma reqs_run {A} (m : M Ptr.hst A) s a h : m (l_reqs s) = Ok (a, h) ->
  on_reqs m s = Ok (a, s <| l_reqs := h |>).
Proof. intros E. unfold on_reqs. by rewrite E. Qed.

Lemma reqs_read {A} (m : M Ptr.hst A) s a : m (l_reqs s) = Ok (a, l_reqs s) -> on_reqs m s = Ok (a, s).
Proof. intros E. rewrite (reqs_run _ _ _ _ E). by destruct s. Qed.

(** The payload after the header of a response and before its checksum. *)
Definition response_extra (size : Z) : Z := size - 8.

(** What a response leaves behind for the caller. *)
Definition delivered (rsp : ipmi_rs) (off size : Z) (rsp' : ipmi_rs) : Prop :=
  ccode rsp' = rd (rs_data rsp) (off + 6) /\
  rsp_data rsp' = slice (rs_data rsp) (off + 7) (response_extra size) /\
  rs_authtype rsp' = rs_authtype rsp /\ payloadtype rsp' = payloadtype rsp.

Lemma shift_run off n s : 0 <= off -> 0 <= n -> off + n <= zlen (rs_data (l_rsp s)) ->
  exists rsp, shift_data off n s = Ok (tt, s <| l_rsp := rsp |>) /\
    rsp_data rsp = slice (rs_data (l_rsp s)) off n /\ ccode rsp = ccode (l_rsp s) /\
    rs_authtype rsp = rs_authtype (l_rsp s) /\ payloadtype rsp = payloadtype (l_rsp s) /\
    rs_payload rsp = rs_payload (l_rsp s) /\ rs_data_len rsp = n /\ n <= zlen (rs_data rsp).
Proof.
  intros Ho Hn Hl. unfold shift_data. run_prim. rewrite (proj2 (Z.ltb_ge _ _)) by done.
  set (d := slice (rs_data (l_rsp s)) off n).
  assert (zlen d = n) as Hd by (subst d; rewrite zlen_slice; lia).
  change (rs_data (l_rsp s)) with ([] ++ rs_data (l_rsp s)) at 1.
  rewrite wr_next by (done || lia). cbn [or_oob app]. run_prim.
  eexists. split; [done |]. cbn. split_and!; try done; [| zlen_lia]. unfold rsp_data. cbn.
  apply take_app_length'. unfold zlen in Hd. lia.
Qed.

Lemma spec_get_split p (l : Spec.t) x : Spec.get p l = Some x -> exists l1 l2, l = l1 ++ (p, x) :: l2.
Proof.
  induction l as [| [q y] l IH]; cbn; [done |]. destruct (decide (p = q)) as [-> |].
  - intros [= ->]. by exists [], l.
  - intros H. destruct (IH H) as (l1 & l2 & ->). by exists ((q, y) :: l1), l2.
Qed.

(** The response to an unbridged request: exactly the entry that the sequence
    number and command name is removed, and the data after the completion code
    are delivered. *)
Lemma response_run fuel off size s l p x :
  Refine.rep (l_reqs s) l -> 0 <= off -> off + size <= zlen (rs_data (l_rsp s)) -> 8 <= size ->
  let rsp := (read_ipmi_response (l_rsp s) off).1 in
  let seq := rd (rs_data (l_rsp s)) (off + 4) .>> 2 in
  let cmd := rd (rs_data (l_rsp s)) (off + 5) in
  Spec.lookup seq cmd l = Some p -> Spec.get p l = Some x -> e_bridging_level x = 0 ->
  exists h rsp', ipmi_response_loop (S fuel) off off size s =
      Ok (PollRsp, s <| l_reqs := h |> <| l_rsp := rsp' |>) /\
    Refine.rep h (Spec.remove seq cmd l) /\ delivered (l_rsp s) off size rsp'.
Proof.
  intros Hr Ho Hsz H8 rsp seq cmd Hlk Hget Hbl. cbn [ipmi_response_loop]. run_prim.
  assert (read_ipmi_response (l_rsp s) off = (rsp, off + 7)) as -> by done. run_prim.
  assert (ipmi_rq_seq rsp = seq) as -> by done. assert (ipmi_cmd rsp = cmd) as -> by done.
  assert (rs_data rsp = rs_data (l_rsp s)) as Hd by done.
  assert (ccode rsp = rd (rs_data (l_rsp s)) (off + 6)) as Hcc by done.
  assert (rs_authtype rsp = rs_authtype (l_rsp s) /\ payloadtype rsp = payloadtype (l_rsp s)) as [Hat Hpt] by done.
  clearbody rsp. set (s1 := s <| l_rsp := rsp |>).
  destruct (Refine.lookup_refines seq cmd (l_reqs s1) l Hr) as [Hlook _].
  run_with (reqs_read _ s1 _ Hlook). rewrite Hlk.
  destruct (spec_get_split p l x Hget) as (l1 & l2 & Hl).
  assert (exists nx, Ptr.h_nodes (l_reqs s1) !! p = Some (Ptr.mk_node x nx)) as [nx Hp]
    by (eapply rep_entry; by rewrite <- Hl).
  run_with (reqs_read _ s1 _ (Refine.deref_run _ _ _ Hp)).
  cbn [Ptr.n_entry]. rewrite Hbl. cbn [Z.eqb negb andb]. run_prim.
  destruct (Refine.remove_refines seq cmd (l_reqs s1) l Hr) as (h & Hrem & Hh & _).
  run_with (reqs_run _ s1 _ _ Hrem). set (s2 := s1 <| l_reqs := h |>).
  replace (size - (off + 7 - off) - 1) with (response_extra size) by (unfold response_extra; lia).
  destruct (Z.ltb_spec 0 (response_extra size)) as [Hx | Hx].
  - destruct (shift_run (off + 7) (response_extra size) s2) as (rsp' & Hsh & H1 & H2 & H3 & H4 & _);
      [lia | lia | unfold response_extra; cbn; rewrite Hd; lia |].
    run_with Hsh. eexists h, rsp'. split; [done |]. split; [done |].
    unfold delivered. rewrite H1, H2, H3, H4. cbn. by rewrite Hd, Hcc.
  - run_prim. eexists h, _. split; [done |]. split; [done |]. unfold delivered, rsp_data. cbn.
    rewrite Hcc. split_and!; try done. unfold slice. by replace (Z.to_nat (response_extra size)) with 0%nat by lia.
Qed.
(** ** The answer of the BMC *)

Lemma store_packet_run bs s : 0 < zlen bs < IPMI_BUF_SIZE -> zlen (rs_data (l_rsp s)) = IPMI_BUF_SIZE ->
  exists rest, store_packet bs s = Ok (true, s <| l_rsp :=
      (l_rsp s) <| rs_data := bs ++ rest |> <| rs_data_len := zlen bs |> |>) /\
    zlen (bs ++ rest) = IPMI_BUF_SIZE.
Proof.
  intros Hb Hd. unfold store_packet, IPMI_BUF_SIZE in *.
  rewrite (take_ge bs) by (unfold zlen in Hb; lia). rewrite (proj2 (Z.eqb_neq _ _)) by lia. run_prim.
  change (rs_data (l_rsp s)) with ([] ++ rs_data (l_rsp s)).
  rewrite wr_next by (done || lia). cbn [mbind option_bind app].
  rewrite wr_next by (done || zlen_lia).
  cbn [or_oob]. run_prim. run_prim. rewrite <- app_assoc. eexists. split; [done |]. zlen_lia.
Qed.

(** A BMC at the other end of the session.  What it signs and encrypts, it
    does with the algorithms and keys of the session. *)
Record peer_of (s b : ipmi_session) : Prop := {
  peer_active : is_active b = true;
  peer_algs : algs_supported b;
  peer_signs : signed b = true -> integrity_alg (v2_data b) = integrity_alg (v2_data s) /\
    k1 (v2_data b) = k1 (v2_data s) /\ k1_len (v2_data b) = k1_len (v2_data s);
  peer_encrypts : encrypted b = true -> crypt_alg (v2_data b) = crypt_alg (v2_data s) /\
    k2 (v2_data b) = k2 (v2_data s);
  peer_id : bmc_id (v2_data b) = console_id (v2_data s);
  peer_id_u32 : is_u32 (bmc_id (v2_data b));
  peer_seq_u32 : is_u32 (out_seq b);
}.

(** The datagram of a BMC that carries [wire]. *)
Definition bmc_datagram (i : ipmi_intf) (b : ipmi_session) (type : Z) (wire d : list Z) : Prop :=
  exists body, body_of b wire body /\ d = packet i b type body /\
    zlen wire < 65000 /\ zlen d < IPMI_BUF_SIZE.

Lemma packet_class i b type body rest : rd (packet i b type body ++ rest) 3 = RMCP_CLASS_IPMI.
Proof. unfold packet, session_header. by rewrite <- !app_assoc. Qed.

(** The datagram reaches the dispatch with its payload in place. *)
Lemma poll_single_run s i b type wire d net :
  l_net s = NetPacket d :: net -> bmc_datagram i b type wire d -> 0 < zlen wire -> 0 <= type < 64 ->
  is_active (l_session s) = true -> algs_supported (l_session s) -> peer_of (l_session s) b ->
  zlen (rs_data (l_rsp s)) = IPMI_BUF_SIZE ->
  exists rsp, ipmi_lan_poll_single s =
      poll_dispatch 16 (zlen wire) (s <| l_net := net |> <| l_rsp := rsp |>) /\
    slice (rs_data rsp) 16 (zlen wire) = wire /\ payloadtype rsp = type /\
    rs_authtype rsp = IPMI_SESSION_AUTHTYPE_RMCP_PLUS.
Proof.
  intros Hnet (body & Hbody & -> & Hw & Hd) Hw0 Hty0 Hact Halg [Hp1 Hp2 Hp3 Hp4 Hp8 Hp9 Hp10] Hbuf.
  unfold ipmi_lan_poll_single. set (d := packet _ _ _ _) in *.
  set (s0 := s <| l_net := net |>).
  assert (16 <= zlen d) as Hd16.
  { subst d. unfold packet. pose proof (zlen_session_header b type).
    pose proof (zlen_nonneg (trailer i b (session_header b type ++ htoipmi16 (zlen body) ++ body))).
    unfold htoipmi16 in *. zlen_lia. }
  destruct (store_packet_run d s0) as (rest & Hst & Hrest); [lia | exact Hbuf |].
  assert (ipmi_lan_recv_packet s = store_packet d s0) as Hrecv.
  { unfold ipmi_lan_recv_packet, next_event, mbind, M_bind. by rewrite Hnet. }
  rewrite <- Hrecv in Hst. run_with Hst. cbn [negb]. set (s1 := s0 <| l_rsp := _ |>). run_prim.
  set (pre := session_header b type ++ htoipmi16 (zlen body)).
  assert (zlen pre = 16) as Hpre by (unfold pre; by rewrite zlen_app, zlen_session_header).
  assert (exists tl, d = pre ++ body ++ tl) as [tl Hdp].
  { eexists. subst d pre. unfold packet. by rewrite <- !app_assoc. }
  assert (zlen body < 65536) as Hbl by (pose proof (zlen_nonneg tl); unfold IPMI_BUF_SIZE in Hd; rewrite Hdp in Hd; zlen_lia).
  assert (rd (rs_data (l_rsp s1)) 3 = RMCP_CLASS_IPMI) as -> by apply packet_class.
  change (RMCP_CLASS_IPMI =? RMCP_CLASS_ASF) with false. change (RMCP_CLASS_IPMI =? RMCP_CLASS_IPMI) with true.
  cbn [negb]. pose proof (zlen_nonneg body).
  destruct (read_packet (l_rsp s1) i b type body rest) as
    (rsp & Hr & Hd' & Hl' & Hat & Hty & Hid & _ & Hml & Henc & Hau);
    [done | done | done | done | done | unfold is_u16; lia |].
  rewrite Hr. run_prim. run_prim. change (l_session (update _ s1)) with (l_session s).
  rewrite Hact, Hat, Hid, Hp8, !Z.eqb_refl. cbn [andb negb].
  assert (lanplus_has_valid_auth_code rsp (l_session s) = Ok true) as ->.
  { destruct (signed b) eqn:Es; [| unfold lanplus_has_valid_auth_code; by rewrite Hau, orb_true_r].
    destruct (Hp3 eq_refl) as (H1 & H2 & H3). rewrite <- Es in Hau.
    apply (trailer_accepted rsp i b (l_session s) (session_header b type ++ htoipmi16 (zlen body) ++ body) rest);
      try done.
    rewrite app_assoc, zlen_app. fold pre. lia. }
  run_prim. cbn [negb]. rewrite Henc. set (s2 := update _ s1).
  set (fetch := if negb _ then _ else _).
  assert (exists rsp', fetch s2 = Ok (zlen wire, s2 <| l_rsp := rsp' |>) /\
    slice (rs_data rsp') 16 (zlen wire) = wire /\ payloadtype rsp' = type /\
    rs_authtype rsp' = IPMI_SESSION_AUTHTYPE_RMCP_PLUS) as (rsp' & Hf & Hs & Ht & Hau').
  { subst fetch. destruct (encrypted b) eqn:Eb; cbn [b2z Z.eqb negb].
    - destruct (body_decrypts b wire body pre (tl ++ rest) malloc_ok Hp2 Hp1 Hpre Hw Hbody) as (buf & Hdec & Hsl).
      destruct (Hp4 eq_refl) as [Hc Hk]. rewrite Hc, Hk in Hdec. rewrite Hd', Hml. change (rs_data (l_rsp s1)) with (d ++ rest).
      rewrite Hdp, <- !app_assoc, Hdec. run_prim. run_prim.
      exists (rsp <| rs_data := buf |>). by split_and!.
    - unfold body_of in Hbody. rewrite Eb in Hbody. subst body. exists rsp. split; [| split; [| done]].
      + rewrite Hml. subst s2. by destruct s1.
      + rewrite Hd'. change (rs_data (l_rsp s1)) with (d ++ rest). rewrite Hdp, <- !app_assoc.
        by apply slice_app_mid. }
  run_with Hf. exists rsp'. by split_and!.
Qed.
Lemma slice_inside buf off n w : slice buf off n = w -> zlen w = n -> 0 <= off -> 0 < n ->
  off + n <= zlen buf /\ (forall i, 0 <= i < n -> rd buf (off + i) = rd w i) /\
  (forall i m, 0 <= i -> 0 <= m -> i + m <= n -> slice buf (off + i) m = slice w i m).
Proof.
  intros <- Hn Ho Hp. split; [unfold slice in Hn; rewrite zlen_take, zlen_drop in Hn; lia |]. split.
  - intros i Hi. unfold rd, slice. rewrite lookup_take_lt, lookup_drop by lia. do 2 f_equal. lia.
  - intros i m Hi Hm Hin. unfold slice. rewrite skipn_firstn_comm, take_take, drop_drop. f_equal; [lia |].
    f_equal. lia.
Qed.

Lemma poll_answered s i b hdr cc data d net l p x :
  l_net s = NetPacket d :: net -> bmc_datagram i b IPMI_PAYLOAD_TYPE_IPMI (ipmb hdr (cc :: data)) d ->
  is_active (l_session s) = true -> algs_supported (l_session s) -> peer_of (l_session s) b ->
  zlen (rs_data (l_rsp s)) = IPMI_BUF_SIZE -> Refine.rep (l_reqs s) l ->
  Spec.lookup (h_rqSeq hdr .>> 2) (h_cmd hdr) l = Some p -> Spec.get p l = Some x ->
  e_bridging_level x = 0 ->
  exists h rsp, ipmi_lan_poll_recv s =
      Ok (true, s <| l_net := net |> <| l_reqs := h |> <| l_rsp := rsp |>) /\
    Refine.rep h (Spec.remove (h_rqSeq hdr .>> 2) (h_cmd hdr) l) /\
    ccode rsp = cc /\ rsp_data rsp = data.
Proof.
  intros Hnet Hd Hact Halg Hpeer Hbuf Hrep Hlk Hget Hbl. set (wire := ipmb hdr (cc :: data)) in *.
  assert (zlen wire = zlen data + 8) as Hw by (unfold wire; rewrite zlen_ipmb; zlen_lia).
  pose proof (zlen_nonneg data) as Hd0.
  destruct (poll_single_run s i b _ wire d net Hnet Hd) as (rsp & Hpoll & Hsl & Hty & _);
    [lia | unfold IPMI_PAYLOAD_TYPE_IPMI; lia | done .. |].
  destruct (slice_inside _ _ _ _ Hsl) as (Hin & Hrd & Hsub); [done | lia | lia |].
  set (s1 := s <| l_net := net |> <| l_rsp := rsp |>) in *.
  destruct (response_run (Z.to_nat (zlen wire)) 16 (zlen wire) s1 l p x) as (h & rsp' & Hloop & Hh & Hcc & Hdat & _);
    [done | lia | done | lia | | done | done |].
  { change (rs_data (l_rsp s1)) with (rs_data rsp). by rewrite !Hrd by lia. }
  change (rs_data (l_rsp s1)) with (rs_data rsp) in *. rewrite !Hrd in Hh by lia. rewrite Hrd in Hcc by lia.
  exists h, rsp'. split; [| split; [exact Hh | split; [exact Hcc |]]].
  - unfold ipmi_lan_poll_recv. run_prim. unfold net_fuel. rewrite Hnet. cbn [poll_recv_loop].
    assert (poll_dispatch 16 (zlen wire) s1 = ipmi_response_loop (S (Z.to_nat (zlen wire))) 16 16 (zlen wire) s1) as E.
    { unfold poll_dispatch. run_prim. run_prim. run_prim. change (l_rsp s1) with rsp. by rewrite Hty. }
    rewrite E, Hloop in Hpoll. by run_with Hpoll.
  - rewrite Hdat. unfold response_extra. rewrite Hsub by lia. rewrite Hw.
    replace (zlen data + 8 - 8) with (zlen data) by lia. unfold wire, ipmb.
    change (hdr_bytes hdr ++ (cc :: data) ++ ?e) with ((hdr_bytes hdr ++ [cc]) ++ data ++ e).
    by apply slice_app_mid.
Qed.
(** ** A command *)

(** The sequence number of the next request. *)
Definition next_seq (s : lp) : Z :=
  let seq := u8 (curr_seq s + 1) in if 64 <=? seq then 0 else seq.

(** The target is reached without bridging. *)
Definition unbridged (s : lp) : Prop :=
  let a := addr (l_intf s) in
  (target_addr a =? my_addr a) || negb (bridgePossible s) = true /\
  bridged_request a (bridgePossible s) = 0.

(** The header of an unbridged request. *)
Definition request_hdr (s : lp) (req : ipmi_rq) (seq : Z) : ipmb_msg_hdr :=
  csum_hdr IPMI_BMC_SLAVE_ADDR (u8 ((rq_netfn req .<< 2) .| (rq_lun req .& 3))) IPMI_REMOTE_SWID
    (u8 (seq .<< 2)) (rq_cmd req).

Definition built_cmd (s : lp) (h : Ptr.hst) (seq : Z) : lp :=
  (after_build s) <| curr_seq := seq |> <| l_reqs := h |>.

Lemma build_cmd_run s req l :
  can_build s -> unbridged s -> zlen (rq_data req) < 60000 -> Refine.rep (l_reqs s) l ->
  let seq := next_seq s in let p := Spec.fresh_loc l in
  exists h body, ipmi_lanplus_build_v2x_ipmi_cmd req false s = Ok (Some p, built_cmd s h seq) /\
    body_of (l_session s) (ipmb (request_hdr s req seq) (rq_data req)) body /\
    Refine.rep h (l ++ [(p, e_set_msg_data (Some (packet (l_intf s) (l_session s) IPMI_PAYLOAD_TYPE_IPMI body))
                          (Spec.new_entry req seq))]).
Proof.
  intros Hb [Hu1 Hu2] Hreq Hr seq p. unfold ipmi_lanplus_build_v2x_ipmi_cmd. run_prim.
  fold (next_seq s). fold seq. run_prim. set (s1 := s <| curr_seq := seq |>).
  unfold add_entry. destruct (malloc_ok 56) as [m Hm]. rewrite Hm, bool_decide_true by done.
  destruct (Refine.add_refines req seq (l_reqs s1) l Hr) as (h1 & Hadd & Hr1 & _).
  run_with (reqs_run _ s1 _ _ Hadd). fold p. rewrite Hu1. run_prim. set (s2 := s1 <| l_reqs := h1 |>).
  set (pl := mk_payload _ _).
  pose proof (wire_encapsulates (addr (l_intf s)) (bridgePossible s) (u16 (rq_data_len req + 7)) req seq seq
    (u16_range _)) as Hw. unfold wire_spec in Hw. rewrite Hu2 in Hw.
  destruct Hw as (Hw & _). cbn [Z.eqb nest] in Hw.
  pose proof (zlen_nonneg (rq_data req)) as H0.
  assert (is_u16 (rq_data_len req + 7)) as H16 by (unfold is_u16, rq_data_len; lia).
  change (csum_hdr _ _ _ _ _) with (request_hdr s req seq) in Hw. set (wire := ipmb _ _) in *.
  assert (zlen wire = rq_data_len req + 7) as Hzw by (unfold wire, rq_data_len; rewrite zlen_ipmb; done).
  destruct (build_v2x_run pl seq s2 wire) as (body & Hbuild & Hbody).
  { exact Hb. }
  { unfold payload_wire. cbn [payload pl payload_length]. change (addr (l_intf s2)) with (addr (l_intf s)).
    change (bridgePossible s2) with (bridgePossible s). rewrite Hw, Hzw. f_equal. f_equal.
    rewrite (u16_small (rq_data_len req + 7)) by done. rewrite u16_small; [lia |]. by rewrite Z.mul_0_r, Z.add_0_r. }
  { cbn [pl payload_length]. rewrite u16_small by done. unfold is_u16 in H16. lia. }
  { cbn [pl payload_length]. rewrite u16_small by done. lia. }
  { unfold rq_data_len in Hzw. lia. }
  run_with Hbuild. destruct (set_entry_run p (e_set_msg_data (Some (packet (l_intf s2) (l_session s2)
    (payload_type (payload pl)) body))) (after_build s2) l (Spec.new_entry req seq) [] Hr1) as (h & Hset & Hr2).
  run_with Hset. exists h, body. split; [done |]. split; [exact Hbody | exact Hr2].
Qed.
Lemma transmit_cmd_run s rq_seq len req l :
  can_build s -> unbridged s -> zlen (rq_data req) < 60000 -> Refine.rep (l_reqs s) l ->
  bmc_id (v2_data (l_session s)) <> 0 -> l_send s = all_sent ->
  let seq := next_seq s in let p := Spec.fresh_loc l in
  let pl := mk_payload len (PL_ipmi_request rq_seq req) in
  exists h body, transmit pl 0 None s = Ok (Some (pl, Some p),
      (built_cmd s h seq) <| l_sent := l_sent s ++ [packet (l_intf s) (l_session s) IPMI_PAYLOAD_TYPE_IPMI body] |>) /\
    body_of (l_session s) (ipmb (request_hdr s req seq) (rq_data req)) body /\
    Refine.rep h (l ++ [(p, e_set_msg_data (Some (packet (l_intf s) (l_session s) IPMI_PAYLOAD_TYPE_IPMI body))
                          (Spec.new_entry req seq))]).
Proof.
  intros Hb Hu Hreq Hr Hid Hsend seq p pl. unfold transmit. run_prim. cbn [may_send payload pl]. run_prim.
  rewrite (proj2 (Z.eqb_neq _ _) Hid), andb_false_r. cbn [Z.ltb Z.compare].
  destruct (build_cmd_run s req l Hb Hu Hreq Hr) as (h & body & Hrun & Hbody & Hr').
  fold seq p in Hrun, Hbody, Hr'. destruct (rep_entry _ _ _ _ _ Hr') as [nx Hp].
  set (d := packet _ _ _ _) in *. set (x := e_set_msg_data _ _) in *.
  exists h, body. split; [| by split].
  unfold mbind at 1, M_bind. rewrite (M_bind_run _ _ _ _ _ Hrun).
  run_with (reqs_read _ (built_cmd s h seq) _ (Refine.deref_run _ _ _ Hp)).
  cbn [Ptr.n_entry]. change (default [] (e_msg_data x)) with d. unfold mret at 1, M_ret.
  by run_with (send_packet_run d (built_cmd s h seq) Hsend).
Qed.

(** What a session needs to send commands. *)
Record can_send (s : lp) : Prop := {
  send_build : can_build s;
  send_active : is_active (l_session s) = true;
  send_bmc : bmc_id (v2_data (l_session s)) <> 0;
  send_send : l_send s = all_sent;
  send_answer : noanswer (l_intf s) = false;
  send_retry : 0 < retry (ssn_params (l_intf s));
}.
Record ready (s : lp) : Prop := {
  ready_send : can_send s;
  ready_buffer : zlen (rs_data (l_rsp s)) = IPMI_BUF_SIZE;
}.

Lemma peer_next_seq s b : peer_of s b -> peer_of (next_out_seq s) b.
Proof. intros []. by split. Qed.

Lemma lookup_snoc seq cmd (l : Spec.t) p x : Spec.lookup seq cmd l = None -> Spec.matches seq cmd x = true ->
  p ∉ l.*1 ->
  Spec.lookup seq cmd (l ++ [(p, x)]) = Some p /\ Spec.remove seq cmd (l ++ [(p, x)]) = l /\
  Spec.get p (l ++ [(p, x)]) = Some x.
Proof.
  intros Hl Hx. induction l as [| [q y] l IH]; cbn.
  - intros _. rewrite Hx. by rewrite decide_True.
  - intros [Hq Hp]%not_elem_of_cons. cbn in Hl. destruct (Spec.matches seq cmd y); [done |].
    destruct (IH Hl Hp) as (-> & -> & ->). by rewrite decide_False.
Qed.
(** The datagram [d] answers request [req] with completion code [cc]. *)
Definition answers (s : lp) (req : ipmi_rq) (cc : Z) (data d : list Z) : Prop :=
  exists i b hdr, peer_of (l_session s) b /\ bmc_datagram i b IPMI_PAYLOAD_TYPE_IPMI (ipmb hdr (cc :: data)) d /\
    h_rqSeq hdr .>> 2 = next_seq s /\ h_cmd hdr = rq_cmd req /\ cc <> 0xcf.

Lemma send_loop_answered s rq_seq len req cc data d net l fuel :
  ready s -> unbridged s -> zlen (rq_data req) < 60000 ->
  Refine.rep (l_reqs s) l -> Spec.lookup (next_seq s) (rq_cmd req) l = None ->
  l_net s = NetPacket d :: net -> answers s req cc data d ->
  let pl := mk_payload len (PL_ipmi_request rq_seq req) in
  exists s' body, send_loop (S fuel) ipmi_lanplus_recv_sol pl 0 true 0 None false s = Ok (Some (true, pl), s') /\
    ccode (l_rsp s') = cc /\ rsp_data (l_rsp s') = data /\ Refine.rep (l_reqs s') l /\ l_net s' = net /\
    l_sent s' = l_sent s ++ [packet (l_intf s) (l_session s) IPMI_PAYLOAD_TYPE_IPMI body] /\
    body_of (l_session s) (ipmb (request_hdr s req (next_seq s)) (rq_data req)) body /\
    l_session s' = next_out_seq (l_session s).
Proof.
  intros [[Hb Hact Hid Hsend Hno Hretry] Hbuf] Hu Hreq Hr Hfree Hnet (i & b & hdr & Hpeer & Hd & Hseq & Hcmd & Hcc) pl.
  cbn [send_loop]. run_prim. rewrite (proj2 (Z.ltb_lt _ _)) by done. cbn [negb].
  destruct (time_run s) as (t & c & Ht). run_with Ht. set (s1 := s <| l_clock := c |>).
  destruct (transmit_cmd_run s1 rq_seq len req l) as (h & body & Htr & Hbody & Hr'); [done .. |].
  fold pl in Htr. run_with Htr. rewrite Hno. cbn [payload pl sent_state]. run_prim.
  set (s2 := _ <| l_sent := _ |>) in *. set (p := Spec.fresh_loc l) in *. set (x := e_set_msg_data _ _) in *.
  change (next_seq s1) with (next_seq s) in *.
  assert (Spec.matches (next_seq s) (rq_cmd req) x = true) as Hm.
  { unfold Spec.matches, x. cbn. by rewrite !Z.eqb_refl. }
  destruct (lookup_snoc _ _ _ p x Hfree Hm (Refine.fresh_loc_notin l)) as (H1 & H2 & H3).
  destruct (poll_answered s2 i b hdr cc data d net (l ++ [(p, x)]) p x) as (h' & rsp & Hpoll & Hrep & Hccode & Hdata);
    [done | done | exact Hact | exact (proj1 Hb) | by apply peer_next_seq | done | exact Hr' |
     by rewrite Hseq, Hcmd | done | done |].
  rewrite Hseq, Hcmd, H2 in Hrep. set (s3 := s2 <| l_net := _ |> <| l_reqs := _ |> <| l_rsp := _ |>) in *.
  assert (await_response ipmi_lanplus_recv_sol pl (Some p) s2 = Ok (inl true, s3)) as Haw.
  { unfold await_response. cbn [payload pl]. run_with Hpoll. run_prim. cbn [skip_duplicates].
    unfold mbind at 1, M_bind. run_prim. change (l_rsp s3) with rsp. rewrite Hccode.
    rewrite (proj2 (Z.eqb_neq _ _)) by done. done. }
  run_with Haw. cbv iota. exists s3, body. split_and!; try done.
Qed.
Lemma bind_assoc_run {S A B C} (m : M S A) (f : A -> M S B) (g : B -> M S C) s :
  ((m ≫= f) ≫= g) s = (m ≫= (fun a => f a ≫= g)) s.
Proof. unfold mbind, M_bind. by destruct (m s) as [[a s'] | e]. Qed.

Lemma poll_refused s net : l_net s = NetRefused :: NetRefused :: net ->
  ipmi_lan_poll_recv s = Ok (false, s <| l_net := net |>).
Proof.
  intros E. unfold ipmi_lan_poll_recv. run_prim. unfold net_fuel. rewrite E. cbn [poll_recv_loop length].
  unfold ipmi_lan_poll_single, ipmi_lan_recv_packet, next_event, mbind, M_bind. rewrite E. done.
Qed.

Lemma skip_none fuel s : skip_duplicates (S fuel) false s = Ok (false, s).
Proof. done. Qed.

(** Two refusals before the time-out: the entry of the request is freed after
    the first and used after the second. *)
Lemma send_loop_refused_twice s rq_seq len req net l t0 t1 ts fuel :
  ready s -> unbridged s -> zlen (rq_data req) < 60000 ->
  Refine.rep (l_reqs s) l -> Spec.lookup (next_seq s) (rq_cmd req) l = None ->
  1 < retry (ssn_params (l_intf s)) ->
  l_net s = NetRefused :: NetRefused :: NetRefused :: NetRefused :: net ->
  l_clock s = t0 :: t1 :: ts -> t1 - t0 < s_timeout (l_session s) ->
  let pl := mk_payload len (PL_ipmi_request rq_seq req) in
  send_loop (S (S fuel)) ipmi_lanplus_recv_sol pl 0 true 0 None false s = Bad Dangling.
Proof.
  intros [[Hb Hact Hid Hsend Hno Hretry] Hbuf] Hu Hreq Hr Hfree H1 Hnet Hck Ht pl.
  cbn [send_loop]. run_prim. rewrite (proj2 (Z.ltb_lt _ _)) by lia. cbn [negb].
  assert (time_now s = Ok (t0, s <| l_clock := t1 :: ts |>)) as Ht0 by (unfold time_now; by rewrite Hck).
  run_with Ht0. set (s1 := s <| l_clock := t1 :: ts |>).
  destruct (transmit_cmd_run s1 rq_seq len req l) as (h & body & Htr & _ & Hr'); [done .. |].
  fold pl in Htr. run_with Htr. rewrite Hno. cbn [payload pl sent_state]. run_prim.
  set (s2 := _ <| l_sent := _ |>) in *. set (p := Spec.fresh_loc l) in *. set (x := e_set_msg_data _ _) in *.
  change (next_seq s1) with (next_seq s) in *.
  assert (Spec.matches (next_seq s) (rq_cmd req) x = true) as Hm.
  { unfold Spec.matches, x. cbn. by rewrite !Z.eqb_refl. }
  destruct (lookup_snoc _ _ _ p x Hfree Hm (Refine.fresh_loc_notin l)) as (H2 & H3 & H4).
  destruct (rep_entry _ _ _ _ _ Hr') as [nx Hp].
  set (net2 := NetRefused :: NetRefused :: net). set (s3 := s2 <| l_net := net2 |>).
  destruct (Refine.remove_refines (next_seq s) (rq_cmd req) h _ Hr') as (h' & Hrem & Hh' & _). rewrite H3 in Hh'.
  assert (await_response ipmi_lanplus_recv_sol pl (Some p) s2 = Ok (inr false, s3 <| l_reqs := h' |>)) as Haw.
  { unfold await_response. cbn [payload pl]. run_with (poll_refused s2 net2 Hnet). run_prim.
    run_with (skip_none (net_fuel s3) s3). cbv iota. rewrite bind_assoc_run.
    run_with (reqs_read _ s3 _ (Refine.deref_run _ _ _ Hp)). cbn [Ptr.n_entry].
    by run_with (reqs_run (Ptr.ipmi_req_remove_entry (next_seq s) (rq_cmd req)) s3 _ _ Hrem). }
  run_with Haw. set (s4 := s3 <| l_reqs := h' |>).
  assert (time_now s4 = Ok (t1, s4 <| l_clock := ts |>)) as Ht1 by done.
  run_with Ht1. set (s5 := s4 <| l_clock := ts |>). run_prim.
  change (s_timeout (l_session s5)) with (s_timeout (l_session s)). rewrite (proj2 (Z.leb_gt _ _)) by lia. run_prim.
  run_prim. change (l_intf s5) with (l_intf s). rewrite (proj2 (Z.ltb_lt (0 + 1) _)) by lia. cbn [negb].
  run_prim. run_prim. rewrite Hno. cbn [payload pl sent_state]. run_prim.
  assert (await_response ipmi_lanplus_recv_sol pl (Some p) s5 = Bad Dangling) as Haw2.
  { unfold await_response. cbn [payload pl]. run_with (poll_refused s5 net eq_refl). run_prim.
    set (s6 := s5 <| l_net := net |>).
    run_with (skip_none (net_fuel s6) s6). cbv iota. rewrite bind_assoc_run.
    assert (on_reqs (Ptr.deref p) s6 = Bad Dangling) as Hd; [| unfold mbind, M_bind; by rewrite Hd].
    unfold on_reqs, Ptr.deref. change (l_reqs s6) with h'.
    assert (Ptr.h_nodes h' !! p = None) as ->; [| done].
    apply not_elem_of_dom. rewrite (Refine.rep_dom _ _ Hh'), elem_of_list_to_set. apply Refine.fresh_loc_notin. }
  unfold mbind, M_bind. by rewrite Haw2.
Qed.
End Runs.

(** ** Properties *)

Section Properties.
Context `{ssl : OpenSSL} {laws : OpenSSLLaws ssl} `{mem : Malloc} {memlaws : MallocLaws mem}.
Hypothesis malloc_ok : forall n, is_Some (malloc n).

(** Finding: with the OEM type i82571spt, which skips the discovery and the
    privilege command, [ipmi_lanplus_open] of an interface whose peer never
    answers returns the descriptor of an open session after its four attempts
    timed out: the loop that ran out of attempts is followed by the code for
    success, and the session is still in the state that follows the first
    message. *)
Theorem open_succeeds_without_bmc s fd sel_iana :
  l_net s = [] -> l_send s = all_sent -> opened (l_intf s) = false ->
  oem (l_intf s) = Some "i82571spt"%string -> noanswer (l_intf s) = false ->
  0 <= retry (ssn_params (l_intf s)) ->
  lanplus_get_requested_ciphers (cipher_suite_id (ssn_params (l_intf s))) <> None ->
  exists s', ipmi_lanplus_open true fd sel_iana s = Ok (fd, s') /\
    opened (l_intf s') = true /\ state_of s' = LANPLUS_STATE_OPEN_SESSION_SENT.
Proof.
  intros Hn Hs Hop Hoem Hno Hr Hc. unfold ipmi_lanplus_open. run_prim. rewrite Hop.
  set (params := default_params _). run_prim. cbn [negb]. destruct (malloc_ok 512) as [b ->]. run_prim.
  assert (ipmi_oem_active (l_intf s) "i82571spt" = true) as ->
    by (unfold ipmi_oem_active; by rewrite Hoem).
  run_prim. change (rd (replicate 8 0xFF) 1 .& 0x80 =? 0) with false. cbv iota.
  assert ((cipher_suite_id params =? IPMI_LANPLUS_CIPHER_SUITE_RESERVED) = false) as ->.
  { apply Z.eqb_neq. intros E. apply Hc. change (cipher_suite_id params) with
      (cipher_suite_id (ssn_params (l_intf s))) in E. by rewrite E. }
  run_prim. set (s1 := update _ _).
  assert (silent s1) as Hsil.
  { split; try done.
    - split; left; reflexivity.
    - cbn. destruct (Z.eqb_spec (retry (ssn_params (l_intf s))) 0); [done | cbn; lia]. }
  destruct (setup_silent malloc_ok 3 s1 Hsil) as (s' & H & (_ & _ & Hi & _) & Hst).
  run_with H. cbn [negb]. run_prim. run_prim. change (0 <? 0) with false. cbv iota.
  run_prim. run_prim. run_prim. eexists. split; [done |]. split; [cbn; by rewrite Hi | done].
Qed.

(** C8. End to end: a command sent in an active session, with any other requests
    outstanding, whose answer is the next datagram, is transmitted once as the
    encrypted and signed packet of its IPMB message, returns exactly the
    completion code and the data the BMC put into its answer, and leaves the
    other requests outstanding and the session with its next sequence
    number. *)
Theorem command_answered s req cc data d net l :
  ready s -> unbridged s -> zlen (rq_data req) < 60000 ->
  Refine.rep (l_reqs s) l -> Spec.lookup (next_seq s) (rq_cmd req) l = None ->
  l_net s = NetPacket d :: net -> answers s req cc data d ->
  exists s' body, ipmi_lanplus_send_ipmi_cmd req s = Ok (true, s') /\
    ccode (l_rsp s') = cc /\ rsp_data (l_rsp s') = data /\
    Refine.rep (l_reqs s') l /\ l_net s' = net /\
    l_sent s' = l_sent s ++ [packet (l_intf s) (l_session s) IPMI_PAYLOAD_TYPE_IPMI body] /\
    body_of (l_session s) (ipmb (request_hdr s req (next_seq s)) (rq_data req)) body /\
    l_session s' = next_out_seq (l_session s).
Proof.
  intros. unfold ipmi_lanplus_send_ipmi_cmd, ipmi_lanplus_send_payload.
  destruct (send_loop_answered malloc_ok s 0 0 req cc data d net l (Z.to_nat (retry (ssn_params (l_intf s)))))
    as (s' & body & Hrun & Hq1 & Hq2 & Hq3 & Hq4 & Hq5 & Hq6 & Hq7); try done.
  set (pl := mk_payload 0 _) in *.
  assert (send_payload_with ipmi_lanplus_recv_sol pl s = Ok ((true, pl),
    s' <| l_session := (l_session s') <| s_timeout := s_timeout (l_session s) |> |>)) as Hsend.
  { unfold send_payload_with. run_prim. run_prim. run_with Hrun. by run_prim. }
  run_with Hsend. eexists _, body. split_and!; [reflexivity | done .. |].
  cbn. rewrite Hq7. unfold next_out_seq. by destruct (l_session s).
Qed.

(** The protection of an answer is decided by the answer itself, as the
    comment of [lanplus_has_valid_auth_code] says: in a session that signs and
    encrypts, a datagram built without any key, whose type byte announces
    neither, is delivered as the answer to an outstanding request. *)
Theorem plain_answer_accepted s i hdr cc data d net l p x b :
  is_active (l_session s) = true -> algs_supported (l_session s) ->
  zlen (rs_data (l_rsp s)) = IPMI_BUF_SIZE -> Refine.rep (l_reqs s) l ->
  b = zero_session <| v2_data := zero_v2 <| session_state := LANPLUS_STATE_ACTIVE |>
        <| bmc_id := console_id (v2_data (l_session s)) |> |> ->
  is_u32 (console_id (v2_data (l_session s))) -> zlen data < 990 ->
  d = packet i b IPMI_PAYLOAD_TYPE_IPMI (ipmb hdr (cc :: data)) -> l_net s = NetPacket d :: net ->
  Spec.lookup (h_rqSeq hdr .>> 2) (h_cmd hdr) l = Some p -> Spec.get p l = Some x ->
  e_bridging_level x = 0 ->
  exists s', ipmi_lan_poll_recv s = Ok (true, s') /\ ccode (l_rsp s') = cc /\
    rsp_data (l_rsp s') = data /\
    Refine.rep (l_reqs s') (Spec.remove (h_rqSeq hdr .>> 2) (h_cmd hdr) l).
Proof.
  intros Hact Halg Hbuf Hr Hb Hid Hdata Hd Hnet Hlk Hget Hbl.
  assert (peer_of (l_session s) b) as Hpeer.
  { subst b. split; try done. split; left; reflexivity. }
  assert (bmc_datagram i b IPMI_PAYLOAD_TYPE_IPMI (ipmb hdr (cc :: data)) d) as Hdg.
  { exists (ipmb hdr (cc :: data)). assert (encrypted b = false) as He by (by subst b).
    unfold body_of. rewrite He. split_and!; try done; [rewrite zlen_ipmb; zlen_lia |].
    assert (signed b = false) as Es by (by subst b).
    subst d. unfold packet, trailer. rewrite Es. pose proof (zlen_session_header b IPMI_PAYLOAD_TYPE_IPMI).
    pose proof (zlen_ipmb hdr (cc :: data)). unfold htoipmi16, IPMI_BUF_SIZE. zlen_lia. }
  destruct (poll_answered malloc_ok s i b hdr cc data d net l p x) as (h & rsp & Hp & H1 & H2 & H3); try done.
  by eexists.
Qed.

(** C9. An IPMI response answers exactly the outstanding request with its
    sequence number and command: without one it is skipped and nothing else
    changes; with an unbridged one that request alone leaves the list, and the
    completion code and the bytes between it and the checksum are
    delivered. *)
Theorem response_answers_its_request fuel off size s l :
  Refine.rep (l_reqs s) l -> 0 <= off -> off + size <= zlen (rs_data (l_rsp s)) -> 8 <= size ->
  let rsp := (read_ipmi_response (l_rsp s) off).1 in
  let seq := rd (rs_data (l_rsp s)) (off + 4) .>> 2 in
  let cmd := rd (rs_data (l_rsp s)) (off + 5) in
  match Spec.lookup seq cmd l with
  | None => ipmi_response_loop (S fuel) off off size s = Ok (PollAgain, s <| l_rsp := rsp |>)
  | Some p => forall x, Spec.get p l = Some x -> e_bridging_level x = 0 ->
      exists h rsp', ipmi_response_loop (S fuel) off off size s =
          Ok (PollRsp, s <| l_reqs := h |> <| l_rsp := rsp' |>) /\
        Refine.rep h (Spec.remove seq cmd l) /\ delivered (l_rsp s) off size rsp'
  end.
Proof.
  intros Hr Ho Hsz H8 rsp seq cmd. destruct (Spec.lookup seq cmd l) as [p |] eqn:Hlk.
  { intros x Hx Hbl. by apply (response_run fuel off size s l p x). }
  cbn [ipmi_response_loop]. run_prim.
  assert (read_ipmi_response (l_rsp s) off = (rsp, off + 7)) as -> by done. run_prim.
  assert (ipmi_rq_seq rsp = seq) as -> by done. assert (ipmi_cmd rsp = cmd) as -> by done.
  destruct (Refine.lookup_refines seq cmd (l_reqs s) l Hr) as [Hlook _]. rewrite Hlk in Hlook.
  clearbody rsp. set (s1 := s <| l_rsp := rsp |>). by run_with (reqs_read _ s1 _ Hlook).
Qed.

(** Finding: when the socket reports two refusals (or drops two packets)
    before the time-out has passed, the retry loop frees the request's entry
    after the first and reads its sequence number and command from the freed
    memory after the second. *)
Theorem retry_uses_freed_entry s req net l t0 t1 ts :
  ready s -> unbridged s -> zlen (rq_data req) < 60000 ->
  Refine.rep (l_reqs s) l -> Spec.lookup (next_seq s) (rq_cmd req) l = None ->
  1 < retry (ssn_params (l_intf s)) ->
  l_net s = NetRefused :: NetRefused :: NetRefused :: NetRefused :: net ->
  l_clock s = t0 :: t1 :: ts -> t1 - t0 < s_timeout (l_session s) ->
  ipmi_lanplus_send_ipmi_cmd req s = Bad Dangling.
Proof.
  intros. unfold ipmi_lanplus_send_ipmi_cmd, ipmi_lanplus_send_payload.
  assert (send_payload_with ipmi_lanplus_recv_sol (mk_payload 0 (PL_ipmi_request 0 req)) s = Bad Dangling)
    as E; [| unfold mbind, M_bind; by rewrite E].
  unfold send_payload_with. run_prim. run_prim.
  destruct (Z.to_nat (retry (ssn_params (l_intf s)))) as [| k] eqn:Ek; [lia |].
  unfold mbind, M_bind. by rewrite (send_loop_refused_twice malloc_ok s 0 0 req net l t0 t1 ts k).
Qed.
End Properties.

(** ** Witnesses *)

Definition witness_ready (net : list net_event) : lp :=
  (init_lp witness_lan (witness_active <| s_timeout := 1 |>) net) <| l_rand := [Some (zeros 16)] |>.

Definition witness_peer : ipmi_session :=
  witness_active <| v2_data := (v2_data witness_active) <| bmc_id := 7 |> |>.

Definition witness_request : ipmi_rq := mk_rq 6 0 1 0 [8; 9].

(** The answer to sequence number 1, command 1: completion code 0, two bytes. *)
Definition witness_answer : list Z :=
  packet witness_lan witness_peer IPMI_PAYLOAD_TYPE_IPMI
    (zeros 16 ++ padded (ipmb (mk_hdr 0x81 0x1c 0 0x20 4 1) [0; 0x51; 0x52])).

Lemma toy_malloc_ok n : is_Some (malloc n).
Proof. by eexists. Defined.

Lemma witness_is_ready net : ready (witness_ready net).
Proof.
  split; [| reflexivity]. split; try reflexivity; [| discriminate].
  split; [split; right; [reflexivity | left; reflexivity] |]. split; [vm_compute; discriminate |].
  intros _. by exists (zeros 16), [].
Defined.

Lemma witness_peer_of net : peer_of (l_session (witness_ready net)) witness_peer.
Proof.
  split.
  - reflexivity.
  - split; right; [reflexivity | left; reflexivity].
  - intros _. split_and!; vm_compute; reflexivity.
  - intros _. split_and!; vm_compute; reflexivity.
  - reflexivity.
  - unfold is_u32. cbn. lia.
  - unfold is_u32. cbn. lia.
Defined.

Lemma witness_answers : answers (witness_ready [NetPacket witness_answer]) witness_request 0 [0x51; 0x52] witness_answer.
Proof.
  exists witness_lan, witness_peer, (mk_hdr 0x81 0x1c 0 0x20 4 1).
  split; [apply witness_peer_of |]. split; [| by split_and!].
  eexists. split; [| split; [reflexivity | split; vm_compute; reflexivity]].
  eexists (zeros 16), _. by split_and!.
Defined.

Definition witness_s : lp := witness_ready [NetPacket witness_answer].

Lemma command_answered_witness :
  exists s' body, ipmi_lanplus_send_ipmi_cmd witness_request witness_s = Ok (true, s') /\
    ccode (l_rsp s') = 0 /\ rsp_data (l_rsp s') = [0x51; 0x52] /\
    Refine.rep (l_reqs s') [] /\ l_net s' = [] /\
    l_sent s' = l_sent witness_s ++
      [packet (l_intf witness_s) (l_session witness_s) IPMI_PAYLOAD_TYPE_IPMI body] /\
    body_of (l_session witness_s) (ipmb (request_hdr witness_s witness_request (next_seq witness_s))
      (rq_data witness_request)) body /\
    l_session s' = next_out_seq (l_session witness_s).
Proof.
  apply (command_answered toy_malloc_ok witness_s witness_request 0 [0x51; 0x52] witness_answer [] []).
  - apply witness_is_ready.
  - by split.
  - reflexivity.
  - apply Refine.rep_empty.
  - reflexivity.
  - reflexivity.
  - apply witness_answers.
Defined.

Lemma retry_uses_freed_entry_witness :
  ipmi_lanplus_send_ipmi_cmd witness_request
    ((witness_ready [NetRefused; NetRefused; NetRefused; NetRefused]) <| l_clock := [5; 5] |>) = Bad Dangling.
Proof.
  apply (retry_uses_freed_entry toy_malloc_ok _ witness_request [] [] 5 5 []).
  - destruct (witness_is_ready [NetRefused; NetRefused; NetRefused; NetRefused]) as [[] ?]. split; [by split | done].
  - by split.
  - reflexivity.
  - apply Refine.rep_empty.
  - reflexivity.
  - reflexivity.
  - reflexivity.
  - reflexivity.
  - reflexivity.
Defined.

Lemma open_succeeds_without_bmc_witness :
  exists s', ipmi_lanplus_open true 3 0
      (init_lp (witness_lan <| opened := false |> <| oem := Some "i82571spt"%string |>) zero_session []) = Ok (3, s') /\
    opened (l_intf s') = true /\ state_of s' = LANPLUS_STATE_OPEN_SESSION_SENT.
Proof.
  apply (open_succeeds_without_bmc toy_malloc_ok); try reflexivity; [discriminate | discriminate].
Defined.

(** A state with one outstanding request: sequence number 1, command 1. *)
Definition witness_pending (net : list net_event) : lp :=
  match Ptr.ipmi_req_add_entry true witness_request 1 init_hst with
  | Ok (_, h) => (init_lp witness_lan witness_active net) <| l_reqs := h |>
  | Bad _ => init_lp witness_lan witness_active net
  end.

Definition witness_entry : Spec.t := [(1%positive, Spec.new_entry witness_request 1)].

Lemma witness_pending_rep net : Refine.rep (l_reqs (witness_pending net)) witness_entry.
Proof.
  split.
  - split; [reflexivity |]. exists None. split; reflexivity.
  - reflexivity.
  - apply NoDup_singleton.
  - apply set_eq. intros q. vm_compute. by destruct q.
Defined.

(** A datagram built without any key. *)
Definition witness_plain : list Z :=
  packet witness_lan (zero_session <| v2_data := zero_v2 <| session_state := LANPLUS_STATE_ACTIVE |>
    <| bmc_id := 7 |> |>) IPMI_PAYLOAD_TYPE_IPMI (ipmb (mk_hdr 0x81 0x1c 0 0x20 4 1) [0; 0x66]).

Lemma plain_answer_accepted_witness :
  let s := witness_pending [NetPacket witness_plain] in
  signed (l_session s) && encrypted (l_session s) = true /\
  exists s', ipmi_lan_poll_recv s = Ok (true, s') /\ ccode (l_rsp s') = 0 /\
    rsp_data (l_rsp s') = [0x66] /\
    Refine.rep (l_reqs s') (Spec.remove (4 .>> 2) 1 witness_entry).
Proof.
  split; [reflexivity |].
  apply (plain_answer_accepted toy_malloc_ok (witness_pending [NetPacket witness_plain]) witness_lan
    (mk_hdr 0x81 0x1c 0 0x20 4 1) 0 [0x66] witness_plain [] witness_entry 1%positive
    (Spec.new_entry witness_request 1)
    (zero_session <| v2_data := zero_v2 <| session_state := LANPLUS_STATE_ACTIVE |> <| bmc_id := 7 |> |>)).
  - reflexivity.
  - split; right; [reflexivity | left; reflexivity].
  - reflexivity.
  - apply witness_pending_rep.
  - reflexivity.
  - split; [discriminate | reflexivity].
  - reflexivity.
  - reflexivity.
  - reflexivity.
  - reflexivity.
  - reflexivity.
  - reflexivity.
Defined.

Lemma response_answers_its_request_witness :
  let s := (witness_pending []) <| l_rsp := zero_rs <| rs_data := [0x81; 0x1c; 0; 0x20; 4; 1; 0; 0x66; 0] |> |> in
  exists h rsp', ipmi_response_loop 1 0 0 9 s = Ok (PollRsp, s <| l_reqs := h |> <| l_rsp := rsp' |>) /\
    Refine.rep h (Spec.remove 1 1 witness_entry) /\ delivered (l_rsp s) 0 9 rsp'.
Proof.
  set (s := update _ _). cbv zeta.
  pose proof (response_answers_its_request 0 0 9 s witness_entry (witness_pending_rep [])) as H.
  specialize (H ltac:(lia) ltac:(vm_compute; discriminate) ltac:(lia)). cbv zeta in H.
  change (Spec.lookup _ _ witness_entry) with (Some 1%positive) in H.
  exact (H (Spec.new_entry witness_request 1) eq_refl eq_refl).
Defined.
