(* ===== verification/LanProps.v ===== *)
(** * Correctness of the IPMI v1.5 LAN transport (src/plugins/lan/lan.c, auth.c)

    The packet that carries a request with its authentication code, the
    exchange of a command through foreign datagrams, and the choice of the
    authentication type. *)

From S2P Require Import Prelude Wire Ipmi Ipmb Intf Session Bmc Channel Crypt LanplusMsg ReqList Lanplus Md5.
From S2P Require Import Lan LanSession LanplusSession LanplusState LanplusRun.

#[local] Open Scope Z_scope.

(** ** The message is nested encapsulation *)

(** The headers from the outermost message to the request. *)
Definition lan_wire (a : intf_addr) (level : Z) (req : ipmi_rq) (seq : Z)
    : ipmb_msg_hdr * list send_message_rq :=
  let inner := csum_hdr (if level =? 0 then IPMI_BMC_SLAVE_ADDR else u8 (target_addr a))
    (u8 ((rq_netfn req .<< 2) .| (rq_lun req .& 3)))
    (if level =? 0 then IPMI_REMOTE_SWID else u8 (my_addr a)) (u8 (seq .<< 2)) (rq_cmd req) in
  let bmc := csum_hdr IPMI_BMC_SLAVE_ADDR 0x18 IPMI_REMOTE_SWID (u8 (seq .<< 2)) 0x34 in
  let transit := csum_hdr (u8 (transit_addr a)) 0x18 (u8 (my_addr a)) (u8 (seq .<< 2)) 0x34 in
  let to_target := mk_smrq (u8 (0x40 .| target_channel a)) inner in
  if level =? 0 then (inner, [])
  else if level =? 1 then (bmc, [to_target])
  else (bmc, [mk_smrq (u8 (0x40 .| transit_channel a)) transit; to_target]).

Lemma lan_level_cases a bp : lan_level a bp = 0 \/ lan_level a bp = 1 \/
  lan_level a bp = 2 /\ lan_transit a = true.
Proof. unfold lan_level. repeat case_test; auto. Qed.

Lemma lan_message_nests a bp req seq :
  let level := lan_level a bp in
  let '(hdr, rqs) := lan_wire a level req seq in
  lan_message a level req seq = ipmb hdr (nest rqs (rq_data req)) /\ zlen rqs = level /\
  hdr_ok hdr /\ Forall (fun s => hdr_ok (sm_msg s)) rqs.
Proof.
  cbv zeta. unfold lan_wire, lan_message.
  destruct (lan_level_cases a bp) as [E | [E | [E _]]]; rewrite E;
    cbn -[u8 u16 ipmi_csum Z.shiftl Z.lor Z.land Z.add Z.mul zlen];
    (split_and!; [| done | apply csum_hdr_ok | repeat constructor; apply csum_hdr_ok]).
  - done.
  - rewrite <- !app_assoc. done.
  - unfold ipmb, hdr_bytes, csum_hdr.
    cbn [nest app h_rsSA h_netFn h_csum1 h_rqSA h_rqSeq h_cmd sm_channel sm_msg].
    unfold ipmb, hdr_bytes. cbn [app h_rsSA h_netFn h_csum1 h_rqSA h_rqSeq h_cmd].
    rewrite <- !app_assoc. cbn [app]. rewrite <- ?app_assoc. done.
Qed.

Lemma zlen_lan_message a bp req seq :
  zlen (lan_message a (lan_level a bp) req seq) = rq_data_len req + 7 + 8 * lan_level a bp.
Proof.
  pose proof (lan_message_nests a bp req seq) as H. cbv zeta in H.
  destruct (lan_wire _ _ _ _) as [hdr rqs]. destruct H as (-> & Hz & _).
  rewrite zlen_ipmb, zlen_nest, Hz. unfold rq_data_len. lia.
Qed.

(** The code of a message under the key of the session. *)
Definition lan_code (s : ipmi_session) (message : list Z) : list Z :=
  let key := slice (authcode s) 0 16 in
  if negb (lan_authenticated s) then []
  else if authtype s =? IPMI_SESSION_AUTHTYPE_MD5
  then rfc_md5 (key ++ htoipmi32 (session_id s) ++ message ++ htoipmi32 (in_seq s) ++ key)
  else if authtype s =? IPMI_SESSION_AUTHTYPE_MD2 then zeros 16 else key.

Definition lan_head (s : ipmi_session) : list Z :=
  rmcp_bytes ++ [if active s then authtype s else 0] ++ htoipmi32 (in_seq s) ++ htoipmi32 (session_id s).

Lemma zlen_lan_code s message : 16 <= zlen (authcode s) ->
  zlen (lan_code s message) = if lan_authenticated s then 16 else 0.
Proof.
  intros H. unfold lan_code. destruct (lan_authenticated s); [| done]. cbn [negb].
  destruct (authtype s =? _); [unfold rfc_md5, md5_digest; by destruct (md5_blocks _ _ _).1 as [[[? ?] ?] ?] |].
  case_test; [done | rewrite zlen_slice; lia].
Qed.

Lemma lan_md5_code s message : zlen (authcode s) = IPMI_AUTHCODE_BUFFER_SIZE + 1 -> zlen message < 256 ->
  ipmi_auth_md5 s message = Ok (rfc_md5 (slice (authcode s) 0 16 ++ htoipmi32 (session_id s) ++ message ++
    htoipmi32 (in_seq s) ++ slice (authcode s) 0 16)).
Proof.
  unfold IPMI_AUTHCODE_BUFFER_SIZE. intros Ha Hm. unfold ipmi_auth_md5.
  rewrite md5_run; [cbn [concat]; by rewrite app_nil_r |].
  change (2 ^ 28) with 268435456. repeat (apply Forall_cons; split); try apply Forall_nil; try done;
    rewrite ?zlen_slice by lia; change (zlen (htoipmi32 _)) with 4; lia.
Qed.

Lemma lan_packet_run a s bp req seq :
  zlen (authcode s) = IPMI_AUTHCODE_BUFFER_SIZE + 1 -> zlen (rq_data req) + 7 + 8 * lan_level a bp < 256 ->
  let message := lan_message a (lan_level a bp) req seq in
  lan_packet a s (lan_level a bp) req seq = Ok (lan_head s ++ lan_code s message ++ [zlen message] ++ message) /\
  or_oob (wr (zeros (lan_buffer_size a s req)) 0 (lan_head s ++ lan_code s message ++ [zlen message] ++ message))
    <> Bad OutOfBounds.
Proof.
  intros Ha Hm message. pose proof (zlen_nonneg (rq_data req)) as H0.
  pose proof (zlen_lan_message a bp req seq) as Hz. fold message in Hz. unfold rq_data_len in Hz.
  assert (0 <= lan_level a bp) as Hl by (destruct (lan_level_cases a bp) as [-> | [-> | [-> _]]]; lia).
  split.
  - unfold lan_packet. fold message. unfold rq_data_len. rewrite <- Hz, u8_small by (unfold is_u8; lia).
    rewrite slice_all by lia. unfold lan_code. destruct (lan_authenticated s); [| done]. cbn [negb].
    destruct (authtype s =? IPMI_SESSION_AUTHTYPE_MD5); [rewrite lan_md5_code by (done || lia); done |].
    by destruct (authtype s =? IPMI_SESSION_AUTHTYPE_MD2).
  - assert (zlen (lan_head s) = 13) as Hh by done.
    pose proof (zlen_lan_code s message) as Hc. unfold IPMI_AUTHCODE_BUFFER_SIZE in Ha.
    specialize (Hc ltac:(lia)).
    assert (0 <= lan_buffer_size a s req - 29 - rq_data_len req) as Hb
      by (unfold lan_buffer_size; repeat case_test; lia).
    unfold rq_data_len in Hb.
    destruct (wr_in_bounds (zeros (lan_buffer_size a s req)) 0
      (lan_head s ++ lan_code s message ++ [zlen message] ++ message)) as [b Eb]; [lia | |].
    { rewrite !zlen_app, zlen_zeros, Hh, Hc, Hz by (unfold lan_buffer_size, rq_data_len; repeat case_test; lia).
      change (zlen [_]) with 1. unfold lan_buffer_size, rq_data_len.
      destruct (lan_level_cases a bp) as [-> | [-> | [-> ->]]]; repeat case_test; lia. }
    by rewrite Eb.
Qed.

(** ** Datagrams *)

(** The datagram of a controller that carries the response [wire], with a code
    exactly when the reader of session [s] skips one; its session id is not the
    one that marks Serial over LAN. *)
Definition lan_datagram (s : ipmi_session) (wire d : list Z) : Prop :=
  exists at_ q0 q1 q2 q3 i0 i1 i2 i3 code,
    d = rmcp_bytes ++ [at_] ++ [q0; q1; q2; q3] ++ [i0; i1; i2; i3] ++ code ++ [zlen wire] ++ wire /\
    zlen code = (if active s && (negb (at_ =? 0) || negb (authtype s =? 0)) then 16 else 0) /\
    ipmi32toh [i0; i1; i2; i3] <> u32 (session_id s + 0x10000000) /\
    zlen d < IPMI_BUF_SIZE.

Lemma lan_datagram_split s wire d : lan_datagram s wire d ->
  exists pre, d = pre ++ [zlen wire] ++ wire /\ zlen d = zlen pre + 1 + zlen wire /\
    13 <= zlen pre <= 29 /\ zlen d < IPMI_BUF_SIZE.
Proof.
  intros (at_ & q0 & q1 & q2 & q3 & i0 & i1 & i2 & i3 & code & -> & Hc & _ & Hz).
  exists (rmcp_bytes ++ [at_] ++ [q0; q1; q2; q3] ++ [i0; i1; i2; i3] ++ code).
  split; [by rewrite <- !app_assoc |]. revert Hz Hc. unfold rmcp_bytes. set (n := zlen wire).
  case_match; zlen_lia.
Qed.

(** The headers of such a datagram, wherever the buffer ends. *)
Lemma lan_headers s r hdr cc data d rest :
  lan_datagram s (ipmb hdr (cc :: data)) d -> rs_data r = d ++ rest ->
  exists r' x, lan_read_headers s r = (r', x) /\
    (ipmi_rq_seq r' = h_rqSeq hdr .>> 2 /\ ipmi_cmd r' = h_cmd hdr) /\
    payloadtype r' = IPMI_PAYLOAD_TYPE_IPMI /\ ccode r' = cc /\ rs_data r' = d ++ rest /\
    rs_data_len r' = rs_data_len r /\ zlen d = x + zlen data + 1 /\ slice d x (zlen data) = data /\ 0 <= x.
Proof.
  intros (at_ & q0 & q1 & q2 & q3 & i0 & i1 & i2 & i3 & code & Hd & Hc & Hid & _) HD.
  set (pre := rmcp_bytes ++ [at_] ++ [q0; q1; q2; q3] ++ [i0; i1; i2; i3] ++ code) in *.
  set (wire := ipmb hdr (cc :: data)) in *.
  assert (d = pre ++ [zlen wire] ++ wire) as Ed by (rewrite Hd; unfold pre; by rewrite <- !app_assoc).
  assert (zlen pre = 13 + zlen code) as Hpre by (unfold pre, rmcp_bytes; zlen_lia).
  assert (rd (d ++ rest) 4 = at_ /\ ipmi32toh (drop 9 (d ++ rest)) = ipmi32toh [i0; i1; i2; i3]) as [H4 H9]
    by (by rewrite Hd).
  assert (forall i, 0 <= i -> rd (d ++ rest) (13 + zlen code + i) = rd (zlen wire :: wire ++ rest) i) as Hrd.
  { intros i Hi. rewrite Ed, <- Hpre, <- app_assoc, rd_app_r by (pose proof (zlen_nonneg pre); lia).
    f_equal. lia. }
  pose proof (zlen_nonneg code).
  unfold lan_read_headers. rewrite HD. set (D := d ++ rest) in *. clearbody D. cbn -[ipmi32toh wire rd zlen u32].
  rewrite H4, H9, (proj2 (Z.eqb_neq _ _) Hid).
  assert ((if active s && (negb (at_ =? 0) || negb (authtype s =? 0)) then 13 + 16 else 13) = 13 + zlen code) as ->
    by (rewrite Hc; by case_match).
  rewrite !(Hrd 5), !(Hrd 6), !(Hrd 7) by lia.
  do 2 eexists. split; [done |]. split; [done |]. split_and!; try done; try lia.
  - rewrite Ed, !zlen_app, Hpre. unfold wire at 2. rewrite zlen_ipmb. autorewrite with zlen. lia.
  - assert (exists c, d = (pre ++ [zlen wire] ++ hdr_bytes hdr ++ [cc]) ++ data ++ c) as [c ->].
    { eexists. rewrite Ed. generalize (zlen wire). intros n. unfold wire, ipmb. rewrite <- !app_assoc. done. }
    apply slice_app_mid; [| done]. rewrite !zlen_app, Hpre. change (zlen (hdr_bytes hdr)) with 6.
    autorewrite with zlen. lia.
Qed.

Lemma lan_recv_run d net s : l_net s = NetPacket d :: net -> 0 < zlen d < IPMI_BUF_SIZE ->
  zlen (rs_data (l_rsp s)) = IPMI_BUF_SIZE ->
  exists rest, lan_recv_packet s = Ok (true, s <| l_net := net |> <| l_rsp :=
      (l_rsp s) <| rs_data := d ++ rest |> <| rs_data_len := zlen d |> |>) /\ zlen (d ++ rest) = IPMI_BUF_SIZE.
Proof.
  intros Hn Hd Hb. set (s0 := s <| l_net := net |>).
  destruct (store_packet_run d s0 Hd Hb) as (rest & Hst & Hz).
  exists rest. split; [| exact Hz]. etrans; [| exact Hst].
  unfold lan_recv_packet, ipmi_lan_recv_packet, next_event, mbind, M_bind. by rewrite Hn.
Qed.

(** A datagram that answers no outstanding request: of another RMCP class, or
    a response whose sequence number and command are not in the list. *)
Definition lan_foreign (s : ipmi_session) (l : Spec.t) (d : list Z) : Prop :=
  (4 <= zlen d < IPMI_BUF_SIZE /\ rd d 3 <> RMCP_CLASS_ASF /\ rd d 3 <> RMCP_CLASS_IPMI) \/
  exists hdr cc data, lan_datagram s (ipmb hdr (cc :: data)) d /\
    Spec.lookup (h_rqSeq hdr .>> 2) (h_cmd hdr) l = None.

Lemma lan_datagram_size s hdr cc data d : lan_datagram s (ipmb hdr (cc :: data)) d -> 0 < zlen d < IPMI_BUF_SIZE.
Proof.
  intros H. destruct (lan_datagram_split _ _ _ H) as (pre & _ & Hz & Hp & Hb).
  pose proof (zlen_nonneg (ipmb hdr (cc :: data))). lia.
Qed.

Lemma lan_datagram_class s wire d rest : lan_datagram s wire d -> rd (d ++ rest) 3 = RMCP_CLASS_IPMI.
Proof. by intros (? & ? & ? & ? & ? & ? & ? & ? & ? & ? & -> & _). Qed.

Lemma lan_foreign_size s l d : lan_foreign s l d -> 0 < zlen d < IPMI_BUF_SIZE.
Proof. intros [[H _] | (hdr & cc & data & H & _)]; [lia | by eapply lan_datagram_size]. Qed.

Lemma lan_loop_foreign fuel x s l d rest :
  Refine.rep (l_reqs s) l -> rs_data (l_rsp s) = d ++ rest -> lan_foreign (l_session s) l d ->
  exists r' x', lan_poll_loop (S fuel) true x s =
      (got ← lan_recv_packet; lan_poll_loop fuel got x') (s <| l_rsp := r' |>) /\ rs_data r' = d ++ rest.
Proof.
  intros Hr Hd Hf. cbn [lan_poll_loop negb]. run_prim. rewrite Hd.
  destruct Hf as [(H4 & H1 & H2) | (hdr & cc & data & Hdg & Hlk)].
  - rewrite rd_app_l by lia. rewrite (proj2 (Z.eqb_neq _ _) H1), (proj2 (Z.eqb_neq _ _) H2). cbn [negb].
    exists (l_rsp s), x. split; [by destruct s | done].
  - rewrite (lan_datagram_class _ _ _ _ Hdg). cbn [Z.eqb negb RMCP_CLASS_IPMI RMCP_CLASS_ASF Pos.eqb]. run_prim.
    destruct (lan_headers _ _ _ _ _ _ rest Hdg Hd) as (r' & x' & -> & [Hp1 Hp2] & Ht & _ & Hd' & _).
    run_prim. rewrite Ht. change (_ =? IPMI_PAYLOAD_TYPE_SOL) with false. cbv iota. rewrite Hp1, Hp2. set (s1 := update _ s).
    run_with (reqs_read _ s1 _ (proj2 (Refine.lookup_refines (h_rqSeq hdr .>> 2) (h_cmd hdr) (l_reqs s1) l Hr))).
    rewrite Hlk. by exists r', x'.
Qed.

Lemma lan_loop_answered fuel x s l d rest hdr cc data p e :
  Refine.rep (l_reqs s) l -> rs_data (l_rsp s) = d ++ rest -> rs_data_len (l_rsp s) = zlen d ->
  lan_datagram (l_session s) (ipmb hdr (cc :: data)) d ->
  Spec.lookup (h_rqSeq hdr .>> 2) (h_cmd hdr) l = Some p -> Spec.get p l = Some e -> e_bridging_level e = 0 ->
  exists h r' x', lan_poll_loop (S fuel) true x s = Ok (LanBreak true x', s <| l_reqs := h |> <| l_rsp := r' |>) /\
    Refine.rep h (Spec.remove (h_rqSeq hdr .>> 2) (h_cmd hdr) l) /\ payloadtype r' = IPMI_PAYLOAD_TYPE_IPMI /\
    ccode r' = cc /\ rs_data r' = d ++ rest /\ rs_data_len r' = x' + zlen data + 1 /\
    slice d x' (zlen data) = data /\ 0 <= x' /\ zlen d = x' + zlen data + 1.
Proof.
  intros Hr Hd Hdl Hdg Hlk Hget Hbl. cbn [lan_poll_loop negb]. run_prim. rewrite Hd.
  rewrite (lan_datagram_class _ _ _ _ Hdg). cbn [Z.eqb negb RMCP_CLASS_IPMI RMCP_CLASS_ASF Pos.eqb]. run_prim.
  destruct (lan_headers _ _ _ _ _ _ rest Hdg Hd)
    as (r' & x' & Hh & [Hp1 Hp2] & Ht & Hc & Hd' & Hl & Hz & Hs & Hx).
  rewrite Hh. run_prim. rewrite Ht. change (_ =? IPMI_PAYLOAD_TYPE_SOL) with false. cbv iota. rewrite Hp1, Hp2. set (s1 := update _ s).
  run_with (reqs_read _ s1 _ (proj2 (Refine.lookup_refines (h_rqSeq hdr .>> 2) (h_cmd hdr) (l_reqs s1) l Hr))).
  rewrite Hlk. destruct (spec_get_split p l e Hget) as (l1 & l2 & El).
  assert (exists nx, Ptr.h_nodes (l_reqs s1) !! p = Some (Ptr.mk_node e nx)) as [nx Hn]
    by (eapply rep_entry; by rewrite <- El).
  run_with (reqs_read _ s1 _ (Refine.deref_run _ _ _ Hn)). cbn [Ptr.n_entry].
  rewrite Hbl. cbn [Z.eqb negb andb]. rewrite andb_false_r.
  destruct (Refine.remove_refines (h_rqSeq hdr .>> 2) (h_cmd hdr) (l_reqs s1) l Hr) as (h & Hrem & Hh' & _).
  run_with (reqs_run _ s1 _ _ Hrem). exists h, r', x'. rewrite Hl, Hdl. by split_and!.
Qed.

(** Foreign datagrams are skipped, the answer ends the loop. *)
Lemma lan_loop_run s ds d net hdr cc data l p e :
  Refine.rep (l_reqs s) l -> zlen (rs_data (l_rsp s)) = IPMI_BUF_SIZE ->
  l_net s = map NetPacket ds ++ NetPacket d :: net -> Forall (lan_foreign (l_session s) l) ds ->
  lan_datagram (l_session s) (ipmb hdr (cc :: data)) d ->
  Spec.lookup (h_rqSeq hdr .>> 2) (h_cmd hdr) l = Some p -> Spec.get p l = Some e -> e_bridging_level e = 0 ->
  forall fuel x, (length ds < fuel)%nat ->
  exists h r' x', (got ← lan_recv_packet; lan_poll_loop fuel got x) s =
      Ok (LanBreak true x', s <| l_net := net |> <| l_reqs := h |> <| l_rsp := r' |>) /\
    Refine.rep h (Spec.remove (h_rqSeq hdr .>> 2) (h_cmd hdr) l) /\ payloadtype r' = IPMI_PAYLOAD_TYPE_IPMI /\
    ccode r' = cc /\ zlen (rs_data r') = IPMI_BUF_SIZE /\ rs_data_len r' = x' + zlen data + 1 /\
    slice (rs_data r') x' (zlen data) = data /\ 0 <= x' /\ zlen d = x' + zlen data + 1.
Proof.
  intros Hr Hb Hn Hf Hdg Hlk Hget Hbl. revert s Hr Hb Hn Hf Hdg. induction ds as [| d' ds IH];
    intros s Hr Hb Hn Hf Hdg fuel x Hfuel; (destruct fuel as [| fuel]; [cbn in Hfuel; lia |]).
  - destruct (lan_recv_run d net s Hn) as (rest & Hrecv & Hz); [by eapply lan_datagram_size | done |].
    run_with Hrecv. set (s1 := s <| l_net := _ |> <| l_rsp := _ |>).
    destruct (lan_loop_answered fuel x s1 l d rest hdr cc data p e)
      as (h & r' & x' & Hrun & Hh & Ht & Hc & Hd & Hl & Hs & Hx & Hzd); try done.
    exists h, r', x'. split; [exact Hrun |]. rewrite Hd. split_and!; try done.
    assert (0 <= zlen data) by apply zlen_nonneg. unfold slice in *. rewrite drop_app_le by (unfold zlen in *; lia).
    rewrite take_app_le; [done |]. rewrite length_drop. unfold zlen in *. lia.
  - apply Forall_cons in Hf as [Hd' Hf].
    destruct (lan_recv_run d' (map NetPacket ds ++ NetPacket d :: net) s Hn) as (rest & Hrecv & Hz);
      [by eapply lan_foreign_size | done |].
    run_with Hrecv. set (s1 := s <| l_net := _ |> <| l_rsp := _ |>).
    destruct (lan_loop_foreign fuel x s1 l d' rest) as (r1 & x1 & Hrun & Hd1); [done .. |].
    rewrite Hrun. destruct (IH (s1 <| l_rsp := r1 |>)) with (fuel := fuel) (x := x1)
      as (h & r' & x' & Hrun' & Hrest); try done; [by rewrite <- Hd1 in Hz | cbn in Hfuel; lia |].
    exists h, r', x'. split; [exact Hrun' | exact Hrest].
Qed.

(** The data of the answer move to the start of the buffer. *)
Lemma lan_shift_run s x data :
  payloadtype (l_rsp s) = IPMI_PAYLOAD_TYPE_IPMI -> zlen (rs_data (l_rsp s)) = IPMI_BUF_SIZE ->
  rs_data_len (l_rsp s) = x + zlen data + 1 -> slice (rs_data (l_rsp s)) x (zlen data) = data -> 0 <= x ->
  x + zlen data + 1 < IPMI_BUF_SIZE ->
  exists r, lan_shift x s = Ok (tt, s <| l_rsp := r |>) /\ ccode r = ccode (l_rsp s) /\ rsp_data r = data /\
    zlen (rs_data r) = IPMI_BUF_SIZE.
Proof.
  intros Ht Hz Hl Hs Hx Hb. pose proof (zlen_nonneg data). unfold lan_shift. run_prim.
  rewrite Ht, Z.eqb_refl, Hl, (proj2 (Z.leb_gt _ _)) by lia.
  replace (x + zlen data + 1 - x - 1) with (zlen data) by lia. rewrite Hs, Hz, (proj2 (Z.leb_le _ _)) by lia.
  run_prim. change (rs_data (l_rsp s)) with ([] ++ rs_data (l_rsp s)).
  assert (zlen (data ++ zeros (IPMI_BUF_SIZE - zlen data)) = IPMI_BUF_SIZE) as Hn
    by (rewrite zlen_app, zlen_zeros; lia).
  rewrite wr_next by (done || (rewrite Hn, Hz; done)). cbn [or_oob app]. run_prim.
  eexists. split; [done |]. cbn. split_and!; [done | |].
  - unfold rsp_data. cbn. rewrite <- app_assoc. apply take_app_length'. unfold zlen. by rewrite Nat2Z.id.
  - rewrite zlen_app, Hn, zlen_drop, Hz. lia.
Qed.

Lemma lan_poll_answered s ds d net hdr cc data l p e :
  Refine.rep (l_reqs s) l -> zlen (rs_data (l_rsp s)) = IPMI_BUF_SIZE ->
  l_net s = map NetPacket ds ++ NetPacket d :: net -> Forall (lan_foreign (l_session s) l) ds ->
  lan_datagram (l_session s) (ipmb hdr (cc :: data)) d ->
  Spec.lookup (h_rqSeq hdr .>> 2) (h_cmd hdr) l = Some p -> Spec.get p l = Some e -> e_bridging_level e = 0 ->
  exists h r', lan_poll_recv s = Ok (true, s <| l_net := net |> <| l_reqs := h |> <| l_rsp := r' |>) /\
    Refine.rep h (Spec.remove (h_rqSeq hdr .>> 2) (h_cmd hdr) l) /\
    ccode r' = cc /\ rsp_data r' = data /\ zlen (rs_data r') = IPMI_BUF_SIZE.
Proof.
  intros Hr Hb Hn Hf Hdg Hlk Hget Hbl.
  assert (exists d0 tl, l_net s = NetPacket d0 :: tl /\ 0 < zlen d0 < IPMI_BUF_SIZE /\ (length ds <= length tl)%nat)
    as (d0 & tl & Hn0 & Hd0 & Htl).
  { pose proof (lan_datagram_size _ _ _ _ _ Hdg). destruct ds as [| d' ds]; [exists d, net; by cbn; auto with lia |].
    apply Forall_cons in Hf as [Hd' _]. exists d', (map NetPacket ds ++ NetPacket d :: net).
    apply lan_foreign_size in Hd'. rewrite length_app, length_map. cbn. auto with lia. }
  destruct (lan_recv_run d0 tl s Hn0 Hd0 Hb) as (rest & Hrecv & _). unfold lan_poll_recv.
  set (s1 := update _ _) in Hrecv.
  destruct (lan_loop_run s ds d net hdr cc data l p e) with (fuel := lan_poll_fuel s1) (x := 0)
    as (h & r' & x' & Hrun & Hh & Ht & Hc & Hz & Hl & Hs & Hx & Hzd); try done.
  { unfold lan_poll_fuel. change (l_net s1) with tl. lia. }
  rewrite (M_bind_run _ _ _ _ _ Hrecv) in Hrun. run_with Hrecv. run_prim. run_with Hrun. clear Hrun Hrecv s1.
  apply lan_datagram_size in Hdg.
  destruct (lan_shift_run (s <| l_net := net |> <| l_reqs := h |> <| l_rsp := r' |>) x' data)
    as (r2 & Hsh & Hc2 & Hd2 & Hz2); [done .. | cbn; lia |].
  run_with Hsh. exists h, r2. rewrite Hc2. by split_and!.
Qed.

(** ** A command *)

Section Command.
Context `{mem : Malloc}.
Hypothesis malloc_ok : forall n, is_Some (malloc n).

(** The sequence number of the next request, and the packet that carries it. *)
Definition lan_next_seq (s : lp) : Z := if 64 <=? curr_seq s + 1 then 0 else curr_seq s + 1.

Definition lan_sent_packet (s : lp) (req : ipmi_rq) : list Z :=
  let '(hdr, rqs) := lan_wire (addr (l_intf s)) (lan_level (addr (l_intf s)) (bridgePossible s)) req (lan_next_seq s) in
  let message := ipmb hdr (nest rqs (rq_data req)) in
  lan_head (l_session s) ++ lan_code (l_session s) message ++ [zlen message] ++ message.

(** The key has the size of its array and the message fits its length byte. *)
Definition lan_can_build (s : lp) (req : ipmi_rq) : Prop :=
  zlen (authcode (l_session s)) = IPMI_AUTHCODE_BUFFER_SIZE + 1 /\
  zlen (rq_data req) + 7 + 8 * lan_level (addr (l_intf s)) (bridgePossible s) < 256.

Definition lan_built (s : lp) (h : Ptr.hst) : lp :=
  s <| curr_seq := lan_next_seq s |> <| l_reqs := h |> <| l_session := lan_next_in_seq (l_session s) |>.

(** The list of outstanding requests once the request is in it. *)
Definition lan_pending (s : lp) (req : ipmi_rq) (l : Spec.t) : Spec.t :=
  l ++ [(Spec.fresh_loc l, e_set_msg_data (Some (lan_sent_packet s req))
          (lan_mark (lan_level (addr (l_intf s)) (bridgePossible s)) (lan_next_seq s)
             (Spec.new_entry req (lan_next_seq s))))].

Lemma lan_build_run s req l :
  lan_can_build s req -> Refine.rep (l_reqs s) l -> Spec.lookup (lan_next_seq s) (rq_cmd req) l = None ->
  exists h, ipmi_lan_build_cmd req false s = Ok (Some (Spec.fresh_loc l), lan_built s h) /\
    Refine.rep h (lan_pending s req l).
Proof.
  intros [Ha Hm] Hr Hlk. set (p := Spec.fresh_loc l). set (level := lan_level (addr (l_intf s)) (bridgePossible s)).
  unfold ipmi_lan_build_cmd. run_prim. fold (lan_next_seq s). run_prim.
  set (seq := lan_next_seq s) in *. set (s1 := s <| curr_seq := seq |>). unfold lan_entry.
  rewrite bind_assoc_run.
  run_with (reqs_read _ s1 _ (proj2 (Refine.lookup_refines seq (rq_cmd req) (l_reqs s1) l Hr))).
  rewrite Hlk. unfold add_entry. rewrite bool_decide_true by done.
  destruct (Refine.add_refines req seq (l_reqs s1) l Hr) as (h1 & Hadd & Hr1 & _).
  run_with (reqs_run _ s1 _ _ Hadd). fold p.
  destruct (malloc_ok (lan_buffer_size (addr (l_intf s)) (l_session s) req)) as [m ->]. fold level.
  set (s2 := s1 <| l_reqs := h1 |>).
  destruct (set_entry_run p (lan_mark level seq) s2 l _ [] Hr1) as (h2 & Hset & Hr2). run_with Hset.
  destruct (lan_packet_run (addr (l_intf s)) (l_session s) (bridgePossible s) req seq Ha Hm) as [Hp Hw].
  cbv zeta in Hp, Hw. fold level in Hp, Hw. rewrite Hp. run_prim.
  set (wire := lan_head _ ++ _) in *.
  assert (wire = lan_sent_packet s req) as Hwire.
  { unfold lan_sent_packet. fold level seq. subst wire.
    pose proof (lan_message_nests (addr (l_intf s)) (bridgePossible s) req seq) as Hn. cbv zeta in Hn.
    fold level in Hn. destruct (lan_wire _ _ _ _) as [hdr rqs]. by destruct Hn as (-> & _). }
  destruct (wr _ 0 wire) as [b |]; [| done]. cbn [or_oob]. run_prim. run_prim.
  set (s3 := update _ (update _ s2)).
  destruct (set_entry_run p (e_set_msg_data (Some wire)) s3 l _ [] Hr2) as (h3 & Hset3 & Hr3).
  run_with Hset3. exists h3. unfold lan_pending. rewrite <- Hwire. by split.
Qed.

(** What an opened interface needs to send a command to its controller. *)
Record lan_ready (s : lp) (req : ipmi_rq) : Prop := {
  lan_ready_build : lan_can_build s req;
  lan_ready_direct : lan_level (addr (l_intf s)) (bridgePossible s) = 0;
  lan_ready_send : l_send s = all_sent;
  lan_ready_answer : noanswer (l_intf s) = false;
  lan_ready_intel : ipmi_oem_active (l_intf s) "intelwv2" = false;
  lan_ready_buffer : zlen (rs_data (l_rsp s)) = IPMI_BUF_SIZE;
}.

Lemma lan_datagram_next s wire d : lan_datagram s wire d <-> lan_datagram (lan_next_in_seq s) wire d.
Proof. unfold lan_next_in_seq. by case_match. Qed.

Lemma lan_foreign_next s l d : lan_foreign s l d -> lan_foreign (lan_next_in_seq s) l d.
Proof.
  intros [H | (hdr & cc & data & H & Hl)]; [by left |]. right. exists hdr, cc, data. split; [| done].
  by rewrite <- lan_datagram_next.
Qed.

Lemma lan_send_answered s req l ds d net hdr cc data fuel :
  lan_ready s req -> Refine.rep (l_reqs s) l -> Spec.lookup (lan_next_seq s) (rq_cmd req) l = None ->
  l_net s = map NetPacket ds ++ NetPacket d :: net ->
  Forall (lan_foreign (l_session s) (lan_pending s req l)) ds ->
  lan_datagram (l_session s) (ipmb hdr (cc :: data)) d ->
  h_rqSeq hdr .>> 2 = lan_next_seq s -> h_cmd hdr = rq_cmd req -> cc <> 0xcf ->
  exists h r, lan_send_loop (S fuel) req 0 s = Ok (Some true, (lan_built s h) <| l_net := net |> <| l_rsp := r |>
      <| l_sent := l_sent s ++ [lan_sent_packet s req] |>) /\
    Refine.rep h l /\ ccode r = cc /\ rsp_data r = data /\ zlen (rs_data r) = IPMI_BUF_SIZE.
Proof.
  intros [Hb Hdir Hs Hno Hint Hbuf] Hr Hlk Hn Hf Hdg Hseq Hcmd Hcc. cbn [lan_send_loop Z.ltb Z.compare].
  destruct (lan_build_run s req l Hb Hr Hlk) as (h & Hbuild & Hr1). run_with Hbuild.
  set (s1 := lan_built s h). destruct (rep_entry _ _ _ _ _ Hr1) as [nx Hp].
  run_with (reqs_read _ s1 _ (Refine.deref_run _ _ _ Hp)). cbn [Ptr.n_entry e_msg_data e_set_msg_data default].
  run_with (send_packet_run (lan_sent_packet s req) s1 Hs). cbn [negb]. run_prim.
  change (l_intf (update _ s1)) with (l_intf s). rewrite Hno, Hint. run_prim. set (s2 := update _ s1).
  unfold lan_pending in Hf, Hr1. set (e := e_set_msg_data _ _) in *.
  assert (Spec.matches (lan_next_seq s) (rq_cmd req) e = true) as Hm.
  { unfold e, lan_mark. rewrite Hdir. unfold Spec.matches. cbn. by rewrite !Z.eqb_refl. }
  destruct (lookup_snoc _ _ _ (Spec.fresh_loc l) e Hlk Hm (Refine.fresh_loc_notin l)) as (H1 & H2 & H3).
  destruct (lan_poll_answered s2 ds d net hdr cc data (l ++ [(Spec.fresh_loc l, e)]) (Spec.fresh_loc l) e)
    as (h' & r & Hpoll & Hr' & Hc' & Hd' & Hz'); [done | done | done | | by apply -> lan_datagram_next | | done | |].
  - eapply Forall_impl; [exact Hf |]. intros ?. apply lan_foreign_next.
  - by rewrite Hseq, Hcmd.
  - unfold e, lan_mark. by rewrite Hdir.
  - run_with Hpoll. rewrite Hseq, Hcmd, H2 in Hr'. run_prim. cbn [l_rsp update].
    rewrite Hc', (proj2 (Z.eqb_neq _ _) Hcc). run_prim. exists h', r. by split_and!.
Qed.

Lemma lan_cmd_run s req l ds d net hdr cc data :
  lan_ready s req -> Refine.rep (l_reqs s) l -> Spec.lookup (lan_next_seq s) (rq_cmd req) l = None ->
  l_net s = map NetPacket ds ++ NetPacket d :: net ->
  Forall (lan_foreign (l_session s) (lan_pending s req l)) ds ->
  lan_datagram (l_session s) (ipmb hdr (cc :: data)) d ->
  h_rqSeq hdr .>> 2 = lan_next_seq s -> h_cmd hdr = rq_cmd req -> cc <> 0xcf ->
  exists h r, lan_send_cmd_opened req s = Ok (true, (lan_built s h) <| l_net := net |> <| l_rsp := r |>
      <| l_sent := l_sent s ++ [lan_sent_packet s req] |>) /\
    Refine.rep h [] /\ ccode r = cc /\ rsp_data r = data.
Proof.
  intros Hrdy Hr Hlk Hn Hf Hdg Hseq Hcmd Hcc. unfold lan_send_cmd_opened. run_prim. unfold lan_send_fuel.
  rewrite Nat.add_1_r.
  destruct (lan_send_answered s req l ds d net hdr cc data (length (s_next (l_send s)) + Z.to_nat (retry (ssn_params (l_intf s)))))
    as (h & r & Hrun & Hh & Hc & Hd & _); try done.
  run_with Hrun. set (s1 := update _ _).
  run_with (reqs_run _ s1 _ _ (Refine.clear_refines _ _ Hh)). eexists _, r. split; [reflexivity |].
  split; [apply Refine.rep_empty | done].
Qed.

(** The packet of a request, in every bridging mode of an active or a
    set-up session, is built inside its buffer: the RMCP and session headers,
    the code that the session's type of authentication prescribes (the digest
    of RFC 1321 over key, session id, message, sequence number and key for
    MD5), the length byte and the IPMB message, in which the request is nested
    in as many Send Message requests as bridges are crossed, each header with
    its checksum.  It is remembered in a new entry, and the sequence numbers of
    session and request advance. *)
Theorem lan_request_built s req l :
  lan_can_build s req -> Refine.rep (l_reqs s) l -> Spec.lookup (lan_next_seq s) (rq_cmd req) l = None ->
  let level := lan_level (addr (l_intf s)) (bridgePossible s) in
  let '(hdr, rqs) := lan_wire (addr (l_intf s)) level req (lan_next_seq s) in
  let message := ipmb hdr (nest rqs (rq_data req)) in
  let packet := lan_head (l_session s) ++ lan_code (l_session s) message ++ [zlen message] ++ message in
  zlen rqs = level /\ hdr_ok hdr /\ Forall (fun r => hdr_ok (sm_msg r)) rqs /\
  zlen packet <= lan_buffer_size (addr (l_intf s)) (l_session s) req /\
  exists h, ipmi_lan_build_cmd req false s = Ok (Some (Spec.fresh_loc l), lan_built s h) /\
    Refine.rep h (l ++ [(Spec.fresh_loc l, e_set_msg_data (Some packet)
      (lan_mark level (lan_next_seq s) (Spec.new_entry req (lan_next_seq s))))]).
Proof.
  intros Hb Hr Hlk level.
  pose proof (lan_message_nests (addr (l_intf s)) (bridgePossible s) req (lan_next_seq s)) as Hn. cbv zeta in Hn.
  destruct (lan_build_run s req l Hb Hr Hlk) as (h & Hrun & Hrep).
  unfold lan_pending, lan_sent_packet in Hrep. fold level in Hn, Hrep.
  destruct (lan_packet_run (addr (l_intf s)) (l_session s) (bridgePossible s) req (lan_next_seq s)) as [_ Hw];
    [apply Hb | apply Hb |]. cbv zeta in Hw. fold level in Hw.
  destruct (lan_wire _ _ _ _) as [hdr rqs]. destruct Hn as (Hm & Hz & Hh & Hf). rewrite Hm in Hw.
  cbv zeta. split_and!; try done; [| by exists h].
  destruct (wr _ 0 _) as [b |] eqn:E; [| done]. apply wr_Some in E as (_ & E & _). rewrite zlen_zeros in E; [lia |].
  unfold lan_buffer_size, rq_data_len. pose proof (zlen_nonneg (rq_data req)). repeat case_test; lia.
Qed.

(** C21. On an open v1.5 interface, after any number of datagrams that answer
    no outstanding request, the answer to a command is returned with exactly
    the completion code and the data that the controller put into it; one
    packet was sent and no request is left outstanding.  Nothing is asked of
    the authentication code of the answer, in an authenticated session too:
    the transport skips it. *)
Theorem lan_command_answered s req l ds d net hdr cc data :
  lan_ready s req -> Refine.rep (l_reqs s) l -> Spec.lookup (lan_next_seq s) (rq_cmd req) l = None ->
  l_net s = map NetPacket ds ++ NetPacket d :: net ->
  Forall (lan_foreign (l_session s) (lan_pending s req l)) ds ->
  lan_datagram (l_session s) (ipmb hdr (cc :: data)) d ->
  h_rqSeq hdr .>> 2 = lan_next_seq s -> h_cmd hdr = rq_cmd req -> cc <> 0xcf ->
  exists r s', lan_sendrecv req s = Ok (Some r, s') /\ ccode r = cc /\ rsp_data r = data /\
    Refine.rep (l_reqs s') [] /\ l_net s' = net /\ l_sent s' = l_sent s ++ [lan_sent_packet s req] /\
    l_session s' = lan_next_in_seq (l_session s).
Proof.
  intros Hrdy Hr Hlk Hn Hf Hdg Hseq Hcmd Hcc.
  destruct (lan_cmd_run s req l ds d net hdr cc data) as (h & r & Hrun & Hh & Hc & Hd); [done .. |].
  unfold lan_sendrecv. run_with Hrun. eexists r, _. by split_and!.
Qed.

(** *** The type of authentication *)

(** A type that the controller offers ([enabled]), that the user permits and
    for which there is a password. *)
Definition authtype_usable (p : ipmi_session_params) (enabled t : Z) : Prop :=
  Z.testbit enabled t = true /\ (authtype_set p = 0 \/ authtype_set p = t) /\
  (t <> IPMI_SESSION_AUTHTYPE_NONE -> password p <> 0).

(** The types from the strongest to the weakest. *)
Definition authtype_rank (t : Z) : Z :=
  if t =? IPMI_SESSION_AUTHTYPE_MD5 then 4 else if t =? IPMI_SESSION_AUTHTYPE_MD2 then 3
  else if t =? IPMI_SESSION_AUTHTYPE_PASSWORD then 2 else if t =? IPMI_SESSION_AUTHTYPE_OEM then 1 else 0.

Definition authtypes : list Z := [IPMI_SESSION_AUTHTYPE_MD5; IPMI_SESSION_AUTHTYPE_MD2;
  IPMI_SESSION_AUTHTYPE_PASSWORD; IPMI_SESSION_AUTHTYPE_OEM; IPMI_SESSION_AUTHTYPE_NONE].

Lemma land_bit a n : 0 <= n -> negb (a .& (1 .<< n) =? 0) = Z.testbit a n.
Proof.
  intros Hn. rewrite Z.shiftl_1_l. destruct (Z.testbit a n) eqn:E.
  - apply negb_true_iff, Z.eqb_neq. intros H. apply (f_equal (fun x => Z.testbit x n)) in H.
    rewrite Z.land_spec, E, Z.pow2_bits_true, Z.bits_0 in H by done. done.
  - apply negb_false_iff, Z.eqb_eq, Z.bits_inj'. intros m Hm. rewrite Z.land_spec, Z.bits_0, Z.pow2_bits_eqb by done.
    destruct (Z.eqb_spec n m) as [<- |]; [by rewrite E | apply andb_false_r].
Qed.

Lemma choose_strongest p enabled :
  match lan_choose_authtype (password p) (authtype_set p) enabled with
  | Some t => t ∈ authtypes /\ authtype_usable p enabled t /\
      forall t', t' ∈ authtypes -> authtype_usable p enabled t' -> authtype_rank t' <= authtype_rank t
  | None => forall t', t' ∈ authtypes -> ~ authtype_usable p enabled t'
  end.
Proof.
  set (U t := Z.testbit enabled t && ((authtype_set p =? 0) || (authtype_set p =? t)) &&
    ((t =? IPMI_SESSION_AUTHTYPE_NONE) || negb (password p =? 0))).
  assert (forall t, authtype_usable p enabled t <-> U t = true) as HU.
  { intros t. unfold authtype_usable, U. rewrite !andb_true_iff, !orb_true_iff, negb_true_iff, !Z.eqb_eq, Z.eqb_neq.
    destruct (Z.eq_dec t IPMI_SESSION_AUTHTYPE_NONE); intuition. }
  assert (lan_choose_authtype (password p) (authtype_set p) enabled = find U authtypes) as ->.
  { unfold lan_choose_authtype, authtypes. rewrite !land_bit by done. cbn [find]. unfold U.
    repeat match goal with |- context [IPMI_SESSION_AUTHTYPE_NONE =? ?t] => idtac | |- context [?t =? IPMI_SESSION_AUTHTYPE_NONE] =>
      let b := eval vm_compute in (t =? IPMI_SESSION_AUTHTYPE_NONE) in change (t =? IPMI_SESSION_AUTHTYPE_NONE) with b end.
    destruct (password p =? 0); cbn [negb andb orb]; rewrite ?andb_true_r, ?andb_false_r;
      repeat (rewrite (andb_comm (_ || _))); done. }
  assert (forall t, t ∈ authtypes <-> t = 2 \/ t = 1 \/ t = 4 \/ t = 5 \/ t = 0) as Hin
    by (intros t; unfold authtypes; rewrite !elem_of_cons, elem_of_nil; intuition).
  assert (find U authtypes = if U 2 then Some 2 else if U 1 then Some 1 else if U 4 then Some 4
    else if U 5 then Some 5 else if U 0 then Some 0 else None) as -> by done. clearbody U.
  repeat match goal with |- context [if U ?t then _ else _] => destruct (U t) eqn:? end;
    try (split; [apply Hin; lia | split; [by apply HU |]]);
    intros t' Ht' H; apply Hin in Ht'; apply HU in H;
    destruct Ht' as [-> | [-> | [-> | [-> | ->]]]]; try congruence; vm_compute; discriminate.
Qed.

(** The answer of the controller to Get Channel Authentication Capabilities. *)
Definition lan_caps_request (s : lp) : ipmi_rq :=
  lan_request 0x38 [LAN_V15_CHANNEL_E; privlvl (ssn_params (l_intf s))].

(** C23. The authentication type of a session is negotiated soundly: after the
    controller's answer it is a type that the controller offers and the user
    permits, with a password unless it is NONE, and no stronger one of this
    kind is offered; the call fails exactly when there is none, and the
    status byte of the answer is remembered.  The value of NONE is 0, so it
    cannot be told from no choice of the user. *)
Theorem lan_authtype_negotiated s l ds d net hdr a0 enabled status data :
  let req := lan_caps_request s in
  lan_ready s req -> Refine.rep (l_reqs s) l -> Spec.lookup (lan_next_seq s) (rq_cmd req) l = None ->
  l_net s = map NetPacket ds ++ NetPacket d :: net ->
  Forall (lan_foreign (l_session s) (lan_pending s req l)) ds ->
  lan_datagram (l_session s) (ipmb hdr (0 :: a0 :: enabled :: status :: data)) d ->
  h_rqSeq hdr .>> 2 = lan_next_seq s -> h_cmd hdr = rq_cmd req ->
  let p := ssn_params (l_intf s) in
  exists rc s', lan_get_auth_capabilities_cmd s = Ok (rc, s') /\ authstatus (l_session s') = status /\
    ((rc = 0 /\ let t := authtype (l_session s') in t ∈ authtypes /\ authtype_usable p enabled t /\
        forall t', t' ∈ authtypes -> authtype_usable p enabled t' -> authtype_rank t' <= authtype_rank t) \/
     (rc = -1 /\ forall t, t ∈ authtypes -> ~ authtype_usable p enabled t)).
Proof.
  intros req Hrdy Hr Hlk Hn Hf Hdg Hseq Hcmd p.
  destruct (lan_cmd_run s req l ds d net hdr 0 (a0 :: enabled :: status :: data))
    as (h & r & Hrun & Hh & Hc & Hd); [done .. |].
  set (s1 := update _ _) in Hrun.
  assert (lan_command 0x38 [LAN_V15_CHANNEL_E; privlvl p] s = Ok (Some (rs_data r), s1)) as Hcmd'.
  { unfold lan_command, lan_sendrecv. rewrite bind_assoc_run. change (lan_request _ _) with req. run_with Hrun.
    run_prim. change (l_rsp s1) with r. by rewrite Hc. }
  assert (rd (rs_data r) 1 = enabled /\ rd (rs_data r) 2 = status) as [H1 H2].
  { unfold rsp_data in Hd. destruct (rs_data r) as [| b0 [| b1 [| b2 bs]]], (Z.to_nat (rs_data_len r)) as [| [| [| n]]];
      try discriminate Hd. by injection Hd as -> -> -> _. }
  unfold lan_get_auth_capabilities_cmd. run_prim. fold p. run_with Hcmd'. run_prim. rewrite H1, H2.
  pose proof (choose_strongest p enabled) as Hch. destruct (lan_choose_authtype _ _ _) as [t |].
  - run_prim. eexists 0, _. split; [done |]. split; [done |]. left. by split.
  - eexists (-1), _. split; [done |]. split; [done |]. by right.
Qed.
End Command.

(** ** Witnesses *)

(** An MD5 session with id 5, and the state before a session is set up. *)
Definition witness_v15 : ipmi_session :=
  zero_session <| active := true |> <| authtype := IPMI_SESSION_AUTHTYPE_MD5 |> <| session_id := 5 |> <| in_seq := 1 |>
    <| authcode := zeros 21 |>.

Definition witness_v15_state (net : list net_event) : lp := init_lp witness_lan witness_v15 net.
Definition witness_v15_fresh (net : list net_event) : lp :=
  init_lp witness_lan (zero_session <| authcode := zeros 21 |>) net.

(** A bridged state: channel 7 over the transit controller 0x30. *)
Definition witness_v15_bridged : lp :=
  (init_lp (witness_lan <| addr := (addr witness_lan) <| target_addr := 0x42 |> <| target_channel := 7 |>
     <| transit_addr := 0x30 |> <| transit_channel := 6 |> |>) witness_v15 []) <| bridgePossible := true |>.

Definition witness_v15_request : ipmi_rq := mk_rq 6 0 1 0 [8; 9].

(** A datagram of another class, and the answer with a code of zeros. *)
Definition witness_v15_answer (at_ : Z) (code wire : list Z) : list Z :=
  rmcp_bytes ++ [at_] ++ [1; 0; 0; 0] ++ [5; 0; 0; 0] ++ code ++ [zlen wire] ++ wire.

Lemma lan_request_built_witness :
  lan_level (addr (l_intf witness_v15_bridged)) (bridgePossible witness_v15_bridged) = 2 /\
  exists h p, ipmi_lan_build_cmd witness_v15_request false witness_v15_bridged =
    Ok (Some p, lan_built witness_v15_bridged h).
Proof.
  split; [reflexivity |].
  pose proof (lan_request_built toy_malloc_ok witness_v15_bridged witness_v15_request []
    (conj eq_refl eq_refl) (Refine.rep_empty _) eq_refl) as H.
  cbv zeta in H. destruct (lan_wire _ _ _ _) as [hdr rqs]. destruct H as (_ & _ & _ & _ & h & H & _).
  by exists h, (Spec.fresh_loc []).
Defined.

Lemma witness_v15_ready net : lan_ready (witness_v15_state net) witness_v15_request.
Proof. by split. Defined.

Lemma lan_command_answered_witness :
  let wire := ipmb (mk_hdr 0x81 0x1c 0 0x20 4 1) [0; 0x51; 0x52] in
  let s := witness_v15_state [NetPacket [6; 0; 255; 8; 1]; NetPacket (witness_v15_answer 2 (zeros 16) wire)] in
  exists r s', lan_sendrecv witness_v15_request s = Ok (Some r, s') /\ ccode r = 0 /\ rsp_data r = [0x51; 0x52] /\
    Refine.rep (l_reqs s') [] /\ l_net s' = [] /\ l_sent s' = l_sent s ++ [lan_sent_packet s witness_v15_request] /\
    l_session s' = lan_next_in_seq (l_session s).
Proof.
  intros wire s.
  apply (lan_command_answered toy_malloc_ok s witness_v15_request [] [[6; 0; 255; 8; 1]]
    (witness_v15_answer 2 (zeros 16) wire) [] (mk_hdr 0x81 0x1c 0 0x20 4 1) 0 [0x51; 0x52]).
  - apply witness_v15_ready.
  - apply Refine.rep_empty.
  - reflexivity.
  - reflexivity.
  - constructor; [| constructor]. left. split_and!; vm_compute; done.
  - do 10 eexists. split; [reflexivity |]. split_and!; [reflexivity | vm_compute; discriminate | reflexivity].
  - reflexivity.
  - reflexivity.
  - discriminate.
Defined.

Lemma lan_authtype_negotiated_witness :
  let wire := ipmb (mk_hdr 0x81 0x1c 0 0x20 4 0x38) [0; 1; 0x16; 0x10; 0; 0; 0; 0; 0] in
  let s := witness_v15_fresh [NetPacket (witness_v15_answer 0 [] wire)] in
  exists rc s', lan_get_auth_capabilities_cmd s = Ok (rc, s') /\ authstatus (l_session s') = 0x10.
Proof.
  intros wire s.
  destruct (lan_authtype_negotiated toy_malloc_ok s [] [] (witness_v15_answer 0 [] wire) [] (mk_hdr 0x81 0x1c 0 0x20 4 0x38)
    1 0x16 0x10 [0; 0; 0; 0; 0]) as (rc & s' & H1 & H2 & _).
  - by split.
  - apply Refine.rep_empty.
  - reflexivity.
  - reflexivity.
  - constructor.
  - do 10 eexists. split; [reflexivity |]. split_and!; [reflexivity | vm_compute; discriminate | reflexivity].
  - reflexivity.
  - reflexivity.
  - exists rc, s'. exact (conj H1 H2).
Defined.
