(* ===== verification/LanplusSol.v ===== *)
(** * Serial over LAN (src/plugins/lanplus/lanplus.c)

    Sequence numbers, acknowledgement, and the removal of data that a
    retransmitted packet repeats. *)

From S2P Require Import Prelude Wire Ipmi Ipmb Intf Session Crypt LanplusMsg ReqList Lanplus.
From S2P Require Import LanplusSession LanplusState LanplusRun.

#[local] Open Scope Z_scope.

(** The bytes of a SOL payload of the BMC. *)
Definition sol_wire (seq acked count flags : Z) (data : list Z) : list Z :=
  [seq; acked; count; flags] ++ data.

(** What is new in a packet, given what the last one with its number held. *)
Definition new_data (s : lp) (seq : Z) (data : list Z) : list Z :=
  if seq =? l_last_sol_seq s then drop (Z.to_nat (l_last_sol_count s)) data else data.

Lemma land_0f x : 0 <= x < 16 -> x .& 0x0F = x.
Proof.
  intros H. assert (all_u8 (fun t => (16 <=? t) || (t .& 0x0F =? t)) = true) as Ha by (vm_compute; done).
  pose proof (all_u8_spec _ x Ha ltac:(unfold is_u8; lia)) as Hx. cbv beta in Hx.
  rewrite (proj2 (Z.leb_gt _ _)) in Hx by lia. by apply Z.eqb_eq in Hx.
Qed.

(** A SOL packet: acknowledged fields and data. *)
Definition is_sol (rsp : ipmi_rs) (seq : Z) (data : list Z) : Prop :=
  rs_authtype rsp = IPMI_SESSION_AUTHTYPE_RMCP_PLUS /\ payloadtype rsp = IPMI_PAYLOAD_TYPE_SOL /\
  sol_seq (sol_fields rsp) = seq /\
  rsp_data rsp = data /\ rs_data_len rsp = zlen data /\ zlen data <= zlen (rs_data rsp).

Lemma is_sol_test rsp seq data : is_sol rsp seq data -> is_sol_packet (Some rsp) = true.
Proof. intros (H1 & H2 & _). unfold is_sol_packet. by rewrite H1, H2. Qed.

Lemma take_data_drop (l : list Z) c n : 0 <= c -> c <= n -> n <= zlen l ->
  slice l (n - (n - c)) (n - c) = drop (Z.to_nat c) (take (Z.to_nat n) l).
Proof.
  intros. unfold slice. rewrite skipn_firstn_comm. f_equal; [lia |]. f_equal. lia.
Qed.

Section Sol.
Context `{ssl : OpenSSL} {laws : OpenSSLLaws ssl} `{mem : Malloc} {memlaws : MallocLaws mem}.

Lemma check_run s seq data : is_sol (l_rsp s) seq data -> 0 <= l_last_sol_count s ->
  exists rsp, check_sol_packet_for_new_data true s =
    Ok ((if seq =? l_last_sol_seq s then zlen data - l_last_sol_count s else 0),
        (if negb (seq =? 0)
         then s <| l_rsp := rsp |> <| l_last_sol_seq := seq |> <| l_last_sol_count := u8 (zlen data) |>
         else s <| l_rsp := rsp |>)) /\
    rsp_data rsp = new_data s seq data /\ ccode rsp = ccode (l_rsp s) /\
    rs_payload rsp = rs_payload (l_rsp s).
Proof.
  intros Hs Hc. pose proof (is_sol_test _ _ _ Hs) as Ht.
  destruct Hs as (_ & _ & Hf & Hd & Hl & Hz).
  unfold check_sol_packet_for_new_data, new_data. run_prim. rewrite Ht. cbn [negb]. run_prim. cbv zeta. rewrite Hf. run_prim.
  rewrite Hl. destruct (seq =? l_last_sol_seq s).
  - destruct (Z.ltb_spec 0 (zlen data - l_last_sol_count s)) as [Hn | Hn].
    + destruct (shift_run (zlen data - (zlen data - l_last_sol_count s)) (zlen data - l_last_sol_count s) s)
        as (rsp & Hsh & H1 & H2 & _ & _ & H3 & _); [lia .. |].
      rewrite bind_assoc_run. run_with Hsh. run_prim.
      exists rsp. split; [by destruct (seq =? 0) |]. split; [| done]. rewrite H1.
      rewrite take_data_drop by lia. rewrite <- Hl. unfold rsp_data in Hd. by rewrite Hd.
    + rewrite bind_assoc_run. run_prim. run_prim.
      eexists. split; [by destruct (seq =? 0) |]. split; [| done]. unfold rsp_data. cbn.
      rewrite drop_ge by (unfold zlen in Hn; lia).
      by replace (Z.to_nat (zlen data - l_last_sol_count s)) with 0%nat by lia.
  - run_prim. eexists (l_rsp s). split; [| by split_and!].
    destruct (seq =? 0); cbn [negb]; unfold mbind, M_bind; cbn; by destruct s.
Qed.
Hypothesis malloc_ok : forall n, is_Some (malloc n).

(** The acknowledgement: one packet, and nothing is waited for. *)
Lemma ack_run s seq data :
  can_send s -> is_sol (l_rsp s) seq data -> seq <> 0 ->
  exists s' body, ack_sol_packet true s = Ok (tt, s') /\
    l_sent s' = l_sent s ++ [packet (l_intf s) (l_session s) IPMI_PAYLOAD_TYPE_SOL body] /\
    body_of (l_session s) [0; seq; u8 (zlen data); 0] body /\
    l_rsp s' = l_rsp s /\ l_net s' = l_net s /\ l_reqs s' = l_reqs s /\ l_sol_in s' = l_sol_in s /\
    l_last_sol_seq s' = l_last_sol_seq s /\ l_last_sol_count s' = l_last_sol_count s /\
    l_session s' = next_out_seq (l_session s).
Proof.
  intros [Hb Hact Hid Hsend Hno Hretry] Hs Hseq.
  pose proof (is_sol_test _ _ _ Hs) as Ht. destruct Hs as (_ & _ & Hf & _ & Hl & _).
  unfold ack_sol_packet. run_prim. rewrite Ht. cbn [negb]. run_prim. cbv zeta. rewrite Hf, (proj2 (Z.eqb_neq _ _)) by done.
  rewrite Hl. set (p := sol_ack seq (zlen data)).
  destruct (time_run s) as (tm & ck & Htime). set (s1 := s <| l_clock := ck |>) in *.
  destruct (build_v2x_run malloc_ok p 0 s1 [0; seq; u8 (zlen data); 0]) as (body & Hbuild & Hbody);
    [exact Hb | reflexivity | unfold p, sol_ack; cbn [payload_length]; zlen_lia .. |].
  change (l_intf s1) with (l_intf s) in *. change (l_session s1) with (l_session s) in *.
  set (d := packet _ _ _ _) in *.
  set (s2 := (after_build s1) <| l_sent := l_sent s ++ [d] |>).
  assert (send_loop (S (Z.to_nat (retry (ssn_params (l_intf s))))) (mret false) p 0 true 0 None false s =
    Ok (Some (false, p <| payload_length := zlen body |>), s2)) as Hloop.
  { cbn [send_loop]. run_prim. rewrite (proj2 (Z.ltb_lt _ _)) by done. cbn [negb]. run_with Htime.
    assert (transmit p 0 None s1 = Ok (Some (p <| payload_length := zlen body |>, None), s2)) as Htr.
    { unfold transmit. run_prim. cbn [payload p sol_ack may_send].
      unfold is_active in Hact. change (l_session s1) with (l_session s). rewrite Hact. run_prim.
      rewrite bind_assoc_run. run_with Hbuild. run_prim. by run_with (send_packet_run d (after_build s1) Hsend). }
    run_with Htr. rewrite Hno. cbn [payload p sol_ack sent_state update]. run_prim. done. }
  eexists _, body. split.
  - unfold send_payload_with. rewrite bind_assoc_run. run_prim. rewrite bind_assoc_run. run_prim.
    rewrite bind_assoc_run. run_with Hloop. rewrite bind_assoc_run. run_prim. run_prim. reflexivity.
  - by split_and!.
Qed.
Lemma sol_wire_bytes seq acked count flags data :
  let w := sol_wire seq acked count flags data in
  zlen w = zlen data + 4 /\ rd w 0 = seq /\ rd w 1 = acked /\ rd w 2 = count /\ rd w 3 = flags /\
  slice w 4 (zlen data) = data.
Proof.
  cbv zeta. split_and!; try done; [unfold sol_wire; zlen_lia |].
  unfold sol_wire. change ([seq; acked; count; flags] ++ data) with ([seq; acked; count; flags] ++ data).
  rewrite <- (app_nil_r data) at 1. by apply slice_app_mid.
Qed.

Lemma poll_sol s i b d net seq acked count flags data :
  l_net s = NetPacket d :: net ->
  bmc_datagram i b IPMI_PAYLOAD_TYPE_SOL (sol_wire seq acked count flags data) d ->
  is_active (l_session s) = true -> algs_supported (l_session s) -> peer_of (l_session s) b ->
  zlen (rs_data (l_rsp s)) = IPMI_BUF_SIZE -> 0 <= seq < 16 ->
  exists rsp, ipmi_lan_poll_recv s = Ok (true, s <| l_net := net |> <| l_rsp := rsp |>) /\
    is_sol rsp seq data.
Proof.
  intros Hnet Hd Hact Halg Hpeer Hbuf Hseq. set (wire := sol_wire _ _ _ _ _) in *.
  destruct (sol_wire_bytes seq acked count flags data) as (Hw & H0 & H1 & H2 & H3 & H4). fold wire in Hw, H0, H1, H2, H3, H4.
  pose proof (zlen_nonneg data) as Hd0.
  destruct (poll_single_run malloc_ok s i b _ wire d net Hnet Hd) as (rsp & Hpoll & Hsl & Hty & Hat);
    [lia | unfold IPMI_PAYLOAD_TYPE_SOL; lia | done .. |].
  destruct (slice_inside _ _ _ _ Hsl) as (Hin & Hrd & Hsub); [done | lia | lia |].
  set (s1 := s <| l_net := net |> <| l_rsp := rsp |>) in *.
  assert (exists rsp', poll_dispatch 16 (zlen wire) s1 = Ok (PollRsp, s <| l_net := net |> <| l_rsp := rsp' |>) /\
    is_sol rsp' seq data) as (rsp' & Hdis & Hsol).
  { unfold poll_dispatch. run_prim. run_prim. run_prim. change (l_rsp s1) with rsp. rewrite Hty.
    change (session_state (v2_data (l_session s1))) with (session_state (v2_data (l_session s))).
    unfold is_active in Hact. rewrite Hact.
    destruct (read_sol_packet rsp 16) as [rsp1 off] eqn:E. injection E as E1 E2. subst off.
    assert (sol_seq (sol_fields rsp1) = seq) as Hpl
      by (subst rsp1; cbn -[rd Z.land]; change (rd (rs_data rsp) (16 + 0) .& 0x0F = seq); rewrite Hrd, H0, land_0f by lia; done).
    assert (rs_data rsp1 = rs_data rsp /\ rs_authtype rsp1 = rs_authtype rsp /\ payloadtype rsp1 = payloadtype rsp)
      as (Hd1 & Ha1 & Ht1) by (by subst rsp1).
    clear E1. cbn [IPMI_PAYLOAD_TYPE_SOL IPMI_PAYLOAD_TYPE_IPMI IPMI_PAYLOAD_TYPE_RMCP_OPEN_RESPONSE
      IPMI_PAYLOAD_TYPE_RAKP_2 IPMI_PAYLOAD_TYPE_RAKP_4 Z.eqb Pos.eqb].
    cbn [negb]. run_prim. set (s2 := update _ s1). rewrite Hw.
    replace (zlen data + 4 - (16 + 4 - 16)) with (zlen data) by lia. cbn [Z.add Pos.add Pos.succ].
    destruct (Z.ltb_spec 0 (zlen data)) as [Hpos | Hz].
    - destruct (shift_run (16 + 4) (zlen data) s2) as (rsp' & Hsh & H5 & H6 & H7 & H8 & H9 & H10 & H11);
        [lia | lia | change (l_rsp s2) with rsp1; rewrite Hd1; lia |].
      run_with Hsh. exists rsp'. split; [done |]. change (l_rsp s2) with rsp1 in *.
      split; [by rewrite H7, Ha1 |]. split; [by rewrite H8, Ht1 |]. split; [unfold sol_fields; rewrite H9; exact Hpl |].
      split; [by rewrite H5, Hd1, Hsub by lia |]. by split.
    - run_prim. eexists. split; [done |]. assert (data = []) as -> by (apply zlen_0_nil; lia).
      split; [by rewrite <- Hat, <- Ha1 |]. split; [by rewrite <- Hty, <- Ht1 |].
      split; [exact Hpl |]. split_and!; try done. apply zlen_nonneg. }
  exists rsp'. split; [| done]. unfold ipmi_lan_poll_recv. run_prim. unfold net_fuel. rewrite Hnet.
  cbn [poll_recv_loop]. rewrite Hdis in Hpoll. by run_with Hpoll.
Qed.
End Sol.

(** ** Sequence numbers *)

(** The numbers of [n] consecutive SOL packets. *)
Fixpoint sol_numbers (n : nat) (out : sol_out) : M lp (list Z) :=
  match n with
  | O => mret []
  | S n =>
      out ← set_sol_packet_sequence_number out;
      l ← sol_numbers n out;
      mret (so_packet_sequence_number out :: l)
  end.

Definition sol_next (s : lp) : Z := sequence_number (sol_data (l_session s)).

Lemma set_number_run out s : 1 <= sol_next s <= 16 ->
  let q := (sol_next s - 1) mod 15 + 1 in
  exists s', set_sol_packet_sequence_number out s = Ok (out <| so_packet_sequence_number := q |>, s') /\
    sol_next s' = q + 1.
Proof.
  intros H q. unfold set_sol_packet_sequence_number. run_prim. fold (sol_next s).
  assert ((if 0x0F <? sol_next s then 1 else sol_next s) = q) as ->.
  { subst q. destruct (Z.ltb_spec 0x0F (sol_next s)); [replace (sol_next s) with 16 by lia; done |].
    Z.to_euclidean_division_equations; lia. }
  run_prim. eexists. split; [done |]. unfold sol_next. cbn. rewrite u8_small; [done |].
  unfold is_u8. subst q. Z.to_euclidean_division_equations; lia.
Qed.

Section Properties.
Context `{ssl : OpenSSL} {laws : OpenSSLLaws ssl} `{mem : Malloc} {memlaws : MallocLaws mem}.

(** C10. A SOL packet with a sequence number is acknowledged with one packet that
    names this number and the length of its data, and of the data only what a
    previous packet with the same number did not hold is left to the caller;
    its number and length are remembered for the next packet. *)
Theorem sol_packet_acknowledged s i b d net seq acked count flags data :
  (forall n, is_Some (malloc n)) -> ready s -> 0 <= l_last_sol_count s ->
  l_net s = NetPacket d :: net -> peer_of (l_session s) b ->
  bmc_datagram i b IPMI_PAYLOAD_TYPE_SOL (sol_wire seq acked count flags data) d -> 0 < seq < 16 ->
  exists s' body, ipmi_lanplus_recv_sol s = Ok (true, s') /\
    l_sent s' = l_sent s ++ [packet (l_intf s) (l_session s) IPMI_PAYLOAD_TYPE_SOL body] /\
    body_of (l_session s) [0; seq; u8 (zlen data); 0] body /\
    rsp_data (l_rsp s') = new_data s seq data /\
    l_last_sol_seq s' = seq /\ l_last_sol_count s' = u8 (zlen data) /\ l_net s' = net.
Proof.
  intros Hm [[Hb Hact Hid Hsend Hno Hretry] Hbuf] Hc Hnet Hpeer Hd Hseq.
  destruct (poll_sol Hm s i b d net seq acked count flags data) as (rsp & Hpoll & Hsol); try done;
    [apply Hb | lia |].
  unfold ipmi_lanplus_recv_sol. run_with Hpoll. set (s1 := s <| l_net := net |> <| l_rsp := rsp |>). run_prim.
  assert (rs_authtype (l_rsp s1) = IPMI_SESSION_AUTHTYPE_RMCP_PLUS) as -> by apply Hsol. cbn [Z.eqb negb andb].
  assert (is_sol (l_rsp s1) seq data) as Hsol1 by exact Hsol.
  destruct (ack_run Hm s1 seq data) as (s2 & body & Hack & H1 & H2 & H3 & H4 & H5 & H6 & H7 & H8 & H9);
    [by split | done | lia |].
  change (IPMI_SESSION_AUTHTYPE_RMCP_PLUS =? 0) with false. cbn [negb]. run_with Hack.
  rewrite <- H3 in Hsol1. destruct (check_run s2 seq data Hsol1) as (rsp2 & Hchk & Hnew & _); [by rewrite H8 |].
  run_with Hchk. rewrite (proj2 (Z.eqb_neq seq 0)) by lia. cbn [negb].
  eexists _, body. split; [reflexivity |].
  split; [exact H1 |]. split; [exact H2 |].
  split; [| split; [done | split; [done | exact H4]]].
  transitivity (new_data s2 seq data); [exact Hnew |]. unfold new_data. by rewrite H7, H8.
Qed.

(** The packets of a SOL stream are numbered 1 to 15 in turn, never 0, which
    is the number of a pure acknowledgement. *)
Theorem sol_numbers_cycle n out s : 1 <= sol_next s <= 16 ->
  exists l s', sol_numbers n out s = Ok (l, s') /\ 1 <= sol_next s' <= 16 /\ length l = n /\
    forall k, (k < n)%nat -> l !! k = Some ((sol_next s - 1 + Z.of_nat k) mod 15 + 1).
Proof.
  revert out s. induction n as [| n IH]; intros out s Hs; cbn [sol_numbers].
  { exists [], s. split_and!; try done; lia. }
  destruct (set_number_run out s Hs) as (s1 & Hrun & Hnext). run_with Hrun.
  set (q := (sol_next s - 1) mod 15 + 1) in *.
  assert (1 <= q <= 15) as Hq by (subst q; Z.to_euclidean_division_equations; lia).
  destruct (IH (out <| so_packet_sequence_number := q |>) s1) as (l & s' & Hl & Hs' & Hlen & Hk); [lia |].
  run_with Hl. exists (q :: l), s'. split; [done |]. split; [done |]. split; [cbn; lia |].
  intros [| k] Hkn; cbn [lookup list_lookup].
  - cbn. subst q. do 3 f_equal. lia.
  - cbn. rewrite Hk by lia. rewrite Hnext. subst q. f_equal. Z.to_euclidean_division_equations; lia.
Qed.
End Properties.

(** ** Witnesses *)

(** A retransmission of packet 1 with one more byte. *)
Definition witness_sol_packet : list Z :=
  packet witness_lan witness_peer IPMI_PAYLOAD_TYPE_SOL (zeros 16 ++ padded (sol_wire 1 0 0 0 [65; 66])).

Definition witness_sol : lp :=
  (witness_ready [NetPacket witness_sol_packet]) <| l_last_sol_seq := 1 |> <| l_last_sol_count := 1 |>.

Lemma sol_packet_acknowledged_witness :
  new_data witness_sol 1 [65; 66] = [66] /\
  exists s' body, ipmi_lanplus_recv_sol witness_sol = Ok (true, s') /\
    l_sent s' = l_sent witness_sol ++
      [packet (l_intf witness_sol) (l_session witness_sol) IPMI_PAYLOAD_TYPE_SOL body] /\
    body_of (l_session witness_sol) [0; 1; u8 (zlen [65; 66]); 0] body /\
    rsp_data (l_rsp s') = new_data witness_sol 1 [65; 66] /\
    l_last_sol_seq s' = 1 /\ l_last_sol_count s' = u8 (zlen [65; 66]) /\ l_net s' = [].
Proof.
  split; [reflexivity |].
  apply (sol_packet_acknowledged witness_sol witness_lan witness_peer witness_sol_packet [] 1 0 0 0 [65; 66]).
  - apply toy_malloc_ok.
  - destruct (witness_is_ready [NetPacket witness_sol_packet]) as [[] ?]. split; [by split | done].
  - discriminate.
  - reflexivity.
  - apply (witness_peer_of [NetPacket witness_sol_packet]).
  - eexists. split; [| split; [reflexivity | split; vm_compute; reflexivity]].
    eexists (zeros 16), _. split_and!; vm_compute; reflexivity.
  - lia.
Defined.

(** A session about to send its first packet of Serial over LAN. *)
Definition witness_numbers : lp :=
  init_lp witness_lan (zero_session <| sol_data := mk_sol 0 0 1 0 0 |>) [].

Definition witness_solout : sol_out :=
  mk_solout [] 0 0 0 0 false false false false false false false.

Lemma sol_numbers_cycle_witness :
  exists l s', sol_numbers 17 witness_solout witness_numbers = Ok (l, s') /\
    1 <= sol_next s' <= 16 /\ length l = 17%nat /\
    forall k, (k < 17)%nat -> l !! k = Some ((sol_next witness_numbers - 1 + Z.of_nat k) mod 15 + 1).
Proof.
  apply (sol_numbers_cycle 17 witness_solout witness_numbers).
  cbn. lia.
Defined.
