(* ===== verification/SerialBasic.v ===== *)
(** * The serial basic-mode transport (src/plugins/serial/serial_basic.c)

    Framing with escapes, the incremental frame parser, the IPMB message
    builder with Send Message bridging, and the receive and response loops.
    The port is the list of what [poll] and [read] will deliver. *)

From S2P Require Import Prelude Wire Ipmi Ipmb Intf.

Definition SERIAL_BM_MAX_MSG_SIZE : Z := 47.
Definition SERIAL_BM_MAX_RQ_SIZE : Z := 33.
Definition SERIAL_BM_MAX_RS_SIZE : Z := 32.
Definition SERIAL_BM_MAX_BUFFER_SIZE : Z := 250.

Definition BM_START : Z := 0xA0.
Definition BM_STOP : Z := 0xA5.
Definition BM_HANDSHAKE : Z := 0xA6.
Definition BM_ESCAPE : Z := 0xAA.

(** The table of special characters and their escapes. *)
Definition characters : list (Z * Z) :=
  [(BM_START, 0xB0); (BM_STOP, 0xB5); (BM_HANDSHAKE, 0xB6); (BM_ESCAPE, 0xBA); (0x1B, 0x3B)].

(** [serial_bm_get_escaped_char] *)
Definition serial_bm_get_escaped_char (c : Z) : Z :=
  match find (fun p => p.1 =? c) characters with Some p => p.2 | None => c end.

(** [serial_bm_get_unescaped_char] *)
Definition serial_bm_get_unescaped_char (c : Z) : Z :=
  match find (fun p => p.2 =? c) characters with Some p => p.1 | None => c end.

(** [serial_bm_send_msg]: the number of escaped bytes sizes the buffer, then
    the frame is written into it; the result is the buffer given to [write]. *)
Definition count_escaped (msg : list Z) : Z :=
  foldr (fun b n => if serial_bm_get_escaped_char b =? b then n else 1 + n) 0 msg.

Definition escape_byte (b : Z) : list Z :=
  let tmp := serial_bm_get_escaped_char b in
  if negb (tmp =? b) then [0xAA; tmp] else [tmp].

Definition serial_bm_frame (msg : list Z) : list Z :=
  [0xA0] ++ concat (map escape_byte msg) ++ [0xA5].

Definition serial_bm_send_msg (msg : list Z) : option (list Z) :=
  let size := zlen msg + count_escaped msg + 2 in
  wr (zeros size) 0 (serial_bm_frame msg).

(** The state of the received message and the parsing context; [msg] is the
    first [msg_len] bytes of the caller's buffer. *)
Inductive msg_state := MSG_NONE | MSG_IN_PROGRESS | MSG_DONE.

#[export] Instance msg_state_eq_dec : EqDecision msg_state.
Proof. solve_decision. Defined.

Record parse_ctx := mk_ctx {
  pc_state : msg_state;
  pc_msg : list Z;
  pc_max_len : Z;
  pc_escape : bool;
}.

(** [serial_bm_parse_buffer]: the number of bytes consumed, or -1 when an
    unescaped byte does not fit. *)
Fixpoint parse_loop (i : Z) (data : list Z) (ctx : parse_ctx) : Z * parse_ctx :=
  match data with
  | [] => (i, ctx)
  | d :: data =>
      if d =? BM_START then
        parse_loop (i + 1) data (mk_ctx MSG_IN_PROGRESS [] (pc_max_len ctx) false)
      else if negb (bool_decide (pc_state ctx = MSG_IN_PROGRESS)) then
        parse_loop (i + 1) data ctx
      else if pc_escape ctx then
        let tmp := serial_bm_get_unescaped_char d in
        if tmp =? d then
          parse_loop (i + 1) data (mk_ctx MSG_NONE (pc_msg ctx) (pc_max_len ctx) (pc_escape ctx))
        else if pc_max_len ctx <=? zlen (pc_msg ctx) then
          parse_loop (i + 1) data (mk_ctx MSG_NONE (pc_msg ctx) (pc_max_len ctx) (pc_escape ctx))
        else
          parse_loop (i + 1) data
            (mk_ctx (pc_state ctx) (pc_msg ctx ++ [tmp]) (pc_max_len ctx) false)
      else if d =? BM_ESCAPE then
        parse_loop (i + 1) data (mk_ctx (pc_state ctx) (pc_msg ctx) (pc_max_len ctx) true)
      else if d =? BM_STOP then
        (i + 1, mk_ctx MSG_DONE (pc_msg ctx) (pc_max_len ctx) (pc_escape ctx))
      else if d =? BM_HANDSHAKE then
        parse_loop (i + 1) data ctx
      else if pc_max_len ctx <=? zlen (pc_msg ctx) then
        (-1, ctx)
      else
        parse_loop (i + 1) data
          (mk_ctx (pc_state ctx) (pc_msg ctx ++ [d]) (pc_max_len ctx) (pc_escape ctx))
  end.

Definition serial_bm_parse_buffer (data : list Z) (ctx : parse_ctx) : Z * parse_ctx :=
  parse_loop 0 data ctx.

(** The receiving context: the whole array and the number of valid bytes, a
    [size_t]. *)
Record recv_ctx := mk_recv {
  rc_buffer : list Z;
  rc_buffer_size : Z;
  rc_max_buffer_size : Z;
}.

Definition size_t (x : Z) : Z := x mod 18446744073709551616.

(** What the port delivers: [PollFail] a time-out or error of [poll],
    [ReadFail] an error of [read], [Data] bytes to read. *)
Inductive port_event := PollFail | ReadFail | Data (bs : list Z).

(** [read] of at most [n] bytes; what does not fit stays in the port. *)
Definition port_read (n : Z) (bs : list Z) (port : list port_event) : list Z * list port_event :=
  let got := take (Z.to_nat n) bs in
  let rest := drop (Z.to_nat n) bs in
  (got, match rest with [] => port | _ => Data rest :: port end).

(** One iteration of the loop of [serial_bm_recv_msg] after [read]: append,
    parse, drop what was parsed. *)
Definition recv_step (got : list Z) (rc : recv_ctx) (ctx : parse_ctx)
    : option (recv_ctx * parse_ctx) :=
  buffer ← wr (rc_buffer rc) (rc_buffer_size rc) got;
  let size := size_t (rc_buffer_size rc + zlen got) in
  let '(rv, ctx) := serial_bm_parse_buffer (take (Z.to_nat size) buffer) ctx in
  buffer ← (if size_t rv <? size
            then wr buffer 0 (slice buffer rv (size - rv))
            else Some buffer);
  Some (mk_recv buffer (size_t (size - rv)) (rc_max_buffer_size rc), ctx).

(** The result of a receive: [None] for -1, the message otherwise (empty after
    a time-out). *)
Fixpoint recv_loop (fuel : nat) (port : list port_event) (rc : recv_ctx) (ctx : parse_ctx)
    : res (option (list Z) * list port_event * recv_ctx) :=
  match fuel with
  | O => Bad OutOfFuel
  | S fuel =>
      match port with
      | [] => Ok (Some [], [], rc)
      | PollFail :: port => Ok (Some [], port, rc)
      | ReadFail :: port => Ok (None, port, rc)
      | Data bs :: port =>
          let '(got, port) :=
            port_read (size_t (rc_max_buffer_size rc - rc_buffer_size rc)) bs port in
          match recv_step got rc ctx with
          | None => Bad OutOfBounds
          | Some (rc, ctx) =>
              if bool_decide (pc_state ctx = MSG_DONE)
              then Ok (Some (pc_msg ctx), port, rc)
              else recv_loop fuel port rc ctx
          end
      end
  end.

(** [serial_bm_recv_msg]; the fields of the context that the code leaves
    uninitialised are only read after [BM_START] has set them. *)
Definition serial_bm_recv_msg (fuel : nat) (msg_len : Z) (port : list port_event) (rc : recv_ctx) :=
  recv_loop fuel port rc (mk_ctx MSG_NONE [] msg_len false).

(** ** Building messages *)

(** The static variables of the file. *)
Record bm_static := mk_static { bm_seq : Z; is_system : bool }.

(** [serial_bm_alloc_seq] *)
Definition serial_bm_alloc_seq (st : bm_static) : Z * bm_static :=
  let seq := u8 (bm_seq st + 1) in
  let seq := if seq =? 64 then 0 else seq in
  (seq, mk_static seq (is_system st)).

(** [struct serial_bm_request_ctx] *)
Record request_ctx := mk_rctx {
  c_rsSA : Z; c_netFn : Z; c_rqSA : Z; c_rqSeq : Z; c_cmd : Z;
}.

Definition hdr_ctx (h : ipmb_msg_hdr) : request_ctx :=
  mk_rctx (h_rsSA h) (h_netFn h) (h_rqSA h) (h_rqSeq h) (h_cmd h).

(** The adjustment of the outer request when the interface is a system one. *)
Definition outer_system (is_system : bool) (o : send_message_rq) : send_message_rq :=
  if is_system then
    let m := sm_msg o in
    let channel := sm_channel o .& u8 (Z.lnot 0x40) in
    mk_smrq channel
      (mk_hdr (h_rsSA m) (h_netFn m) (h_csum1 m)
        (if negb (channel =? 0) then IPMI_BMC_SLAVE_ADDR else h_rqSA m)
        (h_rqSeq m .| 2) (h_cmd m))
  else o.

(** The Send Message requests that precede the data, outermost first. *)
Definition bridge_rqs (intf : intf_addr) (req : ipmi_rq) (level seq : Z) (is_system : bool)
    : list send_message_rq :=
  let outer := mk_smrq (transit_channel intf .| 0x40)
    (mk_hdr (u8 (transit_addr intf)) 0x18 (u8 (- (u8 (transit_addr intf) + 0x18)))
      (u8 (my_addr intf)) seq 0x34) in
  let netFn := u8 ((rq_netfn req .<< 2) .| rq_lun req) in
  let inner := mk_smrq (target_channel intf .| 0x40)
    (mk_hdr (u8 (target_addr intf)) netFn (u8 (- (u8 (target_addr intf) + netFn)))
      (u8 (my_addr intf)) seq (rq_cmd req)) in
  if level =? 2 then [outer_system is_system outer; inner] else [outer_system is_system inner].

(** [serial_bm_build_msg]: the message with the contexts of its header and of
    its outer Send Message request, or [None] when it would not fit. *)
Definition serial_bm_build_msg (intf : intf_addr) (req : ipmi_rq) (max_len : Z) (st : bm_static)
    : option (list Z * Z * request_ctx * option request_ctx) * bm_static :=
  let bridging_level := ipmi_intf_get_bridging_level intf in
  if max_len <? rq_data_len req + 7 + bridging_level * 8 then (None, st) else
  let '(seq, st) := serial_bm_alloc_seq st in
  let seq := u8 (seq .<< 2) in
  let netFn := if negb (bridging_level =? 0) then 0x18
               else u8 ((rq_netfn req .<< 2) .| rq_lun req) in
  let cmd := if negb (bridging_level =? 0) then 0x34 else rq_cmd req in
  let hdr := mk_hdr IPMI_BMC_SLAVE_ADDR netFn (u8 (- (IPMI_BMC_SLAVE_ADDR + netFn)))
               IPMI_REMOTE_SWID seq cmd in
  let rqs := if negb (bridging_level =? 0)
             then bridge_rqs intf req bridging_level seq (is_system st) else [] in
  let msg := hdr_bytes hdr ++ concat (map smrq_bytes rqs) ++ rq_data req in
  let msg :=
    if negb (bridging_level =? 0) then
      let inner := 6 + 7 * (zlen rqs - 1) + 1 in
      let msg := msg ++ [ipmi_csum (slice msg (inner + 3) (rq_data_len req + 3))] in
      let msg := if bridging_level =? 2
                 then msg ++ [ipmi_csum (slice msg (7 + 3) 4)] else msg in
      msg ++ [ipmi_csum (slice msg 3 4)]
    else msg ++ [ipmi_csum (slice msg 3 (rq_data_len req + 3))] in
  (Some (msg, bridging_level, hdr_ctx hdr, hdr_ctx ∘ sm_msg <$> head rqs), st).

(** The test of [serial_bm_wait_response] on a received message: [None] drops
    it, otherwise completion code and data. *)
Definition serial_bm_accept (rq : request_ctx) (msg : list Z) : option (list Z) :=
  let msg_len := zlen msg in
  if msg_len <? 8 then None else
  if negb (ipmi_csum (slice msg 0 3) =? 0) then None else
  if negb (ipmi_csum (slice msg 3 (msg_len - 3)) =? 0) then None else
  let netFn := ((c_netFn rq .| 4) .& Z.lnot 3) .| (c_rqSeq rq .& 3) in
  let rqSeq := (c_rqSeq rq .& Z.lnot 3) .| (c_netFn rq .& 3) in
  if (rd msg 0 =? c_rqSA rq) && (rd msg 1 =? netFn) && (rd msg 3 =? c_rsSA rq) &&
     (rd msg 4 =? rqSeq) && (rd msg 5 =? c_cmd rq)
  then Some (slice msg 6 (msg_len - 6 - 1))
  else None.

(** [serial_bm_wait_response]: the first message that answers the request;
    [Some []] after a time-out, [None] after a read error. *)
Fixpoint serial_bm_wait_response (fuel : nat) (rq : request_ctx) (max_len : Z)
    (port : list port_event) (rc : recv_ctx)
    : res (option (list Z) * list port_event * recv_ctx) :=
  match fuel with
  | O => Bad OutOfFuel
  | S fuel' =>
      '(r, port, rc) ← serial_bm_recv_msg fuel max_len port rc;
      match r with
      | None | Some [] => Ok (r, port, rc)
      | Some msg =>
          match serial_bm_accept rq msg with
          | Some rsp => Ok (Some rsp, port, rc)
          | None => serial_bm_wait_response fuel' rq max_len port rc
          end
      end
  end.

(** ** Escapes *)

Definition special (c : Z) : bool :=
  (c =? BM_START) || (c =? BM_STOP) || (c =? BM_HANDSHAKE) || (c =? 0x1B).

Definition escape_ok (b : Z) : bool :=
  let e := serial_bm_get_escaped_char b in
  negb (special e) && (0 <=? e) && (e <? 256) &&
  if e =? b then negb (b =? BM_ESCAPE)
  else (serial_bm_get_unescaped_char e =? b) && negb (e =? BM_ESCAPE).

Lemma escape_ok_all b : is_u8 b -> escape_ok b = true.
Proof. apply all_u8_spec. by vm_compute. Qed.

Lemma unescape_escape b :
  is_u8 b -> serial_bm_get_escaped_char b <> b ->
  serial_bm_get_unescaped_char (serial_bm_get_escaped_char b) = b.
Proof.
  intros Hb Hne. pose proof (escape_ok_all b Hb) as H. unfold escape_ok in H.
  rewrite (proj2 (Z.eqb_neq _ _) Hne) in H. bool_hyps. done.
Qed.

(** The parser undoes the escape of one byte. *)
Lemma parse_escape_byte b i rest msg max :
  is_u8 b -> zlen msg < max ->
  parse_loop i (escape_byte b ++ rest) (mk_ctx MSG_IN_PROGRESS msg max false) =
  parse_loop (i + zlen (escape_byte b)) rest (mk_ctx MSG_IN_PROGRESS (msg ++ [b]) max false).
Proof.
  intros Hb Hlen. pose proof (escape_ok_all b Hb) as H. unfold escape_ok, special in H.
  unfold escape_byte. destruct (serial_bm_get_escaped_char b =? b) eqn:E; cbn [negb].
  - apply Z.eqb_eq in E. rewrite E in *. bool_hyps. cbn [app parse_loop].
    rewrite !(proj2 (Z.eqb_neq b _)) by done. cbn.
    rewrite (proj2 (Z.leb_gt _ _)) by done. f_equal.
  - bool_hyps. set (e := serial_bm_get_escaped_char b) in *. cbn [app parse_loop].
    change (0xAA =? BM_START) with false. cbn.
    rewrite !(proj2 (Z.eqb_neq e _)) by done. cbn.
    replace (serial_bm_get_unescaped_char e) with b by done.
    rewrite (proj2 (Z.eqb_neq b e)) by done. rewrite (proj2 (Z.leb_gt _ _)) by done.
    f_equal. zlen_lia.
Qed.

Lemma parse_body msg i rest pre max :
  bytes msg -> zlen pre + zlen msg <= max ->
  parse_loop i (concat (map escape_byte msg) ++ rest) (mk_ctx MSG_IN_PROGRESS pre max false) =
  parse_loop (i + zlen (concat (map escape_byte msg))) rest
    (mk_ctx MSG_IN_PROGRESS (pre ++ msg) max false).
Proof.
  revert i pre. induction msg as [|b msg IH]; intros i pre Hb Hlen; cbn [map concat].
  - rewrite app_nil_r. f_equal. zlen_lia.
  - apply Forall_cons in Hb as [Hb Hbs]. rewrite <- app_assoc.
    rewrite parse_escape_byte by (done || zlen_lia).
    rewrite IH by (done || zlen_lia). rewrite <- app_assoc. f_equal. zlen_lia.
Qed.

Lemma parse_frame msg rest ctx :
  bytes msg -> zlen msg <= pc_max_len ctx ->
  serial_bm_parse_buffer (serial_bm_frame msg ++ rest) ctx =
  (zlen (serial_bm_frame msg), mk_ctx MSG_DONE msg (pc_max_len ctx) false).
Proof.
  intros Hb Hlen. unfold serial_bm_parse_buffer, serial_bm_frame.
  rewrite <- !app_assoc. cbn [app parse_loop]. change (0xA0 =? BM_START) with true. cbn [negb].
  rewrite parse_body by (done || zlen_lia). cbn. f_equal. zlen_lia.
Qed.

Lemma frame_no_special msg :
  bytes msg -> Forall (fun c => special c = false /\ is_u8 c) (concat (map escape_byte msg)).
Proof.
  induction msg as [|b msg IH]; cbn; [constructor |].
  intros [Hb Hbs]%Forall_cons. apply Forall_app. split; [| by apply IH].
  pose proof (escape_ok_all b Hb) as H. unfold escape_ok in H. unfold escape_byte.
  bool_hyps. destruct (serial_bm_get_escaped_char b =? b); cbn [negb];
    repeat constructor; unfold is_u8; by try lia.
Qed.

Lemma zlen_frame msg : zlen (serial_bm_frame msg) = zlen msg + count_escaped msg + 2.
Proof.
  unfold serial_bm_frame.
  assert (zlen (concat (map escape_byte msg)) = zlen msg + count_escaped msg) as H.
  { induction msg as [|b msg IH]; [done |]. cbn [map concat count_escaped foldr].
    rewrite zlen_app, IH. unfold escape_byte, count_escaped.
    destruct (serial_bm_get_escaped_char b =? b); cbn [negb]; zlen_lia. }
  rewrite !zlen_app, H. cbn. zlen_lia.
Qed.

(** The frame fills the allocated buffer exactly. *)
Lemma send_msg_exact msg : serial_bm_send_msg msg = Some (serial_bm_frame msg).
Proof.
  unfold serial_bm_send_msg. rewrite <- zlen_frame.
  pose proof (wr_at [] (zeros (zlen (serial_bm_frame msg))) [] (serial_bm_frame msg) 0) as H.
  rewrite !app_nil_r in H. apply H; [done |].
  by rewrite zlen_zeros by apply zlen_nonneg.
Qed.

(** ** The parser is incremental *)

(** What a call on [a] says about a call on more data. *)
Definition parse_outcome (i : Z) (a : list Z) (ctx : parse_ctx) (r : Z * parse_ctx) : Prop :=
  (r.1 = i + zlen a /\ pc_state r.2 <> MSG_DONE /\
   forall b, parse_loop i (a ++ b) ctx = parse_loop (i + zlen a) b r.2) \/
  ((pc_state r.2 = MSG_DONE /\ i < r.1 <= i + zlen a \/ r.1 = -1 /\ pc_state r.2 = MSG_IN_PROGRESS) /\
   forall b, parse_loop i (a ++ b) ctx = r).

Lemma parse_outcome_cons i d a ctx ctx' r :
  parse_outcome (i + 1) a ctx' r ->
  (forall b, parse_loop i (d :: b) ctx = parse_loop (i + 1) b ctx') ->
  parse_outcome i (d :: a) ctx r.
Proof.
  unfold parse_outcome. rewrite zlen_cons. intros [(H1 & H2 & H3) | [H1 H2]] Hstep.
  - left. split_and!; [lia | done |]. intros b. cbn [app]. rewrite Hstep, H3. f_equal. lia.
  - right. split; [intuition lia |]. intros b. cbn [app]. by rewrite Hstep, H2.
Qed.

Lemma parse_cases a i ctx :
  pc_state ctx <> MSG_DONE -> parse_outcome i a ctx (parse_loop i a ctx).
Proof.
  revert i ctx. induction a as [|d a IH]; intros i ctx Hst.
  - left. rewrite zlen_nil. cbn. split_and!; [lia | done |]. intros b. f_equal. lia.
  - cbn [parse_loop]. repeat case_match;
      try (eapply parse_outcome_cons; [by apply IH |]; intros b; cbn [parse_loop];
           repeat match goal with H : _ = _ |- _ => rewrite H end; done).
    + right. split; [left; cbn; rewrite zlen_cons; split; [done |]; zlen_lia |].
      intros b. cbn [app parse_loop].
      repeat match goal with H : _ = _ |- _ => rewrite H end. done.
    + right. bool_hyps. split; [right; split; [done |] | intros b; cbn [app parse_loop]].
      * by case_bool_decide.
      * repeat case_match; try done; bool_hyps; lia || done.
Qed.

Lemma parse_shift i a ctx :
  0 <= i -> parse_loop i a ctx =
    ((if (parse_loop 0 a ctx).1 =? -1 then -1 else (parse_loop 0 a ctx).1 + i), (parse_loop 0 a ctx).2).
Proof.
  assert (forall j i ctx, 0 <= i -> 0 <= j ->
    parse_loop (j + i) a ctx = ((if (parse_loop j a ctx).1 =? -1 then -1
      else (parse_loop j a ctx).1 + i), (parse_loop j a ctx).2)) as H.
  { clear. induction a as [|d a IH]; intros j i ctx Hi Hj; cbn [parse_loop].
    - cbn. rewrite (proj2 (Z.eqb_neq _ _)) by lia. done.
    - replace (j + i + 1) with ((j + 1) + i) by lia.
      repeat (case_match; cbn; try (apply IH; lia)); try done; bool_hyps; try lia; try done.
      all: try (f_equal; lia). }
  intros Hi. apply (H 0 i ctx); lia.
Qed.

(** ** Receiving a message that arrives in pieces *)

Definition rc_ready (rc : recv_ctx) : Prop :=
  rc_buffer_size rc = 0 /\ rc_max_buffer_size rc = SERIAL_BM_MAX_BUFFER_SIZE /\
  zlen (rc_buffer rc) = SERIAL_BM_MAX_BUFFER_SIZE.

Definition chunk_ok (c : list Z) : Prop := 0 < zlen c <= SERIAL_BM_MAX_BUFFER_SIZE.

Lemma size_t_small x : 0 <= x < 18446744073709551616 -> size_t x = x.
Proof. apply Z.mod_small. Qed.

Lemma port_read_all n bs port : zlen bs <= n -> port_read n bs port = (bs, port).
Proof.
  intros H. unfold port_read. unfold zlen in H. rewrite take_ge, drop_ge by lia. done.
Qed.

Lemma wr_zero buf bs : zlen bs <= zlen buf ->
  exists rest, wr buf 0 bs = Some (bs ++ rest) /\ zlen (bs ++ rest) = zlen buf.
Proof.
  intros H. unfold wr. rewrite (proj2 (Z.leb_le _ _)) by lia. cbn [andb].
  rewrite (proj2 (Z.leb_le _ _)) by lia. rewrite take_0. eexists. split; [done |].
  cbn [app]. unfold zlen in *. rewrite length_app, length_drop. lia.
Qed.

(** One read into an empty buffer: the parsed part is dropped, the rest kept. *)
Lemma recv_step_fresh c rc ctx n ctx' :
  rc_ready rc -> zlen c <= SERIAL_BM_MAX_BUFFER_SIZE ->
  serial_bm_parse_buffer c ctx = (n, ctx') -> 0 <= n <= zlen c ->
  exists rc', recv_step c rc ctx = Some (rc', ctx') /\
    rc_max_buffer_size rc' = SERIAL_BM_MAX_BUFFER_SIZE /\
    zlen (rc_buffer rc') = SERIAL_BM_MAX_BUFFER_SIZE /\
    rc_buffer_size rc' = zlen c - n /\
    take (Z.to_nat (zlen c - n)) (rc_buffer rc') = drop (Z.to_nat n) c.
Proof.
  intros (H0 & H1 & H2) Hc Hp Hn. unfold SERIAL_BM_MAX_BUFFER_SIZE in *. unfold recv_step.
  rewrite H0, H1. destruct (wr_zero (rc_buffer rc) c) as (rest & -> & Hl); [lia |].
  cbn [mbind option_bind]. rewrite Z.add_0_l, !size_t_small by lia.
  assert (take (Z.to_nat (zlen c)) (c ++ rest) = c) as ->.
  { unfold zlen. by rewrite Nat2Z.id, take_app_length. }
  rewrite Hp. rewrite !size_t_small by lia.
  assert (slice (c ++ rest) n (zlen c - n) = drop (Z.to_nat n) c) as Hs.
  { unfold slice, zlen in *. rewrite drop_app_le by lia.
    rewrite take_app_le by (rewrite length_drop; lia). apply take_ge. rewrite length_drop. lia. }
  assert (zlen (drop (Z.to_nat n) c) = zlen c - n) as Hd by zlen_lia.
  destruct (n <? zlen c) eqn:E; bool_hyps.
  - rewrite Hs. destruct (wr_zero (c ++ rest) (drop (Z.to_nat n) c)) as (r2 & -> & Hl2); [lia |].
    cbn. eexists. split; [done |]. cbn. split_and!; [done | lia | done |].
    rewrite take_app_le by (unfold zlen in *; lia). apply take_ge. unfold zlen in *. lia.
  - cbn. eexists. split; [done |]. cbn. replace (zlen c - n) with 0 by lia.
    rewrite take_0, drop_ge by (unfold zlen in *; lia). split_and!; lia || done.
Qed.

Lemma recv_chunks_gen chunks a tail port fuel rc ctx ctx' :
  rc_ready rc -> Forall chunk_ok chunks -> a <> [] -> zlen (a ++ tail) <= SERIAL_BM_MAX_BUFFER_SIZE ->
  pc_state ctx <> MSG_DONE -> pc_state ctx' = MSG_DONE ->
  serial_bm_parse_buffer (concat chunks ++ a) ctx = (zlen (concat chunks ++ a), ctx') ->
  (length chunks < fuel)%nat ->
  exists rc', recv_loop fuel (map Data chunks ++ Data (a ++ tail) :: port) rc ctx =
      Ok (Some (pc_msg ctx'), port, rc') /\
    rc_buffer_size rc' = zlen tail /\ take (length tail) (rc_buffer rc') = tail.
Proof.
  unfold serial_bm_parse_buffer.
  revert fuel rc ctx. induction chunks as [|c chunks IH]; intros fuel rc ctx Hrc Hcs Ha Hat Hst Hdone Hp Hf.
  - destruct fuel as [|fuel]; [cbn in Hf; lia |]. cbn [map app concat recv_loop] in Hp |- *.
    pose proof Hrc as (H0 & H1 & H2). rewrite H0, H1, Z.sub_0_r.
    rewrite port_read_all by (rewrite size_t_small; done).
    pose proof (parse_cases a 0 ctx Hst) as [(_ & Hnd & _) | [_ Hall]];
      rewrite Hp in *; [done |].
    destruct (recv_step_fresh (a ++ tail) rc ctx _ _ Hrc Hat (Hall tail)) as (rc' & -> & _ & _ & Hs & Ht).
    { zlen_lia. }
    rewrite bool_decide_true by done. exists rc'. split; [done |].
    rewrite zlen_app in Hs, Ht.
    replace (zlen a + zlen tail - zlen a) with (zlen tail) in * by lia.
    split; [done |]. unfold zlen in Ht. by rewrite !Nat2Z.id, drop_app_length in Ht.
  - destruct fuel as [|fuel]; [cbn in Hf; lia |]. cbn [map app recv_loop].
    apply Forall_cons in Hcs as [[Hc1 Hc2] Hcs]. pose proof Hrc as (H0 & H1 & H2).
    rewrite H0, H1, Z.sub_0_r, port_read_all by (rewrite size_t_small; done).
    cbn [concat] in Hp. rewrite <- app_assoc in Hp.
    assert (0 < zlen a) by (destruct a; [done | zlen_lia]).
    pose proof (zlen_nonneg (concat chunks)).
    destruct (parse_cases c 0 ctx Hst) as [(Hn & Hnd & Hgo) | [Hd Hall]].
    + rewrite Z.add_0_l in *. destruct (parse_loop 0 c ctx) as [n ctx1] eqn:E1.
      cbn [fst snd] in *. subst n. rewrite Hgo in Hp.
      destruct (recv_step_fresh c rc ctx _ _ Hrc Hc2 E1) as (rc' & -> & M1 & M2 & M3 & _); [lia |].
      rewrite bool_decide_false by done. apply IH; try done.
      * split_and!; [lia | done | done].
      * rewrite parse_shift in Hp by lia.
        destruct (parse_loop 0 (concat chunks ++ a) ctx1) as [n2 ctx2]. cbn [fst snd] in Hp.
        injection Hp as Hn2 <-. f_equal. clear -Hn2 Hc1 H H3.
        destruct (n2 =? -1) eqn:E; bool_hyps; zlen_lia.
      * cbn in Hf. lia.
    + rewrite Hall in Hp. rewrite Hp in Hd. cbn in Hd. exfalso. zlen_lia.
Qed.

Lemma escape_byte_bound msg : count_escaped msg <= zlen msg.
Proof.
  induction msg as [|b msg IH]; [done |]. cbn [count_escaped foldr]. rewrite zlen_cons.
  unfold count_escaped in IH. destruct (_ =? b); lia.
Qed.

(** ** The builder as nested encapsulation *)

Lemma bridge_rqs_ok intf req level seq sys :
  Forall (fun s => hdr_ok (sm_msg s)) (bridge_rqs intf req level seq sys).
Proof.
  unfold bridge_rqs, outer_system, hdr_ok. destruct sys, (level =? 2); repeat constructor.
Qed.

Lemma zlen_bridge_rqs intf req level seq sys :
  level = 1 \/ level = 2 -> zlen (bridge_rqs intf req level seq sys) = level.
Proof. intros [-> | ->]; reflexivity. Qed.

(** The three shapes of the single pass over the buffer. *)
Lemma build_none h data :
  (hdr_bytes h ++ concat (map smrq_bytes []) ++ data) ++
    [ipmi_csum (slice (hdr_bytes h ++ concat (map smrq_bytes []) ++ data) 3 (zlen data + 3))]
  = ipmb h (nest [] data).
Proof.
  cbn [map concat app nest]. unfold ipmb. rewrite <- app_assoc. do 3 f_equal.
  unfold hdr_bytes. rewrite (slice_ge _ 3) by zlen_lia. done.
Qed.

Lemma build_one h s data : hdr_ok (sm_msg s) ->
  let msg := hdr_bytes h ++ concat (map smrq_bytes [s]) ++ data in
  let msg := msg ++ [ipmi_csum (slice msg 10 (zlen data + 3))] in
  msg ++ [ipmi_csum (slice msg 3 4)] = ipmb h (nest [s] data).
Proof.
  intros Hs msg1 msg2. unfold ipmb at 1. rewrite ipmi_csum_nest_cons by done.
  subst msg2 msg1. cbn [map concat nest]. unfold ipmb, smrq_bytes, hdr_bytes.
  rewrite (slice_ge _ 10) by zlen_lia. cbn [app]. unfold slice.
  by_nat_consts. cbn [app drop take]. rewrite <- !app_assoc. done.
Qed.

Lemma build_two h s1 s2 data : hdr_ok (sm_msg s1) -> hdr_ok (sm_msg s2) ->
  let msg := hdr_bytes h ++ concat (map smrq_bytes [s1; s2]) ++ data in
  let msg := msg ++ [ipmi_csum (slice msg 17 (zlen data + 3))] in
  let msg := msg ++ [ipmi_csum (slice msg 10 4)] in
  msg ++ [ipmi_csum (slice msg 3 4)] = ipmb h (nest [s1; s2] data).
Proof.
  intros Hs1 Hs2 msg1 msg2 msg3.
  change (nest [s1; s2] data) with (nest [s1] (nest [s2] data)). unfold ipmb.
  rewrite (ipmi_csum_nest_cons h s1 (nest [s2] data)) by done.
  change (nest [s1] (nest [s2] data)) with (sm_channel s1 :: ipmb (sm_msg s1) (nest [s2] data)).
  unfold ipmb. rewrite ipmi_csum_nest_cons by done.
  subst msg3 msg2 msg1. cbn [map concat nest]. unfold ipmb, smrq_bytes, hdr_bytes.
  rewrite (slice_ge _ 17) by zlen_lia. cbn [app]. unfold slice.
  by_nat_consts. cbn [app drop take]. rewrite <- !app_assoc. done.
Qed.

(** What the builder promises: the header, the requests around the data. *)
Definition build_spec (intf : intf_addr) (req : ipmi_rq) (seq : Z) (sys : bool)
    : ipmb_msg_hdr * list send_message_rq :=
  let level := ipmi_intf_get_bridging_level intf in
  let netFn := if level =? 0 then u8 ((rq_netfn req .<< 2) .| rq_lun req) else 0x18 in
  let cmd := if level =? 0 then rq_cmd req else 0x34 in
  (mk_hdr IPMI_BMC_SLAVE_ADDR netFn (u8 (- (IPMI_BMC_SLAVE_ADDR + netFn))) IPMI_REMOTE_SWID seq cmd,
   if level =? 0 then [] else bridge_rqs intf req level seq sys).

Lemma build_msg_nest intf req max_len st :
  let level := ipmi_intf_get_bridging_level intf in
  rq_data_len req + 7 + level * 8 <= max_len ->
  let '(seq, st') := serial_bm_alloc_seq st in
  let '(hdr, rqs) := build_spec intf req (u8 (seq .<< 2)) (is_system st) in
  serial_bm_build_msg intf req max_len st =
    (Some (ipmb hdr (nest rqs (rq_data req)), level, hdr_ctx hdr, hdr_ctx ∘ sm_msg <$> head rqs), st').
Proof.
  intros level H. unfold serial_bm_build_msg. rewrite (proj2 (Z.ltb_ge _ _)) by exact H.
  destruct (serial_bm_alloc_seq st) as [seq st'] eqn:E.
  assert (is_system st' = is_system st) as -> by (injection E as <- <-; done).
  unfold build_spec. fold level.
  pose proof (bridging_level_range intf) as Hl. fold level in Hl.
  set (sq := u8 (seq .<< 2)).
  pose proof (bridge_rqs_ok intf req level sq (is_system st)) as Hok.
  unfold rq_data_len. assert (level = 0 \/ level = 1 \/ level = 2) as [E0 | [E1 | E2]] by lia.
  - rewrite E0. change (0 =? 0) with true. cbn [negb]. by rewrite build_none.
  - rewrite E1 in *. change (1 =? 0) with false. cbn [negb]. unfold bridge_rqs in *.
    change (1 =? 2) with false in *. cbn iota in *.
    apply Forall_cons in Hok as [Hok _].
    match goal with |- context [concat (map smrq_bytes [?s])] =>
      match goal with |- context [hdr_bytes ?h] => pose proof (build_one h s (rq_data req) Hok) as Hb end end.
    cbv zeta in Hb |- *. rewrite <- Hb. done.
  - rewrite E2 in *. change (2 =? 0) with false. cbn [negb]. unfold bridge_rqs in *.
    change (2 =? 2) with true in *. cbn iota in *.
    apply Forall_cons in Hok as [Hok1 Hok]. apply Forall_cons in Hok as [Hok2 _].
    match goal with |- context [concat (map smrq_bytes [?s1; ?s2])] =>
      match goal with |- context [hdr_bytes ?h] => pose proof (build_two h s1 s2 (rq_data req) Hok1 Hok2) as Hb end end.
    cbv zeta in Hb |- *. rewrite <- Hb. done.
Qed.

(** ** Responses *)

(** The header of the response to a request, with the LUNs exchanged. *)
Definition response_hdr (rq : request_ctx) : ipmb_msg_hdr :=
  let netFn := ((c_netFn rq .| 4) .& Z.lnot 3) .| (c_rqSeq rq .& 3) in
  let rqSeq := (c_rqSeq rq .& Z.lnot 3) .| (c_netFn rq .& 3) in
  mk_hdr (c_rqSA rq) netFn (u8 (- (c_rqSA rq + netFn))) (c_rsSA rq) rqSeq (c_cmd rq).

Lemma accept_response rq rsp :
  1 <= zlen rsp -> serial_bm_accept rq (ipmb (response_hdr rq) rsp) = Some rsp.
Proof.
  intros Hl. unfold serial_bm_accept. rewrite zlen_ipmb.
  rewrite (proj2 (Z.ltb_ge _ _)) by lia.
  assert (slice (ipmb (response_hdr rq) rsp) 0 3 =
    [h_rsSA (response_hdr rq); h_netFn (response_hdr rq); h_csum1 (response_hdr rq)]) as -> by done.
  rewrite hdr_csum by done. cbn [negb Z.eqb].
  rewrite (slice_ge _ 3) by (rewrite ?zlen_ipmb; lia). rewrite ipmb_csum2. cbn [negb Z.eqb].
  unfold response_hdr at 1 2 3 4 5, ipmb, hdr_bytes.
  cbn [h_rsSA h_netFn h_csum1 h_rqSA h_rqSeq h_cmd app rd Z.to_nat Pos.to_nat Pos.iter_op
       lookup list_lookup default Init.Nat.add from_option id].
  rewrite !Z.eqb_refl. cbn [andb]. f_equal.
  unfold slice. replace (zlen rsp + 7 - 6 - 1) with (zlen rsp) by lia.
  unfold zlen. rewrite Nat2Z.id. by_nat_consts. cbn [drop]. apply take_app_length.
Qed.

(** An accepted message answers the request. *)
Lemma accept_sound rq msg rsp :
  serial_bm_accept rq msg = Some rsp ->
  8 <= zlen msg /\ ipmi_csum (take 3 msg) = 0 /\ ipmi_csum (drop 3 msg) = 0 /\
  rd msg 0 = c_rqSA rq /\ rd msg 3 = c_rsSA rq /\ rd msg 5 = c_cmd rq /\
  rd msg 1 = h_netFn (response_hdr rq) /\ rd msg 4 = h_rqSeq (response_hdr rq) /\
  zlen rsp = zlen msg - 7.
Proof.
  unfold serial_bm_accept. do 3 (case_test; [done |]). rewrite (slice_ge _ 3) in * by lia.
  case_test; [| done]. intros [= <-]. split_and!; try done.
  unfold slice. zlen_lia.
Qed.

Lemma ipmb_bytes h p : Forall is_u8 (hdr_bytes h) -> bytes p -> bytes (ipmb h p).
Proof.
  intros. unfold ipmb. rewrite !Forall_app. split_and!; [done | done |].
  apply Forall_singleton, csum_range.
Qed.

Lemma lun_byte (f : Z -> Z) x y :
  all_u8 (fun x => (0 <=? f x) && (f x <? 256) && (f x mod 4 =? 0)) = true ->
  is_u8 x -> is_u8 (f x .| (y .& 3)).
Proof.
  intros Hall Hx. pose proof (all_u8_spec _ x Hall Hx) as H. cbv beta in H. bool_hyps.
  pose proof (land_mask_range y 3 ltac:(lia)) as Hm.
  set (v := f x) in *. set (w := y .& 3) in *.
  assert (v = (v / 4) .<< 2) as -> by (rewrite Z.shiftl_mul_pow2 by lia; Z.to_euclidean_division_equations; lia).
  rewrite lor_shiftl_add by (cbn; lia). unfold is_u8. change (2 ^ 2) with 4.
  Z.to_euclidean_division_equations. lia.
Qed.

Lemma response_hdr_bytes rq :
  is_u8 (c_rsSA rq) -> is_u8 (c_netFn rq) -> is_u8 (c_rqSA rq) -> is_u8 (c_rqSeq rq) ->
  is_u8 (c_cmd rq) -> bytes (hdr_bytes (response_hdr rq)).
Proof.
  intros. unfold hdr_bytes, response_hdr. cbn [h_rsSA h_netFn h_csum1 h_rqSA h_rqSeq h_cmd].
  repeat (apply Forall_cons; split); try done; try apply u8_range.
  - by apply (lun_byte (fun x => (x .| 4) .& Z.lnot 3)); [vm_compute |].
  - by apply (lun_byte (fun x => x .& Z.lnot 3)); [vm_compute |].
Qed.

(** ** Properties *)

(** C3. However the operating system cuts the bytes of a frame into reads
    (at most one buffer each, anything may follow the frame in the last
    read), [serial_bm_recv_msg] returns exactly the message that
    [serial_bm_send_msg] framed, and keeps what follows for the next call. *)
Theorem recv_frame_in_chunks msg chunks a tail port msg_len fuel rc :
  bytes msg -> zlen msg <= msg_len -> rc_ready rc ->
  Forall chunk_ok chunks -> a <> [] -> zlen (a ++ tail) <= SERIAL_BM_MAX_BUFFER_SIZE ->
  serial_bm_send_msg msg = Some (concat chunks ++ a) -> (length chunks < fuel)%nat ->
  exists rc', serial_bm_recv_msg fuel msg_len (map Data chunks ++ Data (a ++ tail) :: port) rc =
      Ok (Some msg, port, rc') /\
    rc_buffer_size rc' = zlen tail /\ take (length tail) (rc_buffer rc') = tail.
Proof.
  intros Hb Hl Hrc Hcs Ha Hat Hf Hfuel. rewrite send_msg_exact in Hf. injection Hf as Hf.
  apply (recv_chunks_gen chunks a tail port fuel rc _ (mk_ctx MSG_DONE msg msg_len false)); try done.
  rewrite <- Hf. rewrite <- (app_nil_r (serial_bm_frame msg)) at 1. by apply parse_frame.
Qed.

Lemma recv_frame_in_chunks_witness :
  exists rc', serial_bm_recv_msg 3 47
      (map Data [[0xA0; 0xAA]; [0xB5; 1]] ++ Data ([0xA5] ++ [7]) :: [])
      (mk_recv (zeros 250) 0 250) = Ok (Some [0xA5; 1], [], rc') /\
    rc_buffer_size rc' = zlen [7] /\ take (length [7]) (rc_buffer rc') = [7].
Proof.
  apply (recv_frame_in_chunks [0xA5; 1] [[0xA0; 0xAA]; [0xB5; 1]] [0xA5] [7] [] 47 3
    (mk_recv (zeros 250) 0 250)).
  all: try (vm_compute; done). all: try (repeat constructor; unfold is_u8; vm_compute; done).
Defined.

(** The message of [serial_bm_build_msg] for a request within the limit
    of [ipmi_intf_get_max_request_data_size] is never refused, and it is the
    request data encapsulated once per bridging level: every level is an
    IPMB message whose two checksums are zero, around the Send Message
    channel and the next level. *)
Theorem build_msg_encapsulates intf req st :
  max_request_data_size intf = SERIAL_BM_MAX_RQ_SIZE -> 0 < rq_data_len req ->
  rq_data_len req <= ipmi_intf_get_max_request_data_size intf ->
  let level := ipmi_intf_get_bridging_level intf in
  let seq := u8 ((serial_bm_alloc_seq st).1 .<< 2) in
  let '(hdr, rqs) := build_spec intf req seq (is_system st) in
  let msg := ipmb hdr (nest rqs (rq_data req)) in
  serial_bm_build_msg intf req SERIAL_BM_MAX_MSG_SIZE st =
    (Some (msg, level, hdr_ctx hdr, hdr_ctx ∘ sm_msg <$> head rqs), (serial_bm_alloc_seq st).2) /\
  zlen rqs = level /\ zlen msg <= SERIAL_BM_MAX_MSG_SIZE /\
  ipmi_csum (take 3 msg) = 0 /\ ipmi_csum (drop 3 msg) = 0 /\
  Forall (fun s => forall p, ipmi_csum (take 3 (ipmb (sm_msg s) p)) = 0 /\
                             ipmi_csum (drop 3 (ipmb (sm_msg s) p)) = 0) rqs.
Proof.
  intros Hm H0 Hn level seq. pose proof (max_request_fits intf (rq_data_len req)) as Hfit.
  rewrite Hm in Hfit. unfold SERIAL_BM_MAX_RQ_SIZE in Hfit. cbn [Z.eqb Pos.eqb] in Hfit.
  assert (rq_data_len req + 7 + level * 8 <= SERIAL_BM_MAX_MSG_SIZE) as Hlen.
  { unfold SERIAL_BM_MAX_MSG_SIZE. subst level. lia. }
  pose proof (build_msg_nest intf req SERIAL_BM_MAX_MSG_SIZE st Hlen) as Hb.
  subst seq. destruct (serial_bm_alloc_seq st) as [sq st']. cbn [fst snd].
  unfold build_spec in Hb |- *. fold level in Hb |- *. rewrite Hb. clear Hb.
  pose proof (bridging_level_range intf) as Hl. fold level in Hl.
  set (rqs := if level =? 0 then [] else _).
  assert (zlen rqs = level /\ Forall (fun s => hdr_ok (sm_msg s)) rqs) as [Hz Hok].
  { subst rqs. destruct (level =? 0) eqn:E; bool_hyps; [by split; [| constructor] |].
    split; [apply zlen_bridge_rqs; lia | apply bridge_rqs_ok]. }
  split_and!; [done | done | | by apply hdr_csum | apply ipmb_csum2 |].
  - rewrite zlen_ipmb, zlen_nest, Hz. unfold rq_data_len in Hlen. lia.
  - eapply Forall_impl; [exact Hok |]. intros s Hs p. split; [by apply hdr_csum | apply ipmb_csum2].
Qed.

Definition witness_intf : intf_addr := mk_addr 0x20 0x72 7 0x82 0 33 33.
Definition witness_req : ipmi_rq := mk_rq 6 0 1 0 [0xA5; 3].

Lemma build_msg_encapsulates_witness :
  let '(hdr, rqs) := build_spec witness_intf witness_req 4 false in
  let msg := ipmb hdr (nest rqs [0xA5; 3]) in
  serial_bm_build_msg witness_intf witness_req SERIAL_BM_MAX_MSG_SIZE (mk_static 0 false) =
    (Some (msg, 2, hdr_ctx hdr, hdr_ctx ∘ sm_msg <$> head rqs), mk_static 1 false) /\
  zlen rqs = 2 /\ zlen msg <= SERIAL_BM_MAX_MSG_SIZE /\
  ipmi_csum (take 3 msg) = 0 /\ ipmi_csum (drop 3 msg) = 0 /\
  Forall (fun s => forall p, ipmi_csum (take 3 (ipmb (sm_msg s) p)) = 0 /\
                             ipmi_csum (drop 3 (ipmb (sm_msg s) p)) = 0) rqs.
Proof.
  apply (build_msg_encapsulates witness_intf witness_req (mk_static 0 false)); vm_compute; done.
Defined.

(** A response of the addressed device, framed and cut into reads in any
    way, is what [serial_bm_wait_response] returns: the completion code and
    the data, without header and checksum. *)
Theorem wait_response_finds_answer rq rsp chunks a port max_len fuel rc :
  bytes (hdr_bytes (response_hdr rq)) -> bytes rsp -> 1 <= zlen rsp ->
  zlen rsp + 7 <= max_len -> rc_ready rc ->
  Forall chunk_ok chunks -> a <> [] -> zlen a <= SERIAL_BM_MAX_BUFFER_SIZE ->
  serial_bm_send_msg (ipmb (response_hdr rq) rsp) = Some (concat chunks ++ a) ->
  (length chunks < fuel)%nat ->
  exists rc', serial_bm_wait_response fuel rq max_len (map Data chunks ++ Data a :: port) rc =
    Ok (Some rsp, port, rc').
Proof.
  intros Hh Hb Hl Hmax Hrc Hcs Ha Hal Hf Hfuel.
  destruct (recv_frame_in_chunks (ipmb (response_hdr rq) rsp) chunks a [] port max_len fuel rc)
    as (rc' & Hr & _); try done.
  - by apply ipmb_bytes.
  - by rewrite zlen_ipmb.
  - by rewrite app_nil_r.
  - exists rc'. destruct fuel as [|fuel]; [lia |]. rewrite app_nil_r in Hr.
    cbn [serial_bm_wait_response]. rewrite Hr. cbn [mbind res_bind].
    rewrite accept_response by done. unfold ipmb. by destruct (hdr_bytes (response_hdr rq)) eqn:E.
Qed.

Definition witness_rq : request_ctx := mk_rctx 0x20 0x18 0x81 4 0x34.

Lemma wait_response_finds_answer_witness :
  exists rc', serial_bm_wait_response 2 witness_rq 47
    (map Data [[0xA0; 0x81; 0x1C]] ++ Data [0x63; 0x20; 4; 0x34; 0; 0xA8; 0xA5] :: [])
    (mk_recv (zeros 250) 0 250) = Ok (Some [0], [], rc').
Proof.
  apply (wait_response_finds_answer witness_rq [0] [[0xA0; 0x81; 0x1C]]
    [0x63; 0x20; 4; 0x34; 0; 0xA8; 0xA5]).
  all: try (vm_compute; done). all: try (repeat constructor; unfold is_u8; vm_compute; done).
Defined.

(** Finding: when a byte does not fit, the parser returns -1, and the
    unsigned arithmetic of [serial_bm_recv_msg] then leaves the count of
    buffered bytes one larger than the bytes received. *)
Theorem overlong_frame_miscounts got rc ctx ctx' buffer :
  rc_buffer_size rc = 0 -> wr (rc_buffer rc) 0 got = Some buffer ->
  zlen got <= SERIAL_BM_MAX_BUFFER_SIZE ->
  serial_bm_parse_buffer got ctx = (-1, ctx') ->
  recv_step got rc ctx = Some (mk_recv buffer (zlen got + 1) (rc_max_buffer_size rc), ctx').
Proof.
  intros H0 Hw Hl Hp. unfold SERIAL_BM_MAX_BUFFER_SIZE in Hl. unfold recv_step.
  rewrite H0, Hw. cbn [mbind option_bind]. pose proof (zlen_nonneg got) as Hg.
  rewrite Z.add_0_l, (size_t_small (zlen got)) by lia.
  assert (take (Z.to_nat (zlen got)) buffer = got) as ->.
  { apply wr_Some in Hw as (_ & _ & _ & ->). rewrite take_0. unfold zlen.
    rewrite Nat2Z.id. cbn [app]. apply take_app_length. }
  rewrite Hp. change (size_t (-1)) with 18446744073709551615.
  rewrite (proj2 (Z.ltb_ge _ _)) by lia. cbn [mbind option_bind].
  rewrite size_t_small by lia. by replace (zlen got - -1) with (zlen got + 1) by lia.
Qed.

Lemma overlong_frame_miscounts_witness :
  recv_step [0xA0; 1; 2] (mk_recv (zeros 250) 0 250) (mk_ctx MSG_NONE [] 1 false) =
    Some (mk_recv ([0xA0; 1; 2] ++ zeros 247) 4 250, mk_ctx MSG_IN_PROGRESS [1] 1 false).
Proof. by apply overlong_frame_miscounts; vm_compute. Defined.
