(* ===== verification/SerialCmd.v ===== *)
(** * Commands over a serial line (src/plugins/serial/serial_basic.c,
      serial_terminal.c)

    The two serial transports have the same loop: build the message, send it,
    wait for its response, and for a bridged request unwrap the inner response,
    wait for it or fetch it from the receive queue of the controller.  What
    differs is the class [SerialMode]; its instance for the basic mode is here,
    the one for the terminal mode in SerialTerm.  The interface is open. *)

From S2P Require Import Prelude Wire Ipmi Ipmb Intf Session Bmc SerialBasic.

#[local] Open Scope Z_scope.

Definition CLOCKS_PER_SEC : Z := 1000000.

(** What the transports use of [struct ipmi_intf], the static variables, the
    receive context, and the outside: the port, the values of [clock] and the
    messages that were written. *)
Record serial := mk_serial {
  sr_addr : intf_addr;
  sr_retry : Z;
  sr_timeout : Z;
  sr_static : bm_static;
  sr_recv : recv_ctx;
  sr_port : list port_event;
  sr_clock : list Z;
  sr_sent : list (list Z);
}.

#[export] Instance serial_rebuild : Rebuild serial := fun s =>
  mk_serial (sr_addr s) (sr_retry s) (sr_timeout s) (sr_static s) (sr_recv s) (sr_port s) (sr_clock s) (sr_sent s).
#[export] Instance sr_static_update : Update sr_static := ltac:(solve_update).
#[export] Instance sr_recv_update : Update sr_recv := ltac:(solve_update).
#[export] Instance sr_port_update : Update sr_port := ltac:(solve_update).
#[export] Instance sr_clock_update : Update sr_clock := ltac:(solve_update).
#[export] Instance sr_sent_update : Update sr_sent := ltac:(solve_update).

(** The result of [write] is not used by any caller. *)
Definition serial_write (bytes : list Z) : M serial unit := modify (fun s => s <| sr_sent := sr_sent s ++ [bytes] |>).

Definition serial_clock : M serial Z := fun s =>
  match sr_clock s with
  | [] => Ok (0, s)
  | t :: ts => Ok (t, s <| sr_clock := ts |>)
  end.

(** A sequence number from the static counter. *)
Definition serial_seq : M serial Z := fun s =>
  let '(seq, st) := serial_bm_alloc_seq (sr_static s) in Ok (seq, s <| sr_static := st |>).

(** The fields of a message in the order in which the code compares them; a
    field behind the end of the message is what an earlier one left there. *)
Fixpoint fields_match (msg : list Z) (fields : list (Z * Z)) : res bool :=
  match fields with
  | [] => Ok true
  | (i, v) :: fields => x ← rdx msg i; if x =? v then fields_match msg fields else Ok false
  end.

(** What a mode does: build a message with the contexts that its responses are
    known by, write a message, wait for a response, and the fields of a queued
    message that answer a request.  A response is [None] after an error and
    empty after a time-out. *)
Class SerialMode (ctx : Type) := {
  mode_start : M serial unit;
  mode_build : ipmi_rq -> M serial (option (list Z * Z * ctx * option ctx));
  mode_send : list Z -> M serial unit;
  mode_wait : nat -> ctx -> M serial (option (list Z));
  mode_get_rq : Z -> ctx * list Z;
  mode_queued : ctx -> list (Z * Z);
}.

Section Serial.
Context {ctx : Type} {mode : SerialMode ctx}.

(** [serial_bm_get_message], [serial_term_get_message]: Get Message until the
    waited response is in the queue, the queue is empty or the time is over. *)
Fixpoint get_message_loop (fuel : nat) (start : Z) (rq : ctx) : M serial (option (list Z)) :=
  match fuel with
  | O => fail OutOfFuel
  | S fuel' =>
      seq ← serial_seq;
      let '(tmp, msg) := mode_get_rq (u8 (seq .<< 2)) in
      _ ← mode_send msg;
      r ← mode_wait fuel tmp;
      let again := (
        now ← serial_clock; timeout ← gets sr_timeout;
        if Z.quot (now - start) CLOCKS_PER_SEC <? timeout then get_message_loop fuel' start rq else mret (Some [])) in
      match r with
      | None | Some [] => mret r
      | Some ((completion :: _) as data) =>
          if completion =? 0 then
            found ← lift (fields_match data (mode_queued rq));
            if found : bool then
              if zlen data <? 8 then fail OutOfBounds else mret (Some (slice data 7 (zlen data - 7 - 1)))
            else again
          else if negb (completion =? 0x80) then mret (Some [])
          else again
      end
  end.

Definition get_message (fuel : nat) (rq : ctx) : M serial (option (list Z)) :=
  start ← serial_clock; get_message_loop fuel start rq.

(** The end of the function: the completion code and the data, of the inner
    response when the request was bridged twice. *)
Definition serial_result (level : Z) (resp : list Z) (rv : Z) : M serial (option (Z * list Z)) :=
  c ← lift (rdx resp 0);
  if (c =? 0) && (level =? 2) && (rv <? 8) then mret None
  else if (level =? 2) && (c =? 0) then
    cc ← lift (rdx resp 7); data ← lift (slx resp 8 (rv - 9)); mret (Some (cc, data))
  else data ← lift (slx resp 1 (rv - 1)); mret (Some (c, data)).

(** The loop of [serial_bm_send_request] and [ipmi_serial_term_send_cmd].  The
    length of a message that was not built is not initialised. *)
Fixpoint retry_loop (n : nat) (fuel : nat) (req : ipmi_rq) : M serial (option (Z * list Z)) :=
  match n with
  | O => mret None
  | S n =>
      b ← mode_build req;
      match b with
      | None => fail Uninitialised
      | Some (msg, level, c0, c1) =>
          _ ← mode_send msg;
          r ← mode_wait fuel c0;
          match r with
          | None => mret None
          | Some [] => retry_loop n fuel req
          | Some ((c :: _) as msg) =>
              if negb (level =? 0) && (c =? 0) then
                sys ← gets (fun s => is_system (sr_static s));
                if (sys : bool) || (zlen msg =? 1) then
                  c1 ← lift (or_oob c1);
                  r ← (if sys : bool then get_message fuel c1 else mode_wait fuel c1);
                  match r with
                  | None => mret None
                  | Some [] => retry_loop n fuel req
                  | Some msg => serial_result level msg (zlen msg)
                  end
                else serial_result level (drop 7 msg) (zlen msg - 8)
              else serial_result level msg (zlen msg)
          end
      end
  end.

Definition serial_request (fuel : nat) (req : ipmi_rq) : M serial (option (Z * list Z)) :=
  _ ← mode_start;
  retry ← gets sr_retry;
  retry_loop (Z.to_nat retry) fuel req.
End Serial.

(** ** The basic mode *)

#[export] Instance basic_mode : SerialMode request_ctx := {|
  mode_start := modify (fun s => s <| sr_recv := mk_recv (rc_buffer (sr_recv s)) 0 SERIAL_BM_MAX_BUFFER_SIZE |>);
  mode_build req := fun s =>
    let '(b, st) := serial_bm_build_msg (sr_addr s) req SERIAL_BM_MAX_MSG_SIZE (sr_static s) in
    Ok (b, s <| sr_static := st |>);
  mode_send msg := frame ← lift (or_oob (serial_bm_send_msg msg)); serial_write frame;
  mode_wait fuel rq := fun s =>
    match serial_bm_wait_response fuel rq SERIAL_BM_MAX_MSG_SIZE (sr_port s) (sr_recv s) with
    | Ok (r, port, rc) => Ok (r, s <| sr_port := port |> <| sr_recv := rc |>)
    | Bad e => Bad e
    end;
  mode_get_rq seq :=
    let hdr := [IPMI_BMC_SLAVE_ADDR; 0x18] in
    let rest := [IPMI_REMOTE_SWID; seq; 0x33] in
    (mk_rctx IPMI_BMC_SLAVE_ADDR 0x18 IPMI_REMOTE_SWID seq 0x33, hdr ++ [ipmi_csum hdr] ++ rest ++ [ipmi_csum rest]);
  mode_queued rq :=
    [(2, ((c_netFn rq .| 4) .& Z.lnot 3) .| (c_rqSeq rq .& 3)); (4, c_rsSA rq);
     (5, (c_rqSeq rq .& Z.lnot 3) .| (c_netFn rq .& 3)); (6, c_cmd rq)];
|}.

(** [serial_bm_setup] *)
Definition serial_bm_setup (intf : intf_addr) : intf_addr :=
  mk_addr (my_addr intf) (target_addr intf) (target_channel intf) (transit_addr intf) (transit_channel intf)
    SERIAL_BM_MAX_RQ_SIZE SERIAL_BM_MAX_RS_SIZE.

(** [serial_bm_send_request] *)
Definition serial_bm_send_request : nat -> ipmi_rq -> M serial (option (Z * list Z)) := serial_request.
