(* ===== verification/CText.v ===== *)
(** * Lines, words and numbers of text files

    The functions of the C library that read and write text for the modules that
    keep their state in files: [fgets], [strtok], the removal of comments and of
    white space, [%d] and [%x]. *)

From stdpp Require Import strings.
From S2P Require Import Prelude Intf Helper.

#[local] Open Scope Z_scope.

(** [fgets] with a buffer of [size] bytes: the string, and the rest of the
    file. *)
Fixpoint fgets (size : nat) (file : list Z) : list Z * list Z :=
  match size, file with
  | S (S _ as size), c :: file =>
      if c =? 10 then ([c], file) else let '(s, rest) := fgets size file in (c :: s, rest)
  | _, _ => ([], file)
  end.

(** The part before a character. *)
Fixpoint until (c : Z) (s : list Z) : list Z :=
  match s with
  | [] => []
  | x :: s => if x =? c then [] else x :: until c s
  end.

(** Trailing white space goes first, then leading white space. *)
Fixpoint trim_end (s : list Z) : list Z :=
  match s with
  | [] => []
  | x :: s => let s := trim_end s in if isspace x && bool_decide (s = []) then [] else x :: s
  end.

Definition trim (s : list Z) : list Z := skip_space (trim_end s).

(** The tokens of [strtok(s, " ")]; [tok] is the one that is being read. *)
Fixpoint strtok (s : list Z) (tok : list Z) : list (list Z) :=
  let emit rest := match tok with [] => rest | _ :: _ => tok :: rest end in
  match s with
  | [] => emit []
  | c :: s => if c =? 32 then emit (strtok s []) else strtok s (tok ++ [c])
  end.

(** [%d] *)
Fixpoint dec_digits (fuel : nat) (v : Z) (acc : list Z) : list Z :=
  match fuel with
  | O => acc
  | S fuel =>
      let acc := (48 + v mod 10) :: acc in
      if v / 10 =? 0 then acc else dec_digits fuel (v / 10) acc
  end.
Definition dec (v : Z) : list Z := if v <? 0 then 45 :: dec_digits 10 (- v) [] else dec_digits 10 v [].

(** [%x] *)
Fixpoint lower_hex_digits (fuel : nat) (v : Z) (acc : list Z) : list Z :=
  match fuel with
  | O => acc
  | S fuel =>
      let acc := xdigit (v .& 15) :: acc in
      if v .>> 4 =? 0 then acc else lower_hex_digits fuel (v .>> 4) acc
  end.
Definition lower_hex (v : Z) : list Z := lower_hex_digits 8 v [].

(** Decide the comparisons of keywords. *)
Ltac keywords :=
  repeat match goal with |- context [bool_decide (text ?a = text ?b)] =>
    let r := eval vm_compute in (bool_decide (text a = text b)) in change (bool_decide (text a = text b)) with r end.

(** ** Reading a line *)

Lemma fgets_cons n c l : fgets (S (S n)) (c :: l) = if c =? 10 then ([c], l) else let '(s, rest) := fgets (S n) l in (c :: s, rest).
Proof. done. Qed.

Lemma fgets_shorter size c l : (2 <= size)%nat -> (length (fgets size (c :: l)).2 <= length l)%nat.
Proof.
  assert (forall n l, (length (fgets n l).2 <= length l)%nat) as Hle.
  { induction n as [|[|n] IH]; intros m; [done | by destruct m |]. destruct m as [|x m]; [done |].
    rewrite fgets_cons. case_match; [simpl; lia |]. specialize (IH m). destruct (fgets (S n) m). simpl in *. lia. }
  intros H. destruct size as [|[|size]]; [lia | lia |]. rewrite fgets_cons. case_match; [done |].
  specialize (Hle (S size) l). destruct (fgets (S size) l). simpl in *. lia.
Qed.

Lemma c_string_id l : Forall (fun c => c <> 0) l -> c_string l = l.
Proof. induction 1 as [|c l Hc _ IH]; [done |]. cbn [c_string]. by rewrite (proj2 (Z.eqb_neq c 0)), IH. Qed.

Lemma fgets_line n l rest : Forall (fun c => c <> 10) l -> (length l < n)%nat ->
  fgets (S n) (l ++ 10 :: rest) = (l ++ [10], rest).
Proof.
  intros H. revert n. induction H as [|c l Hc _ IH]; intros n Hn; (destruct n as [|n]; [cbn [length] in Hn; lia |]); [done |].
  cbn [app length] in *. rewrite fgets_cons, (proj2 (Z.eqb_neq c 10)), IH by (done || lia). done.
Qed.

Lemma until_app c l rest : Forall (fun x => x <> c) l -> until c (l ++ c :: rest) = l.
Proof.
  induction 1 as [|x l Hx _ IH]; cbn [app until]; [by rewrite Z.eqb_refl |]. by rewrite (proj2 (Z.eqb_neq x c)), IH.
Qed.

Lemma until_id c l : Forall (fun x => x <> c) l -> until c l = l.
Proof. induction 1 as [|x l Hx _ IH]; [done |]. cbn [until]. by rewrite (proj2 (Z.eqb_neq x c)), IH. Qed.

Lemma trim_end_space l c : isspace c = true -> trim_end (l ++ [c]) = trim_end l.
Proof. intros H. induction l as [|x l IH]; cbn [app trim_end]; [by rewrite H | by rewrite IH]. Qed.

Lemma trim_end_id l c : isspace c = false -> trim_end (l ++ [c]) = l ++ [c].
Proof.
  intros H. induction l as [|x l IH]; cbn [app trim_end]; [by rewrite H |]. rewrite IH.
  rewrite bool_decide_eq_false_2 by (by destruct l). by rewrite andb_false_r.
Qed.

(** Words: not empty, and without white space. *)
Definition word (t : list Z) : Prop := t <> [] /\ Forall (fun c => isspace c = false) t.

Definition words (toks : list (list Z)) : list Z := flat_map (fun t => t ++ [32]) toks.

Lemma trim_line toks t c : isspace c = true -> word t -> Forall word toks -> trim ((words toks ++ t) ++ [c]) = words toks ++ t.
Proof.
  intros Hc [Ht Hs] Hw. unfold trim, words. rewrite trim_end_space by done.
  destruct (exists_last Ht) as (t' & x & ->). rewrite app_assoc, trim_end_id.
  2: { apply Forall_app in Hs as [_ Hs]. by inversion Hs. }
  assert (forall x l, isspace x = false -> skip_space (x :: l) = x :: l) as Hk by (intros y l E; cbn [skip_space]; by rewrite E).
  destruct Hw as [|u toks [Hu Hus] _]; cbn [flat_map app].
  - destruct t' as [|y t']; cbn [app]; inversion Hs; by rewrite Hk.
  - destruct u as [|y u]; [done |]. cbn [app]. inversion Hus. by rewrite Hk.
Qed.

Lemma trim_words toks t : word t -> Forall word toks -> trim (words (toks ++ [t])) = words toks ++ t.
Proof.
  intros Ht Hw. unfold words at 1. rewrite flat_map_app. cbn [flat_map]. rewrite app_nil_r, app_assoc. by apply trim_line.
Qed.

Lemma strtok_word t s acc : Forall (fun c => isspace c = false) t -> strtok (t ++ s) acc = strtok s (acc ++ t).
Proof.
  intros H. revert acc. induction H as [|c t Hc _ IH]; intros acc; [by rewrite app_nil_r |]. cbn [app strtok].
  destruct (Z.eqb_spec c 32) as [->|]; [done |]. by rewrite IH, <- app_assoc.
Qed.

Lemma strtok_words toks t : word t -> Forall word toks -> strtok (words toks ++ t) [] = toks ++ [t].
Proof.
  intros [Ht Hs]. induction 1 as [|u toks [Hu Hus] _ IH]; cbn [words flat_map app].
  - rewrite <- (app_nil_r t) at 1. rewrite strtok_word by done. cbn. by destruct t.
  - rewrite <- !app_assoc, strtok_word by done. cbn [app strtok]. change (32 =? 32) with true. cbv match. cbn beta.
    change (flat_map (fun t0 => t0 ++ [32]) toks) with (words toks). rewrite IH. by destruct u.
Qed.

(** A byte in decimal is read back. *)
Definition dec_parse_ok (x : Z) : bool :=
  bool_decide (str2uchar (Some (dec x)) = (0, Some x)) && bool_decide (str2int (Some (dec x)) = (0, Some x)).

Lemma dec_parses x : is_u8 x -> str2uchar (Some (dec x)) = (0, Some x) /\ str2int (Some (dec x)) = (0, Some x).
Proof.
  intros H. assert (dec_parse_ok x = true) as E by (revert H; apply all_u8_spec; vm_compute; reflexivity).
  unfold dec_parse_ok in E. bool_hyps. split; by eapply bool_decide_eq_true_1.
Qed.
