(* ===== verification/SerialTerm.v ===== *)
(** * The serial terminal-mode transport (src/plugins/serial/serial_terminal.c)

    Messages are lines of hexadecimal digits between brackets.  The port
    delivers one byte per [read]. *)

From stdpp Require Import strings.
From S2P Require Import Prelude Wire Ipmi Ipmb Intf Session Helper CText Bmc SerialBasic SerialCmd.

#[local] Open Scope Z_scope.

Definition IPMI_SERIAL_MAX_RESPONSE : Z := 256.
Definition IPMI_SERIAL_MAX_RQ_SIZE : Z := 37.
Definition IPMI_SERIAL_MAX_RS_SIZE : Z := 36.

(** ** Lines *)

(** [serial_wait_for_data] and [read] of one byte. *)
Definition serial_get : M serial (option Z) := fun s =>
  match sr_port s with
  | [] => Ok (None, s)
  | PollFail :: port | ReadFail :: port | Data [] :: port => Ok (None, s <| sr_port := port |>)
  | Data (b :: bs) :: port => let '(_, port) := port_read 1 (b :: bs) port in Ok (Some b, s <| sr_port := port |>)
  end.

Definition is_eol (c : Z) : bool := (c =? 10) || (c =? 13).

(** [serial_read_line]: the line with its end; [None] for -1. *)
Fixpoint serial_read_line (len : nat) : M serial (option (list Z)) :=
  match len with
  | O => mret None
  | S len =>
      c ← serial_get;
      match c with
      | None => mret None
      | Some c =>
          if is_eol c then mret (Some [c]) else
          r ← serial_read_line len;
          mret (cons c <$> r)
      end
  end.

(** The first loop of [recv_response], with the lines in [hex_rs]; when they
    fill the array the next call writes its terminator behind it. *)
Fixpoint read_reply (fuel : nat) (hex_rs : list Z) : M serial (option (list Z)) :=
  match fuel with
  | O => fail OutOfFuel
  | S fuel =>
      let left := IPMI_SERIAL_MAX_RESPONSE * 3 - zlen hex_rs in
      if left <=? 0 then fail OutOfBounds else
      r ← serial_read_line (Z.to_nat left);
      match r with
      | None => mret None
      | Some line =>
          let hex_rs := hex_rs ++ line in
          let n := zlen hex_rs in
          if (2 <=? n) && (rd hex_rs (n - 2) =? 93) && is_eol (rd hex_rs (n - 1))
          then mret (Some (slice hex_rs 0 (n - 1))) else read_reply fuel hex_rs
      end
  end.

(** [strrchr], behind the character; [strchr], up to it. *)
Fixpoint after_last (c : Z) (s : list Z) : option (list Z) :=
  match s with
  | [] => None
  | x :: s => match after_last c s with Some r => Some r | None => if x =? c then Some s else None end
  end.
Fixpoint before_first (c : Z) (s : list Z) : option (list Z) :=
  match s with
  | [] => None
  | x :: s => if x =? c then Some [] else cons x <$> before_first c s
  end.

(** Two digits are [strtoul] of them with the base 16; a single last digit is
    dropped. *)
Fixpoint parse_reply (p : list Z) (digit : option Z) (data : list Z) (len : Z) : option (list Z) :=
  match p with
  | [] => Some data
  | ch :: p =>
      if len <=? zlen data then None else
      if isxdigit ch then
        match digit with
        | None => parse_reply p (Some ch) data len
        | Some d => parse_reply p None (data ++ [(scan_digits 16 [d; ch] 0).1]) len
        end
      else if bool_decide (is_Some digit) || negb (isspace ch) then None
      else parse_reply p digit data len
  end.

(** [recv_response]: [None] for -1, empty for 0. *)
Definition recv_response (len : Z) : M serial (option (list Z)) :=
  r ← read_reply (S (Z.to_nat (IPMI_SERIAL_MAX_RESPONSE * 3))) [];
  match r with
  | None => mret None
  | Some hex_rs =>
      match after_last 91 (c_string hex_rs) with
      | None => mret None
      | Some p =>
          match before_first 93 p with
          | None => mret None
          | Some p =>
              if bool_decide (p = text "ERR ") then
                _ ← serial_write [13; 13; 13; 13];
                mret (Some [])
              else mret (parse_reply p None [] len)
          end
      end
  end.

(** ** Messages *)

(** [struct serial_term_request_ctx] *)
Record term_ctx := mk_tctx { t_netFn : Z; t_sa : Z; t_seq : Z; t_cmd : Z }.

Definition outer_ctx (s : send_message_rq) : term_ctx :=
  let m := sm_msg s in mk_tctx (h_netFn m) (h_rsSA m) (h_rqSeq m) (h_cmd m).

(** [serial_term_build_msg]; the address of the first context is not set. *)
Definition serial_term_build_msg (intf : intf_addr) (req : ipmi_rq) (max_len : Z) (st : bm_static)
    : option (list Z * Z * term_ctx * option term_ctx) * bm_static :=
  let bridging_level := ipmi_intf_get_bridging_level intf in
  if max_len <? rq_data_len req + 3 + bridging_level * 8 then (None, st) else
  let '(seq, st) := serial_bm_alloc_seq st in
  let seq := u8 (seq .<< 2) in
  let netFn := if negb (bridging_level =? 0) then 0x18 else u8 ((rq_netfn req .<< 2) .| rq_lun req) in
  let cmd := if negb (bridging_level =? 0) then 0x34 else rq_cmd req in
  let rqs := if negb (bridging_level =? 0) then bridge_rqs intf req bridging_level seq (is_system st) else [] in
  let msg := [netFn; seq; cmd] ++ concat (map smrq_bytes rqs) ++ rq_data req in
  let msg :=
    if negb (bridging_level =? 0) then
      let inner := 3 + 7 * (zlen rqs - 1) + 1 in
      let msg := msg ++ [ipmi_csum (slice msg (inner + 3) (rq_data_len req + 3))] in
      if bridging_level =? 2 then msg ++ [ipmi_csum (slice msg (4 + 3) 4)] else msg
    else msg in
  (Some (msg, bridging_level, mk_tctx netFn 0 seq cmd, outer_ctx <$> head rqs), st).

(** [serial_term_send_msg] *)
Definition serial_term_frame (msg : list Z) : list Z := [91] ++ hex_text msg ++ [93; 13; 10].

(** The test of [serial_term_wait_response] on a message. *)
Definition serial_term_accept (rq : term_ctx) (msg : list Z) : option (list Z) :=
  if zlen msg <? 4 then None else
  if (rd msg 0 =? (t_netFn rq .| 4)) && ((rd msg 1 .& Z.lnot 3) =? t_seq rq) && (rd msg 2 =? t_cmd rq)
  then Some (drop 3 msg) else None.

(** [serial_term_wait_response]: an error of the port is a time-out here. *)
Fixpoint serial_term_wait_response (fuel : nat) (rq : term_ctx) (max_len : Z) : M serial (option (list Z)) :=
  match fuel with
  | O => fail OutOfFuel
  | S fuel =>
      r ← recv_response max_len;
      match r with
      | None | Some [] => mret (Some [])
      | Some msg =>
          match serial_term_accept rq msg with
          | Some rsp => mret (Some rsp)
          | None => serial_term_wait_response fuel rq max_len
          end
      end
  end.

#[export] Instance terminal_mode : SerialMode term_ctx := {|
  mode_start := mret tt;
  mode_build req := fun s =>
    let '(b, st) := serial_term_build_msg (sr_addr s) req IPMI_SERIAL_MAX_RESPONSE (sr_static s) in
    Ok (b, s <| sr_static := st |>);
  mode_send msg := serial_write (serial_term_frame msg);
  mode_wait fuel rq := serial_term_wait_response fuel rq IPMI_SERIAL_MAX_RESPONSE;
  mode_get_rq seq := (mk_tctx 0x18 0 seq 0x33, [0x18; seq; 0x33]);
  mode_queued rq :=
    [(2, (t_netFn rq .& Z.lnot 3) .| (t_seq rq .& 3) .| 4); (4, t_sa rq); (5, t_seq rq .& Z.lnot 3); (6, t_cmd rq)];
|}.

(** [ipmi_serial_term_setup] *)
Definition ipmi_serial_term_setup (intf : intf_addr) : intf_addr :=
  mk_addr (my_addr intf) (target_addr intf) (target_channel intf) (transit_addr intf) (transit_channel intf)
    IPMI_SERIAL_MAX_RQ_SIZE IPMI_SERIAL_MAX_RS_SIZE.

(** [ipmi_serial_term_send_cmd] *)
Definition ipmi_serial_term_send_cmd : nat -> ipmi_rq -> M serial (option (Z * list Z)) := serial_request.
