(* ===== verification/SerialProps.v ===== *)
(** * Commands over a serial line are answered

    The unwrapping of bridged responses and the retries are proved once for the
    class [SerialMode]; the two modes then only have to show that their port
    delivers a message. *)

From stdpp Require Import strings.
From S2P Require Import Prelude Wire Ipmi Ipmb Intf Session Helper CText Bmc SerialBasic SerialCmd SerialTerm.

#[local] Open Scope Z_scope.

(** ** Bridged responses *)

(** A response inside the Send Message responses of the controllers on the way:
    their completion code, the header of the message and its checksum. *)
Fixpoint wrapped (layers : list (list Z * Z)) (rsp : list Z) : list Z :=
  match layers with
  | [] => rsp
  | (hdr, csum) :: layers => 0 :: hdr ++ wrapped layers rsp ++ [csum]
  end.

(** The response comes from the target, or it is the error of a controller on
    the way. *)
Definition wrapped_ok (level : Z) (layers : list (list Z * Z)) (cc : Z) : Prop :=
  Forall (fun l => zlen l.1 = 6) layers /\ zlen layers <= level /\ (zlen layers = level \/ cc <> 0).

Lemma result_run level resp cc d tail rv s : 0 <= level <= 2 ->
  resp = (cc :: d) ++ tail -> rv = 1 + zlen d -> (level = 2 -> cc <> 0) ->
  serial_result level resp rv s = Ok (Some (cc, d), s).
Proof.
  intros Hl -> -> Hcc. unfold serial_result. unfold mbind at 1, M_bind.
  rewrite rdx_ok by zlen_lia. cbn [lift app]. change (rd (cc :: d ++ tail) 0) with cc.
  assert ((cc =? 0) && (level =? 2) = false) as E.
  { destruct (Z.eqb_spec cc 0); [| done]. destruct (Z.eqb_spec level 2); [tauto | done]. }
  rewrite E, (andb_comm (level =? 2)), E. cbn [andb].
  rewrite (slx_mid [cc] d tail) by (done || lia). done.
Qed.

Lemma result_twice hdr cc d c1 c2 s : zlen hdr = 6 ->
  serial_result 2 (0 :: hdr ++ (cc :: d) ++ [c1] ++ [c2]) (9 + zlen d) s = Ok (Some (cc, d), s).
Proof.
  intros Hh. pose proof (zlen_nonneg d). set (resp := 0 :: _).
  assert (resp = (0 :: hdr) ++ [cc] ++ d ++ [c1; c2]) as E by done. assert (zlen resp = 10 + zlen d) as Hz by (subst resp; zlen_lia).
  assert (rd resp 7 = cc) as E7 by (rewrite E; apply rd_app_mid; rewrite zlen_cons; lia).
  assert (slx resp 8 (9 + zlen d - 9) = Ok d) as E8.
  { rewrite E, app_assoc. apply slx_mid; [rewrite ?zlen_app, !zlen_cons, zlen_nil |]; lia. }
  unfold serial_result, mbind, M_bind. rewrite !rdx_ok by lia. cbn [lift].
  replace (rd resp 0) with 0 by done. change ((0 =? 0) && (2 =? 2)) with true. rewrite (proj2 (Z.ltb_ge _ 8)) by lia.
  cbn [andb]. change ((2 =? 2) && (0 =? 0)) with true. cbn iota. by rewrite E8, E7.
Qed.

Section Generic.
Context {ctx : Type} {mode : SerialMode ctx}.

Lemma wrapped_nonempty layers cc d : wrapped layers (cc :: d) <> [].
Proof. by destruct layers as [|[]]. Qed.

(** A round of the retry loop that is answered. *)
Lemma retry_answered n fuel req s msg level c0 c1 s1 s2 s3 layers cc d :
  0 <= level <= 2 -> mode_build req s = Ok (Some (msg, level, c0, c1), s1) -> mode_send msg s1 = Ok (tt, s2) ->
  mode_wait fuel c0 s2 = Ok (Some (wrapped layers (cc :: d)), s3) -> is_system (sr_static s3) = false ->
  wrapped_ok level layers cc -> retry_loop (S n) fuel req s = Ok (Some (cc, d), s3).
Proof.
  intros Hl Hb Hs Hw Hsys (Hf & Hn & Hcc). cbn [retry_loop].
  unfold mbind at 1, M_bind. rewrite Hb. unfold mbind at 1, M_bind. rewrite Hs. unfold mbind at 1, M_bind. rewrite Hw.
  destruct layers as [|[h1 k1] layers]; cbn [wrapped].
  - replace (negb (level =? 0) && (cc =? 0)) with false; [| rewrite zlen_nil in Hcc; lia].
    apply (result_run level (cc :: d) cc d []); [done | by rewrite app_nil_r | zlen_lia |].
    intros ->. by destruct Hcc.
  - apply Forall_cons in Hf as [H1 Hf]. cbn [fst] in H1. rewrite zlen_cons in Hn, Hcc.
    pose proof (zlen_nonneg layers). rewrite (proj2 (Z.eqb_neq level 0)) by lia. cbn [negb andb].
    change (0 =? 0) with true. cbn iota. unfold mbind at 1, M_bind, gets. rewrite Hsys. cbn [orb].
    rewrite (proj2 (Z.eqb_neq _ 1)) by zlen_lia.
    assert (forall x, drop 7 (0 :: h1 ++ x) = x) as ->.
    { intros x. cbn [drop]. unfold zlen in H1. replace 6%nat with (length h1) by lia. apply drop_app_length. }
    destruct layers as [|[h2 k2] layers]; cbn [wrapped].
    + apply (result_run level _ cc d [k1]); [done | done | zlen_lia |]. rewrite zlen_nil in Hcc. lia.
    + apply Forall_cons in Hf as [H2 Hf]. cbn [fst] in H2. rewrite zlen_cons in Hn, Hcc.
      destruct layers as [|l layers]; [| pose proof (zlen_nonneg layers); rewrite zlen_cons in Hn; lia].
      assert (level = 2) as -> by (rewrite zlen_nil in Hn; lia). cbn [wrapped].
      replace ((0 :: h2 ++ (cc :: d) ++ [k2]) ++ [k1]) with (0 :: h2 ++ (cc :: d) ++ [k2] ++ [k1])
        by (cbn [app]; rewrite <- !app_assoc; cbn [app]; by rewrite <- !app_assoc).
      replace (zlen _ - 8) with (9 + zlen d) by zlen_lia. by apply result_twice.
Qed.

(** A round without an answer. *)
Lemma retry_silent n fuel req s msg level c0 c1 s1 s2 s3 :
  mode_build req s = Ok (Some (msg, level, c0, c1), s1) -> mode_send msg s1 = Ok (tt, s2) ->
  mode_wait fuel c0 s2 = Ok (Some [], s3) -> retry_loop (S n) fuel req s = retry_loop n fuel req s3.
Proof.
  intros Hb Hs Hw. cbn [retry_loop]. unfold mbind at 1, M_bind. rewrite Hb.
  unfold mbind at 1, M_bind. rewrite Hs. unfold mbind at 1, M_bind. by rewrite Hw.
Qed.
End Generic.

(** ** The terminal mode: text *)

(** A message as a controller may write it: two digits of either case for a
    byte, with white space between the bytes. *)
Inductive reply_text : list Z -> list Z -> Prop :=
  | reply_text_nil : reply_text [] []
  | reply_text_space c p m : isspace c = true -> is_eol c = false -> reply_text p m -> reply_text (c :: p) m
  | reply_text_byte h l b p m : isxdigit h = true -> isxdigit l = true -> (scan_digits 16 [h; l] 0).1 = b ->
      reply_text p m -> reply_text (h :: l :: p) (b :: m).

(** The characters of a message. *)
Definition reply_char (c : Z) : bool := isxdigit c || isspace c && negb (is_eol c).

Lemma reply_text_chars p m : reply_text p m -> Forall (fun c => reply_char c = true) p.
Proof.
  unfold reply_char. induction 1 as [|c p m Hs He _ IH|h l b p m Hh Hl _ _ IH]; [done | |].
  - constructor; [by rewrite Hs, He, orb_true_r | done].
  - constructor; [by rewrite Hh |]. constructor; [by rewrite Hl | done].
Qed.

Lemma reply_char_facts c : reply_char c = true -> c <> 0 /\ c <> 91 /\ c <> 93 /\ c <> 82 /\ is_eol c = false.
Proof. unfold reply_char, isxdigit, isdigit, isspace, is_eol. intros H. split_and!; lia. Qed.

Lemma parse_reply_text p m data len : reply_text p m -> zlen data + zlen m < len -> parse_reply p None data len = Some (data ++ m).
Proof.
  intros H. revert data. induction H as [|c p m Hs He _ IH|h l b p m Hh Hl Hb _ IH]; intros data Hlen; cbn [parse_reply].
  - by rewrite app_nil_r.
  - pose proof (zlen_nonneg m). rewrite (proj2 (Z.leb_gt _ _)) by lia.
    assert (isxdigit c = false) as -> by (unfold isxdigit, isdigit, isspace in *; lia).
    rewrite bool_decide_eq_false_2 by (by intros [? [=]]). rewrite Hs. cbn [orb negb]. by apply IH.
  - rewrite zlen_cons in Hlen. pose proof (zlen_nonneg m). rewrite !(proj2 (Z.leb_gt _ _)) by lia. rewrite Hh, Hl, Hb.
    rewrite IH by zlen_lia. by rewrite <- app_assoc.
Qed.

(** Any text is quiet in which no line ends with the stop character. *)
Fixpoint quiet (s : list Z) : bool :=
  match s with
  | a :: (b :: _) as s' => negb ((a =? 93) && is_eol b) && quiet s'
  | _ => true
  end.

Lemma quiet_line a l c b : quiet (a ++ l ++ c :: b) = true -> is_eol c = true -> a ++ l <> [] -> last (a ++ l) <> Some 93.
Proof.
  intros H Hc Hne E. destruct (exists_last Hne) as (x & y & Ex). rewrite Ex, last_snoc in E. injection E as ->.
  rewrite app_assoc, Ex, <- app_assoc in H. clear Ex Hne a l. induction x as [|z x IH].
  - cbn in H. by rewrite Hc in H.
  - apply IH. cbn [app quiet] in H. destruct x; cbn [app] in *; bool_hyps; done.
Qed.

Lemma quiet_app j r : quiet j = true -> quiet (91 :: r) = true -> quiet (j ++ 91 :: r) = true.
Proof.
  intros Hj Hr. induction j as [|a j IH]; [done |]. destruct j as [|b j].
  - cbn [app]. change (negb ((a =? 93) && is_eol 91) && quiet (91 :: r) = true). by rewrite Hr, andb_false_r.
  - change (negb ((a =? 93) && is_eol b) && quiet (b :: j) = true) in Hj.
    change (negb ((a =? 93) && is_eol b) && quiet ((b :: j) ++ 91 :: r) = true).
    apply andb_true_iff in Hj as [-> Hj]. by apply IH.
Qed.

Lemma quiet_chars p : Forall (fun c => is_eol c = false) p -> quiet p = true.
Proof.
  induction 1 as [|a p Ha Hp IH]; [done |]. destruct p as [|b p]; [done |]. cbn [quiet] in *.
  apply Forall_cons in Hp as [-> _]. by rewrite andb_false_r.
Qed.

(** ** The terminal mode: the port *)

(** The port delivers [bs], in pieces of any size, and then what is in
    [rest]. *)
Inductive delivers : list port_event -> list Z -> list port_event -> Prop :=
  | delivers_nil port : delivers port [] port
  | delivers_data c port bs rest : c <> [] -> delivers port bs rest -> delivers (Data c :: port) (c ++ bs) rest
  | delivers_part c bs rest : c <> [] -> bs <> [] -> delivers (Data (bs ++ c) :: rest) bs (Data c :: rest).

Lemma serial_get_run b bs rest s : delivers (sr_port s) (b :: bs) rest ->
  exists port, serial_get s = Ok (Some b, s <| sr_port := port |>) /\ delivers port bs rest.
Proof.
  intros H. inversion H as [|c port bs' rest' Hc Hd E1 E2|c bs' rest' Hc Hb E1 E2]; subst.
  - destruct c as [|x c]; [done |]. cbn [app] in E2. injection E2 as -> E2. unfold serial_get. rewrite <- E1.
    unfold port_read. change (Z.to_nat 1) with 1%nat. cbn [drop]. destruct c as [|y c].
    + eexists. split; [done |]. by subst.
    + eexists. split; [done |]. subst. by constructor.
  - unfold serial_get. rewrite <- E1. cbn [app]. unfold port_read. change (Z.to_nat 1) with 1%nat. cbn [drop].
    destruct bs as [|y bs].
    + cbn [app]. destruct c as [|z c]; [done |]. eexists. split; [done |]. constructor.
    + cbn [app]. eexists. split; [done |]. change (y :: bs ++ c) with ((y :: bs) ++ c). by constructor.
Qed.

Lemma read_line_run l c bs rest len s : Forall (fun x => is_eol x = false) l -> is_eol c = true -> (length l < len)%nat ->
  delivers (sr_port s) (l ++ c :: bs) rest ->
  exists port, serial_read_line len s = Ok (Some (l ++ [c]), s <| sr_port := port |>) /\ delivers port bs rest.
Proof.
  intros Hl Hc. revert len s. induction Hl as [|x l Hx _ IH]; intros len s Hlen Hd; (destruct len as [|len]; [cbn [length] in Hlen; lia |]);
    cbn [app serial_read_line] in *; destruct (serial_get_run _ _ _ _ Hd) as (port & E & Hd'); unfold mbind at 1, M_bind; rewrite E.
  - rewrite Hc. eexists. by split.
  - rewrite Hx. cbn [length] in Hlen. set (s1 := s <| sr_port := port |>).
    destruct (IH len s1) as (port2 & E2 & Hd2); [lia | done |]. unfold mbind at 1, M_bind. rewrite E2. eexists. by split.
Qed.

Lemma eol_split b : Forall (fun x => is_eol x = false) b \/
  exists l c b', b = l ++ c :: b' /\ Forall (fun x => is_eol x = false) l /\ is_eol c = true.
Proof.
  induction b as [|x b IH]; [by left |]. destruct (is_eol x) eqn:E.
  - right. by exists [], x, b.
  - destruct IH as [H|(l & c & b' & -> & Hl & Hc)]; [left; by constructor |].
    right. exists (x :: l), c, b'. split; [done |]. split; [by constructor | done].
Qed.

Lemma rd_last l x c : rd (l ++ [x] ++ [c]) (zlen (l ++ [x] ++ [c]) - 2) = x.
Proof. apply (rd_app_mid l [c]). rewrite !zlen_app. change (zlen [x]) with 1. change (zlen [c]) with 1. lia. Qed.

(** Lines are read until one ends with the stop character. *)
Lemma read_reply_run e bs rest fuel : is_eol e = true -> forall hex_rs b s, (length b + 1 < fuel)%nat ->
  quiet (hex_rs ++ b ++ [93]) = true -> zlen (hex_rs ++ b ++ [93]) < 768 -> delivers (sr_port s) (b ++ 93 :: e :: bs) rest ->
  exists port, read_reply fuel hex_rs s = Ok (Some (hex_rs ++ b ++ [93]), s <| sr_port := port |>) /\ delivers port bs rest.
Proof.
  intros He. induction fuel as [|fuel IH]; intros hex_rs b s Hf Hq Hz Hd; [lia |].
  assert (zlen hex_rs + zlen b < 767) as Hz' by (rewrite !zlen_app in Hz; change (zlen [93]) with 1 in Hz; lia).
  pose proof (zlen_nonneg b). pose proof (zlen_nonneg hex_rs).
  cbn [read_reply]. change (IPMI_SERIAL_MAX_RESPONSE * 3) with 768. rewrite (proj2 (Z.leb_gt _ 0)) by lia.
  destruct (eol_split b) as [Hb|(l & c & b' & -> & Hl & Hc)].
  - destruct (read_line_run (b ++ [93]) e bs rest (Z.to_nat (768 - zlen hex_rs)) s) as (port & E & Hd').
    { apply Forall_app. split; [done | by repeat constructor]. }
    { done. } { rewrite length_app. cbn [length]. unfold zlen in *. lia. } { by rewrite <- app_assoc. }
    exists port. split; [| done]. unfold mbind at 1, M_bind. rewrite E.
    rewrite <- (app_assoc b), (app_assoc hex_rs b). cbv zeta. rewrite rd_last.
    assert (is_eol (rd ((hex_rs ++ b) ++ [93] ++ [e]) (zlen ((hex_rs ++ b) ++ [93] ++ [e]) - 1)) = true) as ->.
    { rewrite app_assoc, rd_app_mid; [done |]. rewrite !zlen_app. change (zlen [93]) with 1. change (zlen [e]) with 1. lia. }
    rewrite (proj2 (Z.leb_le 2 _)) by (rewrite !zlen_app; change (zlen [93]) with 1; change (zlen [e]) with 1; lia).
    change (93 =? 93) with true. cbn [andb]. unfold mret, M_ret. do 3 f_equal.
    replace ((hex_rs ++ b) ++ [93] ++ [e]) with ([] ++ (hex_rs ++ b ++ [93]) ++ [e]) by (cbn [app]; by rewrite <- !app_assoc).
    apply slice_app_mid; [done |]. cbn [app]. rewrite zlen_app. change (zlen [e]) with 1. lia.
  - rewrite zlen_app, zlen_cons in Hz'. pose proof (zlen_nonneg b').
    rewrite <- app_assoc in Hd. cbn [app] in Hd.
    destruct (read_line_run l c (b' ++ 93 :: e :: bs) rest (Z.to_nat (768 - zlen hex_rs)) s) as (port & E & Hd');
      [done | done | unfold zlen in *; lia | done |].
    unfold mbind at 1, M_bind. rewrite E. cbv zeta. set (h := hex_rs ++ l ++ [c]).
    assert ((2 <=? zlen h) && (rd h (zlen h - 2) =? 93) = false) as ->.
    { destruct (Z.leb_spec 2 (zlen h)) as [Hn|]; [| done]. cbn [andb]. apply Z.eqb_neq. intros Hr.
      assert (hex_rs ++ l <> []) as Hne by (intros E0; subst h; rewrite app_assoc, E0 in Hn; done).
      rewrite <- (app_assoc l) in Hq. cbn [app] in Hq. apply (quiet_line hex_rs l c (b' ++ [93])); [done | done | done |].
      destruct (exists_last Hne) as (x & y & Ex). subst h. rewrite app_assoc, Ex, <- app_assoc, rd_last in Hr. subst y.
      rewrite Ex. apply last_snoc. }
    cbn [andb]. set (s1 := s <| sr_port := port |>).
    assert (hex_rs ++ (l ++ c :: b') ++ [93] = h ++ b' ++ [93]) as Hw by (subst h; by rewrite <- !app_assoc).
    rewrite Hw in *. rewrite length_app in Hf. cbn [length] in Hf.
    destruct (IH h b' s1) as (port2 & E2 & Hd2); [lia | done | lia | done |]. exists port2. by split.
Qed.

(** A line of the controller: anything that is quiet, such as an echo, and then
    a message. *)
Record line := mk_line { l_junk : list Z; l_text : list Z; l_msg : list Z; l_eol : Z }.

Definition line_bytes (l : line) : list Z := l_junk l ++ 91 :: l_text l ++ [93; l_eol l].

Definition line_ok (l : line) : Prop :=
  quiet (l_junk l) = true /\ Forall (fun c => c <> 0) (l_junk l) /\ reply_text (l_text l) (l_msg l) /\
  is_eol (l_eol l) = true /\ 0 < zlen (l_msg l) < IPMI_SERIAL_MAX_RESPONSE /\
  zlen (line_bytes l) <= IPMI_SERIAL_MAX_RESPONSE * 3.

Lemma after_last_none c s : Forall (fun x => x <> c) s -> after_last c s = None.
Proof. induction 1 as [|x s Hx _ IH]; [done |]. cbn [after_last]. by rewrite IH, (proj2 (Z.eqb_neq x c)). Qed.

Lemma after_last_app c j s : Forall (fun x => x <> c) s -> after_last c (j ++ c :: s) = Some s.
Proof.
  intros H. induction j as [|x j IH]; cbn [app after_last]; [by rewrite after_last_none, Z.eqb_refl | by rewrite IH].
Qed.

Lemma before_first_app c s r : Forall (fun x => x <> c) s -> before_first c (s ++ c :: r) = Some s.
Proof. induction 1 as [|x s Hx _ IH]; cbn [app before_first]; [by rewrite Z.eqb_refl | by rewrite (proj2 (Z.eqb_neq x c)), IH]. Qed.

Lemma recv_response_run l bs rest s : line_ok l -> delivers (sr_port s) (line_bytes l ++ bs) rest ->
  exists port, recv_response IPMI_SERIAL_MAX_RESPONSE s = Ok (Some (l_msg l), s <| sr_port := port |>) /\ delivers port bs rest.
Proof.
  destruct l as [j p m e]. unfold line_ok, line_bytes. cbn [l_junk l_text l_msg l_eol].
  intros (Hq & Hj & Ht & He & Hm & Hz) Hd. pose proof (reply_text_chars p m Ht) as Hp.
  assert (forall P : Z -> Prop, (forall c, reply_char c = true -> P c) -> Forall P p) as Hall
    by (intros P HP; eapply Forall_impl; [exact Hp | exact HP]).
  set (b := j ++ 91 :: p). assert (j ++ 91 :: p ++ [93; e] = b ++ 93 :: [e]) as Hb by (subst b; by rewrite <- app_assoc).
  rewrite Hb in Hd, Hz. rewrite <- app_assoc in Hd. cbn [app] in Hd.
  change (IPMI_SERIAL_MAX_RESPONSE * 3) with 768 in Hz. rewrite zlen_app in Hz. change (zlen [93; e]) with 2 in Hz.
  destruct (read_reply_run e bs rest 769 He [] b s) as (port & E & Hd').
  - unfold zlen in Hz. lia.
  - cbn [app]. subst b. rewrite <- app_assoc. cbn [app]. apply quiet_app; [done |].
    apply quiet_chars. constructor; [done |]. apply Forall_app. split; [| by repeat constructor]. apply Hall. intros c Hc. by apply reply_char_facts.
  - cbn [app]. rewrite zlen_app. change (zlen [93]) with 1. lia.
  - done.
  - exists port. split; [| done]. unfold recv_response. unfold mbind at 1, M_bind.
    change (S (Z.to_nat (IPMI_SERIAL_MAX_RESPONSE * 3))) with 769%nat. rewrite E. cbn [app].
    assert (b ++ [93] = j ++ 91 :: (p ++ 93 :: [])) as -> by (subst b; by rewrite <- app_assoc).
    rewrite c_string_id.
    2: { apply Forall_app. split; [done |]. constructor; [done |]. apply Forall_app. split; [| by repeat constructor].
         apply Hall. intros c Hc. by apply reply_char_facts. }
    rewrite after_last_app.
    2: { apply Forall_app. split; [| by repeat constructor]. apply Hall. intros c Hc. by apply reply_char_facts. }
    rewrite before_first_app by (apply Hall; intros c Hc; by apply reply_char_facts).
    rewrite bool_decide_eq_false_2.
    2: { intros E2. rewrite E2 in Hp. by apply (Forall_lookup_1 _ _ 1 82) in Hp. }
    rewrite (parse_reply_text p m) by (done || (rewrite zlen_nil; lia)). done.
Qed.

Lemma term_wait_run rq lines l rsp bs rest fuel s : Forall (fun l => line_ok l /\ serial_term_accept rq (l_msg l) = None) lines ->
  line_ok l -> serial_term_accept rq (l_msg l) = Some rsp -> (length lines < fuel)%nat ->
  delivers (sr_port s) (flat_map line_bytes lines ++ line_bytes l ++ bs) rest ->
  exists port, serial_term_wait_response fuel rq IPMI_SERIAL_MAX_RESPONSE s = Ok (Some rsp, s <| sr_port := port |>) /\ delivers port bs rest.
Proof.
  intros Hls Hl Ha. revert fuel s. induction Hls as [|l' lines [Hl' Ha'] _ IH]; intros fuel s Hf Hd;
    (destruct fuel as [|fuel]; [cbn [length] in Hf; lia |]); cbn [flat_map app serial_term_wait_response] in *.
  - destruct (recv_response_run l bs rest s Hl Hd) as (port & E & Hd'). exists port. split; [| done].
    unfold mbind at 1, M_bind. rewrite E. destruct Hl as (_ & _ & _ & _ & Hm & _).
    destruct (l_msg l) eqn:El; [by destruct Hm |]. by rewrite Ha.
  - rewrite <- app_assoc in Hd. destruct (recv_response_run l' _ rest s Hl' Hd) as (port & E & Hd').
    unfold mbind at 1, M_bind. rewrite E. destruct Hl' as (_ & _ & _ & _ & Hm & _).
    destruct (l_msg l') eqn:El; [by destruct Hm |]. rewrite Ha'. cbn [length] in Hf.
    set (s1 := s <| sr_port := port |>). destruct (IH fuel s1) as (port2 & E2 & Hd2); [lia | done |]. exists port2. by split.
Qed.

(** ** Rounds without an answer

    What a mode has to guarantee: the frame and the context of a request under
    the present sequence number, that it is sent, and that silence is a
    time-out. *)

Definition next_static (st : bm_static) : bm_static := (serial_bm_alloc_seq st).2.
Definition request_seq (st : bm_static) : Z := u8 ((serial_bm_alloc_seq st).1 .<< 2).

Class SerialLaws (ctx : Type) {mode : SerialMode ctx} := {
  law_frame : intf_addr -> ipmi_rq -> bm_static -> list Z;
  law_ctx : intf_addr -> ipmi_rq -> bm_static -> ctx;
  law_fits : intf_addr -> ipmi_rq -> Prop;
  law_init : serial -> Prop;
  law_ready : serial -> Prop;
  law_same s t : law_ready s -> sr_recv t = sr_recv s -> law_ready t;
  law_start s : law_init s -> exists s', mode_start s = Ok (tt, s') /\ law_ready s' /\
    s' <| sr_recv := sr_recv s |> = s;
  law_sends req s : law_fits (sr_addr s) req -> exists msg c1 s1,
    mode_build req s = Ok (Some (msg, ipmi_intf_get_bridging_level (sr_addr s), law_ctx (sr_addr s) req (sr_static s), c1), s1) /\
    mode_send msg s1 = Ok (tt, s <| sr_static := next_static (sr_static s) |>
      <| sr_sent := sr_sent s ++ [law_frame (sr_addr s) req (sr_static s)] |>);
  law_silent fuel c s port : (0 < fuel)%nat -> law_ready s -> sr_port s = PollFail :: port ->
    mode_wait fuel c s = Ok (Some [], s <| sr_port := port |>);
}.

Section Rounds.
Context {ctx : Type} {mode : SerialMode ctx} {laws : SerialLaws ctx}.

Definition round_static (k : nat) (st : bm_static) : bm_static := Nat.iter k next_static st.

(** The frames of [k] rounds. *)
Definition round_frames (k : nat) (intf : intf_addr) (req : ipmi_rq) (st : bm_static) : list (list Z) :=
  map (fun i => law_frame intf req (round_static i st)) (seq 0 k).

Lemma round_frames_S k intf req st :
  round_frames (S k) intf req st = law_frame intf req st :: round_frames k intf req (next_static st).
Proof.
  unfold round_frames. cbn [seq map]. f_equal. rewrite <- seq_shift, map_map. apply map_ext. intros i.
  unfold round_static. by rewrite Nat.iter_succ_r.
Qed.

(** The answer that the port delivers after [k] rounds. *)
Definition answers (fuel : nat) (req : ipmi_rq) (k : nat) (rsp : list Z) (s : serial) (port : list port_event) (P : serial -> Prop) : Prop :=
  forall t, sr_addr t = sr_addr s -> law_ready t -> sr_port t = port ->
  exists t', mode_wait fuel (law_ctx (sr_addr s) req (round_static k (sr_static s))) t = Ok (Some rsp, t') /\
    sr_static t' = sr_static t /\ sr_sent t' = sr_sent t /\ P t'.

Lemma rounds_run fuel req port layers cc d P k : forall n s, (k < n)%nat -> (0 < fuel)%nat -> law_ready s -> is_system (sr_static s) = false ->
  law_fits (sr_addr s) req -> wrapped_ok (ipmi_intf_get_bridging_level (sr_addr s)) layers cc ->
  sr_port s = replicate k PollFail ++ port -> answers fuel req k (wrapped layers (cc :: d)) s port P ->
  exists s', retry_loop n fuel req s = Ok (Some (cc, d), s') /\
    sr_sent s' = sr_sent s ++ round_frames (S k) (sr_addr s) req (sr_static s) /\ P s'.
Proof.
  induction k as [|k IH]; intros n s Hn Hf Hr Hsys Hfit Hok Hp Ha; (destruct n as [|n]; [lia |]);
    destruct (law_sends req s Hfit) as (msg & c1 & s1 & Hb & Hs); set (s2 := s <| sr_static := _ |> <| sr_sent := _ |>) in Hs;
    assert (law_ready s2) as Hr2 by (by apply (law_same s)).
  - destruct (Ha s2) as (t & Hw & Hst & Hsent & HP); [done | done | done |]. exists t. split; [| by rewrite Hsent].
    eapply retry_answered; [apply bridging_level_range | exact Hb | exact Hs | exact Hw | rewrite Hst; exact Hsys | exact Hok].
  - cbn [replicate app] in Hp. set (s3 := s2 <| sr_port := replicate k PollFail ++ port |>).
    rewrite (retry_silent n fuel req s _ _ _ _ _ s2 s3 Hb Hs) by (by apply law_silent).
    destruct (IH n s3) as (s' & E & Hsent & HP); [lia | done | by apply (law_same s2) | exact Hsys | exact Hfit | exact Hok | done | |].
    + intros t H1 H2 H3. specialize (Ha t H1 H2 H3). unfold round_static in *. by rewrite Nat.iter_succ_r in Ha.
    + exists s'. split; [done |]. split; [| done]. rewrite Hsent, (round_frames_S (S k)).
      change (sr_sent s3) with (sr_sent s ++ [law_frame (sr_addr s) req (sr_static s)]). by rewrite <- app_assoc.
Qed.

Lemma request_run fuel req port layers cc d P k s : Z.of_nat k < sr_retry s -> (0 < fuel)%nat -> law_init s -> is_system (sr_static s) = false ->
  law_fits (sr_addr s) req -> wrapped_ok (ipmi_intf_get_bridging_level (sr_addr s)) layers cc ->
  sr_port s = replicate k PollFail ++ port -> answers fuel req k (wrapped layers (cc :: d)) s port P ->
  exists s', serial_request fuel req s = Ok (Some (cc, d), s') /\
    sr_sent s' = sr_sent s ++ round_frames (S k) (sr_addr s) req (sr_static s) /\ P s'.
Proof.
  intros Hk Hf Hr Hsys Hfit Hok Hp Ha. destruct (law_start s Hr) as (s0 & E & Hr0 & Es).
  assert (sr_addr s0 = sr_addr s /\ sr_retry s0 = sr_retry s /\ sr_static s0 = sr_static s /\ sr_port s0 = sr_port s /\ sr_sent s0 = sr_sent s)
    as (E1 & E2 & E3 & E4 & E5) by (rewrite <- Es; done).
  destruct (rounds_run fuel req port layers cc d P k (Z.to_nat (sr_retry s)) s0) as (s' & Eq & Hs & HP);
    rewrite ?E1, ?E3, ?E4, ?E5 in *; try done; try lia.
  - intros t H1 H2 H3. rewrite E1, E3 in *. by apply Ha.
  - exists s'. split; [| done]. unfold serial_request. unfold mbind at 1, M_bind. rewrite E. unfold mbind, M_bind, gets. by rewrite E2.
Qed.
End Rounds.

(** ** The terminal mode *)

Lemma term_one p s data : zlen p = 3 -> hdr_ok (sm_msg s) ->
  let msg := p ++ concat (map smrq_bytes [s]) ++ data in
  msg ++ [ipmi_csum (slice msg 7 (zlen data + 3))] = p ++ nest [s] data.
Proof.
  intros Hp Hs msg. subst msg. cbn [map concat nest]. unfold ipmb, smrq_bytes, hdr_bytes.
  destruct p as [|p0 [|p1 [|p2 [|]]]]; try (rewrite ?zlen_cons in Hp; zlen_lia).
  rewrite (slice_ge _ 7) by zlen_lia. by_nat_consts. cbn [app drop]. by rewrite <- ?app_assoc.
Qed.

Lemma term_two p s1 s2 data : zlen p = 3 -> hdr_ok (sm_msg s1) -> hdr_ok (sm_msg s2) ->
  let msg := p ++ concat (map smrq_bytes [s1; s2]) ++ data in
  let msg := msg ++ [ipmi_csum (slice msg 14 (zlen data + 3))] in
  msg ++ [ipmi_csum (slice msg 7 4)] = p ++ nest [s1; s2] data.
Proof.
  intros Hp Hs1 Hs2 msg1 msg2. change (nest [s1; s2] data) with (sm_channel s1 :: ipmb (sm_msg s1) (nest [s2] data)).
  unfold ipmb. rewrite ipmi_csum_nest_cons by done. subst msg2 msg1. cbn [map concat nest]. unfold ipmb, smrq_bytes, hdr_bytes.
  destruct p as [|p0 [|p1 [|p2 [|]]]]; try (rewrite ?zlen_cons in Hp; zlen_lia).
  rewrite (slice_ge _ 14) by zlen_lia. cbn [app]. unfold slice. by_nat_consts. cbn [app drop take]. by rewrite <- ?app_assoc.
Qed.

(** The message and the context of a request. *)
Definition term_message (intf : intf_addr) (req : ipmi_rq) (st : bm_static) : list Z :=
  let '(hdr, rqs) := build_spec intf req (request_seq st) (is_system st) in
  [h_netFn hdr; request_seq st; h_cmd hdr] ++ nest rqs (rq_data req).

Definition term_request_ctx (intf : intf_addr) (req : ipmi_rq) (st : bm_static) : term_ctx :=
  let hdr := (build_spec intf req (request_seq st) (is_system st)).1 in mk_tctx (h_netFn hdr) 0 (request_seq st) (h_cmd hdr).

Definition term_fits (intf : intf_addr) (req : ipmi_rq) : Prop :=
  rq_data_len req + 3 + ipmi_intf_get_bridging_level intf * 8 <= IPMI_SERIAL_MAX_RESPONSE.

Lemma term_build_nest intf req st : term_fits intf req ->
  exists c1, serial_term_build_msg intf req IPMI_SERIAL_MAX_RESPONSE st =
    (Some (term_message intf req st, ipmi_intf_get_bridging_level intf, term_request_ctx intf req st, c1), next_static st).
Proof.
  unfold term_fits, serial_term_build_msg, term_message, term_request_ctx, next_static, request_seq. intros Hfit.
  rewrite (proj2 (Z.ltb_ge _ _)) by lia. destruct (serial_bm_alloc_seq st) as [sq st'] eqn:Es. cbn [fst snd].
  assert (is_system st' = is_system st) as -> by (injection Es as <- <-; done).
  unfold build_spec. pose proof (bridging_level_range intf) as Hl. set (level := ipmi_intf_get_bridging_level intf) in *.
  pose proof (bridge_rqs_ok intf req level (u8 (sq .<< 2)) (is_system st)) as Hok. unfold rq_data_len.
  assert (level = 0 \/ level = 1 \/ level = 2) as [E | [E | E]] by lia; rewrite E in *; cbn [Z.eqb Pos.eqb negb];
    eexists; f_equal; do 4 f_equal; unfold bridge_rqs in *; cbn [Z.eqb Pos.eqb] in *.
  - apply Forall_cons in Hok as [Hok _]. by apply term_one.
  - apply Forall_cons in Hok as [Hok1 Hok]. apply Forall_cons in Hok as [Hok2 _]. by apply term_two.
Qed.

Lemma read_reply_silent fuel port s : sr_port s = PollFail :: port -> read_reply (S fuel) [] s = Ok (None, s <| sr_port := port |>).
Proof.
  intros Hp. assert (forall n, serial_read_line (S n) s = Ok (None, s <| sr_port := port |>)) as Hl.
  { intros n. cbn [serial_read_line]. unfold mbind, M_bind, serial_get. by rewrite Hp. }
  cbn [read_reply]. unfold mbind, M_bind. change (IPMI_SERIAL_MAX_RESPONSE * 3 - zlen []) with 768.
  change (768 <=? 0) with false. cbn iota beta. by rewrite (Hl 767%nat : serial_read_line (Z.to_nat 768) s = _).
Qed.

#[export] Instance terminal_laws : SerialLaws term_ctx.
Proof.
  refine {| law_frame intf req st := serial_term_frame (term_message intf req st); law_ctx := term_request_ctx;
    law_fits := term_fits; law_init _ := True; law_ready _ := True |}.
  - done.
  - intros s _. exists s. split_and!; [done | done | by destruct s].
  - intros req s Hfit. destruct (term_build_nest (sr_addr s) req (sr_static s) Hfit) as (c1 & E).
    eexists _, c1, _. cbn [mode_build mode_send terminal_mode]. rewrite E. by split.
  - intros fuel c s port Hf _ Hp. destruct fuel as [|fuel]; [lia |]. cbn [mode_wait terminal_mode serial_term_wait_response].
    unfold recv_response, mbind, M_bind. by rewrite (read_reply_silent _ port s Hp).
Defined.

(** ** The basic mode *)

Definition basic_message (intf : intf_addr) (req : ipmi_rq) (st : bm_static) : list Z :=
  let '(hdr, rqs) := build_spec intf req (request_seq st) (is_system st) in ipmb hdr (nest rqs (rq_data req)).

Definition basic_request_ctx (intf : intf_addr) (req : ipmi_rq) (st : bm_static) : request_ctx :=
  hdr_ctx (build_spec intf req (request_seq st) (is_system st)).1.

#[export] Instance basic_laws : SerialLaws request_ctx.
Proof.
  refine {| law_frame intf req st := serial_bm_frame (basic_message intf req st); law_ctx := basic_request_ctx;
    law_fits intf req := rq_data_len req + 7 + ipmi_intf_get_bridging_level intf * 8 <= SERIAL_BM_MAX_MSG_SIZE;
    law_init s := zlen (rc_buffer (sr_recv s)) = SERIAL_BM_MAX_BUFFER_SIZE;
    law_ready s := rc_ready (sr_recv s) |}.
  - intros s t Hs ->. done.
  - intros s Hs. eexists. split; [done |]. split; [done | by destruct s].
  - intros req s Hfit. pose proof (build_msg_nest (sr_addr s) req SERIAL_BM_MAX_MSG_SIZE (sr_static s) Hfit) as Hb.
    unfold basic_message, basic_request_ctx, request_seq, next_static. destruct (serial_bm_alloc_seq (sr_static s)) as [sq st']. cbn [fst snd].
    destruct (build_spec _ _ _ _) as [hdr rqs]. eexists _, _, _. cbn [mode_build mode_send basic_mode]. rewrite Hb. split; [done |].
    rewrite send_msg_exact. done.
  - intros fuel c s port Hf _ Hp. destruct fuel as [|fuel]; [lia |]. cbn [mode_wait basic_mode serial_bm_wait_response].
    rewrite Hp. unfold serial_bm_recv_msg. cbn [recv_loop mbind res_bind]. by destruct s.
Defined.

(** ** Commands *)

Definition foreign (rq : term_ctx) (m : list Z) : Prop :=
  zlen m < 4 \/ rd m 0 <> t_netFn rq .| 4 \/ rd m 1 / 4 * 4 <> t_seq rq \/ rd m 2 <> t_cmd rq.

Lemma clear_lun x : x .& Z.lnot 3 = x / 4 * 4.
Proof.
  rewrite <- Z.ldiff_land. change 3 with (Z.ones 2). rewrite Z.ldiff_ones_r by lia.
  by rewrite Z.shiftl_mul_pow2, Z.shiftr_div_pow2 by lia.
Qed.

Lemma foreign_refused rq m : foreign rq m -> serial_term_accept rq m = None.
Proof.
  intros H. unfold serial_term_accept. rewrite clear_lun. repeat (case_test; [done |]). case_test; [| done].
  destruct H as [|[|[|]]]; done || lia.
Qed.

Lemma request_seq_lun st lun : 0 <= lun < 4 -> (request_seq st + lun) / 4 * 4 = request_seq st.
Proof.
  unfold request_seq, u8. rewrite Z.shiftl_mul_pow2 by lia. change (2 ^ 2) with 4. intros.
  Z.to_euclidean_division_equations. lia.
Qed.

(** C34. A command in terminal mode returns the completion code and the data of
    its response, when the response comes within the retries: silent rounds are
    sent again with the next sequence number; before the response the
    controller may echo, answer other requests and cut its output in pieces of
    any size; the response of a bridged request is unwrapped, or is the error
    of a controller on the way. *)
Theorem terminal_command_answered k lines l lun layers cc d port bs rest fuel req s :
  let st := round_static k (sr_static s) in
  let rq := term_request_ctx (sr_addr s) req st in
  Z.of_nat k < sr_retry s -> is_system (sr_static s) = false -> term_fits (sr_addr s) req ->
  sr_port s = replicate k PollFail ++ port ->
  delivers port (flat_map line_bytes lines ++ line_bytes l ++ bs) rest ->
  Forall (fun l => line_ok l /\ foreign rq (l_msg l)) lines -> (length lines < fuel)%nat ->
  line_ok l -> l_msg l = [t_netFn rq .| 4; t_seq rq + lun; t_cmd rq] ++ wrapped layers (cc :: d) -> 0 <= lun < 4 ->
  wrapped_ok (ipmi_intf_get_bridging_level (sr_addr s)) layers cc ->
  exists s', ipmi_serial_term_send_cmd fuel req s = Ok (Some (cc, d), s') /\
    sr_sent s' = sr_sent s ++ map (fun i => serial_term_frame (term_message (sr_addr s) req (round_static i (sr_static s)))) (seq 0 (S k)) /\
    delivers (sr_port s') bs rest.
Proof.
  intros st rq Hk Hsys Hfit Hp Hd Hls Hf Hl Hmsg Hlun Hok.
  apply (request_run (laws := terminal_laws) fuel req port layers cc d (fun s' => delivers (sr_port s') bs rest) k s); try done; [lia |].
  intros t _ _ Ht. destruct (term_wait_run rq lines l (wrapped layers (cc :: d)) bs rest fuel t) as (port' & E & Hd').
  - eapply Forall_impl; [exact Hls |]. intros l' [H1 H2]. split; [done | by apply foreign_refused].
  - done.
  - rewrite Hmsg. unfold serial_term_accept.
    assert (1 <= zlen (wrapped layers (cc :: d))) as Hz.
    { pose proof (wrapped_nonempty layers cc d) as Hw. destruct (wrapped layers (cc :: d)); [done | zlen_lia]. }
    rewrite (proj2 (Z.ltb_ge _ _)) by (rewrite zlen_app; change (zlen [_; _; _]) with 3; lia).
    cbn [app rd]. change (rd (?a :: _) 0) with a. change (rd (?a :: ?b :: _) 1) with b. change (rd (?a :: ?b :: ?c :: _) 2) with c.
    rewrite clear_lun. change (t_seq rq) with (request_seq st). rewrite request_seq_lun, !Z.eqb_refl by done. done.
  - done.
  - by rewrite Ht.
  - eexists. by split.
Qed.

(** A command in basic mode: the response may be cut into reads of any size. *)
Theorem basic_command_answered k chunks a layers cc d rest fuel req s :
  let st := round_static k (sr_static s) in
  let rq := basic_request_ctx (sr_addr s) req st in
  let rsp := wrapped layers (cc :: d) in
  Z.of_nat k < sr_retry s -> is_system (sr_static s) = false ->
  rq_data_len req + 7 + ipmi_intf_get_bridging_level (sr_addr s) * 8 <= SERIAL_BM_MAX_MSG_SIZE ->
  zlen (rc_buffer (sr_recv s)) = SERIAL_BM_MAX_BUFFER_SIZE ->
  sr_port s = replicate k PollFail ++ map Data chunks ++ Data a :: rest ->
  Forall chunk_ok chunks -> a <> [] -> zlen a <= SERIAL_BM_MAX_BUFFER_SIZE -> (length chunks < fuel)%nat ->
  serial_bm_send_msg (ipmb (response_hdr rq) rsp) = Some (concat chunks ++ a) ->
  bytes (hdr_bytes (response_hdr rq)) -> bytes rsp -> zlen rsp + 7 <= SERIAL_BM_MAX_MSG_SIZE ->
  wrapped_ok (ipmi_intf_get_bridging_level (sr_addr s)) layers cc ->
  exists s', serial_bm_send_request fuel req s = Ok (Some (cc, d), s') /\
    sr_sent s' = sr_sent s ++ map (fun i => serial_bm_frame (basic_message (sr_addr s) req (round_static i (sr_static s)))) (seq 0 (S k)) /\ sr_port s' = rest.
Proof.
  intros st rq rsp Hk Hsys Hfit Hr Hp Hcs Ha Hal Hf Hframe Hh Hb Hz Hok.
  apply (request_run (laws := basic_laws) fuel req (map Data chunks ++ Data a :: rest) layers cc d (fun s' => sr_port s' = rest) k s);
    try done; [lia |].
  intros t _ Ht Hport. destruct (wait_response_finds_answer rq rsp chunks a rest SERIAL_BM_MAX_MSG_SIZE fuel (sr_recv t)) as (rc' & E);
    try done.
  - pose proof (wrapped_nonempty layers cc d). unfold rsp. destruct (wrapped layers (cc :: d)); [done | zlen_lia].
  - eexists. split; [cbn [mode_wait basic_mode]; rewrite Hport; change (law_ctx _ _ _) with rq; by rewrite E | by split].
Qed.

(** ** Examples *)

Definition witness_serial (port : list port_event) : serial :=
  mk_serial (mk_addr 0x20 0x72 7 0 0 37 36) 3 5 (mk_static 0 false) (mk_recv (zeros 250) 0 250) port [] [].

(** The echo of the request, then its response after a line feed. *)
Definition witness_echo : line :=
  let m := [0x18; 0x08; 0x34; 0x47; 0x72; 0x18; 0x76; 0x20; 0x08; 0x01; 0xA5; 0x03; 0x2F] in mk_line [] (hex_text m) m 13.
Definition witness_answer : line :=
  mk_line [10] (text "1C 08 34 00 20 1C C4 72 08 01 00 51 34") [0x1C; 8; 0x34; 0; 0x20; 0x1C; 0xC4; 0x72; 8; 1; 0; 0x51; 0x34] 13.

Ltac reply_text_tac :=
  repeat first [ apply reply_text_nil
               | apply reply_text_byte; [reflexivity | reflexivity | reflexivity |]
               | apply reply_text_space; [reflexivity | reflexivity |] ].

Lemma witness_lines_ok : line_ok witness_echo /\ line_ok witness_answer.
Proof.
  split; (unfold line_ok; split; [reflexivity |]; split; [by repeat constructor |]; split; [vm_compute; reply_text_tac |];
    by vm_compute).
Qed.

Definition witness_pieces : list port_event :=
  [Data (take 20 (line_bytes witness_echo ++ line_bytes witness_answer));
   Data (drop 20 (line_bytes witness_echo ++ line_bytes witness_answer) ++ [10])].

Lemma terminal_command_answered_witness :
  exists s', ipmi_serial_term_send_cmd 2 witness_req (witness_serial ([PollFail] ++ witness_pieces)) = Ok (Some (0, [0x51]), s') /\
    sr_sent s' = map (fun i => serial_term_frame (term_message (mk_addr 0x20 0x72 7 0 0 37 36) witness_req (round_static i (mk_static 0 false)))) [0%nat; 1%nat] /\
    delivers (sr_port s') [] [Data [10]].
Proof.
  destruct witness_lines_ok as [H1 H2].
  apply (terminal_command_answered 1 [witness_echo] witness_answer 0 [([0x20; 0x1C; 0xC4; 0x72; 8; 1], 0x34)] 0 [0x51] witness_pieces [] [Data [10]]
    2 witness_req (witness_serial ([PollFail] ++ witness_pieces))); try by vm_compute.
  - change (flat_map line_bytes [witness_echo] ++ line_bytes witness_answer ++ []) with
      (take 20 (line_bytes witness_echo ++ line_bytes witness_answer) ++ drop 20 (line_bytes witness_echo ++ line_bytes witness_answer)).
    unfold witness_pieces. apply delivers_data; [done |]. by apply delivers_part.
  - constructor; [| done]. split; [done |]. right. left. by vm_compute.
  - split_and!; [by repeat constructor | by vm_compute | by left].
Defined.

(** The recovery from an error of the controller is compared with the whole
    text and is never taken. *)
Example term_error_not_recognised :
  recv_response IPMI_SERIAL_MAX_RESPONSE (witness_serial [Data (text "[ERR 83]" ++ [13])]) =
    Ok (None, witness_serial []).
Proof. by vm_compute. Qed.
