(* ===== verification/Hpm.v ===== *)
(** * HPM.1 firmware upgrade: the commands (lib/ipmi_hpmfwupg.c)

    [HpmfwupgSendCmd] with its retries, its faked answers and the session that
    it opens again, the waits for commands of long duration, and one function
    per command of the specification.  The statics of the file, the clock and
    the answers of the user are in the state [hpm], beside the controller. *)

From S2P Require Import Prelude Wire Ipmi Intf Session Bmc Channel Fru.

#[local] Open Scope Z_scope.

Definition HPMFWUPG_GET_TARGET_UPG_CAPABILITIES : Z := 0x2E.
Definition HPMFWUPG_GET_COMPONENT_PROPERTIES : Z := 0x2F.
Definition HPMFWUPG_ABORT_UPGRADE : Z := 0x30.
Definition HPMFWUPG_INITIATE_UPGRADE_ACTION : Z := 0x31.
Definition HPMFWUPG_UPLOAD_FIRMWARE_BLOCK : Z := 0x32.
Definition HPMFWUPG_FINISH_FIRMWARE_UPLOAD : Z := 0x33.
Definition HPMFWUPG_GET_UPGRADE_STATUS : Z := 0x34.
Definition HPMFWUPG_ACTIVATE_FIRMWARE : Z := 0x35.
Definition HPMFWUPG_QUERY_SELFTEST_RESULT : Z := 0x36.
Definition HPMFWUPG_QUERY_ROLLBACK_STATUS : Z := 0x37.
Definition HPMFWUPG_MANUAL_FIRMWARE_ROLLBACK : Z := 0x38.
Definition HPMFWUPG_COMMAND_IN_PROGRESS : Z := 0x80.
Definition HPMFWUPG_INT_CHECKSUM_ERROR : Z := 0x82.
Definition HPMFWUPG_PICMG_IDENTIFIER : Z := 0.
Definition HPMFWUPG_DEFAULT_UPGRADE_TIMEOUT : Z := 60.
Definition HPMFWUPG_SUCCESS : Z := 0.
Definition HPMFWUPG_ERROR : Z := -1.
Definition HPMFWUPG_UPLOAD_BLOCK_LENGTH : Z := 1.
Definition HPMFWUPG_UPLOAD_RETRY : Z := 2.
Definition HPM_LAN_PACKET_RESIZE_LIMIT : Z := 6.
Definition RETRY_COUNT_MAX : Z := 3.
Definition IPMI_CC_TIMEOUT : Z := 0xc3.
Definition HPMFWUPG_COMP_GEN_PROPERTIES : Z := 0.
Definition HPMFWUPG_COMP_CURRENT_VERSION : Z := 1.
Definition HPMFWUPG_COMP_DESCRIPTION_STRING : Z := 2.
Definition HPMFWUPG_COMP_ROLLBACK_FIRMWARE_VERSION : Z := 3.
Definition HPMFWUPG_COMP_DEFERRED_FIRMWARE_VERSION : Z := 4.
Definition HPMFWUPG_COMP_OEM_PROPERTIES : Z := 192.

(** ** The state *)

(** [VERSIONINFO]; a version is major, minor and four auxiliary bytes. *)
Record version_info := mk_version {
  vi_componentId : Z;
  vi_target : list Z;
  vi_rollback : list Z;
  vi_deferred : list Z;
  vi_image : list Z;
  coldResetRequired : Z;
  rollbackSupported : Z;
  deferredActivationSupported : Z;
  vi_descString : list Z;
}.

#[export] Instance version_info_rebuild : Rebuild version_info := fun r =>
  mk_version (vi_componentId r) (vi_target r) (vi_rollback r) (vi_deferred r) (vi_image r)
    (coldResetRequired r) (rollbackSupported r) (deferredActivationSupported r) (vi_descString r).

Definition zero_version : version_info :=
  mk_version 0 (zeros 6) (zeros 6) (zeros 6) (zeros 6) 0 0 0 (zeros 13).

(** The controller, the readings of the clock so far, the two statics called
    [errorCount] (of the file, and of [HpmfwupgSendCmd]), [isValidSize],
    [gVersionInfo], and the words that the user will type. *)
Record hpm (dev : Type) := mk_hpm {
  h_dev : dev;
  h_tick : nat;
  h_errorCount : Z;
  h_lanErrorCount : Z;
  h_isValidSize : bool;
  gVersionInfo : list version_info;
  h_input : list (list Z);
}.
Arguments mk_hpm {dev}. Arguments h_dev {dev}. Arguments h_tick {dev}. Arguments h_errorCount {dev}.
Arguments h_lanErrorCount {dev}. Arguments h_isValidSize {dev}. Arguments gVersionInfo {dev}. Arguments h_input {dev}.

#[export] Instance hpm_rebuild dev : Rebuild (hpm dev) := fun r =>
  mk_hpm (h_dev r) (h_tick r) (h_errorCount r) (h_lanErrorCount r) (h_isValidSize r) (gVersionInfo r) (h_input r).

(** What the functions use of the interface: its addresses, and whether its
    name contains "lan". *)
Record hpm_intf := mk_hintf { hi_addr : intf_addr; hi_lan : bool }.

(** [intf->close] and [intf->open], true for success. *)
Class Reopen (dev : Type) := { bmc_close : dev -> dev; bmc_open : dev -> bool * dev }.

(** [struct HpmfwupgGetTargetUpgCapabilitiesResp] and
    [struct HpmfwupgUpgradeCtx] *)
Record target_caps := mk_caps {
  GlobalCapabilities : Z;
  upgradeTimeout : Z;
  selftestTimeout : Z;
  rollbackTimeout : Z;
  inaccessTimeout : Z;
  componentsPresent : Z;
}.

Record upgrade_ctx := mk_uctx {
  compUpdateMask : Z;
  pImageData : option (list Z);
  componentId : Z;
  targetCap : target_caps;
  genCompProp : list Z;
  devId : list Z;
}.

#[export] Instance upgrade_ctx_rebuild : Rebuild upgrade_ctx := fun r =>
  mk_uctx (compUpdateMask r) (pImageData r) (componentId r) (targetCap r) (genCompProp r) (devId r).

Definition zero_caps : target_caps := mk_caps 0 0 0 0 0 0.
Definition zero_uctx : upgrade_ctx := mk_uctx 0 None 0 zero_caps (zeros 8) (zeros 15).

(** Bit fields: of the capabilities of a target and of a component. *)
Definition bit (n x : Z) : bool := Z.testbit x n.
Definition ipmcSelftestCap (c : target_caps) : bool := bit 0 (GlobalCapabilities c).
Definition autRollback (c : target_caps) : bool := bit 1 (GlobalCapabilities c).
Definition servAffectDuringUpg (c : target_caps) : bool := bit 3 (GlobalCapabilities c).
Definition fwUpgUndesirable (c : target_caps) : bool := bit 7 (GlobalCapabilities c).
Definition rollbackBackup (p : Z) : Z := p .& 3.
Definition preparationSupport (p : Z) : bool := bit 2 p.
Definition comparisonSupport (p : Z) : bool := bit 3 p.
Definition deferredActivation (p : Z) : bool := bit 4 p.
Definition payloadColdReset (p : Z) : bool := bit 5 p.

Section Hpm.
Context {dev : Type} `{bmc : Bmc dev} `{reo : Reopen dev} `{clk : Clock} `{stk : Stack}.
(** The rounds that every loop is given. *)
Context (fuel : nat) (intf : hpm_intf).

#[export] Instance hpm_bmc : Bmc (hpm dev) := fun req s =>
  let '(r, d) := bmc_answer req (h_dev s) in (r, s <| h_dev := d |>).

(** [time(NULL)], stored in an [unsigned int] *)
Definition hpm_time : M (hpm dev) Z := fun s => Ok (u32 (clock (h_tick s)), s <| h_tick := S (h_tick s) |>).

Definition is_picmg (req : ipmi_rq) (cmds : list Z) : bool :=
  (rq_netfn req =? IPMI_NETFN_PICMG) && existsb (Z.eqb (rq_cmd req)) cmds.

(** The loop that opens the session again. *)
Fixpoint reopen_loop (n : nat) (timeout t1 counter : Z) : M (hpm dev) (Z * Z) :=
  match n with
  | O => fail OutOfFuel
  | S n =>
      s ← get;
      let '(ok, d) := bmc_open (h_dev s) in
      _ ← modify (fun s => s <| h_dev := d |>);
      if negb ok && (counter <? timeout) then
        t ← hpm_time;
        let counter := u32 (counter + (t - t1)) in
        t1 ← hpm_time;
        reopen_loop n timeout t1 counter
      else mret (t1, counter)
  end.

(** The answer that is faked when a LAN interface has none, with
    [timeoutSec1] and [inaccessTimeoutCounter]. *)
Definition fake_answer (req : ipmi_rq) (timeout t1 counter : Z) : M (hpm dev) (option Z * Z * Z) :=
  s ← get;
  let a := hi_addr intf in
  if is_picmg req [HPMFWUPG_UPLOAD_FIRMWARE_BLOCK] && (h_lanErrorCount s <? HPM_LAN_PACKET_RESIZE_LIMIT) &&
     negb (h_isValidSize s) then
    _ ← modify (fun s => s <| h_lanErrorCount := h_lanErrorCount s + 1 |>);
    mret (Some IPMI_CC_REQ_DATA_INV_LENGTH, t1, counter)
  else if is_picmg req [HPMFWUPG_ACTIVATE_FIRMWARE; HPMFWUPG_MANUAL_FIRMWARE_ROLLBACK] then
    mret (Some HPMFWUPG_COMMAND_IN_PROGRESS, t1, counter)
  else if is_picmg req [HPMFWUPG_QUERY_ROLLBACK_STATUS; HPMFWUPG_GET_UPGRADE_STATUS;
                        HPMFWUPG_QUERY_SELFTEST_RESULT] &&
     ((target_addr a =? 0) || (target_addr a =? my_addr a)) then
    _ ← modify (fun s => s <| h_dev := bmc_close (h_dev s) |>);
    '(t1, counter) ← reopen_loop fuel timeout t1 counter;
    mret (Some IPMI_CC_TIMEOUT, t1, counter)
  else mret (None, t1, counter).

(** The loop of [HpmfwupgSendCmd] *)
Fixpoint send_cmd_loop (n : nat) (req : ipmi_rq) (inaccessTimeout upgradeTimeout t1 inaccess upgrade : Z)
    : M (hpm dev) (option ipmi_rs) :=
  match n with
  | O => fail OutOfFuel
  | S n =>
      rsp ← sendrecv req;
      '(rsp, t1, inaccess) ←
        (match rsp with
         | Some r => mret (Some r, t1, inaccess)
         | None =>
             if hi_lan intf then
               '(fake, t1, inaccess) ← fake_answer req inaccessTimeout t1 inaccess;
               mret (match fake with Some cc => Some (reply cc []) | None => None end, t1, inaccess)
             else mret (None, t1, inaccess)
         end);
      let cc := match rsp with Some r => ccode r | None => 0xff end in
      if (cc =? 0xff) || (cc =? 0xc3) || (cc =? 0xd3) then
        if inaccess <? inaccessTimeout then
          t2 ← hpm_time;
          if t1 <? t2 then
            let inaccess := u32 (inaccess + (t2 - t1)) in
            t1 ← hpm_time;
            send_cmd_loop n req inaccessTimeout upgradeTimeout t1 inaccess upgrade
          else send_cmd_loop n req inaccessTimeout upgradeTimeout t1 inaccess upgrade
        else mret rsp
      else if cc =? 0xc0 then
        if upgrade <? upgradeTimeout then
          t2 ← hpm_time;
          if t1 <? t2 then
            t1 ← hpm_time;
            send_cmd_loop n req inaccessTimeout upgradeTimeout t1 inaccess (u32 (upgrade + (t2 - t1)))
          else send_cmd_loop n req inaccessTimeout upgradeTimeout t1 inaccess upgrade
        else mret rsp
      else
        _ ← modify (fun s => s <| h_errorCount := if cc =? 0 then 0 else h_errorCount s |>
              <| h_isValidSize := h_isValidSize s || is_picmg req [HPMFWUPG_UPLOAD_FIRMWARE_BLOCK] |>);
        mret rsp
  end.

(** [HpmfwupgSendCmd] *)
Definition HpmfwupgSendCmd (req : ipmi_rq) (pFwupgCtx : option upgrade_ctx) : M (hpm dev) (option ipmi_rs) :=
  let '(inaccess, upgrade) :=
    match pFwupgCtx with
    | Some c => (inaccessTimeout (targetCap c) * 5, upgradeTimeout (targetCap c) * 5)
    | None => (HPMFWUPG_DEFAULT_UPGRADE_TIMEOUT, HPMFWUPG_DEFAULT_UPGRADE_TIMEOUT)
    end in
  t1 ← hpm_time;
  send_cmd_loop fuel req inaccess upgrade t1 0 0.

(** ** Commands *)

Definition picmg_rq (cmd : Z) (data : list Z) : ipmi_rq :=
  mk_rq IPMI_NETFN_PICMG 0 cmd 0 (HPMFWUPG_PICMG_IDENTIFIER :: data).

(** [HPMFWUPG_IS_RETRYABLE], which counts in [errorCount] *)
Definition HPMFWUPG_IS_RETRYABLE (cc : Z) : M (hpm dev) bool :=
  if (cc =? 0x83) || (cc =? 0x82) || (cc =? 0x80) then
    s ← get;
    _ ← modify (fun s => s <| h_errorCount := h_errorCount s + 1 |>);
    mret (h_errorCount s <? RETRY_COUNT_MAX)
  else mret false.

(** A command that has no wait: the response when it succeeded. *)
Definition simple_cmd (req : ipmi_rq) (pFwupgCtx : option upgrade_ctx) : M (hpm dev) (option ipmi_rs) :=
  rsp ← HpmfwupgSendCmd req pFwupgCtx;
  mret (match rsp with Some r => if ccode r =? 0 then Some r else None | None => None end).

(** [HpmfwupgGetDeviceId] *)
Definition HpmfwupgGetDeviceId : M (hpm dev) (option (list Z)) :=
  rsp ← simple_cmd (mk_rq IPMI_NETFN_APP 0 BMC_GET_DEVICE_ID 0 []) None;
  match rsp with
  | Some r => d ← lift (rsp_bytes r 0 15); mret (Some d)
  | None => mret None
  end.

(** [HpmfwupgGetTargetUpgCapabilities] *)
Definition HpmfwupgGetTargetUpgCapabilities : M (hpm dev) (option target_caps) :=
  rsp ← simple_cmd (picmg_rq HPMFWUPG_GET_TARGET_UPG_CAPABILITIES []) None;
  match rsp with
  | Some r =>
      d ← lift (rsp_bytes r 0 8);
      mret (Some (mk_caps (rd d 2) (rd d 3) (rd d 4) (rd d 5) (rd d 6) (rd d 7)))
  | None => mret None
  end.

(** The bytes of a component property that are copied. *)
Definition property_size (selector : Z) : option Z :=
  if selector =? HPMFWUPG_COMP_GEN_PROPERTIES then Some 2
  else if (selector =? HPMFWUPG_COMP_CURRENT_VERSION) ||
          (selector =? HPMFWUPG_COMP_ROLLBACK_FIRMWARE_VERSION) ||
          (selector =? HPMFWUPG_COMP_DEFERRED_FIRMWARE_VERSION) then Some 7
  else if selector =? HPMFWUPG_COMP_DESCRIPTION_STRING then Some 13
  else if selector =? HPMFWUPG_COMP_OEM_PROPERTIES then Some 5
  else None.

(** [HpmfwupgGetComponentProperties]: the bytes behind the identifier. *)
Definition HpmfwupgGetComponentProperties (component selector : Z) : M (hpm dev) (option (list Z)) :=
  rsp ← simple_cmd (picmg_rq HPMFWUPG_GET_COMPONENT_PROPERTIES [component; selector]) None;
  match rsp, property_size selector with
  | Some r, Some n => d ← lift (rsp_bytes r 0 n); mret (Some (drop 1 d))
  | _, _ => mret None
  end.

(** [HpmfwupgAbortUpgrade] *)
Definition HpmfwupgAbortUpgrade : M (hpm dev) Z :=
  rsp ← simple_cmd (picmg_rq HPMFWUPG_ABORT_UPGRADE []) None;
  mret (match rsp with Some _ => HPMFWUPG_SUCCESS | None => HPMFWUPG_ERROR end).

(** [HpmfwupgGetUpgradeStatus]: the code, and [resp] as it is left. *)
Definition HpmfwupgGetUpgradeStatus (resp : list Z) (pFwupgCtx : option upgrade_ctx) : M (hpm dev) (Z * list Z) :=
  rsp ← HpmfwupgSendCmd (picmg_rq HPMFWUPG_GET_UPGRADE_STATUS []) pFwupgCtx;
  match rsp with
  | None => mret (HPMFWUPG_ERROR, resp)
  | Some r =>
      if ccode r =? 0 then d ← lift (rsp_bytes r 0 3); mret (HPMFWUPG_SUCCESS, d) else
      retryable ← HPMFWUPG_IS_RETRYABLE (ccode r);
      if retryable : bool then mret (HPMFWUPG_SUCCESS, [rd resp 0; rd resp 1; HPMFWUPG_COMMAND_IN_PROGRESS])
      else mret (HPMFWUPG_ERROR, resp)
  end.

(** The loop of [HpmfwupgWaitLongDurationCmd] *)
Fixpoint wait_loop (n : nat) (timeout t1 t2 rc : Z) (resp : list Z) (pFwupgCtx : option upgrade_ctx)
    : M (hpm dev) (Z * list Z) :=
  match n with
  | O => fail OutOfFuel
  | S n =>
      let last := rd resp 2 in
      if ((last =? 0x80) || (last =? 0xD5)) && (u32 (t2 - t1) <? timeout) && (rc =? HPMFWUPG_SUCCESS) then
        t2 ← hpm_time;
        '(rc, resp) ← HpmfwupgGetUpgradeStatus resp pFwupgCtx;
        wait_loop n timeout t1 t2 rc resp pFwupgCtx
      else mret (rc, resp)
  end.

(** [HpmfwupgWaitLongDurationCmd] *)
Definition HpmfwupgWaitLongDurationCmd (pFwupgCtx : option upgrade_ctx) : M (hpm dev) Z :=
  timeout ←
    (match pFwupgCtx with
     | Some c => mret (upgradeTimeout (targetCap c) * 5)
     | None =>
         caps ← HpmfwupgGetTargetUpgCapabilities;
         mret (match caps with Some c => upgradeTimeout c * 5 | None => HPMFWUPG_DEFAULT_UPGRADE_TIMEOUT end)
     end);
  t ← hpm_time;
  '(rc, resp) ← HpmfwupgGetUpgradeStatus (uninit 3) pFwupgCtx;
  '(rc, resp) ← wait_loop fuel timeout t t rc resp pFwupgCtx;
  mret (if rd resp 2 =? 0 then rc else HPMFWUPG_ERROR).

(** A command that may be in progress: wait for it. *)
Definition long_cmd (req : ipmi_rq) (pFwupgCtx : option upgrade_ctx) : M (hpm dev) Z :=
  rsp ← HpmfwupgSendCmd req pFwupgCtx;
  match rsp with
  | None => mret HPMFWUPG_ERROR
  | Some r =>
      if ccode r =? HPMFWUPG_COMMAND_IN_PROGRESS then HpmfwupgWaitLongDurationCmd pFwupgCtx
      else mret (if ccode r =? 0 then HPMFWUPG_SUCCESS else HPMFWUPG_ERROR)
  end.

(** [HpmfwupgInitiateUpgradeAction] *)
Definition HpmfwupgInitiateUpgradeAction (mask action : Z) (c : upgrade_ctx) : M (hpm dev) Z :=
  long_cmd (picmg_rq HPMFWUPG_INITIATE_UPGRADE_ACTION [mask; action]) (Some c).

(** [HpmfwupgActivateFirmware] *)
Definition HpmfwupgActivateFirmware (rollback_override : Z) (pFwupgCtx : option upgrade_ctx) : M (hpm dev) Z :=
  long_cmd (picmg_rq HPMFWUPG_ACTIVATE_FIRMWARE (if rollback_override =? 0 then [] else [rollback_override]))
    pFwupgCtx.

(** [HpmfwupgUploadFirmwareBlock]: the code, [*imageOffset] and
    [*blockLength]. *)
Definition HpmfwupgUploadFirmwareBlock (blockNumber : Z) (data : list Z) (c : upgrade_ctx)
    : M (hpm dev) (Z * Z * Z) :=
  rsp ← HpmfwupgSendCmd (picmg_rq HPMFWUPG_UPLOAD_FIRMWARE_BLOCK (blockNumber :: data)) (Some c);
  match rsp with
  | None => mret (HPMFWUPG_ERROR, 0, 0)
  | Some r =>
      let fine := (ccode r =? HPMFWUPG_COMMAND_IN_PROGRESS) || (ccode r =? 0) in
      let sized := fine && (1 <? rs_data_len r) in
      d ← lift (rsp_bytes r 0 9);
      let '(imageOffset, blockLength) :=
        if sized && (rs_data_len r =? 9) then (ipmi32toh (drop 1 d), ipmi32toh (drop 5 d)) else (0, 0) in
      let cc := if sized && negb (rs_data_len r =? 9) then HPMFWUPG_INT_CHECKSUM_ERROR else ccode r in
      rc ←
        (if cc =? HPMFWUPG_COMMAND_IN_PROGRESS then HpmfwupgWaitLongDurationCmd (Some c)
         else if cc =? 0 then mret HPMFWUPG_SUCCESS
         else
           retryable ← HPMFWUPG_IS_RETRYABLE cc;
           mret (if retryable : bool then HPMFWUPG_UPLOAD_RETRY
                 else if (cc =? IPMI_CC_REQ_DATA_INV_LENGTH) || (cc =? IPMI_CC_REQ_DATA_FIELD_EXCEED)
                 then HPMFWUPG_UPLOAD_BLOCK_LENGTH
                 else HPMFWUPG_ERROR));
      mret (rc, imageOffset, blockLength)
  end.

(** [HpmfwupgFinishFirmwareUpload]; [compare] is [option & COMPARE_MODE]. *)
Definition HpmfwupgFinishFirmwareUpload (component imageLength : Z) (c : upgrade_ctx) (compare : bool)
    : M (hpm dev) Z :=
  rsp ← HpmfwupgSendCmd (picmg_rq HPMFWUPG_FINISH_FIRMWARE_UPLOAD (component :: htoipmi32 imageLength)) (Some c);
  match rsp with
  | None => mret HPMFWUPG_ERROR
  | Some r =>
      if ccode r =? HPMFWUPG_COMMAND_IN_PROGRESS then HpmfwupgWaitLongDurationCmd (Some c)
      else mret (if (compare && (ccode r =? 0x83)) || (ccode r =? 0) then HPMFWUPG_SUCCESS else HPMFWUPG_ERROR)
  end.

(** The polls of [HpmfwupgQueryRollbackStatus] and
    [HpmfwupgQuerySelftestResult]: the last answer, its code 0x80 when it is
    retryable; [again] are the codes that are polled on. *)
Fixpoint poll_loop (n : nat) (req : ipmi_rq) (again : list Z) (timeout t1 : Z) (pFwupgCtx : option upgrade_ctx)
    : M (hpm dev) (option ipmi_rs) :=
  match n with
  | O => fail OutOfFuel
  | S n =>
      rsp ← HpmfwupgSendCmd req pFwupgCtx;
      rsp ← (match rsp with
             | Some r =>
                 retryable ← HPMFWUPG_IS_RETRYABLE (ccode r);
                 mret (Some (if retryable : bool then r <| ccode := HPMFWUPG_COMMAND_IN_PROGRESS |> else r))
             | None => mret None
             end);
      t2 ← hpm_time;
      match rsp with
      | Some r =>
          if existsb (Z.eqb (ccode r)) again && (u32 (t2 - t1) <? timeout)
          then poll_loop n req again timeout t1 pFwupgCtx
          else mret rsp
      | None => mret None
      end
  end.

(** [HpmfwupgQueryRollbackStatus] *)
Definition HpmfwupgQueryRollbackStatus (pFwupgCtx : option upgrade_ctx) : M (hpm dev) Z :=
  timeout ←
    (match pFwupgCtx with
     | Some c =>
         t ← lift (match pImageData c with Some image => rdx image 22 | None => Ok 0 end);
         mret (Z.max t (rollbackTimeout (targetCap c)) * 5)
     | None => mret HPMFWUPG_DEFAULT_UPGRADE_TIMEOUT
     end);
  t1 ← hpm_time;
  _ ← hpm_time;
  rsp ← poll_loop fuel (picmg_rq HPMFWUPG_QUERY_ROLLBACK_STATUS []) [HPMFWUPG_COMMAND_IN_PROGRESS; IPMI_CC_TIMEOUT]
          timeout t1 pFwupgCtx;
  match rsp with
  | Some r => mret (if ccode r =? 0 then HPMFWUPG_SUCCESS else HPMFWUPG_ERROR)
  | None => mret HPMFWUPG_ERROR
  end.

(** [HpmfwupgQuerySelftestResult]: the two bytes of the result; the time-out is
    an [unsigned char]. *)
Definition HpmfwupgQuerySelftestResult (pFwupgCtx : option upgrade_ctx) : M (hpm dev) (option (Z * Z)) :=
  timeout ←
    (match pFwupgCtx with
     | Some c =>
         t ← lift (match pImageData c with Some image => rdx image 21 | None => Bad OutOfBounds end);
         mret (u8 (Z.max t (selftestTimeout (targetCap c)) * 5))
     | None => mret HPMFWUPG_DEFAULT_UPGRADE_TIMEOUT
     end);
  t1 ← hpm_time;
  _ ← hpm_time;
  rsp ← poll_loop fuel (picmg_rq HPMFWUPG_QUERY_SELFTEST_RESULT []) [HPMFWUPG_COMMAND_IN_PROGRESS]
          timeout t1 pFwupgCtx;
  match rsp with
  | Some r => if ccode r =? 0 then d ← lift (rsp_bytes r 0 3); mret (Some (rd d 1, rd d 2)) else mret None
  | None => mret None
  end.

(** [HpmfwupgManualFirmwareRollback] *)
Definition HpmfwupgManualFirmwareRollback : M (hpm dev) Z :=
  caps ← HpmfwupgGetTargetUpgCapabilities;
  match caps with
  | None => mret HPMFWUPG_ERROR
  | Some caps =>
      let c := zero_uctx <| targetCap := caps |> in
      rsp ← HpmfwupgSendCmd (picmg_rq HPMFWUPG_MANUAL_FIRMWARE_ROLLBACK []) (Some c);
      match rsp with
      | None => mret HPMFWUPG_ERROR
      | Some r =>
          if (ccode r =? 0) || (ccode r =? HPMFWUPG_COMMAND_IN_PROGRESS)
          then HpmfwupgQueryRollbackStatus (Some c)
          else mret HPMFWUPG_ERROR
      end
  end.
End Hpm.
