(* ===== verification/HpmImage.v ===== *)
(** * HPM.1 firmware images (lib/ipmi_hpmfwupg.c, ipmi_hpmfwupg.h)

    The file that [HpmfwupgGetBufferFromFile] reads, the validation of its
    digest and header, the action records behind the header, and the check
    that selects the components to upgrade.  A pointer into the image is the
    offset of the byte it points to. *)

From S2P Require Import Prelude Wire Ipmi Intf Session Bmc Md5 Hpm.

#[local] Open Scope Z_scope.

Definition HPMFWUPG_MD5_SIGNATURE_LENGTH : Z := 16.
Definition HPMFWUPG_HEADER_SIGNATURE_LENGTH : Z := 8.
Definition HPMFWUPG_IMAGE_HEADER_VERSION : Z := 0.
Definition HPMFWUPG_DESCRIPTION_LENGTH : Z := 21.
Definition HPMFWUPG_COMPONENT_ID_MAX : Z := 8.
Definition HPMFWUPG_ACTION_BACKUP_COMPONENTS : Z := 0.
Definition HPMFWUPG_ACTION_PREPARE_COMPONENTS : Z := 1.
Definition HPMFWUPG_ACTION_UPLOAD_FIRMWARE : Z := 2.
Definition VIEW_MODE : Z := 0x01.
Definition DEBUG_MODE : Z := 0x02.
Definition FORCE_MODE : Z := 0x04.
Definition COMPARE_MODE : Z := 0x08.

(** "PICMGFWU" *)
Definition HPMFWUPG_IMAGE_SIGNATURE : list Z := [80; 73; 67; 77; 71; 70; 87; 85].

(** [option & MODE] *)
Definition has (option mode : Z) : bool := negb (option .& mode =? 0).

(** ** The header: the offsets of [struct HpmfwupgImageHeader] *)

Definition im_signature (image : list Z) : list Z := slice image 0 8.
Definition im_formatVersion (image : list Z) : Z := rd image 8.
Definition im_deviceId (image : list Z) : Z := rd image 9.
Definition im_manId (image : list Z) : list Z := slice image 10 3.
Definition im_prodId (image : list Z) : list Z := slice image 13 2.
Definition im_capabilities (image : list Z) : Z := rd image 19.
Definition im_servAffected (image : list Z) : bool := bit 4 (im_capabilities image).
Definition im_imageSelfTest (image : list Z) : bool := bit 7 (im_capabilities image).
Definition im_components (image : list Z) : Z := rd image 20.
Definition im_compRevision (image : list Z) : list Z := slice image 24 2.
Definition im_oemDataLength (image : list Z) : Z := ipmi16toh (slice image 32 2).

Definition sizeof_image_header : Z := 34.
Definition sizeof_action_record : Z := 3.
Definition sizeof_firmware_image : Z := 31.

(** The header is read through a pointer: the image has to be as long. *)
Definition image_header (image : list Z) : res unit :=
  if sizeof_image_header <=? zlen image then Ok tt else Bad OutOfBounds.

(** The first action record. *)
Definition first_record (image : list Z) : Z := sizeof_image_header + im_oemDataLength image + 1.

(** The end of the action records. *)
Definition records_end (image : list Z) : Z := zlen image - HPMFWUPG_MD5_SIGNATURE_LENGTH.

(** ** The file *)

(** What the calls on the file give: it is not opened, [fseek] fails, or
    [ftell] gives the size and [fread] the bytes. *)
Inductive image_file :=
  | NoFile
  | SeekFails
  | Reads (size : Z) (data : list Z).

(** [HpmfwupgGetBufferFromFile]: the code and [pImageData]. *)
Definition HpmfwupgGetBufferFromFile `{mal : Malloc} (file : image_file) : Z * option (list Z) :=
  match file with
  | NoFile => (HPMFWUPG_ERROR, None)
  | SeekFails => (HPMFWUPG_ERROR, None)
  | Reads size data =>
      let imageSize := u32 size in
      match malloc imageSize with
      | None => (HPMFWUPG_ERROR, None)
      | Some block =>
          let block := data ++ drop (length data) block in
          if zlen data =? imageSize then (HPMFWUPG_SUCCESS, Some block)
          else (HPMFWUPG_ERROR, Some block)
      end
  end.

(** ** Validation *)

(** [HpmfwupgCalculateChecksum] *)
Definition HpmfwupgCalculateChecksum (pData : list Z) : Z :=
  fold_left (fun checksum b => u8 (checksum + b)) pData 0.

(** The same, of [length] bytes of the image. *)
Definition checksum_at (image : list Z) (off length : Z) : res Z :=
  p ← slx image off length; Ok (HpmfwupgCalculateChecksum p).

(** [HpmfwupgValidateImageIntegrity]; [md5_append] takes the number of bytes as
    an [int], and does nothing for a negative one. *)
Definition HpmfwupgValidateImageIntegrity (image : list Z) : res Z :=
  let n := u32 (zlen image - HPMFWUPG_MD5_SIGNATURE_LENGTH) in
  message ← (if s32 n <=? 0 then Ok [] else slx image 0 n);
  md ← md5 [message];
  sig ← slx image n HPMFWUPG_MD5_SIGNATURE_LENGTH;
  if negb (bool_decide (md = sig)) then Ok HPMFWUPG_ERROR else
  if negb (bool_decide (im_signature image = HPMFWUPG_IMAGE_SIGNATURE)) then Ok HPMFWUPG_ERROR else
  version ← rdx image 8;
  if negb (version =? HPMFWUPG_IMAGE_HEADER_VERSION) then Ok HPMFWUPG_ERROR else
  oem ← slx image 32 2;
  sum ← checksum_at image 0 (sizeof_image_header + ipmi16toh oem + 1);
  if negb (sum =? 0) then Ok HPMFWUPG_ERROR else Ok HPMFWUPG_SUCCESS.

(** [HpmfwupgValidateActionRecordChecksum] of the record at [off] *)
Definition HpmfwupgValidateActionRecordChecksum (image : list Z) (off : Z) : res Z :=
  short ← checksum_at image off sizeof_action_record;
  if short =? 0 then Ok HPMFWUPG_SUCCESS else
  actionType ← rdx image off;
  if negb (actionType =? HPMFWUPG_ACTION_UPLOAD_FIRMWARE) then Ok HPMFWUPG_ERROR else
  long ← checksum_at image off (sizeof_action_record + sizeof_firmware_image);
  Ok (if long =? 0 then HPMFWUPG_SUCCESS else HPMFWUPG_ERROR).

(** [image_version_upgradable] *)
Definition image_version_upgradable (v : version_info) : bool :=
  if negb (bool_decide (vi_image v = vi_target v)) then true
  else if rollbackSupported v =? 0 then false
  else negb (bool_decide (vi_image v = vi_rollback v)).

(** ** The action records *)

(** The component of a mask: [while ((byte >>= 1) != 0) componentId++]. *)
Fixpoint mask_component (n : nat) (byte componentId : Z) : Z :=
  match n with
  | O => componentId
  | S n =>
      let byte := byte .>> 1 in
      if byte =? 0 then componentId else mask_component n byte (componentId + 1)
  end.

(** Whether a component of [mask] fails [ok]; [props] are the general
    properties of the eight components. *)
Definition unsupported (mask : Z) (props : list Z) (ok : Z -> bool) : bool :=
  existsb (fun i => bit i mask && negb (ok (rd props i))) (seqZ 0 HPMFWUPG_COMPONENT_ID_MAX).

(** [struct HpmfwupgFirmwareImage] behind the record at [off]: the version, the
    length of the firmware, and where the firmware is. *)
Record firmware_image := mk_fw { fw_version : list Z; fw_length : Z; fw_data : Z }.

Definition firmware_at (image : list Z) (off : Z) : res firmware_image :=
  h ← slx image (off + sizeof_action_record) sizeof_firmware_image;
  Ok (mk_fw (slice h 0 6) (ipmi32toh (slice h 27 4)) (off + sizeof_action_record + sizeof_firmware_image)).

Section Precheck.
Context {dev : Type}.

(** The upload record of [HpmfwupgPreUpgradeCheck]: it notes the version of the
    image and selects the component. *)
Definition precheck_upload (image : list Z) (off mask componentMask option : Z) (c : upgrade_ctx)
    : M (hpm dev) (Z * upgrade_ctx) :=
  let id := mask_component 8 mask 0 in
  fw ← lift (firmware_at image off);
  _ ← modify (fun s => s <| gVersionInfo := alter (fun v => v <| vi_image := fw_version fw |>)
        (Z.to_nat id) (gVersionInfo s) |>);
  s ← get;
  v ← lift (or_oob (gVersionInfo s !! Z.to_nat id));
  let chosen := (componentMask =? 0) || negb (componentMask .& mask =? 0) in
  let chosen := if chosen && negb (has option (FORCE_MODE .| COMPARE_MODE))
                then image_version_upgradable v else chosen in
  let c := if chosen then c <| compUpdateMask := compUpdateMask c .| (1 .<< id) |> else c in
  mret (fw_data fw + fw_length fw, c).

(** The loop of [HpmfwupgPreUpgradeCheck]; every record is at least three bytes
    long, so the length of the image bounds the records. *)
Fixpoint precheck_loop (n : nat) (image : list Z) (off componentMask option : Z) (c : upgrade_ctx)
    : M (hpm dev) (Z * upgrade_ctx) :=
  match n with
  | O => fail OutOfFuel
  | S n =>
      if negb (off <? records_end image) then mret (HPMFWUPG_SUCCESS, c) else
      rc ← lift (HpmfwupgValidateActionRecordChecksum image off);
      if negb (rc =? HPMFWUPG_SUCCESS) then mret (HPMFWUPG_ERROR, c) else
      let actionType := rd image off in
      let mask := rd image (off + 1) in
      if negb (mask =? 0) && (componentsPresent (targetCap c) =? 0) then mret (HPMFWUPG_ERROR, c) else
      if actionType =? HPMFWUPG_ACTION_BACKUP_COMPONENTS then
        if unsupported mask (genCompProp c) (fun p => negb (rollbackBackup p =? 0))
        then mret (HPMFWUPG_ERROR, c)
        else precheck_loop n image (off + sizeof_action_record) componentMask option c
      else if actionType =? HPMFWUPG_ACTION_PREPARE_COMPONENTS then
        if unsupported mask (genCompProp c) preparationSupport
        then mret (HPMFWUPG_ERROR, c)
        else precheck_loop n image (off + sizeof_action_record) componentMask option c
      else if actionType =? HPMFWUPG_ACTION_UPLOAD_FIRMWARE then
        '(off, c) ← precheck_upload image off mask componentMask option c;
        precheck_loop n image off componentMask option c
      else mret (HPMFWUPG_ERROR, c)
  end.

(** [HpmfwupgPreUpgradeCheck] *)
Definition HpmfwupgPreUpgradeCheck (image : list Z) (componentMask option : Z) (c : upgrade_ctx)
    : M (hpm dev) (Z * upgrade_ctx) :=
  _ ← lift (image_header image);
  precheck_loop (S (length image)) image (first_record image) componentMask option c.
End Precheck.
