(* ===== verification/HpmUpgrade.v ===== *)
(** * The HPM.1 upgrade procedure (lib/ipmi_hpmfwupg.c)

    [HpmfwupgTargetCheck], the preparation, upgrade and activation stages,
    [HpmfwupgUpgrade] that runs them, and the sub-commands of
    [ipmi_hpmfwupg_main]. *)

From S2P Require Import Prelude Wire Ipmi Intf Session Bmc Helper Md5 Hpm HpmImage.

#[local] Open Scope Z_scope.

Definition HPMFWUPG_UPGRADE_ACTION_BACKUP : Z := 0.
Definition HPMFWUPG_UPGRADE_ACTION_PREPARE : Z := 1.
Definition HPMFWUPG_UPGRADE_ACTION_UPGRADE : Z := 2.
Definition HPMFWUPG_UPGRADE_ACTION_COMPARE : Z := 3.

(** [sizeof(struct HpmfwupgUploadFirmwareBlockReq)] *)
Definition sizeof_upload_req : Z := 2.

(** The fields of [struct ipm_devid_rsp] *)
Definition dv_device_id (d : list Z) : Z := rd d 0.
Definition dv_fw_rev1 (d : list Z) : Z := rd d 2.
Definition dv_fw_rev2 (d : list Z) : Z := rd d 3.
Definition dv_manufacturer_id (d : list Z) : list Z := slice d 6 3.
Definition dv_product_id (d : list Z) : list Z := slice d 9 2.

(** The state of the upload loop of [HpmFwupgActionUploadFirmware]; [u_data],
    [u_base] and [u_sect] are [pData], [pDataTemp] and [lengthOfBlock]. *)
Record upload := mk_upload {
  u_data : Z;
  u_base : Z;
  u_sect : Z;
  u_bufLength : Z;
  u_isSet : bool;
  u_totalSent : Z;
  u_block : Z;
  u_rc : Z;
}.

#[export] Instance upload_rebuild : Rebuild upload := fun r =>
  mk_upload (u_data r) (u_base r) (u_sect r) (u_bufLength r) (u_isSet r) (u_totalSent r) (u_block r) (u_rc r).

Section Upgrade.
Context {dev : Type} `{bmc : Bmc dev} `{reo : Reopen dev} `{clk : Clock} `{stk : Stack} `{mal : Malloc}.
Context (fuel : nat) (intf : hpm_intf).

(** [HpmGetUserInput]: [scanf] stores the word and its terminator in two
    bytes, and at the end of the input it stores nothing. *)
Definition HpmGetUserInput : M (hpm dev) bool :=
  s ← get;
  userInput ←
    (match h_input s with
     | [] => mret (uninit 2)
     | word :: words =>
         _ ← modify (fun s => s <| h_input := words |>);
         lift (or_oob (wr (uninit 2) 0 (word ++ [0])))
     end);
  mret ((rd userInput 0 =? 89) || (rd userInput 0 =? 121)).

(** ** [HpmfwupgTargetCheck] *)

(** Six bytes of 0xff: a version that the component does not have. *)
Definition no_version : list Z := replicate 6 0xff.

Definition set_version (i : nat) (f : version_info -> version_info) : M (hpm dev) unit :=
  modify (fun s => s <| gVersionInfo := alter f i (gVersionInfo s) |>).

(** A version that is kept as it is when the controller does not give it. *)
Definition optional_version (i : nat) (supported : bool) (selector : Z)
    (put : list Z -> version_info -> version_info) : M (hpm dev) unit :=
  if supported then
    v ← HpmfwupgGetComponentProperties fuel intf (Z.of_nat i) selector;
    match v with
    | Some v => set_version i (put v)
    | None => mret tt
    end
  else set_version i (put no_version).

(** The properties of a component that is present. *)
Definition check_component (i : nat) : M (hpm dev) Z :=
  let id := Z.of_nat i in
  _ ← set_version i (fun _ => zero_version);
  gen ← HpmfwupgGetComponentProperties fuel intf id HPMFWUPG_COMP_GEN_PROPERTIES;
  match gen with
  | None => mret HPMFWUPG_ERROR
  | Some gen =>
      let p := rd gen 0 in
      _ ← set_version i (fun v => v <| rollbackSupported := rollbackBackup p |>
            <| coldResetRequired := Z.b2z (payloadColdReset p) |>
            <| deferredActivationSupported := Z.b2z (deferredActivation p) |>);
      desc ← HpmfwupgGetComponentProperties fuel intf id HPMFWUPG_COMP_DESCRIPTION_STRING;
      match desc with
      | None => mret HPMFWUPG_ERROR
      | Some desc =>
          _ ← set_version i (fun v => v <| vi_descString := desc ++ [0] |>);
          cur ← HpmfwupgGetComponentProperties fuel intf id HPMFWUPG_COMP_CURRENT_VERSION;
          match cur with
          | None => mret HPMFWUPG_ERROR
          | Some cur =>
              _ ← set_version i (fun v => v <| vi_componentId := id |> <| vi_target := cur |>);
              _ ← optional_version i (negb (rollbackBackup p =? 0)) HPMFWUPG_COMP_ROLLBACK_FIRMWARE_VERSION
                    (fun x v => v <| vi_rollback := x |>);
              _ ← optional_version i (deferredActivation p) HPMFWUPG_COMP_DEFERRED_FIRMWARE_VERSION
                    (fun x v => v <| vi_deferred := x |>);
              mret HPMFWUPG_SUCCESS
          end
      end
  end.

(** The loop over the components, [n] of them left. *)
Fixpoint check_components (n i : nat) (present : Z) : M (hpm dev) Z :=
  match n with
  | O => mret HPMFWUPG_SUCCESS
  | S n =>
      if bit (Z.of_nat i) present then
        rc ← check_component i;
        if rc =? HPMFWUPG_SUCCESS then check_components n (S i) present else mret rc
      else check_components n (S i) present
  end.

(** [HpmfwupgTargetCheck], which only prints with [VIEW_MODE] *)
Definition HpmfwupgTargetCheck : M (hpm dev) Z :=
  id ← HpmfwupgGetDeviceId fuel intf;
  match id with
  | None => mret HPMFWUPG_ERROR
  | Some _ =>
      caps ← HpmfwupgGetTargetUpgCapabilities fuel intf;
      match caps with
      | None => mret HPMFWUPG_ERROR
      | Some caps => check_components 8 0 (componentsPresent caps)
      end
  end.

(** ** [HpmfwupgPreparationStage] *)

(** Ask whether to go on in spite of a mismatch. *)
Definition override (option : Z) : M (hpm dev) bool :=
  if negb (has option FORCE_MODE || has option VIEW_MODE) then mret false else HpmGetUserInput.

(** The image is for this device, product and manufacturer. *)
Definition ids_match (image d : list Z) : bool :=
  (im_deviceId image =? dv_device_id d) && bool_decide (im_prodId image = dv_product_id d) &&
  bool_decide (im_manId image = dv_manufacturer_id d).

(** The firmware of the device is older than the image allows. *)
Definition too_old (image d : list Z) : bool :=
  (dv_fw_rev1 d <? rd (im_compRevision image) 0) ||
  (rd (im_compRevision image) 0 =? dv_fw_rev1 d) && (dv_fw_rev2 d <? rd (im_compRevision image) 1).

(** What the capabilities of the target have to allow. *)
Definition caps_allow (image : list Z) (option : Z) (caps : target_caps) : M (hpm dev) bool :=
  if has option VIEW_MODE then mret true else
  if negb (im_components image .& componentsPresent caps =? im_components image) then mret false else
  if fwUpgUndesirable caps then mret false else
  if negb (has option COMPARE_MODE) && (servAffectDuringUpg caps || im_servAffected image)
  then HpmGetUserInput else mret true.

(** The general properties of the components of the image: the code of the
    last command, and the properties. *)
Fixpoint general_properties (n i : nat) (components rc : Z) (props : list Z) : M (hpm dev) (Z * list Z) :=
  match n with
  | O => mret (rc, props)
  | S n =>
      let props := <[i := 0]> props in
      if bit (Z.of_nat i) components then
        p ← HpmfwupgGetComponentProperties fuel intf (Z.of_nat i) HPMFWUPG_COMP_GEN_PROPERTIES;
        match p with
        | Some p => general_properties n (S i) components HPMFWUPG_SUCCESS (<[i := rd p 0]> props)
        | None => general_properties n (S i) components HPMFWUPG_ERROR props
        end
      else general_properties n (S i) components rc props
  end.

(** [HpmfwupgPreparationStage] *)
Definition HpmfwupgPreparationStage (image : list Z) (option : Z) (c : upgrade_ctx)
    : M (hpm dev) (Z * upgrade_ctx) :=
  d ← HpmfwupgGetDeviceId fuel intf;
  match d with
  | None => mret (HPMFWUPG_ERROR, c)
  | Some d =>
      let c := c <| devId := d |> in
      _ ← lift (image_header image);
      go ← (if ids_match image d then mret true else override option);
      if negb go then mret (HPMFWUPG_ERROR, c) else
      go ← (if too_old image d then override option else mret true);
      if negb go then mret (HPMFWUPG_ERROR, c) else
      caps ← HpmfwupgGetTargetUpgCapabilities fuel intf;
      match caps with
      | None => mret (HPMFWUPG_ERROR, c)
      | Some caps =>
          let c := c <| targetCap := caps |> in
          go ← caps_allow image option caps;
          if negb go then mret (HPMFWUPG_ERROR, c) else
          '(rc, props) ← general_properties 8 0 (im_components image) HPMFWUPG_SUCCESS (genCompProp c);
          mret (rc, c <| genCompProp := props |>)
      end
  end.

(** ** [HpmFwupgActionUploadFirmware] *)

(** A block was refused, [rc] being the reason: give up, try again, or try a
    smaller block as long as none was accepted. *)
Definition block_refused (rc : Z) (u : upload) : upload :=
  if (rc =? HPMFWUPG_UPLOAD_BLOCK_LENGTH) && negb (u_isSet u) then
    if hi_lan intf && (8 <? u_bufLength u) then u <| u_bufLength := u_bufLength u - 8 |> <| u_rc := HPMFWUPG_SUCCESS |>
    else if negb (u_bufLength u =? 0) then u <| u_bufLength := u_bufLength u - 1 |> <| u_rc := HPMFWUPG_SUCCESS |>
    else u <| u_rc := HPMFWUPG_ERROR |>
  else if rc =? HPMFWUPG_UPLOAD_RETRY then u <| u_rc := HPMFWUPG_SUCCESS |>
  else u <| u_rc := HPMFWUPG_ERROR |>.

(** A block of [count] bytes was accepted; the device may ask for another
    section of the firmware, whose data is at [initial]. *)
Definition block_accepted (initial firmwareLength count imageOffset blockLength : Z) (u : upload) : upload :=
  let u := u <| u_isSet := true |> <| u_rc := HPMFWUPG_SUCCESS |> in
  let sum := u32 (imageOffset + blockLength) in
  if (firmwareLength <? sum) || (sum <? blockLength) then u <| u_rc := HPMFWUPG_ERROR |> else
  let u := u <| u_totalSent := u32 (u_totalSent u + count) |> <| u_block := u8 (u_block u + 1) |> in
  if negb (imageOffset =? 0) then
    u <| u_sect := blockLength |> <| u_base := initial + imageOffset |> <| u_data := initial + imageOffset |>
  else u <| u_data := u_data u + count |>.

(** One block. *)
Definition upload_step (image : list Z) (initial firmwareLength : Z) (c : upgrade_ctx) (u : upload)
    : M (hpm dev) upload :=
  let stop := u_base u + u_sect u in
  let count := if u_data u + u_bufLength u <=? stop then u_bufLength u else u16 (stop - u_data u) in
  data ← lift (slx image (u_data u) count);
  '(rc, imageOffset, blockLength) ← HpmfwupgUploadFirmwareBlock fuel intf (u_block u) data c;
  if rc =? HPMFWUPG_SUCCESS then
    let u := block_accepted initial firmwareLength count imageOffset blockLength u in
    _ ← (if u_rc u =? HPMFWUPG_SUCCESS then hpm_time else mret 0);
    mret u
  else mret (block_refused rc u).

Fixpoint upload_loop (n : nat) (image : list Z) (initial firmwareLength : Z) (c : upgrade_ctx) (u : upload)
    : M (hpm dev) upload :=
  match n with
  | O => fail OutOfFuel
  | S n =>
      if (u_data u <? u_base u + u_sect u) && (u_rc u =? HPMFWUPG_SUCCESS) then
        u ← upload_step image initial firmwareLength c u;
        upload_loop n image initial firmwareLength c u
      else mret u
  end.

(** [HpmFwupgActionUploadFirmware] for the record at [off]: the code,
    [*pImagePtr] and the context. *)
Definition HpmFwupgActionUploadFirmware (image : list Z) (off mask option : Z) (c : upgrade_ctx)
    : M (hpm dev) (Z * Z * upgrade_ctx) :=
  let id := mask_component 8 mask 0 in
  let c := c <| componentId := id |> in
  let initial := off + sizeof_action_record + sizeof_firmware_image in
  let max_rq_size := ipmi_intf_get_max_request_data_size (hi_addr intf) in
  if max_rq_size <=? sizeof_upload_req then mret (HPMFWUPG_ERROR, off, c) else
  fw ← lift (firmware_at image off);
  let next := initial + fw_length fw in
  if negb (bit id (compUpdateMask c)) then mret (HPMFWUPG_SUCCESS, next, c) else
  if negb (bool_decide (is_Some (malloc max_rq_size))) then mret (HPMFWUPG_ERROR, off, c) else
  let compare := has option COMPARE_MODE in
  rc ← HpmfwupgInitiateUpgradeAction fuel intf mask
         (if compare then HPMFWUPG_UPGRADE_ACTION_COMPARE else HPMFWUPG_UPGRADE_ACTION_UPGRADE) c;
  _ ← hpm_time;
  if negb (rc =? HPMFWUPG_SUCCESS) then mret (rc, next, c) else
  u ← upload_loop fuel image initial (fw_length fw) c
        (mk_upload initial initial (fw_length fw) (max_rq_size - sizeof_upload_req) false 0 0 HPMFWUPG_SUCCESS);
  if negb (u_rc u =? HPMFWUPG_SUCCESS) then mret (u_rc u, off, c) else
  rc ← HpmfwupgFinishFirmwareUpload fuel intf id (u_totalSent u) c compare;
  mret (rc, next, c).

(** ** [HpmfwupgUpgradeStage] *)

(** A backup or prepare record: only the components to upgrade. *)
Definition initiate_selected (mask action option : Z) (c : upgrade_ctx) : M (hpm dev) Z :=
  let selected := compUpdateMask c .& mask in
  if negb (has option COMPARE_MODE) && negb (selected =? 0)
  then HpmfwupgInitiateUpgradeAction fuel intf selected action c
  else mret HPMFWUPG_SUCCESS.

(** The loop over the records. *)
Fixpoint upgrade_loop (n : nat) (image : list Z) (off option rc : Z) (c : upgrade_ctx)
    : M (hpm dev) (Z * upgrade_ctx) :=
  match n with
  | O => fail OutOfFuel
  | S n =>
      if negb ((off <? records_end image) && (rc =? HPMFWUPG_SUCCESS)) then mret (rc, c) else
      rc ← lift (HpmfwupgValidateActionRecordChecksum image off);
      if negb (rc =? HPMFWUPG_SUCCESS) then upgrade_loop n image off option rc c else
      let actionType := rd image off in
      let mask := rd image (off + 1) in
      if actionType =? HPMFWUPG_ACTION_BACKUP_COMPONENTS then
        rc ← initiate_selected mask HPMFWUPG_UPGRADE_ACTION_BACKUP option c;
        upgrade_loop n image (off + sizeof_action_record) option rc c
      else if actionType =? HPMFWUPG_ACTION_PREPARE_COMPONENTS then
        rc ← initiate_selected mask HPMFWUPG_UPGRADE_ACTION_PREPARE option c;
        upgrade_loop n image (off + sizeof_action_record) option rc c
      else if actionType =? HPMFWUPG_ACTION_UPLOAD_FIRMWARE then
        '(rc, off, c) ← HpmFwupgActionUploadFirmware image off mask option c;
        upgrade_loop n image off option rc c
      else upgrade_loop n image off option HPMFWUPG_ERROR c
  end.

(** [HpmfwupgUpgradeStage]; a record that fails takes one more round to end
    the loop. *)
Definition HpmfwupgUpgradeStage (image : list Z) (option : Z) (c : upgrade_ctx)
    : M (hpm dev) (Z * upgrade_ctx) :=
  _ ← lift (image_header image);
  upgrade_loop (S (S (length image))) image (first_record image) option HPMFWUPG_SUCCESS c.

(** ** [HpmfwupgActivationStage] *)

(** The self test, when the target or the image has one. *)
Definition self_test (image : list Z) (c : upgrade_ctx) : M (hpm dev) Z :=
  if ipmcSelftestCap (targetCap c) || im_imageSelfTest image then
    r ← HpmfwupgQuerySelftestResult fuel intf (Some c);
    match r with
    | Some (result1, _) => mret (if result1 =? 0x55 then HPMFWUPG_SUCCESS else HPMFWUPG_ERROR)
    | None => mret HPMFWUPG_ERROR
    end
  else mret HPMFWUPG_SUCCESS.

(** [HpmfwupgActivationStage] *)
Definition HpmfwupgActivationStage (image : list Z) (c : upgrade_ctx) : M (hpm dev) Z :=
  rc ← HpmfwupgActivateFirmware fuel intf 0 (Some c);
  rc ← (if rc =? HPMFWUPG_SUCCESS then _ ← lift (image_header image); self_test image c else mret rc);
  if (rc =? HPMFWUPG_ERROR) && autRollback (targetCap c) &&
     negb (rollbackBackup (rd (genCompProp c) (componentId c)) =? 0)
  then HpmfwupgQueryRollbackStatus fuel intf (Some c)
  else mret rc.

(** ** [HpmfwupgUpgrade] *)

(** The three stages on an image that was read. *)
Definition upgrade_image (image : list Z) (activate : bool) (componentMask option : Z) : M (hpm dev) Z :=
  let c := zero_uctx <| pImageData := Some image |> in
  rc ← lift (HpmfwupgValidateImageIntegrity image);
  if negb (rc =? HPMFWUPG_SUCCESS) then mret rc else
  '(rc, c) ← HpmfwupgPreparationStage image option c;
  if negb (rc =? HPMFWUPG_SUCCESS) then mret rc else
  '(rc, c) ← HpmfwupgPreUpgradeCheck image componentMask (if has option VIEW_MODE then VIEW_MODE else option) c;
  if negb (rc =? HPMFWUPG_SUCCESS) then mret rc else
  '(rc, c) ← (if has option VIEW_MODE then mret (rc, c) else HpmfwupgUpgradeStage image option c);
  if (rc =? HPMFWUPG_SUCCESS) && activate && negb (compUpdateMask c =? 0)
  then HpmfwupgActivationStage image c else mret rc.

(** [HpmfwupgUpgrade] *)
Definition HpmfwupgUpgrade (file : image_file) (activate : bool) (componentMask option : Z) : M (hpm dev) Z :=
  match HpmfwupgGetBufferFromFile file with
  | (rc, Some image) =>
      if rc =? HPMFWUPG_SUCCESS then upgrade_image image activate componentMask option else mret rc
  | (rc, None) => mret rc
  end.

(** ** [ipmi_hpmfwupg_main] *)

(** The value of "component", which is set in the mask; the number of
    components is accepted too. *)
Definition component_arg (arg : list Z) (mask : Z) : option Z :=
  match str2int (Some arg) with
  | (rc, Some id) =>
      if negb (rc =? 0) || (id <? 0) || (HPMFWUPG_COMPONENT_ID_MAX <? id) then None else Some (mask .| (1 .<< id))
  | (_, None) => None
  end.

(** The arguments of "upgrade", or of "compare", which has no "activate" and no
    "force". *)
Fixpoint hpm_args (upgrade : bool) (args : list (list Z)) (activate : bool) (mask option : Z)
    : Datatypes.option (bool * Z * Z) :=
  match args with
  | [] => Some (activate, mask, option)
  | arg :: args =>
      let activate := activate || upgrade && bool_decide (arg = text "activate") in
      let option := if upgrade && bool_decide (arg = text "force") then option .| FORCE_MODE else option in
      let next mask := hpm_args upgrade args activate mask
        (if bool_decide (arg = text "debug") then option .| DEBUG_MODE else option) in
      if bool_decide (arg = text "component") then
        match args with
        | id :: _ => mask' ← component_arg id mask; next mask'
        | [] => None
        end
      else next mask
  end.

Definition code {A} (r : option A) : Z := match r with Some _ => HPMFWUPG_SUCCESS | None => HPMFWUPG_ERROR end.

(** Check the target, then upgrade from the file that is named first. *)
Definition check_and_upgrade (files : list Z -> image_file) (args : list (list Z)) (activate : bool) (mask option : Z)
    : M (hpm dev) Z :=
  rc ← HpmfwupgTargetCheck;
  if negb (rc =? HPMFWUPG_SUCCESS) then mret rc else
  match args with
  | name :: _ => HpmfwupgUpgrade (files name) activate mask option
  | [] => fail OutOfBounds
  end.

(** "compprop": the component, below eight, and the selector, below five. *)
Definition component_properties (id selector : list Z) : M (hpm dev) Z :=
  match str2uchar (Some id), str2uchar (Some selector) with
  | (rc1, Some id), (rc2, Some selector) =>
      if negb (rc1 =? 0) || (7 <? id) || negb (rc2 =? 0) || (4 <? selector) then mret (-1)
      else p ← HpmfwupgGetComponentProperties fuel intf id selector; mret (code p)
  | _, _ => mret (-1)
  end.

(** [ipmi_hpmfwupg_main]; [files] is what reading a file gives. *)
Definition ipmi_hpmfwupg_main (files : list Z -> image_file) (argv : list (list Z)) : M (hpm dev) Z :=
  match argv with
  | [] => mret HPMFWUPG_ERROR
  | cmd :: args =>
      let named s := bool_decide (cmd = text s) in
      if named "help" then mret HPMFWUPG_SUCCESS else
      if named "check" then
        match args with
        | [] => HpmfwupgTargetCheck
        | _ :: _ => check_and_upgrade files args false 0 VIEW_MODE
        end
      else if named "upgrade" then
        match hpm_args true args false 0 0 with
        | Some (activate, mask, option) => check_and_upgrade files args activate mask option
        | None => mret HPMFWUPG_ERROR
        end
      else if named "compare" then
        match hpm_args false args false 0 0 with
        | Some (_, mask, option) => check_and_upgrade files args false mask (option .| COMPARE_MODE)
        | None => mret HPMFWUPG_ERROR
        end
      else if named "activate" then
        HpmfwupgActivateFirmware fuel intf (if bool_decide (args = [text "norollback"]) then 1 else 0) None
      else
        match args with
        | [] =>
            if named "targetcap" then r ← HpmfwupgGetTargetUpgCapabilities fuel intf; mret (code r)
            else if named "abort" then HpmfwupgAbortUpgrade fuel intf
            else if named "upgstatus" then '(rc, _) ← HpmfwupgGetUpgradeStatus fuel intf (uninit 3) None; mret rc
            else if named "rollback" then HpmfwupgManualFirmwareRollback fuel intf
            else if named "rollbackstatus" then HpmfwupgQueryRollbackStatus fuel intf None
            else if named "selftestresult" then r ← HpmfwupgQuerySelftestResult fuel intf None; mret (code r)
            else mret HPMFWUPG_ERROR
        | [id; selector] => if named "compprop" then component_properties id selector else mret HPMFWUPG_ERROR
        | _ => mret HPMFWUPG_ERROR
        end
  end.
End Upgrade.
