(* ===== verification/HpmProps.v ===== *)
(** * Correctness of the firmware upgrade (lib/ipmi_hpmfwupg.c)

    Images as a specification writes them, the law of a device that receives
    firmware, and the upload, the check and the stages of HpmUpgrade on them. *)

From S2P Require Import Prelude Wire Ipmi Intf Session Bmc Fru Md5 Hpm HpmImage HpmUpgrade.

#[local] Open Scope Z_scope.

(** ** Images *)

(** An action record; [full] tells which of the two readings of the
    specification the checksum of an upload record follows. *)
Inductive action :=
  | Backup (mask : Z)
  | Prepare (mask : Z)
  | Upload (full : bool) (mask : Z) (version desc fw : list Z).

Definition encode (a : action) : list Z :=
  match a with
  | Backup mask => let h := [HPMFWUPG_ACTION_BACKUP_COMPONENTS; mask] in h ++ [ipmi_csum h]
  | Prepare mask => let h := [HPMFWUPG_ACTION_PREPARE_COMPONENTS; mask] in h ++ [ipmi_csum h]
  | Upload full mask version desc fw =>
      let h := [HPMFWUPG_ACTION_UPLOAD_FIRMWARE; mask] in
      let image := version ++ desc ++ htoipmi32 (zlen fw) in
      h ++ [ipmi_csum (if full then h ++ image else h)] ++ image ++ fw
  end.

Definition wf_action (a : action) : Prop :=
  match a with
  | Backup mask | Prepare mask => is_u8 mask
  | Upload _ mask version desc fw =>
      is_u8 mask /\ zlen version = 6 /\ zlen desc = HPMFWUPG_DESCRIPTION_LENGTH /\ is_u32 (zlen fw)
  end.

Definition act_type (a : action) : Z :=
  match a with
  | Backup _ => HPMFWUPG_ACTION_BACKUP_COMPONENTS
  | Prepare _ => HPMFWUPG_ACTION_PREPARE_COMPONENTS
  | Upload _ _ _ _ _ => HPMFWUPG_ACTION_UPLOAD_FIRMWARE
  end.

Definition act_mask (a : action) : Z :=
  match a with Backup mask | Prepare mask | Upload _ mask _ _ _ => mask end.

(** The sum of the bytes of a record is zero. *)
Lemma checksum_sum p : HpmfwupgCalculateChecksum p = u8 (foldr Z.add 0 p).
Proof. exact (csum_loop_sum p 0). Qed.

Lemma checksum_zero h : HpmfwupgCalculateChecksum (h ++ [ipmi_csum h]) = 0.
Proof.
  rewrite checksum_sum, foldr_add_app, csum_sum. cbn [foldr]. rewrite Z.add_0_r, u8_add_r.
  unfold u8. rewrite Z.add_opp_diag_r. done.
Qed.

Lemma checksum_zero_mid h t : HpmfwupgCalculateChecksum (h ++ [ipmi_csum (h ++ t)] ++ t) = 0.
Proof.
  rewrite checksum_sum, !foldr_add_app, csum_sum. cbn [foldr]. rewrite Z.add_0_r.
  replace (foldr Z.add 0 h + (u8 (- foldr Z.add 0 (h ++ t)) + foldr Z.add 0 t))
    with (foldr Z.add 0 h + foldr Z.add 0 t + u8 (- foldr Z.add 0 (h ++ t))) by lia.
  rewrite foldr_add_app, u8_add_r. unfold u8. rewrite Z.add_opp_diag_r. done.
Qed.

(** A record in an image: its type, its components and its checksum. *)
Lemma record_at pre a post off : wf_action a -> off = zlen pre ->
  let image := pre ++ encode a ++ post in
  HpmfwupgValidateActionRecordChecksum image off = Ok HPMFWUPG_SUCCESS /\
  rd image off = act_type a /\ rd image (off + 1) = act_mask a.
Proof.
  intros Hwf -> image. pose proof (zlen_nonneg pre) as Hp.
  assert (exists h x rest, image = pre ++ [act_type a; act_mask a; x] ++ rest /\ h = [act_type a; act_mask a] /\
    (x = ipmi_csum h \/ act_type a = HPMFWUPG_ACTION_UPLOAD_FIRMWARE /\
      exists t fw, rest = t ++ fw /\ zlen t = sizeof_firmware_image /\ x = ipmi_csum (h ++ t)))
    as (h & x & rest & Ei & Eh & Hx).
  { subst image. destruct a as [m|m|full m v dsc fw]; cbn [encode act_type act_mask].
    1, 2: do 3 eexists; split; [cbn [app]; reflexivity |]; split; [reflexivity | by left].
    destruct Hwf as (_ & Hv & Hd & _). do 3 eexists. split; [cbn [app]; rewrite <- !app_assoc; reflexivity |].
    split; [reflexivity |]. destruct full; [right; split; [done |] | by left].
    exists (v ++ dsc ++ htoipmi32 (zlen fw)), (fw ++ post). split; [by rewrite <- !app_assoc |].
    split; [by rewrite !zlen_app, Hv, Hd | done]. }
  split; [| split; rewrite Ei].
  - unfold HpmfwupgValidateActionRecordChecksum, checksum_at. rewrite Ei.
    rewrite (slx_mid pre [act_type a; act_mask a; x] rest _ sizeof_action_record) by done. cbn [mbind res_bind].
    destruct Hx as [->|(Ht & t & fw & -> & Hz & ->)].
    + subst h. change [act_type a; act_mask a; ?y] with ([act_type a; act_mask a] ++ [y]).
      rewrite checksum_zero. done.
    + case_test; [done |]. assert (zlen pre < zlen (pre ++ [act_type a; act_mask a; ipmi_csum (h ++ t)] ++ t ++ fw)).
      { pose proof (zlen_nonneg t). pose proof (zlen_nonneg fw). rewrite !zlen_app.
        change (zlen [_; _; _]) with 3. lia. }
      rewrite rdx_ok by lia. cbn [mbind res_bind]. cbn [app]. rewrite rd_app_mid, Ht by done.
      change (negb (HPMFWUPG_ACTION_UPLOAD_FIRMWARE =? HPMFWUPG_ACTION_UPLOAD_FIRMWARE)) with false. cbv match.
      assert (pre ++ HPMFWUPG_ACTION_UPLOAD_FIRMWARE :: act_mask a :: ipmi_csum (h ++ t) :: t ++ fw =
        pre ++ (h ++ [ipmi_csum (h ++ t)] ++ t) ++ fw) as ->.
      { rewrite Eh, Ht. cbn [app]. done. }
      rewrite slx_mid; [| done | subst h; rewrite !zlen_app, Hz; done]. cbn [mbind res_bind].
      rewrite checksum_zero_mid. done.
  - cbn [app]. by rewrite rd_app_mid.
  - change ([act_type a; act_mask a; x] ++ rest) with ([act_type a] ++ act_mask a :: x :: rest).
    rewrite app_assoc. rewrite rd_app_mid; [done |]. rewrite zlen_app. done.
Qed.

(** The firmware of an upload record. *)
Lemma firmware_of pre full m v dsc fw post off : wf_action (Upload full m v dsc fw) -> off = zlen pre ->
  let image := pre ++ encode (Upload full m v dsc fw) ++ post in
  firmware_at image off = Ok (mk_fw v (zlen fw) (off + 34)) /\
  slice image (off + 34) (zlen fw) = fw.
Proof.
  intros (_ & Hv & Hd & Hf) -> image. subst image. cbn [encode].
  set (c := ipmi_csum _). set (h := v ++ dsc ++ htoipmi32 (zlen fw)).
  assert (zlen h = 31) as Hh by (unfold h; rewrite !zlen_app, Hv, Hd; done).
  set (t := [HPMFWUPG_ACTION_UPLOAD_FIRMWARE; m] ++ [c]).
  assert (pre ++ ([HPMFWUPG_ACTION_UPLOAD_FIRMWARE; m] ++ [c] ++ h ++ fw) ++ post =
    (pre ++ t) ++ h ++ fw ++ post) as ->.
  { unfold t. rewrite <- !app_assoc. done. }
  assert (zlen (pre ++ t) = zlen pre + 3) as Ht by (rewrite zlen_app; done).
  unfold firmware_at, sizeof_action_record, sizeof_firmware_image. split.
  - rewrite slx_mid by lia. cbn [mbind res_bind]. f_equal. f_equal; [| | lia].
    + exact (slice_app_mid [] v _ 0 6 eq_refl (eq_sym Hv)).
    + assert (h = (v ++ dsc) ++ htoipmi32 (zlen fw) ++ []) as -> by (unfold h; by rewrite app_nil_r, app_assoc).
      rewrite slice_app_mid; [| rewrite zlen_app, Hv, Hd; done | done].
      rewrite <- (app_nil_r (htoipmi32 _)). by apply ipmi32toh_htoipmi32.
  - rewrite app_assoc. apply slice_app_mid; [| done]. rewrite zlen_app, Ht, Hh. lia.
Qed.

Lemma zlen_encode a : wf_action a ->
  zlen (encode a) = match a with Upload _ _ _ _ fw => 34 + zlen fw | _ => 3 end.
Proof.
  intros H. destruct a as [m|m|full m v dsc fw]; [done | done |]. destruct H as (_ & Hv & Hd & _).
  cbn [encode]. rewrite !zlen_app, Hv, Hd. change (zlen (htoipmi32 _)) with 4. change (zlen [_; _]) with 2.
  change (zlen [_]) with 1. unfold HPMFWUPG_DESCRIPTION_LENGTH. lia.
Qed.

Definition records (acts : list action) : list Z := concat (map encode acts).

Lemma records_cons pre a acts post :
  pre ++ records (a :: acts) ++ post = pre ++ encode a ++ records acts ++ post /\
  pre ++ records (a :: acts) ++ post = (pre ++ encode a) ++ records acts ++ post.
Proof. unfold records. cbn [map concat]. by rewrite <- !app_assoc. Qed.

Lemma encode_pos a : wf_action a -> 3 <= zlen (encode a).
Proof.
  intros H. rewrite zlen_encode by done. destruct a as [m|m|full m v dsc fw]; [done | done |].
  pose proof (zlen_nonneg fw). lia.
Qed.

(** The end of the records is seen as such. *)
Lemma at_record pre acts sig : Forall wf_action acts -> zlen sig = HPMFWUPG_MD5_SIGNATURE_LENGTH ->
  (zlen pre <? records_end (pre ++ records acts ++ sig)) = negb (bool_decide (acts = [])).
Proof.
  intros Hwf Hs. unfold records_end. rewrite !zlen_app, Hs. destruct acts as [|a acts].
  - change (zlen (records [])) with 0. rewrite bool_decide_true by done.
    rewrite (proj2 (Z.ltb_ge _ _)) by lia. done.
  - apply Forall_cons in Hwf as [Ha _]. pose proof (encode_pos a Ha).
    unfold records. cbn [map concat]. rewrite zlen_app. pose proof (zlen_nonneg (concat (map encode acts))).
    rewrite bool_decide_false by done. rewrite (proj2 (Z.ltb_lt _ _)) by lia. done.
Qed.

Lemma max_request_u16 i : 0 <= ipmi_intf_get_max_request_data_size i < 65536.
Proof. unfold ipmi_intf_get_max_request_data_size. case_match; [lia | apply u16_range]. Qed.

(** ** Commands that are answered at once *)

(** What the commands leave alone. *)
Definition kept {dev} (s s' : hpm dev) : Prop :=
  gVersionInfo s' = gVersionInfo s /\ h_input s' = h_input s.

#[export] Instance kept_preorder {dev} : PreOrder (@kept dev).
Proof.
  split; [done |]. intros a b c [H1 H2] [H3 H4]. split; congruence.
Qed.

(** A completion code that ends the loop of [HpmfwupgSendCmd]. *)
Definition final_code (cc : Z) : bool :=
  negb ((cc =? 0xff) || (cc =? 0xc3) || (cc =? 0xd3) || (cc =? 0xc0)).

Section Commands.
Context {dev : Type} {bmc : Bmc dev} {reo : Reopen dev} {clk : Clock} {stk : Stack}.
Context (fuel : nat) (intf : hpm_intf).
Hypothesis Hfuel : fuel <> O.

(** The answer of the device is the result of the command. *)
Lemma send_run req ctx s r d' :
  bmc_answer req (h_dev s) = (Some r, d') -> final_code (ccode r) = true ->
  exists s', HpmfwupgSendCmd fuel intf req ctx s = Ok (Some r, s') /\ h_dev s' = d' /\ kept s s'.
Proof.
  intros E Hc. unfold final_code in Hc. apply negb_true_iff in Hc. bool_hyps.
  unfold HpmfwupgSendCmd. destruct fuel as [|n]; [done |].
  assert (forall (it ut t1 : Z) (s1 : hpm dev), h_dev s1 = h_dev s -> kept s s1 ->
    exists s', send_cmd_loop (S n) intf (S n) req it ut t1 0 0 s1 = Ok (Some r, s') /\ h_dev s' = d' /\ kept s s') as K.
  { intros it ut t1 s1 E1 K1. cbn [send_cmd_loop]. unfold mbind at 1, M_bind at 1.
    unfold sendrecv, bmc_answer at 1, hpm_bmc. rewrite E1, E.
    unfold mbind, M_bind, mret, M_ret. rewrite !(proj2 (Z.eqb_neq _ _)) by done. cbn [orb].
    unfold modify. eexists. split; [reflexivity |]. split; [done |]. exact K1. }
  destruct ctx as [c|]; cbv zeta iota; unfold mbind, M_bind, hpm_time at 1; apply K; done.
Qed.

(** A command without a wait. *)
Lemma simple_run req ctx s r d' :
  bmc_answer req (h_dev s) = (Some r, d') -> ccode r = 0 ->
  exists s', simple_cmd fuel intf req ctx s = Ok (Some r, s') /\ h_dev s' = d' /\ kept s s'.
Proof.
  intros E Hc. destruct (send_run req ctx s r d' E) as (s' & E' & Hs); [by rewrite Hc |].
  exists s'. split; [| done]. unfold simple_cmd. rewrite (M_bind_run _ _ _ _ _ E'), Hc. done.
Qed.

Lemma long_run req ctx s r d' :
  bmc_answer req (h_dev s) = (Some r, d') -> ccode r = 0 ->
  exists s', long_cmd fuel intf req ctx s = Ok (HPMFWUPG_SUCCESS, s') /\ h_dev s' = d' /\ kept s s'.
Proof.
  intros E Hc. destruct (send_run req ctx s r d' E) as (s' & E' & Hs); [by rewrite Hc |].
  exists s'. split; [| done]. unfold long_cmd. rewrite (M_bind_run _ _ _ _ _ E'), Hc. done.
Qed.
End Commands.

(** ** A device that receives firmware

    [stage] is the number of the next block and the bytes received since the
    upload was initiated, [installed] the finished uploads; a block of more
    than [room] bytes is refused for its length. *)
Class HpmReceiver {dev : Type} {bmc : Bmc dev} (stage : dev -> option (Z * list Z))
    (installed : dev -> list (Z * list Z)) (room : Z) := {
  hpm_room : 1 <= room;
  hpm_initiate : forall d mask act, exists r d',
    bmc_answer (picmg_rq HPMFWUPG_INITIATE_UPGRADE_ACTION [mask; act]) d = (Some r, d') /\ ccode r = 0 /\
    installed d' = installed d /\ (act = HPMFWUPG_UPGRADE_ACTION_UPGRADE -> stage d' = Some (0, []));
  hpm_upload : forall d n got data, stage d = Some (n, got) -> exists r d',
    bmc_answer (picmg_rq HPMFWUPG_UPLOAD_FIRMWARE_BLOCK (n :: data)) d = (Some r, d') /\
    9 <= zlen (rs_data r) /\ rs_data_len r <= 1 /\ installed d' = installed d /\
    (zlen data <= room /\ ccode r = 0 /\ stage d' = Some (u8 (n + 1), got ++ data) \/
     room < zlen data /\ (ccode r = IPMI_CC_REQ_DATA_INV_LENGTH \/ ccode r = IPMI_CC_REQ_DATA_FIELD_EXCEED) /\
     stage d' = stage d);
  hpm_finish : forall d n got id, stage d = Some (n, got) -> exists r d',
    bmc_answer (picmg_rq HPMFWUPG_FINISH_FIRMWARE_UPLOAD (id :: htoipmi32 (zlen got))) d = (Some r, d') /\
    ccode r = 0 /\ installed d' = installed d ++ [(id, got)];
}.

Section Receive.
Context {dev : Type} {bmc : Bmc dev} {reo : Reopen dev} {clk : Clock} {stk : Stack} {mal : Malloc}.
Context (stage : dev -> option (Z * list Z)) (installed : dev -> list (Z * list Z)) (room : Z).
Context {rcv : HpmReceiver stage installed room}.
Context (fuel : nat) (intf : hpm_intf).
Hypothesis Hfuel : fuel <> O.

(** A block is accepted, or it is refused for its length. *)
Lemma block_run n got data c s : stage (h_dev s) = Some (n, got) -> exists rc s',
  HpmfwupgUploadFirmwareBlock fuel intf n data c s = Ok (rc, 0, 0, s') /\ kept s s' /\
  installed (h_dev s') = installed (h_dev s) /\
  (rc = HPMFWUPG_SUCCESS /\ zlen data <= room /\ stage (h_dev s') = Some (u8 (n + 1), got ++ data) \/
   rc = HPMFWUPG_UPLOAD_BLOCK_LENGTH /\ room < zlen data /\ stage (h_dev s') = Some (n, got)).
Proof.
  intros Hs. destruct (hpm_upload (h_dev s) n got data Hs) as (r & d' & E & Hz & Hl & Hi & Hr).
  assert (final_code (ccode r) = true) as Hf by (destruct Hr as [(_ & -> & _)|(_ & [-> | ->] & _)]; done).
  destruct (send_run fuel intf Hfuel _ (Some c) s r d' E Hf) as (s' & E' & Hd & Hk).
  unfold HpmfwupgUploadFirmwareBlock. rewrite (M_bind_run _ _ _ _ _ E').
  rewrite (rsp_bytes_ok r 0 9) by lia. rewrite lift_Ok_bind, (proj2 (Z.ltb_ge 1 (rs_data_len r))) by lia.
  rewrite andb_false_r. cbn [andb].
  exists (if ccode r =? 0 then HPMFWUPG_SUCCESS else HPMFWUPG_UPLOAD_BLOCK_LENGTH), s'. rewrite Hd.
  destruct Hr as [(Hz' & -> & Hs')|(Hz' & Hc & Hs')].
  - split_and!; [done | done | done | by left].
  - split; [by destruct Hc as [-> | ->] |]. split_and!; [done | done |]. right.
    split; [by destruct Hc as [-> | ->] | by rewrite Hs'].
Qed.

(** The state of the loop when [sent] bytes of the firmware were accepted. *)
Definition upload_at (initial len sent bl blk : Z) (set : bool) : upload :=
  mk_upload (initial + sent) initial len bl set sent blk HPMFWUPG_SUCCESS.

(** The whole firmware arrives: the length left plus the block length bounds
    the rounds. *)
Lemma upload_loop_run image initial fw c : slice image initial (zlen fw) = fw -> 0 <= initial ->
  initial + zlen fw <= zlen image -> is_u32 (zlen fw) ->
  forall n sent bl blk set s,
  0 <= sent <= zlen fw -> 1 <= bl < 65536 -> (set = true -> bl <= room \/ sent = zlen fw) ->
  stage (h_dev s) = Some (blk, slice fw 0 sent) -> (Z.to_nat (zlen fw - sent + bl) < n)%nat ->
  exists u s', upload_loop fuel intf n image initial (zlen fw) c (upload_at initial (zlen fw) sent bl blk set) s =
      Ok (u, s') /\
    u_rc u = HPMFWUPG_SUCCESS /\ u_totalSent u = zlen fw /\ kept s s' /\
    installed (h_dev s') = installed (h_dev s) /\ exists blk', stage (h_dev s') = Some (blk', fw).
Proof.
  intros Hfw Hi0 Hin Hlen n. induction n as [|n IH]; intros sent bl blk set s Hsent Hbl Hset Hstage Hn; [lia |].
  cbn [upload_loop]. unfold upload_at at 1 2 3 4. cbn [u_data u_base u_sect u_rc].
  change (HPMFWUPG_SUCCESS =? HPMFWUPG_SUCCESS) with true. rewrite andb_true_r.
  destruct (Z.ltb_spec (initial + sent) (initial + zlen fw)) as [Hlt|Hge].
  2: { eexists _, s. split; [reflexivity |]. cbn [u_rc u_totalSent upload_at]. assert (sent = zlen fw) as -> by lia.
    split_and!; try done. exists blk. by rewrite slice_all in Hstage by done. }
  set (count := Z.min bl (zlen fw - sent)).
  set (data := slice fw sent count).
  assert (zlen data = count) as Hzd by (unfold data; rewrite zlen_slice; lia).
  destruct (block_run blk _ data c s Hstage) as (rc & s1 & E & Hk & Hi & Hr).
  assert (exists u s2, upload_step fuel intf image initial (zlen fw) c (upload_at initial (zlen fw) sent bl blk set) s =
      Ok (u, s2) /\ kept s1 s2 /\ h_dev s2 = h_dev s1 /\
      u = if rc =? HPMFWUPG_SUCCESS then block_accepted initial (zlen fw) count 0 0
            (upload_at initial (zlen fw) sent bl blk set)
          else block_refused intf rc (upload_at initial (zlen fw) sent bl blk set)) as (u & s2 & Es & Hk2 & Hd2 & Hu).
  { unfold upload_step. cbn [u_base u_sect u_data u_bufLength u_block upload_at].
    replace (if _ <=? _ then bl else _) with count.
    2: { unfold count. case_test; [lia |]. unfold u16. rewrite Z.mod_small; lia. }
    replace (slx image (initial + sent) count) with (@Ok (list Z) data).
    2: { rewrite slx_ok by lia. f_equal. unfold data. rewrite <- Hfw, slice_slice by lia. done. }
    rewrite lift_Ok_bind, (M_bind_run _ _ _ _ _ E).
    destruct (rc =? HPMFWUPG_SUCCESS); [| by eexists _, s1].
    unfold mbind, M_bind, hpm_time. destruct (u_rc _ =? _); by eexists _, _. }
  rewrite (M_bind_run _ _ _ _ _ Es). rewrite <- Hd2 in *. subst u.
  destruct Hr as [(-> & Hz & Hst)|(-> & Hz & Hst)].
  - change (HPMFWUPG_SUCCESS =? HPMFWUPG_SUCCESS) with true. cbv match.
    unfold block_accepted. change (u32 (0 + 0)) with 0. change (0 <? 0) with false.
    rewrite (proj2 (Z.ltb_ge (zlen fw) 0)) by lia. change (0 =? 0) with true. cbn [orb negb]. cbv match.
    destruct (IH (sent + count) bl (u8 (blk + 1)) true s2) as (u & s' & E' & H1 & H2 & H3 & H4 & H5); try lia.
    + rewrite Hst. unfold data. by rewrite slice_cat by lia.
    + exists u, s'. split; [| split_and!; try done; [| congruence]; by do 2 (etransitivity; [eassumption |])].
      rewrite <- E'. f_equal. unfold upload_at. cbn. rewrite u32_small by (unfold is_u32 in *; lia).
      by rewrite Z.add_assoc.
  - change (HPMFWUPG_UPLOAD_BLOCK_LENGTH =? HPMFWUPG_SUCCESS) with false. cbv match.
    unfold block_refused. change (HPMFWUPG_UPLOAD_BLOCK_LENGTH =? HPMFWUPG_UPLOAD_BLOCK_LENGTH) with true.
    pose proof hpm_room as Hroom. cbn [u_isSet u_bufLength upload_at].
    destruct set; [specialize (Hset eq_refl); lia |]. cbn [andb negb].
    set (bl' := if hi_lan intf && (8 <? bl) then bl - 8 else bl - 1).
    assert (1 <= bl' < bl) as Hbl'.
    { unfold bl'. destruct (hi_lan intf); cbn [andb]; [case_test; lia | lia]. }
    destruct (IH sent bl' blk false s2) as (u & s' & E' & H1 & H2 & H3 & H4 & H5); try lia; try done.
    exists u, s'. split; [| split_and!; try done; [| congruence]; by do 2 (etransitivity; [eassumption |])].
    rewrite <- E'. f_equal. unfold bl'. destruct (hi_lan intf && (8 <? bl)); [done |].
    rewrite (proj2 (Z.eqb_neq bl 0)) by lia. done.
Qed.

(** The limits that the interface and the fuel have to meet. *)
Definition room_for (a : action) : Prop :=
  match a with
  | Upload _ _ _ _ fw =>
      (Z.to_nat (zlen fw + ipmi_intf_get_max_request_data_size (hi_addr intf)) < fuel)%nat
  | _ => True
  end.

Hypothesis Hreq : 2 < ipmi_intf_get_max_request_data_size (hi_addr intf).
Hypothesis Hmal : is_Some (malloc (ipmi_intf_get_max_request_data_size (hi_addr intf))).

(** What a list of records installs with the update mask [um]. *)
Definition installs (um : Z) (a : action) : list (Z * list Z) :=
  match a with
  | Upload _ mask _ _ fw =>
      let id := mask_component 8 mask 0 in if bit id um then [(id, fw)] else []
  | _ => []
  end.

Lemma upload_action_run pre full m v dsc fw post off option c s :
  let a := Upload full m v dsc fw in
  wf_action a -> room_for a -> off = zlen pre -> has option COMPARE_MODE = false ->
  exists s', HpmFwupgActionUploadFirmware fuel intf (pre ++ encode a ++ post) off m option c s =
      Ok (HPMFWUPG_SUCCESS, off + zlen (encode a), c <| componentId := mask_component 8 m 0 |>, s') /\
    kept s s' /\ installed (h_dev s') = installed (h_dev s) ++ installs (compUpdateMask c) a.
Proof.
  intros a Hwf Hroom Hoff Hopt. pose proof (zlen_nonneg pre). pose proof (zlen_nonneg fw).
  destruct (firmware_of pre full m v dsc fw post off Hwf Hoff) as [Ef Es]. fold a in Ef, Es.
  pose proof (zlen_encode a Hwf) as Hz. change (zlen (encode a) = 34 + zlen fw) in Hz. unfold HpmFwupgActionUploadFirmware.
  rewrite (proj2 (Z.leb_gt _ sizeof_upload_req)) by exact Hreq. rewrite Ef, lift_Ok_bind.
  cbn [fw_length installs a]. set (id := mask_component 8 m 0).
  change (compUpdateMask (c <| componentId := id |>)) with (compUpdateMask c).
  assert (off + sizeof_action_record + sizeof_firmware_image = off + 34) as -> by (unfold sizeof_action_record, sizeof_firmware_image; lia).
  destruct (bit id (compUpdateMask c)); cbn [negb].
  2: { exists s. rewrite app_nil_r. split_and!; [| done | done]. rewrite Hz, Z.add_assoc. done. }
  rewrite bool_decide_true by done. cbn [negb]. rewrite Hopt. set (c1 := c <| componentId := id |>).
  destruct (hpm_initiate (h_dev s) m HPMFWUPG_UPGRADE_ACTION_UPGRADE) as (r & d1 & E1 & Hc1 & Hi1 & Hs1).
  destruct (long_run fuel intf Hfuel _ (Some c1) s r d1 E1 Hc1) as (s1 & E1' & Hd1 & Hk1).
  unfold HpmfwupgInitiateUpgradeAction. rewrite (M_bind_run _ _ _ _ _ E1').
  set (s2 := s1 <| h_tick := S (h_tick s1) |>).
  rewrite (M_bind_run hpm_time _ s1 (u32 (clock (h_tick s1))) s2) by done. change (HPMFWUPG_SUCCESS =? HPMFWUPG_SUCCESS) with true. cbn [negb].
  assert (zlen (pre ++ encode a ++ post) >= off + 34 + zlen fw) as Hin.
  { pose proof (zlen_nonneg post). rewrite !zlen_app, Hz. lia. }
  pose proof (max_request_u16 (hi_addr intf)) as Hm.
  set (m0 := ipmi_intf_get_max_request_data_size (hi_addr intf)) in *.
  destruct (upload_loop_run (pre ++ encode a ++ post) (off + 34) fw c1 Es ltac:(lia) ltac:(lia) (proj2 (proj2 (proj2 Hwf))) fuel
    0 (m0 - sizeof_upload_req) 0 false s2) as (u & s3 & E3 & Hrc & Ht & Hk3 & Hi3 & blk & Hst3).
  1: lia.
  1: unfold sizeof_upload_req; lia.
  1: discriminate.
  1: subst s2; cbn [h_dev]; change (stage (h_dev s1) = Some (0, [])); rewrite Hd1; by apply Hs1.
  1: cbn [room_for a] in Hroom; unfold sizeof_upload_req; fold m0 in Hroom; lia.
  unfold upload_at in E3. rewrite Z.add_0_r in E3. rewrite (M_bind_run _ _ _ _ _ E3), Hrc.
  change (HPMFWUPG_SUCCESS =? HPMFWUPG_SUCCESS) with true. cbn [negb].
  destruct (hpm_finish (h_dev s3) blk fw id Hst3) as (r4 & d4 & E4 & Hc4 & Hi4).
  assert (final_code (ccode r4) = true) as Hf4 by (by rewrite Hc4).
  destruct (send_run fuel intf Hfuel _ (Some c1) s3 r4 d4 E4 Hf4) as (s4 & E4' & Hd4 & Hk4).
  assert (HpmfwupgFinishFirmwareUpload fuel intf id (u_totalSent u) c1 false s3 = Ok (HPMFWUPG_SUCCESS, s4)) as E5.
  { unfold HpmfwupgFinishFirmwareUpload. rewrite Ht, (M_bind_run _ _ _ _ _ E4'), Hc4. done. }
  rewrite (M_bind_run _ _ _ _ _ E5).
  exists s4. split; [| split].
  - rewrite Hz, Z.add_assoc. done.
  - etransitivity; [exact Hk1 |]. etransitivity; [| exact Hk4]. etransitivity; [| exact Hk3]. done.
  - rewrite Hd4, Hi4, Hi3. change (h_dev s2) with (h_dev s1). rewrite Hd1, Hi1. done.
Qed.

(** A backup or prepare record. *)
Lemma initiate_selected_run mask act option c s : exists s',
  initiate_selected fuel intf mask act option c s = Ok (HPMFWUPG_SUCCESS, s') /\ kept s s' /\
  installed (h_dev s') = installed (h_dev s).
Proof.
  unfold initiate_selected. case_match; [| by exists s].
  destruct (hpm_initiate (h_dev s) (compUpdateMask c .& mask) act) as (r & d1 & E1 & Hc1 & Hi1 & _).
  destruct (long_run fuel intf Hfuel _ (Some c) s r d1 E1 Hc1) as (s1 & E1' & Hd1 & Hk1).
  exists s1. split_and!; [exact E1' | done | by rewrite Hd1].
Qed.

(** The upgrade stage does the records in order. *)
Lemma upgrade_loop_run option sig acts : has option COMPARE_MODE = false ->
  zlen sig = HPMFWUPG_MD5_SIGNATURE_LENGTH -> Forall wf_action acts -> Forall room_for acts ->
  forall n pre c s, (length acts < n)%nat ->
  exists k s', upgrade_loop fuel intf n (pre ++ records acts ++ sig) (zlen pre) option HPMFWUPG_SUCCESS c s =
      Ok (HPMFWUPG_SUCCESS, c <| componentId := k |>, s') /\
    kept s s' /\ installed (h_dev s') = installed (h_dev s) ++ flat_map (installs (compUpdateMask c)) acts.
Proof.
  intros Hopt Hsig Hwf Hroom. induction acts as [|a acts IH]; intros n pre c s Hn; (destruct n as [|n]; [cbn in Hn; lia |]);
    cbn [upgrade_loop]; rewrite at_record by done.
  - exists (componentId c), s. split; [by destruct c |]. split; [done | by rewrite app_nil_r].
  - rewrite bool_decide_false by done. change (negb false && (HPMFWUPG_SUCCESS =? HPMFWUPG_SUCCESS)) with true. cbn [negb].
    apply Forall_cons in Hwf as [Ha Hwf]. apply Forall_cons in Hroom as [Hra Hroom].
    specialize (IH Hwf Hroom). cbn [length] in Hn.
    destruct (records_cons pre a acts sig) as [E1 E2].
    destruct (record_at pre a (records acts ++ sig) (zlen pre) Ha eq_refl) as (Hv & Ht & Hm).
    rewrite <- E1 in Hv, Ht, Hm. rewrite Hv, lift_Ok_bind, Ht, Hm.
    change (HPMFWUPG_SUCCESS =? HPMFWUPG_SUCCESS) with true. cbn [negb].
    pose proof (zlen_encode a Ha) as Hz.
    assert (zlen (pre ++ encode a) = zlen pre + zlen (encode a)) as Hpre by apply zlen_app.
    destruct a as [m|m|full m v dsc fw]; cbn [act_type act_mask].
    1: destruct (initiate_selected_run m HPMFWUPG_UPGRADE_ACTION_BACKUP option c s) as (s1 & E & Hk1 & Hi1).
    2: destruct (initiate_selected_run m HPMFWUPG_UPGRADE_ACTION_PREPARE option c s) as (s1 & E & Hk1 & Hi1).
    1: destruct (IH n (pre ++ encode (Backup m)) c s1 ltac:(lia)) as (k & s' & E' & Hk & Hi).
    2: destruct (IH n (pre ++ encode (Prepare m)) c s1 ltac:(lia)) as (k & s' & E' & Hk & Hi).
    1, 2: rewrite Hpre, Hz, <- E2 in E'; exists k, s'; split;
      [refine (eq_trans (M_bind_run _ _ _ _ _ E) E') |]; split; [by etransitivity |]; by rewrite Hi, Hi1.
    destruct (upload_action_run pre full m v dsc fw (records acts ++ sig) (zlen pre) option c s Ha Hra eq_refl Hopt)
      as (s1 & E & Hk1 & Hi1).
    rewrite <- E1 in E. set (c1 := c <| componentId := mask_component 8 m 0 |>) in E.
    destruct (IH n (pre ++ encode (Upload full m v dsc fw)) c1 s1 ltac:(lia)) as (k & s' & E' & Hk & Hi).
    rewrite Hpre, <- E2 in E'. exists k, s'. split; [| split].
    + change (HPMFWUPG_ACTION_UPLOAD_FIRMWARE =? HPMFWUPG_ACTION_BACKUP_COMPONENTS) with false.
      change (HPMFWUPG_ACTION_UPLOAD_FIRMWARE =? HPMFWUPG_ACTION_PREPARE_COMPONENTS) with false.
      change (HPMFWUPG_ACTION_UPLOAD_FIRMWARE =? HPMFWUPG_ACTION_UPLOAD_FIRMWARE) with true. cbv match.
      rewrite (M_bind_run _ _ _ _ _ E). exact E'.
    + by etransitivity.
    + rewrite Hi, Hi1. cbn [flat_map]. by rewrite app_assoc.
Qed.
End Receive.

(** ** The check before the upgrade *)

(** A version that differs from the active one, and from the one to roll back
    to when there is one. *)
Definition needs_upgrade (v : version_info) (version : list Z) : bool :=
  negb (bool_decide (version = vi_target v)) ||
  negb (rollbackSupported v =? 0) && negb (bool_decide (version = vi_rollback v)).

(** The upload record [a] is to be done. *)
Definition chosen (vs : list version_info) (componentMask option : Z) (a : action) : bool :=
  match a with
  | Upload _ mask version _ _ =>
      match vs !! Z.to_nat (mask_component 8 mask 0) with
      | Some v =>
          ((componentMask =? 0) || negb (componentMask .& mask =? 0)) &&
          (has option (FORCE_MODE .| COMPARE_MODE) || needs_upgrade v version)
      | None => false
      end
  | _ => false
  end.

(** The components to upgrade, as a mask. *)
Definition update_mask (vs : list version_info) (componentMask option : Z) (acts : list action) (um : Z) : Z :=
  fold_left (fun um a => if chosen vs componentMask option a then um .| (1 .<< mask_component 8 (act_mask a) 0) else um)
    acts um.

(** The components of a record can do what it asks for. *)
Definition supported (present : Z) (props : list Z) (a : action) : bool :=
  ((act_mask a =? 0) || negb (present =? 0)) &&
  match a with
  | Backup mask => negb (unsupported mask props (fun p => negb (rollbackBackup p =? 0)))
  | Prepare mask => negb (unsupported mask props preparationSupport)
  | Upload _ _ _ _ _ => true
  end.

(** The check changes the version of the image only. *)
Definition same_target (v w : version_info) : Prop :=
  vi_target v = vi_target w /\ vi_rollback v = vi_rollback w /\ rollbackSupported v = rollbackSupported w.

Lemma mask_component_range mask : is_u8 mask -> 0 <= mask_component 8 mask 0 < 8.
Proof.
  intros H. cut ((0 <=? mask_component 8 mask 0) && (mask_component 8 mask 0 <? 8) = true); [intros E; bool_hyps; lia |].
  revert H. apply (all_u8_spec (fun mask => (0 <=? mask_component 8 mask 0) && (mask_component 8 mask 0 <? 8))).
  vm_compute. reflexivity.
Qed.

Section Precheck.
Context {dev : Type}.

Lemma precheck_upload_run pre full m v dsc fw post componentMask option c (s : hpm dev) vs :
  let a := Upload full m v dsc fw in
  wf_action a -> length vs = 8%nat -> Forall2 same_target (gVersionInfo s) vs ->
  exists s', precheck_upload (pre ++ encode a ++ post) (zlen pre) m componentMask option c s =
      Ok (zlen pre + zlen (encode a), c <| compUpdateMask := update_mask vs componentMask option [a] (compUpdateMask c) |>, s') /\
    h_dev s' = h_dev s /\ h_input s' = h_input s /\ Forall2 same_target (gVersionInfo s') vs.
Proof.
  intros a Hwf Hvs Hst. unfold precheck_upload.
  destruct (firmware_of pre full m v dsc fw post (zlen pre) Hwf eq_refl) as [Ef _]. fold a in Ef.
  rewrite Ef, lift_Ok_bind. pose proof (mask_component_range m (proj1 Hwf)) as Hid.
  pose proof (zlen_encode a Hwf) as Hz. change (zlen (encode a) = 34 + zlen fw) in Hz.
  set (id := Z.to_nat (mask_component 8 m 0)) in *. cbn [fw_version fw_data fw_length].
  pose proof (Forall2_length _ _ _ Hst) as Hl.
  destruct (lookup_lt_is_Some_2 (gVersionInfo s) id ltac:(lia)) as [w Hw].
  destruct (Forall2_lookup_l _ _ _ _ _ Hst Hw) as (w' & Hw' & T1 & T2 & T3).
  set (vs1 := alter (fun x => x <| vi_image := v |>) id (gVersionInfo s)).
  set (s1 := s <| gVersionInfo := vs1 |>).
  rewrite (M_bind_run (modify _) _ s tt s1) by done. rewrite (M_bind_run get _ s1 s1 s1) by done.
  assert (gVersionInfo s1 !! id = Some (w <| vi_image := v |>)) as ->.
  { change (vs1 !! id = Some (w <| vi_image := v |>)). unfold vs1. by rewrite list_lookup_alter_eq, Hw. }
  rewrite lift_Some_bind. exists s1. split_and!; [| done | done |].
  - unfold mret, M_ret. rewrite Hz, Z.add_assoc. do 3 f_equal. unfold update_mask, chosen. cbn [fold_left a act_mask].
    fold id. rewrite Hw'. set (in_mask := (componentMask =? 0) || _).
    assert (image_version_upgradable (w <| vi_image := v |>) = needs_upgrade w' v) as ->.
    { unfold image_version_upgradable, needs_upgrade. cbn. rewrite T1, T2, T3.
      destruct (bool_decide (v = vi_target w')), (rollbackSupported w' =? 0); done. }
    destruct in_mask, (has option (FORCE_MODE .| COMPARE_MODE)); cbn [negb andb orb].
    all: try destruct (needs_upgrade w' v); try done; by destruct c.
  - change (Forall2 same_target vs1 vs). unfold vs1. apply Forall2_alter_l; [done |].
    intros x y Hx Hy Hxy. exact Hxy.
Qed.

Lemma precheck_run componentMask option sig vs acts : length vs = 8%nat ->
  zlen sig = HPMFWUPG_MD5_SIGNATURE_LENGTH -> Forall wf_action acts ->
  forall n pre c (s : hpm dev), (length acts < n)%nat -> Forall2 same_target (gVersionInfo s) vs ->
  Forall (fun a => supported (componentsPresent (targetCap c)) (genCompProp c) a = true) acts ->
  exists s', precheck_loop n (pre ++ records acts ++ sig) (zlen pre) componentMask option c s =
      Ok (HPMFWUPG_SUCCESS, c <| compUpdateMask := update_mask vs componentMask option acts (compUpdateMask c) |>, s') /\
    h_dev s' = h_dev s /\ h_input s' = h_input s.
Proof.
  intros Hvs Hsig Hwf. induction acts as [|a acts IH]; intros n pre c s Hn Hst Hsup; (destruct n as [|n]; [cbn in Hn; lia |]);
    cbn [precheck_loop]; rewrite at_record by done.
  - exists s. split; [by destruct c | done].
  - rewrite bool_decide_false by done. cbn [negb].
    apply Forall_cons in Hwf as [Ha Hwf]. apply Forall_cons in Hsup as [Hsa Hsup].
    specialize (IH Hwf). cbn [length] in Hn.
    destruct (records_cons pre a acts sig) as [E1 E2].
    destruct (record_at pre a (records acts ++ sig) (zlen pre) Ha eq_refl) as (Hv & Ht & Hm).
    rewrite <- E1 in Hv, Ht, Hm. rewrite Hv, lift_Ok_bind, Ht, Hm.
    change (HPMFWUPG_SUCCESS =? HPMFWUPG_SUCCESS) with true. cbn [negb].
    unfold supported in Hsa. bool_hyps. replace (negb (act_mask a =? 0) && _) with false.
    2: { by destruct (act_mask a =? 0), (componentsPresent (targetCap c) =? 0). }
    pose proof (zlen_encode a Ha) as Hz.
    assert (zlen (pre ++ encode a) = zlen pre + zlen (encode a)) as Hpre by apply zlen_app.
    destruct a as [m|m|full m v dsc fw]; cbn [act_type act_mask]; bool_hyps.
    + destruct (IH n (pre ++ encode (Backup m)) c s ltac:(lia) Hst Hsup) as (s' & E & Hs).
      rewrite Hpre, Hz, <- E2 in E. exists s'. split; [| done]. rewrite H0. exact E.
    + destruct (IH n (pre ++ encode (Prepare m)) c s ltac:(lia) Hst Hsup) as (s' & E & Hs).
      rewrite Hpre, Hz, <- E2 in E. exists s'. split; [| done]. rewrite H0. exact E.
    + destruct (precheck_upload_run pre full m v dsc fw (records acts ++ sig) componentMask option c s vs Ha Hvs Hst)
        as (s1 & E & Hd & Hin & Hst1). rewrite <- E1 in E.
      set (c1 := c <| compUpdateMask := _ |>) in E.
      destruct (IH n (pre ++ encode (Upload full m v dsc fw)) c1 s1 ltac:(lia) Hst1 Hsup) as (s' & E' & Hd' & Hin').
      rewrite Hpre, <- E2 in E'. exists s'. split; [| split; congruence].
      refine (eq_trans (M_bind_run _ _ _ _ _ E) _). exact E'.
Qed.
End Precheck.

(** ** The file *)

(** The part of the file that the digest covers. *)
Definition image_body (hdr oem : list Z) (acts : list action) : list Z :=
  (hdr ++ oem ++ [ipmi_csum (hdr ++ oem)]) ++ records acts.

Definition hpm_file (hdr oem : list Z) (acts : list action) : list Z :=
  image_body hdr oem acts ++ rfc_md5 (image_body hdr oem acts).

Definition wf_header (hdr oem : list Z) : Prop :=
  zlen hdr = sizeof_image_header /\ im_signature hdr = HPMFWUPG_IMAGE_SIGNATURE /\
  im_formatVersion hdr = HPMFWUPG_IMAGE_HEADER_VERSION /\ im_oemDataLength hdr = zlen oem.

Lemma zlen_rfc_md5 m : zlen (rfc_md5 m) = HPMFWUPG_MD5_SIGNATURE_LENGTH.
Proof. unfold rfc_md5, md5_digest. by destruct (fst _) as [[[a b] c] d]. Qed.

(** The validation of any file as large as the digest: only the right digest
    gets past the first test. *)
Lemma validate_digest body sig : zlen body < 2 ^ 28 -> zlen sig = HPMFWUPG_MD5_SIGNATURE_LENGTH ->
  HpmfwupgValidateImageIntegrity (body ++ sig) =
  if bool_decide (rfc_md5 body = sig) then
    if negb (bool_decide (im_signature (body ++ sig) = HPMFWUPG_IMAGE_SIGNATURE)) then Ok HPMFWUPG_ERROR else
    version ← rdx (body ++ sig) 8;
    if negb (version =? HPMFWUPG_IMAGE_HEADER_VERSION) then Ok HPMFWUPG_ERROR else
    oem ← slx (body ++ sig) 32 2;
    sum ← checksum_at (body ++ sig) 0 (sizeof_image_header + ipmi16toh oem + 1);
    if negb (sum =? 0) then Ok HPMFWUPG_ERROR else Ok HPMFWUPG_SUCCESS
  else Ok HPMFWUPG_ERROR.
Proof.
  intros Hb Hs. change (2 ^ 28) with 268435456 in Hb. pose proof (zlen_nonneg body).
  pose proof (zlen_nonneg sig).
  unfold HpmfwupgValidateImageIntegrity, HPMFWUPG_MD5_SIGNATURE_LENGTH in *. rewrite zlen_app, Hs.
  replace (zlen body + 16 - 16) with (zlen body) by lia.
  rewrite u32_small, s32_small by (unfold is_u32; lia).
  replace (if zlen body <=? 0 then Ok [] else slx (body ++ sig) 0 (zlen body)) with (@Ok (list Z) body).
  2: { case_test; [by rewrite (zlen_0_nil body) by lia |].
       symmetry. rewrite slx_ok by (rewrite ?zlen_app; lia). by rewrite slice_app_l, slice_all by lia. }
  cbn [mbind res_bind]. rewrite md5_run by (repeat constructor; exact Hb). cbn [mbind res_bind concat].
  rewrite app_nil_r. rewrite (slx_ok _ (zlen body) 16) by (rewrite ?zlen_app, ?Hs; lia). cbn [mbind res_bind].
  replace (slice (body ++ sig) (zlen body) 16) with sig.
  2: { rewrite slice_app_r, Z.sub_diag by lia. by rewrite slice_all by lia. }
  by destruct (bool_decide (rfc_md5 body = sig)).
Qed.

(** The fields of the header, read in the whole file. *)
Lemma header_slice hdr rest off n : zlen hdr = sizeof_image_header -> 0 <= off -> 0 <= n -> off + n <= sizeof_image_header ->
  slice (hdr ++ rest) off n = slice hdr off n.
Proof. intros Hz H0 H1 H2. apply slice_app_l; lia. Qed.

Lemma header_rd hdr rest i : zlen hdr = sizeof_image_header -> 0 <= i < sizeof_image_header ->
  rd (hdr ++ rest) i = rd hdr i.
Proof. intros Hz H. apply rd_app_l. lia. Qed.

Lemma file_header hdr oem acts : exists rest, hpm_file hdr oem acts = hdr ++ rest.
Proof. eexists. unfold hpm_file, image_body. rewrite <- !app_assoc. reflexivity. Qed.

Lemma file_records hdr oem acts : wf_header hdr oem -> exists pre,
  hpm_file hdr oem acts = pre ++ records acts ++ rfc_md5 (image_body hdr oem acts) /\
  zlen pre = first_record (hpm_file hdr oem acts).
Proof.
  intros (Hz & _ & _ & Ho). exists (hdr ++ oem ++ [ipmi_csum (hdr ++ oem)]).
  split; [unfold hpm_file, image_body; by rewrite <- !app_assoc |].
  unfold first_record, im_oemDataLength. destruct (file_header hdr oem acts) as [rest ->].
  rewrite header_slice by (unfold sizeof_image_header in *; lia).
  unfold im_oemDataLength in Ho. rewrite Ho, !zlen_app, Hz. change (zlen [_]) with 1. lia.
Qed.

Lemma validate_file hdr oem acts : wf_header hdr oem -> zlen (image_body hdr oem acts) < 2 ^ 28 ->
  HpmfwupgValidateImageIntegrity (hpm_file hdr oem acts) = Ok HPMFWUPG_SUCCESS.
Proof.
  intros (Hz & Hs & Hv & Ho) Hb. unfold hpm_file at 1. rewrite validate_digest by (done || apply zlen_rfc_md5).
  rewrite bool_decide_true by done. fold (hpm_file hdr oem acts).
  assert (hpm_file hdr oem acts = [] ++ (hdr ++ oem ++ [ipmi_csum (hdr ++ oem)]) ++
    records acts ++ rfc_md5 (image_body hdr oem acts)) as E.
  { unfold hpm_file, image_body. cbn [app]. by rewrite <- !app_assoc. }
  destruct (file_header hdr oem acts) as [rest Er]. unfold im_signature, im_formatVersion, im_oemDataLength in *.
  rewrite Er. pose proof (zlen_nonneg rest). unfold sizeof_image_header in *.
  rewrite header_slice, Hs, bool_decide_true by (done || lia). cbn [negb].
  rewrite rdx_ok by (rewrite zlen_app; lia). cbn [mbind res_bind].
  rewrite header_rd, Hv by (unfold sizeof_image_header; lia). cbn [negb Z.eqb HPMFWUPG_IMAGE_HEADER_VERSION].
  rewrite slx_ok by (rewrite ?zlen_app; lia). cbn [mbind res_bind].
  rewrite header_slice, Ho by (unfold sizeof_image_header; lia). unfold checksum_at. rewrite <- Er, E.
  rewrite slx_mid; [| done | rewrite !zlen_app, Hz; change (zlen [_]) with 1; lia].
  cbn [mbind res_bind]. rewrite app_assoc, checksum_zero. done.
Qed.

(** ** The target *)

(** A device with the identification [ids], the capabilities [caps] and the
    general properties [props] of its components. *)
Class HpmTarget {dev : Type} {bmc : Bmc dev} (installed : dev -> list (Z * list Z))
    (ids caps : list Z) (props : Z -> Z) := {
  target_ids_len : zlen ids = 15;
  target_caps_len : zlen caps = 8;
  target_id : forall d, exists r d',
    bmc_answer (mk_rq IPMI_NETFN_APP 0 BMC_GET_DEVICE_ID 0 []) d = (Some r, d') /\ ccode r = 0 /\
    carries r ids /\ installed d' = installed d;
  target_get_caps : forall d, exists r d',
    bmc_answer (picmg_rq HPMFWUPG_GET_TARGET_UPG_CAPABILITIES []) d = (Some r, d') /\ ccode r = 0 /\
    carries r caps /\ installed d' = installed d;
  target_props : forall d id, exists r d',
    bmc_answer (picmg_rq HPMFWUPG_GET_COMPONENT_PROPERTIES [id; HPMFWUPG_COMP_GEN_PROPERTIES]) d = (Some r, d') /\
    ccode r = 0 /\ carries r [0; props id] /\ installed d' = installed d;
}.

(** The capabilities as they are read. *)
Definition parse_caps (d : list Z) : target_caps := mk_caps (rd d 2) (rd d 3) (rd d 4) (rd d 5) (rd d 6) (rd d 7).

(** The properties that the preparation collects. *)
Definition collected (components : Z) (props : Z -> Z) : list Z :=
  map (fun i => if bit i components then props i else 0) (seqZ 0 8).

Section Target.
Context {dev : Type} {bmc : Bmc dev} {reo : Reopen dev} {clk : Clock} {stk : Stack}.
Context (installed : dev -> list (Z * list Z)) (ids caps : list Z) (props : Z -> Z).
Context {tgt : HpmTarget installed ids caps props}.
Context (fuel : nat) (intf : hpm_intf).
Hypothesis Hfuel : fuel <> O.

Lemma device_id_run s : exists s', HpmfwupgGetDeviceId fuel intf s = Ok (Some ids, s') /\ kept s s' /\
  installed (h_dev s') = installed (h_dev s).
Proof.
  destruct (target_id (h_dev s)) as (r & d' & E & Hc & Hr & Hi).
  destruct (simple_run fuel intf Hfuel _ None s r d' E Hc) as (s' & E' & Hd & Hk).
  exists s'. split; [| by rewrite Hd]. unfold HpmfwupgGetDeviceId. rewrite (M_bind_run _ _ _ _ _ E').
  pose proof target_ids_len as Hl. rewrite (carries_bytes r ids Hr 0 15), lift_Ok_bind by lia.
  rewrite slice_all by lia. done.
Qed.

Lemma capabilities_run s : exists s',
  HpmfwupgGetTargetUpgCapabilities fuel intf s = Ok (Some (parse_caps caps), s') /\ kept s s' /\
  installed (h_dev s') = installed (h_dev s).
Proof.
  destruct (target_get_caps (h_dev s)) as (r & d' & E & Hc & Hr & Hi).
  destruct (simple_run fuel intf Hfuel _ None s r d' E Hc) as (s' & E' & Hd & Hk).
  exists s'. split; [| by rewrite Hd]. unfold HpmfwupgGetTargetUpgCapabilities. rewrite (M_bind_run _ _ _ _ _ E').
  pose proof target_caps_len as Hl. rewrite (carries_bytes r caps Hr 0 8), lift_Ok_bind by lia.
  rewrite slice_all by lia. done.
Qed.

Lemma property_run s id : exists s',
  HpmfwupgGetComponentProperties fuel intf id HPMFWUPG_COMP_GEN_PROPERTIES s = Ok (Some [props id], s') /\ kept s s' /\
  installed (h_dev s') = installed (h_dev s).
Proof.
  destruct (target_props (h_dev s) id) as (r & d' & E & Hc & Hr & Hi).
  destruct (simple_run fuel intf Hfuel _ None s r d' E Hc) as (s' & E' & Hd & Hk).
  exists s'. split; [| by rewrite Hd]. unfold HpmfwupgGetComponentProperties. rewrite (M_bind_run _ _ _ _ _ E').
  change (property_size HPMFWUPG_COMP_GEN_PROPERTIES) with (Some 2). cbv match.
  rewrite (carries_bytes r _ Hr 0 2), lift_Ok_bind by done. done.
Qed.

(** The properties written one after the other. *)
Fixpoint fill (n i : nat) (components : Z) (l : list Z) : list Z :=
  match n with
  | O => l
  | S n => fill n (S i) components (<[i := if bit (Z.of_nat i) components then props (Z.of_nat i) else 0]> l)
  end.

Lemma general_properties_run n i components l s : exists s',
  general_properties fuel intf n i components HPMFWUPG_SUCCESS l s = Ok (HPMFWUPG_SUCCESS, fill n i components l, s') /\
  kept s s' /\ installed (h_dev s') = installed (h_dev s).
Proof.
  revert i l s. induction n as [|n IH]; intros i l s; cbn [general_properties fill]; [by exists s |].
  destruct (bit (Z.of_nat i) components); [| apply IH].
  destruct (property_run s (Z.of_nat i)) as (s1 & E1 & Hk1 & Hi1). rewrite (M_bind_run _ _ _ _ _ E1).
  destruct (IH (S i) (<[i:=props (Z.of_nat i)]> l) s1) as (s2 & E2 & Hk2 & Hi2).
  exists s2. change (rd [props (Z.of_nat i)] 0) with (props (Z.of_nat i)). rewrite list_insert_insert_eq.
  split; [exact E2 |]. split; [by etransitivity | congruence].
Qed.

(** The image is for this target, and the target takes it. *)
Record acceptable (image : list Z) (option : Z) : Prop := {
  acc_header : sizeof_image_header <= zlen image;
  acc_ids : ids_match image ids = true;
  acc_age : too_old image ids = false;
  acc_components : im_components image .& componentsPresent (parse_caps caps) = im_components image;
  acc_desirable : fwUpgUndesirable (parse_caps caps) = false;
  acc_service : servAffectDuringUpg (parse_caps caps) || im_servAffected image = false;
}.

Lemma preparation_run image option c s : acceptable image option -> genCompProp c = zeros 8 -> exists s',
  HpmfwupgPreparationStage fuel intf image option c s =
    Ok (HPMFWUPG_SUCCESS, c <| devId := ids |> <| targetCap := parse_caps caps |>
          <| genCompProp := collected (im_components image) props |>, s') /\
  kept s s' /\ installed (h_dev s') = installed (h_dev s).
Proof.
  intros [A1 A2 A3 A4 A5 A6] Hg. unfold HpmfwupgPreparationStage.
  destruct (device_id_run s) as (s1 & E1 & Hk1 & Hi1). rewrite (M_bind_run _ _ _ _ _ E1).
  unfold image_header. rewrite (proj2 (Z.leb_le _ _) A1), lift_Ok_bind, A2.
  rewrite (M_bind_run (mret true) _ s1 true s1) by done. cbn [negb]. rewrite A3.
  rewrite (M_bind_run (mret true) _ s1 true s1) by done. cbn [negb].
  destruct (capabilities_run s1) as (s2 & E2 & Hk2 & Hi2). rewrite (M_bind_run _ _ _ _ _ E2).
  assert (caps_allow image option (parse_caps caps) s2 = Ok (true, s2)) as E3.
  { unfold caps_allow. destruct (has option VIEW_MODE); [done |]. rewrite A4, Z.eqb_refl. cbn [negb]. rewrite A5, A6, andb_false_r. done. }
  rewrite (M_bind_run _ _ _ _ _ E3). cbn [negb].
  destruct (general_properties_run 8 0 (im_components image) (zeros 8) s2) as (s4 & E4 & Hk4 & Hi4).
  exists s4. set (c1 := c <| devId := ids |> <| targetCap := parse_caps caps |>).
  replace (genCompProp c1) with (zeros 8). rewrite (M_bind_run _ _ _ _ _ E4).
  split; [done |]. split; [by do 2 (etransitivity; [eassumption |]) | congruence].
Qed.
End Target.

(** ** The procedure *)

Lemma length_records acts : Forall wf_action acts -> (length acts <= length (records acts))%nat.
Proof.
  unfold records. induction 1 as [|a acts Ha _ IH]; cbn [map concat length]; [lia |].
  pose proof (encode_pos a Ha) as Hp. unfold zlen in Hp. rewrite length_app. lia.
Qed.

Lemma read_file `{mal : Malloc} image : MallocLaws mal -> zlen image < 2 ^ 32 -> is_Some (malloc (zlen image)) ->
  HpmfwupgGetBufferFromFile (Reads (zlen image) image) = (HPMFWUPG_SUCCESS, Some image).
Proof.
  intros Hm Hz [block Hb]. change (2 ^ 32) with 4294967296 in Hz. pose proof (zlen_nonneg image).
  unfold HpmfwupgGetBufferFromFile. rewrite u32_small by (unfold is_u32; lia).
  rewrite Hb, Z.eqb_refl. pose proof (malloc_len (zlen image) block ltac:(lia) Hb) as Hl.
  rewrite drop_ge by (unfold zlen in *; lia). by rewrite app_nil_r.
Qed.

(** C25. Upgrading with an intact file for this target installs, for every upload
    record whose component is in the update mask, exactly the firmware of the
    record, in the order of the file, whatever block length the device accepts;
    the mask has the components that were asked for and whose version differs
    from the active version and from the one to roll back to, or all that were
    asked for with "force". *)
Theorem hpm_upgrade_installs {dev} `{bmc : Bmc dev} `{reo : Reopen dev} `{clk : Clock} `{stk : Stack} `{mal : Malloc}
    (mallaws : MallocLaws mal) (stage : dev -> option (Z * list Z)) (installed : dev -> list (Z * list Z)) room
    (rcv : HpmReceiver stage installed room) ids caps props (tgt : HpmTarget installed ids caps props)
    fuel intf hdr oem acts componentMask option (s : hpm dev) :
  let image := hpm_file hdr oem acts in
  wf_header hdr oem -> Forall wf_action acts -> zlen (image_body hdr oem acts) < 2 ^ 28 ->
  is_Some (malloc (zlen image)) -> acceptable ids caps image option ->
  Forall (fun a => supported (componentsPresent (parse_caps caps)) (collected (im_components image) props) a = true) acts ->
  2 < ipmi_intf_get_max_request_data_size (hi_addr intf) ->
  is_Some (malloc (ipmi_intf_get_max_request_data_size (hi_addr intf))) ->
  fuel <> O -> Forall (room_for fuel intf) acts ->
  length (gVersionInfo s) = 8%nat -> has option VIEW_MODE = false -> has option COMPARE_MODE = false ->
  exists s', HpmfwupgUpgrade fuel intf (Reads (zlen image) image) false componentMask option s =
      Ok (HPMFWUPG_SUCCESS, s') /\
    installed (h_dev s') = installed (h_dev s) ++
      flat_map (installs (update_mask (gVersionInfo s) componentMask option acts 0)) acts.
Proof.
  intros image Hh Hwf Hb Hm Hacc Hsup Hreq Hmr Hfuel Hroom Hvs Hview Hcmp.
  assert (zlen image < 2 ^ 32) as Hz.
  { unfold image, hpm_file. rewrite zlen_app, zlen_rfc_md5. change (2 ^ 28) with 268435456 in Hb.
    change (2 ^ 32) with 4294967296. unfold HPMFWUPG_MD5_SIGNATURE_LENGTH. lia. }
  unfold HpmfwupgUpgrade. rewrite (read_file image mallaws Hz Hm). change (HPMFWUPG_SUCCESS =? HPMFWUPG_SUCCESS) with true.
  cbv match. unfold upgrade_image, image. rewrite validate_file, lift_Ok_bind by done. fold image.
  change (negb (HPMFWUPG_SUCCESS =? HPMFWUPG_SUCCESS)) with false. cbv match. rewrite Hview.
  set (c0 := zero_uctx <| pImageData := Some image |>).
  destruct (preparation_run installed ids caps props fuel intf Hfuel image option c0 s Hacc eq_refl) as (s1 & E1 & [Hk1 _] & Hi1).
  rewrite (M_bind_run _ _ _ _ _ E1). change (negb (HPMFWUPG_SUCCESS =? HPMFWUPG_SUCCESS)) with false. cbv match.
  set (c1 := c0 <| devId := ids |> <| targetCap := _ |> <| genCompProp := _ |>).
  destruct (file_records hdr oem acts Hh) as (pre & Er & Hp). fold image in Er, Hp.
  pose proof (length_records acts Hwf) as Hl. pose proof (f_equal length Er) as Hle. rewrite !length_app in Hle.
  destruct (precheck_run componentMask option (rfc_md5 (image_body hdr oem acts)) (gVersionInfo s) acts Hvs
    (zlen_rfc_md5 _) Hwf (S (length image)) pre c1 s1 ltac:(lia)) as (s2 & E2 & Hd2 & _).
  { rewrite Hk1. clear. induction (gVersionInfo s); constructor; done. }
  { exact Hsup. }
  rewrite Hp, <- Er in E2. change (compUpdateMask c1) with 0 in E2. set (um := update_mask _ _ _ _ _) in *.
  assert (HpmfwupgPreUpgradeCheck image componentMask option c1 s1 =
    Ok (HPMFWUPG_SUCCESS, c1 <| compUpdateMask := um |>, s2)) as E2'.
  { unfold HpmfwupgPreUpgradeCheck, image_header. rewrite (proj2 (Z.leb_le _ _) (acc_header _ _ _ _ Hacc)). exact E2. }
  rewrite (M_bind_run _ _ _ _ _ E2'). change (negb (HPMFWUPG_SUCCESS =? HPMFWUPG_SUCCESS)) with false. cbv match.
  set (c2 := c1 <| compUpdateMask := um |>).
  destruct (upgrade_loop_run stage installed room fuel intf Hfuel Hreq Hmr option (rfc_md5 (image_body hdr oem acts)) acts
    Hcmp (zlen_rfc_md5 _) Hwf Hroom (S (S (length image))) pre c2 s2 ltac:(lia)) as (k & s3 & E3 & _ & Hi3).
  rewrite Hp, <- Er in E3.
  assert (HpmfwupgUpgradeStage fuel intf image option c2 s2 = Ok (HPMFWUPG_SUCCESS, c2 <| componentId := k |>, s3)) as E3'.
  { unfold HpmfwupgUpgradeStage, image_header. rewrite (proj2 (Z.leb_le _ _) (acc_header _ _ _ _ Hacc)). exact E3. }
  rewrite (M_bind_run _ _ _ _ _ E3'). exists s3. split; [done |]. rewrite Hi3, Hd2, Hi1. done.
Qed.

(** C26. A file whose digest, signature or format version is wrong is refused,
    and nothing else happens: no command is sent, nothing is asked. *)
Theorem hpm_bad_file_refused {dev} `{bmc : Bmc dev} `{reo : Reopen dev} `{clk : Clock} `{stk : Stack} `{mal : Malloc}
    (mallaws : MallocLaws mal) fuel intf body sig activate componentMask option (s : hpm dev) :
  let image := body ++ sig in
  zlen body < 2 ^ 28 -> zlen sig = HPMFWUPG_MD5_SIGNATURE_LENGTH -> is_Some (malloc (zlen image)) ->
  rfc_md5 body <> sig \/ im_signature image <> HPMFWUPG_IMAGE_SIGNATURE \/
    im_formatVersion image <> HPMFWUPG_IMAGE_HEADER_VERSION ->
  HpmfwupgUpgrade fuel intf (Reads (zlen image) image) activate componentMask option s = Ok (HPMFWUPG_ERROR, s).
Proof.
  intros image Hb Hs Hm Hbad. pose proof (zlen_nonneg body).
  assert (zlen image = zlen body + 16) as Hz by (unfold image; rewrite zlen_app, Hs; done).
  change (2 ^ 28) with 268435456 in Hb.
  unfold HpmfwupgUpgrade. rewrite (read_file image mallaws) by (done || (change (2 ^ 32) with 4294967296; lia)).
  change (HPMFWUPG_SUCCESS =? HPMFWUPG_SUCCESS) with true. cbv match. unfold upgrade_image.
  assert (HpmfwupgValidateImageIntegrity image = Ok HPMFWUPG_ERROR) as E; [| by rewrite E, lift_Ok_bind].
  unfold image at 1. rewrite validate_digest by done. fold image.
  case_bool_decide as H1; [| done]. case_bool_decide as H2; [| done]. cbn [negb].
  rewrite rdx_ok by lia. cbn [mbind res_bind].
  destruct Hbad as [Hbad|[Hbad|Hbad]]; [done | done |].
  unfold im_formatVersion in Hbad. rewrite (proj2 (Z.eqb_neq _ _) Hbad). done.
Qed.

(** ** Time-outs *)

(** A clock that is read twice in every second. *)
Definition slow_clock : Clock := fun n => (Z.of_nat n + 1) / 2.

Lemma slow_clock_odd j : slow_clock (2 * j + 1)%nat = Z.of_nat j + 1 /\ slow_clock (2 * j + 2)%nat = Z.of_nat j + 1.
Proof. unfold slow_clock. split; Z.to_euclidean_division_equations; lia. Qed.

(** C27. The time-out for a busy device never comes: the seconds are measured
    after the start was set to the present, so as long as the clock is read
    twice within a second they are none, and a device that goes on answering
    "node busy" keeps [HpmfwupgSendCmd] in its loop for ever. *)
Theorem hpm_busy_never_times_out {dev} `{bmc : Bmc dev} `{reo : Reopen dev} fuel intf req ctx (s : hpm dev) :
  (forall d, exists r d', bmc_answer req d = (Some r, d') /\ ccode r = 0xc0) ->
  h_tick s = O -> match ctx with Some c => 0 < upgradeTimeout (targetCap c) | None => True end ->
  HpmfwupgSendCmd (clk := slow_clock) fuel intf req ctx s = Bad OutOfFuel.
Proof.
  intros Hbusy Ht Hc.
  assert (forall it ut, 0 < ut -> forall n j t1 (s1 : hpm dev),
    t1 = 4294967295 \/ t1 = u32 (Z.of_nat j) /\ h_tick s1 = (2 * j + 1)%nat ->
    send_cmd_loop (clk := slow_clock) fuel intf n req it ut t1 0 0 s1 = Bad OutOfFuel) as K.
  { intros it ut Hut. induction n as [|n IH]; intros j t1 s1 H; [done |]. cbn [send_cmd_loop].
    destruct (Hbusy (h_dev s1)) as (r & d' & E & Hr). unfold mbind, M_bind, sendrecv, bmc_answer at 1, hpm_bmc.
    rewrite E. unfold mret, M_ret. rewrite Hr. cbn [orb Z.eqb Pos.eqb].
    rewrite (proj2 (Z.ltb_lt _ _) Hut). unfold hpm_time at 1.
    change (h_tick (s1 <| h_dev := d' |>)) with (h_tick s1). unfold clock.
    destruct H as [->|[-> Hj]].
    - rewrite (proj2 (Z.ltb_ge 4294967295 _)) by (pose proof (u32_range (slow_clock (h_tick s1))) as Hu; unfold is_u32 in Hu; lia).
      apply (IH O). by left.
    - destruct (slow_clock_odd j) as [E1 E2]. rewrite Hj, E1. destruct (Z.ltb_spec (u32 (Z.of_nat j)) (u32 (Z.of_nat j + 1))) as [Hlt|Hge].
      + unfold hpm_time. set (s2 := s1 <| h_dev := d' |> <| h_tick := S (2 * j + 1)%nat |>).
        change (h_tick s2) with (S (2 * j + 1)%nat). unfold clock. replace (S (2 * j + 1))%nat with (2 * j + 2)%nat by lia. rewrite E2, Z.sub_diag.
        change (u32 (0 + 0)) with 0. apply (IH (S j)). right. split; [f_equal; lia |].
        change (S (2 * j + 2) = 2 * S j + 1)%nat. lia.
      + apply (IH O). left. unfold u32 in *. Z.to_euclidean_division_equations. lia. }
  assert (forall it ut, 0 < ut -> (t1 ← hpm_time (clk := slow_clock); send_cmd_loop (clk := slow_clock) fuel intf fuel req it ut t1 0 0) s = Bad OutOfFuel) as K'.
  { intros it ut Hut. rewrite (M_bind_run (hpm_time (clk := slow_clock)) _ s (u32 0) (s <| h_tick := 1%nat |>)).
    2: { unfold hpm_time. rewrite Ht. done. }
    apply (K it ut Hut fuel 0%nat). by right. }
  unfold HpmfwupgSendCmd. destruct ctx as [c|]; apply K'; [lia | done].
Qed.

(** C28. A failed activation is reported as a success when the controller says
    how the rollback went: the answer to the query takes the place of the
    error. *)
Theorem hpm_failed_activation_masked {dev} `{bmc : Bmc dev} `{reo : Reopen dev} `{clk : Clock} `{stk : Stack}
    fuel intf image c (s : hpm dev) r1 d1 r2 d2 :
  fuel <> O -> pImageData c = Some image -> sizeof_image_header <= zlen image ->
  bmc_answer (picmg_rq HPMFWUPG_ACTIVATE_FIRMWARE []) (h_dev s) = (Some r1, d1) ->
  final_code (ccode r1) = true -> ccode r1 <> 0 -> ccode r1 <> HPMFWUPG_COMMAND_IN_PROGRESS ->
  autRollback (targetCap c) = true -> rollbackBackup (rd (genCompProp c) (componentId c)) <> 0 ->
  bmc_answer (picmg_rq HPMFWUPG_QUERY_ROLLBACK_STATUS []) d1 = (Some r2, d2) -> ccode r2 = 0 ->
  exists s', HpmfwupgActivateFirmware fuel intf 0 (Some c) s = Ok (HPMFWUPG_ERROR, s') /\
  exists s'', HpmfwupgActivationStage fuel intf image c s = Ok (HPMFWUPG_SUCCESS, s'').
Proof.
  intros Hf Hi Hz E1 Hf1 Hn1 Hp1 Ha Hb E2 Hc2.
  destruct (send_run fuel intf Hf _ (Some c) s r1 d1 E1 Hf1) as (s1 & E1' & Hd1 & _).
  assert (HpmfwupgActivateFirmware fuel intf 0 (Some c) s = Ok (HPMFWUPG_ERROR, s1)) as Ea.
  { unfold HpmfwupgActivateFirmware, long_cmd. change (if 0 =? 0 then [] else [0]) with (@nil Z).
    rewrite (M_bind_run _ _ _ _ _ E1'), !(proj2 (Z.eqb_neq _ _)) by done. done. }
  exists s1. split; [done |]. unfold HpmfwupgActivationStage. rewrite (M_bind_run _ _ _ _ _ Ea).
  change (HPMFWUPG_ERROR =? HPMFWUPG_SUCCESS) with false. cbv match.
  rewrite (M_bind_run (mret HPMFWUPG_ERROR) _ s1 HPMFWUPG_ERROR s1) by done.
  rewrite Z.eqb_refl, Ha, (proj2 (Z.eqb_neq _ _) Hb). cbn [andb negb]. unfold HpmfwupgQueryRollbackStatus.
  rewrite Hi, rdx_ok by (unfold sizeof_image_header in Hz; lia). unfold mbind at 1, M_bind at 1.
  rewrite lift_Ok_bind. unfold mret at 1, M_ret at 1. unfold mbind at 1, M_bind at 1, hpm_time at 1.
  unfold mbind at 1, M_bind at 1, hpm_time at 1. set (s3 := s1 <| h_tick := _ |> <| h_tick := _ |>).
  destruct fuel as [|n]; [done |]. set (t := Z.max _ _ * 5). set (t1 := u32 _).
  assert (final_code (ccode r2) = true) as Hf2 by (by rewrite Hc2).
  destruct (send_run (S n) intf Hf _ (Some c) s3 r2 d2 ltac:(change (h_dev s3) with (h_dev s1); rewrite Hd1; exact E2) Hf2)
    as (s4 & E4 & _ & _).
  exists (s4 <| h_tick := S (h_tick s4) |>).
  cbn [poll_loop]. unfold mbind, M_bind. rewrite E4, Hc2. unfold HPMFWUPG_IS_RETRYABLE.
  cbn [Z.eqb orb]. unfold mret, M_ret, hpm_time. rewrite Hc2. cbn [existsb Z.eqb HPMFWUPG_COMMAND_IN_PROGRESS IPMI_CC_TIMEOUT orb andb].
  rewrite Hc2. done.
Qed.

(** ** A concrete target: two components, blocks of at most ten bytes. *)

Record toy_target := mk_toy { toy_stage : option (Z * list Z); toy_installed : list (Z * list Z) }.

Definition toy_ids : list Z := [0x12; 0; 1; 5; 2; 0; 0x57; 1; 0; 0x34; 0x12; 0; 0; 0; 0].
Definition toy_caps : list Z := [0; 0; 2; 12; 1; 1; 1; 3].
Definition toy_props (id : Z) : Z := 5.

Definition toy_hpm : Bmc toy_target := fun req d =>
  let cmd := rq_cmd req in
  if cmd =? BMC_GET_DEVICE_ID then (Some (reply 0 toy_ids), d)
  else if cmd =? HPMFWUPG_GET_TARGET_UPG_CAPABILITIES then (Some (reply 0 toy_caps), d)
  else if cmd =? HPMFWUPG_GET_COMPONENT_PROPERTIES then (Some (reply 0 [0; toy_props 0]), d)
  else if cmd =? HPMFWUPG_INITIATE_UPGRADE_ACTION then (Some (reply 0 [0]), mk_toy (Some (0, [])) (toy_installed d))
  else
    match toy_stage d, rq_data req with
    | Some (n, got), _ :: x :: data =>
        if cmd =? HPMFWUPG_UPLOAD_FIRMWARE_BLOCK then
          if x =? n then
            if zlen data <=? 10 then (Some (reply 0 [0]), mk_toy (Some (u8 (n + 1), got ++ data)) (toy_installed d))
            else (Some (reply IPMI_CC_REQ_DATA_INV_LENGTH []), d)
          else (Some (reply 0xff []), d)
        else if cmd =? HPMFWUPG_FINISH_FIRMWARE_UPLOAD then
          (Some (reply 0 [0]), mk_toy None (toy_installed d ++ [(x, got)]))
        else (Some (reply 0xd5 []), d)
    | _, _ => (Some (reply 0xc1 []), d)
    end.
#[local] Existing Instance toy_hpm.
#[local] Instance toy_reopen {dev} : Reopen dev := {| bmc_close d := d; bmc_open d := (true, d) |}.
#[local] Existing Instance slow_clock.

#[local] Instance toy_receiver : HpmReceiver toy_stage toy_installed 10.
Proof.
  constructor; [done | | |].
  - intros d mask act. do 2 eexists. split; [reflexivity |]. split_and!; [done | done |]. done.
  - intros d n got data H. unfold bmc_answer, toy_hpm. cbn [rq_cmd rq_data picmg_rq].
    rewrite H, (Z.eqb_refl n). change (HPMFWUPG_UPLOAD_FIRMWARE_BLOCK =? HPMFWUPG_UPLOAD_FIRMWARE_BLOCK) with true.
    repeat change (HPMFWUPG_UPLOAD_FIRMWARE_BLOCK =? _) with false. cbv match.
    destruct (Z.leb_spec (zlen data) 10); do 2 eexists; (split; [reflexivity |]);
      (split; [vm_compute; discriminate |]); (split; [vm_compute; discriminate |]); split; try done; [by left |].
    right. split_and!; [lia | by left | by rewrite H].
  - intros d n got id H. unfold bmc_answer, toy_hpm. cbn [rq_cmd rq_data picmg_rq]. rewrite H.
    do 2 eexists. split; [reflexivity |]. done.
Defined.

#[local] Instance toy_is_target : HpmTarget toy_installed toy_ids toy_caps toy_props.
Proof.
  constructor; [done | done | | |]; intros; do 2 eexists; (split; [reflexivity |]); (split; [done |]);
    (split; [apply carries_reply | done]).
Defined.

Definition toy_header : list Z :=
  HPMFWUPG_IMAGE_SIGNATURE ++ [0; 0x12; 0x57; 1; 0; 0x34; 0x12; 0; 0; 0; 0; 0; 3; 1; 1; 1; 1; 0; 1; 6; 0; 0; 0; 0; 2; 0].
Definition toy_firmware : list Z := seqZ 1 25.
Definition toy_actions : list action :=
  [Backup 3; Upload false 1 [1; 6; 0; 0; 0; 0] (zeros 21) toy_firmware; Upload true 2 [1; 5; 0; 0; 0; 0] (zeros 21) [7; 8; 9]].
Definition toy_versions : list version_info := replicate 8 (zero_version <| vi_target := [1; 5; 0; 0; 0; 0] |>).
Definition toy_intf : hpm_intf := mk_hintf (mk_addr 0x20 0x20 0 0 0 0 0) true.
Definition toy_state : hpm toy_target := mk_hpm (mk_toy None []) 0 0 0 false toy_versions [].

Lemma hpm_upgrade_installs_witness :
  let image := hpm_file toy_header [0xaa; 0xbb] toy_actions in
  exists s', HpmfwupgUpgrade 100 toy_intf (Reads (zlen image) image) false 0 0 toy_state = Ok (HPMFWUPG_SUCCESS, s') /\
    toy_installed (h_dev s') = [] ++ flat_map (installs (update_mask toy_versions 0 0 toy_actions 0)) toy_actions.
Proof.
  refine (hpm_upgrade_installs toy_malloc_laws toy_stage toy_installed 10 toy_receiver toy_ids toy_caps toy_props toy_is_target
    100 toy_intf toy_header [0xaa; 0xbb] toy_actions 0 0 toy_state _ _ _ _ _ _ _ _ _ _ _ _ _).
  - split_and!; reflexivity.
  - repeat constructor; vm_compute; discriminate.
  - vm_compute. reflexivity.
  - by eexists.
  - constructor; [vm_compute; discriminate | vm_compute; reflexivity ..].
  - repeat constructor; vm_compute; reflexivity.
  - vm_compute. reflexivity.
  - by eexists.
  - discriminate.
  - repeat constructor. all: vm_compute; repeat constructor.
  - reflexivity.
  - reflexivity.
  - reflexivity.
Defined.

Example toy_selection :
  flat_map (installs (update_mask toy_versions 0 0 toy_actions 0)) toy_actions = [(0, toy_firmware)].
Proof. vm_compute. reflexivity. Qed.

Lemma hpm_bad_file_refused_witness :
  let image := toy_header ++ zeros 16 in
  HpmfwupgUpgrade 100 toy_intf (Reads (zlen image) image) true 0 0 toy_state = Ok (HPMFWUPG_ERROR, toy_state).
Proof.
  apply (hpm_bad_file_refused toy_malloc_laws 100 toy_intf toy_header (zeros 16) true 0 0 toy_state);
    [reflexivity | reflexivity | by eexists | left; vm_compute; discriminate].
Defined.

(** A device that is always busy, and one that refuses to activate but tells of
    the rollback. *)
Definition busy_hpm : Bmc unit := fun req d => (Some (reply 0xc0 []), d).
Definition stubborn_hpm : Bmc unit := fun req d =>
  (Some (reply (if rq_cmd req =? HPMFWUPG_ACTIVATE_FIRMWARE then 0xd5 else 0) [0; 1]), d).

Lemma hpm_busy_never_times_out_witness :
  HpmfwupgSendCmd (bmc := busy_hpm) (clk := slow_clock) 1000 toy_intf (picmg_rq HPMFWUPG_ABORT_UPGRADE []) None
    (mk_hpm tt 0 0 0 false [] []) = Bad OutOfFuel.
Proof.
  apply (hpm_busy_never_times_out (bmc := busy_hpm)); [| reflexivity | exact I].
  intros d. do 2 eexists. split; reflexivity.
Defined.

Definition stubborn_ctx : upgrade_ctx :=
  zero_uctx <| pImageData := Some toy_header |> <| targetCap := mk_caps 2 1 1 1 1 1 |> <| genCompProp := replicate 8 1 |>.

Lemma hpm_failed_activation_masked_witness :
  exists s', HpmfwupgActivateFirmware (bmc := stubborn_hpm) 5 toy_intf 0 (Some stubborn_ctx)
      (mk_hpm tt 0 0 0 false [] []) = Ok (HPMFWUPG_ERROR, s') /\
  exists s'', HpmfwupgActivationStage (bmc := stubborn_hpm) 5 toy_intf toy_header stubborn_ctx
      (mk_hpm tt 0 0 0 false [] []) = Ok (HPMFWUPG_SUCCESS, s'').
Proof.
  eapply (hpm_failed_activation_masked (bmc := stubborn_hpm)); try reflexivity; try discriminate.
Defined.
