(* ===== verification/Cfgp.v ===== *)
(** * Configuration parameters (lib/ipmi_cfgp.c)

    The engine that a command with configuration parameters is built from: a
    table of descriptors, the selector of a parameter on the command line, the
    list of values that are read from a controller, from the command line, and
    written to a controller or to a file.  What a parameter is, is left to the
    handler of the command, the class [CfgpHandler]. *)

From stdpp Require Import strings.
From S2P Require Import Prelude Wire Ipmi Intf Session Helper CText Bmc.

#[local] Open Scope Z_scope.

Inductive cfgp_access := CFGP_RDWR | CFGP_RDONLY | CFGP_WRONLY | CFGP_RESERVED.

#[export] Instance cfgp_access_eq_dec : EqDecision cfgp_access.
Proof. solve_decision. Defined.

(** [struct ipmi_cfgp] *)
Record ipmi_cfgp := mk_cfgp {
  p_name : string;
  p_format : option string;
  p_size : Z;
  p_access : cfgp_access;
  p_is_set : bool;
  p_first_set : Z;
  p_has_blocks : bool;
  p_first_block : Z;
  p_specific : Z;
}.

Inductive cfgp_action_type := CFGP_PARSE | CFGP_GET | CFGP_SET | CFGP_SAVE | CFGP_PRINT.

#[export] Instance cfgp_action_type_eq_dec : EqDecision cfgp_action_type.
Proof. solve_decision. Defined.

(** [struct ipmi_cfgp_action]; the output file is the text that the handler
    returns. *)
Record ipmi_cfgp_action := mk_action {
  a_type : cfgp_action_type;
  a_set : Z;
  a_block : Z;
  a_quiet : bool;
  a_argv : list (list Z);
}.

(** The callback: the code, the data block afterwards and the text written. *)
Class CfgpHandler (dev : Type) :=
  cfgp_handler : ipmi_cfgp -> ipmi_cfgp_action -> list Z -> M dev (Z * list Z * list Z).

(** [struct ipmi_cfgp_sel]; -1 is "not given". *)
Record cfgp_sel := mk_sel { sel_param : Z; sel_set : Z; sel_block : Z }.

(** [struct ipmi_cfgp_data]; the linked list is a list in its order. *)
Record cfgp_data := mk_data { d_sel : cfgp_sel; d_data : list Z }.

(** [struct ipmi_cfgp_ctx] *)
Record cfgp_ctx := mk_ctx { c_set : list ipmi_cfgp; c_cmdname : list Z; c_v : list cfgp_data }.

#[export] Instance cfgp_ctx_rebuild : Rebuild cfgp_ctx := fun c => mk_ctx (c_set c) (c_cmdname c) (c_v c).
#[export] Instance c_cmdname_update : Update c_cmdname := ltac:(solve_update).
#[export] Instance c_v_update : Update c_v := ltac:(solve_update).
#[export] Instance cfgp_sel_rebuild : Rebuild cfgp_sel := fun s => mk_sel (sel_param s) (sel_set s) (sel_block s).
#[export] Instance sel_set_update : Update sel_set := ltac:(solve_update).
#[export] Instance sel_block_update : Update sel_block := ltac:(solve_update).

(** [ipmi_cfgp_init], [ipmi_cfgp_uninit] *)
Definition ipmi_cfgp_init (set : list ipmi_cfgp) (cmdname : list Z) : cfgp_ctx := mk_ctx set cmdname [].
Definition ipmi_cfgp_uninit (ctx : cfgp_ctx) : cfgp_ctx := ctx <| c_v := [] |>.

(** [lookup_cfgp]: the index and the descriptor. *)
Fixpoint lookup_cfgp (i : Z) (set : list ipmi_cfgp) (name : list Z) : option (Z * ipmi_cfgp) :=
  match set with
  | [] => None
  | p :: set => if strcaseeq (text (p_name p)) name then Some (i, p) else lookup_cfgp (i + 1) set name
  end.

(** A set or block selector on the command line; [None] is refused. *)
Definition cfgp_selector (arg : list Z) (first : Z) : option Z :=
  match str2int (Some arg) with
  | (rc, v) =>
      let v := default 0 v in
      if negb (rc =? 0) || (v <? 0) || (v =? 0) && negb (first =? 0) then None else Some v
  end.

(** [ipmi_cfgp_parse_sel]: how many arguments were used, or -1. *)
Definition ipmi_cfgp_parse_sel (ctx : cfgp_ctx) (argv : list (list Z)) : Z * cfgp_sel :=
  match argv with
  | [] => (0, mk_sel (-1) (-1) (-1))
  | name :: argv =>
      match lookup_cfgp 0 (c_set ctx) name with
      | None => (-1, mk_sel (-1) (-1) (-1))
      | Some (i, p) =>
          let sel := mk_sel i (if p_is_set p then -1 else 0) (if p_has_blocks p then -1 else 0) in
          match argv with
          | arg :: argv =>
              if negb (p_is_set p) then (1, sel) else
              match cfgp_selector arg (p_first_set p) with
              | None => (-1, sel)
              | Some set =>
                  let sel := sel <| sel_set := set |> in
                  match argv with
                  | arg :: _ =>
                      if negb (p_has_blocks p) then (2, sel) else
                      match cfgp_selector arg (p_first_block p) with
                      | None => (-1, sel)
                      | Some block => (3, sel <| sel_block := block |>)
                      end
                  | [] => (2, sel)
                  end
              end
          | [] => (1, sel)
          end
      end
  end.

(** [cfgp_add_data] *)
Definition cfgp_add_data (ctx : cfgp_ctx) (d : cfgp_data) : cfgp_ctx := ctx <| c_v := c_v ctx ++ [d] |>.

Definition sizeof_cfgp_data : Z := 24.

Section Cfgp.
Context {dev : Type} {handler : CfgpHandler dev} {mal : Malloc}.

Definition cfgp_param (ctx : cfgp_ctx) (i : Z) : option ipmi_cfgp := c_set ctx !! Z.to_nat i.

(** [ipmi_cfgp_parse_data] *)
Definition ipmi_cfgp_parse_data (ctx : cfgp_ctx) (sel : cfgp_sel) (argv : list (list Z)) : M dev (Z * cfgp_ctx) :=
  if (sel_param sel =? -1) || (zlen (c_set ctx) <=? sel_param sel) then mret (-1, ctx) else
  if sel_set sel =? -1 then mret (-1, ctx) else
  if sel_block sel =? -1 then mret (-1, ctx) else
  p ← lift (or_oob (cfgp_param ctx (sel_param sel)));
  if p_size p =? 0 then mret (-1, ctx) else
  match malloc (sizeof_cfgp_data + p_size p) with
  | None => mret (-1, ctx)
  | Some _ =>
      '(rc, data, _) ← cfgp_handler p (mk_action CFGP_PARSE (sel_set sel) (sel_block sel) false argv) (zeros (p_size p));
      if negb (rc =? 0) then mret (-1, ctx) else mret (0, cfgp_add_data ctx (mk_data sel data))
  end.

(** How the inner loop of [cfgp_get_param] ends: the function returns, or the
    loop is left with the last code, [cblock] and [quiet]. *)
Inductive get_end := GetReturn (ret : Z) | GetLoop (ret cblock : Z) (quiet : bool).

Fixpoint block_loop (fuel : nat) (param : Z) (p : ipmi_cfgp) (cset block cblock : Z) (quiet : bool) (ctx : cfgp_ctx)
    : M dev (get_end * cfgp_ctx) :=
  match fuel with
  | O => fail OutOfFuel
  | S fuel =>
      match malloc (sizeof_cfgp_data + p_size p) with
      | None => mret (GetReturn (-1), ctx)
      | Some _ =>
          '(ret, data, _) ← cfgp_handler p (mk_action CFGP_GET cset cblock quiet []) (zeros (p_size p));
          if negb (ret =? 0) then
            mret (if quiet : bool then GetLoop ret cblock quiet else GetReturn ret, ctx)
          else
            let ctx := cfgp_add_data ctx (mk_data (mk_sel param cset cblock) data) in
            if block =? -1 then block_loop fuel param p cset block (cblock + 1) true ctx
            else mret (GetLoop ret (cblock + 1) true, ctx)
      end
  end.

Fixpoint set_loop (fuel : nat) (param : Z) (p : ipmi_cfgp) (set cset block : Z) (quiet : bool) (ctx : cfgp_ctx)
    : M dev (Z * cfgp_ctx) :=
  match fuel with
  | O => fail OutOfFuel
  | S fuel' =>
      let cblock := if block =? -1 then p_first_block p else block in
      '(e, ctx) ← block_loop fuel param p cset block cblock quiet ctx;
      match e with
      | GetReturn ret => mret (ret, ctx)
      | GetLoop ret cblock quiet =>
          if negb (ret =? 0) && (cblock =? p_first_block p) then mret (0, ctx) else
          if set =? -1 then set_loop fuel' param p set (cset + 1) block quiet ctx else mret (0, ctx)
      end
  end.

(** [cfgp_get_param] *)
Definition cfgp_get_param (fuel : nat) (ctx : cfgp_ctx) (param : Z) (p : ipmi_cfgp) (set block : Z) (quiet : bool)
    : M dev (Z * cfgp_ctx) :=
  if p_size p =? 0 then mret (-1, ctx) else
  let set := if (set =? -1) && negb (p_is_set p) then 0 else set in
  let block := if (block =? -1) && negb (p_has_blocks p) then 0 else block in
  let cset := if set =? -1 then p_first_set p else set in
  set_loop fuel param p set cset block quiet ctx.

(** The loop of [ipmi_cfgp_get] over all parameters. *)
Fixpoint get_all (fuel : nat) (i : Z) (params : list ipmi_cfgp) (sel : cfgp_sel) (ctx : cfgp_ctx) : M dev (Z * cfgp_ctx) :=
  match params with
  | [] => mret (0, ctx)
  | p :: params =>
      if bool_decide (p_access p = CFGP_WRONLY) then get_all fuel (i + 1) params sel ctx else
      '(ret, ctx) ← cfgp_get_param fuel ctx i p (sel_set sel) (sel_block sel) true;
      if negb (ret =? 0) then mret (-1, ctx) else get_all fuel (i + 1) params sel ctx
  end.

(** [ipmi_cfgp_get] *)
Definition ipmi_cfgp_get (fuel : nat) (ctx : cfgp_ctx) (sel : cfgp_sel) : M dev (Z * cfgp_ctx) :=
  if negb (sel_param sel =? -1) then
    if zlen (c_set ctx) <=? sel_param sel then mret (-1, ctx) else
    p ← lift (or_oob (cfgp_param ctx (sel_param sel)));
    '(ret, ctx) ← cfgp_get_param fuel ctx (sel_param sel) p (sel_set sel) (sel_block sel) false;
    mret (if ret =? 0 then 0 else -1, ctx)
  else get_all fuel 0 (c_set ctx) sel ctx.

(** A value is in the selection. *)
Definition selected (sel : cfgp_sel) (d : cfgp_data) : bool :=
  ((sel_param sel =? -1) || (sel_param sel =? sel_param (d_sel d))) &&
  ((sel_set sel =? -1) || (sel_set sel =? sel_set (d_sel d))) &&
  ((sel_block sel =? -1) || (sel_block sel =? sel_block (d_sel d))).

(** The start of a line that is saved. *)
Definition save_prefix (ctx : cfgp_ctx) (p : ipmi_cfgp) (s : cfgp_sel) : list Z :=
  c_cmdname ctx ++ [32] ++ text (p_name p) ++ [32] ++
  (if p_is_set p then dec (sel_set s) ++ [32] else []) ++
  (if p_has_blocks p then dec (sel_block s) ++ [32] else []).

(** The loop of [cfgp_do_action]: the code and what is written. *)
Fixpoint do_action (ctx : cfgp_ctx) (type : cfgp_action_type) (sel : cfgp_sel) (filter : cfgp_access)
    (v : list cfgp_data) : M dev (Z * list Z) :=
  match v with
  | [] => mret (0, [])
  | d :: v =>
      if negb (selected sel d) then do_action ctx type sel filter v else
      p ← lift (or_oob (cfgp_param ctx (sel_param (d_sel d))));
      if bool_decide (p_access p = filter) then do_action ctx type sel filter v else
      '(ret, _, out) ← cfgp_handler p (mk_action type (sel_set (d_sel d)) (sel_block (d_sel d)) false []) (d_data d);
      let out := if bool_decide (type = CFGP_SAVE) then save_prefix ctx p (d_sel d) ++ out ++ [10] else out in
      if negb (ret =? 0) then mret (-1, out) else
      '(rc, rest) ← do_action ctx type sel filter v;
      mret (rc, out ++ rest)
  end.

(** [cfgp_do_action], [ipmi_cfgp_set], [ipmi_cfgp_save], [ipmi_cfgp_print] *)
Definition cfgp_do_action (ctx : cfgp_ctx) (type : cfgp_action_type) (sel : cfgp_sel) (filter : cfgp_access) : M dev (Z * list Z) :=
  do_action ctx type sel filter (c_v ctx).
Definition ipmi_cfgp_set (ctx : cfgp_ctx) (sel : cfgp_sel) : M dev (Z * list Z) := cfgp_do_action ctx CFGP_SET sel CFGP_RDONLY.
Definition ipmi_cfgp_save (ctx : cfgp_ctx) (sel : cfgp_sel) : M dev (Z * list Z) := cfgp_do_action ctx CFGP_SAVE sel CFGP_RDONLY.
Definition ipmi_cfgp_print (ctx : cfgp_ctx) (sel : cfgp_sel) : M dev (Z * list Z) := cfgp_do_action ctx CFGP_PRINT sel CFGP_RESERVED.
End Cfgp.
