(* ===== verification/CfgpProps.v ===== *)
(** * Correctness of the configuration engine (lib/ipmi_cfgp.c)

    What a handler promises for reading parameters is the class [CfgpSource];
    the engine then finds all the values that there are. *)

From stdpp Require Import strings.
From S2P Require Import Prelude Wire Ipmi Intf Session Helper CText Bmc Cfgp.

#[local] Open Scope Z_scope.

(** [item p s b] is the value of the parameter for a set and a block selector.
    The values of a parameter are those of [nsets p] sets, and of [nblocks p s]
    blocks, at least one, of each of them. *)
Class CfgpSource {dev : Type} {handler : CfgpHandler dev} (inv : dev -> Prop)
    (params : list ipmi_cfgp) (item : ipmi_cfgp -> Z -> Z -> option (list Z)) (nsets : ipmi_cfgp -> nat)
    (nblocks : ipmi_cfgp -> Z -> nat) := {
  source_size : Forall (fun p => 0 < p_size p) params;
  source_single : Forall (fun p => (p_is_set p = false -> p_first_set p = 0 /\ (nsets p <= 1)%nat) /\
    (p_has_blocks p = false -> p_first_block p = 0 /\ forall s, nblocks p s = 1%nat)) params;
  source_first : Forall (fun p => 0 <= p_first_set p /\ 0 <= p_first_block p) params;
  source_item : Forall (fun p => forall s b, p_first_set p <= s <= p_first_set p + Z.of_nat (nsets p) ->
    p_first_block p <= b <= p_first_block p + Z.of_nat (nblocks p s) ->
    (is_Some (item p s b) <-> s < p_first_set p + Z.of_nat (nsets p) /\ b < p_first_block p + Z.of_nat (nblocks p s))) params;
  source_blocks : Forall (fun p => forall s, (1 <= nblocks p s)%nat) params;
  source_get : Forall (fun p => forall s b quiet d, p_first_set p <= s <= p_first_set p + Z.of_nat (nsets p) ->
    p_first_block p <= b <= p_first_block p + Z.of_nat (nblocks p s) -> inv d -> exists rc data d' out,
    cfgp_handler p (mk_action CFGP_GET s b quiet []) (zeros (p_size p)) d = Ok (rc, data, out, d') /\ inv d' /\
    match item p s b with Some x => rc = 0 /\ data = x | None => rc <> 0 end) params;
}.

Section Engine.
Context {dev : Type} {handler : CfgpHandler dev} {mal : Malloc}.
Context (inv : dev -> Prop) (params : list ipmi_cfgp) (item : ipmi_cfgp -> Z -> Z -> option (list Z)).
Context (nsets : ipmi_cfgp -> nat) (nblocks : ipmi_cfgp -> Z -> nat).
Context {source : CfgpSource inv params item nsets nblocks}.

Definition value_of (i : Z) (p : ipmi_cfgp) (s b : Z) : cfgp_data := mk_data (mk_sel i s b) (default [] (item p s b)).

(** The values of a set and of a parameter, in the order of their selectors. *)
Definition set_values (i : Z) (p : ipmi_cfgp) (s : Z) : list cfgp_data :=
  map (value_of i p s) (seqZ (p_first_block p) (Z.of_nat (nblocks p s))).
Definition param_values (i : Z) (p : ipmi_cfgp) : list cfgp_data :=
  flat_map (set_values i p) (seqZ (p_first_set p) (Z.of_nat (nsets p))).

Hypothesis memory : forall n, exists b, malloc n = Some b.

Lemma seqZ_snoc_cons m n : 0 < n -> seqZ m n = m :: seqZ (m + 1) (n - 1).
Proof. intros H. rewrite seqZ_cons by lia. unfold Z.succ, Z.pred. done. Qed.

Section Param.
Context (i : Z) (p : ipmi_cfgp) (Hp : p ∈ params).

Definition in_scan (s b : Z) : Prop := p_first_set p <= s <= p_first_set p + Z.of_nat (nsets p) /\
  p_first_block p <= b <= p_first_block p + Z.of_nat (nblocks p s).

Lemma get_run s b quiet d : in_scan s b -> inv d -> exists rc data d' out,
  cfgp_handler p (mk_action CFGP_GET s b quiet []) (zeros (p_size p)) d = Ok (rc, data, out, d') /\ inv d' /\
  match item p s b with Some x => rc = 0 /\ data = x | None => rc <> 0 end.
Proof using source Hp. intros [Hs Hb]. by apply (proj1 (Forall_forall _ _) source_get p Hp). Qed.

Lemma avail s b : in_scan s b ->
  (is_Some (item p s b) <-> s < p_first_set p + Z.of_nat (nsets p) /\ b < p_first_block p + Z.of_nat (nblocks p s)).
Proof using source Hp. intros [Hs Hb]. by apply (proj1 (Forall_forall _ _) source_item p Hp). Qed.

(** All blocks from [cblock] on of a set that is there. *)
Lemma block_loop_run fuel s : p_first_set p <= s < p_first_set p + Z.of_nat (nsets p) -> forall cblock quiet ctx d,
  p_first_block p <= cblock <= p_first_block p + Z.of_nat (nblocks p s) ->
  (cblock = p_first_block p \/ quiet = true) ->
  (Z.to_nat (p_first_block p + Z.of_nat (nblocks p s) - cblock) < fuel)%nat -> inv d ->
  exists rc d', block_loop fuel i p s (-1) cblock quiet ctx d =
    Ok (GetLoop rc (p_first_block p + Z.of_nat (nblocks p s)) true,
        ctx <| c_v := c_v ctx ++ map (value_of i p s) (seqZ cblock (p_first_block p + Z.of_nat (nblocks p s) - cblock)) |>, d') /\
    rc <> 0 /\ inv d'.
Proof using source Hp memory.
  intros Hs. pose proof (proj1 (Forall_forall _ _) source_blocks p Hp s) as Hn1.
  induction fuel as [|fuel IH]; intros cblock quiet ctx d Hc Hq Hf Hi; [lia |]. cbn [block_loop].
  destruct (memory (sizeof_cfgp_data + p_size p)) as [blk Em]; rewrite Em.
  assert (in_scan s cblock) as Hin by (unfold in_scan; lia). destruct (get_run s cblock quiet d Hin Hi) as (rc & data & d1 & out & E & Hi1 & Hx). rewrite (M_bind_run _ _ _ _ _ E).
  pose proof (avail s cblock Hin) as Ha.
  destruct (Z.eq_dec cblock (p_first_block p + Z.of_nat (nblocks p s))) as [Ee|Ee].
  - destruct (item p s cblock) as [x|]; [exfalso; rewrite Ee in Ha; destruct (proj1 Ha ltac:(done)); lia |].
    rewrite (proj2 (Z.eqb_neq rc 0)) by done. destruct Hq as [Hq|Hq]; [lia | subst quiet]. exists rc, d1. cbn [negb].
    rewrite Ee, Z.sub_diag. change (seqZ _ 0) with (@nil Z). cbn [map]. split; [| done].
    destruct ctx as [? ? v]. unfold update, c_v_update. cbn. by rewrite app_nil_r.
  - destruct (item p s cblock) as [x|] eqn:Ex; [| exfalso; destruct (proj2 Ha ltac:(lia)); done].
    destruct Hx as [Hr0 Hd0]; subst rc data. cbn [negb Z.eqb]. change (-1 =? -1) with true. cbv match.
    destruct (IH (cblock + 1) true (cfgp_add_data ctx (mk_data (mk_sel i s cblock) x)) d1) as (rc & d2 & E2 & Hr & Hi2);
      [lia | by right | lia | done |].
    exists rc, d2. split; [| done]. etransitivity; [exact E2 |]. do 3 f_equal.
    rewrite (seqZ_snoc_cons cblock) by lia. cbn [map]. unfold cfgp_add_data, value_of at 2. rewrite Ex.
    destruct ctx as [? ? v]. unfold update, c_v_update. cbn. rewrite <- app_assoc. cbn [app].
    do 4 f_equal. f_equal. lia.
Qed.

Definition extend (ctx : cfgp_ctx) (l : list cfgp_data) : cfgp_ctx := ctx <| c_v := c_v ctx ++ l |>.

Lemma extend_nil ctx : extend ctx [] = ctx.
Proof. destruct ctx as [? ? v]. unfold extend, update, c_v_update. cbn. by rewrite app_nil_r. Qed.

Lemma extend_app ctx l l' : extend (extend ctx l) l' = extend ctx (l ++ l').
Proof. destruct ctx as [? ? v]. unfold extend, update, c_v_update. cbn. by rewrite app_assoc. Qed.

Definition block_arg : Z := if p_has_blocks p then -1 else 0.

Lemma single_block s : p_has_blocks p = false -> p_first_block p = 0 /\ nblocks p s = 1%nat.
Proof using source Hp.
  intros H. destruct (proj1 (Forall_forall _ _) source_single p Hp) as [_ Hb]. by destruct (Hb H) as [? ?].
Qed.

Lemma set_there fuel s quiet ctx d : p_first_set p <= s < p_first_set p + Z.of_nat (nsets p) ->
  (nblocks p s < fuel)%nat -> inv d ->
  exists rc cb d', block_loop fuel i p s block_arg (p_first_block p) quiet ctx d =
    Ok (GetLoop rc cb true, extend ctx (set_values i p s), d') /\ (rc = 0 \/ cb <> p_first_block p) /\ inv d'.
Proof using source Hp memory.
  intros Hs Hf Hi. pose proof (proj1 (Forall_forall _ _) source_blocks p Hp s) as Hn1.
  unfold block_arg, set_values. destruct (p_has_blocks p) eqn:Eb.
  - destruct (block_loop_run fuel s Hs (p_first_block p) quiet ctx d) as (rc & d' & E & Hr & Hi'); [lia | by left | lia | done |].
    exists rc, (p_first_block p + Z.of_nat (nblocks p s)), d'. rewrite E.
    replace (p_first_block p + Z.of_nat (nblocks p s) - p_first_block p) with (Z.of_nat (nblocks p s)) by lia.
    split; [done |]. split; [right; lia | done].
  - destruct (single_block s Eb) as [E0 E1]. rewrite E0, E1 in *. destruct fuel as [|fuel]; [lia |]. cbn [block_loop].
    destruct (memory (sizeof_cfgp_data + p_size p)) as [blk Em]; rewrite Em.
    assert (in_scan s 0) as Hin by (unfold in_scan; rewrite E0, E1; lia). destruct (get_run s 0 quiet d Hin Hi) as (rc & data & d1 & out & E & Hi1 & Hx). rewrite (M_bind_run _ _ _ _ _ E).
    pose proof (avail s 0 Hin) as Ha. rewrite E0, E1 in Ha.
    destruct (item p s 0) as [x|] eqn:Ex; [| exfalso; destruct (proj2 Ha ltac:(lia)); done].
    destruct Hx as [Hr0 Hd0]; subst rc data. exists 0, 1, d1. split; [| split; [by left | done]].
    change (seqZ 0 (Z.of_nat 1)) with [0]. cbn [map]. unfold value_of. by rewrite Ex.
Qed.

Lemma set_missing fuel s quiet ctx d : s = p_first_set p + Z.of_nat (nsets p) -> (0 < fuel)%nat -> inv d ->
  exists rc d', block_loop fuel i p s block_arg (p_first_block p) quiet ctx d =
    Ok (if quiet then GetLoop rc (p_first_block p) true else GetReturn rc, ctx, d') /\ rc <> 0 /\ inv d'.
Proof using source Hp memory.
  intros Hs Hf Hi. pose proof (proj1 (Forall_forall _ _) source_blocks p Hp s) as Hn1. cbv beta in Hn1.
  destruct fuel as [|fuel]; [lia |]. cbn [block_loop].
  destruct (memory (sizeof_cfgp_data + p_size p)) as [blk Em]; rewrite Em.
  assert (in_scan s (p_first_block p)) as Hin by (unfold in_scan; lia).
  destruct (get_run s (p_first_block p) quiet d Hin Hi) as (rc & data & d1 & out & E & Hi1 & Hx). rewrite (M_bind_run _ _ _ _ _ E).
  pose proof (avail s (p_first_block p) Hin) as Ha.
  destruct (item p s (p_first_block p)) as [x|]; [exfalso; destruct (proj1 Ha ltac:(done)); lia |].
  rewrite (proj2 (Z.eqb_neq rc 0)) by done. exists rc, d1. by destruct quiet.
Qed.

(** The first block and the first set. *)
Lemma first_block_arg : (if block_arg =? -1 then p_first_block p else block_arg) = p_first_block p.
Proof using source Hp. unfold block_arg. destruct (p_has_blocks p) eqn:Eb; [done |]. by destruct (single_block 0 Eb) as [-> _]. Qed.

Lemma first_set_arg : let set := if negb (p_is_set p) then 0 else -1 in (if set =? -1 then p_first_set p else set) = p_first_set p.
Proof using source Hp.
  destruct (p_is_set p) eqn:Es; [done |]. destruct (proj1 (Forall_forall _ _) source_single p Hp) as [H1 _].
  by destruct (H1 Es) as [-> _].
Qed.

Lemma size_nonzero : (p_size p =? 0) = false.
Proof using source Hp. pose proof (proj1 (Forall_forall _ _) source_size p Hp) as H. cbv beta in H. apply Z.eqb_neq. lia. Qed.

Context (B : nat) (HB : forall s, (nblocks p s <= B)%nat).

Lemma set_loop_run fuel : forall s quiet ctx d,
  p_first_set p <= s <= p_first_set p + Z.of_nat (nsets p) ->
  (quiet = true \/ s < p_first_set p + Z.of_nat (nsets p)) ->
  (Z.to_nat (p_first_set p + Z.of_nat (nsets p) - s) + B < fuel)%nat -> inv d ->
  exists d', set_loop fuel i p (-1) s block_arg quiet ctx d =
    Ok (0, extend ctx (flat_map (set_values i p) (seqZ s (p_first_set p + Z.of_nat (nsets p) - s))), d') /\ inv d'.
Proof using source Hp memory HB.
  induction fuel as [|fuel IH]; intros s quiet ctx d Hs Hq Hf Hi; [lia |]. cbn [set_loop].
  rewrite first_block_arg. pose proof (HB s) as HBs.
  destruct (Z.eq_dec s (p_first_set p + Z.of_nat (nsets p))) as [Es|Es].
  - destruct Hq as [Hq|Hq]; [| lia]. destruct (set_missing (S fuel) s quiet ctx d) as (rc & d' & E & Hr & Hi'); [lia | lia | done |].
    rewrite (M_bind_run _ _ _ _ _ E), Hq, Z.eqb_refl, (proj2 (Z.eqb_neq rc 0)) by done. cbn [negb andb].
    exists d'. rewrite Es, Z.sub_diag. change (seqZ _ 0) with (@nil Z). cbn [flat_map]. by rewrite extend_nil.
  - destruct (set_there (S fuel) s quiet ctx d) as (rc & cb & d' & E & Hr & Hi'); [lia | lia | done |].
    rewrite (M_bind_run _ _ _ _ _ E).
    replace (negb (rc =? 0) && (cb =? p_first_block p)) with false.
    2: { symmetry. apply andb_false_iff. destruct Hr as [->|Hr]; [by left | right; by apply Z.eqb_neq]. }
    change (-1 =? -1) with true. cbv match.
    destruct (IH (s + 1) true (extend ctx (set_values i p s)) d') as (d2 & E2 & Hi2); [lia | by left | lia | done |].
    exists d2. split; [| done]. etransitivity; [exact E2 |]. rewrite extend_app.
    rewrite (seqZ_snoc_cons s) by lia. cbn [flat_map].
    by replace (p_first_set p + Z.of_nat (nsets p) - s - 1) with (p_first_set p + Z.of_nat (nsets p) - (s + 1)) by lia.
Qed.

(** A parameter that was asked for and is not there. *)
Lemma get_param_missing fuel ctx d : nsets p = O -> (0 < fuel)%nat -> inv d ->
  exists d' rc, cfgp_get_param fuel ctx i p (-1) (-1) false d = Ok (rc, ctx, d') /\ rc <> 0 /\ inv d'.
Proof using source Hp memory.
  intros En Hf Hi. unfold cfgp_get_param. rewrite size_nonzero. change (-1 =? -1) with true. cbn [andb].
  replace (if negb (p_has_blocks p) then 0 else -1) with block_arg by (unfold block_arg; by destruct (p_has_blocks p)).
  rewrite first_set_arg. destruct fuel as [|fuel]; [lia |]. cbn [set_loop]. rewrite first_block_arg.
  destruct (set_missing (S fuel) (p_first_set p) false ctx d) as (rc & d' & E & Hr & Hi'); [lia | lia | done |].
  exists d', rc. by rewrite (M_bind_run _ _ _ _ _ E).
Qed.

(** A parameter with all its values, or none. *)
Lemma get_param_run fuel quiet ctx d : (quiet = true \/ (1 <= nsets p)%nat) -> (nsets p + B < fuel)%nat -> inv d ->
  exists d', cfgp_get_param fuel ctx i p (-1) (-1) quiet d = Ok (0, extend ctx (param_values i p), d') /\ inv d'.
Proof using source Hp memory HB.
  intros Hq Hf Hi. unfold cfgp_get_param. rewrite size_nonzero. change (-1 =? -1) with true. cbn [andb].
  replace (if negb (p_has_blocks p) then 0 else -1) with block_arg by (unfold block_arg; by destruct (p_has_blocks p)).
  destruct (p_is_set p) eqn:Es; cbn [negb].
  - change (-1 =? -1) with true. cbv match.
    destruct (set_loop_run fuel (p_first_set p) quiet ctx d) as (d' & E & Hi'); [lia | destruct Hq; [by left | right; lia] | lia | done |].
    exists d'. split; [| done]. rewrite E. unfold param_values.
    by replace (p_first_set p + Z.of_nat (nsets p) - p_first_set p) with (Z.of_nat (nsets p)) by lia.
  - destruct (proj1 (Forall_forall _ _) source_single p Hp) as [H1 _]. destruct (H1 Es) as [E0 E1].
    change (0 =? -1) with false. cbv match. destruct fuel as [|fuel]; [lia |]. cbn [set_loop].
    rewrite first_block_arg. pose proof (HB 0) as HB0. unfold param_values. rewrite E0.
    assert (nsets p = 0%nat \/ nsets p = 1%nat) as [En|En] by lia; rewrite En.
    + destruct Hq as [Hq|Hq]; [subst quiet | lia].
      destruct (set_missing (S fuel) 0 true ctx d) as (rc & d' & E & Hr & Hi'); [lia | lia | done |].
      rewrite (M_bind_run _ _ _ _ _ E), Z.eqb_refl, (proj2 (Z.eqb_neq rc 0)) by done.
      exists d'. cbn. by rewrite extend_nil.
    + destruct (set_there (S fuel) 0 quiet ctx d) as (rc & cb & d' & E & Hr & Hi'); [lia | lia | done |].
      rewrite (M_bind_run _ _ _ _ _ E). exists d'.
      replace (negb (rc =? 0) && (cb =? p_first_block p)) with false.
      2: { symmetry. apply andb_false_iff. destruct Hr as [->|Hr]; [by left | right; by apply Z.eqb_neq]. }
      change (seqZ 0 (Z.of_nat 1)) with [0]. cbn [flat_map]. by rewrite app_nil_r.
Qed.
End Param.

(** The values of all parameters that can be read, in the order of the table. *)
Fixpoint all_values (i : Z) (l : list ipmi_cfgp) : list cfgp_data :=
  match l with
  | [] => []
  | p :: l => (if bool_decide (p_access p = CFGP_WRONLY) then [] else param_values i p) ++ all_values (i + 1) l
  end.

Context (B : nat) (HB : forall p s, p ∈ params -> (nsets p + nblocks p s <= B)%nat).

Lemma param_bound p : p ∈ params -> (nsets p <= B)%nat /\ forall s, (nblocks p s <= B)%nat.
Proof using HB. intros Hp. split; [specialize (HB p 0 Hp); lia |]. intros s. specialize (HB p s Hp). lia. Qed.

Lemma get_all_run fuel : (2 * B < fuel)%nat -> forall l i ctx d, l ⊆ params -> inv d ->
  exists d', get_all fuel i l (mk_sel (-1) (-1) (-1)) ctx d = Ok (0, extend ctx (all_values i l), d') /\ inv d'.
Proof using source memory HB.
  intros Hf. induction l as [|p l IH]; intros i ctx d Hl Hi; [exists d; by rewrite extend_nil |]. cbn [get_all all_values].
  assert (p ∈ params) as Hp by (apply Hl; by left). assert (l ⊆ params) as Hl' by (intros x Hx; apply Hl; by right).
  case_bool_decide; [by apply IH |]. destruct (param_bound p Hp) as [HB1 HB2].
  destruct (get_param_run i p Hp B HB2 fuel true ctx d) as (d1 & E & Hi1); [by left | lia | done |].
  cbn [sel_set sel_block]. rewrite (M_bind_run _ _ _ _ _ E). cbn [Z.eqb negb].
  destruct (IH (i + 1) (extend ctx (param_values i p)) d1 Hl' Hi1) as (d2 & E2 & Hi2). exists d2. split; [| done].
  etransitivity; [exact E2 |]. by rewrite extend_app.
Qed.

(** C32. Reading the configuration: every value that the controller has of a
    parameter, of all its sets and blocks, is put into the list exactly once, in
    the order of the table and of the selectors; a parameter that is not there
    is left out when all of them are read, and an error when it was asked for.
    The scan of the sets and blocks ends at the first that is missing. *)
Theorem cfgp_get_complete fuel ctx d : c_set ctx = params -> (2 * B < fuel)%nat -> inv d ->
  (exists d', ipmi_cfgp_get fuel ctx (mk_sel (-1) (-1) (-1)) d = Ok (0, extend ctx (all_values 0 params), d') /\ inv d') /\
  (forall i p, 0 <= i -> params !! Z.to_nat i = Some p ->
    exists d', ipmi_cfgp_get fuel ctx (mk_sel i (-1) (-1)) d =
      Ok (if (nsets p =? 0)%nat then -1 else 0, extend ctx (param_values i p), d') /\ inv d').
Proof using source memory HB.
  intros Hset Hf Hi. split; [unfold ipmi_cfgp_get; rewrite Hset; by apply get_all_run |].
  intros i p Hi0 Hp. assert (p ∈ params) as Hin by (by eapply list_elem_of_lookup_2). destruct (param_bound p Hin) as [HB1 HB2].
  assert (i < zlen params) as Hlt by (apply lookup_lt_Some in Hp; unfold zlen; lia).
  unfold ipmi_cfgp_get. cbn [sel_param sel_set sel_block]. rewrite (proj2 (Z.eqb_neq i (-1))), Hset by lia.
  rewrite (proj2 (Z.leb_gt _ _)) by lia. unfold cfgp_param. rewrite Hset, Hp. cbn [negb or_oob]. rewrite lift_Ok_bind.
  destruct (Nat.eqb_spec (nsets p) 0) as [En|En].
  - destruct (get_param_missing i p Hin fuel ctx d) as (d' & rc & E & Hr & Hi'); [done | lia | done |].
    rewrite (M_bind_run _ _ _ _ _ E), (proj2 (Z.eqb_neq rc 0)) by done. exists d'. unfold param_values. rewrite En.
    cbn. by rewrite extend_nil.
  - destruct (get_param_run i p Hin B HB2 fuel false ctx d) as (d' & E & Hi'); [right; lia | lia | done |].
    rewrite (M_bind_run _ _ _ _ _ E). by exists d'.
Qed.
End Engine.
