(* ===== verification/Lanp6.v ===== *)
(** * IPv6 configuration of LAN channels (lib/ipmi_lanp6.c)

    The table of parameters, reading and writing them on the controller, their
    conversion from the words of a command and to a saved line, and the command
    itself.  The text of "lan6 print" is not modelled.  [inet_pton] and
    [inet_ntop] of the operating system are the class [Inet6]. *)

From stdpp Require Import strings.
From S2P Require Import Prelude Wire Ipmi Intf Session Helper CText Bmc Channel Cfgp.

#[local] Open Scope Z_scope.

Definition IPMI_LAN_SET_CONFIG : Z := 0x01.
Definition IPMI_GET_CHANNEL_INFO : Z := 0x42.
Definition IPMI_CHANNEL_NUMBER_MAX : Z := 0xe.
Definition IPMI_CHANNEL_MEDIUM_RESERVED : Z := 0x0.
Definition IPMI_CHANNEL_MEDIUM_LAN : Z := 0x4.
Definition IPMI_CHANNEL_MEDIUM_LAN_OTHER : Z := 0x6.
Definition IPMI_LANP_IP6_SUPPORT : Z := 50.
Definition IPMI_LANP_IP6_ENABLES : Z := 51.
Definition IPMI_LANP_IP6_TRAFFIC_CLASS : Z := 52.
Definition IPMI_LANP_IP6_STATIC_HOPS : Z := 53.
Definition IPMI_LANP_IP6_FLOW_LABEL : Z := 54.
Definition IPMI_LANP_IP6_STATUS : Z := 55.
Definition IPMI_LANP_IP6_STATIC_ADDR : Z := 56.
Definition IPMI_LANP_IP6_STATIC_DUID_STG : Z := 57.
Definition IPMI_LANP_IP6_STATIC_DUID : Z := 58.
Definition IPMI_LANP_IP6_DYNAMIC_ADDR : Z := 59.
Definition IPMI_LANP_IP6_DYNAMIC_DUID_STG : Z := 60.
Definition IPMI_LANP_IP6_DYNAMIC_DUID : Z := 61.
Definition IPMI_LANP_IP6_DHCP6_CFG_SUP : Z := 62.
Definition IPMI_LANP_IP6_DHCP6_CFG : Z := 63.
Definition IPMI_LANP_IP6_ROUTER_CFG : Z := 64.
Definition IPMI_LANP_IP6_STATIC_RTR1_ADDR : Z := 65.
Definition IPMI_LANP_IP6_STATIC_RTR2_ADDR : Z := 69.
Definition IPMI_LANP_IP6_NUM_DYNAMIC_RTRS : Z := 73.
Definition IPMI_LANP_IP6_DYNAMIC_RTR_ADDR : Z := 74.
Definition IPMI_LANP_IP6_DYNAMIC_HOPS : Z := 78.
Definition IPMI_LANP_IP6_NDSLAAC_CFG_SUP : Z := 79.
Definition IPMI_LANP_IP6_NDSLAAC_CFG : Z := 80.

(** [generic_lanp6]: selector, name and size. *)
Definition generic_lanp6 : list (Z * string * Z) := [
  (0, "Set In Progress", 1);
  (50, "IPv6/IPv4 Support", 1);
  (51, "IPv6/IPv4 Addressing Enables", 1);
  (52, "IPv6 Header Traffic Class", 1);
  (53, "IPv6 Header Static Hop Limit", 1);
  (54, "IPv6 Header Flow Label", 3);
  (55, "IPv6 Status", 3);
  (56, "IPv6 Static Address", 20);
  (57, "IPv6 DHCPv6 Static DUID Storage Length", 1);
  (58, "IPv6 DHCPv6 Static DUID", 18);
  (59, "IPv6 Dynamic Address", 20);
  (60, "IPv6 DHCPv6 Dynamic DUID Storage Length", 1);
  (61, "IPv6 DHCPv6 Dynamic DUID", 18);
  (62, "IPv6 DHCPv6 Timing Configuration Support", 1);
  (63, "IPv6 DHCPv6 Timing Configuration", 18);
  (64, "IPv6 Router Address Configuration Control", 1);
  (65, "IPv6 Static Router 1 IP Address", 16);
  (66, "IPv6 Static Router 1 MAC Address", 6);
  (67, "IPv6 Static Router 1 Prefix Length", 1);
  (68, "IPv6 Static Router 1 Prefix Value", 16);
  (69, "IPv6 Static Router 2 IP Address", 16);
  (70, "IPv6 Static Router 2 MAC Address", 6);
  (71, "IPv6 Static Router 2 Prefix Length", 1);
  (72, "IPv6 Static Router 2 Prefix Value", 16);
  (73, "IPv6 Number of Dynamic Router Info Sets", 1);
  (74, "IPv6 Dynamic Router Info IP Address", 17);
  (75, "IPv6 Dynamic Router Info MAC Address", 7);
  (76, "IPv6 Dynamic Router Info Prefix Length", 2);
  (77, "IPv6 Dynamic Router Info Prefix Value", 17);
  (78, "IPv6 Dynamic Router Received Hop Limit", 1);
  (79, "IPv6 ND/SLAAC Timing Configuration Support", 1);
  (80, "IPv6 ND/SLAAC Timing Configuration", 18)]%string.

(** [lookup_lanp]: the size of the parameter. *)
Fixpoint lookup_lanp_in (l : list (Z * string * Z)) (param : Z) : option Z :=
  match l with
  | [] => None
  | (selector, _, size) :: l => if selector =? param then Some size else lookup_lanp_in l param
  end.
Definition lookup_lanp : Z -> option Z := lookup_lanp_in generic_lanp6.

Definition ip6_enable_vals : list (Z * list Z) := [(0, text "ipv4"); (1, text "ipv6"); (2, text "both")].
Definition ip6_addr_enable_vals : list (Z * list Z) := [(0x00, text "disable"); (0x80, text "enable")].
Definition ip6_addr_sources : list (Z * list Z) := [(0, text "static"); (1, text "SLAAC"); (2, text "DHCPv6")].
Definition ip6_addr_statuses : list (Z * list Z) :=
  [(0, text "active"); (1, text "disabled"); (2, text "pending"); (3, text "failed"); (4, text "deprecated"); (5, text "invalid")].
Definition ip6_rtr_configs : list (Z * list Z) := [(1, text "static"); (2, text "dynamic"); (3, text "both")].

(** The commands. *)
Definition LANP_CMD_SAVE : Z := 0.
Definition LANP_CMD_SET : Z := 1.
Definition LANP_CMD_PRINT : Z := 2.
Definition LANP_CMD_LOCK : Z := 3.
Definition LANP_CMD_COMMIT : Z := 4.
Definition LANP_CMD_DISCARD : Z := 5.
Definition LANP_CMD_HELP : Z := 6.
Definition LANP_CMD_ANY : Z := 0xFF.

Definition ip6_command_vals : list (Z * list Z) :=
  [(LANP_CMD_SET, text "set"); (LANP_CMD_SAVE, text "save"); (LANP_CMD_PRINT, text "print"); (LANP_CMD_LOCK, text "lock");
   (LANP_CMD_COMMIT, text "commit"); (LANP_CMD_DISCARD, text "discard"); (LANP_CMD_HELP, text "help")].

(** [lan_cfgp] *)
Definition lan_cfgp : list ipmi_cfgp := [
  mk_cfgp "support" None 1 CFGP_RDONLY false 0 false 0 IPMI_LANP_IP6_SUPPORT;
  mk_cfgp "enables" (Some "{ipv4|ipv6|both}") 1 CFGP_RDWR false 0 false 0 IPMI_LANP_IP6_ENABLES;
  mk_cfgp "traffic_class" (Some "<value>") 1 CFGP_RDWR false 0 false 0 IPMI_LANP_IP6_TRAFFIC_CLASS;
  mk_cfgp "static_hops" (Some "<value>") 1 CFGP_RDWR false 0 false 0 IPMI_LANP_IP6_STATIC_HOPS;
  mk_cfgp "flow_label" (Some "<value>") 3 CFGP_RDWR false 0 false 0 IPMI_LANP_IP6_FLOW_LABEL;
  mk_cfgp "status" None 3 CFGP_RDONLY false 0 false 0 IPMI_LANP_IP6_STATUS;
  mk_cfgp "static_addr" (Some "{enable|disable} <addr> <pfx_len>") 20 CFGP_RDWR true 0 false 0 IPMI_LANP_IP6_STATIC_ADDR;
  mk_cfgp "static_duid_stg" None 1 CFGP_RDONLY false 0 false 0 IPMI_LANP_IP6_STATIC_DUID_STG;
  mk_cfgp "static_duid" (Some "<data>") 18 CFGP_RDWR true 0 true 0 IPMI_LANP_IP6_STATIC_DUID;
  mk_cfgp "dynamic_addr" None 20 CFGP_RDONLY true 0 false 0 IPMI_LANP_IP6_DYNAMIC_ADDR;
  mk_cfgp "dynamic_duid_stg" None 1 CFGP_RDONLY false 0 false 0 IPMI_LANP_IP6_DYNAMIC_DUID_STG;
  mk_cfgp "dynamic_duid" (Some "<data>") 18 CFGP_RDWR true 0 true 0 IPMI_LANP_IP6_DYNAMIC_DUID;
  mk_cfgp "dhcp6_cfg_sup" None 1 CFGP_RDONLY false 0 false 0 IPMI_LANP_IP6_DHCP6_CFG_SUP;
  mk_cfgp "dhcp6_cfg" (Some "<data> <data>") 36 CFGP_RDWR true 0 false 0 IPMI_LANP_IP6_DHCP6_CFG;
  mk_cfgp "rtr_cfg" (Some "{static|dynamic|both}") 1 CFGP_RDWR false 0 false 0 IPMI_LANP_IP6_ROUTER_CFG;
  mk_cfgp "static_rtr" (Some "<addr> <macaddr> <prefix> <prefix_len>") 43 CFGP_RDWR true 1 false 0 IPMI_LANP_IP6_STATIC_RTR1_ADDR;
  mk_cfgp "num_dynamic_rtrs" None 1 CFGP_RDONLY false 0 false 0 IPMI_LANP_IP6_NUM_DYNAMIC_RTRS;
  mk_cfgp "dynamic_rtr" None 43 CFGP_RDONLY true 0 false 0 IPMI_LANP_IP6_DYNAMIC_RTR_ADDR;
  mk_cfgp "dynamic_hops" None 1 CFGP_RDONLY false 0 false 0 IPMI_LANP_IP6_DYNAMIC_HOPS;
  mk_cfgp "ndslaac_cfg_sup" None 1 CFGP_RDONLY false 0 false 0 IPMI_LANP_IP6_NDSLAAC_CFG_SUP;
  mk_cfgp "ndslaac_cfg" (Some "<data>") 18 CFGP_RDWR true 0 false 0 IPMI_LANP_IP6_NDSLAAC_CFG].

(** Addresses as text: [inet_ntop] of sixteen bytes, and [inet_pton], which
    stores sixteen bytes. *)
Class Inet6 := { inet_ntop : list Z -> list Z; inet_pton : list Z -> option (list Z) }.

(** What [buf2str] and [mac2str] give, as a string. *)
Definition hex_string (buf : list Z) : res (list Z) :=
  str ← or_oob (buf2str (Some buf) (zeros BUF2STR_MAXIMUM_OUTPUT_SIZE)); Ok (c_string str).
Definition mac_string (buf : list Z) : res (list Z) :=
  str ← or_oob (mac2str buf (zeros BUF2STR_MAXIMUM_OUTPUT_SIZE)); Ok (c_string str).

Section Lanp6.
Context {dev : Type} {bmc : Bmc dev} {inet : Inet6} (channel : Z).

(** ** Parameters on the controller *)

(** [ipmi_lanp_err], whose other part is the log: -1 without a response. *)
Definition ipmi_lanp_err (rsp : option ipmi_rs) : Z := match rsp with Some r => ccode r | None => -1 end.

(** [ipmi_get_lanp], with [ipmi_get_dynamic_oem_lanp]: the code and the bytes
    that are stored.  A response without data has the length -1 and is copied
    as [(size_t)-1] bytes. *)
Definition ipmi_get_lanp (param set_selector block_selector : Z) : M dev (Z * list Z) :=
  match lookup_lanp param with
  | None => mret (-1, [])
  | Some size =>
      rsp ← sendrecv (mk_rq IPMI_NETFN_TRANSPORT 0 IPMI_LAN_GET_CONFIG 0
        [u8 channel; u8 param; u8 set_selector; u8 block_selector]);
      match rsp with
      | Some r =>
          if negb (ccode r =? 0) then mret (ipmi_lanp_err rsp, []) else
          let length := Z.min (rs_data_len r - 1) size in
          bytes ← (if length =? 0 then mret [] else lift (rsp_bytes r 1 length));
          mret (0, bytes ++ zeros (size - length))
      | None => mret (ipmi_lanp_err rsp, [])
      end
  end.

(** [ipmi_set_lanp] of the bytes at [off], with [ipmi_set_dynamic_oem_lanp]. *)
Definition ipmi_set_lanp (param : Z) (data : list Z) (off : Z) : M dev Z :=
  match lookup_lanp param with
  | None => mret (-1)
  | Some size =>
      bytes ← lift (slx data off size);
      if 32 <? size + 2 then fail OutOfBounds else
      rsp ← sendrecv (mk_rq IPMI_NETFN_TRANSPORT 0 IPMI_LAN_SET_CONFIG 0 ([u8 channel; u8 param] ++ bytes));
      mret (ipmi_lanp_err rsp)
  end.

(** The parts of a parameter, one after the other while they succeed: the
    parameter of the controller and the offset in the data block, with the
    block selector for those that are read. *)
Fixpoint get_parts (set : Z) (parts : list (Z * Z * Z)) (data : list Z) : M dev (Z * list Z) :=
  match parts with
  | [] => mret (0, data)
  | (param, block, off) :: parts =>
      '(ret, bytes) ← ipmi_get_lanp param set block;
      if negb (ret =? 0) then mret (ret, data) else
      data ← lift (or_oob (wr data off bytes));
      get_parts set parts data
  end.

Fixpoint set_parts (parts : list (Z * Z)) (data : list Z) : M dev Z :=
  match parts with
  | [] => mret 0
  | (param, off) :: parts =>
      ret ← ipmi_set_lanp param data off;
      if negb (ret =? 0) then mret ret else set_parts parts data
  end.

Definition router_parts (param off : Z) : list (Z * Z) :=
  [(param, 0 + off); (param + 1, 17 + off); (param + 2, 24 + off); (param + 3, 26 + off)].

(** [data[0] = data[17] = data[24] = data[26] = set] *)
Definition router_set (set : Z) (data : list Z) : res (list Z) :=
  data ← or_oob (wr data 26 [u8 set]); data ← or_oob (wr data 24 [u8 set]);
  data ← or_oob (wr data 17 [u8 set]); or_oob (wr data 0 [u8 set]).

(** [lanp_get_cfgp] *)
Definition lanp_get_cfgp (p : ipmi_cfgp) (set block : Z) (data : list Z) : M dev (Z * list Z) :=
  let param := p_specific p in
  if param =? IPMI_LANP_IP6_DHCP6_CFG then get_parts set [(param, 0, 0); (param, 1, 18)] data
  else if param =? IPMI_LANP_IP6_STATIC_RTR1_ADDR then
    if 2 <? set then mret (-1, data) else
    let param := if set =? 2 then IPMI_LANP_IP6_STATIC_RTR2_ADDR else param in
    data ← lift (router_set 0 data);
    get_parts 0 (map (fun '(param, off) => (param, block, off)) (router_parts param 1)) data
  else if param =? IPMI_LANP_IP6_DYNAMIC_RTR_ADDR then
    get_parts set (map (fun '(param, off) => (param, block, off)) (router_parts param 0)) data
  else get_parts set [(param, block, 0)] data.

(** [lanp_set_cfgp] *)
Definition set_parts_of (param : Z) (data : list Z) : list (Z * Z) :=
  if param =? IPMI_LANP_IP6_DHCP6_CFG then [(param, 0); (param, 18)]
  else if param =? IPMI_LANP_IP6_STATIC_RTR1_ADDR then
    router_parts (if rd data 0 =? 2 then IPMI_LANP_IP6_STATIC_RTR2_ADDR else param) 1
  else if param =? IPMI_LANP_IP6_DYNAMIC_RTR_ADDR then router_parts param 0
  else [(param, 0)].

Definition lanp_set_cfgp (p : ipmi_cfgp) (data : list Z) : M dev Z := set_parts (set_parts_of (p_specific p) data) data.

(** ** Parameters as words *)

(** A word that has to be in a table: 0xff is the value of none. *)
Definition named (vs : list (Z * list Z)) (last : Z) (arg : list Z) : option Z :=
  let v := u8 (str2val arg vs last) in if v =? 0xFF then None else Some v.

(** A word that has to be a byte. *)
Definition byte_arg (arg : list Z) : option Z := match str2uchar (Some arg) with (rc, v) => if rc =? 0 then v else None end.

(** [ipmi_parse_hex] into [size] bytes of the block. *)
Definition hex_arg (arg : list Z) (data : list Z) (off size : Z) : res (option (list Z)) :=
  '(rc, out) ← or_oob (ipmi_parse_hex arg (Some (slice data off size)) size);
  if rc <? 0 then Ok None else data ← or_oob (wr data off (default [] out)); Ok (Some data).

(** A value that is refused ends the function with -1. *)
Definition need {A} (o : option A) (data : list Z) (f : A -> res (Z * list Z)) : res (Z * list Z) :=
  match o with Some a => f a | None => Ok (-1, data) end.

Definition put (data : list Z) (off : Z) (bytes : list Z) : res (list Z) := or_oob (wr data off bytes).

Definition parse_addr (param set : Z) (argv : list (list Z)) (data : list Z) : res (Z * list Z) :=
  match argv with
  | a0 :: a1 :: a2 :: argv =>
      data ← put data 0 [u8 set];
      need (if param =? IPMI_LANP_IP6_STATIC_ADDR then named ip6_addr_enable_vals 0xFF a0 else named ip6_addr_sources 0 a0)
        data (fun v =>
      data ← put data 1 [v];
      need (inet_pton a1) data (fun addr =>
      data ← put data 2 addr;
      need (byte_arg a2) data (fun len =>
      data ← put data 18 [len];
      match argv with
      | a3 :: _ => data ← put data 19 [u8 (str2val a3 ip6_addr_statuses 0xFF)]; Ok (0, data)
      | [] => Ok (0, data)
      end)))
  | _ => Ok (-1, data)
  end.

Definition parse_router (set : Z) (argv : list (list Z)) (data : list Z) : res (Z * list Z) :=
  match argv with
  | a0 :: a1 :: a2 :: a3 :: _ =>
      data ← router_set set data;
      need (inet_pton a0) data (fun addr =>
      data ← put data 1 addr;
      match str2mac a1 with
      | (rc, mac) =>
          if negb (rc =? 0) then Ok (-1, data) else
          data ← put data 18 (default [] mac);
          need (inet_pton a2) data (fun pfx =>
          data ← put data 27 pfx;
          need (byte_arg a3) data (fun len => data ← put data 25 [len]; Ok (0, data)))
      end)
  | _ => Ok (-1, data)
  end.

(** [lanp_parse_cfgp] *)
Definition lanp_parse_cfgp (p : ipmi_cfgp) (set block : Z) (argv : list (list Z)) (data : list Z) : res (Z * list Z) :=
  let param := p_specific p in
  match argv with
  | [] => Ok (-1, data)
  | a0 :: rest =>
      if param =? IPMI_LANP_IP6_ENABLES then
        need (named ip6_enable_vals 0xFF a0) data (fun v => data ← put data 0 [v]; Ok (0, data))
      else if param =? IPMI_LANP_IP6_FLOW_LABEL then
        match str2uint (Some a0) with
        | (rc, v) =>
            let v := default 0 v in
            if negb (rc =? 0) then Ok (-1, data) else
            data ← put data 0 [(v .>> 16) .& 0x0F; (v .>> 8) .& 0xFF; v .& 0xFF]; Ok (0, data)
        end
      else if param =? IPMI_LANP_IP6_STATUS then
        match rest with
        | a1 :: a2 :: _ =>
            need (byte_arg a0) data (fun v0 => need (byte_arg a1) data (fun v1 => need (byte_arg a2) data (fun v2 =>
            data ← put data 0 [v0; v1; v2]; Ok (0, data))))
        | _ => Ok (-1, data)
        end
      else if (param =? IPMI_LANP_IP6_STATIC_ADDR) || (param =? IPMI_LANP_IP6_DYNAMIC_ADDR) then parse_addr param set argv data
      else if (param =? IPMI_LANP_IP6_STATIC_DUID) || (param =? IPMI_LANP_IP6_DYNAMIC_DUID) ||
              (param =? IPMI_LANP_IP6_NDSLAAC_CFG) then
        data ← put data 0 [u8 set; u8 block];
        d ← hex_arg a0 data 2 16;
        need d data (fun data => Ok (0, data))
      else if param =? IPMI_LANP_IP6_DHCP6_CFG then
        data ← put data 0 [u8 set; 0]; data ← put data 18 [u8 set; 1];
        d ← hex_arg a0 data 2 16;
        need d data (fun data =>
        match rest with
        | a1 :: _ => d ← hex_arg a1 data 20 6; need d data (fun data => Ok (0, data))
        | [] => Ok (0, data)
        end)
      else if param =? IPMI_LANP_IP6_ROUTER_CFG then
        need (named ip6_rtr_configs 0xFF a0) data (fun v => data ← put data 0 [v]; Ok (0, data))
      else if param =? IPMI_LANP_IP6_STATIC_RTR1_ADDR then
        if 2 <? set then Ok (-1, data) else parse_router set argv data
      else if param =? IPMI_LANP_IP6_DYNAMIC_RTR_ADDR then parse_router set argv data
      else need (byte_arg a0) data (fun v => data ← put data 0 [v]; Ok (0, data))
  end.

(** [lanp_save_cfgp]: the words of a saved line.  An unknown value has its text
    in a static array, which a second unknown value of the line overwrites. *)
Definition lanp_save_cfgp (p : ipmi_cfgp) (data : list Z) : res (list Z) :=
  let param := p_specific p in
  if param =? IPMI_LANP_IP6_ENABLES then Ok (val2str (rd data 0) ip6_enable_vals)
  else if param =? IPMI_LANP_IP6_FLOW_LABEL then
    Ok (text "0x" ++ lower_hex ((rd data 0 .<< 16) .| (rd data 1 .<< 8) .| rd data 2) ++ text "d")
  else if param =? IPMI_LANP_IP6_STATUS then
    Ok (dec (rd data 0) ++ text " " ++ dec (rd data 1) ++ text " " ++ dec (rd data 2))
  else if (param =? IPMI_LANP_IP6_STATIC_ADDR) || (param =? IPMI_LANP_IP6_DYNAMIC_ADDR) then
    let vs := if param =? IPMI_LANP_IP6_STATIC_ADDR then ip6_addr_enable_vals else ip6_addr_sources in
    let status := val2str (rd data 19) ip6_addr_statuses in
    let src := if (find_val_idx 0 (rd data 1) vs <? 0) && (find_val_idx 0 (rd data 19) ip6_addr_statuses <? 0)
      then status else val2str (rd data 1) vs in
    addr ← slx data 2 16;
    Ok (src ++ text " " ++ inet_ntop addr ++ text " " ++ dec (rd data 18) ++ text " " ++ status)
  else if (param =? IPMI_LANP_IP6_STATIC_DUID) || (param =? IPMI_LANP_IP6_DYNAMIC_DUID) ||
          (param =? IPMI_LANP_IP6_NDSLAAC_CFG) then
    b ← slx data 2 16; hex_string b
  else if param =? IPMI_LANP_IP6_DHCP6_CFG then
    b ← slx data 2 16; h ← hex_string b; b' ← slx data 20 6; h' ← hex_string b'; Ok (h ++ text " " ++ h')
  else if param =? IPMI_LANP_IP6_ROUTER_CFG then Ok (val2str (rd data 0) ip6_rtr_configs)
  else if (param =? IPMI_LANP_IP6_STATIC_RTR1_ADDR) || (param =? IPMI_LANP_IP6_DYNAMIC_RTR_ADDR) then
    addr ← slx data 1 16; b ← slx data 18 6; mac ← mac_string b; pfx ← slx data 27 16;
    Ok (inet_ntop addr ++ text " " ++ mac ++ text " " ++ inet_ntop pfx ++ text " " ++ dec (rd data 25))
  else Ok (dec (rd data 0)).

(** [lanp_print_cfgp]: its code; the text is not modelled. *)
Definition lanp_print_cfgp (p : ipmi_cfgp) : Z := match lookup_lanp (p_specific p) with Some _ => 0 | None => -1 end.

(** [lanp_ip6_cfgp], the handler of the configuration engine. *)
#[export] Instance lanp_ip6_cfgp : CfgpHandler dev := fun p action data =>
  match a_type action with
  | CFGP_PARSE => '(rc, data) ← lift (lanp_parse_cfgp p (a_set action) (a_block action) (a_argv action) data); mret (rc, data, [])
  | CFGP_GET => '(rc, data) ← lanp_get_cfgp p (a_set action) (a_block action) data; mret (rc, data, [])
  | CFGP_SET => rc ← lanp_set_cfgp p data; mret (rc, data, [])
  | CFGP_SAVE => out ← lift (lanp_save_cfgp p data); mret (0, data, out)
  | CFGP_PRINT => mret (lanp_print_cfgp p, data, [])
  end.

(** ** Set in progress *)

Definition lanp_lock : M dev Z := ipmi_set_lanp 0 [1] 0.
Definition lanp_discard : M dev Z := ipmi_set_lanp 0 [0] 0.
Definition lanp_commit : M dev Z :=
  ret ← ipmi_set_lanp 0 [2] 0;
  if ret =? 0 then lanp_discard else mret ret.

(** ** The command *)

(** [ipmi_cfgp_set] between lock and commit. *)
Definition lan6_set {mal : Malloc} (nolock : bool) (ctx : cfgp_ctx) (sel : cfgp_sel) : M dev Z :=
  ret ← (if nolock then mret 0 else lanp_lock);
  if negb (ret =? 0) then mret ret else
  '(ret, _) ← ipmi_cfgp_set ctx sel;
  if nolock then mret ret else
  if ret =? 0 then lanp_commit else _ ← lanp_discard; mret ret.

(** The name of the command at the start of a saved line: nineteen characters
    of the array [cmd] with the NUL. *)
Definition lan6_cmdname : list Z := take 18 (text "lan6 set " ++ dec channel ++ text " nolock").

Definition lan6_save {mal : Malloc} (fuel : nat) (ctx : cfgp_ctx) (sel : cfgp_sel) : M dev (Z * list Z) :=
  '(ret, ctx) ← ipmi_cfgp_get fuel ctx sel;
  if negb (ret =? 0) then mret (ret, []) else
  '(ret, out) ← ipmi_cfgp_save (ctx <| c_cmdname := lan6_cmdname |>) sel;
  let c := dec channel in
  mret (ret, text "lan6 lock " ++ c ++ [10] ++ out ++ text "lan6 commit " ++ c ++ [10] ++
    text "lan6 discard " ++ c ++ [10] ++ text "exit" ++ [10]).

Definition lan6_print {mal : Malloc} (fuel : nat) (ctx : cfgp_ctx) (sel : cfgp_sel) : M dev (Z * list Z) :=
  '(ret, ctx) ← ipmi_cfgp_get fuel ctx sel;
  if negb (ret =? 0) then mret (ret, []) else ipmi_cfgp_print ctx sel.

(** The commands behind the channel number. *)
Definition lan6_command {mal : Malloc} (fuel : nat) (cmd : Z) (nolock : bool) (argv : list (list Z)) : M dev (Z * list Z) :=
  if cmd =? LANP_CMD_LOCK then r ← lanp_lock; mret (r, [])
  else if cmd =? LANP_CMD_COMMIT then r ← lanp_commit; mret (r, [])
  else if cmd =? LANP_CMD_DISCARD then r ← lanp_discard; mret (r, [])
  else
    let ctx := ipmi_cfgp_init lan_cfgp (text "lan6 set nolock") in
    let '(ret, sel) := ipmi_cfgp_parse_sel ctx argv in
    if ret =? -1 then mret (-1, []) else
    let argv := drop (Z.to_nat ret) argv in
    if cmd =? LANP_CMD_SAVE then lan6_save fuel ctx sel
    else if cmd =? LANP_CMD_PRINT then lan6_print fuel ctx sel
    else if cmd =? LANP_CMD_SET then
      '(ret, ctx) ← ipmi_cfgp_parse_data ctx sel argv;
      if negb (ret =? 0) then mret (ret, []) else
      r ← lan6_set nolock ctx sel; mret (r, [])
    else mret (ret, []).
End Lanp6.

Section Main.
Context {dev : Type} {bmc : Bmc dev} {inet : Inet6} {mal : Malloc}.

(** [ipmi_get_channel_medium], with [_ipmi_get_channel_info] *)
Definition ipmi_get_channel_medium (chan : Z) : M dev Z :=
  rsp ← sendrecv (mk_rq IPMI_NETFN_APP 0 IPMI_GET_CHANNEL_INFO 0 [chan .& 0x0F]);
  match rsp with
  | Some r =>
      if negb (ccode r =? 0) || negb (rs_data_len r =? 9) then mret IPMI_CHANNEL_MEDIUM_RESERVED else
      d ← lift (rsp_bytes r 1 1); mret (rd d 0 .& 0x7F)
  | None => mret IPMI_CHANNEL_MEDIUM_RESERVED
  end.

(** [is_lan_channel] *)
Definition is_lan_channel (chan : Z) : M dev bool :=
  if (chan <? 1) || (IPMI_CHANNEL_NUMBER_MAX <? chan) then mret false else
  medium ← ipmi_get_channel_medium chan;
  mret ((medium =? IPMI_CHANNEL_MEDIUM_LAN) || (medium =? IPMI_CHANNEL_MEDIUM_LAN_OTHER)).

(** [find_lan_channel]: over the channels from [chan] on, 0 for none. *)
Fixpoint find_channel_loop (n : nat) (chan : Z) : M dev Z :=
  match n with
  | O => mret 0
  | S n => lan ← is_lan_channel chan; if lan : bool then mret chan else find_channel_loop n (chan + 1)
  end.
Definition find_lan_channel (start : Z) : M dev Z := find_channel_loop (Z.to_nat (IPMI_CHANNEL_NUMBER_MAX - start)) start.

(** [ipmi_lan6_main]: the code and what it writes to the standard output for a
    shell to read back. *)
Definition ipmi_lan6_main (fuel : nat) (argv : list (list Z)) : M dev (Z * list Z) :=
  match argv with
  | [] => mret (0, [])
  | name :: argv =>
      let cmd := str2val name ip6_command_vals LANP_CMD_ANY in
      if cmd =? LANP_CMD_ANY then mret (-1, [])
      else if cmd =? LANP_CMD_HELP then mret (0, [])
      else match argv with
      | [] =>
          if (cmd =? LANP_CMD_SAVE) || (cmd =? LANP_CMD_PRINT) then
            chan ← find_lan_channel 1;
            if chan =? 0 then mret (-1, []) else lan6_command chan fuel cmd false []
          else mret (-1, [])
      | arg :: argv =>
          match str2int (Some arg) with
          | (rc, chan) =>
              if negb (rc =? 0) then mret (-1, []) else
              let '(nolock, argv) :=
                if cmd =? LANP_CMD_SET then
                  match argv with
                  | a :: rest => if strcaseeq a (text "nolock") then (true, rest) else (false, argv)
                  | [] => (false, argv)
                  end
                else (false, argv) in
              lan6_command (default 0 chan) fuel cmd nolock argv
          end
      end
  end.
End Main.
