(* ===== verification/Shell.v ===== *)
(** * Running a file of commands (ipmi_exec_main of src/ipmishell.c, ipmi_cmd_run
      of lib/ipmi_main.c)

    The interactive shell is not modelled. *)

From stdpp Require Import strings.
From S2P Require Import Prelude Wire Ipmi Intf Session Helper CText Bmc.

#[local] Open Scope Z_scope.

Definition EXEC_BUF_SIZE : Z := 2048.
Definition EXEC_ARG_SIZE : Z := 64.

(** White space between quotes becomes '~'.  Behind an opening quote without its
    end the code leaves the string: a fault. *)
Fixpoint exec_quotes (s : list Z) (quote : option Z) : res (list Z) :=
  match s, quote with
  | [], None => Ok []
  | [], Some _ => Bad OutOfBounds
  | c :: s, Some q =>
      s' ← exec_quotes s (if c =? q then None else Some q);
      Ok ((if negb (c =? q) && isspace c then 126 else c) :: s')
  | c :: s, None =>
      s' ← exec_quotes s (if (c =? 34) || (c =? 39) then Some c else None); Ok (c :: s')
  end.

(** A token without its quotes. *)
Definition exec_unquote (tok : list Z) : list Z :=
  match tok with
  | c :: t => if (c =? 39) || (c =? 34) then map (fun x => if x =? 126 then 32 else x) (until c t) else tok
  | [] => tok
  end.

(** The arguments of a line. *)
Definition exec_args (buf : list Z) : res (list (list Z)) :=
  line ← exec_quotes (until 35 (c_string buf)) None;
  Ok (map exec_unquote (take (Z.to_nat EXEC_ARG_SIZE) (strtok (trim line) []))).

Section Exec.
Context {dev : Type} (cmdlist : list (list Z * (list (list Z) -> M dev Z))).

(** The search of [ipmi_cmd_run]. *)
Fixpoint find_cmd (cmds : list (list Z * (list (list Z) -> M dev Z))) (name : list Z) : option (list (list Z) -> M dev Z) :=
  match cmds with
  | [] => None
  | (n, f) :: cmds => if bool_decide (name = n) then Some f else find_cmd cmds name
  end.

(** [ipmi_cmd_run] *)
Definition ipmi_cmd_run (name : list Z) (argv : list (list Z)) : M dev Z :=
  match find_cmd cmdlist name with
  | Some f => f argv
  | None =>
      match cmdlist with
      | (n, f) :: _ => if bool_decide (n = text "default") then f (name :: argv) else mret (-1)
      | [] => fail OutOfBounds
      end
  end.

(** The loop of [ipmi_exec_main] over the lines. *)
Fixpoint exec_lines (n : nat) (file : list Z) (rc : Z) : M dev Z :=
  match n, file with
  | O, _ => fail OutOfFuel
  | S n, [] => mret rc
  | S n, _ :: _ =>
      let '(buf, file) := fgets (Z.to_nat EXEC_BUF_SIZE) file in
      args ← lift (exec_args buf);
      match args with
      | [] => exec_lines n file rc
      | name :: argv =>
          r ← ipmi_cmd_run name argv;
          exec_lines n file (if negb (r =? 0) then r else rc)
      end
  end.

(** [ipmi_exec_main]; [None] is a file that cannot be read. *)
Definition ipmi_exec_main (file : option (list Z)) : M dev Z :=
  match file with
  | None => mret (-1)
  | Some bytes => exec_lines (S (length bytes)) bytes 0
  end.
End Exec.
