(* ===== verification/Lanp6Props.v ===== *)
(** * Correctness of the IPv6 LAN configuration (lib/ipmi_lanp6.c)

    What "lan6 save" writes, executed as a file of commands, gives another
    controller the parameters of the first. *)

From stdpp Require Import strings.
From S2P Require Import Prelude Wire Ipmi Intf Session Helper CText Bmc Channel Cfgp CfgpProps Lanp6 Shell.

#[local] Open Scope Z_scope.

(** ** Words that a command line keeps as they are *)

Definition plain_char (c : Z) : Prop := isspace c = false /\ c <> 0 /\ c <> 34 /\ c <> 35 /\ c <> 39.
Definition plain_char_b (c : Z) : bool :=
  negb (isspace c) && negb (c =? 0) && negb (c =? 34) && negb (c =? 35) && negb (c =? 39).
Definition plain (n : Z) (t : list Z) : Prop := t <> [] /\ Forall plain_char t /\ zlen t <= n.
Definition plain_b (n : Z) (t : list Z) : bool :=
  negb (bool_decide (t = [])) && forallb plain_char_b t && (zlen t <=? n).

Lemma plain_char_b_ok c : plain_char_b c = true -> plain_char c.
Proof. unfold plain_char_b, plain_char. intros H. bool_hyps. split_and!; (done || lia). Qed.

Lemma plain_b_ok n t : plain_b n t = true -> plain n t.
Proof.
  unfold plain_b, plain. intros H. bool_hyps. split_and!; [by eapply bool_decide_eq_false_1 | | lia].
  apply List.Forall_forall. rewrite forallb_forall in *. auto using plain_char_b_ok.
Qed.

Lemma plain_le n m t : n <= m -> plain n t -> plain m t.
Proof. intros H (? & ? & ?). split_and!; (done || lia). Qed.

(** Bytes in decimal, in hexadecimal and as the name of a MAC address. *)
Definition dec_ok (x : Z) : bool :=
  plain_b 3 (dec x) && bool_decide (str2uchar (Some (dec x)) = (0, Some x)) &&
  bool_decide (str2int (Some (dec x)) = (0, Some x)).

Lemma dec_byte x : is_u8 x -> plain 3 (dec x) /\ str2uchar (Some (dec x)) = (0, Some x) /\ str2int (Some (dec x)) = (0, Some x).
Proof.
  intros H. assert (dec_ok x = true) as E by (revert H; apply all_u8_spec; vm_compute; reflexivity).
  unfold dec_ok in E. apply andb_prop in E as [E H3]. apply andb_prop in E as [H1 H2].
  split_and!; [by apply plain_b_ok | by eapply bool_decide_eq_true_1 | by eapply bool_decide_eq_true_1].
Qed.

Lemma hex2_plain x : is_u8 x -> Forall plain_char (hex2 x).
Proof.
  intros H. assert (forallb plain_char_b (hex2 x) = true) as E.
  { revert H. apply (all_u8_spec (fun x => forallb plain_char_b (hex2 x))). vm_compute. reflexivity. }
  apply List.Forall_forall. rewrite forallb_forall in E. auto using plain_char_b_ok.
Qed.

Lemma hex_text_plain buf : bytes buf -> buf <> [] -> plain (2 * zlen buf) (hex_text buf).
Proof.
  intros Hb Hne. split_and!; [by destruct buf | | rewrite zlen_hex_text; lia]. clear Hne.
  induction Hb as [|x buf Hx _ IH]; [constructor |]. apply Forall_app. split; [by apply hex2_plain | exact IH].
Qed.

Lemma sep_text_plain buf : bytes buf -> buf <> [] -> plain (3 * zlen buf) (sep_text 58 buf).
Proof.
  intros Hb Hne. split_and!; [by destruct buf | |].
  - clear Hne. induction Hb as [|x buf Hx _ IH]; [constructor |]. cbn [sep_text]. apply Forall_app. split; [by apply hex2_plain |].
    destruct buf; [constructor |]. constructor; [by apply plain_char_b_ok | exact IH].
  - clear. unfold zlen. induction buf as [|x buf IH]; [done |]. cbn [sep_text]. rewrite length_app. change (length (hex2 x)) with 2%nat.
    destruct buf; cbn [length] in *; lia.
Qed.

Lemma hex_string_ok buf : bytes buf -> zlen buf <= 16 -> hex_string buf = Ok (hex_text buf).
Proof.
  intros Hb Hl. unfold hex_string.
  destruct (buf2str_text buf (zeros BUF2STR_MAXIMUM_OUTPUT_SIZE) Hb) as (str & -> & E); [done | unfold BUF2STR_MAXIMUM_OUTPUT_SIZE; lia |].
  cbn. by rewrite E.
Qed.

Lemma mac_string_ok mac : bytes mac -> zlen mac = 6 -> mac_string mac = Ok (sep_text 58 mac).
Proof.
  intros Hb Hl. unfold mac_string.
  destruct (mac2str_text mac (zeros BUF2STR_MAXIMUM_OUTPUT_SIZE) Hb Hl) as (str & -> & E); [done |].
  cbn. by rewrite E.
Qed.

Lemma hex_arg_ok buf a old c off : bytes buf -> zlen buf = zlen old -> zlen a = off ->
  hex_arg (hex_text buf) (a ++ old ++ c) off (zlen old) = Ok (Some (a ++ buf ++ c)).
Proof.
  intros Hb Hl <-. unfold hex_arg. rewrite slice_app_mid by done. rewrite parse_hex_string by (done || lia).
  pose proof (zlen_nonneg buf). cbn [or_oob mbind res_bind]. rewrite (proj2 (Z.ltb_ge _ 0)) by lia.
  rewrite drop_ge by (unfold zlen in *; lia). rewrite app_nil_r. cbn [default]. rewrite wr_at by done. done.
Qed.

(** ** Values that a saved line can hold

    [vs] are the values of the parameters of the controller that belong to [p]:
    with the selectors in the first bytes where they have them. *)
Definition restorable (p : ipmi_cfgp) (s b : Z) (vs : list (list Z)) : Prop :=
  let param := p_specific p in
  if param =? IPMI_LANP_IP6_ENABLES then exists x, vs = [[x]] /\ In x [0; 1; 2]
  else if param =? IPMI_LANP_IP6_FLOW_LABEL then exists a b c, vs = [[a; b; c]] /\ bytes [a; b; c]
  else if param =? IPMI_LANP_IP6_ROUTER_CFG then exists x, vs = [[x]] /\ In x [1; 2; 3]
  else if (param =? IPMI_LANP_IP6_TRAFFIC_CLASS) || (param =? IPMI_LANP_IP6_STATIC_HOPS) then exists x, vs = [[x]] /\ is_u8 x
  else if param =? IPMI_LANP_IP6_STATIC_ADDR then
    exists e addr len st, vs = [[s; e] ++ addr ++ [len; st]] /\ In e [0; 0x80] /\ zlen addr = 16 /\ bytes addr /\ is_u8 len /\
      In st [0; 1; 2; 3; 4; 5]
  else if (param =? IPMI_LANP_IP6_STATIC_DUID) || (param =? IPMI_LANP_IP6_DYNAMIC_DUID) ||
          (param =? IPMI_LANP_IP6_NDSLAAC_CFG) then
    exists h, vs = [[s; b] ++ h] /\ zlen h = 16 /\ bytes h
  else if param =? IPMI_LANP_IP6_DHCP6_CFG then
    exists h h', vs = [[s; 0] ++ h; [s; 1] ++ h' ++ zeros 10] /\ zlen h = 16 /\ bytes h /\ zlen h' = 6 /\ bytes h'
  else if param =? IPMI_LANP_IP6_STATIC_RTR1_ADDR then
    exists addr mac len pfx, vs = [addr; mac; [len]; pfx] /\ 1 <= s <= 2 /\ zlen addr = 16 /\ bytes addr /\ zlen mac = 6 /\ bytes mac /\
      is_u8 len /\ zlen pfx = 16 /\ bytes pfx
  else False.

(** The values that are read back from the line: those that were saved, but the
    flow label with a stray digit d behind it, shifted by four bits. *)
Definition restored (p : ipmi_cfgp) (vs : list (list Z)) : list (list Z) :=
  if p_specific p =? IPMI_LANP_IP6_FLOW_LABEL then
    match vs with [[a; b; c]] => [[b / 16; 16 * (b mod 16) + c / 16; 16 * (c mod 16) + 13]] | _ => vs end
  else vs.

(** The block of data that the values are put together to. *)
Definition block_of (p : ipmi_cfgp) (vs : list (list Z)) : list Z :=
  match vs with
  | [v] => v
  | [v; v'] => v ++ v'
  | [a; m; l; x] =>
      if p_specific p =? IPMI_LANP_IP6_STATIC_RTR1_ADDR then [0] ++ a ++ [0] ++ m ++ [0] ++ l ++ [0] ++ x else a ++ m ++ l ++ x
  | _ => []
  end.

(** The parameters of the controller that belong to [p]. *)
Definition params_of (p : ipmi_cfgp) (s : Z) : list Z :=
  let param := p_specific p in
  if param =? IPMI_LANP_IP6_DHCP6_CFG then [param; param]
  else if param =? IPMI_LANP_IP6_STATIC_RTR1_ADDR then
    let base := if s =? 2 then IPMI_LANP_IP6_STATIC_RTR2_ADDR else param in [base; base + 1; base + 2; base + 3]
  else if param =? IPMI_LANP_IP6_DYNAMIC_RTR_ADDR then [param; param + 1; param + 2; param + 3]
  else [param].

Fixpoint unwords (toks : list (list Z)) : list Z :=
  match toks with
  | [] => []
  | t :: toks => t ++ match toks with [] => [] | _ => 32 :: unwords toks end
  end.

Lemma unwords_snoc toks t : unwords (toks ++ [t]) = words toks ++ t.
Proof.
  induction toks as [|u toks IH]; [cbn; by rewrite app_nil_r |].
  change (words (u :: toks)) with ((u ++ [32]) ++ words toks). rewrite <- !app_assoc, <- IH. by destruct toks.
Qed.

(** A part that is set: the parameter, and the bytes in the block. *)
Definition part_ok (data : list Z) (part : Z * Z) (pv : Z * list Z) : Prop :=
  part.1 = pv.1 /\ lookup_lanp pv.1 = Some (zlen pv.2) /\ slx data part.2 (zlen pv.2) = Ok pv.2.

(** What is required of a line. *)
Definition line_ok {inet : Inet6} (p : ipmi_cfgp) (s b : Z) (vs vs' : list (list Z)) : Prop :=
  exists toks data, lanp_save_cfgp p (block_of p vs) = Ok (unwords toks) /\ toks <> [] /\ Forall (plain 48) toks /\
    (length toks <= 4)%nat /\ lanp_parse_cfgp p s b toks (zeros (p_size p)) = Ok (0, data) /\
    Forall2 (part_ok data) (set_parts_of (p_specific p) data) (combine (params_of p s) vs').

Class Inet6Laws (inet : Inet6) := {
  ntop_plain : forall a, bytes a -> zlen a = 16 -> plain 46 (inet_ntop a);
  pton_ntop : forall a, bytes a -> zlen a = 16 -> inet_pton (inet_ntop a) = Some a;
}.

(** Decide the tests of constants. *)
Ltac const_tests :=
  repeat match goal with
  | |- context [?a =? ?b] =>
      let v := eval vm_compute in (a =? b) in
      match v with true => idtac | false => idtac end; change (a =? b) with v
  end; cbv match; cbn [orb andb negb].

(** Name the elements of a list of known length. *)
Tactic Notation "explode" integer(n) ident(l) ident(H) :=
  unfold zlen in H; do n (destruct l as [|? l]; [cbn [length] in H; lia |]); destruct l; [clear H | cbn [length] in H; lia].

Section Lines.
Context {inet : Inet6} {laws : Inet6Laws inet}.

Ltac one_part := constructor; [split_and!; [reflexivity | reflexivity | reflexivity] | constructor].

Lemma line_byte p s b x : (p_specific p = IPMI_LANP_IP6_TRAFFIC_CLASS \/ p_specific p = IPMI_LANP_IP6_STATIC_HOPS) ->
  p_size p = 1 -> is_u8 x -> line_ok p s b [[x]] [[x]].
Proof using.
  intros Hp Hz Hx. destruct (dec_byte x Hx) as (Hd & Hu & _). exists [dec x], [x].
  unfold lanp_save_cfgp, lanp_parse_cfgp, set_parts_of, params_of. rewrite Hz.
  destruct Hp as [-> | ->]; const_tests; (split_and!; [cbn [unwords block_of]; by rewrite app_nil_r | done |
    constructor; [by apply (plain_le 3) | done] | cbn; lia | unfold byte_arg; rewrite Hu; reflexivity | one_part]).
Qed.

Lemma line_enum p s b x : (p_specific p = IPMI_LANP_IP6_ENABLES /\ In x [0; 1; 2] \/ p_specific p = IPMI_LANP_IP6_ROUTER_CFG /\ In x [1; 2; 3]) ->
  p_size p = 1 -> line_ok p s b [[x]] [[x]].
Proof using.
  intros Hp Hz. unfold line_ok, lanp_save_cfgp, lanp_parse_cfgp, set_parts_of, params_of. rewrite Hz.
  destruct Hp as [[-> Hx] | [-> Hx]]; const_tests; cbn [In] in Hx.
  - exists [val2str x ip6_enable_vals], [x].
    destruct Hx as [<-|[<-|[<-|[]]]]; (split_and!; [vm_compute; reflexivity | done |
      constructor; [apply plain_b_ok; vm_compute; reflexivity | done] | cbn; lia | vm_compute; reflexivity | one_part]).
  - exists [val2str x ip6_rtr_configs], [x].
    destruct Hx as [<-|[<-|[<-|[]]]]; (split_and!; [vm_compute; reflexivity | done |
      constructor; [apply plain_b_ok; vm_compute; reflexivity | done] | cbn; lia | vm_compute; reflexivity | one_part]).
Qed.

(** The words of a line are plain. *)
Ltac plain_words :=
  repeat (apply Forall_cons_2; [solve [eassumption | eapply plain_le; [| eassumption]; done] |]); apply Forall_nil_2.

Lemma u8_id x : is_u8 x -> u8 x = x.
Proof using. apply u8_small. Qed.

Lemma addr_named e : In e [0; 0x80] -> named ip6_addr_enable_vals 0xFF (val2str e ip6_addr_enable_vals) = Some e /\
  plain 48 (val2str e ip6_addr_enable_vals) /\ (find_val_idx 0 e ip6_addr_enable_vals <? 0) = false.
Proof using.
  intros [<-|[<-|[]]]; (split_and!; [vm_compute; reflexivity | apply plain_b_ok; vm_compute; reflexivity | reflexivity]).
Qed.

Lemma status_named st : In st [0; 1; 2; 3; 4; 5] ->
  u8 (str2val (val2str st ip6_addr_statuses) ip6_addr_statuses 0xFF) = st /\ plain 48 (val2str st ip6_addr_statuses).
Proof using.
  intros H. repeat destruct H as [<-|H]; try destruct H;
    (split; [vm_compute; reflexivity | apply plain_b_ok; vm_compute; reflexivity]).
Qed.

Lemma line_addr p s b e addr len st : p_specific p = IPMI_LANP_IP6_STATIC_ADDR -> p_size p = 20 -> is_u8 s ->
  In e [0; 0x80] -> zlen addr = 16 -> bytes addr -> is_u8 len -> In st [0; 1; 2; 3; 4; 5] ->
  line_ok p s b [[s; e] ++ addr ++ [len; st]] [[s; e] ++ addr ++ [len; st]].
Proof using laws.
  intros Hp Hz Hs He Ha Hab Hl Hst. destruct (dec_byte len Hl) as (Hd & Hu & _).
  destruct (addr_named e He) as (En & Ep & Ef). destruct (status_named st Hst) as (Sn & Sp).
  pose proof (pton_ntop addr Hab Ha) as Hpt. pose proof (ntop_plain addr Hab Ha) as Hnt. clear Hab.
  exists [val2str e ip6_addr_enable_vals; inet_ntop addr; dec len; val2str st ip6_addr_statuses], ([s; e] ++ addr ++ [len; st]).
  unfold lanp_save_cfgp, lanp_parse_cfgp, set_parts_of, params_of. rewrite Hp, Hz. const_tests.
  explode 16 addr Ha. cbn [block_of app].
  change (rd (_ :: _) 1) with e. change (rd (_ :: _) 18) with len. change (rd (_ :: _) 19) with st.
  split_and!.
  - rewrite Ef. cbn [andb]. change (slx (_ :: _) 2 16) with (@Ok (list Z) [z; z0; z1; z2; z3; z4; z5; z6; z7; z8; z9; z10; z11; z12; z13; z14]).
    cbn [unwords mbind res_bind]. change (text " ") with [32]. cbn [app]. by rewrite app_nil_r.
  - done.
  - plain_words.
  - cbn. lia.
  - unfold parse_addr. const_tests. rewrite (u8_id s Hs), En, Hpt. cbn [need mbind res_bind put]. 
    unfold byte_arg. rewrite Hu, Sn. reflexivity.
  - one_part.
Qed.

Lemma slx_all v : slx v 0 (zlen v) = Ok v.
Proof using. pose proof (zlen_nonneg v). by rewrite slx_ok, slice_all by lia. Qed.

Lemma line_duid p s b h : (p_specific p = IPMI_LANP_IP6_STATIC_DUID \/ p_specific p = IPMI_LANP_IP6_DYNAMIC_DUID \/
    p_specific p = IPMI_LANP_IP6_NDSLAAC_CFG) ->
  p_size p = 18 -> is_u8 s -> is_u8 b -> zlen h = 16 -> bytes h -> line_ok p s b [[s; b] ++ h] [[s; b] ++ h].
Proof using.
  intros Hp Hz Hs Hb Hh Hbs. assert (h <> []) as Hne by (by intros ->).
  pose proof (hex_text_plain h Hbs Hne) as Hpl. rewrite Hh in Hpl.
  assert (slx ([s; b] ++ h) 2 16 = Ok h) as Hx by (rewrite <- (app_nil_r h) at 1; by apply slx_mid).
  pose proof (hex_arg_ok h [s; b] (zeros 16) [] 2 Hbs ltac:(by rewrite Hh) eq_refl) as Harg.
  rewrite !app_nil_r in Harg. change (zlen (zeros 16)) with 16 in Harg.
  exists [hex_text h], ([s; b] ++ h). unfold lanp_save_cfgp, lanp_parse_cfgp, set_parts_of, params_of. rewrite Hz.
  destruct Hp as [Hp | [Hp | Hp]]; rewrite Hp; const_tests; cbn [block_of];
    (split_and!; [rewrite Hx; cbn [mbind res_bind unwords]; rewrite app_nil_r; apply hex_string_ok; [done | lia] | done | plain_words |
      cbn; lia | rewrite (u8_id s Hs), (u8_id b Hb); change (put (zeros 18) 0 [s; b]) with (@Ok (list Z) ([s; b] ++ zeros 16));
        cbn [mbind res_bind]; rewrite Harg; reflexivity |]);
    (apply List.Forall2_cons; [| apply List.Forall2_nil]); (split_and!; [reflexivity | cbn [snd]; by rewrite zlen_app, Hh |]);
    apply slx_all.
Qed.

Lemma line_dhcp p s b h h' : p_specific p = IPMI_LANP_IP6_DHCP6_CFG -> p_size p = 36 -> is_u8 s ->
  zlen h = 16 -> bytes h -> zlen h' = 6 -> bytes h' -> 
  line_ok p s b [[s; 0] ++ h; [s; 1] ++ h' ++ zeros 10] [[s; 0] ++ h; [s; 1] ++ h' ++ zeros 10].
Proof using.
  intros Hp Hz Hs Hh Hbs Hh' Hbs'. assert (h <> []) as Hne by (by intros ->). assert (h' <> []) as Hne' by (by intros ->).
  pose proof (hex_text_plain h Hbs Hne) as Hpl. rewrite Hh in Hpl.
  pose proof (hex_text_plain h' Hbs' Hne') as Hpl'. rewrite Hh' in Hpl'.
  pose proof (hex_arg_ok h [s; 0] (zeros 16) ([s; 1] ++ zeros 16) 2 Hbs ltac:(by rewrite Hh) eq_refl) as Harg.
  assert (zlen ([s; 0] ++ h ++ [s; 1]) = 20) as H20 by (rewrite !zlen_app, Hh; done).
  pose proof (hex_arg_ok h' ([s; 0] ++ h ++ [s; 1]) (zeros 6) (zeros 10) 20 Hbs' ltac:(by rewrite Hh') H20) as Harg'.
  change (zlen (zeros 16)) with 16 in Harg. change (zlen (zeros 6)) with 6 in Harg'.
  rewrite <- !app_assoc in Harg'.
  exists [hex_text h; hex_text h'], ([s; 0] ++ h ++ [s; 1] ++ h' ++ zeros 10).
  unfold lanp_save_cfgp, lanp_parse_cfgp, set_parts_of, params_of. rewrite Hp, Hz. const_tests. cbn [block_of].
  split_and!.
  - rewrite <- (app_assoc [s; 0] h), (slx_mid [s; 0] h _ 2 16) by done. cbn [mbind res_bind]. rewrite hex_string_ok by (done || lia). cbn [mbind res_bind].
    replace ([s; 0] ++ h ++ [s; 1] ++ h' ++ zeros 10) with (([s; 0] ++ h ++ [s; 1]) ++ h' ++ zeros 10) by (by rewrite <- !app_assoc).
    rewrite (slx_mid ([s; 0] ++ h ++ [s; 1]) h' _ 20 6) by done. cbn [mbind res_bind]. rewrite hex_string_ok by (done || lia). cbn [mbind res_bind unwords].
    rewrite app_nil_r. done.
  - done.
  - plain_words.
  - cbn. lia.
  - rewrite (u8_id s Hs). change (put (zeros 36) 0 [s; 0]) with (@Ok (list Z) ([s; 0] ++ zeros 34)). cbn [mbind res_bind].
    change (put ([s; 0] ++ zeros 34) 18 [s; 1]) with (@Ok (list Z) ([s; 0] ++ zeros 16 ++ [s; 1] ++ zeros 16)). cbn [mbind res_bind].
    rewrite Harg. cbn [need mbind res_bind]. change (zeros 16) with (zeros 6 ++ zeros 10). rewrite Harg'. reflexivity.
  - constructor; [| constructor; [| constructor]]; split_and!; cbn [fst snd]; try reflexivity.
    + by rewrite zlen_app, Hh.
    + rewrite zlen_app, Hh. rewrite app_assoc. rewrite <- (app_nil_l (([s; 0] ++ h) ++ _)). apply slx_mid; [done | by rewrite zlen_app, Hh].
    + by rewrite !zlen_app, Hh'.
    + rewrite !zlen_app, Hh'. rewrite app_assoc. rewrite <- (app_nil_r ([s; 1] ++ h' ++ zeros 10)) at 1.
      apply slx_mid; by rewrite !zlen_app, ?Hh, ?Hh'.
Qed.

Lemma line_router p s b addr mac len pfx : p_specific p = IPMI_LANP_IP6_STATIC_RTR1_ADDR -> p_size p = 43 -> 1 <= s <= 2 ->
  zlen addr = 16 -> bytes addr -> zlen mac = 6 -> bytes mac -> is_u8 len -> zlen pfx = 16 -> bytes pfx -> 
  line_ok p s b [addr; mac; [len]; pfx] [addr; mac; [len]; pfx].
Proof using laws.
  intros Hp Hz Hs Ha Hab Hm Hbm Hl Hx Hxb. destruct (dec_byte len Hl) as (Hd & Hu & _). assert (mac <> []) as Hne by (by intros ->).
  pose proof (pton_ntop addr Hab Ha) as Hpa. pose proof (ntop_plain addr Hab Ha) as Hna.
  pose proof (pton_ntop pfx Hxb Hx) as Hpx. pose proof (ntop_plain pfx Hxb Hx) as Hnx. clear Hab Hxb.
  pose proof (sep_text_plain mac Hbm Hne) as Hpm. rewrite Hm in Hpm.
  pose proof (mac_string_ok mac Hbm Hm) as Hms. pose proof (str2mac_text mac Hbm Hm) as Hsm.
  exists [inet_ntop addr; sep_text 58 mac; inet_ntop pfx; dec len], ([s] ++ addr ++ [s] ++ mac ++ [s] ++ [len] ++ [s] ++ pfx).
  unfold lanp_save_cfgp, lanp_parse_cfgp, params_of. rewrite Hp, Hz. const_tests. cbn [block_of]. rewrite Hp. const_tests.
  set (D := [0] ++ addr ++ [0] ++ mac ++ [0] ++ [len] ++ [0] ++ pfx).
  assert (slx D 1 16 = Ok addr /\ slx D 18 6 = Ok mac /\ slx D 27 16 = Ok pfx /\ rd D 25 = len) as (E1 & E2 & E3 & E4).
  { clear -Ha Hm Hx. explode 16 addr Ha. explode 6 mac Hm. explode 16 pfx Hx. split_and!; reflexivity. }
  split_and!.
  - rewrite E1. cbn [mbind res_bind]. rewrite E2. cbn [mbind res_bind]. rewrite Hms. cbn [mbind res_bind]. rewrite E3, E4.
    cbn [mbind res_bind unwords]. change (text " ") with [32]. cbn [app]. by rewrite app_nil_r.
  - done.
  - plain_words.
  - cbn. lia.
  - rewrite (proj2 (Z.ltb_ge 2 s)) by lia. unfold parse_router. rewrite Hpa, Hsm, Hpx. unfold byte_arg. rewrite Hu.
    unfold router_set. rewrite (u8_id s) by (unfold is_u8; lia). clear -Ha Hm Hx.
    explode 16 addr Ha. explode 6 mac Hm. explode 16 pfx Hx. reflexivity.
  - clear -Hs Ha Hm Hx. explode 16 addr Ha. explode 6 mac Hm. explode 16 pfx Hx.
    assert (s = 1 \/ s = 2) as [-> | ->] by lia; repeat (apply List.Forall2_cons; [split_and!; reflexivity |]); apply List.Forall2_nil.
Qed.

(** A number in hexadecimal. *)
Definition digit_fine (d : Z) : bool :=
  bool_decide (digit_val 16 (xdigit d) = Some d) && plain_char_b (xdigit d).

Lemma xdigit_fine d : 0 <= d < 16 -> digit_val 16 (xdigit d) = Some d /\ plain_char (xdigit d).
Proof using.
  intros Hd. assert (forallb digit_fine (seqZ 0 16) = true) as E by (vm_compute; reflexivity).
  rewrite forallb_forall in E. specialize (E d). rewrite <- list_elem_of_In, elem_of_seqZ in E. specialize (E ltac:(lia)).
  unfold digit_fine in E. rewrite andb_true_iff in E. destruct E as [E1 E2]. split; [by eapply bool_decide_eq_true_1 | by apply plain_char_b_ok].
Qed.

Lemma lower_hex_numeral fuel : forall v acc, 0 <= v < 16 ^ Z.of_nat (S fuel) -> exists cs ds,
  lower_hex_digits (S fuel) v acc = cs ++ acc /\ cs <> [] /\ Forall2 (fun c d => digit_val 16 c = Some d) cs ds /\
  fold_left (fun v d => v * 16 + d) ds 0 = v /\ Forall plain_char cs /\ (length cs <= S fuel)%nat.
Proof using.
  induction fuel as [|fuel IH]; intros v acc Hv; cbn [lower_hex_digits]; change 15 with (Z.ones 4); rewrite Z.land_ones, Z.shiftr_div_pow2 by lia;
    change (2 ^ 4) with 16; pose proof (Z.mod_pos_bound v 16 ltac:(lia)) as Hm; destruct (xdigit_fine (v mod 16) Hm) as [Hx Hp];
    destruct (Z.eqb_spec (v / 16) 0) as [E|E].
  1, 3: exists [xdigit (v mod 16)], [v mod 16]; split_and!; [done | done | by apply List.Forall2_cons | cbn; Z.div_mod_to_equations; lia | by apply Forall_singleton | cbn; lia].
  { exfalso. apply E. apply Z.div_small. exact Hv. }
  destruct (IH (v / 16) (xdigit (v mod 16) :: acc)) as (cs & ds & E1 & E2 & E3 & E4 & E5 & E6).
  { rewrite Nat2Z.inj_succ, Z.pow_succ_r in Hv by lia. split; [Z.div_mod_to_equations; lia | apply Z.div_lt_upper_bound; lia]. }
  exists (cs ++ [xdigit (v mod 16)]), (ds ++ [v mod 16]). cbn [lower_hex_digits] in E1.
  change 15 with (Z.ones 4) in E1. split_and!.
  - etransitivity; [exact E1 |]. by rewrite <- app_assoc.
  - by destruct cs.
  - apply Forall2_app; [done | by apply List.Forall2_cons].
  - rewrite fold_left_app, E4. cbn [fold_left]. Z.div_mod_to_equations. lia.
  - apply Forall_app. split; [done | by apply Forall_singleton].
  - rewrite length_app. cbn [length]. lia.
Qed.

(** The flow label is saved with a stray digit. *)
Lemma flow_text v : 0 <= v < 2 ^ 24 -> let t := text "0x" ++ lower_hex v ++ text "d" in
  str2uint (Some t) = (0, Some (v * 16 + 13)) /\ plain 48 t.
Proof using.
  intros Hv. cbv zeta. destruct (lower_hex_numeral 7 v [] ltac:(cbn; lia)) as (cs & ds & E1 & E2 & E3 & E4 & E5 & E6).
  unfold lower_hex. rewrite E1, app_nil_r. split.
  - assert (numeral ([] ++ [] ++ [48; 120] ++ (cs ++ [100])) false (fold_left (fun v d => v * 16 + d) (ds ++ [13]) 0)) as H.
    { apply (numeral_intro [] false [] 16 [48; 120] (cs ++ [100]) (ds ++ [13])); [done | rewrite !elem_of_cons; auto | by destruct cs | | left; rewrite !elem_of_cons; auto].
      apply Forall2_app; [done | by apply List.Forall2_cons]. }
    apply strto_numeral in H. rewrite fold_left_app, E4 in H. cbn [fold_left] in H.
    etransitivity; [apply (narrow_unsigned _ _ _ _ H) |]. unfold unsigned_spec. rewrite (Z.mod_small (v * 16 + 13)) by lia.
    rewrite (proj2 (Z.ltb_ge ULONG_MAX _)), (proj2 (Z.ltb_ge _ (v * 16 + 13))) by (unfold ULONG_MAX; lia). done.
  - split; [done |]. split.
    + apply Forall_app. split; [repeat constructor; by apply plain_char_b_ok |]. apply Forall_app. split; [done |]. repeat constructor; by apply plain_char_b_ok.
    + rewrite !zlen_app. unfold zlen at 2. change (zlen (text "0x")) with 2. change (zlen (text "d")) with 1. lia.
Qed.

Lemma label_bytes a b c : bytes [a; b; c] -> let v := (a .<< 16) .| (b .<< 8) .| c in
  0 <= v < 2 ^ 24 /\ [((v * 16 + 13) .>> 16) .& 0x0F; ((v * 16 + 13) .>> 8) .& 0xFF; (v * 16 + 13) .& 0xFF] =
    [b / 16; 16 * (b mod 16) + c / 16; 16 * (c mod 16) + 13].
Proof using.
  intros H v. inversion H as [|? ? Ha H1]; subst. inversion H1 as [|? ? Hb H2]; subst. inversion H2 as [|? ? Hc _]; subst. unfold is_u8 in *.
  assert (v = a * 65536 + b * 256 + c) as ->.
  { subst v. rewrite <- Z.lor_assoc, (lor_shiftl_add b c 8), (lor_shiftl_add a _ 16) by lia. lia. }
  split; [lia |]. change 0x0F with (Z.ones 4). change 0xFF with (Z.ones 8). rewrite !Z.land_ones, !Z.shiftr_div_pow2 by lia.
  change (2 ^ 16) with 65536. change (2 ^ 8) with 256. change (2 ^ 4) with 16. repeat f_equal; Z.div_mod_to_equations; lia.
Qed.

Lemma line_label p s b x y z : p_specific p = IPMI_LANP_IP6_FLOW_LABEL -> p_size p = 3 -> bytes [x; y; z] ->
  line_ok p s b [[x; y; z]] [[y / 16; 16 * (y mod 16) + z / 16; 16 * (z mod 16) + 13]].
Proof using.
  intros Hp Hz Hb. destruct (label_bytes x y z Hb) as [Hv E]. destruct (flow_text _ Hv) as [Hu Ht].
  eexists [_], [y / 16; 16 * (y mod 16) + z / 16; 16 * (z mod 16) + 13].
  unfold lanp_save_cfgp, lanp_parse_cfgp, set_parts_of, params_of. rewrite Hp, Hz. const_tests. cbn [block_of unwords].
  change (rd [x; y; z] 0) with x. change (rd [x; y; z] 1) with y. change (rd [x; y; z] 2) with z.
  split_and!; [by rewrite app_nil_r | done | constructor; [exact Ht | done] | cbn; lia | | one_part].
  rewrite Hu. cbn [default]. change (negb (0 =? 0)) with false. cbv iota. cbv zeta in E. rewrite <- E. done.
Qed.

(** Every parameter that can be written. *)
Lemma lan6_line p s b vs : In p lan_cfgp -> is_u8 s -> is_u8 b -> restorable p s b vs -> line_ok p s b vs (restored p vs).
Proof using laws.
  intros Hp Hs Hb. cbn [In lan_cfgp] in Hp.
  repeat destruct Hp as [<- | Hp]; try destruct Hp; unfold restorable, restored; cbn [p_specific]; const_tests; try done.
  - intros (x & -> & Hx). apply line_enum; [left | ]; done.
  - intros (x & -> & Hx). apply line_byte; [left | | ]; done.
  - intros (x & -> & Hx). apply line_byte; [right | | ]; done.
  - intros (x & y & z & -> & Hx). by apply line_label.
  - intros (e & addr & len & st & -> & ? & ? & ? & ? & ?). by apply line_addr.
  - intros (h & -> & ? & ?). apply line_duid; try done. by left.
  - intros (h & -> & ? & ?). apply line_duid; try done. right. by left.
  - intros (h & h' & -> & ? & ? & ? & ?). by apply line_dhcp.
  - intros (x & -> & Hx). apply line_enum; [right | ]; done.
  - intros (addr & mac & len & pfx & -> & ? & ? & ? & ? & ? & ? & ? & ?). by apply line_router.
  - intros (h & -> & ? & ?). apply line_duid; try done. right. by right.
Qed.
End Lines.
