(* ===== verification/Lanp6Save.v ===== *)
(** * Saving and restoring the IPv6 configuration of a controller

    The controllers of lib/ipmi_lanp6.c: one whose parameters are read and saved,
    and one that a saved file is executed on. *)

From stdpp Require Import strings.
From S2P Require Import Prelude Wire Ipmi Intf Session Helper CText Bmc Channel Cfgp CfgpProps Lanp6 Shell Lanp6Props.

#[local] Open Scope Z_scope.

(** ** The controller that is read *)

(** What belongs to a value of [p]: parameter, set and block selector. *)
Definition lan6_parts (p : ipmi_cfgp) (s b : Z) : option (list (Z * Z * Z)) :=
  let param := p_specific p in
  if param =? IPMI_LANP_IP6_DHCP6_CFG then Some [(param, s, 0); (param, s, 1)]
  else if param =? IPMI_LANP_IP6_STATIC_RTR1_ADDR then
    if 2 <? s then None else Some (map (fun q => (q, 0, b)) (params_of p s))
  else if param =? IPMI_LANP_IP6_DYNAMIC_RTR_ADDR then Some (map (fun q => (q, s, b)) (params_of p s))
  else Some [(param, s, b)].

Section Source.
Context {dev : Type} {bmc : Bmc dev} {inet : Inet6} (channel : Z).
Context (inv : dev -> Prop) (held : Z -> Z -> Z -> option (list Z)).

Definition lan6_values (p : ipmi_cfgp) (s b : Z) : option (list (list Z)) :=
  parts ← lan6_parts p s b; mapM (fun '(q, s, b) => held q s b) parts.

Definition lan6_item (p : ipmi_cfgp) (s b : Z) : option (list Z) := vs ← lan6_values p s b; Some (block_of p vs).

(** [held q s b] is the value of the parameter [q]; the controller numbers its
    sets and blocks without gaps, and answers what it does not have with an
    error. *)
Class LanSource (nsets : ipmi_cfgp -> nat) (nblocks : ipmi_cfgp -> Z -> nat) := {
  held_size : forall q s b v, held q s b = Some v -> lookup_lanp q = Some (zlen v);
  lan_get : forall q s b d, is_u8 q -> is_u8 s -> is_u8 b -> inv d -> exists r d',
    bmc_answer (mk_rq IPMI_NETFN_TRANSPORT 0 IPMI_LAN_GET_CONFIG 0 [u8 channel; q; s; b]) d = (Some r, d') /\ inv d' /\
    match held q s b with Some v => ccode r = 0 /\ exists rev, carries r (rev :: v) | None => ccode r <> 0 end;
  lan_numbers : Forall (fun p => p_first_set p + Z.of_nat (nsets p) < 256 /\
    (forall s, (1 <= nblocks p s)%nat /\ p_first_block p + Z.of_nat (nblocks p s) < 256) /\
    (p_is_set p = false -> (nsets p <= 1)%nat) /\ (p_has_blocks p = false -> forall s, nblocks p s = 1%nat)) lan_cfgp;
  lan_items : Forall (fun p => forall s b, p_first_set p <= s <= p_first_set p + Z.of_nat (nsets p) ->
    p_first_block p <= b <= p_first_block p + Z.of_nat (nblocks p s) ->
    (is_Some (lan6_values p s b) <-> s < p_first_set p + Z.of_nat (nsets p) /\ b < p_first_block p + Z.of_nat (nblocks p s))) lan_cfgp;
}.

Context (nsets : ipmi_cfgp -> nat) (nblocks : ipmi_cfgp -> Z -> nat) {source : LanSource nsets nblocks}.

Lemma get_lanp_run q s b size d : is_u8 q -> is_u8 s -> is_u8 b -> lookup_lanp q = Some size -> 0 < size -> inv d ->
  exists rc bs d', ipmi_get_lanp channel q s b d = Ok (rc, bs, d') /\ inv d' /\
    match held q s b with Some v => rc = 0 /\ bs = v | None => rc <> 0 end.
Proof using source.
  intros Hq Hs Hb Hsz Hpos Hi. unfold ipmi_get_lanp. rewrite Hsz, (u8_id q Hq), (u8_id s Hs), (u8_id b Hb).
  destruct (lan_get q s b d Hq Hs Hb Hi) as (r & d' & E & Hi' & Hh). rewrite (sendrecv_bind _ _ _ _ _ E).
  destruct (held q s b) as [v|] eqn:Ev.
  - destruct Hh as [Hc [rev Hr]]. rewrite Hc. cbn [Z.eqb negb]. pose proof (held_size q s b v Ev) as Hv.
    rewrite Hsz in Hv. injection Hv as ->. rewrite (proj1 Hr), zlen_cons. replace (1 + zlen v - 1) with (zlen v) by lia.
    rewrite Z.min_id, (proj2 (Z.eqb_neq (zlen v) 0)) by lia.
    rewrite (carries_bytes r _ Hr 1 (zlen v)), lift_Ok_bind by (rewrite ?zlen_cons; lia).
    exists 0, v, d'. split; [| done]. rewrite Z.sub_diag, app_nil_r. do 4 f_equal.
    change (rev :: v) with ([rev] ++ v). rewrite <- (app_nil_r v) at 1. by rewrite slice_app_mid.
  - rewrite (proj2 (Z.eqb_neq (ccode r) 0)) by done. by exists (ccode r), [], d'.
Qed.

Fixpoint put_all (offs : list Z) (vs : list (list Z)) (data : list Z) : option (list Z) :=
  match offs, vs with
  | off :: offs, v :: vs => data ← wr data off v; put_all offs vs data
  | _, _ => Some data
  end.

(** A part lies in the block. *)
Definition part_fits (n : Z) (part : Z * Z * Z) : Prop :=
  let '(q, b, off) := part in
  is_u8 q /\ is_u8 b /\ exists size, lookup_lanp q = Some size /\ 0 < size /\ 0 <= off /\ off + size <= n.

Lemma get_parts_run s : is_u8 s -> forall parts data d, Forall (part_fits (zlen data)) parts -> inv d ->
  exists rc data' d', get_parts channel s parts data d = Ok (rc, data', d') /\ inv d' /\
    match mapM (fun '(q, b, _) => held q s b) parts with
    | Some vs => rc = 0 /\ put_all (map snd parts) vs data = Some data'
    | None => rc <> 0
    end.
Proof using source.
  intros Hs. induction parts as [|[[q b] off] parts IH]; intros data d Hp Hi; [by exists 0, data, d |].
  inversion Hp as [|? ? H1 Hps]; subst. destruct H1 as (Hq & Hb & size & Hsz & Hpos & Ho & Hfit). cbn [get_parts].
  destruct (get_lanp_run q s b size d Hq Hs Hb Hsz Hpos Hi) as (rc & bs & d1 & E & Hi1 & Hh). rewrite (M_bind_run _ _ _ _ _ E).
  cbn [mapM]. destruct (held q s b) as [v|] eqn:Ev.
  - destruct Hh as [-> ->]. cbn [Z.eqb negb]. pose proof (held_size q s b v Ev) as Hv. rewrite Hsz in Hv. injection Hv as ->.
    destruct (wr_in_bounds data off v Ho Hfit) as [data1 E1]. rewrite E1. cbn [or_oob]. rewrite lift_Ok_bind.
    assert (zlen data1 = zlen data) as Hl by (by apply wr_Some in E1 as (_ & _ & ? & _)).
    destruct (IH data1 d1) as (rc & data' & d2 & E2 & Hi2 & Hm); [by rewrite Hl | done |]. exists rc, data', d2.
    split; [exact E2 |]. split; [done |]. cbn [mbind option_bind].
    destruct (mapM (fun '(q, b, _) => held q s b) parts) as [vs|]; [| done]. cbn [mbind option_bind map put_all snd].
    unfold mret, option_ret. by rewrite E1.
  - rewrite (proj2 (Z.eqb_neq rc 0)) by done. by exists rc, data, d1.
Qed.

(** How [lanp_get_cfgp] reads a parameter: the parts in one set. *)
Definition reads_parts (p : ipmi_cfgp) (s b set' : Z) (parts : list (Z * Z * Z)) : Prop :=
  (forall d, lanp_get_cfgp channel p s b (zeros (p_size p)) d = get_parts channel set' parts (zeros (p_size p)) d) /\
  lan6_parts p s b = Some (map (fun '(q, b, _) => (q, set', b)) parts) /\ Forall (part_fits (p_size p)) parts /\
  (forall vs, Forall2 (fun '(q, _, _) v => lookup_lanp q = Some (zlen v)) parts vs ->
    put_all (map snd parts) vs (zeros (p_size p)) = Some (block_of p vs)).

Lemma held_parts set' parts : mapM (fun '(q, s, b) => held q s b) (map (fun '(q, b, _) => (q, set', b)) parts) =
  mapM (fun '((q, b, _) : Z * Z * Z) => held q set' b) parts.
Proof using. induction parts as [|[[q b] off] parts IH]; [done |]. cbn [map mapM]. by rewrite IH. Qed.

Lemma held_lengths set' parts vs : mapM (fun '((q, b, _) : Z * Z * Z) => held q set' b) parts = Some vs ->
  Forall2 (fun '(q, _, _) v => lookup_lanp q = Some (zlen v)) parts vs.
Proof using source.
  intros H%mapM_Some. eapply Forall2_impl; [exact H |]. intros [[q b] off] v Hv. by apply (held_size q set' b).
Qed.

Lemma reads_parts_run p s b set' parts d : 0 <= p_size p -> reads_parts p s b set' parts -> is_u8 set' -> inv d ->
  exists rc data d', lanp_get_cfgp channel p s b (zeros (p_size p)) d = Ok (rc, data, d') /\ inv d' /\
    match lan6_item p s b with Some x => rc = 0 /\ data = x | None => rc <> 0 end.
Proof using source.
  intros Hz (Hr & Hp & Hf & Hput) Hs Hi. rewrite Hr.
  destruct (get_parts_run set' Hs parts (zeros (p_size p)) d) as (rc & data & d' & E & Hi' & Hm); [by rewrite zlen_zeros; [| lia] | done |].
  exists rc, data, d'. split; [exact E |]. split; [done |]. unfold lan6_item, lan6_values. rewrite Hp. cbn [mbind option_bind].
  rewrite held_parts. destruct (mapM _ parts) as [vs|] eqn:Evs; [| done]. cbn [mbind option_bind].
  destruct Hm as [-> Hd]. rewrite (Hput vs (held_lengths set' parts vs Evs)) in Hd. by injection Hd.
Qed.

Lemma put_whole n v : zlen v = n -> wr (zeros n) 0 v = Some v.
Proof using.
  intros <-. pose proof (zlen_nonneg v). rewrite <- (app_nil_l (zeros (zlen v))), <- (app_nil_r (zeros (zlen v))).
  rewrite wr_at by (rewrite ?zlen_zeros; (done || lia)). by rewrite app_nil_r.
Qed.

Lemma one_part_reads p s b : is_u8 (p_specific p) -> is_u8 b -> lookup_lanp (p_specific p) = Some (p_size p) -> 0 < p_size p ->
  (forall data d, lanp_get_cfgp channel p s b data d = get_parts channel s [(p_specific p, b, 0)] data d) ->
  lan6_parts p s b = Some [(p_specific p, s, b)] -> reads_parts p s b s [(p_specific p, b, 0)].
Proof using.
  intros Hq Hb Hz Hpos Hg Hp. split; [done |]. split; [done |]. split.
  - constructor; [| done]. split; [done |]. split; [done |]. exists (p_size p). split_and!; (done || lia).
  - intros vs H. inversion H as [|? v ? ? Hv Hvs]; subst. inversion Hvs; subst. cbn [map snd put_all].
    rewrite Hz in Hv. injection Hv as Hv. by rewrite put_whole.
Qed.

Lemma dhcp_reads p s b : p_specific p = IPMI_LANP_IP6_DHCP6_CFG -> p_size p = 36 ->
  reads_parts p s b s [(IPMI_LANP_IP6_DHCP6_CFG, 0, 0); (IPMI_LANP_IP6_DHCP6_CFG, 1, 18)].
Proof using.
  intros Hp Hz. unfold reads_parts, lanp_get_cfgp, lan6_parts. rewrite Hp, Hz. const_tests. split; [done |]. split; [done |]. split.
  - repeat constructor; (done || (eexists; split_and!; [reflexivity | done | done | done])).
  - intros vs H. inversion H as [|? v ? ? Hv Hvs]; subst. inversion Hvs as [|? v' ? ? Hv' Hn]; subst. inversion Hn; subst.
    injection Hv as Hv. injection Hv' as Hv'. cbn [map snd put_all block_of].
    change (zeros 36) with ([] ++ zeros 18 ++ zeros 18). rewrite (wr_at [] (zeros 18) (zeros 18) v) by done. cbn [mbind option_bind app].
    rewrite <- (app_nil_r (zeros 18)), (wr_at v (zeros 18) [] v') by done. cbn [mbind option_bind]. by rewrite app_nil_r.
Qed.

Definition router_reads (base off b : Z) : list (Z * Z * Z) :=
  [(base, b, 0 + off); (base + 1, b, 17 + off); (base + 2, b, 24 + off); (base + 3, b, 26 + off)].

Lemma static_router_reads p s b : p_specific p = IPMI_LANP_IP6_STATIC_RTR1_ADDR -> p_size p = 43 -> s <= 2 -> is_u8 b ->
  reads_parts p s b 0 (router_reads (if s =? 2 then IPMI_LANP_IP6_STATIC_RTR2_ADDR else IPMI_LANP_IP6_STATIC_RTR1_ADDR) 1 b).
Proof using.
  intros Hp Hz Hs Hb. unfold reads_parts, lanp_get_cfgp, lan6_parts, params_of. rewrite Hp, Hz. const_tests.
  rewrite (proj2 (Z.ltb_ge 2 s)) by lia. set (base := if s =? 2 then _ else _).
  assert (base = 65 \/ base = 69) as Hbase by (unfold base; destruct (s =? 2); [by right | by left]).
  split; [done |]. split; [done |]. split.
  - destruct Hbase as [-> | ->]; repeat constructor; (apply Hb || done || (eexists; split_and!; [reflexivity | done | done | done])).
  - intros vs H. inversion H as [|? a ? ? Ha H1]; subst. inversion H1 as [|? m ? ? Hm H2]; subst.
    inversion H2 as [|? l ? ? Hl H3]; subst. inversion H3 as [|? x ? ? Hx Hn]; subst. inversion Hn; subst.
    cbn [block_of]. rewrite Hp. const_tests. cbn [router_reads map snd put_all].
    assert (zlen a = 16 /\ zlen m = 6 /\ zlen l = 1 /\ zlen x = 16) as (Ea & Em & El & Ex).
    { destruct Hbase as [E | E]; rewrite E in *; injection Ha as Ha; injection Hm as Hm; injection Hl as Hl; injection Hx as Hx; auto. }
    clear -Ea Em El Ex. explode 16 a Ea. explode 6 m Em. explode 1 l El. explode 16 x Ex. reflexivity.
Qed.

Lemma dynamic_router_reads p s b : p_specific p = IPMI_LANP_IP6_DYNAMIC_RTR_ADDR -> p_size p = 43 -> is_u8 b ->
  reads_parts p s b s (router_reads IPMI_LANP_IP6_DYNAMIC_RTR_ADDR 0 b).
Proof using.
  intros Hp Hz Hb. unfold reads_parts, lanp_get_cfgp, lan6_parts, params_of. rewrite Hp, Hz. const_tests.
  split; [done |]. split; [done |]. split.
  - repeat constructor; (apply Hb || done || (eexists; split_and!; [reflexivity | done | done | done])).
  - intros vs H. inversion H as [|? a ? ? Ha H1]; subst. inversion H1 as [|? m ? ? Hm H2]; subst.
    inversion H2 as [|? l ? ? Hl H3]; subst. inversion H3 as [|? x ? ? Hx Hn]; subst. inversion Hn; subst.
    cbn [block_of]. rewrite Hp. const_tests. cbn [router_reads map snd put_all].
    injection Ha as Ea. injection Hm as Em. injection Hl as El. injection Hx as Ex. symmetry in Ea, Em, El, Ex.
    clear -Ea Em El Ex. explode 17 a Ea. explode 7 m Em. explode 2 l El. explode 17 x Ex. reflexivity.
Qed.

Lemma lan6_get_run p s b d : In p lan_cfgp -> is_u8 s -> is_u8 b -> inv d ->
  exists rc data d', lanp_get_cfgp channel p s b (zeros (p_size p)) d = Ok (rc, data, d') /\ inv d' /\
    match lan6_item p s b with Some x => rc = 0 /\ data = x | None => rc <> 0 end.
Proof using source.
  intros Hp Hs Hb Hi. cbn [In lan_cfgp] in Hp.
  repeat destruct Hp as [<- | Hp]; try destruct Hp;
    try (refine (reads_parts_run _ s b s _ d _ (one_part_reads _ s b _ Hb _ _ _ _) Hs Hi); [done | done | done | done | reflexivity | reflexivity]).
  - refine (reads_parts_run _ s b s _ d _ (dhcp_reads _ s b _ _) Hs Hi); done.
  - destruct (Z.leb_spec s 2) as [H2|H2].
    + refine (reads_parts_run _ s b 0 _ d _ (static_router_reads _ s b _ _ H2 Hb) _ Hi); done.
    + unfold lanp_get_cfgp, lan6_item, lan6_values, lan6_parts. cbn [p_specific]. const_tests.
      rewrite (proj2 (Z.ltb_lt 2 s)) by lia. by eexists (-1), _, d.
  - refine (reads_parts_run _ s b s _ d _ (dynamic_router_reads _ s b _ _ Hb) Hs Hi); done.
Qed.

#[export] Instance lan6_source : CfgpSource (handler := lanp_ip6_cfgp channel) inv lan_cfgp lan6_item nsets nblocks.
Proof using source.
  pose proof lan_numbers as Hn. rewrite Forall_forall in Hn.
  assert (forall p, p ∈ lan_cfgp -> 0 <= p_first_set p <= 1 /\ p_first_block p = 0 /\ 0 < p_size p /\
    (p_is_set p = false -> p_first_set p = 0)) as Ht.
  { apply Forall_forall. repeat constructor; cbn; (lia || done). }
  constructor; apply Forall_forall; intros p Hp; specialize (Hn p Hp); specialize (Ht p Hp); destruct Hn as (N1 & N2 & N3 & N4), Ht as (T1 & T2 & T3 & T4).
  - done.
  - split; [auto | auto].
  - lia.
  - intros s b Hs Hb. pose proof (proj1 (Forall_forall _ _) lan_items p Hp s b Hs Hb) as H. rewrite <- H.
    unfold lan6_item. destruct (lan6_values p s b); split; intros [? ?]; (done || by eexists).
  - intros s. apply N2.
  - intros s b quiet d Hs Hb Hi. destruct (N2 s) as [? ?].
    destruct (lan6_get_run p s b d) as (rc & data & d' & E & Hi' & Hx); [by apply list_elem_of_In | unfold is_u8; lia | unfold is_u8; lia | done |].
    exists rc, data, d', []. split; [| done]. unfold cfgp_handler, lanp_ip6_cfgp. cbn [a_type a_set a_block].
    by rewrite (M_bind_run _ _ _ _ _ E).
Qed.
End Source.
