(* ===== verification/Lanp6Exec.v ===== *)
(** * A saved IPv6 configuration, executed on another controller *)

From stdpp Require Import strings.
From S2P Require Import Prelude Wire Ipmi Intf Session Helper CText Bmc Channel Cfgp CfgpProps Lanp6 Shell Lanp6Props Lanp6Save.

#[local] Open Scope Z_scope.

(** ** A line of plain words *)

Lemma plain_word n t : plain n t -> word t.
Proof. intros (Hne & Ht & _). split; [done |]. eapply Forall_impl; [exact Ht |]. by intros c []. Qed.

Lemma plain_chars n toks t c : Forall (plain n) toks -> plain n t -> c <> 32 -> (c = 0 \/ c = 10 \/ c = 34 \/ c = 35 \/ c = 39) ->
  Forall (fun x => x <> c) (words toks ++ t).
Proof.
  intros Hw Ht H32 Hc.
  assert (forall t, plain n t -> Forall (fun x => x <> c) t) as Hp.
  { intros u (_ & Hu & _). eapply Forall_impl; [exact Hu |]. intros x (Hs & ?) ->.
    destruct Hc as [-> | [-> | [-> | [-> | ->]]]]; [lia | discriminate Hs | lia | lia | lia]. }
  apply Forall_app. split; [| by apply Hp]. induction Hw as [|u toks Hu _ IH]; [constructor |].
  change (words (u :: toks)) with ((u ++ [32]) ++ words toks). rewrite !Forall_app. split_and!; [by apply Hp | by constructor; [congruence |] | exact IH].
Qed.

Lemma exec_quotes_id s : Forall (fun c => c <> 34) s -> Forall (fun c => c <> 39) s -> exec_quotes s None = Ok s.
Proof.
  induction s as [|c s IH]; [done |]. intros H1 H2. inversion H1; inversion H2; subst. cbn [exec_quotes].
  rewrite (proj2 (Z.eqb_neq c 34)), (proj2 (Z.eqb_neq c 39)) by done. cbn [orb]. by rewrite IH.
Qed.

Lemma exec_unquote_id n t : plain n t -> exec_unquote t = t.
Proof.
  intros (Hne & Ht & _). destruct t as [|c t]; [done |]. inversion Ht as [|? ? (_ & _ & ? & _ & ?)]; subst. cbn [exec_unquote].
  by rewrite (proj2 (Z.eqb_neq c 39)), (proj2 (Z.eqb_neq c 34)).
Qed.

Lemma Forall_newline (P : Z -> Prop) l : Forall P l -> P 10 -> Forall P (l ++ [10]).
Proof. intros H1 H2. apply Forall_app. split; [done | by constructor]. Qed.

Lemma exec_args_plain n toks t : Forall (plain n) toks -> plain n t -> (length toks < 64)%nat ->
  exec_args ((words toks ++ t) ++ [10]) = Ok (toks ++ [t]).
Proof.
  intros Hw Ht Hl. unfold exec_args.
  rewrite c_string_id by (apply Forall_newline; [eapply plain_chars; eauto; lia | done]).
  rewrite until_id by (apply Forall_newline; [eapply plain_chars; eauto; lia | done]).
  rewrite exec_quotes_id by (apply Forall_newline; [eapply plain_chars; eauto; lia | done]). cbn [mbind res_bind].
  assert (Forall word toks) as Hww by (eapply Forall_impl; [exact Hw |]; intros; by eapply plain_word).
  assert (word t) as Hwt by (by eapply plain_word).
  rewrite trim_line, strtok_words by done. rewrite take_ge by (rewrite length_app; change (Z.to_nat EXEC_ARG_SIZE) with 64%nat; cbn [length]; lia). f_equal.
  assert (Forall (plain n) (toks ++ [t])) as Hall by (apply Forall_app; split; [done | by constructor]).
  clear -Hall. induction Hall as [|u l Hu _ IH]; [done |]. cbn [map]. by rewrite (exec_unquote_id n u Hu), IH.
Qed.

Lemma words_length n toks t : Forall (plain n) toks -> plain n t -> zlen (words toks ++ t) <= (n + 1) * (zlen toks + 1).
Proof.
  intros Hw (_ & _ & Ht). rewrite zlen_app. induction Hw as [|u toks (_ & _ & Hu) _ IH]; [cbn; unfold zlen in *; cbn in *; lia |].
  change (words (u :: toks)) with ((u ++ [32]) ++ words toks). rewrite !zlen_app, (zlen_cons u toks). change (zlen [32]) with 1.
  pose proof (zlen_nonneg t). lia.
Qed.

Section Run.
Context {dev : Type} (cmdlist : list (list Z * (list (list Z) -> M dev Z))).

(** A line is the command of its words. *)
Lemma exec_line n k toks t rest rc (d : dev) : Forall (plain n) toks -> plain n t -> 0 <= n <= 64 -> (length toks <= 12)%nat ->
  exec_lines cmdlist (S k) ((words toks ++ t) ++ 10 :: rest) rc d =
  (r ← ipmi_cmd_run cmdlist (hd [] (toks ++ [t])) (tl (toks ++ [t])); exec_lines cmdlist k rest (if negb (r =? 0) then r else rc)) d.
Proof.
  intros Hw Ht Hn Hl. cbn [exec_lines].
  assert (exists c l, (words toks ++ t) ++ 10 :: rest = c :: l) as (c & l & Ecl) by (destruct (words toks ++ t); by eexists _, _).
  rewrite Ecl. cbv match. rewrite <- Ecl. change (Z.to_nat EXEC_BUF_SIZE) with (S 2047).
  pose proof (words_length n toks t Hw Ht) as Hlen. rewrite fgets_line.
  2: { eapply plain_chars; eauto; lia. }
  2: { unfold zlen in Hlen. nia. }
  rewrite (exec_args_plain n toks t Hw Ht) by lia. rewrite lift_Ok_bind. by destruct toks.
Qed.
End Run.

(** ** The controller that is written *)

Section Sink.
Context {dev : Type} {bmc : Bmc dev} {inet : Inet6} {mal : Malloc} (channel : Z).
Context (written : dev -> list (Z * list Z)).

(** It takes every parameter; [written] are the parameters in their order. *)
Class LanSink := lan_set : forall q v d, is_u8 q -> zlen v <= 30 -> exists r d',
  bmc_answer (mk_rq IPMI_NETFN_TRANSPORT 0 IPMI_LAN_SET_CONFIG 0 ([u8 channel; q] ++ v)) d = (Some r, d') /\
  ccode r = 0 /\ written d' = written d ++ [(q, v)].

Context {sink : LanSink} (memory : forall n, exists b, malloc n = Some b).

Lemma lookup_bounds q n : lookup_lanp q = Some n -> is_u8 q /\ n <= 20.
Proof using.
  assert (Forall (fun x => is_u8 x.1.1 /\ x.2 <= 20) generic_lanp6) as H.
  { repeat constructor; cbn; lia. }
  unfold lookup_lanp. induction H as [|[[sel name] size] l [H1 H2] _ IH]; [done |]. cbn [lookup_lanp_in].
  destruct (Z.eqb_spec sel q) as [<-|_]; [by intros [= <-] | exact IH].
Qed.

Lemma set_lanp_run q data off v d : lookup_lanp q = Some (zlen v) -> slx data off (zlen v) = Ok v ->
  exists d', ipmi_set_lanp channel q data off d = Ok (0, d') /\ written d' = written d ++ [(q, v)].
Proof using sink.
  intros Hq Hv. destruct (lookup_bounds q _ Hq) as [Hu Hl]. unfold ipmi_set_lanp. rewrite Hq, Hv, lift_Ok_bind.
  rewrite (proj2 (Z.ltb_ge 32 _)), (u8_id q Hu) by lia.
  destruct (lan_set q v d Hu ltac:(lia)) as (r & d' & E & Hc & Hw). exists d'. rewrite (sendrecv_bind _ _ _ _ _ E).
  unfold ipmi_lanp_err. by rewrite Hc.
Qed.

Lemma set_parts_run data parts pvs : Forall2 (part_ok data) parts pvs -> forall d,
  exists d', set_parts channel parts data d = Ok (0, d') /\ written d' = written d ++ pvs.
Proof using sink.
  induction 1 as [|[q off] [q' v] parts pvs (Hq & Hl & Hs) _ IH]; intros d; [exists d; by rewrite app_nil_r |].
  cbn [fst snd] in *. subst q'. cbn [set_parts]. destruct (set_lanp_run q data off v d Hl Hs) as (d1 & E & W1).
  rewrite (M_bind_run _ _ _ _ _ E). cbn [Z.eqb negb]. destruct (IH d1) as (d2 & E2 & W2). exists d2.
  split; [exact E2 |]. by rewrite W2, W1, <- app_assoc.
Qed.

(** The parameter of index [i], and the words of its selectors. *)
Lemma lookup_name i p : lan_cfgp !! i = Some p -> lookup_cfgp 0 lan_cfgp (text (p_name p)) = Some (Z.of_nat i, p).
Proof using. intros H. do 21 (destruct i as [|i]; [injection H as <-; vm_compute; reflexivity |]). destruct i; done. Qed.

Definition selector_words (p : ipmi_cfgp) (s b : Z) : list (list Z) :=
  (if p_is_set p then [dec s] else []) ++ (if p_has_blocks p then [dec b] else []).

(** The selectors of a value of [p]. *)
Definition selectors_ok (p : ipmi_cfgp) (s b : Z) : Prop :=
  is_u8 s /\ is_u8 b /\ p_first_set p <= s /\ p_first_block p <= b /\ (p_is_set p = false -> s = 0) /\
  (p_has_blocks p = false -> b = 0) /\ (p_has_blocks p = true -> p_is_set p = true).

Lemma cfgp_selector_ok x first : is_u8 x -> first <= x -> 0 <= first <= 1 -> cfgp_selector (dec x) first = Some x.
Proof using.
  intros Hx Hf H1. destruct (dec_byte x Hx) as (_ & _ & Hi). unfold cfgp_selector. rewrite Hi. change (default 0 (Some x)) with x.
  change (negb (0 =? 0)) with false. unfold is_u8 in Hx. rewrite (proj2 (Z.ltb_ge x 0)) by lia. cbn [orb].
  destruct (Z.eqb_spec x 0) as [->|]; [| done]. assert (first = 0) as -> by lia. done.
Qed.

Lemma parse_sel_ok i p s b toks v cmd : lan_cfgp !! i = Some p -> 0 <= p_first_set p <= 1 -> 0 <= p_first_block p <= 1 ->
  selectors_ok p s b -> toks <> [] ->
  ipmi_cfgp_parse_sel (mk_ctx lan_cfgp cmd v) (text (p_name p) :: selector_words p s b ++ toks) =
    (1 + zlen (selector_words p s b), mk_sel (Z.of_nat i) s b).
Proof using.
  intros Hp Hf1 Hf2 (Hs & Hb & Hs1 & Hb1 & Hs0 & Hb0 & Hbs) Ht. unfold ipmi_cfgp_parse_sel. cbn [c_set].
  rewrite (lookup_name i p Hp). unfold selector_words.
  destruct (p_is_set p) eqn:Es; destruct (p_has_blocks p) eqn:Eb; cbn [negb app].
  - rewrite !cfgp_selector_ok by done. done.
  - rewrite cfgp_selector_ok by done. rewrite (Hb0 eq_refl). by destruct toks.
  - by specialize (Hbs eq_refl).
  - rewrite (Hs0 eq_refl), (Hb0 eq_refl). by destruct toks.
Qed.

(** The table. *)
Definition param_ok (p : ipmi_cfgp) : bool :=
  (0 <=? p_first_set p) && (p_first_set p <=? 1) && (p_first_block p =? 0) && (0 <? p_size p) &&
  (negb (p_has_blocks p) || p_is_set p) && (p_is_set p || (p_first_set p =? 0)) && plain_b 48 (text (p_name p)).

Lemma table_facts i p : lan_cfgp !! i = Some p -> In p lan_cfgp /\ (i < 21)%nat /\ 0 <= p_first_set p <= 1 /\ p_first_block p = 0 /\
  0 < p_size p /\ (p_has_blocks p = true -> p_is_set p = true) /\ (p_is_set p = false -> p_first_set p = 0) /\ plain 48 (text (p_name p)).
Proof using.
  intros H. assert (In p lan_cfgp) as Hin by (by eapply list_elem_of_In, list_elem_of_lookup_2).
  assert (forallb param_ok lan_cfgp = true) as Hall by (vm_compute; reflexivity).
  rewrite forallb_forall in Hall. specialize (Hall p Hin). unfold param_ok in Hall. repeat (apply andb_prop in Hall as [Hall ?]).
  pose proof (lookup_lt_Some _ _ _ H) as Hlt. change (length lan_cfgp) with 21%nat in Hlt.
  split_and!; try done; try lia; try (by apply plain_b_ok).
Qed.

Lemma parse_data_run i p s b toks data cmd (d : dev) : lan_cfgp !! i = Some p -> is_u8 s -> is_u8 b ->
  lanp_parse_cfgp p s b toks (zeros (p_size p)) = Ok (0, data) ->
  ipmi_cfgp_parse_data (handler := lanp_ip6_cfgp channel) (mk_ctx lan_cfgp cmd []) (mk_sel (Z.of_nat i) s b) toks d =
    Ok (0, mk_ctx lan_cfgp cmd [mk_data (mk_sel (Z.of_nat i) s b) data], d).
Proof using memory.
  intros Hp Hs Hb Hparse. destruct (table_facts i p Hp) as (_ & Hi & _ & _ & Hz & _). unfold is_u8 in Hs, Hb.
  unfold ipmi_cfgp_parse_data. cbn [sel_param sel_set sel_block c_set].
  rewrite (proj2 (Z.eqb_neq (Z.of_nat i) (-1))), (proj2 (Z.eqb_neq s (-1))), (proj2 (Z.eqb_neq b (-1))) by lia.
  change (zlen lan_cfgp) with 21. rewrite (proj2 (Z.leb_gt 21 _)) by lia. cbn [orb].
  unfold cfgp_param. cbn [c_set]. rewrite Nat2Z.id, Hp. cbn [or_oob]. rewrite lift_Ok_bind.
  rewrite (proj2 (Z.eqb_neq (p_size p) 0)) by lia.
  destruct (memory (sizeof_cfgp_data + p_size p)) as [blk Em]. rewrite Em.
  unfold cfgp_handler, lanp_ip6_cfgp. cbn [a_type a_set a_block a_argv]. rewrite Hparse. reflexivity.
Qed.

Lemma cfgp_set_run i p s b vs data cmd d : lan_cfgp !! i = Some p -> p_access p <> CFGP_RDONLY ->
  Forall2 (part_ok data) (set_parts_of (p_specific p) data) (combine (params_of p s) vs) ->
  exists d', ipmi_cfgp_set (handler := lanp_ip6_cfgp channel)
      (mk_ctx lan_cfgp cmd [mk_data (mk_sel (Z.of_nat i) s b) data]) (mk_sel (Z.of_nat i) s b) d = Ok (0, [], d') /\
    written d' = written d ++ combine (params_of p s) vs.
Proof using sink.
  intros Hp Hrw Hparts. destruct (set_parts_run data _ _ Hparts d) as (d' & E & W). exists d'. split; [| done].
  unfold ipmi_cfgp_set, cfgp_do_action. cbn [c_v do_action d_sel]. unfold selected. cbn [d_sel sel_param sel_set sel_block].
  rewrite !Z.eqb_refl, !orb_true_r. cbn [andb negb]. unfold cfgp_param. cbn [c_set]. rewrite Nat2Z.id, Hp. cbn [or_oob].
  rewrite lift_Ok_bind, bool_decide_eq_false_2 by done.
  unfold cfgp_handler, lanp_ip6_cfgp, lanp_set_cfgp. cbn [a_type d_data].
  unfold mbind at 1, M_bind at 1. rewrite (M_bind_run _ _ _ _ _ E). reflexivity.
Qed.

(** A value on the command line is written. *)
Lemma set_command_run fuel i p s b toks vs data d : lan_cfgp !! i = Some p -> p_access p <> CFGP_RDONLY -> selectors_ok p s b ->
  toks <> [] -> lanp_parse_cfgp p s b toks (zeros (p_size p)) = Ok (0, data) ->
  Forall2 (part_ok data) (set_parts_of (p_specific p) data) (combine (params_of p s) vs) ->
  exists d', lan6_command channel fuel LANP_CMD_SET true (text (p_name p) :: selector_words p s b ++ toks) d = Ok (0, [], d') /\
    written d' = written d ++ combine (params_of p s) vs.
Proof using sink memory.
  intros Hp Hrw Hsel Ht Hparse Hparts. destruct (table_facts i p Hp) as (Hin & _ & Hf1 & Hf2 & _).
  unfold lan6_command. const_tests. unfold ipmi_cfgp_init.
  rewrite (parse_sel_ok i p s b toks [] _ Hp Hf1 ltac:(lia) Hsel Ht). pose proof (zlen_nonneg (selector_words p s b)).
  rewrite (proj2 (Z.eqb_neq (1 + _) (-1))) by lia.
  replace (drop _ _) with toks.
  2: { replace (Z.to_nat (1 + zlen (selector_words p s b))) with (S (length (selector_words p s b))) by (unfold zlen; lia).
       cbn [drop]. by rewrite drop_app_length. }
  destruct Hsel as (Hs & Hb & _). rewrite (M_bind_run _ _ _ _ _ (parse_data_run i p s b toks data _ d Hp Hs Hb Hparse)).
  cbn [Z.eqb negb]. destruct (cfgp_set_run i p s b vs data (text "lan6 set nolock") d Hp Hrw Hparts) as (d' & E & W).
  exists d'. split; [| done]. unfold lan6_set, mbind, M_bind, mret, M_ret. cbn [Z.eqb negb]. by rewrite E.
Qed.
End Sink.

(** ** From one controller to the other *)

Section Transfer.
Context {dev : Type} {bmc : Bmc dev} {inet : Inet6} {laws : Inet6Laws inet} {mal : Malloc}.
Context (memory : forall n, exists b, malloc n = Some b).
Context (channel : Z) (Hchan : 1 <= channel <= 15) (fuel : nat).
Context (held : Z -> Z -> Z -> option (list Z)) (written : dev -> list (Z * list Z)) {sink : LanSink channel written}.
Context (cmdlist : list (list Z * (list (list Z) -> M dev Z))).
Context (Hlan6 : find_cmd cmdlist (text "lan6") = Some (fun argv => '(r, _) ← ipmi_lan6_main fuel argv; mret r)).

Lemma channel_facts : plain 3 (dec channel) /\ str2int (Some (dec channel)) = (0, Some channel) /\
  lan6_cmdname channel ++ [32] = words [text "lan6"; text "set"; dec channel; text "nolock"].
Proof using Hchan.
  destruct (dec_byte channel) as (H1 & _ & H2); [unfold is_u8; lia |]. split; [done |]. split; [done |].
  assert (forallb (fun c => bool_decide (lan6_cmdname c ++ [32] = words [text "lan6"; text "set"; dec c; text "nolock"])) (seqZ 1 15) = true) as H
    by (vm_compute; reflexivity).
  rewrite forallb_forall in H. eapply bool_decide_eq_true_1, H, list_elem_of_In, elem_of_seqZ. lia.
Qed.

(** The line of a command with the channel. *)
Lemma channel_line k cmd args t rest rc d : plain 64 cmd -> Forall (plain 64) args -> plain 64 t -> (length args <= 8)%nat ->
  exec_lines cmdlist (S k) ((words (text "lan6" :: cmd :: dec channel :: args) ++ t) ++ 10 :: rest) rc d =
  ('(r, _) ← ipmi_lan6_main fuel (cmd :: dec channel :: args ++ [t]); exec_lines cmdlist k rest (if negb (r =? 0) then r else rc)) d.
Proof using Hchan Hlan6.
  intros Hc Ha Ht Hl. destruct channel_facts as (Hp & _ & _).
  rewrite (exec_line cmdlist 64); [| | done | lia | cbn [length]; lia].
  2: { repeat (apply Forall_cons_2; [try done |]); [by apply plain_b_ok | by apply (plain_le 3) | done]. }
  cbn [app hd tl]. unfold ipmi_cmd_run. rewrite Hlan6. unfold mbind, M_bind.
  by destruct (ipmi_lan6_main fuel (cmd :: dec channel :: args ++ [t]) d) as [[[r out] d']|].
Qed.

Lemma main_set argv : ipmi_lan6_main fuel (text "set" :: dec channel :: text "nolock" :: argv) =
  lan6_command channel fuel LANP_CMD_SET true argv.
Proof using Hchan.
  destruct channel_facts as (_ & Hi & _). unfold ipmi_lan6_main.
  change (str2val (text "set") ip6_command_vals LANP_CMD_ANY) with LANP_CMD_SET. const_tests. rewrite Hi.
  change (strcaseeq (text "nolock") (text "nolock")) with true. reflexivity.
Qed.

(** ** The lines of the values *)

(** A value in the list of the source. *)
Definition item_fine (x : cfgp_data) : Prop := exists i p s b vs,
  x = mk_data (mk_sel (Z.of_nat i) s b) (block_of p vs) /\ lan_cfgp !! i = Some p /\ selectors_ok p s b /\
  lan6_values held p s b = Some vs /\ (p_access p <> CFGP_RDONLY -> restorable p s b vs).

(** What belongs to it: parameters and their values. *)
Definition writes_of (x : cfgp_data) : list (Z * list Z) :=
  match lan_cfgp !! Z.to_nat (sel_param (d_sel x)) with
  | Some p =>
      if bool_decide (p_access p = CFGP_RDONLY) then []
      else combine (params_of p (sel_set (d_sel x))) (restored p (default [] (lan6_values held p (sel_set (d_sel x)) (sel_block (d_sel x)))))
  | None => []
  end.

Definition all_selected : cfgp_sel := mk_sel (-1) (-1) (-1).

Lemma selector_words_plain p s b : is_u8 s -> is_u8 b -> Forall (plain 64) (selector_words p s b).
Proof using.
  intros Hs Hb. unfold selector_words.
  assert (forall x, is_u8 x -> plain 64 (dec x)) as Hd by (intros x Hx; apply (plain_le 3); [done | by apply dec_byte]).
  apply Forall_app. split; case_match; repeat constructor; by apply Hd.
Qed.

Lemma words_app a b : words (a ++ b) = words a ++ words b.
Proof using. apply flat_map_app. Qed.

Lemma save_prefix_words v p i s b : save_prefix (mk_ctx lan_cfgp (lan6_cmdname channel) v) p (mk_sel i s b) =
  words (text "lan6" :: text "set" :: dec channel :: text "nolock" :: text (p_name p) :: selector_words p s b).
Proof using Hchan.
  destruct channel_facts as (_ & _ & Hc). unfold save_prefix. cbn [c_cmdname sel_set sel_block].
  rewrite app_assoc, Hc.
  change (text "lan6" :: text "set" :: dec channel :: text "nolock" :: text (p_name p) :: selector_words p s b)
    with ([text "lan6"; text "set"; dec channel; text "nolock"] ++ [text (p_name p)] ++ selector_words p s b).
  rewrite !words_app. f_equal. change (words [text (p_name p)]) with ((text (p_name p) ++ [32]) ++ []).
  rewrite app_nil_r, <- app_assoc. do 2 f_equal. unfold selector_words. rewrite words_app.
  f_equal; case_match; try done; cbn; by rewrite app_nil_r.
Qed.

(** A value is saved as a line that writes it. *)
Lemma item_line i p s b vs v : lan_cfgp !! i = Some p -> selectors_ok p s b -> p_access p <> CFGP_RDONLY -> restorable p s b vs ->
  exists out, lanp_save_cfgp p (block_of p vs) = Ok out /\
  forall k rest rc d, exists d',
    exec_lines cmdlist (S k) (save_prefix (mk_ctx lan_cfgp (lan6_cmdname channel) v) p (mk_sel (Z.of_nat i) s b) ++ out ++ 10 :: rest) rc d =
      exec_lines cmdlist k rest rc d' /\ written d' = written d ++ combine (params_of p s) (restored p vs).
Proof using Hchan Hlan6 laws memory sink.
  intros Hp Hsel Hrw Hres. pose proof Hsel as (Hs & Hb & _). destruct (table_facts i p Hp) as (Hin & _ & _ & _ & _ & _ & _ & Hname).
  destruct (lan6_line p s b vs Hin Hs Hb Hres) as (toks & data & Hsave & Hne & Hpl & Hlen & Hparse & Hparts).
  exists (unwords toks). split; [done |]. intros k rest rc d.
  destruct (exists_last Hne) as (init & t & ->). rewrite unwords_snoc, save_prefix_words.
  apply Forall_app in Hpl as [Hpi Hpt]. inversion Hpt as [|? ? Hpt' _]; subst. rewrite length_app in Hlen. cbn [length] in Hlen.
  set (args := text "nolock" :: text (p_name p) :: selector_words p s b ++ init).
  match goal with |- context [exec_lines _ _ ?txt] => replace txt with
    ((words (text "lan6" :: text "set" :: dec channel :: args) ++ t) ++ 10 :: rest) end.
  2: { unfold args. change (text "lan6" :: text "set" :: dec channel :: text "nolock" :: text (p_name p) :: selector_words p s b ++ init)
         with ((text "lan6" :: text "set" :: dec channel :: text "nolock" :: text (p_name p) :: selector_words p s b) ++ init).
       rewrite words_app, <- !app_assoc. done. }
  assert (length (selector_words p s b) <= 2)%nat as Hl2 by (unfold selector_words; rewrite length_app; repeat case_match; cbn; lia).
  assert (Forall (plain 64) init) as Hpi' by (eapply Forall_impl; [exact Hpi |]; intros u Hu; by apply (plain_le 48)).
  rewrite channel_line.
  - unfold args. cbn [app]. rewrite main_set, <- app_assoc.
    destruct (set_command_run channel written memory fuel i p s b (init ++ [t]) (restored p vs) data d Hp Hrw Hsel Hne Hparse Hparts) as (d' & E & W).
    rewrite (M_bind_run _ _ _ _ _ E). by exists d'.
  - by apply plain_b_ok.
  - unfold args. repeat (apply Forall_cons_2; [| try (apply Forall_app; split)]);
      [by apply plain_b_ok | by apply (plain_le 48) | by apply selector_words_plain | done].
  - by apply (plain_le 48).
  - unfold args. cbn [length]. rewrite length_app. lia.
Qed.

Lemma items_run V (d : dev) v : Forall item_fine v ->
  exists script, do_action (handler := lanp_ip6_cfgp channel) (mk_ctx lan_cfgp (lan6_cmdname channel) V) CFGP_SAVE all_selected CFGP_RDONLY v d =
      Ok (0, script, d) /\
  forall k rest rc d2, (length script <= k)%nat -> exists k' d2',
    exec_lines cmdlist k (script ++ rest) rc d2 = exec_lines cmdlist k' rest rc d2' /\
    written d2' = written d2 ++ flat_map writes_of v /\ (k - length script <= k')%nat.
Proof using Hchan Hlan6 laws memory sink.
  induction 1 as [|x v (i & p & s & b & vs & -> & Hp & Hsel & Hvs & Hres) _ (script & E & Hexec)].
  { exists []. split; [done |]. intros k rest rc d2 _. exists k, d2. cbn. rewrite app_nil_r. split; [done |]. split; [done | lia]. }
  destruct (table_facts i p Hp) as (_ & Hi & _). cbn [do_action d_sel].
  assert (selected all_selected (mk_data (mk_sel (Z.of_nat i) s b) (block_of p vs)) = true) as -> by done. cbn [negb].
  unfold cfgp_param. cbn [c_set sel_param]. rewrite Nat2Z.id, Hp. cbn [or_oob]. rewrite lift_Ok_bind.
  cbn [flat_map]. unfold writes_of at 1. cbn [d_sel sel_param sel_set sel_block]. rewrite Nat2Z.id, Hp, Hvs.
  case_bool_decide as Hrw; [by exists script |]. cbn [default].
  destruct (item_line i p s b vs V Hp Hsel Hrw (Hres Hrw)) as (out & Hout & Hline).
  set (prefix := save_prefix _ p _) in *. exists ((prefix ++ out ++ [10]) ++ script). split.
  - unfold cfgp_handler, lanp_ip6_cfgp. cbn [a_type d_data]. rewrite Hout. unfold mbind at 1, M_bind at 1. rewrite lift_Ok_bind.
    cbn [mret M_ret Z.eqb negb]. rewrite bool_decide_eq_true_2 by done. rewrite (M_bind_run _ _ _ _ _ E). reflexivity.
  - intros k rest rc d2 Hk. rewrite !length_app in Hk. cbn [length] in Hk. destruct k as [|k]; [lia |].
    replace (((prefix ++ out ++ [10]) ++ script) ++ rest) with (prefix ++ out ++ 10 :: (script ++ rest)) by (rewrite <- !app_assoc; done).
    destruct (Hline k (script ++ rest) rc d2) as (d3 & E3 & W3). rewrite E3.
    destruct (Hexec k rest rc d3) as (k' & d4 & E4 & W4 & Hk'); [lia |]. exists k', d4. split; [exact E4 |].
    split; [by rewrite W4, W3, <- app_assoc |]. rewrite !length_app. cbn [length]. lia.
Qed.

(** A line that sets the progress. *)
Lemma progress_line k cmd vs rest rc d : (cmd = text "lock" /\ vs = [1]) \/ (cmd = text "commit" /\ vs = [2; 0]) \/ (cmd = text "discard" /\ vs = [0]) ->
  exists d', exec_lines cmdlist (S k) ((text "lan6 " ++ cmd ++ [32] ++ dec channel) ++ 10 :: rest) rc d = exec_lines cmdlist k rest rc d' /\
    written d' = written d ++ map (fun v => (0, [v])) vs.
Proof using Hchan Hlan6 sink.
  intros Hcmd. destruct channel_facts as (Hd & Hi & _).
  assert (plain 64 cmd) as Hc by (destruct Hcmd as [[-> _] | [[-> _] | [-> _]]]; by apply plain_b_ok).
  replace (text "lan6 " ++ cmd ++ [32] ++ dec channel) with (words [text "lan6"; cmd] ++ dec channel)
    by (cbn; by rewrite <- !app_assoc).
  rewrite (exec_line cmdlist 64); [| by repeat (apply Forall_cons_2; [first [done | by apply plain_b_ok] |]); apply Forall_nil_2 |
    by apply (plain_le 3) | lia | cbn; lia].
  cbn [app hd tl]. unfold ipmi_cmd_run. rewrite Hlan6.
  assert (exists d', ipmi_lan6_main fuel [cmd; dec channel] d = Ok (0, [], d') /\ written d' = written d ++ map (fun v => (0, [v])) vs) as (d' & E & W).
  { unfold ipmi_lan6_main. rewrite Hi. change (default 0 (Some channel)) with channel.
    destruct (set_lanp_run channel written 0 [1] 0 [1] d eq_refl eq_refl) as (d1 & E1 & W1).
    destruct (set_lanp_run channel written 0 [2] 0 [2] d eq_refl eq_refl) as (d2 & E2 & W2).
    destruct (set_lanp_run channel written 0 [0] 0 [0] d2 eq_refl eq_refl) as (d3 & E3 & W3).
    destruct (set_lanp_run channel written 0 [0] 0 [0] d eq_refl eq_refl) as (d4 & E4 & W4).
    destruct Hcmd as [[-> ->] | [[-> ->] | [-> ->]]].
    - exists d1. split; [| done]. change (str2val (text "lock") ip6_command_vals LANP_CMD_ANY) with LANP_CMD_LOCK.
      unfold lan6_command. const_tests. unfold lanp_lock. by rewrite (M_bind_run _ _ _ _ _ E1).
    - exists d3. split; [| by rewrite W3, W2, <- app_assoc].
      change (str2val (text "commit") ip6_command_vals LANP_CMD_ANY) with LANP_CMD_COMMIT.
      unfold lan6_command. const_tests. unfold lanp_commit, lanp_discard, mbind, M_bind. rewrite E2. cbn [Z.eqb]. by rewrite E3.
    - exists d4. split; [| done]. change (str2val (text "discard") ip6_command_vals LANP_CMD_ANY) with LANP_CMD_DISCARD.
      unfold lan6_command. const_tests. unfold lanp_discard. by rewrite (M_bind_run _ _ _ _ _ E4). }
  exists d'. split; [| done]. unfold mbind, M_bind. by rewrite E.
Qed.

(** ** All parameters *)

Context (inv : dev -> Prop) (nsets : ipmi_cfgp -> nat) (nblocks : ipmi_cfgp -> Z -> nat).
Context {source : LanSource channel inv held nsets nblocks}.

(** The values that a saved line can hold are those of the parameters that can
    be written. *)
Definition all_restorable : Prop := forall p s b vs, In p lan_cfgp -> p_access p <> CFGP_RDONLY ->
  p_first_set p <= s -> p_first_block p <= b -> lan6_values held p s b = Some vs -> restorable p s b vs.

(** The parameters of the controller that can be written: of every set and every
    block, in the order of the table, with the values that are restored. *)
Definition values_writes (p : ipmi_cfgp) : list (Z * list Z) :=
  if bool_decide (p_access p = CFGP_RDONLY) then [] else
  flat_map (fun s => flat_map (fun b => combine (params_of p s) (restored p (default [] (lan6_values held p s b))))
    (seqZ (p_first_block p) (Z.of_nat (nblocks p s)))) (seqZ (p_first_set p) (Z.of_nat (nsets p))).
Definition config_writes : list (Z * list Z) := flat_map values_writes lan_cfgp.

Lemma flat_map_flat_map {A B C} (f : B -> list C) (g : A -> list B) l : flat_map f (flat_map g l) = flat_map (fun x => flat_map f (g x)) l.
Proof using. induction l as [|x l IH]; [done |]. cbn [flat_map]. by rewrite flat_map_app, IH. Qed.

Lemma flat_map_map {A B C} (f : B -> list C) (g : A -> B) l : flat_map f (map g l) = flat_map (fun x => f (g x)) l.
Proof using. induction l as [|x l IH]; [done |]. cbn [map flat_map]. by rewrite IH. Qed.

Lemma flat_map_nil {A B} (l : list A) : flat_map (fun _ => @nil B) l = [].
Proof using. by induction l. Qed.

Lemma writes_of_param i p : lan_cfgp !! i = Some p ->
  flat_map writes_of (param_values (lan6_item held) nsets nblocks (Z.of_nat i) p) = values_writes p.
Proof using.
  intros Hp. unfold param_values, values_writes. rewrite flat_map_flat_map. unfold set_values.
  transitivity (flat_map (fun s => flat_map (fun b => if bool_decide (p_access p = CFGP_RDONLY) then [] else
      combine (params_of p s) (restored p (default [] (lan6_values held p s b)))) (seqZ (p_first_block p) (Z.of_nat (nblocks p s))))
    (seqZ (p_first_set p) (Z.of_nat (nsets p)))).
  - apply flat_map_ext. intros s. rewrite flat_map_map. apply flat_map_ext. intros b. unfold writes_of, value_of.
    cbn [d_sel sel_param sel_set sel_block]. by rewrite Nat2Z.id, Hp.
  - case_bool_decide; [| done].
    rewrite (flat_map_ext _ (fun _ => [])) by (intros; apply flat_map_nil). apply flat_map_nil.
Qed.

Lemma no_write_only : Forall (fun p => p_access p <> CFGP_WRONLY) lan_cfgp.
Proof using. by repeat constructor. Qed.

Lemma writes_of_all l : forall i, l = drop i lan_cfgp ->
  flat_map writes_of (all_values (lan6_item held) nsets nblocks (Z.of_nat i) l) = flat_map values_writes l.
Proof using.
  induction l as [|p l IH]; intros i Hl; [done |]. cbn [all_values flat_map].
  assert (lan_cfgp !! i = Some p) as Hp by (rewrite <- (Nat.add_0_r i), <- lookup_drop, <- Hl; done).
  assert (p_access p <> CFGP_WRONLY) as Hw by (eapply (Forall_lookup_1 _ _ _ _ no_write_only); exact Hp).
  rewrite bool_decide_eq_false_2, flat_map_app, (writes_of_param i p Hp) by done. f_equal.
  replace (Z.of_nat i + 1) with (Z.of_nat (S i)) by lia. apply IH. change (l = drop (S i) lan_cfgp).
  replace (S i) with (i + 1)%nat by lia. by rewrite <- drop_drop, <- Hl.
Qed.

Lemma param_fine i p : all_restorable -> lan_cfgp !! i = Some p ->
  Forall item_fine (param_values (lan6_item held) nsets nblocks (Z.of_nat i) p).
Proof using source.
  intros Hres Hp. destruct (table_facts i p Hp) as (Hin & _ & Hf1 & Hf2 & _ & Hbs & Hs0 & _).
  assert (p ∈ lan_cfgp) as Hp' by (by eapply list_elem_of_lookup_2).
  pose proof (proj1 (Forall_forall _ _) (lan_numbers channel inv held) p Hp') as (N1 & N2 & N3 & N4).
  unfold param_values, set_values. apply Forall_forall. intros x Hx. apply list_elem_of_In, in_flat_map in Hx as (s & Hs & Hx).
  apply in_map_iff in Hx as (b & <- & Hb). apply list_elem_of_In, elem_of_seqZ in Hs, Hb. destruct (N2 s) as [Nb1 Nb2].
  destruct (proj2 (proj1 (Forall_forall _ _) (lan_items channel inv held) p Hp' s b ltac:(lia) ltac:(lia))) as [vs Hvs]; [lia |].
  exists i, p, s, b, vs. unfold value_of, lan6_item. rewrite Hvs. cbn [mbind option_bind default from_option].
  split_and!; [done | done | | done | intros; apply (Hres p s b); (done || lia)].
  unfold selectors_ok, is_u8. split_and!; try lia; try done.
  all: intros Hset; first [specialize (N3 Hset); specialize (Hs0 Hset); lia | pose proof (N4 Hset s); lia].
Qed.

Lemma all_fine : all_restorable -> forall l i, l = drop i lan_cfgp ->
  Forall item_fine (all_values (lan6_item held) nsets nblocks (Z.of_nat i) l).
Proof using source.
  intros Hres. induction l as [|p l IH]; intros i Hl; [constructor |]. cbn [all_values].
  assert (lan_cfgp !! i = Some p) as Hp by (rewrite <- (Nat.add_0_r i), <- lookup_drop, <- Hl; done).
  apply Forall_app. split; [case_bool_decide; [constructor | by apply param_fine] |].
  replace (Z.of_nat i + 1) with (Z.of_nat (S i)) by lia. apply IH.
  replace (S i) with (i + 1)%nat by lia. by rewrite <- drop_drop, <- Hl.
Qed.

(** "lan6 save": the file, with the lines of the values in the middle. *)
Lemma save_main d : all_restorable -> (1024 < fuel)%nat -> inv d ->
  exists script d', ipmi_lan6_main fuel [text "save"; dec channel] d =
      Ok (0, (text "lan6 " ++ text "lock" ++ [32] ++ dec channel) ++ 10 :: (script ++ (text "lan6 " ++ text "commit" ++ [32] ++ dec channel) ++
        10 :: ((text "lan6 " ++ text "discard" ++ [32] ++ dec channel) ++ 10 :: (text "exit" ++ [10]))), d') /\ inv d' /\
  forall k rest rc d2, (length script <= k)%nat -> exists k' d2',
    exec_lines cmdlist k (script ++ rest) rc d2 = exec_lines cmdlist k' rest rc d2' /\
    written d2' = written d2 ++ config_writes /\ (k - length script <= k')%nat.
Proof using Hchan Hlan6 laws memory sink source.
  intros Hres Hf Hi. destruct channel_facts as (_ & Hint & _).
  assert (forall p s, p ∈ lan_cfgp -> (nsets p + nblocks p s <= 512)%nat) as HB.
  { intros p s Hp. destruct (proj1 (Forall_forall _ _) (lan_numbers channel inv held) p Hp) as (N1 & N2 & _).
    destruct (N2 s). destruct (proj1 (Forall_forall _ _) (source_first (handler := lanp_ip6_cfgp channel)) p Hp). lia. }
  set (ctx := mk_ctx lan_cfgp (text "lan6 set nolock") []).
  destruct (get_all_run (handler := lanp_ip6_cfgp channel) inv lan_cfgp (lan6_item held) nsets nblocks memory 512 HB fuel ltac:(lia)
    lan_cfgp 0 ctx d ltac:(done) Hi) as (d1 & E1 & Hi1).
  pose proof (all_fine Hres lan_cfgp 0 eq_refl) as Hfine. change (Z.of_nat 0) with 0 in Hfine.
  destruct (items_run (all_values (lan6_item held) nsets nblocks 0 lan_cfgp) d1 _ Hfine) as (script & E2 & Hexec).
  exists script, d1. split; [| split; [done |]].
  - unfold ipmi_lan6_main. change (str2val (text "save") ip6_command_vals LANP_CMD_ANY) with LANP_CMD_SAVE. const_tests.
    rewrite Hint. change (negb (0 =? 0)) with false. cbv match. change (default 0 (Some channel)) with channel.
    unfold lan6_command. const_tests. change (ipmi_cfgp_parse_sel _ []) with (0, all_selected). const_tests.
    unfold lan6_save. change (ipmi_cfgp_init lan_cfgp _) with ctx.
    assert (ipmi_cfgp_get (handler := lanp_ip6_cfgp channel) fuel ctx all_selected d =
      Ok (0, extend ctx (all_values (lan6_item held) nsets nblocks 0 lan_cfgp), d1)) as Eg by exact E1.
    change (0 =? -1) with false. cbv match.
    rewrite (M_bind_run _ _ _ _ _ Eg). cbn [Z.eqb negb]. unfold ipmi_cfgp_save, cfgp_do_action.
    unfold mbind, M_bind. unfold extend, ctx. unfold update, c_cmdname_update, c_v_update. cbn [c_v c_set c_cmdname app].
    rewrite E2. unfold mret, M_ret. reflexivity.
  - pose proof (writes_of_all lan_cfgp 0 eq_refl) as Hw. change (Z.of_nat 0) with 0 in Hw. rewrite Hw in Hexec. exact Hexec.
Qed.

(** C33. Saving a configuration and running the saved file: "lan6 save" reads
    all parameters of a channel of one controller, and [ipmi_exec_main] on the
    file makes another controller take every parameter that can be written, of
    every set and every block, with the values of the first, between setting
    "in progress" and its commit; but a flow label arrives shifted by four bits,
    with a digit d that is not in it ([restored]).  The values of the first have
    to be those that the tables of the program name and that fit their words
    ([all_restorable]).  The run ends with -1 all the same, for the last line of
    the file is "exit", which is no command. *)
Theorem lan6_save_exec_restores d d2 : all_restorable -> (1024 < fuel)%nat -> inv d ->
  find_cmd cmdlist (text "exit") = None -> (hd (text "lan6", fun _ => mret 0) cmdlist).1 <> text "default" ->
  exists file d' d2', ipmi_lan6_main fuel [text "save"; dec channel] d = Ok (0, file, d') /\ inv d' /\
    ipmi_exec_main cmdlist (Some file) d2 = Ok (-1, d2') /\
    written d2' = written d2 ++ [(0, [1])] ++ config_writes ++ [(0, [2]); (0, [0]); (0, [0])].
Proof using Hchan Hlan6 laws memory sink source.
  intros Hres Hf Hi Hexit Hdef. destruct (save_main d Hres Hf Hi) as (script & d' & E & Hi' & Hexec).
  eexists _, d'. unfold ipmi_exec_main. set (file := _ ++ 10 :: (script ++ _)) in E.
  assert (length script + 40 <= length file)%nat as Hlen.
  { unfold file. repeat (rewrite length_app || cbn [length]). change (length (text "lan6 ")) with 5%nat. change (length (text "lock")) with 4%nat.
    change (length (text "commit")) with 6%nat. change (length (text "discard")) with 7%nat. change (length (text "exit")) with 4%nat. lia. }
  destruct (progress_line (length file) (text "lock") [1] (script ++ (text "lan6 " ++ text "commit" ++ [32] ++ dec channel) ++
        10 :: ((text "lan6 " ++ text "discard" ++ [32] ++ dec channel) ++ 10 :: (text "exit" ++ [10]))) 0 d2) as (s1 & E1 & W1); [by left |].
  edestruct (Hexec (length file)) as (k' & s2 & E2 & W2 & Hk'); [lia |].
  destruct k' as [|[|[|[|k']]]]; try lia.
  edestruct (progress_line (S (S (S k'))) (text "commit") [2; 0]) as (s3 & E3 & W3); [right; by left |].
  edestruct (progress_line (S (S k')) (text "discard") [0]) as (s4 & E4 & W4); [right; by right |].
  exists s4. split; [exact E |]. split; [done |]. split.
  - etransitivity; [exact E1 |]. etransitivity; [exact E2 |]. etransitivity; [exact E3 |]. etransitivity; [exact E4 |].
    change (text "exit" ++ [10]) with ((words [] ++ text "exit") ++ 10 :: []). rewrite (exec_line cmdlist 64); [| constructor | by apply plain_b_ok | lia | cbn; lia].
    cbn [app hd tl]. unfold ipmi_cmd_run. rewrite Hexit. unfold mbind, M_bind.
    destruct cmdlist as [|[n f] cmds]; [done |]. cbn [hd fst] in Hdef. rewrite bool_decide_eq_false_2 by done. reflexivity.
  - rewrite W4, W3, W2, W1, <- !app_assoc. reflexivity.
Qed.
End Transfer.

(** ** A controller for the examples: two scalars, a flow label, a static
    address, two blocks of a DUID and the first static router. *)

#[local] Instance toy_inet : Inet6 := {|
  inet_ntop a := hex_text a;
  inet_pton s := match ipmi_parse_hex s (Some (zeros 16)) 16 with Some (16, Some a) => Some a | _ => None end |}.

#[local] Instance toy_inet_laws : Inet6Laws toy_inet.
Proof.
  constructor; intros a Hb Ha.
  - apply (plain_le 32); [lia |]. pose proof (hex_text_plain a Hb ltac:(by intros ->)) as H. by rewrite Ha in H.
  - unfold inet_pton, inet_ntop, toy_inet. change 16 with (zlen (zeros 16)) at 2. rewrite parse_hex_string by (rewrite ?Ha; done).
    rewrite Ha. by rewrite app_nil_r.
Defined.

Definition toy_addr : list Z := seqZ 0x20 16.

Definition toy_table : list (Z * Z * Z * list Z) := [
  (51, 0, 0, [2]); (52, 0, 0, [200]); (54, 0, 0, [1; 2; 3]); (56, 0, 0, [0; 0x80] ++ toy_addr ++ [64; 2]);
  (58, 0, 0, [0; 0] ++ seqZ 1 16); (58, 0, 1, [0; 1] ++ seqZ 101 16);
  (65, 0, 0, toy_addr); (66, 0, 0, [1; 2; 3; 4; 5; 0xf6]); (67, 0, 0, [48]); (68, 0, 0, toy_addr)].

Fixpoint toy_find (l : list (Z * Z * Z * list Z)) (q s b : Z) : option (list Z) :=
  match l with
  | [] => None
  | (q', s', b', v) :: l => if (q =? q') && (s =? s') && (b =? b') then Some v else toy_find l q s b
  end.
Definition toy_held : Z -> Z -> Z -> option (list Z) := toy_find toy_table.

Definition toy_nsets (p : ipmi_cfgp) : nat :=
  if existsb (Z.eqb (p_specific p)) [51; 52; 54; 56; 58; 65] then 1%nat else O.
Definition toy_nblocks (p : ipmi_cfgp) (s : Z) : nat := if (p_specific p =? 58) && (s =? 0) then 2%nat else 1%nat.

#[local] Instance toy_lan : Bmc (list (Z * list Z)) := fun req d =>
  if rq_cmd req =? IPMI_LAN_GET_CONFIG then
    match toy_held (rd (rq_data req) 1) (rd (rq_data req) 2) (rd (rq_data req) 3) with
    | Some v => (Some (reply 0 (0x11 :: v)), d)
    | None => (Some (reply 0x80 []), d)
    end
  else (Some (reply 0 []), d ++ [(rd (rq_data req) 1, drop 2 (rq_data req))]).

Lemma toy_held_in q s b v : toy_held q s b = Some v -> In (q, s, b, v) toy_table.
Proof.
  unfold toy_held. induction toy_table as [|[[[q' s'] b'] v'] l IH]; [done |]. cbn [toy_find].
  destruct (Z.eqb_spec q q') as [->|]; [| by right; apply IH]. destruct (Z.eqb_spec s s') as [->|]; [| by right; apply IH].
  destruct (Z.eqb_spec b b') as [->|]; [| by right; apply IH]. intros [= ->]. by left.
Defined.

Lemma toy_held_size q s b v : toy_held q s b = Some v -> lookup_lanp q = Some (zlen v).
Proof.
  intros H%toy_held_in. revert H. cut (Forall (fun x => lookup_lanp x.1.1.1 = Some (zlen x.2)) toy_table).
  - intros Hall H. rewrite List.Forall_forall in Hall. exact (Hall _ H).
  - repeat constructor.
Defined.

#[local] Instance toy_lan_source : LanSource 1 (fun _ => True) toy_held toy_nsets toy_nblocks.
Proof.
  constructor.
  - exact toy_held_size.
  - intros q s b d Hq Hs Hb _. unfold bmc_answer, toy_lan. cbn [rq_cmd rq_data].
    change (IPMI_LAN_GET_CONFIG =? IPMI_LAN_GET_CONFIG) with true. change (rd [u8 1; q; s; b] 1) with q.
    change (rd [u8 1; q; s; b] 2) with s. change (rd [u8 1; q; s; b] 3) with b. cbv match.
    destruct (toy_held q s b) as [v|]; do 2 eexists; (split; [reflexivity |]); (split; [done |]); [| done].
    split; [done |]. eexists. apply carries_reply.
  - assert (forall p s, (1 <= toy_nblocks p s <= 2)%nat /\ (toy_nsets p <= 1)%nat) as Hb.
    { intros p s. unfold toy_nblocks, toy_nsets. split; case_match; lia. }
    apply Forall_forall. intros p Hp. assert (p_first_set p <= 1 /\ p_first_block p = 0 /\ (p_has_blocks p = false -> p_specific p <> 58)) as (H1 & H2 & H3).
    { revert p Hp. apply Forall_forall. repeat constructor; cbn; (lia || done). }
    split; [destruct (Hb p 0); lia |]. split; [intros s; destruct (Hb p s); lia |]. split; [intros _; by destruct (Hb p 0) |].
    intros Hblk s. unfold toy_nblocks. by rewrite (proj2 (Z.eqb_neq _ _) (H3 Hblk)).
  - repeat (apply Forall_cons_2; [intros s b Hs Hb; cbn in Hs; unfold toy_nblocks in Hb |- *; cbn in Hb;
      assert (s = 0 \/ s = 1 \/ s = 2) as Hs' by lia; destruct Hs' as [-> | [-> | ->]]; cbn in Hb; try lia;
      (assert (b = 0 \/ b = 1 \/ b = 2) as Hb' by lia); destruct Hb' as [-> | [-> | ->]]; try lia;
      (split; [intros [? H]; vm_compute in H; (discriminate H || (cbn; lia)) |
               cbn; intros; (lia || (eexists; vm_compute; reflexivity))]) |]).
    apply Forall_nil_2.
Defined.

#[local] Instance toy_lan_sink : LanSink 1 (fun d : list (Z * list Z) => d).
Proof.
  intros q v d Hq Hl. do 2 eexists. split; [reflexivity |]. split; [done |]. cbn [rq_data app].
  change (rd (u8 1 :: q :: v) 1) with q. reflexivity.
Defined.

Definition toy_cmds : list (list Z * (list (list Z) -> M (list (Z * list Z)) Z)) :=
  [(text "lan6", fun argv => '(r, _) ← ipmi_lan6_main 1025 argv; mret r)].

(** The parts of the table. *)
Lemma toy_parts parts vs : mapM (fun '((q, s, b) : Z * Z * Z) => toy_held q s b) parts = Some vs ->
  Forall2 (fun '(q, s, b) v => In (q, s, b, v) toy_table) parts vs.
Proof. intros H%mapM_Some. eapply Forall2_impl; [exact H |]. intros [[q s] b] v. apply toy_held_in. Defined.

(** An entry of the table, for a known parameter. *)
Ltac toy_entry H := cbn [In toy_table] in H; repeat destruct H as [H | H]; try (discriminate H); try (exact (False_ind _ H)).

Lemma toy_restorable : all_restorable toy_held.
Proof.
  intros p s b vs Hp Hrw Hs Hb. cbn [In lan_cfgp] in Hp.
  repeat destruct Hp as [<- | Hp]; try destruct Hp; try (exfalso; by apply Hrw); clear Hrw; cbn in Hs, Hb;
    unfold lan6_values, lan6_parts, params_of; cbn [p_specific]; const_tests;
    unfold restorable; cbn [p_specific]; const_tests; try match goal with |- context [2 <? s] => destruct (Z.ltb_spec 2 s); [done |] end;
    cbn [mbind option_bind map]; intros Hvs%toy_parts; inversion Hvs as [|? v ? ? Hv Hr]; subst; clear Hvs.
  all: try match type of Hr with Forall2 _ [] _ => inversion Hr; subst; clear Hr end; try (toy_entry Hv; fail).
  - toy_entry Hv; injection Hv as <- <- <-. exists 2. split; [done | cbn; lia].
  - toy_entry Hv; injection Hv as <- <- <-. exists 200. split; [done |]. by vm_compute.
  - toy_entry Hv; injection Hv as <- <- <-. exists 1, 2, 3. split; [done |]. repeat constructor; by vm_compute.
  - toy_entry Hv; injection Hv as <- <- <-. exists 0x80, toy_addr, 64, 2. split; [done |]. split; [cbn; lia |]. split; [done |].
    split; [repeat constructor; by vm_compute |]. split; [by vm_compute | cbn; lia].
  - toy_entry Hv; injection Hv as <- <- <-; [exists (seqZ 1 16) | exists (seqZ 101 16)];
      (split; [done |]; split; [done |]; repeat constructor; by vm_compute).
  - inversion Hr as [|? v2 ? ? Hv2 Hr2]; subst. inversion Hr2 as [|? v3 ? ? Hv3 Hr3]; subst. inversion Hr3 as [|? v4 ? ? Hv4 Hr4]; subst.
    inversion Hr4; subst. assert (s = 1 \/ s = 2) as [-> | ->] by lia; toy_entry Hv; injection Hv as <- <-.
    toy_entry Hv2; injection Hv2 as <-. toy_entry Hv3; injection Hv3 as <-. toy_entry Hv4; injection Hv4 as <-.
    exists toy_addr, [1; 2; 3; 4; 5; 0xf6], 48, toy_addr. split; [done |]. split; [lia |]. split; [done |].
    split; [repeat constructor; by vm_compute |]. split; [done |]. split; [repeat constructor; by vm_compute |]. split; [by vm_compute |].
    split; [done |]. repeat constructor; by vm_compute.
Defined.

Lemma lan6_save_exec_restores_witness :
  exists file d' d2', ipmi_lan6_main 1025 [text "save"; dec 1] [] = Ok (0, file, d') /\ True /\
    ipmi_exec_main toy_cmds (Some file) [] = Ok (-1, d2') /\
    d2' = [] ++ [(0, [1])] ++ config_writes toy_held toy_nsets toy_nblocks ++ [(0, [2]); (0, [0]); (0, [0])].
Proof.
  refine (lan6_save_exec_restores _ 1 _ 1025 toy_held (fun d : list (Z * list Z) => d) toy_cmds eq_refl (fun _ => True)
    toy_nsets toy_nblocks [] [] toy_restorable _ I eq_refl _).
  - intros n. by eexists.
  - lia.
  - by apply Nat.ltb_lt.
  - discriminate.
Defined.

Lemma cfgp_get_complete_witness :
  let ctx := ipmi_cfgp_init lan_cfgp [] in
  (exists d', ipmi_cfgp_get (handler := lanp_ip6_cfgp 1) 7 ctx (mk_sel (-1) (-1) (-1)) [] =
     Ok (0, extend ctx (all_values (lan6_item toy_held) toy_nsets toy_nblocks 0 lan_cfgp), d') /\ True) /\
  (forall i p, 0 <= i -> lan_cfgp !! Z.to_nat i = Some p ->
    exists d', ipmi_cfgp_get (handler := lanp_ip6_cfgp 1) 7 ctx (mk_sel i (-1) (-1)) [] =
      Ok (if (toy_nsets p =? 0)%nat then -1 else 0,
          extend ctx (param_values (lan6_item toy_held) toy_nsets toy_nblocks i p), d') /\ True).
Proof.
  refine (cfgp_get_complete (handler := lanp_ip6_cfgp 1) (fun _ => True) lan_cfgp (lan6_item toy_held) toy_nsets toy_nblocks
    _ 3 _ 7 (ipmi_cfgp_init lan_cfgp []) [] eq_refl _ I).
  - intros n. by eexists.
  - intros p s _. unfold toy_nsets, toy_nblocks. repeat case_match; lia.
  - lia.
Defined.

(** What the toy controller takes: its flow label comes with a digit too many. *)
Example toy_writes : config_writes toy_held toy_nsets toy_nblocks =
  [(51, [2]); (52, [200]); (54, [0; 0x20; 0x3d]); (56, [0; 128] ++ toy_addr ++ [64; 2]); (58, [0; 0] ++ seqZ 1 16); (58, [0; 1] ++ seqZ 101 16);
   (65, toy_addr); (66, [1; 2; 3; 4; 5; 246]); (67, [48]); (68, toy_addr)].
Proof. vm_compute. reflexivity. Qed.

Example flow_label_garbled : let p := mk_cfgp "flow_label" None 3 CFGP_RDWR false 0 false 0 IPMI_LANP_IP6_FLOW_LABEL in
  lanp_save_cfgp p [1; 2; 3] = Ok (text "0x10203d") /\
  lanp_parse_cfgp p 0 0 [text "0x10203d"] (zeros 3) = Ok (0, [0; 0x20; 0x3d]).
Proof. vm_compute. done. Qed.
