(* ===== verification/SolParam.v ===== *)
(** * The configuration of Serial over LAN (lib/ipmi_sol.c)

    The parameters that a controller holds for Serial over LAN, read together
    and set one at a time, under the lock "set in progress" when it is asked
    for, and the access of users to the payload.  A local structure that is not
    cleared has fields that are [None] until they are read. *)

From stdpp Require Import strings.
From S2P Require Import Prelude Wire Ipmi Intf Session Helper Bmc Channel.

#[local] Open Scope Z_scope.

Definition IPMI_GET_SOL_CONFIG_PARAMETERS : Z := 0x22.
Definition IPMI_SET_SOL_CONFIG_PARAMETERS : Z := 0x21.
Definition IPMI_SET_USER_PAYLOAD_ACCESS : Z := 0x4c.
Definition IPMI_GET_USER_PAYLOAD_ACCESS : Z := 0x4d.

Definition SOL_PARAMETER_SET_IN_PROGRESS : Z := 0x00.
Definition SOL_PARAMETER_SOL_ENABLE : Z := 0x01.
Definition SOL_PARAMETER_SOL_AUTHENTICATION : Z := 0x02.
Definition SOL_PARAMETER_CHARACTER_INTERVAL : Z := 0x03.
Definition SOL_PARAMETER_SOL_RETRY : Z := 0x04.
Definition SOL_PARAMETER_SOL_NON_VOLATILE_BIT_RATE : Z := 0x05.
Definition SOL_PARAMETER_SOL_VOLATILE_BIT_RATE : Z := 0x06.
Definition SOL_PARAMETER_SOL_PAYLOAD_CHANNEL : Z := 0x07.
Definition SOL_PARAMETER_SOL_PAYLOAD_PORT : Z := 0x08.

(** [struct sol_config_parameters] *)
Record sol_config_parameters := mk_sol_config {
  set_in_progress : option Z;
  sol_enabled : option Z;
  force_encryption : option Z;
  force_authentication : option Z;
  privilege_level : option Z;
  character_accumulate_level : option Z;
  character_send_threshold : option Z;
  retry_count : option Z;
  retry_interval : option Z;
  non_volatile_bit_rate : option Z;
  volatile_bit_rate : option Z;
  payload_channel : option Z;
  payload_port : option Z;
}.

#[export] Instance sol_config_rebuild : Rebuild sol_config_parameters := fun p =>
  mk_sol_config (set_in_progress p) (sol_enabled p) (force_encryption p) (force_authentication p) (privilege_level p)
    (character_accumulate_level p) (character_send_threshold p) (retry_count p) (retry_interval p) (non_volatile_bit_rate p)
    (volatile_bit_rate p) (payload_channel p) (payload_port p).
#[export] Instance set_in_progress_update : Update set_in_progress := ltac:(solve_update).
#[export] Instance sol_enabled_update : Update sol_enabled := ltac:(solve_update).
#[export] Instance force_encryption_update : Update force_encryption := ltac:(solve_update).
#[export] Instance force_authentication_update : Update force_authentication := ltac:(solve_update).
#[export] Instance privilege_level_update : Update privilege_level := ltac:(solve_update).
#[export] Instance character_accumulate_level_update : Update character_accumulate_level := ltac:(solve_update).
#[export] Instance character_send_threshold_update : Update character_send_threshold := ltac:(solve_update).
#[export] Instance retry_count_update : Update retry_count := ltac:(solve_update).
#[export] Instance retry_interval_update : Update retry_interval := ltac:(solve_update).
#[export] Instance non_volatile_bit_rate_update : Update non_volatile_bit_rate := ltac:(solve_update).
#[export] Instance volatile_bit_rate_update : Update volatile_bit_rate := ltac:(solve_update).
#[export] Instance payload_channel_update : Update payload_channel := ltac:(solve_update).
#[export] Instance payload_port_update : Update payload_port := ltac:(solve_update).

(** A structure on the stack, and one that is cleared. *)
Definition raw_config : sol_config_parameters :=
  mk_sol_config None None None None None None None None None None None None None.
Definition zero_config : sol_config_parameters :=
  mk_sol_config (Some 0) (Some 0) (Some 0) (Some 0) (Some 0) (Some 0) (Some 0) (Some 0) (Some 0) (Some 0) (Some 0) (Some 0) (Some 0).

(** A name and its value, the first that fits. *)
Fixpoint named_value (l : list (string * Z)) (value : list Z) : option Z :=
  match l with
  | [] => None
  | (n, v) :: l => if bool_decide (value = text n) then Some v else named_value l value
  end.

(** [ipmi_sol_set_param_isvalid_uint8_t] *)
Definition ipmi_sol_set_param_isvalid_uint8_t (strval : list Z) (minval maxval : Z) : option Z :=
  match str2uchar (Some strval) with
  | (rc, v) => if negb (rc =? 0) || (default 0 v <? minval) || (maxval <? default 0 v) then None else Some (default 0 v)
  end.

Definition progress_values : list (string * Z) := [("set-complete", 0); ("set-in-progress", 1); ("commit-write", 2)]%string.
Definition enabled_values : list (string * Z) := [("true", 1); ("false", 0)]%string.
Definition encryption_values : list (string * Z) := [("true", 0x80); ("false", 0)]%string.
Definition authentication_values : list (string * Z) := [("true", 0x40); ("false", 0)]%string.
Definition privilege_values : list (string * Z) := [("user", 2); ("operator", 3); ("admin", 4); ("oem", 5)]%string.
Definition bit_rate_values : list (string * Z) :=
  [("serial", 0); ("9.6", 6); ("19.2", 7); ("38.4", 8); ("57.6", 9); ("115.2", 0x0A)]%string.

Section SolParam.
Context {dev : Type} {bmc : Bmc dev}.
(** Whether the interface has a session, and the port of it. *)
Context (session : bool) (port : Z).

(** ** Reading *)

(** A parameter: what an answer of the expected length is stored as, and what
    becomes of a parameter that is not supported. *)
Definition get_step (channel param len : Z) (store : list Z -> sol_config_parameters -> sol_config_parameters)
    (unsupported : sol_config_parameters -> option sol_config_parameters) (p : sol_config_parameters)
    : M dev (option sol_config_parameters) :=
  rsp ← sendrecv (mk_rq IPMI_NETFN_TRANSPORT 0 IPMI_GET_SOL_CONFIG_PARAMETERS 0 [channel; param; 0; 0]);
  match rsp with
  | None => mret None
  | Some r =>
      if ccode r =? 0 then
        if rs_data_len r =? len then d ← lift (rsp_bytes r 0 len); mret (Some (store d p)) else mret (Some p)
      else if ccode r =? 0x80 then mret (unsupported p)
      else mret None
  end.

Definition and_then {A B} (m : M dev (option A)) (f : A -> M dev (option B)) : M dev (option B) :=
  r ← m; match r with Some a => f a | None => mret None end.

Definition flag (b : bool) : Z := if b then 1 else 0.

(** The parameters in turn. *)
Definition get_set_in_progress (channel : Z) := get_step channel SOL_PARAMETER_SET_IN_PROGRESS 2
  (fun d p => p <| set_in_progress := Some (rd d 1) |>) Some.
Definition get_enabled (channel : Z) := get_step channel SOL_PARAMETER_SOL_ENABLE 2 (fun d p => p <| sol_enabled := Some (rd d 1) |>) Some.
Definition get_authentication (channel : Z) := get_step channel SOL_PARAMETER_SOL_AUTHENTICATION 2
  (fun d p => p <| force_encryption := Some (flag (negb (rd d 1 .& 0x80 =? 0))) |>
                <| force_authentication := Some (flag (negb (rd d 1 .& 0x40 =? 0))) |>
                <| privilege_level := Some (rd d 1 .& 0x0F) |>) Some.
Definition get_character_interval (channel : Z) := get_step channel SOL_PARAMETER_CHARACTER_INTERVAL 3
  (fun d p => p <| character_accumulate_level := Some (rd d 1) |> <| character_send_threshold := Some (rd d 2) |>) Some.
Definition get_retry (channel : Z) := get_step channel SOL_PARAMETER_SOL_RETRY 3
  (fun d p => p <| retry_count := Some (rd d 1) |> <| retry_interval := Some (rd d 2) |>) Some.
Definition get_non_volatile_bit_rate (channel : Z) := get_step channel SOL_PARAMETER_SOL_NON_VOLATILE_BIT_RATE 2
  (fun d p => p <| non_volatile_bit_rate := Some (rd d 1 .& 0x0F) |>) Some.
Definition get_volatile_bit_rate (channel : Z) := get_step channel SOL_PARAMETER_SOL_VOLATILE_BIT_RATE 2
  (fun d p => p <| volatile_bit_rate := Some (rd d 1 .& 0x0F) |>) Some.
Definition get_payload_channel (channel : Z) := get_step channel SOL_PARAMETER_SOL_PAYLOAD_CHANNEL 2
  (fun d p => p <| payload_channel := Some (rd d 1) |>) (fun p => Some (p <| payload_channel := Some channel |>)).
Definition get_payload_port (channel : Z) := get_step channel SOL_PARAMETER_SOL_PAYLOAD_PORT 3
  (fun d p => p <| payload_port := Some (rd d 1 .| (rd d 2 .<< 8)) |>)
  (fun p => if session then Some (p <| payload_port := Some port |>) else None).

(** [ipmi_get_sol_info] *)
Definition ipmi_get_sol_info (channel : Z) (p : sol_config_parameters) : M dev (option sol_config_parameters) :=
  and_then (get_set_in_progress channel p) (fun p => and_then (get_enabled channel p) (fun p =>
  and_then (get_authentication channel p) (fun p => and_then (get_character_interval channel p) (fun p =>
  and_then (get_retry channel p) (fun p => and_then (get_non_volatile_bit_rate channel p) (fun p =>
  and_then (get_volatile_bit_rate channel p) (fun p => and_then (get_payload_channel channel p) (get_payload_port channel)))))))).

(** [ipmi_print_sol_info]; the text is not modelled. *)
Definition ipmi_print_sol_info (channel : Z) : M dev Z :=
  r ← ipmi_get_sol_info channel zero_config;
  mret (match r with Some _ => 0 | None => -1 end).

(** ** Setting *)

(** The data of the request that sets a parameter are its number and value.
    The other half of a shared parameter is read first. *)
Definition shared_data (channel : Z) (v : option Z) (f : Z -> sol_config_parameters -> M dev (list Z)) : M dev (option (list Z)) :=
  match v with
  | None => mret None
  | Some v =>
      r ← ipmi_get_sol_info channel raw_config;
      match r with
      | None => mret None
      | Some p => d ← f v p; mret (Some d)
      end
  end.
Definition plain_data (n : Z) (v : option Z) : M dev (option (list Z)) := mret (match v with Some v => Some [n; v] | None => None end).
Definition flag_mask (bit : Z) (o : option Z) : M dev Z := v ← assigned o; mret (if v =? 0 then 0 else bit).

(** The branches of [ipmi_sol_set_param], from the last. *)
Definition rate_data (channel : Z) (param value : list Z) : M dev (option (list Z)) :=
  if bool_decide (param = text "non-volatile-bit-rate") then plain_data SOL_PARAMETER_SOL_NON_VOLATILE_BIT_RATE (named_value bit_rate_values value)
  else if bool_decide (param = text "volatile-bit-rate") then plain_data SOL_PARAMETER_SOL_VOLATILE_BIT_RATE (named_value bit_rate_values value)
  else mret None.

Definition character_data (channel : Z) (param value : list Z) : M dev (option (list Z)) :=
  let named n := bool_decide (param = text n) in
  if named "character-accumulate-level" then shared_data channel (ipmi_sol_set_param_isvalid_uint8_t value 1 255) (fun v p =>
    x ← assigned (character_send_threshold p); mret [SOL_PARAMETER_CHARACTER_INTERVAL; v; x])
  else if named "character-send-threshold" then shared_data channel (ipmi_sol_set_param_isvalid_uint8_t value 0 255) (fun v p =>
    x ← assigned (character_accumulate_level p); mret [SOL_PARAMETER_CHARACTER_INTERVAL; x; v])
  else if named "retry-count" then shared_data channel (ipmi_sol_set_param_isvalid_uint8_t value 0 7) (fun v p =>
    x ← assigned (retry_interval p); mret [SOL_PARAMETER_SOL_RETRY; v; x])
  else if named "retry-interval" then shared_data channel (ipmi_sol_set_param_isvalid_uint8_t value 0 255) (fun v p =>
    x ← assigned (retry_count p); mret [SOL_PARAMETER_SOL_RETRY; x; v])
  else rate_data channel param value.

Definition authentication_data (channel : Z) (param value : list Z) : M dev (option (list Z)) :=
  let named n := bool_decide (param = text n) in
  if named "force-encryption" then shared_data channel (named_value encryption_values value) (fun v p =>
    m ← flag_mask 0x40 (force_authentication p); l ← assigned (privilege_level p);
    mret [SOL_PARAMETER_SOL_AUTHENTICATION; (v .| m) .| l])
  else if named "force-authentication" then shared_data channel (named_value authentication_values value) (fun v p =>
    m ← flag_mask 0x80 (force_encryption p); l ← assigned (privilege_level p);
    mret [SOL_PARAMETER_SOL_AUTHENTICATION; (v .| m) .| l])
  else if named "privilege-level" then shared_data channel (named_value privilege_values value) (fun v p =>
    m ← flag_mask 0x80 (force_encryption p); m' ← flag_mask 0x40 (force_authentication p);
    mret [SOL_PARAMETER_SOL_AUTHENTICATION; (v .| m) .| m'])
  else character_data channel param value.

Definition set_data (channel : Z) (param value : list Z) : M dev (option (list Z)) :=
  if bool_decide (param = text "set-in-progress") then plain_data SOL_PARAMETER_SET_IN_PROGRESS (named_value progress_values value)
  else if bool_decide (param = text "enabled") then plain_data SOL_PARAMETER_SOL_ENABLE (named_value enabled_values value)
  else authentication_data channel param value.

(** The body of [ipmi_sol_set_param]; [progress] is its call of itself with the
    parameter "set-in-progress". *)
Definition set_param_with (progress : list Z -> M dev Z) (channel : Z) (param value : list Z) (guarded : bool) : M dev Z :=
  let is_progress := bool_decide (param = text "set-in-progress") in
  let bGuarded := guarded && negb is_progress in
  let guard v := if bGuarded then progress (text v) else mret 0 in
  r ← set_data channel param value;
  match r with
  | None => mret (-1)
  | Some data =>
      rc ← guard "set-in-progress"%string;
      if negb (rc =? 0) then mret (-1) else
      rsp ← sendrecv (mk_rq IPMI_NETFN_TRANSPORT 0 IPMI_SET_SOL_CONFIG_PARAMETERS 0 (channel :: data));
      match rsp with
      | None => mret (-1)
      | Some r =>
          if negb (is_progress && bool_decide (value = text "commit-write")) && negb (ccode r =? 0) then
            _ ← guard "set-complete"%string; mret (-1)
          else
            _ ← guard "commit-write"%string;
            rc ← guard "set-complete"%string;
            mret (if rc =? 0 then 0 else -1)
      end
  end.

(** [ipmi_sol_set_param]; the inner call is never guarded. *)
Definition ipmi_sol_set_progress (channel : Z) (value : list Z) : M dev Z :=
  set_param_with (fun _ => mret 0) channel (text "set-in-progress") value true.
Definition ipmi_sol_set_param (channel : Z) (param value : list Z) (guarded : bool) : M dev Z :=
  set_param_with (ipmi_sol_set_progress channel) channel param value guarded.

(** ** The access of users *)

(** [ipmi_sol_payload_access] *)
Definition ipmi_sol_payload_access (channel userid : Z) (enable : bool) : M dev Z :=
  rsp ← sendrecv (mk_rq IPMI_NETFN_APP 0 IPMI_SET_USER_PAYLOAD_ACCESS 0
    [channel .& 0xf; (userid .& 0x3f) .| (if enable then 0 else 0x40); 0x02; 0; 0; 0]);
  mret (match rsp with Some r => if ccode r =? 0 then 0 else -1 | None => -1 end).

(** [ipmi_sol_payload_access_status]: the code, and whether "enabled" is
    printed. *)
Definition ipmi_sol_payload_access_status (channel userid : Z) : M dev (Z * option bool) :=
  rsp ← sendrecv (mk_rq IPMI_NETFN_APP 0 IPMI_GET_USER_PAYLOAD_ACCESS 0 [channel .& 0xf; userid .& 0x3f]);
  match rsp with
  | None => mret (-1, None)
  | Some r =>
      if negb (ccode r =? 0) then mret (-1, None)
      else if negb (rs_data_len r =? 4) then mret (-1, None)
      else d ← lift (rsp_bytes r 0 1); mret (0, Some (negb (rd d 0 .& 0x02 =? 0)))
  end.
End SolParam.
