(* ===== verification/SolConsole.v ===== *)
(** * The console of Serial over LAN (lib/ipmi_sol.c)

    What the user types is searched for escape sequences and sent, what the
    controller sends is put out, and a keepalive is sent from time to time.  The
    connection is the class [SolLine]; standard input and [select] are scripts:
    the bytes that will be typed, and what each [select] reports. *)

From stdpp Require Import strings.
From S2P Require Import Prelude Wire Ipmi Intf Session Helper Crypt LanplusMsg Lanplus LanplusSession Bmc Channel SolParam.

#[local] Open Scope Z_scope.

Definition IPMI_ACTIVATE_PAYLOAD : Z := 0x48.
Definition IPMI_DEACTIVATE_PAYLOAD : Z := 0x49.
Definition SOL_KEEPALIVE_TIMEOUT : Z := 15.
Definition MAX_SOL_RETRY : Z := 6.
Definition IPMI_SOL_SERIAL_ALERT_MASK_DEFERRED : Z := 0x04.
Definition IPMI_SOL_BMC_ASSERTS_CTS_MASK_TRUE : Z := 0x00.
Definition IPMI_SOL_BMC_ASSERTS_CTS_MASK_FALSE : Z := 0x02.

(** What lies under [intf->send_sol], [intf->recv_sol] and [intf->keepalive]:
    the exchange of one packet ([ipmi_lanplus_send_payload]) and the other needs
    of [ipmi_lanplus_send_sol].  The exchange and the keepalive also give the
    data that they hand to [sol_input_handler] while they wait. *)
Class SolLine (dev : Type) := {
  line_exchange : sol_out -> M dev (option ipmi_rs * list (list Z));
  line_number : sol_out -> M dev sol_out;
  line_intelplus : dev -> bool;
  line_rounds : dev -> nat;
  recv_sol : M dev (option ipmi_rs);
  keepalive : M dev (Z * list (list Z));
}.

(** The statics of the file, the lengths and the port of [sol_data], and the
    world of the console: the device, the bytes to be typed, the bytes that
    [output] has written, how often the clock was read and the program
    suspended. *)
Record sol (dev : Type) := mk_sol_state {
  s_dev : dev;
  escape_pending : bool;
  last_was_cr : bool;
  start_keepalive : Z;
  in_raw_mode : bool;
  disable_keepalive : bool;
  use_sol_for_keepalive : bool;
  s_inbound : Z;
  s_outbound : Z;
  s_port : Z;
  s_typed : list Z;
  s_out : list Z;
  s_tick : nat;
  s_suspended : nat;
}.
Arguments mk_sol_state {dev}.
Arguments s_dev {dev}.
Arguments escape_pending {dev}.
Arguments last_was_cr {dev}.
Arguments start_keepalive {dev}.
Arguments in_raw_mode {dev}.
Arguments disable_keepalive {dev}.
Arguments use_sol_for_keepalive {dev}.
Arguments s_inbound {dev}.
Arguments s_outbound {dev}.
Arguments s_port {dev}.
Arguments s_typed {dev}.
Arguments s_out {dev}.
Arguments s_tick {dev}.
Arguments s_suspended {dev}.

#[export] Instance sol_rebuild {dev} : Rebuild (sol dev) := fun s =>
  mk_sol_state (s_dev s) (escape_pending s) (last_was_cr s) (start_keepalive s) (in_raw_mode s) (disable_keepalive s)
    (use_sol_for_keepalive s) (s_inbound s) (s_outbound s) (s_port s) (s_typed s) (s_out s) (s_tick s) (s_suspended s).
#[export] Instance s_dev_update {dev} : Update (@s_dev dev) := ltac:(solve_update).
#[export] Instance escape_pending_update {dev} : Update (@escape_pending dev) := ltac:(solve_update).
#[export] Instance last_was_cr_update {dev} : Update (@last_was_cr dev) := ltac:(solve_update).
#[export] Instance start_keepalive_update {dev} : Update (@start_keepalive dev) := ltac:(solve_update).
#[export] Instance in_raw_mode_update {dev} : Update (@in_raw_mode dev) := ltac:(solve_update).
#[export] Instance disable_keepalive_update {dev} : Update (@disable_keepalive dev) := ltac:(solve_update).
#[export] Instance use_sol_for_keepalive_update {dev} : Update (@use_sol_for_keepalive dev) := ltac:(solve_update).
#[export] Instance s_inbound_update {dev} : Update (@s_inbound dev) := ltac:(solve_update).
#[export] Instance s_outbound_update {dev} : Update (@s_outbound dev) := ltac:(solve_update).
#[export] Instance s_port_update {dev} : Update (@s_port dev) := ltac:(solve_update).
#[export] Instance s_typed_update {dev} : Update (@s_typed dev) := ltac:(solve_update).
#[export] Instance s_out_update {dev} : Update (@s_out dev) := ltac:(solve_update).
#[export] Instance s_tick_update {dev} : Update (@s_tick dev) := ltac:(solve_update).
#[export] Instance s_suspended_update {dev} : Update (@s_suspended dev) := ltac:(solve_update).

(** The statics when the program starts. *)
Definition init_sol {dev} (d : dev) (typed : list Z) : sol dev := mk_sol_state d false true 0 false false false 0 0 0 typed [] 0 0.

(** What [select] reports: nothing within half a second, an error, so many
    bytes on standard input, data of the controller, or neither of them. *)
Inductive select_event := SelTimeout | SelError | SelStdin (n : nat) | SelBmc | SelNothing.

(** How a function ends that may call [exit]; [Waiting] when the events are
    used up. *)
Inductive outcome := Returns (rc : Z) | Exits (code : Z) | Waiting.

Definition zero_sol_out : sol_out := mk_solout (zeros IPMI_BUF_SIZE) 0 0 0 0 false false false false false false false.

Definition is_newline (ch : Z) : bool := (ch =? 0x0d) || (ch =? 0x0a).

Section Console.
Context {dev : Type} {bmc : Bmc dev} {line : SolLine dev} {clk : Clock} {mal : Malloc}.
(** The interface: its name, parameters, port, escape character, and whether
    there is a session; and whether standard input is a terminal. *)
Context (name : list Z) (intf : ipmi_intf) (port escape : Z) (session terminal : bool).

#[export] Instance sol_bmc : Bmc (sol dev) := fun req s => let '(r, d) := bmc_answer req (s_dev s) in (r, s <| s_dev := d |>).

Definition on_dev {A} (m : M dev A) : M (sol dev) A := fun s =>
  match m (s_dev s) with Ok (a, d) => Ok (a, s <| s_dev := d |>) | Bad f => Bad f end.

Definition sol_time : M (sol dev) Z := fun s => Ok (clock (s_tick s), s <| s_tick := S (s_tick s) |>).

(** ** The terminal *)

Definition leave_raw_mode : M (sol dev) unit :=
  modify (fun s => if in_raw_mode s && terminal then s <| in_raw_mode := false |> else s).
Definition enter_raw_mode : M (sol dev) unit :=
  modify (fun s => if terminal then s <| in_raw_mode := true |> else s).
Definition suspendSelf (bRestoreTty : bool) : M (sol dev) unit :=
  _ ← leave_raw_mode;
  _ ← modify (fun s => s <| s_suspended := S (s_suspended s) |>);
  if bRestoreTty then enter_raw_mode else mret tt.

(** [output] *)
Definition output (rsp : option ipmi_rs) : M (sol dev) unit :=
  match rsp with
  | Some r => if is_sol_packet (Some r) then modify (fun s => s <| s_out := s_out s ++ rsp_data r |>) else mret tt
  | None => mret tt
  end.

(** The data that were handed to [output], which is [sol_input_handler]. *)
Definition put_out (handed : list (list Z)) : M (sol dev) unit :=
  modify (fun s => s <| s_out := s_out s ++ concat handed |>).

#[export] Instance console_link : SolLink (sol dev) := {|
  sol_exchange out := '(rs, handed) ← on_dev (line_exchange out); _ ← put_out handed; mret rs;
  sol_number out := on_dev (line_number out);
  sol_handle r := output (Some r);
  sol_intelplus s := line_intelplus (s_dev s);
  sol_rounds s := line_rounds (s_dev s);
|}.

(** [intf->send_sol], which changes the payload. *)
Definition send_sol (out : sol_out) : M (sol dev) (option ipmi_rs * sol_out) := ipmi_lanplus_send_sol out.

Definition sendBreak : M (sol dev) unit :=
  _ ← send_sol (zero_sol_out <| generate_break := true |>); mret tt.

(** [ipmi_sol_deactivate] *)
Definition ipmi_sol_deactivate (instance : Z) : M (sol dev) Z :=
  if (instance <=? 0) || (15 <? instance) then mret (-1) else
  rsp ← sendrecv (mk_rq IPMI_NETFN_APP 0 IPMI_DEACTIVATE_PAYLOAD 0 [IPMI_PAYLOAD_TYPE_SOL; instance; 0; 0; 0; 0]);
  mret (match rsp with Some r => if ccode r =? 0 then 0 else -1 | None => -1 end).

(** ** What the user types *)

Definition put_char (data : list Z) (length ch : Z) : M (sol dev) (list Z * Z) :=
  data ← lift (or_oob (wr data length [ch])); mret (data, length + 1).

(** The loop of [processSolUserInput]: the array and length of the payload and
    the return value. *)
Fixpoint input_loop (input data : list Z) (length retval : Z) : M (sol dev) (list Z * Z * Z) :=
  match input with
  | [] => mret (data, length, retval)
  | ch :: input =>
      let normal data length retval :=
        _ ← modify (fun s => s <| last_was_cr := is_newline ch |>); input_loop input data length retval in
      s ← get;
      if escape_pending s then
        _ ← modify (fun s => s <| escape_pending := false |>);
        if ch =? 0x2e then normal data length 1
        else if ch =? 0x1a then _ ← suspendSelf true; input_loop input data length retval
        else if ch =? 0x18 then _ ← suspendSelf false; input_loop input data length retval
        else if ch =? 0x42 then _ ← sendBreak; input_loop input data length retval
        else if ch =? 0x3f then input_loop input data length retval
        else
          '(data, length) ← (if negb (ch =? escape) then put_char data length escape else mret (data, length));
          '(data, length) ← put_char data length ch;
          normal data length retval
      else if last_was_cr s && (ch =? escape) then
        _ ← modify (fun s => s <| escape_pending := true |>); input_loop input data length retval
      else
        '(data, length) ← put_char data length ch;
        normal data length retval
  end.

(** The tries to send. *)
Fixpoint send_tries (tries : nat) (length : Z) (out : sol_out) : M (sol dev) (option ipmi_rs) :=
  match tries with
  | O => mret None
  | S tries =>
      '(rsp, out) ← send_sol (out <| character_count := length |>);
      match rsp with Some r => mret (Some r) | None => send_tries tries length out end
  end.

(** [processSolUserInput] *)
Definition processSolUserInput (input : list Z) : M (sol dev) Z :=
  '(data, length, retval) ← input_loop input (so_data zero_sol_out) 0 0;
  if length =? 0 then mret retval else
  rsp ← send_tries (Z.to_nat (retry (ssn_params intf))) (u16 length) (zero_sol_out <| so_data := data |>);
  match rsp with
  | None => mret (-1)
  | Some r =>
      _ ← (if (retval =? 0) && is_sol_packet (Some r) && negb (sol_seq (sol_fields r) =? 0) then output (Some r) else mret tt);
      mret retval
  end.

(** ** Keeping the session *)

(** [ipmi_sol_keepalive_using_sol], [ipmi_sol_keepalive_using_getdeviceid] *)
Definition keepalive_with (send : M (sol dev) bool) : M (sol dev) Z :=
  s ← get;
  if disable_keepalive s then mret 0 else
  t ← sol_time;
  if SOL_KEEPALIVE_TIMEOUT <? t - start_keepalive s then
    ok ← send;
    if (ok : bool) then t ← sol_time; _ ← modify (fun s => s <| start_keepalive := t |>); mret 0 else mret (-1)
  else mret 0.
Definition ipmi_sol_keepalive_using_sol : M (sol dev) Z :=
  keepalive_with ('(rsp, _) ← send_sol zero_sol_out; mret (match rsp with Some _ => true | None => false end)).
Definition ipmi_sol_keepalive_using_getdeviceid : M (sol dev) Z :=
  keepalive_with ('(rc, handed) ← on_dev keepalive; _ ← put_out handed; mret (rc =? 0)).

(** The loop of [ipmi_sol_red_pill]: [inl] for its return inside the loop,
    [inr] for the result of the last keepalive and whether the controller
    closed the session. *)
Fixpoint red_pill_loop (events : list select_event) (buffer_size keepAliveRet retrySol : Z) : M (sol dev) (option (Z + Z * bool)) :=
  s ← get;
  keepAliveRet ←
    (if ipmi_oem_active intf "i82571spt" then mret keepAliveRet
     else if use_sol_for_keepalive s then ipmi_sol_keepalive_using_sol else ipmi_sol_keepalive_using_getdeviceid);
  let failing := negb (ipmi_oem_active intf "i82571spt") && negb (keepAliveRet =? 0) in
  if failing && (retrySol =? MAX_SOL_RETRY) then mret (Some (inr (keepAliveRet, false))) else
  let retrySol := if failing then retrySol + 1 else if ipmi_oem_active intf "i82571spt" then retrySol else 0 in
  match events with
  | [] => mret None
  | ev :: events =>
      match ev with
      | SelTimeout => red_pill_loop events buffer_size keepAliveRet retrySol
      | SelError => mret (Some (inl (-1)))
      | SelStdin n =>
          let numRead := Nat.min n (Z.to_nat buffer_size) in
          let chunk := take numRead (s_typed s) in
          _ ← modify (fun s => s <| s_typed := drop numRead (s_typed s) |>);
          if bool_decide (chunk = []) then mret (Some (inr (keepAliveRet, false))) else
          rc ← processSolUserInput chunk;
          if rc =? 0 then red_pill_loop events buffer_size keepAliveRet retrySol
          else mret (Some (inr (keepAliveRet, rc <? 0)))
      | SelBmc =>
          rs ← on_dev recv_sol;
          match rs with
          | Some r => _ ← output (Some r); red_pill_loop events buffer_size keepAliveRet retrySol
          | None => mret (Some (inr (keepAliveRet, true)))
          end
      | SelNothing => mret (Some (inr (keepAliveRet, false)))
      end
  end.

(** [ipmi_sol_red_pill] *)
Definition ipmi_sol_red_pill (events : list select_event) (instance : Z) : M (sol dev) outcome :=
  s ← get;
  let buffer_size := if 4 <? s_inbound s then s_inbound s - 4 else s_inbound s in
  match malloc buffer_size with
  | None => mret (Returns (-1))
  | Some _ =>
      t ← sol_time;
      _ ← modify (fun s => s <| start_keepalive := t |>);
      _ ← enter_raw_mode;
      r ← red_pill_loop events buffer_size 0 0;
      match r with
      | None => mret Waiting
      | Some (inl rc) => mret (Returns rc)
      | Some (inr (keepAliveRet, closed)) =>
          _ ← leave_raw_mode;
          if negb (keepAliveRet =? 0) then _ ← ipmi_sol_deactivate instance; mret (Exits 1)
          else if (closed : bool) then mret (Exits 1)
          else _ ← ipmi_sol_deactivate instance; mret (Returns 0)
      end
  end.

(** ** Opening the console *)

Definition BSWAP_16 (x : Z) : Z := ((x .& 0xff) .<< 8) .| ((x .>> 8) .& 0xff).

(** The auxiliary data of the request. *)
Definition activate_flags : Z :=
  if ipmi_oem_active intf "intelplus" then 0xC0 .| IPMI_SOL_SERIAL_ALERT_MASK_DEFERRED .| IPMI_SOL_BMC_ASSERTS_CTS_MASK_TRUE
  else if ipmi_oem_active intf "i82571spt" then 0x08
  else 0xC0 .| IPMI_SOL_SERIAL_ALERT_MASK_DEFERRED .| IPMI_SOL_BMC_ASSERTS_CTS_MASK_FALSE.

(** [ipmi_sol_activate] *)
Definition ipmi_sol_activate (events : list select_event) (looptest : bool) (instance : Z) : M (sol dev) outcome :=
  if negb (bool_decide (name = text "lanplus")) then mret (Returns (-1)) else
  if (instance <=? 0) || (15 <? instance) then mret (Returns (-1)) else
  rsp ← sendrecv (mk_rq IPMI_NETFN_APP 0 IPMI_ACTIVATE_PAYLOAD 0 [IPMI_PAYLOAD_TYPE_SOL; instance; activate_flags; 0; 0; 0]);
  match rsp with
  | None => mret (Returns (-1))
  | Some r =>
      if negb ((ccode r =? 0) && (rs_data_len r =? 12)) then mret (Returns (-1)) else
      d ← lift (rsp_bytes r 0 12);
      let sol_port := (rd d 9 .<< 8) .| rd d 8 in
      _ ← modify (fun s => s <| s_inbound := (rd d 5 .<< 8) .| rd d 4 |> <| s_outbound := (rd d 7 .<< 8) .| rd d 6 |>
                             <| s_port := sol_port |>);
      if negb (sol_port =? port) && negb (BSWAP_16 sol_port =? port) then mret (Returns (-1)) else
      _ ← modify (fun s => if sol_port =? port then s else s <| s_port := BSWAP_16 sol_port |>);
      if looptest then _ ← ipmi_sol_deactivate instance; mret (Returns 0) else
      r ← ipmi_sol_red_pill events instance;
      mret (match r with Returns rc => Returns (if rc =? 0 then 0 else -1) | _ => r end)
  end.

(** ** The command line *)

Definition instance_kw : list Z := text "instance=".

(** The arguments of "activate" and "deactivate"; [None] for the usage. *)
Fixpoint sol_args (keepalives : bool) (argv : list (list Z)) (instance : Z) : M (sol dev) (option Z) :=
  match argv with
  | [] => mret (Some instance)
  | w :: argv =>
      if keepalives && bool_decide (w = text "usesolkeepalive") then
        _ ← modify (fun s => s <| use_sol_for_keepalive := true |>); sol_args keepalives argv instance
      else if keepalives && bool_decide (w = text "nokeepalive") then
        _ ← modify (fun s => s <| disable_keepalive := true |>); sol_args keepalives argv instance
      else if bool_decide (take 9 w = instance_kw) then
        match str2uchar (Some (drop 9 w)) with
        | (rc, v) => if rc =? 0 then sol_args keepalives argv (default 0 v) else mret None
        end
      else mret None
  end.

(** The loop of "looptest". *)
Fixpoint looptest_loop (cnt : nat) (instance : Z) (retval : Z) : M (sol dev) outcome :=
  match cnt with
  | O => mret (Returns retval)
  | S cnt =>
      r ← ipmi_sol_activate [] true instance;
      match r with
      | Returns rc => if rc =? 0 then looptest_loop cnt instance 0 else mret (Returns rc)
      | _ => mret r
      end
  end.

Definition sol_looptest (argv : list (list Z)) : M (sol dev) outcome :=
  if 3 <? zlen argv then mret (Returns (-1)) else
  let number (i : nat) (o : Z) := match argv !! i with Some a => let '(rc, v) := str2int (Some a) in (rc =? 0, default 0 v) | None => (true, o) end in
  let '(ok, cnt) := number 0%nat 200 in
  if negb ok then mret (Returns (-1)) else
  let cnt := if cnt <=? 0 then 200 else cnt in
  let '(ok, interval) := number 1%nat 100 in
  if negb ok then mret (Returns (-1)) else
  let '(ok, instance) := match argv !! 2%nat with Some a => let '(rc, v) := str2uchar (Some a) in (rc =? 0, default 0 v) | None => (true, 1) end in
  if negb ok then mret (Returns (-1)) else looptest_loop (Z.to_nat cnt) instance 0.

(** "sol payload" *)
Definition sol_payload (argv : list (list Z)) : M (sol dev) Z :=
  if bool_decide (argv = []) || (3 <? zlen argv) then mret (-1) else
  let number (i : nat) (f : option (list Z) -> Z * option Z) (o : Z) :=
    match argv !! i with Some a => let '(rc, v) := f (Some a) in (rc =? 0, default 0 v) | None => (true, o) end in
  let '(ok, channel) := number 1%nat is_ipmi_channel_num 0xe in
  if negb ok then mret (-1) else
  let '(ok, userid) := number 2%nat is_ipmi_user_id 1 in
  if negb ok then mret (-1) else
  let w := default [] (head argv) in
  if bool_decide (w = text "enable") then ipmi_sol_payload_access channel userid true
  else if bool_decide (w = text "disable") then ipmi_sol_payload_access channel userid false
  else if bool_decide (w = text "status") then '(rc, _) ← ipmi_sol_payload_access_status channel userid; mret rc
  else mret (-1).

(** "sol set" *)
Definition sol_set (argv : list (list Z)) : M (sol dev) Z :=
  let set p v channel guard := ipmi_sol_set_param session port channel p v guard in
  let channel a (f : Z -> M (sol dev) Z) := match is_ipmi_channel_num (Some a) with (rc, v) => if rc =? 0 then f (default 0 v) else mret (-1) end in
  match argv with
  | [p; v] => set p v 0xe true
  | [p; v; a] => if bool_decide (a = text "noguard") then set p v 0xe false else channel a (fun c => set p v c true)
  | [p; v; a; g] => channel a (fun c => set p v c (negb (bool_decide (g = text "noguard"))))
  | _ => mret (-1)
  end.

(** [ipmi_sol_main] *)
Definition ipmi_sol_main (events : list select_event) (argv : list (list Z)) : M (sol dev) outcome :=
  let returns (m : M (sol dev) Z) := rc ← m; mret (Returns rc) in
  match argv with
  | [] => mret (Returns 0)
  | w :: argv =>
      if bool_decide (w = text "help") then mret (Returns 0)
      else if bool_decide (w = text "info") then
        match argv with
        | [] => returns (ipmi_print_sol_info session port 0x0E)
        | [a] => match is_ipmi_channel_num (Some a) with
                 | (rc, v) => if rc =? 0 then returns (ipmi_print_sol_info session port (default 0 v)) else mret (Returns (-1)) end
        | _ => mret (Returns (-1))
        end
      else if bool_decide (w = text "payload") then returns (sol_payload argv)
      else if bool_decide (w = text "set") then returns (sol_set argv)
      else if bool_decide (w = text "activate") then
        r ← sol_args true argv 1;
        match r with Some i => ipmi_sol_activate events false i | None => mret (Returns (-1)) end
      else if bool_decide (w = text "deactivate") then
        r ← sol_args false argv 1;
        match r with Some i => returns (ipmi_sol_deactivate i) | None => mret (Returns (-1)) end
      else if bool_decide (w = text "looptest") then sol_looptest argv
      else mret (Returns (-1))
  end.
End Console.

(** The connection of lanplus.c. *)
Definition with_handed {A} (m : M lp A) : M lp (A * list (list Z)) :=
  s ← get; a ← m; s' ← get; mret (a, drop (length (l_sol_in s)) (l_sol_in s')).

#[export] Instance lanplus_line `{ssl : OpenSSL} `{mem : Malloc} : SolLine lp := {|
  line_exchange out := with_handed (sol_exchange out);
  line_number := sol_number;
  line_intelplus := sol_intelplus;
  line_rounds := sol_rounds;
  recv_sol := got ← ipmi_lanplus_recv_sol; the_rsp got;
  keepalive := with_handed ipmi_lanplus_keepalive;
|}.
