(* ===== verification/SolProps.v ===== *)
(** * What the console of Serial over LAN and its configuration do

    A controller that keeps the configuration is [SolConfigured]; setting a
    parameter changes that one of what is read afterwards.  A connection that
    delivers is [SolDelivers]; the session passes on what is typed and shows
    what arrives. *)

From stdpp Require Import strings.
From S2P Require Import Prelude Wire Ipmi Intf Session Helper Crypt LanplusMsg Lanplus CText Bmc Channel SolParam SolConsole.

#[local] Open Scope Z_scope.

(** ** The configuration *)

(** The parameters of a controller: by number, the bytes behind the revision. *)
Definition sol_bytes : Type := Z -> list Z.

Definition sol_len (p : Z) : Z := if existsb (Z.eqb p) [3; 4; 8] then 2 else 1.

Lemma sol_len_range p : 1 <= sol_len p <= 2.
Proof. unfold sol_len. case_test; lia. Qed.

Definition sol_store (p : Z) (data : list Z) (c : sol_bytes) : sol_bytes := fun q => if q =? p then data else c q.

Class SolConfigured {dev : Type} {bmc : Bmc dev} (channel : Z) (inv : dev -> Prop) (conf : dev -> sol_bytes) := {
  sc_shape d p : inv d -> bytes (conf d p) /\ (0 <= p <= 8 -> zlen (conf d p) = sol_len p);
  sc_get d p : inv d -> 0 <= p <= 8 -> exists r d' rev,
    bmc_answer (mk_rq IPMI_NETFN_TRANSPORT 0 IPMI_GET_SOL_CONFIG_PARAMETERS 0 [channel; p; 0; 0]) d = (Some r, d') /\
    ccode r = 0 /\ carries r (rev :: conf d p) /\ inv d' /\ (forall q, conf d' q = conf d q);
  sc_set d p data : inv d -> 1 <= p <= 6 -> bytes data -> zlen data = sol_len p -> exists r d',
    bmc_answer (mk_rq IPMI_NETFN_TRANSPORT 0 IPMI_SET_SOL_CONFIG_PARAMETERS 0 ([channel; p] ++ data)) d = (Some r, d') /\
    ccode r = 0 /\ inv d' /\ (forall q, conf d' q = sol_store p data (conf d) q);
  sc_lock d v : inv d -> v = 0 \/ v = 1 /\ conf d 0 = [0] -> exists r d',
    bmc_answer (mk_rq IPMI_NETFN_TRANSPORT 0 IPMI_SET_SOL_CONFIG_PARAMETERS 0 [channel; 0; v]) d = (Some r, d') /\
    ccode r = 0 /\ inv d' /\ (forall q, conf d' q = sol_store 0 [v] (conf d) q);
  (* commit write: it may be refused *)
  sc_commit d : inv d -> exists r d',
    bmc_answer (mk_rq IPMI_NETFN_TRANSPORT 0 IPMI_SET_SOL_CONFIG_PARAMETERS 0 [channel; 0; 2]) d = (Some r, d') /\
    inv d' /\ (forall q, conf d' q = conf d q);
}.

(** What is read of a configuration. *)
Definition read_config (c : sol_bytes) : sol_config_parameters :=
  let b p i := rd (c p) i in
  mk_sol_config (Some (b 0 0)) (Some (b 1 0)) (Some (flag (negb (b 2 0 .& 0x80 =? 0)))) (Some (flag (negb (b 2 0 .& 0x40 =? 0))))
    (Some (b 2 0 .& 0x0F)) (Some (b 3 0)) (Some (b 3 1)) (Some (b 4 0)) (Some (b 4 1)) (Some (b 5 0 .& 0x0F)) (Some (b 6 0 .& 0x0F))
    (Some (b 7 0)) (Some (b 8 0 .| (b 8 1 .<< 8))).

(** A parameter with a value, its words on the command line, and its effect. *)
Inductive bit_rate := Serial | R9_6 | R19_2 | R38_4 | R57_6 | R115_2.
Inductive sol_privilege := User | Operator | Admin | Oem.
Inductive setting :=
  | Enabled (b : bool) | Encryption (b : bool) | Authentication (b : bool) | Privilege (l : sol_privilege)
  | AccumulateLevel (n : Z) | SendThreshold (n : Z) | RetryCount (n : Z) | RetryInterval (n : Z)
  | NonVolatileRate (r : bit_rate) | VolatileRate (r : bit_rate).

Definition rate_word (r : bit_rate) : string :=
  match r with Serial => "serial" | R9_6 => "9.6" | R19_2 => "19.2" | R38_4 => "38.4" | R57_6 => "57.6" | R115_2 => "115.2" end.
Definition rate_code (r : bit_rate) : Z := match r with Serial => 0 | R9_6 => 6 | R19_2 => 7 | R38_4 => 8 | R57_6 => 9 | R115_2 => 10 end.
Definition privilege_word (l : sol_privilege) : string := match l with User => "user" | Operator => "operator" | Admin => "admin" | Oem => "oem" end.
Definition privilege_code (l : sol_privilege) : Z := match l with User => 2 | Operator => 3 | Admin => 4 | Oem => 5 end.
Definition bool_word (b : bool) : string := if b then "true" else "false".

Definition setting_words (v : setting) : list Z * list Z :=
  match v with
  | Enabled b => (text "enabled", text (bool_word b))
  | Encryption b => (text "force-encryption", text (bool_word b))
  | Authentication b => (text "force-authentication", text (bool_word b))
  | Privilege l => (text "privilege-level", text (privilege_word l))
  | AccumulateLevel n => (text "character-accumulate-level", dec n)
  | SendThreshold n => (text "character-send-threshold", dec n)
  | RetryCount n => (text "retry-count", dec n)
  | RetryInterval n => (text "retry-interval", dec n)
  | NonVolatileRate r => (text "non-volatile-bit-rate", text (rate_word r))
  | VolatileRate r => (text "volatile-bit-rate", text (rate_word r))
  end.

Definition setting_ok (v : setting) : Prop :=
  match v with
  | AccumulateLevel n => 1 <= n <= 255
  | SendThreshold n | RetryInterval n => 0 <= n <= 255
  | RetryCount n => 0 <= n <= 7
  | _ => True
  end.

Definition apply_setting (v : setting) (p : sol_config_parameters) : sol_config_parameters :=
  match v with
  | Enabled b => p <| sol_enabled := Some (flag b) |>
  | Encryption b => p <| force_encryption := Some (flag b) |>
  | Authentication b => p <| force_authentication := Some (flag b) |>
  | Privilege l => p <| privilege_level := Some (privilege_code l) |>
  | AccumulateLevel n => p <| character_accumulate_level := Some n |>
  | SendThreshold n => p <| character_send_threshold := Some n |>
  | RetryCount n => p <| retry_count := Some n |>
  | RetryInterval n => p <| retry_interval := Some n |>
  | NonVolatileRate r => p <| non_volatile_bit_rate := Some (rate_code r) |>
  | VolatileRate r => p <| volatile_bit_rate := Some (rate_code r) |>
  end.

(** The number and the bytes that a setting writes. *)
Definition setting_data (v : setting) (c : sol_bytes) : Z * list Z :=
  let b p i := rd (c p) i in
  let m (bit : Z) := if flag (negb (b 2 0 .& bit =? 0)) =? 0 then 0 else bit in
  match v with
  | Enabled x => (1, [flag x])
  | Encryption x => (2, [((if x then 0x80 else 0) .| m 0x40) .| (b 2 0 .& 0x0F)])
  | Authentication x => (2, [((if x then 0x40 else 0) .| m 0x80) .| (b 2 0 .& 0x0F)])
  | Privilege l => (2, [(privilege_code l .| m 0x80) .| m 0x40])
  | AccumulateLevel n => (3, [n; b 3 1])
  | SendThreshold n => (3, [b 3 0; n])
  | RetryCount n => (4, [n; b 4 1])
  | RetryInterval n => (4, [b 4 0; n])
  | NonVolatileRate r => (5, [rate_code r])
  | VolatileRate r => (6, [rate_code r])
  end.

(** The authentication byte, for all bytes by computation. *)
Definition auth_ok (x : Z) : bool :=
  let m (bit : Z) := if flag (negb (x .& bit =? 0)) =? 0 then 0 else bit in
  let fields y := [flag (negb (y .& 0x80 =? 0)); flag (negb (y .& 0x40 =? 0)); y .& 0x0F] in
  let good y l := bool_decide (is_u8 y) && bool_decide (fields y = l) in
  forallb (fun b : bool =>
    good (((if b then 0x80 else 0) .| m 0x40) .| (x .& 0x0F)) [flag b; flag (negb (x .& 0x40 =? 0)); x .& 0x0F] &&
    good (((if b then 0x40 else 0) .| m 0x80) .| (x .& 0x0F)) [flag (negb (x .& 0x80 =? 0)); flag b; x .& 0x0F]) [true; false] &&
  forallb (fun l : Z => good ((l .| m 0x80) .| m 0x40) [flag (negb (x .& 0x80 =? 0)); flag (negb (x .& 0x40 =? 0)); l]) [2; 3; 4; 5].

Lemma auth_all x : is_u8 x -> auth_ok x = true.
Proof. apply all_u8_spec. vm_compute. reflexivity. Qed.

Section Configured.
Context {dev : Type} {bmc : Bmc dev} (channel : Z) (inv : dev -> Prop) (conf : dev -> sol_bytes).
Context {configured : SolConfigured channel inv conf} (session : bool) (port : Z).

Definition same_conf (d' d : dev) : Prop := inv d' /\ forall q, conf d' q = conf d q.

Lemma get_step_run p len store unsupported c d : inv d -> 0 <= p <= 8 -> len = 1 + sol_len p ->
  exists rev d', get_step channel p len store unsupported c d = Ok (Some (store (rev :: conf d p) c), d') /\ same_conf d' d.
Proof using configured.
  intros Hi Hp ->. destruct (sc_get d p Hi Hp) as (r & d' & rev & A & Hc & Hcar & Hi' & Hs).
  destruct (sc_shape d p Hi) as [_ Hz]. specialize (Hz Hp). exists rev, d'. split; [| by split].
  unfold get_step. rewrite (sendrecv_bind _ _ _ _ _ A), Hc. cbn [Z.eqb].
  assert (zlen (rev :: conf d p) = 1 + sol_len p) as Hl by (rewrite zlen_cons; lia).
  rewrite (proj1 Hcar), Hl, Z.eqb_refl. rewrite (carries_bytes _ _ Hcar), lift_Ok_bind by (pose proof (sol_len_range p); lia).
  by rewrite slice_all by lia.
Qed.

Lemma step_reads d0 p len store unsupported f c d (Q : res (option sol_config_parameters * dev) -> Prop) :
  same_conf d d0 -> 0 <= p <= 8 -> len = 1 + sol_len p ->
  (forall rev d', same_conf d' d0 -> Q (f (store (rev :: conf d0 p) c) d')) ->
  Q (and_then (get_step channel p len store unsupported c) f d).
Proof using configured.
  intros [Hi Hs] Hp Hl HQ. destruct (get_step_run p len store unsupported c d Hi Hp Hl) as (rev & d' & E & Hi' & Hs').
  unfold and_then. rewrite (M_bind_run _ _ _ _ _ E), Hs. apply HQ. split; [done |]. intros q. by rewrite Hs', Hs.
Qed.

Lemma get_info_run c d : inv d -> exists d', ipmi_get_sol_info session port channel c d = Ok (Some (read_config (conf d)), d') /\ same_conf d' d.
Proof using configured.
  intros Hi. set (Q := fun r => exists d', r = Ok (Some (read_config (conf d)), d') /\ same_conf d' d).
  change (Q (ipmi_get_sol_info session port channel c d)). unfold ipmi_get_sol_info, get_set_in_progress, get_enabled, get_authentication,
    get_character_interval, get_retry, get_non_volatile_bit_rate, get_volatile_bit_rate, get_payload_channel, get_payload_port.
  assert (same_conf d d) as Hs by done.
  do 8 (eapply step_reads; [exact Hs | done | done | clear Hs; intros ? ? Hs]).
  destruct Hs as [Hi' Hs]. match goal with |- Q (get_step _ ?p ?len ?st ?u ?c ?d) =>
    destruct (get_step_run p len st u c d Hi' ltac:(done) ltac:(done)) as (rev' & d1 & E & Hi2 & Hs2) end.
  exists d1. rewrite E, Hs. split; [reflexivity |]. split; [done | intros q; by rewrite Hs2, Hs].
Qed.

Lemma named_bool (b : bool) x y : named_value [("true"%string, x); ("false"%string, y)] (text (bool_word b)) = Some (if b then x else y).
Proof. by destruct b. Qed.
Lemma named_rate r : named_value bit_rate_values (text (rate_word r)) = Some (rate_code r).
Proof. by destruct r. Qed.
Lemma named_privilege l : named_value privilege_values (text (privilege_word l)) = Some (privilege_code l).
Proof. by destruct l. Qed.
Lemma valid_dec n lo hi : 0 <= lo -> hi <= 255 -> lo <= n <= hi -> ipmi_sol_set_param_isvalid_uint8_t (dec n) lo hi = Some n.
Proof.
  intros. unfold ipmi_sol_set_param_isvalid_uint8_t. rewrite (proj1 (dec_parses n ltac:(unfold is_u8; lia))). cbv iota. change (default 0 (Some n)) with n.
  rewrite (proj2 (Z.ltb_ge n lo)), (proj2 (Z.ltb_ge hi n)) by lia. done.
Qed.

(** The data of the request. *)
Lemma set_data_run v d : inv d -> setting_ok v -> exists d',
  set_data session port channel (setting_words v).1 (setting_words v).2 d = Ok (Some (let '(p, l) := setting_data v (conf d) in p :: l), d') /\
  same_conf d' d.
Proof using configured.
  intros Hi Hv. destruct (get_info_run raw_config d Hi) as (d' & E & Hs).
  destruct v; cbn [setting_ok] in Hv; unfold set_data, authentication_data, character_data, rate_data, shared_data, plain_data;
    cbn [setting_words fst snd]; keywords; cbv iota beta;
    unfold encryption_values, authentication_values, enabled_values;
    rewrite ?named_bool, ?named_rate, ?named_privilege, ?valid_dec by lia; cbv iota.
  all: try (exists d; split; [try destruct b; reflexivity | done]).
  all: exists d'; split; [| done]; rewrite (M_bind_run _ _ _ _ _ E); cbv iota; cbn [read_config force_encryption force_authentication
    privilege_level character_accumulate_level character_send_threshold retry_count retry_interval assigned]; reflexivity.
Qed.

Lemma read_config_ext c c' : (forall q, c q = c' q) -> read_config c = read_config c'.
Proof. intros H. unfold read_config. by rewrite !H. Qed.

Lemma auth_fields x (b : bool) l : is_u8 x -> l ∈ [2; 3; 4; 5] ->
  let m (bit : Z) := if flag (negb (x .& bit =? 0)) =? 0 then 0 else bit in
  let fields y := [flag (negb (y .& 0x80 =? 0)); flag (negb (y .& 0x40 =? 0)); y .& 0x0F] in
  (let y := ((if b then 0x80 else 0) .| m 0x40) .| (x .& 0x0F) in is_u8 y /\ fields y = [flag b; flag (negb (x .& 0x40 =? 0)); x .& 0x0F]) /\
  (let y := ((if b then 0x40 else 0) .| m 0x80) .| (x .& 0x0F) in is_u8 y /\ fields y = [flag (negb (x .& 0x80 =? 0)); flag b; x .& 0x0F]) /\
  (let y := (l .| m 0x80) .| m 0x40 in is_u8 y /\ fields y = [flag (negb (x .& 0x80 =? 0)); flag (negb (x .& 0x40 =? 0)); l]).
Proof.
  intros Hx Hl. pose proof (auth_all x Hx) as H. unfold auth_ok in H. cbv zeta. apply andb_true_iff in H as [Hb Hp].
  rewrite forallb_forall in Hb, Hp. specialize (Hb b ltac:(destruct b; cbn; tauto)). specialize (Hp l ltac:(by apply list_elem_of_In)).
  bool_hyps. repeat match goal with H : bool_decide _ = true |- _ => apply bool_decide_eq_true_1 in H end. by split_and!.
Qed.

Lemma setting_applied v c : bytes (c 2) -> bytes (c 3) -> bytes (c 4) -> setting_ok v -> let '(p, l) := setting_data v c in
  1 <= p <= 6 /\ bytes l /\ zlen l = sol_len p /\ read_config (sol_store p l c) = apply_setting v (read_config c).
Proof.
  intros H2 H3 H4 Hv. pose proof (rd_bytes _ 0 H2) as Hx.
  assert (forall p, bytes (c p) -> forall i, is_u8 (rd (c p) i)) as Hr by (intros; by apply rd_bytes).
  pose proof (fun b l => auth_fields (rd (c 2) 0) b l Hx) as Ha. cbv zeta in Ha.
  destruct v as [b|b|b|l|n|n|n|n|r|r]; cbn [setting_data setting_ok] in *; split_and!; try done.
  all: try (by repeat constructor; first [destruct b; done | destruct r; done | apply Hr; done | unfold is_u8; lia]).
  - constructor; [| done]. apply (Ha b 2). set_solver.
  - destruct (Ha b 2 ltac:(set_solver)) as ((_ & E) & _ & _). injection E as E1 E2 E3. unfold read_config, sol_store. cbn -[rd Z.land].
    change (rd [?y] 0) with y. by rewrite E1, E2, E3.
  - constructor; [| done]. apply (Ha b 2). set_solver.
  - destruct (Ha b 2 ltac:(set_solver)) as (_ & (_ & E) & _). injection E as E1 E2 E3. unfold read_config, sol_store. cbn -[rd Z.land].
    change (rd [?y] 0) with y. by rewrite E1, E2, E3.
  - constructor; [| done]. apply (Ha true (privilege_code l)). destruct l; set_solver.
  - destruct (Ha true (privilege_code l) ltac:(destruct l; set_solver)) as (_ & _ & _ & E). injection E as E1 E2 E3.
    unfold read_config, sol_store. cbn -[rd Z.land privilege_code]. change (rd [?y] 0) with y. by rewrite E1, E2, E3.
Qed.

(** The calls that take, commit and give back the lock. *)
Lemma progress_run w v d : named_value progress_values (text w) = Some v -> v <> 2 -> inv d -> v = 0 \/ v = 1 /\ conf d 0 = [0] ->
  exists d', ipmi_sol_set_progress session port channel (text w) d = Ok (0, d') /\ inv d' /\ forall q, conf d' q = sol_store 0 [v] (conf d) q.
Proof using configured.
  intros Ew Hv Hi Hl. destruct (sc_lock d v Hi Hl) as (r & d' & A & Hc & Hi' & Hs). exists d'. split; [| done].
  unfold ipmi_sol_set_progress, set_param_with, set_data, plain_data. keywords. cbv iota. cbn [andb negb]. cbv iota. rewrite Ew. cbv iota.
  unfold mbind at 1, M_bind at 1. cbn [mret M_ret]. unfold mbind at 1, M_bind at 1. cbn [mret M_ret Z.eqb negb].
  rewrite (sendrecv_bind _ _ _ _ _ A). rewrite Hc. cbn [Z.eqb negb andb]. rewrite andb_false_r. done.
Qed.

Lemma commit_run d : inv d ->
  exists d', ipmi_sol_set_progress session port channel (text "commit-write") d = Ok (0, d') /\ same_conf d' d.
Proof using configured.
  intros Hi. destruct (sc_commit d Hi) as (r & d' & A & Hi' & Hs). exists d'. split; [| done].
  unfold ipmi_sol_set_progress, set_param_with, set_data, plain_data. keywords. cbv iota. cbn [andb negb]. cbv iota.
  change (named_value progress_values (text "commit-write")) with (Some 2). cbv iota.
  unfold mbind at 1, M_bind at 1. cbn [mret M_ret]. unfold mbind at 1, M_bind at 1. cbn [mret M_ret Z.eqb negb].
  by rewrite (sendrecv_bind _ _ _ _ _ A).
Qed.

Lemma not_progress v : bool_decide ((setting_words v).1 = text "set-in-progress") = false.
Proof. by destruct v. Qed.

(** C37. "sol set" changes the parameter that it names and no other of those
    that "sol info" reads, although some share a byte or a request with others;
    the lock that it takes is given back, whether or not the controller knows
    the commit. *)
Theorem sol_set_changes_one v guarded d : inv d -> conf d 0 = [0] -> setting_ok v -> exists d1 d2,
  ipmi_sol_set_param session port channel (setting_words v).1 (setting_words v).2 guarded d = Ok (0, d1) /\ conf d1 0 = [0] /\
  ipmi_get_sol_info session port channel raw_config d1 = Ok (Some (apply_setting v (read_config (conf d))), d2) /\
  same_conf d2 d1.
Proof using configured.
  intros Hi Hl Hv. destruct (set_data_run v d Hi Hv) as (d1 & E1 & Hi1 & S1).
  assert (forall p, bytes (conf d p)) as Hb by (intros p; apply (sc_shape d p Hi)).
  pose proof (setting_applied v (conf d) (Hb 2) (Hb 3) (Hb 4) Hv) as Ha.
  destruct (setting_data v (conf d)) as [p l]. destruct Ha as (Hp & Hlb & Hz & Hr).
  set (target := sol_store p l (conf d)) in *. assert (target 0 = [0]) as Ht by (subst target; unfold sol_store; by rewrite (proj2 (Z.eqb_neq 0 p)) by lia).
  enough (exists d2, ipmi_sol_set_param session port channel (setting_words v).1 (setting_words v).2 guarded d = Ok (0, d2) /\ inv d2 /\
    forall q, conf d2 q = target q) as (d2 & E & Hi2 & S2).
  { destruct (get_info_run raw_config d2 Hi2) as (d3 & E3 & S3). exists d2, d3. rewrite (read_config_ext _ _ S2), Hr in E3.
    split_and!; [done | by rewrite S2 | done | apply S3..]. }
  unfold ipmi_sol_set_param, set_param_with. rewrite not_progress, (M_bind_run _ _ _ _ _ E1). cbn [negb andb]. rewrite andb_true_r.
  destruct guarded; cbv iota.
  - destruct (progress_run "set-in-progress" 1 d1) as (d2 & E2 & Hi2 & S2); [done | done | done | right; by rewrite S1 |].
    rewrite (M_bind_run _ _ _ _ _ E2). cbn [Z.eqb negb].
    destruct (sc_set d2 p l Hi2 Hp Hlb Hz) as (r & d3 & A & Hc & Hi3 & S3). change (channel :: p :: l) with ([channel; p] ++ l).
    rewrite (sendrecv_bind _ _ _ _ _ A), Hc. cbn [Z.eqb negb andb].
    destruct (commit_run d3 Hi3) as (d4 & E4 & Hi4 & S4). rewrite (M_bind_run _ _ _ _ _ E4).
    destruct (progress_run "set-complete" 0 d4) as (d5 & E5 & Hi5 & S5); [done | done | done | by left |].
    rewrite (M_bind_run _ _ _ _ _ E5). exists d5. split; [done |]. split; [done |]. intros q. rewrite S5. subst target. unfold sol_store.
    destruct (Z.eqb_spec q 0) as [->|Hq]; [by rewrite (proj2 (Z.eqb_neq 0 p)), Hl by lia |].
    rewrite S4, S3. unfold sol_store. destruct (q =? p); [done |]. rewrite S2. unfold sol_store. by rewrite (proj2 (Z.eqb_neq q 0)), S1.
  - unfold mbind at 1, M_bind at 1. cbn [mret M_ret Z.eqb negb].
    destruct (sc_set d1 p l Hi1 Hp Hlb Hz) as (r & d3 & A & Hc & Hi3 & S3). change (channel :: p :: l) with ([channel; p] ++ l).
    rewrite (sendrecv_bind _ _ _ _ _ A), Hc. cbn [Z.eqb negb andb]. exists d3. split; [done |]. split; [done |].
    intros q. rewrite S3. unfold target, sol_store. by rewrite S1.
Qed.
End Configured.

(** A controller that refuses the commit. *)
Definition sol_controller : Bmc sol_bytes := fun req c =>
  match rq_data req with
  | _ :: p :: data =>
      if rq_cmd req =? IPMI_GET_SOL_CONFIG_PARAMETERS then (Some (reply 0 (0x11 :: c p)), c)
      else if (p =? 0) && bool_decide (data = [2]) then (Some (reply 0xc1 []), c)
      else (Some (reply 0 []), sol_store p data c)
  | _ => (Some (reply 0xc7 []), c)
  end.

Definition sol_shape (c : sol_bytes) : Prop := forall p, bytes (c p) /\ (0 <= p <= 8 -> zlen (c p) = sol_len p).

Lemma sol_store_shape p l c : sol_shape c -> bytes l -> zlen l = sol_len p -> sol_shape (sol_store p l c).
Proof. intros Hc Hl Hz q. unfold sol_store. destruct (Z.eqb_spec q p) as [->|]; [by split | apply Hc]. Qed.

#[local] Existing Instance sol_controller.

#[local] Instance sol_controller_configured : SolConfigured 0xe sol_shape id.
Proof.
  split.
  - intros c p Hc. apply Hc.
  - intros c p Hc Hp. exists (reply 0 (0x11 :: c p)), c, 0x11. split_and!; [done | done | apply carries_reply | done | done].
  - intros c p data Hc Hp Hb Hz. exists (reply 0 []), (sol_store p data c). split_and!; [| done | by apply sol_store_shape | done].
    unfold bmc_answer, sol_controller. cbn [rq_data rq_cmd app]. by rewrite (proj2 (Z.eqb_neq p 0)) by lia.
  - intros c v Hc Hv. exists (reply 0 []), (sol_store 0 [v] c). split_and!; [| done | | done].
    + by destruct Hv as [->|[-> _]].
    + apply sol_store_shape; [done | | done]. repeat constructor; destruct Hv as [->|[-> _]]; unfold is_u8; lia.
  - intros c Hc. by exists (reply 0xc1 []), c.
Defined.

Definition toy_sol_bytes : sol_bytes := fun p => if sol_len p =? 2 then [5; 80] else [if p =? 2 then 0x82 else 0].

Lemma sol_set_changes_one_witness : exists d1 d2,
  ipmi_sol_set_param true 623 0xe (text "privilege-level") (text "admin") true toy_sol_bytes = Ok (0, d1) /\ d1 0 = [0] /\
  ipmi_get_sol_info true 623 0xe raw_config d1 = Ok (Some ((read_config toy_sol_bytes) <| privilege_level := Some 4 |>), d2).
Proof.
  destruct (sol_set_changes_one 0xe sol_shape id true 623 (Privilege Admin) true toy_sol_bytes) as (d1 & d2 & E1 & E2 & E3 & _); [| done | done |].
  - intros p. unfold toy_sol_bytes, sol_len. repeat case_test; (split; [repeat constructor; unfold is_u8; lia | done]).
  - by exists d1, d2.
Defined.

(** An answer to the setting that is lost leaves the lock taken. *)
Definition silent_on (p : Z) : Bmc sol_bytes := fun req c =>
  if bool_decide (head (drop 1 (rq_data req)) = Some p) && (rq_cmd req =? IPMI_SET_SOL_CONFIG_PARAMETERS) then (None, c) else sol_controller req c.

Example sol_set_lock_stays : match ipmi_sol_set_param (bmc := silent_on 1) true 623 0xe (text "enabled") (text "true") true toy_sol_bytes with
  | Ok (rc, d) => (rc, d 0) | Bad _ => (0, []) end = (-1, [1]).
Proof. vm_compute. reflexivity. Qed.
