(* ===== verification/SolSession.v ===== *)
(** * The console session delivers what is typed and shows what arrives

    What the escape sequences mean is a function of everything that is typed
    ([escapes]), which looks one character ahead; the program reads pieces and
    keeps two flags.  Over a connection that delivers ([SolDelivers]) a session
    sends exactly the characters that [escapes] lets through. *)

From stdpp Require Import strings.
From S2P Require Import Prelude Wire Ipmi Intf Session Helper Crypt LanplusMsg Lanplus Bmc Channel SolParam SolConsole.

#[local] Open Scope Z_scope.

(** ** Escape sequences *)

Inductive key := Char (c : Z) | Break | Suspend (restore : bool) | Help | Quit.

#[export] Instance key_eq_dec : EqDecision key.
Proof. solve_decision. Defined.

(** The key that [c] is behind the escape character. *)
Definition escaped (c : Z) : option key :=
  if c =? 0x2e then Some Quit else if c =? 0x1a then Some (Suspend true) else if c =? 0x18 then Some (Suspend false)
  else if c =? 0x42 then Some Break else if c =? 0x3f then Some Help else None.

(** Of all that is typed; [start]: at the start of a line. *)
Fixpoint escapes (esc : Z) (start : bool) (l : list Z) : list key :=
  match l with
  | [] => []
  | c :: l =>
      if start && (c =? esc) then
        match l with
        | [] => []
        | e :: l =>
            match escaped e with
            | Some Quit => Quit :: escapes esc false l
            | Some k => k :: escapes esc true l
            | None => (if e =? esc then [Char e] else [Char esc; Char e]) ++ escapes esc (is_newline e) l
            end
        end
      else Char c :: escapes esc (is_newline c) l
  end.

Definition sent_chars (ks : list key) : list Z := flat_map (fun k => match k with Char c => [c] | _ => [] end) ks.
Definition breaks (ks : list key) : nat := length (filter (fun k => k = Break) ks).

(** The same as a machine with the two flags of the program. *)
Fixpoint feed (esc : Z) (pending cr : bool) (l : list Z) : list key * (bool * bool) :=
  match l with
  | [] => ([], (pending, cr))
  | c :: l =>
      let put ks r := (ks ++ r.1, r.2) in
      if pending then
        match escaped c with
        | Some Quit => put [Quit] (feed esc false false l)
        | Some k => put [k] (feed esc false cr l)
        | None => put (if c =? esc then [Char c] else [Char esc; Char c]) (feed esc false (is_newline c) l)
        end
      else if cr && (c =? esc) then feed esc true cr l
      else put [Char c] (feed esc false (is_newline c) l)
  end.

Lemma feed_app esc l1 l2 : forall p c, feed esc p c (l1 ++ l2) =
  let '(ks, (p', c')) := feed esc p c l1 in let '(ks', r) := feed esc p' c' l2 in (ks ++ ks', r).
Proof.
  induction l1 as [|x l1 IH]; intros p c; [cbn; by destruct (feed esc p c l2) |].
  change ((x :: l1) ++ l2) with (x :: (l1 ++ l2)). cbn [feed].
  assert (forall ks p c, (ks ++ (feed esc p c (l1 ++ l2)).1, (feed esc p c (l1 ++ l2)).2) =
    (let '(ks1, (p', c')) := (ks ++ (feed esc p c l1).1, (feed esc p c l1).2) in let '(ks2, r) := feed esc p' c' l2 in (ks1 ++ ks2, r))) as H.
  { intros ks p0 c0. rewrite IH. destruct (feed esc p0 c0 l1) as [ks1 [p' c']]. cbn. destruct (feed esc p' c' l2). cbn. by rewrite app_assoc. }
  destruct p; [destruct (escaped x) as [[]|]; apply H |]. destruct (c && (x =? esc)); [apply IH | apply H].
Qed.

Lemma feed_escapes esc n : forall l start, (length l <= n)%nat -> (feed esc false start l).1 = escapes esc start l.
Proof.
  induction n as [|n IH]; intros [|c l] start Hn; cbn [length] in Hn; try done; [lia |]. cbn [feed escapes].
  destruct (start && (c =? esc)) eqn:E; [| by rewrite IH by lia]. apply andb_true_iff in E as [-> _].
  destruct l as [|e l]; [done |]. cbn [length] in Hn. cbn [feed]. destruct (escaped e) as [[]|]; cbn; by rewrite IH by lia.
Qed.

Lemma sent_app a b : sent_chars (a ++ b) = sent_chars a ++ sent_chars b.
Proof. apply flat_map_app. Qed.
Lemma breaks_app a b : breaks (a ++ b) = (breaks a + breaks b)%nat.
Proof. unfold breaks. by rewrite filter_app, length_app. Qed.

(** A buffer gives at most one character more than it holds. *)
Lemma feed_sent esc l : forall p c, zlen (sent_chars (feed esc p c l).1) <= zlen l + (if p then 1 else 0).
Proof.
  induction l as [|x l IH]; intros p c; [cbn; by destruct p |]. cbn [feed]. rewrite zlen_cons.
  assert (forall ks p' c', zlen (sent_chars (ks ++ (feed esc p' c' l).1)) <= zlen (sent_chars ks) + zlen l + (if p' then 1 else 0)) as H.
  { intros. rewrite sent_app, zlen_app. specialize (IH p' c'). lia. }
  destruct p.
  - destruct (escaped x) as [[]|]; cbn [fst]; (etransitivity; [apply H |]); cbn; try destruct (x =? esc); cbn; rewrite ?zlen_cons, ?zlen_nil; lia.
  - destruct (c && (x =? esc)); [specialize (IH true c); cbv iota in *; lia |]. cbn [fst]. etransitivity; [apply H |]. cbn. rewrite zlen_cons, zlen_nil. lia.
Qed.

(** ** A connection that delivers *)

(** What is put out of a response: of the last one to the data that were sent,
    and of one that arrives or acknowledges only a part of them. *)
Definition news (r : ipmi_rs) : list Z :=
  if is_sol_packet (Some r) && negb (sol_seq (sol_fields r) =? 0) then rsp_data r else [].
Definition arrived (r : ipmi_rs) : list Z := if is_sol_packet (Some r) then rsp_data r else [].
Definition came (part : bool) (r : ipmi_rs) : list Z := if part then arrived r else news r.

Section Delivers.
Context {dev : Type} {bmc : Bmc dev} {line : SolLine dev}.
(** The states of the connection, and those behind an acknowledgement of a
    part; the characters that the controller has accepted and delivered, its
    breaks, and how many packets it may still lose in a row. *)
Context (inv : bool -> dev -> Prop) (accepted delivered : dev -> list Z) (broken losses : dev -> nat).

(** Nothing was sent, [x] was shown, [n] breaks were made. *)
Record heard (d' d : dev) (x : list Z) (n : nat) : Prop := {
  h_inv : inv false d';
  h_accepted : accepted d' = accepted d;
  h_delivered : delivered d' = delivered d ++ x;
  h_broken : broken d' = (broken d + n)%nat;
}.

(** [r] says that [k] characters of the packet were accepted: all of them,
    unless it acknowledges the packet with a smaller count and neither a
    refusal nor an inactive transfer. *)
Definition reports (d : dev) (out : sol_out) (r : ipmi_rs) (k : Z) : Prop :=
  0 <= k <= character_count out /\
  is_sol_partial_ack (line_intelplus d) out (Some r) = character_count out - k /\
  (k < character_count out -> sol_nack (sol_fields r) = 0 /\ sol_unavail (sol_fields r) = 0).

(** A packet is lost, or the controller accepts as many of its characters as
    its response says; the rest of a packet that was accepted in part is not
    lost, and only finitely many of its parts are acknowledged one by one.  Fewer
    than [limit] packets are lost in a row. *)
Class SolDelivers (limit : nat) := {
  sd_limit d : inv false d -> (losses d < limit)%nat;
  sd_number b out d : inv b d -> exists q d', line_number out d = Ok (out <| so_packet_sequence_number := q |>, d') /\
    inv b d' /\ accepted d' = accepted d /\ delivered d' = delivered d /\ broken d' = broken d /\ losses d' = losses d /\
    line_rounds d' = line_rounds d;
  sd_exchange b out d : inv b d -> 0 < character_count out <= zlen (so_data out) -> generate_break out = false ->
    exists rsp handed d', line_exchange out d = Ok ((rsp, handed), d') /\ broken d' = broken d /\
      match rsp with
      | Some r => exists k, reports d' out r k /\ accepted d' = accepted d ++ slice (so_data out) 0 k /\
          inv (k <? character_count out) d' /\
          (b = true -> k < character_count out -> (line_rounds d' < line_rounds d)%nat) /\
          delivered d' = delivered d ++ concat handed ++ came (k <? character_count out) r
      | None => b = false /\ inv false d' /\ accepted d' = accepted d /\ delivered d' = delivered d ++ concat handed /\
          (losses d' < losses d)%nat
      end;
  sd_break out d : inv false d -> character_count out = 0 -> generate_break out = true ->
    exists rsp handed d', line_exchange out d = Ok ((rsp, handed), d') /\ heard d' d (concat handed) 1 /\
      match rsp with Some r => 0 <= sol_accepted (sol_fields r) | None => True end;
  sd_empty out d : inv false d -> character_count out = 0 -> generate_break out = false ->
    exists r handed d', line_exchange out d = Ok ((Some r, handed), d') /\ heard d' d (concat handed) 0 /\
      0 <= sol_accepted (sol_fields r);
  sd_keepalive d : inv false d -> exists handed d', keepalive d = Ok ((0, handed), d') /\ heard d' d (concat handed) 0;
  sd_recv d : inv false d -> exists r d', recv_sol d = Ok (Some r, d') /\ heard d' d (arrived r) 0;
  sd_command req d : inv false d -> heard (bmc_answer req d).2 d [] 0;
}.

Context {clk : Clock} {mal : Malloc} {limit : nat} {delivers : SolDelivers limit}.
Context (name : list Z) (intf : ipmi_intf) (port escape : Z) (session terminal : bool).

(** *** A packet, and the characters of [send_sol] *)

(** The connection and the screen after an operation. *)
Definition after (s : sol dev) (d' : dev) (x : list Z) : sol dev := s <| s_dev := d' |> <| s_out := s_out s ++ x |>.

Lemma after_same s : after s (s_dev s) [] = s.
Proof. destruct s. unfold after. cbn. by rewrite app_nil_r. Qed.
Lemma after_after s d1 x1 d2 x2 : after (after s d1 x1) d2 x2 = after s d2 (x1 ++ x2).
Proof. unfold after. cbn. by rewrite <- app_assoc. Qed.

Lemma exchange_after out (s : sol dev) rsp handed d' : line_exchange out (s_dev s) = Ok ((rsp, handed), d') ->
  sol_send_packet out s = Ok ((rsp, is_sol_partial_ack (line_intelplus d') out rsp), after s d' (concat handed)).
Proof. intros E. unfold sol_send_packet, sol_exchange, console_link, on_dev, mbind, M_bind. by rewrite E. Qed.

Lemma number_after out (s : sol dev) out' d' : line_number out (s_dev s) = Ok (out', d') ->
  sol_number out s = Ok (out', after s d' []).
Proof. intros E. unfold sol_number, console_link, on_dev. rewrite E. unfold after. cbn. by rewrite app_nil_r. Qed.

Lemma handle_after r (s : sol dev) :
  (if negb (rs_data_len r =? 0) then sol_handle r else mret tt) s = Ok (tt, after s (s_dev s) (arrived r)).
Proof.
  unfold arrived. destruct (Z.eqb_spec (rs_data_len r) 0) as [E | E]; cbn [negb].
  - assert (rsp_data r = []) as -> by (unfold rsp_data; by rewrite E).
    destruct (is_sol_packet _); by rewrite after_same.
  - cbn [sol_handle console_link]. unfold output. destruct (is_sol_packet (Some r)); [by destruct s | by rewrite after_same].
Qed.

Lemma partial_accepted i out r n : is_sol_partial_ack i out (Some r) = n -> n <> 0 -> sol_accepted (sol_fields r) = character_count out - n.
Proof using. unfold is_sol_partial_ack. repeat case_test; lia. Qed.

(** The characters that an acknowledgement leaves are sent again, from the
    start of the payload, until all are accepted. *)
Lemma resend_run fuel : forall out r k A (s : sol dev), (0 < fuel)%nat -> (k < character_count out -> (S (S (line_rounds (s_dev s))) <= fuel)%nat) ->
  
  0 <= k <= character_count out -> 0 < character_count out <= zlen (so_data out) -> generate_break out = false ->
  (k < character_count out -> sol_accepted (sol_fields r) = k /\ sol_nack (sol_fields r) = 0 /\ sol_unavail (sol_fields r) = 0) ->
  inv (k <? character_count out) (s_dev s) -> delivered (s_dev s) = A ++ came (k <? character_count out) r ->
  exists r' out' d' x, resend_loop fuel out (Some r) (character_count out - k) s = Ok ((Some r', out'), after s d' x) /\
    inv false d' /\ broken d' = broken (s_dev s) /\
    accepted d' = accepted (s_dev s) ++ slice (so_data out) k (character_count out - k) /\
    delivered d' = A ++ x ++ news r'.
Proof using delivers.
  induction fuel as [|fuel IH]; intros out r k A s H0 Hf Hk Hc Hb Hr Hi HD; [lia |]. cbn [resend_loop].
  destruct (Z.ltb_spec k (character_count out)) as [Hlt | Hge].
  2: { replace (character_count out - k) with 0 by lia. cbn [Z.eqb negb]. rewrite andb_false_r. cbn [negb].
       exists r, out, (s_dev s), []. rewrite after_same, app_nil_r. by split_and!. }
  destruct (Hr Hlt) as (Ha & Hn & Hu). rewrite Ha, Hn, Hu, (proj2 (Z.eqb_neq (character_count out - k) 0)) by lia.
  cbn [Z.eqb negb andb]. rewrite (M_bind_run _ _ _ _ _ (handle_after r s)). set (s1 := after s _ _).
  destruct (sd_number true (out) (s_dev s1) Hi) as (q & d1 & E1 & I1 & A1 & D1 & B1 & _ & R1).
  rewrite (M_bind_run _ _ _ _ _ (number_after _ _ _ _ E1)). cbn [so_data update].
  destruct (wr_split (so_data out) 0 (slice (so_data out) k (character_count out - k))) as (a & b & c & Es & Ea & Hlen & E2);
    [lia | rewrite zlen_slice; lia |]. apply Z.eq_le_incl, zlen_0_nil in Ea as ->.
  rewrite E2, lift_Some_bind. cbn [app]. set (piece := slice _ k _) in *.
  assert (zlen piece = character_count out - k) as Hp by (subst piece; rewrite zlen_slice; lia).
  set (out2 := _ <| so_data := piece ++ c |> <| character_count := _ |>).
  destruct (sd_exchange true out2 d1 I1) as (rsp & handed & d2 & E3 & B3 & H3);
    [change (0 < character_count out - k <= zlen (piece ++ c)); rewrite zlen_app; pose proof (zlen_nonneg c); lia | done |].
  rewrite (M_bind_run _ _ _ _ _ (exchange_after out2 (after s1 d1 []) _ _ _ E3)).
  destruct rsp as [r2 |]; [| by destruct H3]. destruct H3 as (k2 & (K1 & K2 & K3) & A3 & I3 & R3 & D3). rewrite K2.
  change (character_count out2) with (character_count out - k) in *.
  change (so_data out2) with (piece ++ c) in *. change (s_dev s1) with (s_dev s) in *.
  destruct (IH out2 r2 k2 (A ++ arrived r ++ concat handed) (after (after s1 d1 []) d2 (concat handed)))
    as (r' & out' & d' & x & E4 & I4 & B4 & A4 & D4); try done.
  - specialize (Hf Hlt). lia.
  - intros Hlt2. specialize (R3 eq_refl Hlt2). specialize (Hf Hlt). cbn. lia.
  - change (0 < character_count out - k <= zlen (piece ++ c)). rewrite zlen_app. pose proof (zlen_nonneg c). lia.
  - change (character_count out2) with (character_count out - k). intros Hlt2. destruct (K3 Hlt2). split_and!; try done.
    apply partial_accepted in K2; [| lia]. change (character_count out2) with (character_count out - k) in K2. lia.
  - cbn. rewrite D3, D1, HD. cbn [came]. by rewrite <- !app_assoc.
  - change (character_count out2) with (character_count out - k) in *. change (so_data out2) with (piece ++ c) in *.
    exists r', out', d', (arrived r ++ concat handed ++ x). rewrite E4, !after_after. cbn [app].
    subst s1. rewrite after_after, <- !app_assoc. split_and!; try done.
    + rewrite B4. cbn. congruence.
    + rewrite A4. cbn. rewrite A3, A1, <- app_assoc. f_equal.
      rewrite slice_app_l by lia. rewrite slice_app_l by lia. rewrite slice_cat by lia.
      replace (k2 + (character_count out - k - k2)) with (zlen piece) by lia. by rewrite slice_all.
    + by rewrite D4, <- !app_assoc.
Qed.

Lemma send_sol_run out (s : sol dev) : inv false (s_dev s) -> 0 < character_count out <= zlen (so_data out) -> generate_break out = false ->
  exists rsp out' d' x, send_sol out s = Ok ((rsp, out'), after s d' x) /\ broken d' = broken (s_dev s) /\ inv false d' /\
    match rsp with
    | Some r => accepted d' = accepted (s_dev s) ++ slice (so_data out) 0 (character_count out) /\
        delivered d' = delivered (s_dev s) ++ x ++ news r
    | None => so_data out' = so_data out /\ generate_break out' = false /\ accepted d' = accepted (s_dev s) /\
        delivered d' = delivered (s_dev s) ++ x /\ (losses d' < losses (s_dev s))%nat
    end.
Proof using delivers.
  intros Hi Hc Hb. unfold send_sol, ipmi_lanplus_send_sol.
  destruct (sd_number false (out <| so_acked_packet_number := 0 |>) (s_dev s) Hi) as (q & d1 & E1 & I1 & A1 & D1 & B1 & L1 & R1).
  rewrite (M_bind_run _ _ _ _ _ (number_after _ _ _ _ E1)). cbv zeta. set (o := _ <| so_accepted_character_count := 0 |>).
  destruct (sd_exchange false o d1 I1) as (rsp & handed & d2 & E3 & B3 & H3); [exact Hc | exact Hb |].
  rewrite (M_bind_run _ _ _ _ _ (exchange_after o (after s d1 []) _ _ _ E3)). rewrite after_after. cbn [app].
  unfold mbind at 1, M_bind at 1. cbn [get].
  destruct rsp as [r |].
  - destruct H3 as (k & (K1 & K2 & K3) & A3 & I3 & R3 & D3). rewrite K2. change (character_count o) with (character_count out) in *.
    change (so_data o) with (so_data out) in *.
    destruct (resend_run (S (S (line_rounds d2))) o r k (delivered (s_dev s) ++ concat handed) (after s d2 (concat handed)))
      as (r' & out' & d' & x & E4 & I4 & B4 & A4 & D4); try done.
    + lia.
    + change (character_count o) with (character_count out). intros Hlt. destruct (K3 Hlt). split_and!; try done.
      apply partial_accepted in K2; [| lia]. change (character_count o) with (character_count out) in K2. lia.
    + cbn. rewrite D3, D1. by rewrite <- app_assoc.
    + change (character_count o) with (character_count out) in *. change (so_data o) with (so_data out) in *.
      exists (Some r'), out', d', (concat handed ++ x). cbn [sol_rounds console_link s_dev after update].
      change (line_rounds (s_dev (after s d2 (concat handed)))) with (line_rounds d2). rewrite E4, after_after.
      split_and!; try done; [cbn in B4; congruence | | by rewrite D4, <- !app_assoc].
      rewrite A4. cbn. rewrite A3, A1, <- app_assoc, slice_cat by lia. do 2 f_equal. lia.
  - destruct H3 as (_ & I3 & A3 & D3 & L3). exists None, o, d2, (concat handed). cbn [resend_loop].
    split_and!; try done; [congruence | congruence | by rewrite D3, D1 | lia].
Qed.

(** A packet without characters. *)
Lemma send_empty_run out (s : sol dev) rsp handed d1 d' q :
  line_number (out <| so_acked_packet_number := 0 |>) (s_dev s) = Ok (out <| so_acked_packet_number := 0 |> <| so_packet_sequence_number := q |>, d1) ->
  line_exchange (out <| so_acked_packet_number := 0 |> <| so_packet_sequence_number := q |> <| so_accepted_character_count := 0 |>) d1 = Ok ((rsp, handed), d') ->
  character_count out = 0 -> match rsp with Some r => 0 <= sol_accepted (sol_fields r) | None => True end ->
  exists out', send_sol out s = Ok ((rsp, out'), after s d' (concat handed)).
Proof using.
  intros E1 E3 Hc Hr. unfold send_sol, ipmi_lanplus_send_sol. rewrite (M_bind_run _ _ _ _ _ (number_after _ _ _ _ E1)). cbv zeta.
  set (o := _ <| so_accepted_character_count := 0 |>) in *.
  rewrite (M_bind_run _ _ _ _ _ (exchange_after o (after s d1 []) _ _ _ E3)). rewrite after_after. cbn [app].
  assert (is_sol_partial_ack (line_intelplus d') o rsp = 0) as ->.
  { unfold is_sol_partial_ack. destruct rsp as [r |]; [| done]. change (character_count o) with (character_count out).
    rewrite Hc, (proj2 (Z.ltb_ge _ _)) by lia. by rewrite andb_false_r. }
  unfold mbind at 1, M_bind at 1. cbn [get]. exists o. cbn [resend_loop]. destruct rsp as [r |]; [| done].
  cbn [Z.eqb negb]. by rewrite andb_false_r.
Qed.

Lemma send_break_run out (s : sol dev) : inv false (s_dev s) -> character_count out = 0 -> generate_break out = true ->
  exists rsp out' d' x, send_sol out s = Ok ((rsp, out'), after s d' x) /\ heard d' (s_dev s) x 1.
Proof using delivers.
  intros Hi Hc Hb. destruct (sd_number false (out <| so_acked_packet_number := 0 |>) (s_dev s) Hi) as (q & d1 & E1 & I1 & A1 & D1 & B1 & _).
  destruct (sd_break (out <| so_acked_packet_number := 0 |> <| so_packet_sequence_number := q |> <| so_accepted_character_count := 0 |>) d1 I1)
    as (rsp & handed & d' & E3 & [] & Hr); [exact Hc | exact Hb |].
  destruct (send_empty_run out s rsp handed d1 d' q E1 E3 Hc Hr) as [out' E]. exists rsp, out', d', (concat handed).
  split; [exact E |]. split; congruence.
Qed.

Lemma send_nothing_run out (s : sol dev) : inv false (s_dev s) -> character_count out = 0 -> generate_break out = false ->
  exists r out' d' x, send_sol out s = Ok ((Some r, out'), after s d' x) /\ heard d' (s_dev s) x 0.
Proof using delivers.
  intros Hi Hc Hb. destruct (sd_number false (out <| so_acked_packet_number := 0 |>) (s_dev s) Hi) as (q & d1 & E1 & I1 & A1 & D1 & B1 & _).
  destruct (sd_empty (out <| so_acked_packet_number := 0 |> <| so_packet_sequence_number := q |> <| so_accepted_character_count := 0 |>) d1 I1)
    as (r & handed & d' & E3 & [] & Hr); [exact Hc | exact Hb |].
  destruct (send_empty_run out s (Some r) handed d1 d' q E1 E3 Hc Hr) as [out' E]. exists r, out', d', (concat handed).
  split; [exact E |]. split; congruence.
Qed.

(** The console after [n] breaks, with the flags [p] and [c]; the terminal is
    in raw mode only if it is one. *)
Record scanned (s' s : sol dev) (n : nat) (p c : bool) : Prop := {
  sn_inv : inv false (s_dev s');
  sn_accepted : accepted (s_dev s') = accepted (s_dev s);
  sn_shown : exists x, delivered (s_dev s') = delivered (s_dev s) ++ x /\ s_out s' = s_out s ++ x;
  sn_broken : broken (s_dev s') = (broken (s_dev s) + n)%nat;
  sn_pending : escape_pending s' = p;
  sn_cr : last_was_cr s' = c;
  sn_typed : s_typed s' = s_typed s;
  sn_inbound : s_inbound s' = s_inbound s;
  sn_raw : (in_raw_mode s -> terminal) -> in_raw_mode s' -> terminal;
}.

(** Nothing happens to the device or the screen. *)
Lemma scanned_same (s' s : sol dev) p c : inv false (s_dev s) ->
  (s_dev s', s_out s', s_typed s', s_inbound s') = (s_dev s, s_out s, s_typed s, s_inbound s) ->
  escape_pending s' = p -> last_was_cr s' = c -> ((in_raw_mode s -> terminal) -> in_raw_mode s' -> terminal) -> scanned s' s 0 p c.
Proof using.
  intros Hi [= E1 E2 E3 E4] Hp Hc Hr. split; rewrite ?E1, ?E2; auto. exists []. by rewrite !app_nil_r.
Qed.

Lemma scanned_trans s2 s1 s n m p c p' c' : scanned s1 s n p c -> scanned s2 s1 m p' c' -> scanned s2 s (n + m) p' c'.
Proof using.
  intros [H1 H2 (x & H3 & H4) H5 H6 H7 H8 H9 H10] [G1 G2 (y & G3 & G4) G5 G6 G7 G8 G9 G10]. split; try done; try congruence; [| lia | auto].
  exists (x ++ y). by rewrite G3, G4, H3, H4, <- !app_assoc.
Qed.

Lemma put_char_run data len ch (s : sol dev) : 0 <= len < zlen data -> exists data', put_char data len ch s = Ok ((data', len + 1), s) /\
  zlen data' = zlen data /\ slice data' 0 (len + 1) = slice data 0 len ++ [ch].
Proof.
  intros Hl. destruct (wr_split data len [ch]) as (a & b & c & -> & <- & Hb & E); [lia | change (zlen [ch]) with 1; lia |].
  exists (a ++ [ch] ++ c). unfold put_char. rewrite E, lift_Some_bind. split; [done |]. change (zlen [ch]) with 1 in *.
  split; [rewrite !zlen_app; change (zlen [ch]) with 1; lia |].
  rewrite (slice_app_l a (b ++ c)), (slice_all a) by lia. rewrite app_assoc.
  rewrite slice_app_l, slice_all; rewrite ?zlen_app; change (zlen [ch]) with 1; lia || done.
Qed.

Lemma suspend_run r (s : sol dev) : inv false (s_dev s) -> exists s', suspendSelf terminal r s = Ok (tt, s') /\ scanned s' s 0 (escape_pending s) (last_was_cr s).
Proof using.
  intros Hi. unfold suspendSelf, leave_raw_mode, enter_raw_mode.
  destruct r, terminal eqn:Et, (in_raw_mode s) eqn:Er; (eexists; split; [reflexivity |]); apply scanned_same; cbn; rewrite ?Er, ?Et; auto;
    cbn; by rewrite Er.
Qed.

Lemma sendBreak_run (s : sol dev) : inv false (s_dev s) -> exists s', sendBreak s = Ok (tt, s') /\ scanned s' s 1 (escape_pending s) (last_was_cr s).
Proof using delivers.
  intros Hi. destruct (send_break_run (zero_sol_out <| generate_break := true |>) s Hi) as (rsp & out' & d' & x & E & []); [done | done |].
  exists (after s d' x). unfold sendBreak. rewrite (M_bind_run _ _ _ _ _ E). split; [done |]. split; cbn; auto. by exists x.
Qed.

(** A change of the flags. *)
Lemma flags_run (s : sol dev) p c : inv false (s_dev s) -> scanned (s <| escape_pending := p |> <| last_was_cr := c |>) s 0 p c.
Proof using. intros Hi. by apply scanned_same. Qed.

Definition quits (ks : list key) : bool := bool_decide (Quit ∈ ks).

(** The search of a buffer. *)
Definition searched (s : sol dev) (ks : list key) (p c : bool) (data : list Z) (len retval : Z) (r : res (list Z * Z * Z * sol dev)) : Prop :=
  exists data' s', r = Ok ((data', len + zlen (sent_chars ks), if quits ks then 1 else retval), s') /\
    zlen data' = zlen data /\ slice data' 0 (len + zlen (sent_chars ks)) = slice data 0 len ++ sent_chars ks /\
    scanned s' s (breaks ks) p c.

Lemma searched_step s1 s k ks p c p1 c1 data1 data len retval1 retval r :
  scanned s1 s (breaks k) p1 c1 -> zlen data1 = zlen data -> slice data1 0 (len + zlen (sent_chars k)) = slice data 0 len ++ sent_chars k ->
  retval1 = (if quits k then 1 else retval) ->
  searched s1 ks p c data1 (len + zlen (sent_chars k)) retval1 r -> searched s (k ++ ks) p c data len retval r.
Proof.
  intros Hs Hz Hd -> (data' & s' & -> & Hz' & Hd' & Hs'). exists data', s'. rewrite sent_app, zlen_app, Z.add_assoc, breaks_app. split_and!.
  - do 2 f_equal. unfold quits. repeat case_bool_decide; set_solver.
  - congruence.
  - by rewrite Hd', Hd, app_assoc.
  - by eapply scanned_trans.
Qed.

Lemma nl_escape_false s c : inv false (s_dev s) ->
  scanned (s <| escape_pending := false |> <| last_was_cr := c |>) s 0 false c.
Proof. by apply flags_run. Qed.

Lemma input_loop_run l : forall s data len retval, inv false (s_dev s) -> 0 <= len ->
  len + zlen l + (if escape_pending s then 1 else 0) <= zlen data ->
  let '(ks, (p, c)) := feed escape (escape_pending s) (last_was_cr s) l in
  searched s ks p c data len retval (input_loop escape terminal l data len retval s).
Proof using delivers.
  induction l as [|x l IH]; intros s data len retval Hi H0 Hl.
  { cbn. exists data, s. cbn. rewrite Z.add_0_r, app_nil_r. split_and!; try done. by apply scanned_same. }
  rewrite zlen_cons in Hl. pose proof (zlen_nonneg l) as Hl0.
  (* the keys of one step, the state after it, and the rest *)
  assert (forall s1 k p1 c1 data1 len1 retval1, len1 = len + zlen (sent_chars k) -> retval1 = (if quits k then 1 else retval) ->
    scanned s1 s (breaks k) p1 c1 -> zlen data1 = zlen data -> slice data1 0 len1 = slice data 0 len ++ sent_chars k ->
    len1 + zlen l + (if p1 then 1 else 0) <= zlen data ->
    let '(ks, (p, c)) := let r := feed escape p1 c1 l in (k ++ r.1, r.2) in
    searched s ks p c data len retval (input_loop escape terminal l data1 len1 retval1 s1)) as Hk.
  { intros s1 k p1 c1 data1 len1 retval1 -> -> Hs Hz Hd Hle. pose proof Hs as [Hi1 _ _ _ Hp1 Hc1 _ _ _].
    specialize (IH s1 data1 (len + zlen (sent_chars k)) (if quits k then 1 else retval) Hi1). rewrite Hp1, Hc1 in IH.
    destruct (feed escape p1 c1 l) as [ks [p c]]. cbn. eapply searched_step; [exact Hs | exact Hz | exact Hd | done |].
    apply IH; [pose proof (zlen_nonneg (sent_chars k)); lia | rewrite Hz; lia]. }
  (* a key that puts nothing into the payload *)
  assert (forall s1 k p1 c1 retval1, sent_chars [k] = [] -> retval1 = (if quits [k] then 1 else retval) -> scanned s1 s (breaks [k]) p1 c1 ->
    p1 = false -> let '(ks, (p, c)) := let r := feed escape p1 c1 l in ([k] ++ r.1, r.2) in
    searched s ks p c data len retval (input_loop escape terminal l data len retval1 s1)) as Hc.
  { intros s1 k p1 c1 retval1 Hk0 Hr Hs ->. apply Hk; rewrite ?Hk0, ?zlen_nil, ?app_nil_r; try done; destruct (escape_pending s); cbn; lia. }
  cbn [input_loop feed]. unfold mbind at 1, M_bind at 1. cbn [get].
  destruct (escape_pending s) eqn:Ep.
  - unfold mbind at 1, M_bind at 1. cbn [modify]. set (s1 := s <| escape_pending := false |>).
    assert (scanned s1 s 0 false (last_was_cr s)) as Hs1 by (by apply scanned_same).
    unfold escaped. destruct (Z.eqb_spec x 0x2e) as [->|].
    { unfold mbind at 1, M_bind at 1. cbn [modify]. apply (Hc _ Quit false false); [done | done | by apply nl_escape_false | done]. }
    destruct (x =? 0x1a).
    { destruct (suspend_run true s1 Hi) as (s2 & E & Hs2). rewrite (M_bind_run _ _ _ _ _ E).
      apply (Hc s2 (Suspend true) false (last_was_cr s)); [done | done | exact (scanned_trans _ _ _ _ _ _ _ _ _ Hs1 Hs2) | done]. }
    destruct (x =? 0x18).
    { destruct (suspend_run false s1 Hi) as (s2 & E & Hs2). rewrite (M_bind_run _ _ _ _ _ E).
      apply (Hc s2 (Suspend false) false (last_was_cr s)); [done | done | exact (scanned_trans _ _ _ _ _ _ _ _ _ Hs1 Hs2) | done]. }
    destruct (x =? 0x42).
    { destruct (sendBreak_run s1 Hi) as (s2 & E & Hs2). rewrite (M_bind_run _ _ _ _ _ E).
      apply (Hc s2 Break false (last_was_cr s)); [done | done | exact (scanned_trans _ _ _ _ _ _ _ _ _ Hs1 Hs2) | done]. }
    destruct (x =? 0x3f); [by apply (Hc s1 Help false (last_was_cr s)) |].
    destruct (x =? escape); cbn [negb].
    + unfold mbind at 1, M_bind at 1. cbn [mret M_ret].
      destruct (put_char_run data len x s1) as (d1 & E & Hz & Hd); [lia |]. rewrite (M_bind_run _ _ _ _ _ E).
      unfold mbind at 1, M_bind at 1. cbn [modify].
      apply (Hk _ [Char x] false (is_newline x)); [done | done | by apply nl_escape_false | done | done | lia].
    + destruct (put_char_run data len escape s1) as (d1 & E & Hz & Hd); [lia |]. rewrite (M_bind_run _ _ _ _ _ E).
      destruct (put_char_run d1 (len + 1) x s1) as (d2 & E2 & Hz2 & Hd2); [lia |]. rewrite (M_bind_run _ _ _ _ _ E2).
      unfold mbind at 1, M_bind at 1. cbn [modify].
      apply (Hk _ [Char escape; Char x] false (is_newline x)); [cbn; rewrite !zlen_cons, zlen_nil; lia | done | by apply nl_escape_false | congruence | | lia].
      by rewrite Hd2, Hd, <- app_assoc.
  - destruct (last_was_cr s && (x =? escape)) eqn:Ee.
    + unfold mbind at 1, M_bind at 1. cbn [modify]. set (s1 := s <| escape_pending := true |>).
      assert (scanned s1 s 0 true (last_was_cr s)) as Hs1 by (by apply scanned_same).
      pose proof (Hk s1 [] true (last_was_cr s) data len retval) as H. cbn in H. destruct (feed escape true (last_was_cr s) l) as [ks [p c]].
      apply H; try done; rewrite ?app_nil_r, ?zlen_nil; try done; lia.
    + destruct (put_char_run data len x s) as (d1 & E & Hz & Hd); [lia |]. rewrite (M_bind_run _ _ _ _ _ E).
      unfold mbind at 1, M_bind at 1. cbn [modify].
      apply (Hk _ [Char x] false (is_newline x)); [done | done | by apply scanned_same | done | done | lia].
Qed.

Lemma send_tries_run n : forall (s : sol dev) out len, inv false (s_dev s) -> (losses (s_dev s) < n)%nat -> 0 < len <= zlen (so_data out) -> generate_break out = false ->
  exists r d' x, send_tries n len out s = Ok (Some r, after s d' x) /\ inv false d' /\ broken d' = broken (s_dev s) /\
    accepted d' = accepted (s_dev s) ++ slice (so_data out) 0 len /\ delivered d' = delivered (s_dev s) ++ x ++ news r.
Proof using delivers.
  induction n as [|n IH]; intros s out len Hi Hn Hl Hb; [lia |]. cbn [send_tries].
  destruct (send_sol_run (out <| character_count := len |>) s Hi) as (rsp & out' & d' & x & E & Hbr & Hi' & Hr); [done | done |].
  rewrite (M_bind_run _ _ _ _ _ E). destruct rsp as [r|].
  - exists r, d', x. by destruct Hr.
  - destruct Hr as (H1 & H2 & H3 & H4 & H5). cbn in H1.
    destruct (IH (after s d' x) out' len) as (r & d2 & y & E2 & Hi2 & G1 & G2 & G3); [done | cbn; lia | by rewrite H1 | done |].
    exists r, d2, (x ++ y). rewrite E2, after_after. cbn in *. rewrite H1, H3 in G2. rewrite H4 in G3.
    split_and!; try done; [congruence | by rewrite G3, <- !app_assoc].
Qed.

(** The console after the keys [ks], with the flags [p] and [c]: everything
    that was delivered is shown, as long as the user does not quit. *)
Record passed (s' s : sol dev) (ks : list key) (p c : bool) : Prop := {
  pa_inv : inv false (s_dev s');
  pa_accepted : accepted (s_dev s') = accepted (s_dev s) ++ sent_chars ks;
  pa_broken : broken (s_dev s') = (broken (s_dev s) + breaks ks)%nat;
  pa_shown : exists shown out, delivered (s_dev s') = delivered (s_dev s) ++ shown /\ s_out s' = s_out s ++ out /\
    out `prefix_of` shown /\ (quits ks = false -> out = shown);
  pa_pending : escape_pending s' = p;
  pa_cr : last_was_cr s' = c;
  pa_inbound : s_inbound s' = s_inbound s;
  pa_raw : (in_raw_mode s -> terminal) -> in_raw_mode s' -> terminal;
}.

Lemma passed_trans s2 s1 s k1 k2 p c p' c' : passed s1 s k1 p c -> quits k1 = false -> passed s2 s1 k2 p' c' -> passed s2 s (k1 ++ k2) p' c'.
Proof using.
  clear delivers. intros [? A1 B1 (sh1 & o1 & D1 & O1 & _ & Q1) ? ? ? R1] Hq [? A2 B2 (sh2 & o2 & D2 & O2 & P2 & Q2) ? ? ? R2].
  specialize (Q1 Hq) as ->. split; [done | by rewrite A2, A1, sent_app, app_assoc | rewrite B2, B1, breaks_app; lia | | done | done | congruence | auto].
  exists (sh1 ++ sh2), (sh1 ++ o2). split_and!; [by rewrite D2, D1, app_assoc | by rewrite O2, O1, app_assoc | by apply prefix_app |].
  intros Hq2. rewrite Q2; [done |]. unfold quits in *. repeat case_bool_decide; set_solver.
Qed.

Lemma passed_scanned s' s ks p c : scanned s' s (breaks ks) p c -> sent_chars ks = [] -> passed s' s ks p c.
Proof using.
  intros [? ? (x & D & O) ? ? ? ? ? ?] Hn. split; auto; [by rewrite Hn, app_nil_r |]. exists x, x. by split_and!.
Qed.

(** A piece of what is typed. *)
Lemma process_run chunk (s : sol dev) : inv false (s_dev s) -> (limit <= Z.to_nat (retry (ssn_params intf)))%nat -> zlen chunk < 1024 ->
  let '(ks, (p, c)) := feed escape (escape_pending s) (last_was_cr s) chunk in
  exists s', processSolUserInput intf escape terminal chunk s = Ok (if quits ks then 1 else 0, s') /\ passed s' s ks p c /\ s_typed s' = s_typed s.
Proof using delivers.
  intros Hi Hn Hc. pose proof (input_loop_run chunk s (so_data zero_sol_out) 0 0 Hi ltac:(lia)) as H.
  pose proof (feed_sent escape chunk (escape_pending s) (last_was_cr s)) as Hfs.
  destruct (feed escape (escape_pending s) (last_was_cr s) chunk) as [ks [p c]]. cbn [fst] in Hfs.
  assert (zlen (so_data zero_sol_out) = 1024) as Hz0 by done.
  destruct H as (data & s1 & E & Hz & Hd & Hs1); [rewrite Hz0; destruct (escape_pending s); lia |].
  rewrite Z.add_0_l in *. unfold processSolUserInput. rewrite (M_bind_run _ _ _ _ _ E). cbv iota beta.
  pose proof (zlen_nonneg (sent_chars ks)) as Hk0.
  destruct (Z.eqb_spec (zlen (sent_chars ks)) 0) as [H0|H0].
  { exists s1. split; [done |]. split; [| apply Hs1]. apply passed_scanned; [done |]. by apply zlen_0_nil; lia. }
  pose proof Hs1 as [Hi1 A1 (y & D1 & O1) B1 P1 C1 T1 I1 R1]. pose proof (sd_limit (s_dev s1) Hi1) as Hlim.
  rewrite u16_small by (unfold is_u16; destruct (escape_pending s); lia).
  destruct (send_tries_run (Z.to_nat (retry (ssn_params intf))) s1 (zero_sol_out <| so_data := data |>) (zlen (sent_chars ks)))
    as (r & d' & x & E2 & Hi2 & G1 & G2 & G3); [done | lia | cbn; rewrite Hz, Hz0; destruct (escape_pending s); lia | done |].
  rewrite (M_bind_run _ _ _ _ _ E2). cbv iota beta.
  change (so_data (zero_sol_out <| so_data := data |>)) with data in G2. rewrite Hd in G2. change (slice (so_data zero_sol_out) 0 0) with (@nil Z) in G2.
  set (s2 := after s1 d' x) in *.
  assert ((if ((if quits ks then 1 else 0) =? 0) && is_sol_packet (Some r) && negb (sol_seq (sol_fields r) =? 0) then output (Some r) else mret tt) s2 =
    Ok (tt, after s2 d' (if quits ks then [] else news r))) as E3.
  { assert (after s2 d' [] = s2) as Es2 by apply (after_same s2).
    unfold news, output. destruct (quits ks); cbn [Z.eqb andb]; [by rewrite Es2 |].
    destruct (is_sol_packet (Some r)); cbn [andb]; [| by rewrite Es2].
    destruct (negb _); [done | by rewrite Es2]. }
  rewrite (M_bind_run _ _ _ _ _ E3). eexists. split; [reflexivity |]. split; [| done]. subst s2. rewrite after_after.
  split; cbn; try done; [by rewrite G2, A1 | by rewrite G1, B1 |].
  exists (y ++ x ++ news r), (y ++ x ++ if quits ks then [] else news r). rewrite G3, D1, O1, <- !app_assoc. split_and!; try done; [| by intros ->].
  apply prefix_app, prefix_app. destruct (quits ks); [apply prefix_nil | done].
Qed.

Lemma passed_same (s : sol dev) : inv false (s_dev s) -> passed s s [] (escape_pending s) (last_was_cr s).
Proof using. intros Hi. apply passed_scanned; [| done]. by apply scanned_same. Qed.

(** The connection was only listened to. *)
Lemma passed_heard (s : sol dev) d' x : heard d' (s_dev s) x 0 -> passed (after s d' x) s [] (escape_pending s) (last_was_cr s).
Proof using.
  intros [? ? ? ?]. split; cbn; auto; [by rewrite app_nil_r |]. exists x, x. by split_and!.
Qed.

Lemma passed_tick (s' s0 s : sol dev) ks p c f g : passed s' s ks p c -> (s0 = s' <| start_keepalive := f |> <| s_tick := g |>) -> passed s0 s ks p c.
Proof using. intros [] ->. by split. Qed.

(** The keepalive at the head of a round. *)
Lemma alive_run kret (s : sol dev) : inv false (s_dev s) -> exists s',
  (if ipmi_oem_active intf "i82571spt" then mret kret
   else if use_sol_for_keepalive s then ipmi_sol_keepalive_using_sol else ipmi_sol_keepalive_using_getdeviceid) s =
  Ok (if ipmi_oem_active intf "i82571spt" then kret else 0, s') /\
  passed s' s [] (escape_pending s) (last_was_cr s) /\ s_typed s' = s_typed s.
Proof using delivers.
  intros Hi. destruct (ipmi_oem_active intf _); [exists s; split; [done |]; split; [by apply passed_same | done] |].
  assert (forall m : M (sol dev) bool, (forall s1 : sol dev, s_dev s1 = s_dev s -> exists d' x, m s1 = Ok (true, after s1 d' x) /\ heard d' (s_dev s) x 0) ->
    exists s', keepalive_with m s = Ok (0, s') /\ passed s' s [] (escape_pending s) (last_was_cr s) /\ s_typed s' = s_typed s) as Hw.
  { intros m Hm. unfold keepalive_with. unfold mbind at 1, M_bind at 1. cbn [get].
    destruct (disable_keepalive s); [exists s; split; [done |]; split; [by apply passed_same | done] |].
    unfold mbind at 1, M_bind at 1. cbn [sol_time]. case_test.
    - set (s1 := s <| s_tick := S (s_tick s) |>). destruct (Hm s1 eq_refl) as (d' & x & E & Hq). rewrite (M_bind_run _ _ _ _ _ E).
      eexists. split; [reflexivity |]. split; [| done]. eapply (passed_tick (after s d' x)); [by apply passed_heard | reflexivity].
    - eexists. split; [reflexivity |]. split; [| done]. apply (passed_tick s _ s _ _ _ (start_keepalive s) (S (s_tick s))); [by apply passed_same |]. by destruct s. }
  destruct (use_sol_for_keepalive s); apply Hw; intros s1 Es.
  - destruct (send_nothing_run zero_sol_out s1) as (r & out & d' & x & E & Hq); [by rewrite Es | done | done |]. exists d', x. rewrite <- Es. split; [| done].
    by rewrite (M_bind_run _ _ _ _ _ E).
  - destruct (sd_keepalive (s_dev s1)) as (handed & d' & E & Hq); [by rewrite Es |]. exists d', (concat handed). rewrite <- Es. split; [| done].
    unfold put_out, on_dev, modify, mbind, M_bind. by rewrite E.
Qed.

(** Rounds in which something arrives, or nothing. *)
Definition regular (ev : select_event) : bool := match ev with SelTimeout | SelBmc | SelStdin (S _) => true | _ => false end.

(** After the loop: what was read of the typed characters, and why it ended. *)
Definition looped (s : sol dev) (r : res (option (Z + Z * bool) * sol dev)) : Prop := exists read s' end_,
  r = Ok (end_, s') /\ s_typed s = read ++ s_typed s' /\
  let '(ks, (p, c)) := feed escape (escape_pending s) (last_was_cr s) read in passed s' s ks p c /\
  match end_ with
  | None => quits ks = false
  | Some e => e = inr (0, false) /\ (quits ks = true \/ s_typed s' = [])
  end.

Lemma looped_step (s1 s : sol dev) chunk ks p c r : s_typed s = chunk ++ s_typed s1 -> feed escape (escape_pending s) (last_was_cr s) chunk = (ks, (p, c)) ->
  passed s1 s ks p c -> quits ks = false -> looped s1 r -> looped s r.
Proof.
  intros Ht Ef Hp Hq (read & s2 & e & -> & Ht2 & Hp2). exists (chunk ++ read), s2, e. split; [done |]. split; [by rewrite Ht, Ht2, app_assoc |].
  pose proof Hp as [_ _ _ _ Pp Pc _ _]. rewrite Pp, Pc in Hp2. rewrite feed_app, Ef. destruct (feed escape p c read) as [ks2 [p2 c2]]. destruct Hp2 as [Hp2 He].
  split; [by eapply passed_trans |]. assert (quits (ks ++ ks2) = quits ks2) as ->; [| done].
  unfold quits in *. repeat case_bool_decide; set_solver.
Qed.

Lemma loop_run events : Forall (fun ev => regular ev = true) events -> (limit <= Z.to_nat (retry (ssn_params intf)))%nat ->
  forall bs retry_ (s : sol dev), 0 < bs < 1024 -> inv false (s_dev s) ->
  looped s (red_pill_loop intf escape terminal events bs 0 retry_ s).
Proof using delivers.
  intros Hevs Hlim. induction Hevs as [|ev events Hev _ IH]; intros bs retry_ s Hbs Hi; cbn [red_pill_loop]; unfold mbind at 1, M_bind at 1; cbn [get];
    destruct (alive_run 0 s Hi) as (s1 & E & Hp & Ht); rewrite (M_bind_run _ _ _ _ _ E); clear E;
    replace (if ipmi_oem_active intf "i82571spt" then 0 else 0) with 0 by (by destruct (ipmi_oem_active _ _)); cbn [Z.eqb negb];
    rewrite andb_false_r; cbn [andb].
  { exists [], s1, None. cbn. by rewrite Ht. }
  set (rt := if ipmi_oem_active _ _ then _ else _). pose proof Hp as [Hi1 _ _ _ Hp1 Hc1 _ _].
  apply (looped_step s1 s [] [] (escape_pending s) (last_was_cr s)); [by rewrite Ht | done | done | done |]. clear Hp.
  destruct ev as [| |[|n]| |]; try done.
  - by apply IH.
  - set (chunk := take (Nat.min (S n) (Z.to_nat bs)) (s_typed s)).
    unfold mbind at 1, M_bind at 1. cbn [modify]. set (s2 := s1 <| s_typed := _ |>).
    assert (s_typed s1 = chunk ++ s_typed s2) as Hty by (cbn; rewrite Ht; symmetry; apply take_drop).
    case_bool_decide as Hch.
    { exists [], s2, (Some (inr (0, false))). split; [done |]. split; [by rewrite Hty, Hch |]. cbn [feed]. split; [| split; [done |]].
      - destruct (passed_same s1 Hi1). by split.
      - right. unfold chunk in Hch. apply take_nil_inv in Hch as [Hm|Hm]; [lia |]. cbn. rewrite Ht, Hm. apply drop_nil. }
    assert (zlen chunk < 1024) as Hcl by (unfold chunk; rewrite zlen_take; lia).
    pose proof (process_run chunk s2 Hi1 Hlim Hcl) as H.
    destruct (feed escape (escape_pending s2) (last_was_cr s2) chunk) as [ks [p c]] eqn:Ef. destruct H as (s3 & E3 & Hp3 & Ht3).
    rewrite (M_bind_run _ _ _ _ _ E3).
    assert (passed s3 s1 ks p c) as Hp31 by (destruct Hp3; by split).
    destruct (quits ks) eqn:Eq; cbn [Z.eqb].
    + exists chunk, s3, (Some (inr (0, false))). split; [done |]. split; [by rewrite Ht3 |].
      change (escape_pending s1) with (escape_pending s2). change (last_was_cr s1) with (last_was_cr s2). rewrite Ef. by split_and!; [| | left].
    + apply (looped_step s3 s1 chunk ks p c); [by rewrite Ht3 | exact Ef | done | done |]. apply IH; [done | apply Hp3].
  - destruct (sd_recv (s_dev s1) Hi1) as (r & d' & E & Hq).
    assert (on_dev recv_sol s1 = Ok (Some r, s1 <| s_dev := d' |>)) as E' by (unfold on_dev; by rewrite E).
    rewrite (M_bind_run _ _ _ _ _ E'). set (s2 := s1 <| s_dev := d' |>).
    assert (output (Some r) s2 = Ok (tt, after s1 d' (arrived r))) as E2.
    { unfold output, arrived, after. destruct (is_sol_packet (Some r)); [done |]. rewrite app_nil_r. by destruct s1. }
    rewrite (M_bind_run _ _ _ _ _ E2). pose proof (passed_heard _ _ _ Hq) as Hp3.
    apply (looped_step (after s1 d' (arrived r)) s1 [] [] (escape_pending s1) (last_was_cr s1)); [done | done | done | done |].
    apply IH; [done | apply Hp3].
Qed.

Lemma deactivate_run instance (s : sol dev) : inv false (s_dev s) -> exists rc d', ipmi_sol_deactivate instance s = Ok (rc, s <| s_dev := d' |>) /\
  heard d' (s_dev s) [] 0.
Proof using delivers.
  intros Hi. unfold ipmi_sol_deactivate.
  case_test; [exists (-1), (s_dev s); split; [by destruct s |]; split; [done | done | by rewrite app_nil_r | lia] |].
  set (req := mk_rq _ _ _ _ _). pose proof (sd_command req (s_dev s) Hi) as Hq. destruct (bmc_answer req (s_dev s)) as [r d'] eqn:E.
  exists (match r with Some r => if ccode r =? 0 then 0 else -1 | None => -1 end), d'. split; [| done].
  unfold sendrecv, mbind, M_bind. unfold bmc_answer at 1, sol_bmc. by rewrite E.
Qed.

End Delivers.

(** ** An example *)

(** A connection that loses the first try of every packet, acknowledges only
    parts of some, and says "ok" with every acknowledgement and whenever it is
    read: what it has accepted and delivered, its breaks, the losses to come and
    the characters of the parts, and whether the rest of a packet is awaited. *)
Record toy_line := mk_toy
  { t_accepted : list Z; t_delivered : list Z; t_broken : nat; t_losses : nat; t_parts : list Z; t_rest : bool }.

Definition toy_rsp : ipmi_rs :=
  (reply 0 (text "ok")) <| rs_authtype := IPMI_SESSION_AUTHTYPE_RMCP_PLUS |> <| payloadtype := IPMI_PAYLOAD_TYPE_SOL |>.
Definition toy_ack (q k : Z) : ipmi_rs :=
  toy_rsp <| rs_payload := put_sol_packet 1 q k 0 0 0 0 0 (zeros PAYLOAD_UNION_SIZE) |>.

(** How many of [n] characters are accepted next. *)
Definition toy_part (parts : list Z) (n : Z) : Z :=
  match parts with k :: _ => if (0 <=? k) && (k <? n) then k else n | [] => n end.

#[local] Instance toy_bmc : Bmc toy_line := fun _ t => (Some (reply 0 []), t).
#[local] Instance toy_sol : SolLine toy_line := {|
  line_exchange out t :=
    let '(mk_toy a d b l ps rest) := t in
    let n := character_count out in
    if generate_break out then Ok ((None, []), mk_toy a d (S b) l ps rest)
    else if n =? 0 then Ok ((Some (toy_ack 0 0), [text "ok"]), mk_toy a (d ++ text "ok") b l ps rest)
    else match l, rest with
    | S l, false => Ok ((None, []), mk_toy a d b l ps rest)
    | _, _ => let k := toy_part ps n in
        Ok ((Some (toy_ack (so_packet_sequence_number out) k), []),
            mk_toy (a ++ slice (so_data out) 0 k) (d ++ text "ok") b 1 (tail ps) (k <? n))
    end;
  line_number out t := Ok (out <| so_packet_sequence_number := 5 |>, t);
  line_intelplus t := false;
  line_rounds t := length (t_parts t);
  recv_sol t := Ok (Some toy_rsp, mk_toy (t_accepted t) (t_delivered t ++ text "ok") (t_broken t) (t_losses t) (t_parts t) (t_rest t));
  keepalive t := Ok ((0, []), t);
|}.

Definition toy_inv (b : bool) (t : toy_line) : Prop := t_rest t = b /\ (t_losses t < 2)%nat.

Lemma toy_part_le ps n : 0 <= n -> 0 <= toy_part ps n <= n.
Proof. intros. unfold toy_part. destruct ps as [|k ps]; [lia |]. case_test; lia. Qed.

Lemma toy_reports t out k : 0 <= k <= character_count out -> reports t out (toy_ack (so_packet_sequence_number out) k) k.
Proof.
  intros Hk. split; [done |]. split; [| done]. unfold is_sol_partial_ack, sol_response_acks_packet.
  change (sol_acked (sol_fields (toy_ack (so_packet_sequence_number out) k))) with (so_packet_sequence_number out).
  change (sol_accepted (sol_fields (toy_ack (so_packet_sequence_number out) k))) with k.
  rewrite Z.eqb_refl. change (is_sol_packet _) with true. cbn [andb line_intelplus toy_sol]. case_test; lia.
Qed.

#[local] Instance toy_delivers : SolDelivers toy_inv t_accepted t_delivered t_broken t_losses 2.
Proof.
  split.
  - by intros t [].
  - intros b out t Hi. exists 5, t. by split_and!.
  - intros b out [a d br l ps rest] [Hr Hl] Hc Hb. cbn in Hr, Hl. subst rest. cbn [line_exchange toy_sol]. rewrite Hb.
    rewrite (proj2 (Z.eqb_neq _ 0)) by lia. pose proof (toy_part_le ps (character_count out) ltac:(lia)) as Hk.
    destruct l as [|l]; [| destruct b].
    3: { eexists _, _, _. split; [reflexivity |]. cbn. rewrite app_nil_r. split_and!; try done; [unfold toy_inv; cbn; lia | lia]. }
    all: eexists _, _, _; split; [reflexivity |]; split; [done |]; exists (toy_part ps (character_count out));
      (split; [by apply toy_reports |]); (split; [done |]); (split; [split; cbn; [done | lia] |]); split;
      [intros _ Hp; unfold toy_part in Hp; cbn; destruct ps; cbn; lia | cbn; by destruct (_ <? _)].
  - intros out [a d br l ps rest] Hi Hc Hb. eexists _, _, _. cbn [line_exchange toy_sol]. rewrite Hb. split; [reflexivity |].
    split; [split; cbn; rewrite ?app_nil_r; try done; lia | done].
  - intros out [a d br l ps rest] Hi Hc Hb. eexists _, _, _. cbn [line_exchange toy_sol]. rewrite Hb, Hc. split; [reflexivity |].
    split; [split; cbn; try done; lia | done].
  - intros t Hi. eexists _, _. split; [reflexivity |]. split; cbn; rewrite ?app_nil_r; try done; lia.
  - intros t Hi. eexists _, _. split; [reflexivity |]. split; cbn; try done; lia.
  - intros req t Hi. split; cbn; rewrite ?app_nil_r; try done; lia.
Defined.

#[local] Instance toy_clock : Clock := fun n => 20 * Z.of_nat n.

(** "ls", a break, the escape character itself and the end, in three pieces;
    of the first packet only one character is accepted at first. *)
Definition toy_console : sol toy_line :=
  (init_sol (mk_toy [] [] 0 1 [1] false) (text "ls" ++ [0x0d] ++ text "~B~~x" ++ [0x0d] ++ text "~.")) <| s_inbound := 100 |>.
Definition toy_events : list select_event := [SelStdin 4; SelBmc; SelTimeout; SelStdin 3; SelBmc; SelStdin 50].


Example sol_session_runs : match ipmi_sol_red_pill witness_lan 0x7e true toy_events 1 toy_console with
  | Ok (r, s') => (r, s_typed s', t_accepted (s_dev s'), t_broken (s_dev s'), s_out s', in_raw_mode s')
  | Bad _ => (Waiting, [], [], 0%nat, [], true) end =
  (Returns 0, [], text "ls" ++ [0x0d] ++ text "~x" ++ [0x0d], 1%nat, text "okokokokok", false).
Proof. vm_compute. reflexivity. Qed.

(** The rest of a packet that was accepted in part is lost: the next try sends
    as many characters as the whole packet has, although the payload was shifted. *)
Definition toy_break_off : SolLine toy_line := {|
  line_exchange out t := match t_parts t with
    | [] => Ok ((None, []), mk_toy (t_accepted t) (t_delivered t) (t_broken t) O [9] false)
    | _ => line_exchange out t
    end;
  line_number := line_number; line_intelplus := line_intelplus; line_rounds := line_rounds;
  recv_sol := recv_sol; keepalive := keepalive;
|}.
Example sol_rest_lost :
  match processSolUserInput (line := toy_break_off) witness_lan 0x7e true (text "abc") (init_sol (mk_toy [] [] 0 0 [1] false) []) with
  | Ok (rc, s') => rc = 0 /\ t_accepted (s_dev s') = text "abcc" | Bad _ => False end.
Proof. vm_compute. done. Qed.

(** An error of [select] leaves the terminal in raw mode. *)
Example sol_select_error : match ipmi_sol_red_pill witness_lan 0x7e true [SelError] 1 toy_console with
  | Ok (r, s') => r = Returns (-1) /\ in_raw_mode s' = true | Bad _ => False end.
Proof. vm_compute. done. Qed.

(** A piece of 1024 characters behind a pending escape overruns the payload. *)
Example sol_payload_overrun :
  processSolUserInput witness_lan 0x7e true (replicate 1024 65) ((init_sol (mk_toy [] [] 0 0 [] false) []) <| escape_pending := true |>) = Bad OutOfBounds.
Proof. vm_compute. reflexivity. Qed.
