(* ===== verification/Firewall.v ===== *)
(** * Firmware firewall (lib/ipmi_firewall.c, include/ipmitool/ipmi_firewall.h)

    The bit fields of the commands that a controller supports, lets one
    configure and has enabled, read for one or all pairs of LUN and network
    function, and changed.  The structure that holds them comes from [malloc]
    and is never cleared: a part that was not written is [None], and its use is
    the fault [Uninitialised]. *)

From stdpp Require Import strings.
From S2P Require Import Prelude Wire Ipmi Intf Session Helper Bmc.

#[local] Open Scope Z_scope.

Definition BMC_GET_NETFN_SUPPORT : Z := 0x09.
Definition BMC_GET_COMMAND_SUPPORT : Z := 0x0A.
Definition BMC_GET_COMMAND_SUBFUNCTION_SUPPORT : Z := 0x0B.
Definition BMC_GET_CONFIGURABLE_COMMANDS : Z := 0x0C.
Definition BMC_GET_CONFIGURABLE_COMMAND_SUBFUNCTIONS : Z := 0x0D.
Definition BMC_SET_COMMAND_ENABLES : Z := 0x60.
Definition BMC_GET_COMMAND_ENABLES : Z := 0x61.
Definition BMC_SET_COMMAND_SUBFUNCTION_ENABLES : Z := 0x62.
Definition BMC_GET_COMMAND_SUBFUNCTION_ENABLES : Z := 0x63.

Definition SET_COMMAND_ENABLE_BYTE : Z := BMC_SET_COMMAND_ENABLES / 8.
Definition SET_COMMAND_ENABLE_BIT : Z := BMC_SET_COMMAND_ENABLES mod 8.

Definition MAX_LUN : Z := 4.
Definition MAX_NETFN : Z := 64.
Definition MAX_NETFN_PAIR : Z := MAX_NETFN / 2.
Definition MAX_COMMAND : Z := 256.
Definition MAX_SUBFN : Z := 32.
Definition MAX_COMMAND_BYTES : Z := MAX_COMMAND .>> 3.
Definition MAX_SUBFN_BYTES : Z := MAX_SUBFN .>> 3.
Definition BIT_AVAILABLE : Z := 0x01.
Definition BIT_CONFIGURABLE : Z := 0x02.
Definition BIT_ENABLED : Z := 0x04.

(** ** Data *)

(** A 32-byte field of [struct lun_netfn_support], written in two halves. *)
Definition mask : Type := option (list Z) * option (list Z).
Definition whole (m : mask) : option (list Z) := match m with (Some a, Some b) => Some (a ++ b) | _ => None end.

(** [struct command_support] *)
Record command_support := mk_command {
  cs_support : option Z;
  subfn_support : option (list Z);
  subfn_config : option (list Z);
  subfn_enable : option (list Z);
}.

(** [struct lun_netfn_support] *)
Record lun_netfn_support := mk_pair {
  nf_support : option Z;
  nf_command : Z -> command_support;
  command_mask : mask;
  config_mask : mask;
  enable_mask : mask;
}.

(** [struct bmc_fn_support]: the support field of each LUN, and the pairs. *)
Record bmc_fn_support := mk_support { ls_support : Z -> option Z; ls_netfn : Z -> Z -> lun_netfn_support }.

(** [struct ipmi_function_params] *)
Record ipmi_function_params := mk_params {
  fp_channel : Z; fp_lun : Z; fp_netfn : Z; fp_command : Z; fp_subfn : Z; fp_force : Z;
}.

#[export] Instance command_support_rebuild : Rebuild command_support := fun c =>
  mk_command (cs_support c) (subfn_support c) (subfn_config c) (subfn_enable c).
#[export] Instance subfn_support_update : Update subfn_support := ltac:(solve_update).
#[export] Instance subfn_config_update : Update subfn_config := ltac:(solve_update).
#[export] Instance subfn_enable_update : Update subfn_enable := ltac:(solve_update).
#[export] Instance lun_netfn_support_rebuild : Rebuild lun_netfn_support := fun p =>
  mk_pair (nf_support p) (nf_command p) (command_mask p) (config_mask p) (enable_mask p).
#[export] Instance nf_support_update : Update nf_support := ltac:(solve_update).
#[export] Instance nf_command_update : Update nf_command := ltac:(solve_update).
#[export] Instance command_mask_update : Update command_mask := ltac:(solve_update).
#[export] Instance config_mask_update : Update config_mask := ltac:(solve_update).
#[export] Instance enable_mask_update : Update enable_mask := ltac:(solve_update).
#[export] Instance params_rebuild : Rebuild ipmi_function_params := fun p =>
  mk_params (fp_channel p) (fp_lun p) (fp_netfn p) (fp_command p) (fp_subfn p) (fp_force p).
#[export] Instance fp_channel_update : Update fp_channel := ltac:(solve_update).
#[export] Instance fp_lun_update : Update fp_lun := ltac:(solve_update).
#[export] Instance fp_netfn_update : Update fp_netfn := ltac:(solve_update).
#[export] Instance fp_command_update : Update fp_command := ltac:(solve_update).
#[export] Instance fp_subfn_update : Update fp_subfn := ltac:(solve_update).
#[export] Instance fp_force_update : Update fp_force := ltac:(solve_update).

(** What [malloc] returns. *)
Definition raw_command : command_support := mk_command None None None None.
Definition raw_pair : lun_netfn_support := mk_pair None (fun _ => raw_command) (None, None) (None, None) (None, None).
Definition raw_support : bmc_fn_support := mk_support (fun _ => None) (fun _ _ => raw_pair).
Definition sizeof_bmc_fn_support : Z := 536708.

Definition set_ls_support (l v : Z) (b : bmc_fn_support) : bmc_fn_support :=
  mk_support (fun i => if i =? l then Some v else ls_support b i) (ls_netfn b).
Definition set_pair (l n : Z) (p : lun_netfn_support) (b : bmc_fn_support) : bmc_fn_support :=
  mk_support (ls_support b) (fun i j => if (i =? l) && (j =? n) then p else ls_netfn b i j).
Definition set_command (c : Z) (cs : command_support) (p : lun_netfn_support) : lun_netfn_support :=
  p <| nf_command := fun i => if i =? c then cs else nf_command p i |>.

(** [bit_test], [bit_set] *)
Definition bit_test (bf : list Z) (n : Z) : bool := negb (rd bf (n .>> 3) .& (1 .<< (n mod 8)) =? 0).
Definition bit_set (bf : list Z) (n : Z) (v : bool) : res (list Z) :=
  x ← rdx bf (n .>> 3);
  or_oob (wr bf (n .>> 3) [(x .& u8 (Z.lnot (1 .<< (n mod 8)))) .| ((if v then 1 else 0) .<< (n mod 8))]).

(** ** The command line *)

(** The loop of [ipmi_firewall_parse_args]; the keyword that ends the list is
    skipped and its successor, a null pointer, is compared with the keywords
    that follow, of which "subfn" is the last. *)
Fixpoint firewall_words (argv : list (list Z)) (p : ipmi_function_params) : res (option ipmi_function_params) :=
  let number (arg : list Z) (set : Z -> ipmi_function_params) (rest : list (list Z)) : res (option ipmi_function_params) :=
    match str2int (Some arg) with (rc, v) => if rc =? 0 then firewall_words rest (set (default 0 v)) else Ok None end in
  match argv with
  | [] => Ok (Some p)
  | w :: rest =>
      if bool_decide (w = text "channel") then
        match rest with
        | [] => Bad OutOfBounds
        | arg :: rest =>
            match is_ipmi_channel_num (Some arg) with
            | (rc, v) => if rc =? 0 then firewall_words rest (p <| fp_channel := default 0 v |>) else Ok None
            end
        end
      else if bool_decide (w = text "lun") then
        match rest with [] => Bad OutOfBounds | arg :: rest => number arg (fun v => p <| fp_lun := v |>) rest end
      else if bool_decide (w = text "force") then firewall_words rest (p <| fp_force := 1 |>)
      else if bool_decide (w = text "netfn") then
        match rest with [] => Bad OutOfBounds | arg :: rest => number arg (fun v => p <| fp_netfn := v |>) rest end
      else if bool_decide (w = text "command") then
        match rest with [] => Bad OutOfBounds | arg :: rest => number arg (fun v => p <| fp_command := v |>) rest end
      else if bool_decide (w = text "subfn") then
        match rest with [] => Ok (Some p) | arg :: rest => number arg (fun v => p <| fp_subfn := v |>) rest end
      else firewall_words rest p
  end.

(** [ipmi_firewall_parse_args]: [None] for -1. *)
Definition ipmi_firewall_parse_args (argv : list (list Z)) (p : ipmi_function_params) : res (option ipmi_function_params) :=
  r ← firewall_words argv p;
  match r with
  | None => Ok None
  | Some p =>
      if (MAX_SUBFN <=? fp_subfn p) || (MAX_COMMAND <=? fp_command p) || (MAX_NETFN <=? fp_netfn p) || (MAX_LUN <=? fp_lun p) ||
         ((0 <=? fp_netfn p) && (fp_lun p <? 0)) || ((0 <=? fp_command p) && (fp_netfn p <? 0)) ||
         ((0 <=? fp_subfn p) && (fp_command p <? 0))
      then Ok None else Ok (Some p)
  end.

Section Firewall.
Context {dev : Type} {bmc : Bmc dev} {mal : Malloc}.

(** ** Commands *)

(** A request that is answered with a completion code of zero. *)
Definition fw_cmd (cmd : Z) (data : list Z) : M dev (option ipmi_rs) :=
  rsp ← sendrecv (mk_rq IPMI_NETFN_APP 0 cmd 0 data);
  mret (match rsp with Some r => if ccode r =? 0 then Some r else None | None => None end).

(** [_get_netfn_support]: the fields of the LUNs and the bits of the pairs. *)
Definition _get_netfn_support (channel : Z) : M dev (option (list Z * list Z)) :=
  rsp ← fw_cmd BMC_GET_NETFN_SUPPORT [u8 channel];
  match rsp with
  | None => mret None
  | Some r =>
      d ← lift (rsp_bytes r 0 17);
      mret (Some (map (fun l => (rd d 0 .>> (2 * l)) .& 0x3) (seqZ 0 4), slice d 1 16))
  end.

(** The bits of half of the commands, from [base], in the support fields. *)
Definition mark (bit : Z) (set : bool) (base : Z) (d : list Z) (p : lun_netfn_support) : lun_netfn_support :=
  p <| nf_command := fun c =>
    let cs := nf_command p c in
    if (base <=? c) && (c <? base + 128) && Bool.eqb (bit_test d (c - base)) set
    then mk_command (Z.lor bit <$> cs_support cs) (subfn_support cs) (subfn_config cs) (subfn_enable cs) else cs |>.

(** The two requests of [_get_command_support], [_get_command_configurable]
    and [_get_command_enables]: the field, the bit, and which value of a bit in
    the answer marks a command. *)
Definition get_halves (cmd bit : Z) (set : bool) (store : mask -> lun_netfn_support -> lun_netfn_support)
    (p : ipmi_function_params) (lnfn : lun_netfn_support) (old : mask) : M dev (Z * lun_netfn_support) :=
  rsp ← fw_cmd cmd [u8 (fp_channel p); u8 (fp_netfn p); u8 (fp_lun p)];
  match rsp with
  | None => mret (-1, lnfn)
  | Some r =>
      d ← lift (rsp_bytes r 0 16);
      let lnfn := store (Some d, old.2) (mark bit set 0 d lnfn) in
      rsp ← fw_cmd cmd [u8 (fp_channel p); u8 (0x40 .| fp_netfn p); u8 (fp_lun p)];
      match rsp with
      | None => mret (-1, lnfn)
      | Some r => d' ← lift (rsp_bytes r 0 16); mret (0, store (Some d, Some d') (mark bit set 128 d' lnfn))
      end
  end.

Definition _get_command_support (p : ipmi_function_params) (lnfn : lun_netfn_support) : M dev (Z * lun_netfn_support) :=
  get_halves BMC_GET_COMMAND_SUPPORT BIT_AVAILABLE false (fun m l => l <| command_mask := m |>) p lnfn (command_mask lnfn).
Definition _get_command_configurable (p : ipmi_function_params) (lnfn : lun_netfn_support) : M dev (Z * lun_netfn_support) :=
  get_halves BMC_GET_CONFIGURABLE_COMMANDS BIT_CONFIGURABLE true (fun m l => l <| config_mask := m |>) p lnfn (config_mask lnfn).
Definition _get_command_enables (p : ipmi_function_params) (lnfn : lun_netfn_support) : M dev (Z * lun_netfn_support) :=
  get_halves BMC_GET_COMMAND_ENABLES BIT_ENABLED true (fun m l => l <| enable_mask := m |>) p lnfn (enable_mask lnfn).

(** [config & want | ~config & current] for every byte. *)
Fixpoint merge_bits (config want current : list Z) : list Z :=
  match config, want, current with
  | k :: config, w :: want, e :: current => ((k .& w) .| (u8 (Z.lnot k) .& e)) :: merge_bits config want current
  | _, _, _ => []
  end.

(** The byte of Set Command Enables when [gun] is not set. *)
Definition take_gun (config current enable : list Z) : res (list Z) :=
  k ← rdx config SET_COMMAND_ENABLE_BYTE; e ← rdx current SET_COMMAND_ENABLE_BYTE;
  or_oob (wr enable SET_COMMAND_ENABLE_BYTE [(k .& SET_COMMAND_ENABLE_BIT) .| (u8 (Z.lnot k) .& e)]).

(** [_set_command_enables] *)
Definition _set_command_enables (p : ipmi_function_params) (lnfn : lun_netfn_support) (enable : list Z) (gun : Z) : M dev Z :=
  _ ← assigned (whole (command_mask lnfn));
  config ← assigned (whole (config_mask lnfn));
  current ← assigned (whole (enable_mask lnfn));
  let enable := merge_bits config enable current in
  enable ← lift (if gun =? 0 then take_gun config current enable else Ok enable);
  rsp ← fw_cmd BMC_SET_COMMAND_ENABLES ([u8 (fp_channel p); u8 (fp_netfn p); u8 (fp_lun p)] ++ slice enable 0 16);
  match rsp with
  | None => mret (-1)
  | Some _ =>
      rsp ← fw_cmd BMC_SET_COMMAND_ENABLES ([u8 (fp_channel p); u8 (0x40 .| fp_netfn p); u8 (fp_lun p)] ++ slice enable 16 16);
      mret (match rsp with Some _ => 0 | None => -1 end)
  end.

Definition subfn_rq (p : ipmi_function_params) : list Z :=
  [u8 (fp_channel p); u8 (fp_netfn p); u8 (fp_lun p); u8 (fp_command p)].

(** [_get_subfn_support], [_get_subfn_configurable], [_get_subfn_enables] *)
Definition get_subfn (cmd : Z) (store : list Z -> command_support -> command_support) (p : ipmi_function_params)
    (cs : command_support) : M dev (Z * command_support) :=
  rsp ← fw_cmd cmd (subfn_rq p);
  match rsp with
  | None => mret (-1, cs)
  | Some r => d ← lift (rsp_bytes r 0 MAX_SUBFN_BYTES); mret (0, store d cs)
  end.
Definition _get_subfn_support := get_subfn BMC_GET_COMMAND_SUBFUNCTION_SUPPORT (fun d c => c <| subfn_support := Some d |>).
Definition _get_subfn_configurable := get_subfn BMC_GET_CONFIGURABLE_COMMAND_SUBFUNCTIONS (fun d c => c <| subfn_config := Some d |>).
Definition _get_subfn_enables := get_subfn BMC_GET_COMMAND_SUBFUNCTION_ENABLES (fun d c => c <| subfn_enable := Some d |>).

(** [_set_subfn_enables] *)
Definition _set_subfn_enables (p : ipmi_function_params) (cmd : command_support) (enable : list Z) : M dev Z :=
  _ ← assigned (subfn_support cmd);
  config ← assigned (subfn_config cmd);
  current ← assigned (subfn_enable cmd);
  rsp ← fw_cmd BMC_SET_COMMAND_SUBFUNCTION_ENABLES (subfn_rq p ++ merge_bits config enable current);
  mret (match rsp with Some _ => 0 | None => -1 end).

(** ** Collecting *)

(** The fields of a LUN, when it is asked for. *)
Fixpoint store_luns (p : ipmi_function_params) (ls : list Z) (lun netfn : list Z) (b : bmc_fn_support) : bmc_fn_support :=
  match ls with
  | [] => b
  | l :: ls =>
      if (0 <=? fp_lun p) && negb (fp_lun p =? l) then store_luns p ls lun netfn b else
      let b := set_ls_support l (rd lun l) b in
      let b :=
        if rd lun l =? 0 then b else
        foldl (fun b n => set_pair l n ((ls_netfn b l n) <| nf_support := Some (if bit_test netfn (l * MAX_NETFN_PAIR + n) then 1 else 0) |>) b)
          b (seqZ 0 MAX_NETFN_PAIR) in
      store_luns p ls lun netfn b
  end.

(** The three queries of a pair; [ret |= ...] of codes that are 0 or -1. *)
Definition get_pair (p : ipmi_function_params) (lnfn : lun_netfn_support) : M dev (Z * lun_netfn_support) :=
  '(r1, lnfn) ← _get_command_support p lnfn;
  '(r2, lnfn) ← _get_command_configurable p lnfn;
  '(r3, lnfn) ← _get_command_enables p lnfn;
  mret (Z.lor (Z.lor r1 r2) r3, lnfn).

Definition get_command (p : ipmi_function_params) (cs : command_support) : M dev (Z * command_support) :=
  '(r1, cs) ← _get_subfn_support p cs;
  '(r2, cs) ← _get_subfn_configurable p cs;
  '(r3, cs) ← _get_subfn_enables p cs;
  mret (Z.lor (Z.lor r1 r2) r3, cs).

(** The pairs of a LUN; [ret] keeps the code of the last pair that was asked. *)
Fixpoint gather_lun (p : ipmi_function_params) (l : Z) (ns : list Z) (ret : Z) (b : bmc_fn_support) : M dev (Z * bmc_fn_support) :=
  match ns with
  | [] => mret (ret, b)
  | n :: ns =>
      sup ← assigned (nf_support (ls_netfn b l n));
      '(ret, lnfn) ← (if sup =? 0 then mret (ret, ls_netfn b l n) else get_pair (p <| fp_lun := l |> <| fp_netfn := n * 2 |>) (ls_netfn b l n));
      let lnfn := if ret =? 0 then lnfn else lnfn <| nf_support := Some 0 |> in
      gather_lun p l ns ret (set_pair l n lnfn b)
  end.

Fixpoint gather_luns (p : ipmi_function_params) (ls : list Z) (ret : Z) (b : bmc_fn_support) : M dev (Z * bmc_fn_support) :=
  match ls with
  | [] => mret (ret, b)
  | l :: ls =>
      sup ← assigned (ls_support b l);
      '(ret, b) ← (if sup =? 0 then mret (ret, b) else gather_lun p l (seqZ 0 MAX_NETFN_PAIR) ret b);
      gather_luns p ls ret b
  end.

(** [_gather_info]; its code is always 0.  The loops leave [p] as it was, but
    for the negative values of what is not set. *)
Definition _gather_info (p : ipmi_function_params) (b : bmc_fn_support) : M dev bmc_fn_support :=
  r ← _get_netfn_support (fp_channel p);
  let '(ret, b) := match r with
    | Some (lun, netfn) => (0, store_luns p (seqZ 0 MAX_LUN) lun netfn b)
    | None => (-1, b)
    end in
  if 0 <=? fp_netfn p then
    let l := fp_lun p in let n := fp_netfn p .>> 1 in
    lun ← assigned (ls_support b l);
    netfn ← (if lun =? 0 then mret 0 else assigned (nf_support (ls_netfn b l n)));
    if (lun =? 0) || (netfn =? 0) then mret b else
    '(ret, lnfn) ← get_pair p (ls_netfn b l n);
    if (ret =? 0) && (0 <=? fp_command p) then
      '(_, cs) ← get_command p (nf_command lnfn (fp_command p));
      mret (set_pair l n (set_command (fp_command p) cs lnfn) b)
    else mret (set_pair l n lnfn b)
  else if 0 <=? fp_lun p then
    sup ← assigned (ls_support b (fp_lun p));
    if sup =? 0 then mret b else
    '(_, b) ← gather_lun p (fp_lun p) (seqZ 0 MAX_NETFN_PAIR) ret b; mret b
  else '(_, b) ← gather_luns p (seqZ 0 MAX_LUN) ret b; mret b.

(** ** The commands of the user *)

Definition default_params : ipmi_function_params := mk_params 0xe (-1) (-1) (-1) (-1) 0.
Definition is_help (argv : list (list Z)) : bool := match argv with w :: _ => bool_decide (w = text "help") | [] => false end.

(** [ipmi_firewall_enable_disable] *)
Definition ipmi_firewall_enable_disable (enable : bool) (argv : list (list Z)) : M dev Z :=
  if bool_decide (argv = []) || is_help argv then mret 0 else
  r ← lift (ipmi_firewall_parse_args argv default_params);
  match r with
  | None => mret (-1)
  | Some p =>
      match malloc sizeof_bmc_fn_support with
      | None => mret (-1)
      | Some _ =>
          b ← _gather_info p raw_support;
          let lnfn := ls_netfn b (fp_lun p) (fp_netfn p .>> 1) in
          let cs := nf_command lnfn (fp_command p) in
          let all n := replicate (Z.to_nat n) (if enable then 0xff else 0) in
          if 0 <=? fp_subfn p then
            enables ← assigned (subfn_enable cs);
            enables ← lift (bit_set enables (fp_subfn p) enable);
            _set_subfn_enables p cs enables
          else if 0 <=? fp_command p then
            ret ← _set_subfn_enables p cs (all MAX_SUBFN_BYTES);
            enables ← assigned (whole (enable_mask lnfn));
            enables ← lift (bit_set enables (fp_command p) enable);
            ret' ← _set_command_enables p lnfn enables (fp_force p);
            mret (Z.lor ret ret')
          else if 0 <=? fp_netfn p then _set_command_enables p lnfn (all MAX_COMMAND_BYTES) (fp_force p)
          else mret 0
      end
  end.

(** The loops of [ipmi_firewall_reset]. *)
Fixpoint reset_commands (p : ipmi_function_params) (lnfn : lun_netfn_support) (cs : list Z) : M dev unit :=
  match cs with
  | [] => mret tt
  | c :: cs =>
      _ ← _set_subfn_enables (p <| fp_command := c |>) (nf_command lnfn c) (replicate (Z.to_nat MAX_SUBFN_BYTES) 0xff);
      reset_commands p lnfn cs
  end.

Fixpoint reset_pairs (p : ipmi_function_params) (b : bmc_fn_support) (pairs : list (Z * Z)) (ret : Z) : M dev Z :=
  match pairs with
  | [] => mret ret
  | (l, n) :: pairs =>
      let p := p <| fp_lun := l |> <| fp_netfn := n * 2 |> in
      _ ← reset_commands p (ls_netfn b l n) (seqZ 0 MAX_COMMAND);
      ret ← _set_command_enables p (ls_netfn b l n) (replicate (Z.to_nat MAX_COMMAND_BYTES) 0xff) 0;
      reset_pairs p b pairs ret
  end.

Definition all_pairs : list (Z * Z) := flat_map (fun l => map (pair l) (seqZ 0 MAX_NETFN_PAIR)) (seqZ 0 MAX_LUN).

(** [ipmi_firewall_reset] *)
Definition ipmi_firewall_reset (argv : list (list Z)) : M dev Z :=
  if bool_decide (argv = []) then mret (-1) else
  if is_help argv then mret 0 else
  r ← lift (ipmi_firewall_parse_args argv default_params);
  match r with
  | None => mret (-1)
  | Some p =>
      match malloc sizeof_bmc_fn_support with
      | None => mret (-1)
      | Some _ => b ← _gather_info p raw_support; reset_pairs p b all_pairs 0
      end
  end.

(** What [ipmi_firewall_info] reads for its output. *)
Definition show_pair (b : bmc_fn_support) (l n : Z) : M dev unit :=
  let lnfn := ls_netfn b l n in
  _ ← assigned (whole (command_mask lnfn)); _ ← assigned (whole (config_mask lnfn)); _ ← assigned (whole (enable_mask lnfn)); mret tt.

Fixpoint show_pairs (b : bmc_fn_support) (pairs : list (Z * Z)) : M dev unit :=
  match pairs with
  | [] => mret tt
  | (l, n) :: pairs =>
      lun ← assigned (ls_support b l);
      sup ← (if lun =? 0 then mret 0 else assigned (nf_support (ls_netfn b l n)));
      _ ← (if sup =? 0 then mret tt else show_pair b l n);
      show_pairs b pairs
  end.

(** [ipmi_firewall_info]; the text is not modelled. *)
Definition ipmi_firewall_info (argv : list (list Z)) : M dev Z :=
  if is_help argv then mret 0 else
  r ← lift (ipmi_firewall_parse_args argv default_params);
  match r with
  | None => mret 0
  | Some p =>
      match malloc sizeof_bmc_fn_support with
      | None => mret (-1)
      | Some _ =>
          b ← _gather_info p raw_support;
          let l := fp_lun p in let n := fp_netfn p .>> 1 in
          let lnfn := ls_netfn b l n in
          let cs := nf_command lnfn (fp_command p) in
          if 0 <=? fp_netfn p then
            lun ← assigned (ls_support b l);
            netfn ← (if lun =? 0 then mret 0 else assigned (nf_support lnfn));
            if (lun =? 0) || (netfn =? 0) then mret 0 else
            if 0 <=? fp_command p then
              sup ← assigned (cs_support cs);
              if sup =? 0 then mret 0 else
              _ ← assigned (subfn_support cs); _ ← assigned (subfn_config cs); _ ← assigned (subfn_enable cs); mret 0
            else _ ← show_pair b l n; mret 0
          else _ ← show_pairs b all_pairs; mret 0
      end
  end.

(** [ipmi_firewall_main] *)
Definition ipmi_firewall_main (argv : list (list Z)) : M dev Z :=
  match argv with
  | [] => mret 0
  | w :: argv =>
      if bool_decide (w = text "help") then mret 0
      else if bool_decide (w = text "info") then ipmi_firewall_info argv
      else if bool_decide (w = text "enable") then ipmi_firewall_enable_disable true argv
      else if bool_decide (w = text "disable") then ipmi_firewall_enable_disable false argv
      else if bool_decide (w = text "reset") then ipmi_firewall_reset argv
      else mret 0
  end.
End Firewall.
