(* ===== verification/FirewallProps.v ===== *)
(** * The firewall commands change the bits that they are asked to change

    A controller is what it answers to the queries and does with the two
    commands that set bits ([FirewallController]); the theorem states the bits
    of all commands and sub-functions after "enable" and "disable". *)

From stdpp Require Import strings.
From S2P Require Import Prelude Wire Ipmi Intf Session Helper CText Bmc Firewall.

#[local] Open Scope Z_scope.

(** ** Bits *)

Lemma bit_test_spec bf n : 0 <= n -> bit_test bf n = Z.testbit (rd bf (n / 8)) (n mod 8).
Proof.
  intros Hn. unfold bit_test. rewrite Z.shiftr_div_pow2 by lia. change (2 ^ 3) with 8. set (x := rd bf (n / 8)).
  pose proof (Z.mod_pos_bound n 8 ltac:(lia)). rewrite Z.shiftl_1_l. destruct (Z.testbit x (n mod 8)) eqn:E.
  - apply negb_true_iff, Z.eqb_neq. intros H0. apply (f_equal (fun z => Z.testbit z (n mod 8))) in H0.
    rewrite Z.land_spec, E, Z.pow2_bits_true, Z.bits_0 in H0 by lia. done.
  - apply negb_false_iff, Z.eqb_eq. apply Z.bits_inj'. intros m Hm. rewrite Z.land_spec, Z.bits_0.
    destruct (Z.eq_dec m (n mod 8)) as [->|]; [by rewrite E |]. rewrite Z.pow2_bits_false by lia. apply andb_false_r.
Qed.

Lemma u8_testbit x i : 0 <= i < 8 -> Z.testbit (u8 x) i = Z.testbit x i.
Proof. intros. rewrite <- land_ff. change 255 with (Z.ones 8). rewrite Z.land_spec, Z.ones_spec_low by lia. apply andb_true_r. Qed.

Lemma merge_byte k w e i : 0 <= i < 8 ->
  Z.testbit ((k .& w) .| (u8 (Z.lnot k) .& e)) i = if Z.testbit k i then Z.testbit w i else Z.testbit e i.
Proof.
  intros. rewrite Z.lor_spec, !Z.land_spec, u8_testbit, Z.lnot_spec by lia. destruct (Z.testbit k i); cbn; [by rewrite orb_false_r | done].
Qed.

Lemma zlen_merge k w e : zlen w = zlen k -> zlen e = zlen k -> zlen (merge_bits k w e) = zlen k.
Proof.
  revert w e. induction k as [|x k IH]; intros [|y w] [|z e] Hw He; try (rewrite ?zlen_cons, ?zlen_nil in *; zlen_lia).
  cbn [merge_bits]. rewrite !zlen_cons in *. rewrite IH; lia.
Qed.

Lemma rd_merge k w e i : zlen w = zlen k -> zlen e = zlen k -> 0 <= i < zlen k ->
  rd (merge_bits k w e) i = (rd k i .& rd w i) .| (u8 (Z.lnot (rd k i)) .& rd e i).
Proof.
  revert w e i. induction k as [|x k IH]; intros [|y w] [|z e] i Hw He Hi; try (rewrite ?zlen_cons, ?zlen_nil in *; zlen_lia).
  rewrite !zlen_cons in *. cbn [merge_bits]. destruct (Z.eq_dec i 0) as [->|]; [done |].
  change (?a :: ?l) with ([a] ++ l). rewrite !rd_app_r by (change (zlen [_]) with 1; lia). change (zlen [_]) with 1. apply IH; lia.
Qed.

Lemma merge_bit k w e n : zlen w = zlen k -> zlen e = zlen k -> 0 <= n < 8 * zlen k ->
  bit_test (merge_bits k w e) n = if bit_test k n then bit_test w n else bit_test e n.
Proof.
  intros Hw He Hn. rewrite !bit_test_spec by lia. rewrite rd_merge by (try done; Z.to_euclidean_division_equations; lia).
  apply merge_byte, Z.mod_pos_bound. lia.
Qed.

Lemma bit_set_run bf n v : 0 <= n < 8 * zlen bf -> exists bf', bit_set bf n v = Ok bf' /\ zlen bf' = zlen bf /\
  forall m, 0 <= m < 8 * zlen bf -> bit_test bf' m = if m =? n then v else bit_test bf m.
Proof.
  intros Hn. unfold bit_set. rewrite Z.shiftr_div_pow2 by lia. change (2 ^ 3) with 8.
  assert (0 <= n / 8 < zlen bf) as Hi by (Z.to_euclidean_division_equations; lia).
  rewrite rdx_ok by done. cbn [mbind res_bind]. set (b := _ .| _).
  destruct (wr_in_bounds bf (n / 8) [b]) as [bf' E]; [lia | change (zlen [b]) with 1; lia |]. rewrite E. exists bf'.
  split; [done |]. destruct (wr_Some _ _ _ _ E) as (_ & _ & Hz & _). split; [done |]. intros m Hm.
  rewrite !bit_test_spec by lia. rewrite (wr_rd _ _ _ _ _ E) by (Z.to_euclidean_division_equations; lia). change (zlen [b]) with 1.
  pose proof (Z.mod_pos_bound n 8 ltac:(lia)). pose proof (Z.mod_pos_bound m 8 ltac:(lia)).
  destruct ((n / 8 <=? m / 8) && (m / 8 <? n / 8 + 1)) eqn:Et.
  - assert (m / 8 = n / 8) as Hq by lia. rewrite Hq, Z.sub_diag. change (rd [b] 0) with b. subst b.
    rewrite Z.lor_spec, Z.land_spec, u8_testbit, Z.lnot_spec, Z.shiftl_1_l by lia.
    destruct (Z.eqb_spec m n) as [->|Hne].
    + rewrite Z.pow2_bits_true by lia. rewrite andb_false_r. cbn [orb]. rewrite Z.shiftl_spec, Z.sub_diag by lia. by destruct v.
    + assert (m mod 8 <> n mod 8) by (intros Heq; apply Hne; rewrite (Z.div_mod m 8), (Z.div_mod n 8) by lia; congruence).
      rewrite Z.pow2_bits_false by lia. rewrite andb_true_r.
      assert (Z.testbit ((if v then 1 else 0) .<< (n mod 8)) (m mod 8) = false) as ->.
      { destruct v; [rewrite Z.shiftl_1_l; apply Z.pow2_bits_false; lia | by rewrite Z.shiftl_0_l, Z.bits_0]. }
      apply orb_false_r.
  - rewrite (proj2 (Z.eqb_neq m n)); [done |]. intros ->. lia.
Qed.

(** The byte of Set Command Enables: what is configurable in it is cleared. *)
Lemma take_gun_run k e m : zlen k = 32 -> zlen e = 32 -> zlen m = 32 -> exists m', take_gun k e m = Ok m' /\ zlen m' = 32 /\
  forall n, 0 <= n < 256 -> bit_test m' n =
    if (0x60 <=? n) && (n <? 0x68) then negb (bit_test k n) && bit_test e n else bit_test m n.
Proof.
  intros Hk He Hm. unfold take_gun. change SET_COMMAND_ENABLE_BYTE with 12. change SET_COMMAND_ENABLE_BIT with 0.
  rewrite !rdx_ok by lia. cbn [mbind res_bind]. set (b := _ .| _).
  destruct (wr_in_bounds m 12 [b]) as [m' E]; [lia | change (zlen [b]) with 1; lia |]. rewrite E. exists m'.
  split; [done |]. destruct (wr_Some _ _ _ _ E) as (_ & _ & Hz & _). split; [lia |]. intros n Hn.
  rewrite !bit_test_spec by lia. rewrite (wr_rd _ _ _ _ _ E) by (Z.to_euclidean_division_equations; lia). change (zlen [b]) with 1.
  replace ((12 <=? n / 8) && (n / 8 <? 12 + 1)) with ((0x60 <=? n) && (n <? 0x68)) by (Z.to_euclidean_division_equations; lia).
  destruct (_ && _) eqn:Et; [| done]. replace (n / 8) with 12 by (Z.to_euclidean_division_equations; lia).
  change (rd [b] (12 - 12)) with b. subst b. rewrite Z.land_0_r, Z.lor_0_l.
  pose proof (Z.mod_pos_bound n 8 ltac:(lia)). by rewrite Z.land_spec, u8_testbit, Z.lnot_spec by lia.
Qed.

Lemma all_bits (v : bool) (n m : Z) : 0 <= m < 8 * n -> bit_test (replicate (Z.to_nat n) (if v then 0xff else 0)) m = v.
Proof.
  intros Hm. rewrite bit_test_spec by lia. unfold rd. rewrite lookup_replicate_2 by (Z.to_euclidean_division_equations; lia). cbn [default].
  pose proof (Z.mod_pos_bound m 8 ltac:(lia)). destruct v; [| apply Z.bits_0]. change 255 with (Z.ones 8). apply Z.ones_spec_low. lia.
Qed.

(** ** A controller with a firewall *)

(** The constant part: the LUNs and pairs that have commands, what is supported
    and what can be configured, by LUN and pair, and by command. *)
Record firewall := mk_firewall {
  w_luns : Z;
  w_pairs : list Z;
  w_support : Z -> Z -> list Z;
  w_config : Z -> Z -> list Z;
  w_sub_support : Z -> Z -> Z -> list Z;
  w_sub_config : Z -> Z -> Z -> list Z;
}.

(** The bits that are enabled. *)
Record enables := mk_enables { en_command : Z -> Z -> list Z; en_sub : Z -> Z -> Z -> list Z }.

Definition firewall_ok (w : firewall) : Prop :=
  zlen (w_pairs w) = 16 /\ (forall l n, zlen (w_support w l n) = 32 /\ zlen (w_config w l n) = 32) /\
  (forall l n c, zlen (w_sub_support w l n c) = 4 /\ zlen (w_sub_config w l n c) = 4).

Definition enables_ok (e : enables) : Prop :=
  (forall l n, zlen (en_command e l n) = 32) /\ (forall l n c, zlen (en_sub e l n c) = 4).

(** The half of a 32-byte field that a query with the network function [n]
    means. *)
Definition half (n : Z) (m : list Z) : list Z := slice m (if n <? 64 then 0 else 16) 16.
Definition pair_of (n : Z) : Z := (n mod 64) / 2.

(** What is read. *)
Definition firewall_read (w : firewall) (e : enables) (cmd : Z) (rq : list Z) : option (list Z) :=
  match rq with
  | [_] => if cmd =? BMC_GET_NETFN_SUPPORT then Some (w_luns w :: w_pairs w) else None
  | [_; n; l] =>
      if cmd =? BMC_GET_COMMAND_SUPPORT then Some (half n (w_support w l (pair_of n)))
      else if cmd =? BMC_GET_CONFIGURABLE_COMMANDS then Some (half n (w_config w l (pair_of n)))
      else if cmd =? BMC_GET_COMMAND_ENABLES then Some (half n (en_command e l (pair_of n))) else None
  | [_; n; l; c] =>
      if cmd =? BMC_GET_COMMAND_SUBFUNCTION_SUPPORT then Some (w_sub_support w l (pair_of n) c)
      else if cmd =? BMC_GET_CONFIGURABLE_COMMAND_SUBFUNCTIONS then Some (w_sub_config w l (pair_of n) c)
      else if cmd =? BMC_GET_COMMAND_SUBFUNCTION_ENABLES then Some (en_sub e l (pair_of n) c) else None
  | _ => None
  end.

(** What is written. *)
Definition set_half (n l : Z) (bits : list Z) (e : enables) : enables :=
  mk_enables (fun i j => if (i =? l) && (j =? pair_of n) then
      (if n <? 64 then bits ++ slice (en_command e i j) 16 16 else slice (en_command e i j) 0 16 ++ bits)
    else en_command e i j) (en_sub e).
Definition set_sub (n l c : Z) (bits : list Z) (e : enables) : enables :=
  mk_enables (en_command e) (fun i j k => if (i =? l) && (j =? pair_of n) && (k =? c) then bits else en_sub e i j k).

Definition same_enables (a b : enables) : Prop :=
  (forall l n, en_command a l n = en_command b l n) /\ (forall l n c, en_sub a l n c = en_sub b l n c).

Class FirewallController {dev : Type} {bmc : Bmc dev} (w : firewall) (inv : dev -> Prop) (en : dev -> enables) := {
  fc_ok : firewall_ok w;
  fc_enables d : inv d -> enables_ok (en d);
  fc_read cmd rq out d : inv d -> firewall_read w (en d) cmd rq = Some out -> exists r d',
    bmc_answer (mk_rq IPMI_NETFN_APP 0 cmd 0 rq) d = (Some r, d') /\ ccode r = 0 /\ carries r out /\ inv d' /\ same_enables (en d') (en d);
  fc_set ch n l bits d : inv d -> zlen bits = 16 -> exists r d',
    bmc_answer (mk_rq IPMI_NETFN_APP 0 BMC_SET_COMMAND_ENABLES 0 ([ch; n; l] ++ bits)) d = (Some r, d') /\ ccode r = 0 /\
    inv d' /\ same_enables (en d') (set_half n l bits (en d));
  fc_set_sub ch n l c bits d : inv d -> zlen bits = 4 -> exists r d',
    bmc_answer (mk_rq IPMI_NETFN_APP 0 BMC_SET_COMMAND_SUBFUNCTION_ENABLES 0 ([ch; n; l; c] ++ bits)) d = (Some r, d') /\ ccode r = 0 /\
    inv d' /\ same_enables (en d') (set_sub n l c bits (en d));
}.

Section Controller.
Context {dev : Type} {bmc : Bmc dev} {mal : Malloc} (w : firewall) (inv : dev -> Prop) (en : dev -> enables).
Context {controller : FirewallController w inv en} (memory : forall n, is_Some (malloc n)).

Lemma same_refl e : same_enables e e.
Proof. done. Qed.
Lemma same_trans a b c : same_enables a b -> same_enables b c -> same_enables a c.
Proof. intros [H1 H2] [H3 H4]. split; intros; congruence. Qed.

Lemma fw_cmd_run cmd rq r d d' : bmc_answer (mk_rq IPMI_NETFN_APP 0 cmd 0 rq) d = (Some r, d') -> ccode r = 0 ->
  fw_cmd cmd rq d = Ok (Some r, d').
Proof. intros E Hc. unfold fw_cmd. rewrite (sendrecv_bind _ _ _ _ _ E). cbv beta. by rewrite Hc. Qed.

(** A query. *)
Lemma read_run cmd rq out n d : inv d -> firewall_read w (en d) cmd rq = Some out -> zlen out = n -> exists r d',
  fw_cmd cmd rq d = Ok (Some r, d') /\ rsp_bytes r 0 n = Ok out /\ inv d' /\ same_enables (en d') (en d).
Proof.
  intros Hi Hr Hn. destruct (fc_read cmd rq out d Hi Hr) as (r & d' & E & Hc & (Hl & rest & Hd) & Hi' & Hs).
  exists r, d'. split; [by apply fw_cmd_run |]. split; [| done].
  subst n. pose proof (zlen_nonneg out). pose proof (zlen_nonneg rest). rewrite rsp_bytes_ok by (rewrite ?Hd, ?zlen_app; lia).
  rewrite Hd. f_equal. by apply (slice_app_mid [] out rest).
Qed.

(** The parameters of a command for one pair. *)
Definition pair_params (p : ipmi_function_params) (l n : Z) : Prop :=
  fp_lun p = l /\ fp_netfn p = n /\ 0 <= l < 4 /\ 0 <= n < 64.

Lemma op_byte n : 0 <= n < 64 -> u8 n = n /\ u8 (0x40 .| n) = 64 + n.
Proof.
  intros H. split; [apply u8_small; unfold is_u8; lia |].
  change 64 with (1 .<< 6). rewrite lor_shiftl_add by (cbn; lia). cbn. rewrite u8_small by (unfold is_u8; lia). done.
Qed.

Lemma half_low n m : 0 <= n < 64 -> half n m = slice m 0 16 /\ half (64 + n) m = slice m 16 16 /\
  pair_of n = n / 2 /\ pair_of (64 + n) = n / 2.
Proof.
  intros H. unfold half, pair_of. rewrite (proj2 (Z.ltb_lt n 64)), (proj2 (Z.ltb_ge (64 + n) 64)) by lia.
  split_and!; [done | done | by rewrite Z.mod_small by lia |].
  replace (64 + n) with (n + 1 * 64) by lia. by rewrite Z.mod_add, Z.mod_small by lia.
Qed.

Lemma halves_whole m : zlen m = 32 -> slice m 0 16 ++ slice m 16 16 = m.
Proof.
  intros H. pose proof (slice_cat m 0 16 16 ltac:(lia) ltac:(lia) ltac:(lia)) as E. change (0 + 16) with 16 in E.
  rewrite E. apply slice_all. lia.
Qed.

(** The two halves of a field are stored. *)
Lemma get_halves_run cmd bit set store field p l n lnfn old d : inv d -> pair_params p l n ->
  (cmd = BMC_GET_COMMAND_SUPPORT /\ field = w_support w l (n / 2)) \/
  (cmd = BMC_GET_CONFIGURABLE_COMMANDS /\ field = w_config w l (n / 2)) \/
  (cmd = BMC_GET_COMMAND_ENABLES /\ field = en_command (en d) l (n / 2)) ->
  exists a b lnfn' d', get_halves cmd bit set store p lnfn old d = Ok ((0, lnfn'), d') /\ a ++ b = field /\
    lnfn' = store (Some a, Some b) (mark bit set 128 b (store (Some a, old.2) (mark bit set 0 a lnfn))) /\
    inv d' /\ same_enables (en d') (en d).
Proof.
  intros Hi (Hl & Hn & Hl4 & Hn64) Hf. destruct (op_byte n Hn64) as [E1 E2].
  destruct fc_ok as (_ & Hw & _). destruct (Hw l (n / 2)) as [Hz1 Hz2].
  assert (zlen field = 32) as Hz.
  { destruct Hf as [[_ ->]|[[_ ->]|[_ ->]]]; [done | done |]. by apply fc_enables. }
  assert (forall e, same_enables e (en d) -> firewall_read w e cmd [u8 (fp_channel p); u8 (fp_netfn p); u8 (fp_lun p)] = Some (slice field 0 16) /\
    firewall_read w e cmd [u8 (fp_channel p); u8 (0x40 .| fp_netfn p); u8 (fp_lun p)] = Some (slice field 16 16)) as Hread.
  { intros e [He _]. rewrite Hl, Hn, E1, E2, (u8_small l) by (unfold is_u8; lia). unfold firewall_read.
    destruct (half_low n field Hn64) as (H1 & H2 & H3 & H4). rewrite H3, H4.
    destruct Hf as [[-> ->]|[[-> ->]|[-> ->]]]; cbn [Z.eqb Pos.eqb]; rewrite ?He, H1, H2; done. }
  unfold get_halves.
  destruct (read_run _ _ _ 16 d Hi (proj1 (Hread _ (same_refl _)))) as (r1 & d1 & Q1 & B1 & Hi1 & Hs1); [rewrite zlen_slice; lia |].
  destruct (read_run _ _ _ 16 d1 Hi1 (proj2 (Hread _ Hs1))) as (r2 & d2 & Q2 & B2 & Hi2 & Hs2); [rewrite zlen_slice; lia |].
  eexists (slice field 0 16), (slice field 16 16), _, d2. unfold mbind, M_bind. rewrite Q1, B1. cbn [lift]. rewrite Q2, B2. cbn [lift].
  split; [done |]. split; [by apply halves_whole |]. split; [done |]. split; [done |]. by eapply same_trans.
Qed.

(** What has been read of a pair. *)
Definition pair_read (l n : Z) (e : enables) (lnfn : lun_netfn_support) : Prop :=
  whole (command_mask lnfn) = Some (w_support w l (n / 2)) /\ whole (config_mask lnfn) = Some (w_config w l (n / 2)) /\
  whole (enable_mask lnfn) = Some (en_command e l (n / 2)).

Lemma mark_raw bit set base d lnfn : (forall c, nf_command lnfn c = raw_command) -> forall c, nf_command (mark bit set base d lnfn) c = raw_command.
Proof. intros H c. cbn. rewrite H. by case_match. Qed.

Lemma get_pair_run p l n lnfn d : inv d -> pair_params p l n -> (forall c, nf_command lnfn c = raw_command) ->
  exists lnfn' d', get_pair p lnfn d = Ok ((0, lnfn'), d') /\ pair_read l n (en d) lnfn' /\ (forall c, nf_command lnfn' c = raw_command) /\
    inv d' /\ same_enables (en d') (en d).
Proof.
  intros Hi Hp Hr.
  destruct (get_halves_run BMC_GET_COMMAND_SUPPORT BIT_AVAILABLE false (fun m l => l <| command_mask := m |>) (w_support w l (n / 2))
    p l n lnfn (command_mask lnfn) d Hi Hp) as (a1 & b1 & x1 & d1 & Q1 & F1 & X1 & Hi1 & S1); [by left |].
  assert (forall c, nf_command x1 c = raw_command) as Hr1 by (subst x1; by repeat apply mark_raw).
  destruct (get_halves_run BMC_GET_CONFIGURABLE_COMMANDS BIT_CONFIGURABLE true (fun m l => l <| config_mask := m |>) (w_config w l (n / 2))
    p l n x1 (config_mask x1) d1 Hi1 Hp) as (a2 & b2 & x2 & d2 & Q2 & F2 & X2 & Hi2 & S2); [right; by left |].
  assert (forall c, nf_command x2 c = raw_command) as Hr2 by (subst x2; by repeat apply mark_raw).
  destruct (get_halves_run BMC_GET_COMMAND_ENABLES BIT_ENABLED true (fun m l => l <| enable_mask := m |>) (en_command (en d2) l (n / 2))
    p l n x2 (enable_mask x2) d2 Hi2 Hp) as (a3 & b3 & x3 & d3 & Q3 & F3 & X3 & Hi3 & S3); [by do 2 right |].
  assert (forall c, nf_command x3 c = raw_command) as Hr3 by (subst x3; by repeat apply mark_raw).
  exists x3, d3. unfold get_pair, _get_command_support, _get_command_configurable, _get_command_enables, mbind, M_bind.
  rewrite Q1, Q2, Q3. split; [done |]. split.
  - split_and!; [subst x3 x2 x1; cbn; by rewrite F1 | subst x3 x2; cbn; by rewrite F2 |].
    subst x3. cbn [whole enable_mask]. cbn. rewrite F3. destruct (same_trans _ _ _ S2 S1) as [H _]. by rewrite H.
  - split; [done |]. split; [done |]. eapply same_trans; [exact S3 |]. by eapply same_trans.
Qed.

Definition command_read (l n c : Z) (e : enables) (cs : command_support) : Prop :=
  subfn_support cs = Some (w_sub_support w l (n / 2) c) /\ subfn_config cs = Some (w_sub_config w l (n / 2) c) /\
  subfn_enable cs = Some (en_sub e l (n / 2) c).

Lemma subfn_bytes p l n c : pair_params p l n -> fp_command p = c -> 0 <= c < 256 -> subfn_rq p = [u8 (fp_channel p); n; l; c].
Proof.
  intros (Hl & Hn & ? & ?) Hc ?. unfold subfn_rq. rewrite Hl, Hn, Hc. by rewrite (u8_small n), (u8_small l), (u8_small c) by (unfold is_u8; lia).
Qed.

Lemma get_command_run p l n c cs d : inv d -> pair_params p l n -> fp_command p = c -> 0 <= c < 256 ->
  exists cs' d', get_command p cs d = Ok ((0, cs'), d') /\ command_read l n c (en d) cs' /\ inv d' /\ same_enables (en d') (en d).
Proof.
  intros Hi Hp Hc Hc2. pose proof (subfn_bytes p l n c Hp Hc Hc2) as Hrq. destruct Hp as (_ & _ & Hl4 & Hn64).
  destruct (half_low n [] Hn64) as (_ & _ & Hpair & _).
  destruct fc_ok as (_ & _ & Hsub). destruct (Hsub l (n / 2) c) as [Hz1 Hz2].
  destruct (read_run BMC_GET_COMMAND_SUBFUNCTION_SUPPORT (subfn_rq p) (w_sub_support w l (n / 2) c) 4 d) as (r1 & d1 & Q1 & B1 & Hi1 & S1);
    [done | rewrite Hrq; cbn; by rewrite Hpair | done |].
  destruct (read_run BMC_GET_CONFIGURABLE_COMMAND_SUBFUNCTIONS (subfn_rq p) (w_sub_config w l (n / 2) c) 4 d1) as (r2 & d2 & Q2 & B2 & Hi2 & S2);
    [done | rewrite Hrq; cbn; by rewrite Hpair | done |].
  destruct (read_run BMC_GET_COMMAND_SUBFUNCTION_ENABLES (subfn_rq p) (en_sub (en d) l (n / 2) c) 4 d2) as (r3 & d3 & Q3 & B3 & Hi3 & S3);
    [done | rewrite Hrq; cbn; rewrite Hpair; destruct (same_trans _ _ _ S2 S1) as [_ H]; by rewrite H | by apply fc_enables |].
  eexists _, d3. unfold get_command, _get_subfn_support, _get_subfn_configurable, _get_subfn_enables, get_subfn, mbind, M_bind, mret, M_ret.
  change MAX_SUBFN_BYTES with 4. rewrite Q1, B1. cbn [lift]. rewrite Q2, B2. cbn [lift]. rewrite Q3, B3. cbn [lift].
  split; [done |]. split; [done |]. split; [done |]. eapply same_trans; [exact S3 |]. by eapply same_trans.
Qed.

(** ** Writing *)

Definition gun_bit (force : Z) (config enable old : list Z) (x : Z) : bool :=
  if bit_test config x then if (force =? 0) && (0x60 <=? x) && (x <? 0x68) then false else bit_test enable x else bit_test old x.

Lemma set_commands_run p l n lnfn want d : inv d -> pair_params p l n -> pair_read l n (en d) lnfn -> zlen want = 32 ->
  exists d', _set_command_enables p lnfn want (fp_force p) d = Ok (0, d') /\ inv d' /\
    (forall x, 0 <= x < 256 -> bit_test (en_command (en d') l (n / 2)) x =
      gun_bit (fp_force p) (w_config w l (n / 2)) want (en_command (en d) l (n / 2)) x) /\
    (forall i j, (i, j) <> (l, n / 2) -> en_command (en d') i j = en_command (en d) i j) /\
    (forall i j c, en_sub (en d') i j c = en_sub (en d) i j c).
Proof.
  intros Hi (Hl & Hn & Hl4 & Hn64) (R1 & R2 & R3) Hw. destruct (op_byte n Hn64) as [E1 E2].
  destruct fc_ok as (_ & Hok & _). destruct (Hok l (n / 2)) as [Hz1 Hz2]. destruct (fc_enables d Hi) as [Hz3 _]. specialize (Hz3 l (n / 2)).
  set (config := w_config w l (n / 2)) in *. set (old := en_command (en d) l (n / 2)) in *.
  assert (exists bits, (if fp_force p =? 0 then take_gun config old (merge_bits config want old) else Ok (merge_bits config want old)) = Ok bits /\
    zlen bits = 32 /\ forall x, 0 <= x < 256 -> bit_test bits x = gun_bit (fp_force p) config want old x) as (bits & Eb & Hzb & Hbits).
  { assert (zlen (merge_bits config want old) = 32) as Hzm by (rewrite zlen_merge; lia). unfold gun_bit. destruct (fp_force p =? 0).
    - destruct (take_gun_run config old (merge_bits config want old)) as (m & E & Hm & Hb); [done | done | done |]. exists m.
      split; [done |]. split; [done |]. intros x Hx. rewrite Hb, merge_bit by (try done; lia). cbn [andb].
      destruct (_ && _); [by destruct (bit_test config x) | done].
    - eexists. split; [done |]. split; [done |]. intros x Hx. rewrite merge_bit by (try done; lia). cbn [andb]. by destruct (bit_test config x). }
  destruct (fc_set (u8 (fp_channel p)) n l (slice bits 0 16) d Hi) as (r1 & d1 & A1 & C1 & Hi1 & S1); [rewrite zlen_slice; lia |].
  destruct (fc_set (u8 (fp_channel p)) (64 + n) l (slice bits 16 16) d1 Hi1) as (r2 & d2 & A2 & C2 & Hi2 & S2); [rewrite zlen_slice; lia |].
  destruct (half_low n [] Hn64) as (_ & _ & P1 & P2).
  assert (forall i j, en_command (en d2) i j = if (i =? l) && (j =? n / 2) then bits else en_command (en d) i j) as Hcmd.
  { intros i j. destruct S2 as [S2 _], S1 as [S1 _]. rewrite S2. cbn [en_command set_half]. rewrite P2, S1. cbn [en_command set_half]. rewrite P1.
    rewrite (proj2 (Z.ltb_lt n 64)), (proj2 (Z.ltb_ge (64 + n) 64)) by lia.
    destruct (_ && _); [| done]. rewrite slice_app_l, slice_slice by (rewrite ?zlen_slice; lia).
    rewrite Z.add_0_l. by apply halves_whole. }
  exists d2. split.
  { unfold _set_command_enables, mbind, M_bind. rewrite R1, R2, R3. cbn [assigned]. unfold mret at 1 2 3, M_ret. rewrite Eb. cbn [lift].
    rewrite Hl, Hn, E1, E2, (u8_small l) by (unfold is_u8; lia). by rewrite (fw_cmd_run _ _ _ _ _ A1 C1), (fw_cmd_run _ _ _ _ _ A2 C2). }
  split; [done |]. split; [| split].
  - intros x Hx. rewrite Hcmd, !Z.eqb_refl. cbn [andb]. by apply Hbits.
  - intros i j Hij. rewrite Hcmd. destruct (Z.eqb_spec i l) as [->|]; [| done]. destruct (Z.eqb_spec j (n / 2)) as [->|]; [| done]. done.
  - intros i j c. destruct S2 as [_ S2], S1 as [_ S1]. rewrite S2. cbn [en_sub set_half]. by rewrite S1.
Qed.

Lemma set_subs_run p l n c cs want d : inv d -> pair_params p l n -> fp_command p = c -> 0 <= c < 256 -> command_read l n c (en d) cs -> zlen want = 4 ->
  exists d', _set_subfn_enables p cs want d = Ok (0, d') /\ inv d' /\
    (forall x, 0 <= x < 32 -> bit_test (en_sub (en d') l (n / 2) c) x =
      if bit_test (w_sub_config w l (n / 2) c) x then bit_test want x else bit_test (en_sub (en d) l (n / 2) c) x) /\
    (forall i j k, (i, j, k) <> (l, n / 2, c) -> en_sub (en d') i j k = en_sub (en d) i j k) /\
    (forall i j, en_command (en d') i j = en_command (en d) i j).
Proof.
  intros Hi Hp Hc Hc2 (R1 & R2 & R3) Hw. pose proof (subfn_bytes p l n c Hp Hc Hc2) as Hrq. destruct Hp as (_ & _ & Hl4 & Hn64).
  destruct (half_low n [] Hn64) as (_ & _ & Hpair & _). destruct fc_ok as (_ & _ & Hsub). destruct (Hsub l (n / 2) c) as [Hz1 Hz2].
  destruct (fc_enables d Hi) as [_ Hz3]. specialize (Hz3 l (n / 2) c).
  set (config := w_sub_config w l (n / 2) c) in *. set (old := en_sub (en d) l (n / 2) c) in *.
  destruct (fc_set_sub (u8 (fp_channel p)) n l c (merge_bits config want old) d Hi) as (r & d' & A & C & Hi' & S1 & S2); [rewrite zlen_merge; lia |].
  exists d'. split.
  { unfold _set_subfn_enables, mbind, M_bind. rewrite R1, R2, R3. cbn [assigned]. unfold mret at 1 2 3, M_ret.
    rewrite Hrq. by rewrite (fw_cmd_run _ _ _ _ _ A C). }
  split; [done |]. split; [| split].
  - intros x Hx. rewrite S2. cbn [en_sub set_sub]. rewrite Hpair, !Z.eqb_refl. cbn [andb]. apply merge_bit; lia.
  - intros i j k Hk. rewrite S2. cbn [en_sub set_sub]. rewrite Hpair. destruct (Z.eqb_spec i l) as [->|]; [| done].
    destruct (Z.eqb_spec j (n / 2)) as [->|]; [| done]. by destruct (Z.eqb_spec k c) as [->|].
  - intros i j. by rewrite S1.
Qed.

(** ** Collecting *)

Definition supported (l n : Z) : Prop := (w_luns w .>> (2 * l)) .& 3 <> 0 /\ bit_test (w_pairs w) (l * 32 + n / 2) = true.

(** Nothing but the support fields has been written. *)
Definition only_support (b : bmc_fn_support) : Prop := forall i j, exists s, ls_netfn b i j = raw_pair <| nf_support := s |>.

Lemma store_pairs l netfn ns b : only_support b ->
  let b' := foldl (fun b n => set_pair l n ((ls_netfn b l n) <| nf_support := Some (if bit_test netfn (l * MAX_NETFN_PAIR + n) then 1 else 0) |>) b) b ns in
  only_support b' /\ ls_support b' = ls_support b /\
  forall n, In n ns -> nf_support (ls_netfn b' l n) = Some (if bit_test netfn (l * MAX_NETFN_PAIR + n) then 1 else 0).
Proof.
  intros Hb. induction ns as [|n ns IH] using rev_ind; [by split_and! |]. cbv zeta in *. rewrite foldl_app. cbn [foldl].
  destruct IH as (I1 & I2 & I3). set (b1 := foldl _ b ns) in *. split_and!.
  - intros i j. cbn [ls_netfn set_pair]. destruct (_ && _); [| apply I1]. destruct (I1 l n) as [s ->]. by eexists.
  - exact I2.
  - intros m Hm. cbn [ls_netfn set_pair]. rewrite Z.eqb_refl. cbn [andb]. destruct (Z.eqb_spec m n) as [->|Hne]; [done |].
    apply I3. apply in_app_or in Hm as [Hm|[Hm|[]]]; [done | by subst].
Qed.

Lemma store_luns_run p l lun netfn : fp_lun p = l -> 0 <= l < 4 -> rd lun l <> 0 ->
  let b := store_luns p (seqZ 0 MAX_LUN) lun netfn raw_support in
  only_support b /\ ls_support b l = Some (rd lun l) /\
  forall n, 0 <= n < 32 -> nf_support (ls_netfn b l n) = Some (if bit_test netfn (l * 32 + n) then 1 else 0).
Proof.
  intros Hl Hr Hn0. cbv zeta. change (seqZ 0 MAX_LUN) with [0; 1; 2; 3]. cbn [store_luns]. rewrite Hl.
  assert (forall m, 0 <= m < 32 -> In m (seqZ 0 MAX_NETFN_PAIR)) as Hin.
  { intros m Hm. apply list_elem_of_In, elem_of_seqZ. unfold MAX_NETFN_PAIR, MAX_NETFN. change (64 / 2) with 32. lia. }
  assert (only_support (set_ls_support l (rd lun l) raw_support)) as Hb by (intros i j; by exists None).
  destruct (store_pairs l netfn (seqZ 0 MAX_NETFN_PAIR) _ Hb) as (I1 & I2 & I3).
  assert (l = 0 \/ l = 1 \/ l = 2 \/ l = 3) as Hcases by lia.
  destruct Hcases as [E|[E|[E|E]]]; rewrite E in *; cbn [Z.leb Z.compare Z.eqb Pos.eqb negb andb];
    rewrite (proj2 (Z.eqb_neq _ 0)) by done; (split; [exact I1 |]; split; [by rewrite I2 |]; intros m Hm; by apply I3, Hin).
Qed.

Lemma gather_run p l n d : inv d -> pair_params p l n -> supported l n -> fp_command p < 256 ->
  exists b d', _gather_info p raw_support d = Ok (b, d') /\ inv d' /\ same_enables (en d') (en d) /\
    pair_read l n (en d) (ls_netfn b l (n / 2)) /\
    (0 <= fp_command p -> command_read l n (fp_command p) (en d) (nf_command (ls_netfn b l (n / 2)) (fp_command p))).
Proof.
  intros Hi Hp [Hs1 Hs2] Hc. pose proof Hp as (Hl & Hn & Hl4 & Hn64). destruct fc_ok as (Hw & _).
  destruct (read_run BMC_GET_NETFN_SUPPORT [u8 (fp_channel p)] (w_luns w :: w_pairs w) 17 d Hi) as (r & d1 & Q1 & B1 & Hi1 & S1);
    [done | rewrite zlen_cons; lia |].
  set (lun := map (fun l => (rd (w_luns w :: w_pairs w) 0 .>> (2 * l)) .& 0x3) (seqZ 0 4)).
  assert (rd lun l = (w_luns w .>> (2 * l)) .& 3) as Hlun.
  { assert (l = 0 \/ l = 1 \/ l = 2 \/ l = 3) as [-> | [-> | [-> | ->]]] by lia; reflexivity. }
  destruct (store_luns_run p l lun (w_pairs w) Hl Hl4) as (I1 & I2 & I3); [by rewrite Hlun |].
  set (b := store_luns p (seqZ 0 MAX_LUN) lun (w_pairs w) raw_support) in *.
  assert (0 <= n / 2 < 32) as Hn2 by (Z.to_euclidean_division_equations; lia).
  assert (forall c, nf_command (ls_netfn b l (n / 2)) c = raw_command) as Hraw by (intros c; destruct (I1 l (n / 2)) as [s ->]; done).
  destruct (get_pair_run p l n (ls_netfn b l (n / 2)) d1 Hi1 Hp Hraw) as (lnfn & d2 & Q2 & P2 & Hraw2 & Hi2 & S2).
  assert (pair_read l n (en d) lnfn) as P2' by (unfold pair_read in *; destruct S1 as [S1 _]; by rewrite <- S1).
  assert (n .>> 1 = n / 2) as Hsh by (by rewrite Z.shiftr_div_pow2 by lia).
  assert (_gather_info p raw_support d = ('(ret, lnfn) ← get_pair p (ls_netfn b l (n / 2));
    if (ret =? 0) && (0 <=? fp_command p) then
      '(_, cs) ← get_command p (nf_command lnfn (fp_command p));
      mret (set_pair l (n / 2) (set_command (fp_command p) cs lnfn) b)
    else mret (set_pair l (n / 2) lnfn b)) d1) as ->.
  { assert (_get_netfn_support (fp_channel p) d = Ok (Some (lun, w_pairs w), d1)) as Eg.
    { unfold _get_netfn_support, mbind, M_bind. rewrite Q1, B1. cbn [lift]. unfold mret, M_ret. fold lun. do 4 f_equal.
      by rewrite slice_ge by (rewrite ?zlen_cons; lia). }
    unfold _gather_info. unfold mbind at 1, M_bind. rewrite Eg. fold b. rewrite Hl, Hn, Hsh. rewrite (proj2 (Z.leb_le 0 n)) by lia.
    unfold mbind at 1, M_bind. rewrite I2. cbn [assigned]. unfold mret at 1, M_ret. rewrite Hlun, (proj2 (Z.eqb_neq _ 0)) by done.
    unfold mbind at 1, M_bind. rewrite I3, Hs2 by done. done. }
  unfold mbind at 1, M_bind. rewrite Q2. change (0 =? 0) with true. cbn [andb].
  assert (forall x, ls_netfn (set_pair l (n / 2) x b) l (n / 2) = x) as Hset by (intros x; cbn; by rewrite !Z.eqb_refl).
  destruct (Z.leb_spec 0 (fp_command p)) as [Hc0|Hc0].
  - destruct (get_command_run p l n (fp_command p) (nf_command lnfn (fp_command p)) d2 Hi2 Hp eq_refl) as (cs & d3 & Q3 & P3 & Hi3 & S3); [lia |].
    eexists _, d3. unfold mbind, M_bind. rewrite Q3. split; [done |]. split; [done |].
    pose proof (same_trans _ _ _ S2 S1) as S21. split; [by eapply same_trans |]. rewrite Hset. split; [done |]. intros _.
    cbn [nf_command set_command]. cbn. rewrite Z.eqb_refl. unfold command_read in *. destruct S21 as [_ S21]. by rewrite <- S21.
  - eexists _, d2. split; [done |]. split; [done |]. split; [by eapply same_trans |]. rewrite Hset. split; [done |]. lia.
Qed.

(** ** The commands of the user *)

(** What is enabled or disabled: all commands of the pair, a command with its
    sub-functions, or a sub-function. *)
Inductive scope := Pair | Command (c : Z) | Subfn (c s : Z).

Definition scope_ok (sc : scope) : Prop :=
  match sc with Pair => True | Command c => 0 <= c < 256 | Subfn c s => 0 <= c < 256 /\ 0 <= s < 32 end.

Definition scope_args (l n : Z) (sc : scope) (force : bool) : list (list Z) :=
  [text "lun"; dec l; text "netfn"; dec n] ++
  match sc with Pair => [] | Command c => [text "command"; dec c] | Subfn c s => [text "command"; dec c; text "subfn"; dec s] end ++
  (if force then [text "force"] else []).

(** The bit of command [x], and of sub-function [x] of command [k], afterwards. *)
Definition command_after (sc : scope) (v force config old : bool) (x : Z) : bool :=
  match sc with
  | Subfn _ _ => old
  | _ =>
      if config then
        if negb force && (0x60 <=? x) && (x <? 0x68) then false
        else match sc with Command c => if x =? c then v else old | _ => v end
      else old
  end.
Definition sub_after (sc : scope) (v config old : bool) (k x : Z) : bool :=
  match sc with
  | Pair => old
  | Command c => if (k =? c) && config then v else old
  | Subfn c s => if (k =? c) && config && (x =? s) then v else old
  end.

Definition scope_params (l n : Z) (sc : scope) (force : bool) : ipmi_function_params :=
  mk_params 0xe l n (match sc with Pair => -1 | Command c | Subfn c _ => c end) (match sc with Subfn _ s => s | _ => -1 end) (if force then 1 else 0).

Ltac parse_word H := cbn [firewall_words]; keywords; cbn iota; by rewrite H.

Lemma parse_lun a v rest p : str2int (Some a) = (0, Some v) -> firewall_words (text "lun" :: a :: rest) p = firewall_words rest (p <| fp_lun := v |>).
Proof. intros H. parse_word H. Qed.
Lemma parse_netfn a v rest p : str2int (Some a) = (0, Some v) -> firewall_words (text "netfn" :: a :: rest) p = firewall_words rest (p <| fp_netfn := v |>).
Proof. intros H. parse_word H. Qed.
Lemma parse_command a v rest p : str2int (Some a) = (0, Some v) -> firewall_words (text "command" :: a :: rest) p = firewall_words rest (p <| fp_command := v |>).
Proof. intros H. parse_word H. Qed.
Lemma parse_subfn a v rest p : str2int (Some a) = (0, Some v) -> firewall_words (text "subfn" :: a :: rest) p = firewall_words rest (p <| fp_subfn := v |>).
Proof. intros H. parse_word H. Qed.
Lemma parse_force (force : bool) p : firewall_words (if force then [text "force"] else []) p = Ok (Some (if force then p <| fp_force := 1 |> else p)).
Proof. destruct force; [cbn [firewall_words]; keywords; done | done]. Qed.

Lemma parse_scope l n sc force : 0 <= l < 4 -> 0 <= n < 64 -> scope_ok sc ->
  ipmi_firewall_parse_args (scope_args l n sc force) default_params = Ok (Some (scope_params l n sc force)).
Proof.
  intros Hl Hn Hsc. assert (forall x, 0 <= x < 256 -> str2int (Some (dec x)) = (0, Some x)) as Hd by (intros x Hx; by apply dec_parses).
  assert (firewall_words (scope_args l n sc force) default_params = Ok (Some (scope_params l n sc force))) as E.
  { unfold scope_args. cbn [app]. rewrite (parse_lun _ l), (parse_netfn _ n) by (apply Hd; lia).
    destruct sc as [|c|c s]; cbn [app scope_ok] in *;
      [| rewrite (parse_command _ c) by (apply Hd; lia) | rewrite (parse_command _ c), (parse_subfn _ s) by (apply Hd; lia)];
      rewrite parse_force; by destruct force. }
  unfold ipmi_firewall_parse_args. rewrite E. cbn [mbind res_bind]. unfold scope_params. cbn [fp_subfn fp_command fp_netfn fp_lun].
  change MAX_SUBFN with 32. change MAX_COMMAND with 256. change MAX_NETFN with 64. change MAX_LUN with 4.
  match goal with |- (if ?b then _ else _) = _ => assert (b = false) as -> end; [| done].
  destruct sc as [|c|c s]; cbn in Hsc; lia.
Qed.

(** C35. "firewall enable" and "firewall disable" of a supported pair, command
    or sub-function succeed and set exactly the bits that were asked for and
    that the controller lets one configure; every other bit of every pair keeps
    its value.  The exception is the byte of the command Set Command Enables:
    without "force" both commands clear every configurable bit of it, because
    the mask of the bit is written as the number of the bit. *)
Theorem firewall_sets_bits v l n sc force d : inv d -> 0 <= l < 4 -> 0 <= n < 64 -> supported l n -> scope_ok sc ->
  exists d', ipmi_firewall_enable_disable v (scope_args l n sc force) d = Ok (0, d') /\ inv d' /\
    (forall x, 0 <= x < 256 -> bit_test (en_command (en d') l (n / 2)) x =
      command_after sc v force (bit_test (w_config w l (n / 2)) x) (bit_test (en_command (en d) l (n / 2)) x) x) /\
    (forall k x, 0 <= x < 32 -> bit_test (en_sub (en d') l (n / 2) k) x =
      sub_after sc v (bit_test (w_sub_config w l (n / 2) k) x) (bit_test (en_sub (en d) l (n / 2) k) x) k x) /\
    (forall i j, (i, j) <> (l, n / 2) -> en_command (en d') i j = en_command (en d) i j /\
      forall k, en_sub (en d') i j k = en_sub (en d) i j k).
Proof.
  intros Hi Hl Hn Hsup Hsc. set (p := scope_params l n sc force).
  destruct (gather_run p l n d Hi) as (b & d1 & Q1 & Hi1 & (S1 & S1') & R1 & R1'); [done | done | destruct sc; cbn in *; lia |].
  assert (n .>> 1 = n / 2) as Hsh by (by rewrite Z.shiftr_div_pow2 by lia).
  assert (is_Some (malloc sizeof_bmc_fn_support)) as [m Hm] by apply memory.
  unfold ipmi_firewall_enable_disable. change (bool_decide _ || _) with false. cbn iota.
  unfold mbind at 1, M_bind. rewrite parse_scope by done. cbn [lift]. fold p. rewrite Hm. unfold mbind at 1, M_bind. rewrite Q1.
  change (fp_lun p) with l. change (fp_netfn p) with n. rewrite Hsh.
  set (lnfn := ls_netfn b l (n / 2)) in *.
  destruct fc_ok as (_ & Hok1 & Hok2). destruct (fc_enables d Hi) as [Hz1 Hz2].
  assert (pair_params p l n) as Hp by done.
  assert (pair_read l n (en d1) lnfn) as P1 by (unfold pair_read in *; by rewrite S1).
  assert ((fp_force p =? 0) = negb force) as Hforce by (by destruct force).
  assert (forall want x, gun_bit (fp_force p) (w_config w l (n / 2)) want (en_command (en d1) l (n / 2)) x =
    if bit_test (w_config w l (n / 2)) x then if negb force && (0x60 <=? x) && (x <? 0x68) then false else bit_test want x
    else bit_test (en_command (en d) l (n / 2)) x) as Hgun by (intros want x; unfold gun_bit; by rewrite Hforce, S1).
  destruct sc as [|c|c s]; cbn [scope_ok] in Hsc.
  - destruct (set_commands_run p l n lnfn (replicate (Z.to_nat MAX_COMMAND_BYTES) (if v then 0xff else 0)) d1 Hi1 Hp P1) as (d2 & E & Hi2 & B1 & B2 & B3);
      [by rewrite zlen_replicate |].
    exists d2. change (0 <=? fp_subfn p) with false. change (0 <=? fp_command p) with false. rewrite (proj2 (Z.leb_le 0 n)) by lia.
    split; [exact E |]. split; [done |]. split_and!.
    + intros x Hx. rewrite B1, Hgun by done. unfold command_after. by rewrite (all_bits v MAX_COMMAND_BYTES x) by (change MAX_COMMAND_BYTES with 32; lia).
    + intros k x Hx. by rewrite B3, S1'.
    + intros i j Hij. split; [by rewrite B2, S1 | intros k; by rewrite B3, S1'].
  - change (fp_command p) with c in *. specialize (R1' ltac:(lia)). set (cs := nf_command lnfn c) in *.
    assert (command_read l n c (en d1) cs) as P2 by (unfold command_read in *; by rewrite S1').
    destruct (set_subs_run p l n c cs (replicate (Z.to_nat MAX_SUBFN_BYTES) (if v then 0xff else 0)) d1 Hi1 Hp eq_refl Hsc P2) as (d2 & E2 & Hi2 & B1 & B2 & B3);
      [by rewrite zlen_replicate |].
    destruct (bit_set_run (en_command (en d) l (n / 2)) c v) as (want & Ew & Hzw & Hw); [rewrite Hz1; lia |]. rewrite Hz1 in Hzw, Hw.
    assert (pair_read l n (en d2) lnfn) as P3 by (unfold pair_read in *; by rewrite B3).
    destruct (set_commands_run p l n lnfn want d2 Hi2 Hp P3 Hzw) as (d3 & E3 & Hi3 & C1 & C2 & C3).
    exists d3. change (0 <=? fp_subfn p) with false. rewrite (proj2 (Z.leb_le 0 c)) by lia. split; [| split; [done |]; split_and!].
    + unfold mbind, M_bind. change (fp_command p) with c. fold cs. rewrite E2. destruct R1 as (_ & _ & R1). rewrite R1.
      cbn [assigned]. unfold mret at 1, M_ret. rewrite Ew. cbn [lift]. by rewrite E3.
    + intros x Hx. rewrite C1 by done. rewrite B3. rewrite Hgun. unfold command_after. by rewrite Hw by lia.
    + intros k x Hx. rewrite C3. cbn [sub_after]. destruct (Z.eqb_spec k c) as [->|Hk]; cbn [andb].
      * rewrite B1 by done. rewrite S1'. by rewrite (all_bits v MAX_SUBFN_BYTES x) by (change MAX_SUBFN_BYTES with 4; lia).
      * rewrite B2, S1'; [done |]. intros [= ->]. done.
    + intros i j Hij. split; [by rewrite C2, B3, S1 | intros k; rewrite C3, B2, S1'; [done |]]. intros [= -> ->]. done.
  - change (fp_command p) with c in *. specialize (R1' ltac:(lia)). set (cs := nf_command lnfn c) in *.
    assert (command_read l n c (en d1) cs) as P2 by (unfold command_read in *; by rewrite S1').
    destruct (bit_set_run (en_sub (en d) l (n / 2) c) s v) as (want & Ew & Hzw & Hw); [rewrite Hz2; lia |]. rewrite Hz2 in Hzw, Hw.
    destruct (set_subs_run p l n c cs want d1 Hi1 Hp eq_refl ltac:(lia) P2 Hzw) as (d2 & E2 & Hi2 & B1 & B2 & B3).
    exists d2. change (fp_subfn p) with s. rewrite (proj2 (Z.leb_le 0 s)) by lia. split; [| split; [done |]; split_and!].
    + unfold mbind, M_bind. change (fp_command p) with c. fold cs. destruct R1' as (_ & _ & R1'). rewrite R1'.
      cbn [assigned]. unfold mret at 1, M_ret. rewrite Ew. cbn [lift]. by rewrite E2.
    + intros x Hx. by rewrite B3, S1.
    + intros k x Hx. cbn [sub_after]. destruct (Z.eqb_spec k c) as [->|Hk]; cbn [andb].
      * rewrite B1 by done. rewrite S1', Hw by lia. by destruct (bit_test _ x), (x =? s).
      * rewrite B2, S1'; [done |]. intros [= ->]. done.
    + intros i j Hij. split; [by rewrite B3, S1 | intros k; rewrite B2, S1'; [done |]]. intros [= -> ->]. done.
Qed.
End Controller.

(** ** An example *)

(** A controller with one LUN, whose commands can all be configured. *)
Definition toy_firewall : firewall :=
  mk_firewall 1 (replicate 16 0xff) (fun _ _ => replicate 32 0) (fun _ _ => replicate 32 0xff)
    (fun _ _ _ => replicate 4 0) (fun _ _ _ => replicate 4 0xff).

#[local] Instance firewall_bmc : Bmc enables := fun req e =>
  match firewall_read toy_firewall e (rq_cmd req) (rq_data req), rq_data req with
  | Some out, _ => (Some (reply 0 out), e)
  | None, _ :: n :: l :: bits =>
      if rq_cmd req =? BMC_SET_COMMAND_ENABLES then (Some (reply 0 []), set_half n l bits e)
      else (Some (reply 0 []), set_sub n l (rd bits 0) (drop 1 bits) e)
  | None, _ => (None, e)
  end.

#[local] Instance toy_controller : FirewallController toy_firewall enables_ok id.
Proof.
  split.
  - split_and!; [done | by split | by split].
  - done.
  - intros cmd rq out e He E. exists (reply 0 out), e. unfold bmc_answer, firewall_bmc. cbn [rq_cmd rq_data].
    unfold id in E. rewrite E. split_and!; [done | done | apply carries_reply | done | done].
  - intros ch n l bits e [H1 H2] Hb. exists (reply 0 []), (set_half n l bits e).
    destruct bits as [|? [|? bits]]; [done | done |]. split_and!; [done | done | | done]. split; [| done].
    intros i j. cbn [set_half en_command]. specialize (H1 i j). destruct (_ && _); [| done].
    destruct (n <? 64); rewrite zlen_app, zlen_slice; lia.
  - intros ch n l c bits e [H1 H2] Hb. exists (reply 0 []), (set_sub n l c bits e).
    destruct bits as [|? bits]; [done |]. split_and!; [done | done | | done]. split; [done |].
    intros i j k. cbn [set_sub en_sub]. by destruct (_ && _).
Defined.

Definition nothing_enabled : enables := mk_enables (fun _ _ => replicate 32 0) (fun _ _ _ => replicate 4 0).

Lemma firewall_sets_bits_witness : exists d', ipmi_firewall_enable_disable true (scope_args 0 6 (Command 2) false) nothing_enabled = Ok (0, d') /\
  bit_test (en_command d' 0 3) 2 = true /\ bit_test (en_command d' 0 3) 3 = false /\ bit_test (en_sub d' 0 3 2) 31 = true.
Proof.
  destruct (firewall_sets_bits toy_firewall enables_ok id ltac:(by intros n; eexists) true 0 6 (Command 2) false nothing_enabled)
    as (d' & E & _ & H1 & H2 & _); [by split | lia | lia | by split | cbn; lia |].
  exists d'. split; [exact E |]. split_and!; [exact (H1 2 ltac:(lia)) | exact (H1 3 ltac:(lia)) | exact (H2 2 31 ltac:(lia))].
Defined.

(** "firewall reset" uses the bits of pairs that were never read. *)
Example firewall_reset_uninitialised : ipmi_firewall_reset [text "lun"; text "0"] nothing_enabled = Bad Uninitialised.
Proof. vm_compute. reflexivity. Qed.

(** A keyword without its value at the end of the line is compared on as a null pointer. *)
Example firewall_keyword_last : ipmi_firewall_parse_args [text "lun"] default_params = Bad OutOfBounds.
Proof. reflexivity. Qed.
