(* ===== verification/User.v ===== *)
(** * User accounts (lib/ipmi_user.c)

    The requests that read and change the users of a controller, and the
    sub-commands of "user".  The passwords that are asked for at the terminal
    are arguments; of what is printed only the list of users is a value. *)

From stdpp Require Import strings.
From S2P Require Import Prelude Wire Ipmi Intf Session Helper CText Bmc.

#[local] Open Scope Z_scope.

Definition IPMI_SET_USER_ACCESS : Z := 0x43.
Definition IPMI_GET_USER_ACCESS : Z := 0x44.
Definition IPMI_SET_USER_NAME : Z := 0x45.
Definition IPMI_GET_USER_NAME : Z := 0x46.
Definition IPMI_SET_USER_PASSWORD : Z := 0x47.
Definition IPMI_PASSWORD_DISABLE_USER : Z := 0x00.
Definition IPMI_PASSWORD_ENABLE_USER : Z := 0x01.
Definition IPMI_PASSWORD_SET_PASSWORD : Z := 0x02.
Definition IPMI_PASSWORD_TEST_PASSWORD : Z := 0x03.
Definition IPMI_UID_MASK : Z := 0x3F.
Definition USER_PW_IPMI15_LEN : Z := 16.
Definition USER_PW_IPMI20_LEN : Z := 20.
Definition USER_PW_MAX_LEN : Z := 20.

Definition IPMI_UID (id : Z) : Z := id .& IPMI_UID_MASK.

(** [struct user_access_t] *)
Record user_access_t := mk_access {
  callin_callback : Z;
  ua_channel : Z;
  enabled_user_ids : Z;
  enable_status : Z;
  fixed_user_ids : Z;
  ipmi_messaging : Z;
  link_auth : Z;
  max_user_ids : Z;
  privilege_limit : Z;
  session_limit : Z;
  ua_user_id : Z;
}.

#[export] Instance user_access_rebuild : Rebuild user_access_t := fun r =>
  mk_access (callin_callback r) (ua_channel r) (enabled_user_ids r) (enable_status r) (fixed_user_ids r)
    (ipmi_messaging r) (link_auth r) (max_user_ids r) (privilege_limit r) (session_limit r) (ua_user_id r).

Definition zero_access : user_access_t := mk_access 0 0 0 0 0 0 0 0 0 0 0.

(** A request of the application network function. *)
Definition app_rq (cmd : Z) (data : list Z) : ipmi_rq := mk_rq IPMI_NETFN_APP 0 cmd 0 data.

Definition is_arg (arg : list Z) (w : string) : bool := bool_decide (arg = text w).

Section User.
Context {dev : Type} `{bmc : Bmc dev} `{mal : Malloc}.

(** [_ipmi_get_user_access]: the code, and the structure that is filled. *)
Definition _ipmi_get_user_access (ua : user_access_t) : M dev (Z * user_access_t) :=
  rsp ← sendrecv (app_rq IPMI_GET_USER_ACCESS [ua_channel ua .& 0x0F; IPMI_UID (ua_user_id ua)]);
  match rsp with
  | None => mret (-1, ua)
  | Some r =>
      if negb (ccode r =? 0) then mret (ccode r, ua)
      else if negb (rs_data_len r =? 4) then mret (-2, ua)
      else
        d ← lift (rsp_bytes r 0 4);
        mret (ccode r, ua <| max_user_ids := IPMI_UID (rd d 0) |>
                         <| enable_status := rd d 1 .& 0xC0 |>
                         <| enabled_user_ids := IPMI_UID (rd d 1) |>
                         <| fixed_user_ids := IPMI_UID (rd d 2) |>
                         <| callin_callback := rd d 3 .& 0x40 |>
                         <| link_auth := rd d 3 .& 0x20 |>
                         <| ipmi_messaging := rd d 3 .& 0x10 |>
                         <| privilege_limit := rd d 3 .& 0x0F |>)
  end.

(** [_ipmi_get_user_name]: the code, and the seventeen bytes of the name when
    they are filled. *)
Definition _ipmi_get_user_name (user_id : Z) : M dev (Z * option (list Z)) :=
  rsp ← sendrecv (app_rq IPMI_GET_USER_NAME [IPMI_UID user_id]);
  match rsp with
  | None => mret (-1, None)
  | Some r =>
      if negb (ccode r =? 0) then mret (ccode r, None)
      else if negb (rs_data_len r =? 16) then mret (-2, None)
      else d ← lift (rsp_bytes r 0 16); mret (ccode r, Some (d ++ [0]))
  end.

(** [_ipmi_set_user_access] *)
Definition set_access_data (ua : user_access_t) (change_priv_limit_only : bool) : list Z :=
  let bit (b v : Z) := if negb (v =? 0) then b else 0 in
  [(((if change_priv_limit_only then 0x00 else 0x80) .| bit 0x40 (callin_callback ua)) .| bit 0x20 (link_auth ua))
     .| bit 0x10 (ipmi_messaging ua) .| (ua_channel ua .& 0x0F);
   IPMI_UID (ua_user_id ua); privilege_limit ua .& 0x0F; session_limit ua .& 0x0F].

Definition _ipmi_set_user_access (ua : user_access_t) (change_priv_limit_only : bool) : M dev Z :=
  rsp ← sendrecv (app_rq IPMI_SET_USER_ACCESS (set_access_data ua change_priv_limit_only));
  mret (match rsp with None => -1 | Some r => ccode r end).

(** [_ipmi_set_user_password]; [password] is a C string without its zero, and
    the part that is copied is as long as the field at most. *)
Definition _ipmi_set_user_password (user_id operation : Z) (password : option (list Z)) (is_twenty_byte : bool) : M dev Z :=
  let data_len := if is_twenty_byte then 22 else 18 in
  match malloc data_len with
  | None => mret (-4)
  | Some _ =>
      let data := zeros data_len in
      data ← lift (or_oob (wr data 0 [(if is_twenty_byte then 0x80 else 0x00) .| IPMI_UID user_id; 0x03 .& operation]));
      data ← (match password with
              | None => mret data
              | Some p => lift (or_oob (wr data 2 (take (Z.to_nat (data_len - 2)) p)))
              end);
      rsp ← sendrecv (app_rq IPMI_SET_USER_PASSWORD data);
      mret (match rsp with None => -1 | Some r => ccode r end)
  end.

(** ** Listing *)

(** A line of the list: the identifier, the name and what is printed of the
    access. *)
Record user_line := mk_line {
  ul_id : Z;
  ul_name : list Z;
  ul_callin : Z;
  ul_link : Z;
  ul_messaging : Z;
  ul_privilege : Z;
}.

Definition dump_user_access (name : list Z) (ua : user_access_t) : user_line :=
  mk_line (ua_user_id ua) (c_string name) (callin_callback ua) (link_auth ua) (ipmi_messaging ua) (privilege_limit ua).

(** The loop of [ipmi_print_user_list]. *)
Fixpoint user_list_loop (n : nat) (channel current_user_id : Z) : M dev (Z * list user_line) :=
  match n with
  | O => fail OutOfFuel
  | S n =>
      '(cc, ua) ← _ipmi_get_user_access (zero_access <| ua_user_id := current_user_id |> <| ua_channel := channel |>);
      if negb (eval_ccode cc =? 0) then mret (-1, []) else
      '(cc, name) ← _ipmi_get_user_name current_user_id;
      if negb (cc =? 0xCC) && negb (eval_ccode cc =? 0) then mret (-1, []) else
      let line := dump_user_access (default (zeros 17) name) ua in
      let next := u8 (current_user_id + 1) in
      if (next <=? max_user_ids ua) && (next <=? IPMI_UID_MAX) then
        '(rc, lines) ← user_list_loop n channel next; mret (rc, line :: lines)
      else mret (0, [line])
  end.

Definition ipmi_print_user_list (channel_number : Z) : M dev (Z * list user_line) := user_list_loop 63 channel_number 1.

(** [ipmi_print_user_summary]: the three numbers that are printed. *)
Definition ipmi_print_user_summary (channel_number : Z) : M dev (Z * option (Z * Z * Z)) :=
  '(cc, ua) ← _ipmi_get_user_access (zero_access <| ua_channel := channel_number |> <| ua_user_id := 1 |>);
  if negb (eval_ccode cc =? 0) then mret (-1, None)
  else mret (0, Some (max_user_ids ua, enabled_user_ids ua, fixed_user_ids ua)).

(** ** The sub-commands: the whole command line is [args] *)

(** [ipmi_user_set_username] *)
Definition ipmi_user_set_username (user_id : Z) (name : list Z) : M dev Z :=
  if 17 <=? zlen name then mret (-1) else
  data ← lift (or_oob (wr (zeros 17) 0 (IPMI_UID user_id :: name)));
  rsp ← sendrecv (app_rq IPMI_SET_USER_NAME data);
  mret (match rsp with None => -1 | Some r => if negb (ccode r =? 0) then -1 else 0 end).

(** [ipmi_user_test_password] *)
Definition ipmi_user_test_password (user_id : Z) (password : list Z) (is_twenty : bool) : M dev Z :=
  ret ← _ipmi_set_user_password user_id IPMI_PASSWORD_TEST_PASSWORD (Some password) is_twenty;
  mret (if ret =? 0 then 0 else -1).

(** The channel of [ipmi_user_summary] and [ipmi_user_list]; [None] for a
    return of -1. *)
Definition list_channel (args : list (list Z)) : option Z :=
  match args with
  | [_] => Some 0x0E
  | [_; ch] => let '(rc, c) := is_ipmi_channel_num (Some ch) in if negb (rc =? 0) then None else c
  | _ => None
  end.

Definition ipmi_user_summary (args : list (list Z)) : M dev (Z * option (Z * Z * Z)) :=
  match list_channel args with None => mret (-1, None) | Some c => ipmi_print_user_summary c end.

Definition ipmi_user_list (args : list (list Z)) : M dev (Z * list user_line) :=
  match list_channel args with None => mret (-1, []) | Some c => ipmi_print_user_list c end.

(** What [ask_password] gives, call by call. *)
Definition prompts : Type := list (option (list Z)).
Definition asked (p : prompts) (n : nat) : option (list Z) := match p !! n with Some o => o | None => None end.

(** [ipmi_user_test] *)
Definition ipmi_user_test (p : prompts) (args : list (list Z)) : M dev Z :=
  let run (id len : list Z) (password : option (list Z)) :=
    let '(rc, user_id) := is_ipmi_user_id (Some id) in
    if negb (rc =? 0) then mret (-1) else
    let '(rc, password_length) := str2int (Some len) in
    let password_length := default 0 password_length in
    if negb (rc =? 0) || (negb (password_length =? 16) && negb (password_length =? 20)) then mret (-1) else
    match password with
    | None => mret (-1)
    | Some pw => ipmi_user_test_password (default 0 user_id) pw (password_length =? 20)
    end in
  match args with
  | [_; id; len] => run id len (asked p 0)
  | [_; id; len; pw] => run id len (Some pw)
  | _ => mret (-1)
  end.

(** [ipmi_user_priv] *)
Definition ipmi_user_priv (args : list (list Z)) : M dev Z :=
  let run (id level : list Z) (ch : option (list Z)) :=
    let '(rc, channel) := match ch with Some ch => is_ipmi_channel_num (Some ch) | None => (0, Some 0x0E) end in
    if negb (rc =? 0) then mret (-1) else
    let '(rc, limit) := is_ipmi_user_priv_limit (Some level) in
    if negb (rc =? 0) then mret (-1) else
    let '(rc, user_id) := is_ipmi_user_id (Some id) in
    if negb (rc =? 0) then mret (-1) else
    cc ← _ipmi_set_user_access (zero_access <| ua_channel := default 0 channel |> <| privilege_limit := default 0 limit |>
           <| ua_user_id := default 0 user_id |>) true;
    mret (if negb (eval_ccode cc =? 0) then -1 else 0) in
  match args with
  | [_; id; level] => run id level None
  | [_; id; level; ch] => run id level (Some ch)
  | _ => mret (-1)
  end.

(** [ipmi_user_mod] *)
Definition ipmi_user_mod (args : list (list Z)) : M dev Z :=
  match args with
  | [w; id] =>
      let '(rc, user_id) := is_ipmi_user_id (Some id) in
      if negb (rc =? 0) then mret (-1) else
      let operation := if is_arg w "disable" then IPMI_PASSWORD_DISABLE_USER else IPMI_PASSWORD_ENABLE_USER in
      cc ← _ipmi_set_user_password (default 0 user_id) operation None false;
      mret (if negb (eval_ccode cc =? 0) then -1 else 0)
  | _ => mret (-1)
  end.

(** The two prompts of [ipmi_user_password]: [None] for a return of -1. *)
Definition prompted_password (p : prompts) : option (list Z) :=
  match asked p 0 with
  | None => None
  | Some password =>
      if USER_PW_MAX_LEN <? Z.min (zlen password) (USER_PW_MAX_LEN + 1) then None else
      match asked p 1 with
      | None => None
      | Some tmp =>
          if negb (Z.min (zlen tmp) (USER_PW_MAX_LEN + 1) =? zlen password) ||
             negb (bool_decide (take (length password) tmp = password)) then None
          else Some password
      end
  end.

(** [ipmi_user_password]; [args] are those behind "set password". *)
Definition ipmi_user_password (p : prompts) (args : list (list Z)) : M dev Z :=
  match args with
  | [] => mret (-1)
  | id :: args =>
      let '(rc, user_id) := is_ipmi_user_id (Some id) in
      if negb (rc =? 0) then mret (-1) else
      match match args with [] => prompted_password p | pw :: _ => Some pw end with
      | None => mret (-1)
      | Some password =>
          let password_len := Z.min (zlen password) (USER_PW_MAX_LEN + 1) in
          match match args with
                | _ :: size :: _ =>
                    let '(rc, t) := str2uchar (Some size) in
                    let t := default 0 t in
                    if negb (rc =? 0) || (negb (t =? USER_PW_IPMI15_LEN) && negb (t =? USER_PW_IPMI20_LEN)) then None else Some t
                | _ => Some (if USER_PW_IPMI15_LEN <? password_len then USER_PW_IPMI20_LEN else USER_PW_IPMI15_LEN)
                end with
          | None => mret (-1)
          | Some password_type =>
              if password_type <? password_len then mret (-1) else
              cc ← _ipmi_set_user_password (default 0 user_id) IPMI_PASSWORD_SET_PASSWORD (Some password)
                     (USER_PW_IPMI15_LEN <? password_type);
              mret (if negb (eval_ccode cc =? 0) then -1 else 0)
          end
      end
  end.

(** [ipmi_user_name]; [args] are those behind "set name". *)
Definition ipmi_user_name (args : list (list Z)) : M dev Z :=
  match args with
  | [id; name] =>
      let '(rc, user_id) := is_ipmi_user_id (Some id) in
      if negb (rc =? 0) then mret (-1) else
      if 16 <? zlen name then mret (-1) else ipmi_user_set_username (default 0 user_id) name
  | _ => mret (-1)
  end.

(** What "user" gives: its code, and what it prints of the users. *)
Inductive user_result := UCode (rc : Z) | UList (rc : Z) (lines : list user_line) | USummary (rc : Z) (numbers : option (Z * Z * Z)).

Definition code_of (m : M dev Z) : M dev user_result := rc ← m; mret (UCode rc).

(** [ipmi_user_main] *)
Definition ipmi_user_main (p : prompts) (args : list (list Z)) : M dev user_result :=
  match args with
  | [] => mret (UCode (-1))
  | w :: rest =>
      if is_arg w "help" then mret (UCode 0)
      else if is_arg w "summary" then '(rc, n) ← ipmi_user_summary args; mret (USummary rc n)
      else if is_arg w "list" then '(rc, lines) ← ipmi_user_list args; mret (UList rc lines)
      else if is_arg w "test" then code_of (ipmi_user_test p args)
      else if is_arg w "set" then
        match rest with
        | w :: rest =>
            if is_arg w "password" && negb (bool_decide (rest = [])) then code_of (ipmi_user_password p rest)
            else if is_arg w "name" then code_of (ipmi_user_name rest)
            else mret (UCode (-1))
        | [] => mret (UCode (-1))
        end
      else if is_arg w "priv" then code_of (ipmi_user_priv args)
      else if is_arg w "disable" || is_arg w "enable" then code_of (ipmi_user_mod args)
      else mret (UCode (-1))
  end.
End User.
