(* ===== verification/UserProps.v ===== *)
(** * Correctness of the user commands (lib/ipmi_user.c)

    Any sequence of "user" commands acts on the accounts of the controller as
    the same sequence acts on a table of accounts. *)

From stdpp Require Import strings.
From S2P Require Import Prelude Wire Ipmi Intf Session Helper CText Bmc User.

#[local] Open Scope Z_scope.

(** ** Accounts

    [ac_access] is the access byte of each channel, [ac_password] the size, true
    for twenty bytes, and the bytes that are stored. *)
Record account := mk_account {
  ac_name : list Z;
  ac_enabled : bool;
  ac_password : bool * list Z;
  ac_access : Z -> Z;
}.

Definition with_name (n : list Z) (a : account) : account := mk_account n (ac_enabled a) (ac_password a) (ac_access a).
Definition with_enabled (b : bool) (a : account) : account := mk_account (ac_name a) b (ac_password a) (ac_access a).
Definition with_password (p : bool * list Z) (a : account) : account := mk_account (ac_name a) (ac_enabled a) p (ac_access a).
Definition with_limit (ch limit : Z) (a : account) : account :=
  mk_account (ac_name a) (ac_enabled a) (ac_password a)
    (fun c => if c =? ch then (ac_access a c .& 0x70) .| limit else ac_access a c).

(** A string in a field of [n] bytes. *)
Definition field_of (n : Z) (s : list Z) : list Z := take (Z.to_nat n) s ++ zeros (n - zlen s).
Definition stored_password (twenty : bool) (p : list Z) : bool * list Z := (twenty, field_of (if twenty then 20 else 16) p).

(** ** What a controller with accounts promises

    Its accounts have the identifiers from 1 to [max]; [chan] says which
    channel a channel number of a request means. *)

(** A request changes the account [id] by [f], or is refused when there is no
    such account. *)
Definition performs {dev} `{bmc : Bmc dev} (users : dev -> gmap Z account) (req : ipmi_rq) (id : Z) (f : account -> account) (d : dev) : Prop :=
  exists o d', bmc_answer req d = (o, d') /\ users d' = alter f id (users d) /\
    match users d !! id with
    | Some _ => exists r, o = Some r /\ ccode r = 0
    | None => match o with Some r => ccode r <> 0 | None => True end
    end.

Class UserStore {dev : Type} {bmc : Bmc dev} (users : dev -> gmap Z account) (max : Z) (chan : Z -> Z) := {
  us_max : 1 <= max <= 63;
  us_ids : forall d id, is_Some (users d !! id) <-> 1 <= id <= max;
  us_field : forall d id a, users d !! id = Some a -> zlen (ac_name a) = 16;
  us_get_access : forall d ch id a, 0 <= ch < 16 -> users d !! id = Some a -> exists r d' enabled fixed,
    bmc_answer (app_rq IPMI_GET_USER_ACCESS [ch; id]) d = (Some r, d') /\ ccode r = 0 /\
    carries r [max; enabled; fixed; ac_access a (chan ch)] /\ users d' = users d;
  us_get_name : forall d id a, users d !! id = Some a -> exists r d',
    bmc_answer (app_rq IPMI_GET_USER_NAME [id]) d = (Some r, d') /\ users d' = users d /\
    (ccode r = 0 /\ carries r (ac_name a) \/ ccode r = 0xCC /\ ac_name a = zeros 16);
  us_set_name : forall d id name, 1 <= id <= 63 -> zlen name = 16 ->
    performs users (app_rq IPMI_SET_USER_NAME (id :: name)) id (with_name name) d;
  us_set_access : forall d ch id limit, 0 <= ch < 16 -> 1 <= id <= 63 -> 0 <= limit < 16 ->
    performs users (app_rq IPMI_SET_USER_ACCESS [ch; id; limit; 0]) id (with_limit (chan ch) limit) d;
  us_enable : forall d id (b : bool) pad, 1 <= id <= 63 -> zlen pad = 16 ->
    performs users (app_rq IPMI_SET_USER_PASSWORD ([id; if b then 1 else 0] ++ pad)) id (with_enabled b) d;
  us_set_password : forall d id (twenty : bool) p, 1 <= id <= 63 -> zlen p = (if twenty then 20 else 16) ->
    performs users (app_rq IPMI_SET_USER_PASSWORD ([(if twenty then 0x80 else 0) .| id; 2] ++ p)) id (with_password (twenty, p)) d;
  us_test : forall d id (twenty : bool) p, 1 <= id <= 63 -> zlen p = (if twenty then 20 else 16) -> exists o d',
    bmc_answer (app_rq IPMI_SET_USER_PASSWORD ([(if twenty then 0x80 else 0) .| id; 3] ++ p)) d = (o, d') /\ users d' = users d /\
    ((exists r, o = Some r /\ ccode r = 0) <-> exists a, users d !! id = Some a /\ ac_password a = (twenty, p));
}.

(** ** Commands and their meaning *)

Inductive user_cmd :=
  | UName (id : Z) (name : list Z)
  | UPassword (id : Z) (p : list Z) (twenty : option bool)
  | UTest (id : Z) (twenty : bool) (p : list Z)
  | UEnable (id : Z) (b : bool)
  | UPriv (id limit : Z) (ch : option Z)
  | UShow (ch : option Z).

Definition size_word (twenty : bool) : list Z := text (if twenty then "20" else "16").

(** On the command line. *)
Definition cmd_words (c : user_cmd) : list (list Z) :=
  match c with
  | UName id name => [text "set"; text "name"; dec id; name]
  | UPassword id p twenty => [text "set"; text "password"; dec id; p] ++ match twenty with Some t => [size_word t] | None => [] end
  | UTest id twenty p => [text "test"; dec id; size_word twenty; p]
  | UEnable id b => [text (if b then "enable" else "disable"); dec id]
  | UPriv id limit ch => [text "priv"; dec id; dec limit] ++ match ch with Some c => [dec c] | None => [] end
  | UShow ch => text "list" :: match ch with Some c => [dec c] | None => [] end
  end.

(** The numbers of a command are bytes. *)
Definition cmd_ok (c : user_cmd) : Prop :=
  match c with
  | UName id _ | UPassword id _ _ | UTest id _ _ | UEnable id _ => is_u8 id
  | UPriv id limit ch => is_u8 id /\ is_u8 limit /\ from_option is_u8 True ch
  | UShow ch => from_option is_u8 True ch
  end.

Definition valid_id (id : Z) : bool := (1 <=? id) && (id <=? 63).
Definition valid_limit (l : Z) : bool := (1 <=? l) && (l <=? 5) || (l =? 0xF).
Definition valid_channel (c : Z) : bool := (0 <=? c) && (c <=? 0xB) || (0xE <=? c) && (c <=? 0xF).

Section Meaning.
Context (max : Z) (chan : Z -> Z).

(** A change of an account, when there is one. *)
Definition amend (ok : bool) (id : Z) (f : account -> account) (t : gmap Z account) : user_result * gmap Z account :=
  if ok && valid_id id && bool_decide (is_Some (t !! id)) then (UCode 0, alter f id t) else (UCode (-1), t).

Definition line_of_account (ch : Z) (t : gmap Z account) (id : Z) : user_line :=
  match t !! id with
  | Some a =>
      let b := ac_access a (chan ch) in
      mk_line id (c_string (ac_name a ++ [0])) (b .& 0x40) (b .& 0x20) (b .& 0x10) (b .& 0x0F)
  | None => mk_line id [] 0 0 0 0
  end.

Definition user_spec (c : user_cmd) (t : gmap Z account) : user_result * gmap Z account :=
  match c with
  | UName id name => amend (zlen name <=? 16) id (with_name (field_of 16 name)) t
  | UPassword id p twenty =>
      let size := default (16 <? zlen p) twenty in
      amend (zlen p <=? if size then 20 else 16) id (with_password (stored_password size p)) t
  | UTest id twenty p =>
      (UCode (match t !! id with
              | Some a => if valid_id id && bool_decide (ac_password a = stored_password twenty p) then 0 else -1
              | None => -1
              end), t)
  | UEnable id b => amend true id (with_enabled b) t
  | UPriv id limit ch =>
      let c := default 0xE ch in
      amend (valid_limit limit && valid_channel c) id (with_limit (chan c) limit) t
  | UShow ch =>
      let c := default 0xE ch in
      (if valid_channel c then UList 0 (map (line_of_account c t) (seqZ 1 max)) else UList (-1) [], t)
  end.
End Meaning.

(** ** Arguments *)

Lemma uid_parses id : is_u8 id -> is_ipmi_user_id (Some (dec id)) = (if valid_id id then 0 else -1, Some id).
Proof. intros H. unfold is_ipmi_user_id, checked_uchar. by rewrite (proj1 (dec_parses id H)). Qed.

Lemma limit_parses l : is_u8 l -> is_ipmi_user_priv_limit (Some (dec l)) = (if valid_limit l then 0 else -1, Some l).
Proof.
  intros H. unfold is_ipmi_user_priv_limit, checked_uchar. rewrite (proj1 (dec_parses l H)). change (default 0 (Some l)) with l. f_equal.
  change (0 =? 0) with true. cbn [andb]. unfold valid_limit. f_equal. unfold is_u8 in H.
  destruct (Z.ltb_spec l 1), (Z.ltb_spec 5 l), (Z.leb_spec 1 l), (Z.leb_spec l 5), (Z.eqb_spec l 15); (done || lia).
Qed.

Lemma channel_parses c : is_u8 c -> is_ipmi_channel_num (Some (dec c)) = (if valid_channel c then 0 else -1, Some c).
Proof.
  intros H. unfold is_ipmi_channel_num, checked_uchar. rewrite (proj1 (dec_parses c H)). change (default 0 (Some c)) with c. f_equal.
  change (0 =? 0) with true. cbn [andb]. unfold valid_channel. unfold is_u8 in H.
  rewrite (proj2 (Z.leb_le 0 c)) by lia. done.
Qed.

Lemma size_parses (t : bool) : str2uchar (Some (size_word t)) = (0, Some (if t then 20 else 16)) /\
  str2int (Some (size_word t)) = (0, Some (if t then 20 else 16)).
Proof. by destruct t. Qed.

Lemma uid_masked id : 0 <= id <= 63 -> IPMI_UID id = id.
Proof. intros H. unfold IPMI_UID, IPMI_UID_MASK. change 63 with (Z.ones 6). rewrite Z.land_ones by lia. apply Z.mod_small. change (2 ^ 6) with 64. lia. Qed.

Lemma channel_masked c : 0 <= c < 16 -> c .& 15 = c.
Proof. intros H. change 15 with (Z.ones 4). rewrite Z.land_ones by lia. apply Z.mod_small. change (2 ^ 4) with 16. lia. Qed.

(** ** The requests *)

Lemma zlen_field n s : 0 <= n -> zlen (field_of n s) = n.
Proof.
  intros H. unfold field_of. rewrite zlen_app, zlen_take. unfold zeros. rewrite zlen_replicate. pose proof (zlen_nonneg s). lia.
Qed.

(** A string is written behind [h] into a cleared buffer. *)
Lemma wr_field h n s : 0 <= n -> wr (h ++ zeros n) (zlen h) (take (Z.to_nat n) s) = Some (h ++ field_of n s).
Proof.
  intros H. pose proof (zlen_nonneg s). rewrite wr_next by (rewrite ?zlen_take, ?zlen_zeros; lia).
  rewrite <- app_assoc. unfold field_of. rewrite zlen_take. unfold zeros. rewrite drop_replicate.
  replace (Z.to_nat n - Z.to_nat (Z.of_nat (Z.to_nat n) `min` zlen s))%nat with (Z.to_nat (n - zlen s)) by lia. done.
Qed.

Section Requests.
Context {dev : Type} {bmc : Bmc dev} {mal : Malloc} (users : dev -> gmap Z account) (max : Z) (chan : Z -> Z).
Context {store : UserStore users max chan}.
Hypothesis Hmem : forall n, is_Some (malloc n).

Lemma password_rq id op (p : option (list Z)) (twenty : bool) d : 1 <= id <= 63 -> 0 <= op <= 3 ->
  _ipmi_set_user_password id op p twenty d =
  Ok (match (bmc_answer (app_rq IPMI_SET_USER_PASSWORD
        ([(if twenty then 0x80 else 0) .| id; op] ++ field_of (if twenty then 20 else 16) (default [] p))) d).1 with
      | Some r => ccode r | None => -1 end,
      (bmc_answer (app_rq IPMI_SET_USER_PASSWORD
        ([(if twenty then 0x80 else 0) .| id; op] ++ field_of (if twenty then 20 else 16) (default [] p))) d).2).
Proof using Hmem.
  intros Hid Hop. unfold _ipmi_set_user_password. set (n := if twenty then 20 else 16).
  replace (if twenty then 22 else 18) with (2 + n) by (by destruct twenty). destruct (Hmem (2 + n)) as [b ->].
  assert (0 <= n) as Hn by (unfold n; by destruct twenty). rewrite uid_masked by lia.
  set (h := (if twenty then 128 else 0) .| id).
  replace (3 .& op) with op by (assert (op = 0 \/ op = 1 \/ op = 2 \/ op = 3) as [-> | [-> | [-> | ->]]] by lia; done).
  replace (zeros (2 + n)) with ([] ++ [0; 0] ++ zeros n) by (unfold n; by destruct twenty).
  rewrite (wr_at [] [0; 0] (zeros n) [h; op] 0), lift_Some_bind by done. cbn [app].
  assert ((match p with None => mret ([h; op] ++ zeros n)
    | Some p => lift (or_oob (wr ([h; op] ++ zeros n) 2 (take (Z.to_nat (2 + n - 2)) p))) end) d = Ok ([h; op] ++ field_of n (default [] p), d)) as E.
  { destruct p as [p|].
    - replace (2 + n - 2) with n by lia. rewrite (wr_field [h; op]) by done. done.
    - unfold field_of. change (default [] None) with (@nil Z). rewrite take_nil. change (zlen []) with 0. by rewrite Z.sub_0_r. }
  rewrite (M_bind_run _ _ _ _ _ E). unfold sendrecv, mbind, M_bind, mret, M_ret. by destruct (bmc_answer _ d) as [[r|] d'].
Qed.

(** What the controller performs becomes the code. *)
Lemma performs_run req id f d : performs users req id f d -> exists o d', bmc_answer req d = (o, d') /\
  users d' = alter f id (users d) /\
  ((match o with Some r => ccode r | None => -1 end) =? 0) = bool_decide (is_Some (users d !! id)).
Proof.
  intros (o & d' & E & U & H). exists o, d'. split; [done |]. split; [done |].
  destruct (users d !! id) as [a|].
  - destruct H as (r & -> & ->). by rewrite bool_decide_eq_true_2.
  - rewrite bool_decide_eq_false_2 by apply is_Some_None. destruct o; [by apply Z.eqb_neq | done].
Qed.

Lemma alter_none f id (t : gmap Z account) : ~ is_Some (t !! id) -> alter f id t = t.
Proof.
  intros H. apply map_eq. intros j. destruct (decide (j = id)) as [->|Hj]; [| by apply lookup_alter_ne].
  destruct (t !! id) eqn:E; [exfalso; apply H; by eexists |]. by rewrite lookup_alter_eq, E.
Qed.

(** A change that the controller performs is the one of the table. *)
Lemma amend_run (m : M dev Z) id f d o d' : 1 <= id <= 63 -> users d' = alter f id (users d) ->
  ((match o with Some r => ccode r | None => -1 end) =? 0) = bool_decide (is_Some (users d !! id)) ->
  m d = Ok (if (match o with Some r => ccode r | None => -1 end) =? 0 then 0 else -1, d') ->
  exists d', code_of m d = Ok ((amend true id f (users d)).1, d') /\ users d' = (amend true id f (users d)).2.
Proof.
  intros Hid U Hc E. exists d'. unfold code_of. rewrite (M_bind_run _ _ _ _ _ E), Hc. unfold amend, valid_id.
  rewrite !(proj2 (Z.leb_le _ _)) by lia. cbn [andb]. rewrite U. case_bool_decide as Hs; [done |]. split; [done |]. by apply alter_none.
Qed.
Lemma code_of_eq (m m' : M dev Z) d : m d = m' d -> code_of m d = code_of m' d.
Proof. intros E. unfold code_of, mbind, M_bind. by rewrite E. Qed.

(** A command that sends nothing. *)
Lemma refused_run (m : M dev Z) ok id f d : m d = Ok (-1, d) -> ok && valid_id id = false ->
  exists d', code_of m d = Ok ((amend ok id f (users d)).1, d') /\ users d' = (amend ok id f (users d)).2.
Proof. intros E H. exists d. unfold code_of, amend. rewrite (M_bind_run _ _ _ _ _ E), H. done. Qed.

Lemma valid_range id : valid_id id = true -> 1 <= id <= 63.
Proof. unfold valid_id. intros H. bool_hyps. lia. Qed.

Lemma code_test (x : Z) : (if negb (eval_ccode x =? 0) then -1 else 0) = if x =? 0 then 0 else -1.
Proof. unfold eval_ccode. by destruct (x =? 0). Qed.

Lemma name_run id name d : is_u8 id ->
  exists d', code_of (ipmi_user_name [dec id; name]) d = Ok ((amend (zlen name <=? 16) id (with_name (field_of 16 name)) (users d)).1, d') /\
    users d' = (amend (zlen name <=? 16) id (with_name (field_of 16 name)) (users d)).2.
Proof using store.
  intros Hid. unfold ipmi_user_name. rewrite uid_parses by done. destruct (valid_id id) eqn:Hv.
  2: { apply refused_run; [done | by rewrite Hv, andb_false_r]. }
  apply valid_range in Hv. change (negb (0 =? 0)) with false. cbv match. rewrite (Z.ltb_antisym (zlen name) 16). pose proof (zlen_nonneg name).
  destruct (Z.leb_spec (zlen name) 16) as [Hn|Hn]; cbn [negb].
  2: { by apply refused_run. }
  change (default 0 (Some id)) with id.
  destruct (performs_run _ _ _ _ (us_set_name d id (field_of 16 name) Hv ltac:(apply zlen_field; lia))) as (o & d' & E & U & Hc).
  apply (amend_run _ id _ d o d' Hv U Hc). unfold ipmi_user_set_username.
  rewrite (proj2 (Z.leb_gt 17 (zlen name))) by lia. rewrite uid_masked by lia.
  assert (wr (zeros 17) 0 (id :: name) = Some (id :: field_of 16 name)) as ->.
  { change (zeros 17) with ([] ++ zeros 17). rewrite wr_next by (rewrite ?zlen_cons, ?zlen_zeros; (done || lia)). cbn [app].
    f_equal. f_equal. unfold field_of. rewrite take_ge by (unfold zlen in Hn; lia). f_equal. unfold zeros. rewrite drop_replicate, zlen_cons.
    f_equal. lia. }
  rewrite lift_Some_bind, (sendrecv_bind _ _ _ _ _ E). unfold mret, M_ret. destruct o as [r|]; [| done]. by destruct (ccode r =? 0).
Qed.

Lemma set_password_run id p (twenty : option bool) pr d : is_u8 id ->
  exists d', code_of (ipmi_user_password pr ([dec id; p] ++ match twenty with Some t => [size_word t] | None => [] end)) d =
      Ok ((user_spec max chan (UPassword id p twenty) (users d)).1, d') /\
    users d' = (user_spec max chan (UPassword id p twenty) (users d)).2.
Proof using store Hmem.
  intros Hid. cbn [user_spec]. set (size := default (16 <? zlen p) twenty). cbn [app]. unfold ipmi_user_password.
  rewrite uid_parses by done. destruct (valid_id id) eqn:Hv.
  2: { apply refused_run; [done | by rewrite Hv, andb_false_r]. }
  apply valid_range in Hv. change (negb (0 =? 0)) with false. cbv match. change (default 0 (Some id)) with id.
  set (len := Z.min (zlen p) (USER_PW_MAX_LEN + 1)).
  match goal with |- context [code_of (match ?x with Some _ => _ | None => _ end)] =>
    assert (x = Some (if size then 20 else 16)) as -> end.
  { destruct twenty as [t|]; subst size.
    - rewrite (proj1 (size_parses t)). by destruct t.
    - cbn [default]. f_equal. unfold len, USER_PW_IPMI15_LEN, USER_PW_IPMI20_LEN, USER_PW_MAX_LEN.
      change (default (16 <? zlen p) None) with (16 <? zlen p).
      destruct (Z.ltb_spec 16 (zlen p)), (Z.ltb_spec 16 (Z.min (zlen p) (20 + 1))); (done || lia). }
  assert (((if size then 20 else 16) <? len) = negb (zlen p <=? if size then 20 else 16)) as ->.
  { unfold len, USER_PW_MAX_LEN. destruct size;
      [destruct (Z.ltb_spec 20 (Z.min (zlen p) (20 + 1))), (Z.leb_spec (zlen p) 20) |
       destruct (Z.ltb_spec 16 (Z.min (zlen p) (20 + 1))), (Z.leb_spec (zlen p) 16)]; (done || lia). }
  destruct (zlen p <=? if size then 20 else 16) eqn:Hfit; cbn [negb].
  2: { by apply refused_run. }
  destruct (performs_run _ _ _ _ (us_set_password d id size (field_of (if size then 20 else 16) p) Hv
    ltac:(apply zlen_field; by destruct size))) as (o & d' & E & U & Hc).
  apply (amend_run _ id _ d o d' Hv U Hc).
  replace (USER_PW_IPMI15_LEN <? (if size then 20 else 16)) with size by (by destruct size).
  rewrite (M_bind_run _ _ _ _ _ (password_rq id 2 (Some p) size d Hv ltac:(lia))). change (default [] (Some p)) with p.
  rewrite E. cbn [fst snd]. unfold mret, M_ret. by rewrite code_test.
Qed.

Lemma test_run id (twenty : bool) p pr d : is_u8 id ->
  exists d', code_of (ipmi_user_test pr [text "test"; dec id; size_word twenty; p]) d =
      Ok ((user_spec max chan (UTest id twenty p) (users d)).1, d') /\ users d' = users d.
Proof using store Hmem.
  intros Hid. cbn [user_spec fst]. unfold ipmi_user_test. rewrite uid_parses by done. destruct (valid_id id) eqn:Hv.
  2: { exists d. split; [| done]. cbn [andb]. by destruct (users d !! id). }
  apply valid_range in Hv. change (negb (0 =? 0)) with false. cbv match. rewrite (proj2 (size_parses twenty)).
  change (default 0 (Some ?x)) with x.
  replace (negb (0 =? 0) || _) with false by (by destruct twenty). change (default 0 (Some id)) with id.
  replace ((if twenty then 20 else 16) =? 20) with twenty by (by destruct twenty). cbn [andb].
  destruct (us_test d id twenty (field_of (if twenty then 20 else 16) p) Hv ltac:(apply zlen_field; by destruct twenty))
    as (o & d' & E & U & Hc).
  exists d'. split; [| done]. unfold code_of, ipmi_user_test_password.
  unfold mbind at 1, M_bind at 1. rewrite (M_bind_run _ _ _ _ _ (password_rq id 3 (Some p) twenty d Hv ltac:(lia))).
  change (default [] (Some p)) with p. rewrite E. cbn [fst snd]. unfold mret, M_ret. do 3 f_equal.
  assert (((match o with Some r => ccode r | None => -1 end) =? 0) =
    match users d !! id with Some a => bool_decide (ac_password a = stored_password twenty p) | None => false end) as ->.
  { destruct (users d !! id) as [a|] eqn:Ea.
    - case_bool_decide as Hp.
      + destruct (proj2 Hc) as (r & -> & ->); [by exists a | done].
      + apply Z.eqb_neq. intros Ez. destruct o as [r|]; [| done].
        destruct (proj1 Hc) as (a' & [= <-] & H); [by exists r | done].
    - apply Z.eqb_neq. intros Ez. destruct o as [r|]; [| done]. destruct (proj1 Hc) as (a' & H & _); [by exists r | done]. }
  by destruct (users d !! id).
Qed.

Lemma enable_run id (b : bool) d : is_u8 id ->
  exists d', code_of (ipmi_user_mod [text (if b then "enable" else "disable"); dec id]) d =
      Ok ((amend true id (with_enabled b) (users d)).1, d') /\ users d' = (amend true id (with_enabled b) (users d)).2.
Proof using store Hmem.
  intros Hid. unfold ipmi_user_mod. rewrite uid_parses by done. destruct (valid_id id) eqn:Hv.
  2: { apply refused_run; [done | by rewrite Hv]. }
  apply valid_range in Hv. change (negb (0 =? 0)) with false. cbv match. change (default 0 (Some id)) with id.
  destruct (performs_run _ _ _ _ (us_enable d id b (field_of 16 []) Hv ltac:(by apply zlen_field))) as (o & d' & E & U & Hc).
  apply (amend_run _ id _ d o d' Hv U Hc).
  replace (if is_arg _ "disable" then IPMI_PASSWORD_DISABLE_USER else IPMI_PASSWORD_ENABLE_USER) with (if b then 1 else 0)
    by (destruct b; vm_compute; reflexivity).
  rewrite (M_bind_run _ _ _ _ _ (password_rq id (if b then 1 else 0) None false d Hv ltac:(destruct b; lia))).
  change (default [] None) with (@nil Z). change (0 .| id) with id. rewrite E. cbn [fst snd]. unfold mret, M_ret. by rewrite code_test.
Qed.

Lemma valid_channel_range c : valid_channel c = true -> 0 <= c < 16.
Proof. unfold valid_channel. intros H. bool_hyps. lia. Qed.

Lemma priv_run id limit (ch : option Z) d : is_u8 id -> is_u8 limit -> from_option is_u8 True ch ->
  exists d', code_of (ipmi_user_priv ([text "priv"; dec id; dec limit] ++ match ch with Some c => [dec c] | None => [] end)) d =
      Ok ((user_spec max chan (UPriv id limit ch) (users d)).1, d') /\ users d' = (user_spec max chan (UPriv id limit ch) (users d)).2.
Proof using store.
  intros Hid Hl Hch. cbn [user_spec]. set (c := default 14 ch).
  assert (ipmi_user_priv ([text "priv"; dec id; dec limit] ++ match ch with Some c => [dec c] | None => [] end) d =
    (if negb (valid_channel c) then mret (-1) else if negb (valid_limit limit) then mret (-1) else if negb (valid_id id) then mret (-1) else
     cc ← _ipmi_set_user_access (zero_access <| ua_channel := c |> <| privilege_limit := limit |> <| ua_user_id := id |>) true;
     mret (if negb (eval_ccode cc =? 0) then -1 else 0)) d) as Erun.
  { unfold c. destruct ch as [c'|]; cbn [app ipmi_user_priv].
    - rewrite channel_parses, limit_parses, uid_parses by done. change (default 14 (Some c')) with c'.
      destruct (valid_channel c'), (valid_limit limit), (valid_id id); reflexivity.
    - rewrite limit_parses, uid_parses by done. destruct (valid_limit limit), (valid_id id); reflexivity. }
  rewrite (code_of_eq _ _ _ Erun). clear Erun. set (f := with_limit (chan c) limit).
  destruct (valid_channel c) eqn:Hc; cbn [negb]; [| by apply refused_run; rewrite ?andb_false_r].
  destruct (valid_limit limit) eqn:Hlim; cbn [negb]; [| by apply refused_run].
  destruct (valid_id id) eqn:Hv; cbn [negb]; [| by apply refused_run; rewrite ?Hv].
  apply valid_range in Hv. apply valid_channel_range in Hc. cbn [andb].
  assert (0 <= limit < 16) as Hl4 by (unfold valid_limit in Hlim; bool_hyps; lia).
  destruct (performs_run _ _ _ _ (us_set_access d c id limit Hc Hv Hl4)) as (o & d' & E & U & Ho).
  apply (amend_run _ id _ d o d' Hv U Ho). unfold _ipmi_set_user_access.
  assert (forall s, set_access_data (zero_access <| ua_channel := c |> <| privilege_limit := limit |> <| ua_user_id := id |> <| session_limit := s |>) true
    = [c; id; limit; s .& 15]) as Hdata.
  { intros s. unfold set_access_data. cbn -[Z.land]. by rewrite uid_masked, !channel_masked by lia. }
  change (zero_access <| ua_channel := c |> <| privilege_limit := limit |> <| ua_user_id := id |>) with
    (zero_access <| ua_channel := c |> <| privilege_limit := limit |> <| ua_user_id := id |> <| session_limit := 0 |>).
  rewrite Hdata. change (0 .& 15) with 0. unfold mbind at 1, M_bind at 1. rewrite (sendrecv_bind _ _ _ _ _ E).
  unfold mret, M_ret. by rewrite code_test.
Qed.

(** The access and the name of an account. *)
Lemma get_access_run d ch id a : 0 <= ch < 16 -> users d !! id = Some a -> exists ua d',
  _ipmi_get_user_access (zero_access <| ua_user_id := id |> <| ua_channel := ch |>) d = Ok (0, ua, d') /\ users d' = users d /\
  max_user_ids ua = max /\ forall name, dump_user_access name ua =
    let b := ac_access a (chan ch) in mk_line id (c_string name) (b .& 0x40) (b .& 0x20) (b .& 0x10) (b .& 0x0F).
Proof using store.
  intros Hch Ea. pose proof (us_max (users := users)) as Hmax. pose proof (proj1 (us_ids d id) ltac:(by eexists)) as Hid.
  destruct (us_get_access d ch id a Hch Ea) as (r & d1 & en & fx & E & Hc & Hr & U).
  unfold _ipmi_get_user_access. cbn [ua_channel ua_user_id update]. rewrite uid_masked by lia.
  change 0x0F with 15. rewrite channel_masked by done. rewrite (sendrecv_bind _ _ _ _ _ E), Hc.
  change (negb (0 =? 0)) with false. cbv match. rewrite (proj1 Hr). change (zlen _) with 4. change (negb (4 =? 4)) with false. cbv match.
  rewrite (carries_bytes r _ Hr 0 4), lift_Ok_bind by (change (zlen _) with 4; lia).
  rewrite slice_all by done. do 2 eexists. split; [reflexivity |]. split; [exact U |]. split; [by apply uid_masked; lia | done].
Qed.

Lemma get_name_run d id a : users d !! id = Some a -> exists cc name d',
  _ipmi_get_user_name id d = Ok (cc, name, d') /\ users d' = users d /\ negb (cc =? 0xCC) && negb (eval_ccode cc =? 0) = false /\
  c_string (default (zeros 17) name) = c_string (ac_name a ++ [0]).
Proof using store.
  intros Ea. pose proof (us_max (users := users)) as Hmax. pose proof (proj1 (us_ids d id) ltac:(by eexists)) as Hid.
  pose proof (us_field d id a Ea) as H16. destruct (us_get_name d id a Ea) as (r & d' & E & U & H).
  unfold _ipmi_get_user_name. rewrite uid_masked, (sendrecv_bind _ _ _ _ _ E) by lia.
  destruct H as [[Hc Hr]|[Hc Hz]]; rewrite Hc.
  - change (negb (0 =? 0)) with false. cbv match. rewrite (proj1 Hr), H16. change (negb (16 =? 16)) with false. cbv match.
    rewrite (carries_bytes r _ Hr 0 16), lift_Ok_bind, slice_all by lia. do 3 eexists. split; [reflexivity |]. by split_and!.
  - do 3 eexists. split; [reflexivity |]. split_and!; try done. by rewrite Hz.
Qed.

(** Every account is listed. *)
Lemma list_run_from fuel : forall ch d id, 0 <= ch < 16 -> 1 <= id <= max -> (Z.to_nat (max - id) < fuel)%nat ->
  exists d', user_list_loop fuel ch id d = Ok (0, map (line_of_account chan ch (users d)) (seqZ id (max - id + 1)), d') /\ users d' = users d.
Proof using store.
  induction fuel as [|fuel IH]; intros ch d id Hch Hid Hf; [lia |]. pose proof (us_max (users := users)) as Hmax.
  destruct (proj2 (us_ids d id) Hid) as [a Ea]. cbn [user_list_loop].
  destruct (get_access_run d ch id a Hch Ea) as (ua & d1 & E1 & U1 & Hm & Hline). rewrite (M_bind_run _ _ _ _ _ E1).
  change (negb (eval_ccode 0 =? 0)) with false. cbv match.
  destruct (get_name_run d1 id a) as (cc & name & d2 & E2 & U2 & Hcc & Hname); [by rewrite U1 |]. rewrite (M_bind_run _ _ _ _ _ E2), Hcc.
  rewrite Hm, Hline, Hname, u8_small by (unfold is_u8; lia).
  rewrite seqZ_cons by lia. change (Z.succ id) with (id + 1). replace (Z.pred (max - id + 1)) with (max - (id + 1) + 1) by lia. cbn [map]. replace (line_of_account chan ch (users d) id) with
    (let b := ac_access a (chan ch) in mk_line id (c_string (ac_name a ++ [0])) (b .& 0x40) (b .& 0x20) (b .& 0x10) (b .& 0x0F))
    by (unfold line_of_account; by rewrite Ea).
  replace ((id + 1 <=? max) && (id + 1 <=? IPMI_UID_MAX)) with (id + 1 <=? max)
    by (unfold IPMI_UID_MAX; destruct (Z.leb_spec (id + 1) max), (Z.leb_spec (id + 1) 63); (done || lia)).
  assert (users d2 = users d) as U by congruence. destruct (Z.leb_spec (id + 1) max) as [Hle|Hgt].
  - destruct (IH ch d2 (id + 1)) as (d3 & E3 & U3); [done | lia | lia |]. rewrite (M_bind_run _ _ _ _ _ E3), U.
    exists d3. by split; [| congruence].
  - exists d2. split; [| done]. unfold mret, M_ret. by replace (max - (id + 1) + 1) with 0 by lia.
Qed.

Lemma show_run (ch : option Z) pr d : from_option is_u8 True ch ->
  exists d', ipmi_user_main pr (cmd_words (UShow ch)) d = Ok ((user_spec max chan (UShow ch) (users d)).1, d') /\ users d' = users d.
Proof using store.
  intros Hch. cbn [user_spec fst]. set (c := default 14 ch).
  assert (ipmi_user_main pr (cmd_words (UShow ch)) d =
    (if valid_channel c then '(rc, lines) ← ipmi_print_user_list c; mret (UList rc lines) else mret (UList (-1) [])) d) as ->.
  { unfold c. destruct ch as [c'|]; cbn [cmd_words ipmi_user_main]; unfold is_arg; keywords; cbv iota; [| done].
    unfold ipmi_user_list, list_channel. rewrite channel_parses by done. change (default 14 (Some c')) with c'. by destruct (valid_channel c'). }
  destruct (valid_channel c) eqn:Hc; [| by exists d]. apply valid_channel_range in Hc. pose proof (us_max (users := users)) as Hmax.
  destruct (list_run_from 63 c d 1 Hc ltac:(lia) ltac:(lia)) as (d' & E & U). exists d'. split; [| done].
  unfold ipmi_print_user_list. rewrite (M_bind_run _ _ _ _ _ E). by replace (max - 1 + 1) with max by lia.
Qed.

(** A command does what it means. *)
Lemma user_cmd_run pr c d : cmd_ok c -> exists d',
  ipmi_user_main pr (cmd_words c) d = Ok ((user_spec max chan c (users d)).1, d') /\ users d' = (user_spec max chan c (users d)).2.
Proof using store Hmem.
  destruct c as [id name | id p t | id t p | id b | id limit ch | ch]; intros Hok; cbn [cmd_ok] in Hok.
  - cbn [cmd_words ipmi_user_main]. unfold is_arg. keywords. cbv iota. cbn [andb]. by apply name_run.
  - assert (ipmi_user_main pr (cmd_words (UPassword id p t)) d =
      code_of (ipmi_user_password pr ([dec id; p] ++ match t with Some t => [size_word t] | None => [] end)) d) as ->.
    { cbn [cmd_words app ipmi_user_main]. unfold is_arg. keywords. cbv iota. cbn [andb]. by rewrite bool_decide_eq_false_2. }
    by apply set_password_run.
  - cbn [cmd_words ipmi_user_main]. unfold is_arg. keywords. cbv iota. by apply test_run.
  - destruct b; cbn [cmd_words ipmi_user_main]; unfold is_arg; keywords; cbv iota; cbn [orb].
    + exact (enable_run id true d Hok).
    + exact (enable_run id false d Hok).
  - destruct Hok as (Hid & Hl & Hch). cbn [cmd_words app ipmi_user_main]. unfold is_arg. keywords. cbv iota. by apply priv_run.
  - destruct (show_run ch pr d Hok) as (d' & E & U). by exists d'.
Qed.
End Requests.

(** ** Properties *)

Section Sequences.
Context {dev : Type} {bmc : Bmc dev} {mal : Malloc}.

(** A session of commands. *)
Fixpoint run_users (cs : list user_cmd) : M dev (list user_result) :=
  match cs with
  | [] => mret []
  | c :: cs => r ← ipmi_user_main [] (cmd_words c); rs ← run_users cs; mret (r :: rs)
  end.

Fixpoint specs (max : Z) (chan : Z -> Z) (cs : list user_cmd) (t : gmap Z account) : list user_result * gmap Z account :=
  match cs with
  | [] => ([], t)
  | c :: cs => let '(r, t) := user_spec max chan c t in let '(rs, t) := specs max chan cs t in (r :: rs, t)
  end.

(** C39. Any sequence of "user" commands (names, passwords of sixteen or twenty
    bytes, tests of passwords, enabling, privileges, lists), with any numbers
    and strings, refines the same operations on a table of accounts: it gives
    their results, a list shows every account once and in order, an operation
    changes only the account and the field that it names, and one that is out of
    range or meant for a missing account fails and changes nothing. *)
Theorem user_commands_refine (users : dev -> gmap Z account) max chan {store : UserStore users max chan} cs d :
  (forall n, is_Some (malloc n)) -> Forall cmd_ok cs ->
  exists d', run_users cs d = Ok ((specs max chan cs (users d)).1, d') /\ users d' = (specs max chan cs (users d)).2.
Proof.
  intros Hmem Hok. revert d. induction Hok as [|c cs Hc _ IH]; intros d; [by exists d |]. cbn [run_users specs].
  destruct (user_cmd_run users max chan Hmem [] c d Hc) as (d1 & E1 & U1). rewrite (M_bind_run _ _ _ _ _ E1).
  destruct (IH d1) as (d2 & E2 & U2). rewrite (M_bind_run _ _ _ _ _ E2). exists d2. rewrite U1 in U2 |- *.
  destruct (user_spec max chan c (users d)) as [r t]. cbn [fst snd] in *. destruct (specs max chan cs t) as [rs t']. done.
Qed.
End Sequences.

(** ** A controller for the examples

    It has three accounts, and means each channel by its number. *)

Record toy_users := mk_toy_users { tu1 : account; tu2 : account; tu3 : account }.

Definition named16 (a : account) : account := with_name (field_of 16 (ac_name a)) a.
Definition toy_table (d : toy_users) : gmap Z account := <[1 := named16 (tu1 d)]> (<[2 := named16 (tu2 d)]> {[3 := named16 (tu3 d)]}).

Definition toy_account (d : toy_users) (id : Z) : option account :=
  if id =? 1 then Some (named16 (tu1 d)) else if id =? 2 then Some (named16 (tu2 d)) else if id =? 3 then Some (named16 (tu3 d)) else None.

Definition toy_change (id : Z) (f : account -> account) (d : toy_users) : option ipmi_rs * toy_users :=
  if id =? 1 then (Some (reply 0 []), mk_toy_users (f (named16 (tu1 d))) (tu2 d) (tu3 d))
  else if id =? 2 then (Some (reply 0 []), mk_toy_users (tu1 d) (f (named16 (tu2 d))) (tu3 d))
  else if id =? 3 then (Some (reply 0 []), mk_toy_users (tu1 d) (tu2 d) (f (named16 (tu3 d))))
  else (Some (reply 0xcc []), d).

Definition toy_user_bmc : Bmc toy_users := fun req d =>
  let cmd := rq_cmd req in
  let data := rq_data req in
  if cmd =? IPMI_GET_USER_ACCESS then
    (Some (match toy_account d (rd data 1) with Some a => reply 0 [3; 0x42; 1; ac_access a (rd data 0)] | None => reply 0xcc [] end), d)
  else if cmd =? IPMI_GET_USER_NAME then
    (Some (match toy_account d (rd data 0) with Some a => reply 0 (ac_name a) | None => reply 0xcc [] end), d)
  else if cmd =? IPMI_SET_USER_NAME then toy_change (rd data 0) (with_name (drop 1 data)) d
  else if cmd =? IPMI_SET_USER_ACCESS then toy_change (rd data 1) (with_limit (rd data 0) (rd data 2)) d
  else
    let twenty := negb (rd data 0 .& 0x80 =? 0) in
    let id := rd data 0 .& 0x3f in
    if rd data 1 =? 0 then toy_change id (with_enabled false) d
    else if rd data 1 =? 1 then toy_change id (with_enabled true) d
    else if rd data 1 =? 2 then toy_change id (with_password (twenty, drop 2 data)) d
    else (Some (match toy_account d id with
                | Some a => reply (if bool_decide (ac_password a = (twenty, drop 2 data)) then 0 else 0x80) []
                | None => reply 0xcc []
                end), d).

Lemma toy_lookup d id : toy_table d !! id = toy_account d id.
Proof.
  unfold toy_table, toy_account. destruct (Z.eqb_spec id 1) as [->|]; [by rewrite lookup_insert_eq |].
  rewrite lookup_insert_ne by done. destruct (Z.eqb_spec id 2) as [->|]; [by rewrite lookup_insert_eq |].
  rewrite lookup_insert_ne by done. destruct (Z.eqb_spec id 3) as [->|]; [by rewrite lookup_singleton_eq |]. by rewrite lookup_singleton_ne.
Qed.

(** Operations on an account that keep its name of sixteen bytes. *)
Definition tidy (f : account -> account) : Prop := forall a, named16 (f (named16 a)) = f (named16 a).

Lemma toy_performs id f d req : tidy f -> toy_user_bmc req d = toy_change id f d -> performs (bmc := toy_user_bmc) toy_table req id f d.
Proof.
  intros Hf E. unfold performs, bmc_answer. rewrite E, toy_lookup. unfold toy_change, toy_account.
  destruct (Z.eqb_spec id 1) as [->|H1].
  { do 2 eexists. split; [reflexivity |]. split; [| by eexists]. unfold toy_table. cbn [tu1 tu2 tu3]. rewrite Hf. by rewrite alter_insert_eq. }
  destruct (Z.eqb_spec id 2) as [->|H2].
  { do 2 eexists. split; [reflexivity |]. split; [| by eexists]. unfold toy_table. cbn [tu1 tu2 tu3]. rewrite Hf.
    by rewrite alter_insert_ne, alter_insert_eq. }
  destruct (Z.eqb_spec id 3) as [->|H3].
  { do 2 eexists. split; [reflexivity |]. split; [| by eexists]. unfold toy_table. cbn [tu1 tu2 tu3]. rewrite Hf.
    by rewrite !alter_insert_ne, alter_singleton_eq. }
  do 2 eexists. split; [reflexivity |]. split; [| done]. symmetry. apply alter_none. rewrite toy_lookup. unfold toy_account.
  rewrite !(proj2 (Z.eqb_neq _ _)) by done. apply is_Some_None.
Qed.

Definition flag_ok (id : Z) : bool :=
  negb ((1 <=? id) && (id <=? 63)) ||
  (((0x80 .| id) .& 0x3f =? id) && negb ((0x80 .| id) .& 0x80 =? 0) && (id .& 0x3f =? id) && (id .& 0x80 =? 0)).

Lemma flag_id id (t : bool) : 1 <= id <= 63 ->
  ((if t then 0x80 else 0) .| id) .& 0x3f = id /\ negb (((if t then 0x80 else 0) .| id) .& 0x80 =? 0) = t.
Proof.
  intros H. assert (flag_ok id = true) as E by (apply all_u8_spec; [vm_compute; reflexivity | unfold is_u8; lia]).
  unfold flag_ok in E. rewrite (proj2 (Z.leb_le 1 id)), (proj2 (Z.leb_le id 63)) in E by lia. cbn [andb negb orb] in E.
  bool_hyps. destruct t; [| rewrite Z.lor_0_l]; split; (done || by apply negb_true_iff, Z.eqb_neq || by apply negb_false_iff, Z.eqb_eq).
Qed.

Lemma tidy_same (f : account -> account) : (forall a, ac_name (f a) = ac_name a) -> tidy f.
Proof.
  intros H a. unfold named16, with_name. rewrite H. cbn [ac_name]. unfold field_of at 1.
  rewrite take_ge by (pose proof (zlen_field 16 (ac_name a) ltac:(lia)) as Hz; unfold zlen in Hz; lia).
  rewrite zlen_field by lia. change (zeros (16 - 16)) with (@nil Z). rewrite app_nil_r.
  pose proof (H (mk_account (field_of 16 (ac_name a)) (ac_enabled a) (ac_password a) (ac_access a))) as E. cbn [ac_name] in E.
  destruct (f _). cbn in *. by subst.
Qed.

Lemma tidy_name name : zlen name = 16 -> tidy (with_name name).
Proof.
  intros H a. unfold named16, with_name. cbn [ac_name ac_enabled ac_password ac_access]. unfold field_of.
  rewrite take_ge by (unfold zlen in H; lia). rewrite H. change (zeros (16 - 16)) with (@nil Z). by rewrite app_nil_r.
Qed.

#[local] Instance toy_store : UserStore (bmc := toy_user_bmc) toy_table 3 (fun c => c).
Proof.
  constructor.
  - lia.
  - intros d id. rewrite toy_lookup. unfold toy_account.
    destruct (Z.eqb_spec id 1) as [->|]; [split; [lia | by eexists] |].
    destruct (Z.eqb_spec id 2) as [->|]; [split; [lia | by eexists] |].
    destruct (Z.eqb_spec id 3) as [->|]; [split; [lia | by eexists] |].
    split; [intros [? ?]; done | lia].
  - intros d id a. rewrite toy_lookup. unfold toy_account. repeat case_match; intros [= <-]; by apply zlen_field.
  - intros d ch id a Hch. rewrite toy_lookup. intros Ea. exists (reply 0 [3; 0x42; 1; ac_access a ch]), d, 0x42, 1.
    split; [| split; [done | split; [apply carries_reply | done]]].
    change (bmc_answer _ d) with (Some (match toy_account d id with Some a => reply 0 [3; 0x42; 1; ac_access a ch] | None => reply 0xcc [] end), d).
    by rewrite Ea.
  - intros d id a. rewrite toy_lookup. intros Ea. exists (reply 0 (ac_name a)), d.
    split; [| split; [done | left; split; [done | apply carries_reply]]].
    change (bmc_answer _ d) with (Some (match toy_account d id with Some a => reply 0 (ac_name a) | None => reply 0xcc [] end), d).
    by rewrite Ea.
  - intros d id name Hid Hn. apply toy_performs; [by apply tidy_name | done].
  - intros d ch id limit Hch Hid Hl. apply toy_performs; [by apply tidy_same | done].
  - intros d id b pad Hid Hp. apply toy_performs; [by apply tidy_same |]. 
    pose proof (proj1 (flag_id id false Hid)) as E. rewrite Z.lor_0_l in E. destruct b.
    + change (toy_change (id .& 0x3f) (with_enabled true) d = toy_change id (with_enabled true) d). by rewrite E.
    + change (toy_change (id .& 0x3f) (with_enabled false) d = toy_change id (with_enabled false) d). by rewrite E.
  - intros d id t p Hid Hp. apply toy_performs; [by apply tidy_same |]. 
    set (b := (if t then 0x80 else 0) .| id).
    change (toy_change (b .& 0x3f) (with_password (negb (b .& 0x80 =? 0), p)) d = toy_change id (with_password (t, p)) d).
    destruct (flag_id id t Hid) as [E1 E2]. fold b in E1, E2. by rewrite E1, E2.
  - intros d id t p Hid Hp. set (b := (if t then 0x80 else 0) .| id).
    exists (Some (match toy_account d id with
                  | Some a => reply (if bool_decide (ac_password a = (t, p)) then 0 else 0x80) [] | None => reply 0xcc [] end)), d.
    split.
    { change (bmc_answer _ d) with (Some (match toy_account d (b .& 0x3f) with
        | Some a => reply (if bool_decide (ac_password a = (negb (b .& 0x80 =? 0), p)) then 0 else 0x80) [] | None => reply 0xcc [] end), d).
      destruct (flag_id id t Hid) as [E1 E2]. fold b in E1, E2. by rewrite E1, E2. } split; [done |]. rewrite toy_lookup. destruct (toy_account d id) as [a|].
    + split.
      * intros (r & [= <-] & Hr). exists a. split; [done |]. by case_bool_decide.
      * intros (a' & [= <-] & Hb). eexists. split; [reflexivity |]. by rewrite bool_decide_eq_true_2.
    + split; [by intros (r & [= <-] & Hr) | by intros (a' & ? & _)].
Defined.

Definition toy_accounts : toy_users :=
  let a := mk_account (zeros 16) false (false, zeros 16) (fun _ => 0x14) in mk_toy_users a a a.

Definition toy_session : list user_cmd :=
  [UName 2 (text "root"); UPassword 2 (text "correct horse battery") None; UPassword 2 (text "correct horse bat") None;
   UTest 2 true (text "correct horse bat"); UTest 2 false (text "correct horse bat"); UEnable 2 true; UPriv 2 4 (Some 1);
   UTest 7 false []; UShow (Some 1)].

Lemma user_commands_refine_witness : exists d',
  run_users (bmc := toy_user_bmc) toy_session toy_accounts =
    Ok ((specs 3 (fun c => c) toy_session (toy_table toy_accounts)).1, d') /\
  toy_table d' = (specs 3 (fun c => c) toy_session (toy_table toy_accounts)).2.
Proof.
  apply (user_commands_refine (bmc := toy_user_bmc) toy_table 3 (fun c => c)); [intros n; by eexists |].
  repeat constructor; unfold is_u8; cbn; lia.
Defined.

(** What the session gives: a password of 21 characters is refused, one of 17 is
    stored with twenty bytes. *)
Example toy_session_results : (specs 3 (fun c => c) toy_session (toy_table toy_accounts)).1 =
  [UCode 0; UCode (-1); UCode 0; UCode 0; UCode (-1); UCode 0; UCode 0; UCode (-1);
   UList 0 [mk_line 1 [] 0 0 16 4; mk_line 2 (text "root") 0 0 16 4; mk_line 3 [] 0 0 16 4]].
Proof. vm_compute. reflexivity. Qed.

(** A test looks at the first sixteen or twenty characters only. *)
Example test_ignores_the_rest :
  (specs 3 (fun c => c) [UPassword 1 (text "sixteen letters!") None; UTest 1 false (text "sixteen letters! and more")]
    (toy_table toy_accounts)).1 = [UCode 0; UCode 0].
Proof. vm_compute. reflexivity. Qed.
