(* ===== verification/Lanp.v ===== *)
(** * LAN configuration (lib/ipmi_lanp.c)

    The parameters of a LAN channel, read and written under the lock "set in
    progress" with the waiting for a write to take effect, and the sub-commands
    of "lan".  [_ipmi_get_channel_access] and [_ipmi_set_channel_access] of
    lib/ipmi_channel.c are here, too.  What "print" and "stats" show are values. *)

From stdpp Require Import strings.
From S2P Require Import Prelude Wire Ipmi Intf Session Helper CText Bmc Channel Lanp6 User.

#[local] Open Scope Z_scope.

Definition IPMI_LAN_GET_STAT : Z := 0x04.
Definition IPMI_LANP_TIMEOUT : Z := 3.
Definition IPMI_LANP_WRITE_UNLOCK : Z := 0.
Definition IPMI_LANP_WRITE_LOCK : Z := 1.
Definition IPMI_LANP_WRITE_COMMIT : Z := 2.
Definition IPMI_LANP_VLAN_ID_MAX : Z := 4094.
Definition IPMI_LANP_VLAN_ID_MIN : Z := 1.
Definition IPMI_LANP_VLAN_DISABLE : Z := 0.
Definition IPMI_LANP_IS_VLAN_VALID (x : Z) : bool := (IPMI_LANP_VLAN_ID_MIN <=? x) && (x <=? IPMI_LANP_VLAN_ID_MAX).

(** The numbers of the parameters. *)
Definition IPMI_LANP_SET_IN_PROGRESS : Z := 0.
Definition IPMI_LANP_AUTH_TYPE : Z := 1.
Definition IPMI_LANP_AUTH_TYPE_ENABLE : Z := 2.
Definition IPMI_LANP_IP_ADDR : Z := 3.
Definition IPMI_LANP_IP_ADDR_SRC : Z := 4.
Definition IPMI_LANP_MAC_ADDR : Z := 5.
Definition IPMI_LANP_SUBNET_MASK : Z := 6.
Definition IPMI_LANP_IP_HEADER : Z := 7.
Definition IPMI_LANP_PRI_RMCP_PORT : Z := 8.
Definition IPMI_LANP_SEC_RMCP_PORT : Z := 9.
Definition IPMI_LANP_BMC_ARP : Z := 10.
Definition IPMI_LANP_GRAT_ARP : Z := 11.
Definition IPMI_LANP_DEF_GATEWAY_IP : Z := 12.
Definition IPMI_LANP_DEF_GATEWAY_MAC : Z := 13.
Definition IPMI_LANP_BAK_GATEWAY_IP : Z := 14.
Definition IPMI_LANP_BAK_GATEWAY_MAC : Z := 15.
Definition IPMI_LANP_SNMP_STRING : Z := 16.
Definition IPMI_LANP_NUM_DEST : Z := 17.
Definition IPMI_LANP_DEST_TYPE : Z := 18.
Definition IPMI_LANP_DEST_ADDR : Z := 19.
Definition IPMI_LANP_VLAN_ID : Z := 20.
Definition IPMI_LANP_VLAN_PRIORITY : Z := 21.
Definition IPMI_LANP_RMCP_CIPHER_SUPPORT : Z := 22.
Definition IPMI_LANP_RMCP_CIPHERS : Z := 23.
Definition IPMI_LANP_RMCP_PRIV_LEVELS : Z := 24.
Definition IPMI_LANP_BAD_PASS_THRESH : Z := 26.

(** [ipmi_lan_params]: number, size and name. *)
Definition ipmi_lan_params : list (Z * Z * string) := [
  (0, 1, "Set in Progress"); (1, 1, "Auth Type Support"); (2, 5, "Auth Type Enable"); (3, 4, "IP Address");
  (4, 1, "IP Address Source"); (5, 6, "MAC Address"); (6, 4, "Subnet Mask"); (7, 3, "IP Header");
  (8, 2, "Primary RMCP Port"); (9, 2, "Secondary RMCP Port"); (10, 1, "BMC ARP Control");
  (11, 1, "Gratuitous ARP Intrvl"); (12, 4, "Default Gateway IP"); (13, 6, "Default Gateway MAC");
  (14, 4, "Backup Gateway IP"); (15, 6, "Backup Gateway MAC"); (16, 18, "SNMP Community String");
  (17, 1, "Number of Destinations"); (18, 4, "Destination Type"); (19, 13, "Destination Addresses");
  (20, 2, "802.1q VLAN ID"); (21, 1, "802.1q VLAN Priority"); (22, 1, "RMCP+ Cipher Suite Count");
  (23, 16, "RMCP+ Cipher Suites"); (24, 9, "Cipher Suite Priv Max"); (26, 6, "Bad Password Threshold");
  (96, 28, "OEM Alert String"); (97, 1, "Alert Retry Algorithm"); (98, 3, "UTC Offset"); (192, 4, "DHCP Server IP");
  (193, 6, "DHDP Server MAC"); (194, 1, "DHCP Enable"); (201, 2, "Channel Access Mode")]%string.

Definition known_param (param : Z) : bool := existsb (fun p => p.1.1 =? param) ipmi_lan_params.

(** [struct lan_param], its fields [data], the array of the response from its
    second byte on or NULL, and [data_len]. *)
Record lan_param := mk_lp { lp_data : option (list Z); lp_data_len : Z }.

(** What [p->data] points to: nothing when it is NULL. *)
Definition lp_array (p : lan_param) : list Z := match lp_data p with Some d => d | None => [] end.

(** ** Parameters on the controller *)

Section Params.
Context {dev : Type} {bmc : Bmc dev} {slp : Sleep dev} (chan : Z).

Definition get_rq (param select : Z) : ipmi_rq := mk_rq IPMI_NETFN_TRANSPORT 0 IPMI_LAN_GET_CONFIG 0 [chan; u8 param; u8 select; 0].
Definition set_rq (param : Z) (bytes : list Z) : ipmi_rq := mk_rq IPMI_NETFN_TRANSPORT 0 IPMI_LAN_SET_CONFIG 0 ([chan; u8 param] ++ bytes).

(** [get_lan_param_select]: [None] for an error. *)
Definition get_lan_param_select (param select : Z) : M dev (option lan_param) :=
  if negb (known_param param) then mret None else
  rsp ← sendrecv (get_rq param select);
  mret (match rsp with
        | None => None
        | Some r =>
            if ccode r =? 0 then Some (mk_lp (Some (drop 1 (rs_data r))) (rs_data_len r - 1))
            else if (ccode r =? 0x80) || (ccode r =? 0xc9) || (ccode r =? 0xcc) then Some (mk_lp None 0)
            else None
        end).

Definition get_lan_param (param : Z) : M dev (option lan_param) := get_lan_param_select param 0.

(** [memcmp(data, p->data, len) == 0] *)
Definition same_bytes (data : list Z) (p : lan_param) (len : Z) : res bool :=
  a ← slx data 0 len; b ← slx (lp_array p) 0 len; Ok (bool_decide (a = b)).

(** [set_lan_param_wait]: the loop, with the retries that are left. *)
Fixpoint wait_loop (retry : nat) (param : Z) (data : list Z) (len : Z) : M dev Z :=
  p ← get_lan_param param;
  ok ← match p with
       | None => mret false
       | Some p => if negb (lp_data_len p =? len) then mret false else lift (same_bytes data p len)
       end;
  if ok : bool then mret 0 else
  _ ← sleep IPMI_LANP_TIMEOUT;
  match retry with O => mret (-1) | S retry => wait_loop retry param data len end.

Definition set_lan_param_wait (param : Z) (data : list Z) (len : Z) : M dev Z := wait_loop 10 param data len.

(** The retries of a write that is refused with 0xcc, in [__set_lan_param]. *)
Fixpoint retry_loop (retry : nat) (req : ipmi_rq) (param : Z) (data : list Z) (len : Z) : M dev Z :=
  match retry with
  | O => set_lan_param_wait param data len
  | S retry =>
      _ ← sleep IPMI_LANP_TIMEOUT;
      rsp ← sendrecv req;
      match rsp with
      | Some r => if ccode r =? 0 then set_lan_param_wait param data len else retry_loop retry req param data len
      | None => retry_loop retry req param data len
      end
  end.

(** [__set_lan_param]; [msg_data] has 32 bytes. *)
Definition __set_lan_param (param : Z) (data : list Z) (len : Z) (wait : bool) : M dev Z :=
  if param <? 0 then mret (-1) else
  bytes ← lift (slx data 0 len);
  if 32 <? len + 2 then fail OutOfBounds else
  let req := set_rq param bytes in
  rsp ← sendrecv req;
  match rsp with
  | None => mret (-1)
  | Some r =>
      if negb wait then mret 0
      else if ccode r =? 0xcc then retry_loop 10 req param data len
      else if negb (ccode r =? 0) && negb (ccode r =? 0xff) then mret (-1)
      else set_lan_param_wait param data len
  end.

(** [ipmi_lanp_lock_state] *)
Definition ipmi_lanp_lock_state : M dev Z :=
  p ← get_lan_param IPMI_LANP_SET_IN_PROGRESS;
  match p with
  | None => mret (-1)
  | Some p => match lp_data p with None => mret (-1) | Some d => x ← lift (rdx d 0); mret (x .& 3) end
  end.

(** [ipmi_lanp_lock] *)
Fixpoint lock_loop (retry : nat) : M dev unit :=
  state ← ipmi_lanp_lock_state;
  if (state =? -1) || (state =? IPMI_LANP_WRITE_LOCK) then mret tt else
  match retry with
  | O => mret tt
  | S retry => _ ← __set_lan_param IPMI_LANP_SET_IN_PROGRESS [IPMI_LANP_WRITE_LOCK] 1 false; lock_loop retry
  end.
Definition ipmi_lanp_lock : M dev unit := lock_loop 3.

(** [ipmi_lanp_unlock] *)
Definition ipmi_lanp_unlock : M dev unit :=
  _ ← __set_lan_param IPMI_LANP_SET_IN_PROGRESS [IPMI_LANP_WRITE_COMMIT] 1 false;
  _ ← __set_lan_param IPMI_LANP_SET_IN_PROGRESS [IPMI_LANP_WRITE_UNLOCK] 1 false;
  mret tt.

(** [set_lan_param], [set_lan_param_nowait] *)
Definition set_lan_param (param : Z) (data : list Z) (len : Z) : M dev Z :=
  _ ← ipmi_lanp_lock; rc ← __set_lan_param param data len true; _ ← ipmi_lanp_unlock; mret rc.
Definition set_lan_param_nowait (param : Z) (data : list Z) (len : Z) : M dev Z :=
  _ ← ipmi_lanp_lock; rc ← __set_lan_param param data len false; _ ← ipmi_lanp_unlock; mret rc.

(** ** Settings that depend on the present value *)

(** [if (!lp || !lp->data) return -1;] *)
Definition present (param select : Z) (f : list Z -> Z -> M dev Z) : M dev Z :=
  p ← get_lan_param_select param select;
  match p with
  | None => mret (-1)
  | Some p => match lp_data p with None => mret (-1) | Some d => f d (lp_data_len p) end
  end.

(** [lan_set_arp_interval] *)
Definition lan_set_arp_interval (ival : Z) : M dev Z :=
  present IPMI_LANP_GRAT_ARP 0 (fun d _ =>
    if ival =? 0 then _ ← lift (rdx d 0); mret 0 else
    if (255 - 1) / 2 <? ival then mret (-1) else set_lan_param IPMI_LANP_GRAT_ARP [u8 (ival * 2 - 1)] 1).

Definition with_bit (bit ctl x : Z) : Z := if ctl =? 0 then x .& Z.lnot bit else x .| bit.

(** [lan_set_arp_generate], [lan_set_arp_respond] *)
Definition lan_set_arp_generate (ctl : Z) : M dev Z :=
  present IPMI_LANP_BMC_ARP 0 (fun d _ => x ← lift (rdx d 0); set_lan_param IPMI_LANP_BMC_ARP [with_bit 0x1 ctl x] 1).
Definition lan_set_arp_respond (ctl : Z) : M dev Z :=
  present IPMI_LANP_BMC_ARP 0 (fun d _ => x ← lift (rdx d 0); set_lan_param IPMI_LANP_BMC_ARP [with_bit 0x2 ctl x] 1).

(** What the loops over a list with commas look at: the string, and what is
    behind each comma, up to the end of the string. *)
Fixpoint behind_commas (s : list Z) : list (list Z) :=
  match s with
  | [] => []
  | c :: s => if c =? 44 then s :: behind_commas s else behind_commas s
  end.
Definition comma_items (s : list Z) : list (list Z) := s :: behind_commas s.

Definition authtype_bit (p : list Z) : Z :=
  let named w := strcaseeq p (text w) in
  if named "none"%string then 1 .<< IPMI_SESSION_AUTHTYPE_NONE
  else if named "md2"%string then 1 .<< IPMI_SESSION_AUTHTYPE_MD2
  else if named "md5"%string then 1 .<< IPMI_SESSION_AUTHTYPE_MD5
  else if named "password"%string || named "key"%string then 1 .<< 0x4
  else if named "oem"%string then 1 .<< 0x5
  else 0.

Definition auth_level (p : list Z) : option Z :=
  let named w := strcaseeq p (text w) in
  if named "callback"%string then Some 0 else if named "user"%string then Some 1
  else if named "operator"%string then Some 2 else if named "admin"%string then Some 3 else None.

Definition authtype_mask (types : list Z) : Z := foldl (fun a p => u8 (a .| authtype_bit p)) 0 (comma_items types).

Definition set_level (authtype : Z) (data : list Z) (p : list Z) : list Z :=
  match auth_level p with Some i => <[Z.to_nat i := authtype]> data | None => data end.

(** [ipmi_lan_set_auth]; [types] is NULL when the word is missing. *)
Definition ipmi_lan_set_auth (level : list Z) (types : option (list Z)) : M dev Z :=
  match types with
  | None => mret (-1)
  | Some types =>
      present IPMI_LANP_AUTH_TYPE_ENABLE 0 (fun d _ =>
        data ← lift (slx d 0 5);
        set_lan_param IPMI_LANP_AUTH_TYPE_ENABLE (foldl (set_level (authtype_mask types)) data (comma_items level)) 5)
  end.

(** [ipmi_lan_set_vlan_id]; [None] switches the VLAN off. *)
Definition ipmi_lan_set_vlan_id (string : option (list Z)) : M dev Z :=
  match string with
  | None =>
      p ← get_lan_param IPMI_LANP_VLAN_ID;
      match p with
      | Some (mk_lp (Some d) len) =>
          if 1 <? len then
            x ← lift (rdx d 0); y ← lift (rdx d 1);
            let id := ((y .& 0x0f) .<< 8) + x in
            if id =? IPMI_LANP_VLAN_DISABLE then mret 0
            else if negb (IPMI_LANP_IS_VLAN_VALID id) then mret (-1)
            else set_lan_param IPMI_LANP_VLAN_ID [x; y .& 0x0F] 2
          else set_lan_param IPMI_LANP_VLAN_ID [0; 0] 2
      | _ => set_lan_param IPMI_LANP_VLAN_ID [0; 0] 2
      end
  | Some s =>
      let '(rc, id) := str2int (Some s) in
      let id := default 0 id in
      if negb (rc =? 0) then mret (-1)
      else if negb (IPMI_LANP_IS_VLAN_VALID id) then mret (-1)
      else set_lan_param IPMI_LANP_VLAN_ID [u8 id; u8 (id .>> 8) .| 0x80] 2
  end.

(** [ipmi_lan_set_vlan_priority] *)
Definition ipmi_lan_set_vlan_priority (string : list Z) : M dev Z :=
  let '(rc, priority) := str2int (Some string) in
  let priority := default 0 priority in
  if negb (rc =? 0) then mret (-1)
  else if (priority <? 0) || (7 <? priority) then mret (-1)
  else set_lan_param IPMI_LANP_VLAN_PRIORITY [u8 priority] 1.
End Params.

(** ** The words of a command *)

(** One [%u] of [sscanf], as an unsigned integer of 32 bits. *)
Definition scan_u (s : list Z) : option (Z * list Z) :=
  let '(neg, t) := sign_of (skip_space s) in
  if has_digit 10 t then
    let '(v, r) := scan_digits 10 t 0 in
    let v := if ULONG_MAX <? v then ULONG_MAX else (if neg : bool then - v else v) mod 2 ^ 64 in
    Some (u32 v, r)
  else None.

(** [n] more of them behind dots; what follows is not looked at. *)
Fixpoint scan_dotted (n : nat) (s : list Z) : option (list Z) :=
  '(v, t) ← scan_u s;
  match n with
  | O => Some [v]
  | S n => match t with c :: t => if c =? 46 then vs ← scan_dotted n t; Some (v :: vs) else None | [] => None end
  end.

(** [get_cmdline_ipaddr]: [None] for -1. *)
Definition get_cmdline_ipaddr (arg : list Z) : option (list Z) :=
  match scan_dotted 3 arg with
  | Some ip => if existsb (fun x => 255 <? x) ip then None else Some ip
  | None => None
  end.

Definition mac_arg (arg : list Z) : option (list Z) := let '(rc, mac) := str2mac arg in if rc =? 0 then mac else None.

(** The privilege of a letter, in [get_cmdline_cipher_suite_priv_data]. *)
Definition char_to_priv_level (c : Z) : option Z :=
  if c =? 88 then Some 0 else if c =? 99 then Some 1 else if c =? 117 then Some 2
  else if c =? 111 then Some 3 else if c =? 97 then Some 4 else if c =? 79 then Some 5 else None.

Fixpoint cipher_privs_loop (i : nat) (arg : list Z) (buf : list Z) : option (list Z) :=
  match arg with
  | [] => Some buf
  | c :: arg =>
      match char_to_priv_level c with
      | None => None
      | Some priv_level =>
          let at_i := (1 + i / 2)%nat in
          let x := if Nat.odd (i + 1) then priv_level else priv_level .<< 4 in
          cipher_privs_loop (S i) arg (<[at_i := u8 (nth at_i buf 0 + x)]> buf)
      end
  end.

(** [get_cmdline_cipher_suite_priv_data]: [None] for -1. *)
Definition get_cmdline_cipher_suite_priv_data (arg : list Z) : option (list Z) :=
  if negb (zlen arg =? 15) then None else cipher_privs_loop 0 arg (zeros 9).

Definition ushort_arg (arg : list Z) : option Z := match str2ushort (Some arg) with (rc, v) => if rc =? 0 then v else None end.

(** [get_cmdline_bad_pass_thresh]: [None] for -1. *)
Definition get_cmdline_bad_pass_thresh (thresh event reset lockout : list Z) : option (list Z) :=
  match byte_arg thresh, byte_arg event with
  | Some t, Some e =>
      if 1 <? e then None else
      match ushort_arg reset, ushort_arg lockout with
      | Some r, Some l => Some [e; t; r .& 0xFF; r .>> 8; l .& 0xFF; l .>> 8]
      | _, _ => None
      end
  | _, _ => None
  end.

(** ** The access of a channel (lib/ipmi_channel.c) *)

Definition IPMI_SET_CHANNEL_ACCESS : Z := 0x40.
Definition IPMI_GET_CHANNEL_ACCESS : Z := 0x41.
Definition ALERTING_ENABLED : Z := 0.
Definition ALERTING_DISABLED : Z := 0x20.

(** [struct channel_access_t] *)
Record channel_access_t := mk_chan_access {
  access_mode : Z;
  alerting : Z;
  ca_channel : Z;
  per_message_auth : Z;
  ca_privilege_limit : Z;
  user_level_auth : Z;
}.

#[export] Instance chan_access_rebuild : Rebuild channel_access_t := fun r =>
  mk_chan_access (access_mode r) (alerting r) (ca_channel r) (per_message_auth r) (ca_privilege_limit r) (user_level_auth r).
#[export] Instance access_mode_update : Update access_mode := ltac:(solve_update).
#[export] Instance alerting_update : Update alerting := ltac:(solve_update).
#[export] Instance ca_channel_update : Update ca_channel := ltac:(solve_update).
#[export] Instance per_message_auth_update : Update per_message_auth := ltac:(solve_update).
#[export] Instance ca_privilege_limit_update : Update ca_privilege_limit := ltac:(solve_update).
#[export] Instance user_level_auth_update : Update user_level_auth := ltac:(solve_update).

Definition zero_chan_access (channel : Z) : channel_access_t := mk_chan_access 0 0 channel 0 0 0.

Section ChannelAccess.
Context {dev : Type} {bmc : Bmc dev}.

(** [_ipmi_get_channel_access]: the code, and the structure that is filled. *)
Definition _ipmi_get_channel_access (ca : channel_access_t) (get_volatile_settings : bool) : M dev (Z * channel_access_t) :=
  rsp ← sendrecv (app_rq IPMI_GET_CHANNEL_ACCESS [ca_channel ca .& 0x0F; if get_volatile_settings then 0x80 else 0x40]);
  match rsp with
  | None => mret (-1, ca)
  | Some r =>
      if negb (ccode r =? 0) then mret (ccode r, ca)
      else if negb (rs_data_len r =? 2) then mret (-2, ca)
      else
        d ← lift (rsp_bytes r 0 2);
        mret (0, ca <| alerting := rd d 0 .& 0x20 |> <| per_message_auth := rd d 0 .& 0x10 |>
                    <| user_level_auth := rd d 0 .& 0x08 |> <| access_mode := rd d 0 .& 0x07 |>
                    <| ca_privilege_limit := rd d 1 .& 0x0F |>)
  end.

(** [_ipmi_set_channel_access] *)
Definition channel_access_data (ca : channel_access_t) (access_option privilege_option : Z) : list Z :=
  let bit (b v : Z) := if negb (v =? 0) then b else 0 in
  [ca_channel ca .& 0x0F;
   ((((access_option .<< 6) .| bit 0x20 (alerting ca)) .| bit 0x10 (per_message_auth ca)) .| bit 0x08 (user_level_auth ca))
     .| (access_mode ca .& 0x07);
   (privilege_option .<< 6) .| (ca_privilege_limit ca .& 0x0F)].

Definition _ipmi_set_channel_access (ca : channel_access_t) (access_option privilege_option : Z) : M dev Z :=
  if (2 <? access_option) || (2 <? privilege_option) then mret (-3) else
  rsp ← sendrecv (app_rq IPMI_SET_CHANNEL_ACCESS (channel_access_data ca access_option privilege_option));
  mret (match rsp with None => -1 | Some r => ccode r end).

(** A code that is not zero ends the function with -1. *)
Definition unless_failed (ccode : Z) (m : M dev Z) : M dev Z := if negb (eval_ccode ccode =? 0) then mret (-1) else m.

(** [ipmi_set_alert_enable] *)
Definition ipmi_set_alert_enable (channel : Z) (enable : bool) : M dev Z :=
  '(cc, ca) ← _ipmi_get_channel_access (zero_chan_access channel) false;
  unless_failed cc (
  let ca := ca <| alerting := if enable then ALERTING_ENABLED else ALERTING_DISABLED |> in
  cc ← _ipmi_set_channel_access ca 1 0;
  unless_failed cc (
  cc ← _ipmi_set_channel_access ca 2 0;
  unless_failed cc (mret 0))).
End ChannelAccess.

(** ** The command "lan": the controller and the interface *)

Record lan_env (dev : Type) := mk_env { le_intf : ipmi_intf; le_dev : dev }.
Arguments mk_env {_}. Arguments le_intf {_}. Arguments le_dev {_}.

#[export] Instance env_bmc {dev} {bmc : Bmc dev} : Bmc (lan_env dev) :=
  fun req s => let '(rsp, d) := bmc_answer req (le_dev s) in (rsp, mk_env (le_intf s) d).
#[export] Instance env_sleep {dev} {slp : Sleep dev} : Sleep (lan_env dev) := fun t s => mk_env (le_intf s) (slept t (le_dev s)).

Definition on_intf {dev} (f : ipmi_intf -> ipmi_intf) : M (lan_env dev) unit := modify (fun s => mk_env (f (le_intf s)) (le_dev s)).

Section LanSet.
Context {dev : Type} {bmc : Bmc dev} {slp : Sleep dev} {mal : Malloc}.

(** One of the two halves of [ipmi_set_channel_access]. *)
Definition open_channel (channel : Z) (enable : bool) (volatile : bool) (option : Z) : M (lan_env dev) Z :=
  '(cc, ca) ← _ipmi_get_channel_access (zero_chan_access channel) volatile;
  unless_failed cc (
  let ca := ca <| access_mode := if enable then 2 else 0 |> <| ca_privilege_limit := 0x04 |> in
  cc ← _ipmi_set_channel_access ca option option;
  unless_failed cc (mret 0)).

(** [ipmi_set_channel_access] *)
Definition ipmi_set_channel_access (channel : Z) (enable : bool) : M (lan_env dev) Z :=
  rc ← open_channel channel enable false 1;
  if negb (rc =? 0) then mret (-1) else
  rc ← open_channel channel enable true 2;
  if negb (rc =? 0) then mret (-1) else
  _ ← (if negb enable then on_intf (fun i => i <| abort := true |>) else mret tt);
  mret 0.

(** [ipmi_set_user_access] *)
Definition ipmi_set_user_access (channel user_id : Z) : M (lan_env dev) Z :=
  cc ← _ipmi_set_user_access (zero_access <| ua_channel := channel |> <| ua_user_id := user_id |> <| privilege_limit := 0x04 |>) true;
  mret (if negb (eval_ccode cc =? 0) then -1 else 0).

(** [ipmi_lan_set_password] *)
Definition ipmi_lan_set_password (user_id : Z) (password : option (list Z)) : M (lan_env dev) Z :=
  cc ← _ipmi_set_user_password user_id IPMI_PASSWORD_SET_PASSWORD password false;
  if negb (eval_ccode cc =? 0) then mret (-1) else
  _ ← on_intf (fun i => i <| ssn_params := ipmi_intf_session_set_password password (ssn_params i) |>);
  mret 0.

(** The branches of [ipmi_lan_set]; [rest] are the words behind the name of the
    setting. *)
Definition lan_set_access (chan : Z) (rest : list (list Z)) : M (lan_env dev) Z :=
  match rest with
  | [] => mret (-1)
  | w :: _ =>
      if is_arg w "help" then mret 0
      else if is_arg w "on" then ipmi_set_channel_access chan true
      else if is_arg w "off" then ipmi_set_channel_access chan false
      else mret (-1)
  end.

(** "on" or "off" behind "generate" and "respond". *)
Definition on_off (rest : list (list Z)) (f : Z -> M (lan_env dev) Z) : M (lan_env dev) Z :=
  match rest with
  | [] => mret (-1)
  | w :: _ => if is_arg w "on" then f 1 else if is_arg w "off" then f 0 else mret (-1)
  end.

Definition lan_set_arp (chan : Z) (rest : list (list Z)) : M (lan_env dev) Z :=
  match rest with
  | [] => mret (-1)
  | w :: rest =>
      if is_arg w "help" then mret 0
      else if is_arg w "interval" then
        let '(rc, interval) := str2uchar (rest !! 0%nat) in
        if negb (rc =? 0) then mret (-1) else lan_set_arp_interval chan (default 0 interval)
      else if is_arg w "generate" then on_off rest (lan_set_arp_generate chan)
      else if is_arg w "respond" then on_off rest (lan_set_arp_respond chan)
      else mret 0
  end.

Definition lan_set_ipsrc (chan : Z) (rest : list (list Z)) : M (lan_env dev) Z :=
  let source v := set_lan_param chan IPMI_LANP_IP_ADDR_SRC [v] 1 in
  match rest with
  | [] => mret (-1)
  | w :: _ =>
      if is_arg w "help" then mret 0
      else if is_arg w "none" then source 0
      else if is_arg w "static" then source 1
      else if is_arg w "dhcp" then source 2
      else if is_arg w "bios" then source 3
      else mret (-1)
  end.

Definition lan_set_snmp (chan : Z) (rest : list (list Z)) : M (lan_env dev) Z :=
  match rest with
  | [] => mret (-1)
  | w :: _ =>
      if is_arg w "help" then mret 0 else
      data ← lift (or_oob (wr (zeros 32) 0 (take 18 w)));
      set_lan_param chan IPMI_LANP_SNMP_STRING data 18
  end.

(** A parameter whose value is one word. *)
Definition lan_set_word (chan param len : Z) (parse : list Z -> option (list Z)) (rest : list (list Z)) : M (lan_env dev) Z :=
  match rest with
  | [w] => match parse w with Some v => set_lan_param chan param v len | None => mret (-1) end
  | _ => mret (-1)
  end.

(** "defgw" and "bakgw" *)
Definition lan_set_gateway (chan ip mac : Z) (rest : list (list Z)) : M (lan_env dev) Z :=
  match rest with
  | w :: a :: _ =>
      if is_arg w "help" then mret 0
      else if is_arg w "ipaddr" then
        match get_cmdline_ipaddr a with Some v => set_lan_param chan ip v 4 | None => mret (-1) end
      else if is_arg w "macaddr" then
        match mac_arg a with Some v => set_lan_param chan mac v 6 | None => mret (-1) end
      else mret (-1)
  | _ => mret (-1)
  end.

(** The codes of the two functions are not returned. *)
Definition lan_set_vlan (chan : Z) (rest : list (list Z)) : M (lan_env dev) Z :=
  match rest with
  | w :: a :: _ =>
      if is_arg w "help" then mret 0
      else if is_arg w "id" then
        _ ← ipmi_lan_set_vlan_id chan (if is_arg a "off" then None else Some a); mret 0
      else if is_arg w "priority" then _ ← ipmi_lan_set_vlan_priority chan a; mret 0
      else mret (-1)
  | _ => mret (-1)
  end.

Definition lan_set_alert (chan : Z) (rest : list (list Z)) : M (lan_env dev) Z :=
  match rest with
  | [] => mret (-1)
  | w :: _ =>
      if is_arg w "on" || is_arg w "enable" then ipmi_set_alert_enable chan true
      else if is_arg w "off" || is_arg w "disable" then ipmi_set_alert_enable chan false
      else mret 0
  end.

Definition lan_set_cipher_privs (chan : Z) (rest : list (list Z)) : M (lan_env dev) Z :=
  match rest with
  | [w] =>
      if is_arg w "help" then mret 0 else
      match get_cmdline_cipher_suite_priv_data w with
      | None => mret 0
      | Some v => set_lan_param chan IPMI_LANP_RMCP_PRIV_LEVELS v 9
      end
  | _ => mret (-1)
  end.

Definition lan_set_bad_pass_thresh (chan : Z) (rest : list (list Z)) : M (lan_env dev) Z :=
  match rest with
  | [w] => mret (if is_arg w "help" then 0 else -1)
  | a :: b :: c :: d :: _ =>
      match get_cmdline_bad_pass_thresh a b c d with
      | Some v => set_lan_param chan IPMI_LANP_BAD_PASS_THRESH v 6
      | None => mret (-1)
      end
  | _ => mret (-1)
  end.

(** The setting that [what] names. *)
Definition lan_setting (chan : Z) (what : list Z) (rest : list (list Z)) : M (lan_env dev) Z :=
  if is_arg what "user" then ipmi_set_user_access chan 1
  else if is_arg what "access" then lan_set_access chan rest
  else if is_arg what "arp" then lan_set_arp chan rest
  else if is_arg what "auth" then
    match rest with
    | [] => mret (-1)
    | w :: rest => if is_arg w "help" then mret 0 else ipmi_lan_set_auth chan w (rest !! 0%nat)
    end
  else if is_arg what "ipsrc" then lan_set_ipsrc chan rest
  else if is_arg what "password" then ipmi_lan_set_password 1 (rest !! 0%nat)
  else if is_arg what "snmp" then lan_set_snmp chan rest
  else if is_arg what "ipaddr" then lan_set_word chan IPMI_LANP_IP_ADDR 4 get_cmdline_ipaddr rest
  else if is_arg what "netmask" then lan_set_word chan IPMI_LANP_SUBNET_MASK 4 get_cmdline_ipaddr rest
  else if is_arg what "macaddr" then lan_set_word chan IPMI_LANP_MAC_ADDR 6 mac_arg rest
  else if is_arg what "defgw" then lan_set_gateway chan IPMI_LANP_DEF_GATEWAY_IP IPMI_LANP_DEF_GATEWAY_MAC rest
  else if is_arg what "bakgw" then lan_set_gateway chan IPMI_LANP_BAK_GATEWAY_IP IPMI_LANP_BAK_GATEWAY_MAC rest
  else if is_arg what "vlan" then lan_set_vlan chan rest
  else if is_arg what "alert" then lan_set_alert chan rest
  else if is_arg what "cipher_privs" then lan_set_cipher_privs chan rest
  else if is_arg what "bad_pass_thresh" then lan_set_bad_pass_thresh chan rest
  else mret (-1).

(** [ipmi_lan_set] *)
Definition ipmi_lan_set (args : list (list Z)) : M (lan_env dev) Z :=
  match args with
  | channel :: what :: rest =>
      if is_arg channel "help" || is_arg what "help" then mret 0 else
      let '(rc, chan) := str2uchar (Some channel) in
      let chan := default 0 chan in
      if negb (rc =? 0) then mret (-1) else
      lan ← is_lan_channel chan;
      if negb lan then mret (-1) else lan_setting chan what rest
  | _ => mret (-1)
  end.
End LanSet.

(** ** Alert destinations *)

Section Alerts.
Context {dev : Type} {bmc : Bmc dev} {slp : Sleep dev}.

(** [is_alert_destination] *)
Definition is_alert_destination (channel alert : Z) : M dev bool :=
  p ← get_lan_param channel IPMI_LANP_NUM_DEST;
  match p with
  | Some (mk_lp (Some d) _) => x ← lift (rdx d 0); mret (alert <=? (x .& 0xf))
  | _ => mret false
  end.

(** What is printed of a destination. *)
Record alert_line := mk_alert_line {
  al_destination : Z;
  al_ack : bool;
  al_type : Z;
  al_time : Z;
  al_retries : Z;
  al_address : option (bool * list Z * list Z);
}.

(** The bytes of a parameter that has [len] at least. *)
Definition alert_bytes (channel param alert len : Z) (f : list Z -> M dev (Z * option alert_line)) : M dev (Z * option alert_line) :=
  p ← get_lan_param_select channel param alert;
  match p with
  | Some (mk_lp (Some d) data_len) => if data_len <? len then mret (-1, None) else b ← lift (slx d 0 len); f b
  | _ => mret (-1, None)
  end.

(** [ipmi_lan_alert_print] *)
Definition ipmi_lan_alert_print (channel alert : Z) : M dev (Z * option alert_line) :=
  alert_bytes channel IPMI_LANP_DEST_TYPE alert 4 (fun ptype =>
  alert_bytes channel IPMI_LANP_DEST_ADDR alert 13 (fun paddr =>
  mret (0, Some (mk_alert_line (rd ptype 0) (negb (rd ptype 1 .& 0x80 =? 0)) (rd ptype 1 .& 0x7) (rd ptype 2) (rd ptype 3 .& 0x7)
    (if negb (rd paddr 1 .& 0xf0 =? 0) then None
     else Some (negb (rd paddr 2 .& 1 =? 0), slice paddr 3 4, slice paddr 7 6)))))).

(** [ipmi_lan_alert_print_all]: the loop over the destinations from [j] on. *)
Fixpoint alert_print_loop (n : nat) (channel j : Z) : M dev (list alert_line) :=
  match n with
  | O => mret []
  | S n =>
      '(_, l) ← ipmi_lan_alert_print channel (u8 j);
      ls ← alert_print_loop n channel (j + 1);
      mret (match l with Some l => l :: ls | None => ls end)
  end.

Definition ipmi_lan_alert_print_all (channel : Z) : M dev (Z * list alert_line) :=
  p ← get_lan_param channel IPMI_LANP_NUM_DEST;
  match p with
  | Some (mk_lp (Some d) _) =>
      x ← lift (rdx d 0);
      ls ← alert_print_loop (Z.to_nat (x .& 0xf + 1)) channel 0;
      mret (0, ls)
  | _ => mret (-1, [])
  end.

(** [memcpy(data, p->data, __min(p->data_len, sizeof(data)))] into the cleared
    array of 32 bytes; the comparison is one of [size_t]. *)
Definition load_param (p : lan_param) : res (list Z) :=
  let n := if lp_data_len p <? 0 then 32 else Z.min (lp_data_len p) 32 in
  if n =? 0 then Ok (zeros 32) else
  b ← slx (lp_array p) 0 n; or_oob (wr (zeros 32) 0 b).

(** A change of the present value of a parameter of the destination; [f] gives
    [None] for words that it does not know. *)
Definition alert_change (chan param alert : Z) (f : list Z -> option (list Z)) : M dev Z :=
  p ← get_lan_param_select chan param alert;
  match p with
  | None => mret (-1)
  | Some p =>
      data ← lift (load_param p);
      match f data with
      | None => mret (-1)
      | Some data => set_lan_param_nowait chan param data (lp_data_len p)
      end
  end.

Definition put_at (i : nat) (v : Z) (data : list Z) : list Z := <[i := v]> data.

Definition alert_gateway (w data : list Z) : option (list Z) :=
  if strcaseeq w (text "def") || strcaseeq w (text "default") then Some (put_at 2 0 data)
  else if strcaseeq w (text "bak") || strcaseeq w (text "backup") then Some (put_at 2 1 data)
  else None.

Definition alert_ack (w data : list Z) : option (list Z) :=
  if strcaseeq w (text "on") || strcaseeq w (text "yes") then Some (put_at 1 (rd data 1 .| 0x80) data)
  else if strcaseeq w (text "off") || strcaseeq w (text "no") then Some (put_at 1 (rd data 1 .& Z.lnot 0x80) data)
  else None.

Definition alert_type (w data : list Z) : option (list Z) :=
  if strcaseeq w (text "pet") then Some (put_at 1 (rd data 1 .& Z.lnot 0x07) data)
  else if strcaseeq w (text "oem1") then Some (put_at 1 ((rd data 1 .& Z.lnot 0x07) .| 0x06) data)
  else if strcaseeq w (text "oem2") then Some (put_at 1 (rd data 1 .| 0x07) data)
  else None.

Definition alert_time (w data : list Z) : option (list Z) :=
  match byte_arg w with Some v => Some (put_at 2 v data) | None => None end.

Definition alert_retry (w data : list Z) : option (list Z) :=
  match byte_arg w with Some v => Some (put_at 3 (v .& 0x7) data) | None => None end.

(** [memcpy(data + off, temp, n)] *)
Definition alert_place (off : Z) (temp data : list Z) : option (list Z) := wr data off temp.

(** [ipmi_lan_alert_set] *)
Definition ipmi_lan_alert_set (chan alert : Z) (args : list (list Z)) : M dev Z :=
  match args with
  | what :: w :: _ =>
      let named n := strcaseeq what (text n) in
      if is_arg what "help" || is_arg w "help" then mret 0 else
      match (if named "ipaddr"%string then get_cmdline_ipaddr w else None),
            (if named "macaddr"%string then mac_arg w else None) with
      | Some ip, _ => alert_change chan IPMI_LANP_DEST_ADDR alert (alert_place 3 ip)
      | None, Some mac => alert_change chan IPMI_LANP_DEST_ADDR alert (alert_place 7 mac)
      | None, None =>
          if named "gateway"%string then alert_change chan IPMI_LANP_DEST_ADDR alert (alert_gateway w)
          else if named "ack"%string then alert_change chan IPMI_LANP_DEST_TYPE alert (alert_ack w)
          else if named "type"%string then alert_change chan IPMI_LANP_DEST_TYPE alert (alert_type w)
          else if named "time"%string then alert_change chan IPMI_LANP_DEST_TYPE alert (alert_time w)
          else if named "retry"%string then alert_change chan IPMI_LANP_DEST_TYPE alert (alert_retry w)
          else mret (-1)
      end
  | _ => mret (-1)
  end.

(** The words of [ipmi_lan_alert]: a channel that has to be LAN. *)
Definition with_lan_channel {A} (w : list Z) (failed : A) (f : Z -> M dev A) : M dev A :=
  let '(rc, channel) := str2uchar (Some w) in
  let channel := default 0 channel in
  if negb (rc =? 0) then mret failed else
  lan ← is_lan_channel channel;
  if negb lan then mret failed else f channel.

(** A destination of the channel. *)
Definition with_alert {A} (channel : Z) (w : list Z) (failed : A) (f : Z -> M dev A) : M dev A :=
  let '(rc, alert) := str2uchar (Some w) in
  let alert := default 0 alert in
  if negb (rc =? 0) then mret failed else
  ok ← is_alert_destination channel alert;
  if negb ok then mret failed else f alert.

(** [ipmi_lan_alert] *)
Definition ipmi_lan_alert (args : list (list Z)) : M dev (Z * list alert_line) :=
  let code (m : M dev Z) : M dev (Z * list alert_line) := rc ← m; mret (rc, []) in
  match args with
  | [] => mret (-1, [])
  | what :: rest =>
      if strcaseeq what (text "help") then mret (0, [])
      else if strcaseeq what (text "print") then
        match rest with
        | [] =>
            channel ← find_lan_channel 1;
            lan ← is_lan_channel channel;
            if negb lan then mret (-1, []) else ipmi_lan_alert_print_all channel
        | w :: rest =>
            if strcaseeq w (text "help") then mret (0, []) else
            with_lan_channel w (-1, []) (fun channel =>
            match rest with
            | [] => ipmi_lan_alert_print_all channel
            | w :: _ => with_alert channel w (-1, []) (fun alert =>
                '(rc, l) ← ipmi_lan_alert_print channel alert; mret (rc, match l with Some l => [l] | None => [] end))
            end)
        end
      else if strcaseeq what (text "set") then
        match rest with
        | ch :: al :: ((_ :: _ :: _) as rest) =>
            if strcaseeq ch (text "help") then mret (0, []) else
            with_lan_channel ch (-1, []) (fun channel =>
            with_alert channel al (-1, []) (fun alert => code (ipmi_lan_alert_set channel alert rest)))
        | _ => mret (-1, [])
        end
      else mret (0, [])
  end.

(** ** Printing the configuration *)

(** A line of "lan print": what it shows of the parameter. *)
Inductive lan_line :=
  | RProgress (state : Z)
  | RAuthTypes (mask : Z)
  | RAuthEnable (masks : list Z)
  | RSource (source : Z)
  | RAddress (param : Z) (ip : list Z)
  | RMac (param : Z) (mac : list Z)
  | RSnmp (community : list Z)
  | RHeader (ttl flags precedence tos : Z)
  | RArp (respond generate : bool)
  | RArpInterval (seconds : Z)
  | RVlan (id : option Z)
  | RVlanPriority (priority : Z)
  | RCiphers (ids : option (list Z))
  | RCipherPrivs (privs : option (list Z))
  | RBadPass (values : option (Z * bool * Z * Z)).

(** A parameter: [None] for the return of -1, and otherwise the lines that it
    adds; one that is not supported adds none. *)
Definition report (chan param : Z) (f : list Z -> res lan_line) : M dev (option (list lan_line)) :=
  p ← get_lan_param chan param;
  match p with
  | None => mret None
  | Some (mk_lp (Some d) _) => l ← lift (f d); mret (Some [l])
  | Some (mk_lp None _) => mret (Some [])
  end.

(** One whose failure is ignored. *)
Definition report_if (chan param : Z) (f : list Z -> res lan_line) : M dev (option (list lan_line)) :=
  r ← report chan param f; mret (Some (default [] r)).

(** One that has to have a length; otherwise "Not Available" is printed. *)
Definition report_sized (chan param len : Z) (none : lan_line) (f : list Z -> res lan_line) : M dev (option (list lan_line)) :=
  p ← get_lan_param chan param;
  match p with
  | None => mret None
  | Some (mk_lp (Some d) n) => if n =? len then l ← lift (f d); mret (Some [l]) else mret (Some [none])
  | Some (mk_lp None _) => mret (Some [none])
  end.

Fixpoint reports (ms : list (M dev (option (list lan_line)))) : M dev (Z * list lan_line) :=
  match ms with
  | [] => mret (0, [])
  | m :: ms =>
      r ← m;
      match r with
      | None => mret (-1, [])
      | Some ls => '(rc, rest) ← reports ms; mret (rc, ls ++ rest)
      end
  end.

Definition byte0 (f : Z -> lan_line) (d : list Z) : res lan_line := x ← rdx d 0; Ok (f x).
Definition bytes_of (n : Z) (f : list Z -> lan_line) (d : list Z) : res lan_line := b ← slx d 0 n; Ok (f b).

(** What [%s] prints: the bytes up to the first zero, in the array. *)
Definition string_at (d : list Z) : res (list Z) := if bool_decide (0 ∈ d) then Ok (c_string d) else Bad OutOfBounds.

Definition vlan_line (b : list Z) : lan_line :=
  RVlan (if negb (rd b 1 .& 0x80 =? 0) then Some (((rd b 1 .& 0x0f) .<< 8) + rd b 0) else None).

(** The number of cipher suites, and then their list. *)
Definition report_ciphers (chan : Z) : M dev (option (list lan_line)) :=
  p ← get_lan_param chan IPMI_LANP_RMCP_CIPHER_SUPPORT;
  match p with
  | None => mret None
  | Some (mk_lp None _) => mret (Some [])
  | Some (mk_lp (Some d) _) =>
      count ← lift (rdx d 0);
      p ← get_lan_param chan IPMI_LANP_RMCP_CIPHERS;
      match p with
      | None => mret None
      | Some (mk_lp (Some d) n) =>
          if n <=? 17 then b ← lift (slx d 1 (Z.min 16 count)); mret (Some [RCiphers (Some b)]) else mret (Some [RCiphers None])
      | Some (mk_lp None _) => mret (Some [RCiphers None])
      end
  end.

(** [priv_level_to_char] *)
Definition priv_level_to_char (l : Z) : Z :=
  if l =? 1 then 99 else if l =? 2 then 117 else if l =? 3 then 111 else if l =? 4 then 97 else if l =? 5 then 79 else 88.

Definition cipher_privs_line (b : list Z) : lan_line :=
  RCipherPrivs (Some (take 15 (flat_map (fun x => [priv_level_to_char (x .& 0x0F); priv_level_to_char (x .>> 4)]) (drop 1 b)))).

Definition bad_pass_line (b : list Z) : lan_line :=
  RBadPass (Some (rd b 1, negb (rd b 0 .& 1 =? 0), (rd b 2 + (rd b 3 .<< 8)) * 10, (rd b 4 + (rd b 5 .<< 8)) * 10)).

(** The parameters of [ipmi_lan_print], in two parts. *)
Definition lan_reports_first (chan : Z) : list (M dev (option (list lan_line))) := [
  report chan IPMI_LANP_SET_IN_PROGRESS (byte0 (fun x => RProgress (x .& 3)));
  report chan IPMI_LANP_AUTH_TYPE (byte0 (fun x => RAuthTypes (x .& 0x37)));
  report chan IPMI_LANP_AUTH_TYPE_ENABLE (bytes_of 5 (fun b => RAuthEnable (map (Z.land 0x37) b)));
  report chan IPMI_LANP_IP_ADDR_SRC (byte0 (fun x => RSource (x .& 0xf)));
  report chan IPMI_LANP_IP_ADDR (bytes_of 4 (RAddress IPMI_LANP_IP_ADDR));
  report chan IPMI_LANP_SUBNET_MASK (bytes_of 4 (RAddress IPMI_LANP_SUBNET_MASK));
  report chan IPMI_LANP_MAC_ADDR (bytes_of 6 (RMac IPMI_LANP_MAC_ADDR));
  report chan IPMI_LANP_SNMP_STRING (fun d => s ← string_at d; Ok (RSnmp s));
  report chan IPMI_LANP_IP_HEADER (bytes_of 3 (fun b => RHeader (rd b 0) (rd b 1 .& 0xe0) (rd b 2 .& 0xe0) (rd b 2 .& 0x1e)))].

Definition lan_reports_rest (chan : Z) : list (M dev (option (list lan_line))) := [
  report chan IPMI_LANP_BMC_ARP (byte0 (fun x => RArp (negb (x .& 2 =? 0)) (negb (x .& 1 =? 0))));
  report chan IPMI_LANP_GRAT_ARP (byte0 (fun x => RArpInterval ((x + 1) / 2)));
  report chan IPMI_LANP_DEF_GATEWAY_IP (bytes_of 4 (RAddress IPMI_LANP_DEF_GATEWAY_IP));
  report chan IPMI_LANP_DEF_GATEWAY_MAC (bytes_of 6 (RMac IPMI_LANP_DEF_GATEWAY_MAC));
  report chan IPMI_LANP_BAK_GATEWAY_IP (bytes_of 4 (RAddress IPMI_LANP_BAK_GATEWAY_IP));
  report chan IPMI_LANP_BAK_GATEWAY_MAC (bytes_of 6 (RMac IPMI_LANP_BAK_GATEWAY_MAC));
  report_if chan IPMI_LANP_VLAN_ID (bytes_of 2 vlan_line);
  report_if chan IPMI_LANP_VLAN_PRIORITY (byte0 (fun x => RVlanPriority (x .& 0x07)));
  report_ciphers chan;
  report_sized chan IPMI_LANP_RMCP_PRIV_LEVELS 9 (RCipherPrivs None) (bytes_of 9 cipher_privs_line);
  report_sized chan IPMI_LANP_BAD_PASS_THRESH 6 (RBadPass None) (bytes_of 6 bad_pass_line)].

(** [ipmi_lan_print] *)
Definition ipmi_lan_print (chan : Z) : M dev (Z * list lan_line) :=
  if (chan <? 1) || (IPMI_CHANNEL_NUMBER_MAX <? chan) then mret (-1, []) else
  lan ← is_lan_channel chan;
  if negb lan then mret (-1, []) else reports (lan_reports_first chan ++ lan_reports_rest chan).

(** ** Statistics *)

Definition stats_rq (chan clear : Z) : ipmi_rq := mk_rq IPMI_NETFN_TRANSPORT 0 IPMI_LAN_GET_STAT 0 [chan; clear].

Definition be16_at (d : list Z) (i : Z) : Z := (rd d (2 * i) .<< 8) .| rd d (2 * i + 1).

(** [ipmi_lan_stats_get]: the nine counters that are printed; the length of
    the response is not looked at. *)
Definition ipmi_lan_stats_get (chan : Z) : M dev (Z * option (list Z)) :=
  lan ← is_lan_channel chan;
  if negb lan then mret (-1, None) else
  rsp ← sendrecv (stats_rq chan 0);
  match rsp with
  | None => mret (-1, None)
  | Some r =>
      if negb (ccode r =? 0) then mret (-1, None) else
      d ← lift (rsp_bytes r 0 18); mret (0, Some (map (be16_at d) [0; 1; 2; 3; 4; 5; 6; 7; 8]))
  end.

(** [ipmi_lan_stats_clear] *)
Definition ipmi_lan_stats_clear (chan : Z) : M dev Z :=
  lan ← is_lan_channel chan;
  if negb lan then mret (-1) else
  rsp ← sendrecv (stats_rq chan 1);
  mret (match rsp with None => -1 | Some r => if negb (ccode r =? 0) then -1 else 0 end).
End Alerts.

(** ** The command *)

(** What "lan" gives: its code, and what it prints. *)
Inductive lan_result :=
  | LCode (rc : Z)
  | LPrint (rc : Z) (lines : list lan_line)
  | LAlerts (rc : Z) (lines : list alert_line)
  | LStats (rc : Z) (counters : option (list Z)).

Section LanMain.
Context {dev : Type} {bmc : Bmc dev} {slp : Sleep dev} {mal : Malloc}.

(** The channel of "print" and "stats": the word, or the first LAN channel. *)
Definition main_channel (word : option (list Z)) (f : Z -> M (lan_env dev) lan_result) : M (lan_env dev) lan_result :=
  let run chan :=
    lan ← is_lan_channel chan;
    if negb lan then mret (LCode (-1)) else f chan in
  match word with
  | Some w =>
      let '(rc, chan) := str2uchar (Some w) in
      if negb (rc =? 0) then mret (LCode (-1)) else run (default 0 chan)
  | None => chan ← find_lan_channel 1; run chan
  end.

(** [ipmi_lanp_main] *)
Definition ipmi_lanp_main (args : list (list Z)) : M (lan_env dev) lan_result :=
  match args with
  | [] => mret (LCode (-1))
  | w :: rest =>
      if is_arg w "help" then mret (LCode 0)
      else if is_arg w "printconf" || is_arg w "print" then
        if 1 <? zlen rest then mret (LCode (-1)) else
        main_channel (rest !! 0%nat) (fun chan => '(rc, ls) ← ipmi_lan_print chan; mret (LPrint rc ls))
      else if is_arg w "set" then rc ← ipmi_lan_set rest; mret (LCode rc)
      else if is_arg w "alert" then '(rc, ls) ← ipmi_lan_alert rest; mret (LAlerts rc ls)
      else if is_arg w "stats" then
        match rest with
        | [] => mret (LCode (-1))
        | what :: rest =>
            main_channel (if zlen rest =? 1 then rest !! 0%nat else None) (fun chan =>
            if is_arg what "get" then '(rc, c) ← ipmi_lan_stats_get chan; mret (LStats rc c)
            else if is_arg what "clear" then rc ← ipmi_lan_stats_clear chan; mret (LCode rc)
            else mret (LCode (-1)))
        end
      else mret (LCode (-1))
  end.
End LanMain.
