(* ===== verification/LanpStore.v ===== *)
(** * Writing LAN parameters to a controller (lib/ipmi_lanp.c)

    What a controller with a LAN configuration promises ([LanController]), and
    what the reads, the waits, the retries and the lock of [set_lan_param] come
    to on such a controller. *)

From stdpp Require Import strings.
From S2P Require Import Prelude Wire Ipmi Intf Session Helper CText Bmc Channel Lanp6 Lanp.

#[local] Open Scope Z_scope.

(** ** What a controller with a LAN configuration promises

    What is seen of it: the parameters that it accepted, by number and selector,
    how long until each is read back, how long it refuses to be written, and the
    value of "set in progress". *)
Record lan_view := mk_lv {
  lv_conf : gmap (Z * Z) (list Z);
  lv_lag : Z * Z -> nat;
  lv_busy : nat;
  lv_state : Z;
}.

(** The parameters of a destination: their data begin with its number. *)
Definition per_alert (p : Z) : bool := (p =? IPMI_LANP_DEST_TYPE) || (p =? IPMI_LANP_DEST_ADDR).
Definition selector (p : Z) (v : list Z) : Z := if per_alert p then rd v 0 else 0.

Definition unsupported (r : ipmi_rs) : Prop := ccode r = 0x80 \/ ccode r = 0xc9 \/ ccode r = 0xcc.

(** The answer to a read: a parameter that has not settled is not yet read
    back. *)
Definition reads (w : lan_view) (k : Z * Z) (o : option ipmi_rs) : Prop :=
  match lv_conf w !! k with
  | None => exists r, o = Some r /\ unsupported r
  | Some v =>
      if decide (lv_lag w k = 0%nat) then exists r rev, o = Some r /\ ccode r = 0 /\ carries r (rev :: v)
      else forall r, o = Some r -> ccode r = 0 -> rs_data_len r <= zlen (rs_data r) /\ forall rev, ~ carries r (rev :: v)
  end.

(** Reads change nothing; a write is accepted, or refused with 0xcc while the
    controller is busy, which ends by sleeping.  The program repeats a write and
    waits for it, except for those of destinations: these are accepted at once. *)
Class LanController {dev : Type} {bmc : Bmc dev} {slp : Sleep dev} (chan : Z) (lockable : bool) (view : dev -> lan_view) := {
  lc_chan : 1 <= chan <= 14;
  lc_medium : forall d, exists r d' info, bmc_answer (mk_rq IPMI_NETFN_APP 0 IPMI_GET_CHANNEL_INFO 0 [chan]) d = (Some r, d') /\
    ccode r = 0 /\ carries r info /\ zlen info = 9 /\ rd info 1 = IPMI_CHANNEL_MEDIUM_LAN /\ view d' = view d;
  lc_value : forall d p s v, lv_conf (view d) !! (p, s) = Some v ->
    p <> 0 /\ (exists name, (p, zlen v, name) ∈ ipmi_lan_params) /\ bytes v /\ (per_alert p = true -> rd v 0 = s);
  lc_get : forall d p s, 0 < p < 256 -> 0 <= s < 16 -> exists o d', bmc_answer (get_rq chan p s) d = (o, d') /\
    view d' = view d /\ reads (view d) (p, s) o;
  lc_get_state : forall d, exists r d', bmc_answer (get_rq chan 0 0) d = (Some r, d') /\ view d' = view d /\
    (if lockable then ccode r = 0 /\ exists rev, carries r [rev; lv_state (view d)] else unsupported r);
  lc_set : forall d p v old, lv_conf (view d) !! (p, selector p v) = Some old -> zlen v = zlen old -> bytes v ->
    exists r d', bmc_answer (set_rq chan p v) d = (Some r, d') /\ lv_state (view d') = lv_state (view d) /\
    (ccode r = 0 /\ lv_conf (view d') = <[(p, selector p v) := v]> (lv_conf (view d)) /\
       (forall k, lv_lag (view d') k <= if decide (k = (p, selector p v)) then (if per_alert p then 0 else 10) else lv_lag (view d) k)%nat \/
     ccode r = 0xcc /\ per_alert p = false /\ (0 < lv_busy (view d))%nat /\ view d' = view d);
  lc_set_state : forall d x, exists o d', bmc_answer (set_rq chan 0 [x]) d = (o, d') /\ lv_conf (view d') = lv_conf (view d) /\
    lv_lag (view d') = lv_lag (view d) /\ lv_busy (view d') = lv_busy (view d) /\ (x = 0 -> lv_state (view d') = 0);
  lc_busy : forall d, (lv_busy (view d) <= 10)%nat;
  lc_sleep : forall d, let d' := slept IPMI_LANP_TIMEOUT d in
    lv_conf (view d') = lv_conf (view d) /\ lv_state (view d') = lv_state (view d) /\
    (forall k, lv_lag (view d') k <= lv_lag (view d) k - 1)%nat /\ (lv_busy (view d') <= lv_busy (view d) - 1)%nat;
}.

Lemma table_range p n name : (p, n, name) ∈ ipmi_lan_params -> 0 <= p < 256 /\ 1 <= n <= 28 /\ known_param p = true.
Proof.
  intros H. assert (forallb (fun x => (0 <=? x.1.1) && (x.1.1 <? 256) && (1 <=? x.1.2) && (x.1.2 <=? 28) && known_param x.1.1) ipmi_lan_params = true)
    as E by (vm_compute; reflexivity).
  rewrite forallb_forall in E. apply list_elem_of_In, E in H. cbn [fst snd] in H. bool_hyps. auto with lia.
Qed.

(** The size of a parameter. *)
Definition size_of (p : Z) : Z := foldr (fun x n => if x.1.1 =? p then x.1.2 else n) 0 ipmi_lan_params.

Lemma table_size p n name : (p, n, name) ∈ ipmi_lan_params -> n = size_of p.
Proof.
  intros H. assert (forallb (fun x => x.1.2 =? size_of x.1.1) ipmi_lan_params = true) as E by (vm_compute; reflexivity).
  rewrite forallb_forall in E. apply list_elem_of_In, E in H. cbn [fst snd] in H. lia.
Qed.

Section Parameters.
Context {dev : Type} {bmc : Bmc dev} {slp : Sleep dev} (chan : Z) (lockable : bool) (view : dev -> lan_view).
Context {ctl : LanController chan lockable view}.

Abbreviation conf d := (lv_conf (view d)).
Abbreviation lag d := (lv_lag (view d)).

(** Every parameter is read back, and nobody holds the lock. *)
Definition settled (d : dev) : Prop := (forall k, lag d k = 0%nat) /\ lv_state (view d) = 0.

Lemma known p s v d : conf d !! (p, s) = Some v -> 0 < p < 256 /\ 1 <= zlen v <= 28 /\ known_param p = true /\ bytes v.
Proof using ctl.
  intros H. destruct (lc_value d p s v H) as (Hp & (name & Hin) & Hb & _). destruct (table_range _ _ _ Hin) as (H1 & H2 & H3). split_and!; (done || lia).
Qed.

Lemma value_size p s v d : conf d !! (p, s) = Some v -> zlen v = size_of p.
Proof using ctl. intros H. destruct (lc_value d p s v H) as (_ & (name & Hin) & _). by eapply table_size. Qed.

Lemma lan_get_run p s v d : conf d !! (p, s) = Some v -> lag d (p, s) = 0%nat -> 0 <= s < 16 -> exists rest d',
  get_lan_param_select chan p s d = Ok (Some (mk_lp (Some (v ++ rest)) (zlen v)), d') /\ view d' = view d.
Proof using ctl.
  intros Hv Hl Hs. destruct (known _ _ _ _ Hv) as (Hp & _ & Hk & _). destruct (lc_get d p s Hp Hs) as (o & d' & E & V & R).
  unfold reads in R. rewrite Hv, decide_True in R by done. destruct R as (r & rev & -> & Hc & [Hlen (rest & Hr)]).
  exists rest, d'. split; [| done]. unfold get_lan_param_select. rewrite Hk. cbn [negb]. rewrite (sendrecv_bind _ _ _ _ _ E), Hc, Hr, Hlen.
  rewrite zlen_cons. unfold mret, M_ret. change (0 =? 0) with true. cbv iota. do 4 f_equal. lia.
Qed.

Lemma get_missing p s d : conf d !! (p, s) = None -> 0 < p < 256 -> 0 <= s < 16 -> known_param p = true -> exists d',
  get_lan_param_select chan p s d = Ok (Some (mk_lp None 0), d') /\ view d' = view d.
Proof using ctl.
  intros Hv Hp Hs Hk. destruct (lc_get d p s Hp Hs) as (o & d' & E & V & R). unfold reads in R. rewrite Hv in R.
  destruct R as (r & -> & Hr). exists d'. split; [| done]. unfold get_lan_param_select. rewrite Hk. cbn [negb].
  rewrite (sendrecv_bind _ _ _ _ _ E). destruct Hr as [->|[->| ->]]; done.
Qed.

(** A read of the parameter that is waited for succeeds with its value, or its
    value is different. *)
Lemma poll_run p v data d : conf d !! (p, 0) = Some v -> slx data 0 (zlen v) = Ok v -> exists o d',
  get_lan_param chan p d = Ok (o, d') /\ view d' = view d /\
  match o with
  | None => lag d (p, 0) <> 0%nat
  | Some q => if negb (lp_data_len q =? zlen v) then lag d (p, 0) <> 0%nat
              else same_bytes data q (zlen v) = Ok (bool_decide (lag d (p, 0) = 0%nat))
  end.
Proof using ctl.
  intros Hv Hd. destruct (known _ _ _ _ Hv) as (Hp & Hz & Hk & _). destruct (decide (lag d (p, 0) = 0%nat)) as [Hl|Hl].
  - destruct (lan_get_run p 0 v d Hv Hl ltac:(lia)) as (rest & d' & E & V). do 2 eexists. split; [exact E |]. split; [done |].
    cbn [lp_data_len]. rewrite Z.eqb_refl. cbn [negb]. unfold same_bytes. rewrite Hd. cbn [lp_array lp_data mbind res_bind].
    rewrite slx_ok by (rewrite ?zlen_app; pose proof (zlen_nonneg rest); lia). cbn [mbind res_bind].
    rewrite slice_app_l, slice_all by lia. cbn. by rewrite !bool_decide_eq_true_2.
  - destruct (lc_get d p 0 Hp ltac:(lia)) as (o & d' & E & V & R). unfold reads in R. rewrite Hv, decide_False in R by done.
    unfold get_lan_param, get_lan_param_select. rewrite Hk. cbn [negb]. rewrite (sendrecv_bind _ _ _ _ _ E).
    do 2 eexists. split; [reflexivity |]. split; [done |]. destruct o as [r|]; [| done].
    destruct (Z.eqb_spec (ccode r) 0) as [Hc|Hc].
    2: { destruct (_ || _); [| done]. cbn [lp_data_len]. by rewrite (proj2 (Z.eqb_neq 0 (zlen v))) by lia. }
    destruct (R r eq_refl Hc) as [Hlen Hno]. cbn [lp_data_len]. destruct (Z.eqb_spec (rs_data_len r - 1) (zlen v)) as [He|He]; [| done].
    cbn [negb]. unfold same_bytes. rewrite Hd. cbn [lp_array lp_data mbind res_bind]. destruct (rs_data r) as [|rev rest] eqn:Er; [rewrite zlen_nil in Hlen; lia |].
    rewrite zlen_cons in Hlen. change (drop 1 (rev :: rest)) with rest. rewrite slx_ok by lia. cbn [mbind res_bind].
    rewrite (bool_decide_eq_false_2 (lag d (p, 0) = 0%nat)) by done. cbn. f_equal. apply bool_decide_eq_false_2. intros Hs.
    apply (Hno rev). split; [rewrite zlen_cons; lia |]. exists (drop (Z.to_nat (zlen v)) rest). rewrite Er. cbn [app]. f_equal.
    rewrite Hs at 1. unfold slice. cbn [Z.to_nat drop]. by rewrite take_drop.
Qed.

(** What stays while a parameter is waited for. *)
Definition calmer (d d' : dev) : Prop :=
  conf d' = conf d /\ lv_state (view d') = lv_state (view d) /\ (forall k, lag d' k <= lag d k)%nat.

Lemma calmer_trans d1 d2 d3 : calmer d1 d2 -> calmer d2 d3 -> calmer d1 d3.
Proof. intros (C1 & S1 & L1) (C2 & S2 & L2). split_and!; [congruence | congruence |]. intros k. specialize (L1 k). specialize (L2 k). lia. Qed.

Lemma calmer_view d d' : view d' = view d -> calmer d d'.
Proof. intros E. unfold calmer. by rewrite E. Qed.

Lemma calmer_sleep d : calmer d (slept IPMI_LANP_TIMEOUT d).
Proof using ctl. destruct (lc_sleep d) as (C & S & L & _). split_and!; [done | done |]. intros k. specialize (L k). lia. Qed.

(** After as many naps as the parameter takes, it is found. *)
Lemma lan_wait_run retry p v data d : conf d !! (p, 0) = Some v -> slx data 0 (zlen v) = Ok v -> (lag d (p, 0%Z) <= retry)%nat ->
  exists d', wait_loop chan retry p data (zlen v) d = Ok (0, d') /\ calmer d d' /\ lag d' (p, 0) = 0%nat.
Proof using ctl.
  revert d. induction retry as [|retry IH]; intros d Hv Hd Hl; cbn [wait_loop];
    destruct (poll_run p v data d Hv Hd) as (o & d1 & E & V & R); rewrite (M_bind_run _ _ _ _ _ E).
  all: assert ((match o with None => mret false | Some q => if negb (lp_data_len q =? zlen v) then mret false else lift (same_bytes data q (zlen v)) end) d1
    = Ok (bool_decide (lag d (p, 0) = 0%nat), d1)) as Ep
    by (destruct o as [q|]; [destruct (negb _); [by rewrite bool_decide_eq_false_2 | unfold lift; by rewrite R] | by rewrite bool_decide_eq_false_2]).
  all: rewrite (M_bind_run _ _ _ _ _ Ep); case_bool_decide as Hz.
  - exists d1. split; [done |]. split; [by apply calmer_view |]. by rewrite V.
  - lia.
  - exists d1. split; [done |]. split; [by apply calmer_view |]. by rewrite V.
  - change (sleep IPMI_LANP_TIMEOUT) with (modify (slept (dev := dev) IPMI_LANP_TIMEOUT)).
    rewrite (M_bind_run _ _ d1 tt (slept IPMI_LANP_TIMEOUT d1) eq_refl).
    pose proof (calmer_sleep d1) as (C & S & L). destruct (lc_sleep d1) as (_ & _ & L' & _).
    destruct (IH (slept IPMI_LANP_TIMEOUT d1)) as (d2 & E2 & C2 & L2); [by rewrite C, V | done | specialize (L' (p, 0)); rewrite V in L'; lia |].
    exists d2. split; [exact E2 |]. split; [| done]. eapply calmer_trans; [apply (calmer_view d d1 V) |].
    eapply calmer_trans; [exact (calmer_sleep d1) | exact C2].
Qed.

(** The parameter [p] has been written. *)
Definition written (p : Z) (v : list Z) (d d' : dev) : Prop :=
  conf d' = <[(p, 0) := v]> (conf d) /\ lv_state (view d') = lv_state (view d) /\
  (forall k, lag d' k <= if decide (k = (p, 0%Z)) then 10 else lag d k)%nat.

Lemma write_then_wait p v data d d1 : written p v d d1 -> slx data 0 (zlen v) = Ok v -> (forall k, lag d k = 0%nat) ->
  exists d', set_lan_param_wait chan p data (zlen v) d1 = Ok (0, d') /\ conf d' = <[(p, 0) := v]> (conf d) /\
    lv_state (view d') = lv_state (view d) /\ forall k, lag d' k = 0%nat.
Proof using ctl.
  intros (C & S & L) Hd H0. destruct (lan_wait_run 10 p v data d1) as (d2 & E & (C2 & S2 & L2) & Z2).
  { rewrite C. apply lookup_insert_eq. }
  { done. }
  { specialize (L (p, 0)). by rewrite decide_True in L. }
  exists d2. split; [exact E |]. split_and!; [congruence | congruence |]. intros k. destruct (decide (k = (p, 0))) as [->|Hk]; [done |].
  specialize (L k). specialize (L2 k). rewrite decide_False in L by done. rewrite H0 in L. lia.
Qed.

(** A write that may be refused for a while. *)
Lemma write_once p v old d : conf d !! (p, 0) = Some old -> zlen v = zlen old -> bytes v -> per_alert p = false ->
  exists r d', bmc_answer (set_rq chan p v) d = (Some r, d') /\
    (ccode r = 0 /\ written p v d d' \/ ccode r = 0xcc /\ (0 < lv_busy (view d))%nat /\ view d' = view d).
Proof using ctl.
  intros Hv Hz Hb Hp. assert (selector p v = 0) as Hs by (unfold selector; by rewrite Hp).
  destruct (lc_set d p v old) as (r & d' & E & S & R); [by rewrite Hs | done | done |]. exists r, d'. split; [done |]. rewrite Hs, Hp in R.
  destruct R as [(Hc & C & L)|(Hc & _ & B & V)]; [left | by right]. by repeat split.
Qed.

Lemma retry_run n p v old data d : conf d !! (p, 0) = Some old -> zlen v = zlen old -> bytes v -> per_alert p = false ->
  slx data 0 (zlen v) = Ok v -> (forall k, lag d k = 0%nat) -> (lv_busy (view d) <= n)%nat -> (0 < n)%nat ->
  exists d', retry_loop chan n (set_rq chan p v) p data (zlen v) d = Ok (0, d') /\ conf d' = <[(p, 0) := v]> (conf d) /\
    lv_state (view d') = lv_state (view d) /\ forall k, lag d' k = 0%nat.
Proof using ctl.
  intros Hv Hz Hb Hp Hd. revert d Hv. induction n as [|n IH]; intros d Hv H0 Hn Hpos; [lia |]. cbn [retry_loop].
  rewrite (M_bind_run _ _ d tt (slept IPMI_LANP_TIMEOUT d) eq_refl). set (d1 := slept IPMI_LANP_TIMEOUT d).
  destruct (lc_sleep d) as (C & S & L & B). fold d1 in C, S, L, B.
  assert (forall k, lag d1 k = 0%nat) as H1 by (intros k; specialize (L k); rewrite H0 in L; lia).
  destruct (write_once p v old d1) as (r & d2 & E & R); [by rewrite C | done | done | done |]. rewrite (sendrecv_bind _ _ _ _ _ E).
  destruct R as [(Hc & W)|(Hc & Bz & V)]; rewrite Hc.
  - change (0 =? 0) with true. cbv iota. destruct (write_then_wait p v data d1 d2 W Hd H1) as (d3 & E3 & C3 & S3 & L3).
    exists d3. split; [exact E3 |]. split_and!; congruence.
  - change (0xcc =? 0) with false. cbv iota. destruct (IH d2) as (d3 & E3 & C3 & S3 & L3).
    + by rewrite V, C.
    + intros k. by rewrite V.
    + rewrite V. lia.
    + lia.
    + exists d3. split; [exact E3 |]. rewrite C3, S3, V, C, S. by split_and!.
Qed.

(** [__set_lan_param] with waiting. *)
Lemma set_wait_run p v old data d : conf d !! (p, 0) = Some old -> zlen v = zlen old -> bytes v -> per_alert p = false ->
  slx data 0 (zlen v) = Ok v -> (forall k, lag d k = 0%nat) ->
  exists d', __set_lan_param chan p data (zlen v) true d = Ok (0, d') /\ conf d' = <[(p, 0) := v]> (conf d) /\
    lv_state (view d') = lv_state (view d) /\ forall k, lag d' k = 0%nat.
Proof using ctl.
  intros Hv Hz Hb Hp Hd H0. destruct (known _ _ _ _ Hv) as (Hr & Hsz & _ & _). unfold __set_lan_param.
  rewrite (proj2 (Z.ltb_ge p 0)) by lia. rewrite Hd, lift_Ok_bind, (proj2 (Z.ltb_ge 32 _)) by lia. cbv iota.
  destruct (write_once p v old d Hv Hz Hb Hp) as (r & d1 & E & R). cbv zeta. rewrite (sendrecv_bind _ _ _ _ _ E). cbn [negb].
  destruct R as [(Hc & W)|(Hc & Bz & V)]; rewrite Hc.
  - change (0 =? 0xcc) with false. change (negb (0 =? 0) && negb (0 =? 0xff)) with false. cbv iota. by apply write_then_wait.
  - change (0xcc =? 0xcc) with true. cbv iota. destruct (retry_run 10 p v old data d1) as (d2 & E2 & C2 & S2 & L2); try done.
    + by rewrite V.
    + intros k. by rewrite V.
    + rewrite V. apply lc_busy.
    + lia.
    + exists d2. rewrite <- V. by split_and!.
Qed.

(** The lock touches nothing but the value of "set in progress". *)
Definition same_params (d d' : dev) : Prop := conf d' = conf d /\ lag d' = lag d /\ lv_busy (view d') = lv_busy (view d).

Lemma same_params_trans d1 d2 d3 : same_params d1 d2 -> same_params d2 d3 -> same_params d1 d3.
Proof. intros (? & ? & ?) (? & ? & ?). split_and!; congruence. Qed.

Lemma state_write x d : exists rc d', __set_lan_param chan 0 [x] 1 false d = Ok (rc, d') /\ same_params d d' /\ (x = 0 -> lv_state (view d') = 0).
Proof using ctl.
  destruct (lc_set_state d x) as (o & d' & E & C & L & B & S). unfold __set_lan_param. change (0 <? 0) with false. cbv iota.
  change (slx [x] 0 1) with (Ok [x]). rewrite lift_Ok_bind. change (32 <? 1 + 2) with false. cbv iota zeta.
  rewrite (sendrecv_bind _ _ _ _ _ E). destruct o as [r|]; eexists _, d'; (split; [reflexivity |]); by repeat split.
Qed.

Lemma state_read d : exists x d', ipmi_lanp_lock_state chan d = Ok (x, d') /\ view d' = view d.
Proof using ctl.
  destruct (lc_get_state d) as (r & d' & E & V & R).
  unfold ipmi_lanp_lock_state, get_lan_param, get_lan_param_select. change (known_param IPMI_LANP_SET_IN_PROGRESS) with true. cbn [negb].
  unfold IPMI_LANP_SET_IN_PROGRESS. erewrite M_bind_run by (rewrite (sendrecv_bind _ _ _ _ _ E); reflexivity). destruct lockable.
  - destruct R as (Hc & rev & Hlen & rest & Hr). rewrite Hc, Hr. change (0 =? 0) with true. cbv iota. cbn [lp_data].
    change (drop 1 ([rev; lv_state (view d)] ++ rest)) with (lv_state (view d) :: rest).
    rewrite rdx_ok by (rewrite zlen_cons; pose proof (zlen_nonneg rest); lia). rewrite lift_Ok_bind. by do 2 eexists.
  - destruct R as [->|[->| ->]]; by do 2 eexists.
Qed.

Lemma same_params_view d d' : view d' = view d -> same_params d d'.
Proof. intros E. unfold same_params. by rewrite E. Qed.

Lemma lock_run n d : exists d', lock_loop chan n d = Ok (tt, d') /\ same_params d d'.
Proof using ctl.
  revert d. induction n as [|n IH]; intros d; cbn [lock_loop]; destruct (state_read d) as (x & d1 & E & V); rewrite (M_bind_run _ _ _ _ _ E).
  - exists d1. split; [by destruct (_ || _) |]. by apply same_params_view.
  - destruct (_ || _); [exists d1; split; [done |]; by apply same_params_view |].
    unfold IPMI_LANP_SET_IN_PROGRESS.
    destruct (state_write IPMI_LANP_WRITE_LOCK d1) as (rc & d2 & E2 & C2 & _). rewrite (M_bind_run _ _ _ _ _ E2).
    destruct (IH d2) as (d3 & E3 & C3). exists d3. split; [done |].
    eapply same_params_trans; [by apply same_params_view |]. by eapply same_params_trans.
Qed.

Lemma unlock_run d : exists d', ipmi_lanp_unlock chan d = Ok (tt, d') /\ same_params d d' /\ lv_state (view d') = 0.
Proof using ctl.
  unfold ipmi_lanp_unlock, IPMI_LANP_SET_IN_PROGRESS.
  destruct (state_write IPMI_LANP_WRITE_COMMIT d) as (rc & d1 & E1 & C1 & _). rewrite (M_bind_run _ _ _ _ _ E1).
  destruct (state_write IPMI_LANP_WRITE_UNLOCK d1) as (rc2 & d2 & E2 & C2 & S2). rewrite (M_bind_run _ _ _ _ _ E2).
  exists d2. split; [done |]. split; [by eapply same_params_trans | by apply S2].
Qed.

(** [set_lan_param] changes the parameter and leaves the lock open. *)
Lemma lan_set_run p v old data d len : settled d -> conf d !! (p, 0) = Some old -> zlen v = zlen old -> bytes v -> per_alert p = false ->
  len = zlen v -> slx data 0 (zlen v) = Ok v ->
  exists d', set_lan_param chan p data len d = Ok (0, d') /\ settled d' /\ conf d' = <[(p, 0) := v]> (conf d).
Proof using ctl.
  intros [H0 _] Hv Hz Hb Hp -> Hd. unfold set_lan_param. destruct (lock_run 3 d) as (d1 & E1 & C1 & L1 & B1). unfold ipmi_lanp_lock.
  rewrite (M_bind_run _ _ _ _ _ E1). destruct (set_wait_run p v old data d1) as (d2 & E2 & C2 & S2 & L2); try done.
  { by rewrite C1. }
  { by rewrite L1. }
  rewrite (M_bind_run _ _ _ _ _ E2). destruct (unlock_run d2) as (d3 & E3 & (C3 & L3 & _) & S3). rewrite (M_bind_run _ _ _ _ _ E3).
  exists d3. split; [done |]. split; [split; [by rewrite L3 | done] |]. by rewrite C3, C2, C1.
Qed.

(** [set_lan_param_nowait] of a parameter of a destination. *)
Lemma set_nowait_run p v old data d len : settled d -> conf d !! (p, rd v 0) = Some old -> zlen v = zlen old -> bytes v -> per_alert p = true ->
  len = zlen v -> slx data 0 (zlen v) = Ok v ->
  exists d', set_lan_param_nowait chan p data len d = Ok (0, d') /\ settled d' /\ conf d' = <[(p, rd v 0) := v]> (conf d).
Proof using ctl.
  intros [H0 _] Hv Hz Hb Hp -> Hd. unfold set_lan_param_nowait. destruct (lock_run 3 d) as (d1 & E1 & C1 & L1 & B1). unfold ipmi_lanp_lock.
  rewrite (M_bind_run _ _ _ _ _ E1). destruct (known _ _ _ _ Hv) as (Hr & Hsz & _ & _).
  assert (selector p v = rd v 0) as Hs by (unfold selector; by rewrite Hp).
  destruct (lc_set d1 p v old) as (r & d2 & E & S & R); [by rewrite Hs, C1 | done | done |]. rewrite Hs, Hp in R.
  destruct R as [(Hc & C & L)|(_ & ? & _)]; [| done].
  assert (__set_lan_param chan p data (zlen v) false d1 = Ok (0, d2)) as E2.
  { unfold __set_lan_param. rewrite (proj2 (Z.ltb_ge p 0)) by lia. rewrite Hd, lift_Ok_bind, (proj2 (Z.ltb_ge 32 _)) by lia. cbv iota zeta.
    by rewrite (sendrecv_bind _ _ _ _ _ E). }
  rewrite (M_bind_run _ _ _ _ _ E2). destruct (unlock_run d2) as (d3 & E3 & (C3 & L3 & _) & S3). rewrite (M_bind_run _ _ _ _ _ E3).
  exists d3. split; [done |]. split; [split; [| done] |].
  - intros k. rewrite L3. specialize (L k). rewrite L1, H0 in L. destruct (decide _); lia.
  - by rewrite C3, C, C1.
Qed.

(** The channel is one of a LAN. *)
Lemma lan_run d : exists d', is_lan_channel chan d = Ok (true, d') /\ view d' = view d.
Proof using ctl.
  destruct (lc_medium d) as (r & d' & info & E & Hc & [Hlen (rest & Hr)] & Hz & Hm & V). pose proof lc_chan as Hch.
  exists d'. split; [| done]. unfold is_lan_channel, IPMI_CHANNEL_NUMBER_MAX.
  rewrite (proj2 (Z.ltb_ge chan 1)), (proj2 (Z.ltb_ge 14 chan)) by lia. cbn [orb]. unfold ipmi_get_channel_medium.
  assert (chan .& 0x0F = chan) as -> by (change 0x0F with (Z.ones 4); rewrite Z.land_ones, Z.mod_small by lia; done).
  rewrite (M_bind_run _ _ d IPMI_CHANNEL_MEDIUM_LAN d'); [done |]. rewrite (sendrecv_bind _ _ _ _ _ E), Hc, Hlen, Hz.
  change (negb (0 =? 0) || negb (9 =? 9)) with false. cbv iota.
  rewrite rsp_bytes_ok by (rewrite ?Hr, ?zlen_app; pose proof (zlen_nonneg rest); lia). rewrite lift_Ok_bind, Hr.
  unfold mret, M_ret. do 3 f_equal. rewrite slice_app_l by lia. rewrite rd_slice by lia. change (1 + 0) with 1. by rewrite Hm.
Qed.
End Parameters.

(** The controller behind the interface is such a controller. *)
#[export] Instance env_controller {dev : Type} {bmc : Bmc dev} {slp : Sleep dev} chan lockable (view : dev -> lan_view)
  {ctl : LanController chan lockable view} : LanController (dev := lan_env dev) chan lockable (fun s => view (le_dev s)).
Proof.
  assert (forall req (s : lan_env dev) o d', bmc_answer req (le_dev s) = (o, d') -> bmc_answer req s = (o, mk_env (le_intf s) d')) as K
    by (intros req s o d' E; unfold bmc_answer at 1, env_bmc; by rewrite E).
  constructor.
  - apply lc_chan.
  - intros s. destruct (lc_medium (le_dev s)) as (r & d' & info & E & R). exists r, (mk_env (le_intf s) d'), info. by split; [apply K |].
  - intros s. apply lc_value.
  - intros s p n Hp Hn. destruct (lc_get (le_dev s) p n Hp Hn) as (o & d' & E & R). exists o, (mk_env (le_intf s) d'). by split; [apply K |].
  - intros s. destruct (lc_get_state (le_dev s)) as (r & d' & E & R). exists r, (mk_env (le_intf s) d'). by split; [apply K |].
  - intros s p v old H1 H2 H3. destruct (lc_set (le_dev s) p v old H1 H2 H3) as (r & d' & E & R).
    exists r, (mk_env (le_intf s) d'). by split; [apply K |].
  - intros s x. destruct (lc_set_state (le_dev s) x) as (o & d' & E & R). exists o, (mk_env (le_intf s) d'). by split; [apply K |].
  - intros s. apply lc_busy.
  - intros s. apply (lc_sleep (le_dev s)).
Qed.
