(* ===== verification/LanpCmd.v ===== *)
(** * The words of "lan set" (lib/ipmi_lanp.c)

    The commands that set parameters and change alert destinations, with the
    words of each and the value that it means, and the runs of "lan set". *)

From stdpp Require Import strings.
From S2P Require Import Prelude Wire Ipmi Intf Session Helper CText Bmc Channel Lanp6 User UserProps Lanp LanpStore.

#[local] Open Scope Z_scope.

(** ** Words of the command line *)

(** An address in decimal with dots. *)
Fixpoint dotted (ip : list Z) : list Z :=
  match ip with
  | [] => []
  | [x] => dec x
  | x :: ip => dec x ++ 46 :: dotted ip
  end.

Lemma scan_digits_app b s acc v rest : scan_digits b s acc = (v, []) -> has_digit b rest = false -> scan_digits b (s ++ rest) acc = (v, rest).
Proof.
  intros H Hr. revert acc H. induction s as [|c s IH]; intros acc H; cbn [app scan_digits] in *.
  - injection H as ->. destruct rest as [|c rest]; [done |]. cbn [has_digit] in Hr. cbn [scan_digits].
    destruct (digit_val b c); [| done]. apply bool_decide_eq_false in Hr. exfalso. by apply Hr.
  - destruct (digit_val b c); [by apply IH | done].
Qed.

Definition byte_text_ok (x : Z) : bool :=
  match dec x with
  | c :: t => negb (isspace c) && negb (c =? 45) && negb (c =? 43) && has_digit 10 (c :: t) && bool_decide (scan_digits 10 (c :: t) 0 = (x, []))
  | [] => false
  end.

Lemma scan_u_dec x rest : is_u8 x -> has_digit 10 rest = false -> scan_u (dec x ++ rest) = Some (x, rest).
Proof.
  intros Hx Hr. assert (byte_text_ok x = true) as E by (revert Hx; apply all_u8_spec; vm_compute; reflexivity).
  unfold byte_text_ok in E. destruct (dec x) as [|c t] eqn:Ed; [done |]. rewrite !andb_true_iff, !negb_true_iff, bool_decide_eq_true in E. destruct E as ((((H1 & H2) & H3) & H4) & H5).
  unfold scan_u. cbn [app skip_space]. rewrite H1. cbn [sign_of]. rewrite H2, H3. cbv iota.
  change (c :: t ++ rest) with ((c :: t) ++ rest). rewrite (scan_digits_app 10 (c :: t) 0 x rest H5 Hr).
  assert (has_digit 10 ((c :: t) ++ rest) = true) as -> by done.
  unfold is_u8 in Hx. rewrite (proj2 (Z.ltb_ge ULONG_MAX x)) by (unfold ULONG_MAX; lia). rewrite Z.mod_small by lia.
  by rewrite u32_small by (unfold is_u32; lia).
Qed.

Lemma scan_dotted_text ip x : bytes (ip ++ [x]) -> scan_dotted (length ip) (dotted (ip ++ [x])) = Some (ip ++ [x]).
Proof.
  induction ip as [|y ip IH]; intros Hb; cbn [app length scan_dotted] in *; inversion Hb as [|? ? Hy Hb']; subst.
  - cbn [dotted]. rewrite <- (app_nil_r (dec x)), (scan_u_dec x []) by done. done.
  - destruct (ip ++ [x]) as [|z l] eqn:El; [by destruct ip |]. change (dotted (y :: z :: l)) with (dec y ++ 46 :: dotted (z :: l)).
    rewrite scan_u_dec by done. cbn [mbind option_bind]. change (46 =? 46) with true. cbv iota. by rewrite IH.
Qed.

Lemma ip_parses ip : bytes ip -> zlen ip = 4 -> get_cmdline_ipaddr (dotted ip) = Some ip.
Proof.
  intros Hb Hz. destruct ip as [|a [|b [|c [|d [|? ?]]]]]; try (unfold zlen in Hz; cbn in Hz; lia).
  unfold get_cmdline_ipaddr. rewrite (scan_dotted_text [a; b; c] d Hb : scan_dotted 3 (dotted [a; b; c; d]) = _). cbn [app].
  assert (existsb (fun x => 255 <? x) [a; b; c; d] = false) as ->; [| done].
  apply not_true_iff_false. intros (x & Hin & Hx)%existsb_exists. apply list_elem_of_In in Hin. rewrite Forall_forall in Hb. specialize (Hb x Hin). unfold is_u8 in Hb. lia.
Qed.

Lemma mac_parses mac : bytes mac -> zlen mac = 6 -> mac_arg (sep_text 58 mac) = Some mac.
Proof. intros. unfold mac_arg. by rewrite str2mac_text. Qed.

(** Sixteen bits in decimal. *)
Definition dec16_ok (h l : Z) : bool :=
  let x := h * 256 + l in
  bool_decide (str2ushort (Some (dec x)) = (0, Some x)) && bool_decide (str2int (Some (dec x)) = (0, Some x)).

Lemma dec16_parses x : is_u16 x -> str2ushort (Some (dec x)) = (0, Some x) /\ str2int (Some (dec x)) = (0, Some x).
Proof.
  intros H. assert (all_u8 (fun h => all_u8 (dec16_ok h)) = true) as E by (vm_compute; reflexivity). unfold is_u16 in H.
  pose proof (Z.div_mod x 256 ltac:(lia)). pose proof (Z.mod_pos_bound x 256 ltac:(lia)).
  apply (all_u8_spec _ (x / 256)) in E; [| unfold is_u8; lia]. apply (all_u8_spec _ (x mod 256)) in E; [| unfold is_u8; lia].
  unfold dec16_ok in E. replace (x / 256 * 256 + x mod 256) with x in E by lia. rewrite andb_true_iff, !bool_decide_eq_true in E. done.
Qed.

(** ** Commands and their meaning *)

Inductive ip_param := Ipaddr | Netmask | DefgwIp | BakgwIp.
Inductive mac_param := Macaddr | DefgwMac | BakgwMac.

Inductive setting :=
  | SIp (p : ip_param) (ip : list Z)
  | SMac (p : mac_param) (mac : list Z)
  | SSource (source : Z)
  | SSnmp (community : list Z)
  | SArp (generate on : bool)
  | SArpInterval (seconds : Z)
  | SAuth (level type : Z)
  | SVlan (id : option Z)
  | SVlanPriority (priority : Z)
  | SCipherPrivs (levels : list Z)
  | SBadPass (thresh : Z) (event : bool) (reset lockout : Z).

(** Of an alert destination. *)
Inductive alert_setting :=
  | AIp (ip : list Z)
  | AMac (mac : list Z)
  | AGateway (backup : bool)
  | AAck (on : bool)
  | AType (type : Z)
  | ATime (seconds : Z)
  | ARetry (retries : Z).

Inductive lan_cmd :=
  | CSet (s : setting)
  | CAlert (alert : Z) (s : alert_setting)
  | CPrint.

Definition ip_words (p : ip_param) : list (list Z) :=
  match p with
  | Ipaddr => [text "ipaddr"] | Netmask => [text "netmask"]
  | DefgwIp => [text "defgw"; text "ipaddr"] | BakgwIp => [text "bakgw"; text "ipaddr"]
  end.
Definition mac_words (p : mac_param) : list (list Z) :=
  match p with Macaddr => [text "macaddr"] | DefgwMac => [text "defgw"; text "macaddr"] | BakgwMac => [text "bakgw"; text "macaddr"] end.

Definition on_word (on : bool) : list Z := text (if on then "on" else "off").
Definition source_word (s : Z) : list Z := text (if s =? 0 then "none" else if s =? 1 then "static" else if s =? 2 then "dhcp" else "bios").
Definition level_word (l : Z) : list Z := text (if l =? 0 then "callback" else if l =? 1 then "user" else if l =? 2 then "operator" else "admin").
Definition authtype_word (t : Z) : list Z :=
  text (if t =? 0 then "none" else if t =? 1 then "md2" else if t =? 2 then "md5" else if t =? 4 then "password" else "oem").

(** On the command line, behind "set" and the channel. *)
Definition setting_words (s : setting) : list (list Z) :=
  match s with
  | SIp p ip => ip_words p ++ [dotted ip]
  | SMac p mac => mac_words p ++ [sep_text 58 mac]
  | SSource n => [text "ipsrc"; source_word n]
  | SSnmp s => [text "snmp"; s]
  | SArp generate on => [text "arp"; text (if generate then "generate" else "respond"); on_word on]
  | SArpInterval n => [text "arp"; text "interval"; dec n]
  | SAuth level type => [text "auth"; level_word level; authtype_word type]
  | SVlan id => [text "vlan"; text "id"; match id with Some id => dec id | None => text "off" end]
  | SVlanPriority n => [text "vlan"; text "priority"; dec n]
  | SCipherPrivs ls => [text "cipher_privs"; map priv_level_to_char ls]
  | SBadPass t e r l => [text "bad_pass_thresh"; dec t; text (if e then "1" else "0"); dec r; dec l]
  end.

Definition alert_words (s : alert_setting) : list (list Z) :=
  match s with
  | AIp ip => [text "ipaddr"; dotted ip]
  | AMac mac => [text "macaddr"; sep_text 58 mac]
  | AGateway b => [text "gateway"; text (if b then "backup" else "default")]
  | AAck on => [text "ack"; on_word on]
  | AType t => [text "type"; text (if t =? 0 then "pet" else if t =? 6 then "oem1" else "oem2")]
  | ATime n => [text "time"; dec n]
  | ARetry n => [text "retry"; dec n]
  end.

Definition lan_words (chan : Z) (c : lan_cmd) : list (list Z) :=
  match c with
  | CSet s => text "set" :: dec chan :: setting_words s
  | CAlert a s => text "alert" :: text "set" :: dec chan :: dec a :: alert_words s
  | CPrint => [text "print"; dec chan]
  end.

(** The parameter that changes. *)
Definition setting_param (s : setting) : Z :=
  match s with
  | SIp Ipaddr _ => 3 | SIp Netmask _ => 6 | SIp DefgwIp _ => 12 | SIp BakgwIp _ => 14
  | SMac Macaddr _ => 5 | SMac DefgwMac _ => 13 | SMac BakgwMac _ => 15
  | SSource _ => 4 | SSnmp _ => 16 | SArp _ _ => 10 | SArpInterval _ => 11 | SAuth _ _ => 2
  | SVlan _ => 20 | SVlanPriority _ => 21 | SCipherPrivs _ => 24 | SBadPass _ _ _ _ => 26
  end.
Definition alert_param (s : alert_setting) : Z := match s with AIp _ | AMac _ | AGateway _ => 19 | _ => 18 end.

(** Two levels in a byte. *)
Fixpoint pairs (ls : list Z) : list Z :=
  match ls with
  | a :: b :: ls => a + 16 * b :: pairs ls
  | _ => ls
  end.

Definition at_byte (i : nat) (f : Z -> Z) (v : list Z) : list Z := <[i := f (rd v (Z.of_nat i))]> v.
Definition bit_to (i : Z) (on : bool) (x : Z) : Z := if on then Z.setbit x i else Z.clearbit x i.
Definition vlan_id (v : list Z) : Z := rd v 0 + 256 * (rd v 1 mod 16).

(** The new value. *)
Definition setting_value (s : setting) (old : list Z) : list Z :=
  match s with
  | SIp _ ip => ip
  | SMac _ mac => mac
  | SSource n => [n]
  | SSnmp s => field_of 18 s
  | SArp generate on => at_byte 0 (bit_to (if generate then 0 else 1) on) old
  | SArpInterval n => [2 * n - 1]
  | SAuth level type => <[Z.to_nat level := 2 ^ type]> old
  | SVlan (Some id) => [id mod 256; 128 + id / 256]
  | SVlan None => at_byte 1 (fun x => x mod 16) old
  | SVlanPriority n => [n]
  | SCipherPrivs ls => 0 :: pairs ls
  | SBadPass t e r l => [if e then 1 else 0; t; r mod 256; r / 256; l mod 256; l / 256]
  end.

Definition alert_value (s : alert_setting) (old : list Z) : list Z :=
  match s with
  | AIp ip => take 3 old ++ ip ++ drop 7 old
  | AMac mac => take 7 old ++ mac ++ drop 13 old
  | AGateway b => at_byte 2 (fun _ => if b then 1 else 0) old
  | AAck on => at_byte 1 (bit_to 7 on) old
  | AType t => at_byte 1 (fun x => 8 * (x / 8) + t) old
  | ATime n => at_byte 2 (fun _ => n) old
  | ARetry n => at_byte 3 (fun _ => n mod 8) old
  end.

Definition setting_ok (s : setting) : Prop :=
  match s with
  | SIp _ ip => bytes ip /\ zlen ip = 4
  | SMac _ mac => bytes mac /\ zlen mac = 6
  | SSource n => 0 <= n < 4
  | SSnmp s => bytes s /\ s <> text "help"
  | SArpInterval n => 1 <= n <= 127
  | SAuth level type => 0 <= level < 4 /\ type ∈ [0; 1; 2; 4; 5]
  | SVlan (Some id) => 1 <= id <= 4094
  | SVlanPriority n => 0 <= n < 8
  | SCipherPrivs ls => length ls = 15%nat /\ Forall (fun l => 0 <= l <= 5) ls
  | SBadPass t _ r l => is_u8 t /\ is_u16 r /\ is_u16 l
  | _ => True
  end.

(** What the old value has to be: "vlan id off" clears the enable bit, the top
    one of the second byte, only behind an identifier from 1 to 4094; otherwise
    it has to be clear already, with the reserved bits below it. *)
Definition setting_applies (s : setting) (old : list Z) : Prop :=
  match s with SVlan None => 1 <= vlan_id old <= 4094 \/ rd old 1 < 16 | _ => True end.

Definition alert_ok (s : alert_setting) : Prop :=
  match s with
  | AIp ip => bytes ip /\ zlen ip = 4
  | AMac mac => bytes mac /\ zlen mac = 6
  | AType t => t ∈ [0; 6; 7]
  | ATime n | ARetry n => is_u8 n
  | _ => True
  end.

(** ** New values are values of their parameters *)

Lemma zlen_at i f v : zlen (at_byte i f v) = zlen v.
Proof. unfold at_byte, zlen. by rewrite length_insert. Qed.

Lemma bytes_insert i x v : bytes v -> is_u8 x -> bytes (<[i := x]> v).
Proof. intros Hv Hx. by apply Forall_insert. Qed.

Lemma bytes_at i f v : bytes v -> (forall x, is_u8 x -> is_u8 (f x)) -> bytes (at_byte i f v).
Proof. intros Hv Hf. apply bytes_insert; [done |]. by apply Hf, rd_bytes. Qed.

Definition bit_ok (x : Z) : bool :=
  forallb (fun i => forallb (fun on => bool_decide (is_u8 (bit_to i on x))) [true; false]) [0; 1; 7] &&
  (bit_to 0 true x =? x .| 1) && (bit_to 0 false x =? x .& Z.lnot 1) && (bit_to 1 true x =? x .| 2) && (bit_to 1 false x =? x .& Z.lnot 2) &&
  (bit_to 7 true x =? x .| 0x80) && (bit_to 7 false x =? x .& Z.lnot 0x80).

Lemma bit_facts x : is_u8 x -> bit_ok x = true.
Proof. apply all_u8_spec. vm_compute. reflexivity. Qed.

Lemma bit_byte i (on : bool) x : i ∈ [0; 1; 7] -> is_u8 x -> is_u8 (bit_to i on x).
Proof.
  intros Hi Hx%bit_facts. unfold bit_ok in Hx. rewrite !andb_true_iff, forallb_forall in Hx. destruct Hx as ((((((Hx & _) & _) & _) & _) & _) & _).
  apply list_elem_of_In, Hx in Hi. rewrite forallb_forall in Hi. eapply bool_decide_eq_true_1, Hi. destruct on; [by left | by right; left].
Qed.

Lemma bit_code x (on : bool) : is_u8 x ->
  with_bit 0x1 (if on then 1 else 0) x = bit_to 0 on x /\ with_bit 0x2 (if on then 1 else 0) x = bit_to 1 on x /\
  bit_to 7 on x = if on then x .| 0x80 else x .& Z.lnot 0x80.
Proof.
  intros Hx%bit_facts. unfold bit_ok in Hx. rewrite !andb_true_iff, !Z.eqb_eq in Hx. destruct Hx as ((((((_ & H1) & H2) & H3) & H4) & H5) & H6).
  unfold with_bit. destruct on; cbn [Z.eqb]; by rewrite ?H1, ?H2, ?H3, ?H4, ?H5, ?H6.
Qed.

Lemma zlen_pairs ls : length ls = 15%nat -> zlen (pairs ls) = 8.
Proof. intros H. do 15 (destruct ls as [|? ls]; [done |]). by destruct ls. Qed.

Lemma bytes_pairs n ls : (length ls <= n)%nat -> Forall (fun l => 0 <= l <= 5) ls -> bytes (pairs ls).
Proof.
  revert ls. induction n as [|n IH]; intros ls Hn H; [by destruct ls; cbn in Hn; [constructor | lia] |].
  destruct H as [|a ls Ha H]; [constructor |]. destruct H as [|b ls Hb H]; cbn [pairs].
  - constructor; [unfold is_u8; lia | constructor].
  - constructor; [unfold is_u8; lia |]. apply IH; [cbn in Hn; lia | done].
Qed.

Lemma bytes_field n s : bytes s -> bytes (field_of n s).
Proof. intros H. unfold field_of. apply Forall_app. split; [by apply Forall_take |]. apply Forall_replicate. unfold is_u8. lia. Qed.

(** The bytes of a list, one by one. *)
Ltac byte_list := repeat first [apply Forall_nil_2 | apply Forall_cons_2]; unfold is_u8, is_u16 in *; Z.div_mod_to_equations; lia.

Lemma setting_value_ok s old : setting_ok s -> zlen old = size_of (setting_param s) -> bytes old ->
  zlen (setting_value s old) = zlen old /\ bytes (setting_value s old).
Proof.
  intros Hs Hz Hb. destruct s as [p ip|p mac|n|c|g on|n|level type|[id|]|n|ls|t e r l]; cbn [setting_value setting_param setting_ok] in *.
  - destruct Hs as [H1 H2]. split; [| done]. rewrite H2, Hz. by destruct p.
  - destruct Hs as [H1 H2]. split; [| done]. rewrite H2, Hz. by destruct p.
  - split; [by rewrite Hz |]. byte_list.
  - destruct Hs as [H1 _]. split; [by rewrite zlen_field, Hz | by apply bytes_field].
  - split; [apply zlen_at |]. apply bytes_at; [done |]. intros x. apply bit_byte. destruct g; set_solver.
  - split; [by rewrite Hz |]. byte_list.
  - split; [unfold zlen; by rewrite length_insert |]. apply bytes_insert; [done |]. destruct Hs as [_ Hs].
    unfold is_u8. repeat (apply elem_of_cons in Hs as [->|Hs]; [cbn; lia |]). by apply elem_of_nil in Hs.
  - split; [by rewrite Hz |]. byte_list.
  - split; [apply zlen_at |]. apply bytes_at; [done |]. unfold is_u8. intros x Hx. Z.div_mod_to_equations. lia.
  - split; [by rewrite Hz |]. byte_list.
  - destruct Hs as [H1 H2]. rewrite zlen_cons, zlen_pairs by done. split; [by rewrite Hz |]. constructor; [unfold is_u8; lia |]. by eapply bytes_pairs.
  - destruct Hs as (H1 & H2 & H3). split; [by rewrite Hz |]. destruct e; byte_list.
Qed.

Lemma alert_value_ok s old : alert_ok s -> zlen old = size_of (alert_param s) -> bytes old ->
  zlen (alert_value s old) = zlen old /\ bytes (alert_value s old) /\ rd (alert_value s old) 0 = rd old 0.
Proof.
  intros Hs Hz Hb. assert (size_of 18 = 4 /\ size_of 19 = 13) as [E18 E19] by done.
  assert (forall i f, (0 < i)%nat -> (forall x, is_u8 x -> is_u8 (f x)) ->
    zlen (at_byte i f old) = zlen old /\ bytes (at_byte i f old) /\ rd (at_byte i f old) 0 = rd old 0) as K.
  { intros i f Hi Hf. split; [apply zlen_at |]. split; [by apply bytes_at |]. unfold at_byte, rd. destruct i; [lia |]. by destruct old. }
  destruct s as [ip|mac|b|on|t|n|n]; cbn [alert_value alert_param alert_ok] in *; try apply K; try lia.
  - destruct Hs as [H1 H2]. rewrite E19 in Hz. split_and!.
    + rewrite !zlen_app, zlen_take, zlen_drop. lia.
    + apply Forall_app. split; [by apply Forall_take |]. apply Forall_app. split; [done | by apply Forall_drop].
    + destruct old; [rewrite zlen_nil in Hz; lia | done].
  - destruct Hs as [H1 H2]. rewrite E19 in Hz. split_and!.
    + rewrite !zlen_app, zlen_take, zlen_drop. lia.
    + apply Forall_app. split; [by apply Forall_take |]. apply Forall_app. split; [done | by apply Forall_drop].
    + destruct old; [rewrite zlen_nil in Hz; lia | done].
  - intros x _. unfold is_u8. destruct b; lia.
  - intros x. apply bit_byte. set_solver.
  - intros x Hx. unfold is_u8 in *. repeat (apply elem_of_cons in Hs as [->|Hs]; [Z.div_mod_to_equations; lia |]). by apply elem_of_nil in Hs.
  - done.
  - intros x _. unfold is_u8 in *. Z.div_mod_to_equations. lia.
Qed.

(** ** Settings *)

(** A keyword of a command line. *)
Ltac words := unfold is_arg; keywords; cbv iota; cbn [orb].

(** Decide the comparisons with words in either case. *)
Ltac case_words :=
  repeat match goal with
  | |- context [strcaseeq (text ?a) (text ?b)] =>
      let r := eval vm_compute in (strcaseeq (text a) (text b)) in change (strcaseeq (text a) (text b)) with r
  | |- context [is_arg (text ?a) ?b] => let r := eval vm_compute in (is_arg (text a) b) in change (is_arg (text a) b) with r
  end;
  cbv iota; cbn [orb].

Lemma slx_whole v n : n = zlen v -> slx v 0 n = Ok v.
Proof. intros ->. pose proof (zlen_nonneg v). rewrite slx_ok by lia. by rewrite slice_all. Qed.

Section Commands.
Context {dev : Type} {bmc : Bmc dev} {slp : Sleep dev} {mal : Malloc} (chan : Z) (lockable : bool) (view : dev -> lan_view).
Context {ctl : LanController chan lockable view}.

Abbreviation conf s := (lv_conf (view (le_dev s))).
Abbreviation ready s := (settled (fun s : lan_env dev => view (le_dev s)) s).

(** [m] changes the parameter to [v] and returns [rc]. *)
Definition stores {A} (m : M (lan_env dev) A) (rc : A) (k : Z * Z) (v : list Z) (s : lan_env dev) : Prop :=
  exists s', m s = Ok (rc, s') /\ ready s' /\ conf s' = <[k := v]> (conf s).

Lemma lan_store_run p old v (s : lan_env dev) len : ready s -> conf s !! (p, 0) = Some old -> zlen v = zlen old -> bytes v -> per_alert p = false ->
  len = zlen v -> stores (set_lan_param chan p v len) 0 (p, 0) v s.
Proof using ctl. intros. eapply (lan_set_run chan lockable (fun s : lan_env dev => view (le_dev s))); try done. by apply slx_whole. Qed.

Lemma look_run p v (s : lan_env dev) f k w : ready s -> conf s !! (p, 0) = Some v ->
  (forall rest s', ready s' -> conf s' = conf s -> stores (f (v ++ rest) (zlen v)) 0 k w s') -> stores (present chan p 0 f) 0 k w s.
Proof using ctl.
  intros Hs Hv Hf. destruct (lan_get_run chan lockable (fun s : lan_env dev => view (le_dev s)) p 0 v s Hv) as (rest & s1 & E & V); [apply Hs | lia |].
  destruct (Hf rest s1) as (s2 & E2 & R2 & C2); [unfold settled in *; by rewrite V | by rewrite V |].
  exists s2. unfold present. rewrite (M_bind_run _ _ _ _ _ E). split; [exact E2 |]. by rewrite C2, V.
Qed.

Lemma arp_run (g on : bool) old (s : lan_env dev) : ready s -> conf s !! (10, 0) = Some old ->
  stores ((if g then lan_set_arp_generate else lan_set_arp_respond) chan (if on then 1 else 0)) 0 (10, 0) (setting_value (SArp g on) old) s.
Proof using ctl.
  intros Hs Hv. pose proof (value_size chan lockable (fun s : lan_env dev => view (le_dev s)) _ _ _ _ Hv) as Hz. change (size_of 10) with 1 in Hz.
  destruct (known chan lockable (fun s : lan_env dev => view (le_dev s)) _ _ _ _ Hv) as (_ & _ & _ & Hb).
  destruct old as [|x [|? ?]]; try (unfold zlen in Hz; cbn in Hz; lia). assert (is_u8 x) as Hx by by inversion Hb.
  destruct (bit_code x on Hx) as (E1 & E2 & _). cbn [setting_value]. change (at_byte 0 (bit_to (if g then 0 else 1) on) [x]) with [bit_to (if g then 0 else 1) on x].
  assert (is_u8 (bit_to (if g then 0 else 1) on x)) as Hbit by (apply bit_byte; [destruct g; set_solver | done]).
  destruct g; (eapply look_run; [done | exact Hv |]; intros rest s' Hr C;
    unfold stores; change (rdx ([x] ++ rest) 0) with (Ok x); rewrite lift_Ok_bind, ?E1, ?E2;
    eapply (lan_store_run _ [x]); [done | by rewrite C | done | by byte_list | done | done]).
Qed.

Lemma interval_run n old (s : lan_env dev) : 1 <= n <= 127 -> ready s -> conf s !! (11, 0) = Some old ->
  stores (lan_set_arp_interval chan n) 0 (11, 0) [2 * n - 1] s.
Proof using ctl.
  intros Hn Hs Hv. pose proof (value_size chan lockable (fun s : lan_env dev => view (le_dev s)) _ _ _ _ Hv) as Hz. change (size_of 11) with 1 in Hz.
  eapply look_run; [done | exact Hv |]. intros rest s' Hr C. rewrite (proj2 (Z.eqb_neq n 0)) by lia. change ((255 - 1) / 2) with 127.
  rewrite (proj2 (Z.ltb_ge 127 n)) by lia. rewrite u8_small by (unfold is_u8; lia). replace (n * 2 - 1) with (2 * n - 1) by lia.
  eapply (lan_store_run _ old); [done | by rewrite C | done | by byte_list | done | done].
Qed.

Lemma authtype_words t : t ∈ [0; 1; 2; 4; 5] -> authtype_mask (authtype_word t) = 2 ^ t.
Proof using. intros H. repeat (apply elem_of_cons in H as [->|H]; [vm_compute; reflexivity |]). by apply elem_of_nil in H. Qed.

Lemma level_words l m data : 0 <= l < 4 -> foldl (set_level m) data (comma_items (level_word l)) = <[Z.to_nat l := m]> data.
Proof using.
  intros H. assert (l = 0 \/ l = 1 \/ l = 2 \/ l = 3) as Hl by lia. destruct Hl as [->|[->|[->| ->]]]; reflexivity.
Qed.

Lemma auth_run level type old (s : lan_env dev) : setting_ok (SAuth level type) -> ready s -> conf s !! (2, 0) = Some old ->
  stores (ipmi_lan_set_auth chan (level_word level) (Some (authtype_word type))) 0 (2, 0) (setting_value (SAuth level type) old) s.
Proof using ctl.
  intros Ho Hs Hv. pose proof (value_size chan lockable (fun s : lan_env dev => view (le_dev s)) _ _ _ _ Hv) as Hz. 
  destruct (known chan lockable (fun s : lan_env dev => view (le_dev s)) _ _ _ _ Hv) as (_ & _ & _ & Hb).
  destruct (setting_value_ok _ old Ho Hz Hb) as [Hz' Hb']. change (zlen old = 5) in Hz. destruct Ho as [Hl Ht].
  unfold ipmi_lan_set_auth. eapply look_run; [done | exact Hv |]. intros rest s' Hr C.
  assert (slx (old ++ rest) 0 5 = Ok old) as E by (rewrite slx_ok by (rewrite ?zlen_app; pose proof (zlen_nonneg rest); lia);
    rewrite slice_app_l by lia; by rewrite slice_all by lia).
  unfold stores. rewrite E, lift_Ok_bind, level_words, authtype_words by done.
  eapply (lan_store_run _ old); [done | by rewrite C | done | done | done | by rewrite Hz', Hz].
Qed.

Lemma snmp_run c old (s : lan_env dev) : setting_ok (SSnmp c) -> ready s -> conf s !! (16, 0) = Some old ->
  stores (lan_set_snmp chan [c]) 0 (16, 0) (field_of 18 c) s.
Proof using ctl.
  intros [Hb Hh] Hs Hv. pose proof (value_size chan lockable (fun s : lan_env dev => view (le_dev s)) _ _ _ _ Hv) as Hz. change (size_of 16) with 18 in Hz.
  unfold lan_set_snmp, is_arg. rewrite bool_decide_eq_false_2 by done. unfold stores.
  assert (zlen (take 18 c) <= 18) as Ht by (rewrite zlen_take; lia). pose proof (zlen_nonneg (take 18 c)) as H0.
  assert (wr (zeros 32) 0 (take 18 c) = Some (take 18 c ++ zeros (32 - zlen (take 18 c)))) as E.
  { replace (zeros 32) with ([] ++ zeros (zlen (take 18 c)) ++ zeros (32 - zlen (take 18 c))).
    - by apply (wr_at [] (zeros (zlen (take 18 c))) (zeros (32 - zlen (take 18 c)))); [| rewrite zlen_zeros].
    - cbn [app]. unfold zeros. rewrite <- replicate_add. f_equal. lia. }
  rewrite E, lift_Some_bind.
  eapply (lan_set_run chan lockable (fun s : lan_env dev => view (le_dev s)) 16 (field_of 18 c) old); try done.
  - by rewrite zlen_field.
  - by apply bytes_field.
  - by rewrite zlen_field.
  - rewrite zlen_field by lia.
    rewrite slx_ok by (rewrite ?zlen_app, ?zlen_zeros; lia). f_equal. unfold field_of. change (Z.to_nat 18) with 18%nat.
    assert (zlen c = zlen (take 18 c) + zlen (drop 18 c)) as Hc by (rewrite zlen_take, zlen_drop; lia).
    unfold slice. change (drop (Z.to_nat 0) ?x) with x. change (Z.to_nat 18) with 18%nat. rewrite take_app, take_take.
    change (18 `min` 18)%nat with 18%nat. f_equal. unfold zeros. rewrite take_replicate. f_equal. unfold zlen in *. rewrite length_take in *. lia.
Qed.

Lemma insert_middle (l1 l2 : list Z) x y : <[length l1 := y]> (l1 ++ x :: l2) = l1 ++ y :: l2.
Proof using. replace (length l1) with (length l1 + 0)%nat by lia. by rewrite insert_app_r. Qed.

Lemma letter_level l : 0 <= l <= 5 -> char_to_priv_level (priv_level_to_char l) = Some l.
Proof using. intros H. assert (l = 0 \/ l = 1 \/ l = 2 \/ l = 3 \/ l = 4 \/ l = 5) as Hl by lia. by repeat destruct Hl as [->|Hl]; try subst. Qed.

Lemma nibbles a b : 0 <= a <= 5 -> 0 <= b <= 5 -> u8 (0 + a) = a /\ u8 (a + (b .<< 4)) = a + 16 * b.
Proof using.
  intros Ha Hb. rewrite Z.shiftl_mul_pow2 by lia. change (2 ^ 4) with 16. replace (a + b * 16) with (a + 16 * b) by lia.
  split; apply u8_small; unfold is_u8; lia.
Qed.

(** Two letters more. *)
Lemma privs_step i a b ls pre : 0 <= a <= 5 -> 0 <= b <= 5 -> (length pre = 1 + i)%nat -> forall rest,
  cipher_privs_loop (2 * i) (map priv_level_to_char (a :: b :: ls)) (pre ++ 0 :: rest) =
  cipher_privs_loop (2 * S i) (map priv_level_to_char ls) (pre ++ (a + 16 * b) :: rest).
Proof using.
  intros Ha Hb Hp rest. cbn [map cipher_privs_loop]. rewrite !letter_level by done.
  assert (1 + 2 * i / 2 = length pre)%nat as E1 by (rewrite Nat.mul_comm, Nat.div_mul; lia).
  assert (1 + S (2 * i) / 2 = length pre)%nat as E2 by (replace (S (2 * i)) with (1 + i * 2)%nat by lia; rewrite Nat.div_add by lia; change (1 / 2)%nat with 0%nat; lia).
  rewrite E1, E2. assert (Nat.odd (2 * i + 1) = true) as -> by (rewrite Nat.odd_add, Nat.odd_mul; done).
  assert (Nat.odd (S (2 * i) + 1) = false) as -> by (replace (S (2 * i) + 1)%nat with (2 * S i)%nat by lia; by rewrite Nat.odd_mul).
  rewrite insert_middle, !nth_middle, insert_middle. destruct (nibbles a b Ha Hb) as [-> ->].
  by replace (S (S (2 * i))) with (2 * S i)%nat by lia.
Qed.

Lemma privs_parse ls : length ls = 15%nat -> Forall (fun l => 0 <= l <= 5) ls ->
  get_cmdline_cipher_suite_priv_data (map priv_level_to_char ls) = Some (0 :: pairs ls).
Proof using.
  intros Hl H. unfold get_cmdline_cipher_suite_priv_data.
  assert (zlen (map priv_level_to_char ls) = 15) as -> by (unfold zlen; by rewrite length_map, Hl). cbn [negb Z.eqb].
  change (negb (15 =? 15)) with false. cbv iota.
  assert (forall n pre ls, length ls = (2 * n + 1)%nat -> (length pre + n = 8)%nat -> pre <> [] -> Forall (fun l => 0 <= l <= 5) ls ->
    cipher_privs_loop (2 * (length pre - 1)) (map priv_level_to_char ls) (pre ++ replicate (S n) 0) = Some (pre ++ pairs ls)) as K; cycle 1.
  { by apply (K 7%nat [0] ls). }
  clear. intros n. induction n as [|n IH]; intros pre ls Hl Hp Hne H.
  - destruct ls as [|a [|? ?]]; try done. assert (0 <= a <= 5) as Ha by by inversion H.
    cbn [map cipher_privs_loop]. rewrite letter_level by done. destruct pre as [|p pre]; [done |].
    cbn [length] in *. replace (S (length pre) - 1)%nat with (length pre) by lia.
    assert (1 + 2 * length pre / 2 = length (p :: pre))%nat as -> by (rewrite Nat.mul_comm, Nat.div_mul; cbn [length]; lia).
    assert (Nat.odd (2 * length pre + 1) = true) as -> by (rewrite Nat.odd_add, Nat.odd_mul; done).
    cbn [replicate]. rewrite insert_middle, nth_middle. by destruct (nibbles a 0 Ha ltac:(lia)) as [-> _].
  - destruct ls as [|a [|b ls]]; try (cbn [length] in Hl; lia). inversion H as [|? ? Ha H']; subst. inversion H' as [|? ? Hb H'']; subst.
    destruct pre as [|p pre]; [done |].
    cbn [replicate]. rewrite privs_step by (cbn [length]; lia || done).
    specialize (IH ((p :: pre) ++ [a + 16 * b]) ls). cbn [pairs]. rewrite length_app, <- !app_assoc in IH. cbn [length app] in IH |- *.
    replace (S (length pre) - 1)%nat with (length pre) in * by lia. replace (S (length pre) + 1 - 1)%nat with (S (length pre)) in IH by lia.
    apply IH; [cbn [length] in Hl; lia | cbn [length] in Hp; lia | done | done].
Qed.

Lemma byte_word x : is_u8 x -> byte_arg (dec x) = Some x.
Proof using. intros H. unfold byte_arg. by rewrite (proj1 (dec_parses x H)). Qed.

Lemma bad_pass_parses t (e : bool) r l : is_u8 t -> is_u16 r -> is_u16 l ->
  get_cmdline_bad_pass_thresh (dec t) (text (if e then "1" else "0")) (dec r) (dec l) =
  Some [if e then 1 else 0; t; r mod 256; r / 256; l mod 256; l / 256].
Proof using.
  intros Ht Hr Hl. unfold get_cmdline_bad_pass_thresh, ushort_arg. rewrite (byte_word t Ht), (proj1 (dec16_parses r Hr)), (proj1 (dec16_parses l Hl)).
  change (0 =? 0) with true. cbv iota. change 0xFF with (Z.ones 8). rewrite !Z.land_ones, !Z.shiftr_div_pow2 by lia. by destruct e.
Qed.

Lemma vlan_run id old (s : lan_env dev) : setting_ok (SVlan id) -> setting_applies (SVlan id) old -> ready s -> conf s !! (20, 0) = Some old ->
  stores (lan_set_vlan chan [text "id"; match id with Some id => dec id | None => text "off" end]) 0 (20, 0) (setting_value (SVlan id) old) s.
Proof using ctl.
  intros Ho Ha Hs Hv. pose proof (value_size chan lockable (fun s : lan_env dev => view (le_dev s)) _ _ _ _ Hv) as Hz. change (size_of 20) with 2 in Hz.
  destruct (known chan lockable (fun s : lan_env dev => view (le_dev s)) _ _ _ _ Hv) as (_ & _ & _ & Hb).
  unfold lan_set_vlan, stores. words. destruct id as [id|]; cbn [setting_ok setting_value] in *.
  - assert (bool_decide (dec id = text "off") = false) as ->.
    { apply bool_decide_eq_false_2. intros E. pose proof (proj2 (dec16_parses id ltac:(unfold is_u16; lia))) as P. rewrite E in P. vm_compute in P. discriminate. }
    unfold ipmi_lan_set_vlan_id. rewrite (proj2 (dec16_parses id ltac:(unfold is_u16; lia))). change (default 0 (Some id)) with id.
    change (negb (0 =? 0)) with false. cbv iota. unfold IPMI_LANP_IS_VLAN_VALID, IPMI_LANP_VLAN_ID_MIN, IPMI_LANP_VLAN_ID_MAX.
    rewrite (proj2 (Z.leb_le 1 id)), (proj2 (Z.leb_le id 4094)) by lia. cbn [andb negb].
    assert ([u8 id; u8 (id .>> 8) .| 0x80] = [id mod 256; 128 + id / 256]) as ->.
    { unfold u8. rewrite Z.shiftr_div_pow2 by lia. change (2 ^ 8) with 256. assert (0 <= id / 256 < 16) as Hd by (Z.div_mod_to_equations; lia).
      rewrite (Z.mod_small (id / 256)) by lia. do 2 f_equal. generalize dependent (id / 256). intros h Hh. clear -Hh.
      assert (forallb (fun h => h .| 0x80 =? 128 + h) (seqZ 0 16) = true) as E by (vm_compute; reflexivity).
      rewrite forallb_forall in E. apply Z.eqb_eq, E. apply list_elem_of_In, elem_of_seqZ. lia. }
    destruct (lan_store_run 20 old [id mod 256; 128 + id / 256] s 2) as (s' & E & R & C); [done | done | by rewrite Hz | | done | done |].
    { assert (0 <= id / 256 < 16) by (Z.div_mod_to_equations; lia). byte_list. }
    rewrite (M_bind_run _ _ _ _ _ E). by exists s'.
  - words. unfold ipmi_lan_set_vlan_id, get_lan_param.
    destruct (lan_get_run chan lockable (fun s : lan_env dev => view (le_dev s)) 20 0 old s Hv) as (rest & s1 & E & V); [apply Hs | lia |].
    destruct old as [|x [|y [|? ?]]]; try (unfold zlen in Hz; cbn in Hz; lia). clear Hz.
    assert (is_u8 x /\ is_u8 y) as [Hx Hy] by (split; [exact (rd_bytes [x; y] 0 Hb) | exact (rd_bytes [x; y] 1 Hb)]).
    unfold IPMI_LANP_VLAN_ID. cbn [setting_applies] in Ha. unfold vlan_id in Ha. change (rd [x; y] 0) with x in Ha. change (rd [x; y] 1) with y in Ha.
    change (at_byte 1 (fun x => x mod 16) [x; y]) with [x; y mod 16].
    assert (ready s1) as R1 by (unfold settled in *; by rewrite V).
    match goal with |- exists s', (?m ≫= _) s = _ /\ _ => assert (m s = (
      let id := ((y .& 0x0f) .<< 8) + x in
      if id =? IPMI_LANP_VLAN_DISABLE then mret 0
      else if negb (IPMI_LANP_IS_VLAN_VALID id) then mret (-1)
      else set_lan_param chan 20 [x; y .& 0x0F] 2) s1) as Em; [rewrite (M_bind_run _ _ _ _ _ E) |] end.
    { cbv beta iota. change (1 <? zlen [x; y]) with true. cbv iota.
      rewrite !rdx_ok by (unfold zlen; cbn [app length]; lia). done. }
    change 0x0f with (Z.ones 4) in Em. rewrite !Z.land_ones, Z.shiftl_mul_pow2 in Em by lia. cbv zeta in Em. change (2 ^ 4) with 16 in Em.
    change (2 ^ 8) with 256 in Em. replace (y mod 16 * 256 + x) with (x + 256 * (y mod 16)) in Em by lia.
    unfold IPMI_LANP_VLAN_DISABLE in Em.
    assert (IPMI_LANP_IS_VLAN_VALID (x + 256 * (y mod 16)) = negb ((x + 256 * (y mod 16) =? 0) || (x + 256 * (y mod 16) =? 4095))) as Ei.
    { unfold IPMI_LANP_IS_VLAN_VALID, IPMI_LANP_VLAN_ID_MIN, IPMI_LANP_VLAN_ID_MAX, is_u8 in *. Z.div_mod_to_equations. lia. }
    rewrite Ei in Em. destruct (_ =? 0) eqn:E0; cbn [orb negb] in *.
    + assert (y mod 16 = y) as -> by (unfold is_u8 in *; Z.div_mod_to_equations; lia).
      rewrite (M_bind_run _ _ _ _ _ Em). exists s1. split; [done |]. split; [done |]. by rewrite V, insert_id.
    + destruct (_ =? 4095) eqn:E1; cbn [negb] in *.
      * assert (y mod 16 = y) as -> by (unfold is_u8 in *; Z.div_mod_to_equations; lia).
        rewrite (M_bind_run _ _ _ _ _ Em). exists s1. split; [done |]. split; [done |]. by rewrite V, insert_id.
      * destruct (lan_store_run 20 [x; y] [x; y mod 16] s1 2) as (s2 & E2 & R2 & C2); [done | by rewrite V | done | | done | done |].
        { byte_list. }
        rewrite E2 in Em. rewrite (M_bind_run _ _ _ _ _ Em). exists s2. split; [done |]. split; [done |]. by rewrite C2, V.
Qed.

Lemma priority_run n old (s : lan_env dev) : 0 <= n < 8 -> ready s -> conf s !! (21, 0) = Some old ->
  stores (lan_set_vlan chan [text "priority"; dec n]) 0 (21, 0) [n] s.
Proof using ctl.
  intros Hn Hs Hv. pose proof (value_size chan lockable (fun s : lan_env dev => view (le_dev s)) _ _ _ _ Hv) as Hz. change (size_of 21) with 1 in Hz.
  unfold lan_set_vlan, stores. words. unfold ipmi_lan_set_vlan_priority. rewrite (proj2 (dec_parses n ltac:(unfold is_u8; lia))).
  change (default 0 (Some n)) with n. change (negb (0 =? 0)) with false. cbv iota.
  rewrite (proj2 (Z.ltb_ge n 0)), (proj2 (Z.ltb_ge 7 n)) by lia. cbn [orb]. rewrite u8_small by (unfold is_u8; lia).
  destruct (lan_store_run 21 old [n] s 1) as (s' & E & R & C); [done | done | by rewrite Hz | by byte_list | done | done |].
  rewrite (M_bind_run _ _ _ _ _ E). by exists s'.
Qed.

Lemma source_run n old (s : lan_env dev) : 0 <= n < 4 -> ready s -> conf s !! (4, 0) = Some old ->
  stores (lan_set_ipsrc chan [source_word n]) 0 (4, 0) [n] s.
Proof using ctl.
  intros Hn Hs Hv. pose proof (value_size chan lockable (fun s : lan_env dev => view (le_dev s)) _ _ _ _ Hv) as Hz. change (size_of 4) with 1 in Hz.
  assert (lan_set_ipsrc chan [source_word n] = set_lan_param chan IPMI_LANP_IP_ADDR_SRC [n] 1) as ->.
  { unfold lan_set_ipsrc. assert (n = 0 \/ n = 1 \/ n = 2 \/ n = 3) as H by lia. destruct H as [->|[->|[->| ->]]]; by cbn [source_word]; words. }
  eapply lan_store_run; [done | exact Hv | by rewrite Hz | by byte_list | done | done].
Qed.

(** The words of a setting do what it means. *)
Lemma setting_run st old (s : lan_env dev) : setting_ok st -> setting_applies st old -> ready s -> conf s !! (setting_param st, 0) = Some old ->
  stores (lan_setting chan (hd [] (setting_words st)) (tl (setting_words st))) 0 (setting_param st, 0) (setting_value st old) s.
Proof using ctl.
  intros Ho Ha Hs Hv. pose proof (value_size chan lockable (fun s : lan_env dev => view (le_dev s)) _ _ _ _ Hv) as Hz.
  destruct (known chan lockable (fun s : lan_env dev => view (le_dev s)) _ _ _ _ Hv) as (_ & _ & _ & Hb).
  destruct (setting_value_ok st old Ho Hz Hb) as [Hz' Hb'].
  destruct st as [p ip|p mac|n|c|g on|n|level type|id|n|ls|t e r l]; unfold lan_setting; cbn [setting_words hd tl setting_ok setting_param setting_value] in *.
  - destruct Ho as [Hi Hl]. destruct p; cbn [ip_words app hd tl] in *; words; unfold lan_set_word, lan_set_gateway; words; rewrite ip_parses by done;
      (eapply lan_store_run; [done | exact Hv | done | done | done | by rewrite Hl]).
  - destruct Ho as [Hi Hl]. destruct p; cbn [mac_words app hd tl] in *; words; unfold lan_set_word, lan_set_gateway; words; rewrite mac_parses by done;
      (eapply lan_store_run; [done | exact Hv | done | done | done | by rewrite Hl]).
  - words. by eapply source_run.
  - words. by eapply snmp_run.
  - words. unfold lan_set_arp, on_off, on_word.
    destruct g; words; destruct on; words; [apply (arp_run true true) | apply (arp_run true false) | apply (arp_run false true) | apply (arp_run false false)]; done.
  - words. unfold lan_set_arp. words. cbn [lookup list_lookup]. rewrite (proj1 (dec_parses n ltac:(unfold is_u8; lia))).
    change (default 0 (Some n)) with n. change (negb (0 =? 0)) with false. cbv iota. by eapply interval_run.
  - words. assert (is_arg (level_word level) "help" = false) as Hh.
    { destruct Ho as [Hl _]. assert (level = 0 \/ level = 1 \/ level = 2 \/ level = 3) as H by lia. by destruct H as [->|[->|[->| ->]]]. }
    unfold is_arg in Hh. rewrite Hh. by eapply auth_run.
  - words. by eapply vlan_run.
  - words. by eapply priority_run.
  - destruct Ho as [Hl Hf]. words. unfold lan_set_cipher_privs, is_arg. rewrite bool_decide_eq_false_2.
    2: { intros E%(f_equal length). rewrite length_map, Hl in E. done. }
    rewrite privs_parse by done. eapply lan_store_run; [done | exact Hv | done | done | done | by rewrite Hz', Hz].
  - destruct Ho as (H1 & H2 & H3). words. unfold lan_set_bad_pass_thresh. rewrite bad_pass_parses by done.
    eapply lan_store_run; [done | exact Hv | done | done | done | done].
Qed.
End Commands.
