(* ===== verification/LanpProps.v ===== *)
(** * Correctness of the LAN configuration (lib/ipmi_lanp.c)

    Any sequence of "lan" commands that set parameters, change alert
    destinations or print the configuration acts on the controller as on a table
    of parameters. *)

From stdpp Require Import strings.
From S2P Require Import Prelude Wire Ipmi Intf Session Helper CText Bmc Channel Lanp6 User UserProps Lanp LanpStore LanpCmd.

#[local] Open Scope Z_scope.

Section Commands.
Context {dev : Type} {bmc : Bmc dev} {slp : Sleep dev} {mal : Malloc} (chan : Z) (lockable : bool) (view : dev -> lan_view).
Context {ctl : LanController chan lockable view}.

Abbreviation conf s := (lv_conf (view (le_dev s))).
Abbreviation ready s := (settled (fun s : lan_env dev => view (le_dev s)) s).

(** ** Alert destinations *)

Lemma load_value old rest : zlen old <= 32 -> old <> [] -> load_param (mk_lp (Some (old ++ rest)) (zlen old)) = Ok (old ++ zeros (32 - zlen old)).
Proof using.
  intros Hz Hne. unfold load_param. cbn [lp_data_len lp_array lp_data]. pose proof (zlen_nonneg old). pose proof (zlen_nonneg rest).
  assert (zlen old <> 0) as Hn by (destruct old; [done |]; rewrite zlen_cons; pose proof (zlen_nonneg old); lia).
  rewrite (proj2 (Z.ltb_ge _ 0)), Z.min_l, (proj2 (Z.eqb_neq _ 0)) by lia. rewrite slx_ok by (rewrite ?zlen_app; lia).
  cbn [mbind res_bind]. rewrite slice_app_l, slice_all by lia.
  replace (zeros 32) with ([] ++ zeros (zlen old) ++ zeros (32 - zlen old)).
  - rewrite (wr_at [] (zeros (zlen old)) (zeros (32 - zlen old))); [done | done | by rewrite zlen_zeros].
  - cbn [app]. unfold zeros. rewrite <- replicate_add. f_equal. lia.
Qed.

Lemma alert_change_run p a f old new (s : lan_env dev) : ready s -> conf s !! (p, a) = Some old -> 0 <= a < 16 -> per_alert p = true ->
  f (old ++ zeros (32 - zlen old)) = Some (new ++ zeros (32 - zlen old)) -> zlen new = zlen old -> bytes new -> rd new 0 = a ->
  stores view (alert_change chan p a f) 0 (p, a) new s.
Proof using ctl.
  intros Hs Hv Ha Hp Hf Hz Hb Hr. destruct (known chan lockable (fun s : lan_env dev => view (le_dev s)) _ _ _ _ Hv) as (_ & Hl & _ & _).
  destruct (lan_get_run chan lockable (fun s : lan_env dev => view (le_dev s)) p a old s Hv) as (rest & s1 & E & V); [apply Hs | done |].
  unfold stores, alert_change. rewrite (M_bind_run _ _ _ _ _ E), load_value, lift_Ok_bind, Hf by (lia || by intros ->; rewrite zlen_nil in Hl; lia).
  cbn [lp_data_len]. assert (ready s1) as R1 by (unfold settled in *; by rewrite V).
  destruct (set_nowait_run chan lockable (fun s : lan_env dev => view (le_dev s)) p new old (new ++ zeros (32 - zlen old)) s1 (zlen old)) as (s2 & E2 & R2 & C2).
  - done.
  - by rewrite Hr, V.
  - done.
  - done.
  - done.
  - done.
  - rewrite slx_ok by (rewrite ?zlen_app, ?zlen_zeros; lia). by rewrite slice_app_l, slice_all by lia.
  - exists s2. split; [exact E2 |]. split; [done |]. by rewrite C2, Hr, V.
Qed.

Lemma put_at_app i f g (v pad : list Z) : (i < length v)%nat -> f (rd (v ++ pad) (Z.of_nat i)) = g (rd v (Z.of_nat i)) ->
  put_at i (f (rd (v ++ pad) (Z.of_nat i))) (v ++ pad) = at_byte i g v ++ pad.
Proof using. intros Hi E. unfold put_at, at_byte. rewrite E. by rewrite insert_app_l. Qed.

Definition type_ok (x : Z) : bool :=
  (x .& Z.lnot 0x07 =? 8 * (x / 8) + 0) && ((x .& Z.lnot 0x07) .| 0x06 =? 8 * (x / 8) + 6) && (x .| 0x07 =? 8 * (x / 8) + 7).

Lemma type_code x : is_u8 x ->
  x .& Z.lnot 0x07 = 8 * (x / 8) + 0 /\ (x .& Z.lnot 0x07) .| 0x06 = 8 * (x / 8) + 6 /\ x .| 0x07 = 8 * (x / 8) + 7.
Proof using.
  intros Hx. assert (type_ok x = true) as E by (revert Hx; apply all_u8_spec; vm_compute; reflexivity).
  unfold type_ok in E. rewrite !andb_true_iff, !Z.eqb_eq in E. tauto.
Qed.

Lemma place_run off bs v pad : 0 <= off -> off + zlen bs <= zlen v ->
  alert_place off bs (v ++ pad) = Some ((take (Z.to_nat off) v ++ bs ++ drop (Z.to_nat (off + zlen bs)) v) ++ pad).
Proof using.
  intros H0 H. unfold alert_place. pose proof (zlen_nonneg bs).
  assert (v = take (Z.to_nat off) v ++ slice v off (zlen bs) ++ drop (Z.to_nat (off + zlen bs)) v) as E.
  { unfold slice. rewrite <- (take_drop (Z.to_nat off) v) at 1. f_equal.
    rewrite <- (take_drop (Z.to_nat (zlen bs)) (drop (Z.to_nat off) v)) at 1. f_equal. rewrite drop_drop. f_equal. lia. }
  rewrite E at 1. rewrite <- !app_assoc. rewrite (wr_at _ (slice v off (zlen bs)) (drop (Z.to_nat (off + zlen bs)) v ++ pad)); [done | |].
  - rewrite zlen_take. lia.
  - rewrite zlen_slice; lia.
Qed.

(** What the words of an alert setting do to the bytes that were read. *)
Definition alert_bytes_of (s : alert_setting) (data : list Z) : option (list Z) :=
  match s with
  | AIp ip => alert_place 3 ip data
  | AMac mac => alert_place 7 mac data
  | AGateway b => Some (put_at 2 (if b then 1 else 0) data)
  | AAck on => Some (put_at 1 (if on then rd data 1 .| 0x80 else rd data 1 .& Z.lnot 0x80) data)
  | AType t => Some (put_at 1 (if t =? 0 then rd data 1 .& Z.lnot 0x07 else if t =? 6 then (rd data 1 .& Z.lnot 0x07) .| 0x06 else rd data 1 .| 0x07) data)
  | ATime n => Some (put_at 2 n data)
  | ARetry n => Some (put_at 3 (n .& 0x7) data)
  end.

Lemma alert_value_bytes st old pad : alert_ok st -> zlen old = size_of (alert_param st) -> bytes old ->
  alert_bytes_of st (old ++ pad) = Some (alert_value st old ++ pad).
Proof using.
  intros Ho Hz Hb. assert (size_of 18 = 4 /\ size_of 19 = 13) as [E18 E19] by done.
  destruct st as [ip|mac|b|on|t|n|n]; cbn [alert_bytes_of alert_value alert_param alert_ok] in *; rewrite ?E18, ?E19 in Hz.
  - destruct Ho as [_ Hl]. rewrite place_run by lia. by rewrite Hl.
  - destruct Ho as [_ Hl]. rewrite place_run by lia. by rewrite Hl.
  - f_equal. apply (put_at_app 2 (fun _ => if b then 1 else 0)); [unfold zlen in Hz; lia | done].
  - f_equal. apply (put_at_app 1 (fun x => if on then x .| 0x80 else x .& Z.lnot 0x80)); [unfold zlen in Hz; lia |].
    rewrite rd_app_l by lia. symmetry. by apply bit_code, rd_bytes.
  - f_equal. apply (put_at_app 1 (fun x => if t =? 0 then x .& Z.lnot 0x07 else if t =? 6 then (x .& Z.lnot 0x07) .| 0x06 else x .| 0x07)); [unfold zlen in Hz; lia |].
    rewrite rd_app_l by lia. destruct (type_code (rd old (Z.of_nat 1)) (rd_bytes _ _ Hb)) as (T1 & T2 & T3).
    repeat (apply elem_of_cons in Ho as [->|Ho]; [cbn [Z.eqb]; done |]). by apply elem_of_nil in Ho.
  - f_equal. apply (put_at_app 2 (fun _ => n)); [unfold zlen in Hz; lia | done].
  - f_equal. apply (put_at_app 3 (fun _ => n .& 0x7)); [unfold zlen in Hz; lia |]. change 0x7 with (Z.ones 3). by rewrite Z.land_ones.
Qed.

(** A word that is an address or a number. *)
Definition parsed (w : list Z) : Prop := get_cmdline_ipaddr w <> None \/ mac_arg w <> None \/ byte_arg w <> None.

Lemma alert_setting_run st a old (s : lan_env dev) : alert_ok st -> 0 <= a < 16 -> ready s -> conf s !! (alert_param st, a) = Some old ->
  stores view (ipmi_lan_alert_set chan a (alert_words st)) 0 (alert_param st, a) (alert_value st old) s.
Proof using ctl.
  intros Ho Ha Hs Hv. pose proof (value_size chan lockable (fun s : lan_env dev => view (le_dev s)) _ _ _ _ Hv) as Hz.
  destruct (known chan lockable (fun s : lan_env dev => view (le_dev s)) _ _ _ _ Hv) as (_ & _ & _ & Hb).
  destruct (alert_value_ok st old Ho Hz Hb) as (Hz' & Hb' & Hr).
  assert (per_alert (alert_param st) = true) as Hp by by destruct st.
  destruct (lc_value (LanController := env_controller chan lockable view) s _ _ _ Hv) as (_ & _ & _ & H0). specialize (H0 Hp).
  assert (forall f, (forall pad, f (old ++ pad) = alert_bytes_of st (old ++ pad)) ->
    stores view (alert_change chan (alert_param st) a f) 0 (alert_param st, a) (alert_value st old) s) as K.
  { intros f Hf. apply (alert_change_run _ a f old); try done; [by rewrite Hf, alert_value_bytes | by rewrite Hr]. }
  assert (forall w, parsed w -> is_arg w "help" = false) as Hno.
  { intros w Hw. apply bool_decide_eq_false_2. intros ->. vm_compute in Hw. by destruct Hw as [Hw|[Hw|Hw]]. }
  destruct st as [ip|mac|b|on|t|n|n]; unfold ipmi_lan_alert_set; cbn [alert_words alert_ok] in *; case_words.
  - destruct Ho as [H1 H2]. rewrite Hno by (left; by rewrite ip_parses). case_words. rewrite ip_parses by done. by apply K.
  - destruct Ho as [H1 H2]. rewrite Hno by (right; left; by rewrite mac_parses). case_words. rewrite mac_parses by done. by apply K.
  - destruct b; case_words; apply K; intros pad; unfold alert_gateway; case_words; done.
  - destruct on; case_words; apply K; intros pad; unfold alert_ack; case_words; done.
  - repeat (apply elem_of_cons in Ho as [->|Ho]; [cbn [Z.eqb] in *; case_words; apply K; intros pad; unfold alert_type; case_words; done |]).
    by apply elem_of_nil in Ho.
  - rewrite Hno by (right; right; by rewrite byte_word). case_words. apply K. intros pad. unfold alert_time. by rewrite byte_word.
  - rewrite Hno by (right; right; by rewrite byte_word). case_words. apply K. intros pad. unfold alert_retry. by rewrite byte_word.
Qed.

(** ** Printing *)

(** [m] reports the lines [ls] of the configuration [t], and leaves it. *)
Definition gives (t : gmap (Z * Z) (list Z)) (m : M (lan_env dev) (option (list lan_line))) (ls : list lan_line) : Prop :=
  forall s, ready s -> conf s = t -> exists s', m s = Ok (Some ls, s') /\ view (le_dev s') = view (le_dev s).

Lemma reports_run t ms lss (s : lan_env dev) : Forall2 (gives t) ms lss -> ready s -> conf s = t ->
  exists s', reports ms s = Ok ((0, concat lss), s') /\ view (le_dev s') = view (le_dev s).
Proof using ctl.
  intros H. revert s. induction H as [|m ls ms lss Hm _ IH]; intros s Hs Ht; cbn [reports concat]; [by exists s |].
  destruct (Hm s Hs Ht) as (s1 & E & V). rewrite (M_bind_run _ _ _ _ _ E).
  destruct (IH s1) as (s2 & E2 & V2); [unfold settled in *; by rewrite V | by rewrite V |].
  rewrite (M_bind_run _ _ _ _ _ E2). exists s2. split; [done | congruence].
Qed.

Definition line_of (t : gmap (Z * Z) (list Z)) (p : Z) (g : list Z -> lan_line) : list lan_line :=
  match t !! (p, 0) with Some v => [g v] | None => [] end.

(** A parameter that is read is there with its size, or not at all. *)
Lemma read_cases t p (s : lan_env dev) : ready s -> conf s = t -> 0 < p < 256 -> known_param p = true ->
  exists q s', get_lan_param chan p s = Ok (Some q, s') /\ view (le_dev s') = view (le_dev s) /\
  match t !! (p, 0) with
  | Some v => zlen v = size_of p /\ exists rest, q = mk_lp (Some (v ++ rest)) (zlen v)
  | None => q = mk_lp None 0
  end.
Proof using ctl.
  intros Hs Ht Hp Hk. destruct (t !! (p, 0)) as [v|] eqn:E; rewrite <- Ht in E.
  - destruct (lan_get_run chan lockable (fun s : lan_env dev => view (le_dev s)) p 0 v s E) as (rest & s1 & E1 & V1); [apply Hs | lia |].
    do 2 eexists. split; [exact E1 |]. split; [done |]. split; [by eapply (value_size chan lockable (fun s : lan_env dev => view (le_dev s))) | by eexists].
  - destruct (get_missing chan lockable (fun s : lan_env dev => view (le_dev s)) p 0 s E Hp) as (s1 & E1 & V1); [lia | done |].
    do 2 eexists. split; [exact E1 |]. by split.
Qed.

Lemma report_run t p f g : 0 < p < 256 -> known_param p = true ->
  (forall v rest, t !! (p, 0) = Some v -> zlen v = size_of p -> f (v ++ rest) = Ok (g v)) -> gives t (report chan p f) (line_of t p g).
Proof using ctl.
  intros Hp Hk Hf s Hs Ht. destruct (read_cases t p s Hs Ht Hp Hk) as (q & s1 & E & V & Hq). unfold report.
  rewrite (M_bind_run _ _ _ _ _ E). exists s1. split; [| done]. unfold line_of.
  destruct (t !! (p, 0)) as [v|] eqn:Ev; [destruct Hq as (Hz & rest & ->) | by subst]. by rewrite (Hf v rest).
Qed.

Lemma report_if_run t p f g : 0 < p < 256 -> known_param p = true ->
  (forall v rest, t !! (p, 0) = Some v -> zlen v = size_of p -> f (v ++ rest) = Ok (g v)) -> gives t (report_if chan p f) (line_of t p g).
Proof using ctl.
  intros Hp Hk Hf s Hs Ht. destruct (report_run t p f g Hp Hk Hf s Hs Ht) as (s1 & E & V). unfold report_if.
  rewrite (M_bind_run _ _ _ _ _ E). by exists s1.
Qed.

Lemma report_sized_run t p len none f g : 0 < p < 256 -> known_param p = true -> len = size_of p ->
  (forall v rest, t !! (p, 0) = Some v -> zlen v = size_of p -> f (v ++ rest) = Ok (g v)) ->
  gives t (report_sized chan p len none f) (match t !! (p, 0) with Some v => [g v] | None => [none] end).
Proof using ctl.
  intros Hp Hk -> Hf s Hs Ht. destruct (read_cases t p s Hs Ht Hp Hk) as (q & s1 & E & V & Hq). unfold report_sized.
  rewrite (M_bind_run _ _ _ _ _ E). exists s1. split; [| done].
  destruct (t !! (p, 0)) as [v|] eqn:Ev; [destruct Hq as (Hz & rest & ->) | by subst]. rewrite Hz, Z.eqb_refl, (Hf v rest) by done. done.
Qed.

Lemma byte0_app (f : Z -> lan_line) v rest : 1 <= zlen v -> byte0 f (v ++ rest) = Ok (f (rd v 0)).
Proof using. clear ctl. intros H. unfold byte0. rewrite rdx_ok by (rewrite zlen_app; pose proof (zlen_nonneg rest); lia). cbn. by rewrite rd_app_l by lia. Qed.

Lemma bytes_of_app n (f : list Z -> lan_line) v rest : zlen v = n -> bytes_of n f (v ++ rest) = Ok (f v).
Proof using. clear ctl.
  intros <-. unfold bytes_of. pose proof (zlen_nonneg v). pose proof (zlen_nonneg rest). rewrite slx_ok by (rewrite ?zlen_app; lia).
  cbn. by rewrite slice_app_l, slice_all by lia.
Qed.

Lemma string_app v rest : 0 ∈ v -> string_at (v ++ rest) = Ok (c_string v).
Proof using. clear ctl.
  intros H. unfold string_at. rewrite bool_decide_eq_true_2 by set_solver. f_equal. induction v as [|x v IH]; [by apply elem_of_nil in H |].
  cbn [app c_string]. destruct (Z.eqb_spec x 0); [done |]. rewrite IH; [done |]. apply elem_of_cons in H as [<-|H]; done.
Qed.

(** The cipher suites that are shown: as many as the controller counts. *)
Definition cipher_lines (t : gmap (Z * Z) (list Z)) : list lan_line :=
  match t !! (22, 0) with
  | None => []
  | Some n => [RCiphers (match t !! (23, 0) with Some v => Some (slice v 1 (rd n 0)) | None => None end)]
  end.

Lemma ciphers_run t : (forall n, t !! (22, 0) = Some n -> 0 <= rd n 0 <= 15) -> gives t (report_ciphers chan) (cipher_lines t).
Proof using ctl.
  intros Hn s Hs Ht. destruct (read_cases t 22 s Hs Ht ltac:(lia) eq_refl) as (q & s1 & E & V & Hq). unfold report_ciphers, cipher_lines.
  rewrite (M_bind_run _ _ _ _ _ E). destruct (t !! (22, 0)) as [n|]; [destruct Hq as (Hz & rest & ->) | subst; by exists s1].
  specialize (Hn n eq_refl). change (size_of 22) with 1 in Hz.
  rewrite rdx_ok by (rewrite zlen_app; pose proof (zlen_nonneg rest); lia). rewrite lift_Ok_bind, rd_app_l by lia.
  destruct (read_cases t 23 s1) as (q2 & s2 & E2 & V2 & Hq2); [unfold settled in *; by rewrite V | by rewrite V | lia | done |].
  rewrite (M_bind_run _ _ _ _ _ E2). exists s2. split; [| congruence].
  destruct (t !! (23, 0)) as [v|]; [destruct Hq2 as (Hz2 & rest2 & ->) | by subst]. change (size_of 23) with 16 in Hz2.
  rewrite Hz2, Z.min_r by lia. change (16 <=? 17) with true. cbv iota.
  rewrite slx_ok by (rewrite ?zlen_app; pose proof (zlen_nonneg rest2); lia). by rewrite lift_Ok_bind, slice_app_l by lia.
Qed.

Lemma state_report t : gives t (report chan IPMI_LANP_SET_IN_PROGRESS (byte0 (fun x => RProgress (x .& 3)))) (if lockable then [RProgress 0] else []).
Proof using ctl.
  intros s [_ Hst] Ht. destruct (lc_get_state (LanController := env_controller chan lockable view) s) as (r & s1 & E & V & R).
  exists s1. split; [| done]. unfold report, get_lan_param, get_lan_param_select. change (known_param IPMI_LANP_SET_IN_PROGRESS) with true. cbn [negb].
  unfold IPMI_LANP_SET_IN_PROGRESS. erewrite M_bind_run by (rewrite (sendrecv_bind _ _ _ _ _ E); reflexivity). destruct lockable.
  - destruct R as (Hc & rev & Hlen & rest & Hr). rewrite Hc, Hr. change (0 =? 0) with true. cbv iota. rewrite Hst.
    change (drop 1 ([rev; 0] ++ rest)) with ([0] ++ rest). by rewrite byte0_app by done.
  - destruct R as [->|[->| ->]]; done.
Qed.
End Commands.

(** ** The meaning of a command *)

(** What "lan print" shows of a configuration. *)
Definition conf_lines (lockable : bool) (t : gmap (Z * Z) (list Z)) : list lan_line :=
  let line := line_of t in
  let byte f (v : list Z) : lan_line := f (rd v 0) in
  (if lockable then [RProgress 0] else []) ++
  line 1 (byte (fun x => RAuthTypes (x .& 0x37))) ++ line 2 (fun v => RAuthEnable (map (Z.land 0x37) v)) ++
  line 4 (byte (fun x => RSource (x .& 0xf))) ++ line 3 (RAddress 3) ++ line 6 (RAddress 6) ++ line 5 (RMac 5) ++
  line 16 (fun v => RSnmp (c_string v)) ++
  line 7 (fun v => RHeader (rd v 0) (rd v 1 .& 0xe0) (rd v 2 .& 0xe0) (rd v 2 .& 0x1e)) ++
  line 10 (byte (fun x => RArp (negb (x .& 2 =? 0)) (negb (x .& 1 =? 0)))) ++
  line 11 (byte (fun x => RArpInterval ((x + 1) / 2))) ++
  line 12 (RAddress 12) ++ line 13 (RMac 13) ++ line 14 (RAddress 14) ++ line 15 (RMac 15) ++
  line 20 vlan_line ++ line 21 (byte (fun x => RVlanPriority (x .& 7))) ++ cipher_lines t ++
  match t !! (24, 0) with Some v => [cipher_privs_line v] | None => [RCipherPrivs None] end ++
  match t !! (26, 0) with Some v => [bad_pass_line v] | None => [RBadPass None] end.

(** The destinations of the controller are numbered up to its count. *)
Definition in_range (t : gmap (Z * Z) (list Z)) (a : Z) : bool :=
  match t !! (17, 0) with Some n => a <=? rd n 0 .& 0xf | None => false end.

Definition lan_spec (lockable : bool) (c : lan_cmd) (t : gmap (Z * Z) (list Z)) : lan_result * gmap (Z * Z) (list Z) :=
  match c with
  | CSet s => (LCode 0, alter (setting_value s) (setting_param s, 0) t)
  | CAlert a s => if in_range t a then (LAlerts 0 [], alter (alert_value s) (alert_param s, a) t) else (LAlerts (-1) [], t)
  | CPrint => (LPrint 0 (conf_lines lockable t), t)
  end.

(** The parameters that a command is about are supported, with values that it
    applies to; a community string that is printed has an end. *)
Definition lan_cmd_ok (c : lan_cmd) (t : gmap (Z * Z) (list Z)) : Prop :=
  match c with
  | CSet s => setting_ok s /\ from_option (setting_applies s) False (t !! (setting_param s, 0))
  | CAlert a s => is_u8 a /\ alert_ok s /\ (in_range t a = true -> is_Some (t !! (alert_param s, a)))
  | CPrint => from_option (fun v => 0 ∈ v) True (t !! (16, 0)) /\ from_option (fun n => 0 <= rd n 0 <= 15) True (t !! (22, 0))
  end.

#[export] Instance setting_ok_dec s : Decision (setting_ok s).
Proof. unfold setting_ok, is_u16. destruct s as [| | | | | | |[]| | |]; apply _. Defined.
#[export] Instance alert_ok_dec s : Decision (alert_ok s).
Proof. unfold alert_ok. destruct s; apply _. Defined.
#[export] Instance setting_applies_dec s old : Decision (setting_applies s old).
Proof. unfold setting_applies. destruct s as [| | | | | | |[]| | |]; apply _. Defined.
#[export] Instance lan_cmd_ok_dec c t : Decision (lan_cmd_ok c t).
Proof.
  unfold lan_cmd_ok. destruct c as [s| |]; [destruct (t !! (setting_param s, 0)); cbn [from_option]; apply _ | apply _ |]. destruct (t !! (16, 0)), (t !! (22, 0)); cbn [from_option]; apply _.
Defined.

Section Main.
Context {dev : Type} {bmc : Bmc dev} {slp : Sleep dev} {mal : Malloc} (chan : Z) (lockable : bool) (view : dev -> lan_view).
Context {ctl : LanController chan lockable view}.

Abbreviation conf s := (lv_conf (view (le_dev s))).
Abbreviation ready s := (settled (fun s : lan_env dev => view (le_dev s)) s).

(** The command runs, gives [r], and leaves the configuration [t]. *)
Definition does (args : list (list Z)) (s : lan_env dev) (out : lan_result * gmap (Z * Z) (list Z)) : Prop :=
  exists s', ipmi_lanp_main args s = Ok (out.1, s') /\ ready s' /\ conf s' = out.2.

Lemma chan_parses : str2uchar (Some (dec chan)) = (0, Some chan) /\ is_arg (dec chan) "help" = false /\ strcaseeq (dec chan) (text "help") = false.
Proof using ctl.
  pose proof (lc_chan (LanController := ctl)) as Hc. assert (is_u8 chan) as Hb by (unfold is_u8; lia). split; [by apply dec_parses |].
  assert (all_u8 (fun x => negb (is_arg (dec x) "help") && negb (strcaseeq (dec x) (text "help"))) = true) as E by (vm_compute; reflexivity).
  apply (all_u8_spec _ chan) in E; [| done]. rewrite andb_true_iff, !negb_true_iff in E. done.
Qed.

Lemma env_lan (s : lan_env dev) : exists s', is_lan_channel chan s = Ok (true, s') /\ view (le_dev s') = view (le_dev s).
Proof using ctl. exact (lan_run chan lockable (fun s : lan_env dev => view (le_dev s)) s). Qed.

Lemma ready_view (s s' : lan_env dev) : view (le_dev s') = view (le_dev s) -> ready s -> ready s'.
Proof. intros V. unfold settled. by rewrite V. Qed.

Lemma alter_value (f : list Z -> list Z) (k : Z * Z) (v : list Z) (t : gmap (Z * Z) (list Z)) : t !! k = Some v -> alter f k t = <[k := f v]> t.
Proof. intros H. apply map_eq. intros j. destruct (decide (j = k)) as [->|]; [by rewrite lookup_alter_eq, H, lookup_insert_eq | by rewrite lookup_alter_ne, lookup_insert_ne]. Qed.

Lemma set_cmd_run st (s : lan_env dev) : lan_cmd_ok (CSet st) (conf s) -> ready s ->
  does (lan_words chan (CSet st)) s (lan_spec lockable (CSet st) (conf s)).
Proof using ctl.
  intros [Ho Ha] Hs. destruct (conf s !! (setting_param st, 0)) as [old|] eqn:Hv; [| done]. cbn [from_option] in Ha. destruct chan_parses as (P1 & P2 & _). destruct (env_lan s) as (s1 & E1 & V1).
  destruct (setting_run chan lockable view st old s1 Ho Ha) as (s2 & E2 & R2 & C2); [by eapply ready_view | by rewrite V1 |].
  exists s2. cbn [lan_spec fst snd]. rewrite (alter_value _ _ old) by done. split; [| split; [done | by rewrite C2, V1]].
  assert (exists w ws, setting_words st = text w :: ws) as (w & ws & Ew) by (destruct st as [[]|[]| | | | | | | | |]; by eexists _, _).
  assert (is_arg (text w) "help" = false) as Hw.
  { destruct st as [[]|[]| | | | | | | | |]; cbn in Ew; injection Ew as Ew _; unfold is_arg; by rewrite <- Ew. }
  cbn [lan_words ipmi_lanp_main]. rewrite Ew in E2 |- *. cbn [hd tl] in E2. words. unfold ipmi_lan_set.
  rewrite P2, Hw, P1. change (default 0 (Some chan)) with chan. change (negb (0 =? 0)) with false. cbn [orb]. cbv iota.
  erewrite M_bind_run; [reflexivity |]. rewrite (M_bind_run _ _ _ _ _ E1). exact E2.
Qed.

(** Whether there is such a destination. *)
Lemma destination_run a (s : lan_env dev) : ready s ->
  exists s', is_alert_destination chan a s = Ok (in_range (conf s) a, s') /\ view (le_dev s') = view (le_dev s).
Proof using ctl.
  intros Hs. destruct (read_cases chan lockable view (conf s) 17 s Hs eq_refl ltac:(lia) eq_refl) as (q & s1 & E & V & Hq).
  unfold is_alert_destination, in_range. rewrite (M_bind_run _ _ _ _ _ E). exists s1. split; [| done].
  destruct (conf s !! (17, 0)) as [n|]; [destruct Hq as (Hz & rest & ->) | by subst]. change (size_of 17) with 1 in Hz.
  rewrite rdx_ok by (rewrite zlen_app; pose proof (zlen_nonneg rest); lia). by rewrite lift_Ok_bind, rd_app_l by lia.
Qed.

Lemma alert_cmd_run a st (s : lan_env dev) : lan_cmd_ok (CAlert a st) (conf s) -> ready s ->
  does (lan_words chan (CAlert a st)) s (lan_spec lockable (CAlert a st) (conf s)).
Proof using ctl.
  intros (Ha & Ho & Hin) Hs. destruct chan_parses as (P1 & P2 & P3). destruct (env_lan s) as (s1 & E1 & V1).
  destruct (destination_run a s1) as (s2 & E2 & V2); [by eapply ready_view |]. rewrite V1 in E2, V2.
  set (act := (if negb (in_range (conf s) a) then mret (-1, []) else rc ← ipmi_lan_alert_set chan a (alert_words st); mret (rc, []))
    : M (lan_env dev) (Z * list alert_line)).
  assert (forall rc s', act s2 = Ok ((rc, []), s') ->
    ipmi_lanp_main (lan_words chan (CAlert a st)) s = Ok (LAlerts rc [], s')) as K.
  { intros rc s' E. unfold act in E. cbn [lan_words ipmi_lanp_main]. words.
    assert (exists w1 w2, alert_words st = [w1; w2]) as (w1 & w2 & Ew) by (destruct st; by eexists _, _). rewrite Ew in E |- *.
    unfold ipmi_lan_alert. case_words. rewrite P3. unfold with_lan_channel, with_alert. rewrite P1. change (default 0 (Some chan)) with chan.
    change (negb (0 =? 0)) with false. cbv iota. rewrite (proj1 (dec_parses a Ha)). change (default 0 (Some a)) with a.
    change (negb (0 =? 0)) with false. cbv iota.
    rewrite (M_bind_run _ _ s (rc, []) s'); [done |]. rewrite (M_bind_run _ _ _ _ _ E1). cbn [negb]. rewrite (M_bind_run _ _ _ _ _ E2). exact E. }
  cbn [lan_spec]. destruct (in_range (conf s) a) eqn:Er; cbn [negb] in act.
  - destruct (Hin eq_refl) as [old Hv]. assert (0 <= a < 16) as Ha'.
    { unfold in_range in Er. destruct (conf s !! (17, 0)) as [n|]; [| done]. unfold is_u8 in Ha. change 0xf with (Z.ones 4) in Er.
      rewrite Z.land_ones in Er by lia. pose proof (Z.mod_pos_bound (rd n 0) (2 ^ 4) ltac:(lia)). lia. }
    destruct (alert_setting_run chan lockable view st a old s2 Ho Ha') as (s3 & E3 & R3 & C3); [by eapply ready_view | by rewrite V2 |].
    exists s3. cbn [fst snd]. rewrite (alter_value _ _ old) by done. split; [| split; [done | by rewrite C3, V2]].
    apply K. unfold act. by rewrite (M_bind_run _ _ _ _ _ E3).
  - exists s2. split; [by apply K |]. split; [by eapply ready_view | by rewrite V2].
Qed.

Lemma print_cmd_run (s : lan_env dev) : lan_cmd_ok CPrint (conf s) -> ready s ->
  does (lan_words chan CPrint) s (lan_spec lockable CPrint (conf s)).
Proof using ctl.
  intros [Hstr' Hn'] Hs.
  assert (forall v, conf s !! (16, 0) = Some v -> 0 ∈ v) as Hstr by (intros v E; by rewrite E in Hstr').
  assert (forall n, conf s !! (22, 0) = Some n -> 0 <= rd n 0 <= 15) as Hn by (intros n E; by rewrite E in Hn').
  destruct chan_parses as (P1 & P2 & _). destruct (env_lan s) as (s1 & E1 & V1). destruct (env_lan s1) as (s2 & E2 & V2).
  pose proof (lc_chan (LanController := ctl)) as Hc. rewrite V1 in V2.
  assert (exists lss, Forall2 (gives view (conf s)) (lan_reports_first chan ++ lan_reports_rest chan) lss /\ concat lss = conf_lines lockable (conf s)) as (lss & F & El).
  { eexists [_; _; _; _; _; _; _; _; _; _; _; _; _; _; _; _; _; _; _; _]. split.
    { unfold lan_reports_first, lan_reports_rest. cbn [app]. repeat apply Forall2_cons_2; [apply (state_report chan lockable view) | .. | apply Forall2_nil_2].
      all: first [apply (ciphers_run chan lockable view); done
        | apply (report_run chan lockable view) | apply (report_if_run chan lockable view) | apply (report_sized_run chan lockable view)].
      all: try done.
      all: intros v rest Hv Hz.
      all: first [match goal with |- byte0 ?f _ = _ => apply (byte0_app f) end; rewrite Hz; by apply Z.leb_le | apply bytes_of_app; rewrite Hz; by vm_compute | idtac].
      cbn [mbind res_bind]. rewrite string_app by (by apply Hstr). by cbn. }
    cbn [concat app]. unfold conf_lines. cbv zeta. by rewrite app_nil_r. }
  destruct (reports_run chan lockable view (conf s) _ _ s2 F) as (s3 & E3 & V3); [by eapply ready_view | by rewrite V2 |].
  exists s3. cbn [lan_spec fst snd]. rewrite V2 in V3. split; [| split; [by eapply ready_view | by rewrite V3]].
  cbn [lan_words ipmi_lanp_main]. words. change (1 <? zlen [dec chan]) with false. cbv iota. unfold main_channel. cbn [lookup list_lookup].
  rewrite P1. change (default 0 (Some chan)) with chan. change (negb (0 =? 0)) with false. cbv iota.
  rewrite (M_bind_run _ _ _ _ _ E1). cbn [negb].
  rewrite (M_bind_run _ _ s1 (0, conf_lines lockable (conf s)) s3); [done |]. unfold ipmi_lan_print, IPMI_CHANNEL_NUMBER_MAX. rewrite (proj2 (Z.ltb_ge chan 1)), (proj2 (Z.ltb_ge 14 chan)) by lia. cbn [orb].
  rewrite (M_bind_run _ _ _ _ _ E2). cbn [negb]. by rewrite E3, El.
Qed.

Lemma lanp_cmd_run c (s : lan_env dev) : lan_cmd_ok c (conf s) -> ready s -> does (lan_words chan c) s (lan_spec lockable c (conf s)).
Proof using ctl.
  destruct c as [st|a st|].
  - apply set_cmd_run.
  - apply alert_cmd_run.
  - apply print_cmd_run.
Qed.

(** ** Properties *)

(** A session of commands. *)
Fixpoint run_lan (cs : list lan_cmd) : M (lan_env dev) (list lan_result) :=
  match cs with
  | [] => mret []
  | c :: cs => r ← ipmi_lanp_main (lan_words chan c); rs ← run_lan cs; mret (r :: rs)
  end.
End Main.

Fixpoint lan_specs (lockable : bool) (cs : list lan_cmd) (t : gmap (Z * Z) (list Z)) : list lan_result * gmap (Z * Z) (list Z) :=
  match cs with
  | [] => ([], t)
  | c :: cs => let '(r, t) := lan_spec lockable c t in let '(rs, t) := lan_specs lockable cs t in (r :: rs, t)
  end.

Fixpoint lan_cmds_ok (lockable : bool) (cs : list lan_cmd) (t : gmap (Z * Z) (list Z)) : Prop :=
  match cs with
  | [] => True
  | c :: cs => lan_cmd_ok c t /\ lan_cmds_ok lockable cs (lan_spec lockable c t).2
  end.

#[export] Instance lan_cmds_ok_dec lockable cs t : Decision (lan_cmds_ok lockable cs t).
Proof. revert t. induction cs; intros t; cbn [lan_cmds_ok]; apply _. Defined.


(** ** A controller for the examples

    It refuses a write until the program has slept once since the last one, and
    a parameter is read back after two more naps.  Its channel is 1. *)

Definition entry_ok (k : Z * Z) (v : list Z) : bool :=
  negb (k.1 =? 0) && existsb (fun x => (x.1.1 =? k.1) && (x.1.2 =? zlen v)) ipmi_lan_params && forallb (fun x => bool_decide (is_u8 x)) v &&
  (negb (per_alert k.1) || (rd v 0 =? k.2)).

Definition conf_ok (t : gmap (Z * Z) (list Z)) : Prop := map_Forall (fun k v => entry_ok k v = true) t.

Record toy_lan := mk_toy_lan {
  tl_conf : gmap (Z * Z) (list Z);
  tl_ok : conf_ok tl_conf;
  tl_pending : option (Z * Z * nat);
  tl_busy : bool;
  tl_state : Z;
}.

Definition toy_lag (o : option (Z * Z * nat)) (k : Z * Z) : nat := match o with Some (k', n) => if decide (k = k') then n else 0 | None => 0 end.

Definition toy_lan_view (d : toy_lan) : lan_view :=
  mk_lv (tl_conf d) (toy_lag (tl_pending d)) (if tl_busy d then 1 else 0) (tl_state d).

Definition toy_lan_get (p s : Z) (d : toy_lan) : ipmi_rs :=
  if p =? 0 then reply 0 [0x11; tl_state d] else
  match tl_conf d !! (p, s) with
  | None => reply 0x80 []
  | Some v => if decide (toy_lag (tl_pending d) (p, s) = 0%nat) then reply 0 (0x11 :: v) else reply 0xc0 []
  end.

Definition toy_lan_set (p : Z) (v : list Z) (d : toy_lan) : ipmi_rs * toy_lan :=
  if p =? 0 then (reply 0 [], mk_toy_lan (tl_conf d) (tl_ok d) (tl_pending d) (tl_busy d) (rd v 0)) else
  if negb (per_alert p) && tl_busy d then (reply 0xcc [], d) else
  let k := (p, selector p v) in
  match decide (is_Some (tl_conf d !! k)), decide (conf_ok (<[k := v]> (tl_conf d))) with
  | left _, left H => (reply 0 [], mk_toy_lan _ H (if per_alert p then None else Some (k, 2%nat)) true (tl_state d))
  | _, _ => (reply 0x80 [], d)
  end.

Definition toy_lan_bmc : Bmc toy_lan := fun req d =>
  match rq_data req with
  | _ :: p :: rest =>
      if rq_cmd req =? IPMI_LAN_GET_CONFIG then (Some (toy_lan_get p (rd rest 0) d), d)
      else let '(r, d) := toy_lan_set p rest d in (Some r, d)
  | _ => (Some (reply 0 [1; 4; 1; 0x80; 0xf2; 0x1b; 0; 0; 0]), d)
  end.

Definition toy_lan_sleep : Sleep toy_lan := fun _ d =>
  mk_toy_lan (tl_conf d) (tl_ok d) (match tl_pending d with Some (k, n) => Some (k, pred n) | None => None end) false (tl_state d).

Lemma sized_range p n : existsb (fun x => (x.1.1 =? p) && (x.1.2 =? n)) ipmi_lan_params = true -> is_u8 p.
Proof.
  intros ([[p' n'] name] & Hx & E)%existsb_exists. cbn [fst snd] in E. rewrite andb_true_iff, !Z.eqb_eq in E. destruct E as [<- _].
  apply list_elem_of_In in Hx. apply (table_range _ _ _ Hx).
Qed.

#[local] Instance toy_controller : LanController (bmc := toy_lan_bmc) (slp := toy_lan_sleep) 1 true toy_lan_view.
Proof.
  constructor.
  - lia.
  - intros d. eexists _, d, [1; 4; 1; 0x80; 0xf2; 0x1b; 0; 0; 0]. split; [reflexivity |]. split; [done |]. split; [apply carries_reply | done].
  - intros d p s v H. pose proof (tl_ok d (p, s) v H) as E. unfold entry_ok in E. cbn [fst snd] in E.
    rewrite !andb_true_iff, negb_true_iff, orb_true_iff, negb_true_iff, existsb_exists in E. destruct E as (((E1 & (x & Hx & E2)) & E3) & E4).
    split; [by apply Z.eqb_neq |]. split; [| split].
    + destruct x as [[p' n] name]. cbn [fst snd] in E2. rewrite andb_true_iff, !Z.eqb_eq in E2. destruct E2 as [<- <-]. exists name. by apply list_elem_of_In.
    + rewrite forallb_forall in E3. apply Forall_forall. intros y Hy. eapply bool_decide_eq_true_1, E3. by apply list_elem_of_In.
    + intros Hp. destruct E4 as [E4|E4]; [congruence | by apply Z.eqb_eq].
  - intros d p s Hp Hs. exists (Some (toy_lan_get p s d)), d. split; [| split; [done |]].
    { unfold bmc_answer, toy_lan_bmc, get_rq. cbn. rewrite !u8_small by (unfold is_u8; lia). done. }
    unfold reads, toy_lan_view, toy_lan_get. cbn [lv_conf lv_lag]. rewrite (proj2 (Z.eqb_neq p 0)) by lia.
    destruct (tl_conf d !! (p, s)) as [v|]; [| by eexists; split; [| left]].
    destruct (decide _); [eexists _, 0x11; split; [done |]; split; [done | apply carries_reply] |].
    intros r [= <-] ?. done.
  - intros d. eexists _, d. split; [reflexivity |]. split; [done |]. split; [done |]. exists 0x11. apply carries_reply.
  - intros d p v old Hv Hz Hb. cbn [toy_lan_view lv_conf] in Hv. pose proof (tl_ok d _ _ Hv) as Eo. unfold entry_ok in Eo. cbn [fst snd] in Eo.
    rewrite !andb_true_iff in Eo. destruct Eo as (((E1 & E2) & _) & _). apply negb_true_iff in E1.
    assert (conf_ok (<[(p, selector p v) := v]> (tl_conf d))) as Hok.
    { apply map_Forall_insert_2; [| apply tl_ok]. unfold entry_ok. cbn [fst snd]. rewrite E1, Hz, E2. cbn [negb andb].
      assert (forallb (fun x => bool_decide (is_u8 x)) v = true) as -> by (apply forallb_forall; intros y Hy; apply bool_decide_eq_true;
        rewrite Forall_forall in Hb; apply Hb; by apply list_elem_of_In). cbn [andb]. unfold selector. destruct (per_alert p); [apply Z.eqb_refl | done]. }
    assert (exists d', toy_lan_set p v d = (if negb (per_alert p) && tl_busy d then reply 0xcc [] else reply 0 [], d') /\
      tl_state d' = tl_state d /\ (if negb (per_alert p) && tl_busy d then d' = d else
        tl_conf d' = <[(p, selector p v) := v]> (tl_conf d) /\ tl_pending d' = if per_alert p then None else Some (p, selector p v, 2%nat))) as (d' & E & S & R).
    { unfold toy_lan_set. rewrite E1. destruct (negb (per_alert p) && tl_busy d); [by exists d |].
      destruct (decide (is_Some _)) as [_|Hn]; [| by rewrite Hv in Hn; destruct Hn; eexists].
      destruct (decide (conf_ok _)) as [Hok'|Hn]; [| done]. by eexists. }
    eexists _, d'. split; [| split; [exact S |]].
    { unfold bmc_answer, toy_lan_bmc, set_rq. cbn. rewrite u8_small by (by eapply sized_range). rewrite E. reflexivity. }
    destruct (negb (per_alert p) && tl_busy d) eqn:Eb.
    + right. apply andb_true_iff in Eb as [Eb1 Eb2]. apply negb_true_iff in Eb1. subst d'. split_and!; try done. cbn [toy_lan_view lv_busy]. rewrite Eb2. lia.
    + left. destruct R as [C P]. split; [done |]. split; [done |]. intros k. cbn [toy_lan_view lv_lag]. rewrite P.
      destruct (per_alert p); cbn [toy_lag]; repeat (destruct (decide _)); lia.
  - intros d x. eexists _, _. split; [reflexivity |]. cbn. split_and!; done.
  - intros d. cbn. destruct (tl_busy d); lia.
  - intros d. cbn. split_and!; [done | done | | lia]. intros k. destruct (tl_pending d) as [[k' n]|]; cbn [toy_lag]; [destruct (decide _); lia | lia].
Defined.

(** Its configuration. *)
Definition toy_lan_table : gmap (Z * Z) (list Z) := list_to_map [
  ((1, 0), [0x17]); ((2, 0), [0x14; 0x14; 0x14; 0x14; 0]); ((3, 0), [10; 0; 0; 5]); ((4, 0), [2]); ((5, 0), [0; 0x1b; 0x21; 1; 2; 3]);
  ((6, 0), [255; 255; 255; 0]); ((10, 0), [3]); ((11, 0), [7]); ((12, 0), [10; 0; 0; 1]); ((16, 0), text "public" ++ zeros 12);
  ((17, 0), [2]); ((18, 1), [1; 0x80; 5; 3]); ((19, 1), [1; 0; 0; 10; 0; 0; 9; 0; 0; 0; 0; 0; 0]); ((20, 0), [5; 0x80]); ((21, 0), [0]);
  ((22, 0), [3]); ((23, 0), [0; 1; 2; 3] ++ zeros 12); ((24, 0), [0; 0x44; 0x44; 0; 0; 0; 0; 0; 0]); ((26, 0), [0; 0; 0; 0; 0; 0])].

Lemma toy_lan_table_ok : conf_ok toy_lan_table.
Proof. apply (bool_decide_eq_true_1 (conf_ok toy_lan_table)). vm_compute. reflexivity. Qed.

Definition toy_lan_intf : ipmi_intf :=
  mk_intf true false false (mk_addr 0x20 0x20 0 0 0 45 45) (mk_params (zeros 17) (zeros 21) 0 4 3 0 4 1 (zeros 21) 0) None 0.

Definition toy_lan_env : lan_env toy_lan := mk_env toy_lan_intf (mk_toy_lan toy_lan_table toy_lan_table_ok None false 0).

Definition toy_lan_session : list lan_cmd :=
  [CSet (SSource 1); CSet (SIp Ipaddr [192; 168; 1; 20]); CSet (SMac Macaddr [2; 0; 0; 0xab; 0xcd; 0xef]); CSet (SVlan None);
   CSet (SArp true false); CSet (SArpInterval 60); CSet (SAuth 3 2); CSet (SCipherPrivs [0; 4; 4; 4; 0; 0; 0; 0; 0; 0; 0; 0; 0; 0; 3]);
   CSet (SBadPass 5 true 600 300); CSet (SSnmp (text "secret")); CAlert 1 (AIp [10; 0; 0; 77]); CAlert 1 (AAck false); CAlert 9 (ATime 5); CPrint].


(** What the session gives. *)
Example toy_lan_results : take 13 (lan_specs true toy_lan_session toy_lan_table).1 =
  replicate 10 (LCode 0) ++ [LAlerts 0 []; LAlerts 0 []; LAlerts (-1) []].
Proof. vm_compute. reflexivity. Qed.

(** ** Behaviour that is not what it means to be *)

(** Of a list of types or levels only the last is used: each comparison is with
    all of the rest. *)
Example auth_list_last_only :
  authtype_mask (text "md2,md5,password") = authtype_mask (text "password") /\
  foldl (set_level 4) [0; 0; 0; 0; 0] (comma_items (text "user,admin")) = [0; 0; 0; 4; 0].
Proof. split; vm_compute; reflexivity. Qed.

(** A number of an address is read with 32 bits, and what follows the fourth is
    ignored. *)
Example ipaddr_wraps : get_cmdline_ipaddr (text "4294967297.2.3.4.5") = Some [1; 2; 3; 4].
Proof. vm_compute. reflexivity. Qed.

(** A community string of eighteen characters has no end, and is printed with
    what the buffer of responses holds behind it. *)
Example snmp_without_end :
  wr (zeros 32) 0 (take 18 (text "eighteen letters !!")) = Some (text "eighteen letters !" ++ zeros 14) /\
  string_at (text "eighteen letters !" ++ text "left over" ++ [0]) = Ok (text "eighteen letters !left over").
Proof. split; vm_compute; reflexivity. Qed.

(** A device without state that gives the same answer to each request. *)
Definition always (r : ipmi_rs) : Bmc unit := fun _ d => (Some r, d).
Definition no_sleep : Sleep unit := fun _ d => d.

(** An invalid VLAN is not an error, nor are invalid privileges. *)
Example invalid_words_succeed : let bmc := always (reply 0 [0x11; 0]) in let s := mk_env toy_lan_intf tt in
  lan_set_vlan (slp := no_sleep) 1 [text "id"; text "5000"] s = Ok (0, s) /\
  lan_set_cipher_privs (slp := no_sleep) 1 [text "aaa"] s = Ok (0, s).
Proof. split; vm_compute; reflexivity. Qed.

(** "vlan id off" leaves the identifier 0, and 4095, enabled and succeeds. *)
Example vlan_stays_enabled : forall id, id ∈ [[0; 0x80]; [0xff; 0x8f]] ->
  let bmc := always (reply 0 (0x11 :: id)) in let s := mk_env toy_lan_intf tt in
  lan_set_vlan (slp := no_sleep) 1 [text "id"; text "off"] s = Ok (0, s) /\ setting_value (SVlan None) id <> id.
Proof. intros id [->|[->|[]%elem_of_nil]%elem_of_cons]%elem_of_cons; split; vm_compute; done. Qed.

(** A change of a destination that the controller refuses is reported as done. *)
Example refused_alert_succeeds : let bmc := always (reply 0x80 []) in
  ipmi_lan_alert_set (slp := no_sleep) 1 1 [text "time"; text "5"] tt = Ok (0, tt).
Proof. vm_compute. reflexivity. Qed.

(** An answer without data, and one that is longer than the parameter may be,
    make the program copy beyond its buffers. *)
Example alert_overruns :
  ipmi_lan_alert_set (bmc := always (reply 0 [])) (slp := no_sleep) 1 1 [text "time"; text "5"] tt = Bad OutOfBounds /\
  ipmi_lan_alert_set (bmc := always (reply 0 (zeros 33))) (slp := no_sleep) 1 1 [text "time"; text "5"] tt = Bad OutOfBounds.
Proof. split; vm_compute; reflexivity. Qed.

(** The user is not enabled by "user": only the limit of privileges changes. *)
Example user_only_privilege : set_access_data (zero_access <| ua_channel := 2 |> <| ua_user_id := 1 |> <| privilege_limit := 4 |>) true = [2; 1; 4; 0].
Proof. vm_compute. reflexivity. Qed.

(** An interval that is not a whole number of seconds is printed without its
    half. *)
Example arp_interval_truncated : byte0 (fun x => RArpInterval ((x + 1) / 2)) [2] = Ok (RArpInterval 1).
Proof. vm_compute. reflexivity. Qed.
