(* ===== verification/SelTables.v ===== *)
(** * The tables of events and sensor types (include/ipmitool/ipmi_sel.h, lib/ipmi_strings.c)

    The descriptions of events by code, offset and second data byte, and the
    names of the generic and OEM sensor types.  The terminating entries are the
    ends of the lists; the table of sensor-specific events is cut into parts
    only for its size. *)

From stdpp Require Import strings.
From S2P Require Import Prelude Ipmi.

#[local] Open Scope Z_scope.
#[local] Open Scope string_scope.
#[local] Open Scope list_scope.


Definition IPMI_OEM_DELL : Z := 674.
Definition IPMI_OEM_QUANTA : Z := 7244.
Definition IPMI_OEM_VIKING : Z := 9237.
Definition IPMI_OEM_SUPERMICRO : Z := 10876.
Definition IPMI_OEM_PICMG : Z := 12634.
Definition IPMI_OEM_KONTRON : Z := 15000.
Definition IPMI_OEM_VITA : Z := 33196.
Definition IPMI_OEM_SUPERMICRO_47488 : Z := 47488.

(** [struct ipmi_event_sensor_types] *)
Record evt_type := mk_evt { ev_code : Z; ev_offset : Z; ev_data : Z; ev_desc : string }.

Definition generic_event_types : list evt_type := [
  mk_evt 0x01 0x00 0xff "Lower Non-critical going low ";
  mk_evt 0x01 0x01 0xff "Lower Non-critical going high";
  mk_evt 0x01 0x02 0xff "Lower Critical going low ";
  mk_evt 0x01 0x03 0xff "Lower Critical going high";
  mk_evt 0x01 0x04 0xff "Lower Non-recoverable going low ";
  mk_evt 0x01 0x05 0xff "Lower Non-recoverable going high";
  mk_evt 0x01 0x06 0xff "Upper Non-critical going low ";
  mk_evt 0x01 0x07 0xff "Upper Non-critical going high";
  mk_evt 0x01 0x08 0xff "Upper Critical going low ";
  mk_evt 0x01 0x09 0xff "Upper Critical going high";
  mk_evt 0x01 0x0a 0xff "Upper Non-recoverable going low ";
  mk_evt 0x01 0x0b 0xff "Upper Non-recoverable going high";
  mk_evt 0x02 0x00 0xff "Transition to Idle";
  mk_evt 0x02 0x01 0xff "Transition to Active";
  mk_evt 0x02 0x02 0xff "Transition to Busy";
  mk_evt 0x03 0x00 0xff "State Deasserted";
  mk_evt 0x03 0x01 0xff "State Asserted";
  mk_evt 0x04 0x00 0xff "Predictive Failure Deasserted";
  mk_evt 0x04 0x01 0xff "Predictive Failure Asserted";
  mk_evt 0x05 0x00 0xff "Limit Not Exceeded";
  mk_evt 0x05 0x01 0xff "Limit Exceeded";
  mk_evt 0x06 0x00 0xff "Performance Met";
  mk_evt 0x06 0x01 0xff "Performance Lags";
  mk_evt 0x07 0x00 0xff "Transition to OK";
  mk_evt 0x07 0x01 0xff "Transition to Non-critical from OK";
  mk_evt 0x07 0x02 0xff "Transition to Critical from less severe";
  mk_evt 0x07 0x03 0xff "Transition to Non-recoverable from less severe";
  mk_evt 0x07 0x04 0xff "Transition to Non-critical from more severe";
  mk_evt 0x07 0x05 0xff "Transition to Critical from Non-recoverable";
  mk_evt 0x07 0x06 0xff "Transition to Non-recoverable";
  mk_evt 0x07 0x07 0xff "Monitor";
  mk_evt 0x07 0x08 0xff "Informational";
  mk_evt 0x08 0x00 0xff "Device Absent";
  mk_evt 0x08 0x01 0xff "Device Present";
  mk_evt 0x09 0x00 0xff "Device Disabled";
  mk_evt 0x09 0x01 0xff "Device Enabled";
  mk_evt 0x0a 0x00 0xff "Transition to Running";
  mk_evt 0x0a 0x01 0xff "Transition to In Test";
  mk_evt 0x0a 0x02 0xff "Transition to Power Off";
  mk_evt 0x0a 0x03 0xff "Transition to On Line";
  mk_evt 0x0a 0x04 0xff "Transition to Off Line";
  mk_evt 0x0a 0x05 0xff "Transition to Off Duty";
  mk_evt 0x0a 0x06 0xff "Transition to Degraded";
  mk_evt 0x0a 0x07 0xff "Transition to Power Save";
  mk_evt 0x0a 0x08 0xff "Install Error";
  mk_evt 0x0b 0x00 0xff "Fully Redundant";
  mk_evt 0x0b 0x01 0xff "Redundancy Lost";
  mk_evt 0x0b 0x02 0xff "Redundancy Degraded";
  mk_evt 0x0b 0x03 0xff "Non-Redundant: Sufficient from Redundant";
  mk_evt 0x0b 0x04 0xff "Non-Redundant: Sufficient from Insufficient";
  mk_evt 0x0b 0x05 0xff "Non-Redundant: Insufficient Resources";
  mk_evt 0x0b 0x06 0xff "Redundancy Degraded from Fully Redundant";
  mk_evt 0x0b 0x07 0xff "Redundancy Degraded from Non-Redundant";
  mk_evt 0x0c 0x00 0xff "D0 Power State";
  mk_evt 0x0c 0x01 0xff "D1 Power State";
  mk_evt 0x0c 0x02 0xff "D2 Power State";
  mk_evt 0x0c 0x03 0xff "D3 Power State"
].

Definition sensor_specific_event_types_1 : list evt_type := [
  mk_evt 0x05 0x00 0xff "General Chassis intrusion";
  mk_evt 0x05 0x01 0xff "Drive Bay intrusion";
  mk_evt 0x05 0x02 0xff "I/O Card area intrusion";
  mk_evt 0x05 0x03 0xff "Processor area intrusion";
  mk_evt 0x05 0x04 0xff "System unplugged from LAN";
  mk_evt 0x05 0x05 0xff "Unauthorized dock";
  mk_evt 0x05 0x06 0xff "FAN area intrusion";
  mk_evt 0x06 0x00 0xff "Front Panel Lockout violation attempted";
  mk_evt 0x06 0x01 0xff "Pre-boot password violation - user password";
  mk_evt 0x06 0x02 0xff "Pre-boot password violation - setup password";
  mk_evt 0x06 0x03 0xff "Pre-boot password violation - network boot password";
  mk_evt 0x06 0x04 0xff "Other pre-boot password violation";
  mk_evt 0x06 0x05 0xff "Out-of-band access password violation";
  mk_evt 0x07 0x00 0xff "IERR";
  mk_evt 0x07 0x01 0xff "Thermal Trip";
  mk_evt 0x07 0x02 0xff "FRB1/BIST failure";
  mk_evt 0x07 0x03 0xff "FRB2/Hang in POST failure";
  mk_evt 0x07 0x04 0xff "FRB3/Processor startup/init failure";
  mk_evt 0x07 0x05 0xff "Configuration Error";
  mk_evt 0x07 0x06 0xff "SM BIOS Uncorrectable CPU-complex Error";
  mk_evt 0x07 0x07 0xff "Presence detected";
  mk_evt 0x07 0x08 0xff "Disabled";
  mk_evt 0x07 0x09 0xff "Terminator presence detected";
  mk_evt 0x07 0x0a 0xff "Throttled";
  mk_evt 0x07 0x0b 0xff "Uncorrectable machine check exception";
  mk_evt 0x07 0x0c 0xff "Correctable machine check error";
  mk_evt 0x08 0x00 0xff "Presence detected";
  mk_evt 0x08 0x01 0xff "Failure detected";
  mk_evt 0x08 0x02 0xff "Predictive failure";
  mk_evt 0x08 0x03 0xff "Power Supply AC lost";
  mk_evt 0x08 0x04 0xff "AC lost or out-of-range";
  mk_evt 0x08 0x05 0xff "AC out-of-range, but present";
  mk_evt 0x08 0x06 0x00 "Config Error: Vendor Mismatch";
  mk_evt 0x08 0x06 0x01 "Config Error: Revision Mismatch";
  mk_evt 0x08 0x06 0x02 "Config Error: Processor Missing";
  mk_evt 0x08 0x06 0x03 "Config Error: Power Supply Rating Mismatch";
  mk_evt 0x08 0x06 0x04 "Config Error: Voltage Rating Mismatch";
  mk_evt 0x08 0x06 0xff "Config Error";
  mk_evt 0x08 0x07 0xff "Power Supply Inactive";
  mk_evt 0x09 0x00 0xff "Power off/down";
  mk_evt 0x09 0x01 0xff "Power cycle";
  mk_evt 0x09 0x02 0xff "240VA power down";
  mk_evt 0x09 0x03 0xff "Interlock power down";
  mk_evt 0x09 0x04 0xff "AC lost";
  mk_evt 0x09 0x05 0xff "Soft-power control failure";
  mk_evt 0x09 0x06 0xff "Failure detected";
  mk_evt 0x09 0x07 0xff "Predictive failure";
  mk_evt 0x0c 0x00 0xff "Correctable ECC";
  mk_evt 0x0c 0x01 0xff "Uncorrectable ECC";
  mk_evt 0x0c 0x02 0xff "Parity";
  mk_evt 0x0c 0x03 0xff "Memory Scrub Failed";
  mk_evt 0x0c 0x04 0xff "Memory Device Disabled";
  mk_evt 0x0c 0x05 0xff "Correctable ECC logging limit reached";
  mk_evt 0x0c 0x06 0xff "Presence Detected";
  mk_evt 0x0c 0x07 0xff "Configuration Error";
  mk_evt 0x0c 0x08 0xff "Spare";
  mk_evt 0x0c 0x09 0xff "Throttled";
  mk_evt 0x0c 0x0a 0xff "Critical Overtemperature";
  mk_evt 0x0d 0x00 0xff "Drive Present";
  mk_evt 0x0d 0x01 0xff "Drive Fault";
  mk_evt 0x0d 0x02 0xff "Predictive Failure";
  mk_evt 0x0d 0x03 0xff "Hot Spare";
  mk_evt 0x0d 0x04 0xff "Parity Check In Progress";
  mk_evt 0x0d 0x05 0xff "In Critical Array";
  mk_evt 0x0d 0x06 0xff "In Failed Array";
  mk_evt 0x0d 0x07 0xff "Rebuild In Progress";
  mk_evt 0x0d 0x08 0xff "Rebuild Aborted";
  mk_evt 0x0f 0x00 0x00 "Unspecified";
  mk_evt 0x0f 0x00 0x01 "No system memory installed";
  mk_evt 0x0f 0x00 0x02 "No usable system memory";
  mk_evt 0x0f 0x00 0x03 "Unrecoverable IDE device failure";
  mk_evt 0x0f 0x00 0x04 "Unrecoverable system-board failure";
  mk_evt 0x0f 0x00 0x05 "Unrecoverable diskette failure";
  mk_evt 0x0f 0x00 0x06 "Unrecoverable hard-disk controller failure";
  mk_evt 0x0f 0x00 0x07 "Unrecoverable PS/2 or USB keyboard failure";
  mk_evt 0x0f 0x00 0x08 "Removable boot media not found";
  mk_evt 0x0f 0x00 0x09 "Unrecoverable video controller failure";
  mk_evt 0x0f 0x00 0x0a "No video device selected";
  mk_evt 0x0f 0x00 0x0b "BIOS corruption detected";
  mk_evt 0x0f 0x00 0x0c "CPU voltage mismatch";
  mk_evt 0x0f 0x00 0x0d "CPU speed mismatch failure";
  mk_evt 0x0f 0x00 0xff "Unknown Error";
  mk_evt 0x0f 0x01 0x00 "Unspecified";
  mk_evt 0x0f 0x01 0x01 "Memory initialization";
  mk_evt 0x0f 0x01 0x02 "Hard-disk initialization";
  mk_evt 0x0f 0x01 0x03 "Secondary CPU Initialization";
  mk_evt 0x0f 0x01 0x04 "User authentication";
  mk_evt 0x0f 0x01 0x05 "User-initiated system setup";
  mk_evt 0x0f 0x01 0x06 "USB resource configuration";
  mk_evt 0x0f 0x01 0x07 "PCI resource configuration";
  mk_evt 0x0f 0x01 0x08 "Option ROM initialization";
  mk_evt 0x0f 0x01 0x09 "Video initialization";
  mk_evt 0x0f 0x01 0x0a "Cache initialization";
  mk_evt 0x0f 0x01 0x0b "SMBus initialization";
  mk_evt 0x0f 0x01 0x0c "Keyboard controller initialization";
  mk_evt 0x0f 0x01 0x0d "Management controller initialization";
  mk_evt 0x0f 0x01 0x0e "Docking station attachment";
  mk_evt 0x0f 0x01 0x0f "Enabling docking station";
  mk_evt 0x0f 0x01 0x10 "Docking station ejection";
  mk_evt 0x0f 0x01 0x11 "Disabling docking station";
  mk_evt 0x0f 0x01 0x12 "Calling operating system wake-up vector";
  mk_evt 0x0f 0x01 0x13 "System boot initiated";
  mk_evt 0x0f 0x01 0x14 "Motherboard initialization";
  mk_evt 0x0f 0x01 0x15 "reserved";
  mk_evt 0x0f 0x01 0x16 "Floppy initialization";
  mk_evt 0x0f 0x01 0x17 "Keyboard test";
  mk_evt 0x0f 0x01 0x18 "Pointing device test";
  mk_evt 0x0f 0x01 0x19 "Primary CPU initialization";
  mk_evt 0x0f 0x01 0xff "Unknown Hang";
  mk_evt 0x0f 0x02 0x00 "Unspecified";
  mk_evt 0x0f 0x02 0x01 "Memory initialization";
  mk_evt 0x0f 0x02 0x02 "Hard-disk initialization";
  mk_evt 0x0f 0x02 0x03 "Secondary CPU Initialization";
  mk_evt 0x0f 0x02 0x04 "User authentication";
  mk_evt 0x0f 0x02 0x05 "User-initiated system setup";
  mk_evt 0x0f 0x02 0x06 "USB resource configuration";
  mk_evt 0x0f 0x02 0x07 "PCI resource configuration";
  mk_evt 0x0f 0x02 0x08 "Option ROM initialization";
  mk_evt 0x0f 0x02 0x09 "Video initialization";
  mk_evt 0x0f 0x02 0x0a "Cache initialization";
  mk_evt 0x0f 0x02 0x0b "SMBus initialization";
  mk_evt 0x0f 0x02 0x0c "Keyboard controller initialization";
  mk_evt 0x0f 0x02 0x0d "Management controller initialization";
  mk_evt 0x0f 0x02 0x0e "Docking station attachment";
  mk_evt 0x0f 0x02 0x0f "Enabling docking station";
  mk_evt 0x0f 0x02 0x10 "Docking station ejection";
  mk_evt 0x0f 0x02 0x11 "Disabling docking station";
  mk_evt 0x0f 0x02 0x12 "Calling operating system wake-up vector";
  mk_evt 0x0f 0x02 0x13 "System boot initiated";
  mk_evt 0x0f 0x02 0x14 "Motherboard initialization";
  mk_evt 0x0f 0x02 0x15 "reserved";
  mk_evt 0x0f 0x02 0x16 "Floppy initialization";
  mk_evt 0x0f 0x02 0x17 "Keyboard test";
  mk_evt 0x0f 0x02 0x18 "Pointing device test";
  mk_evt 0x0f 0x02 0x19 "Primary CPU initialization";
  mk_evt 0x0f 0x02 0xff "Unknown Progress"
].

Definition sensor_specific_event_types_2 : list evt_type := [
  mk_evt 0x10 0x00 0xff "Correctable memory error logging disabled";
  mk_evt 0x10 0x01 0xff "Event logging disabled";
  mk_evt 0x10 0x02 0xff "Log area reset/cleared";
  mk_evt 0x10 0x03 0xff "All event logging disabled";
  mk_evt 0x10 0x04 0xff "Log full";
  mk_evt 0x10 0x05 0xff "Log almost full";
  mk_evt 0x11 0x00 0xff "BIOS Reset";
  mk_evt 0x11 0x01 0xff "OS Reset";
  mk_evt 0x11 0x02 0xff "OS Shut Down";
  mk_evt 0x11 0x03 0xff "OS Power Down";
  mk_evt 0x11 0x04 0xff "OS Power Cycle";
  mk_evt 0x11 0x05 0xff "OS NMI/Diag Interrupt";
  mk_evt 0x11 0x06 0xff "OS Expired";
  mk_evt 0x11 0x07 0xff "OS pre-timeout Interrupt";
  mk_evt 0x12 0x00 0xff "System Reconfigured";
  mk_evt 0x12 0x01 0xff "OEM System boot event";
  mk_evt 0x12 0x02 0xff "Undetermined system hardware failure";
  mk_evt 0x12 0x03 0xff "Entry added to auxiliary log";
  mk_evt 0x12 0x04 0xff "PEF Action";
  mk_evt 0x12 0x05 0xff "Timestamp Clock Sync";
  mk_evt 0x13 0x00 0xff "NMI/Diag Interrupt";
  mk_evt 0x13 0x01 0xff "Bus Timeout";
  mk_evt 0x13 0x02 0xff "I/O Channel check NMI";
  mk_evt 0x13 0x03 0xff "Software NMI";
  mk_evt 0x13 0x04 0xff "PCI PERR";
  mk_evt 0x13 0x05 0xff "PCI SERR";
  mk_evt 0x13 0x06 0xff "EISA failsafe timeout";
  mk_evt 0x13 0x07 0xff "Bus Correctable error";
  mk_evt 0x13 0x08 0xff "Bus Uncorrectable error";
  mk_evt 0x13 0x09 0xff "Fatal NMI";
  mk_evt 0x13 0x0a 0xff "Bus Fatal Error";
  mk_evt 0x13 0x0b 0xff "Bus Degraded";
  mk_evt 0x14 0x00 0xff "Power Button pressed";
  mk_evt 0x14 0x01 0xff "Sleep Button pressed";
  mk_evt 0x14 0x02 0xff "Reset Button pressed";
  mk_evt 0x14 0x03 0xff "FRU Latch";
  mk_evt 0x14 0x04 0xff "FRU Service";
  mk_evt 0x19 0x00 0xff "Soft Power Control Failure";
  mk_evt 0x19 0x01 0xff "Thermal Trip";
  mk_evt 0x1b 0x00 0xff "Connected";
  mk_evt 0x1b 0x01 0xff "Config Error";
  mk_evt 0x1d 0x00 0xff "Initiated by power up";
  mk_evt 0x1d 0x01 0xff "Initiated by hard reset";
  mk_evt 0x1d 0x02 0xff "Initiated by warm reset";
  mk_evt 0x1d 0x03 0xff "User requested PXE boot";
  mk_evt 0x1d 0x04 0xff "Automatic boot to diagnostic";
  mk_evt 0x1d 0x05 0xff "OS initiated hard reset";
  mk_evt 0x1d 0x06 0xff "OS initiated warm reset";
  mk_evt 0x1d 0x07 0xff "System Restart";
  mk_evt 0x1e 0x00 0xff "No bootable media";
  mk_evt 0x1e 0x01 0xff "Non-bootable disk in drive";
  mk_evt 0x1e 0x02 0xff "PXE server not found";
  mk_evt 0x1e 0x03 0xff "Invalid boot sector";
  mk_evt 0x1e 0x04 0xff "Timeout waiting for selection";
  mk_evt 0x1f 0x00 0xff "A: boot completed";
  mk_evt 0x1f 0x01 0xff "C: boot completed";
  mk_evt 0x1f 0x02 0xff "PXE boot completed";
  mk_evt 0x1f 0x03 0xff "Diagnostic boot completed";
  mk_evt 0x1f 0x04 0xff "CD-ROM boot completed";
  mk_evt 0x1f 0x05 0xff "ROM boot completed";
  mk_evt 0x1f 0x06 0xff "boot completed - device not specified";
  mk_evt 0x1f 0x07 0xff "Installation started";
  mk_evt 0x1f 0x08 0xff "Installation completed";
  mk_evt 0x1f 0x09 0xff "Installation aborted";
  mk_evt 0x1f 0x0a 0xff "Installation failed";
  mk_evt 0x20 0x00 0xff "Error during system startup";
  mk_evt 0x20 0x01 0xff "Run-time critical stop";
  mk_evt 0x20 0x02 0xff "OS graceful stop";
  mk_evt 0x20 0x03 0xff "OS graceful shutdown";
  mk_evt 0x20 0x04 0xff "PEF initiated soft shutdown";
  mk_evt 0x20 0x05 0xff "Agent not responding";
  mk_evt 0x21 0x00 0xff "Fault Status";
  mk_evt 0x21 0x01 0xff "Identify Status";
  mk_evt 0x21 0x02 0xff "Device Installed";
  mk_evt 0x21 0x03 0xff "Ready for Device Installation";
  mk_evt 0x21 0x04 0xff "Ready for Device Removal";
  mk_evt 0x21 0x05 0xff "Slot Power is Off";
  mk_evt 0x21 0x06 0xff "Device Removal Request";
  mk_evt 0x21 0x07 0xff "Interlock";
  mk_evt 0x21 0x08 0xff "Slot is Disabled";
  mk_evt 0x21 0x09 0xff "Spare Device";
  mk_evt 0x22 0x00 0xff "S0/G0: working";
  mk_evt 0x22 0x01 0xff "S1: sleeping with system hw & processor context maintained";
  mk_evt 0x22 0x02 0xff "S2: sleeping, processor context lost";
  mk_evt 0x22 0x03 0xff "S3: sleeping, processor & hw context lost, memory retained";
  mk_evt 0x22 0x04 0xff "S4: non-volatile sleep/suspend-to-disk";
  mk_evt 0x22 0x05 0xff "S5/G2: soft-off";
  mk_evt 0x22 0x06 0xff "S4/S5: soft-off";
  mk_evt 0x22 0x07 0xff "G3: mechanical off";
  mk_evt 0x22 0x08 0xff "Sleeping in S1/S2/S3 state";
  mk_evt 0x22 0x09 0xff "G1: sleeping";
  mk_evt 0x22 0x0a 0xff "S5: entered by override";
  mk_evt 0x22 0x0b 0xff "Legacy ON state";
  mk_evt 0x22 0x0c 0xff "Legacy OFF state";
  mk_evt 0x22 0x0e 0xff "Unknown";
  mk_evt 0x23 0x00 0xff "Timer expired";
  mk_evt 0x23 0x01 0xff "Hard reset";
  mk_evt 0x23 0x02 0xff "Power down";
  mk_evt 0x23 0x03 0xff "Power cycle";
  mk_evt 0x23 0x04 0xff "reserved";
  mk_evt 0x23 0x05 0xff "reserved";
  mk_evt 0x23 0x06 0xff "reserved";
  mk_evt 0x23 0x07 0xff "reserved";
  mk_evt 0x23 0x08 0xff "Timer interrupt";
  mk_evt 0x24 0x00 0xff "Platform generated page";
  mk_evt 0x24 0x01 0xff "Platform generated LAN alert";
  mk_evt 0x24 0x02 0xff "Platform Event Trap generated";
  mk_evt 0x24 0x03 0xff "Platform generated SNMP trap, OEM format";
  mk_evt 0x25 0x00 0xff "Present";
  mk_evt 0x25 0x01 0xff "Absent";
  mk_evt 0x25 0x02 0xff "Disabled"
].

Definition sensor_specific_event_types_3 : list evt_type := [
  mk_evt 0x27 0x00 0xff "Heartbeat Lost";
  mk_evt 0x27 0x01 0xff "Heartbeat";
  mk_evt 0x28 0x00 0xff "Sensor access degraded or unavailable";
  mk_evt 0x28 0x01 0xff "Controller access degraded or unavailable";
  mk_evt 0x28 0x02 0xff "Management controller off-line";
  mk_evt 0x28 0x03 0xff "Management controller unavailable";
  mk_evt 0x28 0x04 0xff "Sensor failure";
  mk_evt 0x28 0x05 0xff "FRU failure";
  mk_evt 0x29 0x00 0xff "Low";
  mk_evt 0x29 0x01 0xff "Failed";
  mk_evt 0x29 0x02 0xff "Presence Detected";
  mk_evt 0x2b 0x00 0xff "Hardware change detected";
  mk_evt 0x2b 0x01 0x00 "Firmware or software change detected";
  mk_evt 0x2b 0x01 0x01 "Firmware or software change detected, Mngmt Ctrl Dev Id";
  mk_evt 0x2b 0x01 0x02 "Firmware or software change detected, Mngmt Ctrl Firm Rev";
  mk_evt 0x2b 0x01 0x03 "Firmware or software change detected, Mngmt Ctrl Dev Rev";
  mk_evt 0x2b 0x01 0x04 "Firmware or software change detected, Mngmt Ctrl Manuf Id";
  mk_evt 0x2b 0x01 0x05 "Firmware or software change detected, Mngmt Ctrl IPMI Vers";
  mk_evt 0x2b 0x01 0x06 "Firmware or software change detected, Mngmt Ctrl Aux Firm Id";
  mk_evt 0x2b 0x01 0x07 "Firmware or software change detected, Mngmt Ctrl Firm Boot Block";
  mk_evt 0x2b 0x01 0x08 "Firmware or software change detected, Mngmt Ctrl Other";
  mk_evt 0x2b 0x01 0x09 "Firmware or software change detected, BIOS/EFI change";
  mk_evt 0x2b 0x01 0x0a "Firmware or software change detected, SMBIOS change";
  mk_evt 0x2b 0x01 0x0b "Firmware or software change detected, O/S change";
  mk_evt 0x2b 0x01 0x0c "Firmware or software change detected, O/S loader change";
  mk_evt 0x2b 0x01 0x0d "Firmware or software change detected, Service Diag change";
  mk_evt 0x2b 0x01 0x0e "Firmware or software change detected, Mngmt SW agent change";
  mk_evt 0x2b 0x01 0x0f "Firmware or software change detected, Mngmt SW App change";
  mk_evt 0x2b 0x01 0x10 "Firmware or software change detected, Mngmt SW Middle";
  mk_evt 0x2b 0x01 0x11 "Firmware or software change detected, Prog HW Change (FPGA)";
  mk_evt 0x2b 0x01 0x12 "Firmware or software change detected, board/FRU module change";
  mk_evt 0x2b 0x01 0x13 "Firmware or software change detected, board/FRU component change";
  mk_evt 0x2b 0x01 0x14 "Firmware or software change detected, board/FRU replace equ ver";
  mk_evt 0x2b 0x01 0x15 "Firmware or software change detected, board/FRU replace new ver";
  mk_evt 0x2b 0x01 0x16 "Firmware or software change detected, board/FRU replace old ver";
  mk_evt 0x2b 0x01 0x17 "Firmware or software change detected, board/FRU HW conf change";
  mk_evt 0x2b 0x02 0xff "Hardware incompatibility detected";
  mk_evt 0x2b 0x03 0xff "Firmware or software incompatibility detected";
  mk_evt 0x2b 0x04 0xff "Invalid or unsupported hardware version";
  mk_evt 0x2b 0x05 0xff "Invalid or unsupported firmware or software version";
  mk_evt 0x2b 0x06 0xff "Hardware change success";
  mk_evt 0x2b 0x07 0x00 "Firmware or software change success";
  mk_evt 0x2b 0x07 0x01 "Firmware or software change success, Mngmt Ctrl Dev Id";
  mk_evt 0x2b 0x07 0x02 "Firmware or software change success, Mngmt Ctrl Firm Rev";
  mk_evt 0x2b 0x07 0x03 "Firmware or software change success, Mngmt Ctrl Dev Rev";
  mk_evt 0x2b 0x07 0x04 "Firmware or software change success, Mngmt Ctrl Manuf Id";
  mk_evt 0x2b 0x07 0x05 "Firmware or software change success, Mngmt Ctrl IPMI Vers";
  mk_evt 0x2b 0x07 0x06 "Firmware or software change success, Mngmt Ctrl Aux Firm Id";
  mk_evt 0x2b 0x07 0x07 "Firmware or software change success, Mngmt Ctrl Firm Boot Block";
  mk_evt 0x2b 0x07 0x08 "Firmware or software change success, Mngmt Ctrl Other";
  mk_evt 0x2b 0x07 0x09 "Firmware or software change success, BIOS/EFI change";
  mk_evt 0x2b 0x07 0x0a "Firmware or software change success, SMBIOS change";
  mk_evt 0x2b 0x07 0x0b "Firmware or software change success, O/S change";
  mk_evt 0x2b 0x07 0x0c "Firmware or software change success, O/S loader change";
  mk_evt 0x2b 0x07 0x0d "Firmware or software change success, Service Diag change";
  mk_evt 0x2b 0x07 0x0e "Firmware or software change success, Mngmt SW agent change";
  mk_evt 0x2b 0x07 0x0f "Firmware or software change success, Mngmt SW App change";
  mk_evt 0x2b 0x07 0x10 "Firmware or software change success, Mngmt SW Middle";
  mk_evt 0x2b 0x07 0x11 "Firmware or software change success, Prog HW Change (FPGA)";
  mk_evt 0x2b 0x07 0x12 "Firmware or software change success, board/FRU module change";
  mk_evt 0x2b 0x07 0x13 "Firmware or software change success, board/FRU component change";
  mk_evt 0x2b 0x07 0x14 "Firmware or software change success, board/FRU replace equ ver";
  mk_evt 0x2b 0x07 0x15 "Firmware or software change success, board/FRU replace new ver";
  mk_evt 0x2b 0x07 0x16 "Firmware or software change success, board/FRU replace old ver";
  mk_evt 0x2b 0x07 0x17 "Firmware or software change success, board/FRU HW conf change";
  mk_evt 0x2c 0x00 0xff "Not Installed";
  mk_evt 0x2c 0x01 0xff "Inactive";
  mk_evt 0x2c 0x02 0xff "Activation Requested";
  mk_evt 0x2c 0x03 0xff "Activation in Progress";
  mk_evt 0x2c 0x04 0xff "Active";
  mk_evt 0x2c 0x05 0xff "Deactivation Requested";
  mk_evt 0x2c 0x06 0xff "Deactivation in Progress";
  mk_evt 0x2c 0x07 0xff "Communication lost";
  mk_evt 0xf0 0x00 0xff "Transition to M0";
  mk_evt 0xf0 0x01 0xff "Transition to M1";
  mk_evt 0xf0 0x02 0xff "Transition to M2";
  mk_evt 0xf0 0x03 0xff "Transition to M3";
  mk_evt 0xf0 0x04 0xff "Transition to M4";
  mk_evt 0xf0 0x05 0xff "Transition to M5";
  mk_evt 0xf0 0x06 0xff "Transition to M6";
  mk_evt 0xf0 0x07 0xff "Transition to M7";
  mk_evt 0xf1 0x00 0xff "IPMB-A disabled, IPMB-B disabled";
  mk_evt 0xf1 0x01 0xff "IPMB-A enabled, IPMB-B disabled";
  mk_evt 0xf1 0x02 0xff "IPMB-A disabled, IPMB-B enabled";
  mk_evt 0xf1 0x03 0xff "IPMB-A enabled, IPMB-B enabled";
  mk_evt 0xf2 0x00 0xff "Module Handle Closed";
  mk_evt 0xf2 0x01 0xff "Module Handle Opened";
  mk_evt 0xf2 0x02 0xff "Quiesced"
].

Definition sensor_specific_event_types : list evt_type :=
  sensor_specific_event_types_1 ++ sensor_specific_event_types_2 ++ sensor_specific_event_types_3.

Definition vita_sensor_event_types : list evt_type := [
  mk_evt 0xf0 0x00 0xff "Transition to M0";
  mk_evt 0xf0 0x01 0xff "Transition to M1";
  mk_evt 0xf0 0x04 0xff "Transition to M4";
  mk_evt 0xf0 0x05 0xff "Transition to M5";
  mk_evt 0xf0 0x06 0xff "Transition to M6";
  mk_evt 0xf0 0x07 0xff "Transition to M7";
  mk_evt 0xf1 0x00 0xff "IPMB-A disabled, IPMB-B disabled";
  mk_evt 0xf1 0x01 0xff "IPMB-A enabled, IPMB-B disabled";
  mk_evt 0xf1 0x02 0xff "IPMB-A disabled, IPMB-B enabled";
  mk_evt 0xf1 0x03 0xff "IPMB-A enabled, IPMB-B enabled";
  mk_evt 0xf3 0x00 0xff "At or below Lower Non-critical";
  mk_evt 0xf3 0x01 0xff "At or below Lower Critical";
  mk_evt 0xf3 0x02 0xff "At or below Lower Non-recoverable";
  mk_evt 0xf3 0x03 0xff "At or above Upper Non-critical";
  mk_evt 0xf3 0x04 0xff "At or above Upper Critical";
  mk_evt 0xf3 0x05 0xff "At or above Upper Non-recoverable"
].

Definition oem_kontron_event_types : list evt_type := [
  mk_evt 0xc1 0x00 0xff "Push Button";
  mk_evt 0xc1 0x01 0xff "Bridge Reset";
  mk_evt 0xc1 0x02 0xff "Backplane";
  mk_evt 0xc1 0x03 0xff "Hotswap Fault";
  mk_evt 0xc1 0x04 0xff "Hotswap Healthy";
  mk_evt 0xc1 0x05 0xff "Unknown";
  mk_evt 0xc1 0x06 0xff "ITP";
  mk_evt 0xc1 0x07 0xff "Hardware Watchdog";
  mk_evt 0xc1 0x08 0xff "Software Reset";
  mk_evt 0xc3 0x02 0xff "IPMB L Disabled";
  mk_evt 0xc3 0x03 0xff "IPMB L Enabled";
  mk_evt 0xc4 0x00 0xff "Push Button";
  mk_evt 0xc4 0x01 0xff "Hardware Power Failure";
  mk_evt 0xc4 0x02 0xff "Unknown";
  mk_evt 0xc4 0x03 0xff "Hardware Watchdog";
  mk_evt 0xc4 0x04 0xff "Soft Reset";
  mk_evt 0xc4 0x05 0xff "Warm Reset";
  mk_evt 0xc4 0x06 0xff "Cold Reset";
  mk_evt 0xc4 0x07 0xff "IPMI Command";
  mk_evt 0xc4 0x08 0xff "Setup Reset (Save CMOS)";
  mk_evt 0xc4 0x09 0xff "Power Up Reset";
  mk_evt 0xc6 0x0e 0xff "Post Error (see data2)";
  mk_evt 0xc7 0x00 0xff "First Boot After Upgrade";
  mk_evt 0xc7 0x01 0xff "First Boot After Rollback(error)";
  mk_evt 0xc7 0x02 0xff "First Boot After Errors (watchdog)";
  mk_evt 0xc7 0x03 0xff "First Boot After Manual Rollback";
  mk_evt 0xc7 0x08 0xff "Firmware Watchdog Bite, reset occurred";
  mk_evt 0xc8 0x00 0xff "Not Loaded";
  mk_evt 0xc8 0x01 0xff "Initializing";
  mk_evt 0xc8 0x02 0xff "Ready";
  mk_evt 0xc8 0x03 0xff "Failure (see data2)";
  mk_evt 0xc9 0x00 0xff "Started";
  mk_evt 0xc9 0x01 0xff "Pass";
  mk_evt 0xc9 0x02 0xff "Fail";
  mk_evt 0xca 0x00 0xff "In progress";
  mk_evt 0xca 0x01 0xff "Success";
  mk_evt 0xca 0x02 0xff "Failure";
  mk_evt 0xcb 0x00 0xff "Asserted";
  mk_evt 0xcb 0x01 0xff "Deasserted";
  mk_evt 0xcc 0x00 0xff "Asserted";
  mk_evt 0xcc 0x01 0xff "Deasserted";
  mk_evt 0xcd 0x00 0xff "Asserted";
  mk_evt 0xcd 0x01 0xff "Deasserted";
  mk_evt 0xcf 0x00 0xff "Asserted";
  mk_evt 0xcf 0x01 0xff "Deasserted"
].

Definition ipmi_generic_sensor_type_vals : list string := [
  "reserved"; "Temperature"; "Voltage"; "Current";
  "Fan"; "Physical Security"; "Platform Security"; "Processor";
  "Power Supply"; "Power Unit"; "Cooling Device"; "Other";
  "Memory"; "Drive Slot / Bay"; "POST Memory Resize"; "System Firmwares";
  "Event Logging Disabled"; "Watchdog1"; "System Event"; "Critical Interrupt";
  "Button"; "Module / Board"; "Microcontroller"; "Add-in Card";
  "Chassis"; "Chip Set"; "Other FRU"; "Cable / Interconnect";
  "Terminator"; "System Boot Initiated"; "Boot Error"; "OS Boot";
  "OS Critical Stop"; "Slot / Connector"; "System ACPI Power State"; "Watchdog2";
  "Platform Alert"; "Entity Presence"; "Monitor ASIC"; "LAN";
  "Management Subsys Health"; "Battery"; "Session Audit"; "Version Change";
  "FRU State"
].

Definition ipmi_oem_sensor_type_vals : list (Z * Z * string) := [
  (IPMI_OEM_KONTRON, 0xc0, "Firmware Info");
  (IPMI_OEM_KONTRON, 0xc2, "Init Agent");
  (IPMI_OEM_KONTRON, 0xc2, "Board Reset(cPCI)");
  (IPMI_OEM_KONTRON, 0xc3, "IPMBL Link State");
  (IPMI_OEM_KONTRON, 0xc4, "Board Reset");
  (IPMI_OEM_KONTRON, 0xc5, "FRU Information Agent");
  (IPMI_OEM_KONTRON, 0xc6, "POST Value Sensor");
  (IPMI_OEM_KONTRON, 0xc7, "FWUM Status");
  (IPMI_OEM_KONTRON, 0xc8, "Switch Mngt Software Status");
  (IPMI_OEM_KONTRON, 0xc9, "OEM Diagnostic Status");
  (IPMI_OEM_KONTRON, 0xca, "Component Firmware Upgrade");
  (IPMI_OEM_KONTRON, 0xcb, "FRU Over Current");
  (IPMI_OEM_KONTRON, 0xcc, "FRU Sensor Error");
  (IPMI_OEM_KONTRON, 0xcd, "FRU Power Denied");
  (IPMI_OEM_KONTRON, 0xce, "Reserved");
  (IPMI_OEM_KONTRON, 0xcf, "Board Reset");
  (IPMI_OEM_KONTRON, 0xd0, "Clock Resource Control");
  (IPMI_OEM_KONTRON, 0xd1, "Power State");
  (IPMI_OEM_KONTRON, 0xd2, "FRU Mngt Power Failure");
  (IPMI_OEM_KONTRON, 0xd3, "Jumper Status");
  (IPMI_OEM_KONTRON, 0xf2, "RTM Module Hotswap");
  (IPMI_OEM_PICMG, 0xf0, "FRU Hot Swap");
  (IPMI_OEM_PICMG, 0xf1, "IPMB Physical Link");
  (IPMI_OEM_PICMG, 0xf2, "Module Hot Swap");
  (IPMI_OEM_PICMG, 0xf3, "Power Channel Notification");
  (IPMI_OEM_PICMG, 0xf4, "Telco Alarm Input");
  (IPMI_OEM_VITA, 0xf0, "FRU State");
  (IPMI_OEM_VITA, 0xf1, "System IPMB Link");
  (IPMI_OEM_VITA, 0xf2, "FRU Health");
  (IPMI_OEM_VITA, 0xf3, "FRU Temperature");
  (IPMI_OEM_VITA, 0xf4, "Payload Test Results");
  (IPMI_OEM_VITA, 0xf5, "Payload Test Status")
].
