(* ===== verification/Sel.v ===== *)
(** * The system event log (lib/ipmi_sel.c)

    Entries and their descriptions, the commands on the log, the listing that
    is shown or saved, and the files of events that are read back.  What is
    printed is not modelled, nor are the decoders of the vendors: what printing
    an entry does to the controller (it may ask for its identification and its
    SDRs) and what a decoder gives are parameters. *)

From stdpp Require Import strings.
From S2P Require Import Prelude Wire Ipmi Intf Session Helper CText Bmc Channel Sdr SelTables.

#[local] Open Scope Z_scope.

Definition IPMI_CMD_GET_SEL_INFO : Z := 0x40.
Definition IPMI_CMD_GET_SEL_ALLOC_INFO : Z := 0x41.
Definition IPMI_CMD_RESERVE_SEL : Z := 0x42.
Definition IPMI_CMD_GET_SEL_ENTRY : Z := 0x43.
Definition IPMI_CMD_ADD_SEL_ENTRY : Z := 0x44.
Definition IPMI_CMD_DELETE_SEL_ENTRY : Z := 0x46.
Definition IPMI_CMD_CLEAR_SEL : Z := 0x47.
Definition IPMI_GET_SEL_TIME : Z := 0x48.
Definition IPMI_SET_SEL_TIME : Z := 0x49.
Definition ALL_OFFSETS_SPECIFIED : Z := 0xff.
Definition DATA_BYTE2_SPECIFIED_MASK : Z := 0xc0.
Definition DATA_BYTE3_SPECIFIED_MASK : Z := 0x30.
Definition OEM_CODE_IN_BYTE2 : Z := 0x80.
Definition OEM_CODE_IN_BYTE3 : Z := 0x20.
Definition SENSOR_TYPE_MAX : Z := 0x2C.
Definition SENSOR_TYPE_FRM_PROG : Z := 0x0F.
Definition SENSOR_TYPE_OEM_SEC_EVENT : Z := 0xC1.
Definition SENSOR_TYPE_OEM_NFATAL_ERROR : Z := 0xC2.
Definition SENSOR_TYPE_OEM_FATAL_ERROR : Z := 0xC3.
Definition SENSOR_TYPE_SUPERMICRO_OEM : Z := 0xD0.
Definition SIZE_OF_DESC : Z := 128.

(** ** Entries

    [struct sel_event_record]: the first sixteen bytes, which hold all its
    fields, in the byte order of a little-endian host; the standard record is
    the view that the code takes of any of them. *)

Definition sel_event_record : Type := list Z.

Definition record_type (e : sel_event_record) : Z := rd e 2.
Definition se_gen_id (e : sel_event_record) : Z := ipmi16toh (slice e 7 2).
Definition se_evm_rev (e : sel_event_record) : Z := rd e 9.
Definition se_sensor_type (e : sel_event_record) : Z := rd e 10.
Definition se_sensor_num (e : sel_event_record) : Z := rd e 11.
Definition se_event_type (e : sel_event_record) : Z := rd e 12 .& 0x7f.
Definition se_event_dir (e : sel_event_record) : Z := rd e 12 .>> 7.
Definition se_event_data (e : sel_event_record) (i : Z) : Z := rd e (13 + i).

(** What [ipmi_sel_get_std_entry] stores of the eighteen bytes of a response:
    a record with an OEM time stamp gets its manufacturer turned round. *)
Definition stored_entry (d : list Z) : sel_event_record :=
  if rd d 4 <? 0xc0 then slice d 2 16
  else if rd d 4 <? 0xe0 then slice d 2 7 ++ [rd d 11; rd d 10; rd d 9] ++ slice d 12 6
  else slice d 2 3 ++ slice d 5 13.

(** ** Tables

    A pointer into a table is the rest of the table from there on. *)

Fixpoint find_code (code : Z) (l : list evt_type) : option (list evt_type) :=
  match l with
  | [] => None
  | e :: l' => if code =? ev_code e then Some l else find_code code l'
  end.

(** [ipmi_get_next_event_sensor_type] *)
Definition ipmi_get_next_event_sensor_type (evt : list evt_type) : option (list evt_type) :=
  match evt with
  | [] => None
  | start :: l => find_code (ev_code start) l
  end.

(** An entry describes the event. *)
Definition describes (evt : evt_type) (offset data0 data1 : Z) : bool :=
  (ev_offset evt =? offset) &&
  ((ev_data evt =? ALL_OFFSETS_SPECIFIED) ||
   negb (data0 .& DATA_BYTE2_SPECIFIED_MASK =? 0) && (ev_data evt =? data1)).

(** The search of [ipmi_get_event_desc]. *)
Fixpoint desc_loop (n : nat) (evt : option (list evt_type)) (data0 data1 : Z) : option evt_type :=
  match n, evt with
  | S n, Some (e :: l) =>
      if describes e (data0 .& 0xf) data0 data1 then Some e
      else desc_loop n (ipmi_get_next_event_sensor_type (e :: l)) data0 data1
  | _, _ => None
  end.

(** [ipmi_get_generic_sensor_type] *)
Definition ipmi_get_generic_sensor_type (code : Z) : option string :=
  if code <=? SENSOR_TYPE_MAX then ipmi_generic_sensor_type_vals !! Z.to_nat code else None.

(** The description that is an OEM suffix only, by type and offset: 1 for a
    suffix in parentheses, 2 for the suffix alone. *)
Definition suffix_flag (sensor_type offset : Z) : Z :=
  if sensor_type =? SENSOR_TYPE_FRM_PROG then (if offset =? 0xf then 1 else 0)
  else if sensor_type =? SENSOR_TYPE_OEM_SEC_EVENT then
    (if (offset =? 1) || (offset =? 2) || (offset =? 3) then 1 else 0)
  else if sensor_type =? SENSOR_TYPE_OEM_NFATAL_ERROR then (if (offset =? 0) || (offset =? 2) then 1 else 0)
  else if sensor_type =? SENSOR_TYPE_OEM_FATAL_ERROR then (if offset =? 1 then 1 else 0)
  else if sensor_type =? SENSOR_TYPE_SUPERMICRO_OEM then 2
  else 0.

(** The fields of the interface that are used, and the static [sel_iana]. *)
Record sel_intf := mk_sintf {
  si_fd : Z;
  si_opened : bool;
  si_manufacturer_id : Z;
  si_vita_avail : bool;
  si_picmg_avail : bool;
  si_sel_iana : Z;
}.

(** What the decoder of a vendor gives for an event. *)
Class OemDecoders (dev : Type) := oem_decode : Z -> sel_event_record -> M dev (option (list Z)).

(** What printing an entry does to the controller. *)
Class SelPrint (dev : Type) := print_std_entry : sel_event_record -> dev -> dev.

Section Describe.
Context {dev : Type} `{bmc : Bmc dev} `{dec : OemDecoders dev} `{mal : Malloc}.
Context (intf : sel_intf).

Definition sel_get_oem : M dev Z :=
  ipmi_get_oem sendrecv (si_fd intf) (si_sel_iana intf) (si_opened intf) (si_manufacturer_id intf).

(** [get_kontron_evt_desc] *)
Definition get_kontron_evt_desc (rec : sel_event_record) : option (list Z) :=
  if record_type rec <? 0xc0 then
    match find_code (se_event_type rec) oem_kontron_event_types with
    | Some (st :: _) => Some (text (ev_desc st))
    | _ => None
    end
  else None.

(** [ipmi_get_oem_desc] *)
Definition ipmi_get_oem_desc (rec : sel_event_record) : M dev (option (list Z)) :=
  iana ← sel_get_oem;
  if iana =? IPMI_OEM_KONTRON then mret (get_kontron_evt_desc rec)
  else if existsb (Z.eqb iana)
      [IPMI_OEM_VIKING; IPMI_OEM_DELL; IPMI_OEM_SUPERMICRO; IPMI_OEM_SUPERMICRO_47488; IPMI_OEM_QUANTA]
  then oem_decode iana rec
  else mret None.

(** [ipmi_get_first_event_sensor_type] *)
Definition ipmi_get_first_event_sensor_type (sensor_type event_type : Z) : M dev (option (list evt_type)) :=
  if event_type =? 0x6f then
    kontron ← (if (0xC0 <=? sensor_type) && (sensor_type <? 0xF0)
               then iana ← sel_get_oem; mret (iana =? IPMI_OEM_KONTRON) else mret false);
    mret (if kontron : bool then find_code sensor_type oem_kontron_event_types
          else if si_vita_avail intf then
            match find_code sensor_type vita_sensor_event_types with
            | Some l => Some l
            | None => find_code sensor_type sensor_specific_event_types
            end
          else find_code sensor_type sensor_specific_event_types)
  else mret (find_code event_type generic_event_types).

(** The suffix that the decoder of a vendor adds to a sensor-specific event. *)
Definition oem_suffix (rec : sel_event_record) : M dev (option (list Z)) :=
  let data0 := se_event_data rec 0 in
  iana ← sel_get_oem;
  sfx ← (if existsb (Z.eqb iana) [IPMI_OEM_SUPERMICRO; IPMI_OEM_SUPERMICRO_47488; IPMI_OEM_QUANTA]
         then ipmi_get_oem_desc rec else mret None);
  iana ← sel_get_oem;
  if iana =? IPMI_OEM_DELL then
    if (data0 .& DATA_BYTE2_SPECIFIED_MASK =? OEM_CODE_IN_BYTE2) ||
       (data0 .& DATA_BYTE3_SPECIFIED_MASK =? OEM_CODE_IN_BYTE3)
    then ipmi_get_oem_desc rec
    else if (data0 =? SENSOR_TYPE_OEM_SEC_EVENT) && (se_sensor_num rec =? 0x23) then ipmi_get_oem_desc rec
    else mret sfx
  else mret sfx.

(** The text that [sprintf] writes to a block of the given size, which is
    not filled when there is no memory. *)
Definition new_desc (size : Z) (t : list Z) : option (list Z) :=
  match malloc size with Some _ => Some t | None => None end.

(** [ipmi_get_event_desc] *)
Definition ipmi_get_event_desc (rec : sel_event_record) : M dev (option (list Z)) :=
  let event_type := se_event_type rec in
  let data0 := se_event_data rec 0 in
  if (0x70 <=? event_type) && (event_type <? 0x7F) then ipmi_get_oem_desc rec else
  sfx ← (if event_type =? 0x6f then oem_suffix rec else mret None);
  first ← ipmi_get_first_event_sensor_type (se_sensor_type rec) event_type;
  match desc_loop (S (length (default [] first))) first data0 (se_event_data rec 1), sfx with
  | Some evt, Some sfx =>
      mret (new_desc (Z.of_nat (String.length (ev_desc evt)) + 48 + SIZE_OF_DESC)
              (text (ev_desc evt) ++ text " (" ++ sfx ++ text ")"))
  | Some evt, None =>
      mret (new_desc (Z.of_nat (String.length (ev_desc evt)) + 48 + SIZE_OF_DESC) (text (ev_desc evt)))
  | None, Some sfx =>
      let flag := if event_type =? 0x6f then suffix_flag (se_sensor_type rec) (data0 .& 0xf) else 0 in
      mret (if flag =? 0 then None
            else new_desc (48 + SIZE_OF_DESC) (if flag =? 2 then sfx else text "(" ++ sfx ++ text ")"))
  | None, None => mret None
  end.

(** The search of [ipmi_get_oem_sensor_type]: the first name of the
    manufacturer, or else the last one of PICMG or VITA. *)
Fixpoint oem_sensor_type (vals : list (Z * Z * string)) (iana code : Z) (found : option string) : option string :=
  match vals with
  | [] => found
  | (oem, val, str) :: vals =>
      if (oem =? iana) && (val =? code) then Some str
      else oem_sensor_type vals iana code
        (if (si_picmg_avail intf && (oem =? IPMI_OEM_PICMG) && (val =? code)) ||
            (si_vita_avail intf && (oem =? IPMI_OEM_VITA) && (val =? code)) then Some str else found)
  end.

(** [ipmi_get_sensor_type], with [ipmi_get_oem_sensor_type] *)
Definition ipmi_get_sensor_type (code : Z) : M dev string :=
  type ← (if 0xC0 <=? code
          then iana ← sel_get_oem; mret (oem_sensor_type ipmi_oem_sensor_type_vals iana code None)
          else mret (ipmi_get_generic_sensor_type code));
  mret (default "Unknown"%string type).
End Describe.

(** ** The commands on the log *)

Section Log.
Context {dev : Type} `{bmc : Bmc dev} `{dec : OemDecoders dev} `{mal : Malloc} `{prt : SelPrint dev}.
Context (intf : sel_intf).

Definition show (e : sel_event_record) : M dev unit := modify (print_std_entry e).

(** A request whose answer matters only for its completion code. *)
Definition sel_cmd (cmd : Z) (data : list Z) : M dev (option ipmi_rs) :=
  rsp ← sendrecv (storage_rq cmd data);
  mret (match rsp with Some r => if ccode r =? 0 then Some r else None | None => None end).

(** [ipmi_sel_add_entry] *)
Definition ipmi_sel_add_entry (rec : sel_event_record) : M dev Z :=
  _ ← show rec;
  rsp ← sel_cmd IPMI_CMD_ADD_SEL_ENTRY rec;
  mret (match rsp with Some _ => 0 | None => -1 end).

(** The fourteen bytes of Get SEL Info. *)
Definition sel_info : M dev (option (list Z)) :=
  rsp ← sel_cmd IPMI_CMD_GET_SEL_INFO [];
  match rsp with
  | Some r => if rs_data_len r =? 14 then d ← lift (rsp_bytes r 0 14); mret (Some d) else mret None
  | None => mret None
  end.

(** [ipmi_sel_get_info], which asks for the allocation when it is supported. *)
Definition ipmi_sel_get_info : M dev Z :=
  info ← sel_info;
  match info with
  | None => mret (-1)
  | Some d =>
      if negb (rd d 13 .& 1 =? 0) then
        rsp ← sel_cmd IPMI_CMD_GET_SEL_ALLOC_INFO [];
        mret (match rsp with Some _ => 0 | None => -1 end)
      else mret 0
  end.

(** [ipmi_sel_get_std_entry]: the next identifier, and the entry that is
    stored. *)
Definition ipmi_sel_get_std_entry (id : Z) : M dev (Z * option sel_event_record) :=
  rsp ← sel_cmd IPMI_CMD_GET_SEL_ENTRY ([0; 0] ++ htoipmi16 id ++ [0; 0xff]);
  match rsp with
  | None => mret (0, None)
  | Some r =>
      if rs_data_len r <? 18 then mret (0, None) else
      d ← lift (rsp_bytes r 0 18);
      mret (ipmi16toh d, Some (stored_entry d))
  end.

(** ** The listing *)

(** The line of [ipmi_sel_print_event_file] *)
Definition event_line (e : sel_event_record) (type : string) (desc : option (list Z)) : list Z :=
  let hex x := text "0x" ++ hex2 x in
  hex (se_evm_rev e) ++ text " " ++ hex (se_sensor_type e) ++ text " " ++ hex (se_sensor_num e) ++ text " " ++
  hex (se_event_type e .| (se_event_dir e .<< 7)) ++ text " " ++ hex (se_event_data e 0) ++ text " " ++
  hex (se_event_data e 1) ++ text " " ++ hex (se_event_data e 2) ++ text " # " ++ text type ++ text " #0x" ++
  hex2 (se_sensor_num e) ++ text " " ++ default (text "Unknown") desc ++ [10].

Definition ipmi_sel_print_event_file (e : sel_event_record) : M dev (list Z) :=
  desc ← ipmi_get_event_desc intf e;
  type ← ipmi_get_sensor_type intf (se_sensor_type e);
  mret (event_line e type desc).

(** The entries that are skipped to list the last ones: a next identifier of
    zero is asked for once more, which is the first entry. *)
Fixpoint skip_entries (n : nat) (next_id : Z) : M dev Z :=
  match n with
  | O => mret next_id
  | S n =>
      '(next_id, _) ← ipmi_sel_get_std_entry next_id;
      if next_id =? 0 then
        '(next_id, _) ← ipmi_sel_get_std_entry next_id;
        if next_id =? 0 then mret next_id else skip_entries n next_id
      else skip_entries n next_id
  end.

(** The kinds of file: none, that is also a file that could not be opened, the
    records, or lines of text. *)
Inductive sel_file := NoSelFile | RawFile | TextFile.

(** What is written for an entry. *)
Definition file_entry (file : sel_file) (e : sel_event_record) : M dev (list Z) :=
  match file with
  | NoSelFile => mret []
  | RawFile => mret (slice e 0 16)
  | TextFile => ipmi_sel_print_event_file e
  end.

(** The loop over the entries: what was shown and what was written; [n] is the
    number of entries so far. *)
Fixpoint list_loop (fuel : nat) (file : sel_file) (count n next_id : Z)
    : M dev (list sel_event_record * list Z) :=
  match fuel with
  | O => fail OutOfFuel
  | S fuel =>
      if next_id =? 0xffff then mret ([], []) else
      let curr_id := next_id in
      '(next_id, evt) ← ipmi_sel_get_std_entry curr_id;
      '(next_id, evt) ← (if next_id =? 0 then ipmi_sel_get_std_entry curr_id else mret (next_id, evt));
      match evt with
      | Some evt =>
          if next_id =? 0 then mret ([], []) else
          _ ← show evt;
          bytes ← file_entry file evt;
          if n + 1 =? count then mret ([evt], bytes) else
          '(shown, out) ← list_loop fuel file count (n + 1) next_id;
          mret (evt :: shown, bytes ++ out)
      | None => mret ([], [])
      end
  end.

(** [__ipmi_sel_savelist_entries]: the code, what is shown and what the file
    holds. *)
Definition savelist_entries (fuel : nat) (count : Z) (file : sel_file)
    : M dev (Z * list sel_event_record * list Z) :=
  info ← sel_info;
  match info with
  | None => mret (-1, [], [])
  | Some d =>
      if (rd d 1 =? 0) && (rd d 2 =? 0) then mret (0, [], []) else
      if count <? 0 then
        info ← sel_info;
        match info with
        | None => mret (-1, [], [])
        | Some d =>
            let entries := buf2short (drop 1 d) in
            let count := if entries <? - count then - entries else count in
            next_id ← skip_entries (Z.to_nat (entries + count)) 0;
            '(shown, out) ← list_loop fuel file count 0 next_id;
            mret (0, shown, out)
        end
      else
        '(shown, out) ← list_loop fuel file count 0 0;
        mret (0, shown, out)
  end.

(** [ipmi_sel_list_entries], [ipmi_sel_save_entries], [ipmi_sel_writeraw] *)
Definition ipmi_sel_list_entries (fuel : nat) (count : Z) := savelist_entries fuel count NoSelFile.
Definition ipmi_sel_save_entries (fuel : nat) (count : Z) := savelist_entries fuel count TextFile.
Definition ipmi_sel_writeraw (fuel : nat) := savelist_entries fuel 0 RawFile.

(** The arguments of "list": how many entries, negative for the last ones. *)
Definition sel_list_count (args : list (list Z)) : option Z :=
  let counted sign countstr :=
    match str2int (Some countstr) with
    | (rc, v) => if negb (rc =? 0) then None else Some (default 0 v * sign)
    end in
  match args with
  | [countstr] => counted 1 countstr
  | [which; countstr] =>
      if bool_decide (which = text "last") then counted (-1) countstr
      else if bool_decide (which = text "first") then counted 1 countstr
      else None
  | _ => Some 0
  end.

(** ** Reservation, erasing, deleting, the clock *)

(** [ipmi_sel_reserve], 0 for a failure *)
Definition ipmi_sel_reserve : M dev Z :=
  rsp ← sel_cmd IPMI_CMD_RESERVE_SEL [];
  match rsp with
  | Some r => if rs_data_len r <? 2 then mret 0 else d ← lift (rsp_bytes r 0 2); mret (ipmi16toh d)
  | None => mret 0
  end.

(** [ipmi_sel_clear]; "CLR" and 0xaa initiate the erase. *)
Definition ipmi_sel_clear : M dev Z :=
  reserve_id ← ipmi_sel_reserve;
  if reserve_id =? 0 then mret (-1) else
  rsp ← sel_cmd IPMI_CMD_CLEAR_SEL (htoipmi16 reserve_id ++ [67; 76; 82; 0xaa]);
  mret (match rsp with Some _ => 0 | None => -1 end).

(** The loop of [ipmi_sel_delete], over the arguments from the last one. *)
Fixpoint delete_loop (reservation : list Z) (args : list (list Z)) (rc : Z) : M dev Z :=
  match args with
  | [] => mret rc
  | arg :: args =>
      match str2ushort (Some arg) with
      | (err, id) =>
          if negb (err =? 0) then delete_loop reservation args (-1) else
          rsp ← sel_cmd IPMI_CMD_DELETE_SEL_ENTRY (reservation ++ htoipmi16 (default 0 id));
          delete_loop reservation args (match rsp with Some _ => rc | None => -1 end)
      end
  end.

(** [ipmi_sel_delete] *)
Definition ipmi_sel_delete (args : list (list Z)) : M dev Z :=
  match args with
  | [] => mret (-1)
  | arg :: _ =>
      if bool_decide (arg = text "help") then mret (-1) else
      id ← ipmi_sel_reserve;
      if id =? 0 then mret (-1) else delete_loop (htoipmi16 id) (rev args) 0
  end.

(** [ipmi_sel_get_time] *)
Definition ipmi_sel_get_time : M dev Z :=
  rsp ← sel_cmd IPMI_GET_SEL_TIME [];
  mret (match rsp with Some r => if rs_data_len r =? 4 then 0 else -1 | None => -1 end).

(** [ipmi_sel_set_time]; [now] is the time of the host and [parse] what
    [strptime] and [mktime] make of a text. *)
Definition ipmi_sel_set_time (now : Z) (parse : list Z -> option Z) (time_string : list Z) : M dev Z :=
  match (if strcaseeq time_string (text "now") then Some now else
         match parse time_string with Some t => if 0 <=? t then Some t else None | None => None end) with
  | None => mret (-1)
  | Some t =>
      rsp ← sel_cmd IPMI_SET_SEL_TIME (htoipmi32 (u32 t));
      match rsp with
      | None => mret (-1)
      | Some _ => _ ← ipmi_sel_get_time; mret 0
      end
  end.

(** ** Files that are read back *)

(** [ipmi_sel_readraw] on the bytes of the file: what is shown, and the code,
    -1 for an incomplete record. *)
Fixpoint readraw_loop (n : nat) (file : list Z) : M dev (Z * list sel_event_record) :=
  match n with
  | O => fail OutOfFuel
  | S n =>
      if 16 <=? zlen file then
        let evt := slice file 0 16 in
        _ ← show evt;
        '(rc, shown) ← readraw_loop n (drop 16 file);
        mret (rc, evt :: shown)
      else mret (if zlen file =? 0 then 0 else -1, [])
  end.

Definition ipmi_sel_readraw (file : option (list Z)) : M dev (Z * list sel_event_record) :=
  match file with
  | None => mret (-1, [])
  | Some bytes => readraw_loop (S (length bytes)) bytes
  end.

(** At most seven bytes; [None] for a token that is not one, or too few. *)
Fixpoint event_bytes (n : nat) (toks : list (list Z)) : option (list Z) :=
  match n, toks with
  | O, _ => Some []
  | S _, [] => None
  | S n, tok :: toks =>
      match str2uchar (Some tok) with
      | (rc, v) => if negb (rc =? 0) then None else l ← event_bytes n toks; Some (default 0 v :: l)
      end
  end.

(** The entry for seven bytes: software generated, of type 2. *)
Definition event_of (rqdata : list Z) : sel_event_record :=
  [0; 0; 0x02; 0; 0; 0; 0; 0x41; 0] ++ take 3 rqdata ++
  [(rd rqdata 3 .& 0x7f) .| (((rd rqdata 3 .& 0x80) .>> 7) .<< 7)] ++ drop 4 rqdata.

(** The loop of [ipmi_sel_add_entries_fromfile]. *)
Fixpoint add_lines (n : nat) (file : list Z) (rc : Z) : M dev Z :=
  match n, file with
  | O, _ => fail OutOfFuel
  | S n, [] => mret rc
  | S n, _ :: _ =>
      let '(buf, file) := fgets 1024 file in
      let line := trim (until 35 (c_string buf)) in
      if bool_decide (line = []) then add_lines n file rc else
      match event_bytes 7 (strtok line []) with
      | None => add_lines n file rc
      | Some rqdata =>
          rc ← ipmi_sel_add_entry (event_of rqdata);
          if rc <? 0 then mret rc else add_lines n file rc
      end
  end.

(** [ipmi_sel_add_entries_fromfile]; [None] is no file. *)
Definition ipmi_sel_add_entries_fromfile (file : option (list Z)) : M dev Z :=
  match file with
  | None => mret (-1)
  | Some bytes => add_lines (S (length bytes)) bytes 0
  end.

(** ** [ipmi_sel_interpret]: the log of a PPS shelf manager *)

(** [strtol] in base 10 or 16; [None] when it sets [errno]. *)
Definition strtol_base (base : Z) (s : list Z) : option Z :=
  let '(neg, t) := sign_of (skip_space s) in
  let t :=
    match t with
    | z :: x :: t' => if (base =? 16) && (z =? 48) && (x .| 32 =? 120) && has_digit 16 t' then t' else t
    | _ => t
    end in
  let v := (scan_digits base t 0).1 in
  let v := if neg : bool then - v else v in
  if (v <? LONG_MIN) || (LONG_MAX <? v) then None else Some v.

(** [ipmi_sel_interpret_after] *)
Fixpoint ipmi_sel_interpret_after (cursor : list Z) (delimiter : Z) : option (list Z) :=
  match cursor with
  | [] => None
  | c :: cursor => if c =? delimiter then Some cursor else ipmi_sel_interpret_after cursor delimiter
  end.

(** The search for the identifier of the FRU: the next digit. *)
Fixpoint skip_to_digit (cursor : list Z) : option (list Z) :=
  match cursor with
  | [] => None
  | c :: rest => if isdigit c then Some cursor else skip_to_digit rest
  end.

(** The three data bytes: of a hot-swap event (sensor type 0xF0), which is
    already interpreted, in hexadecimal, or in a format that is not known. *)
Definition pps_data (sensor_type : Z) (cursor : list Z) : option (list Z) :=
  if sensor_type =? 0xF0 then
    cursor ← skip_to_digit cursor; fru ← strtol_base 10 cursor;
    cursor ← ipmi_sel_interpret_after cursor 77; previous ← strtol_base 10 cursor;
    cursor ← ipmi_sel_interpret_after cursor 77; current ← strtol_base 10 cursor;
    cursor ← ipmi_sel_interpret_after cursor 61; cause ← strtol_base 16 cursor;
    Some [u8 (0xA0 .| current); u8 (u8 previous .| (u8 cause .<< 4)); u8 fru]
  else if rd cursor 0 =? 48 then
    data0 ← strtol_base 16 cursor;
    cursor ← ipmi_sel_interpret_after cursor 32; data1 ← strtol_base 16 cursor;
    cursor ← ipmi_sel_interpret_after cursor 32; data2 ← strtol_base 16 cursor;
    Some [u8 data0; u8 data1; u8 data2]
  else Some [0; 0; 0].

(** A line: the entry, or nothing for a line that ends the loop with -1. *)
Definition pps_line (buffer : list Z) : option sel_event_record :=
  record_id ← strtol_base 16 buffer;
  cursor ← ipmi_sel_interpret_after buffer 59;
  cursor ← ipmi_sel_interpret_after cursor 59;
  cursor ← ipmi_sel_interpret_after cursor 40; sensor_type ← strtol_base 16 cursor;
  cursor ← ipmi_sel_interpret_after cursor 44; sensor_num ← strtol_base 10 cursor;
  cursor ← ipmi_sel_interpret_after cursor 58; event_type ← strtol_base 16 cursor;
  cursor ← ipmi_sel_interpret_after cursor 40;
  if bool_decide (cursor = []) then None else
  let event_dir := if rd cursor 0 =? 97 then 0 else 1 in
  cursor ← ipmi_sel_interpret_after cursor 32;
  data ← pps_data (u8 sensor_type) cursor;
  Some (htoipmi16 (u16 record_id) ++ [2; 0; 0; 0; 0; 0x20; 0; 4; u8 sensor_type; u8 sensor_num;
    (event_type .& 0x7f) .| (event_dir .<< 7)] ++ data).

(** The loop over the lines. *)
Fixpoint interpret_loop (n : nat) (file : list Z) : M dev (Z * list sel_event_record) :=
  match n, file with
  | O, _ => fail OutOfFuel
  | S n, [] => mret (-1, [])
  | S n, _ :: _ =>
      let '(buf, file) := fgets 256 file in
      let buffer := c_string buf in
      if (zlen buffer =? 255) && negb (rd buffer 254 =? 10) && negb (bool_decide (file = [])) then mret (-1, []) else
      match pps_line buffer with
      | None => mret (-1, [])
      | Some evt =>
          _ ← show evt;
          '(rc, shown) ← interpret_loop n file;
          mret (rc, evt :: shown)
      end
  end.

(** [ipmi_sel_interpret]; [None] is a file that could not be opened. *)
Definition ipmi_sel_interpret (format : list Z) (file : option (list Z)) : M dev (Z * list sel_event_record) :=
  if bool_decide (format = text "pps") then
    match file with
    | None => mret (-1, [])
    | Some bytes => match malloc 256 with Some _ => interpret_loop (S (length bytes)) bytes | None => mret (-1, []) end
    end
  else mret (-1, []).
End Log.
