(* ===== verification/SelProps.v ===== *)
(** * Correctness of the event log functions (lib/ipmi_sel.c)

    The search for descriptions, the listing of a log, and the files that it is
    saved to and restored from. *)

From stdpp Require Import strings.
From S2P Require Import Prelude Wire Ipmi Intf Session Helper CText Bmc Channel Sdr SelTables Sel.

#[local] Open Scope Z_scope.

(** ** Descriptions *)

#[export] Instance evt_type_eq_dec : EqDecision evt_type.
Proof. solve_decision. Defined.

(** The reference: the first entry of the table for the code that describes the
    event. *)
Definition first_description (table : list evt_type) (code data0 data1 : Z) : option evt_type :=
  head (filter (fun e => ev_code e = code /\ describes e (data0 .& 0xf) data0 data1 = true) table).

Lemma find_code_length code l l' : find_code code l = Some l' -> (length l' <= length l)%nat.
Proof.
  induction l as [|e l IH]; [done |]. cbn [find_code length]. case_test; [intros [= <-]; done |].
  intros E. specialize (IH E). lia.
Qed.

Lemma find_code_head code l e l' : find_code code l = Some (e :: l') -> ev_code e = code.
Proof. induction l as [|x l IH]; [done |]. cbn [find_code]. case_test; [by intros [= <- <-] | exact IH]. Qed.

Lemma find_code_nonempty code l : find_code code l <> Some [].
Proof. induction l as [|x l IH]; [done |]. cbn [find_code]. by case_test. Qed.

Lemma first_description_cons e table code data0 data1 :
  first_description (e :: table) code data0 data1 =
  if (ev_code e =? code) && describes e (data0 .& 0xf) data0 data1 then Some e
  else first_description table code data0 data1.
Proof.
  unfold first_description. rewrite filter_cons. case_decide as H; [destruct H as [-> ->]; by rewrite Z.eqb_refl |].
  destruct (Z.eqb_spec (ev_code e) code); cbn [andb]; [| done].
  destruct (describes e (data0 .& 15) data0 data1); [exfalso; by apply H | done].
Qed.

Lemma desc_loop_first code data0 data1 table : forall n,
  (length (default [] (find_code code table)) < n)%nat ->
  desc_loop n (find_code code table) data0 data1 = first_description table code data0 data1.
Proof.
  induction table as [|e table IH]; intros n Hn; [by destruct n |].
  rewrite first_description_cons. cbn [find_code] in Hn |- *.
  destruct (Z.eqb_spec code (ev_code e)) as [Ec|Ec].
  - rewrite <- Ec, Z.eqb_refl. simpl in Hn. cbn [andb]. destruct n as [|n]; [lia |].
    cbn [desc_loop]. destruct (describes e (data0 .& 15) data0 data1); [done |].
    unfold ipmi_get_next_event_sensor_type. rewrite <- Ec. apply IH.
    destruct (find_code code table) as [l|] eqn:E; simpl; [| lia].
    pose proof (find_code_length _ _ _ E). lia.
  - rewrite (proj2 (Z.eqb_neq _ _)) by congruence. cbn [andb]. by apply IH.
Qed.

(** Data bytes that are described by an entry. *)
Definition data0_for (e : evt_type) : Z := if ev_data e =? ALL_OFFSETS_SPECIFIED then ev_offset e else 0x80 .| ev_offset e.

Definition reachable (table : list evt_type) : bool :=
  forallb (fun e => bool_decide (first_description table (ev_code e) (data0_for e) (ev_data e) = Some e)) table.

(** C29. The search for the description of an event, which follows pointers
    through the table, finds the first entry for the code whose offset and data
    byte are those of the event; and every description of the four tables is
    that of some event. *)
Theorem event_search_complete :
  (forall table code data0 data1,
    desc_loop (S (length (default [] (find_code code table)))) (find_code code table) data0 data1 =
    first_description table code data0 data1) /\
  (forall table, In table [generic_event_types; sensor_specific_event_types; vita_sensor_event_types; oem_kontron_event_types] ->
   forall e, In e table -> exists data0 data1,
    desc_loop (S (length (default [] (find_code (ev_code e) table)))) (find_code (ev_code e) table) data0 data1 = Some e).
Proof.
  split; [intros; apply desc_loop_first; lia |].
  intros table Ht e He. exists (data0_for e), (ev_data e). rewrite desc_loop_first by lia.
  assert (reachable table = true) as Hr.
  { clear He. revert table Ht. apply List.Forall_forall. repeat constructor; vm_compute; reflexivity. }
  unfold reachable in Hr. rewrite forallb_forall in Hr. exact (bool_decide_eq_true_1 _ (Hr e He)).
Qed.

(** ** The law of a log

    [log] holds the records in their order: the identifier, and the sixteen
    bytes of the record. *)

Definition next_id (l : list (Z * list Z)) (i : nat) : Z :=
  match l !! S i with Some (id, _) => id | None => 0xffff end.

(** The entry that the code makes of a record. *)
Definition entry_of (raw : list Z) : sel_event_record := stored_entry ([0; 0] ++ raw).

Class SelLog {dev : Type} {bmc : Bmc dev} {prt : SelPrint dev} (log : dev -> list (Z * list Z)) := {
  sel_ids : forall d, Forall (fun '(id, raw) => 0 < id < 0xffff /\ zlen raw = 16 /\ bytes raw) (log d);
  sel_size : forall d, zlen (log d) < 65536;
  sel_get_info : forall d, exists r d' rest,
    bmc_answer (storage_rq IPMI_CMD_GET_SEL_INFO []) d = (Some r, d') /\ ccode r = 0 /\
    carries r ([0x51] ++ htoipmi16 (zlen (log d)) ++ rest) /\ zlen rest = 11 /\ log d' = log d;
  sel_get_entry : forall d i id raw ask, log d !! i = Some (id, raw) -> ask = id \/ ask = 0 /\ i = O -> exists r d',
    bmc_answer (storage_rq IPMI_CMD_GET_SEL_ENTRY ([0; 0] ++ htoipmi16 ask ++ [0; 0xff])) d = (Some r, d') /\
    ccode r = 0 /\ carries r (htoipmi16 (next_id (log d) i) ++ raw) /\ log d' = log d;
  sel_show : forall d e, log (print_std_entry e d) = log d;
}.

Section Listing.
Context {dev : Type} {bmc : Bmc dev} {dec : OemDecoders dev} {mal : Malloc} {prt : SelPrint dev}.
Context (log : dev -> list (Z * list Z)) {law : SelLog log}.
Context (intf : sel_intf).

Lemma sel_cmd_run cmd data d r d' : bmc_answer (storage_rq cmd data) d = (Some r, d') -> ccode r = 0 ->
  sel_cmd cmd data d = Ok (Some r, d').
Proof. intros E Hc. unfold sel_cmd. rewrite (sendrecv_bind _ _ _ _ _ E), Hc. done. Qed.

Lemma next_range d i : 0 < next_id (log d) i < 65536.
Proof.
  unfold next_id. destruct (log d !! S i) as [[id raw]|] eqn:E; [| lia].
  pose proof (Forall_lookup_1 _ _ _ _ (sel_ids d) E) as (H & _). lia.
Qed.

Lemma stored_next nx raw : zlen nx = 2 -> stored_entry (nx ++ raw) = entry_of raw.
Proof.
  intros H. unfold zlen in H. destruct nx as [|a [|b [|c nx]]]; cbn [length] in H; (lia || done).
Qed.

(** A record is fetched. *)
Lemma get_entry_run d i id raw ask : log d !! i = Some (id, raw) -> ask = id \/ ask = 0 /\ i = O ->
  exists d', ipmi_sel_get_std_entry ask d = Ok (next_id (log d) i, Some (entry_of raw), d') /\ log d' = log d.
Proof.
  intros Hi Ha. destruct (sel_get_entry d i id raw ask Hi Ha) as (r & d' & E & Hc & Hr & Hl).
  exists d'. split; [| done]. unfold ipmi_sel_get_std_entry. rewrite (M_bind_run _ _ _ _ _ (sel_cmd_run _ _ _ _ _ E Hc)).
  pose proof (Forall_lookup_1 _ _ _ _ (sel_ids d) Hi) as (_ & Hz & _).
  assert (zlen (htoipmi16 (next_id (log d) i) ++ raw) = 18) as Hz' by (rewrite zlen_app, Hz; done).
  rewrite (proj1 Hr), Hz'. change (18 <? 18) with false. cbv match.
  rewrite (carries_bytes r _ Hr 0 18), lift_Ok_bind by lia. rewrite slice_all, stored_next by (done || lia).
  pose proof (next_range d i). unfold mret, M_ret. do 3 f_equal.
  apply ipmi16toh_htoipmi16. unfold is_u16. lia.
Qed.

(** The identifier [ask] leads to the records from [i] on. *)
Definition leads (d : dev) (i : nat) (ask : Z) : Prop :=
  match log d !! i with
  | Some (id, _) => ask = id \/ ask = 0 /\ i = O
  | None => ask = 0xffff
  end.

Lemma leads_next d i : leads d (S i) (next_id (log d) i).
Proof. unfold leads, next_id. destruct (log d !! S i) as [[id raw]|]; [by left | done]. Qed.

Lemma leads_log d d' i ask : log d' = log d -> leads d i ask -> leads d' i ask.
Proof. unfold leads. by intros ->. Qed.

(** The records that a listing shows, [n] of them having been shown. *)
Definition limited {A} (count n : Z) (l : list A) : list A := if n <? count then take (Z.to_nat (count - n)) l else l.

Definition entries_of (l : list (Z * list Z)) : list sel_event_record := map (fun x => entry_of x.2) l.

Context (file : sel_file) (W : sel_event_record -> list Z -> Prop).
Hypothesis Hfile : forall e d, exists b d', file_entry intf file e d = Ok (b, d') /\ log d' = log d /\ W e b.

Lemma list_loop_run count fuel : forall i n ask d, leads d i ask -> 0 <= n -> (length (drop i (log d)) < fuel)%nat ->
  exists bs d', list_loop intf fuel file count n ask d =
      Ok (entries_of (limited count n (drop i (log d))), concat bs, d') /\
    log d' = log d /\ Forall2 W (entries_of (limited count n (drop i (log d)))) bs.
Proof.
  induction fuel as [|fuel IH]; intros i n ask d Hl Hn Hf; [lia |]. cbn [list_loop].
  destruct (log d !! i) as [[id raw]|] eqn:Ei.
  2: { unfold leads in Hl. rewrite Ei in Hl. subst ask. rewrite (drop_ge (log d)) by (by apply lookup_ge_None).
       exists [], d. assert (limited count n (A:=Z * list Z) [] = []) as -> by (unfold limited; by destruct (n <? count); rewrite ?take_nil).
       split; [done |]. split; [done | constructor]. }
  unfold leads in Hl. rewrite Ei in Hl. pose proof (Forall_lookup_1 _ _ _ _ (sel_ids d) Ei) as (Hid & Hz & _).
  rewrite (proj2 (Z.eqb_neq ask 0xffff)) by lia.
  destruct (get_entry_run d i id raw ask Ei Hl) as (d1 & E1 & L1). rewrite (M_bind_run _ _ _ _ _ E1).
  pose proof (next_range d i) as Hnx. rewrite (proj2 (Z.eqb_neq (next_id (log d) i) 0)) by lia.
  unfold mbind at 1, M_bind at 1, mret at 1, M_ret at 1. rewrite (proj2 (Z.eqb_neq (next_id (log d) i) 0)) by lia.
  unfold show. set (d2 := print_std_entry (entry_of raw) d1).
  rewrite (M_bind_run (modify _) _ d1 tt d2) by done.
  assert (log d2 = log d) as L2 by (unfold d2; by rewrite sel_show).
  destruct (Hfile (entry_of raw) d2) as (b & d3 & E3 & L3 & Hw). rewrite (M_bind_run _ _ _ _ _ E3).
  rewrite (drop_S _ _ _ Ei) in Hf |- *. cbn [length] in Hf.
  assert (forall l, entries_of (limited count n ((id, raw) :: l)) =
    entry_of raw :: if n + 1 =? count then [] else entries_of (limited count (n + 1) l)) as El.
  { intros l. unfold limited. destruct (Z.ltb_spec n count).
    - replace (Z.to_nat (count - n)) with (S (Z.to_nat (count - (n + 1)))) by lia. cbn [take].
      destruct (Z.eqb_spec (n + 1) count).
      + replace (count - (n + 1)) with 0 by lia. done.
      + rewrite (proj2 (Z.ltb_lt _ _)) by lia. done.
    - rewrite (proj2 (Z.eqb_neq (n + 1) count)), (proj2 (Z.ltb_ge (n + 1) count)) by lia. done. }
  rewrite El. destruct (n + 1 =? count).
  - exists [b], d3. cbn [concat]. rewrite app_nil_r. split; [done |]. split; [congruence | by repeat constructor].
  - destruct (IH (S i) (n + 1) (next_id (log d) i) d3) as (bs & d4 & E4 & L4 & H4); rewrite ?L3, ?L2; try lia.
    { apply (leads_log d); [congruence |]. apply leads_next. }
    rewrite L3, L2 in E4, H4. rewrite (M_bind_run _ _ _ _ _ E4). exists (b :: bs), d4.
    split; [done |]. split; [congruence | by constructor].
Qed.

(** The entries before the last ones are skipped. *)
Lemma skip_run n : forall i ask d, leads d i ask -> (i + n < length (log d))%nat ->
  exists ask' d', skip_entries n ask d = Ok (ask', d') /\ log d' = log d /\ leads d (i + n)%nat ask'.
Proof.
  induction n as [|n IH]; intros i ask d Hl Hn.
  { exists ask, d. rewrite Nat.add_0_r. done. }
  cbn [skip_entries]. destruct (lookup_lt_is_Some_2 (log d) i ltac:(lia)) as [[id raw] Ei].
  pose proof Hl as Ha. unfold leads in Ha. rewrite Ei in Ha.
  destruct (get_entry_run d i id raw ask Ei Ha) as (d1 & E1 & L1). rewrite (M_bind_run _ _ _ _ _ E1).
  pose proof (next_range d i). rewrite (proj2 (Z.eqb_neq _ 0)) by lia.
  destruct (IH (S i) (next_id (log d) i) d1) as (ask' & d2 & E2 & L2 & H2); [| by rewrite L1; lia |].
  { apply (leads_log d); [done |]. apply leads_next. }
  exists ask', d2. split; [exact E2 |]. split; [congruence |]. replace (i + S n)%nat with (S i + n)%nat by lia.
  by apply (leads_log d1).
Qed.

Lemma info_run d : exists rest d', sel_info d = Ok (Some ([0x51] ++ htoipmi16 (zlen (log d)) ++ rest), d') /\ log d' = log d.
Proof.
  destruct (sel_get_info d) as (r & d' & rest & E & Hc & Hr & Hz & Hl). exists rest, d'. split; [| done].
  unfold sel_info. rewrite (M_bind_run _ _ _ _ _ (sel_cmd_run _ _ _ _ _ E Hc)).
  assert (zlen ([0x51] ++ htoipmi16 (zlen (log d)) ++ rest) = 14) as H14 by (rewrite !zlen_app, Hz; done).
  rewrite (proj1 Hr), H14. change (14 =? 14) with true. cbv match.
  rewrite (carries_bytes r _ Hr 0 14), lift_Ok_bind by lia. rewrite slice_all by lia. done.
Qed.

(** The records of a listing: all of them, the first or the last ones. *)
Definition listed {A} (count : Z) (l : list A) : list A :=
  if count <? 0 then drop (length l - Z.to_nat (- count)) l
  else if count =? 0 then l else take (Z.to_nat count) l.

Lemma savelist_run count fuel d : log d <> [] -> (length (log d) < fuel)%nat ->
  exists bs d', savelist_entries intf fuel count file d = Ok (0, entries_of (listed count (log d)), concat bs, d') /\
    log d' = log d /\ Forall2 W (entries_of (listed count (log d))) bs.
Proof.
  intros Hne Hf. pose proof (sel_size d) as Hs. pose proof (zlen_nonneg (log d)) as H0.
  assert (zlen (log d) <> 0) as Hz by (destruct (log d); [done | unfold zlen; cbn [length]; lia]).
  unfold savelist_entries. destruct (info_run d) as (rest & d1 & E1 & L1). rewrite (M_bind_run _ _ _ _ _ E1).
  assert (ipmi16toh (htoipmi16 (zlen (log d)) ++ rest) = zlen (log d)) as Hlen by (apply ipmi16toh_htoipmi16; unfold is_u16; lia).
  cbn [app]. unfold htoipmi16 in Hlen |- *. cbn [app] in Hlen |- *.
  set (lo := zlen (log d) .& 255) in *. set (hi := u8 (zlen (log d) .>> 8)) in *.
  change (rd (0x51 :: lo :: hi :: rest) 1) with lo. change (rd (0x51 :: lo :: hi :: rest) 2) with hi.
  change (ipmi16toh (lo :: hi :: rest)) with ((hi .<< 8) .| lo) in Hlen.
  replace ((lo =? 0) && (hi =? 0)) with false.
  2: { symmetry. apply andb_false_iff. destruct (Z.eqb_spec lo 0) as [El|El]; [| by left].
       destruct (Z.eqb_spec hi 0) as [Eh|Eh]; [| by right]. exfalso. apply Hz. rewrite <- Hlen, El, Eh. done. }
  assert (leads d1 0 0) as Hlead.
  { unfold leads. rewrite L1. destruct (log d) as [|[id raw] l]; [done |]. by right. }
  destruct (Z.ltb_spec count 0) as [Hc|Hc].
  - destruct (info_run d1) as (rest' & d2 & E2 & L2). rewrite (M_bind_run _ _ _ _ _ E2). rewrite L1.
    assert (buf2short (drop 1 ([0x51] ++ htoipmi16 (zlen (log d)) ++ rest')) = zlen (log d)) as ->.
    { change (drop 1 ([0x51] ++ htoipmi16 (zlen (log d)) ++ rest')) with (htoipmi16 (zlen (log d)) ++ rest').
      unfold buf2short. change (rd (htoipmi16 (zlen (log d)) ++ rest') 1) with hi.
      change (rd (htoipmi16 (zlen (log d)) ++ rest') 0) with lo. rewrite Hlen. apply u16_small. unfold is_u16. lia. }
    set (c := if zlen (log d) <? - count then - zlen (log d) else count).
    assert (- zlen (log d) <= c < 0 /\ (length (log d) - Z.to_nat (- count) = Z.to_nat (zlen (log d) + c))%nat) as [Hcr Hdrop].
    { unfold c, zlen in *. case_test; lia. }
    destruct (skip_run (Z.to_nat (zlen (log d) + c)) 0 0 d2) as (ask & d3 & E3 & L3 & H3).
    { by apply (leads_log d1). }
    { rewrite L2, L1. unfold zlen in *. lia. }
    rewrite (M_bind_run _ _ _ _ _ E3). cbn [Nat.add] in H3.
    assert (log d3 = log d) as L3' by congruence.
    destruct (list_loop_run c fuel (Z.to_nat (zlen (log d) + c)) 0 ask d3) as (bs & d4 & E4 & L4 & H4).
    { by apply (leads_log d2). }
    { lia. }
    { rewrite L3', length_drop. lia. }
    rewrite (M_bind_run _ _ _ _ _ E4). rewrite L3' in H4 |- *. unfold limited in H4 |- *.
    rewrite (proj2 (Z.ltb_ge 0 c)) in H4 |- * by lia. exists bs, d4. unfold listed.
    rewrite (proj2 (Z.ltb_lt count 0)), Hdrop by lia. split; [done |]. split; [congruence | done].
  - destruct (list_loop_run count fuel 0 0 0 d1 Hlead ltac:(lia)) as (bs & d4 & E4 & L4 & H4).
    { rewrite L1. exact Hf. }
    rewrite (M_bind_run _ _ _ _ _ E4). rewrite drop_0, L1 in H4 |- *. exists bs, d4.
    assert (listed count (log d) = limited count 0 (log d)) as ->.
    { unfold listed, limited. rewrite (proj2 (Z.ltb_ge count 0)) by lia. rewrite Z.sub_0_r.
      destruct (Z.eqb_spec count 0) as [->|]; [done |]. rewrite (proj2 (Z.ltb_lt 0 count)) by lia. done. }
    split; [done |]. split; [congruence | done].
Qed.
End Listing.

Section Contracts.
Context {dev : Type} {bmc : Bmc dev} {dec : OemDecoders dev} {mal : Malloc} {prt : SelPrint dev}.
Context (log : dev -> list (Z * list Z)) {law : SelLog log}.
Context (intf : sel_intf).

Lemma entries_of_length l : length (entries_of l) = length l.
Proof. apply length_map. Qed.

Lemma savelist_empty fuel count file d : log d = [] ->
  exists d', savelist_entries intf fuel count file d = Ok (0, [], [], d') /\ log d' = log d.
Proof.
  intros E. unfold savelist_entries. destruct (info_run log d) as (rest & d1 & E1 & L1). exists d1. split; [| done].
  rewrite (M_bind_run _ _ _ _ _ E1), E. done.
Qed.

Lemma savelist_listed fuel count file d W :
  (forall e d, exists b d', file_entry intf file e d = Ok (b, d') /\ log d' = log d /\ W e b) ->
  (length (log d) < fuel)%nat ->
  exists bs d', savelist_entries intf fuel count file d = Ok (0, entries_of (listed count (log d)), concat bs, d') /\
    log d' = log d /\ Forall2 W (entries_of (listed count (log d))) bs.
Proof.
  intros HW Hf. destruct (decide (log d = [])) as [E|E]; [| by eapply savelist_run].
  destruct (savelist_empty fuel count file d E) as (d' & E' & L'). exists [], d'.
  assert (listed count (log d) = []) as ->.
  { rewrite E. unfold listed. repeat case_match; rewrite ?drop_nil, ?take_nil; done. }
  done.
Qed.

Lemma raw_run e (d : dev) : exists b d', file_entry intf RawFile e d = Ok (b, d') /\ log d' = log d /\ b = slice e 0 16.
Proof. by exists (slice e 0 16), d. Qed.

Lemma none_run e (d : dev) : exists b d', file_entry intf NoSelFile e d = Ok (b, d') /\ log d' = log d /\ b = [].
Proof. by exists [], d. Qed.

(** A stored entry has sixteen bytes. *)
Lemma entry_of_len raw : zlen raw = 16 -> zlen (entry_of raw) = 16.
Proof.
  intros H. unfold entry_of, stored_entry. pose proof (zlen_app [0; 0] raw) as E. rewrite H in E.
  change (zlen [0; 0] + 16) with 18 in E. repeat case_match; rewrite ?zlen_app, !zlen_slice, ?E by lia; done.
Qed.

Lemma entries_len d count : Forall (fun e => zlen e = 16) (entries_of (listed count (log d))).
Proof.
  assert (Forall (fun x : Z * list Z => zlen x.2 = 16) (listed count (log d))) as H.
  { assert (Forall (fun x : Z * list Z => zlen x.2 = 16) (log d)) as H.
    { eapply Forall_impl; [exact (sel_ids d) |]. intros [id raw] (_ & H & _). exact H. }
    unfold listed. repeat case_match; auto using Forall_drop, Forall_take. }
  unfold entries_of. rewrite Forall_map. eapply Forall_impl; [exact H |]. intros x Hx. by apply entry_of_len.
Qed.

Lemma readraw_run es : Forall (fun e => zlen e = 16) es -> forall n d, (length (concat es) < n)%nat ->
  exists d', readraw_loop n (concat es) d = Ok (0, es, d').
Proof.
  induction 1 as [|e es He _ IH]; intros n d Hn; (destruct n as [|n]; [lia |]); [by exists d |].
  cbn [readraw_loop concat] in *. rewrite length_app in Hn.
  assert (length e = 16%nat) as Hl by (unfold zlen in He; lia).
  rewrite zlen_app, He. pose proof (zlen_nonneg (concat es)). rewrite (proj2 (Z.leb_le 16 _)) by lia.
  rewrite slice_app_l, slice_all by lia. change 16%nat with (16 + 0)%nat. rewrite drop_app_length' by lia.
  unfold show. set (d1 := print_std_entry e d). rewrite (M_bind_run (modify _) _ d tt d1) by done.
  destruct (IH n d1 ltac:(lia)) as (d' & E). exists d'. by rewrite (M_bind_run _ _ _ _ _ E).
Qed.

(** C30. The listing shows the entries of the log exactly: every one of them in
    the order of the log, or the first or the last [count]; a [count] beyond the
    log shows all of it.  It succeeds, also on an empty log, and leaves the log
    as it is. *)
Theorem sel_list_exact fuel count d : (length (log d) < fuel)%nat ->
  exists d', ipmi_sel_list_entries intf fuel count d = Ok (0, entries_of (listed count (log d)), [], d') /\
    log d' = log d.
Proof using law.
  intros Hf. destruct (savelist_listed fuel count NoSelFile d (fun _ b => b = []) none_run Hf) as (bs & d' & E & L & H).
  exists d'. split; [| done]. unfold ipmi_sel_list_entries. rewrite E.
  replace (concat bs) with (@nil Z); [done |]. clear E. induction H as [|e b es bs -> _ IH]; [done | exact IH].
Qed.

(** What "writeraw" saves, "readraw" shows: the file has sixteen bytes for
    every record of the log, and reading it gives the entries that writing it
    showed. *)
Theorem sel_raw_roundtrip fuel d d2 : (length (log d) < fuel)%nat ->
  exists file d' d2', ipmi_sel_writeraw intf fuel d = Ok (0, entries_of (log d), file, d') /\ log d' = log d /\
    zlen file = 16 * zlen (log d) /\ ipmi_sel_readraw (Some file) d2 = Ok (0, entries_of (log d), d2').
Proof using law.
  intros Hf. destruct (savelist_listed fuel 0 RawFile d (fun e b => b = slice e 0 16) raw_run Hf) as (bs & d' & E & L & H).
  pose proof (entries_len d 0) as H16. change (listed 0 (log d)) with (log d) in *.
  assert (bs = entries_of (log d)) as ->.
  { clear E. induction H as [|e b es bs -> _ IH]; [done |]. inversion H16. rewrite slice_all by lia. f_equal. by apply IH. }
  destruct (readraw_run (entries_of (log d)) H16 (S (length (concat (entries_of (log d))))) d2 ltac:(lia)) as (d2' & E2).
  exists (concat (entries_of (log d))), d', d2'. split_and!; [exact E | done | | exact E2].
  unfold zlen at 2. rewrite <- (entries_of_length (log d)). clear -H16.
  induction H16 as [|e es He _ IH]; [done |]. cbn [concat length]. rewrite zlen_app, He, IH. lia.
Qed.
End Contracts.

(** ** The interpreter of shelf logs *)

(** "sel interpret" reads any file to its end or to the first line that it
    cannot read, and always fails: a file that is read completely leaves the
    loop by the end of the file, which is a failure too. *)
Theorem sel_interpret_fails {dev} {mal : Malloc} {prt : SelPrint dev} format file (d : dev) :
  exists shown d', ipmi_sel_interpret format file d = Ok (-1, shown, d').
Proof.
  unfold ipmi_sel_interpret. case_bool_decide; [| by exists [], d].
  destruct file as [file|]; [| by exists [], d]. destruct (malloc 256); [| by exists [], d].
  assert (length file < S (length file))%nat as Hn by lia. revert Hn. generalize (S (length file)) as n. clear.
  intros n. revert file d. induction n as [|n IH]; intros file d Hn; [lia |].
  destruct file as [|c file]; [by exists [], d |]. cbn [interpret_loop length] in *.
  pose proof (fgets_shorter 256 c file ltac:(lia)) as Hf. destruct (fgets 256 (c :: file)) as [buf rest]. cbn [snd] in Hf.
  case_match; [by exists [], d |]. destruct (pps_line (c_string buf)) as [evt|]; [| by exists [], d].
  unfold show. set (d1 := print_std_entry evt d). rewrite (M_bind_run (modify _) _ d tt d1) by done.
  destruct (IH rest d1 ltac:(lia)) as (shown & d' & E). rewrite (M_bind_run _ _ _ _ _ E). by eexists _, _.
Qed.
