(* ===== verification/SelFiles.v ===== *)
(** * Saved event logs (lib/ipmi_sel.c)

    The text that "sel save" writes is read back by "sel add". *)

From stdpp Require Import strings.
From S2P Require Import Prelude Wire Ipmi Intf Session Helper CText Bmc Channel Sdr SelTables Sel SelProps.

#[local] Open Scope Z_scope.

(** ** The line of an event *)

Definition field (x : Z) : list Z := text "0x" ++ hex2 x.

Definition field_ok (x : Z) : bool :=
  bool_decide (str2uchar (Some (field x)) = (0, Some x)) &&
  forallb (fun c => negb (isspace c) && negb (c =? 35) && negb (c =? 0) && negb (c =? 10)) (field x).

Lemma field_ok_all x : is_u8 x -> field_ok x = true.
Proof. apply all_u8_spec. vm_compute. reflexivity. Qed.

Lemma field_parses x : is_u8 x -> str2uchar (Some (field x)) = (0, Some x).
Proof. intros H. pose proof (field_ok_all x H) as E. unfold field_ok in E. bool_hyps. by eapply bool_decide_eq_true_1. Qed.

Lemma field_chars x : is_u8 x -> Forall (fun c => isspace c = false /\ c <> 35 /\ c <> 0 /\ c <> 10) (field x).
Proof.
  intros H. pose proof (field_ok_all x H) as E. unfold field_ok in E. apply andb_prop in E as [_ E].
  rewrite forallb_forall in E. apply List.Forall_forall. intros c Hc. specialize (E c Hc). bool_hyps. split_and!; (done || lia).
Qed.

Lemma event_bytes_fields l : bytes l -> event_bytes (length l) (map field l) = Some l.
Proof.
  induction 1 as [|x l Hx _ IH]; [done |]. cbn [length map event_bytes]. rewrite (field_parses x Hx), IH. done.
Qed.

(** The text is that of a line: no newline and no NUL. *)
Definition line_char (c : Z) : Prop := c <> 0 /\ c <> 10.
Definition line_text (n : Z) (t : list Z) : Prop := Forall line_char t /\ zlen t <= n.

(** What follows the '#'. *)
Definition comment (e : sel_event_record) (type : string) (desc : option (list Z)) : list Z :=
  text " " ++ text type ++ text " #0x" ++ hex2 (se_sensor_num e) ++ text " " ++ default (text "Unknown") desc.

Lemma dir_type_byte x : is_u8 x -> ((x .& 0x7f) .| ((x .>> 7) .<< 7)) = x.
Proof.
  intros H. apply Z.eqb_eq.
  exact (all_u8_spec (fun x => ((x .& 0x7f) .| ((x .>> 7) .<< 7)) =? x) x eq_refl H).
Qed.

Lemma slice7 (e : list Z) : zlen e = 16 -> slice e 9 7 = [rd e 9; rd e 10; rd e 11; rd e 12; rd e 13; rd e 14; rd e 15].
Proof. intros H. unfold zlen in H. do 16 (destruct e as [|? e]; [cbn in H; lia |]). destruct e; [done | cbn in H; lia]. Qed.

Lemma event_line_words e type desc : bytes e -> zlen e = 16 ->
  event_line e type desc = words (map field (slice e 9 7)) ++ 35 :: (comment e type desc ++ [10]).
Proof.
  intros Hb Hz. rewrite (slice7 e Hz). unfold event_line, se_event_type, se_event_dir.
  rewrite (dir_type_byte (rd e 12)) by (by apply rd_bytes). unfold comment. rewrite <- !app_assoc. reflexivity.
Qed.

Lemma words_chars (l : list Z) : bytes l -> Forall (fun c => c <> 35 /\ line_char c) (words (map field l)).
Proof.
  induction 1 as [|x l Hx _ IH]; [constructor |]. cbn [map words flat_map]. rewrite !Forall_app. split_and!; [| by repeat constructor | exact IH].
  eapply Forall_impl; [by apply field_chars |]. unfold line_char. tauto.
Qed.

Lemma words_len l : zlen (words (map field l)) = 5 * zlen l.
Proof.
  induction l as [|x l IH]; [done |]. cbn [map]. change (words (field x :: map field l)) with ((field x ++ [32]) ++ words (map field l)).
  rewrite !zlen_app, IH, (zlen_cons x l). change (zlen (field x)) with 4. change (zlen [32]) with 1. lia.
Qed.

Lemma words_snoc_fields l x : bytes l -> is_u8 x -> trim (words (map field (l ++ [x]))) = words (map field l) ++ field x /\
  strtok (words (map field l) ++ field x) [] = map field (l ++ [x]).
Proof.
  assert (forall x, is_u8 x -> word (field x)) as Hw.
  { intros y Hy. split; [done |]. eapply Forall_impl; [by apply field_chars |]. by intros c (? & _). }
  intros Hl Hx. rewrite map_app. cbn [map]. assert (Forall word (map field l)) as Hws.
  { apply List.Forall_map. eapply Forall_impl; [exact Hl |]. exact Hw. }
  split; [apply trim_words | apply strtok_words]; auto.
Qed.

(** An event is read from the seven bytes of an entry. *)
Definition restored (e : sel_event_record) : sel_event_record := [0; 0; 0x02; 0; 0; 0; 0; 0x41; 0] ++ slice e 9 7.

Lemma dir_type_bits x : is_u8 x -> ((x .& 0x7f) .| (((x .& 0x80) .>> 7) .<< 7)) = x.
Proof.
  intros H. apply Z.eqb_eq.
  exact (all_u8_spec (fun x => ((x .& 0x7f) .| (((x .& 0x80) .>> 7) .<< 7)) =? x) x eq_refl H).
Qed.

Lemma event_of_restored e : bytes e -> zlen e = 16 -> event_of (slice e 9 7) = restored e.
Proof.
  intros Hb Hz. unfold restored. rewrite (slice7 e Hz). unfold event_of. cbn [take drop].
  change (rd [_; _; _; rd e 12; _; _; _] 3) with (rd e 12). by rewrite dir_type_bits by (by apply rd_bytes).
Qed.

Section Restore.
Context {dev : Type} {bmc : Bmc dev} {dec : OemDecoders dev} {mal : Malloc} {prt : SelPrint dev}.

(** A line of the file becomes one request. *)
Lemma add_line_run n e type desc rest rc (d : dev) : bytes e -> zlen e = 16 -> line_text 900 (comment e type desc) ->
  add_lines (S n) (event_line e type desc ++ rest) rc d =
  (rc ← ipmi_sel_add_entry (restored e); if rc <? 0 then mret rc else add_lines n rest rc) d.
Proof.
  intros Hb Hz [Hc Hl]. rewrite (event_line_words e type desc Hb Hz). set (w := words (map field (slice e 9 7))).
  assert (bytes (slice e 9 7)) as Hb7 by (by apply slice_bytes).
  pose proof (words_chars _ Hb7) as Hw. fold w in Hw.
  assert (zlen w = 35) as Hwl by (unfold w; rewrite words_len, (slice7 e Hz); done).
  replace ((w ++ 35 :: comment e type desc ++ [10]) ++ rest) with ((w ++ 35 :: comment e type desc) ++ 10 :: rest)
    by (cbn [app]; rewrite <- !app_assoc; cbn [app]; by rewrite <- !app_assoc).
  assert (Forall line_char (w ++ 35 :: comment e type desc)) as Hall.
  { apply Forall_app. split; [eapply Forall_impl; [exact Hw |]; by intros c [_ ?] |]. by constructor. }
  assert (exists c l, (w ++ 35 :: comment e type desc) ++ 10 :: rest = c :: l) as (c & l & Ecl) by (destruct w; by eexists _, _).
  cbn [add_lines]. rewrite Ecl. cbv match. rewrite <- Ecl. change 1024%nat with (S 1023).
  rewrite fgets_line.
  2: { eapply Forall_impl; [exact Hall |]. by intros x []. }
  2: { unfold zlen in *. rewrite length_app. cbn [length]. lia. }
  rewrite c_string_id by (apply Forall_app; split; [eapply Forall_impl; [exact Hall |]; by intros x [] | by repeat constructor]).
  rewrite <- app_assoc. cbn [app]. rewrite until_app by (eapply Forall_impl; [exact Hw |]; by intros ? [? _]).
  assert (trim w = words (map field (slice e 9 6)) ++ field (rd e 15) /\
    strtok (words (map field (slice e 9 6)) ++ field (rd e 15)) [] = map field (slice e 9 7)) as [-> E].
  { unfold w. replace (slice e 9 7) with (slice e 9 6 ++ [rd e 15]); [apply words_snoc_fields; [by apply slice_bytes | by apply rd_bytes] |].
    rewrite (slice7 e Hz). unfold zlen in Hz. do 16 (destruct e as [|? e]; [cbn in Hz; lia |]). done. }
  rewrite bool_decide_eq_false_2 by (by intros [_ [=]]%app_eq_nil). rewrite E.
  assert (length (slice e 9 7) = 7%nat) as H7 by (rewrite (slice7 e Hz); done).
  rewrite <- H7, event_bytes_fields by done. cbv match. by rewrite event_of_restored.
Qed.
End Restore.

(** ** The texts of the descriptions *)

Definition line_text_b (n : Z) (t : list Z) : bool :=
  forallb (fun c => negb (c =? 0) && negb (c =? 10)) t && (zlen t <=? n).

Lemma line_text_b_ok n t : line_text_b n t = true -> line_text n t.
Proof.
  unfold line_text_b, line_text, line_char. intros H. bool_hyps. split; [| done].
  apply List.Forall_forall. rewrite forallb_forall in *. intros c Hc. specialize (H c Hc). bool_hyps. lia.
Qed.

Lemma line_text_app n m a b : line_text n a -> line_text m b -> line_text (n + m) (a ++ b).
Proof. intros [Ha Ea] [Hb Eb]. split; [by apply Forall_app | rewrite zlen_app; lia]. Qed.

Lemma line_text_le n m t : n <= m -> line_text n t -> line_text m t.
Proof. intros H [? ?]. split; [done | lia]. Qed.

Definition desc_text (e : evt_type) : Prop := line_text 128 (text (ev_desc e)).

Lemma tables_text table : In table [generic_event_types; sensor_specific_event_types; vita_sensor_event_types; oem_kontron_event_types] ->
  Forall desc_text table.
Proof.
  assert (Forall (fun table => forallb (fun e => line_text_b 128 (text (ev_desc e))) table = true)
    [generic_event_types; sensor_specific_event_types; vita_sensor_event_types; oem_kontron_event_types]) as H.
  { repeat constructor; vm_compute; reflexivity. }
  intros Ht. rewrite List.Forall_forall in H. specialize (H table Ht). rewrite forallb_forall in H.
  apply List.Forall_forall. intros e He. by apply line_text_b_ok, H.
Qed.

Lemma find_code_text code l l' : Forall desc_text l -> find_code code l = Some l' -> Forall desc_text l'.
Proof.
  induction 1 as [|e l He Hl IH]; [done |]. cbn [find_code]. case_test; [intros [= <-]; by constructor | exact IH].
Qed.

Lemma desc_loop_text n data0 data1 : forall evt e, (forall l, evt = Some l -> Forall desc_text l) ->
  desc_loop n evt data0 data1 = Some e -> desc_text e.
Proof.
  induction n as [|n IH]; intros evt e H; [done |]. destruct evt as [[|x l]|]; [done | | done]. cbn [desc_loop].
  specialize (H _ eq_refl). inversion H as [|? ? Hx Hl]; subst. case_test; [by intros [= <-] |].
  apply IH. intros l' E. by eapply find_code_text.
Qed.

Lemma type_names_text :
  Forall (fun s => line_text 64 (text s)) ipmi_generic_sensor_type_vals /\
  Forall (fun x => line_text 64 (text x.2)) ipmi_oem_sensor_type_vals.
Proof.
  split; apply List.Forall_forall; intros s Hs; apply line_text_b_ok; revert s Hs;
    apply (proj1 (forallb_forall _ _)); vm_compute; reflexivity.
Qed.

(** ** What the controllers promise

    The one that is saved answers Get Device ID, and the decoders of its vendor
    give the text of a line; asking leaves the log, or what else [log] observes
    of the controller, as it is. *)
Class SelNames {dev T} {bmc : Bmc dev} {dec : OemDecoders dev} (log : dev -> T) := {
  sel_device : forall d, exists r d' ids, bmc_answer (mk_rq IPMI_NETFN_APP 0 1 0 []) d = (Some r, d') /\
    ccode r = 0 /\ carries r ids /\ 9 <= zlen ids /\ log d' = log d;
  sel_decode : forall iana e d, exists t d', oem_decode iana e d = Ok (t, d') /\ log d' = log d /\
    forall t', t = Some t' -> line_text 600 t';
}.

(** The one that is restored appends what it is given. *)
Class SelAdder {dev} {bmc : Bmc dev} {prt : SelPrint dev} (added : dev -> list (list Z)) := {
  sel_accepts : forall d rec, zlen rec = 16 -> exists r d',
    bmc_answer (storage_rq IPMI_CMD_ADD_SEL_ENTRY rec) d = (Some r, d') /\ ccode r = 0 /\ added d' = added d ++ [rec];
  sel_shown : forall d e, added (print_std_entry e d) = added d;
}.

(** ** The line of an entry

    [quiet m Q]: [m] succeeds with a result in [Q] and leaves the log as it is. *)
Section Quiet.
Context {dev T : Type} (log : dev -> T).

Definition quiet {A} (m : M dev A) (Q : A -> Prop) : Prop :=
  forall d, exists a d', m d = Ok (a, d') /\ log d' = log d /\ Q a.

Lemma quiet_ret {A} (a : A) (Q : A -> Prop) : Q a -> quiet (mret a) Q.
Proof. intros H d. by exists a, d. Qed.

Lemma quiet_bind {A B} (m : M dev A) (f : A -> M dev B) P Q :
  quiet m P -> (forall a, P a -> quiet (f a) Q) -> quiet (m ≫= f) Q.
Proof.
  intros Hm Hf d. destruct (Hm d) as (a & d1 & E & L & H). destruct (Hf a H d1) as (b & d2 & E2 & L2 & H2).
  exists b, d2. split; [by rewrite (M_bind_run _ _ _ _ _ E) |]. split; [congruence | done].
Qed.

Lemma quiet_weaken {A} (m : M dev A) (P Q : A -> Prop) : quiet m P -> (forall a, P a -> Q a) -> quiet m Q.
Proof. intros H HQ d. destruct (H d) as (a & d' & E & L & Ha). exists a, d'. auto. Qed.
End Quiet.

(** Membership of a list of names. *)
Ltac in_list := first [apply in_eq | apply in_cons; in_list].

Section Names.
Context {dev T : Type} {bmc : Bmc dev} {dec : OemDecoders dev} {mal : Malloc}.
Context (log : dev -> T) {names : SelNames log} (intf : sel_intf).

Definition opt_text (n : Z) (t : option (list Z)) : Prop := forall t', t = Some t' -> line_text n t'.

Lemma opt_text_none n : opt_text n None.
Proof. done. Qed.

Lemma opt_text_some n t : line_text n t -> opt_text n (Some t).
Proof. by intros H t' [= <-]. Qed.
#[local] Hint Resolve opt_text_none opt_text_some quiet_ret : core.

Lemma oem_quiet : quiet log (sel_get_oem intf) (fun _ => True).
Proof.
  intros d. unfold sel_get_oem, ipmi_get_oem. repeat (case_match; [by eexists _, _ |]).
  destruct (sel_device d) as (r & d' & ids & E & Hc & Hr & H9 & L). rewrite (sendrecv_bind _ _ _ _ _ E), Hc.
  change (negb (0 =? 0)) with false. cbv match. rewrite (carries_bytes r ids Hr 6 3), lift_Ok_bind by lia.
  by eexists _, d'.
Qed.

Lemma oem_desc_quiet e : quiet log (ipmi_get_oem_desc intf e) (opt_text 600).
Proof.
  eapply quiet_bind; [exact oem_quiet |]. intros iana _. case_match.
  - apply quiet_ret. unfold get_kontron_evt_desc. case_match; [| done].
    destruct (find_code (se_event_type e) oem_kontron_event_types) as [[|st l]|] eqn:Ef; [done | | done].
    apply opt_text_some. apply find_code_text in Ef; [| apply tables_text; in_list].
    inversion Ef. eapply line_text_le; [| eassumption]. lia.
  - case_match; [| auto]. intros d. destruct (sel_decode iana e d) as (t & d' & ? & ? & ?). by exists t, d'.
Qed.

Lemma first_quiet st et : quiet log (ipmi_get_first_event_sensor_type intf st et)
  (fun o => forall l, o = Some l -> Forall desc_text l).
Proof.
  assert (forall table code l, In table [generic_event_types; sensor_specific_event_types; vita_sensor_event_types; oem_kontron_event_types] ->
    find_code code table = Some l -> Forall desc_text l) as Ht.
  { intros table code l Ht. apply find_code_text, tables_text, Ht. }
  unfold ipmi_get_first_event_sensor_type. case_match.
  2: { apply quiet_ret. intros l. apply Ht. in_list. }
  apply (quiet_bind _ _ _ (fun _ => True)).
  - case_match; [| auto]. eapply quiet_bind; [exact oem_quiet | auto].
  - intros kontron _. apply quiet_ret. intros l. repeat case_match; try (intros [= <-]); eapply Ht; try eassumption; in_list.
Qed.

Lemma suffix_quiet e : quiet log (oem_suffix intf e) (opt_text 600).
Proof.
  eapply quiet_bind; [exact oem_quiet |]. intros iana _. apply (quiet_bind _ _ _ (opt_text 600)).
  { case_match; [apply oem_desc_quiet | auto]. }
  intros sfx Hs. eapply quiet_bind; [exact oem_quiet |]. intros iana' _.
  repeat case_match; auto using oem_desc_quiet.
Qed.

Lemma new_desc_text size n t : line_text n t -> opt_text n (new_desc size t).
Proof. intros H. unfold new_desc. case_match; auto. Qed.

Lemma desc_quiet e : quiet log (ipmi_get_event_desc intf e) (opt_text 800).
Proof.
  assert (forall n t, n <= 800 -> opt_text n t -> opt_text 800 t) as Hle.
  { intros n t H Ht t' E. eapply line_text_le; [exact H | by apply Ht]. }
  assert (forall t, line_text 600 t -> line_text 602 (text "(" ++ t ++ text ")")) as Hpar.
  { intros t H. change 602 with (1 + (600 + 1)). repeat apply line_text_app; [by apply line_text_b_ok | done | by apply line_text_b_ok]. }
  unfold ipmi_get_event_desc. case_match; [eapply quiet_weaken; [apply oem_desc_quiet | intros; by eapply (Hle 600)] |].
  apply (quiet_bind _ _ _ (opt_text 600)); [case_match; auto using suffix_quiet |]. intros sfx Hs.
  eapply quiet_bind; [apply first_quiet |]. intros first Hf.
  destruct (desc_loop (S (length (default [] first))) first (se_event_data e 0) (se_event_data e 1)) as [evt|] eqn:El.
  - assert (line_text 128 (text (ev_desc evt))) as He by (exact (desc_loop_text _ _ _ _ _ Hf El)).
    destruct sfx as [sfx|]; apply quiet_ret.
    + apply (Hle (128 + (2 + (600 + 1)))); [lia |]. apply new_desc_text.
      repeat apply line_text_app; [done | by apply line_text_b_ok | by apply Hs | by apply line_text_b_ok].
    + apply (Hle 128); [lia |]. by apply new_desc_text.
  - destruct sfx as [sfx|]; [| auto]. specialize (Hs sfx eq_refl). apply quiet_ret.
    set (flag := if se_event_type e =? 0x6f then _ else 0). clearbody flag. destruct (flag =? 0); [done |].
    apply (Hle 602); [lia |]. apply new_desc_text.
    destruct (flag =? 2); [apply (line_text_le 600); [lia | done] | by apply Hpar].
Qed.

Lemma oem_type_text vals iana code : Forall (fun x => line_text 64 (text x.2)) vals -> forall found,
  (forall s, found = Some s -> line_text 64 (text s)) ->
  forall s, oem_sensor_type intf vals iana code found = Some s -> line_text 64 (text s).
Proof.
  induction 1 as [|[[oem val] str] vals Hx _ IH]; intros found Hf s; [apply Hf |]. cbn [oem_sensor_type].
  case_match; [by intros [= <-] |]. apply IH. case_match; [by intros s' [= <-] | exact Hf].
Qed.

Lemma type_quiet code : quiet log (ipmi_get_sensor_type intf code) (fun s => line_text 64 (text s)).
Proof.
  apply (quiet_bind _ _ _ (fun o => forall s, o = Some s -> line_text 64 (text s))).
  - case_match.
    + eapply quiet_bind; [exact oem_quiet |]. intros iana _. apply quiet_ret. apply oem_type_text; [apply type_names_text | done].
    + apply quiet_ret. unfold ipmi_get_generic_sensor_type. case_match; [| done]. intros s Hs.
      exact (Forall_lookup_1 _ _ _ _ (proj1 type_names_text) Hs).
  - intros o Ho. apply quiet_ret. destruct o; [by apply Ho | by apply line_text_b_ok].
Qed.

Definition line_of (e : sel_event_record) (b : list Z) : Prop :=
  exists type desc, b = event_line e type desc /\ (bytes e -> line_text 900 (comment e type desc)).

Lemma file_quiet e : quiet log (file_entry intf TextFile e) (line_of e).
Proof.
  eapply quiet_bind; [apply desc_quiet |]. intros desc Hd. eapply quiet_bind; [apply type_quiet |]. intros type Ht.
  apply quiet_ret. exists type, desc. split; [done |]. intros Hb. unfold comment.
  apply (line_text_le (1 + (64 + (5 + (2 + (1 + 800)))))); [lia |].
  repeat apply line_text_app; try (by apply line_text_b_ok); [exact Ht | |].
  - assert (is_u8 (se_sensor_num e)) as Hn by (by apply rd_bytes).
    split; [| done]. pose proof (field_chars _ Hn) as H. unfold field in H. apply Forall_app in H as [_ H].
    eapply Forall_impl; [exact H |]. by intros c (_ & _ & ? & ?).
  - destruct desc; [by apply Hd |]. by apply line_text_b_ok.
Qed.
End Names.

Section Roundtrip.
Context {dev : Type} {bmc : Bmc dev} {dec : OemDecoders dev} {mal : Malloc} {prt : SelPrint dev}.
Context (log : dev -> list (Z * list Z)) {law : SelLog log} {names : SelNames log}.
Context (added : dev -> list (list Z)) {adder : SelAdder added}.
Context (intf : sel_intf).

Lemma add_entry_run e (d : dev) : zlen e = 16 ->
  exists d', ipmi_sel_add_entry e d = Ok (0, d') /\ added d' = added d ++ [e].
Proof using adder.
  intros Hz. unfold ipmi_sel_add_entry, show. set (d1 := print_std_entry e d).
  assert (added d1 = added d) as L1 by apply sel_shown. rewrite (M_bind_run (modify _) _ d tt d1) by done.
  destruct (sel_accepts d1 e Hz) as (r & d' & E & Hc & L). exists d'.
  rewrite (M_bind_run _ _ _ _ _ (sel_cmd_run _ _ _ _ _ E Hc)). split; [done |]. by rewrite L, L1.
Qed.

Lemma restored_len e : zlen e = 16 -> zlen (restored e) = 16.
Proof. intros H. unfold restored. rewrite (slice7 e H). done. Qed.

Lemma event_line_nonempty e type desc : exists c l, event_line e type desc = c :: l.
Proof. by eexists _, _. Qed.

Lemma add_lines_run es bs : Forall2 line_of es bs -> Forall (fun e => zlen e = 16 /\ bytes e) es -> forall n (d : dev),
  (length (concat bs) < n)%nat ->
  exists d', add_lines n (concat bs) 0 d = Ok (0, d') /\ added d' = added d ++ map restored es.
Proof using adder.
  induction 1 as [|e b es bs (type & desc & -> & Hc) _ IH]; intros Hes n d Hn; (destruct n as [|n]; [lia |]).
  { exists d. by rewrite app_nil_r. }
  inversion Hes as [|? ? [Hz Hb] Hes']; subst. cbn [concat] in *.
  rewrite add_line_run by auto. destruct (add_entry_run (restored e) d (restored_len e Hz)) as (d1 & E1 & L1).
  rewrite (M_bind_run _ _ _ _ _ E1). change (0 <? 0) with false. cbv match.
  destruct (event_line_nonempty e type desc) as (c & l & El). rewrite El in Hn. cbn [app length] in Hn. rewrite length_app in Hn.
  destruct (IH Hes' n d1 ltac:(lia)) as (d2 & E2 & L2). exists d2. split; [exact E2 |].
  rewrite L2, L1, <- app_assoc. done.
Qed.

Lemma entry_of_bytes raw : bytes raw -> bytes (entry_of raw).
Proof.
  intros H. assert (bytes ([0; 0] ++ raw)) as Hb by (apply Forall_app; split; [by repeat constructor | done]).
  unfold entry_of, stored_entry. repeat case_match; repeat (apply Forall_app; split); try (by apply slice_bytes).
  repeat constructor; by apply rd_bytes.
Qed.

(** C31. "sel save" and "sel add": the file that is saved from one controller
    makes another append one event for every entry of the log, in order: a
    software-generated record of type 2 that holds the revision, sensor, event
    type and data bytes of the entry.  The descriptions, whose text comes from
    the tables and from the decoders of vendors, are ignored. *)
Theorem sel_save_add_roundtrip fuel d d2 : (length (log d) < fuel)%nat ->
  exists file d' d2', ipmi_sel_save_entries intf fuel 0 d = Ok (0, entries_of (log d), file, d') /\ log d' = log d /\
    ipmi_sel_add_entries_fromfile (Some file) d2 = Ok (0, d2') /\
    added d2' = added d2 ++ map restored (entries_of (log d)).
Proof using law names adder.
  intros Hf. destruct (savelist_listed log intf fuel 0 TextFile d line_of) as (bs & d' & E & L & H); [| exact Hf |].
  { intros e s. exact (file_quiet log intf e s). }
  change (listed 0 (log d)) with (log d) in *.
  destruct (add_lines_run _ _ H) with (n := S (length (concat bs))) (d := d2) as (d2' & E2 & L2); [| lia |].
  - unfold entries_of. apply List.Forall_map. eapply Forall_impl; [exact (sel_ids d) |]. intros [id raw] (_ & Hz & Hb).
    split; [by apply entry_of_len | by apply entry_of_bytes].
  - by exists (concat bs), d', d2'.
Qed.
End Roundtrip.

(** ** A controller for the examples

    Its log is fixed; it keeps what is added apart.  The next identifier is that
    of the next record, 0xffff after the last one. *)

Definition toy_records : list (Z * list Z) :=
  [(1, [1; 0; 0x02; 1; 2; 3; 4; 0x20; 0; 4; 1; 0x30; 1; 0x57; 10; 20]);
   (4, [4; 0; 0x02; 1; 2; 3; 9; 0x20; 0; 4; 0x6; 0x30; 0xef; 0x01; 0xff; 0xff]);
   (9, [9; 0; 0xc1; 1; 2; 3; 9; 0x57; 1; 0; 0x6; 0x30; 0xef; 0x01; 0xff; 0xff])].

Fixpoint toy_entry (l : list (Z * list Z)) (ask : Z) : option (list Z) :=
  match l with
  | [] => None
  | (id, raw) :: l' =>
      if (ask =? id) || (ask =? 0)
      then Some (htoipmi16 (match l' with (id', _) :: _ => id' | [] => 0xffff end) ++ raw)
      else toy_entry l' ask
  end.

#[local] Instance toy_sel : Bmc (list (list Z)) := fun req d =>
  let cmd := rq_cmd req in
  if cmd =? IPMI_CMD_GET_SEL_INFO then (Some (reply 0 ([0x51] ++ htoipmi16 (zlen toy_records) ++ zeros 11)), d)
  else if cmd =? IPMI_CMD_GET_SEL_ENTRY then
    match toy_entry toy_records (ipmi16toh (slice (rq_data req) 2 2)) with
    | Some data => (Some (reply 0 data), d)
    | None => (Some (reply 0xcb []), d)
    end
  else if cmd =? IPMI_CMD_ADD_SEL_ENTRY then (Some (reply 0 [0; 0]), d ++ [rq_data req])
  else (Some (reply 0 (zeros 6 ++ [0xa2; 2; 0] ++ zeros 6)), d).

#[local] Instance toy_decoders : OemDecoders (list (list Z)) := fun _ _ => mret (Some (text "vendor")).
#[local] Instance toy_print : SelPrint (list (list Z)) := fun _ d => d.

#[local] Instance toy_sel_log : SelLog (fun _ : list (list Z) => toy_records).
Proof.
  constructor.
  - intros _. repeat constructor; vm_compute; (reflexivity || discriminate).
  - intros _. vm_compute. reflexivity.
  - intros d. do 3 eexists. split; [reflexivity |]. split; [reflexivity |].
    split; [apply carries_reply |]. done.
  - intros d [|[|[|i]]] id raw ask; [| | | done]; intros [= <- <-] Ha;
      destruct Ha as [->|[-> ?]]; try discriminate;
      do 2 eexists; (split; [reflexivity |]); (split; [reflexivity |]);
      (split; [apply carries_reply | done]).
  - done.
Defined.

#[local] Instance toy_names : SelNames (fun _ : list (list Z) => toy_records).
Proof.
  constructor.
  - intros d. do 3 eexists. split; [reflexivity |]. split; [reflexivity |].
    split; [apply carries_reply |]. by vm_compute.
  - intros iana e d. do 2 eexists. split; [reflexivity |]. split; [done |]. intros t [= <-]. by apply line_text_b_ok.
Defined.

#[local] Instance toy_adder : SelAdder (fun added : list (list Z) => added).
Proof. constructor; [| done]. intros d rec _. by do 2 eexists. Defined.

Definition toy_sel_intf : sel_intf := mk_sintf 3 false 0 false false IPMI_OEM_UNKNOWN.

Lemma sel_list_exact_witness :
  exists d', ipmi_sel_list_entries toy_sel_intf 4 (-2) [] =
    Ok (0, entries_of (drop 1 toy_records), [], d') /\ toy_records = toy_records.
Proof.
  exact (sel_list_exact (fun _ : list (list Z) => toy_records) toy_sel_intf 4 (-2) [] ltac:(vm_compute; lia)).
Defined.

Lemma sel_raw_roundtrip_witness :
  exists file d' d2', ipmi_sel_writeraw toy_sel_intf 4 [] = Ok (0, entries_of toy_records, file, d') /\
    toy_records = toy_records /\ zlen file = 16 * zlen toy_records /\
    ipmi_sel_readraw (Some file) [] = Ok (0, entries_of toy_records, d2').
Proof.
  exact (sel_raw_roundtrip (fun _ : list (list Z) => toy_records) toy_sel_intf 4 [] [] ltac:(vm_compute; lia)).
Defined.

Lemma sel_save_add_roundtrip_witness :
  exists file d' d2', ipmi_sel_save_entries toy_sel_intf 4 0 [] = Ok (0, entries_of toy_records, file, d') /\
    toy_records = toy_records /\ ipmi_sel_add_entries_fromfile (Some file) [] = Ok (0, d2') /\
    d2' = [] ++ map restored (entries_of toy_records).
Proof.
  exact (sel_save_add_roundtrip (fun _ : list (list Z) => toy_records) (fun added : list (list Z) => added)
    toy_sel_intf 4 [] [] ltac:(vm_compute; lia)).
Defined.
