(* ===== verification/Evd.v ===== *)
(** * The event daemon (src/ipmievd.c)

    The daemon polls the system event log, or waits for events of the kernel's
    driver, and logs every new event with the sensor that reported it.  Its
    messages are values of the state: those about events and about the state of
    the log; messages about failing commands and for debugging are left out. *)

From stdpp Require Import strings.
From Stdlib Require Import SpecFloat.
From S2P Require Import Prelude Wire Ipmi Intf Session Helper CText Bmc Channel Sdr SdrCache SelTables Sel.

#[local] Open Scope Z_scope.

Definition WARNING_THRESHOLD : Z := 80.
Definition PIDFILE_SIZE : Z := 64.
Definition LOG_ALERT : Z := 1.
Definition LOG_WARNING : Z := 4.
Definition LOG_NOTICE : Z := 5.

(** ** The fill level of the log *)

(** [(double)x] of an unsigned integer, and [(int)x]; out of range, and for an
    infinity or a NaN, the conversion is undefined. *)
Definition double_of (x : Z) : spec_float := binary_normalize 53 1024 x 0 false.

Definition int_of (x : spec_float) : res Z :=
  match x with
  | S754_zero _ => Ok 0
  | S754_finite s m e =>
      let v := if 0 <=? e then Zpos m .<< e else Zpos m .>> (- e) in
      let v := if s then - v else v in
      if (- 2147483648 <=? v) && (v <=? 2147483647) then Ok v else Bad Undefined
  | _ => Bad Undefined
  end.

(** [compute_pctfull]: both parameters are [uint16_t]. *)
Definition compute_pctfull (entries freespace : Z) : res Z :=
  if entries =? 0 then Ok 0 else
  let entries := u16 (entries * 16) in
  let freespace := u16 (freespace + entries) in
  int_of (SFmul 53 1024 (double_of 100) (SFdiv 53 1024 (double_of entries) (double_of freespace))).

(** ** Messages and state *)

(** What is printed for an event: a line of text, or the line of a threshold
    event, with the two raw readings that are converted and printed in it. *)
Inductive evd_line :=
| TextLine (level : Z) (t : list Z)
| ThresholdLine (level : Z) (head : list Z) (trigger : option Z) (above : bool) (threshold : option Z) (sensor : list Z).

(** A message of the daemon: one about the log, or an event with its line, if
    there is one for it. *)
Inductive evd_note :=
| Note (level : Z) (t : list Z)
| Event (e : sel_event_record) (line : option evd_line).

Record evd {dev : Type} := mk_evd {
  selwatch_count : Z;
  selwatch_lastid : Z;
  selwatch_pctused : Z;
  selwatch_overflow : Z;
  evd_cache : sdr_cache;
  evd_dev : dev;
  evd_notes : list evd_note;
}.
Arguments evd dev : clear implicits.
Arguments mk_evd {dev}.

#[export] Instance evd_rebuild {dev} : Rebuild (evd dev) := fun r =>
  mk_evd (selwatch_count r) (selwatch_lastid r) (selwatch_pctused r) (selwatch_overflow r)
    (evd_cache r) (evd_dev r) (evd_notes r).

(** [struct sel_data] *)
Record sel_data := mk_sel_data { sd_entries : Z; sd_pctused : Z; sd_overflow : Z }.

(** The operation [eintf->log]: what it prints, with the cache of sensors. *)
Class EventLog (dev : Type) := eintf_log : sel_event_record -> sdr_cache -> M dev (option evd_line * sdr_cache).

(** ** The line of an event *)

Section LogEvent.
Context {dev : Type} `{bmc : Bmc dev} `{dec : OemDecoders dev} `{mal : Malloc}.
Context (rebuild_sdrr : sdr_statics -> M dev (Z * sdr_statics)) (fuel : nat).
Context (addr : intf_addr) (intf : sel_intf) (prefix : list Z).

(** [%s] of a string in the body of a record. *)
Definition rec_string (e : sdr_entry) (off : Z) : res (list Z) :=
  match e_rec e with
  | Some rec =>
      let s := drop (Z.to_nat off) rec in
      if existsb (Z.eqb 0) s then Ok (c_string s) else Bad OutOfBounds
  | None => Bad OutOfBounds
  end.

Definition direction (e : sel_event_record) : list Z :=
  text (if negb (se_event_dir e =? 0) then "Deasserted" else "Asserted").

(** The line with the sensor's record. *)
Definition sensor_line (e : sel_event_record) (type : list Z) (desc : option (list Z)) (sdr : sdr_entry)
    : res (option evd_line) :=
  let desc := default [] desc in
  let data0 := se_event_data e 0 in
  let et := se_event_type e in
  if e_type sdr =? SDR_RECORD_TYPE_FULL_SENSOR then
    let head id := prefix ++ type ++ text " sensor " ++ id ++ text " " ++ desc ++ text " " ++ direction e in
    if et =? 1 then
      id ← rec_string sdr 43;
      Ok (Some (ThresholdLine LOG_NOTICE (head id)
        (if (data0 .>> 6) .& 3 =? 1 then Some (se_event_data e 1) else None)
        (negb ((data0 .& 0xf) mod 2 =? 0))
        (if (data0 .>> 4) .& 3 =? 1 then Some (se_event_data e 2) else None)
        (default [] (e_rec sdr))))
    else if (0x2 <=? et) && (et <=? 0xc) || (et =? 0x6f) then
      id ← rec_string sdr 43; Ok (Some (TextLine LOG_NOTICE (head id)))
    else if (0x70 <=? et) && (et <=? 0x7f) then
      id ← rec_string sdr 43; Ok (Some (TextLine LOG_NOTICE (head id)))
    else Ok None
  else if e_type sdr =? SDR_RECORD_TYPE_COMPACT_SENSOR then
    id ← rec_string sdr 27;
    Ok (Some (TextLine LOG_NOTICE
      (prefix ++ type ++ text " sensor " ++ id ++ text " - " ++ desc ++ text " " ++ direction e)))
  else Ok (Some (TextLine LOG_NOTICE
      (prefix ++ type ++ text " sensor (0x" ++ hex2 (se_sensor_num e) ++ text ") - " ++ desc))).

(** [log_event] *)
Definition log_event (e : sel_event_record) (c : sdr_cache) : M dev (option evd_line * sdr_cache) :=
  if record_type e =? 0xf0 then
    mret (Some (TextLine LOG_ALERT (prefix ++ text "Linux kernel panic: " ++ c_string (slice e 5 11))), c)
  else if 0xc0 <=? record_type e then
    mret (Some (TextLine LOG_NOTICE (prefix ++ text "IPMI Event OEM Record " ++ hex2 (record_type e))), c)
  else
    type ← ipmi_get_sensor_type intf (se_sensor_type e);
    desc ← ipmi_get_event_desc intf e;
    '(sdr, c) ← ipmi_sdr_find_sdr_bynumtype rebuild_sdrr fuel addr (se_gen_id e) (se_sensor_num e) (se_sensor_type e) c;
    match sdr with
    | None =>
        mret (Some (TextLine LOG_NOTICE (prefix ++ text type ++ text " sensor " ++
          match desc with Some desc => text "- " ++ desc | None => hex2 (se_sensor_num e) end)), c)
    | Some sdr => line ← lift (sensor_line e (text type) desc sdr); mret (line, c)
    end.
End LogEvent.

(** ** Watching the log *)

Section SelWatch.
Context {dev : Type} `{bmc : Bmc dev} `{log : EventLog dev} `{slp : Sleep dev}.

(** A computation of the controller, and the call [eintf->log]. *)
Definition with_dev {A} (m : M dev A) : M (evd dev) A := fun s =>
  match m (evd_dev s) with Ok (a, d) => Ok (a, s <| evd_dev := d |>) | Bad f => Bad f end.

Definition say (n : evd_note) : M (evd dev) unit := modify (fun s => s <| evd_notes := evd_notes s ++ [n] |>).

Definition call_log (e : sel_event_record) : M (evd dev) unit :=
  s ← get;
  '(line, c) ← with_dev (eintf_log e (evd_cache s));
  _ ← modify (fun s => s <| evd_cache := c |>);
  say (Event e line).

(** [selwatch_get_data], which does not look at the length of the answer. *)
Definition selwatch_get_data : M (evd dev) (option sel_data) :=
  rsp ← with_dev (sel_cmd IPMI_CMD_GET_SEL_INFO []);
  match rsp with
  | None => mret None
  | Some r =>
      d ← lift (rsp_bytes r 0 14);
      let entries := buf2short (drop 1 d) in
      pctused ← lift (compute_pctfull entries (buf2short (drop 3 d)));
      mret (Some (mk_sel_data entries pctused (rd d 13 .& 0x80)))
  end.

(** An entry; one that comes with the next identifier 0 is asked for again. *)
Definition get_entry_twice (curr_id : Z) : M (evd dev) (Z * option sel_event_record) :=
  '(next_id, evt) ← with_dev (ipmi_sel_get_std_entry curr_id);
  if next_id =? 0 then with_dev (ipmi_sel_get_std_entry curr_id) else mret (next_id, evt).

(** [selwatch_get_lastid] *)
Fixpoint lastid_loop (fuel : nat) (curr_id next_id : Z) : M (evd dev) Z :=
  match fuel with
  | O => fail OutOfFuel
  | S fuel =>
      if next_id =? 0xffff then mret curr_id else
      let curr_id := next_id in
      '(next_id, _) ← get_entry_twice curr_id;
      if next_id =? 0 then mret curr_id else lastid_loop fuel curr_id next_id
  end.

Definition selwatch_get_lastid (fuel : nat) : M (evd dev) Z :=
  s ← get;
  if selwatch_count s =? 0 then mret 0 else lastid_loop fuel 0 0.

Definition store_data (d : sel_data) : M (evd dev) unit :=
  modify (fun s => s <| selwatch_count := sd_entries d |> <| selwatch_pctused := sd_pctused d |>
    <| selwatch_overflow := sd_overflow d |>).

Definition set_lastid (id : Z) : M (evd dev) unit := modify (fun s => s <| selwatch_lastid := id |>).

(** [selwatch_setup] *)
Definition selwatch_setup (fuel : nat) : M (evd dev) Z :=
  data ← selwatch_get_data;
  match data with
  | None => mret 0
  | Some d =>
      _ ← store_data d;
      id ← selwatch_get_lastid fuel;
      _ ← set_lastid id;
      _ ← (if WARNING_THRESHOLD <=? sd_pctused d then
             say (Note LOG_WARNING (text "SEL buffer used at " ++ CText.dec (sd_pctused d) ++
               text "%, please consider clearing the SEL buffer")) else mret tt);
      _ ← (if negb (sd_overflow d =? 0) then
             say (Note LOG_ALERT (text "SEL buffer overflow, no SEL message can be logged until the SEL buffer is cleared"))
           else mret tt);
      mret 1
  end.

(** [selwatch_check] *)
Definition overflow_note (old new : Z) : M (evd dev) unit :=
  if negb (old =? 0) && (new =? 0) then say (Note LOG_NOTICE (text "SEL overflow is cleared"))
  else if (old =? 0) && negb (new =? 0) then
    say (Note LOG_ALERT (text "SEL buffer overflow, no new SEL message will be logged until the SEL buffer is cleared"))
  else mret tt.

Definition full_note (old new : Z) : M (evd dev) unit :=
  if (WARNING_THRESHOLD <=? new) && (old <? new) then
    say (Note LOG_WARNING (text "SEL buffer is " ++ CText.dec new ++ text "% full, please consider clearing the SEL buffer"))
  else mret tt.

Definition selwatch_check (fuel : nat) : M (evd dev) Z :=
  old ← get;
  data ← selwatch_get_data;
  _ ← match data with
      | None => mret tt
      | Some d =>
          _ ← store_data d;
          _ ← overflow_note (selwatch_overflow old) (sd_overflow d);
          _ ← full_note (selwatch_pctused old) (sd_pctused d);
          if sd_entries d =? 0 then set_lastid 0
          else if sd_entries d <? selwatch_count old then id ← selwatch_get_lastid fuel; set_lastid id
          else mret tt
      end;
  s ← get;
  mret (if selwatch_count old <? selwatch_count s then 1 else 0).

(** The loop of [selwatch_read]: it gives the last identifier that it asked
    for. *)
Fixpoint sel_read_loop (fuel : nat) (lastid curr_id next_id : Z) : M (evd dev) Z :=
  match fuel with
  | O => fail OutOfFuel
  | S fuel =>
      if next_id =? 0xffff then mret curr_id else
      let curr_id := next_id in
      '(next_id, evt) ← get_entry_twice curr_id;
      match evt with
      | Some evt =>
          if next_id =? 0 then mret curr_id else
          _ ← (if negb (curr_id =? lastid) then call_log evt
               else if curr_id =? 0 then call_log evt else mret tt);
          sel_read_loop fuel lastid curr_id next_id
      | None => mret curr_id
      end
  end.

(** [selwatch_read] *)
Definition selwatch_read (fuel : nat) : M (evd dev) Z :=
  s ← get;
  if selwatch_count s =? 0 then mret (-1) else
  id ← sel_read_loop fuel (selwatch_lastid s) 0 (selwatch_lastid s);
  _ ← set_lastid id;
  mret 0.

(** A number of rounds of [selwatch_wait], which has no end. *)
Fixpoint selwatch_wait (fuel : nat) (timeout : Z) (rounds : nat) : M (evd dev) unit :=
  match rounds with
  | O => mret tt
  | S rounds =>
      ready ← selwatch_check fuel;
      _ ← (if 0 <? ready then selwatch_read fuel else mret 0);
      _ ← modify (fun s => s <| evd_dev := slept timeout (evd_dev s) |>);
      selwatch_wait fuel timeout rounds
  end.
End SelWatch.

(** ** Events of the kernel's driver *)

(** What [ioctl(IPMICTL_RECEIVE_MSG_TRUNC)] does: its value, [errno], the type
    of the message and the bytes that it stores. *)
Record recv_result := mk_recv {
  rv_ret : Z;
  rv_errno : Z;
  rv_type : Z;
  rv_data : list Z;
}.

(** What [poll] does. *)
Inductive kernel_poll := PollTimeout | PollError | PollReady (pollin : bool) (r : recv_result).

Definition EINTR : Z := 4.
Definition EMSGSIZE : Z := 90.
Definition IPMI_ASYNC_EVENT_RECV_TYPE : Z := 2.
Definition OPENIPMI_DATA_SIZE : Z := 80.

Section OpenIpmi.
Context {dev : Type} `{bmc : Bmc dev} `{log : EventLog dev} `{stk : Stack}.

(** [openipmi_enable_event_msg_buffer] *)
Definition openipmi_enable_event_msg_buffer : M (evd dev) Z :=
  rsp ← with_dev (sendrecv (mk_rq IPMI_NETFN_APP 0 0x2f 0 []));
  match rsp with
  | None => mret (-1)
  | Some r =>
      if negb (ccode r =? 0) then mret (-1) else
      d ← lift (rsp_bytes r 0 1);
      rsp ← with_dev (sendrecv (mk_rq IPMI_NETFN_APP 0 0x2e 0 [rd d 0 .| 0x04]));
      match rsp with
      | None => mret (-1)
      | Some r => mret (if negb (ccode r =? 0) then -1 else 0)
      end
  end.

(** [openipmi_setup]; [rv] is the value of its [ioctl]. *)
Definition openipmi_setup (rv : Z) : M (evd dev) Z :=
  r ← openipmi_enable_event_msg_buffer;
  if r <? 0 then mret (-1) else mret (if negb (rv =? 0) then -1 else 0).

(** [openipmi_read]: the array [data] holds what was stored and, behind it, what
    was on the stack. *)
Definition openipmi_read (r : recv_result) : M (evd dev) Z :=
  let data := rv_data r ++ uninit (OPENIPMI_DATA_SIZE - zlen (rv_data r)) in
  let truncated := (rv_ret r <? 0) && (rv_errno r =? EMSGSIZE) in
  if (rv_ret r <? 0) && (rv_errno r =? EINTR) then mret 0
  else if (rv_ret r <? 0) && negb truncated then mret (-1)
  else if negb truncated && (zlen (rv_data r) =? 0) then mret (-1)
  else if negb (rv_type r =? IPMI_ASYNC_EVENT_RECV_TYPE) then mret (-1)
  else
    e ← lift (slx data 0 16);
    _ ← call_log e;
    mret 0.

(** [openipmi_wait]: [None] when it still waits after the results of the
    script. *)
Fixpoint openipmi_wait (polls : list kernel_poll) : M (evd dev) (option Z) :=
  match polls with
  | [] => mret None
  | PollTimeout :: polls => openipmi_wait polls
  | PollError :: _ => mret (Some (-1))
  | PollReady pollin r :: polls =>
      _ ← (if pollin then openipmi_read r else mret 0);
      openipmi_wait polls
  end.
End OpenIpmi.

(** ** The program *)

(** The options: the end of the program, or what they have set. *)
Record evd_options := mk_options {
  o_daemon : bool;
  o_timeout : Z;
  o_pidfile : list Z;
}.

#[export] Instance evd_options_rebuild : Rebuild evd_options := fun r =>
  mk_options (o_daemon r) (o_timeout r) (o_pidfile r).

Definition is_word (arg : list Z) (w : string) : bool := strcaseeq arg (text w).

(** [strncpy(pidfile, arg, strlen(arg))] *)
Definition set_pidfile (pidfile arg : list Z) : res (list Z) := or_oob (wr pidfile 0 arg).

(** An argument of the loop of [ipmievd_main]: [inl] for a return. *)
Definition evd_option (arg : list Z) (o : evd_options) : res (Z + evd_options) :=
  if is_word arg "help" then Ok (inl 0) else
  if is_word arg "daemon" then Ok (inr (o <| o_daemon := true |>)) else
  if is_word arg "nodaemon" then Ok (inr (o <| o_daemon := false |>)) else
  if is_word arg "daemon=" then
    let v := drop 7 arg in
    Ok (inr (if is_word v "on" || is_word v "yes" then o <| o_daemon := true |>
             else if is_word v "off" || is_word v "no" then o <| o_daemon := false |> else o))
  else if is_word arg "timeout=" then
    let '(rc, v) := str2int (Some (drop 8 arg)) in
    let timeout := default (o_timeout o) v in
    if negb (rc =? 0) || (timeout <? 0) then Ok (inl (-1)) else Ok (inr (o <| o_timeout := timeout |>))
  else if is_word arg "pidfile=" then
    let v := drop 8 arg in
    if PIDFILE_SIZE <=? zlen v then Ok (inl (-1)) else
    p ← set_pidfile (o_pidfile o) v;
    Ok (inr (o <| o_pidfile := p |>))
  else Ok (inr o).

Fixpoint evd_option_loop (args : list (list Z)) (o : evd_options) : res (Z + evd_options) :=
  match args with
  | [] => Ok (inr o)
  | arg :: args =>
      r ← evd_option arg o;
      match r with inl rc => Ok (inl rc) | inr o => evd_option_loop args o end
  end.

(** The buffer [pidfile] after [memset] and [sprintf]. *)
Definition default_pidfile (devnum : Z) : res (list Z) :=
  or_oob (wr (zeros PIDFILE_SIZE) 0 (text "/run/ipmievd.pid" ++ CText.dec devnum ++ [0])).

(** The entries of [ipmi_event_intf_table]: the operations [setup] and [wait],
    which call [check], [read] and [log] of their own entry. *)
Record event_intf {dev : Type} := mk_eintf {
  ei_name : string;
  ei_setup : M (evd dev) Z;
  ei_wait : Z -> M (evd dev) (option Z);
}.
Arguments event_intf dev : clear implicits.
Arguments mk_eintf {dev}.

(** [ipmi_event_intf_load] *)
Definition ipmi_event_intf_load {dev} (table : list (event_intf dev)) (name : option string) : option (event_intf dev) :=
  match name with
  | None => head table
  | Some name => List.find (fun i => bool_decide (name = ei_name i)) table
  end.

(** What the host does: the value of [intf->open], whether the file of the
    process number exists, and whether it can be written. *)
Record evd_host := mk_host { h_open : Z; h_pid_exists : bool; h_pid_writable : bool }.

(** How the program ends: it returns, it calls [exit], or it still waits. *)
Inductive evd_end := Returns (rc : Z) | Exits (rc : Z) | Waiting.

Section Main.
Context {dev : Type} `{bmc : Bmc dev} `{log : EventLog dev} `{slp : Sleep dev} `{stk : Stack} `{mal : Malloc}.
Context (rebuild_sdrr : sdr_statics -> M dev (Z * sdr_statics)) (fuel : nat) (addr : intf_addr).

(** [openipmi_event_intf] and [selwatch_event_intf]; the rounds that are
    observed and the results of the driver are given. *)
Definition ipmi_event_intf_table (rounds : nat) (ioctl_rv : Z) (polls : list kernel_poll) : list (event_intf dev) := [
  mk_eintf "open" (openipmi_setup ioctl_rv) (fun _ => openipmi_wait polls);
  mk_eintf "sel" (selwatch_setup fuel) (fun timeout => _ ← selwatch_wait fuel timeout rounds; mret None)].

Definition list_cache : M (evd dev) unit :=
  s ← get;
  '(_, c) ← with_dev (ipmi_sdr_list_cache rebuild_sdrr fuel addr (evd_cache s));
  modify (fun s => s <| evd_cache := c |>).

(** [ipmievd_main] *)
Definition ipmievd_main (host : evd_host) (devnum : Z) (eintf : event_intf dev) (args : list (list Z)) : M (evd dev) evd_end :=
  pidfile ← lift (default_pidfile devnum);
  opts ← lift (evd_option_loop args (mk_options true 10 pidfile));
  match opts with
  | inl rc => mret (Returns rc)
  | inr o =>
      if h_open host <? 0 then mret (Returns (-1)) else
      if o_daemon o && h_pid_exists host then mret (Returns (-1)) else
      if o_daemon o && negb (h_pid_writable host) then mret (Exits 1) else
      _ ← list_cache;
      rc ← ei_setup eintf;
      if rc <? 0 then mret (Returns (-1)) else
      w ← ei_wait eintf (o_timeout o);
      mret (match w with
            | None => Waiting
            | Some rc => Returns (if rc <? 0 then -1 else 0)
            end)
  end.

(** The prefix of the lines: [snprintf] into an array of 72 bytes with the size
    that the name of the host needs. *)
Definition EVD_PREFIX_SIZE : Z := 72.
Definition evd_prefix (session : bool) (hostname : option (list Z)) : res (list Z) :=
  if session then
    match hostname with
    | None => Bad OutOfBounds
    | Some h => _ ← or_oob (wr (zeros EVD_PREFIX_SIZE) 0 (h ++ text ": " ++ [0])); Ok (h ++ text ": ")
    end
  else Ok [].
End Main.

(** [ipmievd_sel_main] and [ipmievd_open_main]; the driver entry has no
    prefix. *)
Section Commands.
Context {dev : Type} `{bmc : Bmc dev} `{dec : OemDecoders dev} `{slp : Sleep dev} `{stk : Stack} `{mal : Malloc}.
Context (rebuild_sdrr : sdr_statics -> M dev (Z * sdr_statics)) (fuel : nat) (addr : intf_addr) (intf : sel_intf).
Context (host : evd_host) (devnum : Z) (rounds : nat) (ioctl_rv : Z) (polls : list kernel_poll).

Definition run_daemon (prefix : list Z) (name : string) (args : list (list Z)) : M (evd dev) evd_end :=
  let log : EventLog dev := log_event rebuild_sdrr fuel addr intf prefix in
  match ipmi_event_intf_load (ipmi_event_intf_table (log := log) fuel rounds ioctl_rv polls) (Some name) with
  | None => mret (Returns (-1))
  | Some eintf => ipmievd_main rebuild_sdrr fuel addr host devnum eintf args
  end.

Definition ipmievd_sel_main (session : bool) (hostname : option (list Z)) (args : list (list Z)) : M (evd dev) evd_end :=
  prefix ← lift (evd_prefix session hostname);
  run_daemon prefix "sel" args.

Definition ipmievd_open_main (name : string) (args : list (list Z)) : M (evd dev) evd_end :=
  if bool_decide (name = "open"%string) then run_daemon [] "open" args else mret (Returns (-1)).
End Commands.
