(* ===== verification/EvdProps.v ===== *)
(** * Correctness of the event daemon (src/ipmievd.c)

    What watching a log reports when it grows and is cleared: every entry that
    is added, in order, but the first one of a log that had one entry twice, and
    none of those of a log that is found with fewer entries than before. *)

From stdpp Require Import strings.
From Stdlib Require Import SpecFloat.
From S2P Require Import Prelude Wire Ipmi Intf Session Helper CText Bmc Channel Sdr SdrCache SdrXfer SdrProps SdrSpec.
From S2P Require Import SelTables Sel SelProps SelFiles Evd.

#[local] Open Scope Z_scope.

(** ** What only asks

    [calm m]: [m] leaves [view] of the controller as it is. *)

(** A request that changes the event log. *)
Definition sel_write (req : ipmi_rq) : bool :=
  existsb (Z.eqb (rq_cmd req)) [IPMI_CMD_ADD_SEL_ENTRY; IPMI_CMD_DELETE_SEL_ENTRY; IPMI_CMD_CLEAR_SEL].

Section Keeps.
Context {dev T : Type} {bmc : Bmc dev} (view : dev -> T).

Definition calm {A} (m : M dev A) : Prop := forall d a d', m d = Ok (a, d') -> view d' = view d.

Lemma calm_ret {A} (a : A) : calm (mret a).
Proof. by intros d ? ? [= _ <-]. Qed.

Lemma calm_fail {A} e : calm (A := A) (fail e).
Proof. done. Qed.

Lemma calm_lift {A} (r : res A) : calm (lift r).
Proof. intros d a d'. unfold lift. destruct r; [by intros [= _ <-] | done]. Qed.

Lemma calm_bind {A B} (m : M dev A) (f : A -> M dev B) : calm m -> (forall a, calm (f a)) -> calm (m ≫= f).
Proof. intros Hm Hf d b d'' H. apply M_bind_Ok in H as (a & d' & E & E'). rewrite (Hf a d' b d'' E'). by eapply Hm. Qed.

Hypothesis Hasks : forall req d, sel_write req = false -> view (bmc_answer req d).2 = view d.

Lemma calm_sendrecv req : sel_write req = false -> calm (sendrecv req).
Proof using Hasks. intros H d a d' E. unfold sendrecv in E. injection E as E. rewrite <- (Hasks req d H), E. done. Qed.
#[local] Hint Resolve calm_ret calm_fail calm_lift : core.

(** Walk through a computation. *)
Ltac calm_step :=
  first [ apply calm_ret | apply calm_fail | apply calm_lift
        | apply calm_bind; [| intros]
        | apply calm_sendrecv; unfold get_sdr_rq, sdr_rq; by repeat case_match
        | case_match ].
Ltac calm_all := repeat calm_step.

Context {mal : Malloc}.

Lemma calm_reservation b : calm (ipmi_sdr_get_reservation b).
Proof using Hasks. unfold ipmi_sdr_get_reservation. calm_all. Qed.

Lemma calm_tries n : forall itr, calm (header_tries n itr).
Proof using Hasks.
  induction n as [|n IH]; intros itr; cbn [header_tries]; calm_all; try done. all: apply calm_reservation.
Qed.

Lemma calm_header itr : calm (ipmi_sdr_get_next_header itr).
Proof using Hasks. unfold ipmi_sdr_get_next_header, ipmi_sdr_get_header. calm_all; apply calm_tries. Qed.

Lemma calm_record_loop fuel : forall hdr itr max i data, calm (record_loop fuel hdr itr max i data).
Proof using Hasks.
  induction fuel as [|fuel IH]; intros hdr itr max i data; cbn [record_loop]; cbv zeta; calm_all; try done.
  all: apply calm_reservation.
Qed.

Lemma calm_record fuel addr hdr itr max : calm (ipmi_sdr_get_record fuel addr hdr itr max).
Proof using Hasks. unfold ipmi_sdr_get_record. calm_all; apply calm_record_loop. Qed.

Lemma calm_scan {A} fuel addr visit : forall (acc : A) itr c, calm (sdr_scan fuel addr visit acc itr c).
Proof using Hasks.
  induction fuel as [|fuel IH]; intros acc itr c; cbn [sdr_scan]; calm_all; try done; (apply calm_header || apply calm_record).
Qed.

Context (rebuild : sdr_statics -> M dev (Z * sdr_statics)).
Hypothesis Hrebuild : forall st, calm (rebuild st).

Lemma calm_open c : calm (sdr_open rebuild c).
Proof using Hasks Hrebuild.
  unfold sdr_open, ipmi_sdr_start, sdr_count. calm_all; (done || apply calm_reservation).
Qed.

Lemma calm_find fuel addr f c : calm (sdr_find_first rebuild fuel addr f c).
Proof using Hasks Hrebuild. unfold sdr_find_first. calm_all; (apply calm_open || apply calm_scan). Qed.
End Keeps.

(** ** What watching a log reports

    The log was [l] at the last poll and is [l'] now. *)

(** The entries that were added: those behind the old ones, or all of a log
    that was cleared. *)
Definition added (l l' : list (Z * list Z)) : list (Z * list Z) :=
  if bool_decide (l `prefix_of` l') then drop (length l) l' else l'.

(** The ones of them that the daemon never logs: when it sees fewer entries than
    before, it goes on behind the last of them. *)
Definition missed (l l' : list (Z * list Z)) : list (Z * list Z) :=
  if (length l' <? length l)%nat then added l l' else [].

(** The entries that the daemon takes from the log: those that were added and
    are not missed, with the old one once more when there was just one. *)
Definition taken (l l' : list (Z * list Z)) : list (Z * list Z) :=
  if (length l' <? length l)%nat then []
  else if (length l =? 1)%nat && (1 <? length l')%nat then l' else added l l'.

(** Over all polls. *)
Fixpoint over_polls (f : list (Z * list Z) -> list (Z * list Z) -> list (Z * list Z)) (l : list (Z * list Z))
    (polls : list (list (Z * list Z))) : list (Z * list Z) :=
  match polls with
  | [] => []
  | l' :: polls => f l l' ++ over_polls f l' polls
  end.

(** Between two polls a log grows, or it is cleared and has fewer entries. *)
Definition grown (l l' : list (Z * list Z)) : Prop := l `prefix_of` l' \/ (length l' < length l)%nat.

(** The identifier that the daemon keeps of a log: that of the last record, but
    0 for a log of one record. *)
Definition last_id (l : list (Z * list Z)) : Z :=
  if (length l <=? 1)%nat then 0 else match last l with Some (id, _) => id | None => 0 end.

Lemma added_prefix l l' : l `prefix_of` l' -> added l l' = drop (length l) l'.
Proof. intros H. unfold added. by rewrite bool_decide_eq_true_2. Qed.

(** Of a log that grows or is cleared the daemon takes something only if it is
    longer than it was. *)
Lemma taken_grown l l' : grown l l' ->
  taken l l' = if (length l <? length l')%nat then drop (if (length l =? 1)%nat then O else length l) l' else [].
Proof.
  intros [Hp|Hs]; unfold taken.
  - pose proof (prefix_length _ _ Hp). rewrite (proj2 (Nat.ltb_ge _ _)) by lia. rewrite added_prefix by done.
    destruct (Nat.eqb_spec (length l) 1) as [E|E]; [rewrite E in *|]; cbn [andb].
    + destruct (Nat.ltb_spec 1 (length l')); [done |]. apply drop_ge. lia.
    + destruct (Nat.ltb_spec (length l) (length l')); [done |]. apply drop_ge. lia.
  - rewrite (proj2 (Nat.ltb_lt _ _)) by done. by rewrite (proj2 (Nat.ltb_ge _ _)) by lia.
Qed.

(** A log that only grows, and that is never seen with one entry, is taken
    exactly. *)
Lemma taken_exact ls : forall l,
  length l <> 1%nat -> Forall (fun l' => length l' <> 1%nat) ls ->
  (forall i a b, (l :: ls) !! i = Some a -> (l :: ls) !! S i = Some b -> a `prefix_of` b) ->
  over_polls taken l ls = drop (length l) (default l (last ls)).
Proof.
  induction ls as [|l' ls IH]; intros l Hl Hls Hp.
  { cbn. by rewrite drop_all. }
  apply Forall_cons in Hls as [Hl' Hls]. cbn [over_polls]. rewrite (IH l' Hl' Hls).
  2: { exact (fun i => Hp (S i)). }
  destruct (Hp 0%nat l l' eq_refl eq_refl) as [more E].
  assert (exists more', default l' (last ls) = l' ++ more') as [more' El].
  { clear IH Hls. cut (forall l', (forall i a b, (l' :: ls) !! i = Some a -> (l' :: ls) !! S i = Some b -> a `prefix_of` b) ->
      exists more', default l' (last ls) = l' ++ more').
    { intros H. apply H. exact (fun i => Hp (S i)). }
    clear. induction ls as [|x ls IH]; intros l' Hp; [by exists []; rewrite app_nil_r |].
    rewrite last_cons. destruct (IH x (fun i => Hp (S i))) as [m Em].
    destruct (Hp 0%nat l' x eq_refl eq_refl) as [m' ->]. exists (m' ++ m). rewrite app_assoc, <- Em.
    by destruct (last ls). }
  replace (default l (last (l' :: ls))) with (default l' (last ls)) by (rewrite last_cons; by destruct (last ls)).
  rewrite taken_grown by (left; by exists more).
  rewrite El, drop_app_length, E, (proj2 (Nat.eqb_neq _ _)) by done.
  rewrite length_app, <- app_assoc. destruct more as [|x more].
  - rewrite (proj2 (Nat.ltb_ge _ _)) by (cbn; lia). by rewrite drop_app_length.
  - rewrite (proj2 (Nat.ltb_lt _ _)) by (cbn; lia). by rewrite !drop_app_length.
Qed.

(** ** The law of a watched log

    [now] counts the pauses of the daemon; the log after [i] of them is
    [history i]. *)
Class SelWatched {dev : Type} {bmc : Bmc dev} {slp : Sleep dev} (history : nat -> list (Z * list Z)) (now : dev -> nat) := {
  w_asks : forall req d, sel_write req = false -> now (bmc_answer req d).2 = now d;
  w_sleeps : forall t d, now (slept t d) = S (now d);
  w_grown : forall i, grown (history i) (history (S i));
  w_unique : forall i, NoDup (history i).*1;
  w_fill : forall d r d', bmc_answer (storage_rq IPMI_CMD_GET_SEL_INFO []) d = (Some r, d') ->
    is_Some (match compute_pctfull (zlen (history (now d))) (buf2short (slice (rs_data r) 3 2)) with Ok p => Some p | Bad _ => None end);
}.

(** The law of [eintf->log]: in a state of the sensors that [inv] describes it
    prints a line for the events of [prints]. *)
Class LogKeeps {dev : Type} {bmc : Bmc dev} {slp : Sleep dev} {log : EventLog dev} (now : dev -> nat)
    (inv : sdr_cache -> dev -> Prop) (prints : sel_event_record -> bool) := {
  lk_logs : forall e c d, inv c d -> exists line c' d', eintf_log e c d = Ok ((line, c'), d') /\
    bool_decide (is_Some line) = prints e /\ inv c' d' /\ now d' = now d;
  lk_asks : forall c d cmd data, cmd = IPMI_CMD_GET_SEL_INFO \/ cmd = IPMI_CMD_GET_SEL_ENTRY -> inv c d ->
    inv c (bmc_answer (storage_rq cmd data) d).2;
  lk_sleeps : forall t c d, inv c d -> inv c (slept t d);
}.

(** The events of which a line was printed. *)
Definition events (ns : list evd_note) : list sel_event_record :=
  omap (fun n => match n with Event e (Some _) => Some e | _ => None end) ns.

Lemma events_app a b : events (a ++ b) = events a ++ events b.
Proof. apply omap_app. Qed.

Section Watching.
Context {dev : Type} {bmc : Bmc dev} {prt : SelPrint dev} {log : EventLog dev} {slp : Sleep dev}.
Context (history : nat -> list (Z * list Z)) (now : dev -> nat) (inv : sdr_cache -> dev -> Prop) (prints : sel_event_record -> bool).
Context {law : SelLog (fun d => history (now d))} {watched : SelWatched history now} {keeper : LogKeeps now inv prints}.

(** The events of entries of which a line is printed. *)
#[local] Abbreviation lines_of l := (List.filter prints (entries_of l)).

Lemma with_dev_run {A B} (m : M dev A) (f : A -> M (evd dev) B) s a d :
  m (evd_dev s) = Ok (a, d) -> (with_dev m ≫= f) s = f a (s <| evd_dev := d |>).
Proof. intros E. apply M_bind_run. unfold with_dev. by rewrite E. Qed.

(** A request to the log changes the controller as its answer says. *)
Lemma sel_cmd_dev cmd data d r d' : sel_cmd cmd data d = Ok (r, d') -> d' = (bmc_answer (storage_rq cmd data) d).2.
Proof.
  unfold sel_cmd, sendrecv. intros Hm. apply M_bind_Ok in Hm as (a & d1 & E & Hm). injection E as E.
  rewrite E. cbn. by injection Hm as _ <-.
Qed.

Lemma get_entry_dev id d r d' : ipmi_sel_get_std_entry id d = Ok (r, d') ->
  exists data, d' = (bmc_answer (storage_rq IPMI_CMD_GET_SEL_ENTRY data) d).2.
Proof.
  unfold ipmi_sel_get_std_entry. intros H. apply M_bind_Ok in H as (rsp & d1 & E & H). apply sel_cmd_dev in E as ->.
  eexists. revert H. repeat case_match; try (by intros [= _ <-]).
  intros Hm. apply M_bind_Ok in Hm as (b & d2 & E & Hm). unfold lift in E. case_match; [| done]. injection E as _ <-.
  by injection Hm as _ <-.
Qed.

(** What a step keeps and what it logs. *)
Definition counters (s : evd dev) := (selwatch_count s, selwatch_lastid s, selwatch_pctused s, selwatch_overflow s).

Definition logged (s s' : evd dev) (es : list sel_event_record) : Prop :=
  now (evd_dev s') = now (evd_dev s) /\ inv (evd_cache s') (evd_dev s') /\
  events (evd_notes s') = events (evd_notes s) ++ es.

Definition after (s s' : evd dev) (es : list sel_event_record) : Prop := counters s' = counters s /\ logged s s' es.

Lemma logged_refl s : inv (evd_cache s) (evd_dev s) -> logged s s [].
Proof. intros H. unfold logged. by rewrite app_nil_r. Qed.

Lemma logged_trans s1 s2 s3 a b : logged s1 s2 a -> logged s2 s3 b -> logged s1 s3 (a ++ b).
Proof. intros (N & _ & E) (N' & I & E'). split; [congruence |]. split; [done |]. by rewrite E', E, app_assoc. Qed.

Lemma after_refl s : inv (evd_cache s) (evd_dev s) -> after s s [].
Proof. split; [done | by apply logged_refl]. Qed.

Lemma after_trans s1 s2 s3 a b : after s1 s2 a -> after s2 s3 b -> after s1 s3 (a ++ b).
Proof.
  intros (C & L) (C' & L'). split; [congruence | by eapply logged_trans].
Qed.

Lemma after_dev s d : now d = now (evd_dev s) -> inv (evd_cache s) d -> after s (s <| evd_dev := d |>) [].
Proof. intros N I. split; [done |]. unfold logged. cbn. by rewrite app_nil_r. Qed.

#[local] Abbreviation log_of s := (history (now (evd_dev s))).

(** The log is asked for an entry. *)
Lemma entry_run {B} (f : _ -> M (evd dev) B) s i id raw ask :
  inv (evd_cache s) (evd_dev s) -> log_of s !! i = Some (id, raw) -> ask = id \/ ask = 0 /\ i = O ->
  exists s', (get_entry_twice ask ≫= f) s = f (next_id (log_of s) i, Some (entry_of raw)) s' /\ after s s' [].
Proof using law watched keeper.
  intros I Hi Ha.
  destruct (get_entry_run (fun d => history (now d)) (evd_dev s) i id raw ask Hi Ha) as (d' & E & _).
  destruct (get_entry_dev _ _ _ _ E) as (data & Hd).
  exists (s <| evd_dev := d' |>). split.
  - apply M_bind_run. unfold get_entry_twice. rewrite (with_dev_run _ _ _ _ _ E).
    pose proof (next_range (fun d => history (now d)) (evd_dev s) i). by rewrite (proj2 (Z.eqb_neq _ 0)) by lia.
  - apply after_dev; subst d'; [by apply w_asks | apply lk_asks; auto].
Qed.

Lemma log_run s e : inv (evd_cache s) (evd_dev s) -> exists s', call_log e s = Ok (tt, s') /\ after s s' (List.filter prints [e]).
Proof using keeper.
  intros I. destruct (lk_logs e _ _ I) as (line & c' & d' & E & Hline & I' & N).
  eexists. unfold call_log. unfold mbind at 1, M_bind at 1. cbn [get].
  rewrite (with_dev_run _ _ _ _ _ E). split; [reflexivity |]. split; [done |]. unfold logged. cbn. split_and!; try done.
  rewrite events_app, <- Hline. by destruct line.
Qed.

(** The identifier that a walk through the log ends with. *)
Definition end_id (l : list (Z * list Z)) (i : nat) (ask curr : Z) : Z :=
  if (length l <=? i)%nat then curr else if (length l =? S i)%nat then ask
  else match last l with Some (id, _) => id | None => 0 end.

Lemma end_id_step l i ask : (i < length l)%nat -> end_id l (S i) (next_id l i) ask = end_id l i ask ask.
Proof.
  intros Hi. unfold end_id. rewrite (proj2 (Nat.leb_gt (length l) i)) by lia.
  destruct (Nat.eqb_spec (length l) (S i)) as [E|E]; [by rewrite (proj2 (Nat.leb_le _ _)) by lia |].
  rewrite (proj2 (Nat.leb_gt _ _)) by lia. destruct (Nat.eqb_spec (length l) (S (S i))) as [E2|E2]; [| done].
  rewrite last_lookup, E2. cbn [Nat.pred]. unfold next_id.
  destruct (lookup_lt_is_Some_2 l (S i) ltac:(lia)) as [[id raw] ->]. done.
Qed.

#[local] Abbreviation leads_in l i ask := (leads (fun x : list (Z * list Z) => x) l i ask).

Lemma ids_in d i id raw : history (now d) !! i = Some (id, raw) -> 0 < id < 0xffff.
Proof using law. intros E. by destruct (Forall_lookup_1 _ _ _ _ (sel_ids (log := fun d => history (now d)) d) E). Qed.

Lemma lastid_run fuel : forall i ask curr s, inv (evd_cache s) (evd_dev s) -> leads_in (log_of s) i ask ->
  (length (drop i (log_of s)) < fuel)%nat ->
  exists s', lastid_loop fuel curr ask s = Ok (end_id (log_of s) i ask curr, s') /\ after s s' [].
Proof using law watched keeper.
  induction fuel as [|fuel IH]; intros i ask curr s I Hl Hf; [lia |]. cbn [lastid_loop].
  pose proof Hl as Hl'. unfold leads in Hl'. destruct (log_of s !! i) as [[id raw]|] eqn:Ei.
  2: { subst ask. exists s. split; [| by apply after_refl]. apply lookup_ge_None in Ei. unfold end_id.
       by rewrite (proj2 (Nat.leb_le _ _)) by lia. }
  pose proof (ids_in _ _ _ _ Ei). rewrite (proj2 (Z.eqb_neq ask 0xffff)) by lia.
  rewrite (drop_S _ _ _ Ei) in Hf. cbn [length] in Hf. pose proof (lookup_lt_Some _ _ _ Ei) as Hlt.
  edestruct (entry_run (B := Z)) as (s1 & E1 & A1); [exact I | exact Ei | exact Hl' |]. rewrite E1. clear E1.
  pose proof (next_range (fun d => history (now d)) (evd_dev s) i). cbv beta in *.
  rewrite (proj2 (Z.eqb_neq (next_id _ _) 0)) by lia.
  pose proof A1 as (_ & N1 & I1 & _).
  destruct (IH (S i) (next_id (log_of s) i) ask s1 I1) as (s2 & E2 & A2); rewrite ?N1; [apply (leads_next (fun l => l)) | lia |].
  exists s2. rewrite N1, end_id_step in E2 by done. split.
  - rewrite E2. do 2 f_equal. unfold end_id. by rewrite (proj2 (Nat.leb_gt _ _)) by lia.
  - by apply (after_trans _ _ _ [] [] A1).
Qed.

(** The walk of [selwatch_read]: every entry is logged but the one that the
    daemon remembers. *)
Lemma log_walk_run lastid fuel : forall i ask curr s, inv (evd_cache s) (evd_dev s) -> leads_in (log_of s) i ask ->
  (ask <> lastid \/ ask = 0) -> lastid <> 0xffff -> Forall (fun x => x.1 <> lastid) (drop (S i) (log_of s)) ->
  (length (drop i (log_of s)) < fuel)%nat ->
  exists s', sel_read_loop fuel lastid curr ask s = Ok (end_id (log_of s) i ask curr, s') /\
    after s s' (lines_of (drop i (log_of s))).
Proof using law watched keeper.
  induction fuel as [|fuel IH]; intros i ask curr s I Hl Ha Hm Hne Hf; [lia |]. cbn [sel_read_loop].
  pose proof Hl as Hl'. unfold leads in Hl'. destruct (log_of s !! i) as [[id raw]|] eqn:Ei.
  2: { subst ask. exists s. apply lookup_ge_None in Ei. rewrite drop_ge by lia. split; [| by apply after_refl]. unfold end_id.
       by rewrite (proj2 (Nat.leb_le _ _)) by lia. }
  pose proof (ids_in _ _ _ _ Ei). rewrite (proj2 (Z.eqb_neq ask 0xffff)) by lia.
  rewrite (drop_S _ _ _ Ei) in Hf |- *. cbn [length] in Hf. pose proof (lookup_lt_Some _ _ _ Ei) as Hlt.
  edestruct (entry_run (B := Z)) as (s1 & E1 & A1); [exact I | exact Ei | exact Hl' |]. rewrite E1. clear E1.
  pose proof (next_range (fun d => history (now d)) (evd_dev s) i). cbv beta in *.
  rewrite (proj2 (Z.eqb_neq (next_id _ _) 0)) by lia.
  pose proof A1 as (_ & N1 & I1 & _). destruct (log_run s1 (entry_of raw) I1) as (s2 & E2 & A2).
  assert ((if negb (ask =? lastid) then call_log (entry_of raw)
    else if ask =? 0 then call_log (entry_of raw) else mret tt) = call_log (entry_of raw)) as ->.
  { destruct Ha as [Ha| ->]; [by rewrite (proj2 (Z.eqb_neq _ _)) | by case_match]. }
  rewrite (M_bind_run _ _ _ _ _ E2). pose proof A2 as (_ & N2 & I2 & _).
  assert (log_of s2 = log_of s) as L2 by (by rewrite N2, N1).
  destruct (IH (S i) (next_id (log_of s) i) ask s2 I2) as (s3 & E3 & A3); rewrite ?L2; [apply (leads_next (fun l => l)) | | done | | lia |].
  { left. unfold next_id. destruct (log_of s !! S i) as [[id' raw']|] eqn:Es.
    - rewrite (drop_S _ _ _ Es) in Hne. by apply Forall_inv in Hne.
    - done. }
  { by apply (Forall_drop _ 1) in Hne; rewrite drop_drop, Nat.add_1_r in Hne. }
  exists s3. rewrite L2, end_id_step in E3 by done. split.
  - rewrite E3. do 2 f_equal. unfold end_id. by rewrite (proj2 (Nat.leb_gt _ _)) by lia.
  - rewrite L2 in A3. set (l := drop (S i) (log_of s)) in *. pose proof (after_trans _ _ _ _ _ A2 A3) as A.
    rewrite <- List.filter_app in A. exact (after_trans _ _ _ [] _ A1 A).
Qed.

Lemma say_run n l s : inv (evd_cache s) (evd_dev s) -> exists s', say (Note n l) s = Ok (tt, s') /\ after s s' [].
Proof.
  intros I. eexists. split; [reflexivity |]. split; [done |]. unfold logged. cbn. by rewrite events_app.
Qed.

Lemma notes_run a b s : inv (evd_cache s) (evd_dev s) ->
  (exists s', overflow_note a b s = Ok (tt, s') /\ after s s' []) /\ (exists s', full_note a b s = Ok (tt, s') /\ after s s' []).
Proof.
  intros I. unfold overflow_note, full_note.
  split; repeat case_match; first [by apply say_run | exists s; split; [done | by apply after_refl]].
Qed.

(** Get SEL Info gives the number of entries. *)
Lemma get_data_run s : inv (evd_cache s) (evd_dev s) -> exists pct ovf s',
  selwatch_get_data s = Ok (Some (mk_sel_data (zlen (log_of s)) pct ovf), s') /\ after s s' [].
Proof using law watched keeper.
  intros I. destruct (sel_get_info (log := fun d => history (now d)) (evd_dev s)) as (r & d' & rest & E & Hc & Hr & Hz & _).
  destruct (w_fill _ _ _ E) as [p Hp]. destruct (compute_pctfull _ _) as [p'|] eqn:Ep in Hp; [| done]. clear Hp.
  pose proof (sel_size (log := fun d => history (now d)) (evd_dev s)) as Hs.
  set (l := log_of s) in *. pose proof (zlen_nonneg l).
  unfold selwatch_get_data. rewrite (with_dev_run _ _ _ _ _ (sel_cmd_run _ _ _ _ _ E Hc)). cbv match.
  assert (zlen ([0x51] ++ htoipmi16 (zlen l) ++ rest) = 14) as H14 by (rewrite !zlen_app, Hz; done).
  rewrite (carries_bytes r _ Hr 0 14), lift_Ok_bind by lia. rewrite slice_all by lia.
  assert (buf2short (drop 1 ([0x51] ++ htoipmi16 (zlen l) ++ rest)) = zlen l) as ->.
  { change (drop 1 _) with (htoipmi16 (zlen l) ++ rest). change (buf2short (htoipmi16 (zlen l) ++ rest)) with
      (u16 (ipmi16toh (htoipmi16 (zlen l) ++ rest))). rewrite ipmi16toh_htoipmi16 by (unfold is_u16; lia).
    apply u16_small. unfold is_u16. lia. }
  destruct Hr as (_ & rest0 & Er). rewrite Er, slice_app_l in Ep by lia.
  destruct rest as [|f0 [|f1 rest]]; try (unfold zlen in Hz; cbn [length] in Hz; lia).
  change (buf2short (slice _ 3 2)) with (buf2short (f0 :: f1 :: rest)) in Ep.
  change (drop 3 _) with (f0 :: f1 :: rest). rewrite Ep, lift_Ok_bind.
  do 3 eexists. split; [reflexivity |].
  pose proof (w_asks (storage_rq IPMI_CMD_GET_SEL_INFO []) (evd_dev s) eq_refl) as N.
  pose proof (lk_asks _ _ IPMI_CMD_GET_SEL_INFO [] (or_introl eq_refl) I) as I'. rewrite E in N, I'.
  by apply after_dev.
Qed.

(** The daemon has seen the log [l]. *)
Definition seen (l : list (Z * list Z)) (s : evd dev) : Prop :=
  selwatch_count s = zlen l /\ selwatch_lastid s = last_id l.

(** Run the first step, of which [H] says what it does. *)
Ltac step H := rewrite (M_bind_run _ _ _ _ _ H).

Lemma store_data_run d s : inv (evd_cache s) (evd_dev s) -> exists s', store_data d s = Ok (tt, s') /\
  selwatch_count s' = sd_entries d /\ selwatch_lastid s' = selwatch_lastid s /\ logged s s' [].
Proof. intros I. eexists. split; [reflexivity |]. split; [done |]. split; [done |]. unfold logged. cbn. by rewrite app_nil_r. Qed.

Lemma set_run id s : inv (evd_cache s) (evd_dev s) -> exists s', set_lastid id s = Ok (tt, s') /\
  selwatch_count s' = selwatch_count s /\ selwatch_lastid s' = id /\ logged s s' [].
Proof. intros I. eexists. split; [reflexivity |]. split; [done |]. split; [done |]. unfold logged. cbn. by rewrite app_nil_r. Qed.

Lemma end_id_last l i ask curr : (S i < length l)%nat -> end_id l i ask curr = last_id l.
Proof.
  intros H. unfold end_id, last_id. rewrite (proj2 (Nat.leb_gt _ _)), (proj2 (Nat.eqb_neq _ _)), (proj2 (Nat.leb_gt _ _)) by lia.
  done.
Qed.

(** A walk from the start ends with the identifier that is kept. *)
Lemma end_id_first l : l <> [] -> end_id l 0 0 0 = last_id l.
Proof. intros H. destruct l as [|x [|y l]]; [done | done |]. apply end_id_last. cbn. lia. Qed.

Lemma leads_first l : l <> [] -> leads_in l 0 0.
Proof. destruct l as [|[id raw] l]; [done |]. by right. Qed.

Lemma get_lastid_run fuel s : inv (evd_cache s) (evd_dev s) -> selwatch_count s = zlen (log_of s) ->
  (length (log_of s) < fuel)%nat ->
  exists s', selwatch_get_lastid fuel s = Ok (last_id (log_of s), s') /\ after s s' [].
Proof using law watched keeper.
  intros I Hc Hf. unfold selwatch_get_lastid. unfold mbind at 1, M_bind at 1. cbn [get]. rewrite Hc.
  destruct (decide (log_of s = [])) as [El|El].
  { rewrite El. exists s. split; [done | by apply after_refl]. }
  rewrite (proj2 (Z.eqb_neq _ 0)) by (destruct (log_of s); [done | unfold zlen; cbn [length]; lia]).
  destruct (lastid_run fuel 0 0 0 s I) as (s' & E & A); [by apply leads_first | by rewrite drop_0 |].
  exists s'. by rewrite E, end_id_first.
Qed.

(** Steps that log nothing follow each other. *)
Ltac chain_logged := first [eassumption | eapply (logged_trans _ _ _ [] []); [eassumption | chain_logged]].

Lemma setup_run fuel s : inv (evd_cache s) (evd_dev s) -> (length (log_of s) < fuel)%nat ->
  exists s', selwatch_setup fuel s = Ok (1, s') /\ seen (log_of s) s' /\ logged s s' [].
Proof using law watched keeper.
  intros I Hf. unfold selwatch_setup. destruct (get_data_run s I) as (pct & ovf & s1 & E1 & C1 & L1). step E1.
  pose proof L1 as (N1 & I1 & _). destruct (store_data_run (mk_sel_data (zlen (log_of s)) pct ovf) s1 I1) as (s2 & E2 & Hc2 & _ & L2).
  step E2. pose proof L2 as (N2 & I2 & _). assert (log_of s2 = log_of s) as El by (by rewrite N2, N1).
  destruct (get_lastid_run fuel s2 I2) as (s3 & E3 & C3 & L3); [by rewrite El | by rewrite El |]. step E3. rewrite El.
  pose proof L3 as (_ & I3 & _). destruct (set_run (last_id (log_of s)) s3 I3) as (s4 & E4 & Hc4 & Hl4 & L4). step E4.
  pose proof L4 as (_ & I4 & _). cbn [sd_pctused sd_overflow].
  assert (forall (b : bool) n t s, inv (evd_cache s) (evd_dev s) ->
    exists s', (if b then say (Note n t) else mret tt) s = Ok (tt, s') /\ after s s' []) as Hsay.
  { intros [] n t x Ix; [by apply say_run | exists x; split; [done | by apply after_refl]]. }
  match goal with |- context[(if WARNING_THRESHOLD <=? pct then say (Note ?n ?t) else _) ≫= _] =>
    destruct (Hsay (WARNING_THRESHOLD <=? pct) n t s4 I4) as (s5 & E5 & C5 & L5) end.
  step E5. pose proof L5 as (_ & I5 & _).
  match goal with |- context[(if negb (ovf =? 0) then say (Note ?n ?t) else _) ≫= _] =>
    destruct (Hsay (negb (ovf =? 0)) n t s5 I5) as (s6 & E6 & C6 & L6) end.
  step E6. exists s6. split; [done |]. split.
  - unfold counters in *. unfold seen. cbn [sd_entries] in Hc2. split; congruence.
  - chain_logged.
Qed.

Lemma poll_check_run fuel l s : inv (evd_cache s) (evd_dev s) -> (length (log_of s) < fuel)%nat -> seen l s -> grown l (log_of s) ->
  exists s', selwatch_check fuel s = Ok (if (length l <? length (log_of s))%nat then 1 else 0, s') /\
    selwatch_count s' = zlen (log_of s) /\
    selwatch_lastid s' = (if (length l <? length (log_of s))%nat then last_id l else last_id (log_of s)) /\ logged s s' [].
Proof using law watched keeper.
  intros I Hf [Hc Hl] Hg. unfold selwatch_check. unfold mbind at 1, M_bind at 1. cbn [get].
  destruct (get_data_run s I) as (pct & ovf & s1 & E1 & C1 & L1). step E1. clear E1.
  pose proof L1 as (N1 & I1 & _). set (data := mk_sel_data _ _ _). destruct (store_data_run data s1 I1) as (s2 & E2 & Hc2 & Hl2 & L2).
  pose proof L2 as (N2 & I2 & _).
  destruct (proj1 (notes_run (selwatch_overflow s) (sd_overflow data) s2 I2)) as (s3 & E3 & C3 & L3).
  pose proof L3 as (N3 & I3 & _).
  destruct (proj2 (notes_run (selwatch_pctused s) (sd_pctused data) s3 I3)) as (s4 & E4 & C4 & L4).
  pose proof L4 as (N4 & I4 & _).
  assert (logged s s4 []) as L by chain_logged.
  assert (log_of s4 = log_of s) as El by (by rewrite N4, N3, N2, N1).
  assert (selwatch_count s4 = zlen (log_of s) /\ selwatch_lastid s4 = last_id l) as [Hc4 Hl4].
  { unfold counters in *. cbn [sd_entries data] in Hc2. split; congruence. }
  cut (exists s5, (if sd_entries data =? 0 then set_lastid 0
          else if sd_entries data <? selwatch_count s then id ← selwatch_get_lastid fuel; set_lastid id
          else mret tt) s4 = Ok (tt, s5) /\ selwatch_count s5 = zlen (log_of s) /\
          selwatch_lastid s5 = (if (length l <? length (log_of s))%nat then last_id l else last_id (log_of s)) /\ logged s4 s5 []).
  { intros (s5 & E5 & Hc5 & Hl5 & L5). exists s5. split; [| split; [done | split; [done | chain_logged]]].
    unfold mbind at 1, M_bind at 1. step E2. step E3. step E4. rewrite E5. unfold mbind, M_bind. cbn [get].
    rewrite Hc5, Hc. unfold mret, M_ret. do 2 f_equal. unfold zlen. repeat case_match; bool_hyps; (done || lia). }
  cbn [sd_entries data]. rewrite Hc. unfold zlen in *.
  destruct (Z.eqb_spec (Z.of_nat (length (log_of s))) 0) as [E0|E0].
  { destruct (set_run 0 s4 I4) as (s5 & E5 & Hc5 & Hl5 & L5). exists s5. split; [done |]. split; [congruence |]. split; [| done].
    rewrite (proj2 (Nat.ltb_ge _ _)) by lia. rewrite Hl5. destruct (log_of s); [done | cbn in E0; lia]. }
  destruct (Z.ltb_spec (Z.of_nat (length (log_of s))) (Z.of_nat (length l))) as [Hlt|Hge].
  { destruct (get_lastid_run fuel s4 I4) as (s5 & E5 & C5 & L5); [by rewrite El | by rewrite El |]. step E5.
    pose proof L5 as (_ & I5 & _). destruct (set_run (last_id (log_of s)) s5 I5) as (s6 & E6 & Hc6 & Hl6 & L6).
    exists s6. rewrite El. split; [done |]. rewrite (proj2 (Nat.ltb_ge _ _)) by lia.
    split; [unfold counters in C5; congruence |]. split; [done | chain_logged]. }
  exists s4. split; [done |]. split; [done |]. split; [| by apply logged_refl]. rewrite Hl4.
  destruct (Nat.ltb_spec (length l) (length (log_of s))); [done |].
  destruct Hg as [[more Em]|Hg]; [| lia]. rewrite Em in *. rewrite length_app in *.
  destruct more; [by rewrite app_nil_r | cbn [length] in *; lia].
Qed.

(** The records behind one have other identifiers. *)
Lemma later_ids d i id raw : history (now d) !! i = Some (id, raw) -> Forall (fun x => x.1 <> id) (drop (S i) (history (now d))).
Proof using watched.
  intros Hi. apply Forall_lookup_2. intros j [id' raw'] Hj. rewrite lookup_drop in Hj. cbn. intros ->.
  pose proof (NoDup_lookup _ i (S i + j) id (w_unique (now d))) as H.
  rewrite !list_lookup_fmap, Hi, Hj in H. specialize (H eq_refl eq_refl). lia.
Qed.

Lemma walk_run fuel l s : inv (evd_cache s) (evd_dev s) -> (length (log_of s) < fuel)%nat ->
  l `prefix_of` log_of s -> (length l < length (log_of s))%nat ->
  exists s', sel_read_loop fuel (last_id l) 0 (last_id l) s = Ok (last_id (log_of s), s') /\
    after s s' (lines_of (taken l (log_of s))).
Proof using law watched keeper.
  intros I Hf Hp Hlt. rewrite taken_grown by (by left). destruct Hp as [more Em]. rewrite (proj2 (Nat.ltb_lt _ _)) by done.
  assert (log_of s <> []) as Hne by (intros E; rewrite E in Hlt; cbn in Hlt; lia).
  destruct (decide (length l <= 1)%nat) as [H1|H1].
  - assert (last_id l = 0) as -> by (unfold last_id; by rewrite (proj2 (Nat.leb_le _ _))).
    replace (if (length l =? 1)%nat then 0%nat else length l) with 0%nat by (case_match; bool_hyps; lia).
    destruct (log_walk_run 0 fuel 0 0 0 s I) as (s' & E & A); [by apply leads_first | by right | lia | | by rewrite drop_0 |].
    { apply Forall_lookup_2. intros j [id raw] Hj. rewrite lookup_drop in Hj. pose proof (ids_in _ _ _ _ Hj). cbn. lia. }
    exists s'. by rewrite E, end_id_first.
  - rewrite (proj2 (Nat.eqb_neq _ _)) by lia. destruct fuel as [|fuel]; [lia |]. set (i := pred (length l)).
    destruct (lookup_lt_is_Some_2 l i ltac:(lia)) as [[id raw] Hi].
    assert (log_of s !! i = Some (id, raw)) as Hi' by (rewrite Em; by apply lookup_app_l_Some).
    assert (last_id l = id) as -> by (unfold last_id; rewrite (proj2 (Nat.leb_gt _ _)), last_lookup by lia; fold i; by rewrite Hi).
    pose proof (ids_in _ _ _ _ Hi') as Hid. pose proof (later_ids _ _ _ _ Hi') as Hlater.
    cbn [sel_read_loop]. rewrite (proj2 (Z.eqb_neq id 0xffff)) by lia.
    edestruct (entry_run (B := Z)) as (s1 & E1 & A1); [exact I | exact Hi' | by left |]. rewrite E1. clear E1.
    pose proof (next_range (fun d => history (now d)) (evd_dev s) i) as Hnx. cbv beta in *.
    rewrite (proj2 (Z.eqb_neq (next_id _ _) 0)), Z.eqb_refl, (proj2 (Z.eqb_neq id 0)) by lia.
    cbn [negb]. rewrite (M_bind_run (mret tt) _ s1 tt s1) by done.
    pose proof A1 as (_ & N1 & I1 & _). assert (length l = S i) as El by lia. rewrite El.
    destruct (log_walk_run id fuel (S i) (next_id (log_of s) i) id s1 I1) as (s2 & E2 & A2); rewrite ?N1.
    { apply (leads_next (fun x => x)). }
    { left. destruct (lookup_lt_is_Some_2 (log_of s) (S i) ltac:(lia)) as [[id' raw'] Es]. unfold next_id. rewrite Es.
      rewrite (drop_S _ _ _ Es) in Hlater. by apply Forall_inv in Hlater. }
    { lia. }
    { apply (Forall_drop _ 1) in Hlater. by rewrite drop_drop, Nat.add_1_r in Hlater. }
    { rewrite length_drop. lia. }
    exists s2. rewrite N1 in E2, A2. rewrite end_id_step, end_id_last in E2 by lia.
    split; [exact E2 |]. by apply (after_trans _ _ _ [] _ A1).
Qed.

(** A round of the watch. *)
Lemma round_run fuel t l s : inv (evd_cache s) (evd_dev s) -> (length (log_of s) < fuel)%nat -> seen l s -> grown l (log_of s) ->
  exists s', selwatch_wait fuel t 1 s = Ok (tt, s') /\ seen (log_of s) s' /\
    now (evd_dev s') = S (now (evd_dev s)) /\ inv (evd_cache s') (evd_dev s') /\
    events (evd_notes s') = events (evd_notes s) ++ lines_of (taken l (log_of s)).
Proof using law watched keeper.
  intros I Hf Hs Hg. cbn [selwatch_wait].
  destruct (poll_check_run fuel l s I Hf Hs Hg) as (s1 & E1 & Hc1 & Hl1 & L1). step E1. pose proof L1 as (N1 & I1 & V1).
  assert (exists s2, (if 0 <? (if (length l <? length (log_of s))%nat then 1 else 0) then selwatch_read fuel else mret 0) s1 =
    Ok (if (length l <? length (log_of s))%nat then 0 else 0, s2) /\ seen (log_of s) s2 /\
    logged s1 s2 (lines_of (taken l (log_of s)))) as (s2 & E2 & S2 & N2 & I2 & V2).
  { destruct (Nat.ltb_spec (length l) (length (log_of s))) as [Hlt|Hge].
    - change (0 <? 1) with true. cbv match. unfold selwatch_read. unfold mbind at 1, M_bind at 1. cbn [get].
      rewrite Hc1, Hl1. rewrite (proj2 (Z.eqb_neq _ 0)) by (unfold zlen; lia).
      destruct Hg as [Hp|Hp]; [| lia].
      destruct (walk_run fuel l s1 I1) as (s2 & E2 & C2 & L2); rewrite ?N1; try done. step E2. rewrite N1 in L2 |- *.
      pose proof L2 as (_ & I2 & _). destruct (set_run (last_id (log_of s)) s2 I2) as (s3 & E3 & Hc3 & Hl3 & L3). step E3.
      exists s3. split; [done |]. split; [split; [unfold counters in C2; congruence | done] |].
      rewrite <- (app_nil_r (List.filter _ _)). by eapply logged_trans.
    - exists s1. split; [done |]. split; [by split |]. rewrite taken_grown, (proj2 (Nat.ltb_ge _ _)) by done.
      by apply logged_refl. }
  step E2. eexists. split; [reflexivity |]. cbn. split; [exact S2 |]. rewrite w_sleeps. split; [congruence |].
  split; [by apply lk_sleeps |]. etransitivity; [exact V2 | by rewrite V1, app_nil_r].
Qed.

Lemma wait_S fuel t rounds s s1 : selwatch_wait fuel t 1 s = Ok (tt, s1) ->
  selwatch_wait fuel t (S rounds) s = selwatch_wait fuel t rounds s1.
Proof.
  cbn [selwatch_wait]. intros E. apply M_bind_Ok in E as (ready & s2 & E1 & E). step E1.
  apply M_bind_Ok in E as (rc & s3 & E2 & E). step E2. by injection E as <-.
Qed.

Lemma wait_run fuel t rounds : (forall i, (length (history i) < fuel)%nat) -> forall l s,
  inv (evd_cache s) (evd_dev s) -> seen l s -> grown l (log_of s) ->
  exists s', selwatch_wait fuel t rounds s = Ok (tt, s') /\
    events (evd_notes s') = events (evd_notes s) ++ lines_of (over_polls taken l (map history (seq (now (evd_dev s)) rounds))).
Proof using law watched keeper.
  intros Hf. induction rounds as [|rounds IH]; intros l s I Hs Hg; [by exists s; rewrite app_nil_r |].
  destruct (round_run fuel t l s I (Hf _) Hs Hg) as (s1 & E1 & S1 & N1 & I1 & V1).
  destruct (IH (log_of s) s1 I1 S1) as (s2 & E2 & V2); [rewrite N1; apply w_grown |].
  exists s2. split.
  - by rewrite (wait_S _ _ _ _ _ E1).
  - rewrite V2, V1, N1, <- app_assoc. cbn [seq map over_polls]. unfold entries_of. by rewrite map_app, List.filter_app.
Qed.
End Watching.

(** ** The law holds of [log_event] *)

Lemma rec_string_runs r off : 0 <= off <= r_len r -> exists t, rec_string (SdrProps.entry_of r) off = Ok t.
Proof.
  intros H. unfold rec_string. cbn [SdrProps.entry_of new_entry e_rec]. unfold r_len, zlen in H.
  rewrite drop_app_le by lia. rewrite (proj2 (existsb_exists _ _)); [by eexists |].
  exists 0. split; [apply in_or_app; right; by left | done].
Qed.

(** The types of events that [log_event] knows when it finds a full record of
    the sensor. *)
Definition known_type (e : sel_event_record) : bool :=
  let et := se_event_type e in (et =? 1) || (0x2 <=? et) && (et <=? 0xc) || (et =? 0x6f) || (0x70 <=? et) && (et <=? 0x7f).

(** Whether [log_event] prints a line, with the sensors of [repo]. *)
Definition line_printed (repo : list sdr_rec) (e : sel_event_record) : bool :=
  (0xc0 <=? record_type e) ||
  match List.find (holds (match_numtype (se_gen_id e) (se_sensor_num e) (se_sensor_type e))) (entries repo) with
  | Some sdr => negb (e_type sdr =? SDR_RECORD_TYPE_FULL_SENSOR) || known_type e
  | None => true
  end.

Lemma sensor_line_runs prefix e type desc r : rec_valid r -> exists line, sensor_line prefix e type desc (SdrProps.entry_of r) = Ok line /\
  bool_decide (is_Some line) = negb (r_type r =? SDR_RECORD_TYPE_FULL_SENSOR) || known_type e.
Proof.
  intros Hv. unfold sensor_line, known_type. change (e_type (SdrProps.entry_of r)) with (r_type r).
  destruct (Z.eqb_spec (r_type r) SDR_RECORD_TYPE_FULL_SENSOR) as [E|E].
  { assert (43 <= r_len r) as Hl by (apply (named_len r 42 43 Hv); by rewrite E).
    destruct (rec_string_runs r 43 ltac:(lia)) as [t Et]. rewrite Et.
    cbn [mbind res_bind negb orb]. destruct (se_event_type e =? 1); [by eexists |].
    destruct ((0x2 <=? se_event_type e) && (se_event_type e <=? 0xc)), (se_event_type e =? 0x6f),
      ((0x70 <=? se_event_type e) && (se_event_type e <=? 0x7f)); by eexists. }
  destruct (Z.eqb_spec (r_type r) SDR_RECORD_TYPE_COMPACT_SENSOR) as [E2|E2]; [| by eexists].
  assert (27 <= r_len r) as Hl by (apply (named_len r 26 27 Hv); by rewrite E2).
  destruct (rec_string_runs r 27 ltac:(lia)) as [t Et]. rewrite Et. by eexists.
Qed.

(** What the daemon needs of the controller's sensors: requests to the log and
    the pauses do not use up their patience, and the vendor's decoder is quiet. *)
Class SensorsWatched {dev : Type} {bmc : Bmc dev} {dec : OemDecoders dev} {slp : Sleep dev} (now : dev -> nat)
    (patience : dev -> Z -> nat) := {
  sw_names : SelNames (fun d => (now d, patience d));
  sw_asks : forall cmd data d, cmd = IPMI_CMD_GET_SEL_INFO \/ cmd = IPMI_CMD_GET_SEL_ENTRY ->
    patience (bmc_answer (storage_rq cmd data) d).2 = patience d;
  sw_sleeps : forall t d rid, (patience (slept t d) rid <= patience d rid)%nat;
}.
#[export] Existing Instance sw_names.

Section LogEvents.
Context {dev : Type} {bmc : Bmc dev} {dec : OemDecoders dev} {mal : Malloc} {slp : Sleep dev}.
Context (history : nat -> list (Z * list Z)) (now : dev -> nat) {watched : SelWatched history now}.
Context (bi : bool) (repo : list sdr_rec) (patience : dev -> Z -> nat) {device : SdrRepo bi repo patience}.
Context {sensors : SensorsWatched now patience}.
Context (rebuild : sdr_statics -> M dev (Z * sdr_statics)) (fuel : nat) (addr : intf_addr) (intf : sel_intf) (prefix : list Z).
Hypothesis Hmem : forall n, is_Some (malloc n).
Hypothesis Hrepo : repo_ok repo.
Hypothesis Hrebuild : forall st, calm now (rebuild st).
Hypothesis Hfuel : (511 + length repo <= fuel)%nat.

Abbreviation sensors_inv := (cache_inv bi repo patience addr).

Lemma inv_patient c d d' : (forall rid, (patience d' rid <= patience d rid)%nat) -> sensors_inv c d -> sensors_inv c d'.
Proof.
  intros H (pre & post & itr & ? & ? & ? & ? & ? & ? & Hp). exists pre, post, itr. split_and!; try done.
  specialize (H (reservation itr)). lia.
Qed.

Lemma inv_same c d d' : (now d', patience d') = (now d, patience d) -> sensors_inv c d -> sensors_inv c d'.
Proof. intros [= _ E]. apply inv_patient. by rewrite E. Qed.

Lemma log_event_runs e c d : sensors_inv c d -> exists line c' d',
  log_event rebuild fuel addr intf prefix e c d = Ok ((line, c'), d') /\ bool_decide (is_Some line) = line_printed repo e /\
  sensors_inv c' d' /\ now d' = now d.
Proof using All.
  intros I. unfold log_event, line_printed.
  destruct (Z.eqb_spec (record_type e) 0xf0) as [->|]; [by do 3 eexists |]. destruct (0xc0 <=? record_type e); [by do 3 eexists |].
  cbn [orb].
  destruct (type_quiet (fun d => (now d, patience d)) intf (se_sensor_type e) d) as (type & d1 & E1 & V1 & _).
  rewrite (M_bind_run _ _ _ _ _ E1).
  destruct (desc_quiet (fun d => (now d, patience d)) intf e d1) as (desc & d2 & E2 & V2 & _).
  rewrite (M_bind_run _ _ _ _ _ E2). pose proof (inv_same _ _ _ V2 (inv_same _ _ _ V1 I)) as I2.
  set (f := match_numtype (se_gen_id e) (se_sensor_num e) (se_sensor_type e)).
  assert (record_test f) as Hf by constructor.
  destruct (find_first_run Hmem bi repo patience Hrepo addr rebuild fuel f c d2 Hf I2 Hfuel) as (c' & d3 & E3 & I3).
  pose proof (calm_find now w_asks rebuild Hrebuild fuel addr f c d2 _ d3 E3) as N3.
  assert (now d3 = now d) as N by (rewrite N3; congruence).
  rewrite (M_bind_run _ _ _ _ _ E3). destruct (List.find (holds f) (entries repo)) as [sdr|] eqn:Ef.
  2: { do 3 eexists. split; [reflexivity | done]. }
  apply List.find_some in Ef as [Hin _]. apply in_map_iff in Hin as (r & <- & Hin). apply List.filter_In in Hin as [Hin _].
  pose proof Hrepo as (Hall & _). pose proof (proj1 (List.Forall_forall _ _) Hall r Hin) as (_ & _ & _ & Hv).
  destruct (sensor_line_runs prefix e (text type) desc r Hv) as (line & El & Hline). rewrite El, lift_Ok_bind.
  do 3 eexists. split; [reflexivity | done].
Qed.

Lemma log_event_keeps : LogKeeps (log := log_event rebuild fuel addr intf prefix) now sensors_inv (line_printed repo).
Proof using All.
  constructor.
  - intros e c d. apply log_event_runs.
  - intros c d cmd data Hc. apply inv_patient. intros rid. by rewrite sw_asks.
  - intros t c d. apply inv_patient. intros rid. apply sw_sleeps.
Qed.
End LogEvents.

(** ** Properties *)

Section Property.
Context {dev : Type} {bmc : Bmc dev} {dec : OemDecoders dev} {mal : Malloc} {slp : Sleep dev} {prt : SelPrint dev}.
Context (history : nat -> list (Z * list Z)) (now : dev -> nat).
Context {law : SelLog (fun d => history (now d))} {watched : SelWatched history now}.
Context (bi : bool) (repo : list sdr_rec) (patience : dev -> Z -> nat) {device : SdrRepo bi repo patience}.
Context {sensors : SensorsWatched now patience}.
Context (rebuild : sdr_statics -> M dev (Z * sdr_statics)) (addr : intf_addr) (intf : sel_intf) (prefix : list Z).

End Property.

(** ** A controller for the examples

    It counts the pauses; its log is empty, then has two records, then three.
    Its sensors are those of another example. *)

Definition watch_records : list (Z * list Z) :=
  [(1, [1; 0; 0x02; 1; 2; 3; 4; 0x20; 0; 4; 7; 5; 0x6f; 0x01; 0xff; 0xff]);
   (4, [4; 0; 0x02; 1; 2; 3; 9; 0x20; 0; 4; 0x6; 0x30; 0xef; 0x01; 0xff; 0xff]);
   (9, [9; 0; 0xc1; 1; 2; 3; 9; 0x57; 1; 0; 0x6; 0x30; 0xef; 0x01; 0xff; 0xff])].

Fixpoint log_answer (l : list (Z * list Z)) (ask : Z) : option (list Z) :=
  match l with
  | [] => None
  | (id, raw) :: l' =>
      if (ask =? id) || (ask =? 0) then Some (htoipmi16 (match l' with (id', _) :: _ => id' | [] => 0xffff end) ++ raw)
      else log_answer l' ask
  end.

Record toy_watch := mk_watch { tw_pauses : nat; tw_sdr : toy_sdr }.

Section Toy.
Context (history : nat -> list (Z * list Z)).

Definition toy_watch_bmc : Bmc toy_watch := fun req d =>
  let cmd := rq_cmd req in
  let l := history (tw_pauses d) in
  if cmd =? IPMI_CMD_GET_SEL_INFO then (Some (reply 0 ([0x51] ++ htoipmi16 (zlen l) ++ [0; 0x10] ++ zeros 9)), d)
  else if cmd =? IPMI_CMD_GET_SEL_ENTRY then
    (Some (match log_answer l (ipmi16toh (slice (rq_data req) 2 2)) with Some data => reply 0 data | None => reply 0xcb [] end), d)
  else if cmd =? 1 then (Some (reply 0 (zeros 6 ++ [0xa2; 2; 0] ++ zeros 6)), d)
  else let '(a, t) := toy_sdr_bmc false toy_repo req (tw_sdr d) in (a, mk_watch (tw_pauses d) t).

Definition toy_watch_sleep : Sleep toy_watch := fun _ d => mk_watch (S (tw_pauses d)) (tw_sdr d).
Definition toy_watch_patience (d : toy_watch) : Z -> nat := toy_patience (tw_sdr d).
End Toy.
#[local] Instance toy_watch_print : SelPrint toy_watch := fun _ d => d.
#[local] Instance toy_watch_decoders : OemDecoders toy_watch := fun _ _ => mret (Some (text "vendor")).

Definition watch_history (i : nat) : list (Z * list Z) := match i with O => [] | 1%nat => take 2 watch_records | _ => watch_records end.

#[local] Instance toy_bmc : Bmc toy_watch := toy_watch_bmc watch_history.
#[local] Instance toy_sleep : Sleep toy_watch := toy_watch_sleep.

#[local] Instance toy_watch_log : SelLog (fun d : toy_watch => watch_history (tw_pauses d)).
Proof.
  constructor.
  - intros [[|[|n]] t]; repeat constructor; vm_compute; (reflexivity || discriminate).
  - intros [[|[|n]] t]; vm_compute; reflexivity.
  - intros d. do 3 eexists. split; [reflexivity |]. split; [reflexivity |]. split; [apply carries_reply |]. done.
  - intros [[|[|n]] t] [|[|[|i]]] id raw ask; try discriminate; intros [= <- <-] Ha;
      destruct Ha as [->|[-> ?]]; try discriminate;
      do 2 eexists; (split; [reflexivity |]); (split; [reflexivity |]); (split; [apply carries_reply | done]).
  - done.
Defined.

Lemma toy_asks_sdr cmd dcmd data n t : 2 <= cmd < 0x40 ->
  bmc_answer (sdr_rq false cmd dcmd data) (mk_watch n t) =
  let '(a, t') := toy_sdr_bmc false toy_repo (sdr_rq false cmd dcmd data) t in (a, mk_watch n t').
Proof.
  intros H. unfold bmc_answer, toy_bmc, toy_watch_bmc. change (rq_cmd (sdr_rq false cmd dcmd data)) with cmd.
  unfold IPMI_CMD_GET_SEL_INFO, IPMI_CMD_GET_SEL_ENTRY. by rewrite !(proj2 (Z.eqb_neq _ _)) by lia.
Qed.

#[local] Instance toy_watch_sdr : SdrRepo false toy_repo toy_watch_patience.
Proof.
  pose proof (toy_sdr_repo false toy_repo) as H. constructor.
  - intros [n t]. destruct (@sdr_reserves _ (toy_sdr_bmc false toy_repo) _ _ _ H t) as (r & t' & rid & E & R).
    exists r, (mk_watch n t'), rid. split; [| exact R]. rewrite toy_asks_sdr by done. unfold bmc_answer in E. by rewrite E.
  - intros [n t] rid id off k r next Hr Hi Hl Ho Hk Hz.
    destruct (@sdr_reads _ (toy_sdr_bmc false toy_repo) _ _ _ H t rid id off k r next Hr Hi Hl Ho Hk Hz) as (a & t' & E & R).
    exists a, (mk_watch n t'). split; [rewrite toy_asks_sdr by done; unfold bmc_answer in E; by rewrite E |].
    destruct R as [R|(a' & -> & Hc & R)]; [by left | right]. exists a'. split; [done |]. split; [done |].
    intros r2 [n2 t2] rid2 E2. rewrite toy_asks_sdr in E2 by done.
    destruct (toy_sdr_bmc false toy_repo _ t') as [a2 t3] eqn:E3. injection E2 as -> _ ->. by apply R.
Defined.

#[local] Instance toy_watched : SelWatched watch_history tw_pauses.
Proof.
  constructor.
  - intros req [n t] _. unfold bmc_answer, toy_bmc, toy_watch_bmc. cbn [tw_pauses tw_sdr]. repeat case_match; done.
  - done.
  - intros [|[|n]]; left; [by eexists | by exists (drop 2 watch_records) | done].
  - intros [|[|n]]; apply (bool_decide_unpack _); vm_compute; exact I.
  - intros [[|[|n]] t] r d' [= <- _]; vm_compute; by eexists.
Defined.

#[local] Instance toy_sensors : SensorsWatched tw_pauses toy_watch_patience.
Proof.
  constructor.
  - constructor.
    + intros [n t]. set (ids := zeros 6 ++ [0xa2; 2; 0] ++ zeros 6). exists (reply 0 ids), (mk_watch n t), ids.
      split; [reflexivity |]. split; [reflexivity |]. split; [apply carries_reply |]. split; [by vm_compute | done].
    + intros iana e d. do 2 eexists. split; [reflexivity |]. split; [done |]. intros x [= <-]. by apply line_text_b_ok.
  - intros cmd data [n t] [-> | ->]; reflexivity.
  - intros t d rid. done.
Defined.

Definition toy_no_rebuild (st : sdr_statics) : M toy_watch (Z * sdr_statics) := mret (0, st).

Definition toy_evd : evd toy_watch := mk_evd 0 0 0 0 toy_cache (mk_watch 0 (mk_toy 7 2)) [].


(** ** What the daemon does not do *)

(** The first entry of a log is logged a second time with the second one. *)
Example first_entry_twice :
  (let bmc := toy_watch_bmc (fun i => take i watch_records) in
   match (_ ← selwatch_setup (bmc := bmc) 4;
          selwatch_wait (bmc := bmc) (log := log_event (bmc := bmc) toy_no_rebuild 600 toy_intf toy_sel_intf []) 4 10 3) toy_evd with
   | Ok (_, s) => Some (events (evd_notes s))
   | Bad _ => None
   end) = Some (entries_of (take 1 watch_records ++ take 2 watch_records)).
Proof. vm_compute. reflexivity. Qed.

(** A log that is cleared and filled again with fewer entries: they are never
    logged. *)
Definition refilled : list (Z * list Z) := map (fun '(id, raw) => (id + 20, htoipmi16 (id + 20) ++ drop 2 raw)) (take 2 watch_records).

Example refilled_entries_lost :
  (let history i := if (i =? 0)%nat then watch_records else refilled in
   let bmc := toy_watch_bmc history in
   match (_ ← selwatch_setup (bmc := bmc) 4;
          selwatch_wait (bmc := bmc) (log := log_event (bmc := bmc) toy_no_rebuild 600 toy_intf toy_sel_intf []) 4 10 3) toy_evd with
   | Ok (_, s) => Some (events (evd_notes s), over_polls added (history 0%nat) (map history (seq 0 3)), over_polls missed (history 0%nat) (map history (seq 0 3)))
   | Bad _ => None
   end) = Some ([], refilled, refilled).
Proof. vm_compute. reflexivity. Qed.

(** A full record of the sensor is found, and the type of the event is not a
    known one: nothing is printed. *)
Example full_sensor_silent :
  let e := entry_of ([4; 0; 0x02; 1; 2; 3; 4; 0x20; 0; 1; 7; 5; 0x0d; 0x01; 0xff; 0xff]) in
  let r := mk_rec 1 0x51 SDR_RECORD_TYPE_FULL_SENSOR ([0x20; 0; 5] ++ zeros 4 ++ [7; 0x0d] ++ zeros 34) in
  line_printed [r] e = false /\ sensor_line [] e [] None (SdrProps.entry_of r) = Ok None.
Proof. vm_compute. by split. Qed.

(** An entry that cannot be read at a poll is taken for the last one, and is
    not logged when it can be read. *)
Definition unreadable_once : Bmc toy_watch := fun req d =>
  if (rq_cmd req =? IPMI_CMD_GET_SEL_ENTRY) && (ipmi16toh (slice (rq_data req) 2 2) =? 4) && (tw_pauses d =? 1)%nat
  then (None, d) else toy_watch_bmc watch_history req d.

Example unread_entry_lost :
  (let bmc := unreadable_once in
   match (_ ← selwatch_setup (bmc := bmc) 4;
          selwatch_wait (bmc := bmc) (log := log_event (bmc := bmc) toy_no_rebuild 600 toy_intf toy_sel_intf []) 4 10 4) toy_evd with
   | Ok (_, s) => Some (events (evd_notes s))
   | Bad _ => None
   end) = Some (entries_of (take 1 watch_records ++ drop 2 watch_records)).
Proof. vm_compute. reflexivity. Qed.

(** The fill level of a log of 64 KiB has no value: the number of bytes wraps
    to 0. *)
Lemma pct_of_64k entries freespace : entries <> 0 -> u16 (freespace + u16 (entries * 16)) = 0 ->
  compute_pctfull entries freespace = Bad Undefined.
Proof.
  intros He Hf. unfold compute_pctfull. rewrite (proj2 (Z.eqb_neq _ _)), Hf by done.
  change (double_of 0) with (S754_zero false). change (double_of 100) with (S754_finite false 7036874417766400 (-46)).
  by destruct (double_of (u16 (entries * 16))) as [[]|[]| |[]].
Qed.

Example pct_examples : map (fun '(e, f) => compute_pctfull e f) [(0, 100); (100, 1600); (29, 1136); (1, 65520); (4096, 0)] =
  [Ok 0; Ok 50; Ok 28; Bad Undefined; Bad Undefined].
Proof. vm_compute. reflexivity. Qed.

(** The options with a value are compared as a whole: with a value they are
    ignored, and without one the time-out is 0 seconds. *)
Definition default_options : evd_options := mk_options true 10 (zeros PIDFILE_SIZE).

Example options_with_values :
  map (fun a => evd_option_loop [text a] default_options) ["timeout=5"; "daemon=off"; "pidfile=/tmp/x"; "timeout="; "nodaemon"]%string =
  [Ok (inr default_options); Ok (inr default_options); Ok (inr default_options); Ok (inr (mk_options true 0 (zeros PIDFILE_SIZE)));
   Ok (inr (mk_options false 10 (zeros PIDFILE_SIZE)))].
Proof. vm_compute. reflexivity. Qed.

(** The name of a host of more than 69 characters overflows the prefix. *)
Example long_hostname : evd_prefix true (Some (replicate 70 97)) = Bad OutOfBounds /\
  evd_prefix true (Some (replicate 69 97)) = Ok (replicate 69 97 ++ text ": ").
Proof. vm_compute. by split. Qed.
